(* ===== verification/_CoqProject ===== *)
-Q . S2P
Prelude.v
Bits.v
Memory.v
FpStatus.v
A64Jit.v
A64Table.v
A64Decoder.v
A64Imm.v
IrOpcodes.v
Ir.v
IrSem.v
IrWf.v
IrExec.v
IrEdit.v
IrFold.v
IrBuild.v
ConstProp.v
IrDce.v
IrArith.v
ConstPropProps.v
ConstPropFlags.v
ConstPropSound.v
GetSet.v
GetSetSem.v
IrErase.v
GetSetSound.v
IrPasses.v
A64Spec.v
IrGuest.v
IrExamples.v
IrHeader.v
IrEmitter.v
A64Visitor.v
A64LoadStore.v
A64Translate.v
EmitLogic.v
A64Rules.v
A64Correct.v
A64CorrectData.v
BitShuffle.v
A64CorrectBits.v
A64CorrectReverse.v
A64CorrectBranch.v
A64CorrectMemory.v
A64CorrectPairs.v
A64Machine.v
A64Blocks.v
A64Examples.v
Oaknut.v
FunctionTraits.v
Trampoline.v
ExecutionContext.v
Marshalling.v
Fibers.v
ExclusiveMonitor.v
ExclusiveAccess.v
Contexts.v
PthreadImpl.v
LibcImpl.v
LibcShim.v
ShimThreads.v
ShimInit.v
ShimNetwork.v
JniTable.v
Jni.v
JniProps.v
JniArrays.v
Audio.v
Classes.v
ClassProps.v
Keyboard.v
MainLoop.v
AppState.v
RpState.v
RpMalloc.v
RpSizeClass.v
RpLogic.v
RpGeometry.v
RpHuge.v
RpTermination.v
