(* ===== verification/Prelude.v ===== *)
(** * Sober: running an Android AArch64 program inside a Linux x86-64 process

    Sober loads the Android build of a game into a Linux process.  The guest's
    AArch64 code is run by the dynarmic just-in-time compiler; whenever the
    guest calls a function of the C library, of JNI, of OpenGL and so on, it
    lands on a _trampoline_, two generated instructions that leave the JIT with
    a supervisor call, and the runtime calls the host's function with the
    arguments laid out for the host's calling convention.  Host code calls back
    into the guest through _fibers_, nested runs of the JIT on the same
    registers.  Each guest thread owns an _execution context_ (a JIT instance,
    a stack, a processor id) that is reference counted, because destructors of
    thread-specific data still run guest code after the start routine returned.

    ** How the parts interact

    <<
      guest code --SVC #(id+16)--> dynarmic --CallSVC / fast call--> handle_call_svc
          ^                          |                                   |
          |            decoder, block cache, registers            trampoline table
          |                          |                                   |
          +---- run_in_fiber --------+------------ host function <-------+
                     |
             execution_context_{init,free,add_ref,sub_ref} <--- pthread_impl
    >>

    ** Files

    - [Prelude]: outcomes of C++ code (value, exception, end of the process,
      undefined behaviour), the state-and-outcome monad [M] with its notation,
      wrap-around arithmetic at a given width, indexed lists, the hint
      databases and tactics.
    - [Bits]: [mcl/bit/bit_field.hpp], the bit-field functions dynarmic uses.
    - [Memory]: the address space guest and host share, as a finite map from
      addresses to bytes, little-endian loads and stores of any width.
    - [FpStatus]: [dynarmic/common/fp/fpcr.h] and [fpsr.h].
    - [A64Jit]: [backend/x64/nzcv_util.h], [a64_jitstate.{h,cpp}],
      [a64_interface.cpp], [frontend/A64/a64_location_descriptor.h],
      [interface/halt_reason.h], the emitter's block table: the guest's
      registers and flags, halting, the code cache and its invalidation, [Run].
      The class [HasJit] is the interface through which the clients use a JIT
      that is a part of their own state.
    - [A64Table], [A64Decoder]: [frontend/A64/decoder/a64.inc] (all rows),
      the visitor declarations of [translate/impl/impl.h],
      [frontend/decoder/{matcher,decoder_detail}.h], [decoder/a64.h].
    - [Oaknut]: the encodings of SVC, RET and YIELD in the oaknut assembler.
    - [FunctionTraits]: [function_traits.hpp], the classification of argument
      and result types.
    - [Trampoline]: [trampoline.cpp], the table of trampolines and the buffer
      of generated code.
    - [ExecutionContext]: [execution_context.{hpp,cpp}]: memory callbacks, the
      conversion of arguments ([handle_call_svc]), the fast calls
      ([GetSupervisorFastCall] and the code dynarmic emits for them), processor
      ids, set-up and tear-down, saved registers, the execution loop, fibers.
      The theorems about it are in [Marshalling] (calls), [Fibers] (saved
      registers, the loop) and [Contexts] (ids, capacity, memory).
    - [PthreadImpl]: [libs/pthread_impl.cpp], guest threads, thread-specific
      data and its destructors.
    - [A64Imm]: [frontend/imm.{h,cpp}] and [DecodeBitMasks], the immediates of the
      translator.
    - [IrOpcodes], [Ir]: dynarmic's intermediate representation, [ir/opcodes.inc],
      [ir/type.*], [ir/value.*], [ir/microinstruction.*], [ir/basic_block.*],
      [ir/terminal.h]: opcodes and their classes, values, instructions with use
      counts and pseudo-operations, blocks.  [ConstProp]: the passes
      [ir/opt/constant_propagation_pass.cpp], [dead_code_elimination_pass.cpp] and
      [naming_pass.cpp].  [GetSet]: [ir/opt/a64_get_set_elimination_pass.cpp].
      [IrPasses]: the passes as [a64_interface.cpp] runs them.  What a block does
      is defined in [IrSem] and, for the guest's registers, [GetSetSem]: the classes
      [IRSem] and [A64Sem] leave the operations on memory, vectors and so on open;
      [IrGuest] is an instance.  [IrWf], [IrExec], [IrEdit], [IrErase], [IrFold],
      [IrBuild] are the lemmas on well-formed blocks and on editing them; the passes
      are proved in [IrDce], [IrArith], [ConstPropProps], [ConstPropFlags],
      [ConstPropSound], [GetSetSound]; [IrHeader] shows that they leave the rest of
      a block alone; [IrExamples] has blocks to run them on.
    - [IrEmitter]: [ir/ir_emitter.*] and [frontend/A64/a64_ir_emitter.*].
      [A64Visitor]: the methods of [TranslatorVisitor] for integer, branch and
      system instructions ([translate/impl/impl.cpp], [data_processing_*.cpp],
      [move_wide.cpp], [a64_branch.cpp], [a64_exception_generating.cpp],
      [system*.cpp]).  [A64LoadStore]: those for loads and stores, of vectors,
      pairs, structures and exclusive ones included ([load_store_*.cpp]).
      [A64Translate]: the methods by their names and
      [frontend/A64/translate/a64_translate.cpp]; methods of other instructions
      are a parameter.  [A64Spec] and [A64Machine] are the reference: what 139
      instructions do to registers and memory after the architecture, over the
      classes [GuestMemory] and [A64Flow] of memories and guests, and a machine
      that decodes and executes them.
      [EmitLogic] is a logic for emitting code: a computation of the translator is
      described by the effect that what it emits has on a run.  [A64Rules] has its
      rules for the emitter, [A64Correct], [A64CorrectData], [A64CorrectBits],
      [A64CorrectReverse] (with [BitShuffle]), [A64CorrectBranch],
      [A64CorrectMemory] and [A64CorrectPairs] the instructions, [A64Blocks] the
      blocks, [A64Examples] code to run.
    - [ExclusiveMonitor], [ExclusiveAccess]: dynarmic's [ExclusiveMonitor] with
      its spin lock, and the code emitted for the exclusive instructions as
      actions that processors interleave.
    - [LibcImpl]: [libs/libc_impl.cpp], callbacks of the C library and of the
      linker into guest code, [setjmp] and [longjmp].
    - [LibcShim], [ShimThreads], [ShimInit], [ShimNetwork]: [vendor/libc-shim],
      the layer between the guest's C library calls and the host's: error and
      flag translation; mutexes and the other synchronisation objects; their first
      use by several threads, cleanup handlers and [pthread_once]; sockets.
    - [JniTable], [Jni], with proofs in [JniProps] and [JniArrays]: [jni.cpp] and
      [jni.hpp], the Java objects, classes and methods the guest sees, and the
      function tables whose entries are trampolines.
    - [Classes], with proofs in [ClassProps]: the classes of [class/] and of
      [create_java_vm] in [main.cpp].  [Audio]: [class/audio_interface.cpp], the
      hand-over of sound between guest threads and the audio thread.
    - [Keyboard]: [keyboard.cpp].  [MainLoop]: the event loop of [main.cpp].
      [AppState]: [app_state.cpp] and the cookies of [main.cpp].
    - [RpState], [RpMalloc], with proofs in [RpSizeClass], [RpLogic],
      [RpGeometry], [RpHuge] and [RpTermination]: [vendor/rpmalloc], the
      allocator that replaces [malloc] in the process.

    ** How the code is modelled

    A C++ function that changes state is a computation in [M S A]: it maps a
    state to an outcome and the state left behind, so that the assignments made
    before a [throw] stay made.  Machine integers are [Z] with the wrap-around
    written out ([u32], [i64], ...).  Memory is one byte map; an access outside
    it is [Stop Undefined].  What the repository does not contain, or only
    emits as machine code, is a parameter: [native] (the host functions, which
    receive their arguments as registers and stack words), [compile] and
    [run_code] (translation of a block and the execution of emitted code),
    with hypotheses only where a theorem names them.

    ** What the theorems show

    - Calls: the slow path follows the AArch64 procedure call standard on one
      side and the System V convention on the other
      ([handle_call_svc_follows_aapcs]); the emitted fast path computes the
      same ([fast_path_equals_slow_path]); how far the two agree for functions
      with an ellipsis ([ellipsis_paths_agree_on_registers]); the converted
      [va_list] yields the guest's arguments ([va_list_conversion]).
    - Trampolines: the table invariant, the generated words decode back to the
      instructions and reach the trampoline they were made for, the exit
      address is shared with none of them, and how many fit.
    - The JIT: decoding through the lookup table is a linear search and finds a
      most specific row; decoded arguments fit their types; invalidated code is
      gone; registers, flags, FPCR and FPSR read back what was written; block
      hashes are unique.
    - Fibers and contexts: a fiber restores the callee-saved registers, also
      when it is left by an exception; the loop returns exactly when the guest
      exits; processor ids are exclusive; at most 64 contexts.
    - Threads: the reference count equals the number of values set plus one
      while the start routine runs; values read back; two defects of key
      deletion.
    - Immediates: the bit masks of logical and bit-field instructions are those of
      the architecture ([decode_bit_masks]); vector immediates; concatenation.
    - Optimisation of blocks: emitting keeps a block well-formed
      ([append_new_inst]); dead code elimination, constant propagation and the
      pass over the registers keep what a block does to every state
      ([dead_code_elimination_sound], [constant_propagation_sound],
      [get_set_elimination_sound]), also one after another ([passes_sound]), under
      conditions that rule out three defects ([what_passes_get_wrong]).
    - Translation: a block translated from code the machine executes does to the
      guest what the machine does to registers and memory, and leaves for the same
      place ([translation_correct]); so does the optimised block
      ([compilation_correct]).  Loads and stores are asserted never to be given an
      encoding that is not allocated, and the decoder does not
      ([decoded_transfers_allocated]).  Instructions the machine does not describe (see
      below) end the scope of these theorems where they are reached.
    - Exclusive accesses: the monitor implements reservations
      ([monitor_refines_reservations]); in the configuration of the program an
      exclusive store is a compare-and-swap with the value read, and no
      increment is lost in any interleaving ([concurrent_increments]).
    - C library: [longjmp] brings the guest back to the [setjmp]; a nested
      [qsort] loses the outer comparison function.
    - libc-shim: which flags pass through ([flag_translations]); what mutexes
      answer on every branch ([mutex_behaviour]) and that concurrent first uses
      agree on one host mutex, which can be seen before it is constructed
      ([first_use_interleaved]); cleanup handlers are a stack, a [pthread_once]
      routine runs once; socket addresses pass through unchanged and the
      resolver's list keeps its representable entries.
    - JNI: every slot of the function table the specification numbers leads to
      the host function of that name ([jni_slots_call_functions]); registered
      methods are found and called; arrays and strings read back, with the
      defects of array regions.  Class stubs: what the guest reads of the battery,
      platform and device objects.
    - Sound: in every interleaving whole chunks are played in order
      ([played_in_order]), but one can be skipped ([chunk_lost]).
    - Event loop: what a frame passes on; the application is started once.
      Cookies: which of them survive a restart.
    - Allocator: the best-fitting size class, recovery of a block from any
      pointer into it, the round trip of mappings, the life of huge blocks, the
      end of the decommit loop, and requests whose size wraps around.

    ** Bounds and fuel

    [execution_loop] runs the guest until it exits, so it takes a number of
    turns; [execution_loop_runs_the_guest] shows that one turn more than there
    are supervisor calls is enough, and that no smaller number is.  All other
    loops of the code are bounded by the data they walk and are structural.
    The decoder's theorems hold for all 32-bit words; the table itself is
    evaluated.
    The spin lock takes a number of attempts; an operation of the monitor that
    finds it free needs one.  The decommit loop of the allocator takes the number
    of page headers plus one, which [heap_page_free_decommit_terminates] shows to
    be enough for every list, circular ones included.  Frames of the event loop
    and schedules of threads are lists of any length; [first_use_interleaved]
    shows seven rounds per thread to be enough.  The walk over cleanup handlers
    takes as many steps as there are handlers.  An identity of the intermediate
    representation refers to an earlier instruction, so the number of instructions
    bounds the walk over identities ([resolve_loop_enough]); [FoldAdd] calls itself
    once more at most, because the second call finds other arguments.  The loop
    of [Translate] takes a number of turns; as many as there are instructions up
    to the end of the block are enough ([translation_correct]).

    ** Not modelled

    Debug-only code (call counting, call logging, the assertion buffers);
    translation of floating-point and vector arithmetic and emission
    of blocks in dynarmic, its polyfill, callback and interpreter-merging passes; the linker;
    windows and graphics, which are calls of SDL and GL; the straight-line
    start-up of [main], a sequence of calls into SDL, the linker and the guest;
    stdio, directories and character tables of libc-shim; JSON parsing; the
    lists of host symbols.

    In the reference machine: CRC32, the flag manipulation instructions CFINV,
    RMIF, AXFlag and XAFlag, MRS and MSR, ISB, loads and stores of structures
    and loads of pairs of 32 or 64 bits into vectors, whose translation is
    modelled but whose effect is not described; RMIF and the like write the flags
    by a part of a word, which the pass over the registers gets wrong
    ([what_passes_get_wrong]).  Semaphores and stat of libc-shim. *)
From Stdlib Require Export Ascii ZArith Lia Sorted.
From stdpp Require Export base gmap strings list list_numbers fin_maps.



Declare Scope word_scope.
Delimit Scope word_scope with word.

(** ** Outcomes of C++ code

    A C++ operation returns normally, leaves by an exception, or ends the
    process: [std::terminate], a failed [assert], or behaviour the language
    leaves undefined (an out-of-range [operator[]], a null dereference).
    [OutOfFuel] is the model's own: the bound given to a loop was too small. *)

Inductive exn : Type :=
| runtime_error (what : string)
| out_of_range (what : string)
| bad_variant_access
| bad_function_call
| length_error (what : string).

Inductive fault : Type :=
| Terminate
| AssertFailed
| Aborted
| Undefined
| OutOfFuel.

Inductive outcome (A : Type) : Type :=
| Ret (a : A)
| Throw (e : exn)
| Stop (f : fault).
Arguments Ret {A} a.
Arguments Throw {A} e.
Arguments Stop {A} f.

(** The state-and-outcome monad.  The state survives an exception, because
    the assignments made before a [throw] stay made. *)
Definition M (S A : Type) : Type := S -> outcome A * S.

Definition ret {S A} (a : A) : M S A := fun s => (Ret a, s).
Definition throw {S A} (e : exn) : M S A := fun s => (Throw e, s).
Definition stop {S A} (f : fault) : M S A := fun s => (Stop f, s).
Definition bind {S A B} (c : M S A) (k : A -> M S B) : M S B :=
  fun s => match c s with
           | (Ret a, s') => k a s'
           | (Throw e, s') => (Throw e, s')
           | (Stop f, s') => (Stop f, s')
           end.
Definition get {S} : M S S := fun s => (Ret s, s).
Definition gets {S A} (f : S -> A) : M S A := fun s => (Ret (f s), s).
Definition put {S} (s : S) : M S unit := fun _ => (Ret tt, s).
Definition modify {S} (f : S -> S) : M S unit := fun s => (Ret tt, f s).

Notation "'let!' x ':=' c 'in' k" := (bind c (fun x => k))
  (at level 10, x binder, c at level 100, k at level 200).
Notation "c ;; k" := (bind c (fun _ => k))
  (at level 100, k at level 200, right associativity).

(** Results that may be exceptions, in sequence. *)
Definition obind {A B} (o : outcome A) (k : A -> outcome B) : outcome B :=
  match o with Ret a => k a | Throw e => Throw e | Stop f => Stop f end.
Notation "'let?' x ':=' c 'in' k" := (obind c (fun x => k)) (at level 10, x name, c at level 100, k at level 200).

(** [assert(b)] of C. *)
Definition assert_ {S} (b : bool) : M S unit :=
  if b then ret tt else stop AssertFailed.

(** A dereference or an indexing that is undefined when there is no object. *)
Definition deref {S A} (o : option A) : M S A :=
  match o with Some a => ret a | None => stop Undefined end.

(** [container.at(i)]: throws when there is no element. *)
Definition at_ {S A} (o : option A) : M S A :=
  match o with Some a => ret a | None => throw (out_of_range "at") end.

(** A sequence of operations run from left to right (a range-for loop). *)
Fixpoint for_each {S A} (l : list A) (f : A -> M S unit) : M S unit :=
  match l with
  | [] => ret tt
  | x :: l' => f x ;; for_each l' f
  end.

(** ** Machine integers

    A w-bit integer is a [Z]; [wrap w] is the conversion to the unsigned type,
    [swrap w] the conversion to the signed one. *)
Definition wrap (w x : Z) : Z := (x mod 2 ^ w)%Z.
Definition swrap (w x : Z) : Z := ((x + 2 ^ (w - 1)) mod 2 ^ w - 2 ^ (w - 1))%Z.
Definition u8 : Z -> Z := wrap 8.
Definition u16 : Z -> Z := wrap 16.
Definition u32 : Z -> Z := wrap 32.
Definition u64 : Z -> Z := wrap 64.
Definition i32 : Z -> Z := swrap 32.
Definition i64 : Z -> Z := swrap 64.

(** Bitwise complement of an unsigned w-bit integer. *)
Definition not_ (w x : Z) : Z := Z.lxor x (Z.ones w).

Definition in_range (w x : Z) : Prop := (0 <= x < 2 ^ w)%Z.

(** Array access with a machine-integer index. *)
Definition nthZ {A} (l : list A) (i : Z) : option A :=
  if (i <? 0)%Z then None else l !! Z.to_nat i.
Definition updZ {A} (l : list A) (i : Z) (x : A) : list A :=
  if (i <? 0)%Z then l else <[Z.to_nat i := x]> l.

Create HintDb sober discriminated.
Create Rewrite HintDb sober.
#[global] Hint Constants Opaque : sober.

(** ** Tactics *)

(** Split on the innermost [if]/[match] of the goal and keep the equation. *)
Ltac case_match_eqn :=
  match goal with
  | |- context [ match ?x with _ => _ end ] =>
      lazymatch x with context [ match _ with _ => _ end ] => fail | _ => idtac end;
      destruct x eqn:?
  end.

(** Turn boolean integer tests of the hypotheses into propositions. *)
Ltac zbool :=
  repeat match goal with
  | H : (_ <? _)%Z = true |- _ => apply Z.ltb_lt in H
  | H : (_ <? _)%Z = false |- _ => apply Z.ltb_ge in H
  | H : (_ <=? _)%Z = true |- _ => apply Z.leb_le in H
  | H : (_ <=? _)%Z = false |- _ => apply Z.leb_gt in H
  | H : (_ =? _)%Z = true |- _ => apply Z.eqb_eq in H
  | H : (_ =? _)%Z = false |- _ => apply Z.eqb_neq in H
  | H : (_ && _)%bool = true |- _ => apply andb_true_iff in H; destruct H
  | H : (_ || _)%bool = false |- _ => apply orb_false_iff in H; destruct H
  | H : negb _ = true |- _ => apply negb_true_iff in H
  | H : negb _ = false |- _ => apply negb_false_iff in H
  end.

(** Run the monadic plumbing of a goal or of the hypotheses. *)
Ltac mrun := cbn [bind ret throw stop get gets put modify deref at_ assert_] in *.

(** ** Generic lemmas *)

Section MonadLaws.
Context {S A B C : Type}.
Implicit Types (c : M S A) (k : A -> M S B) (h : B -> M S C).

Lemma bind_ret_l (a : A) k s : bind (ret a) k s = k a s.
Proof. reflexivity. Qed.

Lemma bind_assoc c k h s :
  bind (bind c k) h s = bind c (fun a => bind (k a) h) s.
Proof. unfold bind. destruct (c s) as [[]]; reflexivity. Qed.

Lemma bind_Ret c k s b s'' :
  bind c k s = (Ret b, s'') <->
  exists a s', c s = (Ret a, s') /\ k a s' = (Ret b, s'').
Proof.
  unfold bind. split.
  - destruct (c s) as [[a|e|f] s'] eqn:E; intros H; try discriminate.
    exists a, s'. auto.
  - intros (a & s' & -> & H). exact H.
Qed.
End MonadLaws.

Lemma bind_ok {S A B} (c : M S A) (k : A -> M S B) s a s' : c s = (Ret a, s') -> bind c k s = k a s'.
Proof. intros H. unfold bind. rewrite H. reflexivity. Qed.

Lemma bind_stop {S A B} (c : M S A) (k : A -> M S B) s f s' : c s = (Stop f, s') -> bind c k s = (Stop f, s').
Proof. intros H. unfold bind. rewrite H. reflexivity. Qed.

(** ** Total correctness

    [wp c Q s]: from [s] the computation [c] returns a value, and [Q] holds of it
    and of the state left behind. *)
Definition wp {S A} (c : M S A) (Q : A -> S -> Prop) (s : S) : Prop :=
  match c s with (Ret a, s') => Q a s' | _ => False end.

Section WpLaws.
Context {S A B : Type}.
Implicit Types (c : M S A) (k : A -> M S B) (s : S).

Lemma wp_ret a Q s : Q a s -> wp (ret a : M S A) Q s.
Proof. exact id. Qed.

Lemma wp_bind c k Q s : wp c (fun a => wp (k a) Q) s -> wp (bind c k) Q s.
Proof. unfold wp, bind. destruct (c s) as [[]]; auto. Qed.

Lemma wp_gets (f : S -> A) Q s : Q (f s) s -> wp (gets f) Q s.
Proof. exact id. Qed.

Lemma wp_modify (f : S -> S) (Q : unit -> S -> Prop) s : Q tt (f s) -> wp (modify f) Q s.
Proof. exact id. Qed.

Lemma wp_deref (o : option A) Q s : (exists a, o = Some a /\ Q a s) -> wp (deref o) Q s.
Proof. intros (a & -> & H). exact H. Qed.

Lemma wp_mono c (Q R : A -> S -> Prop) s : wp c Q s -> (forall a s', Q a s' -> R a s') -> wp c R s.
Proof. unfold wp. destruct (c s) as [[]]; auto. Qed.

Lemma wp_Ret c Q s : wp c Q s <-> exists a s', c s = (Ret a, s') /\ Q a s'.
Proof.
  unfold wp. destruct (c s) as [[a|e|f] s'].
  - split; [eauto|]. intros (? & ? & [= <- <-] & H). exact H.
  - split; [tauto|]. intros (? & ? & [=] & _).
  - split; [tauto|]. intros (? & ? & [=] & _).
Qed.
End WpLaws.

Lemma pow2_pos w : (0 <= w)%Z -> (0 < 2 ^ w)%Z.
Proof. intros. apply Z.pow_pos_nonneg; lia. Qed.

Lemma wrap_range w x : (0 <= w)%Z -> in_range w (wrap w x).
Proof. intros. apply Z.mod_pos_bound, pow2_pos. assumption. Qed.

Lemma wrap_small w x : in_range w x -> wrap w x = x.
Proof. intros. apply Z.mod_small. assumption. Qed.

Lemma wrap_wrap w x : (0 <= w)%Z -> wrap w (wrap w x) = wrap w x.
Proof. intros. apply wrap_small, wrap_range. assumption. Qed.

Lemma swrap_small w x :
  (0 < w)%Z -> (- 2 ^ (w - 1) <= x < 2 ^ (w - 1))%Z -> swrap w x = x.
Proof.
  intros Hw Hx. unfold swrap.
  assert (2 ^ w = 2 * 2 ^ (w - 1))%Z as E.
  { rewrite <- Z.pow_succ_r by lia. f_equal. lia. }
  rewrite Z.mod_small; lia.
Qed.

Lemma swrap_range w x :
  (0 < w)%Z -> (- 2 ^ (w - 1) <= swrap w x < 2 ^ (w - 1))%Z.
Proof.
  intros Hw. unfold swrap.
  assert (2 ^ w = 2 * 2 ^ (w - 1))%Z as E.
  { rewrite <- Z.pow_succ_r by lia. f_equal. lia. }
  pose proof (Z.mod_pos_bound (x + 2 ^ (w - 1)) (2 ^ w) (pow2_pos w ltac:(lia))). lia.
Qed.

Section Indexing.
Context {A : Type}.
Implicit Types (l : list A).

Lemma nthZ_Some l i :
  (0 <= i < Z.of_nat (length l))%Z <-> is_Some (nthZ l i).
Proof.
  unfold nthZ. destruct (Z.ltb_spec i 0).
  - split; [lia | intros [? [=]]].
  - rewrite lookup_lt_is_Some. lia.
Qed.

Lemma nthZ_None l i :
  (i < 0 \/ Z.of_nat (length l) <= i)%Z <-> nthZ l i = None.
Proof.
  unfold nthZ. destruct (Z.ltb_spec i 0).
  - split; [reflexivity | lia].
  - rewrite lookup_ge_None. lia.
Qed.

Lemma nthZ_of_nat l (n : nat) : nthZ l (Z.of_nat n) = l !! n.
Proof. unfold nthZ. rewrite Nat2Z.id. destruct (Z.ltb_spec (Z.of_nat n) 0); [lia|reflexivity]. Qed.

Lemma updZ_of_nat l (n : nat) x : updZ l (Z.of_nat n) x = <[n := x]> l.
Proof. unfold updZ. rewrite Nat2Z.id. destruct (Z.ltb_spec (Z.of_nat n) 0); [lia|reflexivity]. Qed.

Lemma length_updZ l i x : length (updZ l i x) = length l.
Proof. unfold updZ. destruct (i <? 0)%Z; [reflexivity | apply length_insert]. Qed.

Lemma nthZ_updZ_eq l i x :
  (0 <= i < Z.of_nat (length l))%Z -> nthZ (updZ l i x) i = Some x.
Proof.
  intros H. unfold nthZ, updZ. destruct (Z.ltb_spec i 0); [lia|].
  apply list_lookup_insert_eq. lia.
Qed.

Lemma nthZ_updZ_ne l i j x : i <> j -> nthZ (updZ l i x) j = nthZ l j.
Proof.
  intros H. unfold nthZ, updZ.
  destruct (Z.ltb_spec i 0), (Z.ltb_spec j 0); auto.
  apply list_lookup_insert_ne. lia.
Qed.
End Indexing.

#[global] Hint Rewrite @length_updZ @nthZ_of_nat @updZ_of_nat @length_app @length_insert : sober.
