(* ===== verification/Bits.v ===== *)
(** mcl/bit/bit_field.hpp: the bit-field functions dynarmic's registers are
    written with, at the width [w] of their type argument. *)
From S2P Require Import Prelude.
Local Open Scope Z_scope.

Module bit.

(** [ones<count, T>()]. *)
Definition ones (w count : Z) : Z :=
  if count =? 0 then 0 else Z.shiftr (not_ w 0) (w - count).

(** [mask<begin_bit, end_bit, T>()]. *)
Definition mask (w begin_bit end_bit : Z) : Z :=
  wrap w (Z.shiftl (ones w (end_bit - begin_bit + 1)) begin_bit).

Definition get_bits (w begin_bit end_bit value : Z) : Z :=
  Z.shiftr (Z.land value (mask w begin_bit end_bit)) begin_bit.

Definition clear_bits (w begin_bit end_bit value : Z) : Z :=
  Z.land value (not_ w (mask w begin_bit end_bit)).

Definition set_bits (w begin_bit end_bit value new_bits : Z) : Z :=
  let m := mask w begin_bit end_bit in
  Z.lor (Z.land value (not_ w m)) (Z.land (wrap w (Z.shiftl new_bits begin_bit)) m).

Definition get_bit (w bit_position value : Z) : bool :=
  negb (Z.land value (mask w bit_position bit_position) =? 0).

Definition clear_bit (w bit_position value : Z) : Z :=
  Z.land value (not_ w (mask w bit_position bit_position)).

Definition set_bit (w bit_position value : Z) (new_bit : bool) : Z :=
  let m := mask w bit_position bit_position in
  Z.lor (Z.land value (not_ w m)) (if new_bit then m else 0).

(** [sign_extend<bit_count>(value)]: the shift left is on the unsigned type,
    the shift right on the signed one. *)
Definition sign_extend (w bit_count value : Z) : Z :=
  let shift_amount := w - bit_count in
  wrap w (Z.shiftr (swrap w (wrap w (Z.shiftl value shift_amount))) shift_amount).

(** [replicate_element<element_size, T>(value)]: the element size doubles until
    it is the width; [fuel] bounds the number of doublings. *)
Fixpoint replicate_element_loop (fuel : nat) (w element_size value : Z) : Z :=
  match fuel with
  | O => value
  | S fuel' =>
      if element_size =? w then value
      else replicate_element_loop fuel' w (element_size * 2)
             (wrap w (Z.lor value (Z.shiftl value element_size)))
  end.
Definition replicate_element (w element_size value : Z) : Z :=
  replicate_element_loop 8 w element_size value.

(** ** Bit-level specifications *)

Section Specs.
Context (w : Z) (Hw : 0 < w).

Lemma testbit_wrap x i : 0 <= i -> Z.testbit (wrap w x) i = (i <? w) && Z.testbit x i.
Proof.
  intros Hi. unfold wrap. destruct (Z.ltb_spec i w).
  - rewrite Z.mod_pow2_bits_low by lia. reflexivity.
  - rewrite Z.mod_pow2_bits_high by lia. reflexivity.
Qed.

Lemma testbit_ones_lt n i : 0 <= n -> 0 <= i -> Z.testbit (Z.ones n) i = (i <? n).
Proof.
  intros Hn Hi. destruct (Z.ltb_spec i n).
  - apply Z.ones_spec_low. lia.
  - apply Z.ones_spec_high. lia.
Qed.

Lemma ones_eq count : 0 <= count <= w -> ones w count = Z.ones count.
Proof.
  intros H. unfold ones, not_. destruct (Z.eqb_spec count 0) as [->|]; [reflexivity|].
  rewrite Z.lxor_0_l. apply Z.bits_inj'. intros i Hi.
  rewrite Z.shiftr_spec, !testbit_ones_lt by lia.
  destruct (Z.ltb_spec (i + (w - count)) w), (Z.ltb_spec i count); lia.
Qed.

Lemma testbit_mask b e i : 0 <= b <= e -> e < w -> 0 <= i ->
  Z.testbit (mask w b e) i = (b <=? i) && (i <=? e).
Proof.
  intros H1 H2 Hi. unfold mask. rewrite testbit_wrap by lia. rewrite ones_eq by lia.
  rewrite Z.shiftl_spec by lia. destruct (Z.leb_spec b i).
  - rewrite testbit_ones_lt by lia.
    destruct (Z.ltb_spec i w), (Z.ltb_spec (i - b) (e - b + 1)), (Z.leb_spec i e); try reflexivity; lia.
  - rewrite Z.testbit_neg_r by lia. apply andb_false_r.
Qed.

Lemma testbit_not x i : 0 <= i < w -> Z.testbit (not_ w x) i = negb (Z.testbit x i).
Proof.
  intros H. unfold not_. rewrite Z.lxor_spec, testbit_ones_lt by lia.
  destruct (Z.ltb_spec i w); [|lia]. destruct (Z.testbit x i); reflexivity.
Qed.

Lemma testbit_above x i : in_range w x -> w <= i -> Z.testbit x i = false.
Proof.
  intros H Hi. rewrite <- (wrap_small w x H). unfold wrap. apply Z.mod_pow2_bits_high. lia.
Qed.

Lemma in_range_bits x : 0 <= x -> (forall i, w <= i -> Z.testbit x i = false) -> in_range w x.
Proof.
  intros H0 H. assert (x = wrap w x) as ->; [|apply wrap_range; lia].
  apply Z.bits_inj'. intros i Hi. rewrite testbit_wrap by lia.
  destruct (Z.ltb_spec i w); [reflexivity|]. apply H. lia.
Qed.

Lemma testbit_set_bit p v b i : 0 <= p < w -> in_range w v -> 0 <= i ->
  Z.testbit (set_bit w p v b) i = if i =? p then b else Z.testbit v i.
Proof.
  intros Hp Hv Hi. unfold set_bit. rewrite Z.lor_spec, Z.land_spec.
  destruct (Z_lt_le_dec i w) as [Hlt|Hge].
  - rewrite testbit_not by lia. rewrite testbit_mask by lia.
    destruct (Z.eqb_spec i p), (Z.leb_spec p i), (Z.leb_spec i p); try lia;
      destruct b; rewrite ?testbit_mask, ?Z.bits_0 by lia;
      destruct (Z.testbit v i), (Z.leb_spec p i), (Z.leb_spec i p); try lia; reflexivity.
  - rewrite (testbit_above v) by assumption. destruct (Z.eqb_spec i p); [lia|].
    destruct b; rewrite ?testbit_mask, ?Z.bits_0 by lia; [|reflexivity].
    destruct (Z.leb_spec p i), (Z.leb_spec i p); try lia; reflexivity.
Qed.

Lemma get_bit_eq p v : 0 <= p < w -> get_bit w p v = Z.testbit v p.
Proof.
  intros Hp. unfold get_bit.
  destruct (Z.testbit v p) eqn:E.
  - apply negb_true_iff, Z.eqb_neq. intros H0.
    assert (Z.testbit (Z.land v (mask w p p)) p = true) as K.
    { rewrite Z.land_spec, E, testbit_mask by lia. rewrite Z.leb_refl. reflexivity. }
    rewrite H0, Z.bits_0 in K. discriminate.
  - apply negb_false_iff, Z.eqb_eq. apply Z.bits_inj'. intros i Hi.
    rewrite Z.land_spec, testbit_mask, Z.bits_0 by lia.
    destruct (Z.leb_spec p i), (Z.leb_spec i p); rewrite ?andb_false_r; try reflexivity.
    replace i with p by lia. rewrite E. reflexivity.
Qed.

Lemma testbit_get_bits b e v i : 0 <= b <= e -> e < w -> 0 <= i ->
  Z.testbit (get_bits w b e v) i = (i <=? e - b) && Z.testbit v (i + b).
Proof.
  intros H1 H2 Hi. unfold get_bits. rewrite Z.shiftr_spec, Z.land_spec, testbit_mask by lia.
  destruct (Z.leb_spec b (i + b)), (Z.leb_spec (i + b) e), (Z.leb_spec i (e - b)); try lia;
    destruct (Z.testbit v (i + b)); reflexivity.
Qed.

Lemma testbit_set_bits b e v n i : 0 <= b <= e -> e < w -> in_range w v -> 0 <= i ->
  Z.testbit (set_bits w b e v n) i =
  if (b <=? i) && (i <=? e) then Z.testbit n (i - b) else Z.testbit v i.
Proof.
  intros H1 H2 Hv Hi. unfold set_bits.
  rewrite Z.lor_spec, !Z.land_spec, testbit_wrap, testbit_mask, Z.shiftl_spec by lia.
  destruct (Z_lt_le_dec i w) as [Hlt|Hge].
  - rewrite testbit_not, testbit_mask by lia.
    destruct (Z.leb_spec b i), (Z.leb_spec i e), (Z.ltb_spec i w); try lia;
      simpl; destruct (Z.testbit v i), (Z.testbit n (i - b)); reflexivity.
  - rewrite (testbit_above v) by assumption.
    destruct (Z.ltb_spec i w); [lia|]. destruct (Z.leb_spec b i), (Z.leb_spec i e); try lia; reflexivity.
Qed.

Lemma not_nonneg x : 0 <= x -> 0 <= not_ w x.
Proof.
  intros H. unfold not_. apply Z.lxor_nonneg. split; intros _; [|exact H].
  rewrite Z.ones_equiv. pose proof (pow2_pos w). lia.
Qed.

Lemma mask_range b e : 0 <= b <= e -> e < w -> in_range w (mask w b e).
Proof. intros. apply wrap_range. lia. Qed.

Lemma set_bits_range b e v n : 0 <= b <= e -> e < w -> in_range w v -> in_range w (set_bits w b e v n).
Proof.
  intros H1 H2 Hv. apply in_range_bits.
  - unfold set_bits. apply Z.lor_nonneg. split; apply Z.land_nonneg; [left; apply Hv|].
    right. apply mask_range; lia.
  - intros i Hi. rewrite testbit_set_bits by lia || assumption.
    destruct (Z.leb_spec b i), (Z.leb_spec i e); try lia; apply testbit_above; assumption.
Qed.

Lemma set_bit_range p v b : 0 <= p < w -> in_range w v -> in_range w (set_bit w p v b).
Proof.
  intros Hp Hv. apply in_range_bits.
  - unfold set_bit. apply Z.lor_nonneg. split; [apply Z.land_nonneg; left; apply Hv|].
    destruct b; [|lia]. apply mask_range; lia.
  - intros i Hi. rewrite testbit_set_bit by lia || assumption.
    destruct (Z.eqb_spec i p); [lia|]. apply testbit_above; assumption.
Qed.

Lemma get_bits_range b e v : 0 <= b <= e -> e < w -> 0 <= v -> in_range (e - b + 1) (get_bits w b e v).
Proof.
  intros H1 H2 Hv.
  assert (get_bits w b e v = Z.land (Z.shiftr v b) (Z.ones (e - b + 1))) as ->.
  { apply Z.bits_inj'. intros i Hi. rewrite testbit_get_bits by lia.
    rewrite Z.land_spec, Z.shiftr_spec, testbit_ones_lt by lia.
    destruct (Z.leb_spec i (e - b)), (Z.ltb_spec i (e - b + 1)); try lia;
      destruct (Z.testbit v (i + b)); reflexivity. }
  rewrite Z.land_ones by lia. apply Z.mod_pos_bound, pow2_pos. lia.
Qed.

(** What a getter sees after a setter. *)
Lemma get_set_bit p v b q : 0 <= p < w -> 0 <= q < w -> in_range w v ->
  get_bit w q (set_bit w p v b) = if q =? p then b else get_bit w q v.
Proof.
  intros Hp Hq Hv. rewrite !get_bit_eq by lia. apply testbit_set_bit; lia || assumption.
Qed.

Lemma get_bits_set_bits b e v n : 0 <= b <= e -> e < w -> in_range w v ->
  in_range (e - b + 1) n -> get_bits w b e (set_bits w b e v n) = n.
Proof.
  intros H1 H2 Hv Hn. apply Z.bits_inj'. intros i Hi. rewrite testbit_get_bits by lia.
  rewrite testbit_set_bits by lia || assumption.
  destruct (Z.leb_spec i (e - b)), (Z.leb_spec b (i + b)), (Z.leb_spec (i + b) e); try lia; simpl.
  - f_equal. lia.
  - symmetry. assert (Z.testbit n i = false); [|assumption].
    rewrite <- (wrap_small (e - b + 1) n Hn). unfold wrap. apply Z.mod_pow2_bits_high. lia.
Qed.

Lemma get_bits_set_bit b e p v x : 0 <= b <= e -> e < w -> 0 <= p < w -> in_range w v ->
  (p < b \/ e < p) -> get_bits w b e (set_bit w p v x) = get_bits w b e v.
Proof.
  intros H1 H2 Hp Hv Hd. apply Z.bits_inj'. intros i Hi. rewrite !testbit_get_bits by lia.
  rewrite testbit_set_bit by lia || assumption.
  destruct (Z.leb_spec i (e - b)); [|reflexivity]. destruct (Z.eqb_spec (i + b) p); [lia|reflexivity].
Qed.

Lemma get_bit_set_bits b e p v n : 0 <= b <= e -> e < w -> 0 <= p < w -> in_range w v ->
  (p < b \/ e < p) -> get_bit w p (set_bits w b e v n) = get_bit w p v.
Proof.
  intros H1 H2 Hp Hv Hd. rewrite !get_bit_eq by lia.
  rewrite testbit_set_bits by lia || assumption.
  destruct (Z.leb_spec b p), (Z.leb_spec p e); try lia; reflexivity.
Qed.

Lemma get_bits_set_bits_ne b e b' e' v n : 0 <= b <= e -> e < w -> 0 <= b' <= e' -> e' < w ->
  in_range w v -> (e < b' \/ e' < b) ->
  get_bits w b e (set_bits w b' e' v n) = get_bits w b e v.
Proof.
  intros H1 H2 H3 H4 Hv Hd. apply Z.bits_inj'. intros i Hi. rewrite !testbit_get_bits by lia.
  rewrite testbit_set_bits by lia || assumption.
  destruct (Z.leb_spec i (e - b)); [|reflexivity].
  destruct (Z.leb_spec b' (i + b)), (Z.leb_spec (i + b) e'); try lia; reflexivity.
Qed.
End Specs.

(** [sign_extend] gives the two's-complement value of the low bits. *)
Lemma sign_extend_eq w c v : 0 < c <= w -> sign_extend w c v = wrap w (swrap c v).
Proof.
  intros H. unfold sign_extend. set (s := w - c). f_equal.
  rewrite Z.shiftl_mul_pow2, Z.shiftr_div_pow2 by lia.
  assert (2 ^ w = 2 ^ c * 2 ^ s) as Ew by (rewrite <- Z.pow_add_r by lia; f_equal; lia).
  assert (2 ^ (w - 1) = 2 ^ (c - 1) * 2 ^ s) as Ew1 by (rewrite <- Z.pow_add_r by lia; f_equal; lia).
  pose proof (pow2_pos s ltac:(lia)). pose proof (pow2_pos c ltac:(lia)).
  unfold swrap, wrap. rewrite Zplus_mod_idemp_l, Ew1, Ew.
  rewrite <- Z.mul_add_distr_r, Z.mul_mod_distr_r by lia.
  rewrite <- Z.mul_sub_distr_r. apply Z.div_mul. lia.
Qed.

End bit.
