(* ===== verification/Memory.v ===== *)
(** Byte-addressed memory, as the guest and the host share it: what [memcpy] to
    and from an address does, with the little-endian layout of the host. *)
From S2P Require Import Prelude.
Local Open Scope Z_scope.

(** The mapped bytes.  An access to an address that is not mapped is a fault of
    the process, like any other undefined behaviour. *)
Abbreviation mem := (gmap Z Z).

Fixpoint le_split (n : nat) (v : Z) : list Z :=
  match n with
  | O => []
  | S n' => v mod 2 ^ 8 :: le_split n' (v / 2 ^ 8)
  end.

Fixpoint le_combine (l : list Z) : Z :=
  match l with
  | [] => 0
  | b :: l' => b + 2 ^ 8 * le_combine l'
  end.

(** [memcpy] of [n] bytes from [addr]. *)
Fixpoint read_bytes (m : mem) (addr : Z) (n : nat) : option (list Z) :=
  match n with
  | O => Some []
  | S n' =>
      match m !! addr, read_bytes m (addr + 1) n' with
      | Some b, Some l => Some (b :: l)
      | _, _ => None
      end
  end.

(** [memcpy] of the bytes to [addr]. *)
Fixpoint write_bytes (m : mem) (addr : Z) (l : list Z) : option mem :=
  match l with
  | [] => Some m
  | b :: l' =>
      match m !! addr with
      | Some _ => write_bytes (<[addr := b]> m) (addr + 1) l'
      | None => None
      end
  end.

Definition load (m : mem) (addr : Z) (n : nat) : option Z := le_combine <$> read_bytes m addr n.
Definition store (m : mem) (addr : Z) (n : nat) (v : Z) : option mem := write_bytes m addr (le_split n v).

(** The n bytes from an address on are mapped. *)
Definition mapped (m : mem) (addr : Z) (n : nat) : Prop :=
  forall i, 0 <= i < Z.of_nat n -> is_Some (m !! (addr + i)).

Lemma length_le_split n v : length (le_split n v) = n.
Proof. revert v. induction n; simpl; intros; [reflexivity | f_equal; auto]. Qed.

Lemma le_combine_split n v : le_combine (le_split n v) = v mod 2 ^ (8 * Z.of_nat n).
Proof.
  revert v. induction n as [|n IH]; intros v; cbn [le_split le_combine].
  - rewrite Z.mod_1_r. reflexivity.
  - rewrite IH. replace (8 * Z.of_nat (S n)) with (8 + 8 * Z.of_nat n) by lia.
    rewrite Z.pow_add_r by lia.
    rewrite Z.rem_mul_r by (try apply pow2_pos; try apply Z.pow_nonzero; lia). lia.
Qed.

Lemma read_bytes_mapped m a n : is_Some (read_bytes m a n) <-> mapped m a n.
Proof.
  revert a. induction n as [|n IH]; intros a; cbn [read_bytes].
  - split; [intros _ i Hi; lia | eauto].
  - specialize (IH (a + 1)). split.
    + intros H i Hi. destruct (m !! a) eqn:E; [|destruct H; discriminate].
      destruct (decide (i = 0)) as [->|]; [rewrite Z.add_0_r, E; eauto|].
      destruct (read_bytes m (a + 1) n) eqn:E2; [|destruct H; discriminate].
      replace (a + i) with (a + 1 + (i - 1)) by lia. apply IH; [eauto | lia].
    + intros H. destruct (H 0 ltac:(lia)) as [b Hb]. rewrite Z.add_0_r in Hb. rewrite Hb.
      destruct IH as [_ IH]. destruct IH as [l ->]; [|eauto].
      intros i Hi. replace (a + 1 + i) with (a + (1 + i)) by lia. apply H. lia.
Qed.

Lemma read_bytes_insert_ne m a n k b :
  (k < a \/ a + Z.of_nat n <= k) -> read_bytes (<[k := b]> m) a n = read_bytes m a n.
Proof.
  revert a. induction n as [|n IH]; intros a H; cbn [read_bytes]; [reflexivity|].
  rewrite lookup_insert_ne by lia. rewrite IH by lia. reflexivity.
Qed.

Lemma write_bytes_spec m a l : mapped m a (length l) ->
  exists m', write_bytes m a l = Some m' /\ read_bytes m' a (length l) = Some l /\
    (forall k, k < a \/ a + Z.of_nat (length l) <= k -> m' !! k = m !! k) /\
    (forall k, is_Some (m' !! k) <-> is_Some (m !! k)).
Proof.
  revert m a. induction l as [|b l IH]; intros m a H; cbn [write_bytes length read_bytes].
  - exists m. auto.
  - destruct (H 0 ltac:(simpl; lia)) as [x Hx]. rewrite Z.add_0_r in Hx. rewrite Hx.
    destruct (IH (<[a := b]> m) (a + 1)) as (m' & Hw & Hr & Ho & Hm).
    { intros i Hi. replace (a + 1 + i) with (a + (1 + i)) by lia. rewrite lookup_insert_ne by lia.
      apply H. simpl. lia. }
    exists m'. split; [exact Hw|]. split; [|split].
    + rewrite Ho by lia. rewrite lookup_insert_eq, Hr. reflexivity.
    + intros k Hk. rewrite Ho by lia. apply lookup_insert_ne. lia.
    + intros k. rewrite Hm. destruct (decide (k = a)) as [->|].
      * rewrite lookup_insert_eq, Hx. split; eauto.
      * rewrite lookup_insert_ne by congruence. reflexivity.
Qed.

Lemma write_bytes_unmapped m a l : ~ mapped m a (length l) -> write_bytes m a l = None.
Proof.
  revert m a. induction l as [|b l IH]; intros m a H; cbn [write_bytes length] in *.
  - exfalso. apply H. intros i Hi. simpl in Hi. lia.
  - destruct (m !! a) eqn:E; [|reflexivity]. apply IH. intros H'. apply H. intros i Hi.
    destruct (decide (i = 0)) as [->|]; [rewrite Z.add_0_r, E; eauto|].
    specialize (H' (i - 1) ltac:(simpl in Hi; lia)). rewrite lookup_insert_ne in H' by lia.
    replace (a + 1 + (i - 1)) with (a + i) in H' by lia. exact H'.
Qed.

Lemma read_bytes_ext m m' a n : (forall i, a <= i < a + Z.of_nat n -> m' !! i = m !! i) ->
  read_bytes m' a n = read_bytes m a n.
Proof.
  revert a. induction n as [|n IH]; intros a H; cbn [read_bytes]; [reflexivity|].
  rewrite H, IH by (intros; try apply H; lia). reflexivity.
Qed.

(** Reading back a store, and reading elsewhere. *)
Lemma store_spec m a n v : mapped m a n ->
  exists m', store m a n v = Some m' /\ load m' a n = Some (v mod 2 ^ (8 * Z.of_nat n)) /\
    (forall a' n', a' + Z.of_nat n' <= a \/ a + Z.of_nat n <= a' -> load m' a' n' = load m a' n') /\
    (forall a' n', mapped m' a' n' <-> mapped m a' n').
Proof.
  intros H. unfold store, load. pose proof (length_le_split n v) as L.
  destruct (write_bytes_spec m a (le_split n v)) as (m' & Hw & Hr & Ho & Hm); [rewrite L; exact H|].
  rewrite L in *. exists m'. split; [exact Hw|]. split; [rewrite Hr; simpl; f_equal; apply le_combine_split|].
  split.
  - intros a' n' D. f_equal. apply read_bytes_ext. intros i Hi. apply Ho. lia.
  - intros a' n'. unfold mapped. split; intros K i Hi; apply Hm, K, Hi.
Qed.

Lemma le_combine_range l : Forall (in_range 8) l -> in_range (8 * Z.of_nat (length l)) (le_combine l).
Proof.
  induction 1 as [|b l Hb _ IH]; cbn [length le_combine]; unfold in_range in *; [lia|].
  replace (8 * Z.of_nat (S (length l))) with (8 + 8 * Z.of_nat (length l)) by lia.
  rewrite Z.pow_add_r by lia. nia.
Qed.

Lemma length_read_bytes m a n l : read_bytes m a n = Some l -> length l = n.
Proof.
  revert a l. induction n as [|n IH]; intros a l; cbn [read_bytes]; [intros [= <-]; reflexivity|].
  destruct (m !! a), (read_bytes m (a + 1) n) eqn:E; try discriminate. intros [= <-].
  simpl. f_equal. eapply IH, E.
Qed.

(** A part of a region that was read. *)
Lemma read_bytes_slice m a n l o k : read_bytes m a n = Some l -> (o + k <= n)%nat ->
  read_bytes m (a + Z.of_nat o) k = Some (take k (drop o l)).
Proof.
  revert a n l. induction o as [|o IH]; intros a n l.
  - rewrite Z.add_0_r, drop_0. revert a n l. induction k as [|k IH]; intros a n l H Hk; [reflexivity|].
    destruct n as [|n]; [lia|]. cbn [read_bytes] in *.
    destruct (m !! a), (read_bytes m (a + 1) n) eqn:E; try discriminate. injection H as <-.
    rewrite (IH _ _ _ E) by lia. reflexivity.
  - intros H Hk. destruct n as [|n]; [lia|]. cbn [read_bytes] in H.
    destruct (m !! a), (read_bytes m (a + 1) n) eqn:E; try discriminate. injection H as <-.
    replace (a + Z.of_nat (S o)) with (a + 1 + Z.of_nat o) by lia. cbn [drop].
    apply (IH (a + 1) n); [exact E | lia].
Qed.
