(* ===== verification/FpStatus.v ===== *)
(** dynarmic's common/fp/fpcr.h and common/fp/fpsr.h: the floating-point control
    and status registers as bit-packed words, and the records of independent
    fields they stand for. *)
From S2P Require Import Prelude Bits.
Local Open Scope Z_scope.

(** common/fp/rounding_mode.h, in the order of the values. *)
Inductive RoundingMode : Type :=
| ToNearest_TieEven
| TowardsPlusInfinity
| TowardsMinusInfinity
| TowardsZero
| ToNearest_TieAwayFromZero
| ToOdd.

Definition rounding_mode_value (r : RoundingMode) : Z :=
  match r with
  | ToNearest_TieEven => 0
  | TowardsPlusInfinity => 1
  | TowardsMinusInfinity => 2
  | TowardsZero => 3
  | ToNearest_TieAwayFromZero => 4
  | ToOdd => 5
  end.

(** [static_cast<FP::RoundingMode>] of a value the enumeration names. *)
Definition rounding_mode_of (v : Z) : RoundingMode :=
  if v =? 0 then ToNearest_TieEven
  else if v =? 1 then TowardsPlusInfinity
  else if v =? 2 then TowardsMinusInfinity
  else if v =? 3 then TowardsZero
  else if v =? 4 then ToNearest_TieAwayFromZero
  else ToOdd.

Module FPCR.

(** Bits 0-7, 13-14, and 27-31 are reserved. *)
Definition fpcr_mask : Z := 0x07FF9F00.

(** [explicit FPCR(u32 data)] and [operator=]. *)
Definition of_u32 (data : Z) : Z := Z.land data fpcr_mask.

Definition AHP (value : Z) : bool := bit.get_bit 32 26 value.
Definition set_AHP (value : Z) (x : bool) : Z := bit.set_bit 32 26 value x.
Definition DN (value : Z) : bool := bit.get_bit 32 25 value.
Definition set_DN (value : Z) (x : bool) : Z := bit.set_bit 32 25 value x.
Definition FZ (value : Z) : bool := bit.get_bit 32 24 value.
Definition set_FZ (value : Z) (x : bool) : Z := bit.set_bit 32 24 value x.
Definition FZ16 (value : Z) : bool := bit.get_bit 32 19 value.
Definition set_FZ16 (value : Z) (x : bool) : Z := bit.set_bit 32 19 value x.
Definition IDE (value : Z) : bool := bit.get_bit 32 15 value.
Definition set_IDE (value : Z) (x : bool) : Z := bit.set_bit 32 15 value x.
Definition IXE (value : Z) : bool := bit.get_bit 32 12 value.
Definition set_IXE (value : Z) (x : bool) : Z := bit.set_bit 32 12 value x.
Definition UFE (value : Z) : bool := bit.get_bit 32 11 value.
Definition set_UFE (value : Z) (x : bool) : Z := bit.set_bit 32 11 value x.
Definition OFE (value : Z) : bool := bit.get_bit 32 10 value.
Definition set_OFE (value : Z) (x : bool) : Z := bit.set_bit 32 10 value x.
Definition DZE (value : Z) : bool := bit.get_bit 32 9 value.
Definition set_DZE (value : Z) (x : bool) : Z := bit.set_bit 32 9 value x.
Definition IOE (value : Z) : bool := bit.get_bit 32 8 value.
Definition set_IOE (value : Z) (x : bool) : Z := bit.set_bit 32 8 value x.

Definition RMode (value : Z) : RoundingMode := rounding_mode_of (bit.get_bits 32 22 23 value).
Definition set_RMode (value : Z) (rounding_mode : RoundingMode) : outcome Z :=
  if rounding_mode_value rounding_mode <=? 3
  then Ret (bit.set_bits 32 22 23 value (rounding_mode_value rounding_mode))
  else Stop AssertFailed.

Definition Stride (value : Z) : option Z :=
  let b := bit.get_bits 32 20 21 value in
  if b =? 0 then Some 1 else if b =? 3 then Some 2 else None.
Definition set_Stride (value stride : Z) : outcome Z :=
  if (1 <=? stride) && (stride <=? 2)
  then Ret (bit.set_bits 32 20 21 value (if stride =? 1 then 0 else 3))
  else Stop AssertFailed.

Definition Len (value : Z) : Z := bit.get_bits 32 16 18 value + 1.
Definition set_Len (value len : Z) : outcome Z :=
  if (1 <=? len) && (len <=? 8)
  then Ret (bit.set_bits 32 16 18 value (u32 (len - 1)))
  else Stop AssertFailed.

(** [ASIMDStandardValue]. *)
Definition ASIMDStandardValue (value : Z) : Z :=
  let stdvalue := 0 in
  let stdvalue := set_AHP stdvalue (AHP value) in
  let stdvalue := set_FZ16 stdvalue (FZ16 value) in
  let stdvalue := set_FZ stdvalue true in
  set_DN stdvalue true.

(** The fields a control register stands for. *)
Record fields : Type := {
    f_AHP : bool;
    f_DN : bool;
    f_FZ : bool;
    f_FZ16 : bool;
    f_IDE : bool;
    f_IXE : bool;
    f_UFE : bool;
    f_OFE : bool;
    f_DZE : bool;
    f_IOE : bool;
    f_RMode : RoundingMode;
    f_Stride : option Z;
    f_Len : Z
}.

Definition view (value : Z) : fields := {|
    f_AHP := AHP value;
    f_DN := DN value;
    f_FZ := FZ value;
    f_FZ16 := FZ16 value;
    f_IDE := IDE value;
    f_IXE := IXE value;
    f_UFE := UFE value;
    f_OFE := OFE value;
    f_DZE := DZE value;
    f_IOE := IOE value;
    f_RMode := RMode value;
    f_Stride := Stride value;
    f_Len := Len value
|}.

Definition with_AHP (x : bool) (f : fields) : fields := {| f_AHP := x; f_DN := f_DN f; f_FZ := f_FZ f; f_FZ16 := f_FZ16 f; f_IDE := f_IDE f; f_IXE := f_IXE f; f_UFE := f_UFE f; f_OFE := f_OFE f; f_DZE := f_DZE f; f_IOE := f_IOE f; f_RMode := f_RMode f; f_Stride := f_Stride f; f_Len := f_Len f |}.
Definition with_DN (x : bool) (f : fields) : fields := {| f_AHP := f_AHP f; f_DN := x; f_FZ := f_FZ f; f_FZ16 := f_FZ16 f; f_IDE := f_IDE f; f_IXE := f_IXE f; f_UFE := f_UFE f; f_OFE := f_OFE f; f_DZE := f_DZE f; f_IOE := f_IOE f; f_RMode := f_RMode f; f_Stride := f_Stride f; f_Len := f_Len f |}.
Definition with_FZ (x : bool) (f : fields) : fields := {| f_AHP := f_AHP f; f_DN := f_DN f; f_FZ := x; f_FZ16 := f_FZ16 f; f_IDE := f_IDE f; f_IXE := f_IXE f; f_UFE := f_UFE f; f_OFE := f_OFE f; f_DZE := f_DZE f; f_IOE := f_IOE f; f_RMode := f_RMode f; f_Stride := f_Stride f; f_Len := f_Len f |}.
Definition with_FZ16 (x : bool) (f : fields) : fields := {| f_AHP := f_AHP f; f_DN := f_DN f; f_FZ := f_FZ f; f_FZ16 := x; f_IDE := f_IDE f; f_IXE := f_IXE f; f_UFE := f_UFE f; f_OFE := f_OFE f; f_DZE := f_DZE f; f_IOE := f_IOE f; f_RMode := f_RMode f; f_Stride := f_Stride f; f_Len := f_Len f |}.
Definition with_IDE (x : bool) (f : fields) : fields := {| f_AHP := f_AHP f; f_DN := f_DN f; f_FZ := f_FZ f; f_FZ16 := f_FZ16 f; f_IDE := x; f_IXE := f_IXE f; f_UFE := f_UFE f; f_OFE := f_OFE f; f_DZE := f_DZE f; f_IOE := f_IOE f; f_RMode := f_RMode f; f_Stride := f_Stride f; f_Len := f_Len f |}.
Definition with_IXE (x : bool) (f : fields) : fields := {| f_AHP := f_AHP f; f_DN := f_DN f; f_FZ := f_FZ f; f_FZ16 := f_FZ16 f; f_IDE := f_IDE f; f_IXE := x; f_UFE := f_UFE f; f_OFE := f_OFE f; f_DZE := f_DZE f; f_IOE := f_IOE f; f_RMode := f_RMode f; f_Stride := f_Stride f; f_Len := f_Len f |}.
Definition with_UFE (x : bool) (f : fields) : fields := {| f_AHP := f_AHP f; f_DN := f_DN f; f_FZ := f_FZ f; f_FZ16 := f_FZ16 f; f_IDE := f_IDE f; f_IXE := f_IXE f; f_UFE := x; f_OFE := f_OFE f; f_DZE := f_DZE f; f_IOE := f_IOE f; f_RMode := f_RMode f; f_Stride := f_Stride f; f_Len := f_Len f |}.
Definition with_OFE (x : bool) (f : fields) : fields := {| f_AHP := f_AHP f; f_DN := f_DN f; f_FZ := f_FZ f; f_FZ16 := f_FZ16 f; f_IDE := f_IDE f; f_IXE := f_IXE f; f_UFE := f_UFE f; f_OFE := x; f_DZE := f_DZE f; f_IOE := f_IOE f; f_RMode := f_RMode f; f_Stride := f_Stride f; f_Len := f_Len f |}.
Definition with_DZE (x : bool) (f : fields) : fields := {| f_AHP := f_AHP f; f_DN := f_DN f; f_FZ := f_FZ f; f_FZ16 := f_FZ16 f; f_IDE := f_IDE f; f_IXE := f_IXE f; f_UFE := f_UFE f; f_OFE := f_OFE f; f_DZE := x; f_IOE := f_IOE f; f_RMode := f_RMode f; f_Stride := f_Stride f; f_Len := f_Len f |}.
Definition with_IOE (x : bool) (f : fields) : fields := {| f_AHP := f_AHP f; f_DN := f_DN f; f_FZ := f_FZ f; f_FZ16 := f_FZ16 f; f_IDE := f_IDE f; f_IXE := f_IXE f; f_UFE := f_UFE f; f_OFE := f_OFE f; f_DZE := f_DZE f; f_IOE := x; f_RMode := f_RMode f; f_Stride := f_Stride f; f_Len := f_Len f |}.
Definition with_RMode (x : RoundingMode) (f : fields) : fields := {| f_AHP := f_AHP f; f_DN := f_DN f; f_FZ := f_FZ f; f_FZ16 := f_FZ16 f; f_IDE := f_IDE f; f_IXE := f_IXE f; f_UFE := f_UFE f; f_OFE := f_OFE f; f_DZE := f_DZE f; f_IOE := f_IOE f; f_RMode := x; f_Stride := f_Stride f; f_Len := f_Len f |}.
Definition with_Stride (x : option Z) (f : fields) : fields := {| f_AHP := f_AHP f; f_DN := f_DN f; f_FZ := f_FZ f; f_FZ16 := f_FZ16 f; f_IDE := f_IDE f; f_IXE := f_IXE f; f_UFE := f_UFE f; f_OFE := f_OFE f; f_DZE := f_DZE f; f_IOE := f_IOE f; f_RMode := f_RMode f; f_Stride := x; f_Len := f_Len f |}.
Definition with_Len (x : Z) (f : fields) : fields := {| f_AHP := f_AHP f; f_DN := f_DN f; f_FZ := f_FZ f; f_FZ16 := f_FZ16 f; f_IDE := f_IDE f; f_IXE := f_IXE f; f_UFE := f_UFE f; f_OFE := f_OFE f; f_DZE := f_DZE f; f_IOE := f_IOE f; f_RMode := f_RMode f; f_Stride := f_Stride f; f_Len := x |}.

(** A register of the class: 32 bits, reserved bits zero. *)
Definition valid (value : Z) : Prop := in_range 32 value /\ Z.land value fpcr_mask = value.
End FPCR.

Module FPSR.

(** Bits 5-6 and 8-26 are reserved. *)
Definition fpsr_mask : Z := 0xF800009F.
Definition of_u32 (data : Z) : Z := Z.land data fpsr_mask.

Definition N (value : BinNums.Z) : bool := bit.get_bit 32 31 value.
Definition set_N (value : BinNums.Z) (x : bool) : Z := bit.set_bit 32 31 value x.
Definition Z_ (value : BinNums.Z) : bool := bit.get_bit 32 30 value.
Definition set_Z_ (value : BinNums.Z) (x : bool) : Z := bit.set_bit 32 30 value x.
Definition C (value : BinNums.Z) : bool := bit.get_bit 32 29 value.
Definition set_C (value : BinNums.Z) (x : bool) : Z := bit.set_bit 32 29 value x.
Definition V (value : BinNums.Z) : bool := bit.get_bit 32 28 value.
Definition set_V (value : BinNums.Z) (x : bool) : Z := bit.set_bit 32 28 value x.
Definition QC (value : BinNums.Z) : bool := bit.get_bit 32 27 value.
Definition set_QC (value : BinNums.Z) (x : bool) : Z := bit.set_bit 32 27 value x.
Definition IDC (value : BinNums.Z) : bool := bit.get_bit 32 7 value.
Definition set_IDC (value : BinNums.Z) (x : bool) : Z := bit.set_bit 32 7 value x.
Definition IXC (value : BinNums.Z) : bool := bit.get_bit 32 4 value.
Definition set_IXC (value : BinNums.Z) (x : bool) : Z := bit.set_bit 32 4 value x.
Definition UFC (value : BinNums.Z) : bool := bit.get_bit 32 3 value.
Definition set_UFC (value : BinNums.Z) (x : bool) : Z := bit.set_bit 32 3 value x.
Definition OFC (value : BinNums.Z) : bool := bit.get_bit 32 2 value.
Definition set_OFC (value : BinNums.Z) (x : bool) : Z := bit.set_bit 32 2 value x.
Definition DZC (value : BinNums.Z) : bool := bit.get_bit 32 1 value.
Definition set_DZC (value : BinNums.Z) (x : bool) : Z := bit.set_bit 32 1 value x.
Definition IOC (value : BinNums.Z) : bool := bit.get_bit 32 0 value.
Definition set_IOC (value : BinNums.Z) (x : bool) : Z := bit.set_bit 32 0 value x.

Record fields : Type := {
    f_N : bool;
    f_Z_ : bool;
    f_C : bool;
    f_V : bool;
    f_QC : bool;
    f_IDC : bool;
    f_IXC : bool;
    f_UFC : bool;
    f_OFC : bool;
    f_DZC : bool;
    f_IOC : bool
}.

Definition view (value : BinNums.Z) : fields := {|
    f_N := N value;
    f_Z_ := Z_ value;
    f_C := C value;
    f_V := V value;
    f_QC := QC value;
    f_IDC := IDC value;
    f_IXC := IXC value;
    f_UFC := UFC value;
    f_OFC := OFC value;
    f_DZC := DZC value;
    f_IOC := IOC value
|}.

Definition with_N (x : bool) (f : fields) : fields := {| f_N := x; f_Z_ := f_Z_ f; f_C := f_C f; f_V := f_V f; f_QC := f_QC f; f_IDC := f_IDC f; f_IXC := f_IXC f; f_UFC := f_UFC f; f_OFC := f_OFC f; f_DZC := f_DZC f; f_IOC := f_IOC f |}.
Definition with_Z_ (x : bool) (f : fields) : fields := {| f_N := f_N f; f_Z_ := x; f_C := f_C f; f_V := f_V f; f_QC := f_QC f; f_IDC := f_IDC f; f_IXC := f_IXC f; f_UFC := f_UFC f; f_OFC := f_OFC f; f_DZC := f_DZC f; f_IOC := f_IOC f |}.
Definition with_C (x : bool) (f : fields) : fields := {| f_N := f_N f; f_Z_ := f_Z_ f; f_C := x; f_V := f_V f; f_QC := f_QC f; f_IDC := f_IDC f; f_IXC := f_IXC f; f_UFC := f_UFC f; f_OFC := f_OFC f; f_DZC := f_DZC f; f_IOC := f_IOC f |}.
Definition with_V (x : bool) (f : fields) : fields := {| f_N := f_N f; f_Z_ := f_Z_ f; f_C := f_C f; f_V := x; f_QC := f_QC f; f_IDC := f_IDC f; f_IXC := f_IXC f; f_UFC := f_UFC f; f_OFC := f_OFC f; f_DZC := f_DZC f; f_IOC := f_IOC f |}.
Definition with_QC (x : bool) (f : fields) : fields := {| f_N := f_N f; f_Z_ := f_Z_ f; f_C := f_C f; f_V := f_V f; f_QC := x; f_IDC := f_IDC f; f_IXC := f_IXC f; f_UFC := f_UFC f; f_OFC := f_OFC f; f_DZC := f_DZC f; f_IOC := f_IOC f |}.
Definition with_IDC (x : bool) (f : fields) : fields := {| f_N := f_N f; f_Z_ := f_Z_ f; f_C := f_C f; f_V := f_V f; f_QC := f_QC f; f_IDC := x; f_IXC := f_IXC f; f_UFC := f_UFC f; f_OFC := f_OFC f; f_DZC := f_DZC f; f_IOC := f_IOC f |}.
Definition with_IXC (x : bool) (f : fields) : fields := {| f_N := f_N f; f_Z_ := f_Z_ f; f_C := f_C f; f_V := f_V f; f_QC := f_QC f; f_IDC := f_IDC f; f_IXC := x; f_UFC := f_UFC f; f_OFC := f_OFC f; f_DZC := f_DZC f; f_IOC := f_IOC f |}.
Definition with_UFC (x : bool) (f : fields) : fields := {| f_N := f_N f; f_Z_ := f_Z_ f; f_C := f_C f; f_V := f_V f; f_QC := f_QC f; f_IDC := f_IDC f; f_IXC := f_IXC f; f_UFC := x; f_OFC := f_OFC f; f_DZC := f_DZC f; f_IOC := f_IOC f |}.
Definition with_OFC (x : bool) (f : fields) : fields := {| f_N := f_N f; f_Z_ := f_Z_ f; f_C := f_C f; f_V := f_V f; f_QC := f_QC f; f_IDC := f_IDC f; f_IXC := f_IXC f; f_UFC := f_UFC f; f_OFC := x; f_DZC := f_DZC f; f_IOC := f_IOC f |}.
Definition with_DZC (x : bool) (f : fields) : fields := {| f_N := f_N f; f_Z_ := f_Z_ f; f_C := f_C f; f_V := f_V f; f_QC := f_QC f; f_IDC := f_IDC f; f_IXC := f_IXC f; f_UFC := f_UFC f; f_OFC := f_OFC f; f_DZC := x; f_IOC := f_IOC f |}.
Definition with_IOC (x : bool) (f : fields) : fields := {| f_N := f_N f; f_Z_ := f_Z_ f; f_C := f_C f; f_V := f_V f; f_QC := f_QC f; f_IDC := f_IDC f; f_IXC := f_IXC f; f_UFC := f_UFC f; f_OFC := f_OFC f; f_DZC := f_DZC f; f_IOC := x |}.

Definition valid (value : BinNums.Z) : Prop :=
  in_range 32 value /\ BinInt.Z.land value fpsr_mask = value.
End FPSR.
(** ** Lemmas *)

(** Setting bits of the mask keeps the reserved bits zero. *)
Lemma set_bit_valid m v p b : in_range 32 v -> Z.land v m = v -> 0 <= p < 32 ->
  Z.testbit m p = true ->
  in_range 32 (bit.set_bit 32 p v b) /\ Z.land (bit.set_bit 32 p v b) m = bit.set_bit 32 p v b.
Proof.
  intros Hv Hm Hp Hb. split; [apply bit.set_bit_range; lia || assumption|].
  apply Z.bits_inj'. intros i Hi. rewrite Z.land_spec, bit.testbit_set_bit by lia || assumption.
  destruct (Z.eqb_spec i p) as [->|]; [rewrite Hb; apply andb_true_r|].
  rewrite <- Z.land_spec, Hm. reflexivity.
Qed.

Lemma set_bits_valid m v b e n : in_range 32 v -> Z.land v m = v -> 0 <= b <= e -> e < 32 ->
  Z.land m (bit.mask 32 b e) = bit.mask 32 b e ->
  in_range 32 (bit.set_bits 32 b e v n) /\ Z.land (bit.set_bits 32 b e v n) m = bit.set_bits 32 b e v n.
Proof.
  intros Hv Hm H1 H2 Hb. split; [apply bit.set_bits_range; lia || assumption|].
  apply Z.bits_inj'. intros i Hi. rewrite Z.land_spec, bit.testbit_set_bits by lia || assumption.
  destruct ((b <=? i) && (i <=? e)) eqn:E.
  - assert (Z.testbit m i = true) as ->; [|apply andb_true_r].
    pose proof (bit.testbit_mask 32 ltac:(lia) b e i H1 H2 Hi) as K.
    rewrite E, <- Hb, Z.land_spec in K. apply andb_true_iff in K. tauto.
  - rewrite <- Z.land_spec, Hm. reflexivity.
Qed.

(** Decide the getters of an updated register. *)
Ltac fp_fields :=
  repeat first
    [ rewrite bit.get_set_bit by (lia || assumption); cbn [Z.eqb Pos.eqb]
    | rewrite bit.get_bits_set_bit by (lia || assumption)
    | rewrite bit.get_bit_set_bits by (lia || assumption)
    | rewrite bit.get_bits_set_bits by (lia || assumption || (unfold in_range; simpl; lia))
    | rewrite bit.get_bits_set_bits_ne by (lia || assumption) ].

Module FPCRLemmas.
Import FPCR.

Lemma of_u32_valid d : 0 <= d -> valid (of_u32 d).
Proof.
  intros Hd. unfold of_u32, valid. split.
  - apply bit.in_range_bits; [lia | apply Z.land_nonneg; left; exact Hd |].
    intros i Hi. rewrite Z.land_spec.
    rewrite (bit.testbit_above 32 ltac:(lia) fpcr_mask) by (unfold in_range, fpcr_mask; lia).
    apply andb_false_r.
  - rewrite <- Z.land_assoc, Z.land_diag. reflexivity.
Qed.

Lemma fpcr_set_bit_view v p b : in_range 32 v -> 0 <= p < 16 \/ 19 <= p <= 19 \/ 24 <= p < 32 ->
  view (bit.set_bit 32 p v b) =
  {| f_AHP := if 26 =? p then b else AHP v; f_DN := if 25 =? p then b else DN v;
     f_FZ := if 24 =? p then b else FZ v; f_FZ16 := if 19 =? p then b else FZ16 v;
     f_IDE := if 15 =? p then b else IDE v; f_IXE := if 12 =? p then b else IXE v;
     f_UFE := if 11 =? p then b else UFE v; f_OFE := if 10 =? p then b else OFE v;
     f_DZE := if 9 =? p then b else DZE v; f_IOE := if 8 =? p then b else IOE v;
     f_RMode := RMode v; f_Stride := Stride v; f_Len := Len v |}.
Proof.
  intros Hv Hp. unfold view, AHP, DN, FZ, FZ16, IDE, IXE, UFE, OFE, DZE, IOE, RMode, Stride, Len.
  rewrite !bit.get_set_bit by (lia || assumption).
  rewrite !bit.get_bits_set_bit by (lia || assumption). reflexivity.
Qed.

(** A setter of a field that lies inside [b, e] changes no other getter. *)
Lemma set_bits_view v b e n : in_range 32 v -> (b, e) = (22, 23) \/ (b, e) = (20, 21) \/ (b, e) = (16, 18) ->
  in_range (e - b + 1) n ->
  view (bit.set_bits 32 b e v n) =
  {| f_AHP := AHP v; f_DN := DN v; f_FZ := FZ v; f_FZ16 := FZ16 v; f_IDE := IDE v; f_IXE := IXE v;
     f_UFE := UFE v; f_OFE := OFE v; f_DZE := DZE v; f_IOE := IOE v;
     f_RMode := if b =? 22 then rounding_mode_of n else RMode v;
     f_Stride := if b =? 20 then (if n =? 0 then Some 1 else if n =? 3 then Some 2 else None) else Stride v;
     f_Len := if b =? 16 then n + 1 else Len v |}.
Proof.
  intros Hv Hb Hn. unfold view, AHP, DN, FZ, FZ16, IDE, IXE, UFE, OFE, DZE, IOE, RMode, Stride, Len.
  destruct Hb as [[= -> ->]|[[= -> ->]|[= -> ->]]]; fp_fields; reflexivity.
Qed.
End FPCRLemmas.

Module FPSRLemmas.
Import FPSR.
Lemma fpsr_set_bit_view v p b : in_range 32 v -> 0 <= p < 32 ->
  view (bit.set_bit 32 p v b) =
  {| f_N := if 31 =? p then b else N v; f_Z_ := if 30 =? p then b else Z_ v;
     f_C := if 29 =? p then b else C v; f_V := if 28 =? p then b else V v;
     f_QC := if 27 =? p then b else QC v; f_IDC := if 7 =? p then b else IDC v;
     f_IXC := if 4 =? p then b else IXC v; f_UFC := if 3 =? p then b else UFC v;
     f_OFC := if 2 =? p then b else OFC v; f_DZC := if 1 =? p then b else DZC v;
     f_IOC := if 0 =? p then b else IOC v |}.
Proof.
  intros Hv Hp. unfold view, N, Z_, C, V, QC, IDC, IXC, UFC, OFC, DZC, IOC.
  rewrite !bit.get_set_bit by (lia || assumption). reflexivity.
Qed.
End FPSRLemmas.

(** A setter implements the update of one field and keeps the register valid. *)
Definition implements {A F : Type} (valid : Z -> Prop) (view : Z -> F)
    (set : Z -> A -> Z) (upd : A -> F -> F) (value : Z) : Prop :=
  forall x, valid (set value x) /\ view (set value x) = upd x (view value).

(** The same for a setter that asserts a precondition on its argument. *)
Definition implements_checked {A F : Type} (valid : Z -> Prop) (view : Z -> F)
    (set : Z -> A -> outcome Z) (pre : A -> Prop) (upd : A -> F -> F) (value : Z) : Prop :=
  forall x, (pre x /\ exists v', set value x = Ret v' /\ valid v' /\ view v' = upd x (view value)) \/
            (~ pre x /\ set value x = Stop AssertFailed).

(** ** Properties *)

(** The packed [FPCR] word behaves as a record of thirteen independent
    fields: every setter changes the field it names, leaves the twelve others
    and the reserved bits alone, and the setters with an assertion accept
    exactly the values their field can represent. *)
Theorem fpcr_is_a_record value : FPCR.valid value ->
  implements FPCR.valid FPCR.view FPCR.set_AHP FPCR.with_AHP value /\
  implements FPCR.valid FPCR.view FPCR.set_DN FPCR.with_DN value /\
  implements FPCR.valid FPCR.view FPCR.set_FZ FPCR.with_FZ value /\
  implements FPCR.valid FPCR.view FPCR.set_FZ16 FPCR.with_FZ16 value /\
  implements FPCR.valid FPCR.view FPCR.set_IDE FPCR.with_IDE value /\
  implements FPCR.valid FPCR.view FPCR.set_IXE FPCR.with_IXE value /\
  implements FPCR.valid FPCR.view FPCR.set_UFE FPCR.with_UFE value /\
  implements FPCR.valid FPCR.view FPCR.set_OFE FPCR.with_OFE value /\
  implements FPCR.valid FPCR.view FPCR.set_DZE FPCR.with_DZE value /\
  implements FPCR.valid FPCR.view FPCR.set_IOE FPCR.with_IOE value /\
  implements_checked FPCR.valid FPCR.view FPCR.set_RMode
    (fun r => r <> ToNearest_TieAwayFromZero /\ r <> ToOdd) FPCR.with_RMode value /\
  implements_checked FPCR.valid FPCR.view FPCR.set_Stride
    (fun s => s = 1 \/ s = 2) (fun s => FPCR.with_Stride (Some s)) value /\
  implements_checked FPCR.valid FPCR.view FPCR.set_Len
    (fun l => 1 <= l <= 8) FPCR.with_Len value.
Proof.
  intros [Hv Hm].
  repeat match goal with
  | |- _ /\ _ => split
  | |- implements _ _ _ _ _ =>
      intros x; split; [apply set_bit_valid; reflexivity || lia || assumption
                       |apply FPCRLemmas.fpcr_set_bit_view; lia || assumption]
  end; intros x.
  - destruct x; try (right; split; [intuition congruence | reflexivity]); left;
      (split; [split; congruence|]); eexists; (split; [reflexivity|]);
      (split; [apply set_bits_valid; reflexivity || lia || assumption|]);
      (rewrite FPCRLemmas.set_bits_view; [reflexivity | assumption | auto | unfold in_range; simpl; lia]).
  - unfold FPCR.set_Stride.
    destruct (Z.leb_spec 1 x), (Z.leb_spec x 2); cbn [andb]; try (right; split; [lia|reflexivity]).
    left. split; [lia|]. eexists. split; [reflexivity|].
    split; [apply set_bits_valid; reflexivity || lia || assumption|].
    assert (x = 1 \/ x = 2) as [-> | ->] by lia;
      (rewrite FPCRLemmas.set_bits_view; [reflexivity | assumption | auto | unfold in_range; simpl; lia]).
  - unfold FPCR.set_Len.
    destruct (Z.leb_spec 1 x), (Z.leb_spec x 8); cbn [andb]; try (right; split; [lia|reflexivity]).
    left. split; [lia|]. eexists. split; [reflexivity|].
    split; [apply set_bits_valid; reflexivity || lia || assumption|].
    assert (u32 (x - 1) = x - 1) as -> by (apply wrap_small; unfold in_range; lia).
    rewrite FPCRLemmas.set_bits_view; [|assumption|auto|unfold in_range; simpl; lia].
    unfold FPCR.with_Len, FPCR.view; cbn -[FPCR.AHP FPCR.DN FPCR.FZ FPCR.FZ16 FPCR.IDE FPCR.IXE FPCR.UFE
      FPCR.OFE FPCR.DZE FPCR.IOE FPCR.RMode FPCR.Stride]. f_equal. lia.
Qed.

Lemma fpcr_is_a_record_witness :
  FPCR.view (FPCR.set_FZ 0x01000000 false) = FPCR.with_FZ false (FPCR.view 0x01000000).
Proof.
  assert (FPCR.valid 0x01000000) as V by (split; [unfold in_range; lia | reflexivity]).
  destruct (fpcr_is_a_record _ V) as (_ & _ & H & _). apply H.
Defined.

(** The packed [FPSR] word behaves as a record of eleven independent flags,
    and its reserved bits stay zero. *)
Theorem fpsr_is_a_record value : FPSR.valid value ->
  implements FPSR.valid FPSR.view FPSR.set_N FPSR.with_N value /\
  implements FPSR.valid FPSR.view FPSR.set_Z_ FPSR.with_Z_ value /\
  implements FPSR.valid FPSR.view FPSR.set_C FPSR.with_C value /\
  implements FPSR.valid FPSR.view FPSR.set_V FPSR.with_V value /\
  implements FPSR.valid FPSR.view FPSR.set_QC FPSR.with_QC value /\
  implements FPSR.valid FPSR.view FPSR.set_IDC FPSR.with_IDC value /\
  implements FPSR.valid FPSR.view FPSR.set_IXC FPSR.with_IXC value /\
  implements FPSR.valid FPSR.view FPSR.set_UFC FPSR.with_UFC value /\
  implements FPSR.valid FPSR.view FPSR.set_OFC FPSR.with_OFC value /\
  implements FPSR.valid FPSR.view FPSR.set_DZC FPSR.with_DZC value /\
  implements FPSR.valid FPSR.view FPSR.set_IOC FPSR.with_IOC value.
Proof.
  intros [Hv Hm].
  repeat match goal with
  | |- _ /\ _ => split
  | |- implements _ _ _ _ _ =>
      intros x; split; [apply set_bit_valid; reflexivity || lia || assumption
                       |apply FPSRLemmas.fpsr_set_bit_view; lia || assumption]
  end.
Qed.

Lemma fpsr_is_a_record_witness :
  FPSR.view (FPSR.set_QC 0x80000001 true) = FPSR.with_QC true (FPSR.view 0x80000001).
Proof.
  assert (FPSR.valid 0x80000001) as V by (split; [unfold in_range; lia | reflexivity]).
  destruct (fpsr_is_a_record _ V) as (_ & _ & _ & _ & H & _). apply H.
Defined.
