(* ===== verification/A64Jit.v ===== *)
(** The part of dynarmic the runtime talks to: the packed guest state
    (backend/x64/a64_jitstate.h and .cpp, backend/x64/nzcv_util.h), the block
    locations (frontend/A64/a64_location_descriptor.h), the halt reasons
    (interface/halt_reason.h) and [Jit::Impl] (backend/x64/a64_interface.cpp)
    with its cache of compiled blocks.  Running emitted code is a parameter. *)
From S2P Require Import Prelude Bits FpStatus.
Local Open Scope Z_scope.

(** ** nzcv_util.h *)
Module NZCV.
Definition arm_mask : Z := 0xF0000000.
Definition x64_mask : Z := 0xC101.
Definition to_x64_multiplier : Z := 0x1081.
Definition from_x64_multiplier : Z := 0x10210000.

Definition ToX64 (nzcv : Z) : Z := Z.land (u32 (Z.shiftr nzcv 28 * to_x64_multiplier)) x64_mask.
Definition FromX64 (x64_flags : Z) : Z :=
  Z.land (u32 (Z.land x64_flags x64_mask * from_x64_multiplier)) arm_mask.

(** The naive implementations quoted in the comments of the file. *)
Definition flag (b : bool) (v : Z) : Z := if b then v else 0.
Definition ToX64_naive (cpsr : Z) : Z :=
  Z.lor (Z.lor (Z.lor (flag (bit.get_bit 32 31 cpsr) (2 ^ 15)) (flag (bit.get_bit 32 30 cpsr) (2 ^ 14)))
    (flag (bit.get_bit 32 29 cpsr) (2 ^ 8))) (flag (bit.get_bit 32 28 cpsr) 1).
Definition FromX64_naive (x64_flags : Z) : Z :=
  Z.lor (Z.lor (Z.lor (flag (bit.get_bit 32 15 x64_flags) (2 ^ 31)) (flag (bit.get_bit 32 14 x64_flags) (2 ^ 30)))
    (flag (bit.get_bit 32 8 x64_flags) (2 ^ 29))) (flag (bit.get_bit 32 0 x64_flags) (2 ^ 28)).
End NZCV.

(** ** a64_location_descriptor.h *)
Module LocationDescriptor.
Definition pc_bit_count : Z := 56.
Definition pc_mask : Z := bit.ones 64 pc_bit_count.
Definition fpcr_mask : Z := 0x07C80000.
Definition fpcr_shift : Z := 37.
Definition single_stepping_bit : Z := 57.

Record t : Type := { pc : Z; fpcr : Z; single_stepping : bool }.

(** [LocationDescriptor(u64 pc, FP::FPCR fpcr, bool single_stepping)]; the
    stored [FPCR] is assigned from a [u32] again. *)
Definition make (p f : Z) (s : bool) : t :=
  {| pc := Z.land p pc_mask; fpcr := FPCR.of_u32 (Z.land f fpcr_mask); single_stepping := s |}.

(** [explicit LocationDescriptor(const IR::LocationDescriptor&)]. *)
Definition of_ir (value : Z) : t :=
  {| pc := Z.land value pc_mask;
     fpcr := FPCR.of_u32 (Z.land (Z.shiftr value fpcr_shift) fpcr_mask);
     single_stepping := bit.get_bit 64 single_stepping_bit value |}.

Definition PC (l : t) : Z := bit.sign_extend 64 pc_bit_count (pc l).
Definition SetPC (l : t) (new_pc : Z) : t := make new_pc (fpcr l) (single_stepping l).
Definition AdvancePC (l : t) (amount : Z) : t := make (u64 (pc l + amount)) (fpcr l) (single_stepping l).
Definition SetSingleStepping (l : t) (s : bool) : t := make (pc l) (fpcr l) s.

Definition UniqueHash (l : t) : Z :=
  let fpcr_u64 := u64 (Z.shiftl (fpcr l) fpcr_shift) in
  let single_stepping_u64 := u64 (Z.shiftl (Z.b2z (single_stepping l)) single_stepping_bit) in
  Z.lor (Z.lor (pc l) fpcr_u64) single_stepping_u64.

(** What every constructor establishes. *)
Definition valid (l : t) : Prop :=
  exists p f, in_range 64 p /\ in_range 32 f /\
    pc l = Z.land p pc_mask /\ fpcr l = Z.land f fpcr_mask.
End LocationDescriptor.

(** ** halt_reason.h and atomic.h *)
Module HaltReason.
Definition Step : Z := 0x00000001.
Definition CacheInvalidation : Z := 0x00000002.
Definition MemoryAbort : Z := 0x00000004.
Definition UserDefined1 : Z := 0x01000000.
Definition UserDefined2 : Z := 0x02000000.
Definition UserDefined3 : Z := 0x04000000.
Definition UserDefined4 : Z := 0x08000000.
Definition UserDefined5 : Z := 0x10000000.
Definition UserDefined6 : Z := 0x20000000.
Definition UserDefined7 : Z := 0x40000000.
Definition UserDefined8 : Z := 0x80000000.
Definition Has (hr1 hr2 : Z) : bool := negb (Z.land hr1 hr2 =? 0).
End HaltReason.

Definition Atomic_Or (cell value : Z) : Z := Z.lor cell value.
Definition Atomic_And (cell value : Z) : Z := Z.land cell value.

(** ** a64_jitstate.h *)
Definition RSBSize : nat := 8.
Definition RSBPtrMask : Z := 7.

Record A64JitState : Type := {
  reg : list Z;
  sp : Z;
  pc : Z;
  cpsr_nzcv : Z;
  vec : list Z;
  guest_MXCSR : Z;
  asimd_MXCSR : Z;
  halt_reason : Z;
  exclusive_state : Z;
  rsb_ptr : Z;
  rsb_location_descriptors : list Z;
  rsb_codeptrs : list Z;
  fpsr_exc : Z;
  fpsr_qc : Z;
  fpcr : Z
}.

Definition fresh_jit_state : A64JitState :=
  {| reg := replicate 31 0; sp := 0; pc := 0; cpsr_nzcv := 0; vec := replicate 64 0;
     guest_MXCSR := 0x00001f80; asimd_MXCSR := 0x00009fc0; halt_reason := 0; exclusive_state := 0;
     rsb_ptr := 0; rsb_location_descriptors := replicate RSBSize 0xFFFFFFFFFFFFFFFF;
     rsb_codeptrs := replicate RSBSize 0; fpsr_exc := 0; fpsr_qc := 0; fpcr := 0 |}.

(** Field updates. *)
Definition with_reg x (s : A64JitState) : A64JitState := {| reg := x; sp := sp s; pc := pc s; cpsr_nzcv := cpsr_nzcv s; vec := vec s; guest_MXCSR := guest_MXCSR s; asimd_MXCSR := asimd_MXCSR s; halt_reason := halt_reason s; exclusive_state := exclusive_state s; rsb_ptr := rsb_ptr s; rsb_location_descriptors := rsb_location_descriptors s; rsb_codeptrs := rsb_codeptrs s; fpsr_exc := fpsr_exc s; fpsr_qc := fpsr_qc s; fpcr := fpcr s |}.
Definition with_sp x (s : A64JitState) : A64JitState := {| reg := reg s; sp := x; pc := pc s; cpsr_nzcv := cpsr_nzcv s; vec := vec s; guest_MXCSR := guest_MXCSR s; asimd_MXCSR := asimd_MXCSR s; halt_reason := halt_reason s; exclusive_state := exclusive_state s; rsb_ptr := rsb_ptr s; rsb_location_descriptors := rsb_location_descriptors s; rsb_codeptrs := rsb_codeptrs s; fpsr_exc := fpsr_exc s; fpsr_qc := fpsr_qc s; fpcr := fpcr s |}.
Definition with_pc x (s : A64JitState) : A64JitState := {| reg := reg s; sp := sp s; pc := x; cpsr_nzcv := cpsr_nzcv s; vec := vec s; guest_MXCSR := guest_MXCSR s; asimd_MXCSR := asimd_MXCSR s; halt_reason := halt_reason s; exclusive_state := exclusive_state s; rsb_ptr := rsb_ptr s; rsb_location_descriptors := rsb_location_descriptors s; rsb_codeptrs := rsb_codeptrs s; fpsr_exc := fpsr_exc s; fpsr_qc := fpsr_qc s; fpcr := fpcr s |}.
Definition with_cpsr_nzcv x (s : A64JitState) : A64JitState := {| reg := reg s; sp := sp s; pc := pc s; cpsr_nzcv := x; vec := vec s; guest_MXCSR := guest_MXCSR s; asimd_MXCSR := asimd_MXCSR s; halt_reason := halt_reason s; exclusive_state := exclusive_state s; rsb_ptr := rsb_ptr s; rsb_location_descriptors := rsb_location_descriptors s; rsb_codeptrs := rsb_codeptrs s; fpsr_exc := fpsr_exc s; fpsr_qc := fpsr_qc s; fpcr := fpcr s |}.
Definition with_vec x (s : A64JitState) : A64JitState := {| reg := reg s; sp := sp s; pc := pc s; cpsr_nzcv := cpsr_nzcv s; vec := x; guest_MXCSR := guest_MXCSR s; asimd_MXCSR := asimd_MXCSR s; halt_reason := halt_reason s; exclusive_state := exclusive_state s; rsb_ptr := rsb_ptr s; rsb_location_descriptors := rsb_location_descriptors s; rsb_codeptrs := rsb_codeptrs s; fpsr_exc := fpsr_exc s; fpsr_qc := fpsr_qc s; fpcr := fpcr s |}.
Definition with_guest_MXCSR x (s : A64JitState) : A64JitState := {| reg := reg s; sp := sp s; pc := pc s; cpsr_nzcv := cpsr_nzcv s; vec := vec s; guest_MXCSR := x; asimd_MXCSR := asimd_MXCSR s; halt_reason := halt_reason s; exclusive_state := exclusive_state s; rsb_ptr := rsb_ptr s; rsb_location_descriptors := rsb_location_descriptors s; rsb_codeptrs := rsb_codeptrs s; fpsr_exc := fpsr_exc s; fpsr_qc := fpsr_qc s; fpcr := fpcr s |}.
Definition with_asimd_MXCSR x (s : A64JitState) : A64JitState := {| reg := reg s; sp := sp s; pc := pc s; cpsr_nzcv := cpsr_nzcv s; vec := vec s; guest_MXCSR := guest_MXCSR s; asimd_MXCSR := x; halt_reason := halt_reason s; exclusive_state := exclusive_state s; rsb_ptr := rsb_ptr s; rsb_location_descriptors := rsb_location_descriptors s; rsb_codeptrs := rsb_codeptrs s; fpsr_exc := fpsr_exc s; fpsr_qc := fpsr_qc s; fpcr := fpcr s |}.
Definition with_halt_reason x (s : A64JitState) : A64JitState := {| reg := reg s; sp := sp s; pc := pc s; cpsr_nzcv := cpsr_nzcv s; vec := vec s; guest_MXCSR := guest_MXCSR s; asimd_MXCSR := asimd_MXCSR s; halt_reason := x; exclusive_state := exclusive_state s; rsb_ptr := rsb_ptr s; rsb_location_descriptors := rsb_location_descriptors s; rsb_codeptrs := rsb_codeptrs s; fpsr_exc := fpsr_exc s; fpsr_qc := fpsr_qc s; fpcr := fpcr s |}.
Definition with_exclusive_state x (s : A64JitState) : A64JitState := {| reg := reg s; sp := sp s; pc := pc s; cpsr_nzcv := cpsr_nzcv s; vec := vec s; guest_MXCSR := guest_MXCSR s; asimd_MXCSR := asimd_MXCSR s; halt_reason := halt_reason s; exclusive_state := x; rsb_ptr := rsb_ptr s; rsb_location_descriptors := rsb_location_descriptors s; rsb_codeptrs := rsb_codeptrs s; fpsr_exc := fpsr_exc s; fpsr_qc := fpsr_qc s; fpcr := fpcr s |}.
Definition with_rsb_ptr x (s : A64JitState) : A64JitState := {| reg := reg s; sp := sp s; pc := pc s; cpsr_nzcv := cpsr_nzcv s; vec := vec s; guest_MXCSR := guest_MXCSR s; asimd_MXCSR := asimd_MXCSR s; halt_reason := halt_reason s; exclusive_state := exclusive_state s; rsb_ptr := x; rsb_location_descriptors := rsb_location_descriptors s; rsb_codeptrs := rsb_codeptrs s; fpsr_exc := fpsr_exc s; fpsr_qc := fpsr_qc s; fpcr := fpcr s |}.
Definition with_rsb_location_descriptors x (s : A64JitState) : A64JitState := {| reg := reg s; sp := sp s; pc := pc s; cpsr_nzcv := cpsr_nzcv s; vec := vec s; guest_MXCSR := guest_MXCSR s; asimd_MXCSR := asimd_MXCSR s; halt_reason := halt_reason s; exclusive_state := exclusive_state s; rsb_ptr := rsb_ptr s; rsb_location_descriptors := x; rsb_codeptrs := rsb_codeptrs s; fpsr_exc := fpsr_exc s; fpsr_qc := fpsr_qc s; fpcr := fpcr s |}.
Definition with_rsb_codeptrs x (s : A64JitState) : A64JitState := {| reg := reg s; sp := sp s; pc := pc s; cpsr_nzcv := cpsr_nzcv s; vec := vec s; guest_MXCSR := guest_MXCSR s; asimd_MXCSR := asimd_MXCSR s; halt_reason := halt_reason s; exclusive_state := exclusive_state s; rsb_ptr := rsb_ptr s; rsb_location_descriptors := rsb_location_descriptors s; rsb_codeptrs := x; fpsr_exc := fpsr_exc s; fpsr_qc := fpsr_qc s; fpcr := fpcr s |}.
Definition with_fpsr_exc x (s : A64JitState) : A64JitState := {| reg := reg s; sp := sp s; pc := pc s; cpsr_nzcv := cpsr_nzcv s; vec := vec s; guest_MXCSR := guest_MXCSR s; asimd_MXCSR := asimd_MXCSR s; halt_reason := halt_reason s; exclusive_state := exclusive_state s; rsb_ptr := rsb_ptr s; rsb_location_descriptors := rsb_location_descriptors s; rsb_codeptrs := rsb_codeptrs s; fpsr_exc := x; fpsr_qc := fpsr_qc s; fpcr := fpcr s |}.
Definition with_fpsr_qc x (s : A64JitState) : A64JitState := {| reg := reg s; sp := sp s; pc := pc s; cpsr_nzcv := cpsr_nzcv s; vec := vec s; guest_MXCSR := guest_MXCSR s; asimd_MXCSR := asimd_MXCSR s; halt_reason := halt_reason s; exclusive_state := exclusive_state s; rsb_ptr := rsb_ptr s; rsb_location_descriptors := rsb_location_descriptors s; rsb_codeptrs := rsb_codeptrs s; fpsr_exc := fpsr_exc s; fpsr_qc := x; fpcr := fpcr s |}.
Definition with_fpcr x (s : A64JitState) : A64JitState := {| reg := reg s; sp := sp s; pc := pc s; cpsr_nzcv := cpsr_nzcv s; vec := vec s; guest_MXCSR := guest_MXCSR s; asimd_MXCSR := asimd_MXCSR s; halt_reason := halt_reason s; exclusive_state := exclusive_state s; rsb_ptr := rsb_ptr s; rsb_location_descriptors := rsb_location_descriptors s; rsb_codeptrs := rsb_codeptrs s; fpsr_exc := fpsr_exc s; fpsr_qc := fpsr_qc s; fpcr := x |}.

Definition GetPstate (s : A64JitState) : Z := NZCV.FromX64 (cpsr_nzcv s).
Definition SetPstate (new_pstate : Z) (s : A64JitState) : A64JitState :=
  with_cpsr_nzcv (NZCV.ToX64 new_pstate) s.

Definition ResetRSB (s : A64JitState) : A64JitState :=
  with_rsb_codeptrs (replicate RSBSize 0)
    (with_rsb_location_descriptors (replicate RSBSize 0xFFFFFFFFFFFFFFFF) s).

Definition GetUniqueHash (s : A64JitState) : Z :=
  let fpcr_u64 := u64 (Z.shiftl (Z.land (fpcr s) LocationDescriptor.fpcr_mask) LocationDescriptor.fpcr_shift) in
  let pc_u64 := Z.land (pc s) LocationDescriptor.pc_mask in
  Z.lor pc_u64 fpcr_u64.

(** ** a64_jitstate.cpp *)
Definition FPCR_MASK : Z := 0x07C89F00.

Definition GetFpcr (s : A64JitState) : Z := fpcr s.

Definition MXCSR_RMode (i : Z) : Z := default 0 (nthZ [0x0; 0x4000; 0x2000; 0x6000] i).

Definition SetFpcr (value : Z) (s : A64JitState) : A64JitState :=
  let asimd := Z.lor (Z.land (asimd_MXCSR s) 0x3D) 0x1f80 in
  let guest := Z.lor (Z.land (guest_MXCSR s) 0x3D) 0x1f80 in
  let guest := Z.lor guest (MXCSR_RMode (Z.land (Z.shiftr value 22) 0x3)) in
  let guest := if bit.get_bit 32 24 value
               then Z.lor (Z.lor guest (Z.shiftl 1 15)) (Z.shiftl 1 6) else guest in
  with_guest_MXCSR guest (with_asimd_MXCSR asimd (with_fpcr (Z.land value FPCR_MASK) s)).

Definition GetFpsr (s : A64JitState) : Z :=
  let mxcsr := Z.lor (guest_MXCSR s) (asimd_MXCSR s) in
  let fpsr := Z.land mxcsr 0x1 in
  let fpsr := Z.lor fpsr (Z.shiftr (Z.land mxcsr 0x3C) 1) in
  let fpsr := Z.lor fpsr (fpsr_exc s) in
  Z.lor fpsr (Z.shiftl (if fpsr_qc s =? 0 then 0 else 1) 27).

Definition SetFpsr (value : Z) (s : A64JitState) : A64JitState :=
  with_fpsr_exc (Z.land value 0x9F)
    (with_fpsr_qc (Z.land (Z.shiftr value 27) 1)
      (with_asimd_MXCSR (Z.land (asimd_MXCSR s) (not_ 32 0x3D))
        (with_guest_MXCSR (Z.land (guest_MXCSR s) (not_ 32 0x3D)) s))).

(** ** Compiled blocks: emit_x64.cpp, a64_emit_x64.cpp, block_range_information.cpp *)

(** What compiling a block gives: where its code is, how long it is, and the
    guest PC after its last instruction. *)
Record compiled : Type := { entrypoint : Z; code_size : Z; end_pc : Z }.

(** [block_descriptors] and [block_ranges] of the emitter, and the code buffer:
    its capacity and how much of it is used. *)
Record Emitter : Type := {
  block_descriptors : gmap Z compiled;
  block_ranges : list (Z * Z * Z);
  code_capacity : Z;
  code_used : Z
}.

(** Adding a closed interval to an interval set or map; an interval whose end
    is before its start is empty and adds nothing. *)
Definition add_range {A} (lo hi : Z) (x : A) (l : list A) : list A := if lo <=? hi then x :: l else l.

(** [A64EmitX64::Emit] after code generation: register the guest range and the
    block. *)
Definition RegisterBlock (location : Z) (b : compiled) (e : Emitter) : Emitter :=
  {| block_descriptors :=
       match block_descriptors e !! location with
       | Some _ => block_descriptors e
       | None => <[location := b]> (block_descriptors e)
       end;
     block_ranges :=
       let start := LocationDescriptor.PC (LocationDescriptor.of_ir location) in
       let last := u64 (end_pc b - 1) in
       add_range start last (start, last, location) (block_ranges e);
     code_capacity := code_capacity e;
     code_used := code_used e + code_size b |}.

(** [EmitX64::GetBasicBlock]. *)
Definition GetBasicBlock (location : Z) (e : Emitter) : option compiled := block_descriptors e !! location.

(** [block_of_code.ClearCache(); emitter.ClearCache()]. *)
Definition emitter_ClearCache (e : Emitter) : Emitter :=
  {| block_descriptors := ∅; block_ranges := []; code_capacity := code_capacity e; code_used := 0 |}.

Definition overlaps (r1 r2 : Z * Z) : bool := (fst r1 <=? snd r2) && (fst r2 <=? snd r1).

(** [BlockRangeInformation::InvalidateRanges]: the locations of the ranges that
    meet an invalidated interval. *)
Definition InvalidateRanges (ranges : list (Z * Z)) (block_ranges : list (Z * Z * Z)) : list Z :=
  map snd (List.filter (fun '(r, _) => existsb (overlaps r) ranges) block_ranges).

(** [EmitX64::InvalidateBasicBlocks]. *)
Definition InvalidateBasicBlocks (locations : list Z) (e : Emitter) : Emitter :=
  {| block_descriptors := foldr (fun l m => delete l m) (block_descriptors e) locations;
     block_ranges := block_ranges e; code_capacity := code_capacity e; code_used := code_used e |}.

Definition InvalidateCacheRanges (ranges : list (Z * Z)) (e : Emitter) : Emitter :=
  InvalidateBasicBlocks (InvalidateRanges ranges (block_ranges e)) e.

(** [BlockOfCode::SpaceRemaining]. *)
Definition SpaceRemaining (e : Emitter) : Z :=
  if code_capacity e <=? code_used e then 0 else code_capacity e - code_used e.

(** ** [Jit::Impl] *)
Record Jit : Type := {
  is_executing : bool;
  jit_state : A64JitState;
  emitter : Emitter;
  invalidate_entire_cache : bool;
  invalid_cache_ranges : list (Z * Z)
}.

Definition with_is_executing b j := {| is_executing := b; jit_state := jit_state j; emitter := emitter j;
  invalidate_entire_cache := invalidate_entire_cache j; invalid_cache_ranges := invalid_cache_ranges j |}.
Definition with_jit_state s j := {| is_executing := is_executing j; jit_state := s; emitter := emitter j;
  invalidate_entire_cache := invalidate_entire_cache j; invalid_cache_ranges := invalid_cache_ranges j |}.
Definition with_emitter e j := {| is_executing := is_executing j; jit_state := jit_state j; emitter := e;
  invalidate_entire_cache := invalidate_entire_cache j; invalid_cache_ranges := invalid_cache_ranges j |}.
Definition with_invalidation all ranges j := {| is_executing := is_executing j; jit_state := jit_state j;
  emitter := emitter j; invalidate_entire_cache := all; invalid_cache_ranges := ranges |}.

(** [Jit::Jit] with a code cache of [capacity] bytes. *)
Definition new_jit (capacity : Z) : Jit :=
  {| is_executing := false; jit_state := fresh_jit_state;
     emitter := {| block_descriptors := ∅; block_ranges := []; code_capacity := capacity; code_used := 0 |};
     invalidate_entire_cache := false; invalid_cache_ranges := [] |}.

Abbreviation JM := (M Jit).

Definition on_state (f : A64JitState -> A64JitState) : JM unit :=
  modify (fun j => with_jit_state (f (jit_state j)) j).

Definition HaltExecution (hr : Z) : JM unit :=
  on_state (fun s => with_halt_reason (Atomic_Or (halt_reason s) hr) s).
Definition ClearHalt (hr : Z) : JM unit :=
  on_state (fun s => with_halt_reason (Atomic_And (halt_reason s) (not_ 32 hr)) s).

Definition ClearCache : JM unit :=
  modify (fun j => with_invalidation true (invalid_cache_ranges j) j) ;;
  HaltExecution HaltReason.CacheInvalidation.

Definition InvalidateCacheRange (start_address length : Z) : JM unit :=
  let end_address := u64 (start_address + length - 1) in
  modify (fun j => with_invalidation (invalidate_entire_cache j)
                     (add_range start_address end_address (start_address, end_address)
                       (invalid_cache_ranges j)) j) ;;
  HaltExecution HaltReason.CacheInvalidation.

Definition Reset : JM unit :=
  let! e := gets is_executing in
  assert_ (negb e) ;;
  modify (with_jit_state fresh_jit_state).

Definition GetSP : JM Z := gets (fun j => sp (jit_state j)).
Definition SetSP (value : Z) : JM unit := on_state (with_sp value).
Definition GetPC : JM Z := gets (fun j => pc (jit_state j)).
Definition SetPC (value : Z) : JM unit := on_state (with_pc value).

(** [jit_state.reg.at(index)] and [jit_state.vec.at(index)]. *)
Definition reg_at (index : Z) : JM Z :=
  let! r := gets (fun j => reg (jit_state j)) in at_ (nthZ r index).
Definition vec_at (index : Z) : JM Z :=
  let! v := gets (fun j => vec (jit_state j)) in at_ (nthZ v index).
Definition set_reg_at (index value : Z) : JM unit :=
  let! _ := reg_at index in
  on_state (fun s => with_reg (updZ (reg s) index value) s).
Definition set_vec_at (index value : Z) : JM unit :=
  let! _ := vec_at index in
  on_state (fun s => with_vec (updZ (vec s) index value) s).

Definition GetRegister (index : Z) : JM Z := if index =? 31 then GetSP else reg_at index.
Definition SetRegister (index value : Z) : JM unit :=
  if index =? 31 then SetSP value else set_reg_at index value.

Definition Vector : Type := Z * Z.
Definition GetVector (index : Z) : JM Vector :=
  let! lo := vec_at (index * 2) in
  let! hi := vec_at (index * 2 + 1) in
  ret (lo, hi).
Definition SetVector (index : Z) (value : Vector) : JM unit :=
  set_vec_at (index * 2) (fst value) ;;
  set_vec_at (index * 2 + 1) (snd value).

Definition ClearExclusiveState : JM unit := on_state (with_exclusive_state 0).
Definition IsExecuting : JM bool := gets is_executing.

Definition PerformRequestedCacheInvalidation (hr : Z) : JM unit :=
  if HaltReason.Has hr HaltReason.CacheInvalidation then
    ClearHalt HaltReason.CacheInvalidation ;;
    let! all := gets invalidate_entire_cache in
    let! ranges := gets invalid_cache_ranges in
    if negb all && match ranges with [] => true | _ => false end then ret tt
    else
      on_state ResetRSB ;;
      (if all then modify (fun j => with_emitter (emitter_ClearCache (emitter j)) j)
       else modify (fun j => with_emitter (InvalidateCacheRanges ranges (emitter j)) j)) ;;
      modify (with_invalidation false [])
  else ret tt.

Definition MINIMUM_REMAINING_CODESIZE : Z := 1 * 1024 * 1024.

(** A world in which a JIT can be reached: how its operations run there.  The
    operation faults as a whole where the JIT cannot be reached. *)
Class HasJit (W : Type) : Type := {
  on_jit : forall {A}, JM A -> M W A;
  on_jit_bind : forall {A B} (c : JM A) (k : A -> JM B) w,
    on_jit (bind c k) w = bind (on_jit c) (fun a => on_jit (k a)) w
}.

#[export] Instance Jit_HasJit : HasJit Jit.
Proof. refine {| on_jit := fun A c => c |}. reflexivity. Defined.

Section Running.
Context {W : Type} `{HasJit W}.

(** Translating, optimising and emitting the block at a location, from the
    code the world's memory holds. *)
Variable compile : W -> Z -> compiled.

(** Running the emitted code at an address: it executes guest code, makes the
    callbacks, and returns the halt reasons it consumed. *)
Variable run_code : Z -> M W Z.

Definition GetBlock (current_location : Z) : M W Z :=
  let! e := on_jit (gets emitter) in
  match GetBasicBlock current_location e with
  | Some b => ret (entrypoint b)
  | None =>
      (if SpaceRemaining e <? MINIMUM_REMAINING_CODESIZE
       then on_jit (modify (fun j => with_invalidation true (invalid_cache_ranges j) j) ;;
                    PerformRequestedCacheInvalidation HaltReason.CacheInvalidation)
       else ret tt) ;;
      let! w := get in
      let b := compile w current_location in
      on_jit (modify (fun j => with_emitter (RegisterBlock current_location b (emitter j)) j)) ;;
      ret (entrypoint b)
  end.

Definition GetCurrentBlock : M W Z :=
  let! s := on_jit (gets jit_state) in GetBlock (GetUniqueHash s).

(** The code pointer [Run] starts at: the return stack buffer's, if its top
    entry is for the current location. *)
Definition current_code_ptr : M W Z :=
  let! s := on_jit (gets jit_state) in
  let new_rsb_ptr := Z.land (u32 (rsb_ptr s - 1)) RSBPtrMask in
  let! d := deref (nthZ (rsb_location_descriptors s) new_rsb_ptr) in
  if GetUniqueHash s =? d then
    on_jit (on_state (with_rsb_ptr new_rsb_ptr)) ;;
    deref (nthZ (rsb_codeptrs s) new_rsb_ptr)
  else GetCurrentBlock.

(** [SCOPE_EXIT { is_executing = false; }] around the rest of [Run]. *)
Definition finally_not_executing {A} (c : M W A) : M W A :=
  fun w => match c w with (o, w') => (o, snd (on_jit (modify (with_is_executing false)) w')) end.

Definition Run : M W Z :=
  let! e := on_jit IsExecuting in
  assert_ (negb e) ;;
  let! hr0 := on_jit (gets (fun j => halt_reason (jit_state j))) in
  on_jit (PerformRequestedCacheInvalidation hr0) ;;
  on_jit (modify (with_is_executing true)) ;;
  finally_not_executing (
    let! ptr := current_code_ptr in
    let! hr := run_code ptr in
    on_jit (PerformRequestedCacheInvalidation hr) ;;
    ret hr).
End Running.

(** ** Lemmas *)

Lemma land_pow2_testbit x k : 0 <= k -> Z.land x (2 ^ k) = if Z.testbit x k then 2 ^ k else 0.
Proof.
  intros Hk. apply Z.bits_inj'. intros i Hi. rewrite Z.land_spec, Z.pow2_bits_eqb by lia.
  destruct (Z.eqb_spec k i) as [->|Hne].
  - destruct (Z.testbit x i) eqn:E; [|rewrite Z.bits_0; reflexivity].
    rewrite Z.pow2_bits_true by lia. reflexivity.
  - rewrite andb_false_r. destruct (Z.testbit x k); [|rewrite Z.bits_0; reflexivity].
    rewrite Z.pow2_bits_eqb by lia. destruct (Z.eqb_spec k i); [lia|reflexivity].
Qed.

(** The flag bits of an x64 flags word. *)
Lemma x64_flags_split x : Z.land x NZCV.x64_mask =
  Z.lor (Z.lor (NZCV.flag (Z.testbit x 15) (2 ^ 15)) (NZCV.flag (Z.testbit x 14) (2 ^ 14)))
        (Z.lor (NZCV.flag (Z.testbit x 8) (2 ^ 8)) (NZCV.flag (Z.testbit x 0) (2 ^ 0))).
Proof.
  unfold NZCV.flag. rewrite <- !land_pow2_testbit by lia.
  rewrite <- !Z.land_lor_distr_r. reflexivity.
Qed.

(** The top four bits of a 32-bit word. *)
Lemma nzcv_split x : in_range 32 x -> Z.shiftr x 28 =
  Z.lor (Z.lor (NZCV.flag (Z.testbit x 31) 8) (NZCV.flag (Z.testbit x 30) 4))
        (Z.lor (NZCV.flag (Z.testbit x 29) 2) (NZCV.flag (Z.testbit x 28) 1)).
Proof.
  intros Hx. assert (Z.shiftr x 28 = Z.land (Z.shiftr x 28) 15) as ->.
  { change 15 with (Z.ones 4). rewrite Z.land_ones by lia. rewrite Z.mod_small; [reflexivity|].
    rewrite Z.shiftr_div_pow2 by lia. unfold in_range in Hx. split.
    - apply Z.div_pos; lia.
    - apply Z.div_lt_upper_bound; lia. }
  change 15 with (Z.lor (Z.lor (2 ^ 3) (2 ^ 2)) (Z.lor (2 ^ 1) (2 ^ 0))).
  rewrite !Z.land_lor_distr_r, !land_pow2_testbit by lia.
  rewrite !Z.shiftr_spec by lia. reflexivity.
Qed.

Lemma arm_mask_split x : Z.land x NZCV.arm_mask =
  Z.lor (Z.lor (NZCV.flag (Z.testbit x 31) (2 ^ 31)) (NZCV.flag (Z.testbit x 30) (2 ^ 30)))
        (Z.lor (NZCV.flag (Z.testbit x 29) (2 ^ 29)) (NZCV.flag (Z.testbit x 28) (2 ^ 28))).
Proof.
  unfold NZCV.flag. rewrite <- !land_pow2_testbit by lia.
  rewrite <- !Z.land_lor_distr_r. reflexivity.
Qed.

Module LocationLemmas.
Import LocationDescriptor.

Lemma pc_mask_eq : pc_mask = Z.ones 56.
Proof. reflexivity. Qed.

Lemma fpcr_of_u32_small f : FPCR.of_u32 (Z.land f fpcr_mask) = Z.land f fpcr_mask.
Proof. unfold FPCR.of_u32. rewrite <- Z.land_assoc. reflexivity. Qed.

Lemma make_valid p f s : in_range 64 p -> in_range 32 f -> valid (make p f s).
Proof. intros Hp Hf. exists p, f. rewrite <- fpcr_of_u32_small. auto. Qed.

(** The shifted control bits: in range, and clear of the PC and step bits. *)
Lemma shifted_fpcr f : in_range 32 f ->
  u64 (Z.shiftl (Z.land f fpcr_mask) fpcr_shift) = Z.shiftl (Z.land f fpcr_mask) fpcr_shift.
Proof.
  intros Hf. apply wrap_small. apply bit.in_range_bits; [lia | |].
  - apply Z.shiftl_nonneg, Z.land_nonneg. left. apply Hf.
  - intros i Hi. unfold fpcr_shift. rewrite Z.shiftl_spec, Z.land_spec by lia.
    rewrite (bit.testbit_above 27 ltac:(lia) fpcr_mask) by (unfold in_range, fpcr_mask; lia).
    apply andb_false_r.
Qed.

Lemma fpcr_mask_low i : i < 19 -> Z.testbit fpcr_mask i = false.
Proof.
  intros Hi. destruct (Z_lt_le_dec i 0); [apply Z.testbit_neg_r; lia|].
  change fpcr_mask with (Z.shiftl 0xf9 19). rewrite Z.shiftl_spec by lia. apply Z.testbit_neg_r. lia.
Qed.

Lemma of_ir_hash l : valid l -> of_ir (UniqueHash l) = l.
Proof.
  intros (p & f & Hp & Hf & Ep & Ef). destruct l as [lp lf ls]. simpl in *. subst.
  unfold UniqueHash. simpl. rewrite shifted_fpcr by assumption.
  assert (u64 (Z.shiftl (Z.b2z ls) single_stepping_bit) = Z.shiftl (Z.b2z ls) single_stepping_bit) as ->
    by (destruct ls; reflexivity).
  set (S := Z.shiftl (Z.b2z ls) single_stepping_bit).
  assert (forall i, 0 <= i -> Z.testbit S i = (i =? 57) && ls) as HS.
  { intros i Hi. unfold S. destruct ls; simpl Z.b2z.
    - change (Z.shiftl 1 single_stepping_bit) with (2 ^ 57). rewrite Z.pow2_bits_eqb by lia.
      rewrite andb_true_r. apply Z.eqb_sym.
    - rewrite andb_false_r. unfold single_stepping_bit. rewrite Z.shiftl_0_l. apply Z.bits_0. }
  assert (forall i, 0 <= i -> Z.testbit (Z.shiftl (Z.land f fpcr_mask) fpcr_shift) i =
            Z.testbit f (i - 37) && Z.testbit fpcr_mask (i - 37)) as HF
    by (intros i Hi; rewrite Z.shiftl_spec, Z.land_spec by lia; reflexivity).
  assert (forall i, 0 <= i -> Z.testbit (Z.land p pc_mask) i = (i <? 56) && Z.testbit p i) as HP.
  { intros i Hi. rewrite Z.land_spec, pc_mask_eq, bit.testbit_ones_lt by lia. apply andb_comm. }
  unfold of_ir. f_equal.
  - apply Z.bits_inj'. intros i Hi. rewrite Z.land_spec, !Z.lor_spec, HS, HF, HP by lia.
    rewrite pc_mask_eq, bit.testbit_ones_lt by lia.
    destruct (Z.ltb_spec i 56); simpl; [|apply andb_false_r].
    rewrite fpcr_mask_low by lia. destruct (Z.eqb_spec i 57); [lia|].
    destruct (Z.testbit p i), (Z.testbit f (i - 37)); reflexivity.
  - rewrite fpcr_of_u32_small. apply Z.bits_inj'. intros i Hi.
    rewrite !Z.land_spec, Z.shiftr_spec by lia. unfold fpcr_shift at 1.
    rewrite !Z.lor_spec, HS, HF, HP by (unfold fpcr_shift; lia). unfold fpcr_shift.
    replace (i + 37 - 37) with i by lia. destruct (Z.ltb_spec (i + 37) 56).
    + rewrite fpcr_mask_low by lia. rewrite !andb_false_r. reflexivity.
    + destruct (Z.eqb_spec (i + 37) 57) as [E|]; simpl.
      * replace i with 20 by lia. change (Z.testbit fpcr_mask 20) with false.
        rewrite !andb_false_r. reflexivity.
      * destruct (Z.testbit f i), (Z.testbit fpcr_mask i); reflexivity.
  - rewrite bit.get_bit_eq by (unfold single_stepping_bit; lia). unfold single_stepping_bit.
    rewrite !Z.lor_spec, HS, HF, HP by lia. simpl.
    change (Z.testbit fpcr_mask (57 - 37)) with false. rewrite andb_false_r. reflexivity.
Qed.
End LocationLemmas.

(** *** Status words *)

Lemma fpsr_bits g a : Z.land (Z.lor g a) 0x1 = Z.land (Z.lor (Z.land g 0x3D) (Z.land a 0x3D)) 0x1 /\
  Z.land (Z.lor g a) 0x3C = Z.land (Z.lor (Z.land g 0x3D) (Z.land a 0x3D)) 0x3C.
Proof.
  split; rewrite <- Z.land_lor_distr_l, <- Z.land_assoc; reflexivity.
Qed.

(** Only the exception flags of the two MXCSR images show in the FPSR. *)
Lemma GetFpsr_flags s s' :
  Z.land (guest_MXCSR s) 0x3D = Z.land (guest_MXCSR s') 0x3D ->
  Z.land (asimd_MXCSR s) 0x3D = Z.land (asimd_MXCSR s') 0x3D ->
  fpsr_exc s = fpsr_exc s' -> fpsr_qc s = fpsr_qc s' -> GetFpsr s = GetFpsr s'.
Proof.
  intros Hg Ha He Hq. unfold GetFpsr.
  destruct (fpsr_bits (guest_MXCSR s) (asimd_MXCSR s)) as [-> ->].
  destruct (fpsr_bits (guest_MXCSR s') (asimd_MXCSR s')) as [-> ->].
  rewrite Hg, Ha, He, Hq. reflexivity.
Qed.

Lemma lor_outside_flags x c : Z.land c 0x3D = 0 -> Z.land (Z.lor x c) 0x3D = Z.land x 0x3D.
Proof. intros H. rewrite Z.land_lor_distr_l, H. apply Z.lor_0_r. Qed.

Lemma rmode_index v : in_range 2 (Z.land (Z.shiftr v 22) 3).
Proof.
  change 3 with (Z.ones 2). rewrite Z.land_ones by lia. apply Z.mod_pos_bound. reflexivity.
Qed.

Lemma MXCSR_RMode_flags i : in_range 2 i -> Z.land (MXCSR_RMode i) 0x3D = 0.
Proof.
  unfold in_range. change (2 ^ 2) with 4. intros H.
  assert (i = 0 \/ i = 1 \/ i = 2 \/ i = 3) as [->|[->|[->| ->]]] by lia; reflexivity.
Qed.

Lemma SetFpcr_guest_flags v s : Z.land (guest_MXCSR (SetFpcr v s)) 0x3D = Z.land (guest_MXCSR s) 0x3D.
Proof.
  unfold SetFpcr. cbn [guest_MXCSR with_guest_MXCSR].
  assert (forall x, Z.land (Z.land x 0x3D) 0x3D = Z.land x 0x3D) as K
    by (intros x; rewrite <- Z.land_assoc; reflexivity).
  pose proof (MXCSR_RMode_flags _ (rmode_index v)).
  destruct (bit.get_bit 32 24 v); rewrite !lor_outside_flags, K by (assumption || reflexivity); reflexivity.
Qed.

Lemma SetFpcr_asimd_flags v s : Z.land (asimd_MXCSR (SetFpcr v s)) 0x3D = Z.land (asimd_MXCSR s) 0x3D.
Proof.
  unfold SetFpcr. cbn [asimd_MXCSR with_guest_MXCSR with_asimd_MXCSR].
  rewrite lor_outside_flags by reflexivity. rewrite <- Z.land_assoc. reflexivity.
Qed.

Lemma land_not_flags x : Z.land (Z.land x (not_ 32 0x3D)) 0x3D = 0.
Proof. rewrite <- Z.land_assoc. change (Z.land (not_ 32 0x3D) 0x3D) with 0. apply Z.land_0_r. Qed.

Lemma qc_bit v : Z.shiftl (if Z.land (Z.shiftr v 27) 1 =? 0 then 0 else 1) 27 = Z.land v (2 ^ 27).
Proof.
  rewrite land_pow2_testbit by lia. change 1 with (2 ^ 0) at 1.
  rewrite land_pow2_testbit, Z.shiftr_spec by lia. destruct (Z.testbit v (0 + 27)) eqn:E;
    change (0 + 27) with 27 in E; rewrite E; reflexivity.
Qed.

(** *** The register file *)

Definition state_ok (s : A64JitState) : Prop := length (reg s) = 31%nat /\ length (vec s) = 64%nat.

Section RegisterFile.
Context (j : Jit) (OK : state_ok (jit_state j)).

Lemma GetRegister_run i : 0 <= i < 31 -> exists v, nthZ (reg (jit_state j)) i = Some v /\ GetRegister i j = (Ret v, j).
Proof.
  intros Hi. destruct OK as [HL _]. unfold GetRegister. destruct (Z.eqb_spec i 31); [lia|].
  unfold reg_at, bind, gets.
  destruct (proj1 (nthZ_Some (reg (jit_state j)) i) ltac:(rewrite HL; lia)) as [v Hv].
  exists v. rewrite Hv. auto.
Qed.

Lemma SetRegister_run i v : 0 <= i < 31 ->
  SetRegister i v j = (Ret tt, with_jit_state (with_reg (updZ (reg (jit_state j)) i v) (jit_state j)) j).
Proof.
  intros Hi. destruct (GetRegister_run i Hi) as (x & Hx & _).
  unfold SetRegister. destruct (Z.eqb_spec i 31); [lia|].
  unfold set_reg_at, reg_at, bind, gets. rewrite Hx. reflexivity.
Qed.

Lemma register_range i v : 31 < i \/ i < 0 ->
  (exists w, GetRegister i j = (Throw w, j)) /\ (exists w, SetRegister i v j = (Throw w, j)).
Proof.
  intros Hi. destruct OK as [HL _].
  assert (nthZ (reg (jit_state j)) i = None) as E by (apply nthZ_None; rewrite HL; lia).
  unfold GetRegister, SetRegister, set_reg_at, reg_at, bind, gets.
  destruct (Z.eqb_spec i 31); [lia|]. rewrite E. eauto.
Qed.

Lemma vec_at_run i : 0 <= i < 64 -> exists v, nthZ (vec (jit_state j)) i = Some v /\ vec_at i j = (Ret v, j).
Proof.
  intros Hi. destruct OK as [_ HL]. unfold vec_at, bind, gets.
  destruct (proj1 (nthZ_Some (vec (jit_state j)) i) ltac:(rewrite HL; lia)) as [v Hv].
  exists v. rewrite Hv. auto.
Qed.

Lemma GetVector_run i : 0 <= i < 32 -> exists lo hi,
  nthZ (vec (jit_state j)) (i * 2) = Some lo /\ nthZ (vec (jit_state j)) (i * 2 + 1) = Some hi /\
  GetVector i j = (Ret (lo, hi), j).
Proof.
  intros Hi. destruct (vec_at_run (i * 2) ltac:(lia)) as (lo & E1 & R1).
  destruct (vec_at_run (i * 2 + 1) ltac:(lia)) as (hi & E2 & R2).
  exists lo, hi. split; [exact E1|]. split; [exact E2|].
  unfold GetVector. unfold bind at 1. rewrite R1. unfold bind. rewrite R2. reflexivity.
Qed.

Lemma set_vec_at_run i v : 0 <= i < 64 ->
  set_vec_at i v j = (Ret tt, with_jit_state (with_vec (updZ (vec (jit_state j)) i v) (jit_state j)) j).
Proof.
  intros Hi. destruct (vec_at_run i Hi) as (x & _ & R). unfold set_vec_at, bind. rewrite R. reflexivity.
Qed.
End RegisterFile.

Lemma with_reg_ok s i v : state_ok s -> state_ok (with_reg (updZ (reg s) i v) s).
Proof. unfold state_ok. simpl. rewrite length_updZ. auto. Qed.
Lemma with_vec_ok s i v : state_ok s -> state_ok (with_vec (updZ (vec s) i v) s).
Proof. unfold state_ok. simpl. rewrite length_updZ. auto. Qed.
#[export] Hint Resolve with_reg_ok with_vec_ok : sober.

Lemma SetVector_run j i v : state_ok (jit_state j) -> 0 <= i < 32 ->
  SetVector i v j = (Ret tt, with_jit_state
    (with_vec (updZ (updZ (vec (jit_state j)) (i * 2) (fst v)) (i * 2 + 1) (snd v)) (jit_state j)) j).
Proof.
  intros OK Hi. unfold SetVector, bind at 1. rewrite (set_vec_at_run j OK) by lia.
  rewrite set_vec_at_run; [reflexivity | apply with_vec_ok; exact OK | lia].
Qed.

Lemma GetVector_only_vec j j' k : vec (jit_state j') = vec (jit_state j) ->
  fst (GetVector k j') = fst (GetVector k j).
Proof.
  intros E. unfold GetVector, vec_at, bind, gets. rewrite E.
  destruct (nthZ _ (k * 2)); [cbn [at_ ret]; rewrite E; destruct (nthZ _ (k * 2 + 1))|]; reflexivity.
Qed.

Lemma GetRegister_only_reg j j' k : reg (jit_state j') = reg (jit_state j) -> sp (jit_state j') = sp (jit_state j) ->
  fst (GetRegister k j') = fst (GetRegister k j).
Proof.
  intros E1 E2. unfold GetRegister. destruct (k =? 31); [cbn; congruence|].
  unfold reg_at, bind, gets. rewrite E1. destruct (nthZ _ k); reflexivity.
Qed.

(** *** The block cache *)

(** Every cached block has its guest range on record, unless it is empty. *)
Definition cache_ok (e : Emitter) : Prop :=
  forall l b, block_descriptors e !! l = Some b ->
    let start := LocationDescriptor.PC (LocationDescriptor.of_ir l) in
    start <= u64 (end_pc b - 1) -> (start, u64 (end_pc b - 1), l) ∈ block_ranges e.

Lemma delete_all_lookup (ls : list Z) (m : gmap Z compiled) l :
  foldr (fun l m => delete l m) m ls !! l = if decide (l ∈ ls) then None else m !! l.
Proof.
  induction ls as [|x ls IH]; cbn [foldr].
  - rewrite decide_False by set_solver. reflexivity.
  - destruct (decide (l = x)) as [->|Hne].
    + rewrite lookup_delete_eq, decide_True by set_solver. reflexivity.
    + rewrite lookup_delete_ne, IH by congruence. destruct (decide (l ∈ ls)), (decide (l ∈ x :: ls)); set_solver.
Qed.

Lemma InvalidateCacheRanges_spec e ranges l b :
  cache_ok e -> block_descriptors (InvalidateCacheRanges ranges e) !! l = Some b ->
  block_descriptors e !! l = Some b /\
  forall r, r ∈ ranges -> LocationDescriptor.PC (LocationDescriptor.of_ir l) <= u64 (end_pc b - 1) ->
    overlaps (LocationDescriptor.PC (LocationDescriptor.of_ir l), u64 (end_pc b - 1)) r = false.
Proof.
  intros OK. unfold InvalidateCacheRanges, InvalidateBasicBlocks. cbn [block_descriptors].
  rewrite delete_all_lookup. case_decide as Hn; [discriminate|]. intros Hb.
  split; [exact Hb|]. intros r Hr Hne. specialize (OK _ _ Hb Hne).
  destruct (overlaps _ r) eqn:E; [|reflexivity]. exfalso. apply Hn. unfold InvalidateRanges.
  apply list_elem_of_In, in_map_iff. eexists. split; [|apply filter_In; split; [apply list_elem_of_In, OK|]].
  - reflexivity.
  - apply existsb_exists. exists r. split; [apply list_elem_of_In, Hr | exact E].
Qed.

Lemma InvalidateCacheRanges_ok e ranges : cache_ok e -> cache_ok (InvalidateCacheRanges ranges e).
Proof.
  intros OK l b Hb. destruct (InvalidateCacheRanges_spec _ _ _ _ OK Hb) as [Hb' _]. apply OK, Hb'.
Qed.

Lemma RegisterBlock_ok l b e : cache_ok e -> cache_ok (RegisterBlock l b e).
Proof.
  intros OK l' b' Hb start Hne. unfold RegisterBlock in *. cbn [block_descriptors block_ranges] in *.
  assert (block_descriptors e !! l' = Some b' \/ (l' = l /\ b' = b)) as C.
  { destruct (block_descriptors e !! l) eqn:E; [auto|].
    apply lookup_insert_Some in Hb as [[-> ->]|[_ Hb]]; auto. }
  destruct C as [C|[-> ->]].
  - specialize (OK _ _ C Hne). unfold add_range. destruct (_ <=? _); [right|]; exact OK.
  - unfold add_range. subst start. cbn zeta. destruct (Z.leb_spec (LocationDescriptor.PC (LocationDescriptor.of_ir l)) (u64 (end_pc b - 1))); [left | lia].
Qed.

(** What handling a cache invalidation leaves behind. *)
Lemma PerformRequestedCacheInvalidation_spec j :
  cache_ok (emitter j) ->
  exists j', PerformRequestedCacheInvalidation HaltReason.CacheInvalidation j = (Ret tt, j') /\
    cache_ok (emitter j') /\
    (invalidate_entire_cache j = true -> block_descriptors (emitter j') = ∅) /\
    (forall l b, block_descriptors (emitter j') !! l = Some b ->
       block_descriptors (emitter j) !! l = Some b /\
       forall r, r ∈ invalid_cache_ranges j ->
         LocationDescriptor.PC (LocationDescriptor.of_ir l) <= u64 (end_pc b - 1) ->
         overlaps (LocationDescriptor.PC (LocationDescriptor.of_ir l), u64 (end_pc b - 1)) r = false) /\
    HaltReason.Has (halt_reason (jit_state j')) HaltReason.CacheInvalidation = false /\
    invalidate_entire_cache j' = false /\ invalid_cache_ranges j' = [].
Proof.
  intros OK. unfold PerformRequestedCacheInvalidation.
  replace (HaltReason.Has HaltReason.CacheInvalidation HaltReason.CacheInvalidation) with true by reflexivity.
  assert (forall x, HaltReason.Has (Z.land x (not_ 32 HaltReason.CacheInvalidation)) HaltReason.CacheInvalidation = false) as HH.
  { intros x. unfold HaltReason.Has. rewrite <- Z.land_assoc. change (Z.land (not_ 32 HaltReason.CacheInvalidation) HaltReason.CacheInvalidation) with 0.
    rewrite Z.land_0_r. reflexivity. }
  destruct j as [ex st e all ranges]. unfold ClearHalt, on_state, bind, modify, gets, ret.
  cbn [jit_state with_jit_state invalidate_entire_cache invalid_cache_ranges is_executing emitter].
  destruct all; [|destruct ranges as [|r0 ranges]]; cbn [negb andb]; eexists; (split; [reflexivity|]);
    cbn [emitter with_emitter with_invalidation with_jit_state jit_state halt_reason ResetRSB
         with_rsb_codeptrs with_rsb_location_descriptors with_halt_reason
         invalidate_entire_cache invalid_cache_ranges].
  - assert (forall l b, ~ block_descriptors (emitter_ClearCache e) !! l = Some b) as HE
      by (intros l b Hb; unfold emitter_ClearCache in Hb; cbn [block_descriptors] in Hb;
          rewrite lookup_empty in Hb; discriminate).
    split; [intros l b Hb; destruct (HE _ _ Hb)|]. split; [reflexivity|].
    split; [intros l b Hb; destruct (HE _ _ Hb)|]. auto.
  - split; [exact OK|]. split; [discriminate|]. split; [|auto].
    intros l b Hb. split; [exact Hb|]. intros r Hr. inversion Hr.
  - split; [apply InvalidateCacheRanges_ok, OK|]. split; [discriminate|]. split; [|auto].
    intros l b Hb. apply InvalidateCacheRanges_spec; assumption.
Qed.

Definition post_ok (o : outcome unit * Jit) : Prop := cache_ok (emitter (snd o)).

Lemma PerformRequestedCacheInvalidation_ok hr j : cache_ok (emitter j) ->
  cache_ok (emitter (snd (PerformRequestedCacheInvalidation hr j))) /\
  fst (PerformRequestedCacheInvalidation hr j) = Ret tt.
Proof.
  intros OK. destruct (HaltReason.Has hr HaltReason.CacheInvalidation) eqn:E.
  - destruct (PerformRequestedCacheInvalidation_spec j OK) as (j' & R & OK' & _).
    assert (PerformRequestedCacheInvalidation hr = PerformRequestedCacheInvalidation HaltReason.CacheInvalidation) as ->
      by (unfold PerformRequestedCacheInvalidation; rewrite E; reflexivity).
    rewrite R. auto.
  - unfold PerformRequestedCacheInvalidation. rewrite E. auto.
Qed.

(** ** Properties *)

(** The multiply-and-mask conversions of the condition flags between the
    ARM layout and the x64 flags layout equal the naive bit-by-bit versions
    quoted in the source, and are inverse to each other on the flag bits. *)
Theorem nzcv_conversions x :
  in_range 32 x ->
  NZCV.ToX64 x = NZCV.ToX64_naive x /\
  NZCV.FromX64 x = NZCV.FromX64_naive x /\
  NZCV.FromX64 (NZCV.ToX64 x) = Z.land x NZCV.arm_mask /\
  NZCV.ToX64 (NZCV.FromX64 x) = Z.land x NZCV.x64_mask.
Proof.
  intros Hx. unfold NZCV.ToX64_naive, NZCV.FromX64_naive. rewrite !bit.get_bit_eq by lia.
  rewrite arm_mask_split, x64_flags_split.
  unfold NZCV.FromX64, NZCV.ToX64. rewrite (nzcv_split x Hx), (x64_flags_split x).
  repeat split;
    (destruct (Z.testbit x 31), (Z.testbit x 30), (Z.testbit x 29), (Z.testbit x 28); reflexivity) ||
    (destruct (Z.testbit x 15), (Z.testbit x 14), (Z.testbit x 8), (Z.testbit x 0); reflexivity).
Qed.

Lemma nzcv_conversions_witness : NZCV.FromX64 (NZCV.ToX64 0x90000123) = Z.land 0x90000123 NZCV.arm_mask.
Proof. apply (nzcv_conversions 0x90000123). unfold in_range. lia. Defined.

(** Block locations are packed into a 64-bit hash without loss: decoding the
    hash of any location gives the location back, so distinct locations have
    distinct hashes (the comment's "MUST BE UNIQUE"), and the hash the JIT
    state computes for the block to run is the hash of the location of its PC
    and FPCR. *)
Theorem location_hash_unique l1 l2 :
  LocationDescriptor.valid l1 -> LocationDescriptor.valid l2 ->
  LocationDescriptor.of_ir (LocationDescriptor.UniqueHash l1) = l1 /\
  (LocationDescriptor.UniqueHash l1 = LocationDescriptor.UniqueHash l2 -> l1 = l2) /\
  (forall s, in_range 64 (pc s) -> in_range 32 (fpcr s) ->
     GetUniqueHash s = LocationDescriptor.UniqueHash (LocationDescriptor.make (pc s) (fpcr s) false)).
Proof.
  intros V1 V2. split; [apply LocationLemmas.of_ir_hash, V1|]. split.
  - intros E. rewrite <- (LocationLemmas.of_ir_hash l1 V1), <- (LocationLemmas.of_ir_hash l2 V2), E. reflexivity.
  - intros s _ _. unfold GetUniqueHash, LocationDescriptor.UniqueHash, LocationDescriptor.make. simpl.
    rewrite LocationLemmas.fpcr_of_u32_small.
    change (u64 (Z.shiftl 0 LocationDescriptor.single_stepping_bit)) with 0. rewrite Z.lor_0_r. reflexivity.
Qed.

Lemma location_hash_unique_witness :
  LocationDescriptor.of_ir (LocationDescriptor.UniqueHash (LocationDescriptor.make 0x401000 0x01000000 true)) =
  LocationDescriptor.make 0x401000 0x01000000 true.
Proof.
  assert (LocationDescriptor.valid (LocationDescriptor.make 0x401000 0x01000000 true)) as V
    by (apply LocationLemmas.make_valid; unfold in_range; lia).
  exact (proj1 (location_hash_unique _ _ V V)).
Defined.

(** C22. The guest's floating-point control and status registers are kept
    correctly in the x64 MXCSR images: FPCR reads back the bits it implements,
    writing it leaves FPSR alone and selects the host rounding mode that means
    the same; FPSR reads back its QC and exception bits, and writing it leaves
    FPCR alone. *)
Theorem fp_status_registers v s :
  in_range 32 v ->
  GetFpcr (SetFpcr v s) = Z.land v FPCR_MASK /\
  GetFpsr (SetFpcr v s) = GetFpsr s /\
  GetFpsr (SetFpsr v s) = Z.land v 0x0800009F /\
  GetFpcr (SetFpsr v s) = GetFpcr s /\
  bit.get_bits 32 13 14 (guest_MXCSR (SetFpcr v s)) =
    match FPCR.RMode v with
    | TowardsPlusInfinity => 2
    | TowardsMinusInfinity => 1
    | TowardsZero => 3
    | _ => 0
    end.
Proof.
  intros Hv. split; [reflexivity|]. split; [|split; [|split; [reflexivity|]]].
  - apply GetFpsr_flags; [apply SetFpcr_guest_flags | apply SetFpcr_asimd_flags | reflexivity | reflexivity].
  - transitivity (GetFpsr (with_fpsr_exc (Z.land v 0x9F) (with_fpsr_qc (Z.land (Z.shiftr v 27) 1)
      (with_guest_MXCSR 0 (with_asimd_MXCSR 0 s))))).
    + apply GetFpsr_flags; [apply land_not_flags | apply land_not_flags | reflexivity | reflexivity].
    + unfold GetFpsr. cbn [guest_MXCSR asimd_MXCSR fpsr_exc fpsr_qc with_fpsr_exc with_fpsr_qc
        with_guest_MXCSR with_asimd_MXCSR]. rewrite qc_bit. cbn [Z.lor Z.land Z.shiftr Z.shiftl Z.div2 Z.opp Z.iter].
      rewrite Z.lor_0_l, <- Z.land_lor_distr_r. reflexivity.
  - unfold FPCR.RMode.
    assert (bit.get_bits 32 22 23 v = Z.land (Z.shiftr v 22) 3) as ->.
    { unfold bit.get_bits. rewrite Z.shiftr_land. reflexivity. }
    unfold SetFpcr. cbn [guest_MXCSR with_guest_MXCSR].
    assert (forall a b, bit.get_bits 32 13 14 (Z.lor a b) = Z.lor (bit.get_bits 32 13 14 a) (bit.get_bits 32 13 14 b)) as L
      by (intros; unfold bit.get_bits; rewrite Z.land_lor_distr_l, Z.shiftr_lor; reflexivity).
    assert (bit.get_bits 32 13 14 (Z.land (guest_MXCSR s) 0x3D) = 0) as Z0
      by (unfold bit.get_bits; rewrite <- Z.land_assoc; change (Z.land 0x3D _) with 0; rewrite Z.land_0_r; reflexivity).
    pose proof (rmode_index v) as R. unfold in_range in R. change (2 ^ 2) with 4 in R.
    assert (Z.land (Z.shiftr v 22) 3 = 0 \/ Z.land (Z.shiftr v 22) 3 = 1 \/
            Z.land (Z.shiftr v 22) 3 = 2 \/ Z.land (Z.shiftr v 22) 3 = 3) as [->|[->|[->| ->]]] by lia;
      destruct (bit.get_bit 32 24 v); rewrite !L, Z0; reflexivity.
Qed.

Lemma fp_status_registers_witness : GetFpsr (SetFpsr 0x0800001F fresh_jit_state) = Z.land 0x0800001F 0x0800009F.
Proof. apply (fp_status_registers 0x0800001F fresh_jit_state). unfold in_range. lia. Defined.


Definition demo_block : compiled := {| entrypoint := 0x9000; code_size := 64; end_pc := 0x1010 |}.
Definition demo_jit : Jit :=
  with_emitter (RegisterBlock 0x1000 demo_block (emitter (new_jit (192 * 1024 * 1024)))) (new_jit (192 * 1024 * 1024)).


(** The register file: a write to a general register, SP (index 31) or
    vector is read back, changes no other register, and an index out of range
    throws [std::out_of_range] without changing anything. *)
Theorem register_file_laws j i v vv :
  state_ok (jit_state j) ->
  (0 <= i <= 31 ->
     exists j', SetRegister i v j = (Ret tt, j') /\ state_ok (jit_state j') /\
       GetRegister i j' = (Ret v, j') /\
       (forall k, 0 <= k <= 31 -> k <> i -> fst (GetRegister k j') = fst (GetRegister k j)) /\
       (forall k, 0 <= k < 32 -> fst (GetVector k j') = fst (GetVector k j))) /\
  (0 <= i < 32 ->
     exists j', SetVector i vv j = (Ret tt, j') /\ state_ok (jit_state j') /\
       GetVector i j' = (Ret vv, j') /\
       (forall k, 0 <= k < 32 -> k <> i -> fst (GetVector k j') = fst (GetVector k j)) /\
       (forall k, 0 <= k <= 31 -> fst (GetRegister k j') = fst (GetRegister k j))) /\
  (31 < i -> (exists w, GetRegister i j = (Throw w, j)) /\ (exists w, SetRegister i v j = (Throw w, j))).
Proof.
  intros OK. split; [|split].
  - intros Hi. destruct (Z.eqb_spec i 31) as [->|Hne].
    + eexists. split; [reflexivity|]. split; [exact OK|]. split; [reflexivity|].
      split; [|intros; apply GetVector_only_vec; reflexivity].
      intros k Hk Hne. unfold GetRegister. destruct (Z.eqb_spec k 31); [lia|].
      unfold reg_at, bind, gets. cbn [jit_state with_jit_state reg with_sp].
      destruct (nthZ _ k); reflexivity.
    + rewrite SetRegister_run by (assumption || lia). eexists. split; [reflexivity|].
      split; [apply with_reg_ok, OK|].
      split; [|split; [|intros; apply GetVector_only_vec; reflexivity]];
        unfold GetRegister; destruct OK as [HL _].
      * destruct (Z.eqb_spec i 31); [lia|]. unfold reg_at, bind, gets.
        cbn [jit_state with_jit_state reg with_reg]. rewrite nthZ_updZ_eq by (rewrite HL; lia). reflexivity.
      * intros k Hk Hki. destruct (Z.eqb_spec k 31); [reflexivity|]. unfold reg_at, bind, gets.
        cbn [jit_state with_jit_state reg with_reg].
        rewrite nthZ_updZ_ne by congruence. destruct (nthZ (reg (jit_state j)) k); reflexivity.
  - intros Hi. rewrite SetVector_run by (assumption || lia). eexists. split; [reflexivity|].
    split; [apply (with_vec_ok (with_vec _ (jit_state j))), with_vec_ok, OK|].
    split; [|split; [|intros; apply GetRegister_only_reg; reflexivity]];
      unfold GetVector, vec_at, bind, gets; cbn [jit_state with_jit_state vec with_vec];
      destruct OK as [_ HL].
    + rewrite nthZ_updZ_ne by lia. rewrite nthZ_updZ_eq by (rewrite HL; lia).
      cbn [at_ ret jit_state with_jit_state vec with_vec].
      rewrite nthZ_updZ_eq by (rewrite length_updZ, HL; lia). cbn [at_ ret].
      rewrite <- surjective_pairing. reflexivity.
    + intros k Hk Hki. rewrite !nthZ_updZ_ne by lia.
      destruct (nthZ (vec (jit_state j)) (k * 2)); [cbn [at_ ret jit_state with_jit_state vec with_vec]|reflexivity].
      rewrite !nthZ_updZ_ne by lia. destruct (nthZ (vec (jit_state j)) (k * 2 + 1)); reflexivity.
  - intros Hi. apply register_range; [exact OK | lia].
Qed.

Lemma register_file_laws_witness :
  exists j', SetRegister 5 77 (new_jit 0) = (Ret tt, j') /\ GetRegister 5 j' = (Ret 77, j').
Proof.
  assert (state_ok (jit_state (new_jit 0))) as OK by (split; reflexivity).
  destruct (register_file_laws (new_jit 0) 5 77 (0, 0) OK) as (H & _).
  destruct (H ltac:(lia)) as (j' & R & _ & G & _). exists j'. split; [exact R | exact G].
Defined.
