(* ===== verification/A64Table.v ===== *)
(** The A64 instruction set of dynarmic as data: the [INST] rows of
    subprojects/dynarmic/src/dynarmic/frontend/A64/decoder/a64.inc (visitor
    method, instruction name, 32-character bitstring) and the signatures of the
    visitor methods declared in frontend/A64/translate/impl/impl.h.  Each
    definition holds the rows of one run of source lines. *)
From S2P Require Import Prelude.
Local Open Scope string_scope.
Local Open Scope list_scope.

(** Parameter types of the visitor methods: [Imm<n>], [Reg], [Vec], [bool],
    [Cond], [size_t]. *)
Inductive argty : Type :=
| AImm (n : Z)
| AReg
| AVec
| ABool
| ACond
| ASize.

(** One [INST(fn, name, bitstring)] row. *)
Record inst_row : Type := INST {
  row_fn : string;
  row_name : string;
  row_bits : string
}.

Definition a64_inc_1 : list inst_row := [
  INST "ADR" "ADR" "0ii10000iiiiiiiiiiiiiiiiiiiddddd";
  INST "ADRP" "ADRP" "1ii10000iiiiiiiiiiiiiiiiiiiddddd";
  INST "ADD_imm" "ADD (immediate)" "z0010001ssiiiiiiiiiiiinnnnnddddd";
  INST "ADDS_imm" "ADDS (immediate)" "z0110001ssiiiiiiiiiiiinnnnnddddd";
  INST "SUB_imm" "SUB (immediate)" "z1010001ssiiiiiiiiiiiinnnnnddddd";
  INST "SUBS_imm" "SUBS (immediate)" "z1110001ssiiiiiiiiiiiinnnnnddddd";
  INST "AND_imm" "AND (immediate)" "z00100100Nrrrrrrssssssnnnnnddddd";
  INST "ORR_imm" "ORR (immediate)" "z01100100Nrrrrrrssssssnnnnnddddd";
  INST "EOR_imm" "EOR (immediate)" "z10100100Nrrrrrrssssssnnnnnddddd";
  INST "ANDS_imm" "ANDS (immediate)" "z11100100Nrrrrrrssssssnnnnnddddd";
  INST "MOVN" "MOVN" "z00100101ssiiiiiiiiiiiiiiiiddddd";
  INST "MOVZ" "MOVZ" "z10100101ssiiiiiiiiiiiiiiiiddddd";
  INST "MOVK" "MOVK" "z11100101ssiiiiiiiiiiiiiiiiddddd";
  INST "SBFM" "SBFM" "z00100110Nrrrrrrssssssnnnnnddddd";
  INST "BFM" "BFM" "z01100110Nrrrrrrssssssnnnnnddddd";
  INST "UBFM" "UBFM" "z10100110Nrrrrrrssssssnnnnnddddd";
  INST "ASR_1" "ASR (immediate, 32-bit)" "00010011000rrrrr011111nnnnnddddd";
  INST "ASR_2" "ASR (immediate, 64-bit)" "1001001101rrrrrr111111nnnnnddddd";
  INST "SXTB_1" "SXTB (32-bit)" "0001001100000000000111nnnnnddddd";
  INST "SXTB_2" "SXTB (64-bit)" "1001001101000000000111nnnnnddddd";
  INST "SXTH_1" "SXTH (32-bit)" "0001001100000000001111nnnnnddddd";
  INST "SXTH_2" "SXTH (64-bit)" "1001001101000000001111nnnnnddddd";
  INST "SXTW" "SXTW" "1001001101000000011111nnnnnddddd";
  INST "EXTR" "EXTR" "z00100111N0mmmmmssssssnnnnnddddd";
  INST "B_cond" "B.cond" "01010100iiiiiiiiiiiiiiiiiii0cccc";
  INST "SVC" "SVC" "11010100000iiiiiiiiiiiiiiii00001";
  INST "BRK" "BRK" "11010100001iiiiiiiiiiiiiiii00000";
  INST "HINT" "HINT" "11010101000000110010MMMMooo11111";
  INST "NOP" "NOP" "11010101000000110010000000011111";
  INST "YIELD" "YIELD" "11010101000000110010000000111111";
  INST "WFE" "WFE" "11010101000000110010000001011111";
  INST "WFI" "WFI" "11010101000000110010000001111111";
  INST "SEV" "SEV" "11010101000000110010000010011111";
  INST "SEVL" "SEVL" "11010101000000110010000010111111";
  INST "CLREX" "CLREX" "11010101000000110011MMMM01011111";
  INST "DSB" "DSB" "11010101000000110011MMMM10011111";
  INST "DMB" "DMB" "11010101000000110011MMMM10111111";
  INST "ISB" "ISB" "11010101000000110011MMMM11011111";
  INST "MSR_reg" "MSR (register)" "110101010001poooNNNNMMMMooottttt";
  INST "MRS" "MRS" "110101010011poooNNNNMMMMooottttt";
  INST "CFINV" "CFINV" "11010101000000000100000000011111";
  INST "RMIF" "RMIF" "10111010000iiiiii00001nnnnn0IIII";
  INST "XAFlag" "XAFlag" "11010101000000000100000000111111";
  INST "AXFlag" "AXFlag" "11010101000000000100000001011111";
  INST "DC_IVAC" "DC IVAC" "110101010000100001110110001ttttt";
  INST "DC_ISW" "DC ISW" "110101010000100001110110010ttttt";
  INST "DC_CSW" "DC CSW" "110101010000100001111010010ttttt";
  INST "DC_CISW" "DC CISW" "110101010000100001111110010ttttt";
  INST "DC_ZVA" "DC ZVA" "110101010000101101110100001ttttt";
  INST "DC_CVAC" "DC CVAC" "110101010000101101111010001ttttt";
  INST "DC_CVAU" "DC CVAU" "110101010000101101111011001ttttt";
  INST "DC_CVAP" "DC CVAP" "110101010000101101111100001ttttt";
  INST "DC_CIVAC" "DC CIVAC" "110101010000101101111110001ttttt";
  INST "IC_IALLU" "IC IALLU" "11010101000010000111010100011111";
  INST "IC_IALLUIS" "IC IALLUIS" "11010101000010000111000100011111";
  INST "IC_IVAU" "IC IVAU" "110101010000101101110101001ttttt";
  INST "BLR" "BLR" "1101011000111111000000nnnnn00000";
  INST "BR" "BR" "1101011000011111000000nnnnn00000";
  INST "RET" "RET" "1101011001011111000000nnnnn00000";
  INST "B_uncond" "B" "000101iiiiiiiiiiiiiiiiiiiiiiiiii";
  INST "BL" "BL" "100101iiiiiiiiiiiiiiiiiiiiiiiiii";
  INST "CBZ" "CBZ" "z0110100iiiiiiiiiiiiiiiiiiittttt";
  INST "CBNZ" "CBNZ" "z0110101iiiiiiiiiiiiiiiiiiittttt";
  INST "TBZ" "TBZ" "b0110110bbbbbiiiiiiiiiiiiiittttt";
  INST "TBNZ" "TBNZ" "b0110111bbbbbiiiiiiiiiiiiiittttt";
  INST "STx_mult_1" "STx (multiple structures)" "0Q00110000000000oooozznnnnnttttt";
  INST "STx_mult_2" "STx (multiple structures)" "0Q001100100mmmmmoooozznnnnnttttt";
  INST "LDx_mult_1" "LDx (multiple structures)" "0Q00110001000000oooozznnnnnttttt";
  INST "LDx_mult_2" "LDx (multiple structures)" "0Q001100110mmmmmoooozznnnnnttttt";
  INST "ST1_sngl_1" "ST1 (single structure)" "0Q00110100000000oo0Szznnnnnttttt";
  INST "ST1_sngl_2" "ST1 (single structure)" "0Q001101100mmmmmoo0Szznnnnnttttt";
  INST "ST3_sngl_1" "ST3 (single structure)" "0Q00110100000000oo1Szznnnnnttttt";
  INST "ST3_sngl_2" "ST3 (single structure)" "0Q001101100mmmmmoo1Szznnnnnttttt";
  INST "ST2_sngl_1" "ST2 (single structure)" "0Q00110100100000oo0Szznnnnnttttt"].

Definition a64_inc_2 : list inst_row := [
  INST "ST2_sngl_2" "ST2 (single structure)" "0Q001101101mmmmmoo0Szznnnnnttttt";
  INST "ST4_sngl_1" "ST4 (single structure)" "0Q00110100100000oo1Szznnnnnttttt";
  INST "ST4_sngl_2" "ST4 (single structure)" "0Q001101101mmmmmoo1Szznnnnnttttt";
  INST "LD1_sngl_1" "LD1 (single structure)" "0Q00110101000000oo0Szznnnnnttttt";
  INST "LD1_sngl_2" "LD1 (single structure)" "0Q001101110mmmmmoo0Szznnnnnttttt";
  INST "LD3_sngl_1" "LD3 (single structure)" "0Q00110101000000oo1Szznnnnnttttt";
  INST "LD3_sngl_2" "LD3 (single structure)" "0Q001101110mmmmmoo1Szznnnnnttttt";
  INST "LD1R_1" "LD1R" "0Q001101010000001100zznnnnnttttt";
  INST "LD1R_2" "LD1R" "0Q001101110mmmmm1100zznnnnnttttt";
  INST "LD3R_1" "LD3R" "0Q001101010000001110zznnnnnttttt";
  INST "LD3R_2" "LD3R" "0Q001101110mmmmm1110zznnnnnttttt";
  INST "LD2_sngl_1" "LD2 (single structure)" "0Q00110101100000oo0Szznnnnnttttt";
  INST "LD2_sngl_2" "LD2 (single structure)" "0Q001101111mmmmmoo0Szznnnnnttttt";
  INST "LD4_sngl_1" "LD4 (single structure)" "0Q00110101100000oo1Szznnnnnttttt";
  INST "LD4_sngl_2" "LD4 (single structure)" "0Q001101111mmmmmoo1Szznnnnnttttt";
  INST "LD2R_1" "LD2R" "0Q001101011000001100zznnnnnttttt";
  INST "LD2R_2" "LD2R" "0Q001101111mmmmm1100zznnnnnttttt";
  INST "LD4R_1" "LD4R" "0Q001101011000001110zznnnnnttttt";
  INST "LD4R_2" "LD4R" "0Q001101111mmmmm1110zznnnnnttttt";
  INST "STXR" "STXRB, STXRH, STXR" "zz001000000sssss011111nnnnnttttt";
  INST "STLXR" "STLXRB, STLXRH, STLXR" "zz001000000sssss111111nnnnnttttt";
  INST "STXP" "STXP" "1z001000001sssss0uuuuunnnnnttttt";
  INST "STLXP" "STLXP" "1z001000001sssss1uuuuunnnnnttttt";
  INST "LDXR" "LDXRB, LDXRH, LDXR" "zz00100001011111011111nnnnnttttt";
  INST "LDAXR" "LDAXRB, LDAXRH, LDAXR" "zz00100001011111111111nnnnnttttt";
  INST "LDXP" "LDXP" "1z001000011111110uuuuunnnnnttttt";
  INST "LDAXP" "LDAXP" "1z001000011111111uuuuunnnnnttttt";
  INST "STLLR" "STLLRB, STLLRH, STLLR" "zz00100010011111011111nnnnnttttt";
  INST "STLR" "STLRB, STLRH, STLR" "zz00100010011111111111nnnnnttttt";
  INST "LDLAR" "LDLARB, LDLARH, LDLAR" "zz00100011011111011111nnnnnttttt";
  INST "LDAR" "LDARB, LDARH, LDAR" "zz00100011011111111111nnnnnttttt";
  INST "LDR_lit_gen" "LDR (literal)" "0z011000iiiiiiiiiiiiiiiiiiittttt";
  INST "LDRSW_lit" "LDRSW (literal)" "10011000iiiiiiiiiiiiiiiiiiittttt";
  INST "PRFM_lit" "PRFM (literal)" "11011000iiiiiiiiiiiiiiiiiiittttt";
  INST "LDR_lit_fpsimd" "LDR (literal, SIMD&FP)" "oo011100iiiiiiiiiiiiiiiiiiittttt";
  INST "STNP_LDNP_gen" "STNP/LDNP" "o01010000Liiiiiiiuuuuunnnnnttttt";
  INST "STNP_LDNP_fpsimd" "STNP/LDNP (SIMD&FP)" "oo1011000Liiiiiiiuuuuunnnnnttttt";
  INST "STP_LDP_gen" "STP/LDP" "oo10100pwLiiiiiiiuuuuunnnnnttttt";
  INST "UnallocatedEncoding" "" "--1010000-----------------------";
  INST "STP_LDP_fpsimd" "STP/LDP (SIMD&FP)" "oo10110pwLiiiiiiiuuuuunnnnnttttt";
  INST "UnallocatedEncoding" "" "--1011000-----------------------";
  INST "STURx_LDURx" "STURx/LDURx" "zz111000oo0iiiiiiiii00nnnnnttttt";
  INST "UnallocatedEncoding" "" "111110001-0---------00----------";
  INST "UnallocatedEncoding" "" "10111000110---------00----------";
  INST "PRFM_imm" "PRFM (immediate)" "1111100110iiiiiiiiiiiinnnnnttttt";
  INST "PRFM_unscaled_imm" "PRFM (unscaled offset)" "11111000100iiiiiiiii00nnnnnttttt";
  INST "STUR_fpsimd" "STUR (SIMD&FP)" "zz111100o00iiiiiiiii00nnnnnttttt";
  INST "LDUR_fpsimd" "LDUR (SIMD&FP)" "zz111100o10iiiiiiiii00nnnnnttttt";
  INST "STRx_LDRx_imm_1" "STRx/LDRx (immediate)" "zz111000oo0iiiiiiiiip1nnnnnttttt";
  INST "STRx_LDRx_imm_2" "STRx/LDRx (immediate)" "zz111001ooiiiiiiiiiiiinnnnnttttt";
  INST "UnallocatedEncoding" "" "111110001-0----------1----------";
  INST "UnallocatedEncoding" "" "10111000110----------1----------";
  INST "UnallocatedEncoding" "" "1111100111----------------------";
  INST "UnallocatedEncoding" "" "1011100111----------------------";
  INST "STR_imm_fpsimd_1" "STR (immediate, SIMD&FP)" "zz111100o00iiiiiiiiip1nnnnnttttt";
  INST "STR_imm_fpsimd_2" "STR (immediate, SIMD&FP)" "zz111101o0iiiiiiiiiiiinnnnnttttt";
  INST "LDR_imm_fpsimd_1" "LDR (immediate, SIMD&FP)" "zz111100o10iiiiiiiiip1nnnnnttttt";
  INST "LDR_imm_fpsimd_2" "LDR (immediate, SIMD&FP)" "zz111101o1iiiiiiiiiiiinnnnnttttt";
  INST "STTRB" "STTRB" "00111000000iiiiiiiii10nnnnnttttt";
  INST "LDTRB" "LDTRB" "00111000010iiiiiiiii10nnnnnttttt";
  INST "LDTRSB" "LDTRSB" "00111000oo0iiiiiiiii10nnnnnttttt";
  INST "STTRH" "STTRH" "01111000000iiiiiiiii10nnnnnttttt";
  INST "LDTRH" "LDTRH" "01111000010iiiiiiiii10nnnnnttttt";
  INST "LDTRSH" "LDTRSH" "01111000oo0iiiiiiiii10nnnnnttttt";
  INST "STTR" "STTR" "zz111000000iiiiiiiii10nnnnnttttt";
  INST "LDTR" "LDTR" "zz111000010iiiiiiiii10nnnnnttttt";
  INST "LDTRSW" "LDTRSW" "10111000100iiiiiiiii10nnnnnttttt";
  INST "STRx_reg" "STRx (register)" "zz111000o01mmmmmxxxS10nnnnnttttt";
  INST "LDRx_reg" "LDRx (register)" "zz111000o11mmmmmxxxS10nnnnnttttt";
  INST "STR_reg_fpsimd" "STR (register, SIMD&FP)" "zz111100o01mmmmmxxxS10nnnnnttttt";
  INST "LDR_reg_fpsimd" "LDR (register, SIMD&FP)" "zz111100o11mmmmmxxxS10nnnnnttttt"].

Definition a64_inc_3 : list inst_row := [
  INST "UDIV" "UDIV" "z0011010110mmmmm000010nnnnnddddd";
  INST "SDIV" "SDIV" "z0011010110mmmmm000011nnnnnddddd";
  INST "LSLV" "LSLV" "z0011010110mmmmm001000nnnnnddddd";
  INST "LSRV" "LSRV" "z0011010110mmmmm001001nnnnnddddd";
  INST "ASRV" "ASRV" "z0011010110mmmmm001010nnnnnddddd";
  INST "RORV" "RORV" "z0011010110mmmmm001011nnnnnddddd";
  INST "CRC32" "CRC32B, CRC32H, CRC32W, CRC32X" "z0011010110mmmmm0100zznnnnnddddd";
  INST "CRC32C" "CRC32CB, CRC32CH, CRC32CW, CRC32CX" "z0011010110mmmmm0101zznnnnnddddd";
  INST "RBIT_int" "RBIT" "z101101011000000000000nnnnnddddd";
  INST "REV16_int" "REV16" "z101101011000000000001nnnnnddddd";
  INST "REV" "REV" "z10110101100000000001onnnnnddddd";
  INST "CLZ_int" "CLZ" "z101101011000000000100nnnnnddddd";
  INST "CLS_int" "CLS" "z101101011000000000101nnnnnddddd";
  INST "REV32_int" "REV32" "1101101011000000000010nnnnnddddd";
  INST "AND_shift" "AND (shifted register)" "z0001010ss0mmmmmiiiiiinnnnnddddd";
  INST "BIC_shift" "BIC (shifted register)" "z0001010ss1mmmmmiiiiiinnnnnddddd";
  INST "ORR_shift" "ORR (shifted register)" "z0101010ss0mmmmmiiiiiinnnnnddddd";
  INST "ORN_shift" "ORN (shifted register)" "z0101010ss1mmmmmiiiiiinnnnnddddd";
  INST "EOR_shift" "EOR (shifted register)" "z1001010ss0mmmmmiiiiiinnnnnddddd";
  INST "EON" "EON (shifted register)" "z1001010ss1mmmmmiiiiiinnnnnddddd";
  INST "ANDS_shift" "ANDS (shifted register)" "z1101010ss0mmmmmiiiiiinnnnnddddd";
  INST "BICS" "BICS (shifted register)" "z1101010ss1mmmmmiiiiiinnnnnddddd";
  INST "ADD_shift" "ADD (shifted register)" "z0001011ss0mmmmmiiiiiinnnnnddddd";
  INST "ADDS_shift" "ADDS (shifted register)" "z0101011ss0mmmmmiiiiiinnnnnddddd";
  INST "SUB_shift" "SUB (shifted register)" "z1001011ss0mmmmmiiiiiinnnnnddddd";
  INST "SUBS_shift" "SUBS (shifted register)" "z1101011ss0mmmmmiiiiiinnnnnddddd";
  INST "ADD_ext" "ADD (extended register)" "z0001011001mmmmmxxxiiinnnnnddddd";
  INST "ADDS_ext" "ADDS (extended register)" "z0101011001mmmmmxxxiiinnnnnddddd";
  INST "SUB_ext" "SUB (extended register)" "z1001011001mmmmmxxxiiinnnnnddddd";
  INST "SUBS_ext" "SUBS (extended register)" "z1101011001mmmmmxxxiiinnnnnddddd";
  INST "ADC" "ADC" "z0011010000mmmmm000000nnnnnddddd";
  INST "ADCS" "ADCS" "z0111010000mmmmm000000nnnnnddddd";
  INST "SBC" "SBC" "z1011010000mmmmm000000nnnnnddddd";
  INST "SBCS" "SBCS" "z1111010000mmmmm000000nnnnnddddd";
  INST "CCMN_reg" "CCMN (register)" "z0111010010mmmmmcccc00nnnnn0ffff";
  INST "CCMP_reg" "CCMP (register)" "z1111010010mmmmmcccc00nnnnn0ffff";
  INST "CCMN_imm" "CCMN (immediate)" "z0111010010iiiiicccc10nnnnn0ffff";
  INST "CCMP_imm" "CCMP (immediate)" "z1111010010iiiiicccc10nnnnn0ffff";
  INST "CSEL" "CSEL" "z0011010100mmmmmcccc00nnnnnddddd";
  INST "CSINC" "CSINC" "z0011010100mmmmmcccc01nnnnnddddd";
  INST "CSINV" "CSINV" "z1011010100mmmmmcccc00nnnnnddddd";
  INST "CSNEG" "CSNEG" "z1011010100mmmmmcccc01nnnnnddddd";
  INST "MADD" "MADD" "z0011011000mmmmm0aaaaannnnnddddd";
  INST "MSUB" "MSUB" "z0011011000mmmmm1aaaaannnnnddddd";
  INST "SMADDL" "SMADDL" "10011011001mmmmm0aaaaannnnnddddd";
  INST "SMSUBL" "SMSUBL" "10011011001mmmmm1aaaaannnnnddddd";
  INST "SMULH" "SMULH" "10011011010mmmmm011111nnnnnddddd";
  INST "UMADDL" "UMADDL" "10011011101mmmmm0aaaaannnnnddddd";
  INST "UMSUBL" "UMSUBL" "10011011101mmmmm1aaaaannnnnddddd";
  INST "UMULH" "UMULH" "10011011110mmmmm011111nnnnnddddd";
  INST "AESE" "AESE" "0100111000101000010010nnnnnddddd";
  INST "AESD" "AESD" "0100111000101000010110nnnnnddddd";
  INST "AESMC" "AESMC" "0100111000101000011010nnnnnddddd";
  INST "AESIMC" "AESIMC" "0100111000101000011110nnnnnddddd";
  INST "SHA1C" "SHA1C" "01011110000mmmmm000000nnnnnddddd";
  INST "SHA1P" "SHA1P" "01011110000mmmmm000100nnnnnddddd";
  INST "SHA1M" "SHA1M" "01011110000mmmmm001000nnnnnddddd";
  INST "SHA1SU0" "SHA1SU0" "01011110000mmmmm001100nnnnnddddd";
  INST "SHA256H" "SHA256H" "01011110000mmmmm010000nnnnnddddd";
  INST "SHA256H2" "SHA256H2" "01011110000mmmmm010100nnnnnddddd";
  INST "SHA256SU1" "SHA256SU1" "01011110000mmmmm011000nnnnnddddd";
  INST "SHA1H" "SHA1H" "0101111000101000000010nnnnnddddd";
  INST "SHA1SU1" "SHA1SU1" "0101111000101000000110nnnnnddddd";
  INST "SHA256SU0" "SHA256SU0" "0101111000101000001010nnnnnddddd";
  INST "DUP_elt_1" "DUP (element)" "01011110000iiiii000001nnnnnddddd";
  INST "FMULX_vec_2" "FMULX" "010111100z1mmmmm110111nnnnnddddd";
  INST "FCMEQ_reg_1" "FCMEQ (register)" "01011110010mmmmm001001nnnnnddddd";
  INST "FCMEQ_reg_2" "FCMEQ (register)" "010111100z1mmmmm111001nnnnnddddd";
  INST "FRECPS_1" "FRECPS" "01011110010mmmmm001111nnnnnddddd";
  INST "FRECPS_2" "FRECPS" "010111100z1mmmmm111111nnnnnddddd";
  INST "FRSQRTS_1" "FRSQRTS" "01011110110mmmmm001111nnnnnddddd";
  INST "FRSQRTS_2" "FRSQRTS" "010111101z1mmmmm111111nnnnnddddd";
  INST "FCMGE_reg_2" "FCMGE (register)" "011111100z1mmmmm111001nnnnnddddd";
  INST "FACGE_2" "FACGE" "011111100z1mmmmm111011nnnnnddddd";
  INST "FABD_2" "FABD" "011111101z1mmmmm110101nnnnnddddd";
  INST "FCMGT_reg_2" "FCMGT (register)" "011111101z1mmmmm111001nnnnnddddd";
  INST "FACGT_2" "FACGT" "011111101z1mmmmm111011nnnnnddddd";
  INST "FCVTNS_2" "FCVTNS (vector)" "010111100z100001101010nnnnnddddd";
  INST "FCVTMS_2" "FCVTMS (vector)" "010111100z100001101110nnnnnddddd";
  INST "FCVTAS_2" "FCVTAS (vector)" "010111100z100001110010nnnnnddddd";
  INST "SCVTF_int_2" "SCVTF (vector, integer)" "010111100z100001110110nnnnnddddd";
  INST "FCMGT_zero_2" "FCMGT (zero)" "010111101z100000110010nnnnnddddd";
  INST "FCMEQ_zero_1" "FCMEQ (zero)" "0101111011111000110110nnnnnddddd";
  INST "FCMEQ_zero_2" "FCMEQ (zero)" "010111101z100000110110nnnnnddddd";
  INST "FCMLT_2" "FCMLT (zero)" "010111101z100000111010nnnnnddddd";
  INST "FCVTPS_2" "FCVTPS (vector)" "010111101z100001101010nnnnnddddd";
  INST "FCVTZS_int_2" "FCVTZS (vector, integer)" "010111101z100001101110nnnnnddddd";
  INST "FRECPE_1" "FRECPE" "0101111011111001110110nnnnnddddd";
  INST "FRECPE_2" "FRECPE" "010111101z100001110110nnnnnddddd";
  INST "FRECPX_1" "FRECPX" "0101111011111001111110nnnnnddddd";
  INST "FRECPX_2" "FRECPX" "010111101z100001111110nnnnnddddd";
  INST "FCVTNU_2" "FCVTNU (vector)" "011111100z100001101010nnnnnddddd";
  INST "FCVTMU_2" "FCVTMU (vector)" "011111100z100001101110nnnnnddddd";
  INST "FCVTAU_2" "FCVTAU (vector)" "011111100z100001110010nnnnnddddd";
  INST "UCVTF_int_2" "UCVTF (vector, integer)" "011111100z100001110110nnnnnddddd";
  INST "FCMGE_zero_2" "FCMGE (zero)" "011111101z100000110010nnnnnddddd"].

Definition a64_inc_4 : list inst_row := [
  INST "FCMLE_2" "FCMLE (zero)" "011111101z100000110110nnnnnddddd";
  INST "FCVTPU_2" "FCVTPU (vector)" "011111101z100001101010nnnnnddddd";
  INST "FCVTZU_int_2" "FCVTZU (vector, integer)" "011111101z100001101110nnnnnddddd";
  INST "FRSQRTE_1" "FRSQRTE" "0111111011111001110110nnnnnddddd";
  INST "FRSQRTE_2" "FRSQRTE" "011111101z100001110110nnnnnddddd";
  INST "SUQADD_1" "SUQADD" "01011110zz100000001110nnnnnddddd";
  INST "SQABS_1" "SQABS" "01011110zz100000011110nnnnnddddd";
  INST "CMGT_zero_1" "CMGT (zero)" "01011110zz100000100010nnnnnddddd";
  INST "CMEQ_zero_1" "CMEQ (zero)" "01011110zz100000100110nnnnnddddd";
  INST "CMLT_1" "CMLT (zero)" "01011110zz100000101010nnnnnddddd";
  INST "ABS_1" "ABS" "01011110zz100000101110nnnnnddddd";
  INST "SQXTN_1" "SQXTN, SQXTN2" "01011110zz100001010010nnnnnddddd";
  INST "USQADD_1" "USQADD" "01111110zz100000001110nnnnnddddd";
  INST "SQNEG_1" "SQNEG" "01111110zz100000011110nnnnnddddd";
  INST "CMGE_zero_1" "CMGE (zero)" "01111110zz100000100010nnnnnddddd";
  INST "CMLE_1" "CMLE (zero)" "01111110zz100000100110nnnnnddddd";
  INST "NEG_1" "NEG (vector)" "01111110zz100000101110nnnnnddddd";
  INST "SQXTUN_1" "SQXTUN, SQXTUN2" "01111110zz100001001010nnnnnddddd";
  INST "UQXTN_1" "UQXTN, UQXTN2" "01111110zz100001010010nnnnnddddd";
  INST "FCVTXN_1" "FCVTXN, FCVTXN2" "011111100z100001011010nnnnnddddd";
  INST "ADDP_pair" "ADDP (scalar)" "01011110zz110001101110nnnnnddddd";
  INST "FMAXNMP_pair_2" "FMAXNMP (scalar)" "011111100z110000110010nnnnnddddd";
  INST "FADDP_pair_2" "FADDP (scalar)" "011111100z110000110110nnnnnddddd";
  INST "FMAXP_pair_2" "FMAXP (scalar)" "011111100z110000111110nnnnnddddd";
  INST "FMINNMP_pair_2" "FMINNMP (scalar)" "011111101z110000110010nnnnnddddd";
  INST "FMINP_pair_2" "FMINP (scalar)" "011111101z110000111110nnnnnddddd";
  INST "SQADD_1" "SQADD" "01011110zz1mmmmm000011nnnnnddddd";
  INST "SQSUB_1" "SQSUB" "01011110zz1mmmmm001011nnnnnddddd";
  INST "CMGT_reg_1" "CMGT (register)" "01011110zz1mmmmm001101nnnnnddddd";
  INST "CMGE_reg_1" "CMGE (register)" "01011110zz1mmmmm001111nnnnnddddd";
  INST "SSHL_1" "SSHL" "01011110zz1mmmmm010001nnnnnddddd";
  INST "SQSHL_reg_1" "SQSHL (register)" "01011110zz1mmmmm010011nnnnnddddd";
  INST "SRSHL_1" "SRSHL" "01011110zz1mmmmm010101nnnnnddddd";
  INST "ADD_1" "ADD (vector)" "01011110zz1mmmmm100001nnnnnddddd";
  INST "CMTST_1" "CMTST" "01011110zz1mmmmm100011nnnnnddddd";
  INST "SQDMULH_vec_1" "SQDMULH (vector)" "01011110zz1mmmmm101101nnnnnddddd";
  INST "UQADD_1" "UQADD" "01111110zz1mmmmm000011nnnnnddddd";
  INST "UQSUB_1" "UQSUB" "01111110zz1mmmmm001011nnnnnddddd";
  INST "CMHI_1" "CMHI (register)" "01111110zz1mmmmm001101nnnnnddddd";
  INST "CMHS_1" "CMHS (register)" "01111110zz1mmmmm001111nnnnnddddd";
  INST "USHL_1" "USHL" "01111110zz1mmmmm010001nnnnnddddd";
  INST "UQSHL_reg_1" "UQSHL (register)" "01111110zz1mmmmm010011nnnnnddddd";
  INST "URSHL_1" "URSHL" "01111110zz1mmmmm010101nnnnnddddd";
  INST "SUB_1" "SUB (vector)" "01111110zz1mmmmm100001nnnnnddddd";
  INST "CMEQ_reg_1" "CMEQ (register)" "01111110zz1mmmmm100011nnnnnddddd";
  INST "SQRDMULH_vec_1" "SQRDMULH (vector)" "01111110zz1mmmmm101101nnnnnddddd";
  INST "SSHR_1" "SSHR" "010111110IIIIiii000001nnnnnddddd";
  INST "SSRA_1" "SSRA" "010111110IIIIiii000101nnnnnddddd";
  INST "SRSHR_1" "SRSHR" "010111110IIIIiii001001nnnnnddddd";
  INST "SRSRA_1" "SRSRA" "010111110IIIIiii001101nnnnnddddd";
  INST "SHL_1" "SHL" "010111110IIIIiii010101nnnnnddddd";
  INST "SQSHL_imm_1" "SQSHL (immediate)" "010111110IIIIiii011101nnnnnddddd";
  INST "SQSHRN_1" "SQSHRN, SQSHRN2" "010111110IIIIiii100101nnnnnddddd";
  INST "SCVTF_fix_1" "SCVTF (vector, fixed-point)" "010111110IIIIiii111001nnnnnddddd";
  INST "FCVTZS_fix_1" "FCVTZS (vector, fixed-point)" "010111110IIIIiii111111nnnnnddddd";
  INST "USHR_1" "USHR" "011111110IIIIiii000001nnnnnddddd";
  INST "USRA_1" "USRA" "011111110IIIIiii000101nnnnnddddd";
  INST "URSHR_1" "URSHR" "011111110IIIIiii001001nnnnnddddd";
  INST "URSRA_1" "URSRA" "011111110IIIIiii001101nnnnnddddd";
  INST "SRI_1" "SRI" "011111110IIIIiii010001nnnnnddddd";
  INST "SLI_1" "SLI" "011111110IIIIiii010101nnnnnddddd";
  INST "SQSHLU_1" "SQSHLU" "011111110IIIIiii011001nnnnnddddd";
  INST "UQSHL_imm_1" "UQSHL (immediate)" "011111110IIIIiii011101nnnnnddddd";
  INST "SQSHRUN_1" "SQSHRUN, SQSHRUN2" "011111110IIIIiii100001nnnnnddddd";
  INST "UQSHRN_1" "UQSHRN, UQSHRN2" "011111110IIIIiii100101nnnnnddddd";
  INST "UCVTF_fix_1" "UCVTF (vector, fixed-point)" "011111110IIIIiii111001nnnnnddddd";
  INST "FCVTZU_fix_1" "FCVTZU (vector, fixed-point)" "011111110IIIIiii111111nnnnnddddd";
  INST "SQDMULL_elt_1" "SQDMULL, SQDMULL2 (by element)" "01011111zzLMmmmm1011H0nnnnnddddd";
  INST "SQDMULH_elt_1" "SQDMULH (by element)" "01011111zzLMmmmm1100H0nnnnnddddd";
  INST "SQRDMULH_elt_1" "SQRDMULH (by element)" "01011111zzLMmmmm1101H0nnnnnddddd";
  INST "FMLA_elt_1" "FMLA (by element)" "0101111100LMmmmm0001H0nnnnnddddd";
  INST "FMLA_elt_2" "FMLA (by element)" "010111111zLMmmmm0001H0nnnnnddddd";
  INST "FMLS_elt_1" "FMLS (by element)" "0101111100LMmmmm0101H0nnnnnddddd";
  INST "FMLS_elt_2" "FMLS (by element)" "010111111zLMmmmm0101H0nnnnnddddd";
  INST "FMUL_elt_2" "FMUL (by element)" "010111111zLMmmmm1001H0nnnnnddddd";
  INST "FMULX_elt_2" "FMULX (by element)" "011111111zLMmmmm1001H0nnnnnddddd";
  INST "TBL" "TBL" "0Q001110000mmmmm0LL000nnnnnddddd";
  INST "TBX" "TBX" "0Q001110000mmmmm0LL100nnnnnddddd";
  INST "UZP1" "UZP1" "0Q001110zz0mmmmm000110nnnnnddddd";
  INST "TRN1" "TRN1" "0Q001110zz0mmmmm001010nnnnnddddd";
  INST "ZIP1" "ZIP1" "0Q001110zz0mmmmm001110nnnnnddddd";
  INST "UZP2" "UZP2" "0Q001110zz0mmmmm010110nnnnnddddd";
  INST "TRN2" "TRN2" "0Q001110zz0mmmmm011010nnnnnddddd";
  INST "ZIP2" "ZIP2" "0Q001110zz0mmmmm011110nnnnnddddd";
  INST "EXT" "EXT" "0Q101110000mmmmm0iiii0nnnnnddddd";
  INST "DUP_elt_2" "DUP (element)" "0Q001110000iiiii000001nnnnnddddd";
  INST "DUP_gen" "DUP (general)" "0Q001110000iiiii000011nnnnnddddd";
  INST "SMOV" "SMOV" "0Q001110000iiiii001011nnnnnddddd";
  INST "UMOV" "UMOV" "0Q001110000iiiii001111nnnnnddddd";
  INST "INS_gen" "INS (general)" "01001110000iiiii000111nnnnnddddd";
  INST "INS_elt" "INS (element)" "01101110000iiiii0iiii1nnnnnddddd";
  INST "FCMEQ_reg_3" "FCMEQ (register)" "0Q001110010mmmmm001001nnnnnddddd";
  INST "FRECPS_3" "FRECPS" "0Q001110010mmmmm001111nnnnnddddd";
  INST "FRSQRTS_3" "FRSQRTS" "0Q001110110mmmmm001111nnnnnddddd"].

Definition a64_inc_5 : list inst_row := [
  INST "FMLA_vec_1" "FMLA (vector)" "0Q001110010mmmmm000011nnnnnddddd";
  INST "FMLS_vec_1" "FMLS (vector)" "0Q001110110mmmmm000011nnnnnddddd";
  INST "SDOT_vec" "SDOT (vector)" "0Q001110zz0mmmmm100101nnnnnddddd";
  INST "UDOT_vec" "UDOT (vector)" "0Q101110zz0mmmmm100101nnnnnddddd";
  INST "FCMLA_vec" "FCMLA" "0Q101110zz0mmmmm110rr1nnnnnddddd";
  INST "FCADD_vec" "FCADD" "0Q101110zz0mmmmm111r01nnnnnddddd";
  INST "REV64_asimd" "REV64" "0Q001110zz100000000010nnnnnddddd";
  INST "REV16_asimd" "REV16 (vector)" "0Q001110zz100000000110nnnnnddddd";
  INST "SADDLP" "SADDLP" "0Q001110zz100000001010nnnnnddddd";
  INST "SUQADD_2" "SUQADD" "0Q001110zz100000001110nnnnnddddd";
  INST "CLS_asimd" "CLS (vector)" "0Q001110zz100000010010nnnnnddddd";
  INST "CNT" "CNT" "0Q001110zz100000010110nnnnnddddd";
  INST "SADALP" "SADALP" "0Q001110zz100000011010nnnnnddddd";
  INST "SQABS_2" "SQABS" "0Q001110zz100000011110nnnnnddddd";
  INST "CMGT_zero_2" "CMGT (zero)" "0Q001110zz100000100010nnnnnddddd";
  INST "CMEQ_zero_2" "CMEQ (zero)" "0Q001110zz100000100110nnnnnddddd";
  INST "CMLT_2" "CMLT (zero)" "0Q001110zz100000101010nnnnnddddd";
  INST "ABS_2" "ABS" "0Q001110zz100000101110nnnnnddddd";
  INST "XTN" "XTN, XTN2" "0Q001110zz100001001010nnnnnddddd";
  INST "SQXTN_2" "SQXTN, SQXTN2" "0Q001110zz100001010010nnnnnddddd";
  INST "FCVTN" "FCVTN, FCVTN2" "0Q0011100z100001011010nnnnnddddd";
  INST "FCVTL" "FCVTL, FCVTL2" "0Q0011100z100001011110nnnnnddddd";
  INST "FRINTN_1" "FRINTN (vector)" "0Q00111001111001100010nnnnnddddd";
  INST "FRINTN_2" "FRINTN (vector)" "0Q0011100z100001100010nnnnnddddd";
  INST "FRINTM_1" "FRINTM (vector)" "0Q00111001111001100110nnnnnddddd";
  INST "FRINTM_2" "FRINTM (vector)" "0Q0011100z100001100110nnnnnddddd";
  INST "FCVTNS_4" "FCVTNS (vector)" "0Q0011100z100001101010nnnnnddddd";
  INST "FCVTMS_4" "FCVTMS (vector)" "0Q0011100z100001101110nnnnnddddd";
  INST "FCVTAS_4" "FCVTAS (vector)" "0Q0011100z100001110010nnnnnddddd";
  INST "SCVTF_int_4" "SCVTF (vector, integer)" "0Q0011100z100001110110nnnnnddddd";
  INST "FCMGT_zero_4" "FCMGT (zero)" "0Q0011101z100000110010nnnnnddddd";
  INST "FCMEQ_zero_3" "FCMEQ (zero)" "0Q00111011111000110110nnnnnddddd";
  INST "FCMEQ_zero_4" "FCMEQ (zero)" "0Q0011101z100000110110nnnnnddddd";
  INST "FCMLT_4" "FCMLT (zero)" "0Q0011101z100000111010nnnnnddddd";
  INST "FABS_1" "FABS (vector)" "0Q00111011111000111110nnnnnddddd";
  INST "FABS_2" "FABS (vector)" "0Q0011101z100000111110nnnnnddddd";
  INST "FRINTP_1" "FRINTP (vector)" "0Q00111011111001100010nnnnnddddd";
  INST "FRINTP_2" "FRINTP (vector)" "0Q0011101z100001100010nnnnnddddd";
  INST "FRINTZ_1" "FRINTZ (vector)" "0Q00111011111001100110nnnnnddddd";
  INST "FRINTZ_2" "FRINTZ (vector)" "0Q0011101z100001100110nnnnnddddd";
  INST "FCVTPS_4" "FCVTPS (vector)" "0Q0011101z100001101010nnnnnddddd";
  INST "FCVTZS_int_4" "FCVTZS (vector, integer)" "0Q0011101z100001101110nnnnnddddd";
  INST "URECPE" "URECPE" "0Q0011101z100001110010nnnnnddddd";
  INST "FRECPE_3" "FRECPE" "0Q00111011111001110110nnnnnddddd";
  INST "FRECPE_4" "FRECPE" "0Q0011101z100001110110nnnnnddddd";
  INST "REV32_asimd" "REV32 (vector)" "0Q101110zz100000000010nnnnnddddd";
  INST "UADDLP" "UADDLP" "0Q101110zz100000001010nnnnnddddd";
  INST "USQADD_2" "USQADD" "0Q101110zz100000001110nnnnnddddd";
  INST "CLZ_asimd" "CLZ (vector)" "0Q101110zz100000010010nnnnnddddd";
  INST "UADALP" "UADALP" "0Q101110zz100000011010nnnnnddddd";
  INST "SQNEG_2" "SQNEG" "0Q101110zz100000011110nnnnnddddd";
  INST "CMGE_zero_2" "CMGE (zero)" "0Q101110zz100000100010nnnnnddddd";
  INST "CMLE_2" "CMLE (zero)" "0Q101110zz100000100110nnnnnddddd";
  INST "NEG_2" "NEG (vector)" "0Q101110zz100000101110nnnnnddddd";
  INST "SQXTUN_2" "SQXTUN, SQXTUN2" "0Q101110zz100001001010nnnnnddddd";
  INST "SHLL" "SHLL, SHLL2" "0Q101110zz100001001110nnnnnddddd";
  INST "UQXTN_2" "UQXTN, UQXTN2" "0Q101110zz100001010010nnnnnddddd";
  INST "FCVTXN_2" "FCVTXN, FCVTXN2" "0Q1011100z100001011010nnnnnddddd";
  INST "FRINTA_1" "FRINTA (vector)" "0Q10111001111001100010nnnnnddddd";
  INST "FRINTA_2" "FRINTA (vector)" "0Q1011100z100001100010nnnnnddddd";
  INST "FRINTX_1" "FRINTX (vector)" "0Q10111001111001100110nnnnnddddd";
  INST "FRINTX_2" "FRINTX (vector)" "0Q1011100z100001100110nnnnnddddd";
  INST "FCVTNU_4" "FCVTNU (vector)" "0Q1011100z100001101010nnnnnddddd";
  INST "FCVTMU_4" "FCVTMU (vector)" "0Q1011100z100001101110nnnnnddddd";
  INST "FCVTAU_4" "FCVTAU (vector)" "0Q1011100z100001110010nnnnnddddd";
  INST "UCVTF_int_4" "UCVTF (vector, integer)" "0Q1011100z100001110110nnnnnddddd";
  INST "NOT" "NOT" "0Q10111000100000010110nnnnnddddd";
  INST "RBIT_asimd" "RBIT (vector)" "0Q10111001100000010110nnnnnddddd";
  INST "FNEG_1" "FNEG (vector)" "0Q10111011111000111110nnnnnddddd";
  INST "FNEG_2" "FNEG (vector)" "0Q1011101z100000111110nnnnnddddd";
  INST "FRINTI_1" "FRINTI (vector)" "0Q10111011111001100110nnnnnddddd";
  INST "FRINTI_2" "FRINTI (vector)" "0Q1011101z100001100110nnnnnddddd";
  INST "FCMGE_zero_4" "FCMGE (zero)" "0Q1011101z100000110010nnnnnddddd";
  INST "FCMLE_4" "FCMLE (zero)" "0Q1011101z100000110110nnnnnddddd";
  INST "FCVTPU_4" "FCVTPU (vector)" "0Q1011101z100001101010nnnnnddddd";
  INST "FCVTZU_int_4" "FCVTZU (vector, integer)" "0Q1011101z100001101110nnnnnddddd";
  INST "URSQRTE" "URSQRTE" "0Q1011101z100001110010nnnnnddddd";
  INST "FRSQRTE_3" "FRSQRTE" "0Q10111011111001110110nnnnnddddd";
  INST "FRSQRTE_4" "FRSQRTE" "0Q1011101z100001110110nnnnnddddd";
  INST "FSQRT_2" "FSQRT (vector)" "0Q1011101z100001111110nnnnnddddd";
  INST "SADDLV" "SADDLV" "0Q001110zz110000001110nnnnnddddd";
  INST "SMAXV" "SMAXV" "0Q001110zz110000101010nnnnnddddd";
  INST "SMINV" "SMINV" "0Q001110zz110001101010nnnnnddddd";
  INST "ADDV" "ADDV" "0Q001110zz110001101110nnnnnddddd";
  INST "FMAXNMV_2" "FMAXNMV" "0Q1011100z110000110010nnnnnddddd";
  INST "FMAXV_2" "FMAXV" "0Q1011100z110000111110nnnnnddddd";
  INST "FMINNMV_2" "FMINNMV" "0Q1011101z110000110010nnnnnddddd";
  INST "FMINV_2" "FMINV" "0Q1011101z110000111110nnnnnddddd";
  INST "UADDLV" "UADDLV" "0Q101110zz110000001110nnnnnddddd";
  INST "UMAXV" "UMAXV" "0Q101110zz110000101010nnnnnddddd";
  INST "UMINV" "UMINV" "0Q101110zz110001101010nnnnnddddd";
  INST "SADDL" "SADDL, SADDL2" "0Q001110zz1mmmmm000000nnnnnddddd";
  INST "SADDW" "SADDW, SADDW2" "0Q001110zz1mmmmm000100nnnnnddddd";
  INST "SSUBL" "SSUBL, SSUBL2" "0Q001110zz1mmmmm001000nnnnnddddd";
  INST "SSUBW" "SSUBW, SSUBW2" "0Q001110zz1mmmmm001100nnnnnddddd";
  INST "ADDHN" "ADDHN, ADDHN2" "0Q001110zz1mmmmm010000nnnnnddddd";
  INST "SABAL" "SABAL, SABAL2" "0Q001110zz1mmmmm010100nnnnnddddd";
  INST "SUBHN" "SUBHN, SUBHN2" "0Q001110zz1mmmmm011000nnnnnddddd";
  INST "SABDL" "SABDL, SABDL2" "0Q001110zz1mmmmm011100nnnnnddddd"].

Definition a64_inc_6 : list inst_row := [
  INST "SMLAL_vec" "SMLAL, SMLAL2 (vector)" "0Q001110zz1mmmmm100000nnnnnddddd";
  INST "SMLSL_vec" "SMLSL, SMLSL2 (vector)" "0Q001110zz1mmmmm101000nnnnnddddd";
  INST "SMULL_vec" "SMULL, SMULL2 (vector)" "0Q001110zz1mmmmm110000nnnnnddddd";
  INST "PMULL" "PMULL, PMULL2" "0Q001110zz1mmmmm111000nnnnnddddd";
  INST "UADDL" "UADDL, UADDL2" "0Q101110zz1mmmmm000000nnnnnddddd";
  INST "UADDW" "UADDW, UADDW2" "0Q101110zz1mmmmm000100nnnnnddddd";
  INST "USUBL" "USUBL, USUBL2" "0Q101110zz1mmmmm001000nnnnnddddd";
  INST "USUBW" "USUBW, USUBW2" "0Q101110zz1mmmmm001100nnnnnddddd";
  INST "RADDHN" "RADDHN, RADDHN2" "0Q101110zz1mmmmm010000nnnnnddddd";
  INST "UABAL" "UABAL, UABAL2" "0Q101110zz1mmmmm010100nnnnnddddd";
  INST "RSUBHN" "RSUBHN, RSUBHN2" "0Q101110zz1mmmmm011000nnnnnddddd";
  INST "UABDL" "UABDL, UABDL2" "0Q101110zz1mmmmm011100nnnnnddddd";
  INST "UMLAL_vec" "UMLAL, UMLAL2 (vector)" "0Q101110zz1mmmmm100000nnnnnddddd";
  INST "UMLSL_vec" "UMLSL, UMLSL2 (vector)" "0Q101110zz1mmmmm101000nnnnnddddd";
  INST "UMULL_vec" "UMULL, UMULL2 (vector)" "0Q101110zz1mmmmm110000nnnnnddddd";
  INST "SQDMULL_vec_2" "SQDMULL, SQDMULL2 (vector)" "0Q001110zz1mmmmm110100nnnnnddddd";
  INST "SHADD" "SHADD" "0Q001110zz1mmmmm000001nnnnnddddd";
  INST "SQADD_2" "SQADD" "0Q001110zz1mmmmm000011nnnnnddddd";
  INST "SRHADD" "SRHADD" "0Q001110zz1mmmmm000101nnnnnddddd";
  INST "SHSUB" "SHSUB" "0Q001110zz1mmmmm001001nnnnnddddd";
  INST "SQSUB_2" "SQSUB" "0Q001110zz1mmmmm001011nnnnnddddd";
  INST "CMGT_reg_2" "CMGT (register)" "0Q001110zz1mmmmm001101nnnnnddddd";
  INST "CMGE_reg_2" "CMGE (register)" "0Q001110zz1mmmmm001111nnnnnddddd";
  INST "SSHL_2" "SSHL" "0Q001110zz1mmmmm010001nnnnnddddd";
  INST "SQSHL_reg_2" "SQSHL (register)" "0Q001110zz1mmmmm010011nnnnnddddd";
  INST "SRSHL_2" "SRSHL" "0Q001110zz1mmmmm010101nnnnnddddd";
  INST "SMAX" "SMAX" "0Q001110zz1mmmmm011001nnnnnddddd";
  INST "SMIN" "SMIN" "0Q001110zz1mmmmm011011nnnnnddddd";
  INST "SABD" "SABD" "0Q001110zz1mmmmm011101nnnnnddddd";
  INST "SABA" "SABA" "0Q001110zz1mmmmm011111nnnnnddddd";
  INST "ADD_vector" "ADD (vector)" "0Q001110zz1mmmmm100001nnnnnddddd";
  INST "CMTST_2" "CMTST" "0Q001110zz1mmmmm100011nnnnnddddd";
  INST "MLA_vec" "MLA (vector)" "0Q001110zz1mmmmm100101nnnnnddddd";
  INST "MUL_vec" "MUL (vector)" "0Q001110zz1mmmmm100111nnnnnddddd";
  INST "SMAXP" "SMAXP" "0Q001110zz1mmmmm101001nnnnnddddd";
  INST "SMINP" "SMINP" "0Q001110zz1mmmmm101011nnnnnddddd";
  INST "SQDMULH_vec_2" "SQDMULH (vector)" "0Q001110zz1mmmmm101101nnnnnddddd";
  INST "ADDP_vec" "ADDP (vector)" "0Q001110zz1mmmmm101111nnnnnddddd";
  INST "FMAXNM_2" "FMAXNM (vector)" "0Q0011100z1mmmmm110001nnnnnddddd";
  INST "FMLA_vec_2" "FMLA (vector)" "0Q0011100z1mmmmm110011nnnnnddddd";
  INST "FADD_2" "FADD (vector)" "0Q0011100z1mmmmm110101nnnnnddddd";
  INST "FMAX_2" "FMAX (vector)" "0Q0011100z1mmmmm111101nnnnnddddd";
  INST "FMULX_vec_4" "FMULX" "0Q0011100z1mmmmm110111nnnnnddddd";
  INST "FCMEQ_reg_4" "FCMEQ (register)" "0Q0011100z1mmmmm111001nnnnnddddd";
  INST "FRECPS_4" "FRECPS" "0Q0011100z1mmmmm111111nnnnnddddd";
  INST "AND_asimd" "AND (vector)" "0Q001110001mmmmm000111nnnnnddddd";
  INST "BIC_asimd_reg" "BIC (vector, register)" "0Q001110011mmmmm000111nnnnnddddd";
  INST "FMINNM_2" "FMINNM (vector)" "0Q0011101z1mmmmm110001nnnnnddddd";
  INST "FMLS_vec_2" "FMLS (vector)" "0Q0011101z1mmmmm110011nnnnnddddd";
  INST "FSUB_2" "FSUB (vector)" "0Q0011101z1mmmmm110101nnnnnddddd";
  INST "FMIN_2" "FMIN (vector)" "0Q0011101z1mmmmm111101nnnnnddddd";
  INST "FRSQRTS_4" "FRSQRTS" "0Q0011101z1mmmmm111111nnnnnddddd";
  INST "ORR_asimd_reg" "ORR (vector, register)" "0Q001110101mmmmm000111nnnnnddddd";
  INST "ORN_asimd" "ORN (vector)" "0Q001110111mmmmm000111nnnnnddddd";
  INST "UHADD" "UHADD" "0Q101110zz1mmmmm000001nnnnnddddd";
  INST "UQADD_2" "UQADD" "0Q101110zz1mmmmm000011nnnnnddddd";
  INST "URHADD" "URHADD" "0Q101110zz1mmmmm000101nnnnnddddd";
  INST "UHSUB" "UHSUB" "0Q101110zz1mmmmm001001nnnnnddddd";
  INST "UQSUB_2" "UQSUB" "0Q101110zz1mmmmm001011nnnnnddddd";
  INST "CMHI_2" "CMHI (register)" "0Q101110zz1mmmmm001101nnnnnddddd";
  INST "CMHS_2" "CMHS (register)" "0Q101110zz1mmmmm001111nnnnnddddd";
  INST "USHL_2" "USHL" "0Q101110zz1mmmmm010001nnnnnddddd";
  INST "UQSHL_reg_2" "UQSHL (register)" "0Q101110zz1mmmmm010011nnnnnddddd";
  INST "URSHL_2" "URSHL" "0Q101110zz1mmmmm010101nnnnnddddd";
  INST "UMAX" "UMAX" "0Q101110zz1mmmmm011001nnnnnddddd";
  INST "UMIN" "UMIN" "0Q101110zz1mmmmm011011nnnnnddddd";
  INST "UABD" "UABD" "0Q101110zz1mmmmm011101nnnnnddddd";
  INST "UABA" "UABA" "0Q101110zz1mmmmm011111nnnnnddddd";
  INST "SUB_2" "SUB (vector)" "0Q101110zz1mmmmm100001nnnnnddddd";
  INST "CMEQ_reg_2" "CMEQ (register)" "0Q101110zz1mmmmm100011nnnnnddddd";
  INST "MLS_vec" "MLS (vector)" "0Q101110zz1mmmmm100101nnnnnddddd";
  INST "PMUL" "PMUL" "0Q101110zz1mmmmm100111nnnnnddddd";
  INST "UMAXP" "UMAXP" "0Q101110zz1mmmmm101001nnnnnddddd";
  INST "UMINP" "UMINP" "0Q101110zz1mmmmm101011nnnnnddddd";
  INST "SQRDMULH_vec_2" "SQRDMULH (vector)" "0Q101110zz1mmmmm101101nnnnnddddd";
  INST "FMAXNMP_vec_2" "FMAXNMP (vector)" "0Q1011100z1mmmmm110001nnnnnddddd";
  INST "FADDP_vec_2" "FADDP (vector)" "0Q1011100z1mmmmm110101nnnnnddddd";
  INST "FMUL_vec_2" "FMUL (vector)" "0Q1011100z1mmmmm110111nnnnnddddd";
  INST "FCMGE_reg_4" "FCMGE (register)" "0Q1011100z1mmmmm111001nnnnnddddd";
  INST "FACGE_4" "FACGE" "0Q1011100z1mmmmm111011nnnnnddddd";
  INST "FMAXP_vec_2" "FMAXP (vector)" "0Q1011100z1mmmmm111101nnnnnddddd";
  INST "FDIV_2" "FDIV (vector)" "0Q1011100z1mmmmm111111nnnnnddddd";
  INST "EOR_asimd" "EOR (vector)" "0Q101110001mmmmm000111nnnnnddddd";
  INST "BSL" "BSL" "0Q101110011mmmmm000111nnnnnddddd";
  INST "FMINNMP_vec_2" "FMINNMP (vector)" "0Q1011101z1mmmmm110001nnnnnddddd";
  INST "FABD_4" "FABD" "0Q1011101z1mmmmm110101nnnnnddddd";
  INST "FCMGT_reg_4" "FCMGT (register)" "0Q1011101z1mmmmm111001nnnnnddddd";
  INST "FACGT_4" "FACGT" "0Q1011101z1mmmmm111011nnnnnddddd";
  INST "FMINP_vec_2" "FMINP (vector)" "0Q1011101z1mmmmm111101nnnnnddddd";
  INST "BIT" "BIT" "0Q101110101mmmmm000111nnnnnddddd";
  INST "BIF" "BIF" "0Q101110111mmmmm000111nnnnnddddd";
  INST "MOVI" "MOVI, MVNI, ORR, BIC (vector, immediate)" "0Qo0111100000abcmmmm01defghddddd";
  INST "FMOV_2" "FMOV (vector, immediate)" "0Qo0111100000abc111101defghddddd";
  INST "FMOV_3" "FMOV (vector, immediate)" "0Q00111100000abc111111defghddddd";
  INST "UnallocatedEncoding" "Unallocated SIMD modified immediate" "0--0111100000-------11----------";
  INST "SSHR_2" "SSHR" "0Q0011110IIIIiii000001nnnnnddddd";
  INST "SSRA_2" "SSRA" "0Q0011110IIIIiii000101nnnnnddddd";
  INST "SRSHR_2" "SRSHR" "0Q0011110IIIIiii001001nnnnnddddd";
  INST "SRSRA_2" "SRSRA" "0Q0011110IIIIiii001101nnnnnddddd";
  INST "SHL_2" "SHL" "0Q0011110IIIIiii010101nnnnnddddd";
  INST "SQSHL_imm_2" "SQSHL (immediate)" "0Q0011110IIIIiii011101nnnnnddddd";
  INST "SHRN" "SHRN, SHRN2" "0Q0011110IIIIiii100001nnnnnddddd";
  INST "RSHRN" "RSHRN, RSHRN2" "0Q0011110IIIIiii100011nnnnnddddd";
  INST "SQSHRN_2" "SQSHRN, SQSHRN2" "0Q0011110IIIIiii100101nnnnnddddd";
  INST "SQRSHRN_2" "SQRSHRN, SQRSHRN2" "0Q0011110IIIIiii100111nnnnnddddd";
  INST "SSHLL" "SSHLL, SSHLL2" "0Q0011110IIIIiii101001nnnnnddddd";
  INST "SCVTF_fix_2" "SCVTF (vector, fixed-point)" "0Q0011110IIIIiii111001nnnnnddddd";
  INST "FCVTZS_fix_2" "FCVTZS (vector, fixed-point)" "0Q0011110IIIIiii111111nnnnnddddd";
  INST "USHR_2" "USHR" "0Q1011110IIIIiii000001nnnnnddddd";
  INST "USRA_2" "USRA" "0Q1011110IIIIiii000101nnnnnddddd";
  INST "URSHR_2" "URSHR" "0Q1011110IIIIiii001001nnnnnddddd";
  INST "URSRA_2" "URSRA" "0Q1011110IIIIiii001101nnnnnddddd";
  INST "SRI_2" "SRI" "0Q1011110IIIIiii010001nnnnnddddd";
  INST "SLI_2" "SLI" "0Q1011110IIIIiii010101nnnnnddddd";
  INST "SQSHLU_2" "SQSHLU" "0Q1011110IIIIiii011001nnnnnddddd";
  INST "UQSHL_imm_2" "UQSHL (immediate)" "0Q1011110IIIIiii011101nnnnnddddd";
  INST "SQSHRUN_2" "SQSHRUN, SQSHRUN2" "0Q1011110IIIIiii100001nnnnnddddd";
  INST "SQRSHRUN_2" "SQRSHRUN, SQRSHRUN2" "0Q1011110IIIIiii100011nnnnnddddd";
  INST "UQSHRN_2" "UQSHRN, UQSHRN2" "0Q1011110IIIIiii100101nnnnnddddd";
  INST "UQRSHRN_2" "UQRSHRN, UQRSHRN2" "0Q1011110IIIIiii100111nnnnnddddd";
  INST "USHLL" "USHLL, USHLL2" "0Q1011110IIIIiii101001nnnnnddddd";
  INST "UCVTF_fix_2" "UCVTF (vector, fixed-point)" "0Q1011110IIIIiii111001nnnnnddddd";
  INST "FCVTZU_fix_2" "FCVTZU (vector, fixed-point)" "0Q1011110IIIIiii111111nnnnnddddd";
  INST "SMLAL_elt" "SMLAL, SMLAL2 (by element)" "0Q001111zzLMmmmm0010H0nnnnnddddd";
  INST "SMLSL_elt" "SMLSL, SMLSL2 (by element)" "0Q001111zzLMmmmm0110H0nnnnnddddd";
  INST "MUL_elt" "MUL (by element)" "0Q001111zzLMmmmm1000H0nnnnnddddd";
  INST "SMULL_elt" "SMULL, SMULL2 (by element)" "0Q001111zzLMmmmm1010H0nnnnnddddd";
  INST "SQDMULL_elt_2" "SQDMULL, SQDMULL2 (by element)" "0Q001111zzLMmmmm1011H0nnnnnddddd";
  INST "SQDMULH_elt_2" "SQDMULH (by element)" "0Q001111zzLMmmmm1100H0nnnnnddddd";
  INST "SQRDMULH_elt_2" "SQRDMULH (by element)" "0Q001111zzLMmmmm1101H0nnnnnddddd";
  INST "SDOT_elt" "SDOT (by element)" "0Q001111zzLMmmmm1110H0nnnnnddddd";
  INST "FMLA_elt_3" "FMLA (by element)" "0Q00111100LMmmmm0001H0nnnnnddddd"].

Definition a64_inc_7 : list inst_row := [
  INST "FMLA_elt_4" "FMLA (by element)" "0Q0011111zLMmmmm0001H0nnnnnddddd";
  INST "FMLS_elt_3" "FMLS (by element)" "0Q00111100LMmmmm0101H0nnnnnddddd";
  INST "FMLS_elt_4" "FMLS (by element)" "0Q0011111zLMmmmm0101H0nnnnnddddd";
  INST "FMUL_elt_4" "FMUL (by element)" "0Q0011111zLMmmmm1001H0nnnnnddddd";
  INST "MLA_elt" "MLA (by element)" "0Q101111zzLMmmmm0000H0nnnnnddddd";
  INST "UMLAL_elt" "UMLAL, UMLAL2 (by element)" "0Q101111zzLMmmmm0010H0nnnnnddddd";
  INST "MLS_elt" "MLS (by element)" "0Q101111zzLMmmmm0100H0nnnnnddddd";
  INST "UMLSL_elt" "UMLSL, UMLSL2 (by element)" "0Q101111zzLMmmmm0110H0nnnnnddddd";
  INST "UMULL_elt" "UMULL, UMULL2 (by element)" "0Q101111zzLMmmmm1010H0nnnnnddddd";
  INST "UDOT_elt" "UDOT (by element)" "0Q101111zzLMmmmm1110H0nnnnnddddd";
  INST "FMULX_elt_4" "FMULX (by element)" "0Q1011111zLMmmmm1001H0nnnnnddddd";
  INST "FCMLA_elt" "FCMLA (by element)" "0Q101111zzLMmmmm0rr1H0nnnnnddddd";
  INST "SM3TT1A" "SM3TT1A" "11001110010mmmmm10ii00nnnnnddddd";
  INST "SM3TT1B" "SM3TT1B" "11001110010mmmmm10ii01nnnnnddddd";
  INST "SM3TT2A" "SM3TT2A" "11001110010mmmmm10ii10nnnnnddddd";
  INST "SM3TT2B" "SM3TT2B" "11001110010mmmmm10ii11nnnnnddddd";
  INST "SHA512H" "SHA512H" "11001110011mmmmm100000nnnnnddddd";
  INST "SHA512H2" "SHA512H2" "11001110011mmmmm100001nnnnnddddd";
  INST "SHA512SU1" "SHA512SU1" "11001110011mmmmm100010nnnnnddddd";
  INST "RAX1" "RAX1" "11001110011mmmmm100011nnnnnddddd";
  INST "SM3PARTW1" "SM3PARTW1" "11001110011mmmmm110000nnnnnddddd";
  INST "SM3PARTW2" "SM3PARTW2" "11001110011mmmmm110001nnnnnddddd";
  INST "SM4EKEY" "SM4EKEY" "11001110011mmmmm110010nnnnnddddd";
  INST "XAR" "XAR" "11001110100mmmmmiiiiiinnnnnddddd";
  INST "EOR3" "EOR3" "11001110000mmmmm0aaaaannnnnddddd";
  INST "BCAX" "BCAX" "11001110001mmmmm0aaaaannnnnddddd";
  INST "SM3SS1" "SM3SS1" "11001110010mmmmm0aaaaannnnnddddd";
  INST "SHA512SU0" "SHA512SU0" "1100111011000000100000nnnnnddddd";
  INST "SM4E" "SM4E" "1100111011000000100001nnnnnddddd";
  INST "SCVTF_float_fix" "SCVTF (scalar, fixed-point)" "z0011110yy000010ppppppnnnnnddddd";
  INST "UCVTF_float_fix" "UCVTF (scalar, fixed-point)" "z0011110yy000011ppppppnnnnnddddd";
  INST "FCVTZS_float_fix" "FCVTZS (scalar, fixed-point)" "z0011110yy011000ppppppnnnnnddddd";
  INST "FCVTZU_float_fix" "FCVTZU (scalar, fixed-point)" "z0011110yy011001ppppppnnnnnddddd";
  INST "FCVTNS_float" "FCVTNS (scalar)" "z0011110yy100000000000nnnnnddddd";
  INST "FCVTNU_float" "FCVTNU (scalar)" "z0011110yy100001000000nnnnnddddd";
  INST "SCVTF_float_int" "SCVTF (scalar, integer)" "z0011110yy100010000000nnnnnddddd";
  INST "UCVTF_float_int" "UCVTF (scalar, integer)" "z0011110yy100011000000nnnnnddddd";
  INST "FCVTAS_float" "FCVTAS (scalar)" "z0011110yy100100000000nnnnnddddd";
  INST "FCVTAU_float" "FCVTAU (scalar)" "z0011110yy100101000000nnnnnddddd";
  INST "FMOV_float_gen" "FMOV (general)" "z0011110yy10r11o000000nnnnnddddd";
  INST "FCVTPS_float" "FCVTPS (scalar)" "z0011110yy101000000000nnnnnddddd";
  INST "FCVTPU_float" "FCVTPU (scalar)" "z0011110yy101001000000nnnnnddddd";
  INST "FCVTMS_float" "FCVTMS (scalar)" "z0011110yy110000000000nnnnnddddd";
  INST "FCVTMU_float" "FCVTMU (scalar)" "z0011110yy110001000000nnnnnddddd";
  INST "FCVTZS_float_int" "FCVTZS (scalar, integer)" "z0011110yy111000000000nnnnnddddd";
  INST "FCVTZU_float_int" "FCVTZU (scalar, integer)" "z0011110yy111001000000nnnnnddddd";
  INST "FMOV_float" "FMOV (register)" "00011110yy100000010000nnnnnddddd";
  INST "FABS_float" "FABS (scalar)" "00011110yy100000110000nnnnnddddd";
  INST "FNEG_float" "FNEG (scalar)" "00011110yy100001010000nnnnnddddd";
  INST "FSQRT_float" "FSQRT (scalar)" "00011110yy100001110000nnnnnddddd";
  INST "FCVT_float" "FCVT" "00011110yy10001oo10000nnnnnddddd";
  INST "FRINTN_float" "FRINTN (scalar)" "00011110yy100100010000nnnnnddddd";
  INST "FRINTP_float" "FRINTP (scalar)" "00011110yy100100110000nnnnnddddd";
  INST "FRINTM_float" "FRINTM (scalar)" "00011110yy100101010000nnnnnddddd";
  INST "FRINTZ_float" "FRINTZ (scalar)" "00011110yy100101110000nnnnnddddd";
  INST "FRINTA_float" "FRINTA (scalar)" "00011110yy100110010000nnnnnddddd";
  INST "FRINTX_float" "FRINTX (scalar)" "00011110yy100111010000nnnnnddddd";
  INST "FRINTI_float" "FRINTI (scalar)" "00011110yy100111110000nnnnnddddd";
  INST "FCMP_float" "FCMP" "00011110yy1mmmmm001000nnnnn0o000";
  INST "FCMPE_float" "FCMPE" "00011110yy1mmmmm001000nnnnn1o000";
  INST "FMOV_float_imm" "FMOV (scalar, immediate)" "00011110yy1iiiiiiii10000000ddddd";
  INST "FCCMP_float" "FCCMP" "00011110yy1mmmmmcccc01nnnnn0ffff";
  INST "FCCMPE_float" "FCCMPE" "00011110yy1mmmmmcccc01nnnnn1ffff";
  INST "FMUL_float" "FMUL (scalar)" "00011110yy1mmmmm000010nnnnnddddd";
  INST "FDIV_float" "FDIV (scalar)" "00011110yy1mmmmm000110nnnnnddddd";
  INST "FADD_float" "FADD (scalar)" "00011110yy1mmmmm001010nnnnnddddd";
  INST "FSUB_float" "FSUB (scalar)" "00011110yy1mmmmm001110nnnnnddddd";
  INST "FMAX_float" "FMAX (scalar)" "00011110yy1mmmmm010010nnnnnddddd";
  INST "FMIN_float" "FMIN (scalar)" "00011110yy1mmmmm010110nnnnnddddd";
  INST "FMAXNM_float" "FMAXNM (scalar)" "00011110yy1mmmmm011010nnnnnddddd";
  INST "FMINNM_float" "FMINNM (scalar)" "00011110yy1mmmmm011110nnnnnddddd";
  INST "FNMUL_float" "FNMUL (scalar)" "00011110yy1mmmmm100010nnnnnddddd";
  INST "FCSEL_float" "FCSEL" "00011110yy1mmmmmcccc11nnnnnddddd";
  INST "FMADD_float" "FMADD" "00011111yy0mmmmm0aaaaannnnnddddd";
  INST "FMSUB_float" "FMSUB" "00011111yy0mmmmm1aaaaannnnnddddd";
  INST "FNMADD_float" "FNMADD" "00011111yy1mmmmm0aaaaannnnnddddd";
  INST "FNMSUB_float" "FNMSUB" "00011111yy1mmmmm1aaaaannnnnddddd"].

(** The rows in the order [#include "./a64.inc"] lists them. *)
Definition a64_inc : list inst_row :=
  a64_inc_1 ++ a64_inc_2 ++ a64_inc_3 ++ a64_inc_4 ++ a64_inc_5 ++ a64_inc_6 ++ a64_inc_7.

Definition visitor_decls_1 : list (string * list argty) := [
  ("InterpretThisInstruction", []);
  ("UnpredictableInstruction", []);
  ("DecodeError", []);
  ("ReservedValue", []);
  ("UnallocatedEncoding", []);
  ("ADR", [AImm 2; AImm 19; AReg]);
  ("ADRP", [AImm 2; AImm 19; AReg]);
  ("ADDG", [AImm 6; AImm 4; AReg; AReg]);
  ("SUBG", [AImm 6; AImm 4; AReg; AReg]);
  ("ADD_imm", [ABool; AImm 2; AImm 12; AReg; AReg]);
  ("ADDS_imm", [ABool; AImm 2; AImm 12; AReg; AReg]);
  ("SUB_imm", [ABool; AImm 2; AImm 12; AReg; AReg]);
  ("SUBS_imm", [ABool; AImm 2; AImm 12; AReg; AReg]);
  ("AND_imm", [ABool; ABool; AImm 6; AImm 6; AReg; AReg]);
  ("ORR_imm", [ABool; ABool; AImm 6; AImm 6; AReg; AReg]);
  ("EOR_imm", [ABool; ABool; AImm 6; AImm 6; AReg; AReg]);
  ("ANDS_imm", [ABool; ABool; AImm 6; AImm 6; AReg; AReg]);
  ("MOVN", [ABool; AImm 2; AImm 16; AReg]);
  ("MOVZ", [ABool; AImm 2; AImm 16; AReg]);
  ("MOVK", [ABool; AImm 2; AImm 16; AReg]);
  ("SBFM", [ABool; ABool; AImm 6; AImm 6; AReg; AReg]);
  ("BFM", [ABool; ABool; AImm 6; AImm 6; AReg; AReg]);
  ("UBFM", [ABool; ABool; AImm 6; AImm 6; AReg; AReg]);
  ("ASR_1", [AImm 5; AReg; AReg]);
  ("ASR_2", [AImm 6; AReg; AReg]);
  ("SXTB_1", [AReg; AReg]);
  ("SXTB_2", [AReg; AReg]);
  ("SXTH_1", [AReg; AReg]);
  ("SXTH_2", [AReg; AReg]);
  ("SXTW", [AReg; AReg]);
  ("EXTR", [ABool; ABool; AReg; AImm 6; AReg; AReg]);
  ("B_cond", [AImm 19; ACond]);
  ("SVC", [AImm 16]);
  ("HVC", [AImm 16]);
  ("SMC", [AImm 16]);
  ("BRK", [AImm 16]);
  ("HLT", [AImm 16]);
  ("DCPS1", [AImm 16]);
  ("DCPS2", [AImm 16]);
  ("DCPS3", [AImm 16]);
  ("MSR_imm", [AImm 3; AImm 4; AImm 3]);
  ("HINT", [AImm 4; AImm 3]);
  ("NOP", []);
  ("YIELD", []);
  ("WFE", []);
  ("WFI", []);
  ("SEV", []);
  ("SEVL", []);
  ("XPAC_1", [ABool; AReg]);
  ("XPAC_2", []);
  ("PACIA_1", [ABool; AReg; AReg]);
  ("PACIA_2", []);
  ("PACIB_1", [ABool; AReg; AReg]);
  ("PACIB_2", []);
  ("AUTIA_1", [ABool; AReg; AReg]);
  ("AUTIA_2", []);
  ("AUTIB_1", [ABool; AReg; AReg]);
  ("AUTIB_2", []);
  ("BTI", [AImm 2]);
  ("ESB", []);
  ("PSB", []);
  ("TSB", []);
  ("CSDB", []);
  ("CLREX", [AImm 4]);
  ("DSB", [AImm 4]);
  ("SSBB", []);
  ("PSSBB", []);
  ("DMB", [AImm 4]);
  ("ISB", [AImm 4]);
  ("SYS", [AImm 3; AImm 4; AImm 4; AImm 3; AReg]);
  ("SB", []);
  ("MSR_reg", [AImm 1; AImm 3; AImm 4; AImm 4; AImm 3; AReg]);
  ("SYSL", [AImm 3; AImm 4; AImm 4; AImm 3; AReg]);
  ("MRS", [AImm 1; AImm 3; AImm 4; AImm 4; AImm 3; AReg]);
  ("CFINV", []);
  ("RMIF", [AImm 6; AReg; AImm 4]);
  ("SETF8", [AReg]);
  ("SETF16", [AReg]);
  ("XAFlag", []);
  ("AXFlag", []);
  ("DC_IVAC", [AReg]);
  ("DC_ISW", [AReg]);
  ("DC_CSW", [AReg]);
  ("DC_CISW", [AReg]);
  ("DC_ZVA", [AReg]);
  ("DC_CVAC", [AReg]);
  ("DC_CVAU", [AReg]);
  ("DC_CVAP", [AReg]);
  ("DC_CIVAC", [AReg])].

Definition visitor_decls_2 : list (string * list argty) := [
  ("IC_IALLU", []);
  ("IC_IALLUIS", []);
  ("IC_IVAU", [AReg]);
  ("BR", [AReg]);
  ("BRA", [ABool; ABool; AReg; AReg]);
  ("BLR", [AReg]);
  ("BLRA", [ABool; ABool; AReg; AReg]);
  ("RET", [AReg]);
  ("RETA", [ABool]);
  ("ERET", []);
  ("ERETA", [ABool]);
  ("DRPS", []);
  ("B_uncond", [AImm 26]);
  ("BL", [AImm 26]);
  ("CBZ", [ABool; AImm 19; AReg]);
  ("CBNZ", [ABool; AImm 19; AReg]);
  ("TBZ", [AImm 1; AImm 5; AImm 14; AReg]);
  ("TBNZ", [AImm 1; AImm 5; AImm 14; AReg]);
  ("STx_mult_1", [ABool; AImm 4; AImm 2; AReg; AVec]);
  ("STx_mult_2", [ABool; AReg; AImm 4; AImm 2; AReg; AVec]);
  ("LDx_mult_1", [ABool; AImm 4; AImm 2; AReg; AVec]);
  ("LDx_mult_2", [ABool; AReg; AImm 4; AImm 2; AReg; AVec]);
  ("ST1_sngl_1", [ABool; AImm 2; ABool; AImm 2; AReg; AVec]);
  ("ST1_sngl_2", [ABool; AReg; AImm 2; ABool; AImm 2; AReg; AVec]);
  ("ST3_sngl_1", [ABool; AImm 2; ABool; AImm 2; AReg; AVec]);
  ("ST3_sngl_2", [ABool; AReg; AImm 2; ABool; AImm 2; AReg; AVec]);
  ("ST2_sngl_1", [ABool; AImm 2; ABool; AImm 2; AReg; AVec]);
  ("ST2_sngl_2", [ABool; AReg; AImm 2; ABool; AImm 2; AReg; AVec]);
  ("ST4_sngl_1", [ABool; AImm 2; ABool; AImm 2; AReg; AVec]);
  ("ST4_sngl_2", [ABool; AReg; AImm 2; ABool; AImm 2; AReg; AVec]);
  ("LD1_sngl_1", [ABool; AImm 2; ABool; AImm 2; AReg; AVec]);
  ("LD1_sngl_2", [ABool; AReg; AImm 2; ABool; AImm 2; AReg; AVec]);
  ("LD3_sngl_1", [ABool; AImm 2; ABool; AImm 2; AReg; AVec]);
  ("LD3_sngl_2", [ABool; AReg; AImm 2; ABool; AImm 2; AReg; AVec]);
  ("LD1R_1", [ABool; AImm 2; AReg; AVec]);
  ("LD1R_2", [ABool; AReg; AImm 2; AReg; AVec]);
  ("LD3R_1", [ABool; AImm 2; AReg; AVec]);
  ("LD3R_2", [ABool; AReg; AImm 2; AReg; AVec]);
  ("LD2_sngl_1", [ABool; AImm 2; ABool; AImm 2; AReg; AVec]);
  ("LD2_sngl_2", [ABool; AReg; AImm 2; ABool; AImm 2; AReg; AVec]);
  ("LD4_sngl_1", [ABool; AImm 2; ABool; AImm 2; AReg; AVec]);
  ("LD4_sngl_2", [ABool; AReg; AImm 2; ABool; AImm 2; AReg; AVec]);
  ("LD2R_1", [ABool; AImm 2; AReg; AVec]);
  ("LD2R_2", [ABool; AReg; AImm 2; AReg; AVec]);
  ("LD4R_1", [ABool; AImm 2; AReg; AVec]);
  ("LD4R_2", [ABool; AReg; AImm 2; AReg; AVec]);
  ("STXR", [AImm 2; AReg; AReg; AReg]);
  ("STLXR", [AImm 2; AReg; AReg; AReg]);
  ("STXP", [AImm 1; AReg; AReg; AReg; AReg]);
  ("STLXP", [AImm 1; AReg; AReg; AReg; AReg]);
  ("LDXR", [AImm 2; AReg; AReg]);
  ("LDAXR", [AImm 2; AReg; AReg]);
  ("LDXP", [AImm 1; AReg; AReg; AReg]);
  ("LDAXP", [AImm 1; AReg; AReg; AReg]);
  ("STLLR", [AImm 2; AReg; AReg]);
  ("STLR", [AImm 2; AReg; AReg]);
  ("LDLAR", [AImm 2; AReg; AReg]);
  ("LDAR", [AImm 2; AReg; AReg]);
  ("CASP", [ABool; ABool; AReg; ABool; AReg; AReg]);
  ("CASB", [ABool; AReg; ABool; AReg; AReg]);
  ("CASH", [ABool; AReg; ABool; AReg; AReg]);
  ("CAS", [ABool; ABool; AReg; ABool; AReg; AReg]);
  ("LDR_lit_gen", [ABool; AImm 19; AReg]);
  ("LDR_lit_fpsimd", [AImm 2; AImm 19; AVec]);
  ("LDRSW_lit", [AImm 19; AReg]);
  ("PRFM_lit", [AImm 19; AImm 5]);
  ("STNP_LDNP_gen", [AImm 1; AImm 1; AImm 7; AReg; AReg; AReg]);
  ("STNP_LDNP_fpsimd", [AImm 2; AImm 1; AImm 7; AVec; AReg; AVec]);
  ("STP_LDP_gen", [AImm 2; ABool; ABool; AImm 1; AImm 7; AReg; AReg; AReg]);
  ("STP_LDP_fpsimd", [AImm 2; ABool; ABool; AImm 1; AImm 7; AVec; AReg; AVec]);
  ("STGP_1", [AImm 7; AReg; AReg; AReg]);
  ("STGP_2", [AImm 7; AReg; AReg; AReg]);
  ("STGP_3", [AImm 7; AReg; AReg; AReg]);
  ("STRx_LDRx_imm_1", [AImm 2; AImm 2; AImm 9; ABool; AReg; AReg]);
  ("STRx_LDRx_imm_2", [AImm 2; AImm 2; AImm 12; AReg; AReg]);
  ("STURx_LDURx", [AImm 2; AImm 2; AImm 9; AReg; AReg]);
  ("PRFM_imm", [AImm 12; AReg; AReg]);
  ("PRFM_unscaled_imm", [AImm 9; AReg; AReg]);
  ("STR_imm_fpsimd_1", [AImm 2; AImm 1; AImm 9; ABool; AReg; AVec]);
  ("STR_imm_fpsimd_2", [AImm 2; AImm 1; AImm 12; AReg; AVec]);
  ("LDR_imm_fpsimd_1", [AImm 2; AImm 1; AImm 9; ABool; AReg; AVec]);
  ("LDR_imm_fpsimd_2", [AImm 2; AImm 1; AImm 12; AReg; AVec]);
  ("STUR_fpsimd", [AImm 2; AImm 1; AImm 9; AReg; AVec]);
  ("LDUR_fpsimd", [AImm 2; AImm 1; AImm 9; AReg; AVec]);
  ("STTRB", [AImm 9; AReg; AReg]);
  ("LDTRB", [AImm 9; AReg; AReg]);
  ("LDTRSB", [AImm 2; AImm 9; AReg; AReg]);
  ("STTRH", [AImm 9; AReg; AReg]);
  ("LDTRH", [AImm 9; AReg; AReg]);
  ("LDTRSH", [AImm 2; AImm 9; AReg; AReg]);
  ("STTR", [AImm 2; AImm 9; AReg; AReg]);
  ("LDTR", [AImm 2; AImm 9; AReg; AReg]);
  ("LDTRSW", [AImm 9; AReg; AReg]);
  ("LDADDB", [ABool; ABool; AReg; AReg; AReg]);
  ("LDCLRB", [ABool; ABool; AReg; AReg; AReg]);
  ("LDEORB", [ABool; ABool; AReg; AReg; AReg]);
  ("LDSETB", [ABool; ABool; AReg; AReg; AReg]);
  ("LDSMAXB", [ABool; ABool; AReg; AReg; AReg]);
  ("LDSMINB", [ABool; ABool; AReg; AReg; AReg]);
  ("LDUMAXB", [ABool; ABool; AReg; AReg; AReg]);
  ("LDUMINB", [ABool; ABool; AReg; AReg; AReg]);
  ("SWPB", [ABool; ABool; AReg; AReg; AReg]);
  ("LDAPRB", [AReg; AReg]);
  ("LDADDH", [ABool; ABool; AReg; AReg; AReg]);
  ("LDCLRH", [ABool; ABool; AReg; AReg; AReg]);
  ("LDEORH", [ABool; ABool; AReg; AReg; AReg]);
  ("LDSETH", [ABool; ABool; AReg; AReg; AReg]);
  ("LDSMAXH", [ABool; ABool; AReg; AReg; AReg]);
  ("LDSMINH", [ABool; ABool; AReg; AReg; AReg]);
  ("LDUMAXH", [ABool; ABool; AReg; AReg; AReg]);
  ("LDUMINH", [ABool; ABool; AReg; AReg; AReg]);
  ("SWPH", [ABool; ABool; AReg; AReg; AReg]);
  ("LDAPRH", [AReg; AReg]);
  ("LDADD", [ABool; ABool; AReg; AReg; AReg]);
  ("LDCLR", [ABool; ABool; AReg; AReg; AReg]);
  ("LDEOR", [ABool; ABool; AReg; AReg; AReg]);
  ("LDSET", [ABool; ABool; AReg; AReg; AReg]);
  ("LDSMAX", [ABool; ABool; AReg; AReg; AReg]);
  ("LDSMIN", [ABool; ABool; AReg; AReg; AReg]);
  ("LDUMAX", [ABool; ABool; AReg; AReg; AReg]);
  ("LDUMIN", [ABool; ABool; AReg; AReg; AReg]);
  ("SWP", [ABool; ABool; AReg; AReg; AReg]);
  ("LDAPR", [AReg; AReg]);
  ("STRx_reg", [AImm 2; AImm 1; AReg; AImm 3; ABool; AReg; AReg])].

Definition visitor_decls_3 : list (string * list argty) := [
  ("LDRx_reg", [AImm 2; AImm 1; AReg; AImm 3; ABool; AReg; AReg]);
  ("STR_reg_fpsimd", [AImm 2; AImm 1; AReg; AImm 3; ABool; AReg; AVec]);
  ("LDR_reg_fpsimd", [AImm 2; AImm 1; AReg; AImm 3; ABool; AReg; AVec]);
  ("STG_1", [AImm 9; AReg]);
  ("STG_2", [AImm 9; AReg]);
  ("STG_3", [AImm 9; AReg]);
  ("LDG", [AImm 9; AReg; AReg]);
  ("STZG_1", [AImm 9; AReg]);
  ("STZG_2", [AImm 9; AReg]);
  ("STZG_3", [AImm 9; AReg]);
  ("ST2G_1", [AImm 9; AReg]);
  ("ST2G_2", [AImm 9; AReg]);
  ("ST2G_3", [AImm 9; AReg]);
  ("STGV", [AReg; AReg]);
  ("STZ2G_1", [AImm 9; AReg]);
  ("STZ2G_2", [AImm 9; AReg]);
  ("STZ2G_3", [AImm 9; AReg]);
  ("LDGV", [AReg; AReg]);
  ("LDRA", [ABool; ABool; AImm 9; ABool; AReg; AReg]);
  ("UDIV", [ABool; AReg; AReg; AReg]);
  ("SDIV", [ABool; AReg; AReg; AReg]);
  ("LSLV", [ABool; AReg; AReg; AReg]);
  ("LSRV", [ABool; AReg; AReg; AReg]);
  ("ASRV", [ABool; AReg; AReg; AReg]);
  ("RORV", [ABool; AReg; AReg; AReg]);
  ("CRC32", [ABool; AReg; AImm 2; AReg; AReg]);
  ("CRC32C", [ABool; AReg; AImm 2; AReg; AReg]);
  ("PACGA", [AReg; AReg; AReg]);
  ("SUBP", [AReg; AReg; AReg]);
  ("IRG", [AReg; AReg; AReg]);
  ("GMI", [AReg; AReg; AReg]);
  ("SUBPS", [AReg; AReg; AReg]);
  ("RBIT_int", [ABool; AReg; AReg]);
  ("REV16_int", [ABool; AReg; AReg]);
  ("REV", [ABool; ABool; AReg; AReg]);
  ("CLZ_int", [ABool; AReg; AReg]);
  ("CLS_int", [ABool; AReg; AReg]);
  ("REV32_int", [AReg; AReg]);
  ("PACDA", [ABool; AReg; AReg]);
  ("PACDB", [ABool; AReg; AReg]);
  ("AUTDA", [ABool; AReg; AReg]);
  ("AUTDB", [ABool; AReg; AReg]);
  ("AND_shift", [ABool; AImm 2; AReg; AImm 6; AReg; AReg]);
  ("BIC_shift", [ABool; AImm 2; AReg; AImm 6; AReg; AReg]);
  ("ORR_shift", [ABool; AImm 2; AReg; AImm 6; AReg; AReg]);
  ("ORN_shift", [ABool; AImm 2; AReg; AImm 6; AReg; AReg]);
  ("EOR_shift", [ABool; AImm 2; AReg; AImm 6; AReg; AReg]);
  ("EON", [ABool; AImm 2; AReg; AImm 6; AReg; AReg]);
  ("ANDS_shift", [ABool; AImm 2; AReg; AImm 6; AReg; AReg]);
  ("BICS", [ABool; AImm 2; AReg; AImm 6; AReg; AReg]);
  ("ADD_shift", [ABool; AImm 2; AReg; AImm 6; AReg; AReg]);
  ("ADDS_shift", [ABool; AImm 2; AReg; AImm 6; AReg; AReg]);
  ("SUB_shift", [ABool; AImm 2; AReg; AImm 6; AReg; AReg]);
  ("SUBS_shift", [ABool; AImm 2; AReg; AImm 6; AReg; AReg]);
  ("ADD_ext", [ABool; AReg; AImm 3; AImm 3; AReg; AReg]);
  ("ADDS_ext", [ABool; AReg; AImm 3; AImm 3; AReg; AReg]);
  ("SUB_ext", [ABool; AReg; AImm 3; AImm 3; AReg; AReg]);
  ("SUBS_ext", [ABool; AReg; AImm 3; AImm 3; AReg; AReg]);
  ("ADC", [ABool; AReg; AReg; AReg]);
  ("ADCS", [ABool; AReg; AReg; AReg]);
  ("SBC", [ABool; AReg; AReg; AReg]);
  ("SBCS", [ABool; AReg; AReg; AReg]);
  ("CCMN_reg", [ABool; AReg; ACond; AReg; AImm 4]);
  ("CCMP_reg", [ABool; AReg; ACond; AReg; AImm 4]);
  ("CCMN_imm", [ABool; AImm 5; ACond; AReg; AImm 4]);
  ("CCMP_imm", [ABool; AImm 5; ACond; AReg; AImm 4]);
  ("CSEL", [ABool; AReg; ACond; AReg; AReg]);
  ("CSINC", [ABool; AReg; ACond; AReg; AReg]);
  ("CSINV", [ABool; AReg; ACond; AReg; AReg]);
  ("CSNEG", [ABool; AReg; ACond; AReg; AReg]);
  ("MADD", [ABool; AReg; AReg; AReg; AReg]);
  ("MSUB", [ABool; AReg; AReg; AReg; AReg]);
  ("SMADDL", [AReg; AReg; AReg; AReg]);
  ("SMSUBL", [AReg; AReg; AReg; AReg]);
  ("SMULH", [AReg; AReg; AReg]);
  ("UMADDL", [AReg; AReg; AReg; AReg]);
  ("UMSUBL", [AReg; AReg; AReg; AReg]);
  ("UMULH", [AReg; AReg; AReg]);
  ("AESE", [AVec; AVec]);
  ("AESD", [AVec; AVec]);
  ("AESMC", [AVec; AVec]);
  ("AESIMC", [AVec; AVec]);
  ("SHA1C", [AVec; AVec; AVec]);
  ("SHA1P", [AVec; AVec; AVec]);
  ("SHA1M", [AVec; AVec; AVec]);
  ("SHA1SU0", [AVec; AVec; AVec]);
  ("SHA256H", [AVec; AVec; AVec]);
  ("SHA256H2", [AVec; AVec; AVec]);
  ("SHA256SU1", [AVec; AVec; AVec]);
  ("SHA1H", [AVec; AVec]);
  ("SHA1SU1", [AVec; AVec]);
  ("SHA256SU0", [AVec; AVec]);
  ("DUP_elt_1", [AImm 5; AVec; AVec]);
  ("FMULX_vec_1", [AVec; AVec; AVec]);
  ("FMULX_vec_2", [ABool; AVec; AVec; AVec]);
  ("FCMEQ_reg_1", [AVec; AVec; AVec]);
  ("FCMEQ_reg_2", [ABool; AVec; AVec; AVec]);
  ("FRECPS_1", [AVec; AVec; AVec]);
  ("FRECPS_2", [ABool; AVec; AVec; AVec]);
  ("FRSQRTS_1", [AVec; AVec; AVec]);
  ("FRSQRTS_2", [ABool; AVec; AVec; AVec]);
  ("FCMGE_reg_1", [AVec; AVec; AVec]);
  ("FCMGE_reg_2", [ABool; AVec; AVec; AVec]);
  ("FACGE_1", [AVec; AVec; AVec]);
  ("FACGE_2", [ABool; AVec; AVec; AVec]);
  ("FABD_1", [AVec; AVec; AVec]);
  ("FABD_2", [ABool; AVec; AVec; AVec]);
  ("FCMGT_reg_1", [AVec; AVec; AVec]);
  ("FCMGT_reg_2", [ABool; AVec; AVec; AVec]);
  ("FACGT_1", [AVec; AVec; AVec]);
  ("FACGT_2", [ABool; AVec; AVec; AVec]);
  ("FCVTNS_1", [AVec; AVec]);
  ("FCVTMS_1", [AVec; AVec]);
  ("FCVTAS_1", [AVec; AVec]);
  ("SCVTF_int_1", [AVec; AVec]);
  ("FCMGT_zero_1", [AVec; AVec]);
  ("FCMEQ_zero_1", [AVec; AVec]);
  ("FCMLT_1", [AVec; AVec])].

Definition visitor_decls_4 : list (string * list argty) := [
  ("FCVTPS_1", [AVec; AVec]);
  ("FCVTZS_int_1", [AVec; AVec]);
  ("FRECPE_1", [AVec; AVec]);
  ("FRECPX_1", [AVec; AVec]);
  ("FCVTNU_1", [AVec; AVec]);
  ("FCVTMU_1", [AVec; AVec]);
  ("FCVTAU_1", [AVec; AVec]);
  ("UCVTF_int_1", [AVec; AVec]);
  ("FCMGE_zero_1", [AVec; AVec]);
  ("FCMLE_1", [AVec; AVec]);
  ("FCVTPU_1", [AVec; AVec]);
  ("FCVTZU_int_1", [AVec; AVec]);
  ("FRSQRTE_1", [AVec; AVec]);
  ("FCVTNS_2", [ABool; AVec; AVec]);
  ("FCVTMS_2", [ABool; AVec; AVec]);
  ("FCVTAS_2", [ABool; AVec; AVec]);
  ("SCVTF_int_2", [ABool; AVec; AVec]);
  ("FCMGT_zero_2", [ABool; AVec; AVec]);
  ("FCMEQ_zero_2", [ABool; AVec; AVec]);
  ("FCMLT_2", [ABool; AVec; AVec]);
  ("FCVTPS_2", [ABool; AVec; AVec]);
  ("FCVTZS_int_2", [ABool; AVec; AVec]);
  ("FRECPE_2", [ABool; AVec; AVec]);
  ("FRECPX_2", [ABool; AVec; AVec]);
  ("FCVTNU_2", [ABool; AVec; AVec]);
  ("FCVTMU_2", [ABool; AVec; AVec]);
  ("FCVTAU_2", [ABool; AVec; AVec]);
  ("UCVTF_int_2", [ABool; AVec; AVec]);
  ("FCMGE_zero_2", [ABool; AVec; AVec]);
  ("FCMLE_2", [ABool; AVec; AVec]);
  ("FCVTPU_2", [ABool; AVec; AVec]);
  ("FCVTZU_int_2", [ABool; AVec; AVec]);
  ("FRSQRTE_2", [ABool; AVec; AVec]);
  ("FCVTNS_3", [ABool; AVec; AVec]);
  ("FCVTMS_3", [ABool; AVec; AVec]);
  ("FCVTAS_3", [ABool; AVec; AVec]);
  ("SCVTF_int_3", [ABool; AVec; AVec]);
  ("FCMGT_zero_3", [ABool; AVec; AVec]);
  ("FCMEQ_zero_3", [ABool; AVec; AVec]);
  ("FCMLT_3", [ABool; AVec; AVec]);
  ("FCVTPS_3", [ABool; AVec; AVec]);
  ("FCVTZS_int_3", [ABool; AVec; AVec]);
  ("FRECPE_3", [ABool; AVec; AVec]);
  ("FCVTNU_3", [ABool; AVec; AVec]);
  ("FCVTMU_3", [ABool; AVec; AVec]);
  ("FCVTAU_3", [ABool; AVec; AVec]);
  ("UCVTF_int_3", [ABool; AVec; AVec]);
  ("FCMGE_zero_3", [ABool; AVec; AVec]);
  ("FCMLE_3", [ABool; AVec; AVec]);
  ("FCVTPU_3", [ABool; AVec; AVec]);
  ("FCVTZU_int_3", [ABool; AVec; AVec]);
  ("FRSQRTE_3", [ABool; AVec; AVec]);
  ("FCVTNS_4", [ABool; ABool; AVec; AVec]);
  ("FCVTMS_4", [ABool; ABool; AVec; AVec]);
  ("FCVTAS_4", [ABool; ABool; AVec; AVec]);
  ("SCVTF_int_4", [ABool; ABool; AVec; AVec]);
  ("FCMGT_zero_4", [ABool; ABool; AVec; AVec]);
  ("FCMEQ_zero_4", [ABool; ABool; AVec; AVec]);
  ("FCMLT_4", [ABool; ABool; AVec; AVec]);
  ("FCVTPS_4", [ABool; ABool; AVec; AVec]);
  ("FCVTZS_int_4", [ABool; ABool; AVec; AVec]);
  ("FRECPE_4", [ABool; ABool; AVec; AVec]);
  ("FCVTNU_4", [ABool; ABool; AVec; AVec]);
  ("FCVTMU_4", [ABool; ABool; AVec; AVec]);
  ("FCVTAU_4", [ABool; ABool; AVec; AVec]);
  ("UCVTF_int_4", [ABool; ABool; AVec; AVec]);
  ("FCMGE_zero_4", [ABool; ABool; AVec; AVec]);
  ("FCMLE_4", [ABool; ABool; AVec; AVec]);
  ("FCVTPU_4", [ABool; ABool; AVec; AVec]);
  ("FCVTZU_int_4", [ABool; ABool; AVec; AVec]);
  ("FRSQRTE_4", [ABool; ABool; AVec; AVec]);
  ("SQRDMLAH_vec_1", [AImm 2; AVec; AVec; AVec]);
  ("SQRDMLAH_vec_2", [ABool; AImm 2; AVec; AVec; AVec]);
  ("SQRDMLSH_vec_1", [AImm 2; AVec; AVec; AVec]);
  ("SQRDMLSH_vec_2", [ABool; AImm 2; AVec; AVec; AVec]);
  ("SUQADD_1", [AImm 2; AVec; AVec]);
  ("SQABS_1", [AImm 2; AVec; AVec]);
  ("CMGT_zero_1", [AImm 2; AVec; AVec]);
  ("CMEQ_zero_1", [AImm 2; AVec; AVec]);
  ("CMLT_1", [AImm 2; AVec; AVec]);
  ("ABS_1", [AImm 2; AVec; AVec]);
  ("SQXTN_1", [AImm 2; AVec; AVec]);
  ("USQADD_1", [AImm 2; AVec; AVec]);
  ("SQNEG_1", [AImm 2; AVec; AVec]);
  ("CMGE_zero_1", [AImm 2; AVec; AVec]);
  ("CMLE_1", [AImm 2; AVec; AVec]);
  ("NEG_1", [AImm 2; AVec; AVec]);
  ("SQXTUN_1", [AImm 2; AVec; AVec]);
  ("UQXTN_1", [AImm 2; AVec; AVec]);
  ("FCVTXN_1", [ABool; AVec; AVec]);
  ("ADDP_pair", [AImm 2; AVec; AVec]);
  ("FMAXNMP_pair_1", [AVec; AVec]);
  ("FMAXNMP_pair_2", [ABool; AVec; AVec]);
  ("FADDP_pair_1", [AVec; AVec]);
  ("FADDP_pair_2", [ABool; AVec; AVec]);
  ("FMAXP_pair_1", [AVec; AVec]);
  ("FMAXP_pair_2", [ABool; AVec; AVec]);
  ("FMINNMP_pair_1", [AVec; AVec]);
  ("FMINNMP_pair_2", [ABool; AVec; AVec]);
  ("FMINP_pair_1", [AVec; AVec]);
  ("FMINP_pair_2", [ABool; AVec; AVec]);
  ("SQDMLAL_vec_1", [AImm 2; AReg; AReg; AVec]);
  ("SQDMLSL_vec_1", [AImm 2; AReg; AReg; AVec]);
  ("SQDMULL_vec_1", [AImm 2; AReg; AReg; AVec]);
  ("SQADD_1", [AImm 2; AVec; AVec; AVec]);
  ("SQSUB_1", [AImm 2; AVec; AVec; AVec]);
  ("CMGT_reg_1", [AImm 2; AVec; AVec; AVec]);
  ("CMGE_reg_1", [AImm 2; AVec; AVec; AVec]);
  ("SSHL_1", [AImm 2; AVec; AVec; AVec]);
  ("SQSHL_reg_1", [AImm 2; AVec; AVec; AVec]);
  ("SRSHL_1", [AImm 2; AVec; AVec; AVec]);
  ("SQRSHL_1", [AImm 2; AVec; AVec; AVec]);
  ("ADD_1", [AImm 2; AVec; AVec; AVec]);
  ("CMTST_1", [AImm 2; AVec; AVec; AVec]);
  ("SQDMULH_vec_1", [AImm 2; AVec; AVec; AVec]);
  ("UQADD_1", [AImm 2; AVec; AVec; AVec]);
  ("UQSUB_1", [AImm 2; AVec; AVec; AVec]);
  ("CMHI_1", [AImm 2; AVec; AVec; AVec]);
  ("CMHS_1", [AImm 2; AVec; AVec; AVec]);
  ("USHL_1", [AImm 2; AVec; AVec; AVec]);
  ("UQSHL_reg_1", [AImm 2; AVec; AVec; AVec]);
  ("URSHL_1", [AImm 2; AVec; AVec; AVec]);
  ("UQRSHL_1", [AImm 2; AVec; AVec; AVec]);
  ("SUB_1", [AImm 2; AVec; AVec; AVec]);
  ("CMEQ_reg_1", [AImm 2; AVec; AVec; AVec]);
  ("SQRDMULH_vec_1", [AImm 2; AVec; AVec; AVec]);
  ("SSHR_1", [AImm 4; AImm 3; AVec; AVec]);
  ("SSRA_1", [AImm 4; AImm 3; AVec; AVec]);
  ("SRSHR_1", [AImm 4; AImm 3; AVec; AVec]);
  ("SRSRA_1", [AImm 4; AImm 3; AVec; AVec]);
  ("SHL_1", [AImm 4; AImm 3; AVec; AVec]);
  ("SQSHL_imm_1", [AImm 4; AImm 3; AVec; AVec])].

Definition visitor_decls_5 : list (string * list argty) := [
  ("SQSHRN_1", [AImm 4; AImm 3; AVec; AVec]);
  ("SQRSHRN_1", [AImm 4; AImm 3; AVec; AVec]);
  ("SCVTF_fix_1", [AImm 4; AImm 3; AVec; AVec]);
  ("FCVTZS_fix_1", [AImm 4; AImm 3; AVec; AVec]);
  ("USHR_1", [AImm 4; AImm 3; AVec; AVec]);
  ("USRA_1", [AImm 4; AImm 3; AVec; AVec]);
  ("URSHR_1", [AImm 4; AImm 3; AVec; AVec]);
  ("URSRA_1", [AImm 4; AImm 3; AVec; AVec]);
  ("SRI_1", [AImm 4; AImm 3; AVec; AVec]);
  ("SLI_1", [AImm 4; AImm 3; AVec; AVec]);
  ("SQSHLU_1", [AImm 4; AImm 3; AVec; AVec]);
  ("UQSHL_imm_1", [AImm 4; AImm 3; AVec; AVec]);
  ("SQSHRUN_1", [AImm 4; AImm 3; AVec; AVec]);
  ("SQRSHRUN_1", [AImm 4; AImm 3; AVec; AVec]);
  ("UQSHRN_1", [AImm 4; AImm 3; AVec; AVec]);
  ("UQRSHRN_1", [AImm 4; AImm 3; AVec; AVec]);
  ("UCVTF_fix_1", [AImm 4; AImm 3; AVec; AVec]);
  ("FCVTZU_fix_1", [AImm 4; AImm 3; AVec; AVec]);
  ("SQDMLAL_elt_1", [AImm 2; AImm 1; AImm 1; AImm 4; AImm 1; AVec; AVec]);
  ("SQDMLSL_elt_1", [AImm 2; AImm 1; AImm 1; AImm 4; AImm 1; AVec; AVec]);
  ("SQDMULL_elt_1", [AImm 2; AImm 1; AImm 1; AImm 4; AImm 1; AVec; AVec]);
  ("SQDMULH_elt_1", [AImm 2; AImm 1; AImm 1; AImm 4; AImm 1; AVec; AVec]);
  ("SQRDMULH_elt_1", [AImm 2; AImm 1; AImm 1; AImm 4; AImm 1; AVec; AVec]);
  ("FMLA_elt_1", [AImm 1; AImm 1; AImm 4; AImm 1; AVec; AVec]);
  ("FMLA_elt_2", [ABool; AImm 1; AImm 1; AImm 4; AImm 1; AVec; AVec]);
  ("FMLS_elt_1", [AImm 1; AImm 1; AImm 4; AImm 1; AVec; AVec]);
  ("FMLS_elt_2", [ABool; AImm 1; AImm 1; AImm 4; AImm 1; AVec; AVec]);
  ("FMUL_elt_1", [AImm 1; AImm 1; AImm 4; AImm 1; AVec; AVec]);
  ("FMUL_elt_2", [ABool; AImm 1; AImm 1; AImm 4; AImm 1; AVec; AVec]);
  ("SQRDMLAH_elt_1", [AImm 2; AImm 1; AImm 1; AImm 4; AImm 1; AVec; AVec]);
  ("SQRDMLSH_elt_1", [AImm 2; AImm 1; AImm 1; AImm 4; AImm 1; AVec; AVec]);
  ("FMULX_elt_1", [AImm 1; AImm 1; AImm 4; AImm 1; AVec; AVec]);
  ("FMULX_elt_2", [ABool; AImm 1; AImm 1; AImm 4; AImm 1; AVec; AVec]);
  ("TBL", [ABool; AVec; AImm 2; ASize; AVec]);
  ("TBX", [ABool; AVec; AImm 2; ASize; AVec]);
  ("UZP1", [ABool; AImm 2; AVec; AVec; AVec]);
  ("TRN1", [ABool; AImm 2; AVec; AVec; AVec]);
  ("ZIP1", [ABool; AImm 2; AVec; AVec; AVec]);
  ("UZP2", [ABool; AImm 2; AVec; AVec; AVec]);
  ("TRN2", [ABool; AImm 2; AVec; AVec; AVec]);
  ("ZIP2", [ABool; AImm 2; AVec; AVec; AVec]);
  ("EXT", [ABool; AVec; AImm 4; AVec; AVec]);
  ("DUP_elt_2", [ABool; AImm 5; AVec; AVec]);
  ("DUP_gen", [ABool; AImm 5; AReg; AVec]);
  ("SMOV", [ABool; AImm 5; AVec; AReg]);
  ("UMOV", [ABool; AImm 5; AVec; AReg]);
  ("INS_gen", [AImm 5; AReg; AVec]);
  ("INS_elt", [AImm 5; AImm 4; AVec; AVec]);
  ("FMULX_vec_3", [ABool; AVec; AVec; AVec]);
  ("FCMEQ_reg_3", [ABool; AVec; AVec; AVec]);
  ("FRECPS_3", [ABool; AVec; AVec; AVec]);
  ("FRSQRTS_3", [ABool; AVec; AVec; AVec]);
  ("FCMGE_reg_3", [ABool; AVec; AVec; AVec]);
  ("FACGE_3", [ABool; AVec; AVec; AVec]);
  ("FABD_3", [ABool; AVec; AVec; AVec]);
  ("FCMGT_reg_3", [ABool; AVec; AVec; AVec]);
  ("FACGT_3", [ABool; AVec; AVec; AVec]);
  ("FMAXNM_1", [ABool; AVec; AVec; AVec]);
  ("FMLA_vec_1", [ABool; AVec; AVec; AVec]);
  ("FADD_1", [ABool; AVec; AVec; AVec]);
  ("FMAX_1", [ABool; AVec; AVec; AVec]);
  ("FMINNM_1", [ABool; AVec; AVec; AVec]);
  ("FMLS_vec_1", [ABool; AVec; AVec; AVec]);
  ("FSUB_1", [ABool; AVec; AVec; AVec]);
  ("FMIN_1", [ABool; AVec; AVec; AVec]);
  ("FMAXNMP_vec_1", [ABool; AVec; AVec; AVec]);
  ("FADDP_vec_1", [ABool; AVec; AVec; AVec]);
  ("FMUL_vec_1", [ABool; AVec; AVec; AVec]);
  ("FMAXP_vec_1", [ABool; AVec; AVec; AVec]);
  ("FDIV_1", [ABool; AVec; AVec; AVec]);
  ("FMINNMP_vec_1", [ABool; AVec; AVec; AVec]);
  ("FMINP_vec_1", [ABool; AVec; AVec; AVec]);
  ("SDOT_vec", [ABool; AImm 2; AVec; AVec; AVec]);
  ("UDOT_vec", [ABool; AImm 2; AVec; AVec; AVec]);
  ("FCMLA_vec", [ABool; AImm 2; AVec; AImm 2; AVec; AVec]);
  ("FCADD_vec", [ABool; AImm 2; AVec; AImm 1; AVec; AVec]);
  ("REV64_asimd", [ABool; AImm 2; AVec; AVec]);
  ("REV16_asimd", [ABool; AImm 2; AVec; AVec]);
  ("SADDLP", [ABool; AImm 2; AVec; AVec]);
  ("CLS_asimd", [ABool; AImm 2; AVec; AVec]);
  ("CNT", [ABool; AImm 2; AVec; AVec]);
  ("SADALP", [ABool; AImm 2; AVec; AVec]);
  ("XTN", [ABool; AImm 2; AVec; AVec]);
  ("FCVTN", [ABool; ABool; AVec; AVec]);
  ("FCVTL", [ABool; ABool; AVec; AVec]);
  ("URECPE", [ABool; ABool; AVec; AVec]);
  ("REV32_asimd", [ABool; AImm 2; AVec; AVec]);
  ("UADDLP", [ABool; AImm 2; AVec; AVec]);
  ("CLZ_asimd", [ABool; AImm 2; AVec; AVec]);
  ("UADALP", [ABool; AImm 2; AVec; AVec]);
  ("SHLL", [ABool; AImm 2; AVec; AVec]);
  ("NOT", [ABool; AVec; AVec]);
  ("RBIT_asimd", [ABool; AVec; AVec]);
  ("URSQRTE", [ABool; ABool; AVec; AVec]);
  ("SUQADD_2", [ABool; AImm 2; AVec; AVec]);
  ("SQABS_2", [ABool; AImm 2; AVec; AVec]);
  ("CMGT_zero_2", [ABool; AImm 2; AVec; AVec]);
  ("CMEQ_zero_2", [ABool; AImm 2; AVec; AVec]);
  ("CMLT_2", [ABool; AImm 2; AVec; AVec]);
  ("ABS_2", [ABool; AImm 2; AVec; AVec]);
  ("SQXTN_2", [ABool; AImm 2; AVec; AVec]);
  ("USQADD_2", [ABool; AImm 2; AVec; AVec]);
  ("SQNEG_2", [ABool; AImm 2; AVec; AVec]);
  ("CMGE_zero_2", [ABool; AImm 2; AVec; AVec]);
  ("CMLE_2", [ABool; AImm 2; AVec; AVec]);
  ("NEG_2", [ABool; AImm 2; AVec; AVec]);
  ("SQXTUN_2", [ABool; AImm 2; AVec; AVec]);
  ("UQXTN_2", [ABool; AImm 2; AVec; AVec]);
  ("FCVTXN_2", [ABool; ABool; AVec; AVec]);
  ("FRINTN_1", [ABool; AVec; AVec]);
  ("FRINTN_2", [ABool; ABool; AVec; AVec]);
  ("FRINTM_1", [ABool; AVec; AVec]);
  ("FRINTM_2", [ABool; ABool; AVec; AVec]);
  ("FABS_1", [ABool; AVec; AVec]);
  ("FABS_2", [ABool; ABool; AVec; AVec]);
  ("FRINTP_1", [ABool; AVec; AVec]);
  ("FRINTP_2", [ABool; ABool; AVec; AVec]);
  ("FRINTZ_1", [ABool; AVec; AVec]);
  ("FRINTZ_2", [ABool; ABool; AVec; AVec]);
  ("FRINTA_1", [ABool; AVec; AVec]);
  ("FRINTA_2", [ABool; ABool; AVec; AVec]);
  ("FRINTX_1", [ABool; AVec; AVec]);
  ("FRINTX_2", [ABool; ABool; AVec; AVec]);
  ("FNEG_1", [ABool; AVec; AVec]);
  ("FNEG_2", [ABool; ABool; AVec; AVec]);
  ("FRINTI_1", [ABool; AVec; AVec]);
  ("FRINTI_2", [ABool; ABool; AVec; AVec]);
  ("FSQRT_1", [ABool; AVec; AVec]);
  ("FSQRT_2", [ABool; ABool; AVec; AVec]);
  ("FRINT32X_1", [ABool; ABool; AVec; AVec]);
  ("FRINT64X_1", [ABool; ABool; AVec; AVec]);
  ("FRINT32Z_1", [ABool; ABool; AVec; AVec]);
  ("FRINT64Z_1", [ABool; ABool; AVec; AVec])].

Definition visitor_decls_6 : list (string * list argty) := [
  ("SADDLV", [ABool; AImm 2; AVec; AVec]);
  ("SMAXV", [ABool; AImm 2; AVec; AVec]);
  ("SMINV", [ABool; AImm 2; AVec; AVec]);
  ("ADDV", [ABool; AImm 2; AVec; AVec]);
  ("FMAXNMV_1", [ABool; AVec; AVec]);
  ("FMAXNMV_2", [ABool; ABool; AVec; AVec]);
  ("FMAXV_1", [ABool; AVec; AVec]);
  ("FMAXV_2", [ABool; ABool; AVec; AVec]);
  ("FMINNMV_1", [ABool; AVec; AVec]);
  ("FMINNMV_2", [ABool; ABool; AVec; AVec]);
  ("FMINV_1", [ABool; AVec; AVec]);
  ("FMINV_2", [ABool; ABool; AVec; AVec]);
  ("UADDLV", [ABool; AImm 2; AVec; AVec]);
  ("UMAXV", [ABool; AImm 2; AVec; AVec]);
  ("UMINV", [ABool; AImm 2; AVec; AVec]);
  ("SADDL", [ABool; AImm 2; AVec; AVec; AVec]);
  ("SADDW", [ABool; AImm 2; AVec; AVec; AVec]);
  ("SSUBL", [ABool; AImm 2; AVec; AVec; AVec]);
  ("SSUBW", [ABool; AImm 2; AVec; AVec; AVec]);
  ("ADDHN", [ABool; AImm 2; AVec; AVec; AVec]);
  ("SABAL", [ABool; AImm 2; AVec; AVec; AVec]);
  ("SUBHN", [ABool; AImm 2; AVec; AVec; AVec]);
  ("SABDL", [ABool; AImm 2; AVec; AVec; AVec]);
  ("SMLAL_vec", [ABool; AImm 2; AVec; AVec; AVec]);
  ("SMLSL_vec", [ABool; AImm 2; AVec; AVec; AVec]);
  ("SMULL_vec", [ABool; AImm 2; AVec; AVec; AVec]);
  ("PMULL", [ABool; AImm 2; AVec; AVec; AVec]);
  ("UADDL", [ABool; AImm 2; AVec; AVec; AVec]);
  ("UADDW", [ABool; AImm 2; AVec; AVec; AVec]);
  ("USUBL", [ABool; AImm 2; AVec; AVec; AVec]);
  ("USUBW", [ABool; AImm 2; AVec; AVec; AVec]);
  ("RADDHN", [ABool; AImm 2; AVec; AVec; AVec]);
  ("UABAL", [ABool; AImm 2; AVec; AVec; AVec]);
  ("RSUBHN", [ABool; AImm 2; AVec; AVec; AVec]);
  ("UABDL", [ABool; AImm 2; AVec; AVec; AVec]);
  ("UMLAL_vec", [ABool; AImm 2; AVec; AVec; AVec]);
  ("UMLSL_vec", [ABool; AImm 2; AVec; AVec; AVec]);
  ("UMULL_vec", [ABool; AImm 2; AVec; AVec; AVec]);
  ("SQDMLAL_vec_2", [ABool; AImm 2; AVec; AVec; AVec]);
  ("SQDMLSL_vec_2", [ABool; AImm 2; AVec; AVec; AVec]);
  ("SQDMULL_vec_2", [ABool; AImm 2; AVec; AVec; AVec]);
  ("SHADD", [ABool; AImm 2; AVec; AVec; AVec]);
  ("SRHADD", [ABool; AImm 2; AVec; AVec; AVec]);
  ("SHSUB", [ABool; AImm 2; AVec; AVec; AVec]);
  ("SMAX", [ABool; AImm 2; AVec; AVec; AVec]);
  ("SMIN", [ABool; AImm 2; AVec; AVec; AVec]);
  ("SABD", [ABool; AImm 2; AVec; AVec; AVec]);
  ("SABA", [ABool; AImm 2; AVec; AVec; AVec]);
  ("MLA_vec", [ABool; AImm 2; AVec; AVec; AVec]);
  ("MUL_vec", [ABool; AImm 2; AVec; AVec; AVec]);
  ("SMAXP", [ABool; AImm 2; AVec; AVec; AVec]);
  ("SMINP", [ABool; AImm 2; AVec; AVec; AVec]);
  ("ADDP_vec", [ABool; AImm 2; AVec; AVec; AVec]);
  ("FMLAL_vec_1", [ABool; ABool; AVec; AVec; AVec]);
  ("FMLAL_vec_2", [ABool; ABool; AVec; AVec; AVec]);
  ("AND_asimd", [ABool; AVec; AVec; AVec]);
  ("BIC_asimd_reg", [ABool; AVec; AVec; AVec]);
  ("FMLSL_vec_1", [ABool; ABool; AVec; AVec; AVec]);
  ("FMLSL_vec_2", [ABool; ABool; AVec; AVec; AVec]);
  ("ORR_asimd_reg", [ABool; AVec; AVec; AVec]);
  ("ORN_asimd", [ABool; AVec; AVec; AVec]);
  ("UHADD", [ABool; AImm 2; AVec; AVec; AVec]);
  ("URHADD", [ABool; AImm 2; AVec; AVec; AVec]);
  ("UHSUB", [ABool; AImm 2; AVec; AVec; AVec]);
  ("UMAX", [ABool; AImm 2; AVec; AVec; AVec]);
  ("UMIN", [ABool; AImm 2; AVec; AVec; AVec]);
  ("UABD", [ABool; AImm 2; AVec; AVec; AVec]);
  ("UABA", [ABool; AImm 2; AVec; AVec; AVec]);
  ("MLS_vec", [ABool; AImm 2; AVec; AVec; AVec]);
  ("PMUL", [ABool; AImm 2; AVec; AVec; AVec]);
  ("UMAXP", [ABool; AImm 2; AVec; AVec; AVec]);
  ("UMINP", [ABool; AImm 2; AVec; AVec; AVec]);
  ("EOR_asimd", [ABool; AVec; AVec; AVec]);
  ("BSL", [ABool; AVec; AVec; AVec]);
  ("BIT", [ABool; AVec; AVec; AVec]);
  ("BIF", [ABool; AVec; AVec; AVec]);
  ("FMAXNM_2", [ABool; ABool; AVec; AVec; AVec]);
  ("FMLA_vec_2", [ABool; ABool; AVec; AVec; AVec]);
  ("FADD_2", [ABool; ABool; AVec; AVec; AVec]);
  ("FMAX_2", [ABool; ABool; AVec; AVec; AVec]);
  ("FMINNM_2", [ABool; ABool; AVec; AVec; AVec]);
  ("FMLS_vec_2", [ABool; ABool; AVec; AVec; AVec]);
  ("FSUB_2", [ABool; ABool; AVec; AVec; AVec]);
  ("FMIN_2", [ABool; ABool; AVec; AVec; AVec]);
  ("FMAXNMP_vec_2", [ABool; ABool; AVec; AVec; AVec]);
  ("FADDP_vec_2", [ABool; ABool; AVec; AVec; AVec]);
  ("FMUL_vec_2", [ABool; ABool; AVec; AVec; AVec]);
  ("FMAXP_vec_2", [ABool; ABool; AVec; AVec; AVec]);
  ("FDIV_2", [ABool; ABool; AVec; AVec; AVec]);
  ("FMINNMP_vec_2", [ABool; ABool; AVec; AVec; AVec]);
  ("FMINP_vec_2", [ABool; ABool; AVec; AVec; AVec]);
  ("FMULX_vec_4", [ABool; ABool; AVec; AVec; AVec]);
  ("FCMEQ_reg_4", [ABool; ABool; AVec; AVec; AVec]);
  ("FRECPS_4", [ABool; ABool; AVec; AVec; AVec]);
  ("FRSQRTS_4", [ABool; ABool; AVec; AVec; AVec]);
  ("FCMGE_reg_4", [ABool; ABool; AVec; AVec; AVec]);
  ("FACGE_4", [ABool; ABool; AVec; AVec; AVec]);
  ("FABD_4", [ABool; ABool; AVec; AVec; AVec]);
  ("FCMGT_reg_4", [ABool; ABool; AVec; AVec; AVec]);
  ("FACGT_4", [ABool; ABool; AVec; AVec; AVec]);
  ("SQADD_2", [ABool; AImm 2; AVec; AVec; AVec]);
  ("SQSUB_2", [ABool; AImm 2; AVec; AVec; AVec]);
  ("CMGT_reg_2", [ABool; AImm 2; AVec; AVec; AVec]);
  ("CMGE_reg_2", [ABool; AImm 2; AVec; AVec; AVec]);
  ("SSHL_2", [ABool; AImm 2; AVec; AVec; AVec]);
  ("SQSHL_reg_2", [ABool; AImm 2; AVec; AVec; AVec]);
  ("SRSHL_2", [ABool; AImm 2; AVec; AVec; AVec]);
  ("SQRSHL_2", [ABool; AImm 2; AVec; AVec; AVec]);
  ("ADD_vector", [ABool; AImm 2; AVec; AVec; AVec]);
  ("CMTST_2", [ABool; AImm 2; AVec; AVec; AVec]);
  ("SQDMULH_vec_2", [ABool; AImm 2; AVec; AVec; AVec]);
  ("UQADD_2", [ABool; AImm 2; AVec; AVec; AVec]);
  ("UQSUB_2", [ABool; AImm 2; AVec; AVec; AVec]);
  ("CMHI_2", [ABool; AImm 2; AVec; AVec; AVec]);
  ("CMHS_2", [ABool; AImm 2; AVec; AVec; AVec]);
  ("USHL_2", [ABool; AImm 2; AVec; AVec; AVec]);
  ("UQSHL_reg_2", [ABool; AImm 2; AVec; AVec; AVec]);
  ("URSHL_2", [ABool; AImm 2; AVec; AVec; AVec]);
  ("UQRSHL_2", [ABool; AImm 2; AVec; AVec; AVec]);
  ("SUB_2", [ABool; AImm 2; AVec; AVec; AVec]);
  ("CMEQ_reg_2", [ABool; AImm 2; AVec; AVec; AVec]);
  ("SQRDMULH_vec_2", [ABool; AImm 2; AVec; AVec; AVec]);
  ("MOVI", [ABool; ABool; AImm 1; AImm 1; AImm 1; AImm 4; AImm 1; AImm 1; AImm 1; AImm 1; AImm 1; AVec]);
  ("FMOV_2", [ABool; ABool; AImm 1; AImm 1; AImm 1; AImm 1; AImm 1; AImm 1; AImm 1; AImm 1; AVec]);
  ("FMOV_3", [ABool; AImm 1; AImm 1; AImm 1; AImm 1; AImm 1; AImm 1; AImm 1; AImm 1; AVec]);
  ("SSHR_2", [ABool; AImm 4; AImm 3; AVec; AVec]);
  ("SSRA_2", [ABool; AImm 4; AImm 3; AVec; AVec]);
  ("SRSHR_2", [ABool; AImm 4; AImm 3; AVec; AVec]);
  ("SRSRA_2", [ABool; AImm 4; AImm 3; AVec; AVec]);
  ("SHL_2", [ABool; AImm 4; AImm 3; AVec; AVec]);
  ("SQSHL_imm_2", [ABool; AImm 4; AImm 3; AVec; AVec]);
  ("SHRN", [ABool; AImm 4; AImm 3; AVec; AVec]);
  ("RSHRN", [ABool; AImm 4; AImm 3; AVec; AVec]);
  ("SQSHRN_2", [ABool; AImm 4; AImm 3; AVec; AVec]);
  ("SQRSHRN_2", [ABool; AImm 4; AImm 3; AVec; AVec]);
  ("SSHLL", [ABool; AImm 4; AImm 3; AVec; AVec]);
  ("SCVTF_fix_2", [ABool; AImm 4; AImm 3; AVec; AVec]);
  ("FCVTZS_fix_2", [ABool; AImm 4; AImm 3; AVec; AVec]);
  ("USHR_2", [ABool; AImm 4; AImm 3; AVec; AVec]);
  ("USRA_2", [ABool; AImm 4; AImm 3; AVec; AVec]);
  ("URSHR_2", [ABool; AImm 4; AImm 3; AVec; AVec]);
  ("URSRA_2", [ABool; AImm 4; AImm 3; AVec; AVec])].

Definition visitor_decls_7 : list (string * list argty) := [
  ("SRI_2", [ABool; AImm 4; AImm 3; AVec; AVec]);
  ("SLI_2", [ABool; AImm 4; AImm 3; AVec; AVec]);
  ("SQSHLU_2", [ABool; AImm 4; AImm 3; AVec; AVec]);
  ("UQSHL_imm_2", [ABool; AImm 4; AImm 3; AVec; AVec]);
  ("SQSHRUN_2", [ABool; AImm 4; AImm 3; AVec; AVec]);
  ("SQRSHRUN_2", [ABool; AImm 4; AImm 3; AVec; AVec]);
  ("UQSHRN_2", [ABool; AImm 4; AImm 3; AVec; AVec]);
  ("UQRSHRN_2", [ABool; AImm 4; AImm 3; AVec; AVec]);
  ("USHLL", [ABool; AImm 4; AImm 3; AVec; AVec]);
  ("UCVTF_fix_2", [ABool; AImm 4; AImm 3; AVec; AVec]);
  ("FCVTZU_fix_2", [ABool; AImm 4; AImm 3; AVec; AVec]);
  ("SMLAL_elt", [ABool; AImm 2; AImm 1; AImm 1; AImm 4; AImm 1; AVec; AVec]);
  ("SQDMLAL_elt_2", [ABool; AImm 2; AImm 1; AImm 1; AImm 4; AImm 1; AVec; AVec]);
  ("SMLSL_elt", [ABool; AImm 2; AImm 1; AImm 1; AImm 4; AImm 1; AVec; AVec]);
  ("SQDMLSL_elt_2", [ABool; AImm 2; AImm 1; AImm 1; AImm 4; AImm 1; AVec; AVec]);
  ("MUL_elt", [ABool; AImm 2; AImm 1; AImm 1; AImm 4; AImm 1; AVec; AVec]);
  ("SMULL_elt", [ABool; AImm 2; AImm 1; AImm 1; AImm 4; AImm 1; AVec; AVec]);
  ("SQDMULL_elt_2", [ABool; AImm 2; AImm 1; AImm 1; AImm 4; AImm 1; AVec; AVec]);
  ("SQDMULH_elt_2", [ABool; AImm 2; AImm 1; AImm 1; AImm 4; AImm 1; AVec; AVec]);
  ("SQRDMULH_elt_2", [ABool; AImm 2; AImm 1; AImm 1; AImm 4; AImm 1; AVec; AVec]);
  ("SDOT_elt", [ABool; AImm 2; AImm 1; AImm 1; AImm 4; AImm 1; AVec; AVec]);
  ("FMLA_elt_3", [ABool; AImm 1; AImm 1; AImm 4; AImm 1; AVec; AVec]);
  ("FMLA_elt_4", [ABool; ABool; AImm 1; AImm 1; AImm 4; AImm 1; AVec; AVec]);
  ("FMLS_elt_3", [ABool; AImm 1; AImm 1; AImm 4; AImm 1; AVec; AVec]);
  ("FMLS_elt_4", [ABool; ABool; AImm 1; AImm 1; AImm 4; AImm 1; AVec; AVec]);
  ("FMUL_elt_3", [ABool; AImm 1; AImm 1; AImm 4; AImm 1; AVec; AVec]);
  ("FMUL_elt_4", [ABool; ABool; AImm 1; AImm 1; AImm 4; AImm 1; AVec; AVec]);
  ("FMLAL_elt_1", [ABool; ABool; AImm 1; AImm 1; AImm 4; AImm 1; AVec; AVec]);
  ("FMLAL_elt_2", [ABool; ABool; AImm 1; AImm 1; AImm 4; AImm 1; AVec; AVec]);
  ("FMLSL_elt_1", [ABool; ABool; AImm 1; AImm 1; AImm 4; AImm 1; AVec; AVec]);
  ("FMLSL_elt_2", [ABool; ABool; AImm 1; AImm 1; AImm 4; AImm 1; AVec; AVec]);
  ("MLA_elt", [ABool; AImm 2; AImm 1; AImm 1; AImm 4; AImm 1; AVec; AVec]);
  ("UMLAL_elt", [ABool; AImm 2; AImm 1; AImm 1; AImm 4; AImm 1; AVec; AVec]);
  ("MLS_elt", [ABool; AImm 2; AImm 1; AImm 1; AImm 4; AImm 1; AVec; AVec]);
  ("UMLSL_elt", [ABool; AImm 2; AImm 1; AImm 1; AImm 4; AImm 1; AVec; AVec]);
  ("UMULL_elt", [ABool; AImm 2; AImm 1; AImm 1; AImm 4; AImm 1; AVec; AVec]);
  ("SQRDMLAH_elt_2", [ABool; AImm 2; AImm 1; AImm 1; AImm 4; AImm 1; AVec; AVec]);
  ("UDOT_elt", [ABool; AImm 2; AImm 1; AImm 1; AImm 4; AImm 1; AVec; AVec]);
  ("SQRDMLSH_elt_2", [ABool; AImm 2; AImm 1; AImm 1; AImm 4; AImm 1; AVec; AVec]);
  ("FMULX_elt_3", [ABool; AImm 1; AImm 1; AImm 4; AImm 1; AVec; AVec]);
  ("FMULX_elt_4", [ABool; ABool; AImm 1; AImm 1; AImm 4; AImm 1; AVec; AVec]);
  ("FCMLA_elt", [ABool; AImm 2; AImm 1; AImm 1; AImm 4; AImm 2; AImm 1; AVec; AVec]);
  ("SM3TT1A", [AVec; AImm 2; AVec; AVec]);
  ("SM3TT1B", [AVec; AImm 2; AVec; AVec]);
  ("SM3TT2A", [AVec; AImm 2; AVec; AVec]);
  ("SM3TT2B", [AVec; AImm 2; AVec; AVec]);
  ("SHA512H", [AVec; AVec; AVec]);
  ("SHA512H2", [AVec; AVec; AVec]);
  ("SHA512SU1", [AVec; AVec; AVec]);
  ("RAX1", [AVec; AVec; AVec]);
  ("XAR", [AVec; AImm 6; AVec; AVec]);
  ("SM3PARTW1", [AVec; AVec; AVec]);
  ("SM3PARTW2", [AVec; AVec; AVec]);
  ("SM4EKEY", [AVec; AVec; AVec]);
  ("EOR3", [AVec; AVec; AVec; AVec]);
  ("BCAX", [AVec; AVec; AVec; AVec]);
  ("SM3SS1", [AVec; AVec; AVec; AVec]);
  ("SHA512SU0", [AVec; AVec]);
  ("SM4E", [AVec; AVec]);
  ("SCVTF_float_fix", [ABool; AImm 2; AImm 6; AReg; AVec]);
  ("UCVTF_float_fix", [ABool; AImm 2; AImm 6; AReg; AVec]);
  ("FCVTZS_float_fix", [ABool; AImm 2; AImm 6; AVec; AReg]);
  ("FCVTZU_float_fix", [ABool; AImm 2; AImm 6; AVec; AReg]);
  ("FCVTNS_float", [ABool; AImm 2; AVec; AReg]);
  ("FCVTNU_float", [ABool; AImm 2; AVec; AReg]);
  ("SCVTF_float_int", [ABool; AImm 2; AReg; AVec]);
  ("UCVTF_float_int", [ABool; AImm 2; AReg; AVec]);
  ("FCVTAS_float", [ABool; AImm 2; AVec; AReg]);
  ("FCVTAU_float", [ABool; AImm 2; AVec; AReg]);
  ("FMOV_float_gen", [ABool; AImm 2; AImm 1; AImm 1; ASize; ASize]);
  ("FCVTPS_float", [ABool; AImm 2; AVec; AReg]);
  ("FCVTPU_float", [ABool; AImm 2; AVec; AReg]);
  ("FCVTMS_float", [ABool; AImm 2; AVec; AReg]);
  ("FCVTMU_float", [ABool; AImm 2; AVec; AReg]);
  ("FCVTZS_float_int", [ABool; AImm 2; AVec; AReg]);
  ("FCVTZU_float_int", [ABool; AImm 2; AVec; AReg]);
  ("FJCVTZS", [AVec; AReg]);
  ("FMOV_float", [AImm 2; AVec; AVec]);
  ("FABS_float", [AImm 2; AVec; AVec]);
  ("FNEG_float", [AImm 2; AVec; AVec]);
  ("FSQRT_float", [AImm 2; AVec; AVec]);
  ("FCVT_float", [AImm 2; AImm 2; AVec; AVec]);
  ("FRINTN_float", [AImm 2; AVec; AVec]);
  ("FRINTP_float", [AImm 2; AVec; AVec]);
  ("FRINTM_float", [AImm 2; AVec; AVec]);
  ("FRINTZ_float", [AImm 2; AVec; AVec]);
  ("FRINTA_float", [AImm 2; AVec; AVec]);
  ("FRINTX_float", [AImm 2; AVec; AVec]);
  ("FRINTI_float", [AImm 2; AVec; AVec]);
  ("FRINT32X_float", [AImm 2; AVec; AVec]);
  ("FRINT64X_float", [AImm 2; AVec; AVec]);
  ("FRINT32Z_float", [AImm 2; AVec; AVec]);
  ("FRINT64Z_float", [AImm 2; AVec; AVec]);
  ("FCMP_float", [AImm 2; AVec; AVec; ABool]);
  ("FCMPE_float", [AImm 2; AVec; AVec; ABool]);
  ("FMOV_float_imm", [AImm 2; AImm 8; AVec]);
  ("FCCMP_float", [AImm 2; AVec; ACond; AVec; AImm 4]);
  ("FCCMPE_float", [AImm 2; AVec; ACond; AVec; AImm 4]);
  ("FMUL_float", [AImm 2; AVec; AVec; AVec]);
  ("FDIV_float", [AImm 2; AVec; AVec; AVec]);
  ("FADD_float", [AImm 2; AVec; AVec; AVec]);
  ("FSUB_float", [AImm 2; AVec; AVec; AVec]);
  ("FMAX_float", [AImm 2; AVec; AVec; AVec]);
  ("FMIN_float", [AImm 2; AVec; AVec; AVec]);
  ("FMAXNM_float", [AImm 2; AVec; AVec; AVec]);
  ("FMINNM_float", [AImm 2; AVec; AVec; AVec]);
  ("FNMUL_float", [AImm 2; AVec; AVec; AVec]);
  ("FCSEL_float", [AImm 2; AVec; ACond; AVec; AVec]);
  ("FMADD_float", [AImm 2; AVec; AVec; AVec; AVec]);
  ("FMSUB_float", [AImm 2; AVec; AVec; AVec; AVec]);
  ("FNMADD_float", [AImm 2; AVec; AVec; AVec; AVec]);
  ("FNMSUB_float", [AImm 2; AVec; AVec; AVec; AVec])].

(** Every instruction method of [TranslatorVisitor]. *)
Definition visitor_decls : list (string * list argty) :=
  visitor_decls_1 ++ visitor_decls_2 ++ visitor_decls_3 ++ visitor_decls_4 ++ visitor_decls_5 ++ visitor_decls_6 ++ visitor_decls_7.
