(* ===== verification/A64Decoder.v ===== *)
(** The A64 instruction decoder of dynarmic:
    frontend/decoder/decoder_detail.h (bitstrings to masks, expected values and
    argument fields), frontend/decoder/matcher.h ([Matcher]) and
    frontend/A64/decoder/a64.h ([GetDecodeTable], [Decode]), over the rows of
    [A64Table]. *)
From S2P Require Import Prelude A64Table.
Local Open Scope Z_scope.

(** ** decoder_detail.h *)

Definition opcode_bitsize : nat := 32.

(** [StringToArray]. *)
Definition StringToArray (str : string) : list Ascii.ascii := String.list_ascii_of_string str.

(** One step of the loop of [GetMaskAndExpect] at [bit_position]. *)
Definition mask_expect_step (bit_position : Z) (ch : Ascii.ascii) (st : Z * Z) : Z * Z :=
  let '(mask, expect) := st in
  if Ascii.eqb ch "0"%char then (Z.lor mask (Z.shiftl 1 bit_position), expect)
  else if Ascii.eqb ch "1"%char then
    (Z.lor mask (Z.shiftl 1 bit_position), Z.lor expect (Z.shiftl 1 bit_position))
  else (mask, expect).

Fixpoint mask_expect_loop (bits : list Ascii.ascii) (i : nat) (st : Z * Z) : Z * Z :=
  match bits with
  | [] => st
  | ch :: bits' =>
      mask_expect_loop bits' (S i)
        (mask_expect_step (Z.of_nat opcode_bitsize - Z.of_nat i - 1) ch st)
  end.

Definition GetMaskAndExpect (bitstring : list Ascii.ascii) : Z * Z :=
  mask_expect_loop bitstring 0 (0, 0).

(** The local variables of [GetArgInfo]: the masks and shifts found so far,
    [arg_index] and [ch] ([None] for the character 0). *)
Record arg_info_state : Type := {
  ai_masks : list Z;
  ai_shifts : list Z;
  ai_index : nat;
  ai_ch : option Ascii.ascii
}.

Definition is_fixed (ch : Ascii.ascii) : bool :=
  Ascii.eqb ch "0"%char || Ascii.eqb ch "1"%char || Ascii.eqb ch "-"%char.

(** One step of the loop of [GetArgInfo<N>]; [None] is the
    [std::out_of_range "Unexpected field"] of the compile-time evaluation. *)
Definition arg_info_step (N : nat) (bit_position : Z) (ch : Ascii.ascii)
    (st : arg_info_state) : option arg_info_state :=
  if is_fixed ch then
    match ai_ch st with
    | Some _ => Some {| ai_masks := ai_masks st; ai_shifts := ai_shifts st;
                        ai_index := S (ai_index st); ai_ch := None |}
    | None => Some st
    end
  else
    let index := match ai_ch st with
                 | None => ai_index st
                 | Some c => if Ascii.eqb c ch then ai_index st else S (ai_index st)
                 end in
    if (N <=? index)%nat then None
    else Some {| ai_masks := alter (fun m => Z.lor m (Z.shiftl 1 bit_position)) index (ai_masks st);
                 ai_shifts := <[index := bit_position]> (ai_shifts st);
                 ai_index := index;
                 ai_ch := Some ch |}.

Fixpoint arg_info_loop (N : nat) (bits : list Ascii.ascii) (i : nat)
    (st : arg_info_state) : option arg_info_state :=
  match bits with
  | [] => Some st
  | ch :: bits' =>
      match arg_info_step N (Z.of_nat opcode_bitsize - Z.of_nat i - 1) ch st with
      | Some st' => arg_info_loop N bits' (S i) st'
      | None => None
      end
  end.

(** [GetArgInfo<N>]: the masks and shifts of the N arguments, or a failed
    constant evaluation (an unexpected field, or an argument with no bits). *)
Definition GetArgInfo (N : nat) (bitstring : list Ascii.ascii) : option (list Z * list Z) :=
  match arg_info_loop N bitstring 0
          {| ai_masks := replicate N 0; ai_shifts := replicate N 0;
             ai_index := 0; ai_ch := None |} with
  | Some st =>
      if forallb (fun m => negb (m =? 0)) (ai_masks st)
      then Some (ai_masks st, ai_shifts st) else None
  | None => None
  end.

(** ** matcher.h *)

(** A [Matcher]; its handler is the visitor method with the captured argument
    masks and shifts. *)
Record Matcher : Type := {
  name : string;
  mask : Z;
  expected : Z;
  handler : string;
  arg_masks : list Z;
  arg_shifts : list Z
}.

Definition Matches (m : Matcher) (instruction : Z) : bool :=
  Z.land instruction (mask m) =? expected m.

(** The lambda [VisitorCaller::Make] builds: the visitor method and the values
    of its arguments. *)
Definition visit_args (m : Matcher) (instruction : Z) : list Z :=
  zip_with (fun am sh => Z.shiftr (Z.land instruction am) sh) (arg_masks m) (arg_shifts m).

(** [Matcher::call]. *)
Definition call (m : Matcher) (instruction : Z) : outcome (string * list Z) :=
  if Matches m instruction then Ret (handler m, visit_args m instruction)
  else Stop AssertFailed.

(** [mcl::parameter_count_v] of the visitor method [fn]. *)
Fixpoint find_decl (fn : string) (l : list (string * list argty)) : option (list argty) :=
  match l with
  | [] => None
  | (n, tys) :: l' => if String.eqb n fn then Some tys else find_decl fn l'
  end.

(** [GetMatcher<bitstring>(&V::fn, name)]. *)
Definition GetMatcher (r : inst_row) : option Matcher :=
  match find_decl (row_fn r) visitor_decls with
  | None => None
  | Some tys =>
      let bits := StringToArray (row_bits r) in
      match GetArgInfo (length tys) bits with
      | None => None
      | Some (masks, shifts) =>
          Some {| name := row_name r;
                  mask := fst (GetMaskAndExpect bits);
                  expected := snd (GetMaskAndExpect bits);
                  handler := row_fn r;
                  arg_masks := masks;
                  arg_shifts := shifts |}
      end
  end.

(** ** a64.h *)

Definition ToFastLookupIndex (instruction : Z) : Z :=
  Z.lor (Z.land (Z.shiftr instruction 10) 0x00F) (Z.land (Z.shiftr instruction 18) 0xFF0).

(** [mcl::bit::count_ones] on a 32-bit value. *)
Definition count_ones (x : Z) : nat :=
  length (List.filter (fun i => Z.testbit x (Z.of_nat i)) (seq 0 32)).

Section StableAlgorithms.
Context {A : Type} (before : A -> A -> bool).

(** [std::stable_sort] with the strict ordering [before]. *)
Fixpoint stable_insert (x : A) (l : list A) : list A :=
  match l with
  | [] => [x]
  | y :: l' => if before y x then y :: stable_insert x l' else x :: y :: l'
  end.

Definition stable_sort (l : list A) : list A := foldr stable_insert [] l.
End StableAlgorithms.

(** [std::stable_partition]. *)
Definition stable_partition {A} (p : A -> bool) (l : list A) : list A :=
  List.filter p l ++ List.filter (fun x => negb (p x)) l.

Definition more_specific (m1 m2 : Matcher) : bool :=
  (count_ones (mask m2) <? count_ones (mask m1))%nat.

Definition comes_first (m : Matcher) : bool :=
  existsb (String.eqb (name m))
    ["MOVI, MVNI, ORR, BIC (vector, immediate)";
     "FMOV (vector, immediate)";
     "Unallocated SIMD modified immediate"].

(** The matchers in the order [GetDecodeTable] tries them. *)
Definition order_matchers (rows : list Matcher) : list Matcher :=
  stable_partition comes_first (stable_sort more_specific rows).

(** The initial [list] of [GetDecodeTable]: one matcher per row. *)
Definition a64_matchers : list Matcher := omap GetMatcher a64_inc.

Definition in_subtable (i : Z) (m : Matcher) : bool :=
  Z.land i (ToFastLookupIndex (mask m)) =? ToFastLookupIndex (expected m).

(** [GetDecodeTable]: the 0x1000 subtables. *)
Definition GetDecodeTable (rows : list Matcher) : list (list Matcher) :=
  map (fun i => List.filter (in_subtable (Z.of_nat i)) (order_matchers rows)) (seq 0 0x1000).

(** [Decode] over the table of a list of rows. *)
Definition Decode (rows : list Matcher) (instruction : Z) : option Matcher :=
  match nthZ (GetDecodeTable rows) (ToFastLookupIndex instruction) with
  | Some subtable => List.find (fun m => Matches m instruction) subtable
  | None => None
  end.

(** The number of bits a visitor parameter can hold: [Reg] and [Vec] are the
    32 register numbers, [Cond] the 16 conditions, [Imm<n>] asserts n bits. *)
Definition argty_bits (ty : argty) : Z :=
  match ty with
  | AImm n => n
  | AReg | AVec => 5
  | ABool => 1
  | ACond => 4
  | ASize => 64
  end.

Definition fits (ty : argty) (v : Z) : Prop := 0 <= v < 2 ^ argty_bits ty.

(** ** Lemmas *)

(** Two matchers that disagree on a bit both of them fix. *)
Definition conflict (m1 m2 : Matcher) : bool :=
  negb (Z.land (Z.land (mask m1) (mask m2)) (Z.lxor (expected m1) (expected m2)) =? 0).

Lemma conflict_exclusive m1 m2 i :
  conflict m1 m2 = true -> Matches m1 i = true -> Matches m2 i = false.
Proof.
  unfold conflict, Matches. intros C H1.
  apply Z.eqb_eq in H1. apply negb_true_iff, Z.eqb_neq in C.
  apply Z.eqb_neq. intros H2. apply C. rewrite <- H1, <- H2.
  apply Z.bits_inj'. intros n Hn. rewrite !Z.land_spec, Z.lxor_spec, !Z.land_spec, Z.bits_0.
  destruct (Z.testbit i n), (Z.testbit (mask m1) n), (Z.testbit (mask m2) n); reflexivity.
Qed.

Lemma ToFastLookupIndex_land a b :
  ToFastLookupIndex (Z.land a b) = Z.land (ToFastLookupIndex a) (ToFastLookupIndex b).
Proof.
  unfold ToFastLookupIndex. apply Z.bits_inj'. intros n Hn.
  assert (Z.testbit 15 n && Z.testbit 4080 n = false)%bool as E.
  { rewrite <- Z.land_spec. apply Z.bits_0. }
  rewrite !Z.land_spec, !Z.lor_spec, !Z.land_spec, !Z.shiftr_spec, !Z.land_spec by lia.
  destruct (Z.testbit 15 n), (Z.testbit 4080 n), (Z.testbit a (n + 10)),
    (Z.testbit b (n + 10)), (Z.testbit a (n + 18)), (Z.testbit b (n + 18));
    try reflexivity; discriminate.
Qed.

Lemma ToFastLookupIndex_range x : 0 <= ToFastLookupIndex x < 0x1000.
Proof.
  assert (ToFastLookupIndex x = Z.land (ToFastLookupIndex x) (Z.ones 12)) as ->.
  { unfold ToFastLookupIndex. rewrite Z.land_lor_distr_l, <- !Z.land_assoc. reflexivity. }
  rewrite Z.land_ones by lia. apply Z.mod_pos_bound. reflexivity.
Qed.

Lemma find_filter_implied {A} (P Q : A -> bool) (l : list A) :
  (forall x, P x = true -> Q x = true) ->
  List.find P (List.filter Q l) = List.find P l.
Proof.
  intros H. induction l as [|x l IH]; [reflexivity|]. simpl.
  destruct (Q x) eqn:EQ; simpl; [rewrite IH; reflexivity|].
  destruct (P x) eqn:EP; [|exact IH]. apply H in EP. congruence.
Qed.

Lemma Matches_in_subtable m i :
  Matches m i = true -> in_subtable (ToFastLookupIndex i) m = true.
Proof.
  unfold Matches, in_subtable. intros H%Z.eqb_eq. apply Z.eqb_eq.
  rewrite <- ToFastLookupIndex_land, H. reflexivity.
Qed.

(** The fast lookup loses nothing: decoding is a linear search of the ordered
    matchers. *)
Lemma Decode_linear rows i :
  Decode rows i = List.find (fun m => Matches m i) (order_matchers rows).
Proof.
  unfold Decode, GetDecodeTable, nthZ.
  pose proof (ToFastLookupIndex_range i) as R.
  destruct (Z.ltb_spec (ToFastLookupIndex i) 0); [lia|].
  rewrite list_lookup_fmap, lookup_seq_lt by lia. simpl.
  rewrite Z2Nat.id by lia.
  apply find_filter_implied. intros m. apply Matches_in_subtable.
Qed.

Section StableSortFacts.
Context {A : Type} (key : A -> nat).
Let before (a b : A) : bool := (key b <? key a)%nat.

Lemma stable_insert_elem x y l : y ∈ stable_insert before x l <-> y = x \/ y ∈ l.
Proof.
  induction l as [|z l IH]; simpl; [set_solver|].
  destruct (before z x); set_solver.
Qed.

Lemma stable_sort_elem y l : y ∈ stable_sort before l <-> y ∈ l.
Proof.
  induction l as [|x l IH]; simpl; [reflexivity|].
  rewrite stable_insert_elem, IH. set_solver.
Qed.

Lemma stable_insert_sorted x l :
  StronglySorted (fun a b => key b <= key a)%nat l ->
  StronglySorted (fun a b => key b <= key a)%nat (stable_insert before x l).
Proof.
  induction 1 as [|y l HS IH HF]; simpl.
  - repeat constructor.
  - destruct (before y x) eqn:E; unfold before in E;
      [apply Nat.ltb_lt in E | apply Nat.ltb_ge in E].
    + constructor; [exact IH|]. apply Forall_forall. intros z.
      rewrite stable_insert_elem. rewrite Forall_forall in HF.
      intros [->|Hz]; [lia|apply HF, Hz].
    + constructor; [constructor; assumption|].
      constructor; [lia|]. eapply Forall_impl; [exact HF|]. simpl. intros. lia.
Qed.

Lemma stable_sort_sorted l :
  StronglySorted (fun a b => key b <= key a)%nat (stable_sort before l).
Proof. induction l; simpl; [constructor|]. apply stable_insert_sorted. assumption. Qed.

Lemma find_sorted_max (P : A -> bool) l m x :
  StronglySorted (fun a b => key b <= key a)%nat l ->
  List.find P l = Some m -> x ∈ l -> P x = true -> (key x <= key m)%nat.
Proof.
  induction 1 as [|y l HS IH HF]; simpl; [discriminate|].
  destruct (P y) eqn:E.
  - intros [= ->] [->|Hx]%elem_of_cons _; [lia|].
    rewrite Forall_forall in HF. apply HF, Hx.
  - intros Hf [->|Hx]%elem_of_cons HP; [congruence|]. apply IH; assumption.
Qed.

Lemma filter_sorted (q : A -> bool) l :
  StronglySorted (fun a b => key b <= key a)%nat l ->
  StronglySorted (fun a b => key b <= key a)%nat (List.filter q l).
Proof.
  induction 1 as [|y l HS IH HF]; simpl; [constructor|].
  destruct (q y); [|exact IH]. constructor; [exact IH|].
  rewrite Forall_forall in *. intros z. rewrite list_elem_of_In, filter_In, <- list_elem_of_In.
  intros [Hz _]. apply HF, Hz.
Qed.
End StableSortFacts.

Lemma stable_partition_elem {A} (p : A -> bool) x l :
  x ∈ stable_partition p l <-> x ∈ l.
Proof.
  unfold stable_partition. rewrite elem_of_app, !list_elem_of_In, !filter_In.
  destruct (p x); simpl; intuition congruence.
Qed.

Lemma order_matchers_elem m rows : m ∈ order_matchers rows <-> m ∈ rows.
Proof.
  unfold order_matchers. rewrite stable_partition_elem.
  apply (stable_sort_elem (fun m => count_ones (mask m))).
Qed.

Lemma find_app_split {A} (P : A -> bool) l1 l2 :
  List.find P (l1 ++ l2) = match List.find P l1 with
                           | Some x => Some x
                           | None => List.find P l2
                           end.
Proof. induction l1 as [|x l1 IH]; simpl; [reflexivity|]. destruct (P x); auto. Qed.

Lemma find_filter_other {A} (P q : A -> bool) l x :
  List.find P (List.filter q l) = Some x -> q x = true.
Proof. intros H. apply find_some in H as [H _]. apply filter_In in H. tauto. Qed.

(** *** Argument fields *)

Definition field_width (am sh : Z) : Z := Z.log2 (Z.shiftr am sh) + 1.

(** A field mask is a run of ones that fits the parameter type. *)
Definition field_ok (ty : argty) (am sh : Z) : bool :=
  let w := field_width am sh in
  (0 <=? sh) && (0 <=? w) && (am =? Z.shiftl (Z.ones w) sh)
  && match ty with ASize => w <=? 64 | _ => w =? argty_bits ty end.

Fixpoint fields_ok (tys : list argty) (ams shs : list Z) : bool :=
  match tys, ams, shs with
  | [], [], [] => true
  | ty :: tys', am :: ams', sh :: shs' => field_ok ty am sh && fields_ok tys' ams' shs'
  | _, _, _ => false
  end.

Definition row_ok (r : inst_row) : bool :=
  match find_decl (row_fn r) visitor_decls, GetMatcher r with
  | Some tys, Some m => fields_ok tys (arg_masks m) (arg_shifts m)
  | _, _ => false
  end.

Lemma field_ok_fits ty am sh i :
  field_ok ty am sh = true -> fits ty (Z.shiftr (Z.land i am) sh).
Proof.
  unfold field_ok. set (w := field_width am sh). intros H. zbool.
  assert (w <= argty_bits ty) by (destruct ty; zbool; simpl in *; lia).
  match goal with E : am = _ |- _ => rewrite E end.
  assert (Z.shiftr (Z.land i (Z.shiftl (Z.ones w) sh)) sh = Z.land (Z.shiftr i sh) (Z.ones w)) as ->.
  { apply Z.bits_inj'. intros n Hn.
    rewrite Z.shiftr_spec, !Z.land_spec, Z.shiftr_spec, Z.shiftl_spec by lia.
    do 2 f_equal. lia. }
  rewrite Z.land_ones by lia. unfold fits.
  pose proof (Z.mod_pos_bound (Z.shiftr i sh) (2 ^ w) (pow2_pos w ltac:(lia))).
  pose proof (Z.pow_le_mono_r 2 w (argty_bits ty)). lia.
Qed.

Lemma fields_ok_fits tys ams shs i :
  fields_ok tys ams shs = true ->
  Forall2 fits tys (zip_with (fun am sh => Z.shiftr (Z.land i am) sh) ams shs).
Proof.
  revert ams shs. induction tys as [|ty tys IH]; intros [|am ams] [|sh shs]; simpl;
    try discriminate; [constructor|].
  intros [H1 H2]%andb_true_iff. constructor; [apply field_ok_fits, H1 | apply IH, H2].
Qed.

Lemma a64_rows_ok : forallb row_ok a64_inc = true.
Proof. vm_compute. reflexivity. Qed.

(** *** Rows that no other row can shadow *)

#[export] Instance inst_row_eq_dec : EqDecision inst_row.
Proof. solve_decision. Defined.

(** The rows of the table that can match an instruction [r0] also matches. *)
Definition overlapping (r0 : inst_row) (rows : list inst_row) : list inst_row :=
  let '(m0, e0) := GetMaskAndExpect (StringToArray (row_bits r0)) in
  List.filter (fun r =>
    let '(m, e) := GetMaskAndExpect (StringToArray (row_bits r)) in
    Z.land (Z.land m0 m) (Z.lxor e0 e) =? 0) rows.

Lemma GetMatcher_mask r m :
  GetMatcher r = Some m ->
  (mask m, expected m) = GetMaskAndExpect (StringToArray (row_bits r)) /\
  handler m = row_fn r /\ name m = row_name r.
Proof.
  unfold GetMatcher. destruct (find_decl _ _); [|discriminate].
  destruct (GetArgInfo _ _) as [[]|]; [|discriminate]. intros [= <-]. simpl.
  rewrite <- surjective_pairing. auto.
Qed.

Lemma overlapping_match rows r0 r m0 m i :
  GetMatcher r0 = Some m0 -> GetMatcher r = Some m -> r ∈ rows ->
  Matches m0 i = true -> Matches m i = true -> r ∈ overlapping r0 rows.
Proof.
  intros H0 H Hr M0 M1.
  apply GetMatcher_mask in H0 as (E0 & _), H as (E & _).
  unfold overlapping. rewrite <- E0. rewrite list_elem_of_In, filter_In, <- list_elem_of_In, <- E.
  split; [exact Hr|]. destruct (Z.land _ _ =? 0) eqn:C; [reflexivity|].
  assert (conflict m0 m = true) as K by (unfold conflict; rewrite C; reflexivity).
  rewrite (conflict_exclusive _ _ _ K M0) in M1. discriminate.
Qed.

Lemma a64_matchers_elem m :
  m ∈ a64_matchers <-> exists r, r ∈ a64_inc /\ GetMatcher r = Some m.
Proof. unfold a64_matchers. apply list_elem_of_omap. Qed.

Lemma Decode_Some rows i m :
  Decode rows i = Some m -> m ∈ rows /\ Matches m i = true.
Proof.
  rewrite Decode_linear. intros H. apply find_some in H as [H1 H2].
  rewrite <- list_elem_of_In, order_matchers_elem in H1. auto.
Qed.

Lemma Decode_None rows i m :
  Decode rows i = None -> m ∈ rows -> Matches m i = false.
Proof.
  rewrite Decode_linear. intros H Hm. eapply find_none in H; [exact H|].
  rewrite <- list_elem_of_In, order_matchers_elem. exact Hm.
Qed.

Lemma Decode_specific rows i m m' :
  Decode rows i = Some m -> comes_first m = false ->
  m' ∈ rows -> Matches m' i = true ->
  comes_first m' = false /\ (count_ones (mask m') <= count_ones (mask m))%nat.
Proof.
  rewrite Decode_linear. unfold order_matchers, stable_partition. rewrite find_app_split.
  set (sorted := stable_sort more_specific rows).
  assert (StronglySorted (fun a b => count_ones (mask b) <= count_ones (mask a))%nat sorted) as HS
    by apply (stable_sort_sorted (fun m => count_ones (mask m))).
  intros H Hm Hin HM.
  assert (m' ∈ sorted) as Hs
    by (apply (stable_sort_elem (fun m => count_ones (mask m))), Hin).
  destruct (List.find _ (List.filter comes_first sorted)) eqn:E1.
  { injection H as ->. apply find_filter_other in E1. congruence. }
  destruct (comes_first m') eqn:Ec.
  - eapply find_none in E1; [|apply filter_In; rewrite <- list_elem_of_In; split; [exact Hs|exact Ec]].
    simpl in E1. congruence.
  - split; [reflexivity|].
    eapply (find_sorted_max (fun m => count_ones (mask m)));
      [| exact H | | exact HM].
    + apply filter_sorted, HS.
    + rewrite list_elem_of_In, filter_In, <- list_elem_of_In, Ec. auto.
Qed.

(** A row that overlaps only less specific rows is the one [Decode] finds. *)
Lemma Decode_row r0 m0 i :
  r0 ∈ a64_inc -> GetMatcher r0 = Some m0 -> Matches m0 i = true ->
  comes_first m0 = false ->
  (forall r m, r ∈ overlapping r0 a64_inc -> GetMatcher r = Some m ->
     r = r0 \/ (comes_first m = false /\ count_ones (mask m) < count_ones (mask m0))%nat) ->
  Decode a64_matchers i = Some m0.
Proof.
  intros Hr0 HG HM Hc Hall.
  assert (m0 ∈ a64_matchers) as Hin by (apply a64_matchers_elem; eauto).
  destruct (Decode a64_matchers i) as [m|] eqn:E.
  - pose proof (Decode_Some _ _ _ E) as [Hm HMm].
    apply a64_matchers_elem in Hm as (r & Hr & HGr).
    destruct (Hall r m) as [->|[Hcm Hlt]]; [eapply overlapping_match; eauto | exact HGr | congruence |].
    destruct (Decode_specific _ _ _ m0 E Hcm Hin HM). lia.
  - rewrite (Decode_None _ _ m0 E Hin) in HM. discriminate.
Qed.

(** The rows of the three instructions the trampolines are made of. *)
Definition svc_row : inst_row := INST "SVC" "SVC" "11010100000iiiiiiiiiiiiiiii00001".
Definition ret_row : inst_row := INST "RET" "RET" "1101011001011111000000nnnnn00000".
Definition hint_row : inst_row := INST "HINT" "HINT" "11010101000000110010MMMMooo11111".
Definition yield_row : inst_row := INST "YIELD" "YIELD" "11010101000000110010000000111111".

Definition svc_matcher : Matcher :=
  {| name := "SVC"; mask := 0xffe0001f; expected := 0xd4000001; handler := "SVC";
     arg_masks := [0x1fffe0]; arg_shifts := [5] |}.
Definition ret_matcher : Matcher :=
  {| name := "RET"; mask := 0xfffffc1f; expected := 0xd65f0000; handler := "RET";
     arg_masks := [0x3e0]; arg_shifts := [5] |}.
Definition yield_matcher : Matcher :=
  {| name := "YIELD"; mask := 0xffffffff; expected := 0xd503203f; handler := "YIELD";
     arg_masks := []; arg_shifts := [] |}.

Lemma svc_overlapping : overlapping svc_row a64_inc = [svc_row].
Proof. vm_compute. reflexivity. Qed.
Lemma ret_overlapping : overlapping ret_row a64_inc = [ret_row].
Proof. vm_compute. reflexivity. Qed.
Lemma yield_overlapping : overlapping yield_row a64_inc = [hint_row; yield_row].
Proof. vm_compute. reflexivity. Qed.

Lemma overlapping_elem r0 r rows : r ∈ overlapping r0 rows -> r ∈ rows.
Proof.
  unfold overlapping. destruct (GetMaskAndExpect _).
  rewrite !list_elem_of_In, filter_In. tauto.
Qed.

Lemma Decode_alone r m i : overlapping r a64_inc = [r] -> GetMatcher r = Some m -> comes_first m = false -> Matches m i = true -> Decode a64_matchers i = Some m.
Proof.
  intros Ho HG Hc HM. apply (Decode_row r); [|assumption..|].
  - eapply overlapping_elem. rewrite Ho. left.
  - intros r' m'. rewrite Ho, list_elem_of_singleton. auto.
Qed.
Lemma Decode_svc i : Matches svc_matcher i = true -> Decode a64_matchers i = Some svc_matcher.
Proof. apply (Decode_alone svc_row); [exact svc_overlapping | vm_compute; reflexivity | reflexivity]. Qed.
Lemma Decode_ret i : Matches ret_matcher i = true -> Decode a64_matchers i = Some ret_matcher.
Proof. apply (Decode_alone ret_row); [exact ret_overlapping | vm_compute; reflexivity | reflexivity]. Qed.

Lemma Decode_yield i : Matches yield_matcher i = true -> Decode a64_matchers i = Some yield_matcher.
Proof.
  intros H. apply (Decode_row yield_row); [ | vm_compute; reflexivity | exact H | reflexivity | ].
  - eapply overlapping_elem. rewrite yield_overlapping. right. left.
  - intros r m. rewrite yield_overlapping. intros [->| ->%list_elem_of_singleton]%elem_of_cons HG; [|auto].
    right. vm_compute in HG. injection HG as <-. split; [reflexivity|]. vm_compute. lia.
Qed.

(** ** Properties *)

(** C11. The 4096-entry fast lookup of [Decode] is an optimisation only: on
    every instruction it returns what a linear search of the whole ordered
    matcher list returns. *)
Theorem decode_fast_lookup_exact rows instruction :
  Decode rows instruction = List.find (fun m => Matches m instruction) (order_matchers rows).
Proof. apply Decode_linear. Qed.

(** C12. [Decode] finds a matcher exactly when one matches, and the one it
    returns either belongs to the three SIMD immediate rows that come first or
    fixes at least as many bits as every other matcher that matches. *)
Theorem decode_most_specific rows instruction :
  match Decode rows instruction with
  | Some m =>
      m ∈ rows /\ Matches m instruction = true /\
      (comes_first m = true \/
       forall m', m' ∈ rows -> Matches m' instruction = true ->
         comes_first m' = false /\ (count_ones (mask m') <= count_ones (mask m))%nat)
  | None => forall m, m ∈ rows -> Matches m instruction = false
  end.
Proof.
  destruct (Decode rows instruction) as [m|] eqn:E.
  - destruct (Decode_Some _ _ _ E). do 2 (split; [assumption|]).
    destruct (comes_first m) eqn:Ec; [auto|]. right. intros m'. eapply Decode_specific; eassumption.
  - intros m. apply Decode_None, E.
Qed.

Lemma Decode_call instruction m : Decode a64_matchers instruction = Some m ->
  exists tys, find_decl (handler m) visitor_decls = Some tys /\ Forall2 fits tys (visit_args m instruction) /\ call m instruction = Ret (handler m, visit_args m instruction).
Proof.
  pose proof a64_rows_ok as OK. rewrite forallb_forall in OK. intros [Hm HM]%Decode_Some. apply a64_matchers_elem in Hm as (r & Hr & HG).
  apply list_elem_of_In, OK in Hr. unfold row_ok in Hr. rewrite HG in Hr. destruct (GetMatcher_mask _ _ HG) as (_ & Hh & _). rewrite Hh.
  destruct (find_decl (row_fn r) visitor_decls) as [tys|]; [|discriminate]. exists tys. split; [reflexivity|]. split; [apply fields_ok_fits, Hr|]. unfold call. rewrite HM, Hh. reflexivity.
Qed.

(** C13. Every row of a64.inc gives a matcher (its visitor method is declared,
    and every argument field is found), and whatever instruction is decoded,
    each argument handed to the visitor method fits its parameter type, so the
    assertion of [Imm<bit_size>] never fires and the register, condition and
    bool conversions are in range. *)
Theorem decoded_arguments_fit :
  length a64_matchers = length a64_inc /\
  forall instruction m, Decode a64_matchers instruction = Some m ->
    exists tys, find_decl (handler m) visitor_decls = Some tys /\
      Forall2 fits tys (visit_args m instruction) /\
      call m instruction = Ret (handler m, visit_args m instruction).
Proof.
  pose proof a64_rows_ok as OK. rewrite forallb_forall in OK. split.
  - unfold a64_matchers. induction a64_inc as [|r l IH]; [reflexivity|].
    assert (row_ok r = true) as Hr by (apply OK; left; reflexivity).
    unfold row_ok in Hr. cbn [omap list_omap length].
    destruct (find_decl _ _), (GetMatcher r); try discriminate.
    cbn [length]. f_equal. apply IH. intros x Hx. apply OK. right. exact Hx.
  - intros i m. apply Decode_call.
Qed.
