(* ===== verification/A64Imm.v ===== *)
(** Immediates of AArch64 instructions: [frontend/imm.h] and [imm.cpp], the bit
    masks of logical and bit-field instructions
    ([TranslatorVisitor::DecodeBitMasks] in [translate/impl/impl.cpp]), and the
    functions of [mcl/bit] they use. *)
From S2P Require Import Prelude Bits.
Local Open Scope Z_scope.

(** ** mcl/bit *)
Fixpoint highest_set_bit_loop (fuel : nat) (x result : Z) : Z :=
  match fuel with
  | O => result
  | S f => if x =? 0 then result else highest_set_bit_loop f (Z.shiftr x 1) (result + 1)
  end.
(** The loop shifts a [w]-bit value to zero, so [w] turns are enough. *)
Definition highest_set_bit (w x : Z) : Z := highest_set_bit_loop (Z.to_nat w) x (-1).
Definition rotate_right (w x amount : Z) : Z :=
  let amount := amount mod w in
  if amount =? 0 then x else wrap w (Z.lor (Z.shiftr x amount) (Z.shiftl x (w - amount))).

(** ** [Imm<n>], by its value *)
Definition Imm (bit_size value : Z) : outcome Z :=
  if bit.get_bits 32 0 (bit_size - 1) value =? value then Ret value else Stop AssertFailed.
Definition SignExtend (w bit_size value : Z) : Z := swrap w (bit.sign_extend w bit_size value).
(** A list of immediates with their sizes, most significant first. *)
Fixpoint concatenate (imms : list (Z * Z)) : outcome (Z * Z) :=
  match imms with
  | [] => Ret (0, 0)
  | [(n, v)] => Ret (n, v)
  | (n, v) :: rest =>
      match concatenate rest with
      | Ret (m, r) => match Imm (n + m) (Z.lor (u32 (Z.shiftl v m)) r) with Ret c => Ret (n + m, c) | Throw e => Throw e | Stop f => Stop f end
      | Throw e => Throw e
      | Stop f => Stop f
      end
  end.

Definition AdvSIMDExpandImm (op : bool) (cmode imm8 : Z) : Z :=
  let c := bit.get_bits 32 1 3 cmode in
  let bit0 := bit.get_bit 32 0 cmode in
  let shifted n := wrap 64 (Z.shiftl imm8 n) in
  if c =? 0 then bit.replicate_element 64 32 imm8
  else if c =? 1 then bit.replicate_element 64 32 (shifted 8)
  else if c =? 2 then bit.replicate_element 64 32 (shifted 16)
  else if c =? 3 then bit.replicate_element 64 32 (shifted 24)
  else if c =? 4 then bit.replicate_element 64 16 imm8
  else if c =? 5 then bit.replicate_element 64 16 (shifted 8)
  else if c =? 6 then
    if negb bit0 then bit.replicate_element 64 32 (Z.lor (shifted 8) (bit.ones 64 8))
    else bit.replicate_element 64 32 (Z.lor (shifted 16) (bit.ones 64 16))
  else if negb bit0 && negb op then bit.replicate_element 64 8 imm8
  else if negb bit0 && op then
    let byte k := if bit.get_bit 32 k imm8 then wrap 64 (Z.shiftl (bit.ones 64 8) (k * 8)) else 0 in
    Z.lor (Z.lor (Z.lor (Z.lor (Z.lor (Z.lor (Z.lor (Z.lor 0 (byte 0)) (byte 1)) (byte 2)) (byte 3)) (byte 4)) (byte 5)) (byte 6)) (byte 7)
  else if bit0 && negb op then
    let result := Z.lor 0 (if bit.get_bit 32 7 imm8 then 0x80000000 else 0) in
    let result := Z.lor result (if bit.get_bit 32 6 imm8 then 0x3E000000 else 0x40000000) in
    let result := Z.lor result (wrap 64 (Z.shiftl (bit.get_bits 32 0 5 imm8) 19)) in
    bit.replicate_element 64 32 result
  else
    let result := Z.lor 0 (if bit.get_bit 32 7 imm8 then 0x8000000000000000 else 0) in
    let result := Z.lor result (if bit.get_bit 32 6 imm8 then 0x3FC0000000000000 else 0x4000000000000000) in
    Z.lor result (wrap 64 (Z.shiftl (bit.get_bits 32 0 5 imm8) 48)).

(** ** [DecodeBitMasks] *)
Definition DecodeBitMasks (immN : bool) (imms immr : Z) (immediate : bool) : option (Z * Z) :=
  let len := highest_set_bit 32 (Z.lor (if immN then Z.shiftl 1 6 else 0) (Z.lxor imms 63)) in
  if len <? 1 then None
  else
    let levels := bit.ones 64 len in
    if immediate && (Z.land imms levels =? levels) then None
    else
      let S := Z.land imms levels in
      let R := Z.land immr levels in
      let d := Z.land (u64 (S - R)) levels in
      let esize := Z.shiftl 1 len in
      let welem := bit.ones 64 (S + 1) in
      let telem := bit.ones 64 (d + 1) in
      let wmask := rotate_right 64 (bit.replicate_element 64 esize welem) R in
      let tmask := bit.replicate_element 64 esize telem in
      Some (wmask, tmask).

(** ** Bits of replicated and rotated values *)
Lemma pow2_divide a b : 0 <= a <= b -> (2 ^ a | 2 ^ b).
Proof. intros H. exists (2 ^ (b - a)). rewrite <- Z.pow_add_r by lia. f_equal. lia. Qed.

Lemma double_bits w e v i : 0 < e -> 2 * e <= w -> in_range e v -> 0 <= i ->
  Z.testbit (wrap w (Z.lor v (Z.shiftl v e))) i = (i <? 2 * e) && Z.testbit v (i mod e).
Proof.
  intros He Hw Hv Hi. rewrite bit.testbit_wrap by lia. rewrite Z.lor_spec, Z.shiftl_spec by lia.
  destruct (Z.ltb_spec i e) as [H1|H1].
  - rewrite (Z.testbit_neg_r v (i - e)), orb_false_r, Z.mod_small by lia.
    destruct (Z.ltb_spec i w), (Z.ltb_spec i (2 * e)); try lia. reflexivity.
  - rewrite (bit.testbit_above e He v i) by (assumption || lia). cbn [orb].
    destruct (Z.ltb_spec i (2 * e)) as [H2|H2].
    + replace (i mod e) with (i - e) by (apply (Z.mod_unique i e 1); [left|]; lia). destruct (Z.ltb_spec i w); [reflexivity|lia].
    + rewrite (bit.testbit_above e He v (i - e)) by (assumption || lia). apply andb_false_r.
Qed.
Lemma double_range w e v : 0 < e -> 2 * e <= w -> in_range e v -> in_range (2 * e) (wrap w (Z.lor v (Z.shiftl v e))).
Proof.
  intros He Hw Hv. apply bit.in_range_bits; [lia| |].
  - apply wrap_range. lia.
  - intros i Hi. rewrite double_bits by (assumption || lia). destruct (Z.ltb_spec i (2 * e)); [lia|reflexivity].
Qed.
Lemma replicate_loop j : forall fuel e v, 0 < e -> in_range e v -> (j <= fuel)%nat ->
  let w := e * 2 ^ Z.of_nat j in let r := bit.replicate_element_loop fuel w e v in
  in_range w r /\ forall i, 0 <= i < w -> Z.testbit r i = Z.testbit v (i mod e).
Proof.
  induction j as [|j IH]; intros fuel e v He Hv Hf.
  - cbv zeta. rewrite Z.mul_1_r. assert (bit.replicate_element_loop fuel e e v = v) as -> by (destruct fuel; cbn; [|rewrite Z.eqb_refl]; reflexivity).
    split; [exact Hv|]. intros i Hi. rewrite Z.mod_small by lia. reflexivity.
  - assert (e * 2 ^ Z.of_nat (S j) = e * 2 * 2 ^ Z.of_nat j) as -> by (rewrite Nat2Z.inj_succ, Z.pow_succ_r by lia; lia).
    pose proof (Z.pow_pos_nonneg 2 (Z.of_nat j) ltac:(lia) ltac:(lia)) as Hj.
    assert (2 * e <= e * 2 * 2 ^ Z.of_nat j) as Hle by nia. cbv zeta. destruct fuel as [|fuel]; [lia|]. cbn [bit.replicate_element_loop].
    destruct (Z.eqb_spec e (e * 2 * 2 ^ Z.of_nat j)); [nia|].
    destruct (IH fuel (e * 2) (wrap (e * 2 * 2 ^ Z.of_nat j) (Z.lor v (Z.shiftl v e)))) as [H1 H2];
      [lia|rewrite (Z.mul_comm e 2) at 1; apply double_range; assumption|lia|].
    cbv zeta in H1, H2. split; [exact H1|]. intros i Hi. rewrite H2, double_bits by (assumption || (try apply Z.mod_pos_bound); lia).
    pose proof (Z.mod_pos_bound i (e * 2) ltac:(lia)). destruct (Z.ltb_spec (i mod (e * 2)) (2 * e)); [|lia]. cbn [andb]. f_equal.
    apply Z.mod_mod_divide. exists 2. lia.
Qed.
(** An element of [2 ^ k] bits fills the 64 bits. *)
Lemma replicate_bits k v : 0 <= k <= 6 -> in_range (2 ^ k) v -> let r := bit.replicate_element 64 (2 ^ k) v in
  in_range 64 r /\ forall i, 0 <= i < 64 -> Z.testbit r i = Z.testbit v (i mod 2 ^ k).
Proof.
  intros Hk Hv. pose proof (replicate_loop (Z.to_nat (6 - k)) 8 (2 ^ k) v (pow2_pos k ltac:(lia)) Hv ltac:(lia)) as H. cbv zeta in H.
  rewrite Z2Nat.id in H by lia. rewrite <- Z.pow_add_r in H by lia. replace (k + (6 - k)) with 6 in H by lia. exact H.
Qed.
Lemma rotate_bits x r i : in_range 64 x -> 0 <= r < 64 -> 0 <= i < 64 -> Z.testbit (rotate_right 64 x r) i = Z.testbit x ((i + r) mod 64).
Proof.
  intros Hx Hr Hi. unfold rotate_right. rewrite (Z.mod_small r) by lia. destruct (Z.eqb_spec r 0) as [->|Hn].
  - rewrite Z.add_0_r, Z.mod_small by lia. reflexivity.
  - rewrite bit.testbit_wrap, Z.lor_spec, Z.shiftr_spec, Z.shiftl_spec by lia. destruct (Z.ltb_spec i 64); [|lia]. cbn [andb].
    destruct (Z.lt_ge_cases (i + r) 64) as [H1|H1].
    + rewrite (Z.mod_small (i + r)), (Z.testbit_neg_r x (i - _)), orb_false_r by lia. reflexivity.
    + rewrite (bit.testbit_above 64 ltac:(lia) x (i + r)) by (assumption || lia). cbn [orb].
      replace ((i + r) mod 64) with (i - (64 - r)) by (apply (Z.mod_unique (i + r) 64 1); [left|]; lia). reflexivity.
Qed.
Lemma rotate_range x r : in_range 64 x -> in_range 64 (rotate_right 64 x r).
Proof. intros Hx. unfold rotate_right. destruct (_ =? 0); [exact Hx|]. apply wrap_range. lia. Qed.

Lemma highest_set_bit_loop_eq fuel : forall x r, 0 <= x < 2 ^ Z.of_nat fuel -> highest_set_bit_loop fuel x r = if x =? 0 then r else r + 1 + Z.log2 x.
Proof.
  induction fuel as [|f IH]; intros x r Hx.
  - cbn in Hx. assert (x = 0) as -> by lia. reflexivity.
  - cbn [highest_set_bit_loop]. destruct (Z.eqb_spec x 0) as [|Hn]; [reflexivity|]. rewrite Nat2Z.inj_succ, Z.pow_succ_r in Hx by lia.
    rewrite Z.shiftr_div_pow2 by lia. change (2 ^ 1) with 2. rewrite IH by (split; [apply Z.div_pos; lia|apply Z.div_lt_upper_bound; lia]).
    destruct (Z.eqb_spec (x / 2) 0) as [E|E].
    + assert (x = 1) as -> by (apply Z.div_small_iff in E; lia). cbn. lia.
    + assert (1 <= Z.log2 x) as H1 by (apply Z.log2_le_pow2; [lia|]; change (2 ^ 1) with 2; pose proof (Z.div_small x 2); lia).
      assert (Z.log2 (x / 2) = Z.log2 x - 1) as ->; [|lia].
      change (x / 2) with (x / 2 ^ 1). rewrite <- Z.shiftr_div_pow2, Z.log2_shiftr by lia. lia.
Qed.
Lemma highest_set_bit_eq x : 0 <= x < 2 ^ 32 -> highest_set_bit 32 x = if x =? 0 then -1 else Z.log2 x.
Proof. intros H. unfold highest_set_bit. rewrite highest_set_bit_loop_eq by exact H. destruct (x =? 0); lia. Qed.

(** The number whose highest bit gives the element size. *)
Lemma size_field (immN : bool) imms : 0 <= imms < 64 -> Z.lor (if immN then Z.shiftl 1 6 else 0) (Z.lxor imms 63) = (if immN then 64 else 0) + (63 - imms).
Proof.
  intros H. assert (forallb (fun n => Z.lor 64 (Z.lxor (Z.of_nat n) 63) =? 64 + (63 - Z.of_nat n)) (seq 0 64) = true) as H1 by reflexivity.
  assert (forallb (fun n => Z.lxor (Z.of_nat n) 63 =? 63 - Z.of_nat n) (seq 0 64) = true) as H2 by reflexivity.
  rewrite forallb_forall in H1, H2. specialize (H1 (Z.to_nat imms)). specialize (H2 (Z.to_nat imms)). rewrite in_seq, Z2Nat.id in H1, H2 by lia.
  destruct immN; cbn [Z.lor]; apply Z.eqb_eq; [apply H1|apply H2]; lia.
Qed.

(** The quantities the architecture's definition names: the element size, and the
    two counts, reduced to it. *)
Definition size_number (immN : bool) (imms : Z) : Z := (if immN then 64 else 0) + (63 - imms).
Definition element_size (immN : bool) (imms : Z) : Z := 2 ^ Z.log2 (size_number immN imms).

(** The masks as numbers, for a valid encoding. *)
Lemma decode_run immN imms immr immediate : 0 <= imms < 64 ->
  let x := size_number immN imms in let e := element_size immN imms in let S := imms mod e in let R := immr mod e in
  DecodeBitMasks immN imms immr immediate =
    if x <? 2 then None
    else if immediate && (S =? e - 1) then None
    else Some (rotate_right 64 (bit.replicate_element 64 e (Z.ones (S + 1))) R, bit.replicate_element 64 e (Z.ones ((S - R) mod e + 1))).
Proof.
  intros Hs. unfold element_size. cbv zeta. set (x := size_number immN imms).
  assert (0 <= x < 128) as Hx by (unfold x, size_number; destruct immN; lia).
  unfold DecodeBitMasks. cbv zeta. rewrite size_field by exact Hs. fold (size_number immN imms). fold x. rewrite highest_set_bit_eq by lia.
  destruct (Z.ltb_spec x 2) as [H2|H2].
  { assert (x = 0 \/ x = 1) as [-> | ->] by lia; reflexivity. }
  destruct (Z.eqb_spec x 0); [lia|].
  assert (1 <= Z.log2 x <= 6) as Hl by (split; [apply Z.log2_le_pow2; lia|apply Z.lt_succ_r, Z.log2_lt_pow2; lia]).
  destruct (Z.ltb_spec (Z.log2 x) 1); [lia|]. rewrite (bit.ones_eq 64) by lia.
  rewrite !Z.land_ones by lia. rewrite Z.ones_equiv. fold (2 ^ Z.log2 x - 1). rewrite Z.shiftl_1_l. replace (Z.pred (2 ^ Z.log2 x)) with (2 ^ Z.log2 x - 1) by lia.
  destruct (immediate && (imms mod 2 ^ Z.log2 x =? 2 ^ Z.log2 x - 1)); [reflexivity|].
  assert (2 ^ Z.log2 x <= 64) as He by (change 64 with (2 ^ 6); apply Z.pow_le_mono_r; lia). pose proof (pow2_pos (Z.log2 x) ltac:(lia)) as Hp.
  pose proof (Z.mod_pos_bound imms _ Hp) as HS. 
  unfold u64, wrap. rewrite Z.mod_mod_divide by (apply pow2_divide; lia).
  pose proof (Z.mod_pos_bound (imms mod 2 ^ Z.log2 x - immr mod 2 ^ Z.log2 x) _ Hp) as HD. rewrite !(bit.ones_eq 64) by lia. reflexivity.
Qed.

Lemma DecodeBitMasks_spec immN imms immr immediate : 0 <= imms < 64 -> 0 <= immr < 64 ->
  let e := element_size immN imms in let S := imms mod e in let R := immr mod e in
  (DecodeBitMasks immN imms immr immediate = None <-> size_number immN imms < 2 \/ (immediate = true /\ S = e - 1)) /\
  (forall w t, DecodeBitMasks immN imms immr immediate = Some (w, t) ->
     in_range 64 w /\ in_range 64 t /\
     (forall i, 0 <= i < 64 -> Z.testbit w i = ((i + R) mod e <=? S) /\ Z.testbit t i = (i mod e <=? (S - R) mod e)) /\
     (immediate = true -> w <> 0 /\ w <> 2 ^ 64 - 1)).
Proof.
  intros Hs Hr e S R. rewrite decode_run by exact Hs. fold e S R. destruct (Z.ltb_spec (size_number immN imms) 2) as [H2|H2].
  { split; [tauto|discriminate]. }
  assert (size_number immN imms < 128) by (unfold size_number; destruct immN; lia).
  assert (1 <= Z.log2 (size_number immN imms) <= 6) as Hl by (split; [apply Z.log2_le_pow2; lia|apply Z.lt_succ_r, Z.log2_lt_pow2; lia]).
  assert (2 <= e <= 64) as He by (split; [change 2 with (2 ^ 1)|change 64 with (2 ^ 6)]; apply Z.pow_le_mono_r; lia).
  assert (e | 64) as Hd by (change 64 with (2 ^ 6); apply pow2_divide; lia).
  assert (0 <= S < e /\ 0 <= R < e /\ 0 <= (S - R) mod e < e) as (HS & HR & HD) by (repeat split; apply Z.mod_pos_bound; lia).
  assert (forall n, 0 <= n < e -> in_range e (Z.ones (n + 1))) as Ho.
  { intros n Hn. apply bit.in_range_bits; [lia| |].
    - rewrite Z.ones_equiv. pose proof (pow2_pos (n + 1) ltac:(lia)). lia.
    - intros i Hi. apply Z.ones_spec_high. lia. }
  destruct (replicate_bits _ _ (conj (Z.le_trans 0 1 _ ltac:(lia) (proj1 Hl)) (proj2 Hl)) (Ho S HS)) as [W1 W2].
  destruct (replicate_bits _ _ (conj (Z.le_trans 0 1 _ ltac:(lia) (proj1 Hl)) (proj2 Hl)) (Ho _ HD)) as [T1 T2].
  change (2 ^ Z.log2 (size_number immN imms)) with e in W1, W2, T1, T2. destruct (immediate && (S =? e - 1)) eqn:E.
  { apply andb_prop in E as [-> E]. apply Z.eqb_eq in E. split; [tauto|discriminate]. }
  split.
  { split; [discriminate|]. intros [H'|[-> H']]; [lia|]. apply Z.eqb_eq in H'. rewrite H' in E. discriminate E. }
  intros w t [= <- <-]. 
  assert (forall i, 0 <= i < 64 -> Z.testbit (rotate_right 64 (bit.replicate_element 64 e (Z.ones (S + 1))) R) i = ((i + R) mod e <=? S)) as Hw.
  { intros i Hi. rewrite rotate_bits, W2 by (assumption || (try apply Z.mod_pos_bound); lia). rewrite Z.mod_mod_divide by exact Hd.
    pose proof (Z.mod_pos_bound (i + R) e ltac:(lia)). rewrite bit.testbit_ones_lt by lia. destruct (Z.ltb_spec ((i + R) mod e) (S + 1)), (Z.leb_spec ((i + R) mod e) S); lia. }
  split; [apply rotate_range, W1|]. split; [exact T1|]. split.
  - intros i Hi. split; [apply Hw, Hi|]. rewrite T2 by exact Hi. pose proof (Z.mod_pos_bound i e ltac:(lia)). rewrite bit.testbit_ones_lt by lia.
    destruct (Z.ltb_spec (i mod e) ((S - R) mod e + 1)), (Z.leb_spec (i mod e) ((S - R) mod e)); lia.
  - intros ->. cbn [andb] in E. apply Z.eqb_neq in E. split; intros H0.
    + assert (0 < e) as Hpos by lia. pose proof (Z.mod_pos_bound (- R) e Hpos) as Hm.
      assert (0 <= (- R) mod e < 64) as Hm' by (split; [apply Hm|apply (Z.lt_le_trans _ e); [apply Hm|apply He]]). pose proof (Hw ((- R) mod e) Hm') as Hb.
      rewrite H0, Z.bits_0, Zplus_mod_idemp_l in Hb.
      replace (- R + R) with 0 in Hb by lia. rewrite Z.mod_0_l in Hb by lia. destruct (Z.leb_spec 0 S); [discriminate Hb|lia].
    + pose proof (Hw (e - 1 - R) ltac:(lia)) as Hb. rewrite H0 in Hb. replace (e - 1 - R + R) with (e - 1) in Hb by lia. rewrite Z.mod_small in Hb by lia.
      change (2 ^ 64 - 1) with (Z.ones 64) in Hb. rewrite Z.ones_spec_low in Hb by lia. destruct (Z.leb_spec (e - 1) S); [lia|discriminate Hb].
Qed.
(** C14. The bit masks of logical and bit-field instructions are those of the
    architecture, for all encodings.  Encodings are rejected exactly when the element
    would have one bit or, in a logical immediate, would be all ones.  Otherwise, with
    elements of [e] bits, bit [i] of the first mask is set when [(i + R) mod e <= S]
    (a run of [S + 1] ones rotated right by [R] in every element) and bit [i] of the
    second when [i mod e <= (S - R) mod e]; and a logical immediate is never zero and
    never all ones. *)
Theorem decode_bit_masks immN imms immr immediate : 0 <= imms < 64 -> 0 <= immr < 64 ->
  let e := element_size immN imms in let S := imms mod e in let R := immr mod e in
  (DecodeBitMasks immN imms immr immediate = None <-> size_number immN imms < 2 \/ (immediate = true /\ S = e - 1)) /\
  (forall w t, DecodeBitMasks immN imms immr immediate = Some (w, t) ->
     in_range 64 w /\ in_range 64 t /\
     (forall i, 0 <= i < 64 -> Z.testbit w i = ((i + R) mod e <=? S) /\ Z.testbit t i = (i mod e <=? (S - R) mod e)) /\
     (immediate = true -> w <> 0 /\ w <> 2 ^ 64 - 1)).
Proof. apply DecodeBitMasks_spec. Qed.

(** AND with 0xF0F0...F0: elements of eight bits, four ones rotated by four. *)
Lemma decode_bit_masks_witness :
  DecodeBitMasks false 0x33 4 true = Some (0xF0F0F0F0F0F0F0F0, 0xFFFFFFFFFFFFFFFF) /\ in_range 64 0xF0F0F0F0F0F0F0F0.
Proof.
  split; [reflexivity|]. exact (proj1 (proj2 (decode_bit_masks false 0x33 4 true ltac:(lia) ltac:(lia)) _ _ eq_refl)).
Defined.

(** ** Vector immediates *)

(** The element of a vector immediate, with the logarithm of its size: a byte shifted
    within 32 or 16 bits, shifted with ones coming in, or a byte by itself. *)
Definition vector_element (cmode imm8 : Z) : Z * Z :=
  if cmode <? 8 then (5, imm8 * 2 ^ (8 * (cmode / 2)))
  else if cmode <? 12 then (4, imm8 * 2 ^ (8 * ((cmode - 8) / 2)))
  else if cmode =? 12 then (5, imm8 * 2 ^ 8 + 0xFF)
  else if cmode =? 13 then (5, imm8 * 2 ^ 16 + 0xFFFF)
  else (3, imm8).
Lemma shifted_eq imm8 n : 0 <= imm8 < 256 -> 0 <= n <= 24 -> wrap 64 (Z.shiftl imm8 n) = imm8 * 2 ^ n.
Proof.
  intros Hi Hn. rewrite Z.shiftl_mul_pow2 by lia. apply wrap_small. pose proof (pow2_pos n ltac:(lia)).
  pose proof (Z.pow_le_mono_r 2 n 24 ltac:(lia) ltac:(lia)). split; [nia|]. change (2 ^ 64) with (2 ^ 24 * 2 ^ 40). change (2 ^ 40) with 1099511627776. change (2 ^ 24) with 16777216 in *. nia.
Qed.
Lemma shifted_ones_eq imm8 n : 0 <= imm8 < 256 -> 0 <= n <= 24 -> Z.lor (wrap 64 (Z.shiftl imm8 n)) (bit.ones 64 n) = imm8 * 2 ^ n + (2 ^ n - 1).
Proof.
  intros Hi Hn. rewrite shifted_eq, (bit.ones_eq 64), <- Z.shiftl_mul_pow2 by lia.
  assert (Z.land (Z.shiftl imm8 n) (Z.ones n) = 0) as D.
  { apply Z.bits_inj'. intros i Hi'. rewrite Z.land_spec, Z.bits_0. destruct (Z.lt_ge_cases i n).
    - rewrite Z.shiftl_spec_low by lia. reflexivity.
    - rewrite Z.ones_spec_high by lia. apply andb_false_r. }
  rewrite <- Z.lxor_lor, <- Z.add_nocarry_lxor by exact D. rewrite Z.ones_equiv. lia.
Qed.

(** One byte of the mask form. *)
Definition mask_byte (imm8 k : Z) : Z := if bit.get_bit 32 k imm8 then wrap 64 (Z.shiftl (bit.ones 64 8) (k * 8)) else 0.
Lemma mask_byte_bit imm8 k i : 0 <= k < 8 -> 0 <= i < 64 -> Z.testbit (mask_byte imm8 k) i = (i / 8 =? k) && Z.testbit imm8 k.
Proof.
  intros Hk Hi. unfold mask_byte. rewrite bit.get_bit_eq by lia. destruct (Z.testbit imm8 k); [|rewrite Z.bits_0, andb_false_r; reflexivity].
  rewrite andb_true_r, bit.testbit_wrap, Z.shiftl_spec, (bit.ones_eq 64) by lia. destruct (Z.ltb_spec i 64); [|lia]. cbn [andb].
  destruct (Z.lt_ge_cases i (k * 8)).
  - rewrite Z.testbit_neg_r by lia. symmetry. apply Z.eqb_neq. pose proof (Z.div_lt_upper_bound i 8 k ltac:(lia) ltac:(lia)). lia.
  - rewrite bit.testbit_ones_lt by lia. destruct (Z.ltb_spec (i - k * 8) 8); symmetry.
    + apply Z.eqb_eq. symmetry. apply (Z.div_unique i 8 k (i - k * 8)); [left|]; lia.
    + apply Z.eqb_neq. pose proof (Z.div_le_lower_bound i 8 (k + 1) ltac:(lia) ltac:(lia)). lia.
Qed.
Lemma mask_form imm8 i : 0 <= i < 64 -> Z.testbit (AdvSIMDExpandImm true 14 imm8) i = Z.testbit imm8 (i / 8).
Proof.
  intros Hb. assert (AdvSIMDExpandImm true 14 imm8 = Z.lor (Z.lor (Z.lor (Z.lor (Z.lor (Z.lor (Z.lor (Z.lor 0 (mask_byte imm8 0)) (mask_byte imm8 1))
    (mask_byte imm8 2)) (mask_byte imm8 3)) (mask_byte imm8 4)) (mask_byte imm8 5)) (mask_byte imm8 6)) (mask_byte imm8 7)) as -> by reflexivity.
  rewrite !Z.lor_spec, Z.bits_0, !mask_byte_bit by lia.
  assert (0 <= i / 8 < 8) as Hq by (split; [apply Z.div_pos; lia|apply Z.div_lt_upper_bound; lia]). generalize dependent (i / 8). intros q Hq.
  assert (q = 0 \/ q = 1 \/ q = 2 \/ q = 3 \/ q = 4 \/ q = 5 \/ q = 6 \/ q = 7) as Hin by lia.
  destruct Hin as [->|[->|[->|[->|[->|[->|[->| ->]]]]]]]; cbn [Z.eqb Pos.eqb andb orb]; rewrite ?orb_false_r; reflexivity.
Qed.
Lemma replicated k v r i : 0 <= k <= 6 -> in_range (2 ^ k) v -> r = bit.replicate_element 64 (2 ^ k) v -> 0 <= i < 64 -> Z.testbit r i = Z.testbit v (i mod 2 ^ k).
Proof. intros Hk Hv -> Hb. exact (proj2 (replicate_bits k v Hk Hv) i Hb). Qed.

(** The three shapes of the other forms. *)
Section Shapes.
Context (imm8 k n r i : Z).
Hypothesis Hi : 0 <= imm8 < 256.
Hypothesis Hk : 0 <= k <= 6.
Hypothesis Hn : 0 <= n <= 24.
Hypothesis Hfit : n + 8 <= 2 ^ k.
Hypothesis Hb : 0 <= i < 64.

Lemma element_range : in_range (2 ^ k) (imm8 * 2 ^ n + (2 ^ n - 1)).
Proof.
  pose proof (pow2_pos n ltac:(lia)). split; [nia|]. apply (Z.lt_le_trans _ (2 ^ (n + 8))); [|apply Z.pow_le_mono_r; lia].
  rewrite Z.pow_add_r by lia. change (2 ^ 8) with 256. nia.
Qed.
Lemma element_range_0 : in_range (2 ^ k) (imm8 * 2 ^ n).
Proof. pose proof element_range as [_ H]. pose proof (pow2_pos n ltac:(lia)). split; [nia|]. lia. Qed.
Lemma shifted_shape : r = bit.replicate_element 64 (2 ^ k) (wrap 64 (Z.shiftl imm8 n)) -> Z.testbit r i = Z.testbit (imm8 * 2 ^ n) (i mod 2 ^ k).
Proof. intros E. apply replicated; [exact Hk|exact element_range_0|rewrite E, shifted_eq by lia; reflexivity|exact Hb]. Qed.
Lemma plain_shape : n = 0 -> r = bit.replicate_element 64 (2 ^ k) imm8 -> Z.testbit r i = Z.testbit (imm8 * 2 ^ n) (i mod 2 ^ k).
Proof. intros E0 E. apply replicated; [exact Hk|exact element_range_0|rewrite E, E0; change (2 ^ 0) with 1; rewrite Z.mul_1_r; reflexivity|exact Hb]. Qed.
Lemma ones_shape : r = bit.replicate_element 64 (2 ^ k) (Z.lor (wrap 64 (Z.shiftl imm8 n)) (bit.ones 64 n)) ->
  Z.testbit r i = Z.testbit (imm8 * 2 ^ n + (2 ^ n - 1)) (i mod 2 ^ k).
Proof. intros E. apply replicated; [exact Hk|exact element_range|rewrite E, shifted_ones_eq by lia; reflexivity|exact Hb]. Qed.
End Shapes.

(** Vector immediates outside the floating-point forms: every element of the result
    holds the byte in its place, and the mask form ([MOVI] of 64 bits) repeats each bit
    of the byte eight times. *)
Theorem vector_immediates op cmode imm8 i : 0 <= imm8 < 256 -> 0 <= cmode < 15 -> 0 <= i < 64 ->
  Z.testbit (AdvSIMDExpandImm op cmode imm8) i =
    if op && (cmode =? 14) then Z.testbit imm8 (i / 8)
    else let '(k, v) := vector_element cmode imm8 in Z.testbit v (i mod 2 ^ k).
Proof.
  intros Hi Hc Hb.
  assert (cmode = 0 \/ cmode = 1 \/ cmode = 2 \/ cmode = 3 \/ cmode = 4 \/ cmode = 5 \/ cmode = 6 \/ cmode = 7 \/ cmode = 8 \/ cmode = 9 \/ cmode = 10 \/
    cmode = 11 \/ cmode = 12 \/ cmode = 13 \/ cmode = 14) as Hin by lia. clear Hc.
  destruct Hin as [->|[->|[->|[->|[->|[->|[->|[->|[->|[->|[->|[->|[->|[->| ->]]]]]]]]]]]]]];
    cbn [Z.eqb Pos.eqb]; rewrite ?andb_false_r, ?andb_true_r; [..|destruct op; [apply mask_form, Hb|]].
  1, 2: apply (plain_shape imm8 5 0); lia || reflexivity.
  1, 2: apply (shifted_shape imm8 5 8); lia || reflexivity.
  1, 2: apply (shifted_shape imm8 5 16); lia || reflexivity.
  1, 2: apply (shifted_shape imm8 5 24); lia || reflexivity.
  1, 2: apply (plain_shape imm8 4 0); lia || reflexivity.
  1, 2: apply (shifted_shape imm8 4 8); lia || reflexivity.
  1: apply (ones_shape imm8 5 8); lia || reflexivity.
  1: apply (ones_shape imm8 5 16); lia || reflexivity.
  rewrite <- (Z.mul_1_r imm8) at 2. apply (plain_shape imm8 3 0); lia || reflexivity.
Qed.

(** ** Concatenation *)
Lemma Imm_ok n v : 0 < n <= 32 -> in_range n v -> Imm n v = Ret v.
Proof.
  intros Hn Hv. unfold Imm. assert (bit.get_bits 32 0 (n - 1) v = v) as ->; [|rewrite Z.eqb_refl; reflexivity].
  apply Z.bits_inj'. intros i Hi. rewrite bit.testbit_get_bits by lia. rewrite Z.add_0_r. destruct (Z.leb_spec i (n - 1 - 0)); [reflexivity|].
  symmetry. apply (bit.testbit_above n); [lia|exact Hv|lia].
Qed.
Lemma join_eq n m v r : 0 < n -> 0 <= m -> n + m <= 32 -> in_range n v -> in_range m r ->
  Z.lor (u32 (Z.shiftl v m)) r = v * 2 ^ m + r /\ in_range (n + m) (v * 2 ^ m + r).
Proof.
  intros Hn Hm Hs Hv Hr. destruct Hv as [Hv0 Hv], Hr as [Hr0 Hr]. pose proof (pow2_pos m Hm) as Hp.
  assert (in_range (n + m) (v * 2 ^ m + r)) as HR by (split; [nia|]; rewrite Z.pow_add_r by lia; nia). split; [|exact HR].
  assert (2 ^ (n + m) <= 2 ^ 32) by (apply Z.pow_le_mono_r; lia). destruct HR as [_ HR].
  unfold u32. rewrite wrap_small by (rewrite Z.shiftl_mul_pow2 by lia; split; [apply Z.mul_nonneg_nonneg; lia|apply (Z.le_lt_trans _ (v * 2 ^ m + r)); [lia|apply (Z.lt_le_trans _ _ _ HR); assumption]]).
  assert (Z.land (Z.shiftl v m) r = 0) as D.
  { apply Z.bits_inj'. intros i Hi. rewrite Z.land_spec, Z.bits_0. destruct (Z.lt_ge_cases i m); [rewrite Z.shiftl_spec_low by lia; reflexivity|].
    destruct (Z.eq_dec r 0) as [->|]; [rewrite Z.bits_0; apply andb_false_r|]. rewrite (Z.bits_above_log2 r i); [apply andb_false_r|lia|].
    apply (Z.lt_le_trans _ m); [apply Z.log2_lt_pow2; lia|lia]. }
  rewrite <- Z.lxor_lor, <- Z.add_nocarry_lxor by exact D. rewrite Z.shiftl_mul_pow2 by lia. reflexivity.
Qed.
(** The size and the value of [a:b:...:z]. *)
Fixpoint concatenated (imms : list (Z * Z)) : Z * Z :=
  match imms with [] => (0, 0) | (n, v) :: rest => let '(m, r) := concatenated rest in (n + m, v * 2 ^ m + r) end.
(** Concatenating immediates that fit in 32 bits together never fails an assertion and
    gives the number written by their digits. *)
Theorem concatenate_value imms : Forall (fun x => 0 < fst x /\ in_range (fst x) (snd x)) imms -> fst (concatenated imms) <= 32 ->
  concatenate imms = Ret (concatenated imms) /\ 0 <= fst (concatenated imms) /\ in_range (fst (concatenated imms)) (snd (concatenated imms)).
Proof.
  induction 1 as [|[n v] rest [Hn Hv] Hrest IH]; [intros _; repeat split; cbn; lia|].
  cbn [concatenated]. destruct (concatenated rest) as [m r] eqn:Ec. cbn [fst snd] in *. intros Hs. destruct (IH ltac:(lia)) as (E & Hm & Hr).
  destruct (join_eq n m v r Hn Hm Hs Hv Hr) as [J1 J2]. split; [|split; [lia|exact J2]]. destruct rest as [|p rest].
  - cbn in Ec. injection Ec as <- <-. cbn [concatenate]. rewrite Z.mul_1_r, !Z.add_0_r. reflexivity.
  - change (concatenate ((n, v) :: p :: rest)) with (match concatenate (p :: rest) with
      | Ret (m, r) => match Imm (n + m) (Z.lor (u32 (Z.shiftl v m)) r) with Ret c => Ret (n + m, c) | Throw e => Throw e | Stop f => Stop f end
      | Throw e => Throw e | Stop f => Stop f end).
    rewrite E, J1, Imm_ok by (assumption || lia). reflexivity.
Qed.
