(* ===== verification/IrOpcodes.v ===== *)
(** The instruction set of dynarmic's intermediate representation: the types
    ([ir/type.h]), the opcodes with their signatures ([ir/opcodes.inc]) and the
    classification of opcodes ([ir/microinstruction.cpp]). *)
From S2P Require Import Prelude.
Local Open Scope Z_scope.

Module Ty.
Inductive t : Type :=
| Void | A32Reg | A32ExtReg | A64Reg | A64Vec | Opaque | U1 | U8 | U16 | U32 | U64 | U128 | CoprocInfo | NZCVFlags | Cond | Table | AccType.
#[global] Instance t_eq_dec : EqDecision t := ltac:(solve_decision).
End Ty.
Definition AreTypesCompatible (t1 t2 : Ty.t) : bool := bool_decide (t1 = t2) || bool_decide (t1 = Ty.Opaque) || bool_decide (t2 = Ty.Opaque).

Module Op.
Inductive Opcode : Type :=
| Void | Identity | Breakpoint | CallHostFunction | A32SetCheckBit | A32GetRegister | A32GetExtendedRegister32 | A32GetExtendedRegister64
| A32GetVector | A32SetRegister | A32SetExtendedRegister32 | A32SetExtendedRegister64 | A32SetVector | A32GetCpsr | A32SetCpsr | A32SetCpsrNZCV
| A32SetCpsrNZCVRaw | A32SetCpsrNZCVQ | A32SetCpsrNZ | A32SetCpsrNZC | A32GetCFlag | A32OrQFlag | A32GetGEFlags | A32SetGEFlags
| A32SetGEFlagsCompressed | A32BXWritePC | A32UpdateUpperLocationDescriptor | A32CallSupervisor | A32ExceptionRaised | A32DataSynchronizationBarrier
| A32DataMemoryBarrier | A32InstructionSynchronizationBarrier | A32GetFpscr | A32SetFpscr | A32GetFpscrNZCV | A32SetFpscrNZCV | A64SetCheckBit
| A64GetCFlag | A64GetNZCVRaw | A64SetNZCVRaw | A64SetNZCV | A64GetW | A64GetX | A64GetS | A64GetD | A64GetQ | A64GetSP | A64GetFPCR | A64GetFPSR
| A64SetW | A64SetX | A64SetS | A64SetD | A64SetQ | A64SetSP | A64SetFPCR | A64SetFPSR | A64SetPC | A64CallSupervisor | A64ExceptionRaised
| A64DataCacheOperationRaised | A64InstructionCacheOperationRaised | A64DataSynchronizationBarrier | A64DataMemoryBarrier
| A64InstructionSynchronizationBarrier | A64GetCNTFRQ | A64GetCNTPCT | A64GetCTR | A64GetDCZID | A64GetTPIDR | A64GetTPIDRRO | A64SetTPIDR | PushRSB
| GetCarryFromOp | GetOverflowFromOp | GetGEFromOp | GetNZCVFromOp | GetNZFromOp | GetUpperFromOp | GetLowerFromOp | GetCFlagFromNZCV
| NZCVFromPackedFlags | Pack2x32To1x64 | Pack2x64To1x128 | LeastSignificantWord | LeastSignificantHalf | LeastSignificantByte | MostSignificantWord
| MostSignificantBit | IsZero32 | IsZero64 | TestBit | ConditionalSelect32 | ConditionalSelect64 | ConditionalSelectNZCV | LogicalShiftLeft32
| LogicalShiftLeft64 | LogicalShiftRight32 | LogicalShiftRight64 | ArithmeticShiftRight32 | ArithmeticShiftRight64 | RotateRight32 | RotateRight64
| RotateRightExtended | LogicalShiftLeftMasked32 | LogicalShiftLeftMasked64 | LogicalShiftRightMasked32 | LogicalShiftRightMasked64
| ArithmeticShiftRightMasked32 | ArithmeticShiftRightMasked64 | RotateRightMasked32 | RotateRightMasked64 | Add32 | Add64 | Sub32 | Sub64 | Mul32
| Mul64 | SignedMultiplyHigh64 | UnsignedMultiplyHigh64 | UnsignedDiv32 | UnsignedDiv64 | SignedDiv32 | SignedDiv64 | And32 | And64 | AndNot32
| AndNot64 | Eor32 | Eor64 | Or32 | Or64 | Not32 | Not64 | SignExtendByteToWord | SignExtendHalfToWord | SignExtendByteToLong | SignExtendHalfToLong
| SignExtendWordToLong | ZeroExtendByteToWord | ZeroExtendHalfToWord | ZeroExtendByteToLong | ZeroExtendHalfToLong | ZeroExtendWordToLong
| ZeroExtendLongToQuad | ByteReverseWord | ByteReverseHalf | ByteReverseDual | CountLeadingZeros32 | CountLeadingZeros64 | ExtractRegister32
| ExtractRegister64 | ReplicateBit32 | ReplicateBit64 | MaxSigned32 | MaxSigned64 | MaxUnsigned32 | MaxUnsigned64 | MinSigned32 | MinSigned64
| MinUnsigned32 | MinUnsigned64 | SignedSaturatedAddWithFlag32 | SignedSaturatedSubWithFlag32 | SignedSaturation | UnsignedSaturation
| SignedSaturatedAdd8 | SignedSaturatedAdd16 | SignedSaturatedAdd32 | SignedSaturatedAdd64 | SignedSaturatedDoublingMultiplyReturnHigh16
| SignedSaturatedDoublingMultiplyReturnHigh32 | SignedSaturatedSub8 | SignedSaturatedSub16 | SignedSaturatedSub32 | SignedSaturatedSub64
| UnsignedSaturatedAdd8 | UnsignedSaturatedAdd16 | UnsignedSaturatedAdd32 | UnsignedSaturatedAdd64 | UnsignedSaturatedSub8 | UnsignedSaturatedSub16
| UnsignedSaturatedSub32 | UnsignedSaturatedSub64 | VectorSignedSaturatedAdd8 | VectorSignedSaturatedAdd16 | VectorSignedSaturatedAdd32
| VectorSignedSaturatedAdd64 | VectorSignedSaturatedSub8 | VectorSignedSaturatedSub16 | VectorSignedSaturatedSub32 | VectorSignedSaturatedSub64
| VectorUnsignedSaturatedAdd8 | VectorUnsignedSaturatedAdd16 | VectorUnsignedSaturatedAdd32 | VectorUnsignedSaturatedAdd64
| VectorUnsignedSaturatedSub8 | VectorUnsignedSaturatedSub16 | VectorUnsignedSaturatedSub32 | VectorUnsignedSaturatedSub64 | PackedAddU8
| PackedAddS8 | PackedSubU8 | PackedSubS8 | PackedAddU16 | PackedAddS16 | PackedSubU16 | PackedSubS16 | PackedAddSubU16 | PackedAddSubS16
| PackedSubAddU16 | PackedSubAddS16 | PackedHalvingAddU8 | PackedHalvingAddS8 | PackedHalvingSubU8 | PackedHalvingSubS8 | PackedHalvingAddU16
| PackedHalvingAddS16 | PackedHalvingSubU16 | PackedHalvingSubS16 | PackedHalvingAddSubU16 | PackedHalvingAddSubS16 | PackedHalvingSubAddU16
| PackedHalvingSubAddS16 | PackedSaturatedAddU8 | PackedSaturatedAddS8 | PackedSaturatedSubU8 | PackedSaturatedSubS8 | PackedSaturatedAddU16
| PackedSaturatedAddS16 | PackedSaturatedSubU16 | PackedSaturatedSubS16 | PackedAbsDiffSumU8 | PackedSelect | CRC32Castagnoli8 | CRC32Castagnoli16
| CRC32Castagnoli32 | CRC32Castagnoli64 | CRC32ISO8 | CRC32ISO16 | CRC32ISO32 | CRC32ISO64 | AESDecryptSingleRound | AESEncryptSingleRound
| AESInverseMixColumns | AESMixColumns | SM4AccessSubstitutionBox | SHA256Hash | SHA256MessageSchedule0 | SHA256MessageSchedule1 | VectorGetElement8
| VectorGetElement16 | VectorGetElement32 | VectorGetElement64 | VectorSetElement8 | VectorSetElement16 | VectorSetElement32 | VectorSetElement64
| VectorAbs8 | VectorAbs16 | VectorAbs32 | VectorAbs64 | VectorAdd8 | VectorAdd16 | VectorAdd32 | VectorAdd64 | VectorAnd | VectorAndNot
| VectorArithmeticShiftRight8 | VectorArithmeticShiftRight16 | VectorArithmeticShiftRight32 | VectorArithmeticShiftRight64 | VectorArithmeticVShift8
| VectorArithmeticVShift16 | VectorArithmeticVShift32 | VectorArithmeticVShift64 | VectorBroadcastLower8 | VectorBroadcastLower16
| VectorBroadcastLower32 | VectorBroadcast8 | VectorBroadcast16 | VectorBroadcast32 | VectorBroadcast64 | VectorBroadcastElementLower8
| VectorBroadcastElementLower16 | VectorBroadcastElementLower32 | VectorBroadcastElement8 | VectorBroadcastElement16 | VectorBroadcastElement32
| VectorBroadcastElement64 | VectorCountLeadingZeros8 | VectorCountLeadingZeros16 | VectorCountLeadingZeros32 | VectorDeinterleaveEven8
| VectorDeinterleaveEven16 | VectorDeinterleaveEven32 | VectorDeinterleaveEven64 | VectorDeinterleaveEvenLower8 | VectorDeinterleaveEvenLower16
| VectorDeinterleaveEvenLower32 | VectorDeinterleaveOdd8 | VectorDeinterleaveOdd16 | VectorDeinterleaveOdd32 | VectorDeinterleaveOdd64
| VectorDeinterleaveOddLower8 | VectorDeinterleaveOddLower16 | VectorDeinterleaveOddLower32 | VectorEor | VectorEqual8 | VectorEqual16
| VectorEqual32 | VectorEqual64 | VectorEqual128 | VectorExtract | VectorExtractLower | VectorGreaterS8 | VectorGreaterS16 | VectorGreaterS32
| VectorGreaterS64 | VectorHalvingAddS8 | VectorHalvingAddS16 | VectorHalvingAddS32 | VectorHalvingAddU8 | VectorHalvingAddU16 | VectorHalvingAddU32
| VectorHalvingSubS8 | VectorHalvingSubS16 | VectorHalvingSubS32 | VectorHalvingSubU8 | VectorHalvingSubU16 | VectorHalvingSubU32
| VectorInterleaveLower8 | VectorInterleaveLower16 | VectorInterleaveLower32 | VectorInterleaveLower64 | VectorInterleaveUpper8
| VectorInterleaveUpper16 | VectorInterleaveUpper32 | VectorInterleaveUpper64 | VectorLogicalShiftLeft8 | VectorLogicalShiftLeft16
| VectorLogicalShiftLeft32 | VectorLogicalShiftLeft64 | VectorLogicalShiftRight8 | VectorLogicalShiftRight16 | VectorLogicalShiftRight32
| VectorLogicalShiftRight64 | VectorLogicalVShift8 | VectorLogicalVShift16 | VectorLogicalVShift32 | VectorLogicalVShift64 | VectorMaxS8
| VectorMaxS16 | VectorMaxS32 | VectorMaxS64 | VectorMaxU8 | VectorMaxU16 | VectorMaxU32 | VectorMaxU64 | VectorMinS8 | VectorMinS16 | VectorMinS32
| VectorMinS64 | VectorMinU8 | VectorMinU16 | VectorMinU32 | VectorMinU64 | VectorMultiply8 | VectorMultiply16 | VectorMultiply32 | VectorMultiply64
| VectorMultiplySignedWiden8 | VectorMultiplySignedWiden16 | VectorMultiplySignedWiden32 | VectorMultiplyUnsignedWiden8
| VectorMultiplyUnsignedWiden16 | VectorMultiplyUnsignedWiden32 | VectorNarrow16 | VectorNarrow32 | VectorNarrow64 | VectorNot | VectorOr
| VectorPairedAddLower8 | VectorPairedAddLower16 | VectorPairedAddLower32 | VectorPairedAddSignedWiden8 | VectorPairedAddSignedWiden16
| VectorPairedAddSignedWiden32 | VectorPairedAddUnsignedWiden8 | VectorPairedAddUnsignedWiden16 | VectorPairedAddUnsignedWiden32 | VectorPairedAdd8
| VectorPairedAdd16 | VectorPairedAdd32 | VectorPairedAdd64 | VectorPairedMaxS8 | VectorPairedMaxS16 | VectorPairedMaxS32 | VectorPairedMaxU8
| VectorPairedMaxU16 | VectorPairedMaxU32 | VectorPairedMinS8 | VectorPairedMinS16 | VectorPairedMinS32 | VectorPairedMinU8 | VectorPairedMinU16
| VectorPairedMinU32 | VectorPairedMaxLowerS8 | VectorPairedMaxLowerS16 | VectorPairedMaxLowerS32 | VectorPairedMaxLowerU8 | VectorPairedMaxLowerU16
| VectorPairedMaxLowerU32 | VectorPairedMinLowerS8 | VectorPairedMinLowerS16 | VectorPairedMinLowerS32 | VectorPairedMinLowerU8
| VectorPairedMinLowerU16 | VectorPairedMinLowerU32 | VectorPolynomialMultiply8 | VectorPolynomialMultiplyLong8 | VectorPolynomialMultiplyLong64
| VectorPopulationCount | VectorReverseBits | VectorReverseElementsInHalfGroups8 | VectorReverseElementsInWordGroups8
| VectorReverseElementsInWordGroups16 | VectorReverseElementsInLongGroups8 | VectorReverseElementsInLongGroups16
| VectorReverseElementsInLongGroups32 | VectorReduceAdd8 | VectorReduceAdd16 | VectorReduceAdd32 | VectorReduceAdd64 | VectorRotateWholeVectorRight
| VectorRoundingHalvingAddS8 | VectorRoundingHalvingAddS16 | VectorRoundingHalvingAddS32 | VectorRoundingHalvingAddU8 | VectorRoundingHalvingAddU16
| VectorRoundingHalvingAddU32 | VectorRoundingShiftLeftS8 | VectorRoundingShiftLeftS16 | VectorRoundingShiftLeftS32 | VectorRoundingShiftLeftS64
| VectorRoundingShiftLeftU8 | VectorRoundingShiftLeftU16 | VectorRoundingShiftLeftU32 | VectorRoundingShiftLeftU64 | VectorSignExtend8
| VectorSignExtend16 | VectorSignExtend32 | VectorSignExtend64 | VectorSignedAbsoluteDifference8 | VectorSignedAbsoluteDifference16
| VectorSignedAbsoluteDifference32 | VectorSignedMultiply16 | VectorSignedMultiply32 | VectorSignedSaturatedAbs8 | VectorSignedSaturatedAbs16
| VectorSignedSaturatedAbs32 | VectorSignedSaturatedAbs64 | VectorSignedSaturatedAccumulateUnsigned8 | VectorSignedSaturatedAccumulateUnsigned16
| VectorSignedSaturatedAccumulateUnsigned32 | VectorSignedSaturatedAccumulateUnsigned64 | VectorSignedSaturatedDoublingMultiplyHigh16
| VectorSignedSaturatedDoublingMultiplyHigh32 | VectorSignedSaturatedDoublingMultiplyHighRounding16
| VectorSignedSaturatedDoublingMultiplyHighRounding32 | VectorSignedSaturatedDoublingMultiplyLong16 | VectorSignedSaturatedDoublingMultiplyLong32
| VectorSignedSaturatedNarrowToSigned16 | VectorSignedSaturatedNarrowToSigned32 | VectorSignedSaturatedNarrowToSigned64
| VectorSignedSaturatedNarrowToUnsigned16 | VectorSignedSaturatedNarrowToUnsigned32 | VectorSignedSaturatedNarrowToUnsigned64
| VectorSignedSaturatedNeg8 | VectorSignedSaturatedNeg16 | VectorSignedSaturatedNeg32 | VectorSignedSaturatedNeg64 | VectorSignedSaturatedShiftLeft8
| VectorSignedSaturatedShiftLeft16 | VectorSignedSaturatedShiftLeft32 | VectorSignedSaturatedShiftLeft64 | VectorSignedSaturatedShiftLeftUnsigned8
| VectorSignedSaturatedShiftLeftUnsigned16 | VectorSignedSaturatedShiftLeftUnsigned32 | VectorSignedSaturatedShiftLeftUnsigned64 | VectorSub8
| VectorSub16 | VectorSub32 | VectorSub64 | VectorTable | VectorTableLookup64 | VectorTableLookup128 | VectorTranspose8 | VectorTranspose16
| VectorTranspose32 | VectorTranspose64 | VectorUnsignedAbsoluteDifference8 | VectorUnsignedAbsoluteDifference16 | VectorUnsignedAbsoluteDifference32
| VectorUnsignedMultiply16 | VectorUnsignedMultiply32 | VectorUnsignedRecipEstimate | VectorUnsignedRecipSqrtEstimate
| VectorUnsignedSaturatedAccumulateSigned8 | VectorUnsignedSaturatedAccumulateSigned16 | VectorUnsignedSaturatedAccumulateSigned32
| VectorUnsignedSaturatedAccumulateSigned64 | VectorUnsignedSaturatedNarrow16 | VectorUnsignedSaturatedNarrow32 | VectorUnsignedSaturatedNarrow64
| VectorUnsignedSaturatedShiftLeft8 | VectorUnsignedSaturatedShiftLeft16 | VectorUnsignedSaturatedShiftLeft32 | VectorUnsignedSaturatedShiftLeft64
| VectorZeroExtend8 | VectorZeroExtend16 | VectorZeroExtend32 | VectorZeroExtend64 | VectorZeroUpper | ZeroVector | FPAbs16 | FPAbs32 | FPAbs64
| FPAdd32 | FPAdd64 | FPCompare32 | FPCompare64 | FPDiv32 | FPDiv64 | FPMax32 | FPMax64 | FPMaxNumeric32 | FPMaxNumeric64 | FPMin32 | FPMin64
| FPMinNumeric32 | FPMinNumeric64 | FPMul32 | FPMul64 | FPMulAdd16 | FPMulAdd32 | FPMulAdd64 | FPMulSub16 | FPMulSub32 | FPMulSub64 | FPMulX32
| FPMulX64 | FPNeg16 | FPNeg32 | FPNeg64 | FPRecipEstimate16 | FPRecipEstimate32 | FPRecipEstimate64 | FPRecipExponent16 | FPRecipExponent32
| FPRecipExponent64 | FPRecipStepFused16 | FPRecipStepFused32 | FPRecipStepFused64 | FPRoundInt16 | FPRoundInt32 | FPRoundInt64 | FPRSqrtEstimate16
| FPRSqrtEstimate32 | FPRSqrtEstimate64 | FPRSqrtStepFused16 | FPRSqrtStepFused32 | FPRSqrtStepFused64 | FPSqrt32 | FPSqrt64 | FPSub32 | FPSub64
| FPHalfToDouble | FPHalfToSingle | FPSingleToDouble | FPSingleToHalf | FPDoubleToHalf | FPDoubleToSingle | FPDoubleToFixedS16 | FPDoubleToFixedS32
| FPDoubleToFixedS64 | FPDoubleToFixedU16 | FPDoubleToFixedU32 | FPDoubleToFixedU64 | FPHalfToFixedS16 | FPHalfToFixedS32 | FPHalfToFixedS64
| FPHalfToFixedU16 | FPHalfToFixedU32 | FPHalfToFixedU64 | FPSingleToFixedS16 | FPSingleToFixedS32 | FPSingleToFixedS64 | FPSingleToFixedU16
| FPSingleToFixedU32 | FPSingleToFixedU64 | FPFixedU16ToSingle | FPFixedS16ToSingle | FPFixedU16ToDouble | FPFixedS16ToDouble | FPFixedU32ToSingle
| FPFixedS32ToSingle | FPFixedU32ToDouble | FPFixedS32ToDouble | FPFixedU64ToDouble | FPFixedU64ToSingle | FPFixedS64ToDouble | FPFixedS64ToSingle
| FPVectorAbs16 | FPVectorAbs32 | FPVectorAbs64 | FPVectorAdd32 | FPVectorAdd64 | FPVectorDiv32 | FPVectorDiv64 | FPVectorEqual16 | FPVectorEqual32
| FPVectorEqual64 | FPVectorFromHalf32 | FPVectorFromSignedFixed32 | FPVectorFromSignedFixed64 | FPVectorFromUnsignedFixed32
| FPVectorFromUnsignedFixed64 | FPVectorGreater32 | FPVectorGreater64 | FPVectorGreaterEqual32 | FPVectorGreaterEqual64 | FPVectorMax32
| FPVectorMax64 | FPVectorMaxNumeric32 | FPVectorMaxNumeric64 | FPVectorMin32 | FPVectorMin64 | FPVectorMinNumeric32 | FPVectorMinNumeric64
| FPVectorMul32 | FPVectorMul64 | FPVectorMulAdd16 | FPVectorMulAdd32 | FPVectorMulAdd64 | FPVectorMulX32 | FPVectorMulX64 | FPVectorNeg16
| FPVectorNeg32 | FPVectorNeg64 | FPVectorPairedAdd32 | FPVectorPairedAdd64 | FPVectorPairedAddLower32 | FPVectorPairedAddLower64
| FPVectorRecipEstimate16 | FPVectorRecipEstimate32 | FPVectorRecipEstimate64 | FPVectorRecipStepFused16 | FPVectorRecipStepFused32
| FPVectorRecipStepFused64 | FPVectorRoundInt16 | FPVectorRoundInt32 | FPVectorRoundInt64 | FPVectorRSqrtEstimate16 | FPVectorRSqrtEstimate32
| FPVectorRSqrtEstimate64 | FPVectorRSqrtStepFused16 | FPVectorRSqrtStepFused32 | FPVectorRSqrtStepFused64 | FPVectorSqrt32 | FPVectorSqrt64
| FPVectorSub32 | FPVectorSub64 | FPVectorToHalf32 | FPVectorToSignedFixed16 | FPVectorToSignedFixed32 | FPVectorToSignedFixed64
| FPVectorToUnsignedFixed16 | FPVectorToUnsignedFixed32 | FPVectorToUnsignedFixed64 | A32ClearExclusive | A32ReadMemory8 | A32ReadMemory16
| A32ReadMemory32 | A32ReadMemory64 | A32ExclusiveReadMemory8 | A32ExclusiveReadMemory16 | A32ExclusiveReadMemory32 | A32ExclusiveReadMemory64
| A32WriteMemory8 | A32WriteMemory16 | A32WriteMemory32 | A32WriteMemory64 | A32ExclusiveWriteMemory8 | A32ExclusiveWriteMemory16
| A32ExclusiveWriteMemory32 | A32ExclusiveWriteMemory64 | A64ClearExclusive | A64ReadMemory8 | A64ReadMemory16 | A64ReadMemory32 | A64ReadMemory64
| A64ReadMemory128 | A64ExclusiveReadMemory8 | A64ExclusiveReadMemory16 | A64ExclusiveReadMemory32 | A64ExclusiveReadMemory64
| A64ExclusiveReadMemory128 | A64WriteMemory8 | A64WriteMemory16 | A64WriteMemory32 | A64WriteMemory64 | A64WriteMemory128 | A64ExclusiveWriteMemory8
| A64ExclusiveWriteMemory16 | A64ExclusiveWriteMemory32 | A64ExclusiveWriteMemory64 | A64ExclusiveWriteMemory128 | A32CoprocInternalOperation
| A32CoprocSendOneWord | A32CoprocSendTwoWords | A32CoprocGetOneWord | A32CoprocGetTwoWords | A32CoprocLoadWords | A32CoprocStoreWords.

(** The enumeration in order, and the position of an opcode in it. *)
Definition all : list Opcode := [
  Void; Identity; Breakpoint; CallHostFunction; A32SetCheckBit; A32GetRegister; A32GetExtendedRegister32; A32GetExtendedRegister64; A32GetVector;
  A32SetRegister; A32SetExtendedRegister32; A32SetExtendedRegister64; A32SetVector; A32GetCpsr; A32SetCpsr; A32SetCpsrNZCV; A32SetCpsrNZCVRaw;
  A32SetCpsrNZCVQ; A32SetCpsrNZ; A32SetCpsrNZC; A32GetCFlag; A32OrQFlag; A32GetGEFlags; A32SetGEFlags; A32SetGEFlagsCompressed; A32BXWritePC;
  A32UpdateUpperLocationDescriptor; A32CallSupervisor; A32ExceptionRaised; A32DataSynchronizationBarrier; A32DataMemoryBarrier;
  A32InstructionSynchronizationBarrier; A32GetFpscr; A32SetFpscr; A32GetFpscrNZCV; A32SetFpscrNZCV; A64SetCheckBit; A64GetCFlag; A64GetNZCVRaw;
  A64SetNZCVRaw; A64SetNZCV; A64GetW; A64GetX; A64GetS; A64GetD; A64GetQ; A64GetSP; A64GetFPCR; A64GetFPSR; A64SetW; A64SetX; A64SetS; A64SetD;
  A64SetQ; A64SetSP; A64SetFPCR; A64SetFPSR; A64SetPC; A64CallSupervisor; A64ExceptionRaised; A64DataCacheOperationRaised;
  A64InstructionCacheOperationRaised; A64DataSynchronizationBarrier; A64DataMemoryBarrier; A64InstructionSynchronizationBarrier; A64GetCNTFRQ;
  A64GetCNTPCT; A64GetCTR; A64GetDCZID; A64GetTPIDR; A64GetTPIDRRO; A64SetTPIDR; PushRSB; GetCarryFromOp; GetOverflowFromOp; GetGEFromOp;
  GetNZCVFromOp; GetNZFromOp; GetUpperFromOp; GetLowerFromOp; GetCFlagFromNZCV; NZCVFromPackedFlags; Pack2x32To1x64; Pack2x64To1x128;
  LeastSignificantWord; LeastSignificantHalf; LeastSignificantByte; MostSignificantWord; MostSignificantBit; IsZero32; IsZero64; TestBit;
  ConditionalSelect32; ConditionalSelect64; ConditionalSelectNZCV; LogicalShiftLeft32; LogicalShiftLeft64; LogicalShiftRight32; LogicalShiftRight64;
  ArithmeticShiftRight32; ArithmeticShiftRight64; RotateRight32; RotateRight64; RotateRightExtended; LogicalShiftLeftMasked32;
  LogicalShiftLeftMasked64; LogicalShiftRightMasked32; LogicalShiftRightMasked64; ArithmeticShiftRightMasked32; ArithmeticShiftRightMasked64;
  RotateRightMasked32; RotateRightMasked64; Add32; Add64; Sub32; Sub64; Mul32; Mul64; SignedMultiplyHigh64; UnsignedMultiplyHigh64; UnsignedDiv32;
  UnsignedDiv64; SignedDiv32; SignedDiv64; And32; And64; AndNot32; AndNot64; Eor32; Eor64; Or32; Or64; Not32; Not64; SignExtendByteToWord;
  SignExtendHalfToWord; SignExtendByteToLong; SignExtendHalfToLong; SignExtendWordToLong; ZeroExtendByteToWord; ZeroExtendHalfToWord;
  ZeroExtendByteToLong; ZeroExtendHalfToLong; ZeroExtendWordToLong; ZeroExtendLongToQuad; ByteReverseWord; ByteReverseHalf; ByteReverseDual;
  CountLeadingZeros32; CountLeadingZeros64; ExtractRegister32; ExtractRegister64; ReplicateBit32; ReplicateBit64; MaxSigned32; MaxSigned64;
  MaxUnsigned32; MaxUnsigned64; MinSigned32; MinSigned64; MinUnsigned32; MinUnsigned64; SignedSaturatedAddWithFlag32; SignedSaturatedSubWithFlag32;
  SignedSaturation; UnsignedSaturation; SignedSaturatedAdd8; SignedSaturatedAdd16; SignedSaturatedAdd32; SignedSaturatedAdd64;
  SignedSaturatedDoublingMultiplyReturnHigh16; SignedSaturatedDoublingMultiplyReturnHigh32; SignedSaturatedSub8; SignedSaturatedSub16;
  SignedSaturatedSub32; SignedSaturatedSub64; UnsignedSaturatedAdd8; UnsignedSaturatedAdd16; UnsignedSaturatedAdd32; UnsignedSaturatedAdd64;
  UnsignedSaturatedSub8; UnsignedSaturatedSub16; UnsignedSaturatedSub32; UnsignedSaturatedSub64; VectorSignedSaturatedAdd8;
  VectorSignedSaturatedAdd16; VectorSignedSaturatedAdd32; VectorSignedSaturatedAdd64; VectorSignedSaturatedSub8; VectorSignedSaturatedSub16;
  VectorSignedSaturatedSub32; VectorSignedSaturatedSub64; VectorUnsignedSaturatedAdd8; VectorUnsignedSaturatedAdd16; VectorUnsignedSaturatedAdd32;
  VectorUnsignedSaturatedAdd64; VectorUnsignedSaturatedSub8; VectorUnsignedSaturatedSub16; VectorUnsignedSaturatedSub32;
  VectorUnsignedSaturatedSub64; PackedAddU8; PackedAddS8; PackedSubU8; PackedSubS8; PackedAddU16; PackedAddS16; PackedSubU16; PackedSubS16;
  PackedAddSubU16; PackedAddSubS16; PackedSubAddU16; PackedSubAddS16; PackedHalvingAddU8; PackedHalvingAddS8; PackedHalvingSubU8; PackedHalvingSubS8;
  PackedHalvingAddU16; PackedHalvingAddS16; PackedHalvingSubU16; PackedHalvingSubS16; PackedHalvingAddSubU16; PackedHalvingAddSubS16;
  PackedHalvingSubAddU16; PackedHalvingSubAddS16; PackedSaturatedAddU8; PackedSaturatedAddS8; PackedSaturatedSubU8; PackedSaturatedSubS8;
  PackedSaturatedAddU16; PackedSaturatedAddS16; PackedSaturatedSubU16; PackedSaturatedSubS16; PackedAbsDiffSumU8; PackedSelect; CRC32Castagnoli8;
  CRC32Castagnoli16; CRC32Castagnoli32; CRC32Castagnoli64; CRC32ISO8; CRC32ISO16; CRC32ISO32; CRC32ISO64; AESDecryptSingleRound;
  AESEncryptSingleRound; AESInverseMixColumns; AESMixColumns; SM4AccessSubstitutionBox; SHA256Hash; SHA256MessageSchedule0; SHA256MessageSchedule1;
  VectorGetElement8; VectorGetElement16; VectorGetElement32; VectorGetElement64; VectorSetElement8; VectorSetElement16; VectorSetElement32;
  VectorSetElement64; VectorAbs8; VectorAbs16; VectorAbs32; VectorAbs64; VectorAdd8; VectorAdd16; VectorAdd32; VectorAdd64; VectorAnd; VectorAndNot;
  VectorArithmeticShiftRight8; VectorArithmeticShiftRight16; VectorArithmeticShiftRight32; VectorArithmeticShiftRight64; VectorArithmeticVShift8;
  VectorArithmeticVShift16; VectorArithmeticVShift32; VectorArithmeticVShift64; VectorBroadcastLower8; VectorBroadcastLower16;
  VectorBroadcastLower32; VectorBroadcast8; VectorBroadcast16; VectorBroadcast32; VectorBroadcast64; VectorBroadcastElementLower8;
  VectorBroadcastElementLower16; VectorBroadcastElementLower32; VectorBroadcastElement8; VectorBroadcastElement16; VectorBroadcastElement32;
  VectorBroadcastElement64; VectorCountLeadingZeros8; VectorCountLeadingZeros16; VectorCountLeadingZeros32; VectorDeinterleaveEven8;
  VectorDeinterleaveEven16; VectorDeinterleaveEven32; VectorDeinterleaveEven64; VectorDeinterleaveEvenLower8; VectorDeinterleaveEvenLower16;
  VectorDeinterleaveEvenLower32; VectorDeinterleaveOdd8; VectorDeinterleaveOdd16; VectorDeinterleaveOdd32; VectorDeinterleaveOdd64;
  VectorDeinterleaveOddLower8; VectorDeinterleaveOddLower16; VectorDeinterleaveOddLower32; VectorEor; VectorEqual8; VectorEqual16; VectorEqual32;
  VectorEqual64; VectorEqual128; VectorExtract; VectorExtractLower; VectorGreaterS8; VectorGreaterS16; VectorGreaterS32; VectorGreaterS64;
  VectorHalvingAddS8; VectorHalvingAddS16; VectorHalvingAddS32; VectorHalvingAddU8; VectorHalvingAddU16; VectorHalvingAddU32; VectorHalvingSubS8;
  VectorHalvingSubS16; VectorHalvingSubS32; VectorHalvingSubU8; VectorHalvingSubU16; VectorHalvingSubU32; VectorInterleaveLower8;
  VectorInterleaveLower16; VectorInterleaveLower32; VectorInterleaveLower64; VectorInterleaveUpper8; VectorInterleaveUpper16;
  VectorInterleaveUpper32; VectorInterleaveUpper64; VectorLogicalShiftLeft8; VectorLogicalShiftLeft16; VectorLogicalShiftLeft32;
  VectorLogicalShiftLeft64; VectorLogicalShiftRight8; VectorLogicalShiftRight16; VectorLogicalShiftRight32; VectorLogicalShiftRight64;
  VectorLogicalVShift8; VectorLogicalVShift16; VectorLogicalVShift32; VectorLogicalVShift64; VectorMaxS8; VectorMaxS16; VectorMaxS32; VectorMaxS64;
  VectorMaxU8; VectorMaxU16; VectorMaxU32; VectorMaxU64; VectorMinS8; VectorMinS16; VectorMinS32; VectorMinS64; VectorMinU8; VectorMinU16;
  VectorMinU32; VectorMinU64; VectorMultiply8; VectorMultiply16; VectorMultiply32; VectorMultiply64; VectorMultiplySignedWiden8;
  VectorMultiplySignedWiden16; VectorMultiplySignedWiden32; VectorMultiplyUnsignedWiden8; VectorMultiplyUnsignedWiden16;
  VectorMultiplyUnsignedWiden32; VectorNarrow16; VectorNarrow32; VectorNarrow64; VectorNot; VectorOr; VectorPairedAddLower8; VectorPairedAddLower16;
  VectorPairedAddLower32; VectorPairedAddSignedWiden8; VectorPairedAddSignedWiden16; VectorPairedAddSignedWiden32; VectorPairedAddUnsignedWiden8;
  VectorPairedAddUnsignedWiden16; VectorPairedAddUnsignedWiden32; VectorPairedAdd8; VectorPairedAdd16; VectorPairedAdd32; VectorPairedAdd64;
  VectorPairedMaxS8; VectorPairedMaxS16; VectorPairedMaxS32; VectorPairedMaxU8; VectorPairedMaxU16; VectorPairedMaxU32; VectorPairedMinS8;
  VectorPairedMinS16; VectorPairedMinS32; VectorPairedMinU8; VectorPairedMinU16; VectorPairedMinU32; VectorPairedMaxLowerS8; VectorPairedMaxLowerS16;
  VectorPairedMaxLowerS32; VectorPairedMaxLowerU8; VectorPairedMaxLowerU16; VectorPairedMaxLowerU32; VectorPairedMinLowerS8; VectorPairedMinLowerS16;
  VectorPairedMinLowerS32; VectorPairedMinLowerU8; VectorPairedMinLowerU16; VectorPairedMinLowerU32; VectorPolynomialMultiply8;
  VectorPolynomialMultiplyLong8; VectorPolynomialMultiplyLong64; VectorPopulationCount; VectorReverseBits; VectorReverseElementsInHalfGroups8;
  VectorReverseElementsInWordGroups8; VectorReverseElementsInWordGroups16; VectorReverseElementsInLongGroups8; VectorReverseElementsInLongGroups16;
  VectorReverseElementsInLongGroups32; VectorReduceAdd8; VectorReduceAdd16; VectorReduceAdd32; VectorReduceAdd64; VectorRotateWholeVectorRight;
  VectorRoundingHalvingAddS8; VectorRoundingHalvingAddS16; VectorRoundingHalvingAddS32; VectorRoundingHalvingAddU8; VectorRoundingHalvingAddU16;
  VectorRoundingHalvingAddU32; VectorRoundingShiftLeftS8; VectorRoundingShiftLeftS16; VectorRoundingShiftLeftS32; VectorRoundingShiftLeftS64;
  VectorRoundingShiftLeftU8; VectorRoundingShiftLeftU16; VectorRoundingShiftLeftU32; VectorRoundingShiftLeftU64; VectorSignExtend8;
  VectorSignExtend16; VectorSignExtend32; VectorSignExtend64; VectorSignedAbsoluteDifference8; VectorSignedAbsoluteDifference16;
  VectorSignedAbsoluteDifference32; VectorSignedMultiply16; VectorSignedMultiply32; VectorSignedSaturatedAbs8; VectorSignedSaturatedAbs16;
  VectorSignedSaturatedAbs32; VectorSignedSaturatedAbs64; VectorSignedSaturatedAccumulateUnsigned8; VectorSignedSaturatedAccumulateUnsigned16;
  VectorSignedSaturatedAccumulateUnsigned32; VectorSignedSaturatedAccumulateUnsigned64; VectorSignedSaturatedDoublingMultiplyHigh16;
  VectorSignedSaturatedDoublingMultiplyHigh32; VectorSignedSaturatedDoublingMultiplyHighRounding16;
  VectorSignedSaturatedDoublingMultiplyHighRounding32; VectorSignedSaturatedDoublingMultiplyLong16; VectorSignedSaturatedDoublingMultiplyLong32;
  VectorSignedSaturatedNarrowToSigned16; VectorSignedSaturatedNarrowToSigned32; VectorSignedSaturatedNarrowToSigned64;
  VectorSignedSaturatedNarrowToUnsigned16; VectorSignedSaturatedNarrowToUnsigned32; VectorSignedSaturatedNarrowToUnsigned64;
  VectorSignedSaturatedNeg8; VectorSignedSaturatedNeg16; VectorSignedSaturatedNeg32; VectorSignedSaturatedNeg64; VectorSignedSaturatedShiftLeft8;
  VectorSignedSaturatedShiftLeft16; VectorSignedSaturatedShiftLeft32; VectorSignedSaturatedShiftLeft64; VectorSignedSaturatedShiftLeftUnsigned8;
  VectorSignedSaturatedShiftLeftUnsigned16; VectorSignedSaturatedShiftLeftUnsigned32; VectorSignedSaturatedShiftLeftUnsigned64; VectorSub8;
  VectorSub16; VectorSub32; VectorSub64; VectorTable; VectorTableLookup64; VectorTableLookup128; VectorTranspose8; VectorTranspose16;
  VectorTranspose32; VectorTranspose64; VectorUnsignedAbsoluteDifference8; VectorUnsignedAbsoluteDifference16; VectorUnsignedAbsoluteDifference32;
  VectorUnsignedMultiply16; VectorUnsignedMultiply32; VectorUnsignedRecipEstimate; VectorUnsignedRecipSqrtEstimate;
  VectorUnsignedSaturatedAccumulateSigned8; VectorUnsignedSaturatedAccumulateSigned16; VectorUnsignedSaturatedAccumulateSigned32;
  VectorUnsignedSaturatedAccumulateSigned64; VectorUnsignedSaturatedNarrow16; VectorUnsignedSaturatedNarrow32; VectorUnsignedSaturatedNarrow64;
  VectorUnsignedSaturatedShiftLeft8; VectorUnsignedSaturatedShiftLeft16; VectorUnsignedSaturatedShiftLeft32; VectorUnsignedSaturatedShiftLeft64;
  VectorZeroExtend8; VectorZeroExtend16; VectorZeroExtend32; VectorZeroExtend64; VectorZeroUpper; ZeroVector; FPAbs16; FPAbs32; FPAbs64; FPAdd32;
  FPAdd64; FPCompare32; FPCompare64; FPDiv32; FPDiv64; FPMax32; FPMax64; FPMaxNumeric32; FPMaxNumeric64; FPMin32; FPMin64; FPMinNumeric32;
  FPMinNumeric64; FPMul32; FPMul64; FPMulAdd16; FPMulAdd32; FPMulAdd64; FPMulSub16; FPMulSub32; FPMulSub64; FPMulX32; FPMulX64; FPNeg16; FPNeg32;
  FPNeg64; FPRecipEstimate16; FPRecipEstimate32; FPRecipEstimate64; FPRecipExponent16; FPRecipExponent32; FPRecipExponent64; FPRecipStepFused16;
  FPRecipStepFused32; FPRecipStepFused64; FPRoundInt16; FPRoundInt32; FPRoundInt64; FPRSqrtEstimate16; FPRSqrtEstimate32; FPRSqrtEstimate64;
  FPRSqrtStepFused16; FPRSqrtStepFused32; FPRSqrtStepFused64; FPSqrt32; FPSqrt64; FPSub32; FPSub64; FPHalfToDouble; FPHalfToSingle; FPSingleToDouble;
  FPSingleToHalf; FPDoubleToHalf; FPDoubleToSingle; FPDoubleToFixedS16; FPDoubleToFixedS32; FPDoubleToFixedS64; FPDoubleToFixedU16;
  FPDoubleToFixedU32; FPDoubleToFixedU64; FPHalfToFixedS16; FPHalfToFixedS32; FPHalfToFixedS64; FPHalfToFixedU16; FPHalfToFixedU32; FPHalfToFixedU64;
  FPSingleToFixedS16; FPSingleToFixedS32; FPSingleToFixedS64; FPSingleToFixedU16; FPSingleToFixedU32; FPSingleToFixedU64; FPFixedU16ToSingle;
  FPFixedS16ToSingle; FPFixedU16ToDouble; FPFixedS16ToDouble; FPFixedU32ToSingle; FPFixedS32ToSingle; FPFixedU32ToDouble; FPFixedS32ToDouble;
  FPFixedU64ToDouble; FPFixedU64ToSingle; FPFixedS64ToDouble; FPFixedS64ToSingle; FPVectorAbs16; FPVectorAbs32; FPVectorAbs64; FPVectorAdd32;
  FPVectorAdd64; FPVectorDiv32; FPVectorDiv64; FPVectorEqual16; FPVectorEqual32; FPVectorEqual64; FPVectorFromHalf32; FPVectorFromSignedFixed32;
  FPVectorFromSignedFixed64; FPVectorFromUnsignedFixed32; FPVectorFromUnsignedFixed64; FPVectorGreater32; FPVectorGreater64; FPVectorGreaterEqual32;
  FPVectorGreaterEqual64; FPVectorMax32; FPVectorMax64; FPVectorMaxNumeric32; FPVectorMaxNumeric64; FPVectorMin32; FPVectorMin64;
  FPVectorMinNumeric32; FPVectorMinNumeric64; FPVectorMul32; FPVectorMul64; FPVectorMulAdd16; FPVectorMulAdd32; FPVectorMulAdd64; FPVectorMulX32;
  FPVectorMulX64; FPVectorNeg16; FPVectorNeg32; FPVectorNeg64; FPVectorPairedAdd32; FPVectorPairedAdd64; FPVectorPairedAddLower32;
  FPVectorPairedAddLower64; FPVectorRecipEstimate16; FPVectorRecipEstimate32; FPVectorRecipEstimate64; FPVectorRecipStepFused16;
  FPVectorRecipStepFused32; FPVectorRecipStepFused64; FPVectorRoundInt16; FPVectorRoundInt32; FPVectorRoundInt64; FPVectorRSqrtEstimate16;
  FPVectorRSqrtEstimate32; FPVectorRSqrtEstimate64; FPVectorRSqrtStepFused16; FPVectorRSqrtStepFused32; FPVectorRSqrtStepFused64; FPVectorSqrt32;
  FPVectorSqrt64; FPVectorSub32; FPVectorSub64; FPVectorToHalf32; FPVectorToSignedFixed16; FPVectorToSignedFixed32; FPVectorToSignedFixed64;
  FPVectorToUnsignedFixed16; FPVectorToUnsignedFixed32; FPVectorToUnsignedFixed64; A32ClearExclusive; A32ReadMemory8; A32ReadMemory16;
  A32ReadMemory32; A32ReadMemory64; A32ExclusiveReadMemory8; A32ExclusiveReadMemory16; A32ExclusiveReadMemory32; A32ExclusiveReadMemory64;
  A32WriteMemory8; A32WriteMemory16; A32WriteMemory32; A32WriteMemory64; A32ExclusiveWriteMemory8; A32ExclusiveWriteMemory16;
  A32ExclusiveWriteMemory32; A32ExclusiveWriteMemory64; A64ClearExclusive; A64ReadMemory8; A64ReadMemory16; A64ReadMemory32; A64ReadMemory64;
  A64ReadMemory128; A64ExclusiveReadMemory8; A64ExclusiveReadMemory16; A64ExclusiveReadMemory32; A64ExclusiveReadMemory64; A64ExclusiveReadMemory128;
  A64WriteMemory8; A64WriteMemory16; A64WriteMemory32; A64WriteMemory64; A64WriteMemory128; A64ExclusiveWriteMemory8; A64ExclusiveWriteMemory16;
  A64ExclusiveWriteMemory32; A64ExclusiveWriteMemory64; A64ExclusiveWriteMemory128; A32CoprocInternalOperation; A32CoprocSendOneWord;
  A32CoprocSendTwoWords; A32CoprocGetOneWord; A32CoprocGetTwoWords; A32CoprocLoadWords; A32CoprocStoreWords].
Definition index (op : Opcode) : positive :=
  match op with
  | Void => 1 | Identity => 2 | Breakpoint => 3 | CallHostFunction => 4 | A32SetCheckBit => 5 | A32GetRegister => 6 | A32GetExtendedRegister32 => 7
  | A32GetExtendedRegister64 => 8 | A32GetVector => 9 | A32SetRegister => 10 | A32SetExtendedRegister32 => 11 | A32SetExtendedRegister64 => 12
  | A32SetVector => 13 | A32GetCpsr => 14 | A32SetCpsr => 15 | A32SetCpsrNZCV => 16 | A32SetCpsrNZCVRaw => 17 | A32SetCpsrNZCVQ => 18
  | A32SetCpsrNZ => 19 | A32SetCpsrNZC => 20 | A32GetCFlag => 21 | A32OrQFlag => 22 | A32GetGEFlags => 23 | A32SetGEFlags => 24
  | A32SetGEFlagsCompressed => 25 | A32BXWritePC => 26 | A32UpdateUpperLocationDescriptor => 27 | A32CallSupervisor => 28 | A32ExceptionRaised => 29
  | A32DataSynchronizationBarrier => 30 | A32DataMemoryBarrier => 31 | A32InstructionSynchronizationBarrier => 32 | A32GetFpscr => 33
  | A32SetFpscr => 34 | A32GetFpscrNZCV => 35 | A32SetFpscrNZCV => 36 | A64SetCheckBit => 37 | A64GetCFlag => 38 | A64GetNZCVRaw => 39
  | A64SetNZCVRaw => 40 | A64SetNZCV => 41 | A64GetW => 42 | A64GetX => 43 | A64GetS => 44 | A64GetD => 45 | A64GetQ => 46 | A64GetSP => 47
  | A64GetFPCR => 48 | A64GetFPSR => 49 | A64SetW => 50 | A64SetX => 51 | A64SetS => 52 | A64SetD => 53 | A64SetQ => 54 | A64SetSP => 55
  | A64SetFPCR => 56 | A64SetFPSR => 57 | A64SetPC => 58 | A64CallSupervisor => 59 | A64ExceptionRaised => 60 | A64DataCacheOperationRaised => 61
  | A64InstructionCacheOperationRaised => 62 | A64DataSynchronizationBarrier => 63 | A64DataMemoryBarrier => 64
  | A64InstructionSynchronizationBarrier => 65 | A64GetCNTFRQ => 66 | A64GetCNTPCT => 67 | A64GetCTR => 68 | A64GetDCZID => 69 | A64GetTPIDR => 70
  | A64GetTPIDRRO => 71 | A64SetTPIDR => 72 | PushRSB => 73 | GetCarryFromOp => 74 | GetOverflowFromOp => 75 | GetGEFromOp => 76
  | GetNZCVFromOp => 77 | GetNZFromOp => 78 | GetUpperFromOp => 79 | GetLowerFromOp => 80 | GetCFlagFromNZCV => 81 | NZCVFromPackedFlags => 82
  | Pack2x32To1x64 => 83 | Pack2x64To1x128 => 84 | LeastSignificantWord => 85 | LeastSignificantHalf => 86 | LeastSignificantByte => 87
  | MostSignificantWord => 88 | MostSignificantBit => 89 | IsZero32 => 90 | IsZero64 => 91 | TestBit => 92 | ConditionalSelect32 => 93
  | ConditionalSelect64 => 94 | ConditionalSelectNZCV => 95 | LogicalShiftLeft32 => 96 | LogicalShiftLeft64 => 97 | LogicalShiftRight32 => 98
  | LogicalShiftRight64 => 99 | ArithmeticShiftRight32 => 100 | ArithmeticShiftRight64 => 101 | RotateRight32 => 102 | RotateRight64 => 103
  | RotateRightExtended => 104 | LogicalShiftLeftMasked32 => 105 | LogicalShiftLeftMasked64 => 106 | LogicalShiftRightMasked32 => 107
  | LogicalShiftRightMasked64 => 108 | ArithmeticShiftRightMasked32 => 109 | ArithmeticShiftRightMasked64 => 110 | RotateRightMasked32 => 111
  | RotateRightMasked64 => 112 | Add32 => 113 | Add64 => 114 | Sub32 => 115 | Sub64 => 116 | Mul32 => 117 | Mul64 => 118
  | SignedMultiplyHigh64 => 119 | UnsignedMultiplyHigh64 => 120 | UnsignedDiv32 => 121 | UnsignedDiv64 => 122 | SignedDiv32 => 123
  | SignedDiv64 => 124 | And32 => 125 | And64 => 126 | AndNot32 => 127 | AndNot64 => 128 | Eor32 => 129 | Eor64 => 130 | Or32 => 131 | Or64 => 132
  | Not32 => 133 | Not64 => 134 | SignExtendByteToWord => 135 | SignExtendHalfToWord => 136 | SignExtendByteToLong => 137
  | SignExtendHalfToLong => 138 | SignExtendWordToLong => 139 | ZeroExtendByteToWord => 140 | ZeroExtendHalfToWord => 141
  | ZeroExtendByteToLong => 142 | ZeroExtendHalfToLong => 143 | ZeroExtendWordToLong => 144 | ZeroExtendLongToQuad => 145 | ByteReverseWord => 146
  | ByteReverseHalf => 147 | ByteReverseDual => 148 | CountLeadingZeros32 => 149 | CountLeadingZeros64 => 150 | ExtractRegister32 => 151
  | ExtractRegister64 => 152 | ReplicateBit32 => 153 | ReplicateBit64 => 154 | MaxSigned32 => 155 | MaxSigned64 => 156 | MaxUnsigned32 => 157
  | MaxUnsigned64 => 158 | MinSigned32 => 159 | MinSigned64 => 160 | MinUnsigned32 => 161 | MinUnsigned64 => 162
  | SignedSaturatedAddWithFlag32 => 163 | SignedSaturatedSubWithFlag32 => 164 | SignedSaturation => 165 | UnsignedSaturation => 166
  | SignedSaturatedAdd8 => 167 | SignedSaturatedAdd16 => 168 | SignedSaturatedAdd32 => 169 | SignedSaturatedAdd64 => 170
  | SignedSaturatedDoublingMultiplyReturnHigh16 => 171 | SignedSaturatedDoublingMultiplyReturnHigh32 => 172 | SignedSaturatedSub8 => 173
  | SignedSaturatedSub16 => 174 | SignedSaturatedSub32 => 175 | SignedSaturatedSub64 => 176 | UnsignedSaturatedAdd8 => 177
  | UnsignedSaturatedAdd16 => 178 | UnsignedSaturatedAdd32 => 179 | UnsignedSaturatedAdd64 => 180 | UnsignedSaturatedSub8 => 181
  | UnsignedSaturatedSub16 => 182 | UnsignedSaturatedSub32 => 183 | UnsignedSaturatedSub64 => 184 | VectorSignedSaturatedAdd8 => 185
  | VectorSignedSaturatedAdd16 => 186 | VectorSignedSaturatedAdd32 => 187 | VectorSignedSaturatedAdd64 => 188 | VectorSignedSaturatedSub8 => 189
  | VectorSignedSaturatedSub16 => 190 | VectorSignedSaturatedSub32 => 191 | VectorSignedSaturatedSub64 => 192 | VectorUnsignedSaturatedAdd8 => 193
  | VectorUnsignedSaturatedAdd16 => 194 | VectorUnsignedSaturatedAdd32 => 195 | VectorUnsignedSaturatedAdd64 => 196
  | VectorUnsignedSaturatedSub8 => 197 | VectorUnsignedSaturatedSub16 => 198 | VectorUnsignedSaturatedSub32 => 199
  | VectorUnsignedSaturatedSub64 => 200 | PackedAddU8 => 201 | PackedAddS8 => 202 | PackedSubU8 => 203 | PackedSubS8 => 204 | PackedAddU16 => 205
  | PackedAddS16 => 206 | PackedSubU16 => 207 | PackedSubS16 => 208 | PackedAddSubU16 => 209 | PackedAddSubS16 => 210 | PackedSubAddU16 => 211
  | PackedSubAddS16 => 212 | PackedHalvingAddU8 => 213 | PackedHalvingAddS8 => 214 | PackedHalvingSubU8 => 215 | PackedHalvingSubS8 => 216
  | PackedHalvingAddU16 => 217 | PackedHalvingAddS16 => 218 | PackedHalvingSubU16 => 219 | PackedHalvingSubS16 => 220 | PackedHalvingAddSubU16 => 221
  | PackedHalvingAddSubS16 => 222 | PackedHalvingSubAddU16 => 223 | PackedHalvingSubAddS16 => 224 | PackedSaturatedAddU8 => 225
  | PackedSaturatedAddS8 => 226 | PackedSaturatedSubU8 => 227 | PackedSaturatedSubS8 => 228 | PackedSaturatedAddU16 => 229
  | PackedSaturatedAddS16 => 230 | PackedSaturatedSubU16 => 231 | PackedSaturatedSubS16 => 232 | PackedAbsDiffSumU8 => 233 | PackedSelect => 234
  | CRC32Castagnoli8 => 235 | CRC32Castagnoli16 => 236 | CRC32Castagnoli32 => 237 | CRC32Castagnoli64 => 238 | CRC32ISO8 => 239 | CRC32ISO16 => 240
  | CRC32ISO32 => 241 | CRC32ISO64 => 242 | AESDecryptSingleRound => 243 | AESEncryptSingleRound => 244 | AESInverseMixColumns => 245
  | AESMixColumns => 246 | SM4AccessSubstitutionBox => 247 | SHA256Hash => 248 | SHA256MessageSchedule0 => 249 | SHA256MessageSchedule1 => 250
  | VectorGetElement8 => 251 | VectorGetElement16 => 252 | VectorGetElement32 => 253 | VectorGetElement64 => 254 | VectorSetElement8 => 255
  | VectorSetElement16 => 256 | VectorSetElement32 => 257 | VectorSetElement64 => 258 | VectorAbs8 => 259 | VectorAbs16 => 260 | VectorAbs32 => 261
  | VectorAbs64 => 262 | VectorAdd8 => 263 | VectorAdd16 => 264 | VectorAdd32 => 265 | VectorAdd64 => 266 | VectorAnd => 267 | VectorAndNot => 268
  | VectorArithmeticShiftRight8 => 269 | VectorArithmeticShiftRight16 => 270 | VectorArithmeticShiftRight32 => 271
  | VectorArithmeticShiftRight64 => 272 | VectorArithmeticVShift8 => 273 | VectorArithmeticVShift16 => 274 | VectorArithmeticVShift32 => 275
  | VectorArithmeticVShift64 => 276 | VectorBroadcastLower8 => 277 | VectorBroadcastLower16 => 278 | VectorBroadcastLower32 => 279
  | VectorBroadcast8 => 280 | VectorBroadcast16 => 281 | VectorBroadcast32 => 282 | VectorBroadcast64 => 283 | VectorBroadcastElementLower8 => 284
  | VectorBroadcastElementLower16 => 285 | VectorBroadcastElementLower32 => 286 | VectorBroadcastElement8 => 287 | VectorBroadcastElement16 => 288
  | VectorBroadcastElement32 => 289 | VectorBroadcastElement64 => 290 | VectorCountLeadingZeros8 => 291 | VectorCountLeadingZeros16 => 292
  | VectorCountLeadingZeros32 => 293 | VectorDeinterleaveEven8 => 294 | VectorDeinterleaveEven16 => 295 | VectorDeinterleaveEven32 => 296
  | VectorDeinterleaveEven64 => 297 | VectorDeinterleaveEvenLower8 => 298 | VectorDeinterleaveEvenLower16 => 299
  | VectorDeinterleaveEvenLower32 => 300 | VectorDeinterleaveOdd8 => 301 | VectorDeinterleaveOdd16 => 302 | VectorDeinterleaveOdd32 => 303
  | VectorDeinterleaveOdd64 => 304 | VectorDeinterleaveOddLower8 => 305 | VectorDeinterleaveOddLower16 => 306 | VectorDeinterleaveOddLower32 => 307
  | VectorEor => 308 | VectorEqual8 => 309 | VectorEqual16 => 310 | VectorEqual32 => 311 | VectorEqual64 => 312 | VectorEqual128 => 313
  | VectorExtract => 314 | VectorExtractLower => 315 | VectorGreaterS8 => 316 | VectorGreaterS16 => 317 | VectorGreaterS32 => 318
  | VectorGreaterS64 => 319 | VectorHalvingAddS8 => 320 | VectorHalvingAddS16 => 321 | VectorHalvingAddS32 => 322 | VectorHalvingAddU8 => 323
  | VectorHalvingAddU16 => 324 | VectorHalvingAddU32 => 325 | VectorHalvingSubS8 => 326 | VectorHalvingSubS16 => 327 | VectorHalvingSubS32 => 328
  | VectorHalvingSubU8 => 329 | VectorHalvingSubU16 => 330 | VectorHalvingSubU32 => 331 | VectorInterleaveLower8 => 332
  | VectorInterleaveLower16 => 333 | VectorInterleaveLower32 => 334 | VectorInterleaveLower64 => 335 | VectorInterleaveUpper8 => 336
  | VectorInterleaveUpper16 => 337 | VectorInterleaveUpper32 => 338 | VectorInterleaveUpper64 => 339 | VectorLogicalShiftLeft8 => 340
  | VectorLogicalShiftLeft16 => 341 | VectorLogicalShiftLeft32 => 342 | VectorLogicalShiftLeft64 => 343 | VectorLogicalShiftRight8 => 344
  | VectorLogicalShiftRight16 => 345 | VectorLogicalShiftRight32 => 346 | VectorLogicalShiftRight64 => 347 | VectorLogicalVShift8 => 348
  | VectorLogicalVShift16 => 349 | VectorLogicalVShift32 => 350 | VectorLogicalVShift64 => 351 | VectorMaxS8 => 352 | VectorMaxS16 => 353
  | VectorMaxS32 => 354 | VectorMaxS64 => 355 | VectorMaxU8 => 356 | VectorMaxU16 => 357 | VectorMaxU32 => 358 | VectorMaxU64 => 359
  | VectorMinS8 => 360 | VectorMinS16 => 361 | VectorMinS32 => 362 | VectorMinS64 => 363 | VectorMinU8 => 364 | VectorMinU16 => 365
  | VectorMinU32 => 366 | VectorMinU64 => 367 | VectorMultiply8 => 368 | VectorMultiply16 => 369 | VectorMultiply32 => 370 | VectorMultiply64 => 371
  | VectorMultiplySignedWiden8 => 372 | VectorMultiplySignedWiden16 => 373 | VectorMultiplySignedWiden32 => 374 | VectorMultiplyUnsignedWiden8 => 375
  | VectorMultiplyUnsignedWiden16 => 376 | VectorMultiplyUnsignedWiden32 => 377 | VectorNarrow16 => 378 | VectorNarrow32 => 379
  | VectorNarrow64 => 380 | VectorNot => 381 | VectorOr => 382 | VectorPairedAddLower8 => 383 | VectorPairedAddLower16 => 384
  | VectorPairedAddLower32 => 385 | VectorPairedAddSignedWiden8 => 386 | VectorPairedAddSignedWiden16 => 387 | VectorPairedAddSignedWiden32 => 388
  | VectorPairedAddUnsignedWiden8 => 389 | VectorPairedAddUnsignedWiden16 => 390 | VectorPairedAddUnsignedWiden32 => 391 | VectorPairedAdd8 => 392
  | VectorPairedAdd16 => 393 | VectorPairedAdd32 => 394 | VectorPairedAdd64 => 395 | VectorPairedMaxS8 => 396 | VectorPairedMaxS16 => 397
  | VectorPairedMaxS32 => 398 | VectorPairedMaxU8 => 399 | VectorPairedMaxU16 => 400 | VectorPairedMaxU32 => 401 | VectorPairedMinS8 => 402
  | VectorPairedMinS16 => 403 | VectorPairedMinS32 => 404 | VectorPairedMinU8 => 405 | VectorPairedMinU16 => 406 | VectorPairedMinU32 => 407
  | VectorPairedMaxLowerS8 => 408 | VectorPairedMaxLowerS16 => 409 | VectorPairedMaxLowerS32 => 410 | VectorPairedMaxLowerU8 => 411
  | VectorPairedMaxLowerU16 => 412 | VectorPairedMaxLowerU32 => 413 | VectorPairedMinLowerS8 => 414 | VectorPairedMinLowerS16 => 415
  | VectorPairedMinLowerS32 => 416 | VectorPairedMinLowerU8 => 417 | VectorPairedMinLowerU16 => 418 | VectorPairedMinLowerU32 => 419
  | VectorPolynomialMultiply8 => 420 | VectorPolynomialMultiplyLong8 => 421 | VectorPolynomialMultiplyLong64 => 422 | VectorPopulationCount => 423
  | VectorReverseBits => 424 | VectorReverseElementsInHalfGroups8 => 425 | VectorReverseElementsInWordGroups8 => 426
  | VectorReverseElementsInWordGroups16 => 427 | VectorReverseElementsInLongGroups8 => 428 | VectorReverseElementsInLongGroups16 => 429
  | VectorReverseElementsInLongGroups32 => 430 | VectorReduceAdd8 => 431 | VectorReduceAdd16 => 432 | VectorReduceAdd32 => 433
  | VectorReduceAdd64 => 434 | VectorRotateWholeVectorRight => 435 | VectorRoundingHalvingAddS8 => 436 | VectorRoundingHalvingAddS16 => 437
  | VectorRoundingHalvingAddS32 => 438 | VectorRoundingHalvingAddU8 => 439 | VectorRoundingHalvingAddU16 => 440 | VectorRoundingHalvingAddU32 => 441
  | VectorRoundingShiftLeftS8 => 442 | VectorRoundingShiftLeftS16 => 443 | VectorRoundingShiftLeftS32 => 444 | VectorRoundingShiftLeftS64 => 445
  | VectorRoundingShiftLeftU8 => 446 | VectorRoundingShiftLeftU16 => 447 | VectorRoundingShiftLeftU32 => 448 | VectorRoundingShiftLeftU64 => 449
  | VectorSignExtend8 => 450 | VectorSignExtend16 => 451 | VectorSignExtend32 => 452 | VectorSignExtend64 => 453
  | VectorSignedAbsoluteDifference8 => 454 | VectorSignedAbsoluteDifference16 => 455 | VectorSignedAbsoluteDifference32 => 456
  | VectorSignedMultiply16 => 457 | VectorSignedMultiply32 => 458 | VectorSignedSaturatedAbs8 => 459 | VectorSignedSaturatedAbs16 => 460
  | VectorSignedSaturatedAbs32 => 461 | VectorSignedSaturatedAbs64 => 462 | VectorSignedSaturatedAccumulateUnsigned8 => 463
  | VectorSignedSaturatedAccumulateUnsigned16 => 464 | VectorSignedSaturatedAccumulateUnsigned32 => 465
  | VectorSignedSaturatedAccumulateUnsigned64 => 466 | VectorSignedSaturatedDoublingMultiplyHigh16 => 467
  | VectorSignedSaturatedDoublingMultiplyHigh32 => 468 | VectorSignedSaturatedDoublingMultiplyHighRounding16 => 469
  | VectorSignedSaturatedDoublingMultiplyHighRounding32 => 470 | VectorSignedSaturatedDoublingMultiplyLong16 => 471
  | VectorSignedSaturatedDoublingMultiplyLong32 => 472 | VectorSignedSaturatedNarrowToSigned16 => 473 | VectorSignedSaturatedNarrowToSigned32 => 474
  | VectorSignedSaturatedNarrowToSigned64 => 475 | VectorSignedSaturatedNarrowToUnsigned16 => 476 | VectorSignedSaturatedNarrowToUnsigned32 => 477
  | VectorSignedSaturatedNarrowToUnsigned64 => 478 | VectorSignedSaturatedNeg8 => 479 | VectorSignedSaturatedNeg16 => 480
  | VectorSignedSaturatedNeg32 => 481 | VectorSignedSaturatedNeg64 => 482 | VectorSignedSaturatedShiftLeft8 => 483
  | VectorSignedSaturatedShiftLeft16 => 484 | VectorSignedSaturatedShiftLeft32 => 485 | VectorSignedSaturatedShiftLeft64 => 486
  | VectorSignedSaturatedShiftLeftUnsigned8 => 487 | VectorSignedSaturatedShiftLeftUnsigned16 => 488
  | VectorSignedSaturatedShiftLeftUnsigned32 => 489 | VectorSignedSaturatedShiftLeftUnsigned64 => 490 | VectorSub8 => 491 | VectorSub16 => 492
  | VectorSub32 => 493 | VectorSub64 => 494 | VectorTable => 495 | VectorTableLookup64 => 496 | VectorTableLookup128 => 497 | VectorTranspose8 => 498
  | VectorTranspose16 => 499 | VectorTranspose32 => 500 | VectorTranspose64 => 501 | VectorUnsignedAbsoluteDifference8 => 502
  | VectorUnsignedAbsoluteDifference16 => 503 | VectorUnsignedAbsoluteDifference32 => 504 | VectorUnsignedMultiply16 => 505
  | VectorUnsignedMultiply32 => 506 | VectorUnsignedRecipEstimate => 507 | VectorUnsignedRecipSqrtEstimate => 508
  | VectorUnsignedSaturatedAccumulateSigned8 => 509 | VectorUnsignedSaturatedAccumulateSigned16 => 510
  | VectorUnsignedSaturatedAccumulateSigned32 => 511 | VectorUnsignedSaturatedAccumulateSigned64 => 512 | VectorUnsignedSaturatedNarrow16 => 513
  | VectorUnsignedSaturatedNarrow32 => 514 | VectorUnsignedSaturatedNarrow64 => 515 | VectorUnsignedSaturatedShiftLeft8 => 516
  | VectorUnsignedSaturatedShiftLeft16 => 517 | VectorUnsignedSaturatedShiftLeft32 => 518 | VectorUnsignedSaturatedShiftLeft64 => 519
  | VectorZeroExtend8 => 520 | VectorZeroExtend16 => 521 | VectorZeroExtend32 => 522 | VectorZeroExtend64 => 523 | VectorZeroUpper => 524
  | ZeroVector => 525 | FPAbs16 => 526 | FPAbs32 => 527 | FPAbs64 => 528 | FPAdd32 => 529 | FPAdd64 => 530 | FPCompare32 => 531 | FPCompare64 => 532
  | FPDiv32 => 533 | FPDiv64 => 534 | FPMax32 => 535 | FPMax64 => 536 | FPMaxNumeric32 => 537 | FPMaxNumeric64 => 538 | FPMin32 => 539
  | FPMin64 => 540 | FPMinNumeric32 => 541 | FPMinNumeric64 => 542 | FPMul32 => 543 | FPMul64 => 544 | FPMulAdd16 => 545 | FPMulAdd32 => 546
  | FPMulAdd64 => 547 | FPMulSub16 => 548 | FPMulSub32 => 549 | FPMulSub64 => 550 | FPMulX32 => 551 | FPMulX64 => 552 | FPNeg16 => 553
  | FPNeg32 => 554 | FPNeg64 => 555 | FPRecipEstimate16 => 556 | FPRecipEstimate32 => 557 | FPRecipEstimate64 => 558 | FPRecipExponent16 => 559
  | FPRecipExponent32 => 560 | FPRecipExponent64 => 561 | FPRecipStepFused16 => 562 | FPRecipStepFused32 => 563 | FPRecipStepFused64 => 564
  | FPRoundInt16 => 565 | FPRoundInt32 => 566 | FPRoundInt64 => 567 | FPRSqrtEstimate16 => 568 | FPRSqrtEstimate32 => 569 | FPRSqrtEstimate64 => 570
  | FPRSqrtStepFused16 => 571 | FPRSqrtStepFused32 => 572 | FPRSqrtStepFused64 => 573 | FPSqrt32 => 574 | FPSqrt64 => 575 | FPSub32 => 576
  | FPSub64 => 577 | FPHalfToDouble => 578 | FPHalfToSingle => 579 | FPSingleToDouble => 580 | FPSingleToHalf => 581 | FPDoubleToHalf => 582
  | FPDoubleToSingle => 583 | FPDoubleToFixedS16 => 584 | FPDoubleToFixedS32 => 585 | FPDoubleToFixedS64 => 586 | FPDoubleToFixedU16 => 587
  | FPDoubleToFixedU32 => 588 | FPDoubleToFixedU64 => 589 | FPHalfToFixedS16 => 590 | FPHalfToFixedS32 => 591 | FPHalfToFixedS64 => 592
  | FPHalfToFixedU16 => 593 | FPHalfToFixedU32 => 594 | FPHalfToFixedU64 => 595 | FPSingleToFixedS16 => 596 | FPSingleToFixedS32 => 597
  | FPSingleToFixedS64 => 598 | FPSingleToFixedU16 => 599 | FPSingleToFixedU32 => 600 | FPSingleToFixedU64 => 601 | FPFixedU16ToSingle => 602
  | FPFixedS16ToSingle => 603 | FPFixedU16ToDouble => 604 | FPFixedS16ToDouble => 605 | FPFixedU32ToSingle => 606 | FPFixedS32ToSingle => 607
  | FPFixedU32ToDouble => 608 | FPFixedS32ToDouble => 609 | FPFixedU64ToDouble => 610 | FPFixedU64ToSingle => 611 | FPFixedS64ToDouble => 612
  | FPFixedS64ToSingle => 613 | FPVectorAbs16 => 614 | FPVectorAbs32 => 615 | FPVectorAbs64 => 616 | FPVectorAdd32 => 617 | FPVectorAdd64 => 618
  | FPVectorDiv32 => 619 | FPVectorDiv64 => 620 | FPVectorEqual16 => 621 | FPVectorEqual32 => 622 | FPVectorEqual64 => 623
  | FPVectorFromHalf32 => 624 | FPVectorFromSignedFixed32 => 625 | FPVectorFromSignedFixed64 => 626 | FPVectorFromUnsignedFixed32 => 627
  | FPVectorFromUnsignedFixed64 => 628 | FPVectorGreater32 => 629 | FPVectorGreater64 => 630 | FPVectorGreaterEqual32 => 631
  | FPVectorGreaterEqual64 => 632 | FPVectorMax32 => 633 | FPVectorMax64 => 634 | FPVectorMaxNumeric32 => 635 | FPVectorMaxNumeric64 => 636
  | FPVectorMin32 => 637 | FPVectorMin64 => 638 | FPVectorMinNumeric32 => 639 | FPVectorMinNumeric64 => 640 | FPVectorMul32 => 641
  | FPVectorMul64 => 642 | FPVectorMulAdd16 => 643 | FPVectorMulAdd32 => 644 | FPVectorMulAdd64 => 645 | FPVectorMulX32 => 646
  | FPVectorMulX64 => 647 | FPVectorNeg16 => 648 | FPVectorNeg32 => 649 | FPVectorNeg64 => 650 | FPVectorPairedAdd32 => 651
  | FPVectorPairedAdd64 => 652 | FPVectorPairedAddLower32 => 653 | FPVectorPairedAddLower64 => 654 | FPVectorRecipEstimate16 => 655
  | FPVectorRecipEstimate32 => 656 | FPVectorRecipEstimate64 => 657 | FPVectorRecipStepFused16 => 658 | FPVectorRecipStepFused32 => 659
  | FPVectorRecipStepFused64 => 660 | FPVectorRoundInt16 => 661 | FPVectorRoundInt32 => 662 | FPVectorRoundInt64 => 663
  | FPVectorRSqrtEstimate16 => 664 | FPVectorRSqrtEstimate32 => 665 | FPVectorRSqrtEstimate64 => 666 | FPVectorRSqrtStepFused16 => 667
  | FPVectorRSqrtStepFused32 => 668 | FPVectorRSqrtStepFused64 => 669 | FPVectorSqrt32 => 670 | FPVectorSqrt64 => 671 | FPVectorSub32 => 672
  | FPVectorSub64 => 673 | FPVectorToHalf32 => 674 | FPVectorToSignedFixed16 => 675 | FPVectorToSignedFixed32 => 676 | FPVectorToSignedFixed64 => 677
  | FPVectorToUnsignedFixed16 => 678 | FPVectorToUnsignedFixed32 => 679 | FPVectorToUnsignedFixed64 => 680 | A32ClearExclusive => 681
  | A32ReadMemory8 => 682 | A32ReadMemory16 => 683 | A32ReadMemory32 => 684 | A32ReadMemory64 => 685 | A32ExclusiveReadMemory8 => 686
  | A32ExclusiveReadMemory16 => 687 | A32ExclusiveReadMemory32 => 688 | A32ExclusiveReadMemory64 => 689 | A32WriteMemory8 => 690
  | A32WriteMemory16 => 691 | A32WriteMemory32 => 692 | A32WriteMemory64 => 693 | A32ExclusiveWriteMemory8 => 694 | A32ExclusiveWriteMemory16 => 695
  | A32ExclusiveWriteMemory32 => 696 | A32ExclusiveWriteMemory64 => 697 | A64ClearExclusive => 698 | A64ReadMemory8 => 699 | A64ReadMemory16 => 700
  | A64ReadMemory32 => 701 | A64ReadMemory64 => 702 | A64ReadMemory128 => 703 | A64ExclusiveReadMemory8 => 704 | A64ExclusiveReadMemory16 => 705
  | A64ExclusiveReadMemory32 => 706 | A64ExclusiveReadMemory64 => 707 | A64ExclusiveReadMemory128 => 708 | A64WriteMemory8 => 709
  | A64WriteMemory16 => 710 | A64WriteMemory32 => 711 | A64WriteMemory64 => 712 | A64WriteMemory128 => 713 | A64ExclusiveWriteMemory8 => 714
  | A64ExclusiveWriteMemory16 => 715 | A64ExclusiveWriteMemory32 => 716 | A64ExclusiveWriteMemory64 => 717 | A64ExclusiveWriteMemory128 => 718
  | A32CoprocInternalOperation => 719 | A32CoprocSendOneWord => 720 | A32CoprocSendTwoWords => 721 | A32CoprocGetOneWord => 722
  | A32CoprocGetTwoWords => 723 | A32CoprocLoadWords => 724 | A32CoprocStoreWords => 725
  end%positive.

(** The return type and the argument types. *)
Definition info (op : Opcode) : Ty.t * list Ty.t :=
  match op with
  | Void | Breakpoint | A32UpdateUpperLocationDescriptor | A32DataSynchronizationBarrier | A32DataMemoryBarrier
  | A32InstructionSynchronizationBarrier | A64DataSynchronizationBarrier | A64DataMemoryBarrier | A64InstructionSynchronizationBarrier
  | A32ClearExclusive | A64ClearExclusive
    => (Ty.Void, [])
  | Identity
    => (Ty.Opaque, [Ty.Opaque])
  | CallHostFunction
    => (Ty.Void, [Ty.U64; Ty.Opaque; Ty.Opaque; Ty.Opaque])
  | A32SetCheckBit | A32OrQFlag | A64SetCheckBit
    => (Ty.Void, [Ty.U1])
  | A32GetRegister
    => (Ty.U32, [Ty.A32Reg])
  | A32GetExtendedRegister32
    => (Ty.U32, [Ty.A32ExtReg])
  | A32GetExtendedRegister64
    => (Ty.U64, [Ty.A32ExtReg])
  | A32GetVector
    => (Ty.U128, [Ty.A32ExtReg])
  | A32SetRegister
    => (Ty.Void, [Ty.A32Reg; Ty.U32])
  | A32SetExtendedRegister32
    => (Ty.Void, [Ty.A32ExtReg; Ty.U32])
  | A32SetExtendedRegister64
    => (Ty.Void, [Ty.A32ExtReg; Ty.U64])
  | A32SetVector
    => (Ty.Void, [Ty.A32ExtReg; Ty.U128])
  | A32GetCpsr | A32GetGEFlags | A32GetFpscr | A32GetFpscrNZCV | A64GetNZCVRaw | A64GetFPCR | A64GetFPSR | A64GetCNTFRQ | A64GetCTR | A64GetDCZID
    => (Ty.U32, [])
  | A32SetCpsr | A32SetCpsrNZCVRaw | A32SetCpsrNZCVQ | A32SetGEFlags | A32SetGEFlagsCompressed | A32BXWritePC | A32CallSupervisor | A32SetFpscr
  | A64SetNZCVRaw | A64SetFPCR | A64SetFPSR | A64CallSupervisor
    => (Ty.Void, [Ty.U32])
  | A32SetCpsrNZCV | A32SetCpsrNZ | A32SetFpscrNZCV | A64SetNZCV
    => (Ty.Void, [Ty.NZCVFlags])
  | A32SetCpsrNZC
    => (Ty.Void, [Ty.NZCVFlags; Ty.U1])
  | A32GetCFlag | A64GetCFlag
    => (Ty.U1, [])
  | A32ExceptionRaised
    => (Ty.Void, [Ty.U32; Ty.U64])
  | A64GetW
    => (Ty.U32, [Ty.A64Reg])
  | A64GetX
    => (Ty.U64, [Ty.A64Reg])
  | A64GetS | A64GetD | A64GetQ
    => (Ty.U128, [Ty.A64Vec])
  | A64GetSP | A64GetCNTPCT | A64GetTPIDR | A64GetTPIDRRO
    => (Ty.U64, [])
  | A64SetW
    => (Ty.Void, [Ty.A64Reg; Ty.U32])
  | A64SetX
    => (Ty.Void, [Ty.A64Reg; Ty.U64])
  | A64SetS | A64SetD | A64SetQ
    => (Ty.Void, [Ty.A64Vec; Ty.U128])
  | A64SetSP | A64SetPC | A64SetTPIDR | PushRSB
    => (Ty.Void, [Ty.U64])
  | A64ExceptionRaised | A64InstructionCacheOperationRaised
    => (Ty.Void, [Ty.U64; Ty.U64])
  | A64DataCacheOperationRaised
    => (Ty.Void, [Ty.U64; Ty.U64; Ty.U64])
  | GetCarryFromOp | GetOverflowFromOp
    => (Ty.U1, [Ty.Opaque])
  | GetGEFromOp
    => (Ty.U32, [Ty.Opaque])
  | GetNZCVFromOp | GetNZFromOp
    => (Ty.NZCVFlags, [Ty.Opaque])
  | GetUpperFromOp | GetLowerFromOp
    => (Ty.U128, [Ty.Opaque])
  | GetCFlagFromNZCV
    => (Ty.U1, [Ty.NZCVFlags])
  | NZCVFromPackedFlags
    => (Ty.NZCVFlags, [Ty.U32])
  | Pack2x32To1x64
    => (Ty.U64, [Ty.U32; Ty.U32])
  | Pack2x64To1x128
    => (Ty.U128, [Ty.U64; Ty.U64])
  | LeastSignificantWord | MostSignificantWord
    => (Ty.U32, [Ty.U64])
  | LeastSignificantHalf
    => (Ty.U16, [Ty.U32])
  | LeastSignificantByte
    => (Ty.U8, [Ty.U32])
  | MostSignificantBit | IsZero32
    => (Ty.U1, [Ty.U32])
  | IsZero64
    => (Ty.U1, [Ty.U64])
  | TestBit
    => (Ty.U1, [Ty.U64; Ty.U8])
  | ConditionalSelect32
    => (Ty.U32, [Ty.Cond; Ty.U32; Ty.U32])
  | ConditionalSelect64
    => (Ty.U64, [Ty.Cond; Ty.U64; Ty.U64])
  | ConditionalSelectNZCV
    => (Ty.NZCVFlags, [Ty.Cond; Ty.NZCVFlags; Ty.NZCVFlags])
  | LogicalShiftLeft32 | LogicalShiftRight32 | ArithmeticShiftRight32 | RotateRight32 | FPRoundInt32
    => (Ty.U32, [Ty.U32; Ty.U8; Ty.U1])
  | LogicalShiftLeft64 | LogicalShiftRight64 | ArithmeticShiftRight64 | RotateRight64 | ReplicateBit64
    => (Ty.U64, [Ty.U64; Ty.U8])
  | RotateRightExtended
    => (Ty.U32, [Ty.U32; Ty.U1])
  | LogicalShiftLeftMasked32 | LogicalShiftRightMasked32 | ArithmeticShiftRightMasked32 | RotateRightMasked32 | Mul32 | UnsignedDiv32 | SignedDiv32
  | And32 | AndNot32 | Eor32 | Or32 | MaxSigned32 | MaxUnsigned32 | MinSigned32 | MinUnsigned32 | SignedSaturatedAddWithFlag32
  | SignedSaturatedSubWithFlag32 | SignedSaturatedAdd32 | SignedSaturatedDoublingMultiplyReturnHigh32 | SignedSaturatedSub32 | UnsignedSaturatedAdd32
  | UnsignedSaturatedSub32 | PackedAddU8 | PackedAddS8 | PackedSubU8 | PackedSubS8 | PackedAddU16 | PackedAddS16 | PackedSubU16 | PackedSubS16
  | PackedAddSubU16 | PackedAddSubS16 | PackedSubAddU16 | PackedSubAddS16 | PackedHalvingAddU8 | PackedHalvingAddS8 | PackedHalvingSubU8
  | PackedHalvingSubS8 | PackedHalvingAddU16 | PackedHalvingAddS16 | PackedHalvingSubU16 | PackedHalvingSubS16 | PackedHalvingAddSubU16
  | PackedHalvingAddSubS16 | PackedHalvingSubAddU16 | PackedHalvingSubAddS16 | PackedSaturatedAddU8 | PackedSaturatedAddS8 | PackedSaturatedSubU8
  | PackedSaturatedSubS8 | PackedSaturatedAddU16 | PackedSaturatedAddS16 | PackedSaturatedSubU16 | PackedSaturatedSubS16 | PackedAbsDiffSumU8
  | CRC32Castagnoli8 | CRC32Castagnoli16 | CRC32Castagnoli32 | CRC32ISO8 | CRC32ISO16 | CRC32ISO32 | FPAdd32 | FPDiv32 | FPMax32 | FPMaxNumeric32
  | FPMin32 | FPMinNumeric32 | FPMul32 | FPMulX32 | FPRecipStepFused32 | FPRSqrtStepFused32 | FPSub32
    => (Ty.U32, [Ty.U32; Ty.U32])
  | LogicalShiftLeftMasked64 | LogicalShiftRightMasked64 | ArithmeticShiftRightMasked64 | RotateRightMasked64 | Mul64 | SignedMultiplyHigh64
  | UnsignedMultiplyHigh64 | UnsignedDiv64 | SignedDiv64 | And64 | AndNot64 | Eor64 | Or64 | MaxSigned64 | MaxUnsigned64 | MinSigned64
  | MinUnsigned64 | SignedSaturatedAdd64 | SignedSaturatedSub64 | UnsignedSaturatedAdd64 | UnsignedSaturatedSub64 | FPAdd64 | FPDiv64 | FPMax64
  | FPMaxNumeric64 | FPMin64 | FPMinNumeric64 | FPMul64 | FPMulX64 | FPRecipStepFused64 | FPRSqrtStepFused64 | FPSub64
    => (Ty.U64, [Ty.U64; Ty.U64])
  | Add32 | Sub32
    => (Ty.U32, [Ty.U32; Ty.U32; Ty.U1])
  | Add64 | Sub64
    => (Ty.U64, [Ty.U64; Ty.U64; Ty.U1])
  | Not32 | ByteReverseWord | CountLeadingZeros32 | FPAbs32 | FPNeg32 | FPRecipEstimate32 | FPRecipExponent32 | FPRSqrtEstimate32 | FPSqrt32
    => (Ty.U32, [Ty.U32])
  | Not64 | ByteReverseDual | CountLeadingZeros64 | FPAbs64 | FPNeg64 | FPRecipEstimate64 | FPRecipExponent64 | FPRSqrtEstimate64 | FPSqrt64
    => (Ty.U64, [Ty.U64])
  | SignExtendByteToWord | ZeroExtendByteToWord
    => (Ty.U32, [Ty.U8])
  | SignExtendHalfToWord | ZeroExtendHalfToWord
    => (Ty.U32, [Ty.U16])
  | SignExtendByteToLong | ZeroExtendByteToLong
    => (Ty.U64, [Ty.U8])
  | SignExtendHalfToLong | ZeroExtendHalfToLong
    => (Ty.U64, [Ty.U16])
  | SignExtendWordToLong | ZeroExtendWordToLong
    => (Ty.U64, [Ty.U32])
  | ZeroExtendLongToQuad | VectorBroadcast64
    => (Ty.U128, [Ty.U64])
  | ByteReverseHalf | FPAbs16 | FPNeg16 | FPRecipEstimate16 | FPRecipExponent16 | FPRSqrtEstimate16
    => (Ty.U16, [Ty.U16])
  | ExtractRegister32
    => (Ty.U32, [Ty.U32; Ty.U32; Ty.U8])
  | ExtractRegister64
    => (Ty.U64, [Ty.U64; Ty.U64; Ty.U8])
  | ReplicateBit32 | SignedSaturation | UnsignedSaturation
    => (Ty.U32, [Ty.U32; Ty.U8])
  | SignedSaturatedAdd8 | SignedSaturatedSub8 | UnsignedSaturatedAdd8 | UnsignedSaturatedSub8
    => (Ty.U8, [Ty.U8; Ty.U8])
  | SignedSaturatedAdd16 | SignedSaturatedDoublingMultiplyReturnHigh16 | SignedSaturatedSub16 | UnsignedSaturatedAdd16 | UnsignedSaturatedSub16
  | FPRecipStepFused16 | FPRSqrtStepFused16
    => (Ty.U16, [Ty.U16; Ty.U16])
  | VectorSignedSaturatedAdd8 | VectorSignedSaturatedAdd16 | VectorSignedSaturatedAdd32 | VectorSignedSaturatedAdd64 | VectorSignedSaturatedSub8
  | VectorSignedSaturatedSub16 | VectorSignedSaturatedSub32 | VectorSignedSaturatedSub64 | VectorUnsignedSaturatedAdd8 | VectorUnsignedSaturatedAdd16
  | VectorUnsignedSaturatedAdd32 | VectorUnsignedSaturatedAdd64 | VectorUnsignedSaturatedSub8 | VectorUnsignedSaturatedSub16
  | VectorUnsignedSaturatedSub32 | VectorUnsignedSaturatedSub64 | SHA256MessageSchedule0 | VectorAdd8 | VectorAdd16 | VectorAdd32 | VectorAdd64
  | VectorAnd | VectorAndNot | VectorArithmeticVShift8 | VectorArithmeticVShift16 | VectorArithmeticVShift32 | VectorArithmeticVShift64
  | VectorDeinterleaveEven8 | VectorDeinterleaveEven16 | VectorDeinterleaveEven32 | VectorDeinterleaveEven64 | VectorDeinterleaveEvenLower8
  | VectorDeinterleaveEvenLower16 | VectorDeinterleaveEvenLower32 | VectorDeinterleaveOdd8 | VectorDeinterleaveOdd16 | VectorDeinterleaveOdd32
  | VectorDeinterleaveOdd64 | VectorDeinterleaveOddLower8 | VectorDeinterleaveOddLower16 | VectorDeinterleaveOddLower32 | VectorEor | VectorEqual8
  | VectorEqual16 | VectorEqual32 | VectorEqual64 | VectorEqual128 | VectorGreaterS8 | VectorGreaterS16 | VectorGreaterS32 | VectorGreaterS64
  | VectorHalvingAddS8 | VectorHalvingAddS16 | VectorHalvingAddS32 | VectorHalvingAddU8 | VectorHalvingAddU16 | VectorHalvingAddU32
  | VectorHalvingSubS8 | VectorHalvingSubS16 | VectorHalvingSubS32 | VectorHalvingSubU8 | VectorHalvingSubU16 | VectorHalvingSubU32
  | VectorInterleaveLower8 | VectorInterleaveLower16 | VectorInterleaveLower32 | VectorInterleaveLower64 | VectorInterleaveUpper8
  | VectorInterleaveUpper16 | VectorInterleaveUpper32 | VectorInterleaveUpper64 | VectorLogicalVShift8 | VectorLogicalVShift16
  | VectorLogicalVShift32 | VectorLogicalVShift64 | VectorMaxS8 | VectorMaxS16 | VectorMaxS32 | VectorMaxS64 | VectorMaxU8 | VectorMaxU16
  | VectorMaxU32 | VectorMaxU64 | VectorMinS8 | VectorMinS16 | VectorMinS32 | VectorMinS64 | VectorMinU8 | VectorMinU16 | VectorMinU32 | VectorMinU64
  | VectorMultiply8 | VectorMultiply16 | VectorMultiply32 | VectorMultiply64 | VectorMultiplySignedWiden8 | VectorMultiplySignedWiden16
  | VectorMultiplySignedWiden32 | VectorMultiplyUnsignedWiden8 | VectorMultiplyUnsignedWiden16 | VectorMultiplyUnsignedWiden32 | VectorOr
  | VectorPairedAddLower8 | VectorPairedAddLower16 | VectorPairedAddLower32 | VectorPairedAdd8 | VectorPairedAdd16 | VectorPairedAdd32
  | VectorPairedAdd64 | VectorPairedMaxS8 | VectorPairedMaxS16 | VectorPairedMaxS32 | VectorPairedMaxU8 | VectorPairedMaxU16 | VectorPairedMaxU32
  | VectorPairedMinS8 | VectorPairedMinS16 | VectorPairedMinS32 | VectorPairedMinU8 | VectorPairedMinU16 | VectorPairedMinU32
  | VectorPairedMaxLowerS8 | VectorPairedMaxLowerS16 | VectorPairedMaxLowerS32 | VectorPairedMaxLowerU8 | VectorPairedMaxLowerU16
  | VectorPairedMaxLowerU32 | VectorPairedMinLowerS8 | VectorPairedMinLowerS16 | VectorPairedMinLowerS32 | VectorPairedMinLowerU8
  | VectorPairedMinLowerU16 | VectorPairedMinLowerU32 | VectorPolynomialMultiply8 | VectorPolynomialMultiplyLong8 | VectorPolynomialMultiplyLong64
  | VectorRoundingHalvingAddS8 | VectorRoundingHalvingAddS16 | VectorRoundingHalvingAddS32 | VectorRoundingHalvingAddU8 | VectorRoundingHalvingAddU16
  | VectorRoundingHalvingAddU32 | VectorRoundingShiftLeftS8 | VectorRoundingShiftLeftS16 | VectorRoundingShiftLeftS32 | VectorRoundingShiftLeftS64
  | VectorRoundingShiftLeftU8 | VectorRoundingShiftLeftU16 | VectorRoundingShiftLeftU32 | VectorRoundingShiftLeftU64
  | VectorSignedAbsoluteDifference8 | VectorSignedAbsoluteDifference16 | VectorSignedAbsoluteDifference32 | VectorSignedSaturatedAccumulateUnsigned8
  | VectorSignedSaturatedAccumulateUnsigned16 | VectorSignedSaturatedAccumulateUnsigned32 | VectorSignedSaturatedAccumulateUnsigned64
  | VectorSignedSaturatedDoublingMultiplyHigh16 | VectorSignedSaturatedDoublingMultiplyHigh32 | VectorSignedSaturatedDoublingMultiplyHighRounding16
  | VectorSignedSaturatedDoublingMultiplyHighRounding32 | VectorSignedSaturatedDoublingMultiplyLong16 | VectorSignedSaturatedDoublingMultiplyLong32
  | VectorSignedSaturatedShiftLeft8 | VectorSignedSaturatedShiftLeft16 | VectorSignedSaturatedShiftLeft32 | VectorSignedSaturatedShiftLeft64
  | VectorSub8 | VectorSub16 | VectorSub32 | VectorSub64 | VectorUnsignedAbsoluteDifference8 | VectorUnsignedAbsoluteDifference16
  | VectorUnsignedAbsoluteDifference32 | VectorUnsignedSaturatedAccumulateSigned8 | VectorUnsignedSaturatedAccumulateSigned16
  | VectorUnsignedSaturatedAccumulateSigned32 | VectorUnsignedSaturatedAccumulateSigned64 | VectorUnsignedSaturatedShiftLeft8
  | VectorUnsignedSaturatedShiftLeft16 | VectorUnsignedSaturatedShiftLeft32 | VectorUnsignedSaturatedShiftLeft64
    => (Ty.U128, [Ty.U128; Ty.U128])
  | PackedSelect | FPMulAdd32 | FPMulSub32
    => (Ty.U32, [Ty.U32; Ty.U32; Ty.U32])
  | CRC32Castagnoli64 | CRC32ISO64
    => (Ty.U32, [Ty.U32; Ty.U64])
  | AESDecryptSingleRound | AESEncryptSingleRound | AESInverseMixColumns | AESMixColumns | VectorAbs8 | VectorAbs16 | VectorAbs32 | VectorAbs64
  | VectorCountLeadingZeros8 | VectorCountLeadingZeros16 | VectorCountLeadingZeros32 | VectorNarrow16 | VectorNarrow32 | VectorNarrow64 | VectorNot
  | VectorPairedAddSignedWiden8 | VectorPairedAddSignedWiden16 | VectorPairedAddSignedWiden32 | VectorPairedAddUnsignedWiden8
  | VectorPairedAddUnsignedWiden16 | VectorPairedAddUnsignedWiden32 | VectorPopulationCount | VectorReverseBits | VectorReverseElementsInHalfGroups8
  | VectorReverseElementsInWordGroups8 | VectorReverseElementsInWordGroups16 | VectorReverseElementsInLongGroups8
  | VectorReverseElementsInLongGroups16 | VectorReverseElementsInLongGroups32 | VectorReduceAdd8 | VectorReduceAdd16 | VectorReduceAdd32
  | VectorReduceAdd64 | VectorSignExtend8 | VectorSignExtend16 | VectorSignExtend32 | VectorSignExtend64 | VectorSignedSaturatedAbs8
  | VectorSignedSaturatedAbs16 | VectorSignedSaturatedAbs32 | VectorSignedSaturatedAbs64 | VectorSignedSaturatedNarrowToSigned16
  | VectorSignedSaturatedNarrowToSigned32 | VectorSignedSaturatedNarrowToSigned64 | VectorSignedSaturatedNarrowToUnsigned16
  | VectorSignedSaturatedNarrowToUnsigned32 | VectorSignedSaturatedNarrowToUnsigned64 | VectorSignedSaturatedNeg8 | VectorSignedSaturatedNeg16
  | VectorSignedSaturatedNeg32 | VectorSignedSaturatedNeg64 | VectorUnsignedRecipEstimate | VectorUnsignedRecipSqrtEstimate
  | VectorUnsignedSaturatedNarrow16 | VectorUnsignedSaturatedNarrow32 | VectorUnsignedSaturatedNarrow64 | VectorZeroExtend8 | VectorZeroExtend16
  | VectorZeroExtend32 | VectorZeroExtend64 | VectorZeroUpper | FPVectorAbs16 | FPVectorAbs32 | FPVectorAbs64 | FPVectorNeg16 | FPVectorNeg32
  | FPVectorNeg64
    => (Ty.U128, [Ty.U128])
  | SM4AccessSubstitutionBox
    => (Ty.U8, [Ty.U8])
  | SHA256Hash | FPVectorMulAdd16 | FPVectorMulAdd32 | FPVectorMulAdd64
    => (Ty.U128, [Ty.U128; Ty.U128; Ty.U128; Ty.U1])
  | SHA256MessageSchedule1
    => (Ty.U128, [Ty.U128; Ty.U128; Ty.U128])
  | VectorGetElement8
    => (Ty.U8, [Ty.U128; Ty.U8])
  | VectorGetElement16
    => (Ty.U16, [Ty.U128; Ty.U8])
  | VectorGetElement32
    => (Ty.U32, [Ty.U128; Ty.U8])
  | VectorGetElement64
    => (Ty.U64, [Ty.U128; Ty.U8])
  | VectorSetElement8
    => (Ty.U128, [Ty.U128; Ty.U8; Ty.U8])
  | VectorSetElement16
    => (Ty.U128, [Ty.U128; Ty.U8; Ty.U16])
  | VectorSetElement32
    => (Ty.U128, [Ty.U128; Ty.U8; Ty.U32])
  | VectorSetElement64
    => (Ty.U128, [Ty.U128; Ty.U8; Ty.U64])
  | VectorArithmeticShiftRight8 | VectorArithmeticShiftRight16 | VectorArithmeticShiftRight32 | VectorArithmeticShiftRight64
  | VectorBroadcastElementLower8 | VectorBroadcastElementLower16 | VectorBroadcastElementLower32 | VectorBroadcastElement8 | VectorBroadcastElement16
  | VectorBroadcastElement32 | VectorBroadcastElement64 | VectorLogicalShiftLeft8 | VectorLogicalShiftLeft16 | VectorLogicalShiftLeft32
  | VectorLogicalShiftLeft64 | VectorLogicalShiftRight8 | VectorLogicalShiftRight16 | VectorLogicalShiftRight32 | VectorLogicalShiftRight64
  | VectorRotateWholeVectorRight | VectorSignedSaturatedShiftLeftUnsigned8 | VectorSignedSaturatedShiftLeftUnsigned16
  | VectorSignedSaturatedShiftLeftUnsigned32 | VectorSignedSaturatedShiftLeftUnsigned64
    => (Ty.U128, [Ty.U128; Ty.U8])
  | VectorBroadcastLower8 | VectorBroadcast8
    => (Ty.U128, [Ty.U8])
  | VectorBroadcastLower16 | VectorBroadcast16
    => (Ty.U128, [Ty.U16])
  | VectorBroadcastLower32 | VectorBroadcast32
    => (Ty.U128, [Ty.U32])
  | VectorExtract | VectorExtractLower
    => (Ty.U128, [Ty.U128; Ty.U128; Ty.U8])
  | VectorSignedMultiply16 | VectorSignedMultiply32 | VectorUnsignedMultiply16 | VectorUnsignedMultiply32
    => (Ty.Void, [Ty.U128; Ty.U128])
  | VectorTable
    => (Ty.Table, [Ty.Opaque; Ty.Opaque; Ty.Opaque; Ty.Opaque])
  | VectorTableLookup64
    => (Ty.U64, [Ty.U64; Ty.Table; Ty.U64])
  | VectorTableLookup128
    => (Ty.U128, [Ty.U128; Ty.Table; Ty.U128])
  | VectorTranspose8 | VectorTranspose16 | VectorTranspose32 | VectorTranspose64 | FPVectorAdd32 | FPVectorAdd64 | FPVectorDiv32 | FPVectorDiv64
  | FPVectorEqual16 | FPVectorEqual32 | FPVectorEqual64 | FPVectorGreater32 | FPVectorGreater64 | FPVectorGreaterEqual32 | FPVectorGreaterEqual64
  | FPVectorMax32 | FPVectorMax64 | FPVectorMaxNumeric32 | FPVectorMaxNumeric64 | FPVectorMin32 | FPVectorMin64 | FPVectorMinNumeric32
  | FPVectorMinNumeric64 | FPVectorMul32 | FPVectorMul64 | FPVectorMulX32 | FPVectorMulX64 | FPVectorPairedAdd32 | FPVectorPairedAdd64
  | FPVectorPairedAddLower32 | FPVectorPairedAddLower64 | FPVectorRecipStepFused16 | FPVectorRecipStepFused32 | FPVectorRecipStepFused64
  | FPVectorRSqrtStepFused16 | FPVectorRSqrtStepFused32 | FPVectorRSqrtStepFused64 | FPVectorSub32 | FPVectorSub64
    => (Ty.U128, [Ty.U128; Ty.U128; Ty.U1])
  | ZeroVector
    => (Ty.U128, [])
  | FPCompare32
    => (Ty.NZCVFlags, [Ty.U32; Ty.U32; Ty.U1])
  | FPCompare64
    => (Ty.NZCVFlags, [Ty.U64; Ty.U64; Ty.U1])
  | FPMulAdd16 | FPMulSub16
    => (Ty.U16, [Ty.U16; Ty.U16; Ty.U16])
  | FPMulAdd64 | FPMulSub64
    => (Ty.U64, [Ty.U64; Ty.U64; Ty.U64])
  | FPRoundInt16
    => (Ty.U16, [Ty.U16; Ty.U8; Ty.U1])
  | FPRoundInt64
    => (Ty.U64, [Ty.U64; Ty.U8; Ty.U1])
  | FPHalfToDouble
    => (Ty.U64, [Ty.U16; Ty.U8])
  | FPHalfToSingle
    => (Ty.U32, [Ty.U16; Ty.U8])
  | FPSingleToDouble
    => (Ty.U64, [Ty.U32; Ty.U8])
  | FPSingleToHalf
    => (Ty.U16, [Ty.U32; Ty.U8])
  | FPDoubleToHalf
    => (Ty.U16, [Ty.U64; Ty.U8])
  | FPDoubleToSingle
    => (Ty.U32, [Ty.U64; Ty.U8])
  | FPDoubleToFixedS16 | FPDoubleToFixedU16
    => (Ty.U16, [Ty.U64; Ty.U8; Ty.U8])
  | FPDoubleToFixedS32 | FPDoubleToFixedU32 | FPFixedU64ToSingle | FPFixedS64ToSingle
    => (Ty.U32, [Ty.U64; Ty.U8; Ty.U8])
  | FPDoubleToFixedS64 | FPDoubleToFixedU64 | FPFixedU64ToDouble | FPFixedS64ToDouble
    => (Ty.U64, [Ty.U64; Ty.U8; Ty.U8])
  | FPHalfToFixedS16 | FPHalfToFixedU16
    => (Ty.U16, [Ty.U16; Ty.U8; Ty.U8])
  | FPHalfToFixedS32 | FPHalfToFixedU32 | FPFixedU16ToSingle | FPFixedS16ToSingle
    => (Ty.U32, [Ty.U16; Ty.U8; Ty.U8])
  | FPHalfToFixedS64 | FPHalfToFixedU64 | FPFixedU16ToDouble | FPFixedS16ToDouble
    => (Ty.U64, [Ty.U16; Ty.U8; Ty.U8])
  | FPSingleToFixedS16 | FPSingleToFixedU16
    => (Ty.U16, [Ty.U32; Ty.U8; Ty.U8])
  | FPSingleToFixedS32 | FPSingleToFixedU32 | FPFixedU32ToSingle | FPFixedS32ToSingle
    => (Ty.U32, [Ty.U32; Ty.U8; Ty.U8])
  | FPSingleToFixedS64 | FPSingleToFixedU64 | FPFixedU32ToDouble | FPFixedS32ToDouble
    => (Ty.U64, [Ty.U32; Ty.U8; Ty.U8])
  | FPVectorFromHalf32 | FPVectorToHalf32
    => (Ty.U128, [Ty.U128; Ty.U8; Ty.U1])
  | FPVectorFromSignedFixed32 | FPVectorFromSignedFixed64 | FPVectorFromUnsignedFixed32 | FPVectorFromUnsignedFixed64 | FPVectorToSignedFixed16
  | FPVectorToSignedFixed32 | FPVectorToSignedFixed64 | FPVectorToUnsignedFixed16 | FPVectorToUnsignedFixed32 | FPVectorToUnsignedFixed64
    => (Ty.U128, [Ty.U128; Ty.U8; Ty.U8; Ty.U1])
  | FPVectorRecipEstimate16 | FPVectorRecipEstimate32 | FPVectorRecipEstimate64 | FPVectorRSqrtEstimate16 | FPVectorRSqrtEstimate32
  | FPVectorRSqrtEstimate64 | FPVectorSqrt32 | FPVectorSqrt64
    => (Ty.U128, [Ty.U128; Ty.U1])
  | FPVectorRoundInt16 | FPVectorRoundInt32 | FPVectorRoundInt64
    => (Ty.U128, [Ty.U128; Ty.U8; Ty.U1; Ty.U1])
  | A32ReadMemory8 | A32ExclusiveReadMemory8
    => (Ty.U8, [Ty.U64; Ty.U32; Ty.AccType])
  | A32ReadMemory16 | A32ExclusiveReadMemory16
    => (Ty.U16, [Ty.U64; Ty.U32; Ty.AccType])
  | A32ReadMemory32 | A32ExclusiveReadMemory32
    => (Ty.U32, [Ty.U64; Ty.U32; Ty.AccType])
  | A32ReadMemory64 | A32ExclusiveReadMemory64
    => (Ty.U64, [Ty.U64; Ty.U32; Ty.AccType])
  | A32WriteMemory8
    => (Ty.Void, [Ty.U64; Ty.U32; Ty.U8; Ty.AccType])
  | A32WriteMemory16
    => (Ty.Void, [Ty.U64; Ty.U32; Ty.U16; Ty.AccType])
  | A32WriteMemory32
    => (Ty.Void, [Ty.U64; Ty.U32; Ty.U32; Ty.AccType])
  | A32WriteMemory64
    => (Ty.Void, [Ty.U64; Ty.U32; Ty.U64; Ty.AccType])
  | A32ExclusiveWriteMemory8
    => (Ty.U32, [Ty.U64; Ty.U32; Ty.U8; Ty.AccType])
  | A32ExclusiveWriteMemory16
    => (Ty.U32, [Ty.U64; Ty.U32; Ty.U16; Ty.AccType])
  | A32ExclusiveWriteMemory32
    => (Ty.U32, [Ty.U64; Ty.U32; Ty.U32; Ty.AccType])
  | A32ExclusiveWriteMemory64
    => (Ty.U32, [Ty.U64; Ty.U32; Ty.U64; Ty.AccType])
  | A64ReadMemory8 | A64ExclusiveReadMemory8
    => (Ty.U8, [Ty.U64; Ty.U64; Ty.AccType])
  | A64ReadMemory16 | A64ExclusiveReadMemory16
    => (Ty.U16, [Ty.U64; Ty.U64; Ty.AccType])
  | A64ReadMemory32 | A64ExclusiveReadMemory32
    => (Ty.U32, [Ty.U64; Ty.U64; Ty.AccType])
  | A64ReadMemory64 | A64ExclusiveReadMemory64
    => (Ty.U64, [Ty.U64; Ty.U64; Ty.AccType])
  | A64ReadMemory128 | A64ExclusiveReadMemory128
    => (Ty.U128, [Ty.U64; Ty.U64; Ty.AccType])
  | A64WriteMemory8
    => (Ty.Void, [Ty.U64; Ty.U64; Ty.U8; Ty.AccType])
  | A64WriteMemory16
    => (Ty.Void, [Ty.U64; Ty.U64; Ty.U16; Ty.AccType])
  | A64WriteMemory32
    => (Ty.Void, [Ty.U64; Ty.U64; Ty.U32; Ty.AccType])
  | A64WriteMemory64
    => (Ty.Void, [Ty.U64; Ty.U64; Ty.U64; Ty.AccType])
  | A64WriteMemory128
    => (Ty.Void, [Ty.U64; Ty.U64; Ty.U128; Ty.AccType])
  | A64ExclusiveWriteMemory8
    => (Ty.U32, [Ty.U64; Ty.U64; Ty.U8; Ty.AccType])
  | A64ExclusiveWriteMemory16
    => (Ty.U32, [Ty.U64; Ty.U64; Ty.U16; Ty.AccType])
  | A64ExclusiveWriteMemory32
    => (Ty.U32, [Ty.U64; Ty.U64; Ty.U32; Ty.AccType])
  | A64ExclusiveWriteMemory64
    => (Ty.U32, [Ty.U64; Ty.U64; Ty.U64; Ty.AccType])
  | A64ExclusiveWriteMemory128
    => (Ty.U32, [Ty.U64; Ty.U64; Ty.U128; Ty.AccType])
  | A32CoprocInternalOperation
    => (Ty.Void, [Ty.CoprocInfo])
  | A32CoprocSendOneWord | A32CoprocLoadWords | A32CoprocStoreWords
    => (Ty.Void, [Ty.CoprocInfo; Ty.U32])
  | A32CoprocSendTwoWords
    => (Ty.Void, [Ty.CoprocInfo; Ty.U32; Ty.U32])
  | A32CoprocGetOneWord
    => (Ty.U32, [Ty.CoprocInfo])
  | A32CoprocGetTwoWords
    => (Ty.U64, [Ty.CoprocInfo])
  end.
End Op.
Import Op(Opcode).

Definition GetTypeOf (op : Opcode) : Ty.t := fst (Op.info op).
Definition GetNumArgsOf (op : Opcode) : nat := length (snd (Op.info op)).
Definition GetArgTypeOf (op : Opcode) (arg_index : nat) : Ty.t := nth arg_index (snd (Op.info op)) Ty.Void.

(** ** Classification *)
Section Classification.
Import Op.
Definition IsArithmeticShift (op : Opcode) : bool :=
  match op with ArithmeticShiftRight32 | ArithmeticShiftRight64 => true | _ => false end.
Definition IsCircularShift (op : Opcode) : bool :=
  match op with RotateRight32 | RotateRight64 | RotateRightExtended => true | _ => false end.
Definition IsLogicalShift (op : Opcode) : bool :=
  match op with
  | LogicalShiftLeft32 | LogicalShiftLeft64 | LogicalShiftRight32 | LogicalShiftRight64 => true
  | _ => false
  end.
Definition IsShift (op : Opcode) : bool :=
  IsArithmeticShift op || IsCircularShift op || IsLogicalShift op.
Definition IsBarrier (op : Opcode) : bool :=
  match op with
  | A32DataMemoryBarrier | A32DataSynchronizationBarrier | A32InstructionSynchronizationBarrier | A64DataMemoryBarrier
  | A64DataSynchronizationBarrier | A64InstructionSynchronizationBarrier => true
  | _ => false
  end.
Definition IsSharedMemoryRead (op : Opcode) : bool :=
  match op with
  | A32ReadMemory8 | A32ReadMemory16 | A32ReadMemory32 | A32ReadMemory64 | A64ReadMemory8 | A64ReadMemory16 | A64ReadMemory32 | A64ReadMemory64
  | A64ReadMemory128 => true
  | _ => false
  end.
Definition IsSharedMemoryWrite (op : Opcode) : bool :=
  match op with
  | A32WriteMemory8 | A32WriteMemory16 | A32WriteMemory32 | A32WriteMemory64 | A64WriteMemory8 | A64WriteMemory16 | A64WriteMemory32
  | A64WriteMemory64 | A64WriteMemory128 => true
  | _ => false
  end.
Definition IsSharedMemoryReadOrWrite (op : Opcode) : bool :=
  IsSharedMemoryRead op || IsSharedMemoryWrite op.
Definition IsExclusiveMemoryRead (op : Opcode) : bool :=
  match op with
  | A32ExclusiveReadMemory8 | A32ExclusiveReadMemory16 | A32ExclusiveReadMemory32 | A32ExclusiveReadMemory64 | A64ExclusiveReadMemory8
  | A64ExclusiveReadMemory16 | A64ExclusiveReadMemory32 | A64ExclusiveReadMemory64 | A64ExclusiveReadMemory128 => true
  | _ => false
  end.
Definition IsExclusiveMemoryWrite (op : Opcode) : bool :=
  match op with
  | A32ExclusiveWriteMemory8 | A32ExclusiveWriteMemory16 | A32ExclusiveWriteMemory32 | A32ExclusiveWriteMemory64 | A64ExclusiveWriteMemory8
  | A64ExclusiveWriteMemory16 | A64ExclusiveWriteMemory32 | A64ExclusiveWriteMemory64 | A64ExclusiveWriteMemory128 => true
  | _ => false
  end.
Definition IsMemoryRead (op : Opcode) : bool :=
  IsSharedMemoryRead op || IsExclusiveMemoryRead op.
Definition IsMemoryWrite (op : Opcode) : bool :=
  IsSharedMemoryWrite op || IsExclusiveMemoryWrite op.
Definition IsMemoryReadOrWrite (op : Opcode) : bool :=
  IsMemoryRead op || IsMemoryWrite op.
Definition ReadsFromCPSR (op : Opcode) : bool :=
  match op with
  | A32GetCpsr | A32GetCFlag | A32GetGEFlags | A32UpdateUpperLocationDescriptor | A64GetCFlag | A64GetNZCVRaw | ConditionalSelect32
  | ConditionalSelect64 | ConditionalSelectNZCV => true
  | _ => false
  end.
Definition WritesToCPSR (op : Opcode) : bool :=
  match op with
  | A32SetCpsr | A32SetCpsrNZCVRaw | A32SetCpsrNZCV | A32SetCpsrNZCVQ | A32SetCpsrNZ | A32SetCpsrNZC | A32OrQFlag | A32SetGEFlags
  | A32SetGEFlagsCompressed | A32UpdateUpperLocationDescriptor | A64SetNZCVRaw | A64SetNZCV => true
  | _ => false
  end.
Definition WritesToSystemRegister (op : Opcode) : bool :=
  match op with
  | A64SetTPIDR => true
  | _ => false
  end.
Definition ReadsFromCoreRegister (op : Opcode) : bool :=
  match op with
  | A32GetRegister | A32GetExtendedRegister32 | A32GetExtendedRegister64 | A32GetVector | A64GetW | A64GetX | A64GetS | A64GetD | A64GetQ | A64GetSP => true
  | _ => false
  end.
Definition WritesToCoreRegister (op : Opcode) : bool :=
  match op with
  | A32SetRegister | A32SetExtendedRegister32 | A32SetExtendedRegister64 | A32SetVector | A32BXWritePC | A64SetW | A64SetX | A64SetS | A64SetD
  | A64SetQ | A64SetSP | A64SetPC => true
  | _ => false
  end.
Definition ReadsFromFPCR (op : Opcode) : bool :=
  match op with
  | A32GetFpscr | A32GetFpscrNZCV | A64GetFPCR => true
  | _ => false
  end.
Definition WritesToFPCR (op : Opcode) : bool :=
  match op with
  | A32SetFpscr | A32SetFpscrNZCV | A64SetFPCR => true
  | _ => false
  end.
Definition ReadsFromAndWritesToFPSRCumulativeExceptionBits (op : Opcode) : bool :=
  match op with
  | FPAdd32 | FPAdd64 | FPCompare32 | FPCompare64 | FPDiv32 | FPDiv64 | FPMax32 | FPMax64 | FPMaxNumeric32 | FPMaxNumeric64 | FPMin32 | FPMin64
  | FPMinNumeric32 | FPMinNumeric64 | FPMul32 | FPMul64 | FPMulAdd16 | FPMulAdd32 | FPMulAdd64 | FPMulSub16 | FPMulSub32 | FPMulSub64
  | FPRecipEstimate16 | FPRecipEstimate32 | FPRecipEstimate64 | FPRecipExponent16 | FPRecipExponent32 | FPRecipExponent64 | FPRecipStepFused16
  | FPRecipStepFused32 | FPRecipStepFused64 | FPRoundInt16 | FPRoundInt32 | FPRoundInt64 | FPRSqrtEstimate16 | FPRSqrtEstimate32 | FPRSqrtEstimate64
  | FPRSqrtStepFused16 | FPRSqrtStepFused32 | FPRSqrtStepFused64 | FPSqrt32 | FPSqrt64 | FPSub32 | FPSub64 | FPHalfToDouble | FPHalfToSingle
  | FPSingleToDouble | FPSingleToHalf | FPDoubleToHalf | FPDoubleToSingle | FPDoubleToFixedS32 | FPDoubleToFixedS64 | FPDoubleToFixedU32
  | FPDoubleToFixedU64 | FPHalfToFixedS32 | FPHalfToFixedS64 | FPHalfToFixedU32 | FPHalfToFixedU64 | FPSingleToFixedS32 | FPSingleToFixedS64
  | FPSingleToFixedU32 | FPSingleToFixedU64 | FPFixedU32ToSingle | FPFixedS32ToSingle | FPFixedU32ToDouble | FPFixedU64ToDouble | FPFixedU64ToSingle
  | FPFixedS32ToDouble | FPFixedS64ToDouble | FPFixedS64ToSingle | FPVectorAdd32 | FPVectorAdd64 | FPVectorDiv32 | FPVectorDiv64 | FPVectorEqual16
  | FPVectorEqual32 | FPVectorEqual64 | FPVectorFromSignedFixed32 | FPVectorFromSignedFixed64 | FPVectorFromUnsignedFixed32
  | FPVectorFromUnsignedFixed64 | FPVectorGreater32 | FPVectorGreater64 | FPVectorGreaterEqual32 | FPVectorGreaterEqual64 | FPVectorMul32
  | FPVectorMul64 | FPVectorMulAdd16 | FPVectorMulAdd32 | FPVectorMulAdd64 | FPVectorPairedAddLower32 | FPVectorPairedAddLower64
  | FPVectorPairedAdd32 | FPVectorPairedAdd64 | FPVectorRecipEstimate16 | FPVectorRecipEstimate32 | FPVectorRecipEstimate64
  | FPVectorRecipStepFused16 | FPVectorRecipStepFused32 | FPVectorRecipStepFused64 | FPVectorRoundInt16 | FPVectorRoundInt32 | FPVectorRoundInt64
  | FPVectorRSqrtEstimate16 | FPVectorRSqrtEstimate32 | FPVectorRSqrtEstimate64 | FPVectorRSqrtStepFused16 | FPVectorRSqrtStepFused32
  | FPVectorRSqrtStepFused64 | FPVectorSqrt32 | FPVectorSqrt64 | FPVectorSub32 | FPVectorSub64 | FPVectorToSignedFixed16 | FPVectorToSignedFixed32
  | FPVectorToSignedFixed64 | FPVectorToUnsignedFixed16 | FPVectorToUnsignedFixed32 | FPVectorToUnsignedFixed64 => true
  | _ => false
  end.
Definition ReadsFromFPSRCumulativeExceptionBits (op : Opcode) : bool :=
  ReadsFromAndWritesToFPSRCumulativeExceptionBits op.
Definition WritesToFPSRCumulativeExceptionBits (op : Opcode) : bool :=
  ReadsFromAndWritesToFPSRCumulativeExceptionBits op.
Definition ReadsFromFPSRCumulativeSaturationBit (op : Opcode) : bool :=
  false.
Definition WritesToFPSRCumulativeSaturationBit (op : Opcode) : bool :=
  match op with
  | SignedSaturatedAdd8 | SignedSaturatedAdd16 | SignedSaturatedAdd32 | SignedSaturatedAdd64 | SignedSaturatedDoublingMultiplyReturnHigh16
  | SignedSaturatedDoublingMultiplyReturnHigh32 | SignedSaturatedSub8 | SignedSaturatedSub16 | SignedSaturatedSub32 | SignedSaturatedSub64
  | UnsignedSaturatedAdd8 | UnsignedSaturatedAdd16 | UnsignedSaturatedAdd32 | UnsignedSaturatedAdd64 | UnsignedSaturatedSub8 | UnsignedSaturatedSub16
  | UnsignedSaturatedSub32 | UnsignedSaturatedSub64 | VectorSignedSaturatedAbs8 | VectorSignedSaturatedAbs16 | VectorSignedSaturatedAbs32
  | VectorSignedSaturatedAbs64 | VectorSignedSaturatedAccumulateUnsigned8 | VectorSignedSaturatedAccumulateUnsigned16
  | VectorSignedSaturatedAccumulateUnsigned32 | VectorSignedSaturatedAccumulateUnsigned64 | VectorSignedSaturatedAdd8 | VectorSignedSaturatedAdd16
  | VectorSignedSaturatedAdd32 | VectorSignedSaturatedAdd64 | VectorSignedSaturatedDoublingMultiplyHigh16
  | VectorSignedSaturatedDoublingMultiplyHigh32 | VectorSignedSaturatedDoublingMultiplyHighRounding16
  | VectorSignedSaturatedDoublingMultiplyHighRounding32 | VectorSignedSaturatedDoublingMultiplyLong16 | VectorSignedSaturatedDoublingMultiplyLong32
  | VectorSignedSaturatedNarrowToSigned16 | VectorSignedSaturatedNarrowToSigned32 | VectorSignedSaturatedNarrowToSigned64
  | VectorSignedSaturatedNarrowToUnsigned16 | VectorSignedSaturatedNarrowToUnsigned32 | VectorSignedSaturatedNarrowToUnsigned64
  | VectorSignedSaturatedNeg8 | VectorSignedSaturatedNeg16 | VectorSignedSaturatedNeg32 | VectorSignedSaturatedNeg64
  | VectorSignedSaturatedShiftLeft8 | VectorSignedSaturatedShiftLeft16 | VectorSignedSaturatedShiftLeft32 | VectorSignedSaturatedShiftLeft64
  | VectorSignedSaturatedShiftLeftUnsigned8 | VectorSignedSaturatedShiftLeftUnsigned16 | VectorSignedSaturatedShiftLeftUnsigned32
  | VectorSignedSaturatedShiftLeftUnsigned64 | VectorSignedSaturatedSub8 | VectorSignedSaturatedSub16 | VectorSignedSaturatedSub32
  | VectorSignedSaturatedSub64 | VectorUnsignedSaturatedAccumulateSigned8 | VectorUnsignedSaturatedAccumulateSigned16
  | VectorUnsignedSaturatedAccumulateSigned32 | VectorUnsignedSaturatedAccumulateSigned64 | VectorUnsignedSaturatedAdd8
  | VectorUnsignedSaturatedAdd16 | VectorUnsignedSaturatedAdd32 | VectorUnsignedSaturatedAdd64 | VectorUnsignedSaturatedNarrow16
  | VectorUnsignedSaturatedNarrow32 | VectorUnsignedSaturatedNarrow64 | VectorUnsignedSaturatedShiftLeft8 | VectorUnsignedSaturatedShiftLeft16
  | VectorUnsignedSaturatedShiftLeft32 | VectorUnsignedSaturatedShiftLeft64 | VectorUnsignedSaturatedSub8 | VectorUnsignedSaturatedSub16
  | VectorUnsignedSaturatedSub32 | VectorUnsignedSaturatedSub64 => true
  | _ => false
  end.
Definition ReadsFromFPSR (op : Opcode) : bool :=
  match op with A32GetFpscr | A32GetFpscrNZCV | A64GetFPSR => true | _ => false end || ReadsFromFPSRCumulativeExceptionBits op || ReadsFromFPSRCumulativeSaturationBit op.
Definition WritesToFPSR (op : Opcode) : bool :=
  match op with A32SetFpscr | A32SetFpscrNZCV | A64SetFPSR => true | _ => false end || WritesToFPSRCumulativeExceptionBits op || WritesToFPSRCumulativeSaturationBit op.
Definition CausesCPUException (op : Opcode) : bool :=
  match op with Breakpoint | A32CallSupervisor | A32ExceptionRaised | A64CallSupervisor | A64ExceptionRaised => true | _ => false end.
Definition AltersExclusiveState (op : Opcode) : bool :=
  match op with A32ClearExclusive | A64ClearExclusive => true | _ => false end || IsExclusiveMemoryRead op || IsExclusiveMemoryWrite op.
Definition IsCoprocessorInstruction (op : Opcode) : bool :=
  match op with
  | A32CoprocInternalOperation | A32CoprocSendOneWord | A32CoprocSendTwoWords | A32CoprocGetOneWord | A32CoprocGetTwoWords | A32CoprocLoadWords
  | A32CoprocStoreWords => true
  | _ => false
  end.
Definition IsSetCheckBitOperation (op : Opcode) : bool :=
  match op with A32SetCheckBit | A64SetCheckBit => true | _ => false end.
Definition MayHaveSideEffects (op : Opcode) : bool :=
  match op with PushRSB | CallHostFunction | A64DataCacheOperationRaised | A64InstructionCacheOperationRaised => true | _ => false end
  || IsSetCheckBitOperation op || IsBarrier op || CausesCPUException op || WritesToCoreRegister op || WritesToSystemRegister op || WritesToCPSR op
  || WritesToFPCR op || WritesToFPSR op || AltersExclusiveState op || IsMemoryWrite op || IsCoprocessorInstruction op.
Definition IsAPseudoOperation (op : Opcode) : bool :=
  match op with
  | GetCarryFromOp | GetOverflowFromOp | GetGEFromOp | GetNZCVFromOp | GetNZFromOp | GetUpperFromOp | GetLowerFromOp | MostSignificantBit | IsZero32
  | IsZero64 => true
  | _ => false
  end.
Definition MayGetNZCVFromOp (op : Opcode) : bool :=
  match op with
  | Add32 | Add64 | Sub32 | Sub64 | And32 | And64 | AndNot32 | AndNot64 | Eor32 | Eor64 | Or32 | Or64 | Not32 | Not64 => true
  | _ => false
  end.
End Classification.

(** Opcodes are told apart by their position. *)
Lemma index_all : forall op, nth (pred (Pos.to_nat (Op.index op))) Op.all Op.Void = op.
Proof. intros []; reflexivity. Qed.
#[global] Instance Opcode_eq_dec : EqDecision Opcode.
Proof.
  intros a b. destruct (decide (Op.index a = Op.index b)) as [E|E]; [left|right; congruence].
  rewrite <- (index_all a), E. apply index_all.
Defined.
