(* ===== verification/Ir.v ===== *)
(** dynarmic's intermediate representation: values ([ir/value.{h,cpp}]),
    micro-instructions with their use counts and pseudo-operations
    ([ir/microinstruction.{h,cpp}]), terminals and blocks ([ir/terminal.h],
    [ir/basic_block.{h,cpp}]).  Pointers to instructions are numbers; a block owns
    the instructions they stand for. *)
From S2P Require Import Prelude Bits IrOpcodes.
Import Op(Opcode).
Local Open Scope Z_scope.

(** ** Values *)

(** The type tag with the payload of the union: a reference to an instruction
    (type [Opaque]), or an immediate of another type. *)
Inductive Value : Type :=
| Ref (inst : nat)
| Imm (ty : Ty.t) (payload : Z).
#[global] Instance Value_eq_dec : EqDecision Value := ltac:(solve_decision).
Definition ValueVoid : Value := Imm Ty.Void 0.
Definition ValueU1 (v : bool) : Value := Imm Ty.U1 (Z.b2z v).
Definition ValueU8 (v : Z) : Value := Imm Ty.U8 v.
Definition ValueU16 (v : Z) : Value := Imm Ty.U16 v.
Definition ValueU32 (v : Z) : Value := Imm Ty.U32 v.
Definition ValueU64 (v : Z) : Value := Imm Ty.U64 v.
Definition EmptyNZCVImmediateMarker : Value := Imm Ty.NZCVFlags 0.

(** ** Instructions and blocks *)
Definition max_arg_count : nat := 4.
(** [pseudoops]: the pseudo-operations of an instruction, in the order of the list
    that starts at [next_pseudoop]. *)
Record Inst : Type := { op : Opcode; args : list Value; use_count : Z; name : Z; pseudoops : list nat }.
Definition new_Inst (o : Opcode) : Inst := {| op := o; args := repeat ValueVoid max_arg_count; use_count := 0; name := 0; pseudoops := [] |}.
Definition with_op (v : Opcode) (x : Inst) : Inst := {| op := v; args := args x; use_count := use_count x; name := name x; pseudoops := pseudoops x |}.
Definition with_args (v : list Value) (x : Inst) : Inst := {| op := op x; args := v; use_count := use_count x; name := name x; pseudoops := pseudoops x |}.
Definition with_use_count (v : Z) (x : Inst) : Inst := {| op := op x; args := args x; use_count := v; name := name x; pseudoops := pseudoops x |}.
Definition with_name (v : Z) (x : Inst) : Inst := {| op := op x; args := args x; use_count := use_count x; name := v; pseudoops := pseudoops x |}.
Definition with_pseudoops (v : list nat) (x : Inst) : Inst := {| op := op x; args := args x; use_count := use_count x; name := name x; pseudoops := v |}.

(** [IR::Terminal]; locations are the 64-bit values of location descriptors. *)
Inductive Terminal : Type :=
| Invalid
| Interpret (next : Z) (num_instructions : Z)
| ReturnToDispatch
| LinkBlock (next : Z)
| LinkBlockFast (next : Z)
| PopRSBHint
| FastDispatchHint
| If (if_ : Z) (then_ else_ : Terminal)
| CheckBit (then_ else_ : Terminal)
| CheckHalt (else_ : Terminal).

Record Block : Type := {
  location : Z;
  end_location : Z;
  pool : gmap nat Inst;
  instructions : list nat;
  next_id : nat;
  terminal : Terminal;
  cycle_count : Z
}.
Definition new_Block (loc : Z) : Block :=
  {| location := loc; end_location := loc; pool := ∅; instructions := []; next_id := 0; terminal := Invalid; cycle_count := 0 |}.
Definition with_pool (p : gmap nat Inst) (b : Block) : Block :=
  {| location := location b; end_location := end_location b; pool := p; instructions := instructions b; next_id := next_id b;
     terminal := terminal b; cycle_count := cycle_count b |}.
Definition with_instructions (l : list nat) (b : Block) : Block :=
  {| location := location b; end_location := end_location b; pool := pool b; instructions := l; next_id := next_id b;
     terminal := terminal b; cycle_count := cycle_count b |}.
Definition with_terminal (t : Terminal) (c : Z) (b : Block) : Block :=
  {| location := location b; end_location := end_location b; pool := pool b; instructions := instructions b; next_id := next_id b;
     terminal := t; cycle_count := c |}.
Definition update (i : nat) (f : Inst -> Inst) (b : Block) : Block := with_pool (alter f i (pool b)) b.

(** ** Reading values *)

(** The value an identity stands for; the recursion of [Value]'s functions.  An
    identity refers to an earlier instruction, so that the number of instructions
    bounds the recursion. *)
Fixpoint resolve_loop (fuel : nat) (b : Block) (v : Value) : Value :=
  match fuel, v with
  | S f, Ref i =>
      match pool b !! i with
      | Some x => if decide (op x = Op.Identity) then resolve_loop f b (nth 0 (args x) ValueVoid) else v
      | None => v
      end
  | _, _ => v
  end.
Definition resolve (b : Block) (v : Value) : Value := resolve_loop (length (instructions b)) b v.

Definition opcode_of (b : Block) (i : nat) : Opcode := match pool b !! i with Some x => op x | None => Op.Void end.
Definition IsIdentity (b : Block) (v : Value) : bool :=
  match v with Ref i => bool_decide (opcode_of b i = Op.Identity) | Imm _ _ => false end.
Definition IsImmediate (b : Block) (v : Value) : bool := match resolve b v with Ref _ => false | Imm _ _ => true end.
Definition IsEmpty (v : Value) : bool := match v with Imm Ty.Void _ => true | _ => false end.
Definition GetType (b : Block) (v : Value) : Ty.t := match resolve b v with Ref i => GetTypeOf (opcode_of b i) | Imm ty _ => ty end.
Definition GetInst (v : Value) : outcome nat := match v with Ref i => Ret i | Imm _ _ => Stop AssertFailed end.
Definition GetInstRecursive (b : Block) (v : Value) : outcome nat := match resolve b v with Ref i => Ret i | Imm _ _ => Stop AssertFailed end.
(** [GetU1], [GetU8], ...: the payload of an immediate of the given type. *)
Definition GetImm (ty : Ty.t) (b : Block) (v : Value) : outcome Z :=
  match resolve b v with Imm t z => if decide (t = ty) then Ret z else Stop AssertFailed | Ref _ => Stop AssertFailed end.
Definition GetU1 := GetImm Ty.U1.
Definition GetU8 := GetImm Ty.U8.
Definition GetU32 := GetImm Ty.U32.
Definition GetU64 := GetImm Ty.U64.
Definition GetImmediateAsS64 (b : Block) (v : Value) : outcome Z :=
  match resolve b v with
  | Imm Ty.U1 z => Ret z
  | Imm Ty.U8 z => Ret (i64 (bit.sign_extend 64 8 z))
  | Imm Ty.U16 z => Ret (i64 (bit.sign_extend 64 16 z))
  | Imm Ty.U32 z => Ret (i64 (bit.sign_extend 64 32 z))
  | Imm Ty.U64 z => Ret (i64 z)
  | _ => Stop AssertFailed
  end.
Definition GetImmediateAsU64 (b : Block) (v : Value) : outcome Z :=
  match resolve b v with
  | Imm Ty.U1 z | Imm Ty.U8 z | Imm Ty.U16 z | Imm Ty.U32 z | Imm Ty.U64 z => Ret z
  | _ => Stop AssertFailed
  end.
Definition IsSignedImmediate (b : Block) (v : Value) (value : Z) : outcome bool :=
  if IsImmediate b v then obind (GetImmediateAsS64 b v) (fun z => Ret (z =? value)) else Ret false.
Definition IsUnsignedImmediate (b : Block) (v : Value) (value : Z) : outcome bool :=
  if IsImmediate b v then obind (GetImmediateAsU64 b v) (fun z => Ret (z =? value)) else Ret false.
Definition HasAllBitsSet (b : Block) (v : Value) : outcome bool := IsSignedImmediate b v (-1).
Definition IsZero (b : Block) (v : Value) : outcome bool := IsUnsignedImmediate b v 0.

(** ** Instructions *)
Definition get_inst (b : Block) (i : nat) : outcome Inst := match pool b !! i with Some x => Ret x | None => Stop Undefined end.
Definition assert_that (c : bool) : outcome unit := if c then Ret tt else Stop AssertFailed.
Definition NumArgs (x : Inst) : nat := GetNumArgsOf (op x).
Definition GetArg (b : Block) (i index : nat) : outcome Value :=
  let? x := get_inst b i in
  let v := nth index (args x) ValueVoid in
  let? _ := assert_that (index <? NumArgs x)%nat in
  let? _ := assert_that (negb (IsEmpty v) || bool_decide (GetArgTypeOf (op x) index = Ty.Opaque)) in
  Ret v.
Definition GetOpcode (b : Block) (i : nat) : outcome Opcode := let? x := get_inst b i in Ret (op x).
Definition AreAllArgsImmediates (b : Block) (i : nat) : outcome bool :=
  let? x := get_inst b i in Ret (forallb (IsImmediate b) (take (NumArgs x) (args x))).
Definition HasUses (x : Inst) : bool := 0 <? use_count x.
Definition HasAssociatedPseudoOperation (b : Block) (i : nat) : outcome bool :=
  let? x := get_inst b i in Ret (negb (bool_decide (pseudoops x = [])) && negb (IsAPseudoOperation (op x))).
Fixpoint find_pseudoop (b : Block) (i : nat) (o : Opcode) (l : list nat) : outcome (option nat) :=
  match l with
  | [] => Ret None
  | c :: l =>
      let? x := get_inst b c in
      if decide (op x = o) then
        let? v := GetArg b c 0 in
        let? j := GetInst v in
        let? _ := assert_that (j =? i)%nat in
        Ret (Some c)
      else find_pseudoop b i o l
  end.
Definition GetAssociatedPseudoOperation (b : Block) (i : nat) (o : Opcode) : outcome (option nat) :=
  let? x := get_inst b i in find_pseudoop b i o (pseudoops x).

(** [Use] and [UndoUse] of instruction [i]. *)
Definition Use (i : nat) (v : Value) (b : Block) : outcome Block :=
  let? j := GetInst v in
  let? x := get_inst b i in
  let? y := get_inst b j in
  let b := update j (fun y => with_use_count (use_count y + 1) y) b in
  if IsAPseudoOperation (op x) then
    let? _ := assert_that (negb (bool_decide (op x = Op.GetNZCVFromOp)) || MayGetNZCVFromOp (op y)) in
    Ret (update j (fun y => with_pseudoops (pseudoops y ++ [i]) y) b)
  else Ret b.
Definition UndoUse (i : nat) (v : Value) (b : Block) : outcome Block :=
  let? j := GetInst v in
  let? x := get_inst b i in
  let? y := get_inst b j in
  let b := update j (fun y => with_use_count (use_count y - 1) y) b in
  if IsAPseudoOperation (op x) then
    if decide (i ∈ pseudoops y) then Ret (update j (fun y => with_pseudoops (List.filter (fun c => negb (c =? i)%nat) (pseudoops y)) y) b)
    else Stop Undefined
  else Ret b.
Definition SetArg (i index : nat) (value : Value) (b : Block) : outcome Block :=
  let? x := get_inst b i in
  let? _ := assert_that (index <? NumArgs x)%nat in
  let? _ := assert_that (AreTypesCompatible (GetType b value) (GetArgTypeOf (op x) index)) in
  let old := nth index (args x) ValueVoid in
  let? b := if IsImmediate b old then Ret b else UndoUse i old b in
  let? b := if IsImmediate b value then Ret b else Use i value b in
  Ret (update i (fun x => with_args (<[index := value]> (args x)) x) b).
(** One argument after the other is dropped. *)
Fixpoint ClearArgs_from (i : nat) (indices : list nat) (b : Block) : outcome Block :=
  match indices with
  | [] => Ret b
  | k :: l =>
      let? x := get_inst b i in
      let v := nth k (args x) ValueVoid in
      let? b := if IsImmediate b v then Ret b else UndoUse i v b in
      ClearArgs_from i l (update i (fun x => with_args (<[k := ValueVoid]> (args x)) x) b)
  end.
Definition ClearArgs (i : nat) (b : Block) : outcome Block := ClearArgs_from i (seq 0 max_arg_count) b.
Definition Invalidate (i : nat) (b : Block) : outcome Block :=
  let? b := ClearArgs i b in Ret (update i (with_op Op.Void) b).
Definition ReplaceUsesWith (i : nat) (replacement : Value) (b : Block) : outcome Block :=
  let? b := Invalidate i b in
  let b := update i (with_op Op.Identity) b in
  let? b := if IsImmediate b replacement then Ret b else Use i replacement b in
  Ret (update i (fun x => with_args (<[0%nat := replacement]> (args x)) x) b).

(** ** Blocks *)
Fixpoint set_args (i index : nat) (l : list Value) (b : Block) : outcome Block :=
  match l with
  | [] => Ret b
  | v :: l => let? b := SetArg i index v b in set_args i (S index) l b
  end.
(** The new instruction is put at position [pos] of the list. *)
Definition PrependNewInst (pos : nat) (o : Opcode) (l : list Value) (b : Block) : outcome (nat * Block) :=
  let i := next_id b in
  let b := {| location := location b; end_location := end_location b; pool := <[i := new_Inst o]> (pool b); instructions := instructions b;
              next_id := S i; terminal := terminal b; cycle_count := cycle_count b |} in
  let? _ := assert_that (length l =? GetNumArgsOf o)%nat in
  let? b := set_args i 0 l b in
  Ret (i, with_instructions (take pos (instructions b) ++ i :: drop pos (instructions b)) b).
Definition AppendNewInst (o : Opcode) (l : list Value) (b : Block) : outcome (nat * Block) := PrependNewInst (length (instructions b)) o l b.
Definition HasTerminal (b : Block) : bool := match terminal b with Invalid => false | _ => true end.
Definition SetTerminal (t : Terminal) (b : Block) : outcome Block :=
  let? _ := assert_that (negb (HasTerminal b)) in Ret (with_terminal t (cycle_count b) b).
Definition ReplaceTerminal (t : Terminal) (b : Block) : outcome Block :=
  let? _ := assert_that (HasTerminal b) in Ret (with_terminal t (cycle_count b) b).
