(* ===== verification/IrSem.v ===== *)
(** What a block of the intermediate representation computes.  Integer operations
    have the meaning given here, which is what the emitted code does; the others,
    and the state they act on, are the parameter [IRSem], of which only what the
    classification of opcodes says is assumed. *)
From stdpp Require Import list.
From S2P Require Import Prelude Bits IrOpcodes A64Imm Ir.
Import Op(Opcode).
Local Open Scope Z_scope.

(** ** Run-time values *)
Abbreviation tv := (Ty.t * Z)%type.
Definition width (ty : Ty.t) : option Z :=
  match ty with
  | Ty.U1 => Some 1 | Ty.U8 => Some 8 | Ty.U16 => Some 16 | Ty.U32 => Some 32 | Ty.U64 => Some 64 | Ty.U128 => Some 128 | Ty.NZCVFlags => Some 4
  | _ => None
  end.
Definition tv_ok (v : tv) : Prop := match width (fst v) with Some w => in_range w (snd v) | None => True end.
Definition width_of (v : tv) : Z := default 64 (width (fst v)).

(** Flags are packed as N, Z, C, V from bit 3 down. *)
Definition nz_flags (w v : Z) : Z := (if Z.testbit v (w - 1) then 8 else 0) + (if v =? 0 then 4 else 0).
Definition swap_bytes (n : nat) (v : Z) : Z :=
  fold_left (fun acc k => Z.lor acc (Z.shiftl (Z.land (Z.shiftr v (8 * Z.of_nat k)) 255) (8 * Z.of_nat (n - 1 - k)))) (seq 0 n) 0.
Definition count_leading_zeros (w v : Z) : Z := if v =? 0 then w else w - 1 - Z.log2 v.

(** Shifts by any amount: everything is shifted out from the width on. *)
Definition shift_left (w x n : Z) : Z := if w <=? n then 0 else wrap w (Z.shiftl x n).
Definition shift_right (w x n : Z) : Z := if w <=? n then 0 else Z.shiftr x n.
Definition shift_arith (w x n : Z) : Z := wrap w (Z.shiftr (swrap w x) (Z.min n (w - 1))).
Definition signed_div (w x y : Z) : Z := if y =? 0 then 0 else wrap w (Z.quot (swrap w x) (swrap w y)).

(** The value of an integer operation on its arguments. *)
Definition pure (o : Opcode) (a : list tv) : option Z :=
  let v k := snd (nth k a (Ty.Void, 0)) in
  let x := v 0%nat in let y := v 1%nat in let c := v 2%nat in
  match o with
  | Op.Pack2x32To1x64 => Some (wrap 64 (Z.lor (Z.shiftl y 32) x))
  | Op.LeastSignificantWord => Some (wrap 32 x)
  | Op.LeastSignificantHalf => Some (wrap 16 x)
  | Op.LeastSignificantByte => Some (wrap 8 x)
  | Op.MostSignificantWord => Some (wrap 32 (Z.shiftr x 32))
  | Op.MostSignificantBit => Some (Z.b2z (Z.testbit x 31))
  | Op.IsZero32 | Op.IsZero64 => Some (Z.b2z (x =? 0))
  | Op.TestBit => Some (Z.b2z (Z.testbit x (y mod 64)))
  | Op.GetNZFromOp => Some (nz_flags (width_of (nth 0 a (Ty.Void, 0))) x)
  | Op.GetCFlagFromNZCV => Some (Z.b2z (Z.testbit x 1))
  | Op.NZCVFromPackedFlags => Some (wrap 4 (Z.shiftr x 28))
  | Op.LogicalShiftLeft32 => Some (shift_left 32 x y)
  | Op.LogicalShiftLeft64 => Some (shift_left 64 x y)
  | Op.LogicalShiftRight32 => Some (wrap 32 (shift_right 32 x y))
  | Op.LogicalShiftRight64 => Some (wrap 64 (shift_right 64 x y))
  | Op.ArithmeticShiftRight32 => Some (shift_arith 32 x y)
  | Op.ArithmeticShiftRight64 => Some (shift_arith 64 x y)
  | Op.RotateRight32 => Some (wrap 32 (rotate_right 32 x y))
  | Op.RotateRight64 => Some (wrap 64 (rotate_right 64 x y))
  | Op.RotateRightExtended => Some (wrap 32 (Z.lor (Z.shiftr x 1) (Z.shiftl y 31)))
  | Op.LogicalShiftLeftMasked32 => Some (wrap 32 (Z.shiftl x (y mod 32)))
  | Op.LogicalShiftLeftMasked64 => Some (wrap 64 (Z.shiftl x (y mod 64)))
  | Op.LogicalShiftRightMasked32 => Some (wrap 32 (Z.shiftr x (y mod 32)))
  | Op.LogicalShiftRightMasked64 => Some (wrap 64 (Z.shiftr x (y mod 64)))
  | Op.ArithmeticShiftRightMasked32 => Some (wrap 32 (Z.shiftr (swrap 32 x) (y mod 32)))
  | Op.ArithmeticShiftRightMasked64 => Some (wrap 64 (Z.shiftr (swrap 64 x) (y mod 64)))
  | Op.RotateRightMasked32 => Some (wrap 32 (rotate_right 32 x y))
  | Op.RotateRightMasked64 => Some (wrap 64 (rotate_right 64 x y))
  | Op.Add32 => Some (wrap 32 (x + y + c))
  | Op.Add64 => Some (wrap 64 (x + y + c))
  | Op.Sub32 => Some (wrap 32 (x - y - 1 + c))
  | Op.Sub64 => Some (wrap 64 (x - y - 1 + c))
  | Op.Mul32 => Some (wrap 32 (x * y))
  | Op.Mul64 => Some (wrap 64 (x * y))
  | Op.SignedMultiplyHigh64 => Some (wrap 64 (Z.shiftr (swrap 64 x * swrap 64 y) 64))
  | Op.UnsignedMultiplyHigh64 => Some (wrap 64 (Z.shiftr (x * y) 64))
  | Op.UnsignedDiv32 => Some (wrap 32 (x / y))
  | Op.UnsignedDiv64 => Some (wrap 64 (x / y))
  | Op.SignedDiv32 => Some (signed_div 32 x y)
  | Op.SignedDiv64 => Some (signed_div 64 x y)
  | Op.And32 => Some (wrap 32 (Z.land x y))
  | Op.And64 => Some (wrap 64 (Z.land x y))
  | Op.AndNot32 => Some (wrap 32 (Z.land x (Z.lnot y)))
  | Op.AndNot64 => Some (wrap 64 (Z.land x (Z.lnot y)))
  | Op.Eor32 => Some (wrap 32 (Z.lxor x y))
  | Op.Eor64 => Some (wrap 64 (Z.lxor x y))
  | Op.Or32 => Some (wrap 32 (Z.lor x y))
  | Op.Or64 => Some (wrap 64 (Z.lor x y))
  | Op.Not32 => Some (wrap 32 (Z.lnot x))
  | Op.Not64 => Some (wrap 64 (Z.lnot x))
  | Op.SignExtendByteToWord => Some (wrap 32 (swrap 8 x))
  | Op.SignExtendHalfToWord => Some (wrap 32 (swrap 16 x))
  | Op.SignExtendByteToLong => Some (wrap 64 (swrap 8 x))
  | Op.SignExtendHalfToLong => Some (wrap 64 (swrap 16 x))
  | Op.SignExtendWordToLong => Some (wrap 64 (swrap 32 x))
  | Op.ZeroExtendByteToWord | Op.ZeroExtendHalfToWord => Some (wrap 32 x)
  | Op.ZeroExtendByteToLong | Op.ZeroExtendHalfToLong | Op.ZeroExtendWordToLong => Some (wrap 64 x)
  | Op.ZeroExtendLongToQuad => Some (wrap 128 x)
  | Op.ByteReverseWord => Some (wrap 32 (swap_bytes 4 x))
  | Op.ByteReverseHalf => Some (wrap 16 (swap_bytes 2 x))
  | Op.ByteReverseDual => Some (wrap 64 (swap_bytes 8 x))
  | Op.CountLeadingZeros32 => Some (wrap 32 (count_leading_zeros 32 x))
  | Op.CountLeadingZeros64 => Some (wrap 64 (count_leading_zeros 64 x))
  | Op.ExtractRegister32 => Some (wrap 32 (Z.shiftr (Z.lor (Z.shiftl y 32) x) (c mod 32)))
  | Op.ExtractRegister64 => Some (wrap 64 (Z.shiftr (Z.lor (Z.shiftl y 64) x) (c mod 64)))
  | Op.ReplicateBit32 => Some (if Z.testbit x (y mod 32) then Z.ones 32 else 0)
  | Op.ReplicateBit64 => Some (if Z.testbit x (y mod 64) then Z.ones 64 else 0)
  | _ => None
  end.

(** ** Pseudo-operations *)

(** What an instruction leaves behind: its opcode, its arguments and its value. *)
Record result : Type := { r_op : Opcode; r_args : list tv; r_val : tv }.
Definition of_value (v : tv) : result := {| r_op := Op.Identity; r_args := [v]; r_val := v |}.

(** Pseudo-operations that read more than the value of their operand. *)
Definition reads_op (p : Opcode) : bool :=
  match p with Op.GetCarryFromOp | Op.GetOverflowFromOp | Op.GetGEFromOp | Op.GetNZCVFromOp | Op.GetUpperFromOp | Op.GetLowerFromOp => true | _ => false end.
Definition add_carry (w x y c : Z) : bool := 2 ^ w <=? x + y + c.
Definition add_overflow (w x y c : Z) : bool := negb (swrap w (x + y + c) =? swrap w x + swrap w y + c).
(** The carry of a shift by a positive amount; by zero it is the carry passed in. *)
Definition shift_carry (o : Opcode) (x n c : Z) : bool :=
  if n =? 0 then negb (c =? 0)
  else match o with
       | Op.LogicalShiftLeft32 => Z.testbit (Z.shiftl x n) 32
       | Op.LogicalShiftRight32 => Z.testbit x (n - 1)
       | Op.ArithmeticShiftRight32 => Z.testbit (swrap 32 x) (n - 1)
       | _ => Z.testbit (rotate_right 32 x n) 31
       end.
(** The width of an addition or subtraction, its operands as those of an addition. *)
Definition as_addition (r : result) : option (Z * Z * Z * Z) :=
  let v k := snd (nth k (r_args r) (Ty.Void, 0)) in
  match r_op r with
  | Op.Add32 => Some (32, v 0%nat, v 1%nat, v 2%nat)
  | Op.Add64 => Some (64, v 0%nat, v 1%nat, v 2%nat)
  | Op.Sub32 => Some (32, v 0%nat, not_ 32 (v 1%nat), v 2%nat)
  | Op.Sub64 => Some (64, v 0%nat, not_ 64 (v 1%nat), v 2%nat)
  | _ => None
  end.
Definition carry_of (r : result) : bool :=
  let v k := snd (nth k (r_args r) (Ty.Void, 0)) in
  match as_addition r with
  | Some (w, x, y, c) => add_carry w x y c
  | None =>
      match r_op r with
      | Op.LogicalShiftLeft32 | Op.LogicalShiftRight32 | Op.ArithmeticShiftRight32 | Op.RotateRight32 => shift_carry (r_op r) (v 0%nat) (v 1%nat) (v 2%nat)
      | Op.MostSignificantWord => Z.testbit (v 0%nat) 31
      | _ => false
      end
  end.
Definition overflow_of (r : result) : bool := match as_addition r with Some (w, x, y, c) => add_overflow w x y c | None => false end.
Definition nzcv_of (r : result) : Z :=
  nz_flags (width_of (r_val r)) (snd (r_val r)) +
  match as_addition r with Some _ => 2 * Z.b2z (carry_of r) + Z.b2z (overflow_of r) | None => 0 end.

(** ** Semantics *)

(** The operations without a meaning above: the value and the state they leave.  They
    respect the type of the operation, and change the state only if the opcode is
    classified as one that may. *)
Class IRSem (St : Type) : Type := {
  sem : Opcode -> list tv -> St -> Z * St;
  sem_pseudo : Opcode -> result -> Z;
  sem_ok : forall o a s, tv_ok (GetTypeOf o, fst (sem o a s));
  sem_pseudo_ok : forall p r, tv_ok (GetTypeOf p, sem_pseudo p r);
  sem_no_effect : forall o a s, MayHaveSideEffects o = false -> snd (sem o a s) = s
}.

Section Semantics.
Context {St : Type} `{IRSem St}.

Abbreviation env := (gmap nat result).
Definition empty_result : result := of_value (Ty.Void, 0).
Definition producer (e : env) (v : Value) : result :=
  match v with Ref i => default empty_result (e !! i) | Imm ty z => of_value (ty, z) end.
Definition eval (e : env) (v : Value) : tv := r_val (producer e v).
(** Whether the flags of a result are those defined above.  The flags an integer
    operation does not set are clear. *)
Definition has_integer_flags (r : result) : bool :=
  bool_decide (r_op r = Op.Identity) || IsAPseudoOperation (r_op r) || match pure (r_op r) (r_args r) with Some _ => true | None => false end.
Definition pseudo_value (p : Opcode) (r : result) : Z :=
  if decide (p = Op.GetNZCVFromOp) then nzcv_of r
  else if has_integer_flags r then
    if decide (p = Op.GetCarryFromOp) then Z.b2z (carry_of r)
    else if decide (p = Op.GetOverflowFromOp) then Z.b2z (overflow_of r)
    else 0
  else sem_pseudo p r.
Definition run_inst (e : env) (s : St) (o : Opcode) (vs : list Value) : result * St :=
  let a := map (eval e) vs in
  if decide (o = Op.Void) then ({| r_op := o; r_args := []; r_val := (Ty.Void, 0) |}, s)
  else if decide (o = Op.Identity) then (of_value (nth 0 a (Ty.Void, 0)), s)
  else if reads_op o then ({| r_op := o; r_args := a; r_val := (GetTypeOf o, pseudo_value o (producer e (nth 0 vs ValueVoid))) |}, s)
  else match pure o a with
       | Some z => ({| r_op := o; r_args := a; r_val := (GetTypeOf o, z) |}, s)
       | None => ({| r_op := o; r_args := a; r_val := (GetTypeOf o, fst (sem o a s)) |}, snd (sem o a s))
       end.

(** The instructions of a block with the arguments they use, in order. *)
Abbreviation entry := (nat * Opcode * list Value)%type.
Definition used_args (x : Inst) : list Value := take (NumArgs x) (args x).
Definition entry_of (b : Block) (i : nat) : entry := match pool b !! i with Some x => (i, op x, used_args x) | None => (i, Op.Void, []) end.
Definition code (b : Block) : list entry := map (entry_of b) (instructions b).
Fixpoint exec (c : list entry) (e : env) (s : St) : env * St :=
  match c with
  | [] => (e, s)
  | (i, o, vs) :: c => let '(r, s') := run_inst e s o vs in exec c (<[i := r]> e) s'
  end.
(** The state a block leaves; its terminal reads nothing else. *)
Definition run_block (b : Block) (s : St) : St := snd (exec (code b) ∅ s).
End Semantics.
