(* ===== verification/IrWf.v ===== *)
(** Well-formed blocks: an argument refers to an earlier instruction and has the type
    its place asks for; use counts cover the references, and the pseudo-operations of
    an instruction are those that refer to it.  Following identities, and what the
    functions that change an instruction do to a well-formed block. *)
From stdpp Require Import list.
From S2P Require Import Prelude Bits IrOpcodes A64Imm Ir IrSem.
Import Op(Opcode).
Local Open Scope nat_scope.

(** ** Well-formedness *)
Definition refs_in (pre : list nat) (v : Value) : Prop := match v with Ref j => j ∈ pre | Imm _ _ => True end.
Definition imm_ok (v : Value) : Prop := match v with Imm ty z => ty <> Ty.Void /\ ty <> Ty.Opaque /\ tv_ok (ty, z) | Ref _ => True end.
Definition arg_ok (b : Block) (pre : list nat) (ty : Ty.t) (v : Value) : Prop :=
  refs_in pre v /\ imm_ok v /\ AreTypesCompatible (GetType b v) ty = true.
(** An instruction with opcode [o] and arguments [vs] after the instructions [pre]. *)
Record inst_ok (b : Block) (pre : list nat) (o : Opcode) (vs : list Value) : Prop := {
  io_len : length vs = max_arg_count;
  io_arg : forall k v, vs !! k = Some v -> k < GetNumArgsOf o -> arg_ok b pre (GetArgTypeOf o k) v;
  io_rest : forall k v, vs !! k = Some v -> GetNumArgsOf o <= k -> v = ValueVoid;
  io_pseudo : forall j, IsAPseudoOperation o = true -> vs !! 0 = Some (Ref j) -> IsAPseudoOperation (opcode_of b j) = false
}.
Definition core (b : Block) (i : nat) : option (Opcode * list Value) := (fun x => (op x, args x)) <$> pool b !! i.
Record shape_ok (b : Block) : Prop := {
  so_nodup : NoDup (instructions b);
  so_inst : forall pre i post, instructions b = pre ++ i :: post -> exists o vs, core b i = Some (o, vs) /\ inst_ok b pre o vs
}.

(** References to an instruction, its use count and its pseudo-operations. *)
Definition occ (j : nat) (vs : list Value) : nat := length (filter (fun v => v = Ref j) vs).
Definition args_of (b : Block) (i : nat) : list Value := match core b i with Some (_, vs) => vs | None => [] end.
Definition refs (b : Block) (j : nat) : nat := sum_list_with (fun i => occ j (args_of b i)) (instructions b).
Definition count (b : Block) (j : nat) : Z := match pool b !! j with Some x => use_count x | None => 0%Z end.
Definition chain (b : Block) (j : nat) : list nat := match pool b !! j with Some x => pseudoops x | None => [] end.
Definition is_pseudo_of (b : Block) (c j : nat) : Prop :=
  exists o vs, c ∈ instructions b /\ core b c = Some (o, vs) /\ IsAPseudoOperation o = true /\ vs !! 0 = Some (Ref j).
(** 64-bit shifts have no carry. *)
Definition carries (o : Opcode) : bool :=
  match o with Op.LogicalShiftLeft64 | Op.LogicalShiftRight64 | Op.ArithmeticShiftRight64 | Op.RotateRight64 => false | _ => true end.
Record book_ok (b : Block) : Prop := {
  bk_uses : forall j, j ∈ instructions b -> IsImmediate b (Ref j) = false -> (Z.of_nat (refs b j) <= count b j)%Z;
  bk_imm : forall j, j ∈ instructions b -> IsImmediate b (Ref j) = true -> 0 < refs b j -> (0 < count b j)%Z;
  bk_fwd : forall c j, is_pseudo_of b c j -> IsImmediate b (Ref j) = false -> c ∈ chain b j;
  bk_nonneg : forall j, (0 <= count b j)%Z;
  bk_bwd : forall c j, j ∈ instructions b -> opcode_of b j <> Op.Identity -> opcode_of b j <> Op.Void -> c ∈ chain b j -> is_pseudo_of b c j;
  bk_carry : forall c c' j, is_pseudo_of b c j -> is_pseudo_of b c' j ->
    opcode_of b c = Op.GetCarryFromOp -> opcode_of b c' = Op.GetCarryFromOp -> c = c';
  bk_carry_of : forall c j, is_pseudo_of b c j -> opcode_of b c = Op.GetCarryFromOp -> carries (opcode_of b j) = true
}.
Record wf (b : Block) : Prop := { wf_shape : shape_ok b; wf_book : book_ok b }.

Lemma split_unique {A} (l l' r r' : list A) x : NoDup (l ++ x :: r) -> l ++ x :: r = l' ++ x :: r' -> l = l' /\ r = r'.
Proof.
  revert l'. induction l as [|y l IH]; intros [|y' l'] Hn E; simplify_eq/=; [done| | |].
  - exfalso. apply NoDup_cons in Hn as [Hn _]. apply Hn. set_solver.
  - exfalso. apply NoDup_cons in Hn as [Hn _]. apply Hn. set_solver.
  - apply NoDup_cons in Hn as [_ Hn]. by destruct (IH l' Hn) as [-> ->].
Qed.

(** ** Identities *)
Lemma core_opcode b i o vs : core b i = Some (o, vs) -> opcode_of b i = o.
Proof. unfold core, opcode_of. destruct (pool b !! i); simpl; intros [=]; auto. Qed.
Lemma core_args b i o vs : core b i = Some (o, vs) -> args_of b i = vs.
Proof. unfold args_of. by intros ->. Qed.
Lemma core_pool b i o vs : core b i = Some (o, vs) -> exists x, pool b !! i = Some x /\ op x = o /\ args x = vs.
Proof. unfold core. destruct (pool b !! i) as [x|]; simpl; intros [=]; eauto. Qed.
Lemma pool_core b i x : pool b !! i = Some x -> core b i = Some (op x, args x).
Proof. unfold core. by intros ->. Qed.

Lemma resolve_loop_core f b b' v : (forall j, core b' j = core b j) -> resolve_loop f b' v = resolve_loop f b v.
Proof.
  intros Hc. revert v. induction f as [|f IH]; intros [j|]; auto. simpl. specialize (Hc j). unfold core in Hc.
  destruct (pool b' !! j), (pool b !! j); simplify_eq/=; auto. rewrite H. by case_decide; rewrite ?IH, ?H0.
Qed.

(** Instructions come after what they refer to, so that every closed prefix is enough fuel. *)
Definition closed (b : Block) (pre : list nat) : Prop :=
  forall l i r, pre = l ++ i :: r -> exists o vs, core b i = Some (o, vs) /\ (o = Op.Identity -> exists v, vs !! 0 = Some v /\ refs_in l v).
Lemma closed_app b l r : closed b (l ++ r) -> closed b l.
Proof. intros H l1 i r1 ->. eapply (H l1 i (r1 ++ r)). by simplify_list_eq. Qed.
Lemma inst_ok_arg b pre o vs k : inst_ok b pre o vs -> k < GetNumArgsOf o -> k < max_arg_count -> exists v, vs !! k = Some v /\ arg_ok b pre (GetArgTypeOf o k) v.
Proof.
  intros Hok Hk Hm. destruct (vs !! k) as [v|] eqn:Hv.
  - exists v. split; [done|]. by apply (io_arg _ _ _ _ Hok).
  - apply lookup_ge_None in Hv. rewrite (io_len _ _ _ _ Hok) in Hv. lia.
Qed.
Lemma inst_ok_refs b pre o vs k v : inst_ok b pre o vs -> vs !! k = Some v -> refs_in pre v.
Proof.
  intros Hok Hv. destruct (decide (k < GetNumArgsOf o)); [by apply (io_arg _ _ _ _ Hok k v Hv)|]. by rewrite (io_rest _ _ _ _ Hok k v Hv) by lia.
Qed.
Lemma shape_closed b : shape_ok b -> closed b (instructions b).
Proof.
  intros Hs l i r E. destruct (so_inst b Hs l i r E) as (o & vs & Hc & Ho).
  exists o, vs. split; [done|]. intros ->. destruct (inst_ok_arg _ _ _ _ 0 Ho) as (v & Hv & Hr & _); [vm_compute; lia..|eauto].
Qed.
Lemma refs_in_app l r v : refs_in l v -> refs_in (l ++ r) v.
Proof. destruct v; simpl; set_solver. Qed.
Lemma nth_0_lookup (vs : list Value) : nth 0 vs ValueVoid = default ValueVoid (vs !! 0).
Proof. by destruct vs. Qed.

(** What a value stands for is an immediate or an instruction that is no identity. *)
Definition stands_for (b : Block) (pre : list nat) (u : Value) : Prop := refs_in pre u /\ match u with Ref j => opcode_of b j <> Op.Identity | Imm _ _ => True end.
Lemma resolve_loop_enough b pre : closed b pre -> forall v f, refs_in pre v -> length pre <= f ->
  resolve_loop f b v = resolve_loop (length pre) b v /\ stands_for b pre (resolve_loop f b v).
Proof.
  induction pre as [|j l IH] using rev_ind; intros Hcl v f Hv Hf.
  { destruct v as [i|]; [simpl in Hv; set_solver|]. destruct f; simpl; by repeat split. }
  rewrite length_app in *. simpl in *. pose proof (closed_app _ _ _ Hcl) as Hl.
  assert (step : forall u, refs_in l u -> forall f, length l <= f ->
    resolve_loop f b u = resolve_loop (length l) b u /\ stands_for b (l ++ [j]) (resolve_loop f b u)).
  { intros u Hu g Hg. destruct (IH Hl u g Hu Hg) as (E1 & E2 & E3). split; [done|]. split; [by apply refs_in_app|done]. }
  assert (Hd : refs_in l v \/ v = Ref j). { destruct v as [i|]; [|by left]. simpl in Hv |- *. apply elem_of_app in Hv as [?|?%list_elem_of_singleton]; subst; auto. }
  destruct Hd as [Hvl| ->].
  - destruct (step v Hvl f ltac:(lia)) as [E1 E2]. split; [|exact E2]. rewrite E1. symmetry. apply (step v Hvl (length l + 1)). lia.
  - destruct (Hcl l j [] eq_refl) as (o & vs & Hc & Hid). destruct (core_pool _ _ _ _ Hc) as (x & Hx & <- & <-).
    destruct f as [|f]; [lia|]. replace (length l + 1) with (S (length l)) by lia. simpl. rewrite Hx. case_decide as Ho.
    + rewrite nth_0_lookup. destruct (Hid Ho) as (u & -> & Hu). simpl. destruct (step u Hu f ltac:(lia)) as [E1 E2]. done.
    + split; [done|]. split; [simpl; set_solver|]. by rewrite (core_opcode _ _ _ _ Hc).
Qed.

Section Resolve.
Context (b : Block) (Hcl : closed b (instructions b)).
(** Values whose reference is to an instruction of the block. *)
Abbreviation here := (refs_in (instructions b)).
Lemma resolve_imm ty z : resolve b (Imm ty z) = Imm ty z.
Proof. unfold resolve. by destruct (length _). Qed.
Lemma resolve_ref i : opcode_of b i <> Op.Identity -> resolve b (Ref i) = Ref i.
Proof.
  intros Ho. unfold resolve. destruct (length _) eqn:E; [done|]. simpl. unfold opcode_of in Ho.
  destruct (pool b !! i); [|done]. by rewrite decide_False.
Qed.
Lemma resolve_prefix pre post v : instructions b = pre ++ post -> refs_in pre v -> stands_for b pre (resolve b v).
Proof.
  intros E Hv. unfold resolve. apply resolve_loop_enough; [|done|rewrite E, length_app; lia]. eapply closed_app. by rewrite <- E.
Qed.
Lemma resolve_identity i vs v pre post : instructions b = pre ++ i :: post -> core b i = Some (Op.Identity, vs) -> vs !! 0 = Some v ->
  resolve b (Ref i) = resolve b v /\ refs_in pre v.
Proof.
  intros E Hc Hv. destruct (core_pool _ _ _ _ Hc) as (x & Hx & Ho & <-).
  assert (Hpre : refs_in pre v).
  { destruct (Hcl _ _ _ E) as (o & vs & Hc' & Hok). rewrite Hc in Hc'. simplify_eq. destruct Hok as (u & Hu & ?); [done|]. by simplify_eq. }
  split; [|done]. assert (Hcl' : closed b pre) by (eapply closed_app; by rewrite <- E).
  unfold resolve at 1. rewrite E, length_app. simpl. rewrite Nat.add_succ_r. simpl. rewrite Hx, Ho. rewrite decide_True by done.
  rewrite nth_0_lookup, Hv. simpl. unfold resolve.
  rewrite (proj1 (resolve_loop_enough b pre Hcl' v (length pre + length post) Hpre ltac:(lia))).
  symmetry. apply resolve_loop_enough; [done|done|]. rewrite E, length_app. lia.
Qed.
(** Induction along identities. *)
Lemma resolve_ind (P : Value -> Value -> Prop) :
  (forall ty z, P (Imm ty z) (Imm ty z)) ->
  (forall i, i ∈ instructions b -> opcode_of b i <> Op.Identity -> P (Ref i) (Ref i)) ->
  (forall pre i post vs v, instructions b = pre ++ i :: post -> core b i = Some (Op.Identity, vs) -> vs !! 0 = Some v -> refs_in pre v ->
     P v (resolve b v) -> P (Ref i) (resolve b v)) ->
  forall v, here v -> P v (resolve b v).
Proof.
  intros H1 H2 H3.
  enough (forall pre post v, instructions b = pre ++ post -> refs_in pre v -> P v (resolve b v)) as H.
  { intros v Hv. apply (H (instructions b) [] v); [by rewrite app_nil_r|done]. }
  induction pre as [|i pre IH] using rev_ind; intros post v E Hv.
  { destruct v as [i|]; [simpl in Hv; set_solver|]. rewrite resolve_imm. apply H1. }
  rewrite <- app_assoc in E. simpl in E.
  destruct v as [j|]; [|rewrite resolve_imm; apply H1]. simpl in Hv. apply elem_of_app in Hv as [Hj|Hj%list_elem_of_singleton].
  { by apply (IH (i :: post)). }
  subst j. destruct (Hcl _ _ _ E) as (o & vs & Hc & Hok). destruct (decide (o = Op.Identity)) as [->|Ho].
  - destruct Hok as (v & Hv & Hpre); [done|]. rewrite (proj1 (resolve_identity i vs v pre post E Hc Hv)). eapply H3; eauto.
  - rewrite resolve_ref by by rewrite (core_opcode _ _ _ _ Hc). apply H2; [rewrite E; set_solver|by rewrite (core_opcode _ _ _ _ Hc)].
Qed.
End Resolve.
Lemma resolve_imm_ok b v : shape_ok b -> refs_in (instructions b) v -> imm_ok v -> imm_ok (resolve b v).
Proof.
  intros Hs. apply (resolve_ind b (shape_closed b Hs) (fun v u => imm_ok v -> imm_ok u)); [done|done|].
  intros pre i post vs v' E Hc Hv Hpre IH _. apply IH. destruct (so_inst b Hs _ _ _ E) as (o & vs' & Hc' & Hok). rewrite Hc in Hc'. simplify_eq.
  apply (io_arg _ _ _ _ Hok 0 v' Hv). vm_compute. lia.
Qed.

Lemma occ_pos j us : 0 < occ j us <-> Ref j ∈ us.
Proof.
  unfold occ. induction us as [|v us IH]; simpl; [split; [lia|set_solver]|]. rewrite filter_cons. case_decide; simpl; [split; [set_solver|lia]|].
  rewrite IH. set_solver.
Qed.
Lemma pre_here b pre post v : instructions b = pre ++ post -> refs_in pre v -> refs_in (instructions b) v.
Proof. intros ->. apply refs_in_app. Qed.
Lemma pre_not_i b pre i post v : shape_ok b -> instructions b = pre ++ i :: post -> refs_in pre v -> resolve b v <> Ref i.
Proof.
  intros Hs E Hv Hr. destruct (resolve_prefix b (shape_closed b Hs) pre (i :: post) v E Hv) as [Hin _]. rewrite Hr in Hin. simpl in Hin.
  pose proof (so_nodup b Hs) as Hn. rewrite E in Hn. apply NoDup_app in Hn as (_ & Hn & _). apply (Hn i Hin). set_solver.
Qed.
Lemma refs_pos b j : 0 < refs b j <-> exists k, k ∈ instructions b /\ Ref j ∈ args_of b k.
Proof.
  unfold refs. induction (instructions b) as [|k l IH]; simpl; [split; [lia|]; intros (k & Hk & _); set_solver|]. split.
  - intros H. destruct (decide (0 < occ j (args_of b k))) as [H1|H1]; [exists k; rewrite <- occ_pos; set_solver|].
    destruct (proj1 IH) as (k' & ? & ?); [lia|]. exists k'. set_solver.
  - intros (k' & [->|Hk]%elem_of_cons & Hr); [apply occ_pos in Hr; lia|]. pose proof (proj2 IH ltac:(eauto)). lia.
Qed.

(** ** Changing one instruction *)

(** [b'] is [b] with other arguments, and perhaps another opcode, in instruction [i]. *)
Record edited (b b' : Block) (i : nat) (o' : Opcode) (vs' : list Value) : Prop := {
  ed_list : instructions b' = instructions b;
  ed_other : forall j, j <> i -> core b' j = core b j;
  ed_core : core b' i = Some (o', vs')
}.
Section Edit.
Context (b b' : Block) (pre post : list nat) (i : nat) (o o' : Opcode) (vs vs' : list Value).
Context (Hs : shape_ok b) (E : instructions b = pre ++ i :: post) (Hi : core b i = Some (o, vs)).
Context (Hed : edited b b' i o' vs').

Lemma edit_opcode j : j <> i -> opcode_of b' j = opcode_of b j.
Proof using Hed.
  intros Hj. pose proof (ed_other _ _ _ _ _ Hed j Hj) as Hc. unfold core, opcode_of in *.
  destruct (pool b' !! j), (pool b !! j); simplify_eq/=; auto.
Qed.
Lemma edit_opcode_i : opcode_of b' i = o'.
Proof using Hed. eapply core_opcode, Hed. Qed.
Lemma i_not_pre : i ∉ pre.
Proof using Hs E. clear - Hs E. pose proof (so_nodup b Hs) as Hn. rewrite E in Hn. apply NoDup_app in Hn as (_ & Hn & _). intros H. apply (Hn i H). set_solver. Qed.
Lemma refs_edit j : refs b' j + occ j vs = refs b j + occ j vs'.
Proof using Hs E Hi Hed.
  unfold refs. rewrite (ed_list _ _ _ _ _ Hed), E, !sum_list_with_app. simpl. unfold args_of at 2 5. rewrite Hi, (ed_core _ _ _ _ _ Hed).
  pose proof (so_nodup b Hs) as Hn. rewrite E in Hn. apply NoDup_app in Hn as (_ & Hn1 & Hn2). apply NoDup_cons in Hn2 as [Hn2 _].
  assert (same : forall l, i ∉ l -> sum_list_with (fun k => occ j (args_of b' k)) l = sum_list_with (fun k => occ j (args_of b k)) l).
  { induction l as [|k l IH]; intros Hl; simpl; [done|]. rewrite IH by set_solver. unfold args_of.
    rewrite (ed_other _ _ _ _ _ Hed k) by (intros ->; set_solver). done. }
  rewrite !same; [lia|done|apply i_not_pre].
Qed.
Lemma resolve_through v : refs_in (instructions b) v -> resolve b v = Ref i -> v = Ref i \/ 0 < refs b i.
Proof using Hs.
  clear - Hs.
  apply (resolve_ind b (shape_closed b Hs) (fun v u => u = Ref i -> v = Ref i \/ 0 < refs b i)); [by left|by left|].
  intros l k r us u E1 Hc Hu Hl IH Hr. right. destruct (IH Hr) as [->|]; [|done]. apply refs_pos. exists k. rewrite E1.
  rewrite (core_args _ _ _ _ Hc). split; [set_solver|]. by eapply list_elem_of_lookup_2.
Qed.

(** *** Identities *)
Section Resolution.
Context (Hid : o' = Op.Identity -> exists v, vs' !! 0 = Some v /\ refs_in pre v).
Lemma edit_closed : closed b' (instructions b').
Proof using Hs E Hed Hid.
  clear Hi.
  intros l j r E'. rewrite (ed_list _ _ _ _ _ Hed) in E'. destruct (decide (j = i)) as [->|Hj].
  - exists o', vs'. split; [apply Hed|]. by assert (l = pre) as -> by (eapply (split_unique l pre r post i); rewrite <- E'; [by apply so_nodup|done]).
  - rewrite (ed_other _ _ _ _ _ Hed j Hj). by apply (shape_closed b Hs l j r).
Qed.
Lemma edit_resolve_identity l j r us u : instructions b = l ++ j :: r -> core b j = Some (Op.Identity, us) -> us !! 0 = Some u -> j <> i ->
  resolve b' (Ref j) = resolve b' u.
Proof using Hs E Hed Hid.
  clear Hi.
  intros E1 Hc Hu Hj. eapply (resolve_identity b' edit_closed); [by rewrite (ed_list _ _ _ _ _ Hed)|by rewrite (ed_other _ _ _ _ _ Hed)|done].
Qed.
Lemma edit_resolve_pre v : refs_in pre v -> resolve b' v = resolve b v.
Proof using Hs E Hed Hid.
  clear Hi.
  intros Hv. pose proof (pre_here _ _ _ _ E Hv) as Hh. revert v Hh Hv. pose proof i_not_pre as Hip.
  apply (resolve_ind b (shape_closed b Hs) (fun v u => refs_in pre v -> resolve b' v = u)).
  - intros. apply resolve_imm.
  - intros j _ Hj Hp. apply resolve_ref. rewrite edit_opcode; [done|]. intros ->. done.
  - intros l j r us u E1 Hc Hu Hl IH Hp. rewrite <- IH.
    + eapply edit_resolve_identity; eauto. intros ->. done.
    + destruct u as [k|]; [|done]. simpl in *. apply list_elem_of_split in Hp as (l' & r' & Ep).
      destruct (split_unique l l' r (r' ++ i :: post) j) as [-> _]; [rewrite <- E1; by apply so_nodup|rewrite <- E1, E, Ep; by simplify_list_eq|].
      rewrite Ep. set_solver.
Qed.
Lemma edit_type_pre v : refs_in pre v -> GetType b' v = GetType b v.
Proof using Hs E Hed Hid.
  clear Hi.
  intros Hv. unfold GetType. rewrite edit_resolve_pre by done. destruct (resolve b v) as [j|] eqn:Hr; [|done].
  rewrite edit_opcode; [done|]. intros ->. by eapply pre_not_i.
Qed.
(** An instruction that was no identity. *)
Lemma edit_resolve v : o <> Op.Identity -> refs_in (instructions b) v ->
  resolve b' v = if decide (resolve b v = Ref i) then resolve b' (Ref i) else resolve b v.
Proof using Hs E Hi Hed Hid.
  intros Ho. pose (P := fun v u : Value => resolve b' v = if decide (u = Ref i) then resolve b' (Ref i) else u).
  revert v. apply (resolve_ind b (shape_closed b Hs) P); unfold P; clear P.
  - intros. rewrite resolve_imm. by case_decide.
  - intros j Hj Hoj. case_decide; [by simplify_eq|]. apply resolve_ref. rewrite edit_opcode; [done|congruence].
  - intros l j r us u E1 Hc Hu Hl IH. rewrite <- IH. eapply edit_resolve_identity; eauto. intros ->. congruence.
Qed.
(** One nothing refers to. *)
Lemma edit_resolve_dead v : refs b i = 0 -> refs_in (instructions b) v -> v <> Ref i -> resolve b' v = resolve b v.
Proof using Hs E Hed Hid.
  clear Hi.
  intros Hr. revert v. apply (resolve_ind b (shape_closed b Hs) (fun v u => v <> Ref i -> resolve b' v = u)).
  - intros. apply resolve_imm.
  - intros j Hj Hoj Hne. apply resolve_ref. rewrite edit_opcode; [done|congruence].
  - intros l j r us u E1 Hc Hu Hl IH Hne. rewrite <- IH; [eapply edit_resolve_identity; eauto; congruence|].
    intros ->. assert (0 < refs b i); [|lia]. apply refs_pos. exists j. rewrite E1, (core_args _ _ _ _ Hc). split; [set_solver|]. by eapply list_elem_of_lookup_2.
Qed.
End Resolution.
Context (Hok : inst_ok b pre o' vs').
Lemma edit_identity : o' = Op.Identity -> exists v, vs' !! 0 = Some v /\ refs_in pre v.
Proof using Hok. intros E'. destruct (inst_ok_arg _ _ _ _ 0 Hok) as (v & Hv & Hr & _); [rewrite ?E'; vm_compute; lia..|eauto]. Qed.

(** *** What the rest of the block depends on *)
Record keeps : Prop := {
  kp_type : forall k v, k ∈ instructions b -> v ∈ args_of b k -> refs_in (instructions b) v -> GetType b' v = GetType b v;
  kp_imm : forall j, j ∈ instructions b -> IsImmediate b (Ref j) = true -> IsImmediate b' (Ref j) = true \/ (j = i /\ refs b i = 0)
}.
Lemma keeps_type : o <> Op.Identity -> GetType b' (Ref i) = GetType b (Ref i) -> keeps.
Proof using Hs E Hi Hed Hok.
  intros Ho Ht. assert (Hri : resolve b (Ref i) = Ref i) by (apply resolve_ref; by rewrite (core_opcode _ _ _ _ Hi)).
  constructor.
  - intros k v _ _ Hv. unfold GetType in *. rewrite (edit_resolve edit_identity v Ho Hv). case_decide as Hr; [by rewrite Hr, Ht, Hri|].
    destruct (resolve b v) as [j|] eqn:Ej; [|done]. rewrite edit_opcode; [done|congruence].
  - intros j Hj. unfold IsImmediate. rewrite (edit_resolve edit_identity (Ref j) Ho Hj). destruct (resolve b (Ref j)); [done|]. rewrite decide_False by done. by left.
Qed.
Lemma keeps_dead : refs b i = 0 -> keeps.
Proof using Hs E Hi Hed Hok.
  intros Hr. assert (Hne : forall k v, k ∈ instructions b -> v ∈ args_of b k -> v <> Ref i).
  { intros k v Hk Hv ->. assert (0 < refs b i); [|lia]. apply refs_pos. eauto. }
  constructor.
  - intros k v Hk Hin Hv. pose proof (Hne k v Hk Hin). unfold GetType. rewrite (edit_resolve_dead edit_identity v Hr Hv) by done.
    destruct (resolve b v) as [j|] eqn:Ej; [|done]. rewrite edit_opcode; [done|]. intros ->. destruct (resolve_through v Hv Ej); [done|lia].
  - intros j Hj Him. destruct (decide (j = i)) as [->|]; [by right|]. left. unfold IsImmediate in *. rewrite (edit_resolve_dead edit_identity (Ref j) Hr); [done|done|congruence].
Qed.
Context (Hk : keeps) (Hps : IsAPseudoOperation o' = false).
Lemma edit_shape : shape_ok b'.
Proof using Hs E Hi Hed Hok Hk Hps.
  constructor; [rewrite (ed_list _ _ _ _ _ Hed); by apply so_nodup|].
  intros l k r E'. rewrite (ed_list _ _ _ _ _ Hed) in E'. destruct (decide (k = i)) as [->|Hki].
  - assert (l = pre) as ->. { eapply (split_unique l pre r post i); rewrite <- E'; [by apply so_nodup|done]. }
    exists o', vs'. split; [apply Hed|]. pose proof Hok as [H1 H2 H3 H4]. constructor; [done| |done|by rewrite Hps].
    intros k v Hv Hlt. destruct (H2 k v Hv Hlt) as (? & ? & ?). split_and!; auto. by rewrite (edit_type_pre edit_identity).
  - destruct (so_inst b Hs l k r E') as (ok & us & Hc & [H1 H2 H3 H4]). exists ok, us. rewrite (ed_other _ _ _ _ _ Hed k Hki). split; [done|].
    assert (Hkin : k ∈ instructions b) by (rewrite E'; set_solver).
    constructor; [done| |done|].
    + intros n v Hv Hlt. destruct (H2 n v Hv Hlt) as (Hr & ? & ?). split_and!; auto. rewrite (kp_type Hk k); auto.
      * rewrite (core_args _ _ _ _ Hc). by eapply list_elem_of_lookup_2.
      * destruct v; simpl in *; [rewrite E'; set_solver|done].
    + intros j Hp Hj. destruct (decide (j = i)) as [->|]; [by rewrite edit_opcode_i|]. rewrite edit_opcode by done. eauto.
Qed.

(** *** Counts and pseudo-operations *)
Definition uses_of (j : nat) (us : list Value) : Z := if IsImmediate b (Ref j) then 0%Z else Z.of_nat (occ j us).
Definition leaves_chain (c j : nat) : Prop := IsAPseudoOperation o = true /\ c = i /\ vs !! 0 = Some (Ref j) /\ IsImmediate b (Ref j) = false.
Context (Hb : book_ok b) (Hop : o' = o \/ o' = Op.Identity \/ o' = Op.Void).
Context (Hcount : forall j, count b' j = (count b j - uses_of j vs + uses_of j vs')%Z).
Context (Hchain : forall c j, c ∈ chain b' j <-> c ∈ chain b j /\ ~ leaves_chain c j).
Context (Hknown : forall j, Ref j ∈ vs' -> IsImmediate b (Ref j) = true -> (0 < count b j)%Z).
Lemma pseudo_refs c j : is_pseudo_of b c j -> 0 < refs b j /\ j ∈ instructions b.
Proof using Hs.
  clear - Hs.
  intros (oc & us & H1 & H2 & H3 & H4). split.
  - apply refs_pos. exists c. rewrite (core_args _ _ _ _ H2). split; [done|]. by eapply list_elem_of_lookup_2.
  - apply list_elem_of_split in H1 as (l & r & E1).
    destruct (so_inst b Hs _ _ _ E1) as (oc' & us' & H2' & Hok'). rewrite H2 in H2'. simplify_eq. rewrite E1.
    destruct (decide (0 < GetNumArgsOf oc')); [|assert (Ref j = ValueVoid) by (eapply (io_rest _ _ _ _ Hok' 0); [done|lia]); done].
    destruct (io_arg _ _ _ _ Hok' 0 _ H4 l0) as (Hin & _). simpl in Hin. set_solver.
Qed.
Lemma edit_pseudo c j : is_pseudo_of b' c j -> c <> i /\ is_pseudo_of b c j.
Proof using Hed Hps.
  clear - Hed Hps.
  intros (oc & us & H1 & H2 & H3 & H4). assert (c <> i).
  { intros ->. rewrite (ed_core _ _ _ _ _ Hed) in H2. simplify_eq. congruence. }
  split; [done|]. exists oc, us. rewrite (ed_list _ _ _ _ _ Hed) in H1. rewrite (ed_other _ _ _ _ _ Hed) in H2 by done. done.
Qed.
Lemma occ_le j : occ j vs <= refs b j.
Proof using E Hi. unfold refs. rewrite E, sum_list_with_app. simpl. rewrite (core_args _ _ _ _ Hi). lia. Qed.
Lemma refs_outside j : j ∉ instructions b -> refs b j = 0.
Proof using Hs.
  clear - Hs.
  intros Hj. destruct (decide (refs b j = 0)) as [|Hne]; [done|]. assert (Hp : 0 < refs b j) by lia. apply refs_pos in Hp as (k & Hk' & Hin).
  apply list_elem_of_split in Hk' as (l & r & E1). destruct (so_inst b Hs _ _ _ E1) as (ok & us & Hc & Hok'). rewrite (core_args _ _ _ _ Hc) in Hin.
  apply list_elem_of_lookup in Hin as [n Hn]. destruct (decide (n < GetNumArgsOf ok)) as [Hlt|].
  - destruct (io_arg _ _ _ _ Hok' n _ Hn Hlt) as [Hin _]. simpl in Hin. rewrite E1 in Hj. set_solver.
  - by assert (Ref j = ValueVoid) by (eapply (io_rest _ _ _ _ Hok' n); [done|lia]).
Qed.
Lemma edit_nonneg j : (0 <= count b' j)%Z.
Proof using Hs E Hi Hb Hcount.
  rewrite Hcount. unfold uses_of. pose proof (bk_nonneg b Hb j). destruct (IsImmediate b (Ref j)) eqn:Him; [lia|]. pose proof (occ_le j).
  destruct (decide (j ∈ instructions b)) as [Hj|Hj]; [pose proof (bk_uses b Hb j Hj Him); lia|]. rewrite (refs_outside j Hj) in *. lia.
Qed.
Lemma edit_book : book_ok b'.
Proof using Hs E Hi Hed Hok Hk Hps Hb Hop Hcount Hchain Hknown.
  constructor; try setoid_rewrite (ed_list _ _ _ _ _ Hed).
  - intros j Hj Him. destruct (IsImmediate b (Ref j)) eqn:Him0.
    + destruct (kp_imm Hk j Hj Him0) as [?|[-> Hr]]; [congruence|]. pose proof (refs_edit i). pose proof (edit_nonneg i).
      assert (occ i vs' = 0); [|lia]. destruct (decide (0 < occ i vs')) as [Hpos|]; [|lia]. exfalso. apply i_not_pre.
      apply occ_pos, list_elem_of_lookup in Hpos as [n Hn]. by apply (inst_ok_refs _ _ _ _ n (Ref i) Hok).
    + pose proof (bk_uses b Hb j Hj Him0). pose proof (refs_edit j). rewrite Hcount. unfold uses_of. rewrite Him0. lia.
  - intros j Hj Him Hp. pose proof (refs_edit j) as Hre. rewrite Hcount. unfold uses_of. destruct (IsImmediate b (Ref j)) eqn:Him0.
    + destruct (decide (0 < occ j vs')) as [Hpos|]; [apply occ_pos in Hpos; pose proof (Hknown j Hpos Him0); lia|]. pose proof (bk_imm b Hb j Hj Him0). lia.
    + pose proof (bk_uses b Hb j Hj Him0). lia.
  - intros c j [Hc Hp]%edit_pseudo Him. apply Hchain. split; [|by intros (_ & ? & _)].
    apply (bk_fwd b Hb c j Hp). apply not_true_is_false. intros H. destruct (pseudo_refs c j Hp) as [Hr Hj].
    destruct (kp_imm Hk j Hj H) as [?|[-> ?]]; [congruence|lia].
  - apply edit_nonneg.
  - intros c j Hj Hid Hvd [Hc Hl]%Hchain. assert (opcode_of b j <> Op.Identity /\ opcode_of b j <> Op.Void) as [Hidb Hvdb].
    { destruct (decide (j = i)) as [->|]; [|by rewrite edit_opcode in Hid, Hvd]. rewrite edit_opcode_i in Hid, Hvd. rewrite (core_opcode _ _ _ _ Hi).
      destruct Hop as [->|[?|?]]; done. }
    destruct (bk_bwd b Hb c j Hj Hidb Hvdb Hc) as (oc & us & H1 & H2 & H3 & H4).
    assert (c <> i).
    { intros ->. rewrite Hi in H2. simplify_eq. apply Hl. split_and!; auto. unfold IsImmediate. by rewrite resolve_ref. }
    exists oc, us. rewrite (ed_list _ _ _ _ _ Hed), (ed_other _ _ _ _ _ Hed) by done. done.
  - intros c c' j [Hc Hp]%edit_pseudo [Hc' Hp']%edit_pseudo H1 H2. rewrite edit_opcode in H1, H2 by done. by apply (bk_carry b Hb c c' j).
  - intros c j [Hc Hp]%edit_pseudo H1. rewrite edit_opcode in H1 by done. pose proof (bk_carry_of b Hb c j Hp H1) as Hco.
    destruct (decide (j = i)) as [->|]; [|by rewrite edit_opcode]. rewrite edit_opcode_i. rewrite (core_opcode _ _ _ _ Hi) in Hco.
    destruct Hop as [->|[->| ->]]; done.
Qed.
Lemma edit_wf : wf b'.
Proof using Hs E Hi Hed Hok Hk Hps Hb Hop Hcount Hchain Hknown. constructor; [apply edit_shape|apply edit_book]. Qed.
End Edit.
