(* ===== verification/IrExec.v ===== *)
(** Executing well-formed blocks: values have the types and ranges their instructions
    give them, an identity has the value it stands for, and when an instruction may be
    replaced by another without changing what the block does. *)
From stdpp Require Import list.
From S2P Require Import Prelude Bits IrOpcodes A64Imm Ir IrSem IrWf.
Import Op(Opcode).
Local Open Scope Z_scope.

(** ** Ranges *)
Lemma b2z_in_range (c : bool) : in_range 1 (Z.b2z c).
Proof. destruct c; unfold in_range; simpl; lia. Qed.
Lemma nz_flags_range w v : 0 <= nz_flags w v <= 12.
Proof. unfold nz_flags. repeat case_match; lia. Qed.
Lemma if_in_range w (c : bool) x y : in_range w x -> in_range w y -> in_range w (if c then x else y).
Proof. by destruct c. Qed.
Lemma zero_in_range w : 0 <= w -> in_range w 0.
Proof. intros. split; [lia|]. by apply Z.pow_pos_nonneg. Qed.
Lemma ones_in_range w : 0 <= w -> in_range w (Z.ones w).
Proof. intros. rewrite Z.ones_equiv. pose proof (Z.pow_pos_nonneg 2 w). unfold in_range. lia. Qed.
Create HintDb ranges discriminated.
#[export] Hint Resolve wrap_range b2z_in_range if_in_range zero_in_range ones_in_range : ranges.
#[export] Hint Extern 1 (_ <= _) => lia : ranges.

Lemma pure_ok o a z : pure o a = Some z -> tv_ok (GetTypeOf o, z).
Proof.
  destruct o; simpl; intros [= <-]; unfold tv_ok; simpl; unfold shift_left, shift_right, shift_arith, signed_div; eauto with ranges.
  pose proof (nz_flags_range (width_of (nth 0 a (Ty.Void, 0))) (nth 0 a (Ty.Void, 0)).2). unfold in_range. lia.
Qed.
Lemma pure_some o a a' : match pure o a with Some _ => True | None => False end <-> match pure o a' with Some _ => True | None => False end.
Proof. destruct o; simpl; tauto. Qed.
Lemma opaque_identity o : GetTypeOf o = Ty.Opaque -> o = Op.Identity.
Proof. destruct o; vm_compute; congruence. Qed.

Section Exec.
Context {St : Type} `{IRSem St}.
Abbreviation env := (gmap nat result).

Lemma nzcv_ok r : in_range 4 (nzcv_of r).
Proof.
  unfold nzcv_of. pose proof (nz_flags_range (width_of (r_val r)) (r_val r).2).
  unfold in_range. destruct (as_addition r); [|lia]. destruct (carry_of r), (overflow_of r); simpl; lia.
Qed.
Lemma pseudo_ok p r : reads_op p = true -> tv_ok (GetTypeOf p, pseudo_value p r).
Proof.
  intros Hp. unfold pseudo_value. case_decide as E1; [subst; unfold tv_ok; simpl; apply nzcv_ok|].
  destruct (has_integer_flags r); [|apply sem_pseudo_ok].
  destruct p; try discriminate Hp; unfold tv_ok; simpl; repeat case_decide; try congruence; simpl; eauto with ranges.
Qed.

(** ** One instruction *)
Lemma run_inst_ext (e e' : env) s o vs :
  map (eval e) vs = map (eval e') vs ->
  (reads_op o = true -> pseudo_value o (producer e (nth 0 vs ValueVoid)) = pseudo_value o (producer e' (nth 0 vs ValueVoid))) ->
  run_inst e s o vs = run_inst e' s o vs.
Proof. intros E1 E2. unfold run_inst. rewrite E1. repeat case_decide; auto. destruct (reads_op o); auto. by rewrite E2. Qed.
Lemma run_inst_producer (e e' : env) s o vs :
  (forall v, v ∈ vs -> producer e v = producer e' v) -> run_inst e s o vs = run_inst e' s o vs.
Proof.
  intros E. apply run_inst_ext.
  - apply map_ext_in. intros v Hv. unfold eval. rewrite E; [done|]. by apply list_elem_of_In.
  - intros _. destruct vs as [|v vs]; [done|]. simpl. rewrite E; [done|set_solver].
Qed.
Lemma run_inst_type (e : env) s o vs : o <> Op.Identity -> fst (r_val (fst (run_inst e s o vs))) = GetTypeOf o.
Proof. intros. unfold run_inst. repeat case_decide; subst; try done. destruct (reads_op o); [done|]. by destruct (pure _ _). Qed.
Lemma run_inst_ok (e : env) s o vs : o <> Op.Identity -> tv_ok (r_val (fst (run_inst e s o vs))).
Proof.
  intros. unfold run_inst. repeat case_decide; subst; try done. destruct (reads_op o) eqn:Ho; [by apply pseudo_ok|].
  destruct (pure _ _) eqn:Hp; simpl; [by eapply pure_ok|apply sem_ok].
Qed.
Lemma run_inst_op (e : env) s o vs : r_op (fst (run_inst e s o vs)) = o.
Proof. unfold run_inst. repeat case_decide; subst; try done. destruct (reads_op o); [done|]. by destruct (pure _ _). Qed.
Lemma pure_reads o a z : pure o a = Some z -> reads_op o = false /\ o <> Op.Void /\ o <> Op.Identity.
Proof. destruct o; simpl; intros [=]; repeat split; discriminate. Qed.
Lemma run_inst_pure (e : env) s o vs z : pure o (map (eval e) vs) = Some z ->
  run_inst e s o vs = ({| r_op := o; r_args := map (eval e) vs; r_val := (GetTypeOf o, z) |}, s).
Proof. intros Hp. destruct (pure_reads _ _ _ Hp) as (H1 & H2 & H3). unfold run_inst. by rewrite decide_False, decide_False, H1, Hp by done. Qed.
Lemma run_inst_identity (e : env) s v vs : run_inst e s Op.Identity (v :: vs) = (of_value (eval e v), s).
Proof. reflexivity. Qed.
Lemma run_inst_quiet (e : env) s o vs : MayHaveSideEffects o = false -> snd (run_inst e s o vs) = s.
Proof.
  intros. unfold run_inst. repeat case_decide; try done. destruct (reads_op o); [done|]. destruct (pure _ _); [done|]. by apply sem_no_effect.
Qed.

(** ** A sequence of instructions *)
Lemma exec_app c1 c2 (e : env) s : exec (c1 ++ c2) e s = let '(e', s') := exec c1 e s in exec c2 e' s'.
Proof. revert e s. induction c1 as [|[[i o] vs] c1 IH]; intros; [done|]. simpl. destruct (run_inst e s o vs). apply IH. Qed.
Lemma entry_of_core b i o vs : core b i = Some (o, vs) -> entry_of b i = (i, o, take (GetNumArgsOf o) vs).
Proof. intros (x & Hx & <- & <-)%core_pool. unfold entry_of. by rewrite Hx. Qed.

(** The environment after the instructions [pre]: each result is what running the
    instruction again gives. *)
Definition consistent (b : Block) (pre : list nat) (e : env) : Prop :=
  forall i, i ∈ pre -> exists o vs s, core b i = Some (o, vs) /\ e !! i = Some (fst (run_inst e s o (take (GetNumArgsOf o) vs))).
Definition env_after (b : Block) (pre : list nat) (s : St) : env := fst (exec (map (entry_of b) pre) ∅ s).

Lemma refs_in_producer pre (e : env) i r v : refs_in pre v -> i ∉ pre -> producer (<[i := r]> e) v = producer e v.
Proof. intros Hv Hi. destruct v as [j|]; [|done]. simpl. rewrite lookup_insert_ne; [done|]. intros ->. by apply Hi. Qed.
Lemma used_refs_in b pre o vs v : inst_ok b pre o vs -> v ∈ take (GetNumArgsOf o) vs -> refs_in pre v.
Proof. intros Hok [k Hk]%list_elem_of_lookup. apply lookup_take_Some in Hk as [Hk Hlt]. by apply (io_arg _ _ _ _ Hok k v). Qed.
Lemma consistent_snoc b pre i o vs (e : env) s : inst_ok b pre o vs -> core b i = Some (o, vs) -> i ∉ pre ->
  (forall j o' vs', j ∈ pre -> core b j = Some (o', vs') -> exists l, inst_ok b l o' vs' /\ l ⊆ pre) ->
  consistent b pre e -> consistent b (pre ++ [i]) (<[i := fst (run_inst e s o (take (GetNumArgsOf o) vs))]> e).
Proof.
  intros Hok Hc Hi Hpre He j Hj. apply elem_of_app in Hj as [Hj|Hj%list_elem_of_singleton].
  - destruct (He j Hj) as (o' & vs' & s' & Hc' & He'). exists o', vs', s'. split; [done|].
    rewrite lookup_insert_ne by (intros ->; by apply Hi). rewrite He'. do 2 f_equal. apply run_inst_producer. intros v Hv.
    destruct (Hpre j o' vs' Hj Hc') as (l & Hok' & Hl). symmetry. eapply refs_in_producer; [|exact Hi].
    pose proof (used_refs_in _ _ _ _ _ Hok' Hv). destruct v; simpl in *; set_solver.
  - subst j. exists o, vs, s. split; [done|]. rewrite lookup_insert, decide_True by done. do 2 f_equal. apply run_inst_producer. intros v Hv.
    symmetry. eapply refs_in_producer; [|exact Hi]. by eapply used_refs_in.
Qed.
Lemma exec_consistent b pre post s : shape_ok b -> instructions b = pre ++ post -> consistent b pre (env_after b pre s).
Proof.
  intros Hs. revert post. induction pre as [|i pre IH] using rev_ind; intros post E; [intros i Hi; set_solver|].
  rewrite <- app_assoc in E. simpl in E. specialize (IH _ E).
  destruct (so_inst b Hs _ _ _ E) as (o & vs & Hc & Hok).
  pose proof (so_nodup b Hs) as Hnd. rewrite E in Hnd. apply NoDup_app in Hnd as (Hnd & Hnd' & _).
  unfold env_after in *. rewrite map_app, exec_app. simpl. destruct (exec (map (entry_of b) pre) ∅ s) as [e s'] eqn:Ee. simpl in *.
  rewrite (entry_of_core _ _ _ _ Hc). simpl. destruct (run_inst e s' o (take (GetNumArgsOf o) vs)) as [r s''] eqn:Er. simpl.
  replace r with (fst (run_inst e s' o (take (GetNumArgsOf o) vs))) by by rewrite Er.
  apply consistent_snoc; auto.
  - intros Hi. apply (Hnd' i Hi). set_solver.
  - intros j o' vs' Hj Hcj. apply list_elem_of_split in Hj as (l & r' & ->).
    destruct (so_inst b Hs l j (r' ++ i :: post)) as (o2 & vs2 & Hc2 & Hok2); [rewrite E; by simplify_list_eq|].
    rewrite Hcj in Hc2. simplify_eq. exists l. split; [done|]. set_solver.
Qed.

(** ** Values *)
Section Values.
Context (b : Block) (Hs : shape_ok b) (pre post : list nat) (E : instructions b = pre ++ post).
Context (e : env) (He : consistent b pre e).
Lemma eval_resolve v : refs_in pre v -> eval e (resolve b v) = eval e v.
Proof.
  intros Hv. assert (Hh : refs_in (instructions b) v) by (destruct v; simpl in *; [rewrite E; set_solver|done]).
  revert v Hh Hv. apply (resolve_ind b (shape_closed b Hs) (fun v u => refs_in pre v -> eval e u = eval e v)).
  - done.
  - done.
  - intros l i r vs u E1 Hc Hu Hl IH Hi. destruct (He i Hi) as (o & vs' & s & Hc' & Hr). rewrite Hc in Hc'. simplify_eq.
    rewrite IH.
    + unfold eval at 2. simpl. rewrite Hr. destruct vs' as [|w vs']; [done|]. injection Hu as ->. reflexivity.
    + destruct u as [j|]; [|done]. simpl in *. apply list_elem_of_split in Hi as (l' & r' & ->). rewrite E in E1.
      destruct (split_unique l l' r (r' ++ post) i) as [-> _]; [by rewrite <- E1, <- E; apply so_nodup|by rewrite <- E1; simplify_list_eq|set_solver].
Qed.
Lemma resolve_ref_result v i : refs_in pre v -> resolve b v = Ref i ->
  exists o vs s, core b i = Some (o, vs) /\ o <> Op.Identity /\ i ∈ pre /\ eval e v = r_val (fst (run_inst e s o (take (GetNumArgsOf o) vs))).
Proof.
  intros Hv Hi. destruct (resolve_prefix b (shape_closed b Hs) pre post v E Hv) as [Hin Hno]. rewrite Hi in Hin, Hno.
  destruct (He i Hin) as (o & vs & s & Hc & Hr). exists o, vs, s. split_and!; auto.
  - by rewrite (core_opcode _ _ _ _ Hc) in Hno.
  - rewrite <- eval_resolve, Hi by done. unfold eval. simpl. by rewrite Hr.
Qed.
Lemma eval_type v : refs_in pre v -> fst (eval e v) = GetType b v.
Proof.
  intros Hv. unfold GetType. destruct (resolve b v) as [i|ty z] eqn:Hr.
  - destruct (resolve_ref_result v i Hv Hr) as (o & vs & s & Hc & Ho & _ & ->). rewrite run_inst_type by done. by rewrite (core_opcode _ _ _ _ Hc).
  - by rewrite <- eval_resolve, Hr by done.
Qed.
Lemma eval_ok v : refs_in pre v -> imm_ok v -> tv_ok (eval e v).
Proof.
  intros Hv Hi. destruct (resolve b v) as [i|ty z] eqn:Hr.
  - destruct (resolve_ref_result v i Hv Hr) as (o & vs & s & Hc & Ho & _ & ->). by apply run_inst_ok.
  - rewrite <- eval_resolve, Hr by done. apply (resolve_imm_ok b) in Hi; [|done|destruct v; simpl in *; [rewrite E; set_solver|done]].
    rewrite Hr in Hi. apply Hi.
Qed.
End Values.

(** ** Replacing an instruction *)

(** Two results the later instructions do not tell apart. *)
Definition alike (b : Block) (i : nat) (post : list nat) (r r' : result) : Prop :=
  (r_val r = r_val r' \/ refs b i = 0%nat) /\
  forall c p us, c ∈ post -> core b c = Some (p, us) -> reads_op p = true -> us !! 0%nat = Some (Ref i) -> pseudo_value p r = pseudo_value p r'.
Lemma take_In_args b c o us v : core b c = Some (o, us) -> v ∈ take (GetNumArgsOf o) us -> v ∈ args_of b c.
Proof. intros Hc Hv. rewrite (core_args _ _ _ _ Hc). apply list_elem_of_lookup in Hv as [k Hk]. apply lookup_take_Some in Hk as [Hk _]. by eapply list_elem_of_lookup_2. Qed.
(** Environments that differ in the result of [i] only. *)
Record differ_at (i : nat) (r r' : result) (e e' : env) : Prop := {
  df_left : e !! i = Some r;
  df_right : e' !! i = Some r';
  df_other : forall j, j <> i -> e !! j = e' !! j
}.
Lemma differ_at_insert i r r' (e e' : env) c rc : c <> i -> differ_at i r r' e e' -> differ_at i r r' (<[c := rc]> e) (<[c := rc]> e').
Proof.
  intros Hc [H1 H2 H3]. constructor; [by rewrite lookup_insert_ne..|].
  intros j Hj. destruct (decide (j = c)) as [->|]; [by rewrite !lookup_insert_eq|]. rewrite !lookup_insert_ne by done. auto.
Qed.
Lemma alike_eval b i l r r' (e e' : env) c o us v : alike b i l r r' -> differ_at i r r' e e' -> c ∈ instructions b -> core b c = Some (o, us) ->
  v ∈ take (GetNumArgsOf o) us -> eval e v = eval e' v.
Proof.
  intros [Hal _] [He He' Hee] Hc Hco Hv. unfold eval. destruct v as [j|]; [|done]. simpl. destruct (decide (j = i)) as [->|]; [|by rewrite Hee].
  rewrite He, He'. simpl. destruct Hal as [Hv'|Hr]; [done|]. pose proof (take_In_args _ _ _ _ _ Hco Hv).
  assert (0 < refs b i)%nat by (apply refs_pos; eauto). lia.
Qed.
Lemma alike_run b i l r r' (e e' : env) s c o us : alike b i l r r' -> differ_at i r r' e e' -> c ∈ l -> c ∈ instructions b -> core b c = Some (o, us) ->
  run_inst e s o (take (GetNumArgsOf o) us) = run_inst e' s o (take (GetNumArgsOf o) us).
Proof.
  intros Hal Hd Hcl Hc Hco. apply run_inst_ext; [apply map_ext_in; intros v Hv%list_elem_of_In; by eapply alike_eval|].
  destruct Hal as [_ Hal], Hd as [He He' Hee]. intros Hp. destruct us as [|[j|] us]; [by rewrite take_nil| |by destruct (GetNumArgsOf o)].
  destruct (GetNumArgsOf o); [done|]. simpl. destruct (decide (j = i)) as [->|]; [|by rewrite Hee]. rewrite He, He'. simpl. by eapply Hal.
Qed.
Lemma exec_alike b i l r r' : (forall c, c ∈ l -> c ∈ instructions b /\ c <> i /\ exists o us, core b c = Some (o, us)) -> alike b i l r r' ->
  forall (e e' : env) s, differ_at i r r' e e' ->
  snd (exec (map (entry_of b) l) e s) = snd (exec (map (entry_of b) l) e' s) /\
  differ_at i r r' (fst (exec (map (entry_of b) l) e s)) (fst (exec (map (entry_of b) l) e' s)).
Proof.
  induction l as [|c l IH]; intros Hl Hal e e' s Hd; [done|]. simpl.
  destruct (Hl c ltac:(set_solver)) as (Hc & Hci & o & us & Hco). rewrite (entry_of_core _ _ _ _ Hco). simpl.
  rewrite (alike_run b i (c :: l) r r' e e' s c o us) by (try done; set_solver).
  destruct (run_inst e' s o (take (GetNumArgsOf o) us)) as [rc s']. apply IH; [|destruct Hal as [H1 H2]; split; [done|]|by apply differ_at_insert].
  - intros d Hd'. apply Hl. set_solver.
  - intros d p ud Hd'. apply H2. set_solver.
Qed.
Lemma entry_of_edited b b' i o' vs' l : edited b b' i o' vs' -> i ∉ l -> map (entry_of b') l = map (entry_of b) l.
Proof.
  intros Hed Hl. apply map_ext_in. intros j Hj%list_elem_of_In. assert (Hne : j <> i) by (intros ->; done).
  pose proof (ed_other _ _ _ _ _ Hed j Hne) as Hc. unfold entry_of, core, used_args, NumArgs in *. destruct (pool b' !! j), (pool b !! j); simplify_eq/=; [|done].
  by rewrite H0, H1.
Qed.
Section EditRun.
Context (b b' : Block) (pre post : list nat) (i : nat) (o o' : Opcode) (vs vs' : list Value).
Context (Hs : shape_ok b) (E : instructions b = pre ++ i :: post) (Hi : core b i = Some (o, vs)) (Hed : edited b b' i o' vs').
Abbreviation run e s o vs := (run_inst e s o (take (GetNumArgsOf o) vs)).
(** The edit is not noticed in the runs that get to it. *)
Context (Hrun : forall s0, let '(e, s) := exec (map (entry_of b) pre) ∅ s0 in
  snd (run e s o vs) = snd (run e s o' vs') /\ alike b i post (fst (run e s o vs)) (fst (run e s o' vs'))).
Lemma edit_exec l1 l2 s : post = l1 ++ l2 -> exists r r', alike b i post r r' /\
  snd (exec (map (entry_of b) (pre ++ i :: l1)) ∅ s) = snd (exec (map (entry_of b') (pre ++ i :: l1)) ∅ s) /\
  differ_at i r r' (fst (exec (map (entry_of b) (pre ++ i :: l1)) ∅ s)) (fst (exec (map (entry_of b') (pre ++ i :: l1)) ∅ s)).
Proof.
  intros El. pose proof (so_nodup b Hs) as Hn. rewrite E in Hn. apply NoDup_app in Hn as (_ & Hn1 & Hn2). apply NoDup_cons in Hn2 as [Hn2 _].
  assert (Hpre : i ∉ pre) by (intros H1; apply (Hn1 i H1); set_solver).
  rewrite !map_app, !map_cons, !exec_app, !(entry_of_edited b b' i o' vs') by (try done; set_solver).
  rewrite (entry_of_core _ _ _ _ Hi), (entry_of_core _ _ _ _ (ed_core _ _ _ _ _ Hed)).
  specialize (Hrun s). destruct (exec (map (entry_of b) pre) ∅ s) as [e s1]. simpl.
  destruct (run e s1 o vs) as [r s2], (run e s1 o' vs') as [r' s2']. simpl in Hrun. destruct Hrun as [-> Hal]. exists r, r'. split; [done|].
  apply exec_alike.
  - intros c Hc. assert (Hci : c ∈ instructions b) by (rewrite E; set_solver). split_and!; [done|intros ->; set_solver|].
    apply list_elem_of_split in Hci as (l & r0 & E'). destruct (so_inst b Hs _ _ _ E') as (? & ? & ? & _). eauto.
  - destruct Hal as [H1 H2]. split; [done|]. intros c p us Hc. apply H2. set_solver.
  - constructor; [by rewrite lookup_insert_eq..|]. intros j Hj. by rewrite !lookup_insert_ne.
Qed.
Lemma edit_run_reached s : run_block b' s = run_block b s.
Proof.
  destruct (edit_exec post [] s (eq_sym (app_nil_r _))) as (_ & _ & _ & Hsnd & _). unfold run_block, code. by rewrite (ed_list _ _ _ _ _ Hed), E.
Qed.
End EditRun.
Lemma edit_run b b' pre post i o vs o' vs' : shape_ok b -> instructions b = pre ++ i :: post -> core b i = Some (o, vs) -> edited b b' i o' vs' ->
  (forall e s, consistent b pre e -> let run o vs := run_inst e s o (take (GetNumArgsOf o) vs) in
     snd (run o vs) = snd (run o' vs') /\ alike b i post (fst (run o vs)) (fst (run o' vs'))) ->
  forall s, run_block b' s = run_block b s.
Proof.
  intros Hs E Hi Hed Hrun. eapply edit_run_reached; [exact Hs|exact E|exact Hi|exact Hed|]. intros s0.
  pose proof (exec_consistent b pre (i :: post) s0 Hs E) as He. unfold env_after in He. destruct (exec (map (entry_of b) pre) ∅ s0) as [e s]. by apply Hrun.
Qed.
End Exec.
