(* ===== verification/IrEdit.v ===== *)
(** The functions that change an instruction ([SetArg], [Invalidate],
    [ReplaceUsesWith]) succeed on well-formed blocks, change that instruction only, and
    keep the block well-formed. *)
From stdpp Require Import list.
From S2P Require Import Prelude Bits IrOpcodes A64Imm Ir IrSem IrWf.
Import Op(Opcode).
Local Open Scope nat_scope.

(** ** Changing one field *)
Lemma pool_update b j f k : pool (update j f b) !! k = if decide (j = k) then f <$> pool b !! j else pool b !! k.
Proof. apply lookup_alter. Qed.
(** Only use counts and pseudo-operations differ. *)
Definition same_core (b b' : Block) : Prop := instructions b' = instructions b /\ forall k, core b' k = core b k.
Lemma update_same_core b j f : (forall x, op (f x) = op x /\ args (f x) = args x) -> same_core b (update j f b).
Proof.
  intros Hf. split; [done|]. intros k. unfold core. rewrite pool_update. case_decide; [subst|done].
  destruct (pool b !! k) as [x|]; [|done]. simpl. by destruct (Hf x) as [-> ->].
Qed.
Lemma same_core_trans b1 b2 b3 : same_core b1 b2 -> same_core b2 b3 -> same_core b1 b3.
Proof. intros [E1 H1] [E2 H2]. split; [congruence|]. intros k. by rewrite H2. Qed.
Lemma same_core_resolve b b' v : same_core b b' -> resolve b' v = resolve b v.
Proof. intros [E H]. unfold resolve. rewrite E. by apply resolve_loop_core. Qed.
Lemma same_core_immediate b b' v : same_core b b' -> IsImmediate b' v = IsImmediate b v.
Proof. intros H. unfold IsImmediate. by rewrite (same_core_resolve _ _ _ H). Qed.
Lemma count_update b j f k : count (update j f b) k = match pool b !! k with Some x => use_count (if decide (j = k) then f x else x) | None => 0%Z end.
Proof. unfold count. rewrite pool_update. case_decide; [subst|]; by destruct (pool b !! _). Qed.
Lemma chain_update b j f k : chain (update j f b) k = match pool b !! k with Some x => pseudoops (if decide (j = k) then f x else x) | None => [] end.
Proof. unfold chain. rewrite pool_update. case_decide; [subst|]; by destruct (pool b !! _). Qed.

Definition one_if (c : Prop) `{Decision c} : Z := if decide c then 1%Z else 0%Z.
Lemma Use_spec b i j o vs y : core b i = Some (o, vs) -> pool b !! j = Some y ->
  (o = Op.GetNZCVFromOp -> MayGetNZCVFromOp (op y) = true) ->
  exists b', Use i (Ref j) b = Ret b' /\ same_core b b' /\ (forall k, count b' k = (count b k + one_if (k = j))%Z) /\
    forall c k, c ∈ chain b' k <-> c ∈ chain b k \/ (IsAPseudoOperation o = true /\ k = j /\ c = i).
Proof.
  intros (x & Hx & <- & <-)%core_pool Hj Hnz. unfold Use, GetInst, get_inst. simpl. rewrite Hx, Hj. simpl.
  set (b1 := update j _ b).
  assert (H1 : same_core b b1) by by apply update_same_core.
  assert (H2 : forall k, count b1 k = (count b k + one_if (k = j))%Z).
  { intros k. unfold b1. rewrite count_update. unfold count, one_if. destruct (pool b !! k) eqn:Hk; repeat case_decide; simpl; subst; try lia; congruence. }
  assert (H3 : forall k, chain b1 k = chain b k).
  { intros k. unfold b1. rewrite chain_update. unfold chain. destruct (pool b !! k); [|done]. by case_decide. }
  destruct (IsAPseudoOperation (op x)) eqn:Hp.
  - assert (Hass : negb (bool_decide (op x = Op.GetNZCVFromOp)) || MayGetNZCVFromOp (op y) = true).
    { case_bool_decide; simpl; auto. }
    rewrite Hass. clear Hass. simpl. eexists. split; [reflexivity|]. split_and!.
    + eapply same_core_trans; [exact H1|]. by apply update_same_core.
    + intros k. rewrite <- H2. rewrite count_update. unfold count. destruct (pool b1 !! k); [|done]. by destruct (decide (j = k)).
    + intros c k. rewrite chain_update. rewrite <- H3. unfold chain.
      assert (Hk : k = j -> is_Some (pool b1 !! k)). { intros ->. unfold b1. rewrite pool_update, decide_True, Hj by done. by eexists. }
      destruct (pool b1 !! k) eqn:Hk1; [|split; [set_solver|]; intros [?|(_ & Hkj & _)]; [set_solver|]; destruct (Hk Hkj); congruence].
      case_decide; simpl; [rewrite elem_of_app, list_elem_of_singleton; naive_solver|naive_solver].
  - simpl. eexists. split; [reflexivity|]. split_and!; auto. intros c k. rewrite H3. naive_solver.
Qed.
Lemma UndoUse_spec b i j o vs : core b i = Some (o, vs) -> is_Some (pool b !! j) -> (IsAPseudoOperation o = true -> i ∈ chain b j) ->
  exists b', UndoUse i (Ref j) b = Ret b' /\ same_core b b' /\ (forall k, count b' k = (count b k - one_if (k = j))%Z) /\
    forall c k, c ∈ chain b' k <-> c ∈ chain b k /\ ~ (IsAPseudoOperation o = true /\ k = j /\ c = i).
Proof.
  intros (x & Hx & <- & <-)%core_pool [y Hj] Hch. unfold UndoUse, GetInst, get_inst. simpl. rewrite Hx, Hj. simpl.
  set (b1 := update j _ b).
  assert (H1 : same_core b b1) by by apply update_same_core.
  assert (H2 : forall k, count b1 k = (count b k - one_if (k = j))%Z).
  { intros k. unfold b1. rewrite count_update. unfold count, one_if. destruct (pool b !! k) eqn:Hk; repeat case_decide; simpl; subst; try lia; congruence. }
  assert (H3 : forall k, chain b1 k = chain b k).
  { intros k. unfold b1. rewrite chain_update. unfold chain. destruct (pool b !! k); [|done]. by case_decide. }
  destruct (IsAPseudoOperation (op x)) eqn:Hp.
  - rewrite decide_True by (specialize (Hch eq_refl); unfold chain in Hch; by rewrite Hj in Hch).
    eexists. split; [reflexivity|]. split_and!.
    + eapply same_core_trans; [exact H1|]. by apply update_same_core.
    + intros k. rewrite <- H2. rewrite count_update. unfold count. destruct (pool b1 !! k); [|done]. by case_decide.
    + intros c k. rewrite chain_update. rewrite <- H3. unfold chain. destruct (pool b1 !! k) as [z|] eqn:Hk1; [|set_solver].
      case_decide; simpl; [|naive_solver]. rewrite !list_elem_of_In, filter_In, negb_true_iff, Nat.eqb_neq. naive_solver.
  - simpl. eexists. split; [reflexivity|]. split_and!; auto. intros c k. rewrite H3. naive_solver.
Qed.

(** ** Occurrences *)
Lemma occ_app j l r : occ j (l ++ r) = occ j l + occ j r.
Proof. unfold occ. by rewrite filter_app, length_app. Qed.
Lemma occ_void j n : occ j (replicate n ValueVoid) = 0.
Proof. induction n; [done|]. simpl. unfold occ in *. by rewrite filter_cons_False by done. Qed.
Lemma occ_ref j k : Z.of_nat (occ j [Ref k]) = one_if (j = k).
Proof. unfold occ, one_if. rewrite filter_cons. repeat case_decide; simplify_eq; done. Qed.
Lemma occ_imm j ty z : occ j [Imm ty z] = 0.
Proof. done. Qed.
Lemma occ_insert j k v old us : us !! k = Some old -> occ j (<[k := v]> us) + occ j [old] = occ j us + occ j [v].
Proof.
  intros Hk. pose proof (lookup_lt_Some _ _ _ Hk). rewrite insert_take_drop by done.
  rewrite <- (take_drop_middle us k old Hk) at 3. change (v :: drop (S k) us) with ([v] ++ drop (S k) us). change (old :: drop (S k) us) with ([old] ++ drop (S k) us).
  rewrite !occ_app. lia.
Qed.
Lemma pseudo_one_arg o : IsAPseudoOperation o = true -> GetNumArgsOf o = 1.
Proof. by destruct o. Qed.

(** ** Changing an instruction *)
Section Change.
Context (b : Block) (pre post : list nat) (i : nat) (o : Opcode) (vs : list Value).
Context (Hw : wf b) (E : instructions b = pre ++ i :: post) (Hi : core b i = Some (o, vs)).

Lemma the_inst_ok : inst_ok b pre o vs.
Proof. destruct (so_inst b (wf_shape b Hw) _ _ _ E) as (o' & vs' & Hc & Hok). rewrite Hi in Hc. by simplify_eq. Qed.
Lemma arg_refs_in k v : vs !! k = Some v -> refs_in pre v.
Proof. apply inst_ok_refs with b o, the_inst_ok. Qed.
Lemma pseudo_arg_0 k j : IsAPseudoOperation o = true -> vs !! k = Some (Ref j) -> k = 0.
Proof.
  intros Hp Hv. destruct k as [|k]; [done|]. pose proof (pseudo_one_arg o Hp).
  pose proof (io_rest _ _ _ _ the_inst_ok _ _ Hv ltac:(lia)). done.
Qed.
Lemma i_here : i ∈ instructions b.
Proof. rewrite E. set_solver. Qed.
Lemma block_inst j : j ∈ instructions b -> is_Some (pool b !! j).
Proof.
  intros (l & r & E')%list_elem_of_split. destruct (so_inst b (wf_shape b Hw) _ _ _ E') as (? & ? & (x & -> & _)%core_pool & _). by eexists.
Qed.

(** The first [k] arguments are dropped. *)
Record cleared (k : nat) (b1 : Block) : Prop := {
  cl_ed : edited b b1 i o (replicate k ValueVoid ++ drop k vs);
  cl_count : forall j, count b1 j = (count b j - uses_of b j (take k vs))%Z;
  cl_chain : forall c j, c ∈ chain b1 j <->
    c ∈ chain b j /\ ~ (IsAPseudoOperation o = true /\ c = i /\ Ref j ∈ take k vs /\ IsImmediate b (Ref j) = false)
}.
Lemma uses_of_app j l r : uses_of b j (l ++ r) = (uses_of b j l + uses_of b j r)%Z.
Proof. unfold uses_of. destruct (IsImmediate _ _); rewrite ?occ_app; lia. Qed.
Lemma uses_of_imm j v : IsImmediate b v = true -> uses_of b j [v] = 0%Z.
Proof. intros Hv. unfold uses_of. destruct v as [k|]; [|rewrite occ_imm; by destruct (IsImmediate b (Ref j))]. destruct (decide (j = k)) as [->|]; [by rewrite Hv|].
  rewrite occ_ref. unfold one_if. rewrite decide_False by done. by destruct (IsImmediate b (Ref j)). Qed.
Lemma uses_of_ref j k : IsImmediate b (Ref k) = false -> uses_of b j [Ref k] = one_if (j = k).
Proof. intros Hv. unfold uses_of. rewrite occ_ref. unfold one_if. case_decide; [subst; by rewrite Hv|]. by destruct (IsImmediate b (Ref j)). Qed.
Lemma edited_same b1 b2 vs1 o1 : edited b b1 i o1 vs1 -> same_core b1 b2 -> edited b b2 i o1 vs1.
Proof. intros [H1 H2 H3] [H4 H5]. constructor; [congruence| |by rewrite H5]. intros. rewrite H5. auto. Qed.
Lemma edited_update b1 vs1 o1 f o2 vs2 : edited b b1 i o1 vs1 -> (forall x, op x = o1 -> args x = vs1 -> op (f x) = o2 /\ args (f x) = vs2) ->
  edited b (update i f b1) i o2 vs2.
Proof.
  intros [H1 H2 H3] Hf. constructor; [done| |].
  - intros j Hj. rewrite <- H2 by done. unfold core. rewrite pool_update. by rewrite decide_False by congruence.
  - destruct (core_pool _ _ _ _ H3) as (x & Hx & <- & <-). unfold core. rewrite pool_update, decide_True, Hx by done. simpl. by destruct (Hf x eq_refl eq_refl) as [-> ->].
Qed.
Lemma cleared_immediate k b1 v : cleared k b1 -> refs_in pre v -> IsImmediate b1 v = IsImmediate b v.
Proof.
  intros Hc Hv. unfold IsImmediate. rewrite (edit_resolve_pre b b1 pre post i o _ (wf_shape b Hw) E (cl_ed _ _ Hc)); [done| |done].
  intros _. destruct k as [|k]; [|by eexists]. simpl. rewrite drop_0. destruct (lookup_lt_is_Some_2 vs 0) as [u Hu]; [|exists u; eauto using arg_refs_in].
  rewrite (io_len _ _ _ _ the_inst_ok). unfold max_arg_count. lia.
Qed.
Lemma clear_step k b1 v : cleared k b1 -> vs !! k = Some v ->
  exists b2, (if IsImmediate b1 v then Ret b1 else UndoUse i v b1) = Ret b2 /\
    cleared (S k) (update i (fun x => with_args (<[k := ValueVoid]> (args x)) x) b2).
Proof.
  intros Hc Hv. pose proof (arg_refs_in k v Hv) as Hr. rewrite (cleared_immediate k b1 v Hc Hr).
  set (f := fun x => with_args (<[k := ValueVoid]> (args x)) x).
  pose proof (lookup_lt_Some _ _ _ Hv) as Hlt.
  assert (Hargs : <[k := ValueVoid]> (replicate k ValueVoid ++ drop k vs) = replicate (S k) ValueVoid ++ drop (S k) vs).
  { rewrite (drop_S vs v k Hv), insert_app_r_alt by (rewrite length_replicate; lia). rewrite length_replicate, Nat.sub_diag.
    rewrite (replicate_S_end k ValueVoid). simpl. by rewrite <- app_assoc. }
  assert (Hf : forall b2, same_core b1 b2 -> edited b (update i f b2) i o (replicate (S k) ValueVoid ++ drop (S k) vs)).
  { intros b2 Hsc. eapply edited_update; [eapply edited_same; [apply (cl_ed _ _ Hc)|done]|]. intros x <- Hax. unfold f. simpl. by rewrite Hax, Hargs. }
  assert (Hcnt : forall b2 j, count (update i f b2) j = count b2 j).
  { intros b2 j. rewrite count_update. unfold count. destruct (pool b2 !! j); [|done]. by destruct (decide (i = j)). }
  assert (Hch : forall b2 j, chain (update i f b2) j = chain b2 j).
  { intros b2 j. rewrite chain_update. unfold chain. destruct (pool b2 !! j); [|done]. by destruct (decide (i = j)). }
  destruct (IsImmediate b v) eqn:Hiv.
  - exists b1. split; [done|]. constructor; [by apply Hf| |].
    + intros j. rewrite Hcnt, (cl_count _ _ Hc), (take_S_r _ _ v Hv), uses_of_app, (uses_of_imm j v Hiv). lia.
    + intros c j. rewrite Hch, (cl_chain _ _ Hc), (take_S_r _ _ v Hv).
      split; intros [H1 H2]; (split; [done|]; intros (? & ? & Hin & ?); apply H2; split_and!; auto).
      * apply elem_of_app in Hin as [|Hin%list_elem_of_singleton]; [done|]. subst v. congruence.
      * set_solver.
  - destruct v as [j0|]; [|unfold IsImmediate in Hiv; by rewrite resolve_imm in Hiv].
    destruct (UndoUse_spec b1 i j0 o _ (ed_core _ _ _ _ _ (cl_ed _ _ Hc))) as (b2 & Hu & Hsc & Hc2 & Hch2).
    { assert (Hj0 : j0 ∈ pre) by done. destruct (decide (j0 = i)) as [->|Hne]; [destruct (core_pool _ _ _ _ (ed_core _ _ _ _ _ (cl_ed _ _ Hc))) as (y & -> & _); by eexists|].
      destruct (block_inst j0 ltac:(rewrite E; set_solver)) as [y Hy]. pose proof (ed_other _ _ _ _ _ (cl_ed _ _ Hc) j0 Hne) as Hcj.
      rewrite (pool_core _ _ _ Hy) in Hcj. apply core_pool in Hcj as (z & -> & _). by eexists. }
    { intros Hp. pose proof (pseudo_arg_0 k j0 Hp Hv) as ->. apply (cl_chain _ _ Hc). split; [|intros (_ & _ & Hin & _); simpl in Hin; set_solver].
      apply (bk_fwd b (wf_book b Hw)); [|done]. exists o, vs. split_and!; auto. apply i_here. }
    exists b2. split; [done|]. constructor; [by apply Hf| |].
    + intros j. rewrite Hcnt, Hc2, (cl_count _ _ Hc), (take_S_r _ _ _ Hv), uses_of_app, (uses_of_ref j j0 Hiv). lia.
    + intros c j. rewrite Hch, Hch2, (cl_chain _ _ Hc), (take_S_r _ _ _ Hv). rewrite elem_of_app, list_elem_of_singleton.
      destruct (decide (j = j0)) as [->|]; naive_solver.
Qed.
Lemma cleared_0 : cleared 0 b.
Proof.
  constructor; [constructor; done| |].
  - intros j. unfold uses_of. simpl. destruct (IsImmediate _ _); unfold occ; simpl; lia.
  - intros c j. simpl. set_solver.
Qed.
Lemma ClearArgs_from_spec n k b1 : k + n = length vs -> cleared k b1 -> exists b2, ClearArgs_from i (seq k n) b1 = Ret b2 /\ cleared (length vs) b2.
Proof.
  revert k b1. induction n as [|n IH]; intros k b1 Hk Hc; simpl.
  { exists b1. split; [done|]. by replace (length vs) with k by lia. }
  destruct (lookup_lt_is_Some_2 vs k ltac:(lia)) as [v Hv].
  destruct (clear_step k b1 v Hc Hv) as (b2 & Hu & Hc2).
  destruct (core_pool _ _ _ _ (ed_core _ _ _ _ _ (cl_ed _ _ Hc))) as (x & Hx & _ & Hax).
  unfold get_inst. rewrite Hx. simpl. rewrite Hax, app_nth2; rewrite length_replicate; [|lia]. rewrite Nat.sub_diag, (drop_S vs v k Hv). simpl. rewrite Hu. simpl.
  apply IH; [lia|done].
Qed.

(** The whole of it, as [edit_wf] needs it. *)
Abbreviation leaves := (leaves_chain b i o vs).
Record changed (b' : Block) (o' : Opcode) (vs' : list Value) : Prop := {
  ch_ed : edited b b' i o' vs';
  ch_count : forall j, count b' j = (count b j - uses_of b j vs + uses_of b j vs')%Z;
  ch_chain : forall c j, c ∈ chain b' j <-> c ∈ chain b j /\ ~ leaves c j
}.
Lemma changed_wf b' o' vs' : changed b' o' vs' -> inst_ok b pre o' vs' -> IsAPseudoOperation o' = false ->
  o' = o \/ o' = Op.Identity \/ o' = Op.Void -> keeps b b' i ->
  (forall j, Ref j ∈ vs' -> IsImmediate b (Ref j) = true -> (0 < count b j)%Z) -> wf b'.
Proof.
  intros [H1 H2 H3] Hok Hps Hop Hk Hkn. eapply (edit_wf b b' pre post i o o' vs vs'); eauto; apply Hw.
Qed.
Lemma leaves_take c j : leaves c j <-> IsAPseudoOperation o = true /\ c = i /\ Ref j ∈ vs /\ IsImmediate b (Ref j) = false.
Proof.
  unfold leaves_chain. split; intros (Hp & -> & Hv & Him); split_and!; auto; [by eapply list_elem_of_lookup_2|].
  apply list_elem_of_lookup in Hv as [k Hk]. by rewrite <- (pseudo_arg_0 k j Hp Hk).
Qed.
Lemma vs_length : length vs = 4.
Proof. apply the_inst_ok. Qed.
Lemma uses_of_void j n : uses_of b j (replicate n ValueVoid) = 0%Z.
Proof. unfold uses_of. rewrite occ_void. by destruct (IsImmediate b (Ref j)). Qed.
Lemma count_with_op b1 o1 j : count (update i (with_op o1) b1) j = count b1 j.
Proof. rewrite count_update. unfold count. destruct (pool b1 !! j); [|done]. by destruct (decide (i = j)). Qed.
Lemma chain_with_op b1 o1 j : chain (update i (with_op o1) b1) j = chain b1 j.
Proof. rewrite chain_update. unfold chain. destruct (pool b1 !! j); [|done]. by destruct (decide (i = j)). Qed.
Lemma Invalidate_changed : exists b', Invalidate i b = Ret b' /\ changed b' Op.Void (replicate 4 ValueVoid).
Proof.
  destruct (ClearArgs_from_spec 4 0 b ltac:(rewrite vs_length; lia) cleared_0) as (b1 & Hb1 & Hc).
  unfold Invalidate, ClearArgs. change (seq 0 max_arg_count) with (seq 0 4). rewrite Hb1. cbn [obind]. eexists. split; [reflexivity|].
  rewrite vs_length in Hc. destruct Hc as [H1 H2 H3]. rewrite drop_ge, app_nil_r in H1 by (rewrite vs_length; lia).
  rewrite take_ge in H2, H3 by (rewrite vs_length; lia). constructor.
  - eapply edited_update; [exact H1|]. intros x _ Hx. by rewrite <- Hx.
  - intros j. rewrite count_with_op, H2, uses_of_void. lia.
  - intros c j. rewrite chain_with_op, H3, leaves_take. done.
Qed.
Lemma void_ok : inst_ok b pre Op.Void (replicate 4 ValueVoid).
Proof.
  constructor; [done| | |done]; intros k v Hv Hk; [by inversion Hk|]. by apply lookup_replicate in Hv as [-> _].
Qed.
Lemma Invalidate_spec : refs b i = 0 -> exists b', Invalidate i b = Ret b' /\ edited b b' i Op.Void (replicate 4 ValueVoid) /\ wf b'.
Proof.
  intros Hr. destruct Invalidate_changed as (b' & Hb' & Hc). exists b'. split_and!; [done|apply Hc|]. eapply changed_wf; eauto using void_ok.
  { eapply keeps_dead; [apply Hw|exact E|exact Hi|apply Hc|apply void_ok|done]. }
  intros j Hj. simpl in Hj. set_solver.
Qed.

Context (Ho : o <> Op.Identity) (v : Value) (Hv : refs_in pre v) (Hvi : imm_ok v) (Hknown : forall j, v = Ref j -> IsImmediate b (Ref j) = true -> (0 < count b j)%Z).
(** Registering the use of [v] in a block in which [i] is no pseudo-operation. *)
Lemma use_step b1 o1 vs1 : edited b b1 i o1 vs1 -> IsAPseudoOperation o1 = false -> IsImmediate b1 v = IsImmediate b v ->
  exists b2, (if IsImmediate b1 v then Ret b1 else Use i v b1) = Ret b2 /\ same_core b1 b2 /\
    (forall j, count b2 j = (count b1 j + uses_of b j [v])%Z) /\ forall c j, c ∈ chain b2 j <-> c ∈ chain b1 j.
Proof.
  intros Hed Hps Him. rewrite Him. destruct (IsImmediate b v) eqn:Hiv.
  { exists b1. split_and!; [done|split; done| |done]. intros j. rewrite (uses_of_imm j v Hiv). lia. }
  destruct v as [k|]; [|unfold IsImmediate in Hiv; by rewrite resolve_imm in Hiv].
  assert (Hne : k <> i). { intros ->. simpl in Hv. pose proof (so_nodup b (wf_shape b Hw)) as Hn. rewrite E in Hn. apply NoDup_app in Hn as (_ & Hn & _). apply (Hn i Hv). set_solver. }
  destruct (block_inst k ltac:(rewrite E; simpl in Hv; set_solver)) as [y Hy].
  assert (exists z, pool b1 !! k = Some z) as [z Hz].
  { pose proof (ed_other _ _ _ _ _ Hed k Hne) as Hck. rewrite (pool_core _ _ _ Hy) in Hck. apply core_pool in Hck as (z & ? & _). eauto. }
  destruct (Use_spec b1 i k o1 vs1 z (ed_core _ _ _ _ _ Hed) Hz) as (b2 & Hu & Hsc & Hcn & Hch); [intros ->; discriminate|].
  exists b2. split_and!; [done|done| |].
  - intros j. by rewrite Hcn, uses_of_ref.
  - intros c j. rewrite Hch, Hps. naive_solver.
Qed.
Lemma ReplaceUsesWith_spec : GetType b v = GetTypeOf o ->
  exists b', ReplaceUsesWith i v b = Ret b' /\ changed b' Op.Identity (v :: replicate 3 ValueVoid) /\ wf b'.
Proof.
  intros Hty. destruct Invalidate_changed as (b1 & Hb1 & [H1 H2 H3]). unfold ReplaceUsesWith. rewrite Hb1. cbn [obind]. set (b2 := update i (with_op Op.Identity) b1).
  assert (Hed2 : edited b b2 i Op.Identity (replicate 4 ValueVoid)) by (eapply edited_update; [exact H1|]; intros x _ Hx; by rewrite <- Hx).
  assert (Him : IsImmediate b2 v = IsImmediate b v).
  { unfold IsImmediate. rewrite (edit_resolve_pre b b2 pre post i _ _ (wf_shape b Hw) E Hed2); [done|by eexists|done]. }
  destruct (use_step b2 Op.Identity _ Hed2 eq_refl Him) as (b3 & Hb3 & Hsc & Hcn & Hch). rewrite Hb3. cbn [obind]. eexists. split; [reflexivity|].
  set (f := fun x => with_args (<[0 := v]> (args x)) x). set (b' := update i f b3).
  assert (Hc : changed b' Op.Identity (v :: replicate 3 ValueVoid)).
  { constructor.
    - eapply edited_update; [eapply edited_same; [exact Hed2|exact Hsc]|]. intros x Hx Hax. unfold f. simpl. by rewrite Hx, Hax.
    - intros j. unfold b'. rewrite count_update. change (v :: replicate 3 ValueVoid) with ([v] ++ replicate 3 ValueVoid). rewrite uses_of_app, uses_of_void.
      transitivity (count b3 j); [unfold count; destruct (pool b3 !! j); [|done]; by destruct (decide (i = j))|].
      rewrite Hcn. unfold b2. rewrite count_with_op, H2, uses_of_void. lia.
    - intros c j. rewrite <- H3, <- (chain_with_op b1 Op.Identity). fold b2. rewrite <- Hch. unfold b'. rewrite chain_update. unfold chain.
      destruct (pool b3 !! j); [|done]. by destruct (decide (i = j)). }
  split; [exact Hc|].
  assert (Hok : inst_ok b pre Op.Identity (v :: replicate 3 ValueVoid)).
  { constructor; [done| | |done].
    - intros k u Hu Hk. assert (k = 0) as -> by (vm_compute in Hk; lia). simpl in Hu. simplify_eq. split_and!; auto. unfold AreTypesCompatible. simpl. by rewrite orb_true_r.
    - intros k u Hu Hk. vm_compute in Hk. destruct k as [|k]; [lia|]. simpl in Hu. by apply (lookup_replicate_1 3) in Hu as [-> _]. }
  eapply changed_wf; [exact Hc|exact Hok|done|auto| |].
  - pose proof (ch_ed _ _ _ Hc) as Hed. eapply keeps_type; [apply Hw|exact E|exact Hi|exact Hed|exact Hok|done|].
    assert (Hid : Op.Identity = Op.Identity -> exists u, (v :: replicate 3 ValueVoid) !! 0 = Some u /\ refs_in pre u) by eauto.
    pose proof (edit_closed b b' pre post i Op.Identity _ (wf_shape b Hw) E Hed Hid) as Hcl.
    transitivity (GetType b' v).
    { unfold GetType. by rewrite (proj1 (resolve_identity b' Hcl i _ v pre post ltac:(by rewrite (ed_list _ _ _ _ _ Hed)) (ed_core _ _ _ _ _ Hed) eq_refl)). }
    rewrite (edit_type_pre b b' pre post i _ _ (wf_shape b Hw) E Hed Hid v Hv), Hty. unfold GetType. rewrite resolve_ref; by rewrite (core_opcode _ _ _ _ Hi).
  - intros j Hj. apply elem_of_cons in Hj as [Hj|Hj]; [by apply Hknown|]. simpl in Hj. set_solver.
Qed.
Lemma SetArg_spec k : IsAPseudoOperation o = false -> k < GetNumArgsOf o -> AreTypesCompatible (GetType b v) (GetArgTypeOf o k) = true ->
  exists b', SetArg i k v b = Ret b' /\ changed b' o (<[k := v]> vs) /\ wf b'.
Proof.
  intros Hps Hk Hty. destruct (core_pool _ _ _ _ Hi) as (x & Hx & Hxo & Hxa).
  unfold SetArg, get_inst, NumArgs. rewrite Hx. simpl. rewrite Hxo, Hxa, Hty. rewrite (proj2 (Nat.ltb_lt _ _) Hk).
  assert (Hkm : k < length vs).
  { rewrite vs_length. assert (GetNumArgsOf o <= 4) by (clear; destruct o; vm_compute; lia). lia. }
  cbn [obind assert_that].
  destruct (lookup_lt_is_Some_2 vs k Hkm) as [old Hold]. rewrite (nth_lookup_Some _ _ _ _ Hold).
  assert (exists b1, (if IsImmediate b old then Ret b else UndoUse i old b) = Ret b1 /\ same_core b b1 /\ (forall j, count b1 j = (count b j - uses_of b j [old])%Z) /\
    forall c j, c ∈ chain b1 j <-> c ∈ chain b j) as (b1 & Hb1 & Hsc & Hcn & Hch).
  { destruct (IsImmediate b old) eqn:Hio.
    - exists b. split_and!; [done|split; done| |done]. intros j. rewrite (uses_of_imm j old Hio). lia.
    - destruct old as [j0|]; [|unfold IsImmediate in Hio; by rewrite resolve_imm in Hio].
      destruct (UndoUse_spec b i j0 o vs Hi) as (b1 & Hu & Hsc & Hc2 & Hch2); [apply block_inst; rewrite E; pose proof (arg_refs_in k _ Hold); simpl in *; set_solver|congruence|].
      exists b1. split_and!; [done|done| |].
      + intros j. by rewrite Hc2, uses_of_ref.
      + intros c j. rewrite Hch2, Hps. naive_solver. }
  rewrite Hb1. simpl. assert (Hed1 : edited b b1 i o vs). { destruct Hsc as [H1 H2]. constructor; [done|done|]. by rewrite H2. }
  destruct (use_step b1 o vs Hed1 Hps (same_core_immediate _ _ _ Hsc)) as (b2 & Hb2 & Hsc2 & Hcn2 & Hch2). rewrite Hb2. simpl.
  eexists. split; [reflexivity|]. set (f := fun x => with_args (<[k := v]> (args x)) x). set (b' := update i f b2).
  assert (Hc : changed b' o (<[k := v]> vs)).
  { constructor.
    - eapply edited_update; [eapply edited_same; [exact Hed1|exact Hsc2]|]. intros y Hy Hay. unfold f. simpl. by rewrite Hy, Hay.
    - intros j. unfold b'. rewrite count_update. transitivity (count b2 j); [unfold count; destruct (pool b2 !! j); [|done]; by destruct (decide (i = j))|].
      rewrite Hcn2, Hcn. pose proof (occ_insert j k v old vs Hold). unfold uses_of. destruct (IsImmediate b (Ref j)); lia.
    - intros c j. unfold leaves_chain. rewrite Hps. transitivity (c ∈ chain b j); [|naive_solver]. rewrite <- Hch, <- Hch2. unfold b'. rewrite chain_update. unfold chain.
      destruct (pool b2 !! j); [|done]. by destruct (decide (i = j)). }
  split; [exact Hc|].
  assert (Hok : inst_ok b pre o (<[k := v]> vs)).
  { pose proof the_inst_ok as [H1 H2 H3 H4]. constructor; [by rewrite length_insert| | |by rewrite Hps].
    + intros k' u Hu Hk'. apply list_lookup_insert_Some in Hu as [(-> & <- & _)|(Hne & Hu)]; [|by apply H2]. by split_and!.
    + intros k' u Hu Hk'. apply list_lookup_insert_Some in Hu as [(-> & <- & _)|(Hne & Hu)]; [lia|]. eauto. }
  eapply changed_wf; [exact Hc|exact Hok|done|auto| |].
  - eapply keeps_type; [apply Hw|exact E|exact Hi|apply Hc|exact Hok|done|]. unfold GetType.
    rewrite !resolve_ref; rewrite ?(core_opcode _ _ _ _ (ed_core _ _ _ _ _ (ch_ed _ _ _ Hc))), ?(core_opcode _ _ _ _ Hi); done.
  - intros j Hj. apply list_elem_of_lookup in Hj as [n' Hj]. apply list_lookup_insert_Some in Hj as [(-> & Hj & _)|(Hne & Hj)]; [by apply Hknown|].
    intros Him. apply (bk_imm b (wf_book b Hw) j); [|done|].
    + rewrite E. pose proof (arg_refs_in _ _ Hj). simpl in *. set_solver.
    + apply refs_pos. exists i. split; [apply i_here|]. rewrite (core_args _ _ _ _ Hi). by eapply list_elem_of_lookup_2.
Qed.
End Change.
