(* ===== verification/IrFold.v ===== *)
(** Replacing an instruction by a value or giving it other arguments: when this keeps
    what a block does.  The lemmas the optimisation passes are proved with. *)
From stdpp Require Import list.
From S2P Require Import Prelude Bits IrOpcodes A64Imm Ir IrSem IrWf IrExec IrEdit.
Import Op(Opcode).
Local Open Scope nat_scope.

(** Instruction [i] of a well-formed block, the instructions before and after it. *)
Record at_inst (b : Block) (pre post : list nat) (i : nat) (o : Opcode) (vs : list Value) : Prop := {
  ai_wf : wf b;
  ai_list : instructions b = pre ++ i :: post;
  ai_core : core b i = Some (o, vs)
}.
(** A value that can become an argument of an instruction after [pre]. *)
Record usable (b : Block) (pre : list nat) (v : Value) : Prop := {
  us_refs : refs_in pre v;
  us_imm : imm_ok v;
  us_count : forall j, v = Ref j -> IsImmediate b (Ref j) = true -> (0 < count b j)%Z
}.
Lemma usable_imm b pre ty z : ty <> Ty.Void -> ty <> Ty.Opaque -> tv_ok (ty, z) -> usable b pre (Imm ty z).
Proof. by constructor. Qed.
Lemma usable_sub b l pre v : usable b l v -> l ⊆ pre -> usable b pre v.
Proof. intros [H1 H2 H3] Hl. constructor; auto. destruct v; simpl in *; auto. Qed.
Lemma AreTypesCompatible_exact t1 t2 : AreTypesCompatible t1 t2 = true -> t1 <> Ty.Opaque -> t2 <> Ty.Opaque -> t1 = t2.
Proof. unfold AreTypesCompatible. intros H ? ?. repeat case_bool_decide; simpl in *; congruence. Qed.
Lemma AreTypesCompatible_refl t : AreTypesCompatible t t = true.
Proof. unfold AreTypesCompatible. by rewrite bool_decide_true. Qed.

Section Operands.
Context (b : Block) (pre post : list nat) (i : nat) (o : Opcode) (vs : list Value) (Ha : at_inst b pre post i o vs).
Lemma ai_ok : inst_ok b pre o vs.
Proof. destruct Ha. by eapply the_inst_ok. Qed.
Lemma num_args_4 o' : GetNumArgsOf o' <= 4.
Proof. destruct o'; vm_compute; lia. Qed.
Lemma arg_usable k v : vs !! k = Some v -> k < GetNumArgsOf o -> usable b pre v.
Proof.
  intros Hv Hk. destruct (io_arg _ _ _ _ ai_ok k v Hv Hk) as (H1 & H2 & H3). constructor; [done|done|]. intros j -> Him.
  apply (bk_imm b (wf_book b (ai_wf _ _ _ _ _ _ Ha)) j); [|done|].
  - rewrite (ai_list _ _ _ _ _ _ Ha). simpl in H1. set_solver.
  - apply refs_pos. exists i. rewrite (ai_list _ _ _ _ _ _ Ha), (core_args _ _ _ _ (ai_core _ _ _ _ _ _ Ha)). split; [set_solver|]. by eapply list_elem_of_lookup_2.
Qed.
Lemma operand k : k < GetNumArgsOf o ->
  exists v, vs !! k = Some v /\ GetArg b i k = Ret v /\ usable b pre v /\ AreTypesCompatible (GetType b v) (GetArgTypeOf o k) = true.
Proof.
  intros Hk. destruct (inst_ok_arg _ _ _ _ k ai_ok Hk) as (v & Hv & Hok); [pose proof (num_args_4 o); unfold max_arg_count; lia|].
  exists v. pose proof (arg_usable k v Hv Hk) as Hu. split_and!; auto; [|apply Hok].
  destruct (core_pool _ _ _ _ (ai_core _ _ _ _ _ _ Ha)) as (x & Hx & Hxo & Hxa). unfold GetArg, get_inst, NumArgs. rewrite Hx. cbn [obind]. rewrite Hxo, Hxa.
  rewrite (proj2 (Nat.ltb_lt _ _) Hk). cbn [obind assert_that]. rewrite (nth_lookup_Some _ _ _ _ Hv).
  assert (IsEmpty v = false) as ->; [|done]. destruct Hok as (_ & Hi & _). destruct v as [j|[] z]; simpl in *; try done. tauto.
Qed.
Lemma type_not_opaque v : refs_in pre v -> imm_ok v -> GetType b v <> Ty.Opaque.
Proof.
  intros Hv Hi. pose proof (wf_shape b (ai_wf _ _ _ _ _ _ Ha)) as Hs. pose proof (pre_here b pre (i :: post) v (ai_list _ _ _ _ _ _ Ha) Hv) as Hh.
  pose proof (resolve_imm_ok b v Hs Hh Hi) as Hri. destruct (resolve_prefix b (shape_closed b Hs) pre (i :: post) v (ai_list _ _ _ _ _ _ Ha) Hv) as [_ Hst].
  unfold GetType. destruct (resolve b v) as [j|]; [|simpl in Hri; tauto]. intros Hop. by apply opaque_identity in Hop.
Qed.
Lemma operand_type v ty : usable b pre v -> AreTypesCompatible (GetType b v) ty = true -> ty <> Ty.Opaque -> GetType b v = ty.
Proof. intros [H1 H2 _] Ht Hne. apply AreTypesCompatible_exact; auto. by apply type_not_opaque. Qed.
Lemma immediate_value v ty : usable b pre v -> GetType b v = ty -> IsImmediate b v = true -> exists z, resolve b v = Imm ty z /\ tv_ok (ty, z).
Proof.
  intros [H1 H2 _] Ht Him. pose proof (wf_shape b (ai_wf _ _ _ _ _ _ Ha)) as Hs. pose proof (pre_here b pre (i :: post) v (ai_list _ _ _ _ _ _ Ha) H1) as Hh.
  pose proof (resolve_imm_ok b v Hs Hh H2) as Hri. unfold IsImmediate, GetType in *. destruct (resolve b v) as [|ty' z] eqn:Hr; [done|]. subst ty'.
  exists z. split; [done|]. apply Hri.
Qed.
Lemma GetOpcode_at : GetOpcode b i = Ret o.
Proof. destruct (core_pool _ _ _ _ (ai_core _ _ _ _ _ _ Ha)) as (x & Hx & <- & _). unfold GetOpcode, get_inst. by rewrite Hx. Qed.
Lemma AllArgs_at : AreAllArgsImmediates b i = Ret (forallb (IsImmediate b) (take (GetNumArgsOf o) vs)).
Proof. destruct (core_pool _ _ _ _ (ai_core _ _ _ _ _ _ Ha)) as (x & Hx & <- & <-). unfold AreAllArgsImmediates, get_inst. by rewrite Hx. Qed.

(** Other instructions: the one a value stands for. *)
Lemma inner_at v j : usable b pre v -> resolve b v = Ref j -> exists pre' post' o' vs', at_inst b pre' post' j o' vs' /\ o' <> Op.Identity /\ pre' ⊆ pre.
Proof.
  intros [H1 _ _] Hr. pose proof (wf_shape b (ai_wf _ _ _ _ _ _ Ha)) as Hs.
  destruct (resolve_prefix b (shape_closed b Hs) pre (i :: post) v (ai_list _ _ _ _ _ _ Ha) H1) as [Hin Hst]. rewrite Hr in Hin, Hst. simpl in Hin.
  apply list_elem_of_split in Hin as (l & r & ->). assert (El : instructions b = l ++ j :: r ++ i :: post) by (rewrite (ai_list _ _ _ _ _ _ Ha); by simplify_list_eq).
  destruct (so_inst b Hs _ _ _ El) as (o' & vs' & Hc & _). exists l, (r ++ i :: post), o', vs'. split_and!.
  - constructor; [apply Ha|done|done].
  - by rewrite (core_opcode _ _ _ _ Hc) in Hst.
  - set_solver.
Qed.
End Operands.

(** ** Steps that keep what a block does *)
Section Sound.
Context {St : Type} `{IRSem St}.
Abbreviation env := (gmap nat result).
Definition sound (b b' : Block) : Prop := wf b' /\ instructions b' = instructions b /\ forall s, run_block b' s = run_block b s.
Lemma sound_refl b : wf b -> sound b b.
Proof. intros Hw. split_and!; [exact Hw|reflexivity|reflexivity]. Qed.
Lemma sound_trans b1 b2 b3 : sound b1 b2 -> sound b2 b3 -> sound b1 b3.
Proof. intros (H1 & E1 & R1) (H2 & E2 & R2). split_and!; [done|congruence|]. intros s. by rewrite R2. Qed.

Section Inst.
Context (b : Block) (pre post : list nat) (i : nat) (o : Opcode) (vs : list Value).
Context (Ha : at_inst b pre post i o vs) (Ho : o <> Op.Identity).

(** The values of operands. *)
Lemma eval_imm e v ty z : consistent b pre e -> refs_in pre v -> resolve b v = Imm ty z -> eval e v = (ty, z).
Proof. intros He Hv Hr. destruct Ha as [Hw E _]. rewrite <- (eval_resolve b (wf_shape b Hw) pre (i :: post) E e He v Hv). by rewrite Hr. Qed.
Lemma eval_typed e v ty : consistent b pre e -> usable b pre v -> GetType b v = ty -> exists z, eval e v = (ty, z) /\ tv_ok (ty, z).
Proof.
  intros He [H1 H2 _] Ht. destruct Ha as [Hw E _]. pose proof (eval_type b (wf_shape b Hw) pre (i :: post) E e He v H1) as Hty.
  pose proof (eval_ok b (wf_shape b Hw) pre (i :: post) E e He v H1 H2) as Hok. destruct (eval e v) as [t z]. simpl in *. subst. exists z. done.
Qed.
(** A value that stands for an integer operation. *)
Lemma eval_inner e v j o' vs' : consistent b pre e -> refs_in pre v -> resolve b v = Ref j -> core b j = Some (o', vs') ->
  forall z, pure o' (map (eval e) (take (GetNumArgsOf o') vs')) = Some z -> eval e v = (GetTypeOf o', z).
Proof.
  intros He Hv Hr Hc z Hp. destruct Ha as [Hw E _].
  destruct (resolve_ref_result b (wf_shape b Hw) pre (i :: post) E e He v j Hv Hr) as (o2 & vs2 & s & Hc2 & _ & _ & ->). rewrite Hc in Hc2. simplify_eq.
  by rewrite (run_inst_pure _ _ _ _ _ Hp).
Qed.

(** Giving an instruction another argument. *)
Lemma changed_usable b' o' vs' v : changed b i o vs b' o' vs' -> (o' = Op.Identity -> exists u, vs' !! 0 = Some u /\ refs_in pre u) ->
  usable b pre v -> usable b' pre v.
Proof using Ha.
  intros [H1 H2 _] Hid [U1 U2 U3]. destruct Ha as [Hw E _]. constructor; [done|done|]. intros j -> Him.
  assert (Him0 : IsImmediate b (Ref j) = true).
  { unfold IsImmediate in *. by rewrite <- (edit_resolve_pre b b' pre post i o' vs' (wf_shape b Hw) E H1 Hid). }
  rewrite H2. unfold uses_of. rewrite Him0. specialize (U3 j eq_refl Him0). lia.
Qed.
Lemma SetArg_at k v : IsAPseudoOperation o = false -> k < GetNumArgsOf o -> usable b pre v -> AreTypesCompatible (GetType b v) (GetArgTypeOf o k) = true ->
  exists b', SetArg i k v b = Ret b' /\ changed b i o vs b' o (<[k := v]> vs) /\ at_inst b' pre post i o (<[k := v]> vs).
Proof using Ha Ho.
  intros Hp Hk [U1 U2 U3] Ht. destruct Ha as [Hw E Hi].
  destruct (SetArg_spec b pre post i o vs Hw E Hi Ho v U1 U2 U3 k Hp Hk Ht) as (b' & Hb' & Hc & Hw'). exists b'. split_and!; auto. constructor; [done| |apply Hc].
  by rewrite (ed_list _ _ _ _ _ (ch_ed _ _ _ _ _ _ _ Hc)).
Qed.
(** Instructions that do the same, in either block. *)
Lemma rerun b' o' vs' : edited b b' i o' vs' -> wf b' ->
  (forall e s, consistent b pre e -> let run o vs := run_inst e s o (take (GetNumArgsOf o) vs) in
     snd (run o vs) = snd (run o' vs') /\ alike b i post (fst (run o vs)) (fst (run o' vs'))) -> sound b b'.
Proof using Ha.
  intros Hed Hw' Hrun. destruct Ha as [Hw E Hi]. split_and!; [done|apply Hed|]. by eapply edit_run; [apply Hw|exact E|exact Hi|exact Hed|].
Qed.
(** Pseudo-operations that read the operation behind the instruction. *)
Definition readers (P : Opcode -> Prop) : Prop :=
  forall c p us, c ∈ post -> core b c = Some (p, us) -> reads_op p = true -> us !! 0 = Some (Ref i) -> P p.
Lemma ReplaceUsesWith_at v : usable b pre v -> GetType b v = GetTypeOf o ->
  (forall e s, consistent b pre e -> let r := run_inst e s o (take (GetNumArgsOf o) vs) in
     snd r = s /\ r_val (fst r) = eval e v /\ readers (fun p => pseudo_value p (fst r) = pseudo_value p (of_value (eval e v)))) ->
  exists b', ReplaceUsesWith i v b = Ret b' /\ sound b b' /\ changed b i o vs b' Op.Identity (v :: replicate 3 ValueVoid).
Proof using Ha Ho.
  intros [U1 U2 U3] Ht Hrun. destruct Ha as [Hw E Hi].
  destruct (ReplaceUsesWith_spec b pre post i o vs Hw E Hi Ho v U1 U2 U3 Ht) as (b' & Hb' & Hc & Hw'). exists b'. split_and!; auto.
  eapply rerun; [apply Hc|done|]. intros e s He. destruct (Hrun e s He) as (R1 & R2 & R3). cbv zeta beta.
  change (take (GetNumArgsOf Op.Identity) (v :: replicate 3 ValueVoid)) with [v]. rewrite run_inst_identity. split; [done|].
  split; [by left|]. intros c p us H1 H2 H3 H4. by apply (R3 c p us).
Qed.

(** Integer operations. *)
Lemma ReplaceUsesWith_pure v : usable b pre v -> GetType b v = GetTypeOf o ->
  (forall e, consistent b pre e -> pure o (map (eval e) (take (GetNumArgsOf o) vs)) = Some (snd (eval e v)) /\
     readers (fun p => pseudo_value p {| r_op := o; r_args := map (eval e) (take (GetNumArgsOf o) vs); r_val := eval e v |} = pseudo_value p (of_value (eval e v)))) ->
  exists b', ReplaceUsesWith i v b = Ret b' /\ sound b b'.
Proof using Ha Ho.
  intros U Ht Hp. destruct (ReplaceUsesWith_at v U Ht) as (b' & Hb' & Hs & _); [|eauto].
  intros e s He. destruct (Hp e He) as [P1 P2]. simpl. rewrite (run_inst_pure _ _ _ _ _ P1). simpl.
  destruct (eval_typed e v (GetTypeOf o) He U Ht) as (z & Hz & _). rewrite Hz in *. simpl in *. done.
Qed.
Lemma ReplaceUsesWith_imm z : GetTypeOf o <> Ty.Void -> tv_ok (GetTypeOf o, z) ->
  (forall e, consistent b pre e -> pure o (map (eval e) (take (GetNumArgsOf o) vs)) = Some z /\
     readers (fun p => pseudo_value p {| r_op := o; r_args := map (eval e) (take (GetNumArgsOf o) vs); r_val := (GetTypeOf o, z) |} = pseudo_value p (of_value (GetTypeOf o, z)))) ->
  exists b', ReplaceUsesWith i (Imm (GetTypeOf o) z) b = Ret b' /\ sound b b'.
Proof using Ha Ho.
  intros Hv Hz Hp. apply ReplaceUsesWith_pure.
  - apply usable_imm; auto. intros Hop. by apply opaque_identity in Hop.
  - unfold GetType. by rewrite resolve_imm.
  - exact Hp.
Qed.
End Inst.
Lemma edited_trans b b1 b2 i o1 vs1 o2 vs2 : edited b b1 i o1 vs1 -> edited b1 b2 i o2 vs2 -> edited b b2 i o2 vs2.
Proof. intros [H1 H2 H3] [H4 H5 H6]. constructor; [congruence| |done]. intros j Hj. rewrite H5 by done. auto. Qed.

(** Integer operations with other arguments: one of them, or the first two. *)
Section Rearrange.
Context (b : Block) (pre post : list nat) (i : nat) (o : Opcode) (vs : list Value).
Context (Ha : at_inst b pre post i o vs) (Ho : o <> Op.Identity) (Hps : IsAPseudoOperation o = false).
(** The instruction with arguments [vs'] has the same value, and the same flags for those who read them. *)
Definition rearranges (vs' : list Value) : Prop := forall e, consistent b pre e -> exists z,
  pure o (map (eval e) (take (GetNumArgsOf o) vs)) = Some z /\ pure o (map (eval e) (take (GetNumArgsOf o) vs')) = Some z /\
  readers b post i (fun p => pseudo_value p {| r_op := o; r_args := map (eval e) (take (GetNumArgsOf o) vs); r_val := (GetTypeOf o, z) |} =
                             pseudo_value p {| r_op := o; r_args := map (eval e) (take (GetNumArgsOf o) vs'); r_val := (GetTypeOf o, z) |}).
Lemma rearranged b' vs' : edited b b' i o vs' -> wf b' -> rearranges vs' -> sound b b'.
Proof.
  intros Hed Hw Hr. eapply rerun; [exact Ha|exact Hed|done|]. intros e s He. destruct (Hr e He) as (z & P1 & P2 & Hrd). cbv zeta beta.
  rewrite (run_inst_pure _ _ _ _ _ P1), (run_inst_pure _ _ _ _ _ P2). split; [done|]. split; [by left|]. intros c p us H1 H2 H3 H4. by apply (Hrd c p us).
Qed.
Lemma SetArg_sound k v : (k < GetNumArgsOf o)%nat -> usable b pre v -> GetType b v = GetArgTypeOf o k -> rearranges (<[k := v]> vs) ->
  exists b', SetArg i k v b = Ret b' /\ sound b b' /\ at_inst b' pre post i o (<[k := v]> vs) /\ changed b i o vs b' o (<[k := v]> vs).
Proof.
  intros Hk Hu Ht Hr. destruct (SetArg_at b pre post i o vs Ha Ho k v Hps Hk Hu) as (b' & Hb' & Hc & Ha'); [rewrite Ht; apply AreTypesCompatible_refl|].
  exists b'. split_and!; auto. eapply rearranged; [apply Hc|apply Ha'|done].
Qed.
Lemma SetArg2_sound v0 v1 : (2 <= GetNumArgsOf o)%nat -> usable b pre v0 -> usable b pre v1 -> GetType b v0 = GetArgTypeOf o 0 -> GetType b v1 = GetArgTypeOf o 1 ->
  rearranges (<[1%nat := v1]> (<[0%nat := v0]> vs)) ->
  exists b1 b2, SetArg i 0 v0 b = Ret b1 /\ SetArg i 1 v1 b1 = Ret b2 /\ sound b b2 /\ at_inst b2 pre post i o (<[1%nat := v1]> (<[0%nat := v0]> vs)) /\
    edited b b2 i o (<[1%nat := v1]> (<[0%nat := v0]> vs)).
Proof.
  intros Hn Hu0 Hu1 Ht0 Ht1 Hr.
  destruct (SetArg_at b pre post i o vs Ha Ho 0 v0 Hps ltac:(lia) Hu0) as (b1 & Hb1 & Hc1 & Ha1); [rewrite Ht0; apply AreTypesCompatible_refl|].
  assert (Hu1' : usable b1 pre v1) by (eapply changed_usable; [exact Ha|exact Hc1|done|done]).
  assert (Ht1' : GetType b1 v1 = GetArgTypeOf o 1).
  { rewrite <- Ht1. eapply (edit_type_pre b b1 pre post i o); [apply (ai_wf _ _ _ _ _ _ Ha)|apply Ha|apply Hc1|done|apply Hu1]. }
  destruct (SetArg_at b1 pre post i o _ Ha1 Ho 1 v1 Hps ltac:(lia) Hu1') as (b2 & Hb2 & Hc2 & Ha2); [rewrite Ht1'; apply AreTypesCompatible_refl|].
  assert (Hed : edited b b2 i o (<[1%nat := v1]> (<[0%nat := v0]> vs))) by (eapply edited_trans; [apply Hc1|apply Hc2]).
  exists b1, b2. split_and!; auto. eapply rearranged; [exact Hed|apply Ha2|done].
Qed.
End Rearrange.

(** ** Flags *)

(** Operations whose flags are determined by their value. *)
Definition sets_carry (o : Opcode) : bool :=
  match o with
  | Op.Add32 | Op.Add64 | Op.Sub32 | Op.Sub64 | Op.LogicalShiftLeft32 | Op.LogicalShiftRight32 | Op.ArithmeticShiftRight32 | Op.RotateRight32 | Op.MostSignificantWord => true
  | _ => false
  end.
Definition is_addition (o : Opcode) : bool := match o with Op.Add32 | Op.Add64 | Op.Sub32 | Op.Sub64 => true | _ => false end.
Lemma pseudo_value_plain p o a v z : pure o a = Some z -> is_addition o = false -> p <> Op.GetCarryFromOp \/ sets_carry o = false ->
  pseudo_value p {| r_op := o; r_args := a; r_val := v |} = pseudo_value p (of_value v).
Proof.
  intros Hp Ha Hc. unfold pseudo_value, nzcv_of, overflow_of, has_integer_flags. simpl. rewrite Hp, !orb_true_r.
  assert (Hadd : as_addition {| r_op := o; r_args := a; r_val := v |} = None) by (unfold as_addition; simpl; by destruct o).
  rewrite Hadd. simpl. case_decide; [done|]. case_decide as E1; [|done]. destruct Hc as [?|Hc]; [done|].
  unfold carry_of. rewrite Hadd. simpl. by destruct o.
Qed.
End Sound.
