(* ===== verification/IrBuild.v ===== *)
(** Blocks built by [AppendNewInst] are well-formed. *)
From stdpp Require Import list.
From S2P Require Import Prelude Bits IrOpcodes A64Imm Ir IrSem IrWf IrExec IrEdit IrFold.
Import Op(Opcode).
Local Open Scope nat_scope.

(** Numbers from [next_id] on are not in use. *)
Definition fresh (b : Block) : Prop := forall j, next_id b <= j -> pool b !! j = None /\ j ∉ instructions b.
(** What an instruction with these arguments needs at the end of the block. *)
Record emittable (b : Block) (o : Opcode) (l : list Value) : Prop := {
  em_len : length l = GetNumArgsOf o;
  em_arg : forall k v, l !! k = Some v -> arg_ok b (instructions b) (GetArgTypeOf o k) v;
  em_known : forall j, Ref j ∈ l -> IsImmediate b (Ref j) = true -> (0 < count b j)%Z;
  em_pseudo : forall j, IsAPseudoOperation o = true -> l !! 0 = Some (Ref j) -> IsAPseudoOperation (opcode_of b j) = false;
  em_nzcv : forall j, o = Op.GetNZCVFromOp -> l !! 0 = Some (Ref j) -> MayGetNZCVFromOp (opcode_of b j) = true;
  em_carry : forall j, o = Op.GetCarryFromOp -> l !! 0 = Some (Ref j) ->
    carries (opcode_of b j) = true /\ forall c, is_pseudo_of b c j -> opcode_of b c <> Op.GetCarryFromOp
}.

Section Append.
Context (b : Block) (Hw : wf b) (Hf : fresh b) (o : Opcode) (l : list Value) (Hem : emittable b o l).
Let i := next_id b.
Let b0 : Block := {| location := location b; end_location := end_location b; pool := <[i := new_Inst o]> (pool b); instructions := instructions b;
                     next_id := S i; terminal := terminal b; cycle_count := cycle_count b |}.
Lemma i_fresh : pool b !! i = None /\ i ∉ instructions b.
Proof. apply Hf. unfold i. lia. Qed.
Lemma here_not_i v : refs_in (instructions b) v -> v <> Ref i.
Proof. intros Hv ->. by apply i_fresh. Qed.
(** The first [k] arguments are set. *)
Record set_to (k : nat) (b1 : Block) : Prop := {
  st_list : instructions b1 = instructions b;
  st_other : forall j, j <> i -> core b1 j = core b j;
  st_core : core b1 i = Some (o, take k l ++ replicate (4 - k) ValueVoid);
  st_next : next_id b1 = S i;
  st_pool : forall j, i < j -> pool b1 !! j = None;
  st_count : forall j, count b1 j = (count b j + uses_of b j (take k l))%Z;
  st_chain : forall c j, c ∈ chain b1 j <-> c ∈ chain b j \/ (IsAPseudoOperation o = true /\ c = i /\ Ref j ∈ take k l /\ IsImmediate b (Ref j) = false)
}.
Lemma set_0 : set_to 0 b0.
Proof.
  destruct i_fresh as [Hi _]. constructor; simpl; auto.
  - intros j Hj. unfold core. simpl. by rewrite lookup_insert_ne.
  - unfold core. simpl. by rewrite lookup_insert_eq.
  - intros j Hj. rewrite lookup_insert_ne by lia. apply Hf. unfold i in Hj. lia.
  - intros j. unfold count, uses_of. simpl. destruct (decide (j = i)) as [->|]; [rewrite lookup_insert_eq, Hi|rewrite lookup_insert_ne by done]; destruct (IsImmediate b _); simpl; unfold occ; simpl; lia.
  - intros c j. unfold chain. simpl. destruct (decide (j = i)) as [->|]; [rewrite lookup_insert_eq, Hi|rewrite lookup_insert_ne by done]; simpl; set_solver.
Qed.
(** Nothing that is there already refers to the new instruction. *)
Lemma resolve_kept b1 v : (forall j, j <> i -> core b1 j = core b j) -> length (instructions b) <= length (instructions b1) -> refs_in (instructions b) v -> resolve b1 v = resolve b v.
Proof.
  intros Hc Hl Hv. pose proof (shape_closed b (wf_shape b Hw)) as Hcl.
  assert (Hcl1 : closed b1 (instructions b)).
  { intros l1 j r E. destruct (Hcl l1 j r E) as (oj & us & Hj & Hid). exists oj, us. rewrite Hc; [done|]. intros ->. apply i_fresh. rewrite E. set_solver. }
  unfold resolve. rewrite (proj1 (resolve_loop_enough b1 _ Hcl1 v (length (instructions b1)) Hv Hl)).
  revert v Hv. apply (resolve_ind b Hcl (fun v u => resolve_loop (length (instructions b)) b1 v = u)).
  - intros. by destruct (length _).
  - intros j Hj Ho. destruct (length _) eqn:E; [done|]. simpl. assert (Hji : j <> i) by (intros ->; by apply i_fresh).
    specialize (Hc j Hji). unfold core, opcode_of in *. destruct (pool b1 !! j), (pool b !! j); simplify_eq/=; [|done]. by rewrite decide_False by congruence.
  - intros l1 j r us u E Hcj Hu Hl1 IH. assert (Hji : j <> i). { intros ->. apply i_fresh. rewrite E. set_solver. }
    assert (Hju : refs_in (instructions b) (Ref j)) by (simpl; rewrite E; set_solver). assert (Huu : refs_in (instructions b) u) by (rewrite E; by apply refs_in_app).
    rewrite <- IH, <- (proj1 (resolve_loop_enough b1 _ Hcl1 (Ref j) (S (length (instructions b))) Hju ltac:(lia))). simpl.
    destruct (core_pool _ _ _ _ (eq_trans (Hc j Hji) Hcj)) as (x & -> & Hxo & Hxa). by rewrite decide_True, Hxa, nth_0_lookup, Hu.
Qed.
Lemma type_kept b1 v : (forall j, j <> i -> core b1 j = core b j) -> length (instructions b) <= length (instructions b1) -> refs_in (instructions b) v -> GetType b1 v = GetType b v.
Proof.
  intros Hc Hl Hv. unfold GetType. rewrite resolve_kept by done. destruct (resolve b v) as [j|] eqn:Hr; [|done].
  destruct (resolve_prefix b (shape_closed b (wf_shape b Hw)) (instructions b) [] v ltac:(by rewrite app_nil_r) Hv) as [Hin _]. rewrite Hr in Hin. simpl in Hin.
  assert (Hji : j <> i) by (intros ->; by apply i_fresh). specialize (Hc j Hji). unfold core, opcode_of in *. destruct (pool b1 !! j), (pool b !! j); simplify_eq/=; congruence.
Qed.
Lemma len_l : length l <= 4.
Proof. rewrite (em_len _ _ _ Hem). apply num_args_4. Qed.
Lemma set_step k b1 v : set_to k b1 -> l !! k = Some v -> exists b2, SetArg i k v b1 = Ret b2 /\ set_to (S k) b2.
Proof.
  intros [S1 S2 S3 S4 S5 S6 S7] Hv. destruct (em_arg _ _ _ Hem k v Hv) as (A1 & A2 & A3). pose proof (lookup_lt_Some _ _ _ Hv) as Hk. pose proof len_l as Hl4.
  assert (Hll : length (instructions b) <= length (instructions b1)) by (rewrite S1; lia).
  destruct (core_pool _ _ _ _ S3) as (x & Hx & Hxo & Hxa). unfold SetArg, get_inst, NumArgs. rewrite Hx. cbn [obind]. rewrite Hxo, <- (em_len _ _ _ Hem), (proj2 (Nat.ltb_lt _ _) Hk).
  rewrite (type_kept b1 v S2 Hll A1), A3. cbn [obind assert_that]. rewrite Hxa.
  assert (Hold : nth k (take k l ++ replicate (4 - k) ValueVoid) ValueVoid = ValueVoid).
  { rewrite app_nth2; rewrite length_take, Nat.min_l by lia; [|lia]. rewrite Nat.sub_diag. destruct (4 - k) eqn:E; [lia|done]. }
  rewrite Hold. change (IsImmediate b1 ValueVoid) with (match resolve b1 ValueVoid with Ref _ => false | Imm _ _ => true end). unfold ValueVoid at 1. rewrite resolve_imm. cbn [obind].
  assert (Him : IsImmediate b1 v = IsImmediate b v) by (unfold IsImmediate; by rewrite resolve_kept). rewrite Him.
  assert (Hins : <[k := v]> (take k l ++ replicate (4 - k) ValueVoid) = take (S k) l ++ replicate (4 - S k) ValueVoid).
  { rewrite insert_app_r_alt by (rewrite length_take; lia). rewrite length_take, Nat.min_l, Nat.sub_diag by lia. rewrite (take_S_r _ _ _ Hv), <- app_assoc. f_equal.
    replace (4 - k) with (S (4 - S k)) by lia. done. }
  assert (Hfin : forall b2, same_core b1 b2 -> next_id b2 = S i -> (forall j, i < j -> pool b2 !! j = None) -> (forall j, count b2 j = (count b1 j + uses_of b j [v])%Z) ->
    (forall c j, c ∈ chain b2 j <-> c ∈ chain b1 j \/ (IsAPseudoOperation o = true /\ c = i /\ v = Ref j /\ IsImmediate b (Ref j) = false)) ->
    set_to (S k) (update i (fun y => with_args (<[k := v]> (args y)) y) b2)).
  { intros b2 [E1 E2] Hn Hp Hcn Hch. constructor; auto.
    - simpl. by rewrite E1.
    - intros j Hj. rewrite <- S2, <- E2 by done. unfold core. rewrite pool_update. by rewrite decide_False by congruence.
    - specialize (E2 i). rewrite S3 in E2. destruct (core_pool _ _ _ _ E2) as (y & Hy & Hyo & Hya). unfold core. rewrite pool_update, decide_True, Hy by done. simpl. by rewrite Hyo, Hya, Hins.
    - intros j Hj. rewrite pool_update. rewrite decide_False by lia. auto.
    - intros j. rewrite count_update, (take_S_r _ _ _ Hv), uses_of_app. transitivity (count b2 j); [unfold count; destruct (pool b2 !! j); [|done]; by destruct (decide (i = j))|]. rewrite Hcn, S6. lia.
    - intros c j. rewrite chain_update, (take_S_r _ _ _ Hv), elem_of_app, list_elem_of_singleton. transitivity (c ∈ chain b2 j); [unfold chain; destruct (pool b2 !! j); [|done]; by destruct (decide (i = j))|].
      rewrite Hch, S7. naive_solver. }
  destruct (IsImmediate b v) eqn:Hiv.
  - cbn [obind]. eexists. split; [reflexivity|]. apply Hfin; [by split|done|done| |].
    + intros j. rewrite (uses_of_imm b j v Hiv). lia.
    + intros c j. split; [auto|]. intros [?|(_ & _ & -> & ?)]; [done|congruence].
  - destruct v as [j0|]; [|unfold IsImmediate in Hiv; by rewrite resolve_imm in Hiv].
    assert (Hj0 : j0 <> i) by (intros ->; by apply i_fresh). destruct (block_inst b Hw j0 A1) as [y Hy].
    pose proof (S2 j0 Hj0) as Hcj. rewrite (pool_core _ _ _ Hy) in Hcj. destruct (core_pool _ _ _ _ Hcj) as (y' & Hy' & Hyo & _).
    destruct (Use_spec b1 i j0 o _ y' S3 Hy') as (b2 & Hu & Hsc & Hcn & Hch).
    { intros ->. rewrite Hyo. pose proof (em_nzcv _ _ _ Hem j0 eq_refl) as Hnz. unfold opcode_of in Hnz. rewrite Hy in Hnz. apply Hnz.
      pose proof (em_len _ _ _ Hem) as El. change (GetNumArgsOf Op.GetNZCVFromOp) with 1 in El. by assert (k = 0) as <- by lia. }
    rewrite Hu. cbn [obind]. eexists. split; [reflexivity|]. assert (Hnp : next_id b2 = next_id b1 /\ forall j, i < j -> pool b2 !! j = None).
    { revert Hu. unfold Use, GetInst, get_inst. cbn [obind]. rewrite Hx, Hy'. cbn [obind]. destruct (IsAPseudoOperation (op x)).
      - destruct (negb _ || _); cbn [obind assert_that]; [|discriminate]. intros [= <-]. split; [done|]. intros j Hj.
        rewrite !pool_update. destruct (decide (j0 = j)) as [->|]; [|by apply S5]. by rewrite decide_True, (S5 j) by done.
      - intros [= <-]. split; [done|]. intros j Hj. rewrite pool_update. destruct (decide (j0 = j)) as [->|]; [by rewrite (S5 j)|by apply S5]. }
    destruct Hnp as [Hn2 Hp2]. apply Hfin; [done|congruence|done| |].
    + intros j. by rewrite Hcn, uses_of_ref.
    + intros c j. rewrite Hch. split; (intros [?|?]; [by left|right]); [destruct H as (? & -> & ->); auto|]. destruct H as (? & -> & [= ->] & ?). auto.
Qed.
Lemma set_all n k b1 : k + n = length l -> set_to k b1 -> exists b2, set_args i k (drop k l) b1 = Ret b2 /\ set_to (length l) b2.
Proof.
  revert k b1. induction n as [|n IH]; intros k b1 Hk Hs.
  - rewrite drop_ge by lia. exists b1. split; [done|]. by replace (length l) with k by lia.
  - destruct (lookup_lt_is_Some_2 l k ltac:(lia)) as [v Hv]. rewrite (drop_S l v k Hv). simpl. destruct (set_step k b1 v Hs Hv) as (b2 & -> & Hs2). cbn [obind]. apply IH; [lia|done].
Qed.

(** *** The block with the new instruction *)
Section Appended.
Context (b1 : Block) (Hs : set_to (length l) b1).
Let b' : Block := with_instructions (instructions b ++ [i]) b1.
Lemma core_other j : j <> i -> core b' j = core b j.
Proof. apply (st_other _ _ Hs). Qed.
Lemma core_new : core b' i = Some (o, l ++ replicate (4 - length l) ValueVoid).
Proof. pose proof (st_core _ _ Hs) as Hc. by rewrite take_ge in Hc by lia. Qed.
Lemma longer : length (instructions b) <= length (instructions b').
Proof. simpl. rewrite length_app. lia. Qed.
Lemma opcode_other j : j <> i -> opcode_of b' j = opcode_of b j.
Proof. intros Hj. pose proof (core_other j Hj) as Hc. unfold core, opcode_of in *. destruct (pool b' !! j), (pool b !! j); simplify_eq/=; congruence. Qed.
Lemma new_arg k v : (l ++ replicate (4 - length l) ValueVoid) !! k = Some v -> (k < length l /\ l !! k = Some v) \/ (length l <= k /\ v = ValueVoid).
Proof.
  intros Hv. apply lookup_app_Some in Hv as [Hv|[Hk Hv]]; [left; split; [by eapply lookup_lt_Some|done]|right; split; [done|]]. by apply lookup_replicate in Hv as [-> _].
Qed.
Lemma appended_shape : shape_ok b'.
Proof.
  pose proof (so_nodup b (wf_shape b Hw)) as Hn. constructor.
  { simpl. apply NoDup_app. split_and!; [done|intros j Hj ->%list_elem_of_singleton; by apply i_fresh|apply NoDup_singleton]. }
  assert (Harg : forall ty v, arg_ok b (instructions b) ty v -> AreTypesCompatible (GetType b' v) ty = true).
  { intros ty v (A1 & A2 & A3). by rewrite (type_kept b' v core_other longer A1). }
  intros pre j post E. simpl in E. destruct post as [|j' post _] using rev_ind.
  - apply app_inj_tail in E as [<- E2]. subst j. exists o, (l ++ replicate (4 - length l) ValueVoid). split; [apply core_new|]. pose proof (em_len _ _ _ Hem) as El. constructor.
    + rewrite length_app, length_replicate. unfold max_arg_count. pose proof len_l. lia.
    + intros k v Hv Hk. apply new_arg in Hv as [[_ Hv]|[? _]]; [|lia]. pose proof (em_arg _ _ _ Hem k v Hv) as Ha. split_and!; [apply Ha|apply Ha|by apply Harg].
    + intros k v Hv Hk. apply new_arg in Hv as [[? _]|[_ ->]]; [lia|done].
    + intros j Hp Hj. apply new_arg in Hj as [[_ Hj]|[_ ?]]; [|done]. rewrite opcode_other; [by apply (em_pseudo _ _ _ Hem)|].
      intros ->. destruct (em_arg _ _ _ Hem 0 _ Hj) as (Hin & _). by apply i_fresh.
  - rewrite app_comm_cons, app_assoc in E. apply app_inj_tail in E as [E _]. destruct (so_inst b (wf_shape b Hw) pre j post E) as (oj & us & Hc & [O1 O2 O3 O4]).
    assert (Hji : j <> i) by (intros ->; apply i_fresh; rewrite E; set_solver). exists oj, us. rewrite core_other by done. split; [done|].
    assert (Hin : forall k v, us !! k = Some v -> k < GetNumArgsOf oj -> refs_in (instructions b) v) by (intros k v Hv Hk; rewrite E; apply refs_in_app; by apply (O2 k v)).
    constructor; [done| |done|].
    + intros k v Hv Hk. destruct (O2 k v Hv Hk) as (A1 & A2 & A3). split_and!; auto. by rewrite (type_kept b' v core_other longer) by by apply (Hin k).
    + intros j0 Hp Hj0. rewrite opcode_other; [by apply O4|]. intros ->. pose proof (Hin 0 _ Hj0 ltac:(rewrite (pseudo_one_arg _ Hp); lia)). by apply i_fresh.
Qed.
Lemma new_refs j : refs b' j = refs b j + occ j l.
Proof.
  assert (same : forall ks, (forall k, k ∈ ks -> k <> i) -> sum_list_with (fun k => occ j (args_of b' k)) ks = sum_list_with (fun k => occ j (args_of b k)) ks).
  { induction ks as [|k ks IH]; intros Hk; [done|]. simpl. rewrite IH by (intros; apply Hk; set_solver). unfold args_of. by rewrite core_other by (apply Hk; set_solver). }
  unfold refs. change (instructions b') with (instructions b ++ [i]). rewrite sum_list_with_app, same by (intros k Hk ->; by apply i_fresh). simpl.
  unfold args_of at 2. rewrite core_new, occ_app, occ_void. lia.
Qed.
Lemma not_in_l : occ i l = 0.
Proof.
  destruct (decide (0 < occ i l)) as [Hp|]; [|lia]. apply occ_pos, list_elem_of_lookup in Hp as [k Hk]. destruct (em_arg _ _ _ Hem k _ Hk) as (Hin & _). by apply i_fresh in Hin.
Qed.
Lemma old_pseudo c j : is_pseudo_of b' c j -> (c <> i /\ is_pseudo_of b c j) \/ (c = i /\ IsAPseudoOperation o = true /\ l !! 0 = Some (Ref j)).
Proof.
  intros (oc & us & H1 & H2 & H3 & H4). destruct (decide (c = i)) as [->|Hc].
  - right. rewrite core_new in H2. simplify_eq. split_and!; auto. by apply new_arg in H4 as [[_ ?]|[_ ?]].
  - left. split; [done|]. exists oc, us. rewrite core_other in H2 by done. split_and!; auto. simpl in H1. set_solver.
Qed.
Lemma pseudo_here c j : is_pseudo_of b' c j -> j ∈ instructions b /\ j <> i.
Proof.
  intros [[_ Hp]|(-> & Hp & Hl)]%old_pseudo; [destruct (pseudo_refs b (wf_shape b Hw) c j Hp) as [_ Hin]|destruct (em_arg _ _ _ Hem 0 _ Hl) as (Hin & _); simpl in Hin];
    (split; [done|intros ->; by apply i_fresh]).
Qed.
Lemma imm_kept j : j ∈ instructions b -> IsImmediate b' (Ref j) = IsImmediate b (Ref j).
Proof. intros Hj. unfold IsImmediate. by rewrite (resolve_kept b' (Ref j) core_other longer). Qed.
Lemma appended_book : book_ok b'.
Proof.
  pose proof (wf_book b Hw) as Hb. pose proof (st_count _ _ Hs) as Hcnt. pose proof (st_chain _ _ Hs) as Hch. rewrite take_ge in Hcnt, Hch by lia.
  assert (Hi0 : count b i = 0%Z /\ chain b i = []) by (unfold count, chain; by rewrite (proj1 i_fresh)). destruct Hi0 as [Hc0 Hch0].
  assert (Hri : refs b' i = 0) by (rewrite new_refs, not_in_l, (refs_outside b (wf_shape b Hw)) by apply i_fresh; done).
  assert (Hnn : forall j, (0 <= count b' j)%Z).
  { intros j. change (count b' j) with (count b1 j). rewrite Hcnt. pose proof (bk_nonneg b Hb j). unfold uses_of. destruct (IsImmediate b _); lia. }
  assert (Hold : forall j, j ∈ instructions b' -> j ∈ instructions b \/ j = i) by (intros j Hj; simpl in Hj; set_solver). constructor.
  - intros j [Hj| ->]%Hold Him; [|rewrite Hri; apply Hnn]. rewrite imm_kept in Him by done. pose proof (bk_uses b Hb j Hj Him). rewrite new_refs.
    change (count b' j) with (count b1 j). rewrite Hcnt. unfold uses_of. rewrite Him. lia.
  - intros j [Hj| ->]%Hold Him Hp; [|lia]. rewrite imm_kept in Him by done. change (count b' j) with (count b1 j). rewrite Hcnt. unfold uses_of. rewrite Him, Z.add_0_r. rewrite new_refs in Hp.
    destruct (decide (0 < occ j l)) as [Ho|]; [apply (em_known _ _ _ Hem j); [by apply occ_pos|done]|]. apply (bk_imm b Hb j Hj Him). lia.
  - intros c j Hp Him. destruct (pseudo_here c j Hp) as [Hj Hji]. rewrite imm_kept in Him by done. apply Hch. destruct (old_pseudo c j Hp) as [[_ Ho]|(-> & Hps & Hl)].
    + left. by apply (bk_fwd b Hb).
    + right. split_and!; auto. by eapply list_elem_of_lookup_2.
  - apply Hnn.
  - intros c j [Hj| ->]%Hold Hid Hvd Hc%Hch.
    + assert (Hji : j <> i) by (intros ->; by apply i_fresh). rewrite opcode_other in Hid, Hvd by done. destruct Hc as [Hc|(Hp & -> & Hl & _)].
      * destruct (bk_bwd b Hb c j Hj Hid Hvd Hc) as (oc & us & H1 & H2 & H3 & H4). assert (c <> i) by (intros ->; by apply i_fresh). exists oc, us. rewrite core_other by done. split_and!; auto. simpl. set_solver.
      * exists o, (l ++ replicate (4 - length l) ValueVoid). split_and!; [simpl; set_solver|apply core_new|done|]. apply list_elem_of_lookup in Hl as [k Hk].
        pose proof (lookup_lt_Some _ _ _ Hk) as Hlt. rewrite (em_len _ _ _ Hem), (pseudo_one_arg _ Hp) in Hlt. assert (k = 0) as -> by lia. by apply lookup_app_l_Some.
    + exfalso. rewrite Hch0 in Hc. destruct Hc as [Hc|(_ & _ & Hl & _)]; [set_solver|]. apply occ_pos in Hl. rewrite not_in_l in Hl. lia.
  - intros c c' j Hp Hp' Ho Ho'. destruct (old_pseudo c j Hp) as [[Hci Hpo]|(-> & Hps & Hl)], (old_pseudo c' j Hp') as [[Hci' Hpo']|(-> & Hps' & Hl')]; [|exfalso..|done].
    + rewrite opcode_other in Ho, Ho' by done. by apply (bk_carry b Hb c c' j).
    + rewrite (core_opcode _ _ _ _ core_new) in Ho'. rewrite opcode_other in Ho by done. by apply (proj2 (em_carry _ _ _ Hem j Ho' Hl') c).
    + rewrite (core_opcode _ _ _ _ core_new) in Ho. rewrite opcode_other in Ho' by done. by apply (proj2 (em_carry _ _ _ Hem j Ho Hl) c').
  - intros c j Hp Ho. destruct (pseudo_here c j Hp) as [_ Hji]. rewrite opcode_other by done. destruct (old_pseudo c j Hp) as [[Hci Hpo]|(-> & Hps & Hl)].
    + rewrite opcode_other in Ho by done. by apply (bk_carry_of b Hb c j).
    + rewrite (core_opcode _ _ _ _ core_new) in Ho. by apply (em_carry _ _ _ Hem j Ho Hl).
Qed.
End Appended.
End Append.

Lemma new_Block_wf loc : wf (new_Block loc) /\ fresh (new_Block loc).
Proof.
  split; [|by intros j _; split; [apply lookup_empty|simpl; set_solver]]. constructor.
  - constructor; [constructor|]. intros pre i post E. by destruct pre.
  - assert (Hnone : forall c j, ~ is_pseudo_of (new_Block loc) c j) by (intros c j (? & ? & H & _); simpl in H; set_solver).
    constructor; simpl; try (intros; exfalso; set_solver); try (intros; exfalso; by eapply Hnone). intros j. unfold count. simpl. by rewrite lookup_empty.
Qed.
Lemma AppendNewInst_spec (b : Block) (o : Opcode) (l : list Value) (Hw : wf b) (Hf : fresh b) (Hem : emittable b o l) :
  exists b', AppendNewInst o l b = Ret (next_id b, b') /\ wf b' /\ fresh b' /\ code b' = code b ++ [(next_id b, o, l)].
Proof.
  destruct (set_all b Hw Hf o l Hem (length l) 0 _ eq_refl (set_0 b Hw Hf o l Hem)) as (b1 & Hb1 & Hs). rewrite drop_0 in Hb1.
  unfold AppendNewInst, PrependNewInst. rewrite (em_len _ _ _ Hem), Nat.eqb_refl. cbn [assert_that obind]. rewrite Hb1. cbn [obind].
  rewrite (st_list _ _ _ _ _ Hs), take_ge, drop_ge by lia. eexists. split; [reflexivity|].
  pose proof (core_other b o l b1 Hs) as Hco. pose proof (core_new b o l b1 Hs) as Hcn. split_and!.
  - constructor; [exact (appended_shape b Hw Hf o l Hem b1 Hs)|exact (appended_book b Hw Hf o l Hem b1 Hs)].
  - intros j Hj. simpl in Hj. rewrite (st_next _ _ _ _ _ Hs) in Hj. split; [apply (st_pool _ _ _ _ _ Hs); lia|]. simpl. destruct (Hf j ltac:(lia)) as [_ Hj']. intros [?|?%list_elem_of_singleton]%elem_of_app; [done|lia].
  - unfold code. simpl instructions. rewrite map_app. f_equal.
    + apply map_ext_in. intros j Hj%list_elem_of_In. destruct (block_inst b Hw j Hj) as [x Hx]. rewrite (entry_of_core b j _ _ (pool_core _ _ _ Hx)). apply entry_of_core.
      rewrite Hco; [by apply pool_core|]. intros ->. by destruct (Hf (next_id b) ltac:(lia)).
    + simpl. f_equal. rewrite (entry_of_core _ _ _ _ Hcn), <- (em_len _ _ _ Hem), take_app_length. done.
Qed.

(** ** Blocks given by a list of instructions *)
Definition arg_okb (b : Block) (ty : Ty.t) (v : Value) : bool :=
  match v with
  | Ref j => bool_decide (j ∈ instructions b)
  | Imm t z => negb (bool_decide (t = Ty.Void)) && negb (bool_decide (t = Ty.Opaque)) && match width t with Some w => (0 <=? z)%Z && (z <? 2 ^ w)%Z | None => true end
  end && AreTypesCompatible (GetType b v) ty.
Definition known_used (b : Block) (v : Value) : bool :=
  match v with Ref j => negb (IsImmediate b v) || (0 <? count b j)%Z | Imm _ _ => true end.
Definition has_carry_of (b : Block) (j c : nat) : bool := bool_decide (opcode_of b c = Op.GetCarryFromOp) && bool_decide (args_of b c !! 0 = Some (Ref j)).
Definition pseudo_allowed (b : Block) (o : Opcode) (j : nat) : bool :=
  implb (IsAPseudoOperation o) (negb (IsAPseudoOperation (opcode_of b j))) &&
  implb (bool_decide (o = Op.GetNZCVFromOp)) (MayGetNZCVFromOp (opcode_of b j)) &&
  implb (bool_decide (o = Op.GetCarryFromOp)) (carries (opcode_of b j) && forallb (fun c => negb (has_carry_of b j c)) (instructions b)).
Definition emittableb (b : Block) (o : Opcode) (l : list Value) : bool :=
  (length l =? GetNumArgsOf o) && forallb (fun p => arg_okb b (GetArgTypeOf o (fst p)) (snd p)) (imap pair l) && forallb (known_used b) l &&
  match l with Ref j :: _ => pseudo_allowed b o j | _ => true end.

Lemma arg_okb_spec b ty v : arg_okb b ty v = true -> arg_ok b (instructions b) ty v.
Proof.
  unfold arg_okb, arg_ok. intros [Hv Ht]%andb_true_iff. split_and!; [| |done]; destruct v as [j|t z]; simpl; auto; [by apply bool_decide_eq_true in Hv|].
  apply andb_true_iff in Hv as [[H1%negb_true_iff H2%negb_true_iff]%andb_true_iff H3]. apply bool_decide_eq_false in H1, H2. split_and!; [done|done|].
  unfold tv_ok, in_range. simpl. destruct (width t); [|done]. apply andb_true_iff in H3 as [?%Z.leb_le ?%Z.ltb_lt]. lia.
Qed.
Lemma pseudo_allowed_spec (b : Block) (o : Opcode) (j : nat) : pseudo_allowed b o j = true ->
  (IsAPseudoOperation o = true -> IsAPseudoOperation (opcode_of b j) = false) /\ (o = Op.GetNZCVFromOp -> MayGetNZCVFromOp (opcode_of b j) = true) /\
  (o = Op.GetCarryFromOp -> carries (opcode_of b j) = true /\ forall c, is_pseudo_of b c j -> opcode_of b c <> Op.GetCarryFromOp).
Proof.
  unfold pseudo_allowed. intros [[H1 H2]%andb_true_iff H3]%andb_true_iff. split_and!.
  - intros E. rewrite E in H1. by apply negb_true_iff in H1.
  - intros E. by rewrite bool_decide_true in H2 by done.
  - intros E. rewrite bool_decide_true in H3 by done. apply andb_true_iff in H3 as [H3 H4]. split; [done|]. intros c (oc & us & P1 & P2 & _ & P4) Hoc.
    rewrite forallb_forall in H4. specialize (H4 c (proj1 (list_elem_of_In _ _) P1)). unfold has_carry_of, args_of in H4. rewrite P2, Hoc, P4 in H4. by rewrite !bool_decide_true in H4.
Qed.
Lemma emittableb_spec b o l : emittableb b o l = true -> emittable b o l.
Proof.
  unfold emittableb. intros [[[H1%Nat.eqb_eq H2]%andb_true_iff H3]%andb_true_iff H4]%andb_true_iff. rewrite forallb_forall in H2, H3.
  assert (Hp : forall j, l !! 0 = Some (Ref j) -> pseudo_allowed b o j = true) by (intros j Hj; destruct l as [|v l]; [done|]; simplify_eq/=; done).
  constructor; [done| | |intros j ? Hj%Hp%pseudo_allowed_spec; tauto..].
  - intros k v Hv. apply arg_okb_spec. apply (H2 (k, v)), list_elem_of_In, list_elem_of_lookup. exists k. by rewrite list_lookup_imap, Hv.
  - intros j Hj Him. specialize (H3 _ (proj1 (list_elem_of_In _ _) Hj)). simpl in H3. rewrite Him in H3. by apply Z.ltb_lt in H3.
Qed.
Fixpoint emit_all (l : list (Opcode * list Value)) (b : Block) : option Block :=
  match l with
  | [] => Some b
  | (o, vs) :: l => if emittableb b o vs then match AppendNewInst o vs b with Ret (_, b') => emit_all l b' | _ => None end else None
  end.
Lemma emit_all_wf l : forall b b', wf b -> fresh b -> emit_all l b = Some b' -> wf b' /\ fresh b'.
Proof.
  induction l as [|[o vs] l IH]; intros b b' Hw Hf E; simpl in E; [by simplify_eq|]. destruct (emittableb b o vs) eqn:Hem; [|done].
  destruct (AppendNewInst_spec b o vs Hw Hf (emittableb_spec _ _ _ Hem)) as (b1 & Hb1 & H1 & H2 & _). rewrite Hb1 in E. by apply (IH b1).
Qed.
Definition block_of (l : list (Opcode * list Value)) : Block := default (new_Block 0) (emit_all l (new_Block 0)).
Lemma block_of_wf l : wf (block_of l) /\ fresh (block_of l).
Proof. destruct (new_Block_wf 0). unfold block_of. destruct (emit_all l (new_Block 0)) as [b|] eqn:E; [by eapply emit_all_wf|done]. Qed.

(** C18. Emitting an instruction at the end of a well-formed block, with arguments that are
    there and have the types the opcode asks for, succeeds; the block stays well-formed
    and its code grows by exactly this instruction. *)
Theorem append_new_inst (b : Block) (o : Opcode) (l : list Value) (Hw : wf b) (Hf : fresh b) (Hem : emittable b o l) :
  exists b', AppendNewInst o l b = Ret (next_id b, b') /\ wf b' /\ fresh b' /\ code b' = code b ++ [(next_id b, o, l)].
Proof. by apply AppendNewInst_spec. Qed.
