(* ===== verification/ConstProp.v ===== *)
(** [ir/opt/constant_propagation_pass.cpp]: operations on immediates are replaced by
    their results, with the functions of [common/safe_ops.h], [mcl/bit/rotate.hpp] and
    [mcl/bit/swap.hpp] that compute them. *)
From S2P Require Import Prelude Bits IrOpcodes A64Imm Ir.
Import Op(Opcode).
Local Open Scope Z_scope.

(** ** Arithmetic *)
Module Safe.
(** A negative amount shifts the other way, where it is not negative any more. *)
Definition LogicalShiftRight_by (w value shift_amount : Z) : Z := if w <=? shift_amount then 0 else Z.shiftr value shift_amount.
Definition LogicalShiftLeft_by (w value shift_amount : Z) : Z := if w <=? shift_amount then 0 else wrap w (Z.shiftl value shift_amount).
Definition LogicalShiftLeft (w value shift_amount : Z) : Z :=
  if w <=? shift_amount then 0 else if shift_amount <? 0 then LogicalShiftRight_by w value (- shift_amount) else LogicalShiftLeft_by w value shift_amount.
Definition LogicalShiftRight (w value shift_amount : Z) : Z :=
  if w <=? shift_amount then 0 else if shift_amount <? 0 then LogicalShiftLeft_by w value (- shift_amount) else LogicalShiftRight_by w value shift_amount.
Definition ArithmeticShiftRight (w value shift_amount : Z) : Z :=
  if w <=? shift_amount then (if Z.testbit value (w - 1) then Z.ones w else 0)
  else if shift_amount <? 0 then LogicalShiftLeft_by w value (- shift_amount)
  else wrap w (Z.shiftr (swrap w value) shift_amount).
End Safe.
Definition swap_bytes_16 (value : Z) : Z := wrap 16 (Z.lor (Z.shiftr value 8) (Z.shiftl value 8)).
Definition swap_bytes_32 (value : Z) : Z :=
  Z.lor (Z.shiftr (Z.land value 0xff000000) 24) (Z.lor (Z.shiftr (Z.land value 0x00ff0000) 8)
    (Z.lor (Z.shiftl (Z.land value 0x0000ff00) 8) (Z.shiftl (Z.land value 0x000000ff) 24))).
Definition swap_bytes_64 (value : Z) : Z :=
  Z.lor (Z.shiftr (Z.land value 0xff00000000000000) 56) (Z.lor (Z.shiftr (Z.land value 0x00ff000000000000) 40)
    (Z.lor (Z.shiftr (Z.land value 0x0000ff0000000000) 24) (Z.lor (Z.shiftr (Z.land value 0x000000ff00000000) 8)
      (Z.lor (Z.shiftl (Z.land value 0x00000000ff000000) 8) (Z.lor (Z.shiftl (Z.land value 0x0000000000ff0000) 24)
        (Z.lor (Z.shiftl (Z.land value 0x000000000000ff00) 40) (Z.shiftl (Z.land value 0x00000000000000ff) 56))))))).
(** Division of [s64]: the one quotient that does not fit is undefined. *)
Definition s64_div (x y : Z) : outcome Z :=
  if (y =? 0) || ((x =? - 2 ^ 63) && (y =? -1)) then Stop Undefined else Ret (Z.quot x y).

(** ** Folding one instruction *)
Definition ValueOf (is_32_bit : bool) (value : Z) : Value := if is_32_bit then ValueU32 (u32 value) else ValueU64 value.
Definition ReplaceUsesWithImm (i : nat) (is_32_bit : bool) (value : Z) (b : Block) : outcome Block :=
  if is_32_bit then ReplaceUsesWith i (ValueU32 (u32 value)) b else ReplaceUsesWith i (ValueU64 value) b.

(** The result tells whether to look at the instruction further. *)
Definition FoldCommutative (i : nat) (is_32_bit : bool) (imm_fn : Z -> Z -> Z) (b : Block) : outcome (bool * Block) :=
  let? lhs := GetArg b i 0 in
  let? rhs := GetArg b i 1 in
  let is_lhs_immediate := IsImmediate b lhs in
  let is_rhs_immediate := IsImmediate b rhs in
  if is_lhs_immediate && is_rhs_immediate then
    let? x := GetImmediateAsU64 b lhs in
    let? y := GetImmediateAsU64 b rhs in
    let? b := ReplaceUsesWithImm i is_32_bit (imm_fn x y) b in
    Ret (false, b)
  else
  let? b :=
    if is_lhs_immediate && negb is_rhs_immediate then
      let? rhs_inst := GetInstRecursive b rhs in
      let? o := GetOpcode b i in
      let? o' := GetOpcode b rhs_inst in
      let? combine := (if decide (o' = o) then let? v := GetArg b rhs_inst 1 in Ret (IsImmediate b v) else Ret false) in
      if combine : bool then
        let? x := GetImmediateAsU64 b lhs in
        let? v := GetArg b rhs_inst 1 in
        let? y := GetImmediateAsU64 b v in
        let? v := GetArg b rhs_inst 0 in
        let? b := SetArg i 0 v b in
        SetArg i 1 (ValueOf is_32_bit (imm_fn x y)) b
      else
        let? b := SetArg i 0 rhs b in
        SetArg i 1 lhs b
    else Ret b in
  let? b :=
    if negb is_lhs_immediate && is_rhs_immediate then
      let? lhs_inst := GetInstRecursive b lhs in
      let? o := GetOpcode b i in
      let? o' := GetOpcode b lhs_inst in
      let? combine := (if decide (o' = o) then let? v := GetArg b lhs_inst 1 in Ret (IsImmediate b v) else Ret false) in
      if combine : bool then
        let? x := GetImmediateAsU64 b rhs in
        let? v := GetArg b lhs_inst 1 in
        let? y := GetImmediateAsU64 b v in
        let? v := GetArg b lhs_inst 0 in
        let? b := SetArg i 0 v b in
        SetArg i 1 (ValueOf is_32_bit (imm_fn x y)) b
      else Ret b
    else Ret b in
  Ret (true, b).

(** The recursive call finds the arguments in the other order: two levels are enough. *)
Fixpoint FoldAdd_loop (fuel : nat) (i : nat) (is_32_bit : bool) (b : Block) : outcome Block :=
  match fuel with
  | O => Stop OutOfFuel
  | S fuel =>
  let? lhs := GetArg b i 0 in
  let? rhs := GetArg b i 1 in
  let? carry := GetArg b i 2 in
  if IsImmediate b lhs && negb (IsImmediate b rhs) then
    let? b := SetArg i 0 rhs b in
    let? b := SetArg i 1 lhs b in
    FoldAdd_loop fuel i is_32_bit b
  else
  let? has := HasAssociatedPseudoOperation b i in
  if has : bool then Ret b
  else
  let? done :=
    if negb (IsImmediate b lhs) && IsImmediate b rhs then
      let? lhs_inst := GetInstRecursive b lhs in
      let? o := GetOpcode b i in
      let? o' := GetOpcode b lhs_inst in
      let? combine :=
        (if decide (o' = o) then
           let? v1 := GetArg b lhs_inst 1 in
           if IsImmediate b v1 then let? v2 := GetArg b lhs_inst 2 in Ret (IsImmediate b v2) else Ret false
         else Ret false) in
      if combine : bool then
        let? x := GetImmediateAsU64 b rhs in
        let? v1 := GetArg b lhs_inst 1 in
        let? y := GetImmediateAsU64 b v1 in
        let? v2 := GetArg b lhs_inst 2 in
        let? c := GetU1 b v2 in
        let combined := u64 (x + y + c) in
        let? v0 := GetArg b lhs_inst 0 in
        if combined =? 0 then let? b := ReplaceUsesWith i v0 b in Ret (Some b)
        else
          let? b := SetArg i 0 v0 b in
          let? b := SetArg i 1 (ValueOf is_32_bit combined) b in
          Ret (Some b)
      else
        let? rhs_zero := IsZero b rhs in
        let? carry_zero := (if rhs_zero : bool then IsZero b carry else Ret false) in
        if carry_zero : bool then let? b := ReplaceUsesWith i lhs b in Ret (Some b) else Ret None
    else Ret None in
  match done : option Block with
  | Some b => Ret b
  | None =>
      let? all := AreAllArgsImmediates b i in
      if all : bool then
        let? x := GetImmediateAsU64 b lhs in
        let? y := GetImmediateAsU64 b rhs in
        let? c := GetU1 b carry in
        ReplaceUsesWithImm i is_32_bit (u64 (x + y + c)) b
      else Ret b
  end
  end.
Definition FoldAdd : nat -> bool -> Block -> outcome Block := FoldAdd_loop 2.

Definition FoldAND (i : nat) (is_32_bit : bool) (b : Block) : outcome Block :=
  let? r := FoldCommutative i is_32_bit Z.land b in
  let (go, b) := r in
  if go : bool then
    let? rhs := GetArg b i 1 in
    let? zero := IsZero b rhs in
    if zero : bool then ReplaceUsesWithImm i is_32_bit 0 b
    else
      let? all_set := HasAllBitsSet b rhs in
      if all_set : bool then let? v := GetArg b i 0 in ReplaceUsesWith i v b else Ret b
  else Ret b.
Definition FoldByteReverse (i : nat) (o : Opcode) (b : Block) : outcome Block :=
  let? operand := GetArg b i 0 in
  if negb (IsImmediate b operand) then Ret b
  else
    let? x := GetImmediateAsU64 b operand in
    if decide (o = Op.ByteReverseWord) then ReplaceUsesWith i (ValueU32 (swap_bytes_32 (u32 x))) b
    else if decide (o = Op.ByteReverseHalf) then ReplaceUsesWith i (ValueU16 (swap_bytes_16 (u16 x))) b
    else ReplaceUsesWith i (ValueU64 (swap_bytes_64 x)) b.
Definition FoldDivide (i : nat) (is_32_bit is_signed : bool) (b : Block) : outcome Block :=
  let? rhs := GetArg b i 1 in
  let? zero := IsZero b rhs in
  if zero : bool then ReplaceUsesWithImm i is_32_bit 0 b
  else
    let? lhs := GetArg b i 0 in
    if IsImmediate b lhs && IsImmediate b rhs then
      if is_signed then
        let? x := GetImmediateAsS64 b lhs in
        let? y := GetImmediateAsS64 b rhs in
        let? result := s64_div x y in
        ReplaceUsesWithImm i is_32_bit (u64 result) b
      else
        let? x := GetImmediateAsU64 b lhs in
        let? y := GetImmediateAsU64 b rhs in
        ReplaceUsesWithImm i is_32_bit (x / y) b
    else
      let? one := IsUnsignedImmediate b rhs 1 in
      if one : bool then ReplaceUsesWith i lhs b else Ret b.
Definition FoldEOR (i : nat) (is_32_bit : bool) (b : Block) : outcome Block :=
  let? r := FoldCommutative i is_32_bit Z.lxor b in
  let (go, b) := r in
  if go : bool then
    let? rhs := GetArg b i 1 in
    let? zero := IsZero b rhs in
    if zero : bool then let? v := GetArg b i 0 in ReplaceUsesWith i v b else Ret b
  else Ret b.
Definition FoldLeastSignificantByte (i : nat) (b : Block) : outcome Block :=
  let? all := AreAllArgsImmediates b i in
  if negb all then Ret b
  else let? operand := GetArg b i 0 in let? x := GetImmediateAsU64 b operand in ReplaceUsesWith i (ValueU8 (u8 x)) b.
Definition FoldLeastSignificantHalf (i : nat) (b : Block) : outcome Block :=
  let? all := AreAllArgsImmediates b i in
  if negb all then Ret b
  else let? operand := GetArg b i 0 in let? x := GetImmediateAsU64 b operand in ReplaceUsesWith i (ValueU16 (u16 x)) b.
Definition FoldLeastSignificantWord (i : nat) (b : Block) : outcome Block :=
  let? all := AreAllArgsImmediates b i in
  if negb all then Ret b
  else let? operand := GetArg b i 0 in let? x := GetImmediateAsU64 b operand in ReplaceUsesWith i (ValueU32 (u32 x)) b.
Definition FoldMostSignificantBit (i : nat) (b : Block) : outcome Block :=
  let? all := AreAllArgsImmediates b i in
  if negb all then Ret b
  else let? operand := GetArg b i 0 in let? x := GetImmediateAsU64 b operand in ReplaceUsesWith i (ValueU1 (negb (Z.shiftr x 31 =? 0))) b.
Definition FoldMostSignificantWord (i : nat) (b : Block) : outcome Block :=
  let? carry_inst := GetAssociatedPseudoOperation b i Op.GetCarryFromOp in
  let? all := AreAllArgsImmediates b i in
  if negb all then Ret b
  else
    let? operand := GetArg b i 0 in
    let? x := GetImmediateAsU64 b operand in
    let? b := match carry_inst with Some c => ReplaceUsesWith c (ValueU1 (bit.get_bit 64 31 x)) b | None => Ret b end in
    ReplaceUsesWith i (ValueU32 (u32 (Z.shiftr x 32))) b.
Definition FoldMultiply (i : nat) (is_32_bit : bool) (b : Block) : outcome Block :=
  let? r := FoldCommutative i is_32_bit (fun x y => u64 (x * y)) b in
  let (go, b) := r in
  if go : bool then
    let? rhs := GetArg b i 1 in
    let? zero := IsZero b rhs in
    if zero : bool then ReplaceUsesWithImm i is_32_bit 0 b
    else
      let? one := IsUnsignedImmediate b rhs 1 in
      if one : bool then let? v := GetArg b i 0 in ReplaceUsesWith i v b else Ret b
  else Ret b.
Definition FoldNOT (i : nat) (is_32_bit : bool) (b : Block) : outcome Block :=
  let? operand := GetArg b i 0 in
  if negb (IsImmediate b operand) then Ret b
  else let? x := GetImmediateAsU64 b operand in ReplaceUsesWithImm i is_32_bit (not_ 64 x) b.
Definition FoldOR (i : nat) (is_32_bit : bool) (b : Block) : outcome Block :=
  let? r := FoldCommutative i is_32_bit Z.lor b in
  let (go, b) := r in
  if go : bool then
    let? rhs := GetArg b i 1 in
    let? zero := IsZero b rhs in
    if zero : bool then let? v := GetArg b i 0 in ReplaceUsesWith i v b else Ret b
  else Ret b.
Definition num_args (b : Block) (i : nat) : outcome nat := let? x := get_inst b i in Ret (NumArgs x).
Definition FoldShifts (i : nat) (b : Block) : outcome (bool * Block) :=
  let? carry_inst := GetAssociatedPseudoOperation b i Op.GetCarryFromOp in
  let? n := num_args b i in
  let? b := if (n =? 3)%nat && bool_decide (carry_inst = None) then SetArg i 2 (ValueU1 false) b else Ret b in
  let? shift_amount := GetArg b i 1 in
  let? zero := IsZero b shift_amount in
  if zero : bool then
    let? b := match carry_inst with Some c => let? v := GetArg b i 2 in ReplaceUsesWith c v b | None => Ret b end in
    let? v := GetArg b i 0 in
    let? b := ReplaceUsesWith i v b in
    Ret (false, b)
  else
    let? b := if (n =? 3)%nat && IsImmediate b shift_amount then SetArg i 2 (ValueU1 false) b else Ret b in
    let? all := AreAllArgsImmediates b i in
    Ret (all && bool_decide (carry_inst = None), b).
Definition FoldSignExtendXToWord (i : nat) (b : Block) : outcome Block :=
  let? all := AreAllArgsImmediates b i in
  if negb all then Ret b
  else let? v := GetArg b i 0 in let? value := GetImmediateAsS64 b v in ReplaceUsesWith i (ValueU32 (u32 value)) b.
Definition FoldSignExtendXToLong (i : nat) (b : Block) : outcome Block :=
  let? all := AreAllArgsImmediates b i in
  if negb all then Ret b
  else let? v := GetArg b i 0 in let? value := GetImmediateAsS64 b v in ReplaceUsesWith i (ValueU64 (u64 value)) b.
Definition FoldSub (i : nat) (is_32_bit : bool) (b : Block) : outcome Block :=
  let? all := AreAllArgsImmediates b i in
  let? has := (if negb all then Ret true else HasAssociatedPseudoOperation b i) in
  if has : bool then Ret b
  else
    let? lhs := GetArg b i 0 in
    let? rhs := GetArg b i 1 in
    let? carry := GetArg b i 2 in
    let? x := GetImmediateAsU64 b lhs in
    let? y := GetImmediateAsU64 b rhs in
    let? c := GetU1 b carry in
    ReplaceUsesWithImm i is_32_bit (u64 (x + not_ 64 y + c)) b.
Definition FoldZeroExtendXToWord (i : nat) (b : Block) : outcome Block :=
  let? all := AreAllArgsImmediates b i in
  if negb all then Ret b
  else let? v := GetArg b i 0 in let? value := GetImmediateAsU64 b v in ReplaceUsesWith i (ValueU32 (u32 value)) b.
Definition FoldZeroExtendXToLong (i : nat) (b : Block) : outcome Block :=
  let? all := AreAllArgsImmediates b i in
  if negb all then Ret b
  else let? v := GetArg b i 0 in let? value := GetImmediateAsU64 b v in ReplaceUsesWith i (ValueU64 value) b.

(** ** The pass *)

(** The cases that replace the instruction if all its arguments are immediates. *)
Definition fold_immediates (i : nat) (b : Block) (replace : Block -> outcome Block) : outcome Block :=
  let? all := AreAllArgsImmediates b i in if all : bool then replace b else Ret b.
Definition fold_is_zero (ty : Ty.t) (i : nat) : Block -> outcome Block := fun b =>
  fold_immediates i b (fun b =>
    let? v := GetArg b i 0 in let? x := GetImm ty b v in ReplaceUsesWith i (ValueU1 (x =? 0)) b).
(** Shifts by an amount of 8 bits, and by one as wide as the operand. *)
Definition fold_shift (is_32_bit : bool) (f : Z -> Z -> Z) (i : nat) (b : Block) : outcome Block :=
  let? r := FoldShifts i b in
  let (go, b) := r in
  if go : bool then
    let? v0 := GetArg b i 0 in
    let? x := GetImm (if is_32_bit then Ty.U32 else Ty.U64) b v0 in
    let? v1 := GetArg b i 1 in
    let? n := GetU8 b v1 in
    ReplaceUsesWithImm i is_32_bit (f x n) b
  else Ret b.
Definition fold_masked_shift (is_32_bit : bool) (f : Z -> Z -> Z) (i : nat) : Block -> outcome Block := fun b =>
  fold_immediates i b (fun b =>
    let ty := if is_32_bit then Ty.U32 else Ty.U64 in
    let? v0 := GetArg b i 0 in
    let? x := GetImm ty b v0 in
    let? v1 := GetArg b i 1 in
    let? n := GetImm ty b v1 in
    ReplaceUsesWithImm i is_32_bit (f x n) b).

(** What one turn of the loop does with an instruction. *)
Definition fold_inst (i : nat) (b : Block) : outcome Block :=
  let? opcode := GetOpcode b i in
  match opcode with
  | Op.LeastSignificantWord => FoldLeastSignificantWord i b
  | Op.MostSignificantWord => FoldMostSignificantWord i b
  | Op.LeastSignificantHalf => FoldLeastSignificantHalf i b
  | Op.LeastSignificantByte => FoldLeastSignificantByte i b
  | Op.MostSignificantBit => FoldMostSignificantBit i b
  | Op.IsZero32 => fold_is_zero Ty.U32 i b
  | Op.IsZero64 => fold_is_zero Ty.U64 i b
  | Op.LogicalShiftLeft32 => fold_shift true (Safe.LogicalShiftLeft 32) i b
  | Op.LogicalShiftLeft64 => fold_shift false (Safe.LogicalShiftLeft 64) i b
  | Op.LogicalShiftRight32 => fold_shift true (Safe.LogicalShiftRight 32) i b
  | Op.LogicalShiftRight64 => fold_shift false (Safe.LogicalShiftRight 64) i b
  | Op.ArithmeticShiftRight32 => fold_shift true (Safe.ArithmeticShiftRight 32) i b
  | Op.ArithmeticShiftRight64 => fold_shift false (Safe.ArithmeticShiftRight 64) i b
  | Op.RotateRight32 => fold_shift true (rotate_right 32) i b
  | Op.RotateRight64 => fold_shift false (rotate_right 64) i b
  | Op.LogicalShiftLeftMasked32 => fold_masked_shift true (fun x n => u32 (Z.shiftl x (Z.land n 0x1f))) i b
  | Op.LogicalShiftLeftMasked64 => fold_masked_shift false (fun x n => u64 (Z.shiftl x (Z.land n 0x3f))) i b
  | Op.LogicalShiftRightMasked32 => fold_masked_shift true (fun x n => Z.shiftr x (Z.land n 0x1f)) i b
  | Op.LogicalShiftRightMasked64 => fold_masked_shift false (fun x n => Z.shiftr x (Z.land n 0x3f)) i b
  | Op.ArithmeticShiftRightMasked32 => fold_masked_shift true (fun x n => u64 (Z.shiftr (i32 x) (Z.land n 0x1f))) i b
  | Op.ArithmeticShiftRightMasked64 => fold_masked_shift false (fun x n => u64 (Z.shiftr (i64 x) (Z.land n 0x3f))) i b
  | Op.RotateRightMasked32 => fold_masked_shift true (rotate_right 32) i b
  | Op.RotateRightMasked64 => fold_masked_shift false (rotate_right 64) i b
  | Op.Add32 | Op.Add64 => FoldAdd i (bool_decide (opcode = Op.Add32)) b
  | Op.Sub32 | Op.Sub64 => FoldSub i (bool_decide (opcode = Op.Sub32)) b
  | Op.Mul32 | Op.Mul64 => FoldMultiply i (bool_decide (opcode = Op.Mul32)) b
  | Op.SignedDiv32 | Op.SignedDiv64 => FoldDivide i (bool_decide (opcode = Op.SignedDiv32)) true b
  | Op.UnsignedDiv32 | Op.UnsignedDiv64 => FoldDivide i (bool_decide (opcode = Op.UnsignedDiv32)) false b
  | Op.And32 | Op.And64 => FoldAND i (bool_decide (opcode = Op.And32)) b
  | Op.Eor32 | Op.Eor64 => FoldEOR i (bool_decide (opcode = Op.Eor32)) b
  | Op.Or32 | Op.Or64 => FoldOR i (bool_decide (opcode = Op.Or32)) b
  | Op.Not32 | Op.Not64 => FoldNOT i (bool_decide (opcode = Op.Not32)) b
  | Op.SignExtendByteToWord | Op.SignExtendHalfToWord => FoldSignExtendXToWord i b
  | Op.SignExtendByteToLong | Op.SignExtendHalfToLong | Op.SignExtendWordToLong => FoldSignExtendXToLong i b
  | Op.ZeroExtendByteToWord | Op.ZeroExtendHalfToWord => FoldZeroExtendXToWord i b
  | Op.ZeroExtendByteToLong | Op.ZeroExtendHalfToLong | Op.ZeroExtendWordToLong => FoldZeroExtendXToLong i b
  | Op.ByteReverseWord | Op.ByteReverseHalf | Op.ByteReverseDual => FoldByteReverse i opcode b
  | _ => Ret b
  end.
Fixpoint fold_insts (l : list nat) (b : Block) : outcome Block :=
  match l with
  | [] => Ret b
  | i :: l => let? b := fold_inst i b in fold_insts l b
  end.
(** The pass changes no links of the list it walks over. *)
Definition ConstantPropagation (b : Block) : outcome Block := fold_insts (instructions b) b.

(** ** [dead_code_elimination_pass.cpp] and [naming_pass.cpp] *)
Fixpoint eliminate_insts (l : list nat) (b : Block) : outcome Block :=
  match l with
  | [] => Ret b
  | i :: l =>
      let? x := get_inst b i in
      let? b := if negb (HasUses x) && negb (MayHaveSideEffects (op x)) then Invalidate i b else Ret b in
      eliminate_insts l b
  end.
Definition DeadCodeElimination (b : Block) : outcome Block := eliminate_insts (rev (instructions b)) b.
Fixpoint name_insts (l : list nat) (n : Z) (b : Block) : Block :=
  match l with
  | [] => b
  | i :: l => name_insts l (u32 (n + 1)) (update i (with_name n) b)
  end.
Definition NamingPass (b : Block) : Block := name_insts (instructions b) 1 b.
