(* ===== verification/IrDce.v ===== *)
(** Dead code elimination removes what nobody uses, and only that. *)
From stdpp Require Import list.
From S2P Require Import Prelude Bits IrOpcodes A64Imm Ir IrSem IrWf IrExec IrEdit ConstProp.
Import Op(Opcode).
Local Open Scope nat_scope.

Lemma unused_refs b i x : wf b -> i ∈ instructions b -> pool b !! i = Some x -> HasUses x = false -> refs b i = 0.
Proof.
  intros Hw Hi Hx Hu. unfold HasUses in Hu. apply Z.ltb_ge in Hu.
  assert (Hc : count b i = use_count x) by (unfold count; by rewrite Hx).
  destruct (IsImmediate b (Ref i)) eqn:Him.
  - pose proof (bk_imm b (wf_book b Hw) i Hi Him). lia.
  - pose proof (bk_uses b (wf_book b Hw) i Hi Him). lia.
Qed.
(** Instructions dead code elimination keeps. *)
Definition useful (b : Block) (i : nat) : Prop :=
  exists x, pool b !! i = Some x /\ (op x = Op.Void \/ HasUses x = true \/ MayHaveSideEffects (op x) = true).

Lemma useful_after b b' pre post i o vs : wf b -> instructions b = pre ++ i :: post -> core b i = Some (o, vs) ->
  changed b i o vs b' Op.Void (replicate 4 ValueVoid) -> Forall (useful b) post -> Forall (useful b') (i :: post).
Proof.
  intros Hw E Hi [H1 H2 H3] Hpost. apply Forall_cons. split.
  { destruct (core_pool _ _ _ _ (ed_core _ _ _ _ _ H1)) as (x & Hx & Ho & _). exists x. auto. }
  apply Forall_forall. intros j Hj. rewrite Forall_forall in Hpost. destruct (Hpost j Hj) as (x & Hx & Hor).
  pose proof (so_nodup b (wf_shape b Hw)) as Hn. rewrite E in Hn. apply NoDup_app in Hn as (_ & Hn1 & Hn2). apply NoDup_cons in Hn2 as [Hn2 _].
  assert (Hji : j <> i) by (intros ->; done).
  pose proof (ed_other _ _ _ _ _ H1 j Hji) as Hc. rewrite (pool_core _ _ _ Hx) in Hc. destruct (core_pool _ _ _ _ Hc) as (x' & Hx' & Ho' & _).
  exists x'. split; [done|]. rewrite Ho'. destruct Hor as [?|[Hu|?]]; auto. right. left. unfold HasUses in *.
  specialize (H2 j). unfold count in H2. rewrite Hx, Hx' in H2. rewrite H2. rewrite uses_of_void.
  assert (occ j vs = 0) as Hz.
  { destruct (decide (0 < occ j vs)) as [Ho|]; [|lia]. apply occ_pos, list_elem_of_lookup in Ho as [k Hk]. pose proof (arg_refs_in b pre post i o vs Hw E Hi k _ Hk) as Hp. simpl in Hp.
    exfalso. apply (Hn1 j Hp). set_solver. }
  unfold uses_of. rewrite Hz. destruct (IsImmediate b (Ref j)); by rewrite Z.sub_0_r, Z.add_0_r.
Qed.

Section Dce.
Context {St : Type} `{IRSem St}.

Lemma dead_run b b' pre post i o vs : wf b -> instructions b = pre ++ i :: post -> core b i = Some (o, vs) -> refs b i = 0 ->
  MayHaveSideEffects o = false -> edited b b' i Op.Void (replicate 4 ValueVoid) -> forall s, run_block b' s = run_block b s.
Proof.
  intros Hw E Hi Hr Ho Hed. eapply edit_run; [apply Hw|exact E|exact Hi|exact Hed|]. intros e s _. simpl. split.
  - by rewrite run_inst_quiet.
  - split; [by right|]. intros c p us Hc Hcc _ Hu. assert (0 < refs b i); [|lia]. apply refs_pos. exists c. rewrite E, (core_args _ _ _ _ Hcc).
    split; [set_solver|]. by eapply list_elem_of_lookup_2.
Qed.
Lemma eliminate_insts_spec l : forall b post, wf b -> instructions b = rev l ++ post -> Forall (useful b) post ->
  exists b', eliminate_insts l b = Ret b' /\ wf b' /\ instructions b' = instructions b /\ Forall (useful b') (instructions b') /\
    forall s, run_block b' s = run_block b s.
Proof.
  induction l as [|i l IH]; intros b post Hw E Hp; simpl in *.
  { exists b. rewrite E. by split_and!. }
  rewrite <- app_assoc in E. simpl in E. destruct (so_inst b (wf_shape b Hw) _ _ _ E) as (o & vs & Hi & _).
  destruct (core_pool _ _ _ _ Hi) as (x & Hx & Ho & Ha). unfold get_inst. rewrite Hx. simpl.
  destruct (HasUses x) eqn:Hu; [|destruct (MayHaveSideEffects (op x)) eqn:Hm]; simpl.
  - apply (IH b (i :: post)); [done|done|]. apply Forall_cons. split; [|done]. exists x. auto.
  - apply (IH b (i :: post)); [done|done|]. apply Forall_cons. split; [|done]. exists x. auto.
  - assert (Hii : i ∈ instructions b) by (rewrite E; set_solver). pose proof (unused_refs b i x Hw Hii Hx Hu) as Hr.
    destruct (Invalidate_changed b (rev l) post i o vs Hw E Hi) as (b1 & Hb1 & Hc). rewrite Hb1. simpl.
    destruct (Invalidate_spec b (rev l) post i o vs Hw E Hi Hr) as (b1' & Hb1' & _ & Hw1). rewrite Hb1 in Hb1'. simplify_eq.
    pose proof (ed_list _ _ _ _ _ (ch_ed _ _ _ _ _ _ _ Hc)) as El.
    destruct (IH b1' (i :: post)) as (b2 & Hb2 & Hw2 & El2 & Hp2 & Hr2); [done|by rewrite El| |].
    { eapply useful_after; [exact Hw|exact E|exact Hi|exact Hc|exact Hp]. }
    exists b2. split_and!; [done|done|congruence|done|]. intros s. rewrite Hr2. eapply dead_run; [exact Hw|exact E|exact Hi|exact Hr|exact Hm|apply Hc].
Qed.
(** Dead code elimination succeeds on every well-formed block and leaves one that is
    well-formed and does the same to the state; every instruction left has a user or an
    effect, or was blanked. *)
Theorem dead_code_elimination_sound (b : Block) (Hw : wf b) :
  exists b', DeadCodeElimination b = Ret b' /\ wf b' /\ instructions b' = instructions b /\ Forall (useful b') (instructions b') /\
    forall s, run_block b' s = run_block b s.
Proof. apply (eliminate_insts_spec _ b []); [done| |done]. by rewrite rev_involutive, app_nil_r. Qed.
End Dce.
