(* ===== verification/IrArith.v ===== *)
(** Arithmetic of the values folded by constant propagation. *)
From stdpp Require Import list.
From S2P Require Import Prelude Bits IrOpcodes A64Imm Ir IrSem IrWf IrExec ConstProp.
Import Op(Opcode).
Local Open Scope Z_scope.

(** ** Arithmetic *)
Lemma wrap_wrap_le w w' x : 0 <= w <= w' -> wrap w (wrap w' x) = wrap w x.
Proof.
  intros. unfold wrap. replace (2 ^ w') with (2 ^ w * 2 ^ (w' - w)) by (rewrite <- Z.pow_add_r by lia; f_equal; lia).
  pose proof (Z.pow_pos_nonneg 2 w). rewrite Z.rem_mul_r by (try apply Z.pow_pos_nonneg; lia).
  rewrite (Z.mul_comm (2 ^ w)), Z_mod_plus_full. apply Z.mod_mod. lia.
Qed.
Lemma msb_31 x : in_range 32 x -> negb (Z.shiftr x 31 =? 0) = Z.testbit x 31.
Proof.
  intros [H0 H1]. rewrite Z.shiftr_div_pow2 by lia. rewrite Z.testbit_eqb by lia.
  assert (Hq : x / 2 ^ 31 = 0 \/ x / 2 ^ 31 = 1). { pose proof (Z.div_pos x (2 ^ 31)). pose proof (Z.div_lt_upper_bound x (2 ^ 31) 2). lia. }
  destruct Hq as [-> | ->]; done.
Qed.
(** Byte swaps, byte by byte. *)
Lemma testbit_255 i : 0 <= i -> Z.testbit 255 i = (i <? 8).
Proof. intros. change 255 with (Z.ones 8). rewrite bit.testbit_ones_lt by lia. done. Qed.
Lemma byte_right x a b m : 0 <= b <= a -> m = Z.shiftl 255 a -> Z.shiftl (Z.land (Z.shiftr x a) 255) b = Z.shiftr (Z.land x m) (a - b).
Proof.
  intros H ->. apply Z.bits_inj'. intros i Hi. rewrite Z.shiftl_spec, Z.shiftr_spec by lia. rewrite (Z.land_spec x), (Z.shiftl_spec 255) by lia.
  destruct (Z_lt_le_dec i b); [rewrite Z.testbit_neg_r, (Z.testbit_neg_r 255), andb_false_r by lia; done|].
  rewrite Z.land_spec, Z.shiftr_spec by lia. do 2 f_equal; lia.
Qed.
Lemma byte_left x a b m : 0 <= a <= b -> m = Z.shiftl 255 a -> Z.shiftl (Z.land (Z.shiftr x a) 255) b = Z.shiftl (Z.land x m) (b - a).
Proof.
  intros H ->. apply Z.bits_inj'. intros i Hi. rewrite !Z.shiftl_spec by lia.
  destruct (Z_lt_le_dec i b) as [Hb|Hb].
  - rewrite Z.testbit_neg_r by lia. destruct (Z_lt_le_dec (i - (b - a)) 0); [by rewrite Z.testbit_neg_r by lia|].
    rewrite Z.land_spec, Z.shiftl_spec by lia. rewrite (Z.testbit_neg_r 255) by lia. by rewrite andb_false_r.
  - rewrite !Z.land_spec, Z.shiftr_spec, Z.shiftl_spec by lia. do 2 f_equal; lia.
Qed.
Lemma lor_range w x y : 0 < w -> in_range w x -> in_range w y -> in_range w (Z.lor x y).
Proof.
  intros Hw Hx Hy. apply (bit.in_range_bits w Hw); [apply Z.lor_nonneg; split; [apply Hx|apply Hy]|].
  intros i Hi. by rewrite Z.lor_spec, (bit.testbit_above w Hw x i Hx Hi), (bit.testbit_above w Hw y i Hy Hi).
Qed.
Lemma byte_range w x b : 0 <= b -> b + 8 <= w -> in_range w (Z.shiftl (Z.land x 255) b).
Proof.
  intros. assert (Hr : 0 <= Z.land x 255 < 256). { change 255 with (Z.ones 8). rewrite Z.land_ones by lia. apply Z.mod_pos_bound. done. }
  rewrite Z.shiftl_mul_pow2 by lia. split; [apply Z.mul_nonneg_nonneg; [lia|apply Z.pow_nonneg; lia]|].
  apply Z.lt_le_trans with (2 ^ 8 * 2 ^ b); [apply Z.mul_lt_mono_pos_r; [apply Z.pow_pos_nonneg|]; lia|].
  rewrite <- Z.pow_add_r by lia. apply Z.pow_le_mono_r; lia.
Qed.
Lemma swap_bytes_range n x : (0 < n)%nat -> in_range (8 * Z.of_nat n) (swap_bytes n x).
Proof.
  intros Hn. unfold swap_bytes.
  assert (Hg : forall l acc, (forall k, k ∈ l -> (k < n)%nat) -> in_range (8 * Z.of_nat n) acc ->
    in_range (8 * Z.of_nat n) (fold_left (fun acc k => Z.lor acc (Z.shiftl (Z.land (Z.shiftr x (8 * Z.of_nat k)) 255) (8 * Z.of_nat (n - 1 - k)))) l acc)).
  { induction l as [|k l IH]; intros acc Hl Hacc; [done|]. simpl. apply IH; [intros; apply Hl; set_solver|].
    apply lor_range; [lia|done|]. assert (k < n)%nat by (apply Hl; set_solver). apply byte_range; lia. }
  apply Hg; [intros k Hk; apply elem_of_seq in Hk; lia|]. apply zero_in_range. lia.
Qed.
Lemma swap_bytes_32_eq x : wrap 32 (swap_bytes 4 x) = swap_bytes_32 x.
Proof.
  rewrite wrap_small by (apply (swap_bytes_range 4); lia). unfold swap_bytes, swap_bytes_32.
  cbn -[Z.mul Z.shiftl Z.shiftr Z.land Z.lor]. change (8 * Z.of_nat 0) with 0. change (8 * Z.of_nat 1) with 8. change (8 * Z.of_nat 2) with 16. change (8 * Z.of_nat 3) with 24.
  rewrite (byte_left x 0 24 0xff), (byte_left x 8 16 0xff00), (byte_right x 16 8 0xff0000), (byte_right x 24 0 0xff000000) by done.
  change (24 - 0) with 24. change (16 - 8) with 8.
  generalize (Z.shiftl (Z.land x 0xff) 24) (Z.shiftl (Z.land x 0xff00) 8) (Z.shiftr (Z.land x 0xff0000) 8) (Z.shiftr (Z.land x 0xff000000) 24).
  intros a b c d. rewrite Z.lor_0_l. rewrite (Z.lor_comm _ d), (Z.lor_comm _ c), (Z.lor_comm a b). done.
Qed.
Lemma swap_bytes_64_eq x : wrap 64 (swap_bytes 8 x) = swap_bytes_64 x.
Proof.
  rewrite wrap_small by (apply (swap_bytes_range 8); lia). unfold swap_bytes, swap_bytes_64.
  cbn -[Z.mul Z.shiftl Z.shiftr Z.land Z.lor]. change (8 * Z.of_nat 0) with 0. change (8 * Z.of_nat 1) with 8. change (8 * Z.of_nat 2) with 16. change (8 * Z.of_nat 3) with 24.
  change (8 * Z.of_nat 4) with 32. change (8 * Z.of_nat 5) with 40. change (8 * Z.of_nat 6) with 48. change (8 * Z.of_nat 7) with 56.
  rewrite (byte_left x 0 56 0xff), (byte_left x 8 48 0xff00), (byte_left x 16 40 0xff0000), (byte_left x 24 32 0xff000000),
    (byte_right x 32 24 0xff00000000), (byte_right x 40 16 0xff0000000000), (byte_right x 48 8 0xff000000000000), (byte_right x 56 0 0xff00000000000000) by done.
  change (56 - 0) with 56. change (48 - 8) with 40. change (40 - 16) with 24. change (32 - 24) with 8.
  generalize (Z.shiftl (Z.land x 0xff) 56) (Z.shiftl (Z.land x 0xff00) 40) (Z.shiftl (Z.land x 0xff0000) 24) (Z.shiftl (Z.land x 0xff000000) 8)
    (Z.shiftr (Z.land x 0xff00000000) 8) (Z.shiftr (Z.land x 0xff0000000000) 24) (Z.shiftr (Z.land x 0xff000000000000) 40) (Z.shiftr (Z.land x 0xff00000000000000) 56).
  intros a b c d e f g h. rewrite Z.lor_0_l.
  rewrite (Z.lor_comm _ h), (Z.lor_comm _ g), (Z.lor_comm _ f), (Z.lor_comm _ e), (Z.lor_comm _ d), (Z.lor_comm _ c), (Z.lor_comm a b). done.
Qed.
Lemma swap_bytes_16_eq x : in_range 16 x -> wrap 16 (swap_bytes 2 x) = swap_bytes_16 x.
Proof.
  intros Hx. unfold swap_bytes, swap_bytes_16. cbn -[Z.mul Z.shiftl Z.shiftr Z.land Z.lor]. change (8 * Z.of_nat 0) with 0. change (8 * Z.of_nat 1) with 8.
  rewrite Z.lor_0_l, (byte_left x 0 8 0xff), (byte_right x 8 0 0xff00) by done. change (8 - 0) with 8.
  apply Z.bits_inj'. intros i Hi. rewrite !bit.testbit_wrap by lia. destruct (Z.ltb_spec i 16); [|done]. simpl.
  rewrite !Z.lor_spec, !Z.shiftl_spec, !Z.shiftr_spec, (Z.land_spec x 0xff00) by lia. change 0xff00 with (Z.shiftl 255 8). rewrite Z.shiftl_spec, testbit_255 by lia.
  rewrite orb_comm. f_equal.
  - destruct (Z.ltb_spec (i + 8 - 8) 8); [by rewrite andb_true_r|]. rewrite (bit.testbit_above 16 ltac:(lia) x (i + 8) Hx) by lia. done.
  - destruct (Z_lt_le_dec i 8); [rewrite !Z.testbit_neg_r by lia; done|]. rewrite Z.land_spec, testbit_255 by lia. destruct (Z.ltb_spec (i - 8) 8); [|lia]. by rewrite andb_true_r.
Qed.

(** ** The functions of the pass *)
Lemma Safe_left w x n : 0 <= n -> Safe.LogicalShiftLeft w x n = shift_left w x n.
Proof. intros. unfold Safe.LogicalShiftLeft, Safe.LogicalShiftLeft_by, shift_left. destruct (Z.leb_spec w n); [done|]. by destruct (Z.ltb_spec n 0); [lia|]. Qed.
Lemma shiftr_range w x n : 0 <= n -> in_range w x -> in_range w (Z.shiftr x n).
Proof.
  intros Hn [H0 H1]. rewrite Z.shiftr_div_pow2 by lia. pose proof (Z.pow_pos_nonneg 2 n ltac:(lia) Hn). split; [apply Z.div_pos; lia|].
  apply Z.le_lt_trans with x; [|done]. apply Z.div_le_upper_bound; nia.
Qed.
Lemma Safe_right w x n : 0 <= n -> 0 <= w -> in_range w x -> wrap w (shift_right w x n) = Safe.LogicalShiftRight w x n.
Proof.
  intros. unfold Safe.LogicalShiftRight, Safe.LogicalShiftRight_by, shift_right. destruct (Z.leb_spec w n); [by rewrite wrap_small by by apply zero_in_range|].
  destruct (Z.ltb_spec n 0); [lia|]. apply wrap_small. by apply shiftr_range.
Qed.
Lemma testbit_msb w x : 0 < w -> in_range w x -> Z.testbit x (w - 1) = (2 ^ (w - 1) <=? x).
Proof.
  intros Hw [Hx0 Hx1]. pose proof (Z.pow_pos_nonneg 2 (w - 1) ltac:(lia) ltac:(lia)) as Hp.
  assert (Hd : 2 ^ w = 2 * 2 ^ (w - 1)) by (rewrite <- Z.pow_succ_r by lia; f_equal; lia).
  rewrite Z.testbit_eqb by lia. destruct (Z.leb_spec (2 ^ (w - 1)) x).
  - assert (x / 2 ^ (w - 1) = 1) as ->; [|done]. symmetry. apply (Z.div_unique _ _ _ (x - 2 ^ (w - 1))); lia.
  - by rewrite Z.div_small by lia.
Qed.
Lemma swrap_msb w x : 0 < w -> in_range w x -> swrap w x = x - (if Z.testbit x (w - 1) then 2 ^ w else 0).
Proof.
  intros Hw Hx. rewrite testbit_msb by done. destruct Hx as [Hx0 Hx1]. pose proof (Z.pow_pos_nonneg 2 (w - 1) ltac:(lia) ltac:(lia)) as Hp.
  assert (Hd : 2 ^ w = 2 * 2 ^ (w - 1)) by (rewrite <- Z.pow_succ_r by lia; f_equal; lia).
  unfold swrap. destruct (Z.leb_spec (2 ^ (w - 1)) x).
  - rewrite Hd in *. replace (x + 2 ^ (w - 1)) with ((x - 2 ^ (w - 1)) + 1 * (2 * 2 ^ (w - 1))) by lia. rewrite Z_mod_plus_full, Z.mod_small by lia. lia.
  - rewrite Z.mod_small by lia. lia.
Qed.
Lemma Safe_arith w x n : 0 <= n -> 0 < w -> in_range w x -> shift_arith w x n = Safe.ArithmeticShiftRight w x n.
Proof.
  intros Hn Hw Hx. unfold Safe.ArithmeticShiftRight, shift_arith. destruct (Z.leb_spec w n); [|by destruct (Z.ltb_spec n 0); [lia|]; rewrite Z.min_l by lia].
  rewrite Z.min_r by lia. rewrite swrap_msb by done. rewrite testbit_msb by done. destruct Hx as [Hx0 Hx1].
  pose proof (Z.pow_pos_nonneg 2 (w - 1) ltac:(lia) ltac:(lia)). assert (Hd : 2 ^ w = 2 * 2 ^ (w - 1)) by (rewrite <- Z.pow_succ_r by lia; f_equal; lia).
  rewrite Z.shiftr_div_pow2 by lia. destruct (Z.leb_spec (2 ^ (w - 1)) x).
  - assert ((x - 2 ^ w) / 2 ^ (w - 1) = -1) as ->. { symmetry. apply (Z.div_unique _ _ _ (x - 2 ^ (w - 1))); lia. }
    rewrite Z.ones_equiv. unfold wrap. symmetry. apply (Z.mod_unique _ _ (-1)); lia.
  - rewrite Z.sub_0_r, Z.div_small by lia. apply wrap_small, zero_in_range. lia.
Qed.
Lemma not_lnot w x : 0 < w -> in_range w x -> not_ w x = wrap w (Z.lnot x).
Proof.
  intros Hw Hx. unfold not_. apply Z.bits_inj'. intros i Hi. rewrite Z.lxor_spec, bit.testbit_wrap, bit.testbit_ones_lt by lia.
  destruct (Z.ltb_spec i w); [rewrite Z.lnot_spec by lia; by destruct (Z.testbit x i)|]. by rewrite (bit.testbit_above w Hw x i Hx) by lia.
Qed.
Lemma wrap_add_l w x y : wrap w (wrap w x + y) = wrap w (x + y).
Proof. unfold wrap. apply Zplus_mod_idemp_l. Qed.
Lemma wrap_add_r w x y : wrap w (x + wrap w y) = wrap w (x + y).
Proof. unfold wrap. apply Zplus_mod_idemp_r. Qed.
Lemma wrap_not w x y c : 0 <= w <= 64 -> in_range 64 y -> wrap w (x + not_ 64 y + c) = wrap w (x - y - 1 + c).
Proof.
  intros Hw Hy. rewrite (not_lnot 64) by (try done; lia). rewrite <- (Z.add_assoc x), (Z.add_comm x), <- Z.add_assoc, <- wrap_add_l, wrap_wrap_le, wrap_add_l by lia.
  unfold Z.lnot. f_equal. lia.
Qed.
Lemma s64_of_sign_extend n z : 0 < n <= 64 -> in_range n z -> i64 (bit.sign_extend 64 n z) = swrap n z.
Proof.
  intros Hn Hz. rewrite bit.sign_extend_eq by lia. unfold i64.
  pose proof (swrap_range n z ltac:(lia)) as Hr. pose proof (Z.pow_le_mono_r 2 (n - 1) 63 ltac:(lia) ltac:(lia)).
  unfold swrap at 1. unfold wrap. rewrite Zplus_mod_idemp_l. fold (swrap 64 (swrap n z)). apply swrap_small; lia.
Qed.
