(* ===== verification/ConstPropProps.v ===== *)
(** Constant propagation keeps what a block does: each folding function on its own. *)
From stdpp Require Import list.
From S2P Require Import Prelude Bits IrOpcodes A64Imm Ir IrSem IrWf IrExec IrEdit IrFold ConstProp IrArith.
Import Op(Opcode).
Local Open Scope Z_scope.

Lemma take_1 (us : list Value) v0 : us !! 0%nat = Some v0 -> take 1 us = [v0].
Proof. destruct us; simpl; intros [=]; subst. by rewrite take_0. Qed.
Lemma take_2 (us : list Value) v0 v1 : us !! 0%nat = Some v0 -> us !! 1%nat = Some v1 -> take 2 us = [v0; v1].
Proof. destruct us as [|? [|]]; simpl; intros [=] [=]; subst. by rewrite take_0. Qed.
Lemma take_3 (us : list Value) v0 v1 v2 : us !! 0%nat = Some v0 -> us !! 1%nat = Some v1 -> us !! 2%nat = Some v2 -> take 3 us = [v0; v1; v2].
Proof. destruct us as [|? [|? [|]]]; simpl; intros [=] [=] [=]; subst. by rewrite take_0. Qed.

(** ** Operands of the width *)
Section Width.
Context (is_32_bit : bool).
Abbreviation ty := (if is_32_bit then Ty.U32 else Ty.U64).
Lemma ty_concrete : ty <> Ty.Opaque /\ ty <> Ty.Void.
Proof. by destruct is_32_bit. Qed.
Lemma ty_ok z : tv_ok (ty, z) <-> in_range (if is_32_bit then 32 else 64) z.
Proof. by destruct is_32_bit. Qed.
Lemma ty_u64 b v z : resolve b v = Imm ty z -> GetImmediateAsU64 b v = Ret z.
Proof. intros Hr. unfold GetImmediateAsU64. rewrite Hr. by destruct is_32_bit. Qed.
Lemma ty_value z : ValueOf is_32_bit z = Imm ty (if is_32_bit then u32 z else z).
Proof. unfold ValueOf. by destruct is_32_bit. Qed.
Lemma ReplaceImm_eq i z b : ReplaceUsesWithImm i is_32_bit z b = ReplaceUsesWith i (Imm ty (if is_32_bit then u32 z else z)) b.
Proof. unfold ReplaceUsesWithImm. by destruct is_32_bit. Qed.
End Width.
Ltac concrete c := first [exact (proj1 (ty_concrete c)) | exact (proj2 (ty_concrete c))].

Ltac read_imm Hr := unfold GetImmediateAsU64, GetImmediateAsS64, GetU1, GetU8, GetU32, GetU64, GetImm; rewrite ?Hr; cbn [obind]; rewrite ?decide_True by done; cbn [obind].

Section ConstProp.
Context {St : Type} `{IRSem St}.
Abbreviation env := (gmap nat result).
(** The computation succeeds with a block that does the same. *)
Definition folds (b : Block) (c : outcome Block) : Prop := exists b', c = Ret b' /\ sound b b'.
Lemma folds_refl b : wf b -> folds b (Ret b).
Proof. intros. exists b. split; [done|]. by apply sound_refl. Qed.
Lemma folds_trans b b1 c : sound b b1 -> folds b1 c -> folds b c.
Proof. intros Hs (b' & -> & Hs'). exists b'. split; [done|]. by eapply sound_trans. Qed.

Section Inst.
Context (b : Block) (pre post : list nat) (i : nat) (o : Opcode) (vs : list Value) (Ha : at_inst b pre post i o vs).

(** ** Operands *)
Record typed (k : nat) (v : Value) (ty : Ty.t) : Prop := { ty_arg : GetArg b i k = Ret v; ty_use : usable b pre v; ty_type : GetType b v = ty }.
Lemma typed_operand k ty : (k < GetNumArgsOf o)%nat -> GetArgTypeOf o k = ty -> ty <> Ty.Opaque -> exists v, vs !! k = Some v /\ typed k v ty.
Proof.
  intros Hk Ht Hne. destruct (operand _ _ _ _ _ _ Ha k Hk) as (v & Hv & Hg & Hu & Hc). exists v. split; [done|]. constructor; auto.
  rewrite Ht in Hc. by eapply operand_type.
Qed.
Lemma imm_operand k v ty : typed k v ty -> IsImmediate b v = true ->
  exists z, resolve b v = Imm ty z /\ tv_ok (ty, z) /\ forall e, consistent b pre e -> eval e v = (ty, z).
Proof.
  intros [_ Hu Ht] Hi. destruct (immediate_value _ _ _ _ _ _ Ha v ty Hu Ht Hi) as (z & Hr & Hz). exists z. split_and!; auto.
  intros e He. eapply eval_imm; eauto. apply Hu.
Qed.
Lemma any_operand k v ty e : typed k v ty -> consistent b pre e -> exists z, eval e v = (ty, z) /\ tv_ok (ty, z).
Proof. intros [_ Hu Ht] He. by eapply eval_typed. Qed.

(** ** Pseudo-operations *)
Lemma reads_pseudo p : reads_op p = true -> IsAPseudoOperation p = true.
Proof. by destruct p. Qed.
Lemma readers_plain a v z : pure o a = Some z -> sets_carry o = false ->
  readers b post i (fun p => pseudo_value p {| r_op := o; r_args := a; r_val := v |} = pseudo_value p (of_value v)).
Proof. intros Hp Hc c p us _ _ _ _. eapply pseudo_value_plain; eauto. by destruct o. Qed.
Lemma reader_in_chain c p us : o <> Op.Identity -> c ∈ post -> core b c = Some (p, us) -> reads_op p = true -> us !! 0%nat = Some (Ref i) -> c ∈ chain b i.
Proof.
  intros Ho Hc Hcc Hr Hu. destruct Ha as [Hw E Hi]. apply (bk_fwd b (wf_book b Hw)).
  - exists p, us. split_and!; auto; [rewrite E; set_solver|by apply reads_pseudo].
  - unfold IsImmediate. rewrite resolve_ref; [done|]. by rewrite (core_opcode _ _ _ _ Hi).
Qed.
Lemma readers_none P : o <> Op.Identity -> IsAPseudoOperation o = false -> HasAssociatedPseudoOperation b i = Ret false -> readers b post i P.
Proof.
  intros Ho Hps Hh c p us Hc Hcc Hr Hu. exfalso. pose proof (reader_in_chain c p us Ho Hc Hcc Hr Hu) as Hin.
  destruct (core_pool _ _ _ _ (ai_core _ _ _ _ _ _ Ha)) as (x & Hx & <- & _). unfold HasAssociatedPseudoOperation, get_inst in Hh. rewrite Hx in Hh. simpl in Hh.
  rewrite Hps, andb_true_r in Hh. unfold chain in Hin. rewrite Hx in Hin. case_bool_decide as E; [|done]. rewrite E in Hin. set_solver.
Qed.
Lemma HasAssociated_ret : exists h, HasAssociatedPseudoOperation b i = Ret h.
Proof. destruct (core_pool _ _ _ _ (ai_core _ _ _ _ _ _ Ha)) as (x & Hx & _). unfold HasAssociatedPseudoOperation, get_inst. rewrite Hx. by eexists. Qed.
Lemma find_carry l : (forall c, c ∈ l -> is_pseudo_of b c i) -> exists r, find_pseudoop b i Op.GetCarryFromOp l = Ret r /\
  match r with
  | Some c => is_pseudo_of b c i /\ opcode_of b c = Op.GetCarryFromOp
  | None => forall c, c ∈ l -> opcode_of b c <> Op.GetCarryFromOp
  end.
Proof.
  induction l as [|c l IH]; intros Hl; simpl; [exists None; split; [done|set_solver]|].
  destruct (Hl c ltac:(set_solver)) as (p & us & Hc & Hcc & Hps & Hu). destruct (core_pool _ _ _ _ Hcc) as (x & Hx & Hxo & Hxa).
  unfold get_inst. rewrite Hx. simpl. rewrite Hxo. case_decide as Ep.
  - apply list_elem_of_split in Hc as (l1 & l2 & El). assert (Hac : at_inst b l1 l2 c p us) by (constructor; [apply Ha|done|done]).
    destruct (operand _ _ _ _ _ _ Hac 0) as (v & Hv & -> & _); [rewrite (pseudo_one_arg p Hps); lia|]. rewrite Hu in Hv. simplify_eq. simpl. rewrite Nat.eqb_refl. simpl.
    exists (Some c). split; [done|]. split; [apply Hl; set_solver|]. by rewrite (core_opcode _ _ _ _ Hcc).
  - destruct IH as (r & Hr & Hm); [intros; apply Hl; set_solver|]. exists r. split; [done|]. destruct r; [done|].
    intros d [->|Hd]%elem_of_cons; [by rewrite (core_opcode _ _ _ _ Hcc)|auto].
Qed.
Lemma carry_inst : o <> Op.Identity -> o <> Op.Void -> exists r, GetAssociatedPseudoOperation b i Op.GetCarryFromOp = Ret r /\
  match r with
  | Some c => is_pseudo_of b c i /\ opcode_of b c = Op.GetCarryFromOp
  | None => readers b post i (fun p => p <> Op.GetCarryFromOp)
  end.
Proof.
  intros Ho Hv. destruct Ha as [Hw E Hi]. destruct (core_pool _ _ _ _ Hi) as (x & Hx & Hxo & _). unfold GetAssociatedPseudoOperation, get_inst. rewrite Hx. simpl.
  assert (Hch : chain b i = pseudoops x) by (unfold chain; by rewrite Hx).
  destruct (find_carry (pseudoops x)) as (r & Hr & Hm).
  { intros c Hc. rewrite <- Hch in Hc. apply (bk_bwd b (wf_book b Hw)); [rewrite E; set_solver|by rewrite (core_opcode _ _ _ _ Hi)..|done]. }
  exists r. split; [done|]. destruct r; [done|]. intros c p us Hc Hcc Hrp Hu. rewrite <- (core_opcode _ _ _ _ Hcc). apply Hm. rewrite <- Hch. by eapply reader_in_chain.
Qed.

(** ** Operations on immediates only *)
Lemma replace_unary v ty f : typed 0 v ty -> vs !! 0%nat = Some v -> GetNumArgsOf o = 1%nat -> sets_carry o = false -> GetTypeOf o <> Ty.Void -> o <> Op.Identity ->
  (forall z, tv_ok (ty, z) -> pure o [(ty, z)] = Some (f z)) -> IsImmediate b v = true ->
  exists z, resolve b v = Imm ty z /\ folds b (ReplaceUsesWith i (Imm (GetTypeOf o) (f z)) b).
Proof.
  intros Hv H0 Hn Hsc Hvo Ho Hp Him. destruct (imm_operand 0 v ty Hv Him) as (z & Hr & Hz & He). exists z. split; [done|].
  pose proof (Hp z Hz) as Hpz. destruct (ReplaceUsesWith_imm b pre post i o vs Ha Ho (f z)) as (b' & Hb' & Hs); [done|by eapply pure_ok| |by exists b'].
  intros e Hce. rewrite Hn, (take_1 vs v H0). simpl. rewrite (He e Hce). split; [done|]. by eapply readers_plain.
Qed.
Lemma replace_binary v0 v1 ty0 ty1 f : typed 0 v0 ty0 -> typed 1 v1 ty1 -> vs !! 0%nat = Some v0 -> vs !! 1%nat = Some v1 -> GetNumArgsOf o = 2%nat ->
  sets_carry o = false -> GetTypeOf o <> Ty.Void -> o <> Op.Identity ->
  (forall x y, tv_ok (ty0, x) -> tv_ok (ty1, y) -> pure o [(ty0, x); (ty1, y)] = Some (f x y)) -> IsImmediate b v0 = true -> IsImmediate b v1 = true ->
  exists x y, resolve b v0 = Imm ty0 x /\ resolve b v1 = Imm ty1 y /\ tv_ok (ty0, x) /\ tv_ok (ty1, y) /\
    folds b (ReplaceUsesWith i (Imm (GetTypeOf o) (f x y)) b).
Proof.
  intros Hv0 Hv1 H0 H1 Hn Hsc Hvo Ho Hp Hi0 Hi1. destruct (imm_operand 0 v0 ty0 Hv0 Hi0) as (x & Hrx & Hx & He0).
  destruct (imm_operand 1 v1 ty1 Hv1 Hi1) as (y & Hry & Hy & He1). exists x, y. split_and!; auto.
  pose proof (Hp x y Hx Hy) as Hpz. destruct (ReplaceUsesWith_imm b pre post i o vs Ha Ho (f x y)) as (b' & Hb' & Hs); [done|by eapply pure_ok| |by exists b'].
  intros e Hce. rewrite Hn, (take_2 vs v0 v1 H0 H1). simpl. rewrite (He0 e Hce), (He1 e Hce). split; [done|]. by eapply readers_plain.
Qed.
(** All there is to know of a unary operation, and of a binary one. *)
Lemma unary ty f : GetNumArgsOf o = 1%nat -> GetArgTypeOf o 0 = ty -> ty <> Ty.Opaque -> sets_carry o = false -> GetTypeOf o <> Ty.Void -> o <> Op.Identity ->
  (forall z, tv_ok (ty, z) -> pure o [(ty, z)] = Some (f z)) ->
  exists v, GetArg b i 0 = Ret v /\ AreAllArgsImmediates b i = Ret (IsImmediate b v) /\
    (IsImmediate b v = true -> exists z, resolve b v = Imm ty z /\ folds b (ReplaceUsesWith i (Imm (GetTypeOf o) (f z)) b)).
Proof.
  intros Hn Ht Hne Hsc Hvo Ho Hp. destruct (typed_operand 0 ty ltac:(lia) Ht Hne) as (v & H0 & Hv). exists v. split_and!; [apply Hv| |].
  - rewrite (AllArgs_at _ _ _ _ _ _ Ha), Hn, (take_1 vs v H0). simpl. by rewrite andb_true_r.
  - by apply replace_unary.
Qed.
Lemma binary ty0 ty1 f : GetNumArgsOf o = 2%nat -> GetArgTypeOf o 0 = ty0 -> GetArgTypeOf o 1 = ty1 -> ty0 <> Ty.Opaque -> ty1 <> Ty.Opaque ->
  sets_carry o = false -> GetTypeOf o <> Ty.Void -> o <> Op.Identity ->
  (forall x y, tv_ok (ty0, x) -> tv_ok (ty1, y) -> pure o [(ty0, x); (ty1, y)] = Some (f x y)) ->
  exists v0 v1, GetArg b i 0 = Ret v0 /\ GetArg b i 1 = Ret v1 /\ AreAllArgsImmediates b i = Ret (IsImmediate b v0 && IsImmediate b v1) /\
    (IsImmediate b v0 && IsImmediate b v1 = true -> exists x y, resolve b v0 = Imm ty0 x /\ resolve b v1 = Imm ty1 y /\ tv_ok (ty0, x) /\ tv_ok (ty1, y) /\
       folds b (ReplaceUsesWith i (Imm (GetTypeOf o) (f x y)) b)).
Proof.
  intros Hn Ht0 Ht1 Hne0 Hne1 Hsc Hvo Ho Hp. destruct (typed_operand 0 ty0 ltac:(lia) Ht0 Hne0) as (v0 & H0 & Hv0).
  destruct (typed_operand 1 ty1 ltac:(lia) Ht1 Hne1) as (v1 & H1 & Hv1). exists v0, v1. split_and!; [apply Hv0|apply Hv1| |].
  - rewrite (AllArgs_at _ _ _ _ _ _ Ha), Hn, (take_2 vs v0 v1 H0 H1). simpl. by rewrite andb_true_r.
  - intros [Hi0 Hi1]%andb_true_iff. by apply (replace_binary v0 v1 ty0 ty1 f).
Qed.
End Inst.

(** ** The folding functions *)
Abbreviation at_op b pre post i o vs := (at_inst b pre post i o vs).
Tactic Notation "fold_unary" constr(Ha) constr(ty) constr(f) tactic3(t) :=
  pose proof (ai_wf _ _ _ _ _ _ Ha);
  destruct (unary _ _ _ _ _ _ Ha ty f) as (?v & ?Hg & ?Hall & ?Hi); [reflexivity|reflexivity|discriminate|reflexivity|discriminate|discriminate|t|];
  match goal with Hg : GetArg _ _ _ = Ret ?v, Hall : AreAllArgsImmediates _ _ = _, Hi : IsImmediate ?b ?v = true -> _ |- _ =>
    rewrite ?Hall, ?Hg; cbn [obind]; destruct (IsImmediate b v) eqn:?; cbn [negb]; [|by apply folds_refl];
    let z := fresh "z" in let Hr := fresh "Hr" in let Hf := fresh "Hf" in destruct (Hi eq_refl) as (z & Hr & Hf);
    rewrite ?Hg; cbn [obind]; read_imm Hr; exact Hf end.

Lemma FoldLeastSignificantByte_ok b pre post i vs : at_op b pre post i Op.LeastSignificantByte vs -> folds b (FoldLeastSignificantByte i b).
Proof. intros Ha. unfold FoldLeastSignificantByte. fold_unary Ha Ty.U32 u8 done. Qed.
Lemma FoldLeastSignificantHalf_ok b pre post i vs : at_op b pre post i Op.LeastSignificantHalf vs -> folds b (FoldLeastSignificantHalf i b).
Proof. intros Ha. unfold FoldLeastSignificantHalf. fold_unary Ha Ty.U32 u16 done. Qed.
Lemma FoldLeastSignificantWord_ok b pre post i vs : at_op b pre post i Op.LeastSignificantWord vs -> folds b (FoldLeastSignificantWord i b).
Proof. intros Ha. unfold FoldLeastSignificantWord. fold_unary Ha Ty.U64 u32 done. Qed.
Lemma FoldMostSignificantBit_ok b pre post i vs : at_op b pre post i Op.MostSignificantBit vs -> folds b (FoldMostSignificantBit i b).
Proof.
  intros Ha. unfold FoldMostSignificantBit. fold_unary Ha Ty.U32 (fun x => Z.b2z (negb (Z.shiftr x 31 =? 0))) (intros z Hz; rewrite msb_31 by exact Hz; reflexivity).
Qed.
Lemma fold_is_zero32_ok b pre post i vs : at_op b pre post i Op.IsZero32 vs -> folds b (fold_is_zero Ty.U32 i b).
Proof. intros Ha. unfold fold_is_zero, fold_immediates. fold_unary Ha Ty.U32 (fun x => Z.b2z (x =? 0)) done. Qed.
Lemma fold_is_zero64_ok b pre post i vs : at_op b pre post i Op.IsZero64 vs -> folds b (fold_is_zero Ty.U64 i b).
Proof. intros Ha. unfold fold_is_zero, fold_immediates. fold_unary Ha Ty.U64 (fun x => Z.b2z (x =? 0)) done. Qed.
Lemma FoldSignExtendXToWord_ok b pre post i vs o : o = Op.SignExtendByteToWord \/ o = Op.SignExtendHalfToWord ->
  at_op b pre post i o vs -> folds b (FoldSignExtendXToWord i b).
Proof.
  intros Ho Ha. unfold FoldSignExtendXToWord. destruct Ho as [-> | ->].
  - fold_unary Ha Ty.U8 (fun z => u32 (i64 (bit.sign_extend 64 8 z))) (intros z Hz; rewrite s64_of_sign_extend by (try exact Hz; lia); reflexivity).
  - fold_unary Ha Ty.U16 (fun z => u32 (i64 (bit.sign_extend 64 16 z))) (intros z Hz; rewrite s64_of_sign_extend by (try exact Hz; lia); reflexivity).
Qed.
Lemma FoldSignExtendXToLong_ok b pre post i vs o : o = Op.SignExtendByteToLong \/ o = Op.SignExtendHalfToLong \/ o = Op.SignExtendWordToLong ->
  at_op b pre post i o vs -> folds b (FoldSignExtendXToLong i b).
Proof.
  intros Ho Ha. unfold FoldSignExtendXToLong. destruct Ho as [-> | [-> | ->]].
  - fold_unary Ha Ty.U8 (fun z => u64 (i64 (bit.sign_extend 64 8 z))) (intros z Hz; rewrite s64_of_sign_extend by (try exact Hz; lia); reflexivity).
  - fold_unary Ha Ty.U16 (fun z => u64 (i64 (bit.sign_extend 64 16 z))) (intros z Hz; rewrite s64_of_sign_extend by (try exact Hz; lia); reflexivity).
  - fold_unary Ha Ty.U32 (fun z => u64 (i64 (bit.sign_extend 64 32 z))) (intros z Hz; rewrite s64_of_sign_extend by (try exact Hz; lia); reflexivity).
Qed.
Lemma FoldZeroExtendXToWord_ok b pre post i vs o : o = Op.ZeroExtendByteToWord \/ o = Op.ZeroExtendHalfToWord ->
  at_op b pre post i o vs -> folds b (FoldZeroExtendXToWord i b).
Proof. intros Ho Ha. unfold FoldZeroExtendXToWord. destruct Ho as [-> | ->]; [fold_unary Ha Ty.U8 u32 done|fold_unary Ha Ty.U16 u32 done]. Qed.
Lemma tv_ok_64 ty z : ty = Ty.U8 \/ ty = Ty.U16 \/ ty = Ty.U32 \/ ty = Ty.U64 -> tv_ok (ty, z) -> in_range 64 z.
Proof. unfold tv_ok, in_range. intros [-> | [-> | [-> | ->]]]; simpl; lia. Qed.
Lemma FoldZeroExtendXToLong_ok b pre post i vs o : o = Op.ZeroExtendByteToLong \/ o = Op.ZeroExtendHalfToLong \/ o = Op.ZeroExtendWordToLong ->
  at_op b pre post i o vs -> folds b (FoldZeroExtendXToLong i b).
Proof.
  intros Ho Ha. unfold FoldZeroExtendXToLong. destruct Ho as [-> | [-> | ->]].
  - fold_unary Ha Ty.U8 (fun z : Z => z) (intros z Hz; apply tv_ok_64 in Hz; [|tauto]; cbn; by rewrite wrap_small).
  - fold_unary Ha Ty.U16 (fun z : Z => z) (intros z Hz; apply tv_ok_64 in Hz; [|tauto]; cbn; by rewrite wrap_small).
  - fold_unary Ha Ty.U32 (fun z : Z => z) (intros z Hz; apply tv_ok_64 in Hz; [|tauto]; cbn; by rewrite wrap_small).
Qed.
Lemma FoldByteReverse_ok b pre post i vs o : o = Op.ByteReverseWord \/ o = Op.ByteReverseHalf \/ o = Op.ByteReverseDual ->
  at_op b pre post i o vs -> folds b (FoldByteReverse i o b).
Proof.
  intros Ho Ha. unfold FoldByteReverse. destruct Ho as [-> | [-> | ->]].
  - fold_unary Ha Ty.U32 (fun z => swap_bytes_32 (u32 z)) (intros z Hz; unfold u32; rewrite (wrap_small 32 z) by exact Hz; rewrite <- swap_bytes_32_eq; reflexivity).
  - fold_unary Ha Ty.U16 (fun z => swap_bytes_16 (u16 z)) (intros z Hz; unfold u16; rewrite (wrap_small 16 z) by exact Hz; rewrite <- swap_bytes_16_eq by exact Hz; reflexivity).
  - fold_unary Ha Ty.U64 swap_bytes_64 (intros z Hz; rewrite <- swap_bytes_64_eq; reflexivity).
Qed.
Lemma FoldNOT_ok b pre post i vs (is_32_bit : bool) : at_op b pre post i (if is_32_bit then Op.Not32 else Op.Not64) vs -> folds b (FoldNOT i is_32_bit b).
Proof.
  intros Ha. unfold FoldNOT, ReplaceUsesWithImm. destruct is_32_bit.
  - fold_unary Ha Ty.U32 (fun z => u32 (not_ 64 z)) (intros z Hz; rewrite (not_lnot 64) by (try apply (tv_ok_64 Ty.U32); auto; lia); unfold u32; rewrite wrap_wrap_le by lia; reflexivity).
  - fold_unary Ha Ty.U64 (fun z => not_ 64 z) (intros z Hz; rewrite (not_lnot 64) by (try exact Hz; lia); reflexivity).
Qed.

Lemma shift_masked w x k : 0 <= w -> wrap w (wrap w (Z.shiftl x k)) = wrap w (Z.shiftl x k).
Proof. intros. by apply wrap_wrap. Qed.
Lemma rotate_in_range w x n : 0 < w -> in_range w x -> in_range w (rotate_right w x n).
Proof. intros. unfold rotate_right. case_match; [done|]. by apply wrap_range; lia. Qed.
Lemma fold_masked_shift_ok b pre post i vs (is_32_bit : bool) o f w :
  w = (if is_32_bit then 32 else 64) -> GetNumArgsOf o = 2%nat -> (forall k, (k < 2)%nat -> GetArgTypeOf o k = if is_32_bit then Ty.U32 else Ty.U64) ->
  GetTypeOf o = (if is_32_bit then Ty.U32 else Ty.U64) -> sets_carry o = false -> o <> Op.Identity ->
  (forall x y, in_range w x -> in_range w y -> pure o [(if is_32_bit then Ty.U32 else Ty.U64, x); (if is_32_bit then Ty.U32 else Ty.U64, y)] = Some (if is_32_bit then u32 (f x y) else f x y)) ->
  at_op b pre post i o vs -> folds b (fold_masked_shift is_32_bit f i b).
Proof.
  intros -> Hn Ht Hty Hsc Ho Hp Ha. unfold fold_masked_shift, fold_immediates. pose proof (ai_wf _ _ _ _ _ _ Ha) as Hw.
  destruct (binary _ _ _ _ _ _ Ha _ _ (fun x y => if is_32_bit then u32 (f x y) else f x y) Hn (Ht 0%nat ltac:(lia)) (Ht 1%nat ltac:(lia)))
    as (v0 & v1 & Hg0 & Hg1 & Hall & Hi); [by destruct is_32_bit|by destruct is_32_bit|done|rewrite Hty; by destruct is_32_bit|done| |].
  { intros x y Hx Hy. apply Hp; by destruct is_32_bit. }
  rewrite Hall. cbn [obind]. destruct (IsImmediate b v0 && IsImmediate b v1); [|by apply folds_refl].
  destruct (Hi eq_refl) as (x & y & Hx & Hy & _ & _ & Hf). rewrite Hg0. cbn [obind]. read_imm Hx. rewrite Hg1. cbn [obind]. read_imm Hy.
  rewrite Hty in Hf. unfold ReplaceUsesWithImm. by destruct is_32_bit.
Qed.

(** *** Commutative operations *)
(** An operation on two operands of the width with value [op2], without flags of its own. *)
Record binary_op (is_32_bit : bool) (o : Opcode) (op2 : Z -> Z -> Z) : Prop := {
  bo_args : GetNumArgsOf o = 2%nat;
  bo_types : forall k, (k < 2)%nat -> GetArgTypeOf o k = if is_32_bit then Ty.U32 else Ty.U64;
  bo_type : GetTypeOf o = if is_32_bit then Ty.U32 else Ty.U64;
  bo_carry : sets_carry o = false;
  bo_identity : o <> Op.Identity;
  bo_pure : forall x y, pure o [(if is_32_bit then Ty.U32 else Ty.U64, x); (if is_32_bit then Ty.U32 else Ty.U64, y)] = Some (op2 x y)
}.
Section Binary.
Context (is_32_bit : bool) (o : Opcode) (op2 : Z -> Z -> Z) (Hbo : binary_op is_32_bit o op2).
Let ty := if is_32_bit then Ty.U32 else Ty.U64.
Let w := if is_32_bit then 32 else 64.
Let Hn : GetNumArgsOf o = 2%nat.
Proof. exact (bo_args _ _ _ Hbo). Qed.
Let Ht : forall k, (k < 2)%nat -> GetArgTypeOf o k = ty.
Proof. exact (bo_types _ _ _ Hbo). Qed.
Let Hty : GetTypeOf o = ty.
Proof. exact (bo_type _ _ _ Hbo). Qed.
Let Hsc : sets_carry o = false.
Proof. exact (bo_carry _ _ _ Hbo). Qed.
Let Ho : o <> Op.Identity.
Proof. exact (bo_identity _ _ _ Hbo). Qed.
Let Hp : forall x y, pure o [(ty, x); (ty, y)] = Some (op2 x y).
Proof. exact (bo_pure _ _ _ Hbo). Qed.

Lemma op2_ok x y : tv_ok (ty, op2 x y).
Proof. rewrite <- Hty. eapply pure_ok, Hp. Qed.
(** An immediate on the right that decides the result, or leaves the other operand. *)
Section Right.
Context (b : Block) (pre post : list nat) (i : nat) (vs : list Value) (Ha : at_inst b pre post i o vs).
Context (lhs rhs : Value) (H0 : vs !! 0%nat = Some lhs) (H1 : vs !! 1%nat = Some rhs).
Context (Hl : typed b pre i 0 lhs ty) (Hr : typed b pre i 1 rhs ty) (c : Z) (Hc : resolve b rhs = Imm ty c).
Lemma eval_right e : consistent b pre e -> exists x, eval e lhs = (ty, x) /\ in_range w x /\ map (eval e) (take (GetNumArgsOf o) vs) = [(ty, x); (ty, c)].
Proof.
  intros Hce. destruct (any_operand _ _ _ _ _ _ Ha _ _ _ e Hl Hce) as (x & Hx & Hok). exists x. split_and!; [done|by apply (ty_ok is_32_bit)|].
  rewrite Hn, (take_2 vs lhs rhs H0 H1). simpl. rewrite Hx. by rewrite (eval_imm b pre post i o vs Ha e rhs ty c Hce (us_refs _ _ _ (ty_use _ _ _ _ _ _ Hr)) Hc).
Qed.
Lemma absorbing z : (forall x, in_range w x -> op2 x c = z) -> in_range w z -> folds b (ReplaceUsesWithImm i is_32_bit z b).
Proof.
  intros Hz Hzok. rewrite ReplaceImm_eq. replace (if is_32_bit then u32 z else z) with z by (unfold w in Hzok; destruct is_32_bit; [symmetry; by apply wrap_small|done]).
  fold ty. rewrite <- Hty. destruct (ReplaceUsesWith_imm b pre post i o vs Ha Ho z) as (b' & Hb' & Hs); [rewrite Hty; concrete is_32_bit|rewrite Hty; by apply (ty_ok is_32_bit)| |by exists b'].
  intros e Hce. destruct (eval_right e Hce) as (x & Hx & Hxr & ->). rewrite Hp, (Hz x Hxr). split; [done|]. eapply readers_plain; [exact Ha|apply Hp|done].
Qed.
Lemma neutral : (forall x, in_range w x -> op2 x c = x) -> folds b (ReplaceUsesWith i lhs b).
Proof.
  intros Hz. destruct (ReplaceUsesWith_pure b pre post i o vs Ha Ho lhs) as (b' & Hb' & Hs); [apply Hl|rewrite Hty; apply Hl| |by exists b'].
  intros e Hce. destruct (eval_right e Hce) as (x & Hx & Hxr & ->). rewrite Hp, (Hz x Hxr), Hx. split; [done|]. eapply readers_plain; [exact Ha|apply Hp|done].
Qed.
End Right.
End Binary.

(** What [FoldCommutative] needs: [imm_fn] is what the code computes on immediates. *)
Record commutative (is_32_bit : bool) (o : Opcode) (op2 imm_fn : Z -> Z -> Z) : Prop := {
  cm_op : binary_op is_32_bit o op2;
  cm_pseudo : IsAPseudoOperation o = false;
  cm_comm : forall x y, op2 x y = op2 y x;
  cm_assoc : forall x y z, op2 (op2 x y) z = op2 x (op2 y z);
  cm_imm : forall x y, in_range (if is_32_bit then 32 else 64) x -> in_range (if is_32_bit then 32 else 64) y ->
    (if is_32_bit then u32 (imm_fn x y) else imm_fn x y) = op2 x y
}.
Section Commutative.
Context (is_32_bit : bool) (o : Opcode) (op2 imm_fn : Z -> Z -> Z) (Hcm : commutative is_32_bit o op2 imm_fn).
Let ty := if is_32_bit then Ty.U32 else Ty.U64.
Let w := if is_32_bit then 32 else 64.
Let Hn : GetNumArgsOf o = 2%nat.
Proof. exact (bo_args _ _ _ (cm_op _ _ _ _ Hcm)). Qed.
Let Ht : forall k, (k < 2)%nat -> GetArgTypeOf o k = ty.
Proof. exact (bo_types _ _ _ (cm_op _ _ _ _ Hcm)). Qed.
Let Hty : GetTypeOf o = ty.
Proof. exact (bo_type _ _ _ (cm_op _ _ _ _ Hcm)). Qed.
Let Hps : IsAPseudoOperation o = false.
Proof. exact (cm_pseudo _ _ _ _ Hcm). Qed.
Let Hsc : sets_carry o = false.
Proof. exact (bo_carry _ _ _ (cm_op _ _ _ _ Hcm)). Qed.
Let Ho : o <> Op.Identity.
Proof. exact (bo_identity _ _ _ (cm_op _ _ _ _ Hcm)). Qed.
Let Hp : forall x y, pure o [(ty, x); (ty, y)] = Some (op2 x y).
Proof. exact (bo_pure _ _ _ (cm_op _ _ _ _ Hcm)). Qed.
Let Hcomm : forall x y, op2 x y = op2 y x.
Proof. exact (cm_comm _ _ _ _ Hcm). Qed.
Let Hassoc : forall x y z, op2 (op2 x y) z = op2 x (op2 y z).
Proof. exact (cm_assoc _ _ _ _ Hcm). Qed.
Let Hbo : binary_op is_32_bit o op2.
Proof. exact (cm_op _ _ _ _ Hcm). Qed.
Let Himm : forall x y, in_range w x -> in_range w y -> (if is_32_bit then u32 (imm_fn x y) else imm_fn x y) = op2 x y.
Proof. exact (cm_imm _ _ _ _ Hcm). Qed.

Section At.
Context (b : Block) (pre post : list nat) (i : nat) (vs : list Value) (Ha : at_inst b pre post i o vs).
Context (lhs rhs : Value) (H0 : vs !! 0%nat = Some lhs) (H1 : vs !! 1%nat = Some rhs).
Context (Hl : typed b pre i 0 lhs ty) (Hr : typed b pre i 1 rhs ty).
(** Two other arguments, with the same result. *)
Lemma set_both v0 v1 : usable b pre v0 -> usable b pre v1 -> GetType b v0 = ty -> GetType b v1 = ty ->
  (forall e x y, consistent b pre e -> eval e lhs = (ty, x) -> eval e rhs = (ty, y) -> exists x' y', eval e v0 = (ty, x') /\ eval e v1 = (ty, y') /\ op2 x' y' = op2 x y) ->
  exists b1 b2, SetArg i 0 v0 b = Ret b1 /\ SetArg i 1 v1 b1 = Ret b2 /\ sound b b2 /\ exists vs', at_inst b2 pre post i o vs'.
Proof.
  intros Hu0 Hu1 Ht0 Ht1 He.
  destruct (SetArg2_sound b pre post i o vs Ha Ho Hps v0 v1) as (b1 & b2 & Hb1 & Hb2 & Hs & Ha2 & _); [lia|done|done|by rewrite Ht by lia|by rewrite Ht by lia| |eauto 10].
  intros e Hce. destruct (any_operand _ _ _ _ _ _ Ha _ _ _ e Hl Hce) as (x & Hx & _). destruct (any_operand _ _ _ _ _ _ Ha _ _ _ e Hr Hce) as (y & Hy & _).
  destruct (He e x y Hce Hx Hy) as (x' & y' & Hx' & Hy' & Heq). exists (op2 x y).
  assert (Hlen : length vs = 4%nat) by apply (ai_ok _ _ _ _ _ _ Ha).
  rewrite Hn, (take_2 vs lhs rhs H0 H1), (take_2 (<[1%nat := v1]> (<[0%nat := v0]> vs)) v0 v1).
  - simpl. rewrite Hx, Hy, Hx', Hy', !Hp, Heq. split_and!; [done|done|]. intros c p us _ _ _ _.
    rewrite (pseudo_value_plain p o _ _ _ (Hp x y)), (pseudo_value_plain p o _ _ _ (Hp x' y')); auto; by destruct o.
  - rewrite list_lookup_insert_ne by done. apply list_lookup_insert_eq. lia.
  - apply list_lookup_insert_eq. rewrite length_insert. lia.
Qed.
(** The operand that stands for the same operation with an immediate. *)
Lemma inner_operand v j : usable b pre v -> resolve b v = Ref j -> forall o', GetOpcode b j = Ret o' -> o' = o ->
  exists v0 v1, GetArg b j 0 = Ret v0 /\ GetArg b j 1 = Ret v1 /\ usable b pre v0 /\ usable b pre v1 /\ GetType b v0 = ty /\ GetType b v1 = ty /\
    forall e x y, consistent b pre e -> eval e v0 = (ty, x) -> eval e v1 = (ty, y) -> eval e v = (ty, op2 x y).
Proof.
  intros Hu Hres o' Hop ->. destruct (inner_at _ _ _ _ _ _ Ha v j Hu Hres) as (l & r & o'' & us & Haj & _ & Hsub).
  rewrite (GetOpcode_at _ _ _ _ _ _ Haj) in Hop. injection Hop as ->.
  destruct (typed_operand _ _ _ _ _ _ Haj 0 ty) as (v0 & E0 & [G0 U0 T0]); [lia|by rewrite Ht by lia|concrete is_32_bit|].
  destruct (typed_operand _ _ _ _ _ _ Haj 1 ty) as (v1 & E1 & [G1 U1 T1]); [lia|by rewrite Ht by lia|concrete is_32_bit|].
  exists v0, v1. split_and!; auto; [by eapply usable_sub..|]. intros e x y Hce Hx Hy. rewrite <- Hty.
  eapply (eval_inner b pre post i o vs Ha e v j); [done|apply Hu|done|apply Haj|]. rewrite Hn, (take_2 us v0 v1 E0 E1). simpl. by rewrite Hx, Hy, Hp.
Qed.
Lemma operand_inst v : usable b pre v -> IsImmediate b v = false -> exists j o', GetInstRecursive b v = Ret j /\ resolve b v = Ref j /\ GetOpcode b j = Ret o'.
Proof.
  intros Hu Hi. unfold GetInstRecursive, IsImmediate in *. destruct (resolve b v) as [j|] eqn:Hres; [|done].
  destruct (inner_at _ _ _ _ _ _ Ha v j Hu Hres) as (l & r & o' & us & Haj & _). exists j, o'. split_and!; [done|done|]. by eapply GetOpcode_at.
Qed.
(** The common part of both combinations: [x] is the immediate operand, [v] the other one. *)
Lemma combine x v j u : usable b pre v -> resolve b v = Ref j -> GetOpcode b j = Ret o -> resolve b u = Imm ty x -> tv_ok (ty, x) ->
  (forall e a, consistent b pre e -> eval e v = (ty, a) -> forall p q, eval e lhs = (ty, p) -> eval e rhs = (ty, q) -> op2 p q = op2 a x) ->
  exists v1, GetArg b j 1 = Ret v1 /\ (IsImmediate b v1 = true -> exists y v0 b1 b2, GetImmediateAsU64 b v1 = Ret y /\ GetArg b j 0 = Ret v0 /\
    SetArg i 0 v0 b = Ret b1 /\ SetArg i 1 (ValueOf is_32_bit (imm_fn x y)) b1 = Ret b2 /\ sound b b2 /\ exists vs', at_inst b2 pre post i o vs').
Proof.
  intros Hu Hres Hop Hx Hxok Heq. destruct (inner_operand v j Hu Hres o Hop eq_refl) as (v0 & v1 & G0 & G1 & U0 & U1 & T0 & T1 & Hev).
  exists v1. split; [done|]. intros Him. destruct (immediate_value _ _ _ _ _ _ Ha v1 ty U1 T1 Him) as (y & Hy & Hyok).
  pose proof (Himm x y (proj1 (ty_ok is_32_bit x) Hxok) (proj1 (ty_ok is_32_bit y) Hyok)) as Hxy. assert (Hv : ValueOf is_32_bit (imm_fn x y) = Imm ty (op2 x y)).
  { by rewrite (ty_value is_32_bit), Hxy. }
  destruct (set_both v0 (Imm ty (op2 x y))) as (b1 & b2 & Hb1 & Hb2 & Hs & Ha'); [done| |done| | |].
  - apply usable_imm; [concrete is_32_bit|concrete is_32_bit|apply (op2_ok _ _ _ Hbo)].
  - unfold GetType. by rewrite resolve_imm.
  - intros e p q Hce Hpe Hqe. destruct (eval_typed b pre post i o vs Ha e v0 ty Hce U0 T0) as (a & Hae & _).
    pose proof (eval_imm b pre post i o vs Ha e v1 ty y Hce (us_refs _ _ _ U1) Hy) as Hye.
    exists a, (op2 x y). split_and!; [done|done|]. rewrite (Heq e _ Hce (Hev e a y Hce Hae Hye) p q Hpe Hqe). by rewrite Hassoc, (Hcomm x y).
  - exists y, v0, b1, b2. rewrite Hv. split_and!; auto. by apply (ty_u64 is_32_bit).
Qed.
End At.

Lemma FoldCommutative_ok b pre post i vs : at_inst b pre post i o vs ->
  exists go b', FoldCommutative i is_32_bit imm_fn b = Ret (go, b') /\ sound b b' /\ (go = true -> exists vs', at_inst b' pre post i o vs').
Proof.
  intros Ha. pose proof (ai_wf _ _ _ _ _ _ Ha) as Hw.
  destruct (typed_operand _ _ _ _ _ _ Ha 0 ty) as (lhs & H0 & Hl); [lia|by rewrite Ht by lia|concrete is_32_bit|].
  destruct (typed_operand _ _ _ _ _ _ Ha 1 ty) as (rhs & H1 & Hr); [lia|by rewrite Ht by lia|concrete is_32_bit|].
  unfold FoldCommutative. rewrite (ty_arg _ _ _ _ _ _ Hl), (ty_arg _ _ _ _ _ _ Hr). cbn [obind].
  destruct (IsImmediate b lhs) eqn:Hil, (IsImmediate b rhs) eqn:Hir; cbn [andb negb obind].
  - destruct (replace_binary _ _ _ _ _ _ Ha lhs rhs ty ty op2) as (x & y & Hx & Hy & Hxok & Hyok & b' & Hb' & Hs); auto; [rewrite Hty; concrete is_32_bit|].
    rewrite (ty_u64 is_32_bit _ _ _ Hx), (ty_u64 is_32_bit _ _ _ Hy). cbn [obind]. rewrite (ReplaceImm_eq is_32_bit), Himm by by apply (ty_ok is_32_bit). rewrite Hty in Hb'. fold ty. rewrite Hb'. cbn [obind].
    exists false, b'. split_and!; [done|done|discriminate].
  - destruct (imm_operand _ _ _ _ _ _ Ha 0 lhs ty Hl Hil) as (x & Hx & Hxok & Hex).
    destruct (operand_inst b pre post i vs Ha rhs (ty_use _ _ _ _ _ _ Hr) Hir) as (j & o' & -> & Hres & Hop). cbn [obind]. rewrite (GetOpcode_at _ _ _ _ _ _ Ha), Hop. cbn [obind].
    assert (Hnorm : exists b1 b2, SetArg i 0 rhs b = Ret b1 /\ SetArg i 1 lhs b1 = Ret b2 /\ sound b b2 /\ exists vs', at_inst b2 pre post i o vs').
    { eapply set_both; eauto; try apply Hl; try apply Hr. }
    destruct (decide (o' = o)) as [->|Hne]; cbn [obind].
    + destruct (combine b pre post i vs Ha lhs rhs H0 H1 Hl Hr x rhs j lhs (ty_use _ _ _ _ _ _ Hr) Hres Hop Hx Hxok) as (v1 & G1 & Hcomb).
      { intros e a Hce Ha' p q Hpe Hqe. rewrite (Hex e Hce) in Hpe. rewrite Ha' in Hqe. injection Hpe as ->. injection Hqe as ->. apply Hcomm. }
      rewrite G1. cbn [obind]. destruct (IsImmediate b v1) eqn:Hi1.
      * destruct (Hcomb eq_refl) as (y & v0 & b1 & b2 & Hy & G0 & Hb1 & Hb2 & Hs & Ha2). rewrite (ty_u64 is_32_bit _ _ _ Hx). cbn [obind]. rewrite Hy. cbn [obind].
        rewrite G0. cbn [obind]. rewrite Hb1. cbn [obind]. rewrite Hb2. cbn [obind]. exists true, b2. by split_and!.
      * destruct Hnorm as (b1 & b2 & Hb1 & Hb2 & Hs & Ha2). rewrite Hb1. cbn [obind]. rewrite Hb2. cbn [obind]. exists true, b2. by split_and!.
    + destruct Hnorm as (b1 & b2 & Hb1 & Hb2 & Hs & Ha2). rewrite Hb1. cbn [obind]. rewrite Hb2. cbn [obind]. exists true, b2. by split_and!.
  - destruct (imm_operand _ _ _ _ _ _ Ha 1 rhs ty Hr Hir) as (x & Hx & Hxok & Hex).
    destruct (operand_inst b pre post i vs Ha lhs (ty_use _ _ _ _ _ _ Hl) Hil) as (j & o' & -> & Hres & Hop). cbn [obind]. rewrite (GetOpcode_at _ _ _ _ _ _ Ha), Hop. cbn [obind].
    destruct (decide (o' = o)) as [->|Hne]; cbn [obind].
    + destruct (combine b pre post i vs Ha lhs rhs H0 H1 Hl Hr x lhs j rhs (ty_use _ _ _ _ _ _ Hl) Hres Hop Hx Hxok) as (v1 & G1 & Hcomb).
      { intros e a Hce Ha' p q Hpe Hqe. rewrite (Hex e Hce) in Hqe. rewrite Ha' in Hpe. injection Hpe as ->. by injection Hqe as ->. }
      rewrite G1. cbn [obind]. destruct (IsImmediate b v1) eqn:Hi1.
      * destruct (Hcomb eq_refl) as (y & v0 & b1 & b2 & Hy & G0 & Hb1 & Hb2 & Hs & Ha2). rewrite (ty_u64 is_32_bit _ _ _ Hx). cbn [obind]. rewrite Hy. cbn [obind].
        rewrite G0. cbn [obind]. rewrite Hb1. cbn [obind]. rewrite Hb2. cbn [obind]. exists true, b2. by split_and!.
      * exists true, b. split_and!; [done|by apply sound_refl|eauto].
    + exists true, b. split_and!; [done|by apply sound_refl|eauto].
  - exists true, b. split_and!; [done|by apply sound_refl|eauto].
Qed.
End Commutative.

(** Tests on an operand. *)
Lemma unsigned_test b pre i k v ty n : typed b pre i k v ty -> ty = Ty.U1 \/ ty = Ty.U8 \/ ty = Ty.U32 \/ ty = Ty.U64 ->
  exists c, IsUnsignedImmediate b v n = Ret c /\ (c = true <-> resolve b v = Imm ty n).
Proof.
  intros [_ _ Ht] Hty. unfold IsUnsignedImmediate, IsImmediate, GetImmediateAsU64, GetType in *. destruct (resolve b v) as [j|t z]; [exists false; split; [done|]; split; discriminate|].
  subst t. exists (z =? n). split; [by destruct Hty as [-> | [-> | [-> | ->]]]|]. rewrite Z.eqb_eq. split; [by intros ->|congruence].
Qed.
Lemma all_bits_test b pre post i o vs k v (is_32_bit : bool) : at_inst b pre post i o vs -> typed b pre i k v (if is_32_bit then Ty.U32 else Ty.U64) ->
  exists c, HasAllBitsSet b v = Ret c /\ (c = true -> resolve b v = Imm (if is_32_bit then Ty.U32 else Ty.U64) (Z.ones (if is_32_bit then 32 else 64))).
Proof.
  intros Ha Hv. unfold HasAllBitsSet, IsSignedImmediate. destruct (IsImmediate b v) eqn:Him; [|exists false; split; [done|discriminate]].
  destruct (imm_operand _ _ _ _ _ _ Ha _ _ _ Hv Him) as (z & Hr & Hz & _). unfold GetImmediateAsS64. rewrite Hr.
  assert (Hone : forall w, w = 32 \/ w = 64 -> in_range w z -> swrap w z = -1 -> z = Z.ones w).
  { intros w Hw Hzr Hs. rewrite swrap_msb in Hs by (try done; lia). rewrite Z.ones_equiv. destruct (Z.testbit z (w - 1)); unfold in_range in Hzr; lia. }
  destruct is_32_bit; cbn [obind].
  - eexists. split; [reflexivity|]. intros Hs%Z.eqb_eq. rewrite s64_of_sign_extend in Hs by (try exact Hz; lia). f_equal. auto.
  - eexists. split; [reflexivity|]. intros Hs%Z.eqb_eq. f_equal. auto.
Qed.

(** *** AND, OR, EOR and multiplication *)
Definition width32 (is_32_bit : bool) : Z := if is_32_bit then 32 else 64.
Lemma norm_wrap (is_32_bit : bool) z : wrap (width32 is_32_bit) z = z -> (if is_32_bit then u32 z else z) = wrap (width32 is_32_bit) z.
Proof. by destruct is_32_bit. Qed.
Section Bitwise.
Context (is_32_bit : bool) (f : Z -> Z -> Z).
Context (Hbit : exists g : bool -> bool -> bool, g false false = false /\ forall x y k, 0 <= k -> Z.testbit (f x y) k = g (Z.testbit x k) (Z.testbit y k)).
Let w := width32 is_32_bit.
Lemma w_pos : 0 < w.
Proof. unfold w. by destruct is_32_bit. Qed.
Lemma bitwise_range x y : in_range w x -> in_range w y -> wrap w (f x y) = f x y.
Proof.
  intros Hx Hy. destruct Hbit as (g & Hg & Hf). pose proof w_pos as Hw. apply Z.bits_inj'. intros k Hk. rewrite bit.testbit_wrap by lia.
  destruct (Z.ltb_spec k w); [done|]. by rewrite Hf, (bit.testbit_above w Hw x k Hx), (bit.testbit_above w Hw y k Hy), Hg by lia.
Qed.
Lemma bitwise_comm : (forall x y, f x y = f y x) -> forall x y, wrap w (f x y) = wrap w (f y x).
Proof. intros Hc x y. by rewrite Hc. Qed.
Lemma bitwise_assoc : (forall x y z, f (f x y) z = f x (f y z)) -> forall x y z, wrap w (f (wrap w (f x y)) z) = wrap w (f x (wrap w (f y z))).
Proof.
  intros Hc x y z. destruct Hbit as (g & Hg & Hf). pose proof w_pos as Hw. apply Z.bits_inj'. intros k Hk. rewrite !bit.testbit_wrap by lia.
  destruct (Z.ltb_spec k w); [|done]. simpl. rewrite !Hf, !bit.testbit_wrap, !Hf by lia. replace (k <? w) with true by (symmetry; apply Z.ltb_lt; lia). simpl.
  rewrite <- !Hf, Hc by lia. done.
Qed.
Lemma bitwise_imm x y : in_range w x -> in_range w y -> (if is_32_bit then u32 (f x y) else f x y) = wrap w (f x y).
Proof. intros Hx Hy. apply norm_wrap. by apply bitwise_range. Qed.
End Bitwise.
Lemma bitwise_commutative (is_32_bit : bool) o f (Hbit : exists g : bool -> bool -> bool, g false false = false /\ forall x y k, 0 <= k -> Z.testbit (f x y) k = g (Z.testbit x k) (Z.testbit y k)) :
  (o, f) = (if is_32_bit then Op.And32 else Op.And64, Z.land) \/ (o, f) = (if is_32_bit then Op.Or32 else Op.Or64, Z.lor) \/
  (o, f) = (if is_32_bit then Op.Eor32 else Op.Eor64, Z.lxor) ->
  commutative is_32_bit o (fun x y => wrap (width32 is_32_bit) (f x y)) f.
Proof.
  intros Ho. constructor.
  { constructor; destruct Ho as [[= -> ->]|[[= -> ->]|[= -> ->]]]; destruct is_32_bit; try discriminate; try reflexivity; by intros [|[|]] ?; [..|lia]. }
  { by destruct Ho as [[= -> ->]|[[= -> ->]|[= -> ->]]]; destruct is_32_bit. }
  - apply bitwise_comm. destruct Ho as [[= -> ->]|[[= -> ->]|[= -> ->]]]; intros; [apply Z.land_comm|apply Z.lor_comm|apply Z.lxor_comm].
  - apply bitwise_assoc; [done|]. destruct Ho as [[= -> ->]|[[= -> ->]|[= -> ->]]]; intros; symmetry; [apply Z.land_assoc|apply Z.lor_assoc|symmetry; apply Z.lxor_assoc].
  - by apply bitwise_imm.
Qed.
Lemma mul_commutative (is_32_bit : bool) :
  commutative is_32_bit (if is_32_bit then Op.Mul32 else Op.Mul64) (fun x y => wrap (width32 is_32_bit) (x * y)) (fun x y => u64 (x * y)).
Proof.
  constructor.
  { constructor; destruct is_32_bit; try discriminate; try reflexivity; by intros [|[|]] ?; [..|lia]. }
  { by destruct is_32_bit. }
  - intros. by rewrite Z.mul_comm.
  - intros. unfold wrap. rewrite Zmult_mod_idemp_l, Zmult_mod_idemp_r. by rewrite Z.mul_assoc.
  - intros. destruct is_32_bit; [|done]. unfold u32, u64. by rewrite wrap_wrap_le by lia.
Qed.
(** The operation after [FoldCommutative], with its operands. *)
Lemma after_commutative (is_32_bit : bool) o op2 imm_fn b pre post i vs k :
  commutative is_32_bit o op2 imm_fn -> at_inst b pre post i o vs ->
  (forall b' vs' lhs rhs, at_inst b' pre post i o vs' -> vs' !! 0%nat = Some lhs -> vs' !! 1%nat = Some rhs ->
     typed b' pre i 0 lhs (if is_32_bit then Ty.U32 else Ty.U64) -> typed b' pre i 1 rhs (if is_32_bit then Ty.U32 else Ty.U64) -> folds b' (k b')) ->
  folds b (let? r := FoldCommutative i is_32_bit imm_fn b in let (go, b) := r in if go : bool then k b else Ret b).
Proof.
  intros Hcm Ha Hk. destruct (FoldCommutative_ok _ _ _ _ Hcm b pre post i vs Ha) as (go & b' & -> & Hs & Hgo). cbn [obind].
  destruct go; [|by exists b']. destruct (Hgo eq_refl) as [vs' Ha']. eapply folds_trans; [exact Hs|].
  destruct (typed_operand _ _ _ _ _ _ Ha' 0 (if is_32_bit then Ty.U32 else Ty.U64)) as (lhs & H0 & Hl);
    [rewrite (bo_args _ _ _ (cm_op _ _ _ _ Hcm)); lia|by rewrite (bo_types _ _ _ (cm_op _ _ _ _ Hcm)) by lia|by destruct is_32_bit|].
  destruct (typed_operand _ _ _ _ _ _ Ha' 1 (if is_32_bit then Ty.U32 else Ty.U64)) as (rhs & H1 & Hr);
    [rewrite (bo_args _ _ _ (cm_op _ _ _ _ Hcm)); lia|by rewrite (bo_types _ _ _ (cm_op _ _ _ _ Hcm)) by lia|by destruct is_32_bit|].
  by apply (Hk b' vs' lhs rhs).
Qed.
Lemma width_type (is_32_bit : bool) (ty := if is_32_bit then Ty.U32 else Ty.U64) : ty = Ty.U1 \/ ty = Ty.U8 \/ ty = Ty.U32 \/ ty = Ty.U64.
Proof. unfold ty. destruct is_32_bit; auto. Qed.
Lemma zero_width (is_32_bit : bool) : in_range (if is_32_bit then 32 else 64) 0.
Proof. by destruct is_32_bit. Qed.
Lemma FoldAND_ok b pre post i vs (is_32_bit : bool) : at_op b pre post i (if is_32_bit then Op.And32 else Op.And64) vs -> folds b (FoldAND i is_32_bit b).
Proof.
  intros Ha. unfold FoldAND. pose proof (bitwise_commutative is_32_bit (if is_32_bit then Op.And32 else Op.And64) Z.land) as Hcm.
  assert (Hcm' : commutative is_32_bit (if is_32_bit then Op.And32 else Op.And64) (fun x y => wrap (width32 is_32_bit) (Z.land x y)) Z.land).
  { apply Hcm; [|auto]. exists andb. split; [done|]. intros. apply Z.land_spec. }
  eapply after_commutative; [exact Hcm'|exact Ha|]. clear dependent b vs. intros b vs lhs rhs Ha H0 H1 Hl Hr.
  rewrite (ty_arg _ _ _ _ _ _ Hr). cbn [obind].
  destruct (unsigned_test _ _ _ _ _ _ 0 Hr (width_type is_32_bit)) as (z & Hz & Hz1). unfold IsZero. rewrite Hz. cbn [obind]. destruct z.
  { eapply absorbing; [apply Hcm'|exact Ha|exact H0|exact H1|exact Hl|exact Hr|by apply Hz1| |apply zero_width]. intros x _. cbv beta. rewrite Z.land_0_r. by destruct is_32_bit. }
  destruct (all_bits_test _ _ _ _ _ _ _ _ is_32_bit Ha Hr) as (s & -> & Hs1). cbn [obind]. destruct s; [|apply folds_refl, Ha].
  rewrite (ty_arg _ _ _ _ _ _ Hl). cbn [obind]. eapply neutral; [apply Hcm'|exact Ha|exact H0|exact H1|exact Hl|exact Hr|by apply Hs1|].
  intros x Hx. cbv beta. change (if is_32_bit then 32 else 64) with (width32 is_32_bit) in *. rewrite Z.land_ones by by destruct is_32_bit.
  change (wrap (width32 is_32_bit) (wrap (width32 is_32_bit) x) = x). by rewrite !wrap_small by (try apply wrap_range; try done; by destruct is_32_bit).
Qed.
(** OR and EOR: zero is neutral. *)
Lemma zero_neutral b pre post i vs (is_32_bit : bool) o f : commutative is_32_bit o (fun x y => wrap (width32 is_32_bit) (f x y)) f -> (forall x, f x 0 = x) ->
  at_op b pre post i o vs ->
  folds b (let? r := FoldCommutative i is_32_bit f b in let (go, b) := r in
    if go : bool then let? rhs := GetArg b i 1 in let? zero := IsZero b rhs in if zero : bool then let? v := GetArg b i 0 in ReplaceUsesWith i v b else Ret b else Ret b).
Proof.
  intros Hcm Hf Ha. eapply after_commutative; [exact Hcm|exact Ha|]. clear dependent b vs. intros b vs lhs rhs Ha H0 H1 Hl Hr.
  rewrite (ty_arg _ _ _ _ _ _ Hr). cbn [obind].
  destruct (unsigned_test _ _ _ _ _ _ 0 Hr (width_type is_32_bit)) as (z & Hz & Hz1). unfold IsZero. rewrite Hz. cbn [obind]. destruct z; [|apply folds_refl, Ha].
  rewrite (ty_arg _ _ _ _ _ _ Hl). cbn [obind]. eapply neutral; [apply Hcm|exact Ha|exact H0|exact H1|exact Hl|exact Hr|by apply Hz1|].
  intros x Hx. cbv beta. rewrite Hf. by apply wrap_small.
Qed.
Lemma FoldOR_ok b pre post i vs (is_32_bit : bool) : at_op b pre post i (if is_32_bit then Op.Or32 else Op.Or64) vs -> folds b (FoldOR i is_32_bit b).
Proof.
  intros Ha. eapply zero_neutral; [|apply Z.lor_0_r|exact Ha]. apply bitwise_commutative; [|auto]. exists orb. split; [done|]. intros. apply Z.lor_spec.
Qed.
Lemma FoldEOR_ok b pre post i vs (is_32_bit : bool) : at_op b pre post i (if is_32_bit then Op.Eor32 else Op.Eor64) vs -> folds b (FoldEOR i is_32_bit b).
Proof.
  intros Ha. eapply zero_neutral; [|apply Z.lxor_0_r|exact Ha]. apply bitwise_commutative; [|auto]. exists xorb. split; [done|]. intros. apply Z.lxor_spec.
Qed.
Lemma FoldMultiply_ok b pre post i vs (is_32_bit : bool) : at_op b pre post i (if is_32_bit then Op.Mul32 else Op.Mul64) vs -> folds b (FoldMultiply i is_32_bit b).
Proof.
  intros Ha. pose proof (mul_commutative is_32_bit) as Hcm. unfold FoldMultiply. eapply after_commutative; [exact Hcm|exact Ha|].
  clear dependent b vs. intros b vs lhs rhs Ha H0 H1 Hl Hr. rewrite (ty_arg _ _ _ _ _ _ Hr). cbn [obind].
  destruct (unsigned_test _ _ _ _ _ _ 0 Hr (width_type is_32_bit)) as (z & Hz & Hz1). unfold IsZero. rewrite Hz. cbn [obind]. destruct z.
  { eapply absorbing; [apply Hcm|exact Ha|exact H0|exact H1|exact Hl|exact Hr|by apply Hz1| |apply zero_width]. intros x _. cbv beta. rewrite Z.mul_0_r. by destruct is_32_bit. }
  destruct (unsigned_test _ _ _ _ _ _ 1 Hr (width_type is_32_bit)) as (u & -> & Hu1). cbn [obind]. destruct u; [|apply folds_refl, Ha].
  rewrite (ty_arg _ _ _ _ _ _ Hl). cbn [obind]. eapply neutral; [apply Hcm|exact Ha|exact H0|exact H1|exact Hl|exact Hr|by apply Hu1|].
  intros x Hx. cbv beta. rewrite Z.mul_1_r. by apply wrap_small.
Qed.
End ConstProp.
