(* ===== verification/ConstPropFlags.v ===== *)
(** Constant propagation keeps what a block does: division and the operations with
    flags of their own, which are additions, subtractions, shifts and the upper word. *)
From stdpp Require Import list.
From S2P Require Import Prelude Bits IrOpcodes A64Imm Ir IrSem IrWf IrExec IrEdit IrFold ConstProp IrArith ConstPropProps.
Import Op(Opcode).
Local Open Scope Z_scope.

(** ** What the code does wrong *)

(** A division of the least number by minus one, both known: the quotient does not fit. *)
Definition overflowing_division (b : Block) (i : nat) : bool :=
  match core b i with
  | Some (Op.SignedDiv64, lhs :: rhs :: _) => bool_decide (resolve b lhs = Imm Ty.U64 (2 ^ 63)) && bool_decide (resolve b rhs = Imm Ty.U64 (2 ^ 64 - 1))
  | _ => false
  end.
(** An addition of [k] to an addition of a constant, whose sum is zero: the carry of the
    outer one is forgotten. *)
Definition cancels (b : Block) (o : Opcode) (v k carry : Value) : bool :=
  match resolve b v, resolve b k with
  | Ref j, Imm _ x =>
      match core b j with
      | Some (o', _ :: v1 :: v2 :: _) =>
          bool_decide (o' = o) &&
          match resolve b v1, resolve b v2 with Imm _ y, Imm _ c => u64 (x + y + c) =? 0 | _, _ => false end &&
          negb (bool_decide (resolve b carry = Imm Ty.U1 0))
      | _ => false
      end
  | _, _ => false
  end.
Definition forgets_carry (b : Block) (i : nat) : bool :=
  match core b i with
  | Some (o, lhs :: rhs :: carry :: _) =>
      (bool_decide (o = Op.Add32) || bool_decide (o = Op.Add64)) && (cancels b o lhs rhs carry || cancels b o rhs lhs carry)
  | _ => false
  end.

Lemma cons_3 (us : list Value) v0 v1 v2 : us !! 0%nat = Some v0 -> us !! 1%nat = Some v1 -> us !! 2%nat = Some v2 -> us = v0 :: v1 :: v2 :: drop 3 us.
Proof. destruct us as [|? [|? [|]]]; simpl; intros [=] [=] [=]; subst. by rewrite drop_0. Qed.

Section Flags.
Context {St : Type} `{IRSem St}.

(** ** Division *)
Lemma swrap_range_s64 (is_32_bit : bool) x : in_range (width32 is_32_bit) x -> - 2 ^ 63 <= swrap (width32 is_32_bit) x < 2 ^ 63.
Proof. intros. pose proof (swrap_range (width32 is_32_bit) x). destruct is_32_bit; simpl in *; lia. Qed.
Definition signed_op (is_32_bit is_signed : bool) : Opcode :=
  if is_signed then (if is_32_bit then Op.SignedDiv32 else Op.SignedDiv64) else (if is_32_bit then Op.UnsignedDiv32 else Op.UnsignedDiv64).
Definition div_op (is_32_bit is_signed : bool) (x y : Z) : Z :=
  if is_signed then signed_div (width32 is_32_bit) x y else wrap (width32 is_32_bit) (x / y).
Lemma div_binary (is_32_bit is_signed : bool) : binary_op is_32_bit (signed_op is_32_bit is_signed) (div_op is_32_bit is_signed).
Proof. constructor; destruct is_32_bit, is_signed; try discriminate; try reflexivity; by intros [|[|]] ?; [..|lia]. Qed.
Lemma div_op_zero is_32_bit is_signed x : div_op is_32_bit is_signed x 0 = 0.
Proof. unfold div_op, signed_div. rewrite Z.div_0_r. by destruct is_signed, is_32_bit. Qed.
Lemma div_op_one (is_32_bit is_signed : bool) x : in_range (width32 is_32_bit) x -> div_op is_32_bit is_signed x 1 = x.
Proof.
  intros Hx. unfold div_op, signed_div. rewrite Z.div_1_r. destruct is_signed; [|by apply wrap_small].
  replace (swrap (width32 is_32_bit) 1) with 1 by by destruct is_32_bit. simpl. rewrite Z.quot_1_r, swrap_msb by (try done; by destruct is_32_bit).
  unfold wrap. destruct (Z.testbit x (width32 is_32_bit - 1)); [|rewrite Z.sub_0_r; by apply wrap_small].
  replace (x - 2 ^ width32 is_32_bit) with (x + (-1) * 2 ^ width32 is_32_bit) by lia. rewrite Z_mod_plus_full. by apply wrap_small.
Qed.
Lemma GetS64_width b v (is_32_bit : bool) z : resolve b v = Imm (if is_32_bit then Ty.U32 else Ty.U64) z -> in_range (width32 is_32_bit) z ->
  GetImmediateAsS64 b v = Ret (swrap (width32 is_32_bit) z).
Proof.
  intros Hr Hz. unfold GetImmediateAsS64. rewrite Hr. destruct is_32_bit; [|done]. by rewrite s64_of_sign_extend by (try exact Hz; lia).
Qed.
Lemma FoldDivide_ok b pre post i vs (is_32_bit is_signed : bool) : at_inst b pre post i (signed_op is_32_bit is_signed) vs ->
  overflowing_division b i = false -> folds b (FoldDivide i is_32_bit is_signed b).
Proof.
  intros Ha Hsafe. pose proof (div_binary is_32_bit is_signed) as Hbo. pose proof (ai_wf _ _ _ _ _ _ Ha) as Hw.
  destruct (typed_operand _ _ _ _ _ _ Ha 0 (if is_32_bit then Ty.U32 else Ty.U64)) as (lhs & H0 & Hl);
    [rewrite (bo_args _ _ _ Hbo); lia|by rewrite (bo_types _ _ _ Hbo) by lia|concrete is_32_bit|].
  destruct (typed_operand _ _ _ _ _ _ Ha 1 (if is_32_bit then Ty.U32 else Ty.U64)) as (rhs & H1 & Hr);
    [rewrite (bo_args _ _ _ Hbo); lia|by rewrite (bo_types _ _ _ Hbo) by lia|concrete is_32_bit|].
  unfold FoldDivide. rewrite (ty_arg _ _ _ _ _ _ Hr). cbn [obind].
  destruct (unsigned_test _ _ _ _ _ _ 0 Hr (width_type is_32_bit)) as (z & Hz & Hz1). unfold IsZero. rewrite Hz. cbn [obind]. destruct z.
  { eapply absorbing; [exact Hbo|exact Ha|exact H0|exact H1|exact Hl|exact Hr|by apply Hz1| |apply zero_width]. intros. apply div_op_zero. }
  rewrite (ty_arg _ _ _ _ _ _ Hl). cbn [obind]. destruct (IsImmediate b lhs && IsImmediate b rhs) eqn:Him.
  - apply andb_true_iff in Him as [Hil Hir].
    destruct (replace_binary _ _ _ _ _ _ Ha lhs rhs _ _ (div_op is_32_bit is_signed) Hl Hr H0 H1) as (x & y & Hx & Hy & Hxok & Hyok & Hf); try apply Hbo; auto.
    { rewrite (bo_type _ _ _ Hbo). concrete is_32_bit. }
    { intros. apply Hbo. }
    rewrite (bo_type _ _ _ Hbo) in Hf. rewrite !ty_ok in Hxok, Hyok. change (if is_32_bit then 32 else 64) with (width32 is_32_bit) in *.
    assert (Hy0 : y <> 0). { intros ->. destruct Hz1 as [_ Hz1]. by specialize (Hz1 Hy). }
    destruct is_signed.
    + rewrite (GetS64_width b lhs is_32_bit x Hx Hxok), (GetS64_width b rhs is_32_bit y Hy Hyok). cbn [obind].
      set (sx := swrap (width32 is_32_bit) x) in *. set (sy := swrap (width32 is_32_bit) y) in *.
      assert (Hsy : sy <> 0). { unfold sy. rewrite swrap_msb by (try done; by destruct is_32_bit). destruct Hyok. destruct (Z.testbit _ _); lia. }
      assert (Hnov : (sx =? - 2 ^ 63) && (sy =? -1) = false).
      { apply not_true_is_false. intros [E1%Z.eqb_eq E2%Z.eqb_eq]%andb_true_iff. unfold sx, sy in *. rewrite swrap_msb in E1, E2 by (try done; by destruct is_32_bit).
        destruct is_32_bit; unfold width32, in_range in *; [destruct (Z.testbit x (32 - 1)); lia|]. unfold overflowing_division in Hsafe. rewrite (ai_core _ _ _ _ _ _ Ha) in Hsafe.
        assert (x = 2 ^ 63) as -> by (destruct (Z.testbit x (64 - 1)); lia). assert (y = 2 ^ 64 - 1) as -> by (destruct (Z.testbit y (64 - 1)); lia).
        destruct vs as [|? [|]]; [done|done|]. injection H0 as ->. injection H1 as ->. simpl in Hsafe. by rewrite Hx, Hy in Hsafe. }
      unfold s64_div. rewrite Hnov. destruct (Z.eqb_spec sy 0); [done|]. cbn [obind orb]. rewrite ReplaceImm_eq.
      replace (if is_32_bit then u32 (u64 (Z.quot sx sy)) else u64 (Z.quot sx sy)) with (div_op is_32_bit true x y); [done|].
      unfold div_op, signed_div. destruct (Z.eqb_spec y 0); [done|]. fold sx sy. unfold u32, u64. destruct is_32_bit; [by rewrite wrap_wrap_le by lia|done].
    + rewrite (ty_u64 is_32_bit _ _ _ Hx), (ty_u64 is_32_bit _ _ _ Hy). cbn [obind]. rewrite ReplaceImm_eq.
      replace (if is_32_bit then u32 (x / y) else x / y) with (div_op is_32_bit false x y); [done|]. symmetry. unfold div_op. apply norm_wrap. apply wrap_small.
      destruct Hxok, Hyok. split; [apply Z.div_pos; lia|]. apply Z.le_lt_trans with x; [|done]. apply Z.div_le_upper_bound; nia.
  - destruct (unsigned_test _ _ _ _ _ _ 1 Hr (width_type is_32_bit)) as (u & -> & Hu1). cbn [obind]. destruct u; [|by apply folds_refl].
    eapply neutral; [exact Hbo|exact Ha|exact H0|exact H1|exact Hl|exact Hr|by apply Hu1|]. intros. by apply div_op_one.
Qed.

(** ** Addition and subtraction *)
Section Additive.
Context (is_32_bit : bool) (o : Opcode) (add3 : Z -> Z -> Z -> Z).
Let ty := if is_32_bit then Ty.U32 else Ty.U64.
Let w := width32 is_32_bit.
Context (Hop : (o, add3) = (if is_32_bit then Op.Add32 else Op.Add64, fun x y c => wrap (width32 is_32_bit) (x + y + c)) \/
               (o, add3) = (if is_32_bit then Op.Sub32 else Op.Sub64, fun x y c => wrap (width32 is_32_bit) (x - y - 1 + c))).
Lemma additive_facts : GetNumArgsOf o = 3%nat /\ GetArgTypeOf o 0 = ty /\ GetArgTypeOf o 1 = ty /\ GetArgTypeOf o 2 = Ty.U1 /\ GetTypeOf o = ty /\
  IsAPseudoOperation o = false /\ o <> Op.Identity /\ o <> Op.Void /\ is_addition o = true.
Proof. unfold ty. destruct Hop as [[= -> _]|[= -> _]]; destruct is_32_bit; by split_and!. Qed.
Lemma additive_pure x y c : pure o [(ty, x); (ty, y); (Ty.U1, c)] = Some (add3 x y c).
Proof. unfold ty. destruct Hop as [[= -> ->]|[= -> ->]]; by destruct is_32_bit. Qed.

Context (b : Block) (pre post : list nat) (i : nat) (vs : list Value) (Ha : at_inst b pre post i o vs).
(** The operands. *)
Record operands3 (lhs rhs carry : Value) : Prop := {
  o3_take : take (GetNumArgsOf o) vs = [lhs; rhs; carry];
  o3_0 : typed b pre i 0 lhs ty; o3_1 : typed b pre i 1 rhs ty; o3_2 : typed b pre i 2 carry Ty.U1
}.
Lemma additive_operands : exists lhs rhs carry us, vs = lhs :: rhs :: carry :: us /\ operands3 lhs rhs carry.
Proof.
  destruct additive_facts as (Hn & T0 & T1 & T2 & _).
  destruct (typed_operand _ _ _ _ _ _ Ha 0 ty) as (lhs & H0 & Hl); [lia|done|concrete is_32_bit|].
  destruct (typed_operand _ _ _ _ _ _ Ha 1 ty) as (rhs & H1 & Hr); [lia|done|concrete is_32_bit|].
  destruct (typed_operand _ _ _ _ _ _ Ha 2 Ty.U1) as (carry & H2 & Hc); [lia|done|done|].
  assert (Htake : take (GetNumArgsOf o) vs = [lhs; rhs; carry]) by (rewrite Hn; by apply take_3).
  exists lhs, rhs, carry, (drop 3 vs). split; [by apply cons_3|]. by constructor.
Qed.
Context (lhs rhs carry : Value) (H3 : operands3 lhs rhs carry).
Lemma eval3 e : consistent b pre e -> exists x y c, eval e lhs = (ty, x) /\ eval e rhs = (ty, y) /\ eval e carry = (Ty.U1, c) /\
  in_range w x /\ in_range w y /\ in_range 1 c /\ map (eval e) (take (GetNumArgsOf o) vs) = [(ty, x); (ty, y); (Ty.U1, c)].
Proof.
  intros Hce. destruct H3 as [Htake Hl Hr Hc]. destruct (any_operand _ _ _ _ _ _ Ha _ _ _ e Hl Hce) as (x & Hx & Hxok).
  destruct (any_operand _ _ _ _ _ _ Ha _ _ _ e Hr Hce) as (y & Hy & Hyok). destruct (any_operand _ _ _ _ _ _ Ha _ _ _ e Hc Hce) as (c & Hcc & Hcok).
  exists x, y, c. rewrite Htake. simpl. rewrite Hx, Hy, Hcc. split_and!; auto; by apply (ty_ok is_32_bit).
Qed.
(** All operands known: the result is computed from them. *)
Lemma replace_additive z : HasAssociatedPseudoOperation b i = Ret false ->
  (forall x y c, resolve b lhs = Imm ty x -> resolve b rhs = Imm ty y -> resolve b carry = Imm Ty.U1 c -> add3 x y c = (if is_32_bit then u32 z else z)) ->
  IsImmediate b lhs = true -> IsImmediate b rhs = true -> IsImmediate b carry = true -> folds b (ReplaceUsesWithImm i is_32_bit z b).
Proof.
  intros Hh Hz Hi0 Hi1 Hi2. destruct additive_facts as (_ & _ & _ & _ & Hty & Hps & Ho & _). destruct H3 as [Htake Hl Hr Hc].
  destruct (imm_operand _ _ _ _ _ _ Ha _ _ _ Hl Hi0) as (x & Hx & _ & Hex). destruct (imm_operand _ _ _ _ _ _ Ha _ _ _ Hr Hi1) as (y & Hy & _ & Hey).
  destruct (imm_operand _ _ _ _ _ _ Ha _ _ _ Hc Hi2) as (c & Hcc & _ & Hec). specialize (Hz x y c Hx Hy Hcc). rewrite ReplaceImm_eq. rewrite <- Hz. fold ty. rewrite <- Hty.
  destruct (ReplaceUsesWith_imm b pre post i o vs Ha Ho (add3 x y c)) as (b' & Hb' & Hs); [rewrite Hty; concrete is_32_bit|eapply pure_ok, additive_pure| |by exists b'].
  intros e Hce. rewrite Htake. simpl. rewrite (Hex e Hce), (Hey e Hce), (Hec e Hce). split; [apply additive_pure|]. by eapply readers_none.
Qed.
End Additive.
Lemma all_args_3 b pre post i o vs v0 v1 v2 : at_inst b pre post i o vs -> take (GetNumArgsOf o) vs = [v0; v1; v2] ->
  AreAllArgsImmediates b i = Ret (IsImmediate b v0 && (IsImmediate b v1 && IsImmediate b v2)).
Proof. intros Ha Ht. rewrite (AllArgs_at _ _ _ _ _ _ Ha), Ht. simpl. by rewrite andb_true_r. Qed.
Lemma GetU1_imm b v c : resolve b v = Imm Ty.U1 c -> GetU1 b v = Ret c.
Proof. intros Hr. unfold GetU1, GetImm. by rewrite Hr. Qed.
Lemma width_64 (is_32_bit : bool) x : in_range (width32 is_32_bit) x -> in_range 64 x.
Proof. unfold in_range. destruct is_32_bit; simpl; lia. Qed.

Lemma FoldSub_ok b pre post i vs (is_32_bit : bool) : at_inst b pre post i (if is_32_bit then Op.Sub32 else Op.Sub64) vs -> folds b (FoldSub i is_32_bit b).
Proof.
  intros Ha. pose proof (ai_wf _ _ _ _ _ _ Ha) as Hw.
  destruct (additive_operands is_32_bit _ _ (or_intror eq_refl) b pre post i vs Ha) as (lhs & rhs & carry & us & _ & H3). pose proof H3 as [Htake Hl Hr Hc].
  unfold FoldSub. rewrite (all_args_3 b pre post i _ vs lhs rhs carry Ha Htake). cbn [obind].
  destruct (IsImmediate b lhs) eqn:Hi0, (IsImmediate b rhs) eqn:Hi1, (IsImmediate b carry) eqn:Hi2; cbn [andb negb obind]; try by apply folds_refl.
  destruct (HasAssociated_ret _ _ _ _ _ _ Ha) as (h & Hh). rewrite Hh. cbn [obind]. destruct h; [by apply folds_refl|].
  destruct (imm_operand _ _ _ _ _ _ Ha _ _ _ Hl Hi0) as (x & Hx & _). destruct (imm_operand _ _ _ _ _ _ Ha _ _ _ Hr Hi1) as (y & Hy & Hyok & _).
  destruct (imm_operand _ _ _ _ _ _ Ha _ _ _ Hc Hi2) as (c & Hcc & _). rewrite (ty_arg _ _ _ _ _ _ Hl), (ty_arg _ _ _ _ _ _ Hr), (ty_arg _ _ _ _ _ _ Hc). cbn [obind].
  rewrite (ty_u64 is_32_bit _ _ _ Hx), (ty_u64 is_32_bit _ _ _ Hy), (GetU1_imm _ _ _ Hcc). cbn [obind].
  eapply (replace_additive is_32_bit _ _ (or_intror eq_refl)); eauto. intros x' y' c' Hx' Hy' Hc'. rewrite Hx in Hx'. rewrite Hy in Hy'. rewrite Hcc in Hc'. simplify_eq.
  rewrite ty_ok in Hyok. apply width_64 in Hyok. rewrite <- (wrap_not (width32 is_32_bit)) by (try done; by destruct is_32_bit).
  unfold u32, u64. destruct is_32_bit; [by rewrite wrap_wrap_le by lia|done].
Qed.

(** *** Addition *)
Section Add.
Context (is_32_bit : bool).
Let o := if is_32_bit then Op.Add32 else Op.Add64.
Let ty := if is_32_bit then Ty.U32 else Ty.U64.
Let w := width32 is_32_bit.
Let sum x y c := wrap w (x + y + c).
Let Hop : (o, sum) = (o, fun x y c => wrap (width32 is_32_bit) (x + y + c)) \/ (o, sum) = (if is_32_bit then Op.Sub32 else Op.Sub64, fun x y c => wrap (width32 is_32_bit) (x - y - 1 + c)).
Proof. by left. Qed.
Lemma add_pure x y c : pure o [(ty, x); (ty, y); (Ty.U1, c)] = Some (wrap w (x + y + c)).
Proof. apply (additive_pure is_32_bit o sum Hop). Qed.
Lemma add_swap_flags p x y c v : pseudo_value p {| r_op := o; r_args := [(ty, x); (ty, y); (Ty.U1, c)]; r_val := v |} =
  pseudo_value p {| r_op := o; r_args := [(ty, y); (ty, x); (Ty.U1, c)]; r_val := v |}.
Proof.
  assert (Ha : forall q r, as_addition {| r_op := o; r_args := [(ty, q); (ty, r); (Ty.U1, c)]; r_val := v |} = Some (w, q, r, c)).
  { intros. unfold o, as_addition, w. by destruct is_32_bit. }
  unfold pseudo_value, nzcv_of, overflow_of, carry_of, has_integer_flags. rewrite !Ha. cbn [r_op r_args r_val]. rewrite !add_pure, !orb_true_r.
  unfold add_carry, add_overflow. by rewrite !(Z.add_comm x y), !(Z.add_comm (swrap w x)).
Qed.

Section At.
Context (b : Block) (pre post : list nat) (i : nat) (vs : list Value) (Ha : at_inst b pre post i o vs).
Context (lhs rhs carry : Value) (us : list Value) (Hvs : vs = lhs :: rhs :: carry :: us) (H3 : operands3 is_32_bit o b pre i vs lhs rhs carry).
Lemma add_other v0 v1 : usable b pre v0 -> usable b pre v1 -> GetType b v0 = ty -> GetType b v1 = ty ->
  (forall e x y c, consistent b pre e -> eval e lhs = (ty, x) -> eval e rhs = (ty, y) -> in_range w x -> in_range w y -> exists x' y', eval e v0 = (ty, x') /\ eval e v1 = (ty, y') /\
     wrap w (x' + y' + c) = wrap w (x + y + c) /\
     readers b post i (fun p => pseudo_value p {| r_op := o; r_args := [(ty, x); (ty, y); (Ty.U1, c)]; r_val := (ty, wrap w (x + y + c)) |} =
                                pseudo_value p {| r_op := o; r_args := [(ty, x'); (ty, y'); (Ty.U1, c)]; r_val := (ty, wrap w (x + y + c)) |})) ->
  exists b1 b2, SetArg i 0 v0 b = Ret b1 /\ SetArg i 1 v1 b1 = Ret b2 /\ sound b b2 /\ at_inst b2 pre post i o (v0 :: v1 :: carry :: us) /\
    edited b b2 i o (v0 :: v1 :: carry :: us).
Proof.
  intros Hu0 Hu1 Ht0 Ht1 He. destruct (additive_facts is_32_bit o sum Hop) as (Hn & T0 & T1 & T2 & Hty & Hps & Ho & _).
  destruct (SetArg2_sound b pre post i o vs Ha Ho Hps v0 v1) as (b1 & b2 & Hb1 & Hb2 & Hs & Ha2 & Hed2); [lia|done|done|by rewrite T0|by rewrite T1| |].
  2: { exists b1, b2. rewrite Hvs in Ha2, Hed2. simpl in Ha2, Hed2. by split_and!. }
  intros e Hce. destruct (eval3 is_32_bit _ _ _ _ _ _ Ha _ _ _ H3 e Hce) as (x & y & c & Hx & Hy & Hc & Hxr & Hyr & _ & ->).
  destruct (He e x y c Hce Hx Hy Hxr Hyr) as (x' & y' & Hx' & Hy' & Heq & Hrd). exists (wrap w (x + y + c)). rewrite Hvs, Hn, Hty. simpl. rewrite Hx', Hy', Hc.
  split_and!; [apply add_pure|rewrite <- Heq; apply add_pure|exact Hrd].
Qed.
(** The operation a value stands for, when it is an addition too. *)
Lemma inner_add j : resolve b lhs = Ref j -> GetOpcode b j = Ret o ->
  exists v0 v1 v2 ws, core b j = Some (o, v0 :: v1 :: v2 :: ws) /\ GetArg b j 0 = Ret v0 /\ GetArg b j 1 = Ret v1 /\ GetArg b j 2 = Ret v2 /\
    usable b pre v0 /\ usable b pre v1 /\ usable b pre v2 /\ GetType b v0 = ty /\ GetType b v1 = ty /\ GetType b v2 = Ty.U1 /\
    forall e x y c, consistent b pre e -> eval e v0 = (ty, x) -> eval e v1 = (ty, y) -> eval e v2 = (Ty.U1, c) -> eval e lhs = (ty, wrap w (x + y + c)).
Proof.
  intros Hres Hopj. pose proof (ty_use _ _ _ _ _ _ (o3_0 _ _ _ _ _ _ _ _ _ H3)) as Hu.
  destruct (inner_at _ _ _ _ _ _ Ha lhs j Hu Hres) as (l & r & o'' & ws & Haj & _ & Hsub).
  rewrite (GetOpcode_at _ _ _ _ _ _ Haj) in Hopj. injection Hopj as ->. destruct (additive_facts is_32_bit o sum Hop) as (_ & _ & _ & _ & Hty & _).
  destruct (additive_operands is_32_bit o sum Hop b l r j ws Haj) as (v0 & v1 & v2 & ws' & -> & [Htk [G0 U0 T0] [G1 U1 T1] [G2 U2 T2]]).
  exists v0, v1, v2, ws'. split_and!; auto; [apply Haj|by eapply usable_sub..|]. intros e x y c Hce Hx Hy Hc. fold ty in Hty. rewrite <- Hty.
  eapply (eval_inner b pre post i o vs Ha e lhs j); [done|apply Hu|done|apply Haj|]. rewrite Htk. simpl. rewrite Hx, Hy, Hc. apply add_pure.
Qed.
(** Replacing an addition nobody reads the flags of by a value. *)
Lemma add_replace v : HasAssociatedPseudoOperation b i = Ret false -> usable b pre v -> GetType b v = ty ->
  (forall e x y c, consistent b pre e -> eval e lhs = (ty, x) -> eval e rhs = (ty, y) -> eval e carry = (Ty.U1, c) -> in_range w x -> snd (eval e v) = wrap w (x + y + c)) ->
  folds b (ReplaceUsesWith i v b).
Proof.
  intros Hh Hu Ht He. destruct (additive_facts is_32_bit o sum Hop) as (_ & _ & _ & _ & Hty & Hps & Ho & _).
  destruct (ReplaceUsesWith_pure b pre post i o vs Ha Ho v Hu) as (b' & Hb' & Hs); [by rewrite Hty| |by exists b'].
  intros e Hce. destruct (eval3 is_32_bit _ _ _ _ _ _ Ha _ _ _ H3 e Hce) as (x & y & c & Hx & Hy & Hc & Hxr & _ & _ & ->).
  split; [|by eapply readers_none]. rewrite (He e x y c Hce Hx Hy Hc Hxr). apply add_pure.
Qed.
(** An addition to the sum of a value and the immediates [y] and [c']. *)
Lemma add_combined x y c' v0 : HasAssociatedPseudoOperation b i = Ret false -> usable b pre v0 -> GetType b v0 = ty -> resolve b rhs = Imm ty x ->
  (forall e a, consistent b pre e -> eval e v0 = (ty, a) -> eval e lhs = (ty, wrap w (a + y + c'))) ->
  (u64 (x + y + c') = 0 -> resolve b carry = Imm Ty.U1 0) ->
  folds b (if u64 (x + y + c') =? 0 then ReplaceUsesWith i v0 b
           else let? b := SetArg i 0 v0 b in SetArg i 1 (ValueOf is_32_bit (u64 (x + y + c'))) b).
Proof.
  intros Hh Hu Ht Hx Hlhs Hsafe. pose proof (o3_1 _ _ _ _ _ _ _ _ _ H3) as Hr. pose proof (o3_2 _ _ _ _ _ _ _ _ _ H3) as Hc.
  assert (Hw64 : 0 <= w <= 64) by (unfold w; by destruct is_32_bit).
  destruct (Z.eqb_spec (u64 (x + y + c')) 0) as [Hz|Hz].
  - apply add_replace; auto. intros e p q c Hce Hp Hq Hcv _.
    destruct (eval_typed b pre post i o vs Ha e v0 ty Hce Hu Ht) as (a & Hae & Hok). rewrite (Hlhs e a Hce Hae) in Hp.
    rewrite (eval_imm b pre post i o vs Ha e rhs ty x Hce (us_refs _ _ _ (ty_use _ _ _ _ _ _ Hr)) Hx) in Hq.
    rewrite (eval_imm b pre post i o vs Ha e carry Ty.U1 0 Hce (us_refs _ _ _ (ty_use _ _ _ _ _ _ Hc)) (Hsafe Hz)) in Hcv. injection Hp as <-. injection Hq as <-. injection Hcv as <-.
    rewrite Hae. cbn [snd]. rewrite <- Z.add_assoc, wrap_add_l. replace (a + y + c' + (x + 0)) with (a + (x + y + c')) by lia.
    rewrite <- (wrap_add_r w a), <- (wrap_wrap_le w 64 (x + y + c')) by lia. change (wrap 64 (x + y + c')) with (u64 (x + y + c')). rewrite Hz.
    unfold wrap at 2. rewrite Zmod_0_l, Z.add_0_r. symmetry. apply wrap_small, (ty_ok is_32_bit), Hok.
  - assert (Hv : ValueOf is_32_bit (u64 (x + y + c')) = Imm ty (wrap w (x + y + c'))).
    { rewrite ty_value. unfold w, u32, u64. f_equal. destruct is_32_bit; [by rewrite wrap_wrap_le by lia|done]. }
    rewrite Hv. destruct (add_other v0 (Imm ty (wrap w (x + y + c')))) as (b1 & b2 & Hb1 & Hb2 & Hs & _); auto.
    + apply usable_imm; [concrete is_32_bit|concrete is_32_bit|]. apply (ty_ok is_32_bit), wrap_range. lia.
    + unfold GetType. by rewrite resolve_imm.
    + intros e p q c Hce Hp Hq _ _. destruct (eval_typed b pre post i o vs Ha e v0 ty Hce Hu Ht) as (a & Hae & _). rewrite (Hlhs e a Hce Hae) in Hp.
      rewrite (eval_imm b pre post i o vs Ha e rhs ty x Hce (us_refs _ _ _ (ty_use _ _ _ _ _ _ Hr)) Hx) in Hq. injection Hp as <-. injection Hq as <-.
      exists a, (wrap w (x + y + c')). destruct (additive_facts is_32_bit o sum Hop) as (_ & _ & _ & _ & _ & Hps & Ho & _).
      split_and!; [done|done| |by eapply readers_none].
      rewrite <- (Z.add_assoc a), (Z.add_comm (wrap w (x + y + c'))), Z.add_assoc, wrap_add_r. rewrite <- (Z.add_assoc (wrap w _)), wrap_add_l. f_equal. lia.
    + rewrite Hb1. cbn [obind]. by exists b2.
Qed.
Lemma add_body fuel : IsImmediate b lhs && negb (IsImmediate b rhs) = false -> cancels b o lhs rhs carry = false -> folds b (FoldAdd_loop (S fuel) i is_32_bit b).
Proof.
  intros Horder Hsafe. pose proof (ai_wf _ _ _ _ _ _ Ha) as Hw. pose proof H3 as [Htake Hl Hr Hc].
  cbn [FoldAdd_loop]. rewrite (ty_arg _ _ _ _ _ _ Hl), (ty_arg _ _ _ _ _ _ Hr), (ty_arg _ _ _ _ _ _ Hc). cbn [obind]. rewrite Horder.
  destruct (HasAssociated_ret _ _ _ _ _ _ Ha) as (h & Hh). rewrite Hh. cbn [obind]. destruct h; [by apply folds_refl|].
  rewrite (all_args_3 b pre post i _ vs lhs rhs carry Ha Htake).
  destruct (IsImmediate b lhs) eqn:Hil, (IsImmediate b rhs) eqn:Hir; try discriminate Horder; cbn [andb negb obind]; [| |by apply folds_refl].
  - destruct (IsImmediate b carry) eqn:Hic; [|by apply folds_refl].
    destruct (imm_operand _ _ _ _ _ _ Ha _ _ _ Hl Hil) as (x & Hx & _). destruct (imm_operand _ _ _ _ _ _ Ha _ _ _ Hr Hir) as (y & Hy & _).
    destruct (imm_operand _ _ _ _ _ _ Ha _ _ _ Hc Hic) as (c & Hcc & _). rewrite (ty_u64 is_32_bit _ _ _ Hx), (ty_u64 is_32_bit _ _ _ Hy), (GetU1_imm _ _ _ Hcc). cbn [obind].
    eapply (replace_additive is_32_bit o sum Hop); eauto. intros x' y' c' Hx' Hy' Hc'. rewrite Hx in Hx'. rewrite Hy in Hy'. rewrite Hcc in Hc'. simplify_eq.
    unfold sum, w, u32, u64. destruct is_32_bit; [by rewrite wrap_wrap_le by lia|done].
  - destruct (imm_operand _ _ _ _ _ _ Ha _ _ _ Hr Hir) as (x & Hx & Hxok & Hex).
    destruct (operand_inst o b pre post i vs Ha lhs (ty_use _ _ _ _ _ _ Hl) Hil) as (j & o' & -> & Hres & Hopj). cbn [obind]. rewrite (GetOpcode_at _ _ _ _ _ _ Ha), Hopj. cbn [obind].
    set (zero_case := obind (IsZero b rhs) _).
    assert (Hzero : folds b (obind zero_case (fun done => match done with Some b => Ret b | None => Ret b end))).
    { unfold zero_case, IsZero. destruct (unsigned_test _ _ _ _ _ _ 0 Hr (width_type is_32_bit)) as (z & -> & Hz1). cbn [obind]. destruct z; [|by apply folds_refl].
      destruct (unsigned_test _ _ _ _ _ _ 0 Hc ltac:(auto)) as (z' & -> & Hz2). cbn [obind]. destruct z'; [|by apply folds_refl].
      destruct (add_replace lhs Hh (ty_use _ _ _ _ _ _ Hl) (ty_type _ _ _ _ _ _ Hl)) as (b' & -> & Hs); [|by exists b'].
      intros e p q c Hce Hp Hq Hcv Hpr. rewrite (eval_imm b pre post i o vs Ha e rhs ty 0 Hce (us_refs _ _ _ (ty_use _ _ _ _ _ _ Hr)) (proj1 Hz1 eq_refl)) in Hq.
      rewrite (eval_imm b pre post i o vs Ha e carry Ty.U1 0 Hce (us_refs _ _ _ (ty_use _ _ _ _ _ _ Hc)) (proj1 Hz2 eq_refl)) in Hcv. injection Hq as <-. injection Hcv as <-.
      rewrite Hp, !Z.add_0_r. symmetry. by apply wrap_small. }
    destruct (decide (o' = o)) as [->|Hne]; cbn [obind]; [|exact Hzero].
    destruct (inner_add j Hres Hopj) as (v0 & v1 & v2 & ws & Hcj & G0 & G1 & G2 & U0 & U1 & U2 & T0 & T1 & T2 & Hev). rewrite G1. cbn [obind].
    destruct (IsImmediate b v1) eqn:Hi1; cbn [obind]; [|exact Hzero]. rewrite G2. cbn [obind]. destruct (IsImmediate b v2) eqn:Hi2; [|exact Hzero].
    destruct (immediate_value _ _ _ _ _ _ Ha v1 ty U1 T1 Hi1) as (y & Hy & _). destruct (immediate_value _ _ _ _ _ _ Ha v2 Ty.U1 U2 T2 Hi2) as (c' & Hc' & _).
    rewrite (ty_u64 is_32_bit _ _ _ Hx). cbn [obind]. rewrite (ty_u64 is_32_bit _ _ _ Hy). cbn [obind]. rewrite (GetU1_imm _ _ _ Hc'), G0. cbn [obind].
    destruct (add_combined x y c' v0 Hh U0 T0 Hx) as (b' & Hb' & Hs).
    + intros e a Hce Hae. apply Hev; auto; eapply (eval_imm b pre post i o vs Ha); eauto; [apply U1|apply U2].
    + intros Hz. unfold cancels in Hsafe. rewrite Hres, Hx, Hcj, Hy, Hc', bool_decide_true, Hz in Hsafe by done. simpl in Hsafe. by apply negb_false_iff, bool_decide_eq_true in Hsafe.
    + exists b'. split; [|done]. destruct (u64 (x + y + c') =? 0); [by rewrite Hb'|]. destruct (SetArg i 0 v0 b) as [b1| |]; [|discriminate..]. cbn [obind] in *. by rewrite Hb'.
Qed.
End At.

Lemma FoldAdd_ok b pre post i vs : at_inst b pre post i o vs -> forgets_carry b i = false -> folds b (FoldAdd i is_32_bit b).
Proof.
  intros Ha Hsafe. destruct (additive_operands is_32_bit o sum Hop b pre post i vs Ha) as (lhs & rhs & carry & us & Hvs & H3).
  unfold forgets_carry in Hsafe. rewrite (ai_core _ _ _ _ _ _ Ha), Hvs in Hsafe.
  assert (Hadd : bool_decide (o = Op.Add32) || bool_decide (o = Op.Add64) = true) by (unfold o; by destruct is_32_bit). rewrite Hadd in Hsafe. simpl in Hsafe.
  apply orb_false_iff in Hsafe as [S1 S2]. unfold FoldAdd. destruct (IsImmediate b lhs && negb (IsImmediate b rhs)) eqn:Horder; [|by eapply add_body].
  pose proof H3 as [Htake Hl Hr Hc]. assert (Hrest : exists n, 1%nat = n /\ FoldAdd_loop 2 = FoldAdd_loop (S n)) by eauto. destruct Hrest as (n & En & ->). cbn [FoldAdd_loop]. rewrite (ty_arg _ _ _ _ _ _ Hl), (ty_arg _ _ _ _ _ _ Hr), (ty_arg _ _ _ _ _ _ Hc). cbn [obind]. rewrite Horder.
  apply andb_true_iff in Horder as [Hil Hir%negb_true_iff].
  destruct (add_other b pre post i vs Ha lhs rhs carry us Hvs H3 rhs lhs) as (b1 & b2 & Hb1 & Hb2 & Hs & Ha2 & Hed); [apply Hr|apply Hl|apply Hr|apply Hl| |].
  { intros e x y c Hce Hx Hy _ _. exists y, x. split_and!; [done|done|f_equal; lia|]. intros d p ud _ _ _ _. apply add_swap_flags. }
  rewrite Hb1. cbn [obind]. rewrite Hb2. cbn [obind]. eapply folds_trans; [exact Hs|]. subst n.
  assert (Hres : forall v, refs_in pre v -> resolve b2 v = resolve b v).
  { intros v Hv. eapply (edit_resolve_pre b b2 pre post i o); [apply Ha|apply Ha|exact Hed| |done]. unfold o. by destruct is_32_bit. }
  destruct (additive_operands is_32_bit o sum Hop b2 pre post i _ Ha2) as (lhs2 & rhs2 & carry2 & us2 & Hvs2 & H32). injection Hvs2 as <- <- <- <-.
  eapply add_body; [exact Ha2|reflexivity|exact H32| |].
  - unfold IsImmediate in *. rewrite Hres by apply Hr. by rewrite Hir.
  - rewrite <- S2. unfold cancels. rewrite !Hres by first [apply Hr|apply Hl|apply Hc]. destruct (resolve b rhs) as [j|] eqn:Hj; [|done]. destruct (resolve b lhs); [done|].
    destruct (inner_at _ _ _ _ _ _ Ha rhs j (ty_use _ _ _ _ _ _ Hr) Hj) as (l & r & o' & ws & Haj & _ & Hsub).
    assert (Hji : j <> i). { intros ->. destruct (resolve_prefix b (shape_closed b (wf_shape b (ai_wf _ _ _ _ _ _ Ha))) pre (i :: post) rhs (ai_list _ _ _ _ _ _ Ha) (us_refs _ _ _ (ty_use _ _ _ _ _ _ Hr))) as [Hin _].
      rewrite Hj in Hin. simpl in Hin. by apply (i_not_pre b pre post i (wf_shape b (ai_wf _ _ _ _ _ _ Ha)) (ai_list _ _ _ _ _ _ Ha)). }
    rewrite (ed_other _ _ _ _ _ Hed j Hji), (ai_core _ _ _ _ _ _ Haj). assert (Hrs : forall k v, ws !! k = Some v -> refs_in pre v).
    { intros k v Hv. pose proof (inst_ok_refs _ _ _ _ k v (ai_ok _ _ _ _ _ _ Haj) Hv). destruct v; simpl in *; auto. }
    destruct ws as [|? [|v1 [|v2]]]; try done. rewrite !Hres; [done|by apply (Hrs 2%nat)|by apply (Hrs 1%nat)].
Qed.
End Add.
End Flags.
