(* ===== verification/ConstPropSound.v ===== *)
(** Constant propagation keeps what a block does: shifts, the upper word, and the pass. *)
From stdpp Require Import list.
From S2P Require Import Prelude Bits IrOpcodes A64Imm Ir IrSem IrWf IrExec IrEdit IrFold ConstProp IrArith ConstPropProps ConstPropFlags.
Import Op(Opcode).
Local Open Scope Z_scope.

Section Sound.
Context {St : Type} `{IRSem St}.

(** ** The carry of an operation *)
Lemma pseudo_value_of_pseudo p o a v : reads_op o = true -> pseudo_value p {| r_op := o; r_args := a; r_val := v |} = pseudo_value p (of_value v).
Proof.
  intros Ho. unfold pseudo_value, nzcv_of, overflow_of, carry_of, has_integer_flags. cbn [r_op r_args r_val].
  assert (Hadd : as_addition {| r_op := o; r_args := a; r_val := v |} = None) by by destruct o.
  rewrite Hadd, (reads_pseudo _ Ho), orb_true_r. simpl. by destruct o.
Qed.
Lemma pseudo_carry r : has_integer_flags r = true -> pseudo_value Op.GetCarryFromOp r = Z.b2z (carry_of r).
Proof. intros Hf. unfold pseudo_value. rewrite decide_False by done. by rewrite Hf, decide_True. Qed.
(** The pseudo-operation comes after its operation. *)
Lemma pseudo_split b pre post i o vs c : at_inst b pre post i o vs -> is_pseudo_of b c i -> opcode_of b c = Op.GetCarryFromOp ->
  exists mid tail us, post = mid ++ c :: tail /\ at_inst b (pre ++ i :: mid) tail c Op.GetCarryFromOp us /\ us !! 0%nat = Some (Ref i).
Proof.
  intros [Hw E Hi] (p & us & Hc & Hcc & Hps & Hu) Hop. rewrite (core_opcode _ _ _ _ Hcc) in Hop. subst p.
  apply list_elem_of_split in Hc as (l & tail & E'). assert (Hac : at_inst b l tail c Op.GetCarryFromOp us) by done.
  pose proof (inst_ok_refs _ _ _ _ _ _ (ai_ok _ _ _ _ _ _ Hac) Hu) as Hin. simpl in Hin. apply list_elem_of_split in Hin as (l1 & mid & ->).
  destruct (split_unique pre l1 post (mid ++ c :: tail) i) as [-> ->]; [rewrite <- E; apply so_nodup, Hw|rewrite <- E, E'; by simplify_list_eq|].
  exists mid, tail, us. by split_and!.
Qed.
Lemma consistent_sub b l r e : consistent b (l ++ r) e -> consistent b l e.
Proof. intros Hc i Hi. apply Hc. set_solver. Qed.

Section Carry.
Context (b : Block) (pre post : list nat) (i : nat) (o : Opcode) (vs : list Value) (Ha : at_inst b pre post i o vs) (Ho : o <> Op.Identity).
Context (c : nat) (Hc : is_pseudo_of b c i) (Hop : opcode_of b c = Op.GetCarryFromOp).
(** Replacing the carry keeps the operation and the values before it. *)
Record carry_replaced (b' : Block) : Prop := {
  cr_sound : sound b b';
  cr_at : at_inst b' pre post i o vs;
  cr_readers : readers b' post i (fun p => p <> Op.GetCarryFromOp);
  cr_resolve : forall u, refs_in pre u -> resolve b' u = resolve b u;
  cr_usable : forall u, usable b pre u -> usable b' pre u;
  cr_type : forall u, refs_in pre u -> GetType b' u = GetType b u
}.
Lemma replace_carry v : usable b pre v -> GetType b v = Ty.U1 ->
  (forall e s, consistent b pre e -> let r := fst (run_inst e s o (take (GetNumArgsOf o) vs)) in has_integer_flags r = true /\ Z.b2z (carry_of r) = snd (eval e v)) ->
  exists b', ReplaceUsesWith c v b = Ret b' /\ carry_replaced b'.
Proof.
  intros Hu Ht Hrun. destruct (pseudo_split b pre post i o vs c Ha Hc Hop) as (mid & tail & us & Hpost & Hac & Hu0).
  assert (Huc : usable b (pre ++ i :: mid) v) by (eapply usable_sub; [exact Hu|set_solver]).
  destruct (ReplaceUsesWith_at b (pre ++ i :: mid) tail c Op.GetCarryFromOp us Hac ltac:(done) v Huc Ht) as (b' & Hb' & Hs & Hch).
  { intros e s Hce. cbv zeta. change (GetNumArgsOf Op.GetCarryFromOp) with 1%nat. rewrite (take_1 us _ Hu0).
    pose proof (consistent_sub b pre (i :: mid) e Hce) as Hcp. destruct (Hce i ltac:(set_solver)) as (o' & vs' & s' & Hci & Hei). rewrite (ai_core _ _ _ _ _ _ Ha) in Hci. injection Hci as <- <-.
    destruct (Hrun e s' Hcp) as [Hfl Hcv]. destruct (eval_typed b pre post i o vs Ha e v Ty.U1 Hcp Hu Ht) as (z & Hz & _). rewrite Hz in Hcv |- *. simpl in Hcv.
    assert (Hval : run_inst e s Op.GetCarryFromOp [Ref i] = ({| r_op := Op.GetCarryFromOp; r_args := [eval e (Ref i)]; r_val := (Ty.U1, z) |}, s)).
    { unfold run_inst. rewrite !decide_False by done. simpl. rewrite Hei. simpl. by rewrite pseudo_carry, Hcv. }
    rewrite Hval. split_and!; [done|done|]. intros d p ud _ _ _ _. by apply pseudo_value_of_pseudo. }
  pose proof (ch_ed _ _ _ _ _ _ _ Hch) as Hed. pose proof Hs as (Hw' & El & _).
  assert (Hic : i <> c). { intros ->. apply (i_not_pre b (pre ++ c :: mid) tail c (wf_shape b (ai_wf _ _ _ _ _ _ Hac)) (ai_list _ _ _ _ _ _ Hac)). set_solver. }
  assert (Hid : Op.Identity = Op.Identity -> exists u, (v :: replicate 3 ValueVoid) !! 0%nat = Some u /\ refs_in (pre ++ i :: mid) u) by (exists v; split; [done|apply Huc]).
  exists b'. split; [done|]. constructor.
  - done.
  - constructor; [done|by rewrite El; apply Ha|]. rewrite (ed_other _ _ _ _ _ Hed i Hic). apply Ha.
  - intros d p ud Hd Hcd Hrp Hud ->. destruct (decide (d = c)) as [->|Hdc]; [rewrite (ed_core _ _ _ _ _ Hed) in Hcd; simplify_eq|].
    rewrite (ed_other _ _ _ _ _ Hed d Hdc) in Hcd. apply Hdc. apply (bk_carry b (wf_book b (ai_wf _ _ _ _ _ _ Ha)) d c i); [|done|by rewrite (core_opcode _ _ _ _ Hcd)|done].
    exists Op.GetCarryFromOp, ud. split_and!; auto. rewrite (ai_list _ _ _ _ _ _ Ha). set_solver.
  - intros u Hur. eapply (edit_resolve_pre b b'); [apply Hac|apply Hac|exact Hed|done|by apply refs_in_app].
  - intros u Huu. assert (Hux : usable b' (pre ++ i :: mid) u) by (eapply changed_usable; [exact Hac|exact Hch|done|eapply usable_sub; [done|set_solver]]).
    destruct Huu, Hux. by constructor.
  - intros u Hur. eapply (edit_type_pre b b'); [apply Hac|apply Hac|exact Hed|done|by apply refs_in_app].
Qed.
End Carry.

(** ** The upper word *)
Lemma FoldMostSignificantWord_ok b pre post i vs : at_inst b pre post i Op.MostSignificantWord vs -> folds b (FoldMostSignificantWord i b).
Proof.
  intros Ha. pose proof (ai_wf _ _ _ _ _ _ Ha) as Hw. destruct (carry_inst _ _ _ _ _ _ Ha ltac:(done) ltac:(done)) as (r & Hr & Hm).
  destruct (typed_operand _ _ _ _ _ _ Ha 0 Ty.U64) as (v & H0 & Hv); [vm_compute; lia|done|done|].
  unfold FoldMostSignificantWord. rewrite Hr. cbn [obind]. rewrite (AllArgs_at _ _ _ _ _ _ Ha). change (GetNumArgsOf Op.MostSignificantWord) with 1%nat. rewrite (take_1 vs v H0).
  cbn [obind forallb]. rewrite andb_true_r. destruct (IsImmediate b v) eqn:Him; cbn [negb]; [|by apply folds_refl].
  destruct (imm_operand _ _ _ _ _ _ Ha _ _ _ Hv Him) as (x & Hx & Hxok & Hex). rewrite (ty_arg _ _ _ _ _ _ Hv). cbn [obind]. rewrite (ty_u64 false _ _ _ Hx). cbn [obind].
  assert (Hlast : forall b', sound b b' -> at_inst b' pre post i Op.MostSignificantWord vs -> (forall u, refs_in pre u -> resolve b' u = resolve b u) ->
    readers b' post i (fun p => p <> Op.GetCarryFromOp) -> folds b (ReplaceUsesWith i (ValueU32 (u32 (Z.shiftr x 32))) b')).
  { intros b' Hs Ha' Hres Hrd. eapply folds_trans; [exact Hs|]. destruct (ReplaceUsesWith_imm b' pre post i _ vs Ha' ltac:(done) (u32 (Z.shiftr x 32))) as (b2 & Hb2 & Hs2);
      [done|apply (wrap_range 32); lia| |by exists b2].
    intros e Hce. change (GetNumArgsOf Op.MostSignificantWord) with 1%nat. rewrite (take_1 vs v H0). simpl map.
    rewrite (eval_imm b' pre post i _ vs Ha' e v Ty.U64 x Hce (us_refs _ _ _ (ty_use _ _ _ _ _ _ Hv))) by (rewrite Hres; [done|apply Hv]). split; [reflexivity|].
    intros d p ud H1 H2 H3 H4. eapply pseudo_value_plain; [reflexivity|done|]. left. by apply (Hrd d p ud). }
  destruct r as [c|]; [|cbn [obind]; apply Hlast; auto; by apply sound_refl]. destruct Hm as [Hc Hop].
  destruct (replace_carry b pre post i _ vs Ha ltac:(done) c Hc Hop (ValueU1 (bit.get_bit 64 31 x))) as (b' & -> & [R1 R2 R3 R4 _ _]).
  - apply usable_imm; [done|done|apply b2z_in_range].
  - unfold GetType, ValueU1. by rewrite resolve_imm.
  - intros e s Hce. change (GetNumArgsOf Op.MostSignificantWord) with 1%nat. rewrite (take_1 vs v H0).
    assert (Hp : pure Op.MostSignificantWord (map (eval e) [v]) = Some (wrap 32 (Z.shiftr x 32))) by (simpl map; rewrite (Hex e Hce); reflexivity).
    rewrite (run_inst_pure _ _ _ _ _ Hp). cbv zeta. cbn [fst]. split; [unfold has_integer_flags; cbn [r_op r_args]; by rewrite Hp|].
    unfold carry_of. simpl map. rewrite (Hex e Hce). cbn. by rewrite (bit.get_bit_eq 64) by lia.
  - cbn [obind]. by apply Hlast.
Qed.

(** ** Shifts *)
Record shift_op (is_32_bit : bool) (o : Opcode) (val : Z -> Z -> Z) : Prop := {
  sh_args : GetNumArgsOf o = if is_32_bit then 3%nat else 2%nat;
  sh_0 : GetArgTypeOf o 0 = if is_32_bit then Ty.U32 else Ty.U64;
  sh_1 : GetArgTypeOf o 1 = Ty.U8;
  sh_2 : is_32_bit = true -> GetArgTypeOf o 2 = Ty.U1;
  sh_type : GetTypeOf o = if is_32_bit then Ty.U32 else Ty.U64;
  sh_op : IsAPseudoOperation o = false /\ o <> Op.Identity /\ o <> Op.Void /\ is_addition o = false /\ carries o = is_32_bit;
  sh_pure : forall x n l, pure o ((if is_32_bit then Ty.U32 else Ty.U64, x) :: (Ty.U8, n) :: l) = Some (val x n);
  sh_zero : forall x, in_range (width32 is_32_bit) x -> val x 0 = x;
  sh_carry : is_32_bit = true -> forall x n c r, carry_of {| r_op := o; r_args := [(Ty.U32, x); (Ty.U8, n); (Ty.U1, c)]; r_val := r |} = shift_carry o x n c
}.
Lemma rotate_0 w x : 0 < w -> rotate_right w x 0 = x.
Proof. intros. unfold rotate_right. by rewrite Z.mod_0_l by lia. Qed.
Ltac solve_bit := match goal with c : bool |- _ => destruct c; first [reflexivity|intros; first [reflexivity|discriminate]] end.
Lemma shift_ops (is_32_bit : bool) :
  shift_op is_32_bit (if is_32_bit then Op.LogicalShiftLeft32 else Op.LogicalShiftLeft64) (shift_left (width32 is_32_bit)) /\
  shift_op is_32_bit (if is_32_bit then Op.LogicalShiftRight32 else Op.LogicalShiftRight64) (fun x n => wrap (width32 is_32_bit) (shift_right (width32 is_32_bit) x n)) /\
  shift_op is_32_bit (if is_32_bit then Op.ArithmeticShiftRight32 else Op.ArithmeticShiftRight64) (shift_arith (width32 is_32_bit)) /\
  shift_op is_32_bit (if is_32_bit then Op.RotateRight32 else Op.RotateRight64) (fun x n => wrap (width32 is_32_bit) (rotate_right (width32 is_32_bit) x n)).
Proof.
  assert (Hw : 0 < width32 is_32_bit) by by destruct is_32_bit.
  split_and!; (constructor; [solve_bit..|destruct is_32_bit; split_and!; try discriminate; reflexivity|solve_bit| |]); try (intros -> x n c r; reflexivity); intros x Hx.
  - unfold shift_left. destruct (Z.leb_spec (width32 is_32_bit) 0); [lia|]. rewrite Z.shiftl_0_r. by apply wrap_small.
  - unfold shift_right. destruct (Z.leb_spec (width32 is_32_bit) 0); [lia|]. rewrite Z.shiftr_0_r. by apply wrap_small.
  - unfold shift_arith. rewrite Z.min_l by lia. rewrite Z.shiftr_0_r, swrap_msb by done. destruct (Z.testbit x _); [|rewrite Z.sub_0_r; by apply wrap_small].
    unfold wrap. replace (x - 2 ^ width32 is_32_bit) with (x + (-1) * 2 ^ width32 is_32_bit) by lia. rewrite Z_mod_plus_full. by apply wrap_small.
  - rewrite rotate_0 by done. by apply wrap_small.
Qed.

Section Shift.
Context (is_32_bit : bool) (o : Opcode) (val : Z -> Z -> Z) (Hsh : shift_op is_32_bit o val).
Let ty := if is_32_bit then Ty.U32 else Ty.U64.
Section At.
Context (b : Block) (pre post : list nat) (i : nat) (vs : list Value) (Ha : at_inst b pre post i o vs).
Lemma shift_operands : exists v0 v1, vs !! 0%nat = Some v0 /\ vs !! 1%nat = Some v1 /\ typed b pre i 0 v0 ty /\ typed b pre i 1 v1 Ty.U8.
Proof.
  destruct (typed_operand _ _ _ _ _ _ Ha 0 ty) as (v0 & H0 & Hv0); [rewrite (sh_args _ _ _ Hsh); destruct is_32_bit; lia|apply Hsh|concrete is_32_bit|].
  destruct (typed_operand _ _ _ _ _ _ Ha 1 Ty.U8) as (v1 & H1 & Hv1); [rewrite (sh_args _ _ _ Hsh); destruct is_32_bit; lia|apply Hsh|done|]. eauto 10.
Qed.
Lemma take_shift v0 v1 : vs !! 0%nat = Some v0 -> vs !! 1%nat = Some v1 -> exists l, take (GetNumArgsOf o) vs = v0 :: v1 :: l.
Proof.
  intros H0 H1. rewrite (sh_args _ _ _ Hsh). destruct is_32_bit; [|exists []; by apply take_2].
  assert (Hlen : length vs = 4%nat) by apply (ai_ok _ _ _ _ _ _ Ha). destruct (lookup_lt_is_Some_2 vs 2 ltac:(lia)) as [v2 H2]. exists [v2]. by apply take_3.
Qed.
Context (v0 v1 : Value) (H0 : vs !! 0%nat = Some v0) (H1 : vs !! 1%nat = Some v1) (Hv0 : typed b pre i 0 v0 ty) (Hv1 : typed b pre i 1 v1 Ty.U8).
Lemma eval_shift e : consistent b pre e -> exists x n l, eval e v0 = (ty, x) /\ eval e v1 = (Ty.U8, n) /\ in_range (width32 is_32_bit) x /\ in_range 8 n /\
  map (eval e) (take (GetNumArgsOf o) vs) = (ty, x) :: (Ty.U8, n) :: l.
Proof.
  intros Hce. destruct (any_operand _ _ _ _ _ _ Ha _ _ _ e Hv0 Hce) as (x & Hx & Hxok). destruct (any_operand _ _ _ _ _ _ Ha _ _ _ e Hv1 Hce) as (n & Hn & Hnok).
  destruct (take_shift v0 v1 H0 H1) as (l & ->). exists x, n, (map (eval e) l). simpl. rewrite Hx, Hn. split_and!; auto. by apply (ty_ok is_32_bit).
Qed.
(** A shift by zero is its operand. *)
Lemma zero_shift : readers b post i (fun p => p <> Op.GetCarryFromOp) -> resolve b v1 = Imm Ty.U8 0 -> folds b (ReplaceUsesWith i v0 b).
Proof.
  intros Hrd Hz. destruct (sh_op _ _ _ Hsh) as (_ & Ho & _ & Hadd & _).
  destruct (ReplaceUsesWith_pure b pre post i o vs Ha Ho v0) as (b' & Hb' & Hs); [apply Hv0|rewrite (sh_type _ _ _ Hsh); apply Hv0| |by exists b'].
  intros e Hce. destruct (eval_shift e Hce) as (x & n & l & Hx & Hn & Hxr & _ & ->). rewrite (eval_imm b pre post i o vs Ha e v1 Ty.U8 0 Hce (us_refs _ _ _ (ty_use _ _ _ _ _ _ Hv1)) Hz) in Hn.
  injection Hn as <-. rewrite Hx. cbn [snd]. pose proof (sh_pure _ _ _ Hsh x 0 l) as Hp. rewrite (sh_zero _ _ _ Hsh x Hxr) in Hp. split; [done|].
  intros d p ud D1 D2 D3 D4. eapply pseudo_value_plain; [exact Hp|done|]. left. by apply (Hrd d p ud).
Qed.
(** The carry passed in does not matter if nobody reads the carry, or if something is shifted out. *)
Lemma drop_carry : is_32_bit = true -> readers b post i (fun p => p <> Op.GetCarryFromOp) \/ (exists n, resolve b v1 = Imm Ty.U8 n /\ n <> 0) ->
  exists b', SetArg i 2 (ValueU1 false) b = Ret b' /\ sound b b' /\ at_inst b' pre post i o (<[2%nat := ValueU1 false]> vs) /\
    edited b b' i o (<[2%nat := ValueU1 false]> vs).
Proof.
  intros H32 Hrd. destruct (sh_op _ _ _ Hsh) as (Hps & Ho & _ & Hadd & _). assert (Hlen : length vs = 4%nat) by apply (ai_ok _ _ _ _ _ _ Ha).
  destruct (SetArg_sound b pre post i o vs Ha Ho Hps 2 (ValueU1 false)) as (b' & Hb' & Hs & Ha' & Hch).
  - rewrite (sh_args _ _ _ Hsh), H32. lia.
  - apply usable_imm; [done|done|by apply zero_in_range].
  - rewrite (sh_2 _ _ _ Hsh H32). unfold GetType, ValueU1. by rewrite resolve_imm.
  - intros e Hce. destruct (any_operand _ _ _ _ _ _ Ha _ _ _ e Hv0 Hce) as (x & Hx & Hxok). destruct (any_operand _ _ _ _ _ _ Ha _ _ _ e Hv1 Hce) as (n & Hn & _).
    destruct (typed_operand _ _ _ _ _ _ Ha 2 Ty.U1) as (v2 & H2 & Hv2); [rewrite (sh_args _ _ _ Hsh), H32; lia|by apply Hsh|done|].
    destruct (any_operand _ _ _ _ _ _ Ha _ _ _ e Hv2 Hce) as (cv & Hcv & _). exists (val x n).
    rewrite (sh_args _ _ _ Hsh), H32, (take_3 vs v0 v1 v2), (take_3 (<[2%nat := ValueU1 false]> vs) v0 v1 (ValueU1 false)); auto;
      [|by rewrite list_lookup_insert_ne..|apply list_lookup_insert_eq; lia]. simpl map. change (eval e (ValueU1 false)) with (Ty.U1, 0). rewrite Hx, Hn, Hcv. split_and!; [apply Hsh|apply Hsh|].
    intros d p ud D1 D2 D3 D4. destruct (decide (p = Op.GetCarryFromOp)) as [->|Hne].
    + destruct Hrd as [Hrd|(n' & Hn' & Hnz)]; [by specialize (Hrd d _ ud D1 D2 D3 D4)|].
      rewrite (eval_imm b pre post i o vs Ha e v1 Ty.U8 n' Hce (us_refs _ _ _ (ty_use _ _ _ _ _ _ Hv1)) Hn') in Hn. injection Hn as <-.
      rewrite !pseudo_carry by (unfold has_integer_flags; cbn [r_op r_args]; by rewrite (sh_pure _ _ _ Hsh), orb_true_r). unfold ty. rewrite H32. rewrite !(sh_carry _ _ _ Hsh H32). unfold shift_carry. by rewrite (proj2 (Z.eqb_neq n' 0) Hnz).
    + rewrite (pseudo_value_plain p o _ _ _ (sh_pure _ _ _ Hsh x n _)), (pseudo_value_plain p o _ _ _ (sh_pure _ _ _ Hsh x n _)); auto.
  - exists b'. split_and!; auto. apply Hch.
Qed.
Lemma drop_carry_if (cond : bool) : (cond = true -> is_32_bit = true /\ (readers b post i (fun p => p <> Op.GetCarryFromOp) \/ (exists n, resolve b v1 = Imm Ty.U8 n /\ n <> 0))) ->
  exists b' vs', (if cond then SetArg i 2 (ValueU1 false) b else Ret b) = Ret b' /\ sound b b' /\ at_inst b' pre post i o vs' /\
    forall P, readers b post i P -> readers b' post i P.
Proof.
  intros Hcond. destruct cond; [|exists b, vs; split_and!; auto; apply sound_refl, Ha]. destruct (Hcond eq_refl) as [H32 Hrd].
  destruct (drop_carry H32 Hrd) as (b' & Hb' & Hs & Ha' & Hed). exists b', (<[2%nat := ValueU1 false]> vs). split_and!; auto. intros P HP d p ud D1 D2 D3 D4.
  apply (HP d p ud); auto. rewrite <- D2. symmetry. apply (ed_other _ _ _ _ _ Hed). intros ->.
  pose proof (so_nodup b (wf_shape b (ai_wf _ _ _ _ _ _ Ha))) as Hn. rewrite (ai_list _ _ _ _ _ _ Ha) in Hn. apply NoDup_app in Hn as (_ & _ & Hn). by apply NoDup_cons in Hn as [Hn _].
Qed.
End At.

(** What is left to fold: a shift of immediates whose carry nobody reads. *)
Definition all_known (b : Block) (pre post : list nat) (i : nat) : Prop := exists vs v0 v1,
  at_inst b pre post i o vs /\ vs !! 0%nat = Some v0 /\ vs !! 1%nat = Some v1 /\ typed b pre i 0 v0 ty /\ typed b pre i 1 v1 Ty.U8 /\
  IsImmediate b v0 = true /\ IsImmediate b v1 = true /\ readers b post i (fun p => p <> Op.GetCarryFromOp).
Lemma num_args_at b pre post i vs : at_inst b pre post i o vs -> num_args b i = Ret (if is_32_bit then 3%nat else 2%nat).
Proof.
  intros Ha. destruct (core_pool _ _ _ _ (ai_core _ _ _ _ _ _ Ha)) as (x & Hx & Hxo & _). unfold num_args, get_inst, NumArgs. rewrite Hx. cbn [obind]. by rewrite Hxo, (sh_args _ _ _ Hsh).
Qed.
(** The tail of [FoldShifts], for a shift by an amount that is not zero. *)
Lemma shift_rest b pre post i vs v1 (none : bool) : at_inst b pre post i o vs -> vs !! 1%nat = Some v1 -> typed b pre i 1 v1 Ty.U8 -> resolve b v1 <> Imm Ty.U8 0 ->
  (none = true -> readers b post i (fun p => p <> Op.GetCarryFromOp)) ->
  exists go b', (let? b := if ((if is_32_bit then 3 else 2) =? 3)%nat && IsImmediate b v1 then SetArg i 2 (ValueU1 false) b else Ret b in
                 let? all := AreAllArgsImmediates b i in Ret (all && none, b)) = Ret (go, b') /\ sound b b' /\ (go = true -> all_known b' pre post i).
Proof.
  intros Ha H1 Hv1 Hnz Hrd. destruct (shift_operands b pre post i vs Ha) as (v0 & v1' & H0 & H1' & Hv0 & Hv1'). rewrite H1 in H1'. injection H1' as <-.
  destruct (drop_carry_if b pre post i vs Ha v0 v1 H0 H1 Hv0 Hv1 (((if is_32_bit then 3 else 2) =? 3)%nat && IsImmediate b v1)) as (b' & vs' & -> & Hs & Ha' & Hrd').
  { intros [E1 E2]%andb_true_iff. split; [by destruct is_32_bit|]. right. destruct (imm_operand _ _ _ _ _ _ Ha _ _ _ Hv1 E2) as (n & Hn & _). exists n. split; [done|]. intros ->. done. }
  cbn [obind]. rewrite (AllArgs_at _ _ _ _ _ _ Ha'). cbn [obind]. eexists _, b'. split; [reflexivity|]. split; [done|]. intros [Hall Hnone]%andb_true_iff.
  destruct (shift_operands b' pre post i vs' Ha') as (w0 & w1 & W0 & W1 & Hw0 & Hw1). exists vs', w0, w1.
  destruct (take_shift b' pre post i vs' Ha' w0 w1 W0 W1) as (l & Htk). rewrite Htk in Hall. simpl in Hall. apply andb_true_iff in Hall as [I0 [I1 _]%andb_true_iff].
  split_and!; auto.
Qed.
Lemma FoldShifts_ok b pre post i vs : at_inst b pre post i o vs ->
  exists go b', FoldShifts i b = Ret (go, b') /\ sound b b' /\ (go = true -> all_known b' pre post i).
Proof.
  intros Ha. destruct (sh_op _ _ _ Hsh) as (_ & Ho & Hvoid & _ & Hcar). destruct (carry_inst _ _ _ _ _ _ Ha Ho Hvoid) as (r & Hr & Hm).
  unfold FoldShifts. rewrite Hr. cbn [obind]. rewrite (num_args_at b pre post i vs Ha). cbn [obind]. destruct r as [c|].
  - rewrite bool_decide_false, andb_false_r by done. cbn [obind]. destruct Hm as [Hc Hop].
    assert (H32 : is_32_bit = true). { pose proof (bk_carry_of b (wf_book b (ai_wf _ _ _ _ _ _ Ha)) c i Hc Hop) as Hca. by rewrite (core_opcode _ _ _ _ (ai_core _ _ _ _ _ _ Ha)), Hcar in Hca. }
    destruct (shift_operands b pre post i vs Ha) as (v0 & v1 & H0 & H1 & Hv0 & Hv1). rewrite (ty_arg _ _ _ _ _ _ Hv1). cbn [obind].
    destruct (unsigned_test _ _ _ _ _ _ 0 Hv1 ltac:(auto)) as (z & Hz & Hz1). unfold IsZero. rewrite Hz. cbn [obind]. destruct z.
    + destruct (typed_operand _ _ _ _ _ _ Ha 2 Ty.U1) as (v2 & H2 & Hv2); [rewrite (sh_args _ _ _ Hsh), H32; lia|by apply Hsh|done|]. rewrite (ty_arg _ _ _ _ _ _ Hv2). cbn [obind].
      destruct (replace_carry b pre post i o vs Ha Ho c Hc Hop v2) as (b' & -> & [R1 R2 R3 R4 R5 R6]); [apply Hv2|apply Hv2| |].
      { intros e s Hce. destruct (any_operand _ _ _ _ _ _ Ha _ _ _ e Hv0 Hce) as (x & Hx & _). destruct (any_operand _ _ _ _ _ _ Ha _ _ _ e Hv2 Hce) as (cv & Hcv & Hcvr).
        pose proof (eval_imm b pre post i o vs Ha e v1 Ty.U8 0 Hce (us_refs _ _ _ (ty_use _ _ _ _ _ _ Hv1)) (proj1 Hz1 eq_refl)) as Hn. pose proof (sh_pure _ _ _ Hsh x 0 [(Ty.U1, cv)]) as Hp.
        assert (Harg : map (eval e) (take (GetNumArgsOf o) vs) = [(ty, x); (Ty.U8, 0); (Ty.U1, cv)]) by (rewrite (sh_args _ _ _ Hsh), H32, (take_3 vs v0 v1 v2) by done; simpl; by rewrite Hx, Hn, Hcv).
        assert (Hpa : pure o (map (eval e) (take (GetNumArgsOf o) vs)) = Some (val x 0)) by by rewrite Harg. cbv zeta. rewrite (run_inst_pure _ _ _ _ _ Hpa). cbn [fst].
        split; [unfold has_integer_flags; cbn [r_op r_args]; by rewrite Hpa, orb_true_r|]. rewrite Harg. unfold ty. rewrite H32, (sh_carry _ _ _ Hsh H32), Hcv. unfold shift_carry. simpl.
        unfold tv_ok, in_range in Hcvr. simpl in Hcvr. assert (cv = 0 \/ cv = 1) as [-> | ->] by lia; done. }
      cbn [obind]. destruct (shift_operands b' pre post i vs R2) as (w0 & w1 & W0 & W1 & Hw0 & Hw1). rewrite (ty_arg _ _ _ _ _ _ Hw0). cbn [obind]. rewrite H1 in W1. injection W1 as <-.
      destruct (zero_shift b' pre post i vs R2 w0 v1 W0 H1 Hw0 Hw1 R3) as (b2 & -> & Hs2); [rewrite R4 by apply Hv1; by apply Hz1|]. cbn [obind].
      exists false, b2. split_and!; [done|by eapply sound_trans|done].
    + apply (shift_rest b pre post i vs v1 false); [done|done|done|intros E; by apply Hz1 in E|discriminate].
  - rewrite bool_decide_true, andb_true_r by done.
    destruct (shift_operands b pre post i vs Ha) as (v0 & v1 & H0 & H1 & Hv0 & Hv1).
    destruct (drop_carry_if b pre post i vs Ha v0 v1 H0 H1 Hv0 Hv1 ((if is_32_bit then 3 else 2) =? 3)%nat) as (b1 & vs1 & -> & Hs & Ha1 & Hrd); [intros E; split; [by destruct is_32_bit|by left]|].
    cbn [obind]. apply Hrd in Hm. clear Hv0 Hv1 H0 H1 v0 v1. destruct (shift_operands b1 pre post i vs1 Ha1) as (v0 & v1 & H0 & H1 & Hv0 & Hv1). rewrite (ty_arg _ _ _ _ _ _ Hv1). cbn [obind].
    destruct (unsigned_test _ _ _ _ _ _ 0 Hv1 ltac:(auto)) as (z & Hz & Hz1). unfold IsZero. rewrite Hz. cbn [obind]. destruct z.
    + rewrite (ty_arg _ _ _ _ _ _ Hv0). cbn [obind]. destruct (zero_shift b1 pre post i vs1 Ha1 v0 v1 H0 H1 Hv0 Hv1 Hm) as (b2 & -> & Hs2); [by apply Hz1|]. cbn [obind].
      exists false, b2. split_and!; [done|by eapply sound_trans|done].
    + destruct (shift_rest b1 pre post i vs1 v1 true Ha1 H1 Hv1) as (go & b2 & -> & Hs2 & Hk); [intros E; by apply Hz1 in E|done|].
      exists go, b2. split_and!; [done|by eapply sound_trans|done].
Qed.
Lemma fold_shift_ok f b pre post i vs : (forall x n, in_range (width32 is_32_bit) x -> in_range 8 n -> (if is_32_bit then u32 (f x n) else f x n) = val x n) ->
  at_inst b pre post i o vs -> folds b (fold_shift is_32_bit f i b).
Proof.
  intros Hf Ha. destruct (FoldShifts_ok b pre post i vs Ha) as (go & b' & Hb' & Hs & Hk). unfold fold_shift. rewrite Hb'. cbn [obind]. destruct go; [|by exists b'].
  destruct (Hk eq_refl) as (vs' & v0 & v1 & Ha' & H0 & H1 & Hv0 & Hv1 & I0 & I1 & Hrd). eapply folds_trans; [exact Hs|]. destruct (sh_op _ _ _ Hsh) as (_ & Ho & _ & Hadd & _).
  destruct (imm_operand _ _ _ _ _ _ Ha' _ _ _ Hv0 I0) as (x & Hx & Hxok & Hex). destruct (imm_operand _ _ _ _ _ _ Ha' _ _ _ Hv1 I1) as (n & Hn & Hnok & Hen).
  rewrite (ty_arg _ _ _ _ _ _ Hv0). cbn [obind]. fold ty. unfold GetImm at 1. rewrite Hx, decide_True by done. cbn [obind]. rewrite (ty_arg _ _ _ _ _ _ Hv1). cbn [obind].
  unfold GetU8, GetImm. rewrite Hn. cbn [obind]. rewrite decide_True by done. cbn [obind]. rewrite ReplaceImm_eq, Hf by (try done; by apply (ty_ok is_32_bit)).
  rewrite <- (sh_type _ _ _ Hsh). destruct (take_shift b' pre post i vs' Ha' v0 v1 H0 H1) as (l & Htk).
  destruct (ReplaceUsesWith_imm b' pre post i o vs' Ha' Ho (val x n)) as (b2 & Hb2 & Hs2); [rewrite (sh_type _ _ _ Hsh); concrete is_32_bit|eapply pure_ok, (sh_pure _ _ _ Hsh x n [])| |by exists b2].
  intros e Hce. rewrite Htk. simpl map. rewrite (Hex e Hce), (Hen e Hce). split; [apply Hsh|]. intros d p ud D1 D2 D3 D4.
  eapply pseudo_value_plain; [apply (sh_pure _ _ _ Hsh)|done|]. left. by apply (Hrd d p ud).
Qed.
End Shift.

(** ** The pass *)
Lemma norm_range (is_32_bit : bool) z : in_range (width32 is_32_bit) z -> (if is_32_bit then u32 z else z) = z.
Proof. destruct is_32_bit; [apply (wrap_small 32)|done]. Qed.
Lemma fold_shifts_ok b pre post i vs (is_32_bit : bool) :
  (at_inst b pre post i (if is_32_bit then Op.LogicalShiftLeft32 else Op.LogicalShiftLeft64) vs -> folds b (fold_shift is_32_bit (Safe.LogicalShiftLeft (width32 is_32_bit)) i b)) /\
  (at_inst b pre post i (if is_32_bit then Op.LogicalShiftRight32 else Op.LogicalShiftRight64) vs -> folds b (fold_shift is_32_bit (Safe.LogicalShiftRight (width32 is_32_bit)) i b)) /\
  (at_inst b pre post i (if is_32_bit then Op.ArithmeticShiftRight32 else Op.ArithmeticShiftRight64) vs -> folds b (fold_shift is_32_bit (Safe.ArithmeticShiftRight (width32 is_32_bit)) i b)) /\
  (at_inst b pre post i (if is_32_bit then Op.RotateRight32 else Op.RotateRight64) vs -> folds b (fold_shift is_32_bit (rotate_right (width32 is_32_bit)) i b)).
Proof.
  destruct (shift_ops is_32_bit) as (S1 & S2 & S3 & S4). assert (Hw : 0 < width32 is_32_bit) by by destruct is_32_bit.
  split_and!; (eapply fold_shift_ok; [eassumption|]); intros x n Hx [Hn _].
  - rewrite Safe_left by done. apply norm_range. unfold shift_left. apply if_in_range; [apply zero_in_range; lia|apply wrap_range; lia].
  - rewrite <- Safe_right by (try done; lia). apply norm_range, wrap_range. lia.
  - rewrite <- Safe_arith by done. apply norm_range. unfold shift_arith. apply wrap_range. lia.
  - rewrite norm_range by by apply rotate_in_range. symmetry. by apply wrap_small, rotate_in_range.
Qed.
Lemma masked_shift_facts (is_32_bit : bool) o : o = (if is_32_bit then Op.LogicalShiftLeftMasked32 else Op.LogicalShiftLeftMasked64) \/
  o = (if is_32_bit then Op.LogicalShiftRightMasked32 else Op.LogicalShiftRightMasked64) \/ o = (if is_32_bit then Op.ArithmeticShiftRightMasked32 else Op.ArithmeticShiftRightMasked64) \/
  o = (if is_32_bit then Op.RotateRightMasked32 else Op.RotateRightMasked64) ->
  GetNumArgsOf o = 2%nat /\ (forall k, (k < 2)%nat -> GetArgTypeOf o k = if is_32_bit then Ty.U32 else Ty.U64) /\
  GetTypeOf o = (if is_32_bit then Ty.U32 else Ty.U64) /\ sets_carry o = false /\ o <> Op.Identity.
Proof.
  intros [-> | [-> | [-> | ->]]]; destruct is_32_bit; split_and!; try reflexivity; try discriminate; by intros [|[|]] ?; [..|lia].
Qed.
Lemma masked_ok b pre post i vs (is_32_bit : bool) o f (ty := if is_32_bit then Ty.U32 else Ty.U64) : at_inst b pre post i o vs ->
  o = (if is_32_bit then Op.LogicalShiftLeftMasked32 else Op.LogicalShiftLeftMasked64) \/
  o = (if is_32_bit then Op.LogicalShiftRightMasked32 else Op.LogicalShiftRightMasked64) \/ o = (if is_32_bit then Op.ArithmeticShiftRightMasked32 else Op.ArithmeticShiftRightMasked64) \/
  o = (if is_32_bit then Op.RotateRightMasked32 else Op.RotateRightMasked64) ->
  (forall x n, in_range (width32 is_32_bit) x -> in_range (width32 is_32_bit) n -> pure o [(ty, x); (ty, n)] = Some (if is_32_bit then u32 (f x n) else f x n)) ->
  folds b (fold_masked_shift is_32_bit f i b).
Proof.
  intros Ha Ho Hp. destruct (masked_shift_facts is_32_bit o Ho) as (F1 & F2 & F3 & F4 & F5). by eapply (fold_masked_shift_ok b pre post i vs is_32_bit o f (width32 is_32_bit)).
Qed.
(** The code masks the amount with a constant of ones. *)
Lemma masked_shifts_ok b pre post i vs (is_32_bit : bool) (w := width32 is_32_bit) (m := w - 1) :
  (at_inst b pre post i (if is_32_bit then Op.LogicalShiftLeftMasked32 else Op.LogicalShiftLeftMasked64) vs -> folds b (fold_masked_shift is_32_bit (fun x n => wrap w (Z.shiftl x (Z.land n m))) i b)) /\
  (at_inst b pre post i (if is_32_bit then Op.LogicalShiftRightMasked32 else Op.LogicalShiftRightMasked64) vs -> folds b (fold_masked_shift is_32_bit (fun x n => Z.shiftr x (Z.land n m)) i b)) /\
  (at_inst b pre post i (if is_32_bit then Op.ArithmeticShiftRightMasked32 else Op.ArithmeticShiftRightMasked64) vs -> folds b (fold_masked_shift is_32_bit (fun x n => u64 (Z.shiftr (swrap w x) (Z.land n m))) i b)) /\
  (at_inst b pre post i (if is_32_bit then Op.RotateRightMasked32 else Op.RotateRightMasked64) vs -> folds b (fold_masked_shift is_32_bit (rotate_right w) i b)).
Proof.
  assert (Hw : 0 < w) by by destruct is_32_bit. assert (Hm : forall n, Z.land n m = n mod w) by (intros n; destruct is_32_bit; [apply (Z.land_ones n 5)|apply (Z.land_ones n 6)]; lia).
  assert (Hmn : forall n, 0 <= n mod w) by (intros; apply Z.mod_pos_bound; lia).
  split_and!; intros Ha; (eapply masked_ok; [exact Ha|tauto|]); intros x n Hx Hn; rewrite ?Hm.
  - rewrite norm_range by (apply wrap_range; lia). by destruct is_32_bit.
  - rewrite norm_range by by apply shiftr_range. rewrite <- (wrap_small w (Z.shiftr _ _)) by by apply shiftr_range. by destruct is_32_bit.
  - destruct is_32_bit; [|done]. unfold u32, u64. rewrite wrap_wrap_le by lia. done.
  - rewrite norm_range by by apply rotate_in_range. rewrite <- (wrap_small w (rotate_right _ _ _)) by by apply rotate_in_range. by destruct is_32_bit.
Qed.

Lemma fold_inst_ok b pre post i o vs : at_inst b pre post i o vs -> overflowing_division b i = false -> forgets_carry b i = false -> folds b (fold_inst i b).
Proof.
  intros Ha Hd Hc. unfold fold_inst. rewrite (GetOpcode_at _ _ _ _ _ _ Ha). cbn [obind].
  destruct (fold_shifts_ok b pre post i vs true) as (A1 & A2 & A3 & A4). destruct (fold_shifts_ok b pre post i vs false) as (B1 & B2 & B3 & B4).
  destruct (masked_shifts_ok b pre post i vs true) as (C1 & C2 & C3 & C4). destruct (masked_shifts_ok b pre post i vs false) as (D1 & D2 & D3 & D4).
  destruct o; try (apply folds_refl, Ha); rewrite ?bool_decide_true, ?bool_decide_false by done.
  all: lazymatch type of Ha with at_inst _ _ _ _ ?x _ => lazymatch x with
    | Op.LogicalShiftLeft32 => exact (A1 Ha)
    | Op.LogicalShiftLeft64 => exact (B1 Ha)
    | Op.LogicalShiftLeftMasked32 => exact (C1 Ha)
    | Op.LogicalShiftLeftMasked64 => exact (D1 Ha)
    | Op.LogicalShiftRight32 => exact (A2 Ha)
    | Op.LogicalShiftRight64 => exact (B2 Ha)
    | Op.LogicalShiftRightMasked32 => exact (C2 Ha)
    | Op.LogicalShiftRightMasked64 => exact (D2 Ha)
    | Op.ArithmeticShiftRight32 => exact (A3 Ha)
    | Op.ArithmeticShiftRight64 => exact (B3 Ha)
    | Op.ArithmeticShiftRightMasked32 => exact (C3 Ha)
    | Op.ArithmeticShiftRightMasked64 => exact (D3 Ha)
    | Op.RotateRight32 => exact (A4 Ha)
    | Op.RotateRight64 => exact (B4 Ha)
    | Op.RotateRightMasked32 => exact (C4 Ha)
    | Op.RotateRightMasked64 => exact (D4 Ha)
    | Op.LeastSignificantWord => exact (FoldLeastSignificantWord_ok _ _ _ _ _ Ha)
    | Op.MostSignificantWord => exact (FoldMostSignificantWord_ok _ _ _ _ _ Ha)
    | Op.LeastSignificantHalf => exact (FoldLeastSignificantHalf_ok _ _ _ _ _ Ha)
    | Op.LeastSignificantByte => exact (FoldLeastSignificantByte_ok _ _ _ _ _ Ha)
    | Op.MostSignificantBit => exact (FoldMostSignificantBit_ok _ _ _ _ _ Ha)
    | Op.IsZero32 => exact (fold_is_zero32_ok _ _ _ _ _ Ha)
    | Op.IsZero64 => exact (fold_is_zero64_ok _ _ _ _ _ Ha)
    | Op.Add32 => exact (FoldAdd_ok true _ _ _ _ _ Ha Hc)
    | Op.Add64 => exact (FoldAdd_ok false _ _ _ _ _ Ha Hc)
    | Op.Sub32 => exact (FoldSub_ok _ _ _ _ _ true Ha)
    | Op.Sub64 => exact (FoldSub_ok _ _ _ _ _ false Ha)
    | Op.Mul32 => exact (FoldMultiply_ok _ _ _ _ _ true Ha)
    | Op.Mul64 => exact (FoldMultiply_ok _ _ _ _ _ false Ha)
    | Op.And32 => exact (FoldAND_ok _ _ _ _ _ true Ha)
    | Op.And64 => exact (FoldAND_ok _ _ _ _ _ false Ha)
    | Op.Eor32 => exact (FoldEOR_ok _ _ _ _ _ true Ha)
    | Op.Eor64 => exact (FoldEOR_ok _ _ _ _ _ false Ha)
    | Op.Or32 => exact (FoldOR_ok _ _ _ _ _ true Ha)
    | Op.Or64 => exact (FoldOR_ok _ _ _ _ _ false Ha)
    | Op.Not32 => exact (FoldNOT_ok _ _ _ _ _ true Ha)
    | Op.Not64 => exact (FoldNOT_ok _ _ _ _ _ false Ha)
    | Op.SignedDiv32 => exact (FoldDivide_ok _ _ _ _ _ true true Ha Hd)
    | Op.SignedDiv64 => exact (FoldDivide_ok _ _ _ _ _ false true Ha Hd)
    | Op.UnsignedDiv32 => exact (FoldDivide_ok _ _ _ _ _ true false Ha Hd)
    | Op.UnsignedDiv64 => exact (FoldDivide_ok _ _ _ _ _ false false Ha Hd)
    | Op.SignExtendByteToWord => refine (FoldSignExtendXToWord_ok _ _ _ _ _ _ _ Ha); tauto
    | Op.SignExtendHalfToWord => refine (FoldSignExtendXToWord_ok _ _ _ _ _ _ _ Ha); tauto
    | Op.SignExtendByteToLong => refine (FoldSignExtendXToLong_ok _ _ _ _ _ _ _ Ha); tauto
    | Op.SignExtendHalfToLong => refine (FoldSignExtendXToLong_ok _ _ _ _ _ _ _ Ha); tauto
    | Op.SignExtendWordToLong => refine (FoldSignExtendXToLong_ok _ _ _ _ _ _ _ Ha); tauto
    | Op.ZeroExtendByteToWord => refine (FoldZeroExtendXToWord_ok _ _ _ _ _ _ _ Ha); tauto
    | Op.ZeroExtendHalfToWord => refine (FoldZeroExtendXToWord_ok _ _ _ _ _ _ _ Ha); tauto
    | Op.ZeroExtendByteToLong => refine (FoldZeroExtendXToLong_ok _ _ _ _ _ _ _ Ha); tauto
    | Op.ZeroExtendHalfToLong => refine (FoldZeroExtendXToLong_ok _ _ _ _ _ _ _ Ha); tauto
    | Op.ZeroExtendWordToLong => refine (FoldZeroExtendXToLong_ok _ _ _ _ _ _ _ Ha); tauto
    | Op.ByteReverseWord => refine (FoldByteReverse_ok _ _ _ _ _ _ _ Ha); tauto
    | Op.ByteReverseHalf => refine (FoldByteReverse_ok _ _ _ _ _ _ _ Ha); tauto
    | Op.ByteReverseDual => refine (FoldByteReverse_ok _ _ _ _ _ _ _ Ha); tauto
    end end.
Qed.
End Sound.
