(* ===== verification/GetSet.v ===== *)
(** The pass over the guest's registers: ir/opt/a64_get_set_elimination_pass.cpp.  A read
    of a register the block has read or written before becomes the value known for it, and
    a write that is overwritten before anything can see it is removed. *)
From stdpp Require Import list.
From S2P Require Import Prelude Bits IrOpcodes A64Imm Ir.
Import Op(Opcode).
Local Open Scope Z_scope.

(** Register references of value.cpp. *)
Definition GetA64RegRef (v : Value) : outcome Z := match v with Imm Ty.A64Reg z => Ret z | _ => Stop AssertFailed end.
Definition GetA64VecRef (v : Value) : outcome Z := match v with Imm Ty.A64Vec z => Ret z | _ => Stop AssertFailed end.
(** The node leaves the list; the instruction stays where the pool put it. *)
Definition erase (i : nat) (b : Block) : Block := with_instructions (filter (fun j => j <> i) (instructions b)) b.

Inductive TrackingType : Type := W | X | S | D | Q | SP | NZCV | NZCVRaw.
#[global] Instance TrackingType_eq_dec : EqDecision TrackingType := ltac:(solve_decision).
Record RegisterInfo : Type := {
  register_value : Value;
  tracking_type : TrackingType;
  set_instruction_present : bool;
  last_set_instruction : nat
}.
Definition no_info : RegisterInfo := {| register_value := ValueVoid; tracking_type := W; set_instruction_present := false; last_set_instruction := 0 |}.

(** A register, and what is known of every one. *)
Inductive Loc : Type := RegLoc (n : Z) | VecLoc (n : Z) | SPLoc | NZCVLoc.
#[global] Instance Loc_eq_dec : EqDecision Loc := ltac:(solve_decision).
Record Tracking : Type := { reg_info : list RegisterInfo; vec_info : list RegisterInfo; sp_info : RegisterInfo; nzcv_info : RegisterInfo }.
Definition no_tracking : Tracking := {| reg_info := repeat no_info 31; vec_info := repeat no_info 32; sp_info := no_info; nzcv_info := no_info |}.
Definition info_at (t : Tracking) (l : Loc) : option RegisterInfo :=
  match l with
  | RegLoc n => nthZ (reg_info t) n
  | VecLoc n => nthZ (vec_info t) n
  | SPLoc => Some (sp_info t)
  | NZCVLoc => Some (nzcv_info t)
  end.
Definition with_info (l : Loc) (r : RegisterInfo) (t : Tracking) : Tracking :=
  match l with
  | RegLoc n => {| reg_info := <[Z.to_nat n := r]> (reg_info t); vec_info := vec_info t; sp_info := sp_info t; nzcv_info := nzcv_info t |}
  | VecLoc n => {| reg_info := reg_info t; vec_info := <[Z.to_nat n := r]> (vec_info t); sp_info := sp_info t; nzcv_info := nzcv_info t |}
  | SPLoc => {| reg_info := reg_info t; vec_info := vec_info t; sp_info := r; nzcv_info := nzcv_info t |}
  | NZCVLoc => {| reg_info := reg_info t; vec_info := vec_info t; sp_info := sp_info t; nzcv_info := r |}
  end.

Definition do_set (info : RegisterInfo) (value : Value) (set_inst : nat) (ty : TrackingType) (b : Block) : outcome (RegisterInfo * Block) :=
  let? b := if set_instruction_present info
            then let? b := Invalidate (last_set_instruction info) b in Ret (erase (last_set_instruction info) b)
            else Ret b in
  Ret ({| register_value := value; tracking_type := ty; set_instruction_present := true; last_set_instruction := set_inst |}, b).
Definition do_get (info : RegisterInfo) (get_inst : nat) (ty : TrackingType) (b : Block) : outcome (RegisterInfo * Block) :=
  let do_nothing := Ret ({| register_value := Ref get_inst; tracking_type := ty; set_instruction_present := false; last_set_instruction := 0 |}, b) in
  if IsEmpty (register_value info) then do_nothing
  else if decide (tracking_type info = ty) then let? b := ReplaceUsesWith get_inst (register_value info) b in Ret (info, b)
  else do_nothing.
(** A step on what is known of one register; [at] throws for an index the array does
    not have. *)
Definition at_loc (l : Loc) (f : RegisterInfo -> outcome (RegisterInfo * Block)) (t : Tracking) : outcome (Tracking * Block) :=
  match info_at t l with
  | Some r => let? p := f r in Ret (with_info l (fst p) t, snd p)
  | None => Throw (out_of_range "array::at")
  end.
Definition get_reg (i : nat) (ty : TrackingType) (t : Tracking) (b : Block) : outcome (Tracking * Block) :=
  let? v := GetArg b i 0 in let? n := GetA64RegRef v in at_loc (RegLoc n) (fun r => do_get r i ty b) t.
Definition get_vec (i : nat) (ty : TrackingType) (t : Tracking) (b : Block) : outcome (Tracking * Block) :=
  let? v := GetArg b i 0 in let? n := GetA64VecRef v in at_loc (VecLoc n) (fun r => do_get r i ty b) t.
Definition set_reg (i : nat) (ty : TrackingType) (t : Tracking) (b : Block) : outcome (Tracking * Block) :=
  let? v := GetArg b i 0 in let? n := GetA64RegRef v in let? value := GetArg b i 1 in at_loc (RegLoc n) (fun r => do_set r value i ty b) t.
Definition set_vec (i : nat) (ty : TrackingType) (t : Tracking) (b : Block) : outcome (Tracking * Block) :=
  let? v := GetArg b i 0 in let? n := GetA64VecRef v in let? value := GetArg b i 1 in at_loc (VecLoc n) (fun r => do_set r value i ty b) t.
Definition set_one (l : Loc) (i : nat) (ty : TrackingType) (t : Tracking) (b : Block) : outcome (Tracking * Block) :=
  let? value := GetArg b i 0 in at_loc l (fun r => do_set r value i ty b) t.
Definition forget (opcode : Opcode) (t : Tracking) : Tracking :=
  let t := if ReadsFromCPSR opcode || WritesToCPSR opcode
           then {| reg_info := reg_info t; vec_info := vec_info t; sp_info := sp_info t; nzcv_info := no_info |} else t in
  if ReadsFromCoreRegister opcode || WritesToCoreRegister opcode
  then {| reg_info := repeat no_info 31; vec_info := repeat no_info 32; sp_info := no_info; nzcv_info := nzcv_info t |} else t.
Definition get_set_inst (i : nat) (t : Tracking) (b : Block) : outcome (Tracking * Block) :=
  let? opcode := GetOpcode b i in
  match opcode with
  | Op.A64GetW => get_reg i W t b
  | Op.A64GetX => get_reg i X t b
  | Op.A64GetS => get_vec i S t b
  | Op.A64GetD => get_vec i D t b
  | Op.A64GetQ => get_vec i Q t b
  | Op.A64GetSP => at_loc SPLoc (fun r => do_get r i SP b) t
  | Op.A64GetNZCVRaw => at_loc NZCVLoc (fun r => do_get r i NZCVRaw b) t
  | Op.A64SetW => set_reg i W t b
  | Op.A64SetX => set_reg i X t b
  | Op.A64SetS => set_vec i S t b
  | Op.A64SetD => set_vec i D t b
  | Op.A64SetQ => set_vec i Q t b
  | Op.A64SetSP => set_one SPLoc i SP t b
  | Op.A64SetNZCV => set_one NZCVLoc i NZCV t b
  | Op.A64SetNZCVRaw => set_one NZCVLoc i NZCVRaw t b
  | _ => Ret (forget opcode t, b)
  end.
(** Only instructions before the current one leave the list the loop runs over. *)
Fixpoint get_set_insts (l : list nat) (t : Tracking) (b : Block) : outcome Block :=
  match l with
  | [] => Ret b
  | i :: l => let? p := get_set_inst i t b in get_set_insts l (fst p) (snd p)
  end.
Definition A64GetSetElimination (b : Block) : outcome Block := get_set_insts (instructions b) no_tracking b.
