(* ===== verification/GetSetSem.v ===== *)
(** What the operations on the guest's registers do, as an extension of the semantics of
    blocks, and when a step of an instruction does not involve a register. *)
From stdpp Require Import list.
From S2P Require Import Prelude Bits IrOpcodes A64Imm Ir IrSem IrWf IrExec GetSet.
Import Op(Opcode).
Local Open Scope Z_scope.

(** ** Registers *)
Definition loc_width (l : Loc) : Z := match l with RegLoc _ | SPLoc => 64 | VecLoc _ => 128 | NZCVLoc => 4 end.
(** What a read of the contents gives and what a write of a value leaves, as the emitters
    [EmitA64GetW] and the like have it: narrow writes clear the rest of the register. *)
Definition view (k : TrackingType) (z : Z) : Z :=
  match k with W | S => wrap 32 z | D => wrap 64 z | NZCVRaw => z * 2 ^ 28 | X | Q | SP | NZCV => z end.
Definition store (k : TrackingType) (v : Z) : Z :=
  match k with W | S => wrap 32 v | D => wrap 64 v | NZCVRaw => v / 2 ^ 28 | X | Q | SP | NZCV => v end.
Definition view_type (k : TrackingType) : Ty.t :=
  match k with W | NZCVRaw => Ty.U32 | X | SP => Ty.U64 | S | D | Q => Ty.U128 | NZCV => Ty.NZCVFlags end.
(** A value that is read back as it was written. *)
Definition exact (k : TrackingType) (v : Z) : bool := (view k (store k v) =? v)%Z.

(** Operations the pass follows: how they see the register and which it is. *)
Inductive access : Type := Read | Write.
Definition reg_loc (a : list tv) : option Loc := match a with (Ty.A64Reg, n) :: _ => Some (RegLoc n) | _ => None end.
Definition vec_loc (a : list tv) : option Loc := match a with (Ty.A64Vec, n) :: _ => Some (VecLoc n) | _ => None end.
Definition accessor (o : Opcode) : option (access * TrackingType) :=
  match o with
  | Op.A64GetW => Some (Read, W) | Op.A64GetX => Some (Read, X) | Op.A64GetS => Some (Read, S) | Op.A64GetD => Some (Read, D)
  | Op.A64GetQ => Some (Read, Q) | Op.A64GetSP => Some (Read, SP) | Op.A64GetNZCVRaw => Some (Read, NZCVRaw)
  | Op.A64SetW => Some (Write, W) | Op.A64SetX => Some (Write, X) | Op.A64SetS => Some (Write, S) | Op.A64SetD => Some (Write, D)
  | Op.A64SetQ => Some (Write, Q) | Op.A64SetSP => Some (Write, SP) | Op.A64SetNZCV => Some (Write, NZCV) | Op.A64SetNZCVRaw => Some (Write, NZCVRaw)
  | _ => None
  end.
Definition loc_of (k : TrackingType) (a : list tv) : option Loc :=
  match k with W | X => reg_loc a | S | D | Q => vec_loc a | SP => Some SPLoc | NZCV | NZCVRaw => Some NZCVLoc end.
(** The place of the value a write is given. *)
Definition value_index (k : TrackingType) : nat := match k with SP | NZCV | NZCVRaw => 0 | _ => 1 end.
Definition written (k : TrackingType) (a : list tv) : Z := snd (nth (value_index k) a (Ty.Void, 0)).

(** Operations with access to a register as the code classifies them, and operations that
    leave the block: the guest's registers are seen from outside. *)
Definition touches (o : Opcode) (l : Loc) : bool :=
  match l with NZCVLoc => ReadsFromCPSR o || WritesToCPSR o | _ => ReadsFromCoreRegister o || WritesToCoreRegister o end.
Definition escapes (o : Opcode) : bool := CausesCPUException o || bool_decide (o = Op.CallHostFunction).

Class A64Sem (St : Type) : Type := {
  a64_sem :: IRSem St;
  rd : St -> Loc -> Z;
  wr : Loc -> Z -> St -> St;
  rd_wr : forall l v s, in_range (loc_width l) v -> rd (wr l v s) l = v;
  rd_wr_ne : forall l l' v s, l <> l' -> rd (wr l v s) l' = rd s l';
  wr_wr : forall l v v' s, wr l v (wr l v' s) = wr l v s;
  wr_comm : forall l l' v v' s, l <> l' -> wr l v (wr l' v' s) = wr l' v' (wr l v s);
  sem_read : forall o k l a s, accessor o = Some (Read, k) -> loc_of k a = Some l -> sem o a s = (view k (rd s l), s);
  sem_write : forall o k l a s, accessor o = Some (Write, k) -> loc_of k a = Some l -> sem o a s = (0, wr l (store k (written k a)) s);
  sem_frame : forall o l a v s, accessor o = None -> touches o l = false -> escapes o = false ->
    sem o a (wr l v s) = (fst (sem o a s), wr l v (snd (sem o a s))) /\ rd (snd (sem o a s)) l = rd s l
}.

(** ** Instructions *)

(** The register an instruction names. *)
Definition static_loc (k : TrackingType) (vs : list Value) : option Loc := loc_of k (map (fun v => match v with Imm ty z => (ty, z) | Ref _ => (Ty.Void, 0) end) vs).
(** An instruction that does not involve register [l]. *)
Definition off (l : Loc) (o : Opcode) (vs : list Value) : Prop :=
  match accessor o with
  | Some (_, k) => exists l', static_loc k vs = Some l' /\ l' <> l
  | None => touches o l = false /\ escapes o = false
  end.

Section Accesses.
Context {St : Type} `{A64Sem St}.
Abbreviation env := (gmap nat result).
Lemma static_loc_eval k (e : env) vs l : static_loc k vs = Some l -> loc_of k (map (eval e) vs) = Some l.
Proof. unfold static_loc. destruct k, vs as [|[?|ty ?] ?]; simpl; try done; by destruct ty. Qed.
Lemma run_accessor (e : env) s o vs p : accessor o = Some p -> let a := map (eval e) vs in
  run_inst e s o vs = ({| r_op := o; r_args := a; r_val := (GetTypeOf o, fst (sem o a s)) |}, snd (sem o a s)).
Proof. unfold run_inst. destruct o; try discriminate; intros _; reflexivity. Qed.
Lemma run_read (e : env) s o vs k l : accessor o = Some (Read, k) -> static_loc k vs = Some l ->
  run_inst e s o vs = ({| r_op := o; r_args := map (eval e) vs; r_val := (GetTypeOf o, view k (rd s l)) |}, s).
Proof. intros Ho Hl. rewrite (run_accessor _ _ _ _ _ Ho). by rewrite (sem_read _ _ _ _ _ Ho (static_loc_eval _ e _ _ Hl)). Qed.
Lemma run_write (e : env) s o vs k l : accessor o = Some (Write, k) -> static_loc k vs = Some l ->
  run_inst e s o vs = ({| r_op := o; r_args := map (eval e) vs; r_val := (GetTypeOf o, 0) |}, wr l (store k (written k (map (eval e) vs))) s).
Proof. intros Ho Hl. rewrite (run_accessor _ _ _ _ _ Ho). by rewrite (sem_write _ _ _ _ _ Ho (static_loc_eval _ e _ _ Hl)). Qed.
(** Such an instruction neither sees nor changes the register. *)
Lemma run_off (e : env) s o vs l v : off l o vs ->
  run_inst e (wr l v s) o vs = (fst (run_inst e s o vs), wr l v (snd (run_inst e s o vs))) /\ rd (snd (run_inst e s o vs)) l = rd s l.
Proof.
  unfold off. destruct (accessor o) as [[[|] k]|] eqn:Ho.
  - intros (l' & Hl' & Hne). rewrite !(run_read _ _ _ _ _ _ Ho Hl'). simpl. by rewrite rd_wr_ne by done.
  - intros (l' & Hl' & Hne). rewrite !(run_write _ _ _ _ _ _ Ho Hl'). simpl. by rewrite rd_wr_ne, wr_comm by done.
  - intros [Ht He]. unfold run_inst. destruct (decide _); [done|]. destruct (decide _); [done|]. destruct (reads_op o); [done|]. destruct (pure _ _); [done|].
    destruct (sem_frame o l (map (eval e) vs) v s Ho Ht He) as [Hf Hrd]. rewrite Hf. simpl. by rewrite Hrd.
Qed.
Lemma accessor_kept o p : accessor o = Some p -> o <> Op.Identity /\ o <> Op.Void /\ IsAPseudoOperation o = false /\ reads_op o = false /\ escapes o = false.
Proof. destruct o; try discriminate; intros _; (split; [discriminate|]); (split; [discriminate|]); repeat split; reflexivity. Qed.
Lemma accessor_facts o k a : accessor o = Some (a, k) -> GetTypeOf o = match a with Read => view_type k | Write => Ty.Void end /\
  match a with Read => GetNumArgsOf o = value_index k /\ k <> NZCV | Write => GetNumArgsOf o = Datatypes.S (value_index k) /\ GetArgTypeOf o (value_index k) = view_type k end.
Proof. destruct o; try discriminate; intros [=]; subst; repeat split; try reflexivity; discriminate. Qed.
Lemma store_range k v l vs : static_loc k vs = Some l -> tv_ok (view_type k, v) -> in_range (loc_width l) (store k v).
Proof.
  unfold static_loc, tv_ok, in_range. intros Hl Hv. assert (Hw : l = SPLoc /\ k = SP \/ l = NZCVLoc /\ (k = NZCV \/ k = NZCVRaw) \/ loc_width l = 64 /\ (k = W \/ k = X) \/ loc_width l = 128 /\ (k = S \/ k = D \/ k = Q)).
  { destruct k; simpl in Hl; simplify_eq; auto 8; destruct vs as [|[?|[] ?] ?]; simpl in Hl; simplify_eq; simpl; auto 8. }
  destruct Hw as [[-> ->]|[[-> [-> | ->]]|[[-> [-> | ->]]|[-> [-> | [-> | ->]]]]]]; simpl in *; try done.
  - split; [apply Z.div_pos; lia|apply Z.div_lt_upper_bound; lia].
  - pose proof (wrap_range 32 v ltac:(lia)). unfold in_range in *. lia.
  - pose proof (wrap_range 32 v ltac:(lia)). unfold in_range in *. lia.
  - pose proof (wrap_range 64 v ltac:(lia)). unfold in_range in *. lia.
Qed.
End Accesses.
