(* ===== verification/IrErase.v ===== *)
(** Taking an instruction nobody refers to off the list of a block. *)
From stdpp Require Import list.
From S2P Require Import Prelude Bits IrOpcodes A64Imm Ir IrSem IrWf IrExec IrEdit IrFold GetSet.
Import Op(Opcode).
Local Open Scope nat_scope.

Lemma filter_absent (l : list nat) j : j ∉ l -> filter (fun k => k <> j) l = l.
Proof. induction l as [|k l IH]; intros Hj; [done|]. rewrite filter_cons, decide_True by set_solver. f_equal. apply IH. set_solver. Qed.

Section Erase.
Context (b : Block) (l1 l2 : list nat) (j : nat) (o : Opcode) (vs : list Value).
Context (Hw : wf b) (E : instructions b = l1 ++ j :: l2) (Hj : core b j = Some (o, vs)).
Context (Hr : refs b j = 0) (Hp : IsAPseudoOperation o = false).
Let b' : Block := erase j b.
Lemma erased_not_in : (j ∉ l1) /\ (j ∉ l2).
Proof.
  pose proof (so_nodup b (wf_shape b Hw)) as Hn. rewrite E in Hn. apply NoDup_app in Hn as (_ & H1 & H2). apply NoDup_cons in H2 as [H2 _].
  split; [|done]. intros H3. apply (H1 j H3). set_solver.
Qed.
Lemma erased_list : instructions b' = l1 ++ l2.
Proof.
  destruct erased_not_in as [H1 H2]. unfold b', erase. simpl. rewrite E, filter_app, filter_cons, decide_False by (intros H; by apply H).
  by rewrite !filter_absent.
Qed.
Lemma erased_in k : k ∈ instructions b' <-> k ∈ instructions b /\ k <> j.
Proof. destruct erased_not_in as [H1 H2]. rewrite erased_list, E. split; [intros Hk; split; [set_solver|intros ->; set_solver]|set_solver]. Qed.
Lemma no_ref k v : k ∈ instructions b -> v ∈ args_of b k -> v <> Ref j.
Proof. intros Hk Hv ->. assert (0 < refs b j); [|lia]. apply refs_pos. eauto. Qed.
Lemma erased_split pre i post : instructions b' = pre ++ i :: post -> i <> j /\ exists pre0 post0, instructions b = pre0 ++ i :: post0 /\ (forall k, k ∈ pre0 -> k <> j -> k ∈ pre).
Proof.
  rewrite erased_list, E. intros Es. assert (Hij : i <> j) by (intros ->; destruct erased_not_in; assert (j ∈ l1 ++ l2) by (rewrite Es; set_solver); set_solver). split; [done|].
  apply app_eq_inv in Es as [(k & -> & Ek)|(k & -> & ->)].
  - destruct k as [|i' k]; simplify_eq/=.
    + exists (pre ++ [j]), post. rewrite app_nil_r. simplify_list_eq. split; [done|]. set_solver.
    + exists pre, (k ++ j :: l2). simplify_list_eq. split; [done|]. set_solver.
  - exists (l1 ++ j :: k), post. simplify_list_eq. split; [done|]. set_solver.
Qed.
Lemma erased_refs_in v pre0 pre : (forall k, k ∈ pre0 -> k <> j -> k ∈ pre) -> v <> Ref j -> refs_in pre0 v -> refs_in pre v.
Proof. intros Hk Hv. destruct v as [k|]; [|done]. simpl. intros H. apply Hk; congruence. Qed.
Lemma erased_resolve v : refs_in (instructions b') v -> resolve b' v = resolve b v.
Proof.
  intros Hv. pose proof (shape_closed b (wf_shape b Hw)) as Hcl.
  assert (Hcl' : closed b (instructions b')).
  { intros pre i post Es. destruct (erased_split pre i post Es) as (_ & pre0 & post0 & E0 & Hk). destruct (Hcl pre0 i post0 E0) as (oi & us & Hi & Hid). exists oi, us. split; [done|].
    intros Ho. destruct (Hid Ho) as (u & Hu & Hin). exists u. split; [done|]. eapply erased_refs_in; [exact Hk| |exact Hin]. eapply no_ref; [|rewrite (core_args _ _ _ _ Hi); by eapply list_elem_of_lookup_2].
    rewrite E0. set_solver. }
  unfold resolve. rewrite (resolve_loop_core (length (instructions b')) b b' v) by done. symmetry. apply resolve_loop_enough; [done|done|]. rewrite erased_list, E, !length_app. simpl. lia.
Qed.
Lemma erased_type v : refs_in (instructions b') v -> GetType b' v = GetType b v.
Proof. intros Hv. unfold GetType. by rewrite erased_resolve. Qed.
Lemma erased_imm v : refs_in (instructions b') v -> IsImmediate b' v = IsImmediate b v.
Proof. intros Hv. unfold IsImmediate. by rewrite erased_resolve. Qed.
Lemma erased_shape : shape_ok b'.
Proof.
  pose proof (so_nodup b (wf_shape b Hw)) as Hn. constructor.
  { rewrite erased_list. rewrite E in Hn. apply NoDup_app in Hn as (H1 & H2 & H3). apply NoDup_cons in H3 as [_ H3]. apply NoDup_app. split_and!; auto. set_solver. }
  intros pre i post Es. destruct (erased_split pre i post Es) as (Hij & pre0 & post0 & E0 & Hk). destruct (so_inst b (wf_shape b Hw) pre0 i post0 E0) as (oi & us & Hi & [O1 O2 O3 O4]).
  exists oi, us. split; [done|]. constructor; auto. intros k v Hv Hlt. destruct (O2 k v Hv Hlt) as (A1 & A2 & A3).
  assert (Hin : refs_in pre v). { eapply erased_refs_in; [exact Hk| |exact A1]. eapply (no_ref i); [rewrite E0; set_solver|]. rewrite (core_args _ _ _ _ Hi). by eapply list_elem_of_lookup_2. }
  split_and!; [done|done|]. rewrite erased_type; [done|]. rewrite Es. by apply refs_in_app.
Qed.
Lemma erased_refs k : refs b' k <= refs b k.
Proof. unfold refs. rewrite erased_list, E, !sum_list_with_app. simpl. change (args_of b') with (args_of b). lia. Qed.
Lemma erased_pseudo c k : is_pseudo_of b' c k <-> is_pseudo_of b c k.
Proof.
  unfold is_pseudo_of. split; intros (oc & us & H1 & H2 & H3 & H4); exists oc, us; (split; [|by split_and!]); [exact (proj1 (proj1 (erased_in c) H1))|].
  apply erased_in. split; [done|]. intros ->. change (core b j = Some (oc, us)) in H2. rewrite Hj in H2. simplify_eq. congruence.
Qed.
Lemma erase_wf : wf b'.
Proof.
  split; [apply erased_shape|]. destruct (wf_book b Hw) as [B1 B2 B3 B4 B5 B6 B7].
  assert (Hk : forall k, k ∈ instructions b' -> k ∈ instructions b) by (intros k Hk; by apply erased_in).
  assert (Him : forall c k, is_pseudo_of b' c k -> IsImmediate b' (Ref k) = IsImmediate b (Ref k)) by (intros c k Hps; apply erased_imm; exact (proj2 (pseudo_refs b' erased_shape c k Hps))).
  constructor.
  - intros k Hin Hi. rewrite erased_imm in Hi by done. pose proof (erased_refs k). specialize (B1 k (Hk k Hin) Hi). change (count b' k) with (count b k). lia.
  - intros k Hin Hi H. rewrite erased_imm in Hi by done. pose proof (erased_refs k). apply B2; auto. lia.
  - intros c k Hps Hi. rewrite (Him c) in Hi by done. by apply B3; [apply erased_pseudo|].
  - done.
  - intros c k Hin Ho Hv Hc. apply erased_pseudo, B5; auto.
  - intros c c' k H1 H2. by apply (B6 c c' k); apply erased_pseudo.
  - intros c k H1. by apply (B7 c k), erased_pseudo.
Qed.
End Erase.
