(* ===== verification/GetSetSound.v ===== *)
(** The pass over the guest's registers keeps what a block does. *)
From stdpp Require Import list.
From S2P Require Import Prelude Bits IrOpcodes A64Imm Ir IrSem IrWf IrExec IrEdit IrFold ConstPropProps GetSet GetSetSem IrErase.
Import Op(Opcode).
Local Open Scope nat_scope.

(** ** Blocks as the translator leaves them *)

(** Registers there are. *)
Definition has_info (l : Loc) : Prop := match l with RegLoc n => (0 <= n < 31)%Z | VecLoc n => (0 <= n < 32)%Z | _ => True end.
(** The value of a write is not used; the flags of a read are not either. *)
Definition readable (b : Block) (p : Opcode) (v : Value) : Prop :=
  match v with
  | Ref j => match accessor (opcode_of b j) with Some (Write, _) => False | Some (Read, _) => reads_op p = false | None => True end
  | Imm _ _ => True
  end.
Record register_use (b : Block) : Prop := {
  ru_value : forall c p us v, c ∈ instructions b -> core b c = Some (p, us) -> v ∈ us -> readable b p v;
  ru_loc : forall c p us a k, c ∈ instructions b -> core b c = Some (p, us) -> accessor p = Some (a, k) ->
    exists l, static_loc k (take (GetNumArgsOf p) us) = Some l /\ has_info l;
  ru_last : forall c, c ∈ instructions b -> escapes (opcode_of b c) = true -> last (instructions b) = Some c
}.
(** Writes that keep a part of the value only. *)
Definition narrow (k : TrackingType) : bool := match k with S | D | NZCVRaw => true | _ => false end.

Lemma exact_full k z : narrow k = false -> tv_ok (view_type k, z) -> view k (store k z) = z.
Proof. destruct k; try discriminate; try done. intros _ Hz. simpl. rewrite !(wrap_small 32) by (try apply wrap_range; done). done. Qed.

(** The information on one register. *)
Lemma nthZ_inside {B} (m : list B) n : is_Some (nthZ m n) -> (0 <= n)%Z /\ is_Some (m !! Z.to_nat n).
Proof. unfold nthZ. destruct (Z.ltb_spec n 0); [by intros [? ?]|done]. Qed.
Lemma nthZ_insert {B} (m : list B) n x : is_Some (nthZ m n) -> nthZ (<[Z.to_nat n := x]> m) n = Some x.
Proof. intros [Hn [y Hy]]%nthZ_inside. unfold nthZ. destruct (Z.ltb_spec n 0); [lia|]. apply list_lookup_insert_eq. by eapply lookup_lt_Some. Qed.
Lemma nthZ_insert_ne {B} (m : list B) n n' x : is_Some (nthZ m n) -> n <> n' -> nthZ (<[Z.to_nat n := x]> m) n' = nthZ m n'.
Proof. intros [Hn _]%nthZ_inside Hne. unfold nthZ. destruct (Z.ltb_spec n' 0); [done|]. apply list_lookup_insert_ne. lia. Qed.
Lemma nthZ_repeat {B} n m (x y : B) : nthZ (repeat x n) m = Some y -> y = x.
Proof. unfold nthZ. destruct (_ <? _)%Z; [done|]. intros Hm%list_elem_of_lookup_2. by apply list_elem_of_In, repeat_spec in Hm. Qed.
Lemma nthZ_repeat_Some {B} n m (x : B) : (0 <= m < Z.of_nat n)%Z -> is_Some (nthZ (repeat x n) m).
Proof. intros Hm. unfold nthZ. destruct (Z.ltb_spec m 0); [lia|]. apply lookup_lt_is_Some. rewrite repeat_length. lia. Qed.
Lemma info_at_same t l r : is_Some (info_at t l) -> info_at (with_info l r t) l = Some r.
Proof. destruct l; simpl; intros Hl; try done; by apply nthZ_insert. Qed.
Lemma info_at_other t l l' r : is_Some (info_at t l) -> l' <> l -> info_at (with_info l r t) l' = info_at t l'.
Proof. destruct l, l'; simpl; intros Hl Hne; try done; (apply nthZ_insert_ne; [done|congruence]). Qed.
Lemma with_info_twice l r r' t : with_info l r (with_info l r' t) = with_info l r t.
Proof. destruct l; simpl; by rewrite ?list_insert_insert_eq. Qed.

Section Sound.
Context {St : Type} `{A64Sem St}.
Abbreviation env := (gmap nat result).
Abbreviation after b pre s := (exec (map (entry_of b) pre) ∅ s).
Abbreviation used o vs := (take (GetNumArgsOf o) vs).
(** In every run, such writes are given values that fit. *)
Definition exact_writes (b : Block) (pre l : list nat) : Prop :=
  forall s l1 c l2 o vs k, l = l1 ++ c :: l2 -> core b c = Some (o, vs) -> accessor o = Some (Write, k) -> narrow k = true ->
    exact k (written k (map (eval (fst (after b (pre ++ l1) s))) (used o vs))) = true.

(** ** What the pass knows *)
Definition is_off (b : Block) (l : Loc) (c : nat) : Prop := exists o vs, core b c = Some (o, vs) /\ off l o (used o vs).
Record last_write (b : Block) (pre : list nat) (l : Loc) (j : nat) : Prop := {
  lw_core : exists o vs k, core b j = Some (o, vs) /\ accessor o = Some (Write, k) /\ static_loc k (used o vs) = Some l;
  lw_split : exists A M, pre = A ++ j :: M /\ Forall (is_off b l) M
}.
Record known (b : Block) (pre : list nat) (l : Loc) (v : Value) (k : TrackingType) : Prop := {
  kn_use : usable b pre v;
  kn_read : forall j, v = Ref j -> forall k', accessor (opcode_of b j) <> Some (Write, k');
  kn_type : GetType b v = view_type k;
  kn_val : k <> NZCV -> forall s, snd (eval (fst (after b pre s)) v) = view k (rd (snd (after b pre s)) l)
}.
Record tracks (b : Block) (pre : list nat) (l : Loc) (r : RegisterInfo) : Prop := {
  tr_set : set_instruction_present r = true -> last_write b pre l (last_set_instruction r);
  tr_known : IsEmpty (register_value r) = false -> known b pre l (register_value r) (tracking_type r)
}.
Lemma tracks_none b pre l : tracks b pre l no_info.
Proof. by constructor. Qed.
Record invariant (b : Block) (t : Tracking) (pre l : list nat) : Prop := {
  iv_wf : wf b;
  iv_list : instructions b = pre ++ l;
  iv_use : register_use b;
  iv_exact : exact_writes b pre l;
  iv_tracks : forall loc r, info_at t loc = Some r -> tracks b pre loc r;
  iv_infos : forall loc, has_info loc -> is_Some (info_at t loc)
}.

(** ** Going past an instruction *)
Section Past.
Context (b : Block) (pre post : list nat) (i : nat) (o : Opcode) (vs : list Value) (Ha : at_inst b pre post i o vs).
Lemma at_not_pre : i ∉ pre.
Proof. destruct Ha as [Hw E _]. pose proof (so_nodup b (wf_shape b Hw)) as Hn. rewrite E in Hn. apply NoDup_app in Hn as (_ & Hn & _). intros Hi. apply (Hn i Hi). set_solver. Qed.
Lemma after_snoc s : after b (pre ++ [i]) s = let '(e, s1) := after b pre s in let '(r, s2) := run_inst e s1 o (used o vs) in (<[i := r]> e, s2).
Proof. rewrite map_app, exec_app. destruct (exec _ _ _) as [e s1]. simpl. by rewrite (entry_of_core _ _ _ _ (ai_core _ _ _ _ _ _ Ha)). Qed.
Lemma eval_past (e : env) r v : refs_in pre v -> eval (<[i := r]> e) v = eval e v.
Proof. intros Hv. unfold eval. by rewrite (refs_in_producer pre) by (try done; apply at_not_pre). Qed.
Lemma usable_past v : usable b pre v -> usable b (pre ++ [i]) v.
Proof. intros U. eapply usable_sub; [exact U|set_solver]. Qed.
Lemma known_past l v k : off l o (used o vs) -> known b pre l v k -> known b (pre ++ [i]) l v k.
Proof.
  intros Ho [K1 K2 K3 K4]. constructor; [by apply usable_past|done|done|]. intros Hk s. specialize (K4 Hk s). rewrite after_snoc. destruct (after b pre s) as [e s1]. simpl in K4.
  destruct (run_off e s1 o (used o vs) l 0%Z Ho) as [_ Hrd]. destruct (run_inst e s1 o (used o vs)) as [r s2]. simpl in *. rewrite eval_past by apply K1. congruence.
Qed.
Lemma last_write_past l j : off l o (used o vs) -> last_write b pre l j -> last_write b (pre ++ [i]) l j.
Proof.
  intros Ho [H1 (A & M & -> & HM)]. constructor; [done|]. exists A, (M ++ [i]). rewrite <- app_assoc. split; [done|]. apply Forall_app. split; [done|]. apply Forall_singleton.
  exists o, vs. split; [apply Ha|done].
Qed.
Lemma tracks_past l r : off l o (used o vs) -> tracks b pre l r -> tracks b (pre ++ [i]) l r.
Proof. intros Ho [H1 H2]. constructor; [intros Hp; by apply last_write_past; auto|intros Hv; by apply known_past; auto]. Qed.
Lemma exact_past l : exact_writes b pre (i :: l) -> exact_writes b (pre ++ [i]) l.
Proof. intros Hx s l1 c l2 oc us k -> Hc Hk. rewrite <- app_assoc. by apply (Hx s (i :: l1) c l2). Qed.
(** What a read and a write let the pass know. *)
Lemma known_read l k : accessor o = Some (Read, k) -> static_loc k (used o vs) = Some l -> known b (pre ++ [i]) l (Ref i) k.
Proof.
  intros Ho Hl. pose proof (core_opcode _ _ _ _ (ai_core _ _ _ _ _ _ Ha)) as Hop. destruct (accessor_kept _ _ Ho) as (Hid & _). destruct (accessor_facts _ _ _ Ho) as (Hty & _).
  assert (Hres : resolve b (Ref i) = Ref i) by (apply resolve_ref; congruence). constructor.
  - constructor; [simpl; set_solver|done|]. intros j [= <-]. unfold IsImmediate. by rewrite Hres.
  - intros j [= <-] k'. rewrite Hop, Ho. discriminate.
  - unfold GetType. rewrite Hres. congruence.
  - intros _ s. rewrite after_snoc. destruct (after b pre s) as [e s1]. rewrite (run_read _ _ _ _ _ _ Ho Hl). unfold eval. simpl. by rewrite lookup_insert_eq.
Qed.
Lemma after_eval s v ty : usable b pre v -> GetType b v = ty -> exists z, eval (fst (after b pre s)) v = (ty, z) /\ tv_ok (ty, z).
Proof.
  intros Hu Ht. eapply eval_typed; [exact Ha| |exact Hu|exact Ht]. destruct Ha as [Hw E _]. by apply (exec_consistent b pre (i :: post) s (wf_shape b Hw)).
Qed.
Lemma value_operand k : accessor o = Some (Write, k) -> exists v, vs !! value_index k = Some v /\ typed b pre i (value_index k) v (view_type k) /\
  forall e : env, written k (map (eval e) (used o vs)) = snd (eval e v).
Proof.
  intros Ho. destruct (accessor_facts _ _ _ Ho) as (_ & Hn & Ht).
  destruct (typed_operand _ _ _ _ _ _ Ha (value_index k) (view_type k)) as (v & Hv & Hty); [lia|done|by destruct k|]. exists v. split_and!; [done|done|]. intros e.
  unfold written. change (map (eval e) (used o vs)) with (eval e <$> used o vs). by rewrite nth_lookup, list_lookup_fmap, lookup_take_lt, Hv by lia.
Qed.
Lemma known_write l k v : accessor o = Some (Write, k) -> static_loc k (used o vs) = Some l -> vs !! value_index k = Some v -> register_use b ->
  exact_writes b pre (i :: post) -> known b (pre ++ [i]) l v k.
Proof.
  intros Ho Hl Hv Hru Hx. destruct (value_operand k Ho) as (v' & Hv' & [_ Hu Ht] & Hwr). rewrite Hv in Hv'. injection Hv' as <-.
  constructor; [by apply usable_past| |done|].
  - intros j -> k' Hj. assert (Hin : i ∈ instructions b) by (rewrite (ai_list _ _ _ _ _ _ Ha); set_solver).
    pose proof (ru_value b Hru i o vs (Ref j) Hin (ai_core _ _ _ _ _ _ Ha) (list_elem_of_lookup_2 _ _ _ Hv)) as Hr. simpl in Hr. by rewrite Hj in Hr.
  - intros _ s. rewrite after_snoc. destruct (after_eval s v _ Hu Ht) as (z & Hz & Hok).
    pose proof (fun Hn => Hx s [] i post o vs k eq_refl (ai_core _ _ _ _ _ _ Ha) Ho Hn) as Hex. rewrite app_nil_r, Hwr in Hex.
    destruct (after b pre s) as [e s1]. simpl in Hz, Hex. rewrite (run_write _ _ _ _ _ _ Ho Hl), Hwr, Hz. simpl. rewrite eval_past, Hz by apply Hu. simpl.
    rewrite rd_wr by by eapply store_range. symmetry. destruct (narrow k) eqn:Hn; [rewrite Hz in Hex; by apply Z.eqb_eq, Hex|by apply exact_full].
Qed.
End Past.

(** ** A read of a value that is known *)
Section Replace.
Context (b : Block) (pre post : list nat) (i : nat) (o : Opcode) (vs : list Value) (Ha : at_inst b pre post i o vs) (Hru : register_use b).
Context (k : TrackingType) (l : Loc) (Ho : accessor o = Some (Read, k)) (Hl : static_loc k (used o vs) = Some l) (v : Value) (Hv : known b pre l v k).
Lemma read_alike s0 : let '(e, s) := after b pre s0 in let r := run_inst e s o (used o vs) in let r' := run_inst e s Op.Identity [v] in
  snd r = snd r' /\ alike b i post (fst r) (fst r').
Proof.
  destruct (accessor_facts _ _ _ Ho) as (Hty & _ & Hk). destruct (after_eval b pre post i o vs Ha s0 v _ (kn_use _ _ _ _ _ Hv) (kn_type _ _ _ _ _ Hv)) as (z & Hz & _).
  pose proof (kn_val _ _ _ _ _ Hv Hk s0) as Hval. destruct (after b pre s0) as [e s]. simpl in *. rewrite (run_read _ _ _ _ _ _ Ho Hl), Hz in *. simpl in *. split; [done|]. split; [left; simpl; congruence|].
  intros c p us Hc Hco Hp Hu. exfalso. assert (Hin : c ∈ instructions b) by (rewrite (ai_list _ _ _ _ _ _ Ha); set_solver).
  pose proof (ru_value b Hru c p us (Ref i) Hin Hco (list_elem_of_lookup_2 _ _ _ Hu)) as Hr. simpl in Hr. rewrite (core_opcode _ _ _ _ (ai_core _ _ _ _ _ _ Ha)), Ho in Hr. congruence.
Qed.
Lemma known_readable p : reads_op p = false -> readable b p v.
Proof.
  intros Hp. pose proof (kn_read _ _ _ _ _ Hv) as Hne. destruct v as [j|]; [|done]. simpl. destruct (accessor (opcode_of b j)) as [[[|] k']|] eqn:Hj; [done|by apply (Hne j eq_refl k')|done].
Qed.
Context (b' : Block) (Hc : changed b i o vs b' Op.Identity (v :: replicate 3 ValueVoid)) (Hw' : wf b').
Lemma replaced_at : at_inst b' pre post i Op.Identity (v :: replicate 3 ValueVoid).
Proof. destruct Hc as [[H1 H2 H3] _ _]. constructor; [done| |done]. rewrite H1. apply Ha. Qed.
Lemma replaced_core j : j ∈ pre -> core b' j = core b j.
Proof. intros Hj. destruct Hc as [[H1 H2 H3] _ _]. apply H2. intros ->. by apply (at_not_pre b pre post i o vs Ha). Qed.
Lemma replaced_opcode j : opcode_of b' j = if decide (j = i) then Op.Identity else opcode_of b j.
Proof.
  destruct Hc as [Hed _ _]. destruct (decide (j = i)) as [->|]; [by eapply edit_opcode_i|by eapply edit_opcode].
Qed.
Lemma replaced_after s : after b' pre s = after b pre s.
Proof. by rewrite (entry_of_edited b b' i Op.Identity (v :: replicate 3 ValueVoid)) by (apply Hc || by eapply at_not_pre). Qed.
Lemma replaced_known l' u k' : known b pre l' u k' -> known b' pre l' u k'.
Proof.
  intros [K1 K2 K3 K4]. assert (Hid : Op.Identity = Op.Identity -> exists u, (v :: replicate 3 ValueVoid) !! 0 = Some u /\ refs_in pre u) by (intros _; exists v; split; [done|apply Hv]).
  constructor.
  - by eapply changed_usable.
  - intros j -> k2. rewrite replaced_opcode. destruct (decide (j = i)); [done|by apply K2].
  - rewrite <- K3. destruct Ha as [Hw E _]. eapply edit_type_pre; [apply Hw|exact E|apply Hc|done|apply K1].
  - intros Hk s. rewrite replaced_after. by apply K4.
Qed.
Lemma replaced_tracks l' r : tracks b pre l' r -> tracks b' (pre ++ [i]) l' r.
Proof.
  intros [T1 T2]. eapply tracks_past; [apply replaced_at|split; [by destruct l'|done]|]. constructor; [|intros; by apply replaced_known, T2]. intros Hp. destruct (T1 Hp) as [(oj & us & kj & H1 & H2) (A & M & Ep & HM)].
  assert (Hin : forall c, c = last_set_instruction r \/ c ∈ M -> c ∈ pre) by (intros c Hcm; rewrite Ep; set_solver). constructor.
  - exists oj, us, kj. by rewrite replaced_core by auto.
  - exists A, M. split; [done|]. rewrite Forall_forall in *. intros c Hcm. destruct (HM c Hcm) as (oc & uc & Hcc & Hoff). exists oc, uc. by rewrite replaced_core by auto.
Qed.
Lemma replaced_use : register_use b'.
Proof.
  destruct Hru as [R1 R2 R3]. pose proof (ed_list _ _ _ _ _ (ch_ed _ _ _ _ _ _ _ Hc)) as El. pose proof (ed_other _ _ _ _ _ (ch_ed _ _ _ _ _ _ _ Hc)) as Eo.
  assert (Hrd : forall p u, readable b p u -> readable b' p u) by (intros p [j|]; [|done]; simpl; rewrite replaced_opcode; by destruct (decide (j = i))).
  pose proof (ed_core _ _ _ _ _ (ch_ed _ _ _ _ _ _ _ Hc)) as Ei. constructor; rewrite ?El.
  - intros c p us u Hin Hco Hu. destruct (decide (c = i)) as [->|Hci]; [|rewrite Eo in Hco by done; apply Hrd; by eapply R1].
    rewrite Ei in Hco. injection Hco as <- <-. apply elem_of_cons in Hu as [->|Hu]; [|by apply (elem_of_replicate 3) in Hu as [-> _]].
    by apply Hrd, known_readable.
  - intros c p us a k' Hin Hco Hacc. destruct (decide (c = i)) as [->|Hci]; [rewrite Ei in Hco; by injection Hco as <- <-|]. rewrite Eo in Hco by done. by eapply R2.
  - intros c Hin. rewrite replaced_opcode. destruct (decide (c = i)); [done|by apply R3].
Qed.
Lemma replaced_exact : exact_writes b pre (i :: post) -> exact_writes b' (pre ++ [i]) post.
Proof.
  intros Hx s l1 c l2 oc us kc El Hco Hk Hn. pose proof Ha as [Hw E Hi].
  destruct (edit_exec b b' pre _ i o Op.Identity vs _ (wf_shape b Hw) E Hi (ch_ed _ _ _ _ _ _ _ Hc) read_alike l1 (c :: l2) s El) as (r & r' & Hal & _ & Hd).
  assert (Hci : c <> i). { pose proof (so_nodup b (wf_shape b Hw)) as Hnd. rewrite E, El in Hnd. apply NoDup_app in Hnd as (_ & _ & Hnd). apply NoDup_cons in Hnd as [Hnd _]. intros ->. set_solver. }
  rewrite (ed_other _ _ _ _ _ (ch_ed _ _ _ _ _ _ _ Hc)) in Hco by done. rewrite <- app_assoc. simpl app.
  rewrite <- (Hx s (i :: l1) c l2 oc us kc (f_equal _ El) Hco Hk Hn). do 2 f_equal. apply map_ext_in. intros u Hu%list_elem_of_In. symmetry.
  eapply alike_eval; [exact Hal|exact Hd| |exact Hco|exact Hu]. rewrite E, El. set_solver.
Qed.
End Replace.
Lemma known_replaced b pre post i o vs k l v : at_inst b pre post i o vs -> register_use b -> accessor o = Some (Read, k) -> static_loc k (used o vs) = Some l ->
  known b pre l v k -> exact_writes b pre (i :: post) ->
  exists b', ReplaceUsesWith i v b = Ret b' /\ sound b b' /\ register_use b' /\ exact_writes b' (pre ++ [i]) post /\ (forall l' r, tracks b pre l' r -> tracks b' (pre ++ [i]) l' r).
Proof.
  intros Ha Hru Ho Hl Hv Hx. destruct (accessor_kept _ _ Ho) as (Hid & _). destruct (accessor_facts _ _ _ Ho) as (Hty & _). destruct (kn_use _ _ _ _ _ Hv) as [U1 U2 U3].
  pose proof Ha as [Hw E Hi]. destruct (ReplaceUsesWith_spec b pre post i o vs Hw E Hi Hid v U1 U2 U3) as (b' & Hb' & Hc & Hw'); [rewrite Hty; apply Hv|].
  exists b'. split_and!; [done|split_and!; [done|apply Hc|]|by eapply replaced_use|by eapply replaced_exact|intros; by eapply replaced_tracks].
  intros s. eapply edit_run_reached; [apply Hw|exact E|exact Hi|apply Hc|]. by eapply read_alike.
Qed.

(** ** A write that is overwritten *)

(** Environments that agree but for instruction [j]. *)
Definition agree_but (j : nat) (e e' : env) : Prop := forall k, k <> j -> e !! k = e' !! k.
Lemma agree_insert j e e' c r : agree_but j e e' -> agree_but j (<[c := r]> e) (<[c := r]> e').
Proof. intros Ha k Hk. destruct (decide (c = k)) as [->|]; [by rewrite !lookup_insert_eq|]. rewrite !lookup_insert_ne by done. auto. Qed.
Lemma agree_insert_j j e r : agree_but j (<[j := r]> e) e.
Proof. intros k Hk. by rewrite lookup_insert_ne. Qed.
Lemma agree_eval j e e' v : agree_but j e e' -> v <> Ref j -> eval e v = eval e' v.
Proof. intros Ha Hv. unfold eval. destruct v as [k|]; [|done]. simpl. rewrite Ha; [done|congruence]. Qed.
Lemma agree_evals j e e' vs : agree_but j e e' -> Ref j ∉ vs -> map (eval e) vs = map (eval e') vs.
Proof. intros Ha Hv. apply map_ext_in. intros v Hin%list_elem_of_In. eapply agree_eval; [done|]. by intros ->. Qed.
Lemma agree_run j e e' s o vs : agree_but j e e' -> Ref j ∉ vs -> run_inst e s o vs = run_inst e' s o vs.
Proof.
  intros Ha Hv. apply run_inst_ext; [by eapply agree_evals|]. intros _. destruct vs as [|[k|] vs]; [done| |done]. simpl. rewrite Ha; [done|]. intros ->. set_solver.
Qed.
(** Instructions that do not refer to [j]. *)
Definition apart (b : Block) (j c : nat) : Prop := exists o us, core b c = Some (o, us) /\ Ref j ∉ us.
Lemma apart_used j o us : Ref j ∉ us -> Ref j ∉ used o us.
Proof. intros Hn Hin. apply Hn. eapply subseteq_take. exact Hin. Qed.
Lemma agree_exec b j l : Forall (apart b j) l -> forall e e' s, agree_but j e e' ->
  snd (exec (map (entry_of b) l) e s) = snd (exec (map (entry_of b) l) e' s) /\ agree_but j (fst (exec (map (entry_of b) l) e s)) (fst (exec (map (entry_of b) l) e' s)).
Proof.
  induction 1 as [|c l (o & us & Hc & Hn) _ IH]; intros e e' s Hag; [done|]. simpl. rewrite (entry_of_core _ _ _ _ Hc). simpl.
  rewrite (agree_run j e e') by (try done; by apply apart_used). destruct (run_inst _ _ _ _) as [r s']. by apply IH, agree_insert.
Qed.
Lemma agree_exec_off b j L x l : Forall (apart b j) l -> Forall (is_off b L) l -> forall e e' s, agree_but j e e' ->
  snd (exec (map (entry_of b) l) e (wr L x s)) = wr L x (snd (exec (map (entry_of b) l) e' s)) /\
  agree_but j (fst (exec (map (entry_of b) l) e (wr L x s))) (fst (exec (map (entry_of b) l) e' s)).
Proof.
  induction 1 as [|c l (o & us & Hc & Hn) _ IH]; intros Hoff e e' s Hag; [done|]. apply Forall_cons in Hoff as [(o' & us' & Hc' & Ho) Hoff]. rewrite Hc in Hc'. simplify_eq.
  simpl. rewrite (entry_of_core _ _ _ _ Hc). simpl. rewrite (agree_run j e e') by (try done; by apply apart_used). destruct (run_off e' s o' (used o' us') L x Ho) as [-> _].
  destruct (run_inst e' s o' (used o' us')) as [r s']. simpl. by apply IH, agree_insert.
Qed.

Section Kill.
Context (b : Block) (A M post : list nat) (j i : nat) (L : Loc).
Context (Hw : wf b) (E : instructions b = A ++ j :: M ++ i :: post) (Hru : register_use b).
Context (oj : Opcode) (vj : list Value) (kj : TrackingType) (Hj : core b j = Some (oj, vj)) (Hoj : accessor oj = Some (Write, kj)) (Hlj : static_loc kj (used oj vj) = Some L).
Context (oi : Opcode) (vi : list Value) (ki : TrackingType) (Hi : core b i = Some (oi, vi)) (Hoi : accessor oi = Some (Write, ki)) (Hli : static_loc ki (used oi vi) = Some L).
Context (HM : Forall (is_off b L) M).
Lemma killed_apart c : c ∈ instructions b -> apart b j c.
Proof using Hw Hru Hj Hoj.
  intros Hc. destruct (block_inst b Hw c Hc) as [x Hx]. exists (op x), (args x). split; [by apply pool_core|]. intros Hin.
  pose proof (ru_value b Hru c _ _ _ Hc (pool_core _ _ _ Hx) Hin) as Hr. simpl in Hr. by rewrite (core_opcode _ _ _ _ Hj), Hoj in Hr.
Qed.
Lemma killed_refs : refs b j = 0.
Proof using Hw Hru Hj Hoj.
  destruct (decide (0 < refs b j)) as [Hp|]; [|lia]. apply refs_pos in Hp as (c & Hc & Hin). destruct (killed_apart c Hc) as (o & us & Hco & Hn). by rewrite (core_args _ _ _ _ Hco) in Hin.
Qed.
(** The block without the write. *)
Context (b2 : Block) (E2 : instructions b2 = A ++ M ++ i :: post) (Hcore : forall c, c <> j -> core b2 c = core b c).
Lemma killed_entries l : j ∉ l -> map (entry_of b2) l = map (entry_of b) l.
Proof using Hcore.
  intros Hl. apply map_ext_in. intros c Hc%list_elem_of_In. assert (Hcj : c <> j) by (intros ->; done). specialize (Hcore c Hcj). unfold core, entry_of, used_args, NumArgs in *.
  destruct (pool b2 !! c), (pool b !! c); simplify_eq/=; [congruence|done].
Qed.
Lemma killed_not_in : (j ∉ A) /\ (j ∉ M) /\ j <> i /\ (j ∉ post).
Proof using Hw E. clear - Hw E. pose proof (so_nodup b (wf_shape b Hw)) as Hn. rewrite E in Hn. apply NoDup_app in Hn as (_ & H1 & H2). apply NoDup_cons in H2 as [H2 _]. set_solver. Qed.
Lemma killed_all l : (forall c, c ∈ l -> c ∈ instructions b) -> Forall (apart b j) l.
Proof using Hw Hru Hj Hoj. intros Hl. apply Forall_forall. intros c Hc. by apply killed_apart, Hl. Qed.
(** Up to the write that comes later the register may differ, and after it nothing does. *)
Lemma killed_before s : exists x, snd (after b (A ++ j :: M) s) = wr L x (snd (after b2 (A ++ M) s)) /\ agree_but j (fst (after b (A ++ j :: M) s)) (fst (after b2 (A ++ M) s)).
Proof.
  destruct killed_not_in as (H1 & H2 & _). rewrite !map_app, !exec_app, !killed_entries by done. destruct (after b A s) as [e s1]. simpl. rewrite (entry_of_core _ _ _ _ Hj). simpl.
  rewrite (run_write _ _ _ _ _ _ Hoj Hlj). eexists. apply agree_exec_off; [apply killed_all|done|apply agree_insert_j]. intros c Hc. rewrite E. clear -Hc. set_solver.
Qed.
Lemma killed_after l1 l2 s : post = l1 ++ l2 -> snd (after b (A ++ j :: M ++ i :: l1) s) = snd (after b2 (A ++ M ++ i :: l1) s) /\
  agree_but j (fst (after b (A ++ j :: M ++ i :: l1) s)) (fst (after b2 (A ++ M ++ i :: l1) s)).
Proof.
  intros El. destruct killed_not_in as (H1 & H2 & H3 & H4). destruct (killed_before s) as (x & Hs & Hag).
  replace (A ++ j :: M ++ i :: l1) with ((A ++ j :: M) ++ i :: l1) by by simplify_list_eq. rewrite app_assoc, (map_app _ (A ++ j :: M)), (map_app _ (A ++ M)), !exec_app.
  destruct (after b (A ++ j :: M) s) as [e s1], (after b2 (A ++ M) s) as [e' s1']. simpl in Hs, Hag. subst s1.
  rewrite (killed_entries (i :: l1)) by (rewrite El in H4; clear -H3 H4; set_solver). simpl. rewrite (entry_of_core _ _ _ _ Hi). simpl.
  assert (Hin : i ∈ instructions b) by (rewrite E; clear; set_solver). destruct (killed_apart i Hin) as (o' & us' & Hc' & Hn). rewrite Hi in Hc'. simplify_eq.
  rewrite (agree_run j e e') by (try done; by apply apart_used). rewrite !(run_write _ _ _ _ _ _ Hoi Hli). rewrite wr_wr. apply agree_exec; [|by apply agree_insert]. apply killed_all. intros c Hc. rewrite E. clear -Hc. set_solver.
Qed.
Lemma killed_run s : run_block b2 s = run_block b s.
Proof. unfold run_block, code. rewrite E, E2. symmetry. apply (killed_after post [] s). by rewrite app_nil_r. Qed.
Lemma killed_exact : exact_writes b (A ++ j :: M) (i :: post) -> exact_writes b2 (A ++ M) (i :: post).
Proof.
  intros Hx s l1 c l2 o vs k El Hc Ho Hn. destruct killed_not_in as (H1 & H2 & H3 & H4).
  assert (Hin : c ∈ i :: post) by (rewrite El; clear; set_solver). assert (Hcj : c <> j) by (intros ->; clear -Hin H3 H4; set_solver). rewrite Hcore in Hc by done.
  assert (Hcin : c ∈ instructions b) by (rewrite E; clear -Hin; set_solver). destruct (killed_apart c Hcin) as (o' & us' & Hc' & Hap). rewrite Hc in Hc'. simplify_eq.
  specialize (Hx s l1 c l2 o' us' k El Hc Ho Hn). rewrite <- Hx. do 2 f_equal. symmetry. apply (agree_evals j); [|by apply apart_used].
  destruct l1 as [|i' l1]; [rewrite !app_nil_r; by destruct (killed_before s) as (? & _ & ?)|]. injection El as <- El. rewrite <- !app_assoc. simpl. by apply (killed_after l1 (c :: l2) s).
Qed.
Context (Hw2 : wf b2) (Hres : forall v, refs_in (instructions b2) v -> resolve b2 v = resolve b v).
Context (Hcnt : forall c, IsImmediate b (Ref c) = true -> count b2 c = count b c).
Lemma killed_opcode c : c <> j -> opcode_of b2 c = opcode_of b c.
Proof using Hcore. intros Hc. specialize (Hcore c Hc). unfold core, opcode_of in *. destruct (pool b2 !! c), (pool b !! c); simplify_eq/=; congruence. Qed.
Lemma killed_in c : c ∈ instructions b2 -> c ∈ instructions b /\ c <> j.
Proof using Hw E E2. destruct killed_not_in as (H1 & H2 & H3 & H4). rewrite E, E2. clear -H1 H2 H3 H4. intros Hc. split; [set_solver|intros ->; set_solver]. Qed.
Lemma killed_known L' v k : L' <> L -> known b (A ++ j :: M) L' v k -> known b2 (A ++ M) L' v k.
Proof.
  intros HL [[U1 U2 U3] K2 K3 K4]. assert (Hv : v <> Ref j) by (intros ->; apply (K2 j eq_refl kj); by rewrite (core_opcode _ _ _ _ Hj)).
  assert (Hr : refs_in (A ++ M) v) by (destruct v as [c|]; [|done]; simpl in *; assert (c <> j) by congruence; clear -U1 H0; set_solver).
  assert (Hr2 : refs_in (instructions b2) v) by (rewrite E2, app_assoc; by apply refs_in_app). constructor.
  - constructor; [done|done|]. intros c -> Him. assert (Hb : IsImmediate b (Ref c) = true) by (unfold IsImmediate in *; by rewrite <- Hres). rewrite Hcnt by done. by apply U3.
  - intros c -> k'. rewrite killed_opcode by congruence. by apply K2.
  - rewrite <- K3. unfold GetType. rewrite <- Hres by done.
    destruct (resolve_prefix b2 (shape_closed b2 (wf_shape b2 Hw2)) (instructions b2) [] v) as [Hin _]; [by rewrite app_nil_r|done|].
    destruct (resolve b2 v) as [c|]; [|done]. by rewrite killed_opcode by by apply killed_in.
  - intros Hk s. destruct (killed_before s) as (x & Hs & Hag). specialize (K4 Hk s). rewrite Hs, (agree_eval _ _ _ _ Hag Hv), rd_wr_ne in K4 by done. done.
Qed.
Lemma killed_last_write L' c : L' <> L -> last_write b (A ++ j :: M) L' c -> last_write b2 (A ++ M) L' c.
Proof.
  intros HL [(o & vs & k & Hc & Ho & Hl) (A' & M' & Ep & HM')]. destruct killed_not_in as (H1 & H2 & _).
  assert (Hcj : c <> j) by (intros ->; rewrite Hj in Hc; simplify_eq; congruence). constructor; [exists o, vs, k; by rewrite Hcore|].
  exists (filter (fun d => d <> j) A'), (filter (fun d => d <> j) M'). split.
  - apply (f_equal (filter (fun d => d <> j))) in Ep. rewrite !filter_app, !filter_cons, decide_False, decide_True, !(filter_absent A), !(filter_absent M) in Ep by (try done; by intros H0; apply H0). done.
  - rewrite Forall_forall in *. intros d [Hd1 Hd2]%list_elem_of_filter. destruct (HM' d Hd2) as (od & vd & Hd & Hoff). exists od, vd. by rewrite Hcore.
Qed.
Lemma killed_tracks L' r : L' <> L -> tracks b (A ++ j :: M) L' r -> tracks b2 (A ++ M) L' r.
Proof. intros HL [T1 T2]. constructor; [intros Hp; by apply killed_last_write, T1|intros Hv; by apply killed_known, T2]. Qed.
Lemma killed_use : register_use b2.
Proof.
  destruct Hru as [R1 R2 R3]. constructor.
  - intros c p us v [Hc Hcj]%killed_in Hco Hv. rewrite Hcore in Hco by done. pose proof (R1 c p us v Hc Hco Hv) as Hr. destruct v as [k|]; [|done]. simpl in *. rewrite killed_opcode; [done|].
    intros ->. by rewrite (core_opcode _ _ _ _ Hj), Hoj in Hr.
  - intros c p us a k [Hc Hcj]%killed_in Hco. rewrite Hcore in Hco by done. by apply (R2 c).
  - intros c [Hc Hcj]%killed_in Ho. rewrite killed_opcode in Ho by done. rewrite <- (R3 c Hc Ho), E, E2. replace (A ++ j :: M ++ i :: post) with ((A ++ j :: M) ++ i :: post) by by simplify_list_eq.
    rewrite app_assoc, !last_app. by destruct (last (i :: post)) eqn:El; [|apply last_None in El].
Qed.
End Kill.
(** The write leaves the block. *)
Lemma kill_write b A M post j i L oj vj kj oi vi ki : wf b -> instructions b = A ++ j :: M ++ i :: post -> register_use b ->
  core b j = Some (oj, vj) -> accessor oj = Some (Write, kj) -> static_loc kj (used oj vj) = Some L ->
  core b i = Some (oi, vi) -> accessor oi = Some (Write, ki) -> static_loc ki (used oi vi) = Some L -> Forall (is_off b L) M -> exact_writes b (A ++ j :: M) (i :: post) ->
  exists b2, (let? b := Invalidate j b in Ret (erase j b)) = Ret b2 /\ at_inst b2 (A ++ M) post i oi vi /\ register_use b2 /\ exact_writes b2 (A ++ M) (i :: post) /\
    (forall L' r, L' <> L -> tracks b (A ++ j :: M) L' r -> tracks b2 (A ++ M) L' r) /\ forall s, run_block b2 s = run_block b s.
Proof.
  intros Hw E Hru Hj Hoj Hlj Hi Hoi Hli HM Hx. pose proof (killed_refs b j Hw Hru oj vj kj Hj Hoj) as Hr.
  destruct (Invalidate_changed b A (M ++ i :: post) j oj vj Hw E Hj) as (b1 & Hb1 & Hc). destruct (Invalidate_spec b A (M ++ i :: post) j oj vj Hw E Hj Hr) as (b1' & Hb1' & Hed & Hw1). rewrite Hb1 in Hb1'. injection Hb1' as <-.
  rewrite Hb1. cbn [obind]. exists (erase j b1). split; [done|].
  assert (E1 : instructions b1 = A ++ j :: M ++ i :: post) by (by rewrite (ed_list _ _ _ _ _ Hed)).
  assert (Hr1 : refs b1 j = 0). { pose proof (refs_edit b b1 A (M ++ i :: post) j oj Op.Void vj _ (wf_shape b Hw) E Hj Hed j) as Hre. rewrite Hr, occ_void in Hre. lia. }
  pose proof (ed_core _ _ _ _ _ Hed) as Hj1. set (b2 := erase j b1) in *.
  assert (E2 : instructions b2 = A ++ M ++ i :: post) by by eapply erased_list. assert (Hw2 : wf b2) by by eapply erase_wf.
  assert (Hcore : forall c, c <> j -> core b2 c = core b c) by (intros c Hcj; by apply (ed_other _ _ _ _ _ Hed)).
  assert (Hres : forall v, refs_in (instructions b2) v -> resolve b2 v = resolve b v).
  { intros v Hv. unfold b2. rewrite (erased_resolve b1 A (M ++ i :: post) j Op.Void _ Hw1 E1 Hj1 Hr1 eq_refl v Hv). eapply edit_resolve_dead; [apply Hw|exact E|exact Hed|done|done| |].
    - rewrite E. rewrite E2 in Hv. destruct v as [c|]; [|done]. simpl in *. clear -Hv. set_solver.
    - intros ->. by apply (killed_in b A M post j i Hw E b2 E2) in Hv as [_ ?]. }
  assert (Hcnt : forall c, IsImmediate b (Ref c) = true -> count b2 c = count b c).
  { intros c Him. change (count b2 c) with (count b1 c). rewrite (ch_count _ _ _ _ _ _ _ Hc). unfold uses_of. rewrite Him. lia. }
  split_and!.
  - constructor; [done|by rewrite E2, <- app_assoc|]. rewrite Hcore; [done|]. by destruct (killed_not_in b A M post j i Hw E) as (_ & _ & ? & _).
  - eapply (killed_use b A M post j i); eassumption.
  - eapply (killed_exact b A M post j i L); eassumption.
  - intros L' r HL Ht. eapply (killed_tracks b A M post j i L); eassumption.
  - intros s. eapply (killed_run b A M post j i L); eassumption.
Qed.

(** ** Steps *)
Definition stepped (b : Block) (t' : Tracking) (b' : Block) (l : list nat) : Prop :=
  wf b' /\ instructions b' `sublist_of` instructions b /\ (forall s, run_block b' s = run_block b s) /\ (l = [] \/ exists pre', invariant b' t' pre' l).
Section Step.
Context (b : Block) (t : Tracking) (pre l : list nat) (i : nat) (o : Opcode) (vs : list Value) (Hinv : invariant b t pre (i :: l)) (Hi : core b i = Some (o, vs)).
Lemma step_at : at_inst b pre l i o vs.
Proof using Hinv Hi. destruct Hinv. by constructor. Qed.
Context (k : TrackingType) (L : Loc) (Hl : static_loc k (used o vs) = Some L) (HL : has_info L).
Lemma other_off a L' : accessor o = Some (a, k) -> L' <> L -> off L' o (used o vs).
Proof using Hl. intros Ho Hne. unfold off. rewrite Ho. exists L. done. Qed.
(** What is known after the instruction, when only the information on [L] is new. *)
Lemma step_tracks b' pre' r : is_Some (info_at t L) -> tracks b' pre' L r -> (forall L' r', L' <> L -> info_at t L' = Some r' -> tracks b' pre' L' r') ->
  (forall L' r', info_at (with_info L r t) L' = Some r' -> tracks b' pre' L' r') /\ (forall L', has_info L' -> is_Some (info_at (with_info L r t) L')).
Proof using Hinv.
  intros Hsome Hr Ho. split; intros L'; (destruct (decide (L' = L)) as [->|Hne]; [rewrite info_at_same by done|rewrite info_at_other by done]).
  - by intros r' [= <-].
  - intros r'. by apply Ho.
  - by eexists.
  - by apply Hinv.
Qed.
Lemma step_read : accessor o = Some (Read, k) -> exists t' b', at_loc L (fun r => do_get r i k b) t = Ret (t', b') /\ stepped b t' b' l.
Proof.
  intros Ho. pose proof step_at as Ha. destruct Hinv as [Hw E Hru Hx Ht Hi'] eqn:HI. destruct (Hi' L HL) as [r Hr]. unfold at_loc. rewrite Hr. cbn [obind].
  assert (Hnothing : exists t' b', (let? p := Ret ({| register_value := Ref i; tracking_type := k; set_instruction_present := false; last_set_instruction := 0 |}, b) in Ret (with_info L (fst p) t, snd p)) = Ret (t', b') /\ stepped b t' b' l).
  { cbn [obind fst snd]. do 2 eexists. split; [reflexivity|]. split_and!; [done|done|done|]. right. exists (pre ++ [i]).
    destruct (step_tracks b (pre ++ [i]) {| register_value := Ref i; tracking_type := k; set_instruction_present := false; last_set_instruction := 0 |}) as [S1 S2]; [by eexists| | |].
    - constructor; [done|]. intros _. by eapply known_read.
    - intros L' r' Hne Hr'. eapply tracks_past; [exact Ha|by eapply other_off|by apply Ht].
    - constructor; [done|by rewrite <- app_assoc|done|by apply exact_past|done|done]. }
  unfold do_get. destruct (IsEmpty (register_value r)) eqn:Hemp; [exact Hnothing|]. destruct (decide (tracking_type r = k)) as [<-|]; [|exact Hnothing]. clear Hnothing.
  destruct (known_replaced b pre l i o vs _ L (register_value r) Ha Hru Ho Hl (tr_known _ _ _ _ (Ht L r Hr) Hemp) Hx) as (b' & -> & (Hw' & El & Hrun) & Hru' & Hx' & Ht'). cbn [obind fst snd].
  do 2 eexists. split; [reflexivity|]. split_and!; [done|by rewrite El|done|]. right. exists (pre ++ [i]). destruct (step_tracks b' (pre ++ [i]) r) as [S1 S2]; [by eexists|by apply Ht', Ht|intros; by apply Ht', Ht|].
  constructor; [done|by rewrite El, <- app_assoc|done|done|done|done].
Qed.
(** A write when no earlier one has to go. *)
Lemma write_tracked v : accessor o = Some (Write, k) -> vs !! value_index k = Some v -> is_Some (info_at t L) -> forall r,
  r = {| register_value := v; tracking_type := k; set_instruction_present := true; last_set_instruction := i |} -> stepped b (with_info L r t) b l.
Proof.
  intros Ho Hv Hsome r ->. pose proof step_at as Ha. pose proof Hinv as [Hw E Hru Hx Ht Hi']. split_and!; [done|done|done|]. right. exists (pre ++ [i]).
  destruct (step_tracks b (pre ++ [i]) {| register_value := v; tracking_type := k; set_instruction_present := true; last_set_instruction := i |}) as [S1 S2]; [done| | |].
  - constructor; [|intros _; by eapply known_write]. intros _. constructor; [exists o, vs, k; by split_and!|]. exists pre, []. by split.
  - intros L' r' Hne Hr'. eapply tracks_past; [exact Ha|by eapply other_off|by apply Ht].
  - constructor; [done|by rewrite <- app_assoc|done|by apply exact_past|done|done].
Qed.
End Step.
Lemma stepped_trans b b1 b2 t' l : instructions b1 `sublist_of` instructions b -> (forall s, run_block b1 s = run_block b s) -> stepped b1 t' b2 l -> stepped b t' b2 l.
Proof. intros H1 H2 (S1 & S2 & S3 & S4). split_and!; [done|by transitivity (instructions b1)|intros s; by rewrite S3|done]. Qed.
Lemma step_write b t pre l i o vs k L v : invariant b t pre (i :: l) -> core b i = Some (o, vs) -> accessor o = Some (Write, k) -> static_loc k (used o vs) = Some L -> has_info L ->
  vs !! value_index k = Some v -> exists t' b', at_loc L (fun r => do_set r v i k b) t = Ret (t', b') /\ stepped b t' b' l.
Proof.
  intros Hinv Hi Ho Hl HL Hv. pose proof Hinv as [Hw E Hru Hx Ht Hi']. destruct (Hi' L HL) as [r Hr]. unfold at_loc, do_set. rewrite Hr. cbn [obind].
  destruct (set_instruction_present r) eqn:Hset.
  - destruct (tr_set _ _ _ _ (Ht L r Hr) Hset) as [(oj & vj & kj & Hj & Hoj & Hlj) (A & M & -> & HM)]. rewrite <- app_assoc in E. simpl in E.
    destruct (kill_write b A M l (last_set_instruction r) i L oj vj kj o vs k) as (b2 & -> & Ha2 & Hru2 & Hx2 & Ht2 & Hrun); try done. cbn [obind fst snd]. do 2 eexists. split; [reflexivity|].
    rewrite <- (with_info_twice L _ no_info). pose proof Ha2 as [Hw2 E2 Hi2].
    assert (Hinv2 : invariant b2 (with_info L no_info t) (A ++ M) (i :: l)).
    { destruct (step_tracks b t (A ++ last_set_instruction r :: M) l i Hinv L b2 (A ++ M) no_info) as [S1 S2]; [by eexists|apply tracks_none|intros L' r' Hne Hr'; by apply Ht2; auto|]. by constructor. }
    eapply stepped_trans; [|exact Hrun|].
    + rewrite E, E2, <- app_assoc. apply sublist_app; [done|]. by apply sublist_cons.
    + eapply write_tracked; [exact Hinv2|exact Hi2|exact Hl|exact Ho|exact Hv| |reflexivity]. rewrite info_at_same by (by eexists). by eexists.
  - cbn [obind fst snd]. do 2 eexists. split; [reflexivity|]. eapply write_tracked; [exact Hinv|exact Hi|exact Hl|exact Ho|exact Hv|by eexists|reflexivity].
Qed.
(** Other instructions. *)
Lemma forget_spec o t L r : info_at (forget o t) L = Some r -> r = no_info \/ info_at t L = Some r /\ touches o L = false.
Proof.
  pose proof (fun n m => nthZ_repeat n m no_info r) as Hrep.
  unfold forget, touches. destruct L; cbn [info_at]; destruct (ReadsFromCPSR o || WritesToCPSR o), (ReadsFromCoreRegister o || WritesToCoreRegister o);
    cbn [reg_info vec_info sp_info nzcv_info]; intros Hr; auto; left; eauto; by injection Hr.
Qed.
Lemma forget_infos o t L : has_info L -> is_Some (info_at t L) -> is_Some (info_at (forget o t) L).
Proof.
  pose proof (fun n m => nthZ_repeat_Some n m no_info) as Hrep.
  unfold forget. intros HL Hs. destruct L; cbn [info_at has_info] in *; destruct (ReadsFromCPSR o || WritesToCPSR o), (ReadsFromCoreRegister o || WritesToCoreRegister o);
    cbn [reg_info vec_info sp_info nzcv_info]; eauto; apply Hrep; lia.
Qed.
Lemma step_other b t pre l i o vs : invariant b t pre (i :: l) -> core b i = Some (o, vs) -> accessor o = None -> stepped b (forget o t) b l.
Proof.
  intros [Hw E Hru Hx Ht Hi'] Hi Ho. assert (Ha : at_inst b pre l i o vs) by by constructor. split_and!; [done|done|done|]. destruct (escapes o) eqn:He.
  - left. pose proof (ru_last b Hru i ltac:(rewrite E; set_solver) ltac:(by rewrite (core_opcode _ _ _ _ Hi))) as Hl. rewrite E, last_app in Hl. destruct l as [|c l]; [done|].
    exfalso. pose proof (so_nodup b (wf_shape b Hw)) as Hn. rewrite E in Hn. apply NoDup_app in Hn as (_ & _ & Hn). apply NoDup_cons in Hn as [Hn _]. apply Hn.
    rewrite last_cons_cons in Hl. destruct (last (c :: l)) eqn:El; [|by apply last_None in El]. injection Hl as ->. by apply last_Some_elem_of.
  - right. exists (pre ++ [i]). constructor; [done|by rewrite <- app_assoc|done|by apply exact_past| |intros; by apply forget_infos; auto].
    intros L r [->|[Hr Hto]]%forget_spec; [apply tracks_none|]. eapply tracks_past; [exact Ha| |by apply Ht]. unfold off. by rewrite Ho.
Qed.

(** ** The pass *)
Lemma reg_arg us L : reg_loc (map (fun v => match v with Imm ty z => (ty, z) | Ref _ => (Ty.Void, 0%Z) end) us) = Some L -> exists n, us !! 0 = Some (Imm Ty.A64Reg n) /\ L = RegLoc n.
Proof. destruct us as [|[?|[] n] ?]; simpl; try discriminate. intros [= <-]. eauto. Qed.
Lemma vec_arg us L : vec_loc (map (fun v => match v with Imm ty z => (ty, z) | Ref _ => (Ty.Void, 0%Z) end) us) = Some L -> exists n, us !! 0 = Some (Imm Ty.A64Vec n) /\ L = VecLoc n.
Proof. destruct us as [|[?|[] n] ?]; simpl; try discriminate. intros [= <-]. eauto. Qed.
Lemma get_set_access b t pre post i o vs a k L v : at_inst b pre post i o vs -> accessor o = Some (a, k) -> static_loc k (used o vs) = Some L ->
  (a = Write -> vs !! value_index k = Some v) ->
  get_set_inst i t b = at_loc L (fun r => match a with Read => do_get r i k b | Write => do_set r v i k b end) t.
Proof.
  intros Ha Ho Hl Hv. unfold get_set_inst. rewrite (GetOpcode_at _ _ _ _ _ _ Ha). cbn [obind].
  assert (Harg : forall n u, n < GetNumArgsOf o -> vs !! n = Some u -> GetArg b i n = Ret u).
  { intros n u Hn Hu. destruct (operand _ _ _ _ _ _ Ha n Hn) as (u' & Hu' & Hg & _). congruence. }
  unfold static_loc in Hl. destruct o; try discriminate; injection Ho as <- <-; cbn [loc_of value_index] in *; try (injection Hl as <-);
    try (apply reg_arg in Hl as (n & Hn & ->)); try (apply vec_arg in Hl as (n & Hn & ->)); try (apply lookup_take_Some in Hn as [Hn _]);
    unfold get_reg, get_vec, set_reg, set_vec, set_one; try (rewrite (Harg 0 _ ltac:(vm_compute; lia) Hn)); cbn [obind GetA64RegRef GetA64VecRef];
    first [reflexivity|first [rewrite (Harg 0 v)|rewrite (Harg 1 v)]; [reflexivity|vm_compute; lia|exact (Hv eq_refl)]].
Qed.
Lemma get_set_other b t pre post i o vs : at_inst b pre post i o vs -> accessor o = None -> get_set_inst i t b = Ret (forget o t, b).
Proof. intros Ha Ho. unfold get_set_inst. rewrite (GetOpcode_at _ _ _ _ _ _ Ha). cbn [obind]. destruct o; try discriminate; reflexivity. Qed.
Lemma get_set_step b t pre l i : invariant b t pre (i :: l) -> exists t' b', get_set_inst i t b = Ret (t', b') /\ stepped b t' b' l.
Proof.
  intros Hinv. pose proof Hinv as [Hw E Hru _ _ _]. destruct (so_inst b (wf_shape b Hw) pre i l E) as (o & vs & Hi & _). assert (Ha : at_inst b pre l i o vs) by by constructor.
  destruct (accessor o) as [[a k]|] eqn:Ho; [|rewrite (get_set_other _ _ _ _ _ _ _ Ha Ho); do 2 eexists; split; [reflexivity|by eapply step_other]].
  destruct (ru_loc b Hru i o vs a k ltac:(rewrite E; set_solver) Hi Ho) as (L & Hl & HL). destruct a.
  - rewrite (get_set_access b t pre l i o vs Read k L ValueVoid Ha Ho Hl) by done. by eapply step_read.
  - destruct (value_operand _ _ _ _ _ _ Ha k Ho) as (v & Hv & _). rewrite (get_set_access b t pre l i o vs Write k L v Ha Ho Hl) by done. by eapply step_write.
Qed.
Lemma get_set_insts_spec l : forall b t pre, invariant b t pre l -> exists b', get_set_insts l t b = Ret b' /\ wf b' /\ instructions b' `sublist_of` instructions b /\
  forall s, run_block b' s = run_block b s.
Proof.
  induction l as [|i l IH]; intros b t pre Hinv; simpl; [exists b; split_and!; try done; apply Hinv|].
  destruct (get_set_step b t pre l i Hinv) as (t' & b' & -> & S1 & S2 & S3 & S4). cbn [obind fst snd]. destruct S4 as [->|(pre' & Hinv')]; [by exists b'|].
  destruct (IH b' t' pre' Hinv') as (b2 & Hb2 & Hw2 & Hl2 & Hr2). exists b2. split_and!; [done|done|by transitivity (instructions b')|intros s; by rewrite Hr2].
Qed.
Lemma no_tracking_spec : (forall L r, info_at no_tracking L = Some r -> r = no_info) /\ forall L, has_info L -> is_Some (info_at no_tracking L).
Proof.
  unfold no_tracking. split; intros L; destruct L; cbn [info_at has_info reg_info vec_info sp_info nzcv_info]; try (by intros r [= <-]); try (by eexists).
  - intros r. apply nthZ_repeat.
  - intros r. apply nthZ_repeat.
  - intros Hn. by apply nthZ_repeat_Some.
  - intros Hn. by apply nthZ_repeat_Some.
Qed.
Lemma A64GetSetElimination_ok (b : Block) (Hw : wf b) (Hru : register_use b) (Hx : exact_writes b [] (instructions b)) :
  exists b', A64GetSetElimination b = Ret b' /\ wf b' /\ instructions b' `sublist_of` instructions b /\ forall s, run_block b' s = run_block b s.
Proof.
  apply (get_set_insts_spec _ b no_tracking []). destruct no_tracking_spec as [H1 H2]. constructor; [done|done|done|done| |done]. intros L r ->%H1. apply tracks_none.
Qed.
(** C15. The pass over the registers succeeds on a well-formed block as the translator
    leaves it, and leaves a well-formed block of some of its instructions that does the
    same to every state; provided that what is written to a part of a register fits. *)
Theorem get_set_elimination_sound (b : Block) (Hw : wf b) (Hru : register_use b) (Hx : exact_writes b [] (instructions b)) :
  exists b', A64GetSetElimination b = Ret b' /\ wf b' /\ instructions b' `sublist_of` instructions b /\ forall s, run_block b' s = run_block b s.
Proof. by apply A64GetSetElimination_ok. Qed.
End Sound.
