(* ===== verification/IrPasses.v ===== *)
(** The passes over a block one after another, as [GetBlock] of
    backend/x64/a64_interface.cpp runs them: naming, the pass over the registers, constant
    propagation and dead code elimination. *)
From stdpp Require Import list.
From S2P Require Import Prelude Bits IrOpcodes A64Imm Ir IrSem IrWf IrExec IrEdit IrFold ConstProp IrDce ConstPropProps ConstPropFlags ConstPropSound IrBuild.
From S2P Require Import GetSet GetSetSem GetSetSound.
Import Op(Opcode).
Local Open Scope nat_scope.

(** ** Constant propagation *)

(** No instruction the pass reaches is one of those it gets wrong. *)
Fixpoint unflawed (l : list nat) (b : Block) : bool :=
  match l with
  | [] => true
  | i :: l =>
      negb (overflowing_division b i) && negb (forgets_carry b i) &&
      match fold_inst i b with Ret b' => unflawed l b' | _ => true end
  end.

Section Passes.
Context {St : Type} `{IRSem St}.
Lemma fold_insts_spec l : forall b pre, wf b -> instructions b = pre ++ l -> unflawed l b = true -> folds b (fold_insts l b).
Proof.
  induction l as [|i l IH]; intros b pre Hw E Hu; simpl in *; [by apply folds_refl|].
  apply andb_true_iff in Hu as [[H1%negb_true_iff H2%negb_true_iff]%andb_true_iff Hu].
  destruct (so_inst b (wf_shape b Hw) _ _ _ E) as (o & vs & Hi & _).
  destruct (fold_inst_ok b pre l i o vs) as (b1 & Hb1 & Hs); [by constructor|done|done|].
  rewrite Hb1 in *. cbn [obind]. eapply folds_trans; [exact Hs|]. destruct Hs as (Hw1 & E1 & _).
  apply (IH b1 (pre ++ [i])); [done| |done]. by rewrite E1, E, <- app_assoc.
Qed.
(** C16. Constant propagation succeeds on a well-formed block, leaves it well-formed with
    the same instructions in the same order, and the block does the same to every state,
    unless the pass reaches a division of the least number by minus one or an addition
    whose carry it forgets. *)
Theorem constant_propagation_sound (b : Block) (Hw : wf b) (Hu : unflawed (instructions b) b = true) :
  exists b', ConstantPropagation b = Ret b' /\ wf b' /\ instructions b' = instructions b /\ forall s, run_block b' s = run_block b s.
Proof. destruct (fold_insts_spec (instructions b) b [] Hw eq_refl Hu) as (b' & Hb' & Hs). by exists b'. Qed.

End Passes.

(** ** Naming *)
Lemma same_core_wf b b' : instructions b' = instructions b -> (forall i, core b' i = core b i) -> (forall i, count b' i = count b i) ->
  (forall i, chain b' i = chain b i) -> wf b -> wf b'.
Proof.
  intros E Hc Hn Hch [[W1 W2] [B1 B2 B3 B4 B5 B6 B7]].
  assert (Hop : forall i, opcode_of b' i = opcode_of b i).
  { intros i. specialize (Hc i). unfold core, opcode_of in *. destruct (pool b' !! i), (pool b !! i); simplify_eq/=; congruence. }
  assert (Hres : forall v, resolve b' v = resolve b v).
  { unfold resolve. rewrite E. induction (length (instructions b)) as [|n IH]; intros v; [done|]. simpl. destruct v as [i|]; [|done]. specialize (Hc i). unfold core in Hc.
    destruct (pool b' !! i) as [x'|], (pool b !! i) as [x|]; cbn in Hc; [injection Hc as -> ->|done|done|done]. destruct (decide _); [apply IH|done]. }
  assert (Hty : forall v, GetType b' v = GetType b v) by (intros v; unfold GetType; rewrite Hres; destruct (resolve b v); [by rewrite Hop|done]).
  assert (Him : forall v, IsImmediate b' v = IsImmediate b v) by (intros v; unfold IsImmediate; by rewrite Hres).
  assert (Hps : forall c j, is_pseudo_of b' c j <-> is_pseudo_of b c j) by (intros c j; unfold is_pseudo_of; by rewrite E, Hc).
  assert (Hr : forall j, refs b' j = refs b j).
  { intros j. unfold refs, args_of. rewrite E. clear -Hc. induction (instructions b) as [|k ks IH]; [done|]. simpl. rewrite Hc. by f_equal. }
  split; constructor; rewrite ?E; [done| |intros *; rewrite ?Hps, ?Him, ?Hop, ?Hn, ?Hch, ?Hr; eauto ..].
  intros pre i post Ei. destruct (W2 pre i post Ei) as (o & vs & Hcore & [O1 O2 O3 O4]). exists o, vs. rewrite Hc. split; [done|].
  constructor; [done| |done|intros *; rewrite Hop; eauto]. intros k v Hv Hk. destruct (O2 k v Hv Hk) as (A1 & A2 & A3). split_and!; [done|done|]. by rewrite Hty.
Qed.

Lemma name_insts_same l : forall n b, let b' := name_insts l n b in
  instructions b' = instructions b /\ (forall i, core b' i = core b i) /\ (forall i, count b' i = count b i) /\ (forall i, chain b' i = chain b i).
Proof.
  induction l as [|i l IH]; intros n b; simpl; [done|]. destruct (IH (u32 (n + 1)) (update i (with_name n) b)) as (H1 & H2 & H3 & H4). split_and!; [done|..]; intros j.
  - rewrite H2. by apply update_same_core.
  - rewrite H3, count_update. unfold count. destruct (pool b !! j); [|done]. by destruct (decide _).
  - rewrite H4, chain_update. unfold chain. destruct (pool b !! j); [|done]. by destruct (decide _).
Qed.
Lemma same_core_code b b' : instructions b' = instructions b -> (forall i, core b' i = core b i) -> forall l, map (entry_of b') l = map (entry_of b) l.
Proof.
  intros E Hc l. apply map_ext. intros i. specialize (Hc i). unfold core, entry_of, used_args, NumArgs in *. destruct (pool b' !! i), (pool b !! i); simplify_eq/=; congruence.
Qed.
Lemma same_core_use b b' : instructions b' = instructions b -> (forall i, core b' i = core b i) -> register_use b -> register_use b'.
Proof.
  intros E Hc [R1 R2 R3]. assert (Hop : forall i, opcode_of b' i = opcode_of b i).
  { intros i. specialize (Hc i). unfold core, opcode_of in *. destruct (pool b' !! i), (pool b !! i); simplify_eq/=; congruence. }
  constructor; rewrite E; [intros c p us v; rewrite Hc; intros H1 H2 H3; pose proof (R1 c p us v H1 H2 H3) as Hr; destruct v; simpl in *; by rewrite ?Hop|intros c p us a k; rewrite Hc; apply R2|intros c; rewrite Hop; apply R3].
Qed.

(** ** One after another *)

(** Up to constant propagation; [get_set] is
    [conf.HasOptimization(GetSetElimination) && !conf.check_halt_on_memory_access]. *)
Definition first_passes (get_set : bool) (b : Block) : outcome Block :=
  let b := NamingPass b in
  if get_set then let? b := A64GetSetElimination b in DeadCodeElimination b else Ret b.
Definition passes (get_set const_prop : bool) (b : Block) : outcome Block :=
  let? b := first_passes get_set b in
  if const_prop then let? b := ConstantPropagation b in DeadCodeElimination b else Ret b.
(** Constant propagation does not get to what it gets wrong. *)
Definition propagates (get_set const_prop : bool) (b : Block) : bool :=
  match first_passes get_set b with Ret b' => negb const_prop || unflawed (instructions b') b' | _ => true end.

Section Pipeline.
Context {St : Type} `{A64Sem St}.
Lemma same_core_exact b b' : instructions b' = instructions b -> (forall i, core b' i = core b i) -> exact_writes b [] (instructions b) -> exact_writes b' [] (instructions b').
Proof. intros E Hc Hx s l1 c l2 o vs k. rewrite E, Hc, (same_core_code b b' E Hc). apply Hx. Qed.
Lemma NamingPass_ok b : wf b -> wf (NamingPass b) /\ instructions (NamingPass b) = instructions b /\ (forall i, core (NamingPass b) i = core b i) /\ forall s, run_block (NamingPass b) s = run_block b s.
Proof.
  intros Hw. destruct (name_insts_same (instructions b) 1 b) as (H1 & H2 & H3 & H4). fold (NamingPass b) in H1, H2, H3, H4. split_and!; [by eapply same_core_wf|done|done|].
  intros s. unfold run_block, code. by rewrite H1, (same_core_code b _ H1 H2).
Qed.
Lemma DeadCodeElimination_ok b : wf b -> exists b', DeadCodeElimination b = Ret b' /\ wf b' /\ instructions b' = instructions b /\ forall s, run_block b' s = run_block b s.
Proof.
  intros Hw. destruct (eliminate_insts_spec (rev (instructions b)) b []) as (b' & H1 & H2 & H3 & _ & H5); [done|by rewrite rev_involutive, app_nil_r|done|]. by exists b'.
Qed.
Lemma first_passes_ok get_set b : wf b -> (get_set = true -> register_use b /\ exact_writes b [] (instructions b)) ->
  exists b', first_passes get_set b = Ret b' /\ wf b' /\ instructions b' `sublist_of` instructions b /\ forall s, run_block b' s = run_block b s.
Proof.
  intros Hw Hgs. destruct (NamingPass_ok b Hw) as (N1 & N2 & N3 & N4). unfold first_passes. destruct get_set; [|exists (NamingPass b); by rewrite N2]. destruct (Hgs eq_refl) as [Hru Hx].
  destruct (A64GetSetElimination_ok (NamingPass b) N1) as (b1 & -> & G2 & G3 & G4); [by eapply same_core_use|by eapply same_core_exact|]. cbn [obind].
  destruct (DeadCodeElimination_ok b1 G2) as (b2 & -> & D2 & D3 & D4). exists b2. split_and!; [done|done|by rewrite D3, <- N2|]. intros s. by rewrite D4, G4.
Qed.
Lemma passes_ok (get_set const_prop : bool) (b : Block) (Hw : wf b) (Hru : register_use b) (Hx : exact_writes b [] (instructions b))
  (Hu : propagates get_set const_prop b = true) :
  exists b', passes get_set const_prop b = Ret b' /\ wf b' /\ instructions b' `sublist_of` instructions b /\ forall s, run_block b' s = run_block b s.
Proof.
  destruct (first_passes_ok get_set b Hw) as (b1 & H1 & H2 & H3 & H4); [done|]. unfold passes, propagates in *. rewrite H1 in *. cbn [obind]. destruct const_prop; [|by exists b1].
  destruct (fold_insts_spec (instructions b1) b1 [] H2 eq_refl Hu) as (b2 & Hb2 & C2 & C3 & C4). unfold ConstantPropagation. rewrite Hb2. cbn [obind].
  destruct (DeadCodeElimination_ok b2 C2) as (b3 & -> & D2 & D3 & D4). exists b3. split_and!; [done|done|by rewrite D3, C3|]. intros s. by rewrite D4, C4.
Qed.
End Pipeline.
