(* ===== verification/A64Spec.v ===== *)
(** What AArch64 integer instructions, branches, loads and stores do, after the
    architecture's description of them, to a guest whose registers are given by [A64Sem]
    and whose memory by [GuestMemory]; and the further operations of the intermediate
    representation the translation of these instructions relies on. *)
From stdpp Require Import list.
From S2P Require Import Prelude Bits IrOpcodes A64Imm Ir A64Jit IrSem GetSet GetSetSem.
Import Op(Opcode).
Local Open Scope Z_scope.

(** ** Conditions and flags *)
Definition flag_n (nzcv : Z) : bool := Z.testbit nzcv 3.
Definition flag_z (nzcv : Z) : bool := Z.testbit nzcv 2.
Definition flag_c (nzcv : Z) : bool := Z.testbit nzcv 1.
Definition flag_v (nzcv : Z) : bool := Z.testbit nzcv 0.
Definition pack_flags (n z c v : bool) : Z := 8 * Z.b2z n + 4 * Z.b2z z + 2 * Z.b2z c + Z.b2z v.
(** The upper three bits of a condition are a test, the last one negates it. *)
Definition ConditionHolds (cond nzcv : Z) : bool :=
  let n := flag_n nzcv in let z := flag_z nzcv in let c := flag_c nzcv in let v := flag_v nzcv in
  let test := nth (Z.to_nat (cond / 2)) [z; c; n; v; c && negb z; Bool.eqb n v; Bool.eqb n v && negb z] true in
  if Z.odd cond && negb (cond =? 15) then negb test else test.
(** The sum of three numbers in [w] bits, and the flags. *)
Definition AddWithCarry (w x y carry_in : Z) : Z * Z :=
  let unsigned_sum := x + y + carry_in in
  let signed_sum := swrap w x + swrap w y + carry_in in
  let result := wrap w unsigned_sum in
  (result, pack_flags (Z.testbit result (w - 1)) (result =? 0) (negb (result =? unsigned_sum)) (negb (swrap w result =? signed_sum))).
Definition add_sub (w : Z) (sub : bool) (x y : Z) : Z * Z := if sub then AddWithCarry w x (not_ w y) 1 else AddWithCarry w x y 0.
Definition logical_flags (w result : Z) : Z := pack_flags (Z.testbit result (w - 1)) (result =? 0) false false.
Definition width_bits (sf : bool) : Z := if sf then 64 else 32.

(** Shifts by less than the width; the type is LSL, LSR, ASR, ROR. *)
Definition shift_value (w type x amount : Z) : Z :=
  if type =? 0 then wrap w (x * 2 ^ amount)
  else if type =? 1 then x / 2 ^ amount
  else if type =? 2 then wrap w (swrap w x / 2 ^ amount)
  else wrap w (x / 2 ^ amount + x * 2 ^ (w - amount)).
(** The low part of a register, zero or sign extended and shifted. *)
Definition extend_value (w option x shift : Z) : Z :=
  let len := Z.min w (8 * 2 ^ (option mod 4)) in
  let part := wrap len x in
  wrap w ((if option <? 4 then part else swrap len part) * 2 ^ shift).
(** A number by its bits. *)
Definition of_bits (n : Z) (f : Z -> bool) : Z := fold_right (fun i m => Z.lor (Z.shiftl (Z.b2z (f i)) i) m) 0 (seqZ 0 n).
(** The highest set bit, minus one if there is none. *)
Definition HighestSetBit (x : Z) : Z := if x =? 0 then -1 else Z.log2 x.
Definition CountLeadingZeroBits (w x : Z) : Z := w - 1 - HighestSetBit x.
Definition CountLeadingSignBits (w x : Z) : Z := CountLeadingZeroBits (w - 1) (Z.lxor (x / 2) (x mod 2 ^ (w - 1))).
(** The bytes of every container of [c] bits in reverse. *)
Definition reverse_bytes (w c x : Z) : Z := of_bits w (fun i => Z.testbit x (i / c * c + (c - 8 - i mod c / 8 * 8) + i mod 8)).
Definition reverse_bits (w x : Z) : Z := of_bits w (fun i => Z.testbit x (w - 1 - i)).
(** Bits [R] to [S] moved to the bottom, or bits 0 to [S] moved up to [w - R]: the number
    of bits moved, how far they go up and the bits. *)
Definition field_length (R S : Z) : Z := if R <=? S then S - R + 1 else S + 1.
Definition field_position (w R S : Z) : Z := if R <=? S then 0 else w - R.
Definition field_bits (R S x : Z) : Z := if R <=? S then wrap (S - R + 1) (x / 2 ^ R) else wrap (S + 1) x.
(** [imm:b] in the instruction, sign extended. *)
Definition offset (n imm : Z) : Z := 4 * swrap n imm.

(** ** The guest *)

(** Memory: a number of [w] bits at an address, and the exclusive accesses, which tell
    whether a store was done (0) or not. *)
Class GuestMemory (Mem : Type) : Type := {
  mread : Z -> Z -> Mem -> Z;
  mwrite : Z -> Z -> Z -> Mem -> Mem;
  xread : Z -> Z -> Mem -> Z * Mem;
  xwrite : Z -> Z -> Z -> Mem -> Z * Mem;
  xclear : Mem -> Mem
}.
(** The type of a number of [w] bits, and the operations on such numbers. *)
Definition by_size {A} (o8 o16 o32 o64 o128 : A) (w : Z) : A := if w =? 8 then o8 else if w =? 16 then o16 else if w =? 32 then o32 else if w =? 64 then o64 else o128.
Definition uint : Z -> Ty.t := by_size Ty.U8 Ty.U16 Ty.U32 Ty.U64 Ty.U128.
Definition sizes : list Z := [8; 16; 32; 64; 128].
Definition lane_sizes : list Z := [8; 16; 32; 64].
Definition read_op : Z -> Opcode := by_size Op.A64ReadMemory8 Op.A64ReadMemory16 Op.A64ReadMemory32 Op.A64ReadMemory64 Op.A64ReadMemory128.
Definition write_op : Z -> Opcode := by_size Op.A64WriteMemory8 Op.A64WriteMemory16 Op.A64WriteMemory32 Op.A64WriteMemory64 Op.A64WriteMemory128.
Definition xread_op : Z -> Opcode := by_size Op.A64ExclusiveReadMemory8 Op.A64ExclusiveReadMemory16 Op.A64ExclusiveReadMemory32 Op.A64ExclusiveReadMemory64 Op.A64ExclusiveReadMemory128.
Definition xwrite_op : Z -> Opcode := by_size Op.A64ExclusiveWriteMemory8 Op.A64ExclusiveWriteMemory16 Op.A64ExclusiveWriteMemory32 Op.A64ExclusiveWriteMemory64 Op.A64ExclusiveWriteMemory128.
Definition get_element_op : Z -> Opcode := by_size Op.VectorGetElement8 Op.VectorGetElement16 Op.VectorGetElement32 Op.VectorGetElement64 Op.VectorGetElement64.
Definition set_element_op : Z -> Opcode := by_size Op.VectorSetElement8 Op.VectorSetElement16 Op.VectorSetElement32 Op.VectorSetElement64 Op.VectorSetElement64.
Definition broadcast_op : Z -> Opcode := by_size Op.VectorBroadcast8 Op.VectorBroadcast16 Op.VectorBroadcast32 Op.VectorBroadcast64 Op.VectorBroadcast64.
(** Element [i] of [w] bits of a vector; a vector with it replaced; a vector of copies. *)
Definition Elem (w i x : Z) : Z := x / 2 ^ (w * i) mod 2 ^ w.
Definition set_Elem (w i v x : Z) : Z := x - Elem w i x * 2 ^ (w * i) + v * 2 ^ (w * i).
Definition Replicate (w x : Z) : Z := fold_right (fun i m => x * 2 ^ (w * i) + m) 0 (seqZ 0 (128 / w)).

Class A64Flow (St : Type) : Type := {
  flow_sem :: A64Sem St;
  Memory : Type;
  flow_memory :: GuestMemory Memory;
  memory : St -> Memory;
  set_memory : Memory -> St -> St;
  pc_of : St -> Z;
  check_bit : St -> bool;
  memory_set : forall m s, memory (set_memory m s) = m;
  memory_wr : forall l v s, memory (wr l v s) = memory s;
  rd_set_memory : forall m s l, rd (set_memory m s) l = rd s l;
  sem_cflag : forall s, sem Op.A64GetCFlag [] s = (Z.b2z (flag_c (rd s NZCVLoc)), s);
  sem_select : forall o ty c x y s, (o, ty) ∈ [(Op.ConditionalSelect32, Ty.U32); (Op.ConditionalSelect64, Ty.U64); (Op.ConditionalSelectNZCV, Ty.NZCVFlags)] -> tv_ok (ty, x) -> tv_ok (ty, y) ->
    sem o [(Ty.Cond, c); (ty, x); (ty, y)] s = (if ConditionHolds c (rd s NZCVLoc) then x else y, s);
  sem_set_pc : forall v s, in_range 64 v -> let s' := snd (sem Op.A64SetPC [(Ty.U64, v)] s) in pc_of s' = v /\ memory s' = memory s /\ forall l, rd s' l = rd s l;
  sem_set_check : forall v s, let s' := snd (sem Op.A64SetCheckBit [(Ty.U1, v)] s) in check_bit s' = negb (v =? 0) /\ memory s' = memory s /\ forall l, rd s' l = rd s l;
  sem_push_rsb : forall v s, let s' := snd (sem Op.PushRSB [(Ty.U64, v)] s) in memory s' = memory s /\ forall l, rd s' l = rd s l;
  sem_read_memory : forall w l a k s, w ∈ sizes -> sem (read_op w) [(Ty.U64, l); (Ty.U64, a); (Ty.AccType, k)] s = (mread w a (memory s), s);
  sem_write_memory : forall w l a v k s, w ∈ sizes -> snd (sem (write_op w) [(Ty.U64, l); (Ty.U64, a); (uint w, v); (Ty.AccType, k)] s) = set_memory (mwrite w a v (memory s)) s;
  sem_exclusive_read : forall w l a k s, w ∈ sizes ->
    sem (xread_op w) [(Ty.U64, l); (Ty.U64, a); (Ty.AccType, k)] s = (fst (xread w a (memory s)), set_memory (snd (xread w a (memory s))) s);
  sem_exclusive_write : forall w l a v k s, w ∈ sizes ->
    sem (xwrite_op w) [(Ty.U64, l); (Ty.U64, a); (uint w, v); (Ty.AccType, k)] s = (fst (xwrite w a v (memory s)), set_memory (snd (xwrite w a v (memory s))) s);
  sem_clear_exclusive : forall s, snd (sem Op.A64ClearExclusive [] s) = set_memory (xclear (memory s)) s;
  sem_barrier : forall o s, o ∈ [Op.A64DataSynchronizationBarrier; Op.A64DataMemoryBarrier] -> snd (sem o [] s) = s;
  sem_get_element : forall w x i s, w ∈ lane_sizes -> sem (get_element_op w) [(Ty.U128, x); (Ty.U8, i)] s = (Elem w i x, s);
  sem_set_element : forall w x i v s, w ∈ lane_sizes -> 0 <= i < 128 / w -> in_range 128 x -> in_range w v -> sem (set_element_op w) [(Ty.U128, x); (Ty.U8, i); (uint w, v)] s = (set_Elem w i v x, s);
  sem_broadcast : forall w x s, w ∈ lane_sizes -> in_range w x -> sem (broadcast_op w) [(uint w, x)] s = (Replicate w x, s);
  sem_pack : forall lo hi s, in_range 64 lo -> in_range 64 hi -> sem Op.Pack2x64To1x128 [(Ty.U64, lo); (Ty.U64, hi)] s = (hi * 2 ^ 64 + lo, s)
}.

Section Instructions.
Context {St : Type} `{A64Flow St}.
(** Register 31 is zero and takes no value. *)
Definition X (w n : Z) (s : St) : Z := if n =? 31 then 0 else wrap w (rd s (RegLoc n)).
Definition set_X (w n v : Z) (s : St) : St := if n =? 31 then s else wr (RegLoc n) (wrap w v) s.
Definition SP (w : Z) (s : St) : Z := wrap w (rd s SPLoc).
Definition set_SP (w v : Z) (s : St) : St := wr SPLoc (wrap w v) s.
Definition X_or_SP (w n : Z) (s : St) : Z := if n =? 31 then SP w s else X w n s.
Definition set_X_or_SP (w n v : Z) (s : St) : St := if n =? 31 then set_SP w v s else set_X w n v s.
Definition nzcv (s : St) : Z := rd s NZCVLoc.
Definition set_nzcv (v : Z) (s : St) : St := wr NZCVLoc v s.

(** How an instruction ends. *)
Inductive action : Type :=
| Next (s : St)
| Jump (target : Z) (s : St)
| Raise (exception : Z) (s : St)
| Supervisor (imm : Z) (s : St).
(** Where execution goes on after a block that left state [s]: a block is linked to, or
    the dispatcher goes by the program counter, of which it keeps 56 bits. *)
Definition canon (pc : Z) : Z := bit.sign_extend 64 56 pc.
Fixpoint leave (t : Terminal) (s : St) : option Z :=
  match t with
  | LinkBlock next | LinkBlockFast next => Some (LocationDescriptor.PC (LocationDescriptor.of_ir next))
  | If cond then_ else_ => if ConditionHolds cond (nzcv s) then leave then_ s else leave else_ s
  | CheckBit then_ else_ => if check_bit s then leave then_ s else leave else_ s
  | ReturnToDispatch | PopRSBHint | FastDispatchHint => Some (canon (pc_of s))
  | CheckHalt else_ => leave else_ s
  | Invalid | Interpret _ _ => None
  end.
Definition same_guest (s s' : St) : Prop := memory s = memory s' /\ forall l, rd s l = rd s' l.
(** A block whose last instruction is at [pc] and ends with [a]: its terminal and the
    state after it.  An exception or a supervisor call is told the guest with the program
    counter past the instruction. *)
Definition ends (pc : Z) (a : action) (t : Terminal) (s : St) : Prop :=
  match a with
  | Next _ => False
  | Jump target s' => same_guest s s' /\ leave t s = Some (canon target)
  | Raise e s' => exists s1, same_guest s1 s' /\ pc_of s1 = u64 (pc + 4) /\ s = snd (sem Op.A64ExceptionRaised [(Ty.U64, pc); (Ty.U64, e)] s1) /\ t = CheckHalt ReturnToDispatch
  | Supervisor imm s' => exists s1, same_guest s1 s' /\ pc_of s1 = u64 (pc + 4) /\ s = snd (sem Op.A64CallSupervisor [(Ty.U32, imm)] s1) /\ t = CheckHalt PopRSBHint
  end.
Definition UNDEFINED (s : St) : action := Raise 1 s.
Definition UNALLOCATED (s : St) : action := Raise 0 s.
Definition UNPREDICTABLE (s : St) : action := Raise 2 s.

(** *** Addition and subtraction *)
Definition finish_add_sub (w : Z) (setflags : bool) (d : Z) (r : Z * Z) (s : St) : action :=
  if setflags then Next (set_X w d (fst r) (set_nzcv (snd r) s)) else Next (set_X_or_SP w d (fst r) s).
Definition add_sub_imm (sub setflags sf : bool) (sh imm12 n d : Z) (s : St) : action :=
  let w := width_bits sf in
  if sh <? 2 then finish_add_sub w setflags d (add_sub w sub (X_or_SP w n s) (imm12 * 2 ^ (12 * sh))) s else UNDEFINED s.
Definition add_sub_shift (sub setflags sf : bool) (type m amount n d : Z) (s : St) : action :=
  let w := width_bits sf in
  if (type =? 3) || (w <=? amount) then UNDEFINED s
  else
    let r := add_sub w sub (X w n s) (shift_value w type (X w m s) amount) in
    Next (set_X w d (fst r) (if setflags then set_nzcv (snd r) s else s)).
Definition add_sub_ext (sub setflags sf : bool) (m option shift n d : Z) (s : St) : action :=
  let w := width_bits sf in
  if 4 <? shift then UNDEFINED s else finish_add_sub w setflags d (add_sub w sub (X_or_SP w n s) (extend_value w option (X w m s) shift)) s.
Definition add_sub_carry (sub setflags sf : bool) (m n d : Z) (s : St) : action :=
  let w := width_bits sf in
  let y := X w m s in
  let r := AddWithCarry w (X w n s) (if sub then not_ w y else y) (Z.b2z (flag_c (nzcv s))) in
  Next (set_X w d (fst r) (if setflags then set_nzcv (snd r) s else s)).

(** *** Logic *)
Definition logical (setflags sf : bool) (d result : Z) (s : St) : action :=
  let w := width_bits sf in
  if setflags then Next (set_X w d (wrap w result) (set_nzcv (logical_flags w (wrap w result)) s)) else Next (set_X w d (wrap w result) s).
Definition logical_shifted (op : Z -> Z -> Z) (invert setflags sf : bool) (type m amount n d : Z) (s : St) : action :=
  let w := width_bits sf in
  if w <=? amount then UNDEFINED s
  else
    let operand2 := shift_value w type (X w m s) amount in
    logical setflags sf d (op (X w n s) (if invert then not_ w operand2 else operand2)) s.
(** The mask of a logical immediate: a run of [S + 1] ones rotated right by [R] in every
    element of [e] bits. *)
Definition run_of_ones (e S R : Z) : Z := of_bits 64 (fun i => (i + R) mod e <=? S).
Definition logical_immediate (op : Z -> Z -> Z) (setflags sf N : bool) (immr imms n d : Z) (s : St) : action :=
  let w := width_bits sf in
  let e := element_size N imms in
  let S := imms mod e in
  if (negb sf && N) || (size_number N imms <? 2) || (S =? e - 1) then UNDEFINED s
  else
    let result := wrap w (op (X w n s) (run_of_ones e S (immr mod e))) in
    if setflags then Next (set_X w d result (set_nzcv (logical_flags w result) s)) else Next (set_X_or_SP w d result s).

(** *** Wide moves *)
Definition move_wide (f : Z -> Z -> Z) (sf : bool) (hw imm16 d : Z) (s : St) : action :=
  let w := width_bits sf in
  if w <=? 16 * hw then UNALLOCATED s else Next (set_X w d (f (X w d s) (16 * hw)) s).
Definition move_zero (imm16 _ pos : Z) : Z := imm16 * 2 ^ pos.
Definition move_not (imm16 _ pos : Z) : Z := -1 - imm16 * 2 ^ pos.
Definition move_keep (imm16 old pos : Z) : Z := old - (old / 2 ^ pos) mod 2 ^ 16 * 2 ^ pos + imm16 * 2 ^ pos.

(** *** Bit fields *)
Definition bit_field (f : Z -> Z -> Z -> Z -> Z) (sf N : bool) (immr imms n d : Z) (s : St) : action :=
  let w := width_bits sf in
  if xorb sf N || (w <=? immr) || (w <=? imms) then UNDEFINED s
  else Next (set_X w d (f (X w d s) (field_bits immr imms (X w n s)) (field_length immr imms) (field_position w immr imms)) s).
Definition unsigned_field (old field len pos : Z) : Z := field * 2 ^ pos.
Definition signed_field (old field len pos : Z) : Z := swrap len field * 2 ^ pos.
Definition insert_field (old field len pos : Z) : Z := old - (old / 2 ^ pos) mod 2 ^ len * 2 ^ pos + field * 2 ^ pos.
Definition extract (sf N : bool) (m lsb n d : Z) (s : St) : action :=
  let w := width_bits sf in
  if xorb sf N then UNALLOCATED s
  else if w <=? lsb then UNDEFINED s
  else Next (set_X w d ((X w n s * 2 ^ w + X w m s) / 2 ^ lsb) s).
(** The low [n] bits, sign extended. *)
Definition sign_extended (sf : bool) (len n d : Z) (s : St) : action := let w := width_bits sf in Next (set_X w d (swrap len (X w n s)) s).
Definition shift_immediate (sf : bool) (type amount n d : Z) (s : St) : action := let w := width_bits sf in Next (set_X w d (shift_value w type (X w n s) amount) s).
Definition shift_register (type : Z) (sf : bool) (m n d : Z) (s : St) : action :=
  let w := width_bits sf in Next (set_X w d (shift_value w type (X w n s) (X w m s mod w)) s).

(** *** Addresses, conditions, products *)
Definition address (page : bool) (immlo immhi d pc : Z) (s : St) : action :=
  let imm := swrap 21 (immhi * 4 + immlo) in
  Next (set_X 64 d (if page then pc - pc mod 4096 + imm * 4096 else pc + imm) s).
Definition select (f : Z -> Z) (sf : bool) (m cond n d : Z) (s : St) : action :=
  let w := width_bits sf in Next (set_X w d (if ConditionHolds cond (nzcv s) then X w n s else f (X w m s)) s).
Definition compare (sub sf : bool) (operand2 : St -> Z) (cond n flags : Z) (s : St) : action :=
  let w := width_bits sf in Next (set_nzcv (if ConditionHolds cond (nzcv s) then snd (add_sub w sub (X w n s) (operand2 s)) else flags) s).
Definition multiply_add (sub sf : bool) (m a n d : Z) (s : St) : action :=
  let w := width_bits sf in
  let product := X w n s * X w m s in
  Next (set_X w d (if sub then X w a s - product else X w a s + product) s).
Definition multiply_add_long (sub signed : bool) (m a n d : Z) (s : St) : action :=
  let long r := if signed then swrap 32 (X 32 r s) else X 32 r s in
  let product := long n * long m in
  Next (set_X 64 d (if sub then X 64 a s - product else X 64 a s + product) s).
Definition multiply_high (signed : bool) (m n d : Z) (s : St) : action :=
  let num r := if signed then swrap 64 (X 64 r s) else X 64 r s in Next (set_X 64 d (num n * num m / 2 ^ 64) s).
(** Division rounds towards zero; by zero it gives zero. *)
Definition divide (signed sf : bool) (m n d : Z) (s : St) : action :=
  let w := width_bits sf in
  let num r := if signed then swrap w (X w r s) else X w r s in
  Next (set_X w d (if num m =? 0 then 0 else Z.quot (num n) (num m)) s).
Definition unary (f : Z -> Z -> Z) (sf : bool) (n d : Z) (s : St) : action := let w := width_bits sf in Next (set_X w d (f w (X w n s)) s).

(** *** Branches *)
Definition branch (pc offset : Z) (s : St) : action := Jump (pc + offset) s.
Definition branch_if (c : bool) (pc offset : Z) (s : St) : action := Jump (pc + (if c then offset else 4)) s.
Definition set_link (pc : Z) (s : St) : St := set_X 64 30 (pc + 4) s.
End Instructions.

(** ** Loads and stores *)

(** What an instruction does with memory: a load is extended to the size of the register. *)
Inductive transfer : Type := StoreIt | LoadIt (signed : bool) (regsize : Z) | Prefetch.
(** By the size of the data and the opcode; not every combination is allocated. *)
Definition decode_transfer (size opc : Z) : option transfer :=
  if opc =? 0 then Some StoreIt
  else if opc =? 1 then Some (LoadIt false (if size =? 3 then 64 else 32))
  else if opc =? 2 then Some (if size =? 3 then Prefetch else LoadIt true 64)
  else if size <? 2 then Some (LoadIt true 32) else None.
(** Of bytes and halfwords, without privileges. *)
Definition signed_transfer (opc : Z) : transfer := if opc =? 0 then StoreIt else LoadIt (1 <? opc) (if opc =? 2 then 64 else 32).
Definition size_bits (size : Z) : Z := 8 * 2 ^ size.

Section Memory.
Context {St : Type} `{A64Flow St}.
Implicit Types (s : St).
Definition Mem (w a : Z) s : Z := mread w a (memory s).
Definition set_Mem (w a v : Z) s : St := set_memory (mwrite w a v (memory s)) s.
Definition V (n : Z) s : Z := rd s (VecLoc n).
Definition set_V (n v : Z) s : St := wr (VecLoc n) v s.

(** *** One general register *)
Definition run_transfer (k : transfer) (w a t : Z) s : St :=
  match k with
  | StoreIt => set_Mem w a (X w t s) s
  | LoadIt signed regsize => set_X regsize t (if signed then swrap w (Mem w a s) else Mem w a s) s
  | Prefetch => s
  end.
(** The address is the base, or the base with the offset; the base may be updated. *)
Definition indexed (postindex : bool) (offset n : Z) s : Z := u64 (X_or_SP 64 n s + (if postindex then 0 else offset)).
Definition update_base (wback : bool) (base offset n : Z) s : St := if wback then set_X_or_SP 64 n (base + offset) s else s.
Definition load_store (wback postindex : bool) (size opc offset n t : Z) s : action :=
  match decode_transfer size opc with
  | None => UNALLOCATED s
  | Some k =>
      if match k with Prefetch => false | _ => wback && (n =? t) && negb (n =? 31) end then UNPREDICTABLE s
      else Next (update_base wback (X_or_SP 64 n s) offset n (run_transfer k (size_bits size) (indexed postindex offset n s) t s))
  end.
Definition load_store_register (load : bool) (size opc_1 m option : Z) (scaled : bool) (n t : Z) s : action :=
  if option mod 4 <? 2 then UNALLOCATED s
  else match decode_transfer size (2 * opc_1 + Z.b2z load) with
       | None => UNALLOCATED s
       | Some k => Next (run_transfer k (size_bits size) (u64 (X_or_SP 64 n s + extend_value 64 option (X 64 m s) (if scaled then size else 0))) t s)
       end.
(** Without privileges, and ordered: the base alone or with an offset. *)
Definition load_store_at (k : transfer) (w offset n t : Z) s : action := Next (run_transfer k w (u64 (X_or_SP 64 n s + offset)) t s).
Definition load_literal (signed : bool) (w regsize imm19 t pc : Z) s : action :=
  let d := Mem w (u64 (pc + offset 19 imm19)) s in Next (set_X regsize t (if signed then swrap w d else d) s).

(** *** Two registers *)
Definition load_store_pair (opc : Z) (wback postindex load : bool) (imm7 t2 n t : Z) s : action :=
  if (opc =? 3) || negb load && (opc =? 1) then UNALLOCATED s
  else if wback && ((t =? n) || (t2 =? n)) && negb (n =? 31) || load && (t =? t2) then UNPREDICTABLE s
  else
    let w := if opc =? 2 then 64 else 32 in
    let offset := swrap 7 imm7 * (w / 8) in
    let a := indexed postindex offset n s in
    let b := u64 (a + w / 8) in
    let d x := if opc =? 1 then swrap w (Mem w x s) else Mem w x s in
    let regsize := if opc =? 1 then 64 else w in
    let s1 := if load then set_X regsize t2 (d b) (set_X regsize t (d a) s) else set_Mem w b (X w t2 s) (set_Mem w a (X w t s) s) in
    Next (update_base wback (X_or_SP 64 n s) offset n s1).

(** *** Vectors *)
Definition vector_transfer (load : bool) (w a t : Z) s : St := if load then set_V t (Mem w a s) s else set_Mem w a (wrap w (V t s)) s.
Definition load_store_vector (load wback postindex : bool) (scale offset n t : Z) s : action :=
  if 4 <? scale then UNALLOCATED s
  else Next (update_base wback (X_or_SP 64 n s) offset n (vector_transfer load (size_bits scale) (indexed postindex offset n s) t s)).
Definition load_store_vector_register (load : bool) (scale m option : Z) (scaled : bool) (n t : Z) s : action :=
  if (4 <? scale) || (option mod 4 <? 2) then UNALLOCATED s
  else Next (vector_transfer load (size_bits scale) (u64 (X_or_SP 64 n s + extend_value 64 option (X 64 m s) (if scaled then scale else 0))) t s).
Definition load_vector_literal (opc imm19 t pc : Z) s : action :=
  if opc =? 3 then UNALLOCATED s else Next (vector_transfer true (32 * 2 ^ opc) (u64 (pc + offset 19 imm19)) t s).
Definition load_store_vector_pair (opc : Z) (wback postindex load : bool) (imm7 t2 n t : Z) s : action :=
  if opc =? 3 then UNALLOCATED s
  else if load && (t =? t2) then UNPREDICTABLE s
  else
    let w := 32 * 2 ^ opc in
    let offset := swrap 7 imm7 * (w / 8) in
    let a := indexed postindex offset n s in
    let b := u64 (a + w / 8) in
    let s1 := if load then set_V t2 (Mem w b s) (set_V t (Mem w a s) s) else set_Mem w b (wrap w (V t2 s)) (set_Mem w a (wrap w (V t s)) s) in
    Next (update_base wback (X_or_SP 64 n s) offset n s1).

(** *** Exclusive accesses *)
Definition load_exclusive (size n t : Z) s : action :=
  let r := xread (size_bits size) (X_or_SP 64 n s) (memory s) in
  Next (set_X (if size =? 3 then 64 else 32) t (fst r) (set_memory (snd r) s)).
(** The pair is read as one number, the first register is its lower half. *)
Definition load_exclusive_pair (w t2 n t : Z) s : action :=
  if t =? t2 then UNPREDICTABLE s
  else let r := xread (2 * w) (X_or_SP 64 n s) (memory s) in Next (set_X w t2 (fst r / 2 ^ w) (set_X w t (fst r) (set_memory (snd r) s))).
(** A status register that is one of the others is unpredictable; an implementation may
    do the store where it is a data register. *)
Definition store_exclusive (defined : bool) (w value : Z) (clash : bool) (rs n : Z) s : action :=
  if if clash then negb defined else (rs =? n) && negb (n =? 31) then UNPREDICTABLE s
  else let r := xwrite w (X_or_SP 64 n s) value (memory s) in Next (set_X 32 rs (fst r) (set_memory (snd r) s)).
Definition store_exclusive_one (defined : bool) (size rs n t : Z) s : action := store_exclusive defined (size_bits size) (X (size_bits size) t s) (rs =? t) rs n s.
Definition store_exclusive_pair (defined : bool) (w rs t2 n t : Z) s : action :=
  store_exclusive defined (2 * w) (X w t2 s * 2 ^ w + X w t s) ((rs =? t) || (rs =? t2)) rs n s.
Definition clear_exclusive s : action := Next (set_memory (xclear (memory s)) s).
End Memory.
