(* ===== verification/IrGuest.v ===== *)
(** A guest that blocks can be run on: its registers, and a log of the other operations
    with an effect.  It shows that the laws asked of the semantics of blocks can hold. *)
From stdpp Require Import list.
From S2P Require Import Prelude Bits IrOpcodes A64Imm Ir IrSem GetSet GetSetSem A64Spec.
Import Op(Opcode).
Local Open Scope Z_scope.

(** ** Memory of bytes *)
Record Bytes : Type := { bytes : gmap Z Z; monitor : option (Z * Z) }.
Fixpoint load_bytes (n : nat) (a : Z) (m : gmap Z Z) : Z :=
  match n with O => 0 | Datatypes.S n => wrap 8 (default 0 (m !! a)) + 256 * load_bytes n (u64 (a + 1)) m end.
Fixpoint store_bytes (n : nat) (a v : Z) (m : gmap Z Z) : gmap Z Z :=
  match n with O => m | Datatypes.S n => <[a := wrap 8 v]> (store_bytes n (u64 (a + 1)) (v / 256) m) end.
Definition byte_count (w : Z) : nat := Z.to_nat (w / 8).
Definition bytes_write (w a v : Z) (m : Bytes) : Bytes := {| bytes := store_bytes (byte_count w) a v (bytes m); monitor := monitor m |}.
Definition with_monitor (x : option (Z * Z)) (m : Bytes) : Bytes := {| bytes := bytes m; monitor := x |}.
(** A store is done if the last exclusive load was of the same place. *)
#[global] Instance bytes_memory : GuestMemory Bytes := {|
  mread := fun w a m => load_bytes (byte_count w) a (bytes m);
  mwrite := bytes_write;
  xread := fun w a m => (load_bytes (byte_count w) a (bytes m), with_monitor (Some (w, a)) m);
  xwrite := fun w a v m => if decide (monitor m = Some (w, a)) then (0, with_monitor None (bytes_write w a v m)) else (1, with_monitor None m);
  xclear := with_monitor None
|}.
Lemma load_bytes_range n a m : in_range (8 * Z.of_nat n) (load_bytes n a m).
Proof.
  revert a. induction n as [|n IH]; intros a; [by split|]. cbn [load_bytes]. specialize (IH (u64 (a + 1))). pose proof (wrap_range 8 (default 0 (m !! a)) ltac:(lia)) as Hb. unfold in_range in *.
  replace (8 * Z.of_nat (Datatypes.S n)) with (8 + 8 * Z.of_nat n) by lia. rewrite Z.pow_add_r by lia. change (2 ^ 8) with 256 in *. lia.
Qed.
Lemma size_bytes w : w ∈ sizes -> 8 * Z.of_nat (byte_count w) = w.
Proof. unfold sizes. rewrite !elem_of_cons. by intros [->|[->|[->|[->|[->|[]%not_elem_of_nil]]]]]. Qed.

(** ** Guests *)
Record Guest : Type := { guest_x : gmap Z Z; guest_v : gmap Z Z; guest_sp : Z; guest_nzcv : Z; guest_mem : Bytes; guest_log : list (Opcode * list tv) }.
Definition no_bytes : Bytes := {| bytes := ∅; monitor := None |}.
Definition new_guest (x : gmap Z Z) (nzcv : Z) : Guest := {| guest_x := x; guest_v := ∅; guest_sp := 0; guest_nzcv := nzcv; guest_mem := no_bytes; guest_log := [] |}.
Definition guest_rd (s : Guest) (l : Loc) : Z :=
  wrap (loc_width l) (match l with RegLoc n => default 0 (guest_x s !! n) | VecLoc n => default 0 (guest_v s !! n) | SPLoc => guest_sp s | NZCVLoc => guest_nzcv s end).
Definition guest_wr (l : Loc) (v : Z) (s : Guest) : Guest :=
  match l with
  | RegLoc n => {| guest_x := <[n := v]> (guest_x s); guest_v := guest_v s; guest_sp := guest_sp s; guest_nzcv := guest_nzcv s; guest_mem := guest_mem s; guest_log := guest_log s |}
  | VecLoc n => {| guest_x := guest_x s; guest_v := <[n := v]> (guest_v s); guest_sp := guest_sp s; guest_nzcv := guest_nzcv s; guest_mem := guest_mem s; guest_log := guest_log s |}
  | SPLoc => {| guest_x := guest_x s; guest_v := guest_v s; guest_sp := v; guest_nzcv := guest_nzcv s; guest_mem := guest_mem s; guest_log := guest_log s |}
  | NZCVLoc => {| guest_x := guest_x s; guest_v := guest_v s; guest_sp := guest_sp s; guest_nzcv := v; guest_mem := guest_mem s; guest_log := guest_log s |}
  end.
Definition guest_set_memory (m : Bytes) (s : Guest) : Guest :=
  {| guest_x := guest_x s; guest_v := guest_v s; guest_sp := guest_sp s; guest_nzcv := guest_nzcv s; guest_mem := m; guest_log := guest_log s |}.
Definition guest_note (o : Opcode) (a : list tv) (s : Guest) : Guest :=
  {| guest_x := guest_x s; guest_v := guest_v s; guest_sp := guest_sp s; guest_nzcv := guest_nzcv s; guest_mem := guest_mem s; guest_log := (o, a) :: guest_log s |}.
(** Operations with a meaning. *)
Inductive special : Type := Flag | Select | GetElement (w : Z) | SetElement (w : Z) | Broadcast (w : Z) | Pack | MRead (w : Z) | MWrite (w : Z) | XRead (w : Z) | XWrite (w : Z) | XClear | Barrier.
Definition special_of (o : Opcode) : option special :=
  match o with
  | Op.A64GetCFlag => Some Flag
  | Op.ConditionalSelect32 | Op.ConditionalSelect64 | Op.ConditionalSelectNZCV => Some Select
  | Op.VectorGetElement8 => Some (GetElement 8) | Op.VectorGetElement16 => Some (GetElement 16) | Op.VectorGetElement32 => Some (GetElement 32) | Op.VectorGetElement64 => Some (GetElement 64)
  | Op.VectorSetElement8 => Some (SetElement 8) | Op.VectorSetElement16 => Some (SetElement 16) | Op.VectorSetElement32 => Some (SetElement 32) | Op.VectorSetElement64 => Some (SetElement 64)
  | Op.VectorBroadcast8 => Some (Broadcast 8) | Op.VectorBroadcast16 => Some (Broadcast 16) | Op.VectorBroadcast32 => Some (Broadcast 32) | Op.VectorBroadcast64 => Some (Broadcast 64)
  | Op.Pack2x64To1x128 => Some Pack
  | Op.A64ReadMemory8 => Some (MRead 8) | Op.A64ReadMemory16 => Some (MRead 16) | Op.A64ReadMemory32 => Some (MRead 32) | Op.A64ReadMemory64 => Some (MRead 64) | Op.A64ReadMemory128 => Some (MRead 128)
  | Op.A64WriteMemory8 => Some (MWrite 8) | Op.A64WriteMemory16 => Some (MWrite 16) | Op.A64WriteMemory32 => Some (MWrite 32) | Op.A64WriteMemory64 => Some (MWrite 64) | Op.A64WriteMemory128 => Some (MWrite 128)
  | Op.A64ExclusiveReadMemory8 => Some (XRead 8) | Op.A64ExclusiveReadMemory16 => Some (XRead 16) | Op.A64ExclusiveReadMemory32 => Some (XRead 32)
  | Op.A64ExclusiveReadMemory64 => Some (XRead 64) | Op.A64ExclusiveReadMemory128 => Some (XRead 128)
  | Op.A64ExclusiveWriteMemory8 => Some (XWrite 8) | Op.A64ExclusiveWriteMemory16 => Some (XWrite 16) | Op.A64ExclusiveWriteMemory32 => Some (XWrite 32)
  | Op.A64ExclusiveWriteMemory64 => Some (XWrite 64) | Op.A64ExclusiveWriteMemory128 => Some (XWrite 128)
  | Op.A64ClearExclusive => Some XClear
  | Op.A64DataSynchronizationBarrier | Op.A64DataMemoryBarrier => Some Barrier
  | _ => None
  end.
(** The value and what becomes of memory. *)
Definition guest_special (k : special) (a : list tv) (nzcv : Z) (m : Bytes) : Z * option Bytes :=
  let v k := snd (nth k a (Ty.Void, 0)) in
  match k with
  | Flag => (Z.b2z (Z.testbit nzcv 1), None)
  | Select => (if ConditionHolds (v 0%nat) nzcv then v 1%nat else v 2%nat, None)
  | GetElement w => (Elem w (v 1%nat) (v 0%nat), None)
  | SetElement w => (set_Elem w (v 1%nat) (v 2%nat) (v 0%nat), None)
  | Broadcast w => (Replicate w (v 0%nat), None)
  | Pack => (v 1%nat * 2 ^ 64 + v 0%nat, None)
  | MRead w => (mread w (v 1%nat) m, None)
  | MWrite w => (0, Some (mwrite w (v 1%nat) (v 2%nat) m))
  | XRead w => let r := xread w (v 1%nat) m in (fst r, Some (snd r))
  | XWrite w => let r := xwrite w (v 1%nat) (v 2%nat) m in (fst r, Some (snd r))
  | XClear => (0, Some (xclear m))
  | Barrier => (0, None)
  end.
Definition guest_sem (o : Opcode) (a : list tv) (s : Guest) : Z * Guest :=
  match accessor o with
  | Some (Read, k) => match loc_of k a with Some l => (view k (guest_rd s l), s) | None => (0, s) end
  | Some (Write, k) => match loc_of k a with Some l => (0, guest_wr l (store k (written k a)) s) | None => (0, s) end
  | None =>
      match special_of o with
      | Some k =>
          let r := guest_special k a (guest_rd s NZCVLoc) (guest_mem s) in
          (wrap (width_of (GetTypeOf o, 0)) (fst r), match snd r with Some m => guest_set_memory m s | None => s end)
      | None => (0, if MayHaveSideEffects o then guest_note o a s else s)
      end
  end.

Lemma zero_ok ty : tv_ok (ty, 0).
Proof. unfold tv_ok, in_range. destruct ty; simpl; lia. Qed.
Lemma view_range k l a z : loc_of k a = Some l -> in_range (loc_width l) z -> tv_ok (view_type k, view k z).
Proof.
  intros Hl Hz. assert (Hw : loc_width l = match k with W | GetSet.X | GetSet.SP => 64 | S | D | Q => 128 | NZCV | NZCVRaw => 4 end).
  { destruct k; simpl in Hl; simplify_eq; try done; destruct a as [|[[] ?] ?]; by simplify_eq/=. }
  rewrite Hw in Hz. unfold tv_ok, in_range in *.
  destruct k; simpl in *; try lia; [pose proof (wrap_range 32 z)|pose proof (wrap_range 32 z)|pose proof (wrap_range 64 z)]; unfold in_range in *; lia.
Qed.
Lemma wrap_ok ty z : tv_ok (ty, wrap (width_of (ty, 0)) z).
Proof. unfold tv_ok, width_of. cbn [fst snd]. destruct (width ty) as [w|] eqn:E; [|done]. apply wrap_range. by destruct ty; simplify_eq/=. Qed.
Lemma guest_sem_ok o a s : tv_ok (GetTypeOf o, fst (guest_sem o a s)).
Proof.
  unfold guest_sem. destruct (accessor o) as [[[|] k]|] eqn:Ho.
  - destruct (accessor_facts _ _ _ Ho) as [-> _]. destruct (loc_of k a) as [l|] eqn:Hl; [|apply zero_ok]. eapply view_range; [exact Hl|]. apply wrap_range. by destruct l.
  - destruct (loc_of k a); apply zero_ok.
  - destruct (special_of o); [apply wrap_ok|apply zero_ok].
Qed.
(** Only some change memory. *)
Lemma special_quiet o k a nzcv m : special_of o = Some k -> MayHaveSideEffects o = false -> snd (guest_special k a nzcv m) = None.
Proof. destruct o; intros E; try discriminate E; injection E as <-; intros Hm; try discriminate Hm; reflexivity. Qed.
Lemma guest_no_effect o a s : MayHaveSideEffects o = false -> snd (guest_sem o a s) = s.
Proof.
  intros Hm. unfold guest_sem. destruct (accessor o) as [[[|] k]|] eqn:Ho; [by destruct (loc_of k a)|destruct o; discriminate|]. destruct (special_of o) eqn:Hs; [|by rewrite Hm]. cbn [snd].
  by rewrite (special_quiet _ _ _ _ _ Hs Hm).
Qed.
#[global, refine] Instance guest_IRSem : IRSem Guest := {| sem := guest_sem; sem_pseudo := fun _ _ => 0; sem_ok := guest_sem_ok; sem_no_effect := guest_no_effect |}.
Proof. intros p r. apply zero_ok. Defined.
Lemma guest_rd_wr l v s : in_range (loc_width l) v -> guest_rd (guest_wr l v s) l = v.
Proof. intros Hv. transitivity (wrap (loc_width l) v); [|by apply wrap_small]. unfold guest_rd. f_equal. destruct l; simpl; by rewrite ?lookup_insert_eq. Qed.
Lemma guest_rd_wr_ne l l' v s : l <> l' -> guest_rd (guest_wr l v s) l' = guest_rd s l'.
Proof. intros Hne. unfold guest_rd. f_equal. destruct l, l'; simpl; try done; rewrite lookup_insert_ne by congruence; done. Qed.
Lemma guest_wr_wr l v v' s : guest_wr l v (guest_wr l v' s) = guest_wr l v s.
Proof. destruct l; unfold guest_wr; simpl; by rewrite ?insert_insert_eq. Qed.
Lemma guest_wr_comm l l' v v' s : l <> l' -> guest_wr l v (guest_wr l' v' s) = guest_wr l' v' (guest_wr l v s).
Proof. intros Hne. destruct l, l'; unfold guest_wr; simpl; try done; by rewrite insert_insert_ne by congruence. Qed.
Lemma special_flags o k a x y m : special_of o = Some k -> touches o NZCVLoc = false -> guest_special k a x m = guest_special k a y m.
Proof. destruct o; intros E; try discriminate E; injection E as <-; intros Ht; try discriminate Ht; reflexivity. Qed.
Lemma guest_frame o l a v s : accessor o = None -> touches o l = false -> escapes o = false ->
  guest_sem o a (guest_wr l v s) = (fst (guest_sem o a s), guest_wr l v (snd (guest_sem o a s))) /\ guest_rd (snd (guest_sem o a s)) l = guest_rd s l.
Proof.
  intros Ho Ht _. unfold guest_sem. rewrite Ho. destruct (special_of o) as [k|] eqn:Hs; [|destruct (MayHaveSideEffects o); split; try done; by destruct l].
  assert (guest_mem (guest_wr l v s) = guest_mem s) as -> by by destruct l. assert (E : guest_special k a (guest_rd (guest_wr l v s) NZCVLoc) (guest_mem s) = guest_special k a (guest_rd s NZCVLoc) (guest_mem s)).
  { destruct (decide (l = NZCVLoc)) as [->|]; [by eapply special_flags|by rewrite guest_rd_wr_ne]. }
  rewrite E. cbn [fst snd]. destruct (snd (guest_special _ _ _ _)); split; try done; by destruct l.
Qed.
#[global, refine] Instance guest_A64Sem : A64Sem Guest :=
  {| a64_sem := guest_IRSem; rd := guest_rd; wr := guest_wr; rd_wr := guest_rd_wr; rd_wr_ne := guest_rd_wr_ne; wr_wr := guest_wr_wr; wr_comm := guest_wr_comm; sem_frame := guest_frame |}.
Proof. all: intros o k l a s Ho Hl; cbn [sem guest_IRSem]; unfold guest_sem; by rewrite Ho, Hl. Defined.

(** The program counter and the check bit last set, from the log. *)
Definition last_noted (o : Opcode) (s : Guest) : Z :=
  match find (fun e => bool_decide (fst e = o)) (guest_log s) with Some (_, (_, v) :: _) => v | _ => 0 end.
(** The laws of operations that have a meaning. *)
Lemma guest_special_sem o k a s : accessor o = None -> special_of o = Some k ->
  guest_sem o a s = (wrap (width_of (GetTypeOf o, 0)) (fst (guest_special k a (guest_rd s NZCVLoc) (guest_mem s))),
    match snd (guest_special k a (guest_rd s NZCVLoc) (guest_mem s)) with Some m => guest_set_memory m s | None => s end).
Proof. intros Ho Hs. unfold guest_sem. by rewrite Ho, Hs. Qed.
Ltac by_cases_of Hw := unfold sizes, lane_sizes in Hw; rewrite !elem_of_cons in Hw; repeat (destruct Hw as [->|Hw]); [..|by apply not_elem_of_nil in Hw].
Ltac special_law := cbn [sem a64_sem guest_A64Sem guest_IRSem]; erewrite guest_special_sem; [|reflexivity..]; cbn [guest_special nth snd fst].
Lemma size_range w a m : w ∈ sizes -> in_range w (load_bytes (byte_count w) a m).
Proof. intros Hw. rewrite <- (size_bytes w Hw) at 1. apply load_bytes_range. Qed.
Lemma elem_range w i x : 0 < w -> in_range w (Elem w i x).
Proof. intros Hw. apply (wrap_range w); lia. Qed.
Lemma set_elem_range w i v x : 0 < w -> 0 <= i -> w * (i + 1) <= 128 -> in_range 128 x -> in_range w v -> in_range 128 (set_Elem w i v x).
Proof.
  intros Hw Hi Hle Hx Hv. unfold set_Elem, Elem. set (d := 2 ^ (w * i)). assert (Hd : 0 < d) by (apply pow2_pos; lia). pose proof (Z.div_mod x d ltac:(lia)) as E1. pose proof (Z.mod_pos_bound x d Hd) as B1.
  pose proof (Z.div_mod (x / d) (2 ^ w) ltac:(pose proof (pow2_pos w); lia)) as E2. set (q := x / d / 2 ^ w) in *. set (r := (x / d) mod 2 ^ w) in *. set (low := x mod d) in *.
  assert (Ht : 2 ^ 128 = d * 2 ^ w * 2 ^ (128 - w * (i + 1))) by (unfold d; rewrite <- !Z.pow_add_r by lia; f_equal; lia). assert (Hq : 0 <= q < 2 ^ (128 - w * (i + 1))).
  { unfold in_range in Hx. unfold q. rewrite Z.div_div by (lia || apply pow2_pos; lia). split; [apply Z.div_pos; [lia|]; pose proof (pow2_pos w); nia|]. apply Z.div_lt_upper_bound; [pose proof (pow2_pos w); nia|]. lia. }
  unfold in_range in *. rewrite Ht. pose proof (pow2_pos w ltac:(lia)). pose proof (pow2_pos (128 - w * (i + 1)) ltac:(lia)). set (W := 2 ^ w) in *. set (T := 2 ^ (128 - w * (i + 1))) in *.
  replace (x - r * d + v * d) with (d * W * q + (low + v * d)) by (rewrite E1, E2; ring). assert (0 <= low + v * d < d * W) by nia. assert (0 <= d * W * q) by nia. assert (d * W * q + d * W <= d * W * T) by nia. lia.
Qed.
Lemma replicate_range w x : w ∈ lane_sizes -> in_range w x -> in_range 128 (Replicate w x).
Proof.
  assert (E : forall k, Replicate k x = x * fold_right (fun i m => 2 ^ (k * i) + m) 0 (seqZ 0 (128 / k))) by (intros k; unfold Replicate; induction (seqZ _ _) as [|i l IH]; cbn [fold_right]; [lia|rewrite IH; lia]).
  intros Hw Hx. rewrite E. unfold in_range in *. by_cases_of Hw; (match goal with |- context [fold_right ?f 0 ?l] => let z := eval vm_compute in (fold_right f 0 l) in change (fold_right f 0 l) with z end); simpl in *; lia.
Qed.
#[global, refine] Instance guest_flow : A64Flow Guest :=
  {| flow_sem := guest_A64Sem; Memory := Bytes; flow_memory := bytes_memory; memory := guest_mem; set_memory := guest_set_memory; pc_of := last_noted Op.A64SetPC; check_bit := fun s => negb (last_noted Op.A64SetCheckBit s =? 0) |}.
Proof.
  - done.
  - intros []; done.
  - intros m s []; done.
  - intros s. special_law. change (rd s NZCVLoc) with (guest_rd s NZCVLoc). unfold flag_c. by destruct (Z.testbit _ 1).
  - intros o ty c x y s Ho Hx Hy. rewrite !elem_of_cons in Ho. destruct Ho as [[= -> ->]|[[= -> ->]|[[= -> ->]|[]%not_elem_of_nil]]]; change (rd s NZCVLoc) with (guest_rd s NZCVLoc); special_law;
      (rewrite wrap_small; [done|by destruct (ConditionHolds _ _)]).
  - done.
  - done.
  - done.
  - intros w l a k s Hw. pose proof (size_range w a (bytes (guest_mem s)) Hw) as Hr. by_cases_of Hw; special_law; f_equal; by apply wrap_small.
  - intros w l a v k s Hw. by_cases_of Hw; by special_law.
  - intros w l a k s Hw. pose proof (size_range w a (bytes (guest_mem s)) Hw) as Hr. by_cases_of Hw; special_law; f_equal; by apply wrap_small.
  - intros w l a v k s Hw. by_cases_of Hw; special_law; f_equal; cbn [xwrite bytes_memory]; by destruct (decide _).
  - intros s. by special_law.
  - intros o s Ho. rewrite !elem_of_cons in Ho. by destruct Ho as [->|[->|[]%not_elem_of_nil]].
  - intros w x i s Hw. by_cases_of Hw; special_law; f_equal; apply wrap_small; by apply elem_range.
  - intros w x i v s Hw Hi Hx Hv. by_cases_of Hw; special_law; f_equal; apply wrap_small; apply set_elem_range; try done; change (128 / 8) with 16 in *; change (128 / 16) with 8 in *; change (128 / 32) with 4 in *; change (128 / 64) with 2 in *; lia.
  - intros w x s Hw Hx. pose proof (replicate_range w x Hw Hx) as Hr. by_cases_of Hw; special_law; f_equal; by apply wrap_small.
  - intros lo hi s Hlo Hhi. special_law. f_equal. apply wrap_small. change (width_of _) with 128. unfold in_range in *. lia.
Defined.
