(* ===== verification/IrExamples.v ===== *)
(** Blocks to run the passes on: instances of the theorems about them, and what the
    conditions of these theorems rule out. *)
From stdpp Require Import list.
From S2P Require Import Prelude Bits IrOpcodes A64Imm Ir IrSem IrWf IrExec IrEdit IrFold ConstProp IrDce IrBuild ConstPropFlags IrPasses GetSet GetSetSem GetSetSound IrGuest.
Import Op(Opcode).
Local Open Scope nat_scope.

(** ** Conditions by computation *)
Definition has_infob (l : Loc) : bool := match l with RegLoc n => (0 <=? n)%Z && (n <? 31)%Z | VecLoc n => (0 <=? n)%Z && (n <? 32)%Z | _ => true end.
Definition readableb (b : Block) (p : Opcode) (v : Value) : bool :=
  match v with
  | Ref j => match accessor (opcode_of b j) with Some (Write, _) => false | Some (Read, _) => negb (reads_op p) | None => true end
  | Imm _ _ => true
  end.
Definition register_useb_at (b : Block) (c : nat) (p : Opcode) (us : list Value) : bool :=
  forallb (readableb b p) us &&
  match accessor p with Some (_, k) => match static_loc k (take (GetNumArgsOf p) us) with Some l => has_infob l | None => false end | None => true end &&
  implb (escapes p) (bool_decide (last (instructions b) = Some c)).
Definition register_useb (b : Block) : bool := forallb (fun c => match core b c with Some (p, us) => register_useb_at b c p us | None => false end) (instructions b).
Definition no_narrow (b : Block) : bool := forallb (fun c => match accessor (opcode_of b c) with Some (Write, k) => negb (narrow k) | _ => true end) (instructions b).

Lemma register_useb_spec b : register_useb b = true -> register_use b.
Proof.
  unfold register_useb. rewrite forallb_forall. intros Hb.
  assert (Hat : forall c p us, c ∈ instructions b -> core b c = Some (p, us) -> register_useb_at b c p us = true).
  { intros c p us Hc Hco. specialize (Hb c (proj1 (list_elem_of_In _ _) Hc)). by rewrite Hco in Hb. }
  constructor.
  - intros c p us v Hc Hco Hv. apply (Hat c p us Hc), andb_true_iff in Hco as [[Hr _]%andb_true_iff _]. rewrite forallb_forall in Hr. specialize (Hr v (proj1 (list_elem_of_In _ _) Hv)).
    destruct v as [j|]; [|done]. simpl in *. destruct (accessor (opcode_of b j)) as [[[|] ?]|]; [by apply negb_true_iff|done|done].
  - intros c p us a k Hc Hco Hk. apply (Hat c p us Hc), andb_true_iff in Hco as [[_ Hl]%andb_true_iff _]. rewrite Hk in Hl. destruct (static_loc _ _) as [l|]; [|done]. exists l. split; [done|].
    destruct l; simpl in *; try done; apply andb_true_iff in Hl; lia.
  - intros c Hc He. destruct (core b c) as [[p us]|] eqn:Hco; [|specialize (Hb c (proj1 (list_elem_of_In _ _) Hc)); by rewrite Hco in Hb].
    rewrite (core_opcode _ _ _ _ Hco) in He. apply (Hat c p us Hc), andb_true_iff in Hco as [_ Hl]. rewrite He in Hl. by apply bool_decide_eq_true in Hl.
Qed.
Lemma no_narrow_spec {St} `{A64Sem St} b pre : no_narrow b = true -> exact_writes b pre (instructions b).
Proof.
  unfold no_narrow. rewrite forallb_forall. intros Hb s l1 c l2 o vs k E Hc Ho Hn. exfalso. assert (Hin : c ∈ instructions b) by (rewrite E; set_solver).
  specialize (Hb c (proj1 (list_elem_of_In _ _) Hin)). simpl in Hb. rewrite (core_opcode _ _ _ _ Hc), Ho, Hn in Hb. done.
Qed.

(** ** Blocks *)
Local Abbreviation reg n := (Imm Ty.A64Reg n).
Local Abbreviation u64 n := (Imm Ty.U64 n).
Local Abbreviation u1 n := (Imm Ty.U1 n).
(** X1 is written, read and written again; X2 is given a constant that has to be computed. *)
Definition sample : Block := block_of [
  (Op.A64GetX, [reg 0]); (Op.A64SetX, [reg 1; Ref 0]); (Op.A64GetX, [reg 1]); (Op.Add64, [Ref 2; u64 5; u1 0]); (Op.GetCarryFromOp, [Ref 3]);
  (Op.A64SetX, [reg 1; Ref 3]); (Op.LogicalShiftLeft64, [u64 1; Imm Ty.U8 4]); (Op.A64SetX, [reg 2; Ref 6])].
Example sample_passes : (b' ← match passes true true sample with Ret b' => Some b' | _ => None end; Some (map (opcode_of b') (instructions b'))) =
  Some [Op.A64GetX; Op.Identity; Op.Add64; Op.Void; Op.A64SetX; Op.Identity; Op.A64SetX].
Proof. vm_compute. reflexivity. Qed.
Example sample_run : map (guest_rd (run_block sample (new_guest {[0%Z := 7%Z]} 0))) [RegLoc 0; RegLoc 1; RegLoc 2] = [7; 12; 16]%Z.
Proof. vm_compute. reflexivity. Qed.
Lemma append_new_inst_witness : let b := sample in exists b', AppendNewInst Op.A64SetX [reg 3; Ref 3] b = Ret (next_id b, b') /\ wf b' /\ fresh b' /\
  code b' = code b ++ [(next_id b, Op.A64SetX, [reg 3; Ref 3])].
Proof. apply append_new_inst; [apply (block_of_wf _)|apply (block_of_wf _)|]. apply emittableb_spec. vm_compute. reflexivity. Defined.
Lemma dead_code_elimination_witness : exists b', DeadCodeElimination sample = Ret b' /\ wf b' /\ instructions b' = instructions sample /\ Forall (useful b') (instructions b') /\
  forall s : Guest, run_block b' s = run_block sample s.
Proof. apply dead_code_elimination_sound. apply (block_of_wf _). Defined.
Lemma constant_propagation_witness : exists b', ConstantPropagation sample = Ret b' /\ wf b' /\ instructions b' = instructions sample /\
  forall s : Guest, run_block b' s = run_block sample s.
Proof. apply constant_propagation_sound; [apply (block_of_wf _)|]. vm_compute. reflexivity. Defined.
Lemma get_set_elimination_witness : exists b', A64GetSetElimination sample = Ret b' /\ wf b' /\ instructions b' `sublist_of` instructions sample /\
  forall s : Guest, run_block b' s = run_block sample s.
Proof.
  apply (get_set_elimination_sound (H := guest_A64Sem)); [apply (block_of_wf _)|apply register_useb_spec; vm_compute; reflexivity|apply no_narrow_spec; vm_compute; reflexivity].
Defined.

(** Flags from outside are added to a sum of known parts that cancel. *)
Definition sums : Block := block_of [
  (Op.A64GetX, [reg 0]); (Op.A64GetCFlag, []); (Op.Add64, [Ref 0; u64 1; u1 0]); (Op.Add64, [Ref 2; u64 (2 ^ 64 - 1); Ref 1]); (Op.A64SetX, [reg 0; Ref 3])].
(** X0 to the flags and back. *)
Definition flags_and_back : Block := block_of [
  (Op.A64GetW, [reg 0]); (Op.A64SetNZCVRaw, [Ref 0]); (Op.A64GetNZCVRaw, []); (Op.A64SetW, [reg 1; Ref 2])].
Definition least_by_minus_one : Block := block_of [(Op.SignedDiv64, [u64 (2 ^ 63); u64 (2 ^ 64 - 1)]); (Op.A64SetX, [reg 0; Ref 0])].
Definition result_of (c : outcome Block) (l : Loc) (s : Guest) : option Z := match c with Ret b => Some (guest_rd (run_block b s) l) | _ => None end.
