(* ===== verification/IrHeader.v ===== *)
(** What the optimisation passes leave alone: everything of a block but the
    instructions. *)
From stdpp Require Import list.
From S2P Require Import Prelude Bits IrOpcodes A64Imm Ir ConstProp GetSet IrPasses.
Import Op(Opcode).
Local Open Scope Z_scope.

Definition header (b : Block) : Z * Z * Terminal * Z * nat := (location b, end_location b, terminal b, cycle_count b, next_id b).
(** If the computation returns, [P] holds of its value. *)
Definition leaves {A} (o : outcome A) (P : A -> Prop) : Prop := match o with Ret a => P a | _ => True end.
Lemma leaves_bind {A B} (o : outcome A) (k : A -> outcome B) P : leaves o (fun a => leaves (k a) P) -> leaves (obind o k) P.
Proof. by destruct o. Qed.
Lemma leaves_mono {A} (o : outcome A) (P Q : A -> Prop) : leaves o P -> (forall a, P a -> Q a) -> leaves o Q.
Proof. destruct o; simpl; auto. Qed.
Lemma leaves_any {A} (o : outcome A) (P : A -> Prop) : (forall a, P a) -> leaves o P.
Proof. destruct o; simpl; auto. Qed.
Abbreviation kept b := (fun b' => header b' = header b).
Create HintDb header discriminated.
Lemma update_header i f b : header (update i f b) = header b.
Proof. done. Qed.
Ltac walk :=
  repeat (cbn beta iota; lazymatch goal with
    | |- leaves (obind _ _) _ => apply leaves_bind
    | |- leaves (Ret _) _ => cbn [leaves]
    | |- leaves (Stop _) _ => exact I
    | |- leaves (Throw _) _ => exact I
    | |- leaves (if ?c then _ else _) _ => destruct c
    | |- leaves (match ?c with _ => _ end) _ => destruct c
    | |- leaves _ _ => first [eapply leaves_mono; [solve [auto with header nocore]|]; intros ? ?|apply leaves_any; intros ?]
    end); cbn [fst snd] in *; rewrite ?update_header in *; try congruence.
Lemma Use_kept i v b : leaves (Use i v b) (kept b).
Proof. unfold Use. walk. Qed.
Lemma UndoUse_kept i v b : leaves (UndoUse i v b) (kept b).
Proof. unfold UndoUse. walk. Qed.
#[export] Hint Resolve Use_kept UndoUse_kept : header.
Lemma SetArg_kept i k v b : leaves (SetArg i k v b) (kept b).
Proof. unfold SetArg. walk. Qed.
Lemma ClearArgs_from_kept i l : forall b, leaves (ClearArgs_from i l b) (kept b).
Proof. induction l as [|k l IH]; intros b; [done|]. cbn [ClearArgs_from]. walk. Qed.
#[export] Hint Resolve SetArg_kept ClearArgs_from_kept : header.
Lemma Invalidate_kept i b : leaves (Invalidate i b) (kept b).
Proof. unfold Invalidate, ClearArgs. walk. Qed.
#[export] Hint Resolve Invalidate_kept : header.
Lemma ReplaceUsesWith_kept i v b : leaves (ReplaceUsesWith i v b) (kept b).
Proof. unfold ReplaceUsesWith. walk. Qed.
#[export] Hint Resolve ReplaceUsesWith_kept : header.
Lemma ReplaceUsesWithImm_kept i c v b : leaves (ReplaceUsesWithImm i c v b) (kept b).
Proof. unfold ReplaceUsesWithImm. walk. Qed.
#[export] Hint Resolve ReplaceUsesWithImm_kept : header.
Lemma set_args_kept i l : forall k b, leaves (set_args i k l b) (kept b).
Proof. induction l as [|v l IH]; intros k b; [done|]. cbn [set_args]. walk. Qed.
Lemma AppendNewInst_header o l b i b' : AppendNewInst o l b = Ret (i, b') -> terminal b' = terminal b /\ next_id b' = Datatypes.S (next_id b).
Proof.
  unfold AppendNewInst, PrependNewInst. destruct (assert_that _); cbn [obind]; try done. match goal with |- context [set_args ?i ?k ?l ?b] => pose proof (set_args_kept i l k b) as Hk end.
  destruct (set_args _ _ _ _) as [b1| |]; try done. cbn [obind leaves] in *. intros [= <- <-]. injection Hk as _ _ Ht _ Hn. done.
Qed.

(** ** Passes *)
Lemma FoldCommutative_kept i c f b : leaves (FoldCommutative i c f b) (fun p => header (snd p) = header b).
Proof. unfold FoldCommutative. walk. Qed.
Lemma FoldShifts_kept i b : leaves (FoldShifts i b) (fun p => header (snd p) = header b).
Proof. unfold FoldShifts. walk. Qed.
#[export] Hint Resolve FoldCommutative_kept FoldShifts_kept : header.
Lemma FoldAdd_kept c i : forall fuel b, leaves (FoldAdd_loop fuel i c b) (kept b).
Proof. induction fuel as [|fuel IH]; intros b; [done|]. cbn [FoldAdd_loop]. walk. Qed.
#[export] Hint Resolve FoldAdd_kept : header.
Lemma fold_inst_kept i b : leaves (fold_inst i b) (kept b).
Proof.
  unfold fold_inst. apply leaves_bind, leaves_any. intros o. destruct o; try done; unfold FoldLeastSignificantWord, FoldMostSignificantWord, FoldLeastSignificantHalf, FoldLeastSignificantByte, FoldMostSignificantBit, fold_is_zero, fold_shift, fold_masked_shift, fold_immediates,
    FoldAdd, FoldSub, FoldMultiply, FoldDivide, FoldAND, FoldEOR, FoldOR, FoldNOT, FoldSignExtendXToWord, FoldSignExtendXToLong, FoldZeroExtendXToWord, FoldZeroExtendXToLong, FoldByteReverse; walk.
Qed.
#[export] Hint Resolve fold_inst_kept : header.
Lemma fold_insts_kept l : forall b, leaves (fold_insts l b) (kept b).
Proof. induction l as [|i l IH]; intros b; [done|]. cbn [fold_insts]. walk. Qed.
Lemma eliminate_insts_kept l : forall b, leaves (eliminate_insts l b) (kept b).
Proof. induction l as [|i l IH]; intros b; [done|]. cbn [eliminate_insts]. walk. Qed.
Lemma name_insts_header l : forall n b, header (name_insts l n b) = header b.
Proof. induction l as [|i l IH]; intros n b; [done|]. cbn [name_insts]. by rewrite IH. Qed.
Lemma erase_header i b : header (erase i b) = header b.
Proof. done. Qed.
Lemma do_get_kept r i ty b : leaves (do_get r i ty b) (fun p => header (snd p) = header b).
Proof. unfold do_get. walk. Qed.
Lemma do_set_kept r v i ty b : leaves (do_set r v i ty b) (fun p => header (snd p) = header b).
Proof. unfold do_set. walk; rewrite ?erase_header; congruence. Qed.
Lemma at_loc_kept l f t b : (forall r, leaves (f r) (fun p => header (snd p) = header b)) -> leaves (at_loc l f t) (fun p => header (snd p) = header b).
Proof. intros Hf. unfold at_loc. destruct (info_at t l); [|exact I]. apply leaves_bind. eapply leaves_mono; [apply Hf|]. done. Qed.
Lemma get_set_inst_kept i t b : leaves (get_set_inst i t b) (fun p => header (snd p) = header b).
Proof.
  unfold get_set_inst. apply leaves_bind, leaves_any. intros o. destruct o; try done; unfold get_reg, get_vec, set_reg, set_vec, set_one; repeat lazymatch goal with |- leaves (obind _ _) _ => apply leaves_bind, leaves_any; intros ? end; apply at_loc_kept; intros r; first [apply do_get_kept|apply do_set_kept].
Qed.
Lemma get_set_insts_kept l : forall t b, leaves (get_set_insts l t b) (kept b).
Proof. induction l as [|i l IH]; intros t b; [done|]. cbn [get_set_insts]. apply leaves_bind. eapply leaves_mono; [apply get_set_inst_kept|]. intros p Hp. eapply leaves_mono; [apply IH|]. cbn beta. congruence. Qed.
#[export] Hint Resolve fold_insts_kept eliminate_insts_kept get_set_insts_kept : header.
Lemma passes_kept get_set const_prop b : leaves (passes get_set const_prop b) (kept b).
Proof.
  unfold passes, first_passes, A64GetSetElimination, DeadCodeElimination, ConstantPropagation. pose proof (name_insts_header (instructions b) 1 b) as Hn. fold (NamingPass b) in Hn. walk.
Qed.
