(* ===== verification/IrEmitter.v ===== *)
(** Emitting micro-instructions: the part of ir/ir_emitter.{h,cpp} and of
    frontend/A64/a64_ir_emitter.{h,cpp} that integer, branch and memory instructions
    use.  The insertion point of the translator is the end of the block.  Conversions
    between the typed values of the code assert the type of a value; here a value is
    untyped, and that every argument has the type its place asks for is a theorem. *)
From S2P Require Import Prelude Bits IrOpcodes A64Imm Ir A64Jit.
Import Op(Opcode).
Local Open Scope Z_scope.

(** The block under construction and where the guest instruction is. *)
Record Emitter : Type := { block : Block; current_location : LocationDescriptor.t }.
Definition with_block (b : Block) (e : Emitter) : Emitter := {| block := b; current_location := current_location e |}.
Definition with_location (l : LocationDescriptor.t) (e : Emitter) : Emitter := {| block := block e; current_location := l |}.

Module ir.
Definition Inst (o : Opcode) (args : list Value) : M Emitter Value := fun e =>
  match AppendNewInst o args (block e) with
  | Ret (i, b) => (Ret (Ref i), with_block b e)
  | Throw x => (Throw x, e)
  | Stop f => (Stop f, e)
  end.
Definition type_of (v : Value) : M Emitter Ty.t := gets (fun e => GetType (block e) v).
Definition is_32 (v : Value) : M Emitter bool := let! t := type_of v in ret (bool_decide (t = Ty.U32)).
Definition same_type (a b : Value) : M Emitter unit :=
  let! ta := type_of a in let! tb := type_of b in assert_ (bool_decide (ta = tb)).
(** [if (a.GetType() == Type::U32)], one opcode for each width. *)
Definition by_width (a : Value) (o32 o64 : Opcode) (args : list Value) : M Emitter Value :=
  let! w := is_32 a in Inst (if w : bool then o32 else o64) args.

Definition Imm1 (v : bool) : Value := ValueU1 v.
Definition Imm8 (v : Z) : Value := ValueU8 v.
Definition Imm16 (v : Z) : Value := ValueU16 v.
Definition Imm32 (v : Z) : Value := ValueU32 v.
Definition Imm64 (v : Z) : Value := ValueU64 v.

Definition Pack2x32To1x64 (lo hi : Value) : M Emitter Value := Inst Op.Pack2x32To1x64 [lo; hi].
Definition LeastSignificantWord (v : Value) : M Emitter Value := Inst Op.LeastSignificantWord [v].
Definition to_word (v : Value) : M Emitter Value :=
  let! t := type_of v in if bool_decide (t = Ty.U64) then LeastSignificantWord v else ret v.
Definition LeastSignificantHalf (v : Value) : M Emitter Value := let! v := to_word v in Inst Op.LeastSignificantHalf [v].
Definition LeastSignificantByte (v : Value) : M Emitter Value := let! v := to_word v in Inst Op.LeastSignificantByte [v].
(** The result and the carry. *)
Definition MostSignificantWord (v : Value) : M Emitter (Value * Value) :=
  let! result := Inst Op.MostSignificantWord [v] in
  let! carry_out := Inst Op.GetCarryFromOp [result] in
  ret (result, carry_out).
Definition ConditionalSelect (cond : Z) (a b : Value) : M Emitter Value :=
  same_type a b ;; by_width a Op.ConditionalSelect32 Op.ConditionalSelect64 [Imm Ty.Cond cond; a; b].
Definition ConditionalSelectNZCV (cond : Z) (a b : Value) : M Emitter Value := Inst Op.ConditionalSelectNZCV [Imm Ty.Cond cond; a; b].
Definition NZCVFromPackedFlags (a : Value) : M Emitter Value := Inst Op.NZCVFromPackedFlags [a].
Definition NZCVFrom (v : Value) : M Emitter Value := Inst Op.GetNZCVFromOp [v].

(** 32-bit shifts take a carry as well. *)
Definition shift_by (o32 o64 : Opcode) (v amount : Value) : M Emitter Value :=
  let! w := is_32 v in if w : bool then Inst o32 [v; amount; Imm1 false] else Inst o64 [v; amount].
Definition LogicalShiftLeft := shift_by Op.LogicalShiftLeft32 Op.LogicalShiftLeft64.
Definition LogicalShiftRight := shift_by Op.LogicalShiftRight32 Op.LogicalShiftRight64.
Definition ArithmeticShiftRight := shift_by Op.ArithmeticShiftRight32 Op.ArithmeticShiftRight64.
Definition RotateRight := shift_by Op.RotateRight32 Op.RotateRight64.
Definition masked_shift (o32 o64 : Opcode) (v amount : Value) : M Emitter Value := same_type v amount ;; by_width v o32 o64 [v; amount].
Definition LogicalShiftLeftMasked := masked_shift Op.LogicalShiftLeftMasked32 Op.LogicalShiftLeftMasked64.
Definition LogicalShiftRightMasked := masked_shift Op.LogicalShiftRightMasked32 Op.LogicalShiftRightMasked64.
Definition ArithmeticShiftRightMasked := masked_shift Op.ArithmeticShiftRightMasked32 Op.ArithmeticShiftRightMasked64.
Definition RotateRightMasked := masked_shift Op.RotateRightMasked32 Op.RotateRightMasked64.

Definition AddWithCarry (a b carry_in : Value) : M Emitter Value := same_type a b ;; by_width a Op.Add32 Op.Add64 [a; b; carry_in].
Definition Add (a b : Value) : M Emitter Value := same_type a b ;; by_width a Op.Add32 Op.Add64 [a; b; Imm1 false].
Definition SubWithCarry (a b carry_in : Value) : M Emitter Value := same_type a b ;; by_width a Op.Sub32 Op.Sub64 [a; b; carry_in].
Definition Sub (a b : Value) : M Emitter Value := same_type a b ;; by_width a Op.Sub32 Op.Sub64 [a; b; Imm1 true].
Definition Mul (a b : Value) : M Emitter Value := by_width a Op.Mul32 Op.Mul64 [a; b].
Definition UnsignedMultiplyHigh (a b : Value) : M Emitter Value := Inst Op.UnsignedMultiplyHigh64 [a; b].
Definition SignedMultiplyHigh (a b : Value) : M Emitter Value := Inst Op.SignedMultiplyHigh64 [a; b].
Definition UnsignedDiv (a b : Value) : M Emitter Value := by_width a Op.UnsignedDiv32 Op.UnsignedDiv64 [a; b].
Definition SignedDiv (a b : Value) : M Emitter Value := by_width a Op.SignedDiv32 Op.SignedDiv64 [a; b].
Definition And (a b : Value) : M Emitter Value := same_type a b ;; by_width a Op.And32 Op.And64 [a; b].
Definition AndNot (a b : Value) : M Emitter Value := same_type a b ;; by_width a Op.AndNot32 Op.AndNot64 [a; b].
Definition Eor (a b : Value) : M Emitter Value := same_type a b ;; by_width a Op.Eor32 Op.Eor64 [a; b].
Definition Or (a b : Value) : M Emitter Value := same_type a b ;; by_width a Op.Or32 Op.Or64 [a; b].
Definition Not (a : Value) : M Emitter Value := by_width a Op.Not32 Op.Not64 [a].
Definition SignExtendToLong (a : Value) : M Emitter Value :=
  let! t := type_of a in
  match t with
  | Ty.U8 => Inst Op.SignExtendByteToLong [a]
  | Ty.U16 => Inst Op.SignExtendHalfToLong [a]
  | Ty.U32 => Inst Op.SignExtendWordToLong [a]
  | Ty.U64 => ret a
  | _ => stop Undefined
  end.
Definition SignExtendToWord (a : Value) : M Emitter Value :=
  let! t := type_of a in
  match t with
  | Ty.U8 => Inst Op.SignExtendByteToWord [a]
  | Ty.U16 => Inst Op.SignExtendHalfToWord [a]
  | Ty.U32 => ret a
  | Ty.U64 => Inst Op.LeastSignificantWord [a]
  | _ => stop Undefined
  end.
Definition ZeroExtendToLong (a : Value) : M Emitter Value :=
  let! t := type_of a in
  match t with
  | Ty.U8 => Inst Op.ZeroExtendByteToLong [a]
  | Ty.U16 => Inst Op.ZeroExtendHalfToLong [a]
  | Ty.U32 => Inst Op.ZeroExtendWordToLong [a]
  | Ty.U64 => ret a
  | _ => stop Undefined
  end.
Definition ZeroExtendToWord (a : Value) : M Emitter Value :=
  let! t := type_of a in
  match t with
  | Ty.U8 => Inst Op.ZeroExtendByteToWord [a]
  | Ty.U16 => Inst Op.ZeroExtendHalfToWord [a]
  | Ty.U32 => ret a
  | Ty.U64 => Inst Op.LeastSignificantWord [a]
  | _ => stop Undefined
  end.
Definition ZeroExtendWordToLong (a : Value) : M Emitter Value := Inst Op.ZeroExtendWordToLong [a].
Definition SignExtendWordToLong (a : Value) : M Emitter Value := Inst Op.SignExtendWordToLong [a].
Definition ZeroExtendToQuad (a : Value) : M Emitter Value := let! a := ZeroExtendToLong a in Inst Op.ZeroExtendLongToQuad [a].
Definition Pack2x64To1x128 (lo hi : Value) : M Emitter Value := Inst Op.Pack2x64To1x128 [lo; hi].
Definition VectorGetElement (esize : Z) (a : Value) (index : Z) : M Emitter Value :=
  assert_ (esize * index <? 128) ;;
  if esize =? 8 then Inst Op.VectorGetElement8 [a; Imm8 (u8 index)]
  else if esize =? 16 then Inst Op.VectorGetElement16 [a; Imm8 (u8 index)]
  else if esize =? 32 then Inst Op.VectorGetElement32 [a; Imm8 (u8 index)]
  else if esize =? 64 then Inst Op.VectorGetElement64 [a; Imm8 (u8 index)]
  else stop Undefined.
Definition VectorSetElement (esize : Z) (a : Value) (index : Z) (elem : Value) : M Emitter Value :=
  assert_ (esize * index <? 128) ;;
  if esize =? 8 then Inst Op.VectorSetElement8 [a; Imm8 (u8 index); elem]
  else if esize =? 16 then Inst Op.VectorSetElement16 [a; Imm8 (u8 index); elem]
  else if esize =? 32 then Inst Op.VectorSetElement32 [a; Imm8 (u8 index); elem]
  else if esize =? 64 then Inst Op.VectorSetElement64 [a; Imm8 (u8 index); elem]
  else stop Undefined.
Definition VectorBroadcast (esize : Z) (a : Value) : M Emitter Value :=
  if esize =? 8 then Inst Op.VectorBroadcast8 [a]
  else if esize =? 16 then Inst Op.VectorBroadcast16 [a]
  else if esize =? 32 then Inst Op.VectorBroadcast32 [a]
  else if esize =? 64 then Inst Op.VectorBroadcast64 [a]
  else stop Undefined.
Definition VectorZeroUpper (a : Value) : M Emitter Value := Inst Op.VectorZeroUpper [a].
Definition ByteReverseWord (a : Value) : M Emitter Value := Inst Op.ByteReverseWord [a].
Definition ByteReverseDual (a : Value) : M Emitter Value := Inst Op.ByteReverseDual [a].
Definition CountLeadingZeros (a : Value) : M Emitter Value := by_width a Op.CountLeadingZeros32 Op.CountLeadingZeros64 [a].
Definition ExtractRegister (a b lsb : Value) : M Emitter Value := by_width a Op.ExtractRegister32 Op.ExtractRegister64 [a; b; lsb].
Definition ReplicateBit (a : Value) (bit : Z) : M Emitter Value :=
  let! w := is_32 a in
  if w : bool then assert_ (bit <? 32) ;; Inst Op.ReplicateBit32 [a; Imm8 bit]
  else assert_ (bit <? 64) ;; Inst Op.ReplicateBit64 [a; Imm8 bit].

Definition IsZero (v : Value) : M Emitter Value := by_width v Op.IsZero32 Op.IsZero64 [v].
Definition IndeterminateExtendToLong (a : Value) : M Emitter Value := ZeroExtendToLong a.
Definition TestBit (v bit : Value) : M Emitter Value :=
  let! w := is_32 v in
  if w : bool then let! v := IndeterminateExtendToLong v in Inst Op.TestBit [v; bit] else Inst Op.TestBit [v; bit].
Definition PushRSB (return_location : Z) : M Emitter unit := Inst Op.PushRSB [Imm64 return_location] ;; ret tt.
(** [CRC32ISO8] and the like, by the size of the data. *)
Definition CRC32ISO (size : Z) (a b : Value) : M Emitter Value :=
  Inst (if size =? 0 then Op.CRC32ISO8 else if size =? 1 then Op.CRC32ISO16 else if size =? 2 then Op.CRC32ISO32 else Op.CRC32ISO64) [a; b].
Definition CRC32Castagnoli (size : Z) (a b : Value) : M Emitter Value :=
  Inst (if size =? 0 then Op.CRC32Castagnoli8 else if size =? 1 then Op.CRC32Castagnoli16 else if size =? 2 then Op.CRC32Castagnoli32 else Op.CRC32Castagnoli64) [a; b].

(** [A64::IREmitter]. *)
Definition PC : M Emitter Z := gets (fun e => LocationDescriptor.PC (current_location e)).
Definition GetCFlag : M Emitter Value := Inst Op.A64GetCFlag [].
Definition SetNZCV (nzcv : Value) : M Emitter unit := Inst Op.A64SetNZCV [nzcv] ;; ret tt.
Definition ZR : Z := 31.
Definition GetW (reg : Z) : M Emitter Value := if reg =? ZR then ret (Imm32 0) else Inst Op.A64GetW [Imm Ty.A64Reg reg].
Definition GetX (reg : Z) : M Emitter Value := if reg =? ZR then ret (Imm64 0) else Inst Op.A64GetX [Imm Ty.A64Reg reg].
Definition GetSP : M Emitter Value := Inst Op.A64GetSP [].
Definition SetW (reg : Z) (value : Value) : M Emitter unit := if reg =? ZR then ret tt else Inst Op.A64SetW [Imm Ty.A64Reg reg; value] ;; ret tt.
Definition SetX (reg : Z) (value : Value) : M Emitter unit := if reg =? ZR then ret tt else Inst Op.A64SetX [Imm Ty.A64Reg reg; value] ;; ret tt.
Definition SetSP (value : Value) : M Emitter unit := Inst Op.A64SetSP [value] ;; ret tt.
Definition SetPC (value : Value) : M Emitter unit := Inst Op.A64SetPC [value] ;; ret tt.
Definition ExceptionRaised (exception : Z) : M Emitter unit :=
  let! pc := PC in Inst Op.A64ExceptionRaised [Imm64 pc; Imm64 exception] ;; ret tt.
Definition CallSupervisor (imm : Z) : M Emitter unit := Inst Op.A64CallSupervisor [Imm32 imm] ;; ret tt.
Definition SetCheckBit (value : Value) : M Emitter unit := Inst Op.A64SetCheckBit [value] ;; ret tt.
Definition GetNZCVRaw : M Emitter Value := Inst Op.A64GetNZCVRaw [].
Definition SetNZCVRaw (value : Value) : M Emitter unit := Inst Op.A64SetNZCVRaw [value] ;; ret tt.
Definition DataSynchronizationBarrier : M Emitter unit := Inst Op.A64DataSynchronizationBarrier [] ;; ret tt.
Definition DataMemoryBarrier : M Emitter unit := Inst Op.A64DataMemoryBarrier [] ;; ret tt.
Definition InstructionSynchronizationBarrier : M Emitter unit := Inst Op.A64InstructionSynchronizationBarrier [] ;; ret tt.
Definition ClearExclusive : M Emitter unit := Inst Op.A64ClearExclusive [] ;; ret tt.
Definition GetCNTFRQ : M Emitter Value := Inst Op.A64GetCNTFRQ [].
Definition GetCNTPCT : M Emitter Value := Inst Op.A64GetCNTPCT [].
Definition GetCTR : M Emitter Value := Inst Op.A64GetCTR [].
Definition GetDCZID : M Emitter Value := Inst Op.A64GetDCZID [].
Definition GetTPIDR : M Emitter Value := Inst Op.A64GetTPIDR [].
Definition GetTPIDRRO : M Emitter Value := Inst Op.A64GetTPIDRRO [].
Definition GetFPCR : M Emitter Value := Inst Op.A64GetFPCR [].
Definition GetFPSR : M Emitter Value := Inst Op.A64GetFPSR [].
Definition SetFPCR (value : Value) : M Emitter unit := Inst Op.A64SetFPCR [value] ;; ret tt.
Definition SetFPSR (value : Value) : M Emitter unit := Inst Op.A64SetFPSR [value] ;; ret tt.
Definition SetTPIDR (value : Value) : M Emitter unit := Inst Op.A64SetTPIDR [value] ;; ret tt.
Definition GetS (vec : Z) : M Emitter Value := Inst Op.A64GetS [Imm Ty.A64Vec vec].
Definition GetD (vec : Z) : M Emitter Value := Inst Op.A64GetD [Imm Ty.A64Vec vec].
Definition GetQ (vec : Z) : M Emitter Value := Inst Op.A64GetQ [Imm Ty.A64Vec vec].
Definition SetS (vec : Z) (value : Value) : M Emitter unit := Inst Op.A64SetS [Imm Ty.A64Vec vec; value] ;; ret tt.
Definition SetD (vec : Z) (value : Value) : M Emitter unit := Inst Op.A64SetD [Imm Ty.A64Vec vec; value] ;; ret tt.
Definition SetQ (vec : Z) (value : Value) : M Emitter unit := Inst Op.A64SetQ [Imm Ty.A64Vec vec; value] ;; ret tt.

(** Memory: every access is told the location and the kind of access. *)
Definition ImmCurrentLocationDescriptor : M Emitter Value := let! l := gets current_location in ret (Imm64 (LocationDescriptor.UniqueHash l)).
Definition memory_read (o : Opcode) (vaddr : Value) (acc_type : Z) : M Emitter Value :=
  let! l := ImmCurrentLocationDescriptor in Inst o [l; vaddr; Imm Ty.AccType acc_type].
Definition memory_write (o : Opcode) (vaddr value : Value) (acc_type : Z) : M Emitter Value :=
  let! l := ImmCurrentLocationDescriptor in Inst o [l; vaddr; value; Imm Ty.AccType acc_type].
Definition ReadMemory8 := memory_read Op.A64ReadMemory8.
Definition ReadMemory16 := memory_read Op.A64ReadMemory16.
Definition ReadMemory32 := memory_read Op.A64ReadMemory32.
Definition ReadMemory64 := memory_read Op.A64ReadMemory64.
Definition ReadMemory128 := memory_read Op.A64ReadMemory128.
Definition ExclusiveReadMemory8 := memory_read Op.A64ExclusiveReadMemory8.
Definition ExclusiveReadMemory16 := memory_read Op.A64ExclusiveReadMemory16.
Definition ExclusiveReadMemory32 := memory_read Op.A64ExclusiveReadMemory32.
Definition ExclusiveReadMemory64 := memory_read Op.A64ExclusiveReadMemory64.
Definition ExclusiveReadMemory128 := memory_read Op.A64ExclusiveReadMemory128.
Definition WriteMemory8 (vaddr value : Value) (acc_type : Z) : M Emitter unit := memory_write Op.A64WriteMemory8 vaddr value acc_type ;; ret tt.
Definition WriteMemory16 (vaddr value : Value) (acc_type : Z) : M Emitter unit := memory_write Op.A64WriteMemory16 vaddr value acc_type ;; ret tt.
Definition WriteMemory32 (vaddr value : Value) (acc_type : Z) : M Emitter unit := memory_write Op.A64WriteMemory32 vaddr value acc_type ;; ret tt.
Definition WriteMemory64 (vaddr value : Value) (acc_type : Z) : M Emitter unit := memory_write Op.A64WriteMemory64 vaddr value acc_type ;; ret tt.
Definition WriteMemory128 (vaddr value : Value) (acc_type : Z) : M Emitter unit := memory_write Op.A64WriteMemory128 vaddr value acc_type ;; ret tt.
Definition ExclusiveWriteMemory8 := memory_write Op.A64ExclusiveWriteMemory8.
Definition ExclusiveWriteMemory16 := memory_write Op.A64ExclusiveWriteMemory16.
Definition ExclusiveWriteMemory32 := memory_write Op.A64ExclusiveWriteMemory32.
Definition ExclusiveWriteMemory64 := memory_write Op.A64ExclusiveWriteMemory64.
Definition ExclusiveWriteMemory128 := memory_write Op.A64ExclusiveWriteMemory128.
Definition SetTerm (t : Terminal) : M Emitter unit := fun e =>
  match SetTerminal t (block e) with Ret b => (Ret tt, with_block b e) | Throw x => (Throw x, e) | Stop f => (Stop f, e) end.
End ir.
