(* ===== verification/A64Visitor.v ===== *)
(** The translator of integer instructions: [TranslatorVisitor] of
    frontend/A64/translate/impl/impl.{h,cpp} with its methods in
    data_processing_*.cpp, move_wide.cpp, system*.cpp, a64_branch.cpp and
    a64_exception_generating.cpp.  Arguments of a call that emit instructions themselves
    are taken from left to right; C++ leaves their order open. *)
From S2P Require Import Prelude Bits IrOpcodes A64Imm Ir A64Jit A64Decoder IrEmitter.
Local Open Scope Z_scope.

Record TranslationOptions : Type := { define_unpredictable_behaviour : bool; wall_clock_cntpct : bool; hook_hint_instructions : bool }.
(** [Exception] of interface/A64/config.h, by number. *)
Module Exception.
Definition UnallocatedEncoding : Z := 0.
Definition ReservedValue : Z := 1.
Definition UnpredictableInstruction : Z := 2.
Definition WaitForInterrupt : Z := 3.
Definition WaitForEvent : Z := 4.
Definition SendEvent : Z := 5.
Definition SendEventLocal : Z := 6.
Definition Yield : Z := 7.
Definition Breakpoint : Z := 8.
Definition NoExecuteFault : Z := 9.
End Exception.

Module visitor.
Abbreviation loc := (gets current_location).
(** ** impl.cpp *)
Definition InterpretThisInstruction : M Emitter bool :=
  let! l := loc in ir.SetTerm (Interpret (LocationDescriptor.UniqueHash l) 1) ;; ret false.
Definition RaiseException (exception : Z) : M Emitter bool :=
  let! l := loc in
  ir.SetPC (ir.Imm64 (u64 (LocationDescriptor.PC l + 4))) ;;
  ir.ExceptionRaised exception ;;
  ir.SetTerm (CheckHalt ReturnToDispatch) ;;
  ret false.
Definition UnpredictableInstruction : M Emitter bool := RaiseException Exception.UnpredictableInstruction.
Definition ReservedValue : M Emitter bool := RaiseException Exception.ReservedValue.
Definition UnallocatedEncoding : M Emitter bool := RaiseException Exception.UnallocatedEncoding.
Definition I (bitsize value : Z) : M Emitter Value :=
  if bitsize =? 8 then ret (ir.Imm8 (u8 value)) else if bitsize =? 16 then ret (ir.Imm16 (u16 value))
  else if bitsize =? 32 then ret (ir.Imm32 (u32 value)) else if bitsize =? 64 then ret (ir.Imm64 value) else stop AssertFailed.
Definition X (bitsize reg : Z) : M Emitter Value :=
  if bitsize =? 8 then let! w := ir.GetW reg in ir.LeastSignificantByte w
  else if bitsize =? 16 then let! w := ir.GetW reg in ir.LeastSignificantHalf w
  else if bitsize =? 32 then ir.GetW reg else if bitsize =? 64 then ir.GetX reg else stop AssertFailed.
Definition set_X (bitsize reg : Z) (value : Value) : M Emitter unit :=
  if bitsize =? 32 then ir.SetW reg value else if bitsize =? 64 then ir.SetX reg value else stop AssertFailed.
Definition SP (bitsize : Z) : M Emitter Value :=
  if bitsize =? 32 then let! sp := ir.GetSP in ir.LeastSignificantWord sp else if bitsize =? 64 then ir.GetSP else stop AssertFailed.
Definition set_SP (bitsize : Z) (value : Value) : M Emitter unit :=
  if bitsize =? 32 then let! v := ir.ZeroExtendWordToLong value in ir.SetSP v else if bitsize =? 64 then ir.SetSP value else stop AssertFailed.
Definition ShiftReg (bitsize reg shift : Z) (amount : Value) : M Emitter Value :=
  let! result := X bitsize reg in
  if shift =? 0 then ir.LogicalShiftLeft result amount
  else if shift =? 1 then ir.LogicalShiftRight result amount
  else if shift =? 2 then ir.ArithmeticShiftRight result amount
  else if shift =? 3 then ir.RotateRight result amount
  else stop Undefined.
(** The value the option selects, its length and whether it is signed. *)
Definition extend_source (bitsize option : Z) (val : Value) : M Emitter (Value * Z * bool) :=
  if option =? 0 then let! v := ir.LeastSignificantByte val in ret (v, 8, false)
  else if option =? 1 then let! v := ir.LeastSignificantHalf val in ret (v, 16, false)
  else if option =? 2 then let! v := (if bitsize =? 32 then ret val else ir.LeastSignificantWord val) in ret (v, 32, false)
  else if option =? 3 then ret (val, 64, false)
  else if option =? 4 then let! v := ir.LeastSignificantByte val in ret (v, 8, true)
  else if option =? 5 then let! v := ir.LeastSignificantHalf val in ret (v, 16, true)
  else if option =? 6 then let! v := (if bitsize =? 32 then ret val else ir.LeastSignificantWord val) in ret (v, 32, true)
  else if option =? 7 then ret (val, 64, true)
  else stop Undefined.
Definition ExtendReg (bitsize reg option shift : Z) : M Emitter Value :=
  assert_ (shift <=? 4) ;; assert_ ((bitsize =? 32) || (bitsize =? 64)) ;;
  let! val := X bitsize reg in
  let! r := extend_source bitsize option val in
  let '(val, len, signed_extend) := r in
  let! extended :=
    (if len <? bitsize then
       if bitsize =? 32 then if signed_extend : bool then ir.SignExtendToWord val else ir.ZeroExtendToWord val
       else if signed_extend : bool then ir.SignExtendToLong val else ir.ZeroExtendToLong val
     else ret val) in
  ir.LogicalShiftLeft extended (ir.Imm8 shift).

(** [sf ? 64 : 32]. *)
Definition datasize (sf : bool) : Z := if sf then 64 else 32.
Definition Reg_SP : Z := 31.
(** [Rn == Reg::SP ? SP(datasize) : X(datasize, Rn)] and the assignment. *)
Definition X_or_SP (bitsize Rn : Z) : M Emitter Value := if Rn =? Reg_SP then SP bitsize else X bitsize Rn.
Definition set_X_or_SP (bitsize Rd : Z) (value : Value) : M Emitter unit := if Rd =? Reg_SP then set_SP bitsize value else set_X bitsize Rd value.
Definition set_flags_from (value : Value) : M Emitter unit := let! nzcv := ir.NZCVFrom value in ir.SetNZCV nzcv.

(** ** data_processing_addsub.cpp *)
Abbreviation binary := (Value -> Value -> M Emitter Value).
(** The [switch] on the shift. *)
Definition imm12_shifted (shift imm12 : Z) : option Z := if shift =? 0 then Some imm12 else if shift =? 1 then Some (u64 (Z.shiftl imm12 12)) else None.
Definition addsub_imm (f : binary) (sf : bool) (shift imm12 Rn Rd : Z) : M Emitter bool :=
  match imm12_shifted shift imm12 with
  | None => ReservedValue
  | Some imm =>
      let! operand1 := X_or_SP (datasize sf) Rn in
      let! i := I (datasize sf) imm in
      let! result := f operand1 i in
      set_X_or_SP (datasize sf) Rd result ;; ret true
  end.
Definition addsub_imm_flags (f : binary) (sf : bool) (shift imm12 Rn Rd : Z) : M Emitter bool :=
  match imm12_shifted shift imm12 with
  | None => ReservedValue
  | Some imm =>
      let! operand1 := X_or_SP (datasize sf) Rn in
      let! i := I (datasize sf) imm in
      let! result := f operand1 i in
      set_flags_from result ;; set_X (datasize sf) Rd result ;; ret true
  end.
Definition ADD_imm := addsub_imm ir.Add.
Definition ADDS_imm := addsub_imm_flags ir.Add.
Definition SUB_imm := addsub_imm ir.Sub.
Definition SUBS_imm := addsub_imm_flags ir.Sub.
Definition addsub_shift (f : binary) (flags sf : bool) (shift Rm imm6 Rn Rd : Z) : M Emitter bool :=
  if shift =? 3 then ReservedValue
  else if negb sf && bit.get_bit 32 5 imm6 then ReservedValue
  else
    let! operand1 := X (datasize sf) Rn in
    let! operand2 := ShiftReg (datasize sf) Rm shift (ir.Imm8 imm6) in
    let! result := f operand1 operand2 in
    (if flags then set_flags_from result else ret tt) ;;
    set_X (datasize sf) Rd result ;; ret true.
Definition ADD_shift := addsub_shift ir.Add false.
Definition ADDS_shift := addsub_shift ir.Add true.
Definition SUB_shift := addsub_shift ir.Sub false.
Definition SUBS_shift := addsub_shift ir.Sub true.
Definition addsub_ext (f : binary) (sf : bool) (Rm option imm3 Rn Rd : Z) : M Emitter bool :=
  if 4 <? imm3 then ReservedValue
  else
    let! operand1 := X_or_SP (datasize sf) Rn in
    let! operand2 := ExtendReg (datasize sf) Rm option imm3 in
    let! result := f operand1 operand2 in
    set_X_or_SP (datasize sf) Rd result ;; ret true.
Definition addsub_ext_flags (f : binary) (sf : bool) (Rm option imm3 Rn Rd : Z) : M Emitter bool :=
  if 4 <? imm3 then ReservedValue
  else
    let! operand1 := X_or_SP (datasize sf) Rn in
    let! operand2 := ExtendReg (datasize sf) Rm option imm3 in
    let! result := f operand1 operand2 in
    set_flags_from result ;; set_X (datasize sf) Rd result ;; ret true.
Definition ADD_ext := addsub_ext ir.Add.
Definition ADDS_ext := addsub_ext_flags ir.Add.
Definition SUB_ext := addsub_ext ir.Sub.
Definition SUBS_ext := addsub_ext_flags ir.Sub.
Definition addsub_carry (f : Value -> Value -> Value -> M Emitter Value) (flags sf : bool) (Rm Rn Rd : Z) : M Emitter bool :=
  let! operand1 := X (datasize sf) Rn in
  let! operand2 := X (datasize sf) Rm in
  let! c := ir.GetCFlag in
  let! result := f operand1 operand2 c in
  (if flags then set_flags_from result else ret tt) ;;
  set_X (datasize sf) Rd result ;; ret true.
Definition ADC := addsub_carry ir.AddWithCarry false.
Definition ADCS := addsub_carry ir.AddWithCarry true.
Definition SBC := addsub_carry ir.SubWithCarry false.
Definition SBCS := addsub_carry ir.SubWithCarry true.

(** ** data_processing_logical.cpp *)
Definition logical_mask (sf N : bool) (immr imms : Z) : option Z :=
  if negb sf && N then None else match DecodeBitMasks N imms immr true with Some (wmask, _) => Some wmask | None => None end.
Definition logical_imm (f : binary) (sf N : bool) (immr imms Rn Rd : Z) : M Emitter bool :=
  match logical_mask sf N immr imms with
  | None => ReservedValue
  | Some imm =>
      let! operand1 := X (datasize sf) Rn in
      let! i := I (datasize sf) imm in
      let! result := f operand1 i in
      set_X_or_SP (datasize sf) Rd result ;; ret true
  end.
Definition AND_imm := logical_imm ir.And.
Definition ORR_imm := logical_imm ir.Or.
Definition EOR_imm := logical_imm ir.Eor.
Definition ANDS_imm (sf N : bool) (immr imms Rn Rd : Z) : M Emitter bool :=
  match logical_mask sf N immr imms with
  | None => ReservedValue
  | Some imm =>
      let! operand1 := X (datasize sf) Rn in
      let! i := I (datasize sf) imm in
      let! result := ir.And operand1 i in
      set_flags_from result ;; set_X (datasize sf) Rd result ;; ret true
  end.
(** [inverted]: the shifted operand goes through [ir.Not]. *)
Definition logical_shift (f : binary) (inverted flags sf : bool) (shift Rm imm6 Rn Rd : Z) : M Emitter bool :=
  if negb sf && bit.get_bit 32 5 imm6 then ReservedValue
  else
    let! operand1 := X (datasize sf) Rn in
    let! shifted := ShiftReg (datasize sf) Rm shift (ir.Imm8 imm6) in
    let! operand2 := (if inverted then ir.Not shifted else ret shifted) in
    let! result := f operand1 operand2 in
    (if flags then set_flags_from result else ret tt) ;;
    set_X (datasize sf) Rd result ;; ret true.
Definition AND_shift := logical_shift ir.And false false.
Definition BIC_shift := logical_shift ir.AndNot false false.
Definition ORR_shift := logical_shift ir.Or false false.
Definition ORN_shift := logical_shift ir.Or true false.
Definition EOR_shift := logical_shift ir.Eor false false.
Definition EON := logical_shift ir.Eor true false.
Definition ANDS_shift := logical_shift ir.And false true.
Definition BICS := logical_shift ir.AndNot false true.

(** ** move_wide.cpp *)
Definition MOVN (sf : bool) (hw imm16 Rd : Z) : M Emitter bool :=
  if negb sf && bit.get_bit 32 1 hw then UnallocatedEncoding
  else
    let pos := Z.shiftl hw 4 in
    let value := u64 (Z.shiftl imm16 pos) in
    let value := not_ 64 value in
    let! result := I (datasize sf) value in
    set_X (datasize sf) Rd result ;; ret true.
Definition MOVZ (sf : bool) (hw imm16 Rd : Z) : M Emitter bool :=
  if negb sf && bit.get_bit 32 1 hw then UnallocatedEncoding
  else
    let pos := Z.shiftl hw 4 in
    let value := u64 (Z.shiftl imm16 pos) in
    let! result := I (datasize sf) value in
    set_X (datasize sf) Rd result ;; ret true.
Definition MOVK (sf : bool) (hw imm16 Rd : Z) : M Emitter bool :=
  if negb sf && bit.get_bit 32 1 hw then UnallocatedEncoding
  else
    let pos := Z.shiftl hw 4 in
    let mask := u64 (Z.shiftl 0xFFFF pos) in
    let value := u64 (Z.shiftl imm16 pos) in
    let! result := X (datasize sf) Rd in
    let! m := I (datasize sf) (not_ 64 mask) in
    let! result := ir.And result m in
    let! v := I (datasize sf) value in
    let! result := ir.Or result v in
    set_X (datasize sf) Rd result ;; ret true.

(** ** data_processing_bitfield.cpp *)

(** The checks in front; the masks. *)
Definition bitfield_masks (sf N : bool) (immr imms : Z) : option (Z * Z) :=
  if sf && negb N then None
  else if negb sf && (N || bit.get_bit 32 5 immr || bit.get_bit 32 5 imms) then None
  else DecodeBitMasks N imms immr false.
Definition SBFM (sf N : bool) (immr imms Rn Rd : Z) : M Emitter bool :=
  match bitfield_masks sf N immr imms with
  | None => ReservedValue
  | Some (wmask, tmask) =>
      let! src := X (datasize sf) Rn in
      let! rotated := ir.RotateRight src (ir.Imm8 immr) in
      let! w := I (datasize sf) wmask in
      let! bot := ir.And rotated w in
      let! top := ir.ReplicateBit src imms in
      let! nt := I (datasize sf) (not_ 64 tmask) in
      let! top := ir.And top nt in
      let! t := I (datasize sf) tmask in
      let! bot := ir.And bot t in
      let! result := ir.Or top bot in
      set_X (datasize sf) Rd result ;; ret true
  end.
Definition BFM (sf N : bool) (immr imms Rn Rd : Z) : M Emitter bool :=
  match bitfield_masks sf N immr imms with
  | None => ReservedValue
  | Some (wmask, tmask) =>
      let! dst := X (datasize sf) Rd in
      let! src := X (datasize sf) Rn in
      let! nw := I (datasize sf) (not_ 64 wmask) in
      let! kept := ir.And dst nw in
      let! rotated := ir.RotateRight src (ir.Imm8 immr) in
      let! w := I (datasize sf) wmask in
      let! moved := ir.And rotated w in
      let! bot := ir.Or kept moved in
      let! nt := I (datasize sf) (not_ 64 tmask) in
      let! top := ir.And dst nt in
      let! t := I (datasize sf) tmask in
      let! bot := ir.And bot t in
      let! result := ir.Or top bot in
      set_X (datasize sf) Rd result ;; ret true
  end.
Definition UBFM (sf N : bool) (immr imms Rn Rd : Z) : M Emitter bool :=
  match bitfield_masks sf N immr imms with
  | None => ReservedValue
  | Some (wmask, tmask) =>
      let! src := X (datasize sf) Rn in
      let! rotated := ir.RotateRight src (ir.Imm8 immr) in
      let! w := I (datasize sf) wmask in
      let! bot := ir.And rotated w in
      let! t := I (datasize sf) tmask in
      let! result := ir.And bot t in
      set_X (datasize sf) Rd result ;; ret true
  end.
Definition ASR_1 (immr Rn Rd : Z) : M Emitter bool :=
  let! src := X 32 Rn in
  let! result := ir.ArithmeticShiftRightMasked src (ir.Imm32 immr) in
  set_X 32 Rd result ;; ret true.
Definition ASR_2 (immr Rn Rd : Z) : M Emitter bool :=
  let! src := X 64 Rn in
  let! result := ir.ArithmeticShiftRightMasked src (ir.Imm64 immr) in
  set_X 64 Rd result ;; ret true.
Definition SXTB_1 (Rn Rd : Z) : M Emitter bool :=
  let! src := X 32 Rn in
  let! low := ir.LeastSignificantByte src in
  let! result := ir.SignExtendToWord low in
  set_X 32 Rd result ;; ret true.
Definition SXTB_2 (Rn Rd : Z) : M Emitter bool :=
  let! src := X 64 Rn in
  let! low := ir.LeastSignificantByte src in
  let! result := ir.SignExtendToLong low in
  set_X 64 Rd result ;; ret true.
Definition SXTH_1 (Rn Rd : Z) : M Emitter bool :=
  let! src := X 32 Rn in
  let! low := ir.LeastSignificantHalf src in
  let! result := ir.SignExtendToWord low in
  set_X 32 Rd result ;; ret true.
Definition SXTH_2 (Rn Rd : Z) : M Emitter bool :=
  let! src := X 64 Rn in
  let! low := ir.LeastSignificantHalf src in
  let! result := ir.SignExtendToLong low in
  set_X 64 Rd result ;; ret true.
Definition SXTW (Rn Rd : Z) : M Emitter bool :=
  let! src := X 64 Rn in
  let! low := ir.LeastSignificantWord src in
  let! result := ir.SignExtendToLong low in
  set_X 64 Rd result ;; ret true.
Definition EXTR (sf N : bool) (Rm imms Rn Rd : Z) : M Emitter bool :=
  if xorb N sf then UnallocatedEncoding
  else if negb sf && bit.get_bit 32 5 imms then ReservedValue
  else
    let! m := X (datasize sf) Rm in
    let! n := X (datasize sf) Rn in
    let! result := ir.ExtractRegister m n (ir.Imm8 imms) in
    set_X (datasize sf) Rd result ;; ret true.

(** ** data_processing_shift.cpp *)
Definition shift_variable (f : binary) (sf : bool) (Rm Rn Rd : Z) : M Emitter bool :=
  let! operand := X (datasize sf) Rn in
  let! shift_amount := X (datasize sf) Rm in
  let! result := f operand shift_amount in
  set_X (datasize sf) Rd result ;; ret true.
Definition LSLV := shift_variable ir.LogicalShiftLeftMasked.
Definition LSRV := shift_variable ir.LogicalShiftRightMasked.
Definition ASRV := shift_variable ir.ArithmeticShiftRightMasked.
Definition RORV := shift_variable ir.RotateRightMasked.

(** ** data_processing_pcrel.cpp *)
Definition lift {A} (o : outcome A) : M Emitter A := fun e => (o, e).
Definition ADR (immlo immhi Rd : Z) : M Emitter bool :=
  let! c := lift (concatenate [(19, immhi); (2, immlo)]) in
  let imm := bit.sign_extend 64 21 (snd c) in
  let! base := ir.PC in
  set_X 64 Rd (ir.Imm64 (u64 (base + imm))) ;; ret true.
Definition ADRP (immlo immhi Rd : Z) : M Emitter bool :=
  let! c := lift (concatenate [(19, immhi); (2, immlo)]) in
  let imm := u64 (Z.shiftl (bit.sign_extend 64 21 (snd c)) 12) in
  let! pc := ir.PC in
  let base := Z.land pc (not_ 64 0xFFF) in
  set_X 64 Rd (ir.Imm64 (u64 (base + imm))) ;; ret true.

(** ** data_processing_conditional_select.cpp *)
Definition conditional_select (f : Z -> Value -> M Emitter Value) (sf : bool) (Rm cond Rn Rd : Z) : M Emitter bool :=
  let! operand1 := X (datasize sf) Rn in
  let! operand2 := X (datasize sf) Rm in
  let! other := f (datasize sf) operand2 in
  let! result := ir.ConditionalSelect cond operand1 other in
  set_X (datasize sf) Rd result ;; ret true.
Definition CSEL := conditional_select (fun _ v => ret v).
Definition CSINC := conditional_select (fun size v => let! one := I size 1 in ir.Add v one).
Definition CSINV := conditional_select (fun _ v => ir.Not v).
Definition CSNEG := conditional_select (fun size v => let! n := ir.Not v in let! one := I size 1 in ir.Add n one).

(** ** data_processing_conditional_compare.cpp *)
Definition compare_flags (f : binary) (cond : Z) (operand1 operand2 : Value) (nzcv : Z) : M Emitter bool :=
  let flags := u32 (Z.shiftl nzcv 28) in
  let! result := f operand1 operand2 in
  let! then_flags := ir.NZCVFrom result in
  let! else_flags := ir.NZCVFromPackedFlags (ir.Imm32 flags) in
  let! selected := ir.ConditionalSelectNZCV cond then_flags else_flags in
  ir.SetNZCV selected ;; ret true.
Definition CCMN_reg (sf : bool) (Rm cond Rn nzcv : Z) : M Emitter bool :=
  let! operand1 := X (datasize sf) Rn in
  let! operand2 := X (datasize sf) Rm in
  compare_flags (fun a b => ir.AddWithCarry a b (ir.Imm1 false)) cond operand1 operand2 nzcv.
Definition CCMP_reg (sf : bool) (Rm cond Rn nzcv : Z) : M Emitter bool :=
  let! operand1 := X (datasize sf) Rn in
  let! operand2 := X (datasize sf) Rm in
  compare_flags (fun a b => ir.SubWithCarry a b (ir.Imm1 true)) cond operand1 operand2 nzcv.
Definition CCMN_imm (sf : bool) (imm5 cond Rn nzcv : Z) : M Emitter bool :=
  let! operand1 := X (datasize sf) Rn in
  let! operand2 := I (datasize sf) imm5 in
  compare_flags (fun a b => ir.AddWithCarry a b (ir.Imm1 false)) cond operand1 operand2 nzcv.
Definition CCMP_imm (sf : bool) (imm5 cond Rn nzcv : Z) : M Emitter bool :=
  let! operand1 := X (datasize sf) Rn in
  let! operand2 := I (datasize sf) imm5 in
  compare_flags (fun a b => ir.SubWithCarry a b (ir.Imm1 true)) cond operand1 operand2 nzcv.

(** ** data_processing_multiply.cpp *)
Definition multiply (f : binary) (sf : bool) (Rm Ra Rn Rd : Z) : M Emitter bool :=
  let! a := X (datasize sf) Ra in
  let! m := X (datasize sf) Rm in
  let! n := X (datasize sf) Rn in
  let! product := ir.Mul n m in
  let! result := f a product in
  set_X (datasize sf) Rd result ;; ret true.
Definition MADD := multiply ir.Add.
Definition MSUB := multiply ir.Sub.
Definition multiply_long (extend : Value -> M Emitter Value) (f : binary) (Rm Ra Rn Rd : Z) : M Emitter bool :=
  let! a := X 64 Ra in
  let! wm := X 32 Rm in
  let! m := extend wm in
  let! wn := X 32 Rn in
  let! n := extend wn in
  let! product := ir.Mul n m in
  let! result := f a product in
  set_X 64 Rd result ;; ret true.
Definition SMADDL := multiply_long ir.SignExtendToLong ir.Add.
Definition SMSUBL := multiply_long ir.SignExtendToLong ir.Sub.
Definition UMADDL := multiply_long ir.ZeroExtendToLong ir.Add.
Definition UMSUBL := multiply_long ir.ZeroExtendToLong ir.Sub.
Definition multiply_high (f : binary) (Rm Rn Rd : Z) : M Emitter bool :=
  let! m := X 64 Rm in
  let! n := X 64 Rn in
  let! result := f n m in
  set_X 64 Rd result ;; ret true.
Definition SMULH := multiply_high ir.SignedMultiplyHigh.
Definition UMULH := multiply_high ir.UnsignedMultiplyHigh.

(** ** data_processing_register.cpp *)
Definition CLZ_int (sf : bool) (Rn Rd : Z) : M Emitter bool :=
  let! operand := X (datasize sf) Rn in
  let! result := ir.CountLeadingZeros operand in
  set_X (datasize sf) Rd result ;; ret true.
Definition CLS_int (sf : bool) (Rn Rd : Z) : M Emitter bool :=
  let! operand := X (datasize sf) Rn in
  let! sign := ir.ArithmeticShiftRight operand (ir.Imm8 (u8 (datasize sf))) in
  let! changes := ir.Eor operand sign in
  let! zeros := ir.CountLeadingZeros changes in
  let! one := I (datasize sf) 1 in
  let! result := ir.Sub zeros one in
  set_X (datasize sf) Rd result ;; ret true.
(** [x = (x & mask) << n | ((x >> n) & mask)]. *)
Definition swap_groups (x : Value) (mask n : Z) : M Emitter Value :=
  let! low := ir.And x (ir.Imm32 mask) in
  let! lsl := ir.LogicalShiftLeft low (ir.Imm8 n) in
  let! high := ir.LogicalShiftRight x (ir.Imm8 n) in
  let! lsr := ir.And high (ir.Imm32 mask) in
  ir.Or lsl lsr.
Definition rbit32 (operand : Value) : M Emitter Value :=
  let! first := swap_groups operand 0x55555555 1 in
  let! second := swap_groups first 0x33333333 2 in
  let! third := swap_groups second 0x0F0F0F0F 4 in
  let! l24 := ir.LogicalShiftLeft third (ir.Imm8 24) in
  let! m8 := ir.And third (ir.Imm32 0xFF00) in
  let! l8 := ir.LogicalShiftLeft m8 (ir.Imm8 8) in
  let! fourth_lsl := ir.Or l24 l8 in
  let! s8 := ir.LogicalShiftRight third (ir.Imm8 8) in
  let! r8 := ir.And s8 (ir.Imm32 0xFF00) in
  let! r24 := ir.LogicalShiftRight third (ir.Imm8 24) in
  let! fourth_lsr := ir.Or r8 r24 in
  ir.Or fourth_lsl fourth_lsr.
Definition RBIT_int (sf : bool) (Rn Rd : Z) : M Emitter bool :=
  let! operand := X (datasize sf) Rn in
  if sf then
    let! low := ir.LeastSignificantWord operand in
    let! lsw := rbit32 low in
    let! high := ir.MostSignificantWord operand in
    let! msw := rbit32 (fst high) in
    let! result := ir.Pack2x32To1x64 msw lsw in
    set_X (datasize sf) Rd result ;; ret true
  else
    let! result := rbit32 operand in
    set_X (datasize sf) Rd result ;; ret true.
Definition REV (sf opc_0 : bool) (Rn Rd : Z) : M Emitter bool :=
  if negb sf && opc_0 then UnallocatedEncoding
  else
    let! operand := X (datasize sf) Rn in
    let! result := (if sf then ir.ByteReverseDual operand else ir.ByteReverseWord operand) in
    set_X (datasize sf) Rd result ;; ret true.
Definition REV32_int (Rn Rd : Z) : M Emitter bool :=
  let! operand := ir.GetX Rn in
  let! low := ir.LeastSignificantWord operand in
  let! lo := ir.ByteReverseWord low in
  let! high := ir.MostSignificantWord operand in
  let! hi := ir.ByteReverseWord (fst high) in
  let! result := ir.Pack2x32To1x64 lo hi in
  set_X 64 Rd result ;; ret true.
Definition REV16_int (sf : bool) (Rn Rd : Z) : M Emitter bool :=
  let mask (m64 m32 : Z) := if sf then ir.Imm64 m64 else ir.Imm32 m32 in
  let! operand := X (datasize sf) Rn in
  let! down := ir.LogicalShiftRight operand (ir.Imm8 8) in
  let! hihalf := ir.And down (mask 0x00FF00FF00FF00FF 0x00FF00FF) in
  let! up := ir.LogicalShiftLeft operand (ir.Imm8 8) in
  let! lohalf := ir.And up (mask 0xFF00FF00FF00FF00 0xFF00FF00) in
  let! result := ir.Or hihalf lohalf in
  set_X (datasize sf) Rd result ;; ret true.
Definition divide (f : binary) (sf : bool) (Rm Rn Rd : Z) : M Emitter bool :=
  let! m := X (datasize sf) Rm in
  let! n := X (datasize sf) Rn in
  let! result := f n m in
  set_X (datasize sf) Rd result ;; ret true.
Definition UDIV := divide ir.UnsignedDiv.
Definition SDIV := divide ir.SignedDiv.

(** ** data_processing_crc32.cpp *)
Definition crc32 (f : Z -> Value -> Value -> M Emitter Value) (sf : bool) (Rm sz Rn Rd : Z) : M Emitter bool :=
  if sf && negb (sz =? 3) then UnallocatedEncoding
  else if negb sf && (sz =? 3) then UnallocatedEncoding
  else
    let! accumulator := ir.GetW Rn in
    let! data := X (datasize sf) Rm in
    let! result := f sz accumulator data in
    set_X 32 Rd result ;; ret true.
Definition CRC32 := crc32 ir.CRC32ISO.
Definition CRC32C := crc32 ir.CRC32Castagnoli.

(** ** system_flag_manipulation.cpp and system_flag_format.cpp *)
Definition CFINV : M Emitter bool :=
  let! nzcv := ir.GetNZCVRaw in
  let! result := ir.Eor nzcv (ir.Imm32 0x20000000) in
  ir.SetNZCVRaw result ;; ret true.
Definition RMIF (lsb Rn mask : Z) : M Emitter bool :=
  if mask =? 0 then let! nzcv := ir.GetNZCVRaw in ir.SetNZCVRaw nzcv ;; ret true
  else
    let! tmp_reg := ir.GetX Rn in
    let! rotated := ir.RotateRight tmp_reg (ir.Imm8 lsb) in
    let! up := ir.LogicalShiftLeft rotated (ir.Imm8 28) in
    let! shifted := ir.LeastSignificantWord up in
    if mask =? 15 then ir.SetNZCVRaw shifted ;; ret true
    else
      let keep k b := if Z.land mask k =? 0 then Z.shiftl 1 b else 0 in
      let preservation_mask := Z.lor (Z.lor (Z.lor (keep 8 31) (keep 4 30)) (keep 2 29)) (keep 1 28) in
      let! masked := ir.And shifted (ir.Imm32 (not_ 32 preservation_mask)) in
      let! nzcv := ir.GetNZCVRaw in
      let! kept := ir.And nzcv (ir.Imm32 preservation_mask) in
      let! result := ir.Or kept masked in
      ir.SetNZCVRaw result ;; ret true.
Definition AXFlag : M Emitter bool :=
  let! nzcv := ir.GetNZCVRaw in
  let! z := ir.And nzcv (ir.Imm32 0x40000000) in
  let! c := ir.And nzcv (ir.Imm32 0x20000000) in
  let! v := ir.And nzcv (ir.Imm32 0x10000000) in
  let! v2 := ir.LogicalShiftLeft v (ir.Imm8 2) in
  let! new_z := ir.Or v2 z in
  let! v1 := ir.LogicalShiftLeft v (ir.Imm8 1) in
  let! cv := ir.AndNot c v1 in
  let! new_c := ir.And cv (ir.Imm32 0x20000000) in
  let! result := ir.Or new_z new_c in
  ir.SetNZCVRaw result ;; ret true.
Definition XAFlag : M Emitter bool :=
  let! nzcv := ir.GetNZCVRaw in
  let! z := ir.And nzcv (ir.Imm32 0x40000000) in
  let! c := ir.And nzcv (ir.Imm32 0x20000000) in
  let! not_z := ir.AndNot (ir.Imm32 0x40000000) z in
  let! not_c := ir.AndNot (ir.Imm32 0x20000000) c in
  let! c2 := ir.LogicalShiftLeft not_c (ir.Imm8 2) in
  let! z1 := ir.LogicalShiftLeft not_z (ir.Imm8 1) in
  let! new_n := ir.And c2 z1 in
  let! c1 := ir.LogicalShiftLeft c (ir.Imm8 1) in
  let! new_z := ir.And z c1 in
  let! zr := ir.LogicalShiftRight z (ir.Imm8 1) in
  let! new_c := ir.Or c zr in
  let! cr := ir.LogicalShiftRight not_c (ir.Imm8 1) in
  let! zr2 := ir.LogicalShiftRight z (ir.Imm8 2) in
  let! new_v := ir.And cr zr2 in
  let! nz := ir.Or new_n new_z in
  let! nzc := ir.Or nz new_c in
  let! result := ir.Or nzc new_v in
  ir.SetNZCVRaw result ;; ret true.

(** ** a64_branch.cpp *)

(** [concatenate(imm, Imm<2>{0}).SignExtend<s64>()]. *)
Definition branch_offset (size imm : Z) : M Emitter Z :=
  let! c := lift (concatenate [(size, imm); (2, 0)]) in ret (SignExtend 64 (size + 2) (snd c)).
Definition LinkTo (l : LocationDescriptor.t) : Terminal := LinkBlock (LocationDescriptor.UniqueHash l).
(** The locations of a branch: where it goes and the next instruction. *)
Definition branch_locations (offset : Z) : M Emitter (Terminal * Terminal) :=
  let! pc := ir.PC in
  let target := u64 (pc + offset) in
  let! l := loc in
  ret (LinkTo (LocationDescriptor.SetPC l target), LinkTo (LocationDescriptor.AdvancePC l 4)).
Definition B_cond (imm19 cond : Z) : M Emitter bool :=
  let! offset := branch_offset 19 imm19 in
  let! t := branch_locations offset in
  ir.SetTerm (If cond (fst t) (snd t)) ;; ret false.
Definition B_uncond (imm26 : Z) : M Emitter bool :=
  let! offset := branch_offset 26 imm26 in
  let! t := branch_locations offset in
  ir.SetTerm (fst t) ;; ret false.
(** The return address: in X30 and on the return stack buffer. *)
Definition link : M Emitter unit :=
  let! pc := ir.PC in
  set_X 64 30 (ir.Imm64 (u64 (pc + 4))) ;;
  let! l := loc in
  ir.PushRSB (LocationDescriptor.UniqueHash (LocationDescriptor.AdvancePC l 4)).
Definition BL (imm26 : Z) : M Emitter bool :=
  let! offset := branch_offset 26 imm26 in
  link ;;
  let! t := branch_locations offset in
  ir.SetTerm (fst t) ;; ret false.
Definition BLR (Rn : Z) : M Emitter bool :=
  let! target := X 64 Rn in
  link ;;
  ir.SetPC target ;;
  ir.SetTerm FastDispatchHint ;; ret false.
Definition BR (Rn : Z) : M Emitter bool :=
  let! target := X 64 Rn in
  ir.SetPC target ;;
  ir.SetTerm FastDispatchHint ;; ret false.
Definition RET (Rn : Z) : M Emitter bool :=
  let! target := X 64 Rn in
  ir.SetPC target ;;
  ir.SetTerm PopRSBHint ;; ret false.
Definition CBZ (sf : bool) (imm19 Rt : Z) : M Emitter bool :=
  let! offset := branch_offset 19 imm19 in
  let! operand1 := X (datasize sf) Rt in
  let! zero := ir.IsZero operand1 in
  ir.SetCheckBit zero ;;
  let! t := branch_locations offset in
  ir.SetTerm (CheckBit (fst t) (snd t)) ;; ret false.
Definition CBNZ (sf : bool) (imm19 Rt : Z) : M Emitter bool :=
  let! offset := branch_offset 19 imm19 in
  let! operand1 := X (datasize sf) Rt in
  let! zero := ir.IsZero operand1 in
  ir.SetCheckBit zero ;;
  let! t := branch_locations offset in
  ir.SetTerm (CheckBit (snd t) (fst t)) ;; ret false.
(** [TBZ] and [TBNZ] up to the terminal. *)
Definition test_bit (b5 b40 imm14 Rt : Z) : M Emitter (Terminal * Terminal) :=
  let size := if b5 =? 1 then 64 else 32 in
  let! bit_pos := lift (concatenate [(1, b5); (5, b40)]) in
  let! offset := branch_offset 14 imm14 in
  let! operand := X size Rt in
  let! bit := ir.TestBit operand (ir.Imm8 (snd bit_pos)) in
  ir.SetCheckBit bit ;;
  branch_locations offset.
Definition TBZ (b5 b40 imm14 Rt : Z) : M Emitter bool :=
  let! t := test_bit b5 b40 imm14 Rt in
  ir.SetTerm (CheckBit (snd t) (fst t)) ;; ret false.
Definition TBNZ (b5 b40 imm14 Rt : Z) : M Emitter bool :=
  let! t := test_bit b5 b40 imm14 Rt in
  ir.SetTerm (CheckBit (fst t) (snd t)) ;; ret false.

(** ** a64_exception_generating.cpp *)
Definition BRK (imm16 : Z) : M Emitter bool := RaiseException Exception.Breakpoint.
Definition SVC (imm16 : Z) : M Emitter bool :=
  let! l := loc in
  ir.PushRSB (LocationDescriptor.UniqueHash (LocationDescriptor.AdvancePC l 4)) ;;
  ir.SetPC (ir.Imm64 (u64 (LocationDescriptor.PC l + 4))) ;;
  ir.CallSupervisor imm16 ;;
  ir.SetTerm (CheckHalt PopRSBHint) ;; ret false.

(** ** system.cpp *)
Definition NOP : M Emitter bool := ret true.
Definition HINT (CRm op2 : Z) : M Emitter bool := ret true.
Definition hint (options : TranslationOptions) (exception : Z) : M Emitter bool :=
  if hook_hint_instructions options then RaiseException exception else ret true.
Definition YIELD (options : TranslationOptions) := hint options Exception.Yield.
Definition WFE (options : TranslationOptions) := hint options Exception.WaitForEvent.
Definition WFI (options : TranslationOptions) := hint options Exception.WaitForInterrupt.
Definition SEV (options : TranslationOptions) := hint options Exception.SendEvent.
Definition SEVL (options : TranslationOptions) := hint options Exception.SendEventLocal.
Definition CLREX (CRm : Z) : M Emitter bool := ir.ClearExclusive ;; ret true.
Definition DSB (CRm : Z) : M Emitter bool := ir.DataSynchronizationBarrier ;; ret true.
Definition DMB (CRm : Z) : M Emitter bool := ir.DataMemoryBarrier ;; ret true.
Definition ISB (CRm : Z) : M Emitter bool :=
  ir.InstructionSynchronizationBarrier ;;
  let! l := loc in
  ir.SetPC (ir.Imm64 (u64 (LocationDescriptor.PC l + 4))) ;;
  ir.SetTerm ReturnToDispatch ;; ret false.
(** [SystemRegisterEncoding]. *)
Definition CNTFRQ_EL0 : Z := 0xF980.
Definition CNTPCT_EL0 : Z := 0xF990.
Definition CTR_EL0 : Z := 0xC190.
Definition DCZID_EL0 : Z := 0xC1F0.
Definition FPCR : Z := 0xD184.
Definition FPSR : Z := 0xD194.
Definition NZCV : Z := 0xD182.
Definition TPIDR_EL0 : Z := 0xF5A0.
Definition TPIDRRO_EL0 : Z := 0xF5B0.
Definition system_register (o0 op1 CRn CRm op2 : Z) : M Emitter Z :=
  let! c := lift (concatenate [(1, 1); (1, o0); (4, CRn); (3, op1); (3, op2); (4, CRm)]) in ret (snd c).
Definition MSR_reg (o0 op1 CRn CRm op2 Rt : Z) : M Emitter bool :=
  let! sys_reg := system_register o0 op1 CRn CRm op2 in
  if sys_reg =? FPCR then
    let! v := X 32 Rt in
    ir.SetFPCR v ;;
    let! l := loc in
    ir.SetPC (ir.Imm64 (u64 (LocationDescriptor.PC l + 4))) ;;
    ir.SetTerm FastDispatchHint ;; ret false
  else if sys_reg =? FPSR then let! v := X 32 Rt in ir.SetFPSR v ;; ret true
  else if sys_reg =? NZCV then let! v := X 32 Rt in ir.SetNZCVRaw v ;; ret true
  else if sys_reg =? TPIDR_EL0 then let! v := X 64 Rt in ir.SetTPIDR v ;; ret true
  else InterpretThisInstruction.
Definition add_cycles (n : Z) : M Emitter unit := modify (fun e => with_block (with_terminal (terminal (block e)) (u64 (cycle_count (block e) + n)) (block e)) e).
Definition MRS (options : TranslationOptions) (o0 op1 CRn CRm op2 Rt : Z) : M Emitter bool :=
  let! sys_reg := system_register o0 op1 CRn CRm op2 in
  let read size (get : M Emitter Value) := let! v := get in set_X size Rt v ;; ret true in
  if sys_reg =? CNTFRQ_EL0 then read 32 ir.GetCNTFRQ
  else if sys_reg =? CNTPCT_EL0 then
    let! empty := gets (fun e => match instructions (block e) with [] => true | _ => false end) in
    if negb empty && negb (wall_clock_cntpct options) then
      add_cycles (-1) ;;
      let! l := loc in
      ir.SetTerm (LinkTo l) ;; ret false
    else read 64 ir.GetCNTPCT
  else if sys_reg =? CTR_EL0 then read 32 ir.GetCTR
  else if sys_reg =? DCZID_EL0 then read 32 ir.GetDCZID
  else if sys_reg =? FPCR then read 32 ir.GetFPCR
  else if sys_reg =? FPSR then read 32 ir.GetFPSR
  else if sys_reg =? NZCV then read 32 ir.GetNZCVRaw
  else if sys_reg =? TPIDR_EL0 then read 64 ir.GetTPIDR
  else if sys_reg =? TPIDRRO_EL0 then read 64 ir.GetTPIDRRO
  else InterpretThisInstruction.
End visitor.
