(* ===== verification/A64LoadStore.v ===== *)
(** The translator of loads and stores: the accesses of [TranslatorVisitor] to memory and
    to vectors (frontend/A64/translate/impl/impl.cpp) and its methods in load_store_*.cpp. *)
From S2P Require Import Prelude Bits IrOpcodes A64Imm Ir A64Jit A64Decoder IrEmitter A64Visitor.
Local Open Scope Z_scope.

(** [AccType] of ir/acc_type.h, by number. *)
Module AccType.
Definition NORMAL : Z := 0.
Definition VEC : Z := 1.
Definition ATOMIC : Z := 4.
Definition ORDERED : Z := 5.
Definition LIMITEDORDERED : Z := 7.
Definition UNPRIV : Z := 8.
End AccType.
Inductive MemOp : Type := LOAD | STORE | PREFETCH.

Module loadstore.
Import visitor.
(** ** impl.cpp *)
Definition V (bitsize vec : Z) : M Emitter Value :=
  if bitsize =? 32 then ir.GetS vec else if bitsize =? 64 then ir.GetD vec else if bitsize =? 128 then ir.GetQ vec else stop AssertFailed.
Definition set_V (bitsize vec : Z) (value : Value) : M Emitter unit :=
  if bitsize =? 32 then ir.SetS vec value
  else if bitsize =? 64 then let! v := ir.VectorZeroUpper value in ir.SetD vec v
  else if bitsize =? 128 then ir.SetQ vec value else stop AssertFailed.
Definition V_scalar (bitsize vec : Z) : M Emitter Value :=
  if bitsize =? 128 then V 128 vec else let! q := ir.GetQ vec in ir.VectorGetElement bitsize q 0.
Definition set_V_scalar (bitsize vec : Z) (value : Value) : M Emitter unit :=
  if bitsize =? 128 then set_V 128 vec value else let! q := ir.ZeroExtendToQuad value in ir.SetQ vec q.
Definition Mem (address : Value) (bytesize acc_type : Z) : M Emitter Value :=
  if bytesize =? 1 then ir.ReadMemory8 address acc_type
  else if bytesize =? 2 then ir.ReadMemory16 address acc_type
  else if bytesize =? 4 then ir.ReadMemory32 address acc_type
  else if bytesize =? 8 then ir.ReadMemory64 address acc_type
  else if bytesize =? 16 then ir.ReadMemory128 address acc_type
  else stop AssertFailed.
Definition set_Mem (address : Value) (bytesize acc_type : Z) (value : Value) : M Emitter unit :=
  if bytesize =? 1 then ir.WriteMemory8 address value acc_type
  else if bytesize =? 2 then ir.WriteMemory16 address value acc_type
  else if bytesize =? 4 then ir.WriteMemory32 address value acc_type
  else if bytesize =? 8 then ir.WriteMemory64 address value acc_type
  else if bytesize =? 16 then ir.WriteMemory128 address value acc_type
  else stop AssertFailed.
Definition ExclusiveMem (address : Value) (bytesize acc_type : Z) : M Emitter Value :=
  if bytesize =? 1 then ir.ExclusiveReadMemory8 address acc_type
  else if bytesize =? 2 then ir.ExclusiveReadMemory16 address acc_type
  else if bytesize =? 4 then ir.ExclusiveReadMemory32 address acc_type
  else if bytesize =? 8 then ir.ExclusiveReadMemory64 address acc_type
  else if bytesize =? 16 then ir.ExclusiveReadMemory128 address acc_type
  else stop AssertFailed.
Definition set_ExclusiveMem (address : Value) (bytesize acc_type : Z) (value : Value) : M Emitter Value :=
  if bytesize =? 1 then ir.ExclusiveWriteMemory8 address value acc_type
  else if bytesize =? 2 then ir.ExclusiveWriteMemory16 address value acc_type
  else if bytesize =? 4 then ir.ExclusiveWriteMemory32 address value acc_type
  else if bytesize =? 8 then ir.ExclusiveWriteMemory64 address value acc_type
  else if bytesize =? 16 then ir.ExclusiveWriteMemory128 address value acc_type
  else stop AssertFailed.
Definition SignExtend (value : Value) (to_size : Z) : M Emitter Value :=
  if to_size =? 32 then ir.SignExtendToWord value else if to_size =? 64 then ir.SignExtendToLong value else stop AssertFailed.
Definition ZeroExtend (value : Value) (to_size : Z) : M Emitter Value :=
  if to_size =? 32 then ir.ZeroExtendToWord value else if to_size =? 64 then ir.ZeroExtendToLong value else stop AssertFailed.
(** [imm.SignExtend<u64>()]. *)
Definition sign_offset (size imm : Z) : Z := bit.sign_extend 64 size imm.

(** ** load_store_register_immediate.cpp *)

(** The operation, whether it extends the sign, and the size of the register. *)
Definition immediate_decode (size opc : Z) : outcome (MemOp * bool * Z) :=
  if negb (bit.get_bit 32 1 opc) then Ret (if bit.get_bit 32 0 opc then LOAD else STORE, false, if size =? 3 then 64 else 32)
  else if size =? 3 then if negb (bit.get_bit 32 0 opc) then Ret (PREFETCH, false, 0) else Stop AssertFailed
  else if negb ((size =? 2) && bit.get_bit 32 0 opc) then Ret (LOAD, true, if bit.get_bit 32 0 opc then 32 else 64)
  else Stop AssertFailed.
(** The [switch] on the operation, with the data in a general register. *)
Definition transfer (memop : MemOp) (signed_ : bool) (regsize datasize acctype : Z) (address : Value) (Rt : Z) : M Emitter unit :=
  match memop with
  | STORE => let! data := X datasize Rt in set_Mem address (datasize / 8) acctype data
  | LOAD =>
      let! data := Mem address (datasize / 8) acctype in
      let! extended := (if signed_ then SignExtend data regsize else ZeroExtend data regsize) in
      set_X regsize Rt extended
  | PREFETCH => ret tt
  end.
(** [if (!postindex) address = ir.Add(address, offset)] and the like. *)
Definition add_if (c : bool) (address : Value) (offset : Z) : M Emitter Value := if c then ir.Add address (ir.Imm64 offset) else ret address.
Definition write_back (wback postindex : bool) (address : Value) (offset Rn : Z) : M Emitter unit :=
  if wback then let! address := add_if postindex address offset in set_X_or_SP 64 Rn address else ret tt.
Definition is_load (m : MemOp) : bool := match m with LOAD => true | _ => false end.
Definition is_store (m : MemOp) : bool := match m with STORE => true | _ => false end.
Definition LoadStoreRegisterImmediate (wback postindex : bool) (scale offset size opc Rn Rt : Z) : M Emitter bool :=
  let! d := lift (immediate_decode size opc) in
  let '(memop, signed_, regsize) := d in
  if is_load memop && wback && (Rn =? Rt) && negb (Rn =? 31) then UnpredictableInstruction
  else if is_store memop && wback && (Rn =? Rt) && negb (Rn =? 31) then UnpredictableInstruction
  else
    let! address := X_or_SP 64 Rn in
    let! address := add_if (negb postindex) address offset in
    let datasize := Z.shiftl 8 scale in
    transfer memop signed_ regsize datasize AccType.NORMAL address Rt ;;
    write_back wback postindex address offset Rn ;; ret true.
Definition STRx_LDRx_imm_1 (size opc imm9 : Z) (not_postindex : bool) (Rn Rt : Z) : M Emitter bool :=
  LoadStoreRegisterImmediate true (negb not_postindex) size (sign_offset 9 imm9) size opc Rn Rt.
Definition STRx_LDRx_imm_2 (size opc imm12 Rn Rt : Z) : M Emitter bool :=
  LoadStoreRegisterImmediate false false size (u64 (Z.shiftl imm12 size)) size opc Rn Rt.
Definition STURx_LDURx (size opc imm9 Rn Rt : Z) : M Emitter bool :=
  LoadStoreRegisterImmediate false false size (sign_offset 9 imm9) size opc Rn Rt.
Definition PRFM_imm (imm12 Rn Rt : Z) : M Emitter bool := ret true.
Definition PRFM_unscaled_imm (imm9 Rn Rt : Z) : M Emitter bool := ret true.
Definition LoadStoreSIMD (wback postindex : bool) (scale offset : Z) (memop : MemOp) (Rn Vt : Z) : M Emitter bool :=
  let acctype := AccType.VEC in
  let datasize := Z.shiftl 8 scale in
  let! address := X_or_SP 64 Rn in
  let! address := add_if (negb postindex) address offset in
  match memop with
  | STORE =>
      if datasize =? 128 then let! data := V 128 Vt in set_Mem address 16 acctype data
      else let! v := V 128 Vt in let! data := ir.VectorGetElement datasize v 0 in set_Mem address (datasize / 8) acctype data
  | LOAD =>
      if datasize =? 128 then let! data := Mem address 16 acctype in set_V 128 Vt data
      else let! data := Mem address (datasize / 8) acctype in let! q := ir.ZeroExtendToQuad data in set_V 128 Vt q
  | PREFETCH => stop Undefined
  end ;;
  write_back wback postindex address offset Rn ;; ret true.
(** [concatenate(opc_1, size)]; more than four is not allocated. *)
Definition simd_scale (opc_1 size : Z) : M Emitter Z := let! c := lift (concatenate [(1, opc_1); (2, size)]) in ret (snd c).
Definition simd_imm_1 (memop : MemOp) (size opc_1 imm9 : Z) (not_postindex : bool) (Rn Vt : Z) : M Emitter bool :=
  let! scale := simd_scale opc_1 size in
  if 4 <? scale then UnallocatedEncoding else LoadStoreSIMD true (negb not_postindex) scale (sign_offset 9 imm9) memop Rn Vt.
Definition simd_imm_2 (memop : MemOp) (size opc_1 imm12 Rn Vt : Z) : M Emitter bool :=
  let! scale := simd_scale opc_1 size in
  if 4 <? scale then UnallocatedEncoding else LoadStoreSIMD false false scale (u64 (Z.shiftl imm12 scale)) memop Rn Vt.
Definition simd_unscaled (memop : MemOp) (size opc_1 imm9 Rn Vt : Z) : M Emitter bool :=
  let! scale := simd_scale opc_1 size in
  if 4 <? scale then UnallocatedEncoding else LoadStoreSIMD false false scale (sign_offset 9 imm9) memop Rn Vt.
Definition STR_imm_fpsimd_1 := simd_imm_1 STORE.
Definition STR_imm_fpsimd_2 := simd_imm_2 STORE.
Definition LDR_imm_fpsimd_1 := simd_imm_1 LOAD.
Definition LDR_imm_fpsimd_2 := simd_imm_2 LOAD.
Definition STUR_fpsimd := simd_unscaled STORE.
Definition LDUR_fpsimd := simd_unscaled LOAD.
(** ** load_store_register_pair.cpp, load_store_no_allocate_pair.cpp *)
Definition STP_LDP_gen (opc : Z) (not_postindex wback : bool) (L imm7 Rt2 Rn Rt : Z) : M Emitter bool :=
  if (L =? 0) && bit.get_bit 32 0 opc || (opc =? 3) then UnallocatedEncoding
  else
    let memop := if L =? 1 then LOAD else STORE in
    if is_load memop && wback && ((Rt =? Rn) || (Rt2 =? Rn)) && negb (Rn =? 31) then UnpredictableInstruction
    else if is_store memop && wback && ((Rt =? Rn) || (Rt2 =? Rn)) && negb (Rn =? 31) then UnpredictableInstruction
    else if is_load memop && (Rt =? Rt2) then UnpredictableInstruction
    else
      let! address := X_or_SP 64 Rn in
      let postindex := negb not_postindex in
      let signed_ := bit.get_bit 32 0 opc in
      let scale := 2 + Z.b2z (bit.get_bit 32 1 opc) in
      let datasize := Z.shiftl 8 scale in
      let offset := u64 (Z.shiftl (sign_offset 7 imm7) scale) in
      let! address := add_if (negb postindex) address offset in
      let dbytes := datasize / 8 in
      match memop with
      | STORE =>
          let! data1 := X datasize Rt in
          let! data2 := X datasize Rt2 in
          set_Mem address dbytes AccType.NORMAL data1 ;;
          let! address2 := ir.Add address (ir.Imm64 dbytes) in
          set_Mem address2 dbytes AccType.NORMAL data2
      | LOAD =>
          let! data1 := Mem address dbytes AccType.NORMAL in
          let! address2 := ir.Add address (ir.Imm64 dbytes) in
          let! data2 := Mem address2 dbytes AccType.NORMAL in
          if signed_ then
            let! extended1 := SignExtend data1 64 in
            set_X 64 Rt extended1 ;;
            let! extended2 := SignExtend data2 64 in
            set_X 64 Rt2 extended2
          else set_X datasize Rt data1 ;; set_X datasize Rt2 data2
      | PREFETCH => stop Undefined
      end ;;
      write_back wback postindex address offset Rn ;; ret true.
Definition STP_LDP_fpsimd (opc : Z) (not_postindex wback : bool) (L imm7 Vt2 Rn Vt : Z) : M Emitter bool :=
  if opc =? 3 then UnallocatedEncoding
  else
    let memop := if L =? 1 then LOAD else STORE in
    if is_load memop && (Vt =? Vt2) then UnpredictableInstruction
    else
      let! address := X_or_SP 64 Rn in
      let postindex := negb not_postindex in
      let scale := 2 + opc in
      let datasize := Z.shiftl 8 scale in
      let offset := u64 (Z.shiftl (sign_offset 7 imm7) scale) in
      let dbytes := datasize / 8 in
      let! address := add_if (negb postindex) address offset in
      match memop with
      | STORE =>
          let! data1 := V datasize Vt in
          let! data2 := V datasize Vt2 in
          let! data1 := (if datasize =? 128 then ret data1 else ir.VectorGetElement datasize data1 0) in
          let! data2 := (if datasize =? 128 then ret data2 else ir.VectorGetElement datasize data2 0) in
          set_Mem address dbytes AccType.VEC data1 ;;
          let! address2 := ir.Add address (ir.Imm64 dbytes) in
          set_Mem address2 dbytes AccType.VEC data2
      | LOAD =>
          let! data1 := Mem address dbytes AccType.VEC in
          let! address2 := ir.Add address (ir.Imm64 dbytes) in
          let! data2 := Mem address2 dbytes AccType.VEC in
          let! data1 := (if datasize =? 128 then ret data1 else ir.ZeroExtendToQuad data1) in
          let! data2 := (if datasize =? 128 then ret data2 else ir.ZeroExtendToQuad data2) in
          set_V datasize Vt data1 ;; set_V datasize Vt2 data2
      | PREFETCH => stop Undefined
      end ;;
      write_back wback postindex address offset Rn ;; ret true.
Definition STNP_LDNP_gen (upper_opc L imm7 Rt2 Rn Rt : Z) : M Emitter bool := STP_LDP_gen (Z.shiftl upper_opc 1) true false L imm7 Rt2 Rn Rt.
Definition STNP_LDNP_fpsimd (opc L imm7 Vt2 Rn Vt : Z) : M Emitter bool := STP_LDP_fpsimd opc true false L imm7 Vt2 Rn Vt.

(** ** load_store_register_register_offset.cpp *)

(** [None]: the encoding is not allocated. *)
Definition register_decode (size opc_1 opc_0 : Z) : option (MemOp * bool * Z) :=
  if opc_1 =? 0 then Some (if opc_0 =? 1 then LOAD else STORE, false, if size =? 3 then 64 else 32)
  else if size =? 3 then if opc_0 =? 1 then None else Some (PREFETCH, false, 64)
  else if (size =? 2) && (opc_0 =? 1) then None
  else Some (LOAD, true, if opc_0 =? 1 then 32 else 64).
Definition RegSharedDecodeAndOperation (scale shift size opc_1 opc_0 Rm option Rn Rt : Z) : M Emitter bool :=
  match register_decode size opc_1 opc_0 with
  | None => UnallocatedEncoding
  | Some (memop, signed_, regsize) =>
      let datasize := Z.shiftl 8 scale in
      let! offset := ExtendReg 64 Rm option shift in
      let! address := X_or_SP 64 Rn in
      let! address := ir.Add address offset in
      transfer memop signed_ regsize datasize AccType.NORMAL address Rt ;; ret true
  end.
Definition register_offset (opc_0 size opc_1 Rm option : Z) (S : bool) (Rn Rt : Z) : M Emitter bool :=
  let scale := size in
  let shift := if S then u8 scale else 0 in
  if negb (bit.get_bit 32 1 option) then UnallocatedEncoding
  else RegSharedDecodeAndOperation scale shift size opc_1 opc_0 Rm option Rn Rt.
Definition STRx_reg := register_offset 0.
Definition LDRx_reg := register_offset 1.
Definition VecSharedDecodeAndOperation (scale shift opc_0 Rm option Rn Vt : Z) : M Emitter bool :=
  let acctype := AccType.VEC in
  let memop := if opc_0 =? 1 then LOAD else STORE in
  let datasize := Z.shiftl 8 scale in
  let! offset := ExtendReg 64 Rm option shift in
  let! address := X_or_SP 64 Rn in
  let! address := ir.Add address offset in
  match memop with
  | STORE => let! data := V_scalar datasize Vt in set_Mem address (datasize / 8) acctype data
  | LOAD => let! data := Mem address (datasize / 8) acctype in set_V_scalar datasize Vt data
  | PREFETCH => stop Undefined
  end ;; ret true.
Definition vector_offset (opc_0 size opc_1 Rm option : Z) (S : bool) (Rn Vt : Z) : M Emitter bool :=
  let! scale := simd_scale opc_1 size in
  if 4 <? scale then UnallocatedEncoding
  else
    let shift := if S then u8 scale else 0 in
    if negb (bit.get_bit 32 1 option) then UnallocatedEncoding
    else VecSharedDecodeAndOperation scale shift opc_0 Rm option Rn Vt.
Definition STR_reg_fpsimd := vector_offset 0.
Definition LDR_reg_fpsimd := vector_offset 1.

(** ** load_store_load_literal.cpp *)
Definition LDR_lit_gen (opc_0 : bool) (imm19 Rt : Z) : M Emitter bool :=
  let size := if opc_0 then 8 else 4 in
  let! offset := branch_offset 19 imm19 in
  let! pc := ir.PC in
  let address := u64 (pc + offset) in
  let! data := Mem (ir.Imm64 address) size AccType.NORMAL in
  set_X (8 * size) Rt data ;; ret true.
Definition LDR_lit_fpsimd (opc imm19 Vt : Z) : M Emitter bool :=
  if opc =? 3 then UnallocatedEncoding
  else
    let size := Z.shiftl 4 opc in
    let offset := u64 (Z.shiftl (sign_offset 19 imm19) 2) in
    let! pc := ir.PC in
    let! data := Mem (ir.Imm64 (u64 (pc + offset))) size AccType.VEC in
    (if size =? 16 then set_V 128 Vt data else let! q := ir.ZeroExtendToQuad data in set_V 128 Vt q) ;; ret true.
Definition LDRSW_lit (imm19 Rt : Z) : M Emitter bool :=
  let! offset := branch_offset 19 imm19 in
  let! pc := ir.PC in
  let address := u64 (pc + offset) in
  let! data := Mem (ir.Imm64 address) 4 AccType.NORMAL in
  let! extended := ir.SignExtendWordToLong data in
  set_X 64 Rt extended ;; ret true.
Definition PRFM_lit (imm19 prfop : Z) : M Emitter bool := ret true.

(** ** load_store_register_unprivileged.cpp *)
Definition unprivileged_address (imm9 Rn : Z) : M Emitter Value :=
  let! address := X_or_SP 64 Rn in ir.Add address (ir.Imm64 (sign_offset 9 imm9)).
Definition StoreRegister (datasize imm9 Rn Rt : Z) : M Emitter bool :=
  let! address := unprivileged_address imm9 Rn in
  let! data := X datasize Rt in
  set_Mem address (datasize / 8) AccType.UNPRIV data ;; ret true.
Definition LoadRegister (datasize imm9 Rn Rt : Z) : M Emitter bool :=
  let! address := unprivileged_address imm9 Rn in
  let! data := Mem address (datasize / 8) AccType.UNPRIV in
  let extended_size := Z.max 32 datasize in
  let! extended := ZeroExtend data extended_size in
  set_X extended_size Rt extended ;; ret true.
Definition LoadRegisterSigned (datasize opc imm9 Rn Rt : Z) : M Emitter bool :=
  let '(memop, is_signed, regsize) :=
    if negb (bit.get_bit 32 1 opc) then (if bit.get_bit 32 0 opc then LOAD else STORE, false, 32) else (LOAD, true, if bit.get_bit 32 0 opc then 32 else 64) in
  let! address := unprivileged_address imm9 Rn in
  transfer memop is_signed regsize datasize AccType.UNPRIV address Rt ;; ret true.
Definition STTRB := StoreRegister 8.
Definition STTRH := StoreRegister 16.
Definition STTR (size imm9 Rn Rt : Z) : M Emitter bool := StoreRegister (Z.shiftl 8 size) imm9 Rn Rt.
Definition LDTRB := LoadRegister 8.
Definition LDTRH := LoadRegister 16.
Definition LDTR (size imm9 Rn Rt : Z) : M Emitter bool := LoadRegister (Z.shiftl 8 size) imm9 Rn Rt.
Definition LDTRSB := LoadRegisterSigned 8.
Definition LDTRSH := LoadRegisterSigned 16.
Definition LDTRSW (imm9 Rn Rt : Z) : M Emitter bool :=
  let! address := unprivileged_address imm9 Rn in
  let! data := Mem address 4 AccType.UNPRIV in
  let! extended := SignExtend data 64 in
  set_X 64 Rt extended ;; ret true.

(** ** load_store_exclusive.cpp *)

(** What makes an access unpredictable; a store goes on where [options] define it. *)
Definition exclusive_unpredictable (options : TranslationOptions) (pair L : bool) (Rs Rt2 : option Z) (Rn Rt : Z) : bool :=
  if L && pair && bool_decide (Rt2 = Some Rt) then true
  else if negb L && (bool_decide (Rs = Some Rt) || pair && bool_decide (Rs = Rt2)) then negb (define_unpredictable_behaviour options)
  else negb L && bool_decide (Rs = Some Rn) && negb (Rn =? 31).
(** [*Rs] and [*Rt2] are taken only of registers that are given. *)
Definition the (r : option Z) : M Emitter Z := match r with Some r => ret r | None => stop Undefined end.
Definition ExclusiveSharedDecodeAndOperation (options : TranslationOptions) (pair : bool) (size : Z) (L o0 : bool) (Rs Rt2 : option Z) (Rn Rt : Z) : M Emitter bool :=
  let acctype := if o0 then AccType.ORDERED else AccType.ATOMIC in
  let elsize := Z.shiftl 8 size in
  let regsize := if elsize =? 64 then 64 else 32 in
  let datasize := if pair then elsize * 2 else elsize in
  let dbytes := datasize / 8 in
  if exclusive_unpredictable options pair L Rs Rt2 Rn Rt then UnpredictableInstruction
  else
    let! address := X_or_SP 64 Rn in
    (if L then
       let! data := ExclusiveMem address dbytes acctype in
       if pair && (elsize =? 64) then
         let! lo := ir.VectorGetElement 64 data 0 in
         set_X 64 Rt lo ;;
         let! r2 := the Rt2 in
         let! hi := ir.VectorGetElement 64 data 1 in
         set_X 64 r2 hi
       else if pair && (elsize =? 32) then
         let! lo := ir.LeastSignificantWord data in
         set_X 32 Rt lo ;;
         let! r2 := the Rt2 in
         let! hi := ir.MostSignificantWord data in
         set_X 32 r2 (fst hi)
       else let! extended := ZeroExtend data regsize in set_X regsize Rt extended
     else
       let! data :=
         (if pair && (elsize =? 64) then
            let! a := X 64 Rt in let! r2 := the Rt2 in let! b := X 64 r2 in ir.Pack2x64To1x128 a b
          else if pair && (elsize =? 32) then
            let! a := X 32 Rt in let! r2 := the Rt2 in let! b := X 32 r2 in ir.Pack2x32To1x64 a b
          else X elsize Rt) in
       let! status := set_ExclusiveMem address dbytes acctype data in
       let! r := the Rs in
       set_X 32 r status) ;;
    ret true.
Definition STXR (options : TranslationOptions) (sz Rs Rn Rt : Z) : M Emitter bool := ExclusiveSharedDecodeAndOperation options false sz false false (Some Rs) None Rn Rt.
Definition STLXR (options : TranslationOptions) (sz Rs Rn Rt : Z) : M Emitter bool := ExclusiveSharedDecodeAndOperation options false sz false true (Some Rs) None Rn Rt.
(** [concatenate(Imm<1>{1}, sz)]. *)
Definition pair_size (sz : Z) : M Emitter Z := let! c := lift (concatenate [(1, 1); (1, sz)]) in ret (snd c).
Definition STXP (options : TranslationOptions) (sz Rs Rt2 Rn Rt : Z) : M Emitter bool :=
  let! size := pair_size sz in ExclusiveSharedDecodeAndOperation options true size false false (Some Rs) (Some Rt2) Rn Rt.
Definition STLXP (options : TranslationOptions) (sz Rs Rt2 Rn Rt : Z) : M Emitter bool :=
  let! size := pair_size sz in ExclusiveSharedDecodeAndOperation options true size false true (Some Rs) (Some Rt2) Rn Rt.
Definition LDXR (options : TranslationOptions) (sz Rn Rt : Z) : M Emitter bool := ExclusiveSharedDecodeAndOperation options false sz true false None None Rn Rt.
Definition LDAXR (options : TranslationOptions) (sz Rn Rt : Z) : M Emitter bool := ExclusiveSharedDecodeAndOperation options false sz true true None None Rn Rt.
Definition LDXP (options : TranslationOptions) (sz Rt2 Rn Rt : Z) : M Emitter bool :=
  let! size := pair_size sz in ExclusiveSharedDecodeAndOperation options true size true false None (Some Rt2) Rn Rt.
Definition LDAXP (options : TranslationOptions) (sz Rt2 Rn Rt : Z) : M Emitter bool :=
  let! size := pair_size sz in ExclusiveSharedDecodeAndOperation options true size true true None (Some Rt2) Rn Rt.
Definition OrderedSharedDecodeAndOperation (size : Z) (L o0 : bool) (Rn Rt : Z) : M Emitter bool :=
  let acctype := if o0 then AccType.ORDERED else AccType.LIMITEDORDERED in
  let elsize := Z.shiftl 8 size in
  let regsize := if elsize =? 64 then 64 else 32 in
  let! address := X_or_SP 64 Rn in
  transfer (if L then LOAD else STORE) false regsize elsize acctype address Rt ;; ret true.
Definition STLLR (sz Rn Rt : Z) : M Emitter bool := OrderedSharedDecodeAndOperation sz false false Rn Rt.
Definition STLR (sz Rn Rt : Z) : M Emitter bool := OrderedSharedDecodeAndOperation sz false true Rn Rt.
Definition LDLAR (sz Rn Rt : Z) : M Emitter bool := OrderedSharedDecodeAndOperation sz true false Rn Rt.
Definition LDAR (sz Rn Rt : Z) : M Emitter bool := OrderedSharedDecodeAndOperation sz true true Rn Rt.
End loadstore.

(** Both files of loads and stores of structures have a static function
    [SharedDecodeAndOperation]: [multiple] and [single]. *)
Module structures.
Import visitor loadstore.
(** A loop that threads the offset. *)
Fixpoint each (l : list Z) (body : Z -> Value -> M Emitter Value) (offs : Value) : M Emitter Value :=
  match l with [] => ret offs | x :: l => let! offs := body x offs in each l body offs end.
(** 0, 1, ... below [n]. *)
Definition below (n : Z) : list Z := map Z.of_nat (seq 0 (Z.to_nat n)).
Definition next_vec (Vt r : Z) : Z := (Vt + r) mod 32.
(** [if ( *Rm != Reg::SP) offs = X(64, *Rm)], then the new base. *)
Definition structure_write_back (wback : bool) (Rm : option Z) (address offs : Value) (Rn : Z) : M Emitter unit :=
  if wback then
    let! r := the Rm in
    let! offs := (if r =? Reg_SP then ret offs else X 64 r) in
    let! a := ir.Add address offs in
    set_X_or_SP 64 Rn a
  else ret tt.

(** ** load_store_multiple_structures.cpp *)

(** [rpt] and [selem]. *)
Definition structure_shape (opcode : Z) : option (Z * Z) :=
  if opcode =? 0 then Some (1, 4) else if opcode =? 2 then Some (4, 1) else if opcode =? 4 then Some (1, 3) else if opcode =? 6 then Some (3, 1)
  else if opcode =? 7 then Some (1, 1) else if opcode =? 8 then Some (1, 2) else if opcode =? 10 then Some (2, 1) else None.
Definition whole_register (memop : MemOp) (datasize bytes Vt : Z) (address : Value) (r : Z) (offs : Value) : M Emitter Value :=
  let tt_ := next_vec Vt r in
  (if is_load memop then
     let! a := ir.Add address offs in
     let! vec := Mem a bytes AccType.VEC in
     set_V_scalar datasize tt_ vec
   else
     let! vec := V_scalar datasize tt_ in
     let! a := ir.Add address offs in
     set_Mem a bytes AccType.VEC vec) ;;
  ir.Add offs (ir.Imm64 bytes).
Definition one_element (memop : MemOp) (datasize esize Vt e : Z) (address : Value) (s : Z) (offs : Value) : M Emitter Value :=
  let tt_ := next_vec Vt s in
  let ebytes := esize / 8 in
  (if is_load memop then
     let! a := ir.Add address offs in
     let! elem := Mem a ebytes AccType.VEC in
     let! v := V datasize tt_ in
     let! vec := ir.VectorSetElement esize v e elem in
     set_V datasize tt_ vec
   else
     let! v := V datasize tt_ in
     let! elem := ir.VectorGetElement esize v e in
     let! a := ir.Add address offs in
     set_Mem a ebytes AccType.VEC elem) ;;
  ir.Add offs (ir.Imm64 ebytes).
Definition multiple (wback : bool) (memop : MemOp) (Q : bool) (Rm : option Z) (opcode size Rn Vt : Z) : M Emitter bool :=
  let datasize := if Q then 128 else 64 in
  let esize := Z.shiftl 8 size in
  let elements := datasize / esize in
  let ebytes := esize / 8 in
  match structure_shape opcode with
  | None => UnallocatedEncoding
  | Some (rpt, selem) =>
      assert_ ((rpt =? 1) || (selem =? 1)) ;;
      if (size =? 3) && negb Q && negb (selem =? 1) then ReservedValue
      else
        let! address := X_or_SP 64 Rn in
        let! offs :=
          (if selem =? 1 then each (below rpt) (whole_register memop datasize (ebytes * elements) Vt address) (ir.Imm64 0)
           else each (below elements) (fun e => each (below selem) (one_element memop datasize esize Vt e address)) (ir.Imm64 0)) in
        structure_write_back wback Rm address offs Rn ;; ret true
  end.
Definition STx_mult_1 (Q : bool) (opcode size Rn Vt : Z) : M Emitter bool := multiple false STORE Q None opcode size Rn Vt.
Definition STx_mult_2 (Q : bool) (Rm opcode size Rn Vt : Z) : M Emitter bool := multiple true STORE Q (Some Rm) opcode size Rn Vt.
Definition LDx_mult_1 (Q : bool) (opcode size Rn Vt : Z) : M Emitter bool := multiple false LOAD Q None opcode size Rn Vt.
Definition LDx_mult_2 (Q : bool) (Rm opcode size Rn Vt : Z) : M Emitter bool := multiple true LOAD Q (Some Rm) opcode size Rn Vt.

(** ** load_store_single_structure.cpp *)

(** The scale and the index of the element; [None]: not allocated. *)
Definition element_position (memop : MemOp) (Q S : bool) (opcode size : Z) : option (Z * Z) :=
  let scale := bit.get_bits 32 1 2 opcode in
  let q := Z.b2z Q in
  let s := Z.b2z S in
  if scale =? 0 then Some (scale, Z.lor (Z.lor (Z.shiftl q 3) (Z.shiftl s 2)) size)
  else if scale =? 1 then if bit.get_bit 32 0 size then None else Some (scale, Z.lor (Z.lor (Z.shiftl q 2) (Z.shiftl s 1)) (Z.b2z (bit.get_bit 32 1 size)))
  else if scale =? 2 then
    if bit.get_bit 32 1 size then None
    else if bit.get_bit 32 0 size then if S then None else Some (3, q)
    else Some (scale, Z.lor (Z.shiftl q 1) s)
  else if is_store memop || S then None else Some (size, 0).
Definition replicated (datasize esize Vt : Z) (address : Value) (s : Z) (offs : Value) : M Emitter Value :=
  let tt_ := next_vec Vt s in
  let ebytes := esize / 8 in
  let! a := ir.Add address offs in
  let! element := Mem a ebytes AccType.VEC in
  let! broadcasted_element := ir.VectorBroadcast esize element in
  set_V datasize tt_ broadcasted_element ;;
  ir.Add offs (ir.Imm64 ebytes).
Definition one_lane (memop : MemOp) (esize index Vt : Z) (address : Value) (s : Z) (offs : Value) : M Emitter Value :=
  let tt_ := next_vec Vt s in
  let ebytes := esize / 8 in
  let! rval := V 128 tt_ in
  (if is_load memop then
     let! a := ir.Add address offs in
     let! elem := Mem a ebytes AccType.VEC in
     let! vec := ir.VectorSetElement esize rval index elem in
     set_V 128 tt_ vec
   else
     let! elem := ir.VectorGetElement esize rval index in
     let! a := ir.Add address offs in
     set_Mem a ebytes AccType.VEC elem) ;;
  ir.Add offs (ir.Imm64 ebytes).
Definition single (wback : bool) (memop : MemOp) (Q S R replicate : bool) (Rm : option Z) (opcode size Rn Vt : Z) : M Emitter bool :=
  let selem := Z.lor (Z.shiftl (Z.b2z (bit.get_bit 32 0 opcode)) 1) (Z.b2z R) + 1 in
  match element_position memop Q S opcode size with
  | None => UnallocatedEncoding
  | Some (scale, index) =>
      let datasize := if Q then 128 else 64 in
      let esize := Z.shiftl 8 scale in
      let! address := X_or_SP 64 Rn in
      let! offs := each (below selem) (if replicate then replicated datasize esize Vt address else one_lane memop esize index Vt address) (ir.Imm64 0) in
      structure_write_back wback Rm address offs Rn ;; ret true
  end.
Definition LD1_sngl_1 (Q : bool) (upper_opcode : Z) (S : bool) (size Rn Vt : Z) : M Emitter bool := single false LOAD Q S false false None (Z.shiftl upper_opcode 1) size Rn Vt.
Definition LD1_sngl_2 (Q : bool) (Rm upper_opcode : Z) (S : bool) (size Rn Vt : Z) : M Emitter bool := single true LOAD Q S false false (Some Rm) (Z.shiftl upper_opcode 1) size Rn Vt.
Definition LD1R_1 (Q : bool) (size Rn Vt : Z) : M Emitter bool := single false LOAD Q false false true None 6 size Rn Vt.
Definition LD1R_2 (Q : bool) (Rm size Rn Vt : Z) : M Emitter bool := single true LOAD Q false false true (Some Rm) 6 size Rn Vt.
Definition LD2_sngl_1 (Q : bool) (upper_opcode : Z) (S : bool) (size Rn Vt : Z) : M Emitter bool := single false LOAD Q S true false None (Z.shiftl upper_opcode 1) size Rn Vt.
Definition LD2_sngl_2 (Q : bool) (Rm upper_opcode : Z) (S : bool) (size Rn Vt : Z) : M Emitter bool := single true LOAD Q S true false (Some Rm) (Z.shiftl upper_opcode 1) size Rn Vt.
Definition LD2R_1 (Q : bool) (size Rn Vt : Z) : M Emitter bool := single false LOAD Q false true true None 6 size Rn Vt.
Definition LD2R_2 (Q : bool) (Rm size Rn Vt : Z) : M Emitter bool := single true LOAD Q false true true (Some Rm) 6 size Rn Vt.
Definition LD3_sngl_1 (Q : bool) (upper_opcode : Z) (S : bool) (size Rn Vt : Z) : M Emitter bool := single false LOAD Q S false false None (Z.lor (Z.shiftl upper_opcode 1) 1) size Rn Vt.
Definition LD3_sngl_2 (Q : bool) (Rm upper_opcode : Z) (S : bool) (size Rn Vt : Z) : M Emitter bool := single true LOAD Q S false false (Some Rm) (Z.lor (Z.shiftl upper_opcode 1) 1) size Rn Vt.
Definition LD3R_1 (Q : bool) (size Rn Vt : Z) : M Emitter bool := single false LOAD Q false false true None 7 size Rn Vt.
Definition LD3R_2 (Q : bool) (Rm size Rn Vt : Z) : M Emitter bool := single true LOAD Q false false true (Some Rm) 7 size Rn Vt.
Definition LD4_sngl_1 (Q : bool) (upper_opcode : Z) (S : bool) (size Rn Vt : Z) : M Emitter bool := single false LOAD Q S true false None (Z.lor (Z.shiftl upper_opcode 1) 1) size Rn Vt.
Definition LD4_sngl_2 (Q : bool) (Rm upper_opcode : Z) (S : bool) (size Rn Vt : Z) : M Emitter bool := single true LOAD Q S true false (Some Rm) (Z.lor (Z.shiftl upper_opcode 1) 1) size Rn Vt.
Definition LD4R_1 (Q : bool) (size Rn Vt : Z) : M Emitter bool := single false LOAD Q false true true None 7 size Rn Vt.
Definition LD4R_2 (Q : bool) (Rm size Rn Vt : Z) : M Emitter bool := single true LOAD Q false true true (Some Rm) 7 size Rn Vt.
Definition ST1_sngl_1 (Q : bool) (upper_opcode : Z) (S : bool) (size Rn Vt : Z) : M Emitter bool := single false STORE Q S false false None (Z.shiftl upper_opcode 1) size Rn Vt.
Definition ST1_sngl_2 (Q : bool) (Rm upper_opcode : Z) (S : bool) (size Rn Vt : Z) : M Emitter bool := single true STORE Q S false false (Some Rm) (Z.shiftl upper_opcode 1) size Rn Vt.
Definition ST2_sngl_1 (Q : bool) (upper_opcode : Z) (S : bool) (size Rn Vt : Z) : M Emitter bool := single false STORE Q S true false None (Z.shiftl upper_opcode 1) size Rn Vt.
Definition ST2_sngl_2 (Q : bool) (Rm upper_opcode : Z) (S : bool) (size Rn Vt : Z) : M Emitter bool := single true STORE Q S true false (Some Rm) (Z.shiftl upper_opcode 1) size Rn Vt.
Definition ST3_sngl_1 (Q : bool) (upper_opcode : Z) (S : bool) (size Rn Vt : Z) : M Emitter bool := single false STORE Q S false false None (Z.lor (Z.shiftl upper_opcode 1) 1) size Rn Vt.
Definition ST3_sngl_2 (Q : bool) (Rm upper_opcode : Z) (S : bool) (size Rn Vt : Z) : M Emitter bool := single true STORE Q S false false (Some Rm) (Z.lor (Z.shiftl upper_opcode 1) 1) size Rn Vt.
Definition ST4_sngl_1 (Q : bool) (upper_opcode : Z) (S : bool) (size Rn Vt : Z) : M Emitter bool := single false STORE Q S true false None (Z.lor (Z.shiftl upper_opcode 1) 1) size Rn Vt.
Definition ST4_sngl_2 (Q : bool) (Rm upper_opcode : Z) (S : bool) (size Rn Vt : Z) : M Emitter bool := single true STORE Q S true false (Some Rm) (Z.lor (Z.shiftl upper_opcode 1) 1) size Rn Vt.
End structures.
