(* ===== verification/A64Translate.v ===== *)
(** [Translate] of frontend/A64/translate/a64_translate.cpp: the methods of the visitor
    by the names the decoder calls them by, and the loop over the instructions of a
    block. *)
From S2P Require Import Prelude Bits IrOpcodes A64Imm Ir A64Jit A64Decoder IrEmitter A64Visitor A64LoadStore.
Local Open Scope Z_scope.

(** ** The methods by name *)
Local Abbreviation b x := (negb (x =? 0)).
Definition method : Type := TranslationOptions -> list Z -> M Emitter bool.
(** Arguments of another number cannot come from a matcher. *)
Local Abbreviation args0 f := (fun o a => match a with [] => f o | _ => stop Undefined end).
Local Abbreviation args1 f := (fun o a => match a with [x1] => f o x1 | _ => stop Undefined end).
Local Abbreviation args2 f := (fun o a => match a with [x1; x2] => f o x1 x2 | _ => stop Undefined end).
Local Abbreviation args3 f := (fun o a => match a with [x1; x2; x3] => f o x1 x2 x3 | _ => stop Undefined end).
Local Abbreviation args4 f := (fun o a => match a with [x1; x2; x3; x4] => f o x1 x2 x3 x4 | _ => stop Undefined end).
Local Abbreviation args5 f := (fun o a => match a with [x1; x2; x3; x4; x5] => f o x1 x2 x3 x4 x5 | _ => stop Undefined end).
Local Abbreviation args6 f := (fun o a => match a with [x1; x2; x3; x4; x5; x6] => f o x1 x2 x3 x4 x5 x6 | _ => stop Undefined end).
Local Abbreviation args7 f := (fun o a => match a with [x1; x2; x3; x4; x5; x6; x7] => f o x1 x2 x3 x4 x5 x6 x7 | _ => stop Undefined end).
Local Abbreviation args8 f := (fun o a => match a with [x1; x2; x3; x4; x5; x6; x7; x8] => f o x1 x2 x3 x4 x5 x6 x7 x8 | _ => stop Undefined end).
Definition methods : list (string * method) := [
  ("ADD_imm", args5 (fun _ x1 x2 x3 x4 x5 => visitor.ADD_imm (b x1) x2 x3 x4 x5));
  ("ADDS_imm", args5 (fun _ x1 x2 x3 x4 x5 => visitor.ADDS_imm (b x1) x2 x3 x4 x5));
  ("SUB_imm", args5 (fun _ x1 x2 x3 x4 x5 => visitor.SUB_imm (b x1) x2 x3 x4 x5));
  ("SUBS_imm", args5 (fun _ x1 x2 x3 x4 x5 => visitor.SUBS_imm (b x1) x2 x3 x4 x5));
  ("ADD_shift", args6 (fun _ x1 x2 x3 x4 x5 x6 => visitor.ADD_shift (b x1) x2 x3 x4 x5 x6));
  ("ADDS_shift", args6 (fun _ x1 x2 x3 x4 x5 x6 => visitor.ADDS_shift (b x1) x2 x3 x4 x5 x6));
  ("SUB_shift", args6 (fun _ x1 x2 x3 x4 x5 x6 => visitor.SUB_shift (b x1) x2 x3 x4 x5 x6));
  ("SUBS_shift", args6 (fun _ x1 x2 x3 x4 x5 x6 => visitor.SUBS_shift (b x1) x2 x3 x4 x5 x6));
  ("ADD_ext", args6 (fun _ x1 x2 x3 x4 x5 x6 => visitor.ADD_ext (b x1) x2 x3 x4 x5 x6));
  ("ADDS_ext", args6 (fun _ x1 x2 x3 x4 x5 x6 => visitor.ADDS_ext (b x1) x2 x3 x4 x5 x6));
  ("SUB_ext", args6 (fun _ x1 x2 x3 x4 x5 x6 => visitor.SUB_ext (b x1) x2 x3 x4 x5 x6));
  ("SUBS_ext", args6 (fun _ x1 x2 x3 x4 x5 x6 => visitor.SUBS_ext (b x1) x2 x3 x4 x5 x6));
  ("ADC", args4 (fun _ x1 x2 x3 x4 => visitor.ADC (b x1) x2 x3 x4));
  ("ADCS", args4 (fun _ x1 x2 x3 x4 => visitor.ADCS (b x1) x2 x3 x4));
  ("SBC", args4 (fun _ x1 x2 x3 x4 => visitor.SBC (b x1) x2 x3 x4));
  ("SBCS", args4 (fun _ x1 x2 x3 x4 => visitor.SBCS (b x1) x2 x3 x4));
  ("AND_imm", args6 (fun _ x1 x2 x3 x4 x5 x6 => visitor.AND_imm (b x1) (b x2) x3 x4 x5 x6));
  ("ORR_imm", args6 (fun _ x1 x2 x3 x4 x5 x6 => visitor.ORR_imm (b x1) (b x2) x3 x4 x5 x6));
  ("EOR_imm", args6 (fun _ x1 x2 x3 x4 x5 x6 => visitor.EOR_imm (b x1) (b x2) x3 x4 x5 x6));
  ("ANDS_imm", args6 (fun _ x1 x2 x3 x4 x5 x6 => visitor.ANDS_imm (b x1) (b x2) x3 x4 x5 x6));
  ("AND_shift", args6 (fun _ x1 x2 x3 x4 x5 x6 => visitor.AND_shift (b x1) x2 x3 x4 x5 x6));
  ("BIC_shift", args6 (fun _ x1 x2 x3 x4 x5 x6 => visitor.BIC_shift (b x1) x2 x3 x4 x5 x6));
  ("ORR_shift", args6 (fun _ x1 x2 x3 x4 x5 x6 => visitor.ORR_shift (b x1) x2 x3 x4 x5 x6));
  ("ORN_shift", args6 (fun _ x1 x2 x3 x4 x5 x6 => visitor.ORN_shift (b x1) x2 x3 x4 x5 x6));
  ("EOR_shift", args6 (fun _ x1 x2 x3 x4 x5 x6 => visitor.EOR_shift (b x1) x2 x3 x4 x5 x6));
  ("EON", args6 (fun _ x1 x2 x3 x4 x5 x6 => visitor.EON (b x1) x2 x3 x4 x5 x6));
  ("ANDS_shift", args6 (fun _ x1 x2 x3 x4 x5 x6 => visitor.ANDS_shift (b x1) x2 x3 x4 x5 x6));
  ("BICS", args6 (fun _ x1 x2 x3 x4 x5 x6 => visitor.BICS (b x1) x2 x3 x4 x5 x6));
  ("MOVN", args4 (fun _ x1 x2 x3 x4 => visitor.MOVN (b x1) x2 x3 x4));
  ("MOVZ", args4 (fun _ x1 x2 x3 x4 => visitor.MOVZ (b x1) x2 x3 x4));
  ("MOVK", args4 (fun _ x1 x2 x3 x4 => visitor.MOVK (b x1) x2 x3 x4));
  ("SBFM", args6 (fun _ x1 x2 x3 x4 x5 x6 => visitor.SBFM (b x1) (b x2) x3 x4 x5 x6));
  ("BFM", args6 (fun _ x1 x2 x3 x4 x5 x6 => visitor.BFM (b x1) (b x2) x3 x4 x5 x6));
  ("UBFM", args6 (fun _ x1 x2 x3 x4 x5 x6 => visitor.UBFM (b x1) (b x2) x3 x4 x5 x6));
  ("ASR_1", args3 (fun _ x1 x2 x3 => visitor.ASR_1 x1 x2 x3));
  ("ASR_2", args3 (fun _ x1 x2 x3 => visitor.ASR_2 x1 x2 x3));
  ("SXTB_1", args2 (fun _ x1 x2 => visitor.SXTB_1 x1 x2));
  ("SXTB_2", args2 (fun _ x1 x2 => visitor.SXTB_2 x1 x2));
  ("SXTH_1", args2 (fun _ x1 x2 => visitor.SXTH_1 x1 x2));
  ("SXTH_2", args2 (fun _ x1 x2 => visitor.SXTH_2 x1 x2));
  ("SXTW", args2 (fun _ x1 x2 => visitor.SXTW x1 x2));
  ("EXTR", args6 (fun _ x1 x2 x3 x4 x5 x6 => visitor.EXTR (b x1) (b x2) x3 x4 x5 x6));
  ("LSLV", args4 (fun _ x1 x2 x3 x4 => visitor.LSLV (b x1) x2 x3 x4));
  ("LSRV", args4 (fun _ x1 x2 x3 x4 => visitor.LSRV (b x1) x2 x3 x4));
  ("ASRV", args4 (fun _ x1 x2 x3 x4 => visitor.ASRV (b x1) x2 x3 x4));
  ("RORV", args4 (fun _ x1 x2 x3 x4 => visitor.RORV (b x1) x2 x3 x4));
  ("ADR", args3 (fun _ x1 x2 x3 => visitor.ADR x1 x2 x3));
  ("ADRP", args3 (fun _ x1 x2 x3 => visitor.ADRP x1 x2 x3));
  ("CSEL", args5 (fun _ x1 x2 x3 x4 x5 => visitor.CSEL (b x1) x2 x3 x4 x5));
  ("CSINC", args5 (fun _ x1 x2 x3 x4 x5 => visitor.CSINC (b x1) x2 x3 x4 x5));
  ("CSINV", args5 (fun _ x1 x2 x3 x4 x5 => visitor.CSINV (b x1) x2 x3 x4 x5));
  ("CSNEG", args5 (fun _ x1 x2 x3 x4 x5 => visitor.CSNEG (b x1) x2 x3 x4 x5));
  ("CCMN_reg", args5 (fun _ x1 x2 x3 x4 x5 => visitor.CCMN_reg (b x1) x2 x3 x4 x5));
  ("CCMP_reg", args5 (fun _ x1 x2 x3 x4 x5 => visitor.CCMP_reg (b x1) x2 x3 x4 x5));
  ("CCMN_imm", args5 (fun _ x1 x2 x3 x4 x5 => visitor.CCMN_imm (b x1) x2 x3 x4 x5));
  ("CCMP_imm", args5 (fun _ x1 x2 x3 x4 x5 => visitor.CCMP_imm (b x1) x2 x3 x4 x5));
  ("MADD", args5 (fun _ x1 x2 x3 x4 x5 => visitor.MADD (b x1) x2 x3 x4 x5));
  ("MSUB", args5 (fun _ x1 x2 x3 x4 x5 => visitor.MSUB (b x1) x2 x3 x4 x5));
  ("SMADDL", args4 (fun _ x1 x2 x3 x4 => visitor.SMADDL x1 x2 x3 x4));
  ("SMSUBL", args4 (fun _ x1 x2 x3 x4 => visitor.SMSUBL x1 x2 x3 x4));
  ("SMULH", args3 (fun _ x1 x2 x3 => visitor.SMULH x1 x2 x3));
  ("UMADDL", args4 (fun _ x1 x2 x3 x4 => visitor.UMADDL x1 x2 x3 x4));
  ("UMSUBL", args4 (fun _ x1 x2 x3 x4 => visitor.UMSUBL x1 x2 x3 x4));
  ("UMULH", args3 (fun _ x1 x2 x3 => visitor.UMULH x1 x2 x3));
  ("CLZ_int", args3 (fun _ x1 x2 x3 => visitor.CLZ_int (b x1) x2 x3));
  ("CLS_int", args3 (fun _ x1 x2 x3 => visitor.CLS_int (b x1) x2 x3));
  ("RBIT_int", args3 (fun _ x1 x2 x3 => visitor.RBIT_int (b x1) x2 x3));
  ("REV", args4 (fun _ x1 x2 x3 x4 => visitor.REV (b x1) (b x2) x3 x4));
  ("REV32_int", args2 (fun _ x1 x2 => visitor.REV32_int x1 x2));
  ("REV16_int", args3 (fun _ x1 x2 x3 => visitor.REV16_int (b x1) x2 x3));
  ("UDIV", args4 (fun _ x1 x2 x3 x4 => visitor.UDIV (b x1) x2 x3 x4));
  ("SDIV", args4 (fun _ x1 x2 x3 x4 => visitor.SDIV (b x1) x2 x3 x4));
  ("CRC32", args5 (fun _ x1 x2 x3 x4 x5 => visitor.CRC32 (b x1) x2 x3 x4 x5));
  ("CRC32C", args5 (fun _ x1 x2 x3 x4 x5 => visitor.CRC32C (b x1) x2 x3 x4 x5));
  ("CFINV", args0 (fun _ => visitor.CFINV));
  ("RMIF", args3 (fun _ x1 x2 x3 => visitor.RMIF x1 x2 x3));
  ("AXFlag", args0 (fun _ => visitor.AXFlag));
  ("XAFlag", args0 (fun _ => visitor.XAFlag));
  ("B_cond", args2 (fun _ x1 x2 => visitor.B_cond x1 x2));
  ("B_uncond", args1 (fun _ x1 => visitor.B_uncond x1));
  ("BL", args1 (fun _ x1 => visitor.BL x1));
  ("BLR", args1 (fun _ x1 => visitor.BLR x1));
  ("BR", args1 (fun _ x1 => visitor.BR x1));
  ("RET", args1 (fun _ x1 => visitor.RET x1));
  ("CBZ", args3 (fun _ x1 x2 x3 => visitor.CBZ (b x1) x2 x3));
  ("CBNZ", args3 (fun _ x1 x2 x3 => visitor.CBNZ (b x1) x2 x3));
  ("TBZ", args4 (fun _ x1 x2 x3 x4 => visitor.TBZ x1 x2 x3 x4));
  ("TBNZ", args4 (fun _ x1 x2 x3 x4 => visitor.TBNZ x1 x2 x3 x4));
  ("BRK", args1 (fun _ x1 => visitor.BRK x1));
  ("SVC", args1 (fun _ x1 => visitor.SVC x1));
  ("NOP", args0 (fun _ => visitor.NOP));
  ("HINT", args2 (fun _ x1 x2 => visitor.HINT x1 x2));
  ("YIELD", args0 (fun o => visitor.YIELD o));
  ("WFE", args0 (fun o => visitor.WFE o));
  ("WFI", args0 (fun o => visitor.WFI o));
  ("SEV", args0 (fun o => visitor.SEV o));
  ("SEVL", args0 (fun o => visitor.SEVL o));
  ("CLREX", args1 (fun _ x1 => visitor.CLREX x1));
  ("DSB", args1 (fun _ x1 => visitor.DSB x1));
  ("DMB", args1 (fun _ x1 => visitor.DMB x1));
  ("ISB", args1 (fun _ x1 => visitor.ISB x1));
  ("MSR_reg", args6 (fun _ x1 x2 x3 x4 x5 x6 => visitor.MSR_reg x1 x2 x3 x4 x5 x6));
  ("MRS", args6 (fun o x1 x2 x3 x4 x5 x6 => visitor.MRS o x1 x2 x3 x4 x5 x6));
  ("UnallocatedEncoding", args0 (fun _ => visitor.UnallocatedEncoding));
  ("STRx_LDRx_imm_1", args6 (fun _ x1 x2 x3 x4 x5 x6 => loadstore.STRx_LDRx_imm_1 x1 x2 x3 (b x4) x5 x6));
  ("STRx_LDRx_imm_2", args5 (fun _ x1 x2 x3 x4 x5 => loadstore.STRx_LDRx_imm_2 x1 x2 x3 x4 x5));
  ("STURx_LDURx", args5 (fun _ x1 x2 x3 x4 x5 => loadstore.STURx_LDURx x1 x2 x3 x4 x5));
  ("PRFM_imm", args3 (fun _ x1 x2 x3 => loadstore.PRFM_imm x1 x2 x3));
  ("PRFM_unscaled_imm", args3 (fun _ x1 x2 x3 => loadstore.PRFM_unscaled_imm x1 x2 x3));
  ("STR_imm_fpsimd_1", args6 (fun _ x1 x2 x3 x4 x5 x6 => loadstore.STR_imm_fpsimd_1 x1 x2 x3 (b x4) x5 x6));
  ("STR_imm_fpsimd_2", args5 (fun _ x1 x2 x3 x4 x5 => loadstore.STR_imm_fpsimd_2 x1 x2 x3 x4 x5));
  ("LDR_imm_fpsimd_1", args6 (fun _ x1 x2 x3 x4 x5 x6 => loadstore.LDR_imm_fpsimd_1 x1 x2 x3 (b x4) x5 x6));
  ("LDR_imm_fpsimd_2", args5 (fun _ x1 x2 x3 x4 x5 => loadstore.LDR_imm_fpsimd_2 x1 x2 x3 x4 x5));
  ("STUR_fpsimd", args5 (fun _ x1 x2 x3 x4 x5 => loadstore.STUR_fpsimd x1 x2 x3 x4 x5));
  ("LDUR_fpsimd", args5 (fun _ x1 x2 x3 x4 x5 => loadstore.LDUR_fpsimd x1 x2 x3 x4 x5));
  ("STP_LDP_gen", args8 (fun _ x1 x2 x3 x4 x5 x6 x7 x8 => loadstore.STP_LDP_gen x1 (b x2) (b x3) x4 x5 x6 x7 x8));
  ("STP_LDP_fpsimd", args8 (fun _ x1 x2 x3 x4 x5 x6 x7 x8 => loadstore.STP_LDP_fpsimd x1 (b x2) (b x3) x4 x5 x6 x7 x8));
  ("STNP_LDNP_gen", args6 (fun _ x1 x2 x3 x4 x5 x6 => loadstore.STNP_LDNP_gen x1 x2 x3 x4 x5 x6));
  ("STNP_LDNP_fpsimd", args6 (fun _ x1 x2 x3 x4 x5 x6 => loadstore.STNP_LDNP_fpsimd x1 x2 x3 x4 x5 x6));
  ("STRx_reg", args7 (fun _ x1 x2 x3 x4 x5 x6 x7 => loadstore.STRx_reg x1 x2 x3 x4 (b x5) x6 x7));
  ("LDRx_reg", args7 (fun _ x1 x2 x3 x4 x5 x6 x7 => loadstore.LDRx_reg x1 x2 x3 x4 (b x5) x6 x7));
  ("STR_reg_fpsimd", args7 (fun _ x1 x2 x3 x4 x5 x6 x7 => loadstore.STR_reg_fpsimd x1 x2 x3 x4 (b x5) x6 x7));
  ("LDR_reg_fpsimd", args7 (fun _ x1 x2 x3 x4 x5 x6 x7 => loadstore.LDR_reg_fpsimd x1 x2 x3 x4 (b x5) x6 x7));
  ("LDR_lit_gen", args3 (fun _ x1 x2 x3 => loadstore.LDR_lit_gen (b x1) x2 x3));
  ("LDR_lit_fpsimd", args3 (fun _ x1 x2 x3 => loadstore.LDR_lit_fpsimd x1 x2 x3));
  ("LDRSW_lit", args2 (fun _ x1 x2 => loadstore.LDRSW_lit x1 x2));
  ("PRFM_lit", args2 (fun _ x1 x2 => loadstore.PRFM_lit x1 x2));
  ("STTRB", args3 (fun _ x1 x2 x3 => loadstore.STTRB x1 x2 x3));
  ("STTRH", args3 (fun _ x1 x2 x3 => loadstore.STTRH x1 x2 x3));
  ("STTR", args4 (fun _ x1 x2 x3 x4 => loadstore.STTR x1 x2 x3 x4));
  ("LDTRB", args3 (fun _ x1 x2 x3 => loadstore.LDTRB x1 x2 x3));
  ("LDTRH", args3 (fun _ x1 x2 x3 => loadstore.LDTRH x1 x2 x3));
  ("LDTR", args4 (fun _ x1 x2 x3 x4 => loadstore.LDTR x1 x2 x3 x4));
  ("LDTRSB", args4 (fun _ x1 x2 x3 x4 => loadstore.LDTRSB x1 x2 x3 x4));
  ("LDTRSH", args4 (fun _ x1 x2 x3 x4 => loadstore.LDTRSH x1 x2 x3 x4));
  ("LDTRSW", args3 (fun _ x1 x2 x3 => loadstore.LDTRSW x1 x2 x3));
  ("STXR", args4 (fun o x1 x2 x3 x4 => loadstore.STXR o x1 x2 x3 x4));
  ("STLXR", args4 (fun o x1 x2 x3 x4 => loadstore.STLXR o x1 x2 x3 x4));
  ("STXP", args5 (fun o x1 x2 x3 x4 x5 => loadstore.STXP o x1 x2 x3 x4 x5));
  ("STLXP", args5 (fun o x1 x2 x3 x4 x5 => loadstore.STLXP o x1 x2 x3 x4 x5));
  ("LDXR", args3 (fun o x1 x2 x3 => loadstore.LDXR o x1 x2 x3));
  ("LDAXR", args3 (fun o x1 x2 x3 => loadstore.LDAXR o x1 x2 x3));
  ("LDXP", args4 (fun o x1 x2 x3 x4 => loadstore.LDXP o x1 x2 x3 x4));
  ("LDAXP", args4 (fun o x1 x2 x3 x4 => loadstore.LDAXP o x1 x2 x3 x4));
  ("STLLR", args3 (fun _ x1 x2 x3 => loadstore.STLLR x1 x2 x3));
  ("STLR", args3 (fun _ x1 x2 x3 => loadstore.STLR x1 x2 x3));
  ("LDLAR", args3 (fun _ x1 x2 x3 => loadstore.LDLAR x1 x2 x3));
  ("LDAR", args3 (fun _ x1 x2 x3 => loadstore.LDAR x1 x2 x3));
  ("STx_mult_1", args5 (fun _ x1 x2 x3 x4 x5 => structures.STx_mult_1 (b x1) x2 x3 x4 x5));
  ("STx_mult_2", args6 (fun _ x1 x2 x3 x4 x5 x6 => structures.STx_mult_2 (b x1) x2 x3 x4 x5 x6));
  ("LDx_mult_1", args5 (fun _ x1 x2 x3 x4 x5 => structures.LDx_mult_1 (b x1) x2 x3 x4 x5));
  ("LDx_mult_2", args6 (fun _ x1 x2 x3 x4 x5 x6 => structures.LDx_mult_2 (b x1) x2 x3 x4 x5 x6));
  ("LD1_sngl_1", args6 (fun _ x1 x2 x3 x4 x5 x6 => structures.LD1_sngl_1 (b x1) x2 (b x3) x4 x5 x6));
  ("LD1_sngl_2", args7 (fun _ x1 x2 x3 x4 x5 x6 x7 => structures.LD1_sngl_2 (b x1) x2 x3 (b x4) x5 x6 x7));
  ("LD1R_1", args4 (fun _ x1 x2 x3 x4 => structures.LD1R_1 (b x1) x2 x3 x4));
  ("LD1R_2", args5 (fun _ x1 x2 x3 x4 x5 => structures.LD1R_2 (b x1) x2 x3 x4 x5));
  ("LD2_sngl_1", args6 (fun _ x1 x2 x3 x4 x5 x6 => structures.LD2_sngl_1 (b x1) x2 (b x3) x4 x5 x6));
  ("LD2_sngl_2", args7 (fun _ x1 x2 x3 x4 x5 x6 x7 => structures.LD2_sngl_2 (b x1) x2 x3 (b x4) x5 x6 x7));
  ("LD2R_1", args4 (fun _ x1 x2 x3 x4 => structures.LD2R_1 (b x1) x2 x3 x4));
  ("LD2R_2", args5 (fun _ x1 x2 x3 x4 x5 => structures.LD2R_2 (b x1) x2 x3 x4 x5));
  ("LD3_sngl_1", args6 (fun _ x1 x2 x3 x4 x5 x6 => structures.LD3_sngl_1 (b x1) x2 (b x3) x4 x5 x6));
  ("LD3_sngl_2", args7 (fun _ x1 x2 x3 x4 x5 x6 x7 => structures.LD3_sngl_2 (b x1) x2 x3 (b x4) x5 x6 x7));
  ("LD3R_1", args4 (fun _ x1 x2 x3 x4 => structures.LD3R_1 (b x1) x2 x3 x4));
  ("LD3R_2", args5 (fun _ x1 x2 x3 x4 x5 => structures.LD3R_2 (b x1) x2 x3 x4 x5));
  ("LD4_sngl_1", args6 (fun _ x1 x2 x3 x4 x5 x6 => structures.LD4_sngl_1 (b x1) x2 (b x3) x4 x5 x6));
  ("LD4_sngl_2", args7 (fun _ x1 x2 x3 x4 x5 x6 x7 => structures.LD4_sngl_2 (b x1) x2 x3 (b x4) x5 x6 x7));
  ("LD4R_1", args4 (fun _ x1 x2 x3 x4 => structures.LD4R_1 (b x1) x2 x3 x4));
  ("LD4R_2", args5 (fun _ x1 x2 x3 x4 x5 => structures.LD4R_2 (b x1) x2 x3 x4 x5));
  ("ST1_sngl_1", args6 (fun _ x1 x2 x3 x4 x5 x6 => structures.ST1_sngl_1 (b x1) x2 (b x3) x4 x5 x6));
  ("ST1_sngl_2", args7 (fun _ x1 x2 x3 x4 x5 x6 x7 => structures.ST1_sngl_2 (b x1) x2 x3 (b x4) x5 x6 x7));
  ("ST2_sngl_1", args6 (fun _ x1 x2 x3 x4 x5 x6 => structures.ST2_sngl_1 (b x1) x2 (b x3) x4 x5 x6));
  ("ST2_sngl_2", args7 (fun _ x1 x2 x3 x4 x5 x6 x7 => structures.ST2_sngl_2 (b x1) x2 x3 (b x4) x5 x6 x7));
  ("ST3_sngl_1", args6 (fun _ x1 x2 x3 x4 x5 x6 => structures.ST3_sngl_1 (b x1) x2 (b x3) x4 x5 x6));
  ("ST3_sngl_2", args7 (fun _ x1 x2 x3 x4 x5 x6 x7 => structures.ST3_sngl_2 (b x1) x2 x3 (b x4) x5 x6 x7));
  ("ST4_sngl_1", args6 (fun _ x1 x2 x3 x4 x5 x6 => structures.ST4_sngl_1 (b x1) x2 (b x3) x4 x5 x6));
  ("ST4_sngl_2", args7 (fun _ x1 x2 x3 x4 x5 x6 x7 => structures.ST4_sngl_2 (b x1) x2 x3 (b x4) x5 x6 x7))
].
Fixpoint find_method (n : string) (l : list (string * method)) : option method :=
  match l with [] => None | (n', f) :: l => if String.eqb n' n then Some f else find_method n l end.

(** ** a64_translate.cpp; the methods of other instructions are the parameter [other]. *)
Section Translation.
Context (other : string -> method) (memory_read_code : Z -> option Z) (options : TranslationOptions).
Definition visit (name : string) : method := match find_method name methods with Some f => f | None => other name end.
Definition translate_word (instruction : Z) : M Emitter bool :=
  match Decode a64_matchers instruction with
  | Some m => let! c := visitor.lift (call m instruction) in visit (fst c) options (snd c)
  | None => visitor.InterpretThisInstruction
  end.
(** [AdvancePC(4)] and [CycleCount()++]. *)
Definition next_instruction : M Emitter unit :=
  modify (fun e => with_location (LocationDescriptor.AdvancePC (current_location e) 4) e) ;; visitor.add_cycles 1.
Fixpoint translate_loop (fuel : nat) (single_step : bool) : M Emitter bool :=
  match fuel with
  | O => stop OutOfFuel
  | S f =>
      let! pc := ir.PC in
      let! should_continue := match memory_read_code pc with Some instruction => translate_word instruction | None => visitor.RaiseException Exception.NoExecuteFault end in
      next_instruction ;;
      if should_continue && negb single_step then translate_loop f single_step else ret should_continue
  end.
Definition with_end_location (l : Z) (b : Block) : Block :=
  {| location := location b; end_location := l; pool := pool b; instructions := instructions b; next_id := next_id b; terminal := terminal b; cycle_count := cycle_count b |}.
Definition set_end_location : M Emitter unit := modify (fun e => with_block (with_end_location (LocationDescriptor.UniqueHash (current_location e)) (block e)) e).
Definition Translate_steps (fuel : nat) (single_step : bool) : M Emitter unit :=
  let! should_continue := translate_loop fuel single_step in
  (if single_step && should_continue then let! l := gets current_location in ir.SetTerm (visitor.LinkTo l) else ret tt) ;;
  let! done := gets (fun e => HasTerminal (block e)) in
  assert_ done ;;
  set_end_location.
Definition Translate (fuel : nat) (descriptor : LocationDescriptor.t) : outcome Block :=
  let single_step := LocationDescriptor.single_stepping descriptor in
  let e := {| block := new_Block (LocationDescriptor.UniqueHash descriptor); current_location := descriptor |} in
  match Translate_steps fuel single_step e with (Ret _, e) => Ret (block e) | (Throw x, _) => Throw x | (Stop f, _) => Stop f end.
End Translation.
(** The options of a [TranslationOptions] no member of which is set. *)
Definition default_options : TranslationOptions := {| define_unpredictable_behaviour := false; wall_clock_cntpct := false; hook_hint_instructions := true |}.
Definition TranslateSingleInstruction (other : string -> method) (block : Block) (descriptor : LocationDescriptor.t) (instruction : Z) : outcome (bool * Block) :=
  match (let! should_continue := translate_word other default_options instruction in next_instruction ;; set_end_location ;; ret should_continue)
          {| block := block; current_location := descriptor |} with
  | (Ret c, e) => Ret (c, IrEmitter.block e) | (Throw x, _) => Throw x | (Stop f, _) => Stop f
  end.
