(* ===== verification/EmitLogic.v ===== *)
(** Reasoning about code that emits instructions: a computation of the translator
    returns, keeps the block well-formed, and extends it by instructions whose effect on
    a given run is known. *)
From stdpp Require Import list.
From S2P Require Import Prelude Bits IrOpcodes A64Imm Ir A64Jit IrSem IrWf IrExec IrEdit IrFold IrBuild GetSet GetSetSem GetSetSound IrPasses IrHeader IrEmitter.
Import Op(Opcode).
Local Open Scope Z_scope.

(** ** Blocks by their code *)
Lemma code_instructions b : instructions b = map (fun x => fst (fst x)) (code b).
Proof. unfold code. induction (instructions b) as [|i l IH]; [done|]. simpl. f_equal; [|exact IH]. unfold entry_of. by destruct (pool b !! i). Qed.
Lemma appended b b' i o l : code b' = code b ++ [(i, o, l)] -> instructions b' = instructions b ++ [i] /\ (forall j, j ∈ instructions b -> entry_of b' j = entry_of b j) /\ entry_of b' i = (i, o, l).
Proof.
  intros Hc. assert (Hi : instructions b' = instructions b ++ [i]) by (rewrite !code_instructions, Hc, map_app; done). unfold code in Hc. rewrite Hi, map_app in Hc.
  apply app_inj_tail in Hc as [Hc Hl]. split_and!; [done| |done].
  intros j Hj. apply list_elem_of_lookup in Hj as [k Hk]. assert (Hk' := f_equal (.!! k) Hc). simpl in Hk'. rewrite !list_lookup_fmap, Hk in Hk'. by injection Hk'.
Qed.
Lemma entry_opcode b j : opcode_of b j = snd (fst (entry_of b j)).
Proof. unfold opcode_of, entry_of. by destruct (pool b !! j). Qed.
Lemma code_elem b c p vs : (c, p, vs) ∈ code b <-> c ∈ instructions b /\ entry_of b c = (c, p, vs).
Proof.
  unfold code. rewrite list_elem_of_fmap. split; [|intros [? ?]; by exists c]. intros (c' & He & Hc). assert (c' = c) as -> by (unfold entry_of in He; by destruct (pool b !! c'); simplify_eq). done.
Qed.

(** What the pass over registers asks of an instruction. *)
Definition entry_use (b : Block) (p : Opcode) (vs : list Value) : Prop :=
  Forall (readable b p) vs /\ forall a k, accessor p = Some (a, k) -> (exists l, static_loc k vs = Some l /\ has_info l) /\ (a = Write -> narrow k = false).
Lemma register_use_code b : wf b -> (forall c p vs, (c, p, vs) ∈ code b -> entry_use b p vs) ->
  (forall c, c ∈ instructions b -> escapes (opcode_of b c) = true -> last (instructions b) = Some c) -> register_use b.
Proof.
  intros Hw Hc Hl. assert (He : forall c p us, c ∈ instructions b -> core b c = Some (p, us) -> (c, p, take (GetNumArgsOf p) us) ∈ code b).
  { intros c p us Hin Hco. apply code_elem. split; [done|]. by rewrite (entry_of_core _ _ _ _ Hco). }
  constructor; [| |done].
  - intros c p us v Hin Hco Hv. destruct (Hc _ _ _ (He c p us Hin Hco)) as [Hr _]. rewrite Forall_forall in Hr.
    apply list_elem_of_split in Hin as (pre & post & E). destruct (so_inst b (wf_shape b Hw) pre c post E) as (p' & us' & Hco' & Hok). rewrite Hco in Hco'. simplify_eq.
    apply list_elem_of_lookup in Hv as [k Hk]. destruct (decide (k < GetNumArgsOf p')%nat) as [Hlt|Hge].
    + apply Hr. apply list_elem_of_lookup. exists k. by rewrite lookup_take_lt.
    + by rewrite (io_rest _ _ _ _ Hok k v Hk) by lia.
  - intros c p us a k Hin Hco Ha. destruct (Hc _ _ _ (He c p us Hin Hco)) as [_ Hu]. by destruct (Hu a k Ha).
Qed.

(** ** Emission and execution together *)
Section Emission.
Context {St : Type} `{A64Sem St} (s0 : St).
Abbreviation env := (gmap nat result).

(** What is known at a point of the translation: the results of the instructions so far
    in the run from [s0], the location, the terminal, the last instruction and whether
    more may follow. *)
Record Shadow : Type := { sh_next : nat; sh_env : env; sh_loc : LocationDescriptor.t; sh_term : Terminal; sh_last : option nat; sh_open : bool }.
Record related (em : Emitter) (sh : Shadow) (s : St) : Prop := {
  rl_wf : wf (block em);
  rl_fresh : fresh (block em);
  rl_next : next_id (block em) = sh_next sh;
  rl_exec : exec (code (block em)) ∅ s0 = (sh_env sh, s);
  rl_dom : forall i, i ∈ instructions (block em) <-> is_Some (sh_env sh !! i);
  rl_op : forall i r, sh_env sh !! i = Some r -> r_op r = opcode_of (block em) i /\ r_op r <> Op.Identity;
  rl_use : forall c p vs, (c, p, vs) ∈ code (block em) -> entry_use (block em) p vs;
  rl_escape : forall c, c ∈ instructions (block em) -> escapes (opcode_of (block em) c) = true -> last (instructions (block em)) = Some c /\ sh_open sh = false;
  rl_last : last (instructions (block em)) = sh_last sh;
  rl_loc : current_location em = sh_loc sh;
  rl_term : terminal (block em) = sh_term sh;
  rl_valid : LocationDescriptor.valid (sh_loc sh)
}.
(** The computation returns and [Q] holds of its value and of what is known then. *)
Definition emits {A} (c : M Emitter A) (Q : A -> Shadow -> St -> Prop) (sh : Shadow) (s : St) : Prop :=
  forall em, related em sh s -> exists a em' sh' s', c em = (Ret a, em') /\ related em' sh' s' /\ Q a sh' s'.

Lemma emits_ret {A} (a : A) (Q : A -> Shadow -> St -> Prop) sh s : Q a sh s -> emits (ret a) Q sh s.
Proof. intros HQ em Hr. by exists a, em, sh, s. Qed.
Lemma emits_bind {A B} (c : M Emitter A) (k : A -> M Emitter B) Q sh s : emits c (fun a => emits (k a) Q) sh s -> emits (bind c k) Q sh s.
Proof. intros Hc em Hr. destruct (Hc em Hr) as (a & em1 & sh1 & s1 & E1 & Hr1 & Hk). unfold bind. rewrite E1. by apply Hk. Qed.
Lemma emits_mono {A} (c : M Emitter A) (Q R : A -> Shadow -> St -> Prop) sh s : emits c Q sh s -> (forall a sh' s', Q a sh' s' -> R a sh' s') -> emits c R sh s.
Proof. intros Hc HR em Hr. destruct (Hc em Hr) as (a & em1 & sh1 & s1 & E1 & Hr1 & HQ). exists a, em1, sh1, s1. auto. Qed.
Lemma emits_loc (Q : LocationDescriptor.t -> Shadow -> St -> Prop) sh s : Q (sh_loc sh) sh s -> emits (gets current_location) Q sh s.
Proof. intros HQ em Hr. exists (sh_loc sh), em, sh, s. split; [|done]. unfold gets. by rewrite (rl_loc _ _ _ Hr). Qed.
Lemma emits_PC (Q : Z -> Shadow -> St -> Prop) sh s : Q (LocationDescriptor.PC (sh_loc sh)) sh s -> emits ir.PC Q sh s.
Proof. intros HQ em Hr. exists (LocationDescriptor.PC (sh_loc sh)), em, sh, s. split; [|done]. unfold ir.PC, gets. by rewrite (rl_loc _ _ _ Hr). Qed.
Lemma emits_valid {A} (c : M Emitter A) Q sh s : (LocationDescriptor.valid (sh_loc sh) -> emits c Q sh s) -> emits c Q sh s.
Proof. intros Hc em Hr. by apply Hc; [apply (rl_valid _ _ _ Hr)|]. Qed.
Lemma emits_assert b (Q : unit -> Shadow -> St -> Prop) sh s : b = true -> Q tt sh s -> emits (assert_ b) Q sh s.
Proof. intros ->. apply emits_ret. Qed.

(** *** Values *)
Definition holds (sh : Shadow) (v : Value) (ty : Ty.t) (z : Z) : Prop :=
  ty <> Ty.Void /\ ty <> Ty.Opaque /\ tv_ok (ty, z) /\
  match v with
  | Imm t p => t = ty /\ p = z
  | Ref j => exists r, sh_env sh !! j = Some r /\ r_val r = (ty, z) /\ GetTypeOf (r_op r) = ty /\ (forall k, accessor (r_op r) <> Some (Write, k)) /\ r_op r <> Op.GetGEFromOp
  end.
(** A result whose flags may be read. *)
Definition made (sh : Shadow) (v : Value) (r : result) : Prop :=
  exists j, v = Ref j /\ sh_env sh !! j = Some r /\ accessor (r_op r) = None /\ IsAPseudoOperation (r_op r) = false.
Definition grows (sh sh' : Shadow) : Prop := sh_env sh ⊆ sh_env sh' /\ sh_loc sh' = sh_loc sh /\ sh_term sh' = sh_term sh /\ sh_open sh' = sh_open sh.
Lemma grows_refl sh : grows sh sh.
Proof. done. Qed.
Lemma grows_trans sh1 sh2 sh3 : grows sh1 sh2 -> grows sh2 sh3 -> grows sh1 sh3.
Proof. intros (A1 & A2 & A3 & A4) (B1 & B2 & B3 & B4). split_and!; [by etrans|congruence..]. Qed.
Lemma holds_env sh sh' v ty z : sh_env sh ⊆ sh_env sh' -> holds sh v ty z -> holds sh' v ty z.
Proof.
  intros G (H1 & H2 & H3 & H4). split_and!; auto. destruct v as [j|]; [|done]. destruct H4 as (r & Hr & H4). exists r. split; [|done]. by eapply lookup_weaken.
Qed.
Lemma holds_grows sh sh' v ty z : grows sh sh' -> holds sh v ty z -> holds sh' v ty z.
Proof. intros (G & _). by apply holds_env. Qed.
Lemma made_grows sh sh' v r : grows sh sh' -> made sh v r -> made sh' v r.
Proof. intros (G & _) (j & -> & Hj & H1 & H2). exists j. split_and!; auto. by eapply lookup_weaken. Qed.
Lemma holds_range sh v ty z : holds sh v ty z -> tv_ok (ty, z).
Proof. by intros (_ & _ & ? & _). Qed.
Lemma holds_eval sh v ty z : holds sh v ty z -> eval (sh_env sh) v = (ty, z).
Proof. intros (_ & _ & _ & Hv). unfold eval. destruct v as [j|t p]; simpl; [destruct Hv as (r & -> & Hv & _); done|by destruct Hv as [-> ->]]. Qed.
Lemma plain_resolve em sh s v ty z : related em sh s -> holds sh v ty z -> GetType (block em) v = ty.
Proof.
  intros Hr (_ & _ & _ & Hv). unfold GetType, resolve. destruct v as [j|t p]; [|destruct (length _); by destruct Hv].
  destruct Hv as (r & Hj & _ & Ht & _ & _). destruct (rl_op _ _ _ Hr j r Hj) as [Ho Hid]. assert (Hop := Ho). unfold opcode_of in Hop.
  destruct (length _); simpl; [by rewrite <- Ho|]. destruct (pool (block em) !! j) as [x|] eqn:Hx; [|by rewrite <- Ho].
  rewrite decide_False by congruence. by rewrite <- Ho.
Qed.
Lemma emits_type_of v ty z (Q : Ty.t -> Shadow -> St -> Prop) sh s : holds sh v ty z -> Q ty sh s -> emits (ir.type_of v) Q sh s.
Proof. intros Hv HQ em Hr. exists ty, em, sh, s. split; [|done]. unfold ir.type_of, gets. by rewrite (plain_resolve _ _ _ _ _ _ Hr Hv). Qed.

(** *** One instruction *)
Definition arg_good (sh : Shadow) (o : Opcode) (ty : Ty.t) (v : Value) : Prop :=
  match v with
  | Imm t z => t <> Ty.Void /\ t <> Ty.Opaque /\ tv_ok (t, z) /\ AreTypesCompatible t ty = true
  | Ref j => exists r, sh_env sh !! j = Some r /\ AreTypesCompatible (GetTypeOf (r_op r)) ty = true /\
      match accessor (r_op r) with Some (Write, _) => False | Some (Read, _) => reads_op o = false | None => True end /\
      (IsAPseudoOperation o = true -> IsAPseudoOperation (r_op r) = false) /\ (o = Op.GetNZCVFromOp -> MayGetNZCVFromOp (r_op r) = true) /\
      (o = Op.GetCarryFromOp -> carries (r_op r) = true /\ sh_last sh = Some j)
  end.
Record can_emit (sh : Shadow) (o : Opcode) (l : list Value) : Prop := {
  ce_open : sh_open sh = true;
  ce_op : o <> Op.Identity;
  ce_args : Forall2 (arg_good sh o) (snd (Op.info o)) l;
  ce_loc : forall a k, accessor o = Some (a, k) -> (exists l0, static_loc k l = Some l0 /\ has_info l0) /\ (a = Write -> narrow k = false)
}.
Definition after_inst (sh : Shadow) (s : St) (o : Opcode) (l : list Value) : Shadow :=
  {| sh_next := Datatypes.S (sh_next sh); sh_env := <[sh_next sh := fst (run_inst (sh_env sh) s o l)]> (sh_env sh); sh_loc := sh_loc sh; sh_term := sh_term sh;
     sh_last := Some (sh_next sh); sh_open := negb (escapes o) |}.

Section OneInst.
Context (em : Emitter) (sh : Shadow) (s : St) (Hr : related em sh s) (o : Opcode) (l : list Value) (Hc : can_emit sh o l).
Let b := block em.
Lemma plain_ref j r : sh_env sh !! j = Some r -> resolve b (Ref j) = Ref j /\ opcode_of b j = r_op r /\ j ∈ instructions b.
Proof.
  intros Hj. destruct (rl_op _ _ _ Hr j r Hj) as [Ho Hid]. assert (Hop := Ho). unfold opcode_of in Hop. split_and!; [|done|apply (rl_dom _ _ _ Hr); by exists r].
  unfold resolve. destruct (length _); simpl; [done|]. fold b in Hop. destruct (pool b !! j) as [x|] eqn:Hx; [|done]. by rewrite decide_False by congruence.
Qed.
Lemma next_unknown : sh_env sh !! sh_next sh = None.
Proof. destruct (sh_env sh !! sh_next sh) as [r|] eqn:E; [|done]. destruct (plain_ref _ _ E) as (_ & _ & Hin). rewrite <- (rl_next _ _ _ Hr) in Hin. by destruct (rl_fresh _ _ _ Hr (next_id (block em)) ltac:(lia)). Qed.
Lemma arg_ref j : Ref j ∈ l -> exists r ty, arg_good sh o ty (Ref j) /\ sh_env sh !! j = Some r.
Proof.
  intros [k Hk]%list_elem_of_lookup. destruct (Forall2_lookup_r _ _ _ _ _ (ce_args _ _ _ Hc) Hk) as (ty & _ & Hg). destruct Hg as (r & Hj & Hg). exists r, ty. split; [|done]. by exists r.
Qed.
Lemma can_emit_emittable : emittable b o l.
Proof.
  pose proof (ce_args _ _ _ Hc) as Ha. pose proof (Forall2_length _ _ _ Ha) as Hlen. constructor.
  - by rewrite <- Hlen.
  - intros k v Hv. destruct (Forall2_lookup_r _ _ _ _ _ Ha Hv) as (ty & Hty & Hg). assert (GetArgTypeOf o k = ty) as -> by (unfold GetArgTypeOf; by apply nth_lookup_Some). unfold arg_ok, GetType.
    destruct v as [j|t z]; simpl.
    + destruct Hg as (r & Hj & Ht & _). destruct (plain_ref _ _ Hj) as (-> & -> & Hin). done.
    + destruct Hg as (? & ? & ? & Ht). split_and!; try done. by rewrite resolve_imm.
  - intros j Hj Him. destruct (arg_ref j Hj) as (r & _ & _ & Hr'). unfold IsImmediate in Him. by rewrite (proj1 (plain_ref _ _ Hr')) in Him.
  - intros j Hp Hj. destruct (arg_ref j) as (r & ty & (r' & Hj' & Hg) & _); [by eapply list_elem_of_lookup_2|]. destruct (plain_ref _ _ Hj') as (_ & -> & _). tauto.
  - intros j Hp Hj. destruct (arg_ref j) as (r & ty & (r' & Hj' & Hg) & _); [by eapply list_elem_of_lookup_2|]. destruct (plain_ref _ _ Hj') as (_ & -> & _). tauto.
  - intros j Hp Hj. destruct (arg_ref j) as (r & ty & (r' & Hj' & Hg) & _); [by eapply list_elem_of_lookup_2|]. destruct (plain_ref _ _ Hj') as (_ & -> & _).
    destruct Hg as (_ & _ & _ & _ & [Hca Hla]%(fun H => H Hp)). split; [done|]. intros c (oc & us & Hin & Hco & Hpc & Hc0) _.
    apply list_elem_of_split in Hin as (pre & post & E). destruct (so_inst _ (wf_shape _ (rl_wf _ _ _ Hr)) pre c post E) as (p' & us' & Hco' & Hok).
    change (core b c = Some (p', us')) in Hco'. rewrite Hco in Hco'. injection Hco' as <- <-. pose proof (inst_ok_refs _ _ _ _ 0 (Ref j) Hok Hc0) as Hjp. simpl in Hjp.
    pose proof (so_nodup _ (wf_shape _ (rl_wf _ _ _ Hr))) as Hn. pose proof (rl_last _ _ _ Hr) as Hl. rewrite Hla in Hl. fold b in E. fold b in Hl, Hn. rewrite E in Hl, Hn.
    apply NoDup_app in Hn as (_ & Hn & _). apply (Hn j Hjp). rewrite last_app_cons in Hl. by eapply last_Some_elem_of.
Qed.

Context (b' : Block) (Hw' : wf b') (Hf' : fresh b') (Hn' : next_id b' = Datatypes.S (next_id b)) (Ht' : terminal b' = terminal b) (Hcode : code b' = code b ++ [(next_id b, o, l)]).
Lemma opcode_kept j : j ∈ instructions b -> opcode_of b' j = opcode_of b j.
Proof. intros Hj. destruct (appended _ _ _ _ _ Hcode) as (_ & He & _). by rewrite !entry_opcode, He. Qed.
Lemma code_refs c p vs v : (c, p, vs) ∈ code b -> v ∈ vs -> refs_in (instructions b) v.
Proof.
  intros [Hin He]%code_elem Hv. apply list_elem_of_split in Hin as (pre & post & E). destruct (so_inst _ (wf_shape _ (rl_wf _ _ _ Hr)) pre c post E) as (p' & us & Hco & Hok).
  change (core b c = Some (p', us)) in Hco. rewrite (entry_of_core _ _ _ _ Hco) in He. simplify_eq. fold b in E. rewrite E. apply refs_in_app. by eapply used_refs_in.
Qed.
Lemma kept_use p vs : (forall v, v ∈ vs -> refs_in (instructions b) v) -> entry_use b p vs -> entry_use b' p vs.
Proof.
  intros Hin [H1 H2]. split; [|done]. rewrite Forall_forall in *. intros v Hv. specialize (H1 v Hv). specialize (Hin v Hv). destruct v as [j|]; [|done]. simpl in *. by rewrite opcode_kept.
Qed.
Lemma new_use : entry_use b o l.
Proof.
  split; [|apply (ce_loc _ _ _ Hc)]. rewrite Forall_forall. intros [j|] Hv; [|done]. destruct (arg_ref j Hv) as (_ & ty & (r & Hj & _ & Ha & _) & _). simpl. by rewrite (proj1 (proj2 (plain_ref _ _ Hj))).
Qed.
Lemma new_refs_in v : v ∈ l -> refs_in (instructions b) v.
Proof. destruct v as [j|]; [|done]. intros (r & _ & _ & Hj)%arg_ref. by apply plain_ref in Hj as (_ & _ & ?). Qed.
Lemma related_inst : related (with_block b' em) (after_inst sh s o l) (snd (run_inst (sh_env sh) s o l)).
Proof.
  destruct (appended _ _ _ _ _ Hcode) as (Hi & He & Hnew). pose proof (rl_next _ _ _ Hr) as Hnx. fold b in Hnx. pose proof next_unknown as Hun.
  assert (Hop : opcode_of b' (sh_next sh) = o) by (rewrite entry_opcode, <- Hnx, Hnew; done). constructor; cbn [block with_block sh_next sh_env sh_loc sh_term sh_last sh_open after_inst current_location]; try done.
  - by rewrite Hn', Hnx.
  - rewrite Hcode, exec_app. pose proof (rl_exec _ _ _ Hr) as Hx. fold b in Hx. rewrite Hx, Hnx. simpl. by destruct (run_inst (sh_env sh) s o l).
  - intros i. rewrite Hi, elem_of_app, list_elem_of_singleton. pose proof (rl_dom _ _ _ Hr i) as Hd. fold b in Hd. rewrite Hd, Hnx, lookup_insert_is_Some. destruct (decide (sh_next sh = i)) as [->|]; [split; auto|]. split; [intros [?| ->]; auto|intros [?|[_ ?]]; [done|auto]].
  - intros i r Hri. apply lookup_insert_Some in Hri as [[<- <-]|[Hne Hri]]; [rewrite run_inst_op, Hop; split; [done|by apply (ce_op _ _ _ Hc)]|]. destruct (rl_op _ _ _ Hr i r Hri) as [-> ?]. split; [|done]. symmetry. apply opcode_kept. by apply (plain_ref _ _ Hri).
  - intros c p vs. rewrite Hcode, elem_of_app, list_elem_of_singleton. intros [Hin|[= -> -> ->]]; [|by apply kept_use; [apply new_refs_in|apply new_use]]. apply kept_use; [intros v; by apply (code_refs c p)|by apply (rl_use _ _ _ Hr c)].
  - intros c. rewrite Hi, elem_of_app, list_elem_of_singleton. intros [Hin| ->] Hesc; [|split; [apply last_snoc|]; rewrite Hnx, Hop in Hesc; by rewrite Hesc].
    exfalso. rewrite opcode_kept in Hesc by done. destruct (rl_escape _ _ _ Hr c Hin Hesc) as [_ Ho]. by rewrite (ce_open _ _ _ Hc) in Ho.
  - by rewrite Hi, last_snoc, Hnx.
  - apply (rl_loc _ _ _ Hr).
  - rewrite Ht'. apply (rl_term _ _ _ Hr).
  - apply (rl_valid _ _ _ Hr).
Qed.
End OneInst.
Lemma emits_Inst o l (Q : Value -> Shadow -> St -> Prop) sh s : can_emit sh o l ->
  (sh_env sh ⊆ sh_env (after_inst sh s o l) -> Q (Ref (sh_next sh)) (after_inst sh s o l) (snd (run_inst (sh_env sh) s o l))) -> emits (ir.Inst o l) Q sh s.
Proof.
  intros Hc HQ em Hr. destruct (AppendNewInst_spec _ _ _ (rl_wf _ _ _ Hr) (rl_fresh _ _ _ Hr) (can_emit_emittable em sh s Hr o l Hc)) as (b' & Hb' & Hw' & Hf' & Hcode).
  destruct (AppendNewInst_header _ _ _ _ _ Hb') as [Hh Hn]. exists (Ref (sh_next sh)), (with_block b' em), (after_inst sh s o l), (snd (run_inst (sh_env sh) s o l)). split_and!.
  - unfold ir.Inst. by rewrite Hb', (rl_next _ _ _ Hr).
  - by apply related_inst.
  - apply HQ. apply insert_subseteq. by eapply next_unknown.
Qed.

(** *** Kinds of instructions *)
Fixpoint args_hold (sh : Shadow) (tys : list Ty.t) (l : list Value) (zs : list Z) : Prop :=
  match tys, l, zs with
  | [], [], [] => True
  | ty :: tys, v :: l, z :: zs => holds sh v ty z /\ args_hold sh tys l zs
  | _, _, _ => False
  end.
Lemma args_hold_good sh o : reads_op o = false -> IsAPseudoOperation o = false -> forall tys l zs, args_hold sh tys l zs -> Forall2 (arg_good sh o) tys l.
Proof.
  intros Hro Hps. induction tys as [|ty tys IH]; intros [|v l] [|z zs] Ha; try done; destruct Ha as [(H1 & H2 & H3 & Hv) Ha]; constructor; [|by eapply IH].
  assert (Hcompat : AreTypesCompatible ty ty = true) by (unfold AreTypesCompatible; by rewrite bool_decide_true). destruct v as [j|t p]; [|destruct Hv as [-> ->]; done].
  destruct Hv as (r & Hj & _ & Ht & Hac & _). exists r. split_and!; [done|by rewrite Ht| |congruence|intros ->; done|intros ->; done]. destruct (accessor (r_op r)) as [[[] ?]|] eqn:E; [done|by eapply Hac|done].
Qed.
Lemma args_hold_eval sh : forall tys l zs, args_hold sh tys l zs -> map (eval (sh_env sh)) l = zip tys zs.
Proof. induction tys as [|ty tys IH]; intros [|v l] [|z zs] Ha; try done. destruct Ha as [Hv Ha]. simpl. f_equal; [by apply holds_eval|by apply IH]. Qed.
Definition valued (ty : Ty.t) : bool := match ty with Ty.Void | Ty.Opaque => false | _ => true end.
Lemma valued_spec ty : valued ty = true -> ty <> Ty.Void /\ ty <> Ty.Opaque.
Proof. by destruct ty. Qed.
(** Ordinary operations. *)
Definition plain_op (o : Opcode) : bool :=
  negb (IsAPseudoOperation o) && negb (escapes o) && negb (reads_op o) && negb (bool_decide (o = Op.Identity)) && match accessor o with None => true | Some _ => false end.
Lemma plain_op_spec o : plain_op o = true -> IsAPseudoOperation o = false /\ escapes o = false /\ reads_op o = false /\ o <> Op.Identity /\ accessor o = None.
Proof.
  unfold plain_op. intros [[[[H1 H2]%andb_true_iff H3]%andb_true_iff H4]%andb_true_iff H5]%andb_true_iff. apply negb_true_iff in H1, H2, H3, H4. apply bool_decide_eq_false in H4.
  by destruct (accessor o).
Qed.
Lemma after_grows sh s o l : sh_open sh = true -> escapes o = false -> sh_env sh ⊆ sh_env (after_inst sh s o l) -> grows sh (after_inst sh s o l).
Proof. intros Ho He Hs. unfold grows. simpl. by rewrite Ho, He. Qed.
Lemma new_holds sh s o l : o <> Op.Identity -> o <> Op.GetGEFromOp -> valued (GetTypeOf o) = true -> (forall k, accessor o <> Some (Write, k)) ->
  forall z, snd (r_val (fst (run_inst (sh_env sh) s o l))) = z -> holds (after_inst sh s o l) (Ref (sh_next sh)) (GetTypeOf o) z.
Proof.
  intros Hid Hge [Hv1 Hv2]%valued_spec Hac z Hz. pose proof (run_inst_ok (sh_env sh) s o l Hid) as Hok. pose proof (run_inst_type (sh_env sh) s o l Hid) as Ht.
  assert (Hrv : r_val (fst (run_inst (sh_env sh) s o l)) = (GetTypeOf o, z)) by (rewrite <- Ht, <- Hz; by destruct (r_val _)). rewrite Hrv in Hok.
  split_and!; auto. exists (fst (run_inst (sh_env sh) s o l)). rewrite run_inst_op. split_and!; auto. apply lookup_insert_eq.
Qed.
Lemma emits_plain o l zs (Q : Value -> Shadow -> St -> Prop) sh s : sh_open sh = true -> plain_op o = true -> args_hold sh (snd (Op.info o)) l zs ->
  (forall sh', grows sh sh' -> let r := run_inst (sh_env sh) s o l in (forall z, valued (GetTypeOf o) = true -> snd (r_val (fst r)) = z -> holds sh' (Ref (sh_next sh)) (GetTypeOf o) z) ->
    made sh' (Ref (sh_next sh)) (fst r) -> Q (Ref (sh_next sh)) sh' (snd r)) -> emits (ir.Inst o l) Q sh s.
Proof.
  intros Ho (P1 & P2 & P3 & P4 & P5)%plain_op_spec Ha HQ. apply emits_Inst.
  - constructor; [done|done|by eapply args_hold_good|by rewrite P5].
  - intros Hs. apply HQ; [by apply after_grows|intros z Hv Hz; apply new_holds; try done; [by intros ->|by rewrite P5]|]. exists (sh_next sh). rewrite run_inst_op. split_and!; auto. apply lookup_insert_eq.
Qed.
(** Of a value of the width of a register. *)
Lemma word_not_pseudo o : GetTypeOf o = Ty.U32 \/ GetTypeOf o = Ty.U64 -> o <> Op.GetGEFromOp -> IsAPseudoOperation o = false.
Proof. intros Ht Hge. destruct (IsAPseudoOperation o) eqn:E; [|done]. destruct o; simpl in E; try discriminate E; try done; by destruct Ht. Qed.
Lemma emits_IsZero o v ty z (Q : Value -> Shadow -> St -> Prop) sh s : sh_open sh = true -> (o, ty) = (Op.IsZero32, Ty.U32) \/ (o, ty) = (Op.IsZero64, Ty.U64) -> holds sh v ty z ->
  (forall v' sh', grows sh sh' -> holds sh' v' Ty.U1 (Z.b2z (z =? 0)) -> Q v' sh' s) -> emits (ir.Inst o [v]) Q sh s.
Proof.
  intros Ho Hty Hv HQ. assert (Hz : snd (r_val (fst (run_inst (sh_env sh) s o [v]))) = Z.b2z (z =? 0) /\ snd (run_inst (sh_env sh) s o [v]) = s).
  { unfold run_inst. destruct Hty as [[= -> ->]|[= -> ->]]; simpl; by rewrite (holds_eval _ _ _ _ Hv). }
  destruct Hz as [Hz Hs']. apply emits_Inst.
  - constructor; [done|by destruct Hty as [[= -> ->]|[= -> ->]]| |by destruct Hty as [[= -> ->]|[= -> ->]]]. assert (snd (Op.info o) = [ty]) as -> by (by destruct Hty as [[= -> ->]|[= -> ->]]). constructor; [|constructor].
    assert (Hc : AreTypesCompatible ty ty = true) by (unfold AreTypesCompatible; by rewrite bool_decide_true). destruct Hv as (H1 & H2 & H3 & Hv). destruct v as [j|t p]; [|destruct Hv as [-> ->]; done].
    destruct Hv as (r & Hj & _ & Ht & Hac & Hge). exists r. split_and!; [done|by rewrite Ht| | |by destruct Hty as [[= -> ->]|[= -> ->]]|by destruct Hty as [[= -> ->]|[= -> ->]]].
    + destruct (accessor (r_op r)) as [[[] ?]|] eqn:E; [by destruct Hty as [[= -> ->]|[= -> ->]]|by eapply Hac|done].
    + intros _. apply word_not_pseudo; [|done]. rewrite Ht. destruct Hty as [[= -> ->]|[= -> ->]]; auto.
  - intros Hs. rewrite Hs'. assert (He : escapes o = false) by (by destruct Hty as [[= -> ->]|[= -> ->]]). apply HQ; [by apply after_grows|]. assert (Ty.U1 = GetTypeOf o) as -> by (by destruct Hty as [[= -> ->]|[= -> ->]]).
    by apply new_holds; destruct Hty as [[= -> ->]|[= -> ->]].
Qed.
(** Integer operations. *)
Lemma emits_pure o l zs z (Q : Value -> Shadow -> St -> Prop) sh s : sh_open sh = true -> plain_op o = true -> valued (GetTypeOf o) = true ->
  args_hold sh (snd (Op.info o)) l zs -> pure o (zip (snd (Op.info o)) zs) = Some z ->
  (forall v sh', grows sh sh' -> holds sh' v (GetTypeOf o) z -> made sh' v {| r_op := o; r_args := zip (snd (Op.info o)) zs; r_val := (GetTypeOf o, z) |} -> Q v sh' s) ->
  emits (ir.Inst o l) Q sh s.
Proof.
  intros Ho Hp Hv Ha Hz HQ. eapply emits_plain; [done|done|done|]. intros sh' G r. rewrite <- (args_hold_eval sh _ _ _ Ha) in Hz. subst r. rewrite (run_inst_pure _ _ _ _ _ Hz). cbn [fst snd r_val].
  rewrite (args_hold_eval sh _ _ _ Ha). intros Hh Hm. apply HQ; auto.
Qed.
(** Operations with a meaning given by the class. *)
Lemma emits_sem o l zs z s' (Q : Value -> Shadow -> St -> Prop) sh s : sh_open sh = true -> plain_op o = true -> o <> Op.Void ->
  args_hold sh (snd (Op.info o)) l zs -> pure o (zip (snd (Op.info o)) zs) = None -> sem o (zip (snd (Op.info o)) zs) s = (z, s') ->
  (forall v sh', grows sh sh' -> (valued (GetTypeOf o) = true -> holds sh' v (GetTypeOf o) z) -> Q v sh' s') -> emits (ir.Inst o l) Q sh s.
Proof.
  intros Ho Hp Hvd Ha Hn Hz HQ. pose proof (plain_op_spec o Hp) as (_ & _ & P3 & P4 & _). eapply emits_plain; [done|done|done|]. intros sh' G r Hh Hm.
  assert (Hr : r = ({| r_op := o; r_args := zip (snd (Op.info o)) zs; r_val := (GetTypeOf o, z) |}, s')).
  { subst r. unfold run_inst. rewrite decide_False, decide_False, P3 by done. rewrite (args_hold_eval sh _ _ _ Ha), Hn, Hz. done. }
  rewrite Hr in *. apply HQ; [done|]. intros Hv. by apply Hh.
Qed.
(** The flags of a result. *)
Lemma emits_NZCVFrom v r (Q : Value -> Shadow -> St -> Prop) sh s : sh_open sh = true -> made sh v r -> MayGetNZCVFromOp (r_op r) = true ->
  (forall v' sh', grows sh sh' -> holds sh' v' Ty.NZCVFlags (nzcv_of r) -> Q v' sh' s) -> emits (ir.NZCVFrom v) Q sh s.
Proof.
  intros Ho (j & -> & Hj & Hac & Hps) Hm HQ. unfold ir.NZCVFrom. apply emits_Inst.
  - constructor; [done|done| |done]. constructor; [|constructor]. exists r. rewrite Hac. split_and!; auto; try done. unfold AreTypesCompatible. rewrite (bool_decide_true (Ty.Opaque = Ty.Opaque)) by done. by rewrite orb_true_r.
  - intros Hs. apply HQ; [by apply after_grows|]. apply new_holds; [done|done|done|done|]. unfold run_inst. simpl. by rewrite Hj.
Qed.
(** The carry of the instruction just emitted. *)
Lemma emits_GetCarry v r (Q : Value -> Shadow -> St -> Prop) sh s : sh_open sh = true -> made sh v r -> carries (r_op r) = true -> (exists j, v = Ref j /\ sh_last sh = Some j) ->
  (forall v' sh', grows sh sh' -> Q v' sh' s) -> emits (ir.Inst Op.GetCarryFromOp [v]) Q sh s.
Proof.
  intros Ho (j & -> & Hj & Hac & Hps) Hm (j' & [= <-] & Hl) HQ. apply emits_Inst.
  - constructor; [done|done| |done]. constructor; [|constructor]. exists r. rewrite Hac. split_and!; auto; try done. unfold AreTypesCompatible. rewrite (bool_decide_true (Ty.Opaque = Ty.Opaque)) by done. by rewrite orb_true_r.
  - intros Hs. apply HQ. by apply after_grows.
Qed.
(** Registers: an operation names none, or one by number. *)
Definition reg_args (t : Ty.t) (l : list Value) : Prop := l = [] \/ exists n, l = [Imm t n].
Definition reg_type (t : Ty.t) : Prop := t = Ty.A64Reg \/ t = Ty.A64Vec.
Lemma reg_arg_good t sh o n : reg_type t -> arg_good sh o t (Imm t n).
Proof. by intros [-> | ->]. Qed.
Lemma emits_read t o k l loc (Q : Value -> Shadow -> St -> Prop) sh s : reg_type t -> sh_open sh = true -> accessor o = Some (Read, k) -> reg_args t l -> length l = GetNumArgsOf o -> GetArgTypeOf o 0 = t \/ l = [] ->
  static_loc k l = Some loc -> has_info loc ->
  (forall v sh', grows sh sh' -> holds sh' v (view_type k) (view k (rd s loc)) -> Q v sh' s) -> emits (ir.Inst o l) Q sh s.
Proof.
  intros Ht0 Ho Hac Hl Hlen Hty Hloc Hin HQ. destruct (accessor_kept _ _ Hac) as (K1 & K2 & K3 & K4 & K5). destruct (accessor_facts _ _ _ Hac) as [Ht _]. apply emits_Inst.
  - constructor; [done|done| |intros a k'; rewrite Hac; intros [= <- <-]; split; [by exists loc|done]]. unfold GetNumArgsOf, GetArgTypeOf in Hlen, Hty.
    destruct Hl as [->|[n ->]], (snd (Op.info o)) as [|ty [|ty' tys]]; try done. destruct Hty as [Hty|?]; [|done]. simpl in Hty. subst ty. constructor; [|constructor]. by apply reg_arg_good.
  - intros Hs. rewrite (run_read _ _ _ _ _ _ Hac Hloc). apply HQ; [by apply after_grows|]. rewrite <- Ht. apply new_holds; [done|by intros ->| |by rewrite Hac|by rewrite (run_read _ _ _ _ _ _ Hac Hloc)]. rewrite Ht. by destruct k.
Qed.
Lemma emits_write t o k pre v z loc (Q : unit -> Shadow -> St -> Prop) sh s : reg_type t -> sh_open sh = true -> accessor o = Some (Write, k) -> narrow k = false -> reg_args t pre ->
  snd (Op.info o) = map (fun _ => t) pre ++ [view_type k] -> static_loc k (pre ++ [v]) = Some loc -> has_info loc -> holds sh v (view_type k) z ->
  (forall sh', grows sh sh' -> Q tt sh' (wr loc (store k z) s)) -> emits (bind (ir.Inst o (pre ++ [v])) (fun _ => ret tt)) Q sh s.
Proof.
  intros Ht0 Ho Hac Hn Hl Hty Hloc Hin Hv HQ. destruct (accessor_kept _ _ Hac) as (K1 & K2 & K3 & K4 & K5). apply emits_bind, emits_Inst.
  - constructor; [done|done| |intros a k'; rewrite Hac; intros [= <- <-]; split; [by exists loc|done]]. rewrite Hty. apply Forall2_app; [destruct Hl as [->|[n ->]]; [constructor|constructor; [by apply reg_arg_good|constructor]]|].
    eapply (args_hold_good sh o K4 K3 [view_type k] [v] [z]). by split.
  - intros Hs. apply emits_ret. rewrite (run_write _ _ _ _ _ _ Hac Hloc). cbn [snd]. assert (written k (map (eval (sh_env sh)) (pre ++ [v])) = z) as ->.
    { unfold written. destruct (accessor_facts _ _ _ Hac) as [_ [Hna _]]. unfold GetNumArgsOf in Hna. rewrite Hty, length_app, length_map in Hna. simpl in Hna.
      rewrite map_app, app_nth2; rewrite length_map; [|lia]. replace (value_index k - length pre)%nat with 0%nat by lia. simpl. by rewrite (holds_eval _ _ _ _ Hv). }
    apply HQ. by apply after_grows.
Qed.
Lemma emits_SetTerm t (Q : unit -> Shadow -> St -> Prop) sh s : sh_term sh = Invalid ->
  Q tt {| sh_next := sh_next sh; sh_env := sh_env sh; sh_loc := sh_loc sh; sh_term := t; sh_last := sh_last sh; sh_open := sh_open sh |} s -> emits (ir.SetTerm t) Q sh s.
Proof.
  intros Ht HQ em Hr. unfold ir.SetTerm, SetTerminal, HasTerminal. rewrite (rl_term _ _ _ Hr), Ht. cbn [assert_that negb obind].
  eexists tt, _, _, s. split_and!; [reflexivity| |exact HQ]. pose proof Hr as [R1 R2 R3 R4 R5 R6 R7 R8 R9 R10 R11 R12].
  assert (Hcode : code (with_terminal t (cycle_count (block em)) (block em)) = code (block em)) by done.
  constructor; cbn [block with_block sh_next sh_env sh_loc sh_term sh_last sh_open current_location]; try done.
  apply (same_core_wf (block em)); [done..|]. exact R1.
Qed.
End Emission.
