(* ===== verification/A64Rules.v ===== *)
(** Rules for the functions the translator emits code with: what each of them adds to
    a block, in terms of the numbers its arguments stand for. *)
From stdpp Require Import list.
From S2P Require Import Prelude Bits IrOpcodes A64Imm Ir A64Jit IrSem IrWf IrExec IrArith GetSet GetSetSem GetSetSound IrEmitter EmitLogic A64Spec A64Visitor.
Import Op(Opcode).
Local Open Scope Z_scope.

(** ** Arithmetic *)
Lemma width_pos sf : 0 < width_bits sf.
Proof. by destruct sf. Qed.
Lemma not_range w y : 0 < w -> in_range w y -> in_range w (not_ w y).
Proof. intros Hw Hy. rewrite not_lnot by done. apply wrap_range. lia. Qed.
Lemma sub_as_add w x y c : 0 < w -> in_range w y -> wrap w (x - y - 1 + c) = wrap w (x + not_ w y + c).
Proof.
  intros Hw Hy. rewrite not_lnot by done. unfold Z.lnot, wrap. rewrite <- (Zplus_mod_idemp_l (x + (Z.pred (- y)) mod 2 ^ w)), Zplus_mod_idemp_r, Zplus_mod_idemp_l. f_equal. lia.
Qed.
Lemma swrap_wrap w x : swrap w (wrap w x) = swrap w x.
Proof. unfold swrap, wrap. by rewrite Zplus_mod_idemp_l. Qed.
Lemma wrap_swrap w x : wrap w (swrap w x) = wrap w x.
Proof. unfold swrap, wrap. rewrite Zminus_mod_idemp_l. f_equal. lia. Qed.
(** The flags the emitted code computes are those of the architecture. *)
Lemma add_flags w x y c : 0 < w -> in_range w x -> in_range w y -> in_range 1 c ->
  nz_flags w (wrap w (x + y + c)) + (2 * Z.b2z (add_carry w x y c) + Z.b2z (add_overflow w x y c)) = snd (AddWithCarry w x y c).
Proof.
  intros Hw Hx Hy Hc. unfold AddWithCarry, pack_flags, nz_flags, add_carry, add_overflow. cbn [snd]. rewrite swrap_wrap.
  assert (Hcarry : (2 ^ w <=? x + y + c) = negb (wrap w (x + y + c) =? x + y + c)).
  { unfold in_range in *. change (2 ^ 1) with 2 in Hc. destruct (Z.leb_spec (2 ^ w) (x + y + c)); destruct (Z.eqb_spec (wrap w (x + y + c)) (x + y + c)) as [E|E]; try done.
    - pose proof (wrap_range w (x + y + c) ltac:(lia)) as Hr. unfold in_range in Hr. lia.
    - destruct E. apply wrap_small. unfold in_range. lia. }
  rewrite Hcarry. destruct (Z.testbit _ _), (_ =? 0), (negb _), (negb _); done.
Qed.
Lemma logical_flags_eq w z : nz_flags w z + 0 = logical_flags w z.
Proof. unfold nz_flags, logical_flags, pack_flags. by destruct (Z.testbit _ _), (_ =? 0). Qed.

Lemma lor_shiftl_add a b k : 0 <= k -> 0 <= a < 2 ^ k -> Z.lor a (Z.shiftl b k) = a + b * 2 ^ k.
Proof.
  intros Hk Ha. rewrite <- Z.shiftl_mul_pow2 by done. rewrite <- Z.lxor_lor, <- Z.add_nocarry_lxor; [done| |]; (apply Z.bits_inj'; intros i Hi; rewrite Z.land_spec, Z.bits_0; destruct (Z.lt_ge_cases i k);
    [rewrite Z.shiftl_spec_low by lia; by rewrite andb_false_r|destruct (Z.eq_dec a 0) as [->|]; [by rewrite Z.bits_0|]; rewrite (Z.bits_above_log2 a i); [done|lia|]; apply (Z.lt_le_trans _ k); [apply Z.log2_lt_pow2; lia|lia]]).
Qed.
Lemma shift_left_value w x n : 0 <= n < w -> shift_left w x n = shift_value w 0 x n.
Proof. intros Hn. unfold shift_left, shift_value. destruct (Z.leb_spec w n); [lia|]. rewrite Z.shiftl_mul_pow2 by lia. done. Qed.
Lemma shift_right_value w x n : 0 <= n < w -> in_range w x -> wrap w (shift_right w x n) = shift_value w 1 x n.
Proof.
  intros Hn Hx. unfold shift_right, shift_value. destruct (Z.leb_spec w n); [lia|]. rewrite wrap_small by (apply shiftr_range; [lia|done]). by rewrite Z.shiftr_div_pow2 by lia.
Qed.
Lemma shift_arith_value w x n : 0 <= n < w -> shift_arith w x n = shift_value w 2 x n.
Proof. intros Hn. unfold shift_arith, shift_value. rewrite Z.min_l, Z.shiftr_div_pow2 by lia. done. Qed.
Lemma rotate_value w x n : 0 <= n < w -> in_range w x -> wrap w (rotate_right w x n) = shift_value w 3 x n.
Proof.
  intros Hn Hx. unfold rotate_right, shift_value. simpl. rewrite Z.mod_small by lia. destruct (Z.eqb_spec n 0) as [->|Hn0].
  - rewrite Z.div_1_r, Z.sub_0_r. unfold wrap. by rewrite Z_mod_plus_full.
  - rewrite wrap_wrap by lia. rewrite lor_shiftl_add; [by rewrite Z.shiftr_div_pow2 by lia|lia|]. rewrite Z.shiftr_div_pow2 by lia. unfold in_range in Hx. split; [apply Z.div_pos; [lia|apply pow2_pos; lia]|].
    apply Z.div_lt_upper_bound; [apply pow2_pos; lia|]. rewrite <- Z.pow_add_r by lia. replace (n + (w - n)) with w by lia. lia.
Qed.

(** ** Rules *)
Definition ty (sf : bool) : Ty.t := if sf then Ty.U64 else Ty.U32.
Lemma ty_range sh v sf z : holds sh v (ty sf) z -> in_range (width_bits sf) z.
Proof. intros Hv. apply holds_range in Hv. by destruct sf. Qed.
Lemma imm_holds sh t z : valued t = true -> tv_ok (t, z) -> holds sh (Imm t z) t z.
Proof. intros [? ?]%valued_spec ?. done. Qed.
(** A result whose flags are [f]. *)
Definition flagged (sh : Shadow) (v : Value) (f : Z) : Prop := exists r, made sh v r /\ MayGetNZCVFromOp (r_op r) = true /\ nzcv_of r = f.
Lemma flagged_grows sh sh' v f : grows sh sh' -> flagged sh v f -> flagged sh' v f.
Proof. intros G (r & Hm & ?). exists r. split; [by eapply made_grows|done]. Qed.

Section Rules.
Context {St : Type} `{A64Flow St} (s0 : St) (sf : bool).
Abbreviation emits := (emits s0).
Abbreviation w := (width_bits sf).
Implicit Types (Q : Value -> Shadow -> St -> Prop) (sh : Shadow) (s : St).
(** A value with its number. *)
Definition gives sh (z : Z) Q (s : St) : Prop := forall v sh', grows sh sh' -> holds sh' v (ty sf) z -> Q v sh' s.
Definition gives_flags sh (z f : Z) Q (s : St) : Prop := forall v sh', grows sh sh' -> holds sh' v (ty sf) z -> flagged sh' v f -> Q v sh' s.

Lemma rule_same_type a b x y (Q : unit -> Shadow -> St -> Prop) sh s : holds sh a (ty sf) x -> holds sh b (ty sf) y -> Q tt sh s -> emits (ir.same_type a b) Q sh s.
Proof. intros Ha Hb HQ. apply emits_bind. eapply emits_type_of; [exact Ha|]. apply emits_bind. eapply emits_type_of; [exact Hb|]. apply emits_assert; [by apply bool_decide_true|done]. Qed.
Lemma rule_is_32 a x (Q : bool -> Shadow -> St -> Prop) sh s : holds sh a (ty sf) x -> Q (negb sf) sh s -> emits (ir.is_32 a) Q sh s.
Proof. intros Ha HQ. apply emits_bind. eapply emits_type_of; [exact Ha|]. apply emits_ret. replace (bool_decide (ty sf = Ty.U32)) with (negb sf); [done|]. by destruct sf. Qed.
Lemma rule_by_width a x o32 o64 l Q sh s : holds sh a (ty sf) x -> emits (ir.Inst (if sf then o64 else o32) l) Q sh s -> emits (ir.by_width a o32 o64 l) Q sh s.
Proof. intros Ha HQ. apply emits_bind. eapply rule_is_32; [exact Ha|]. by destruct sf. Qed.

Lemma rule_AddWithCarry a b c x y z Q sh s : sh_open sh = true -> holds sh a (ty sf) x -> holds sh b (ty sf) y -> holds sh c Ty.U1 z ->
  gives_flags sh (fst (AddWithCarry w x y z)) (snd (AddWithCarry w x y z)) Q s -> emits (ir.AddWithCarry a b c) Q sh s.
Proof.
  intros Ho Ha Hb Hc HQ. pose proof (ty_range _ _ _ _ Ha) as Rx. pose proof (ty_range _ _ _ _ Hb) as Ry. pose proof (holds_range _ _ _ _ Hc) as Rz. unfold ir.AddWithCarry.
  apply emits_bind. eapply rule_same_type; [done..|]. eapply rule_by_width; [done|].
  eapply (emits_pure s0 _ _ [x; y; z] (wrap w (x + y + z))); [done|by destruct sf|by destruct sf|by destruct sf|by destruct sf|]. intros v sh' G Hv Hm. apply HQ; [done|by destruct sf|].
  eexists. split; [exact Hm|]. split; [by destruct sf|]. rewrite <- add_flags; [by destruct sf|apply width_pos|done..].
Qed.
Lemma rule_SubWithCarry a b c x y z Q sh s : sh_open sh = true -> holds sh a (ty sf) x -> holds sh b (ty sf) y -> holds sh c Ty.U1 z ->
  gives_flags sh (fst (AddWithCarry w x (not_ w y) z)) (snd (AddWithCarry w x (not_ w y) z)) Q s -> emits (ir.SubWithCarry a b c) Q sh s.
Proof.
  intros Ho Ha Hb Hc HQ. pose proof (ty_range _ _ _ _ Ha) as Rx. pose proof (ty_range _ _ _ _ Hb) as Ry. pose proof (holds_range _ _ _ _ Hc) as Rz. unfold ir.SubWithCarry. pose proof (width_pos sf) as Hw.
  apply emits_bind. eapply rule_same_type; [done..|]. eapply rule_by_width; [done|].
  eapply (emits_pure s0 _ _ [x; y; z] (wrap w (x - y - 1 + z))); [done|by destruct sf|by destruct sf|by destruct sf|by destruct sf|]. intros v sh' G Hv Hm.
  rewrite sub_as_add in Hv, Hm by done. apply HQ; [done|by destruct sf|].
  eexists. split; [exact Hm|]. split; [by destruct sf|]. rewrite <- add_flags; [by destruct sf|done|done|by apply not_range|done].
Qed.

(** *** Operations on one or two values of the width *)
Record operation (o : Opcode) (tys : list Ty.t) (t : Ty.t) : Prop := { op_plain : plain_op o = true; op_args : snd (Op.info o) = tys; op_type : GetTypeOf o = t; op_valued : valued t = true }.
Lemma rule_operation o tys t l zs z Q sh s : operation o tys t -> sh_open sh = true -> args_hold sh tys l zs -> pure o (zip tys zs) = Some z ->
  (forall v sh', grows sh sh' -> holds sh' v t z -> made sh' v {| r_op := o; r_args := zip tys zs; r_val := (t, z) |} -> Q v sh' s) -> emits (ir.Inst o l) Q sh s.
Proof. intros [O1 <- <- O4] Ho Ha Hz HQ. by eapply emits_pure. Qed.
Lemma rule_unary o32 o64 a x z Q sh s : (forall c : bool, operation (if c then o64 else o32) [ty c] (ty c)) -> pure (if sf then o64 else o32) [(ty sf, x)] = Some z ->
  sh_open sh = true -> holds sh a (ty sf) x -> gives sh z Q s -> emits (ir.by_width a o32 o64 [a]) Q sh s.
Proof. intros Hop Hz Ho Ha HQ. eapply rule_by_width; [done|]. eapply (rule_operation _ _ _ _ [x]); [apply Hop|done|done|exact Hz|]. intros v sh' G Hv _. by apply HQ. Qed.
Lemma rule_binary o32 o64 a b x y z Q sh s : (forall c : bool, operation (if c then o64 else o32) [ty c; ty c] (ty c)) -> pure (if sf then o64 else o32) [(ty sf, x); (ty sf, y)] = Some z ->
  sh_open sh = true -> holds sh a (ty sf) x -> holds sh b (ty sf) y -> gives sh z Q s -> emits (ir.by_width a o32 o64 [a; b]) Q sh s.
Proof. intros Hop Hz Ho Ha Hb HQ. eapply rule_by_width; [done|]. eapply (rule_operation _ _ _ _ [x; y]); [apply Hop|done|done|exact Hz|]. intros v sh' G Hv _. by apply HQ. Qed.
(** With flags that are those of a logical operation. *)
Lemma rule_logical o32 o64 a b x y z Q sh s : (forall c : bool, operation (if c then o64 else o32) [ty c; ty c] (ty c) /\ MayGetNZCVFromOp (if c then o64 else o32) = true /\
    forall r, r_op r = (if c then o64 else o32) -> as_addition r = None) ->
  pure (if sf then o64 else o32) [(ty sf, x); (ty sf, y)] = Some z -> sh_open sh = true -> holds sh a (ty sf) x -> holds sh b (ty sf) y ->
  gives_flags sh z (logical_flags w z) Q s -> emits (bind (ir.same_type a b) (fun _ => ir.by_width a o32 o64 [a; b])) Q sh s.
Proof.
  intros Hop Hz Ho Ha Hb HQ. destruct (Hop sf) as (O1 & O2 & O3). apply emits_bind. eapply rule_same_type; [done..|]. eapply rule_by_width; [done|].
  eapply (rule_operation _ _ _ _ [x; y]); [exact O1|done|done|exact Hz|]. intros v sh' G Hv Hm. apply HQ; [done|done|]. eexists. split; [exact Hm|]. split; [done|].
  unfold nzcv_of. rewrite O3 by done. cbn [r_val snd]. rewrite logical_flags_eq. by destruct sf.
Qed.
Ltac operation := intros []; split; vm_compute; reflexivity.
Ltac logical := intros []; (split; [split; vm_compute; reflexivity|]); (split; [vm_compute; reflexivity|]); intros [] E; simpl in E; rewrite E; reflexivity.
Lemma rule_And a b x y Q sh s : sh_open sh = true -> holds sh a (ty sf) x -> holds sh b (ty sf) y -> gives_flags sh (wrap w (Z.land x y)) (logical_flags w (wrap w (Z.land x y))) Q s -> emits (ir.And a b) Q sh s.
Proof. apply rule_logical; [logical|by destruct sf]. Qed.
Lemma rule_AndNot a b x y Q sh s : sh_open sh = true -> holds sh a (ty sf) x -> holds sh b (ty sf) y ->
  gives_flags sh (wrap w (Z.land x (Z.lnot y))) (logical_flags w (wrap w (Z.land x (Z.lnot y)))) Q s -> emits (ir.AndNot a b) Q sh s.
Proof. apply rule_logical; [logical|by destruct sf]. Qed.
Lemma rule_typed o32 o64 a b x y z Q sh s : (forall c : bool, operation (if c then o64 else o32) [ty c; ty c] (ty c)) -> pure (if sf then o64 else o32) [(ty sf, x); (ty sf, y)] = Some z ->
  sh_open sh = true -> holds sh a (ty sf) x -> holds sh b (ty sf) y -> gives sh z Q s -> emits (bind (ir.same_type a b) (fun _ => ir.by_width a o32 o64 [a; b])) Q sh s.
Proof. intros Hop Hz Ho Ha Hb HQ. apply emits_bind. eapply rule_same_type; [done..|]. by eapply rule_binary. Qed.
Lemma rule_Eor a b x y Q sh s : sh_open sh = true -> holds sh a (ty sf) x -> holds sh b (ty sf) y -> gives sh (wrap w (Z.lxor x y)) Q s -> emits (ir.Eor a b) Q sh s.
Proof. apply rule_typed; [operation|by destruct sf]. Qed.
Lemma rule_Or a b x y Q sh s : sh_open sh = true -> holds sh a (ty sf) x -> holds sh b (ty sf) y -> gives sh (wrap w (Z.lor x y)) Q s -> emits (ir.Or a b) Q sh s.
Proof. apply rule_typed; [operation|by destruct sf]. Qed.
Lemma rule_LogicalShiftLeftMasked a b x y Q sh s : sh_open sh = true -> holds sh a (ty sf) x -> holds sh b (ty sf) y -> gives sh (wrap w (Z.shiftl x (y mod w))) Q s -> emits (ir.LogicalShiftLeftMasked a b) Q sh s.
Proof. apply rule_typed; [operation|by destruct sf]. Qed.
Lemma rule_LogicalShiftRightMasked a b x y Q sh s : sh_open sh = true -> holds sh a (ty sf) x -> holds sh b (ty sf) y -> gives sh (wrap w (Z.shiftr x (y mod w))) Q s -> emits (ir.LogicalShiftRightMasked a b) Q sh s.
Proof. apply rule_typed; [operation|by destruct sf]. Qed.
Lemma rule_ArithmeticShiftRightMasked a b x y Q sh s : sh_open sh = true -> holds sh a (ty sf) x -> holds sh b (ty sf) y ->
  gives sh (wrap w (Z.shiftr (swrap w x) (y mod w))) Q s -> emits (ir.ArithmeticShiftRightMasked a b) Q sh s.
Proof. apply rule_typed; [operation|by destruct sf]. Qed.
Lemma rule_RotateRightMasked a b x y Q sh s : sh_open sh = true -> holds sh a (ty sf) x -> holds sh b (ty sf) y -> gives sh (wrap w (rotate_right w x y)) Q s -> emits (ir.RotateRightMasked a b) Q sh s.
Proof. apply rule_typed; [operation|by destruct sf]. Qed.
Lemma rule_Mul a b x y Q sh s : sh_open sh = true -> holds sh a (ty sf) x -> holds sh b (ty sf) y -> gives sh (wrap w (x * y)) Q s -> emits (ir.Mul a b) Q sh s.
Proof. apply rule_binary; [operation|by destruct sf]. Qed.
Lemma rule_UnsignedDiv a b x y Q sh s : sh_open sh = true -> holds sh a (ty sf) x -> holds sh b (ty sf) y -> gives sh (wrap w (x / y)) Q s -> emits (ir.UnsignedDiv a b) Q sh s.
Proof. apply rule_binary; [operation|by destruct sf]. Qed.
Lemma rule_SignedDiv a b x y Q sh s : sh_open sh = true -> holds sh a (ty sf) x -> holds sh b (ty sf) y -> gives sh (signed_div w x y) Q s -> emits (ir.SignedDiv a b) Q sh s.
Proof. apply rule_binary; [operation|by destruct sf]. Qed.
Lemma rule_Not a x Q sh s : sh_open sh = true -> holds sh a (ty sf) x -> gives sh (not_ w x) Q s -> emits (ir.Not a) Q sh s.
Proof. intros Ho Ha. rewrite not_lnot by (apply width_pos || by eapply ty_range). revert Ho Ha. apply rule_unary; [operation|by destruct sf]. Qed.
Lemma rule_CountLeadingZeros a x Q sh s : sh_open sh = true -> holds sh a (ty sf) x -> gives sh (wrap w (count_leading_zeros w x)) Q s -> emits (ir.CountLeadingZeros a) Q sh s.
Proof. apply rule_unary; [operation|by destruct sf]. Qed.
Lemma rule_Add a b x y Q sh s : sh_open sh = true -> holds sh a (ty sf) x -> holds sh b (ty sf) y -> gives_flags sh (fst (add_sub w false x y)) (snd (add_sub w false x y)) Q s -> emits (ir.Add a b) Q sh s.
Proof. intros Ho Ha Hb HQ. change (ir.Add a b) with (ir.AddWithCarry a b (ir.Imm1 false)). eapply rule_AddWithCarry; [done..| |exact HQ]. by apply imm_holds. Qed.
Lemma rule_Sub a b x y Q sh s : sh_open sh = true -> holds sh a (ty sf) x -> holds sh b (ty sf) y -> gives_flags sh (fst (add_sub w true x y)) (snd (add_sub w true x y)) Q s -> emits (ir.Sub a b) Q sh s.
Proof. intros Ho Ha Hb HQ. change (ir.Sub a b) with (ir.SubWithCarry a b (ir.Imm1 true)). eapply rule_SubWithCarry; [done..| |exact HQ]. by apply imm_holds. Qed.

(** *** Shifts *)
Lemma rule_shift_by o32 o64 a b x n z Q sh s : operation o32 [Ty.U32; Ty.U8; Ty.U1] Ty.U32 -> operation o64 [Ty.U64; Ty.U8] Ty.U64 ->
  (if sf then pure o64 [(Ty.U64, x); (Ty.U8, n)] else pure o32 [(Ty.U32, x); (Ty.U8, n); (Ty.U1, 0)]) = Some z ->
  sh_open sh = true -> holds sh a (ty sf) x -> holds sh b Ty.U8 n -> gives sh z Q s -> emits (ir.shift_by o32 o64 a b) Q sh s.
Proof.
  intros O32 O64 Hz Ho Ha Hb HQ. apply emits_bind. eapply rule_is_32; [done|]. unfold gives in HQ. destruct sf; simpl.
  - eapply (rule_operation _ _ _ _ [x; n]); [exact O64|done|done|exact Hz|]. intros v sh' G Hv _. by apply HQ.
  - eapply (rule_operation _ _ _ _ [x; n; 0]); [exact O32|done|split_and!; try done; by apply imm_holds|exact Hz|]. intros v sh' G Hv _. by apply HQ.
Qed.
Ltac shift_op := split; vm_compute; reflexivity.
Lemma rule_LogicalShiftLeft a b x n Q sh s : sh_open sh = true -> holds sh a (ty sf) x -> holds sh b Ty.U8 n -> gives sh (shift_left w x n) Q s -> emits (ir.LogicalShiftLeft a b) Q sh s.
Proof. apply rule_shift_by; [shift_op..|by destruct sf]. Qed.
Lemma rule_LogicalShiftRight a b x n Q sh s : sh_open sh = true -> holds sh a (ty sf) x -> holds sh b Ty.U8 n -> gives sh (wrap w (shift_right w x n)) Q s -> emits (ir.LogicalShiftRight a b) Q sh s.
Proof. apply rule_shift_by; [shift_op..|by destruct sf]. Qed.
Lemma rule_ArithmeticShiftRight a b x n Q sh s : sh_open sh = true -> holds sh a (ty sf) x -> holds sh b Ty.U8 n -> gives sh (shift_arith w x n) Q s -> emits (ir.ArithmeticShiftRight a b) Q sh s.
Proof. apply rule_shift_by; [shift_op..|by destruct sf]. Qed.
Lemma rule_RotateRight a b x n Q sh s : sh_open sh = true -> holds sh a (ty sf) x -> holds sh b Ty.U8 n -> gives sh (wrap w (rotate_right w x n)) Q s -> emits (ir.RotateRight a b) Q sh s.
Proof. apply rule_shift_by; [shift_op..|by destruct sf]. Qed.

(** *** Registers *)
Lemma rd_range (s : St) n : in_range 64 (rd s (RegLoc n)).
Proof. pose proof (sem_ok Op.A64GetX [(Ty.A64Reg, n)] s) as Hok. by rewrite (sem_read Op.A64GetX GetSet.X (RegLoc n) [(Ty.A64Reg, n)] s) in Hok. Qed.
Lemma sp_range (s : St) : in_range 64 (rd s SPLoc).
Proof. pose proof (sem_ok Op.A64GetSP [] s) as Hok. by rewrite (sem_read Op.A64GetSP GetSet.SP SPLoc [] s) in Hok. Qed.
Lemma rule_X n Q sh s : sh_open sh = true -> 0 <= n < 32 -> gives sh (X w n s) Q s -> emits (visitor.X (visitor.datasize sf) n) Q sh s.
Proof.
  intros Ho Hn HQ. unfold gives, X in HQ. destruct sf; cbn -[ir.GetX ir.GetW]; unfold ir.GetX, ir.GetW; change ir.ZR with 31; destruct (Z.eqb_spec n 31) as [->|Hne].
  - apply emits_ret, HQ; [done|by apply imm_holds].
  - eapply (emits_read s0 Ty.A64Reg _ GetSet.X _ (RegLoc n)); [by left|done|done|right; by exists n|done|by left|done|simpl; lia|]. intros v sh' G Hv. apply HQ; [done|]. simpl in *. by rewrite (wrap_small 64) by apply rd_range.
  - apply emits_ret, HQ; [done|by apply imm_holds].
  - eapply (emits_read s0 Ty.A64Reg _ GetSet.W _ (RegLoc n)); [by left|done|done|right; by exists n|done|by left|done|simpl; lia|]. intros v sh' G Hv. by apply HQ.
Qed.
Lemma rule_set_X n v z (Q : unit -> Shadow -> St -> Prop) sh s : sh_open sh = true -> 0 <= n < 32 -> holds sh v (ty sf) z ->
  (forall sh', grows sh sh' -> Q tt sh' (set_X w n z s)) -> emits (visitor.set_X (visitor.datasize sf) n v) Q sh s.
Proof.
  intros Ho Hn Hv HQ. pose proof (ty_range _ _ _ _ Hv) as Hz. unfold set_X in HQ. rewrite (wrap_small w) in HQ by done.
  destruct sf; cbn -[ir.SetX ir.SetW]; unfold ir.SetX, ir.SetW; change ir.ZR with 31; destruct (Z.eqb_spec n 31) as [->|Hne]; try (apply emits_ret, HQ, grows_refl).
  - apply (emits_write s0 Ty.A64Reg _ GetSet.X [Imm Ty.A64Reg n] v z (RegLoc n)); try done; [by left|right; by exists n|simpl; lia].
  - apply (emits_write s0 Ty.A64Reg _ GetSet.W [Imm Ty.A64Reg n] v z (RegLoc n)); try done; [by left|right; by exists n|simpl; lia|]. simpl. by rewrite wrap_small.
Qed.
Lemma rule_I value Q sh s : in_range 64 value -> gives sh (wrap w value) Q s -> emits (visitor.I (visitor.datasize sf) value) Q sh s.
Proof.
  intros Hv HQ. unfold gives in HQ. destruct sf; cbn; apply emits_ret, HQ; try apply grows_refl; [rewrite (wrap_small 64) by done; by apply imm_holds|]. apply imm_holds; [done|]. by apply wrap_range.
Qed.

(** *** Conversions *)
Definition yields sh (t : Ty.t) (z : Z) Q (s : St) : Prop := forall v sh', grows sh sh' -> holds sh' v t z -> Q v sh' s.
Lemma rule_convert o t t' a x z Q sh s : operation o [t] t' -> pure o [(t, x)] = Some z -> sh_open sh = true -> holds sh a t x -> yields sh t' z Q s -> emits (ir.Inst o [a]) Q sh s.
Proof. intros Hop Hz Ho Ha HQ. eapply (rule_operation _ _ _ _ [x]); [exact Hop|done|done|exact Hz|]. intros v sh' G Hv _. by apply HQ. Qed.
Lemma open_grows sh sh' : grows sh sh' -> sh_open sh = true -> sh_open sh' = true.
Proof. by intros (_ & _ & _ & ->). Qed.
Lemma yields_grows sh sh' t z Q s : grows sh sh' -> yields sh t z Q s -> yields sh' t z Q s.
Proof. intros G HQ v sh2 G2. apply HQ. by eapply grows_trans. Qed.
Lemma rule_LeastSignificantWord a x Q sh s : sh_open sh = true -> holds sh a Ty.U64 x -> yields sh Ty.U32 (wrap 32 x) Q s -> emits (ir.LeastSignificantWord a) Q sh s.
Proof. apply rule_convert; [shift_op|done]. Qed.
Lemma rule_to_word a x Q sh s : sh_open sh = true -> holds sh a (ty sf) x -> yields sh Ty.U32 (wrap 32 x) Q s -> emits (ir.to_word a) Q sh s.
Proof.
  intros Ho Ha HQ. apply emits_bind. eapply emits_type_of; [exact Ha|]. destruct sf; simpl.
  - by eapply rule_LeastSignificantWord.
  - apply emits_ret, HQ; [apply grows_refl|]. rewrite wrap_small by exact (holds_range _ _ _ _ Ha). done.
Qed.
Lemma rule_LeastSignificantByte a x Q sh s : sh_open sh = true -> holds sh a (ty sf) x -> yields sh Ty.U8 (wrap 8 x) Q s -> emits (ir.LeastSignificantByte a) Q sh s.
Proof.
  intros Ho Ha HQ. apply emits_bind. eapply rule_to_word; [done|done|]. intros v sh' G Hv. eapply (rule_convert _ _ Ty.U8); [shift_op|reflexivity|by eapply open_grows|exact Hv|].
  simpl. rewrite wrap_wrap_le by lia. by eapply yields_grows.
Qed.
Lemma rule_LeastSignificantHalf a x Q sh s : sh_open sh = true -> holds sh a (ty sf) x -> yields sh Ty.U16 (wrap 16 x) Q s -> emits (ir.LeastSignificantHalf a) Q sh s.
Proof.
  intros Ho Ha HQ. apply emits_bind. eapply rule_to_word; [done|done|]. intros v sh' G Hv. eapply (rule_convert _ _ Ty.U16); [shift_op|reflexivity|by eapply open_grows|exact Hv|].
  simpl. rewrite wrap_wrap_le by lia. by eapply yields_grows.
Qed.
(** Values of 8, 16 and 32 bits are extended. *)
Definition small (n : Z) : option Ty.t := if n =? 8 then Some Ty.U8 else if n =? 16 then Some Ty.U16 else if n =? 32 then Some Ty.U32 else None.
Lemma rule_SignExtendToLong n t a x Q sh s : small n = Some t -> sh_open sh = true -> holds sh a t x -> yields sh Ty.U64 (wrap 64 (swrap n x)) Q s -> emits (ir.SignExtendToLong a) Q sh s.
Proof.
  intros Hn Ho Ha HQ. apply emits_bind. eapply emits_type_of; [exact Ha|]. unfold small in Hn. destruct (Z.eqb_spec n 8) as [->|]; [|destruct (Z.eqb_spec n 16) as [->|]; [|destruct (Z.eqb_spec n 32) as [->|]; [|done]]];
    simplify_eq; (eapply (rule_convert _ _ Ty.U64); [shift_op|reflexivity|done|exact Ha|exact HQ]).
Qed.
Lemma rule_ZeroExtendToLong n t a x Q sh s : small n = Some t -> sh_open sh = true -> holds sh a t x -> yields sh Ty.U64 (wrap 64 x) Q s -> emits (ir.ZeroExtendToLong a) Q sh s.
Proof.
  intros Hn Ho Ha HQ. apply emits_bind. eapply emits_type_of; [exact Ha|]. unfold small in Hn. destruct (Z.eqb_spec n 8) as [->|]; [|destruct (Z.eqb_spec n 16) as [->|]; [|destruct (Z.eqb_spec n 32) as [->|]; [|done]]];
    simplify_eq; (eapply (rule_convert _ _ Ty.U64); [shift_op|reflexivity|done|exact Ha|exact HQ]).
Qed.
Lemma rule_SignExtendToWord n t a x Q sh s : small n = Some t -> n <> 32 -> sh_open sh = true -> holds sh a t x -> yields sh Ty.U32 (wrap 32 (swrap n x)) Q s -> emits (ir.SignExtendToWord a) Q sh s.
Proof.
  intros Hn Hne Ho Ha HQ. apply emits_bind. eapply emits_type_of; [exact Ha|]. unfold small in Hn. destruct (Z.eqb_spec n 8) as [->|]; [|destruct (Z.eqb_spec n 16) as [->|]; [|destruct (Z.eqb_spec n 32) as [->|]; [|done]]];
    simplify_eq; (eapply (rule_convert _ _ Ty.U32); [shift_op|reflexivity|done|exact Ha|exact HQ]).
Qed.
Lemma rule_ZeroExtendToWord n t a x Q sh s : small n = Some t -> n <> 32 -> sh_open sh = true -> holds sh a t x -> yields sh Ty.U32 (wrap 32 x) Q s -> emits (ir.ZeroExtendToWord a) Q sh s.
Proof.
  intros Hn Hne Ho Ha HQ. apply emits_bind. eapply emits_type_of; [exact Ha|]. unfold small in Hn. destruct (Z.eqb_spec n 8) as [->|]; [|destruct (Z.eqb_spec n 16) as [->|]; [|destruct (Z.eqb_spec n 32) as [->|]; [|done]]];
    simplify_eq; (eapply (rule_convert _ _ Ty.U32); [shift_op|reflexivity|done|exact Ha|exact HQ]).
Qed.

(** *** The stack pointer and the flags *)
Lemma rule_SP Q sh s : sh_open sh = true -> gives sh (SP w s) Q s -> emits (visitor.SP (visitor.datasize sf)) Q sh s.
Proof.
  intros Ho HQ. unfold gives, SP in HQ. destruct sf; cbn -[ir.GetSP ir.LeastSignificantWord]; [|apply emits_bind]; (eapply (emits_read s0 Ty.A64Reg _ GetSet.SP [] SPLoc); [by left|done|done|by left|done|by right|done|done|]); intros v sh' G Hv; simpl in Hv.
  - apply HQ; [done|]. by rewrite (wrap_small 64) by apply sp_range.
  - eapply rule_LeastSignificantWord; [by eapply open_grows|exact Hv|]. intros v' sh2 G2 Hv2. apply HQ; [by eapply grows_trans|done].
Qed.
Lemma rule_set_SP v z (Q : unit -> Shadow -> St -> Prop) sh s : sh_open sh = true -> holds sh v (ty sf) z -> (forall sh', grows sh sh' -> Q tt sh' (set_SP w z s)) -> emits (visitor.set_SP (visitor.datasize sf) v) Q sh s.
Proof.
  intros Ho Hv HQ. pose proof (ty_range _ _ _ _ Hv) as Hz. unfold set_SP in HQ. rewrite (wrap_small w) in HQ by done. destruct sf; cbn -[ir.SetSP ir.ZeroExtendWordToLong].
  - apply (emits_write s0 Ty.A64Reg _ GetSet.SP [] v z SPLoc); try done; by left.
  - apply emits_bind. eapply (rule_convert _ _ Ty.U64); [shift_op|reflexivity|done|exact Hv|]. intros v' sh' G Hv'. cbn [zip_with nth snd] in Hv'. rewrite wrap_small in Hv' by (unfold in_range in *; simpl in Hz; lia).
    apply (emits_write s0 Ty.A64Reg _ GetSet.SP [] v' z SPLoc); try done; [by left|by eapply open_grows|by left|]. intros sh2 G2. apply HQ. by eapply grows_trans.
Qed.
Lemma rule_X_or_SP n Q sh s : sh_open sh = true -> 0 <= n < 32 -> gives sh (X_or_SP w n s) Q s -> emits (visitor.X_or_SP (visitor.datasize sf) n) Q sh s.
Proof. unfold X_or_SP, visitor.X_or_SP, visitor.Reg_SP. intros Ho Hn. destruct (n =? 31); [by apply rule_SP|by apply rule_X]. Qed.
Lemma rule_set_X_or_SP n v z (Q : unit -> Shadow -> St -> Prop) sh s : sh_open sh = true -> 0 <= n < 32 -> holds sh v (ty sf) z ->
  (forall sh', grows sh sh' -> Q tt sh' (set_X_or_SP w n z s)) -> emits (visitor.set_X_or_SP (visitor.datasize sf) n v) Q sh s.
Proof. unfold set_X_or_SP, visitor.set_X_or_SP, visitor.Reg_SP. intros Ho Hn Hv. destruct (n =? 31); [by apply rule_set_SP|by apply rule_set_X]. Qed.
Lemma rule_SetNZCV v z (Q : unit -> Shadow -> St -> Prop) sh s : sh_open sh = true -> holds sh v Ty.NZCVFlags z -> (forall sh', grows sh sh' -> Q tt sh' (set_nzcv z s)) -> emits (ir.SetNZCV v) Q sh s.
Proof. intros Ho Hv HQ. apply (emits_write s0 Ty.A64Reg _ GetSet.NZCV [] v z NZCVLoc); try done; by left. Qed.
Lemma rule_NZCVFrom v f Q sh s : sh_open sh = true -> flagged sh v f -> yields sh Ty.NZCVFlags f Q s -> emits (ir.NZCVFrom v) Q sh s.
Proof. intros Ho (r & Hm & Hmay & <-) HQ. by eapply emits_NZCVFrom. Qed.
Lemma rule_set_flags_from v f (Q : unit -> Shadow -> St -> Prop) sh s : sh_open sh = true -> flagged sh v f -> (forall sh', grows sh sh' -> Q tt sh' (set_nzcv f s)) -> emits (visitor.set_flags_from v) Q sh s.
Proof.
  intros Ho Hf HQ. apply emits_bind. eapply rule_NZCVFrom; [done..|]. intros v' sh' G Hv. eapply rule_SetNZCV; [by eapply open_grows|exact Hv|]. intros sh2 G2. apply HQ. by eapply grows_trans.
Qed.
Lemma rule_GetCFlag Q sh s : sh_open sh = true -> yields sh Ty.U1 (Z.b2z (flag_c (nzcv s))) Q s -> emits ir.GetCFlag Q sh s.
Proof.
  intros Ho HQ. eapply (emits_sem s0 _ _ [] _ s); [done|vm_compute; reflexivity|done|done|done|apply sem_cflag|]. intros v sh' G Hv. by apply HQ; [|apply Hv].
Qed.
Lemma rule_NZCVFromPackedFlags a x Q sh s : sh_open sh = true -> holds sh a Ty.U32 x -> yields sh Ty.NZCVFlags (wrap 4 (Z.shiftr x 28)) Q s -> emits (ir.NZCVFromPackedFlags a) Q sh s.
Proof. apply rule_convert; [shift_op|done]. Qed.
Lemma cond_holds sh c : holds sh (Imm Ty.Cond c) Ty.Cond c.
Proof. by apply imm_holds. Qed.
Lemma rule_ConditionalSelect c a b x y Q sh s : sh_open sh = true -> holds sh a (ty sf) x -> holds sh b (ty sf) y ->
  gives sh (if ConditionHolds c (nzcv s) then x else y) Q s -> emits (ir.ConditionalSelect c a b) Q sh s.
Proof.
  intros Ho Ha Hb HQ. apply emits_bind. eapply rule_same_type; [done..|]. eapply rule_by_width; [exact Ha|].
  eapply (emits_sem s0 _ _ [c; x; y] _ s); [done|by destruct sf|by destruct sf|destruct sf; (split; [apply cond_holds|by split])|by destruct sf|destruct sf; (apply sem_select; [set_solver|by eapply holds_range..])|].
  intros v sh' G Hv. apply HQ; [done|]. destruct sf; by apply Hv.
Qed.
Lemma rule_ConditionalSelectNZCV c a b x y Q sh s : sh_open sh = true -> holds sh a Ty.NZCVFlags x -> holds sh b Ty.NZCVFlags y ->
  yields sh Ty.NZCVFlags (if ConditionHolds c (nzcv s) then x else y) Q s -> emits (ir.ConditionalSelectNZCV c a b) Q sh s.
Proof.
  intros Ho Ha Hb HQ. eapply (emits_sem s0 _ _ [c; x; y] _ s); [done|vm_compute; reflexivity|done|split; [apply cond_holds|by split]|done|apply sem_select; [set_solver|by eapply holds_range..]|].
  intros v sh' G Hv. by apply HQ; [|apply Hv].
Qed.
End Rules.
