(* ===== verification/A64Correct.v ===== *)
(** The translation of integer instructions is correct: the instructions emitted do to
    the guest what the architecture says. *)
From stdpp Require Import list.
From S2P Require Import Prelude Bits IrOpcodes A64Imm Ir A64Jit IrSem IrWf IrExec IrArith GetSet GetSetSem GetSetSound IrEmitter EmitLogic A64Spec A64Visitor A64Rules.
Import Op(Opcode).
Local Open Scope Z_scope.

(** Knowledge is kept while the block grows. *)
Ltac advance :=
  lazymatch goal with G : grows ?sh0 ?sh, G' : grows ?sh ?sh' |- _ =>
    repeat match goal with
    | H : holds sh _ _ _ |- _ => apply (holds_grows _ _ _ _ _ G') in H
    | H : flagged sh _ _ |- _ => apply (flagged_grows _ _ _ _ G') in H
    | H : sh_open sh = true |- _ => apply (open_grows _ _ G') in H
    end;
    apply (grows_trans _ _ _ G) in G'; clear G
  end.
(** One call of an emitting function, by its rule. *)
Ltac emit rule := apply emits_bind; eapply rule; [try (eassumption || lia) ..|].
Ltac value v Hv := let sh' := fresh "sh" in let G' := fresh "G" in intros v sh' G' Hv; advance.
Ltac state := let sh' := fresh "sh" in let G' := fresh "G" in intros sh' G'; advance.

Ltac widen len :=
  first [eapply rule_ZeroExtendToLong with (n := len)|eapply rule_SignExtendToLong with (n := len)|eapply rule_ZeroExtendToWord with (n := len)|eapply rule_SignExtendToWord with (n := len)];
  [reflexivity|first [done|eassumption] ..|].

Section Correct.
Context {St : Type} `{A64Flow St} (s0 : St).
Abbreviation emits := (emits s0).
Implicit Types (sh : Shadow) (s : St).

(** What a translated instruction leaves. *)
Definition performs (sh : Shadow) (a : action) (b : bool) (sh' : Shadow) (s' : St) : Prop :=
  match a with
  | Next s1 => b = true /\ grows sh sh' /\ s' = s1
  | _ => b = false /\ sh_loc sh' = sh_loc sh /\ ends (LocationDescriptor.PC (sh_loc sh)) a (sh_term sh') s'
  end.
Definition translates (c : M Emitter bool) (a : Z -> St -> action) : Prop :=
  forall sh s, sh_open sh = true -> sh_term sh = Invalid -> emits c (performs sh (a (LocationDescriptor.PC (sh_loc sh)) s)) sh s.
Lemma emits_done sh sh' s : grows sh sh' -> emits (ret true) (performs sh (Next s)) sh' s.
Proof. intros G. by apply emits_ret. Qed.


(** *** Exceptions *)
Lemma pc_range (l : LocationDescriptor.t) : in_range 64 (LocationDescriptor.PC l).
Proof. by apply wrap_range. Qed.
Lemma rule_SetPC v z (Q : unit -> Shadow -> St -> Prop) sh s : sh_open sh = true -> holds sh v Ty.U64 z ->
  (forall sh' s', grows sh sh' -> pc_of s' = z -> same_guest s' s -> Q tt sh' s') -> emits (ir.SetPC v) Q sh s.
Proof.
  intros Ho Hv HQ. destruct (sem_set_pc z s (holds_range _ _ _ _ Hv)) as [Hpc Hrd]. apply emits_bind.
  eapply (emits_sem s0 _ _ [z] _ (snd (sem Op.A64SetPC [(Ty.U64, z)] s))); [done|vm_compute; reflexivity|done|by split|done|apply surjective_pairing|].
  intros v' sh' G _. apply emits_ret. by apply HQ.
Qed.
Lemma rule_escape o l zs (Q : unit -> Shadow -> St -> Prop) sh s : sh_open sh = true -> IsAPseudoOperation o = false -> reads_op o = false -> o <> Op.Identity -> o <> Op.Void -> accessor o = None -> (forall a, pure o a = None) ->
  args_hold sh (snd (Op.info o)) l zs ->
  (forall sh', sh_loc sh' = sh_loc sh -> sh_term sh' = sh_term sh -> Q tt sh' (snd (sem o (zip (snd (Op.info o)) zs) s))) -> emits (bind (ir.Inst o l) (fun _ => ret tt)) Q sh s.
Proof.
  intros Ho H1 H2 H3 H4 H5 H6 Ha HQ. apply emits_bind, emits_Inst.
  - constructor; [done|done|by eapply args_hold_good|by rewrite H5].
  - intros _. apply emits_ret. unfold run_inst. rewrite decide_False, decide_False, H2, H6, (args_hold_eval sh _ _ _ Ha) by done. by apply HQ.
Qed.
Lemma pc_imm_holds sh z : in_range 64 z -> holds sh (Imm Ty.U64 z) Ty.U64 z.
Proof. intros Hz. by apply imm_holds. Qed.
Lemma RaiseException_ok e : in_range 64 e -> translates (visitor.RaiseException e) (fun _ => Raise e).
Proof.
  intros He sh s Ho Ht. unfold visitor.RaiseException. apply emits_bind, emits_loc. apply emits_bind. eapply rule_SetPC; [done|apply pc_imm_holds, wrap_range; lia|]. intros sh1 s1 G Hpc Hrd. pose proof (open_grows _ _ G Ho) as Ho1.
  destruct G as (_ & Hl & Ht1 & _). apply emits_bind. unfold ir.ExceptionRaised. apply emits_bind, emits_PC. rewrite Hl.
  eapply (rule_escape _ _ [LocationDescriptor.PC (sh_loc sh); e]); try done; [split; [apply pc_imm_holds, pc_range|]; split; [by apply pc_imm_holds|done]|]. intros sh2 Hl2 Ht2.
  apply emits_bind, emits_SetTerm; [congruence|]. apply emits_ret. split_and!; [done|simpl; congruence|]. exists s1. done.
Qed.
Lemma ReservedValue_ok : translates visitor.ReservedValue (fun _ => UNDEFINED).
Proof. apply RaiseException_ok. by split. Qed.
Lemma UnallocatedEncoding_ok : translates visitor.UnallocatedEncoding (fun _ => UNALLOCATED).
Proof. apply RaiseException_ok. by split. Qed.

(** *** Addition and subtraction *)
Definition adds (f : Value -> Value -> M Emitter Value) (sub : bool) : Prop := forall sf a b x y (Q : Value -> Shadow -> St -> Prop) sh s,
  sh_open sh = true -> holds sh a (ty sf) x -> holds sh b (ty sf) y -> gives_flags sf sh (fst (add_sub (width_bits sf) sub x y)) (snd (add_sub (width_bits sf) sub x y)) Q s -> emits (f a b) Q sh s.
Lemma Add_adds : adds ir.Add false.
Proof. intros sf. apply rule_Add. Qed.
Lemma Sub_adds : adds ir.Sub true.
Proof. intros sf. apply rule_Sub. Qed.
Lemma imm12_cases shift imm12 : 0 <= shift -> in_range 12 imm12 ->
  visitor.imm12_shifted shift imm12 = if shift <? 2 then Some (imm12 * 2 ^ (12 * shift)) else None.
Proof.
  intros Hs Hi. unfold visitor.imm12_shifted. unfold in_range in Hi. destruct (Z.eqb_spec shift 0) as [->|]; [simpl; f_equal; lia|]. destruct (Z.eqb_spec shift 1) as [->|]; [|destruct (Z.ltb_spec shift 2); [lia|done]].
  simpl. f_equal. rewrite Z.shiftl_mul_pow2 by lia. apply wrap_small. unfold in_range. lia.
Qed.
Lemma imm12_range shift imm12 : 0 <= shift < 2 -> in_range 12 imm12 -> in_range 32 (imm12 * 2 ^ (12 * shift)).
Proof. intros Hs Hi. unfold in_range in *. assert (shift = 0 \/ shift = 1) as [-> | ->] by lia; simpl; lia. Qed.
Lemma range_64 n z : n <= 64 -> in_range n z -> in_range 64 z.
Proof. intros Hn Hz. unfold in_range in *. pose proof (Z.pow_le_mono_r 2 n 64). lia. Qed.
Lemma addsub_imm_ok f sub sf shift imm12 Rn Rd : adds f sub -> 0 <= Rn < 32 -> 0 <= Rd < 32 -> 0 <= shift -> in_range 12 imm12 ->
  translates (visitor.addsub_imm f sf shift imm12 Rn Rd) (fun _ => add_sub_imm sub false sf shift imm12 Rn Rd).
Proof.
  intros Hf Hn Hd Hs Hi sh s Ho Ht. unfold visitor.addsub_imm, add_sub_imm. rewrite imm12_cases by done. destruct (Z.ltb_spec shift 2) as [Hs2|]; [|by apply ReservedValue_ok].
  pose proof (imm12_range shift imm12 (conj Hs Hs2) Hi) as Hr. pose proof (grows_refl sh) as G.
  emit rule_X_or_SP. value v1 Hv1. emit rule_I; [by apply (range_64 32)|]. value v2 Hv2. rewrite wrap_small in Hv2 by (destruct sf; [by apply (range_64 32)|done]).
  emit (Hf sf). value v3 Hv3. intros Hf3. emit rule_set_X_or_SP. state. by apply emits_done.
Qed.
Lemma addsub_imm_flags_ok f sub sf shift imm12 Rn Rd : adds f sub -> 0 <= Rn < 32 -> 0 <= Rd < 32 -> 0 <= shift -> in_range 12 imm12 ->
  translates (visitor.addsub_imm_flags f sf shift imm12 Rn Rd) (fun _ => add_sub_imm sub true sf shift imm12 Rn Rd).
Proof.
  intros Hf Hn Hd Hs Hi sh s Ho Ht. unfold visitor.addsub_imm_flags, add_sub_imm. rewrite imm12_cases by done. destruct (Z.ltb_spec shift 2) as [Hs2|]; [|by apply ReservedValue_ok].
  pose proof (imm12_range shift imm12 (conj Hs Hs2) Hi) as Hr. pose proof (grows_refl sh) as G.
  emit rule_X_or_SP. value v1 Hv1. emit rule_I; [by apply (range_64 32)|]. value v2 Hv2. rewrite wrap_small in Hv2 by (destruct sf; [by apply (range_64 32)|done]).
  emit (Hf sf). value v3 Hv3. intros Hf3. emit rule_set_flags_from. state. emit rule_set_X. state. by apply emits_done.
Qed.
Lemma rule_ShiftReg sf reg shift n (Q : Value -> Shadow -> St -> Prop) sh s : sh_open sh = true -> 0 <= reg < 32 -> 0 <= shift < 4 -> 0 <= n < width_bits sf ->
  gives sf sh (shift_value (width_bits sf) shift (X (width_bits sf) reg s) n) Q s -> emits (visitor.ShiftReg (visitor.datasize sf) reg shift (ir.Imm8 n)) Q sh s.
Proof.
  intros Ho Hr Hs Hn HQ. pose proof (grows_refl sh) as G. unfold visitor.ShiftReg. emit rule_X. value v Hv. pose proof (ty_range _ _ _ _ Hv) as Rv.
  assert (Hh : holds sh0 (ir.Imm8 n) Ty.U8 n) by (apply imm_holds; [done|]; unfold tv_ok, in_range; simpl; destruct sf; simpl in Hn; lia).
  assert (HQ' : gives sf sh0 (shift_value (width_bits sf) shift (X (width_bits sf) reg s) n) Q s) by (intros v' sh' G'; apply HQ; by eapply grows_trans).
  assert (shift = 0 \/ shift = 1 \/ shift = 2 \/ shift = 3) as [-> | [-> | [-> | ->]]] by lia; cbn [Z.eqb Pos.eqb].
  - eapply rule_LogicalShiftLeft; [done..|]. by rewrite shift_left_value.
  - eapply rule_LogicalShiftRight; [done..|]. by rewrite shift_right_value.
  - eapply rule_ArithmeticShiftRight; [done..|]. by rewrite shift_arith_value.
  - eapply rule_RotateRight; [done..|]. by rewrite rotate_value.
Qed.
(** An amount that does not fit 32-bit operands has its upper bit set. *)
Lemma amount_fits sf imm6 : in_range 6 imm6 -> (negb sf && bit.get_bit 32 5 imm6) = (width_bits sf <=? imm6).
Proof.
  intros Hi. rewrite bit.get_bit_eq by lia. change 5 with (6 - 1). rewrite testbit_msb by (done || lia). unfold in_range in Hi. destruct sf; simpl; [|done]. symmetry. apply Z.leb_gt. lia.
Qed.
(** The flags are set, or not. *)
Lemma rule_optional_flags (flags : bool) v f (Q : unit -> Shadow -> St -> Prop) sh s : sh_open sh = true -> (flags = true -> flagged sh v f) -> (forall sh', grows sh sh' -> Q tt sh' (if flags then set_nzcv f s else s)) ->
  emits (if flags then visitor.set_flags_from v else ret tt) Q sh s.
Proof. intros Ho Hf HQ. destruct flags; [by eapply rule_set_flags_from; [|apply Hf|]|]. apply emits_ret, HQ, grows_refl. Qed.
Lemma addsub_shift_ok f sub flags sf shift Rm imm6 Rn Rd : adds f sub -> 0 <= shift < 4 -> 0 <= Rm < 32 -> in_range 6 imm6 -> 0 <= Rn < 32 -> 0 <= Rd < 32 ->
  translates (visitor.addsub_shift f flags sf shift Rm imm6 Rn Rd) (fun _ => add_sub_shift sub flags sf shift Rm imm6 Rn Rd).
Proof.
  intros Hf Hs Hm Hi Hn Hd sh s Ho Ht. unfold visitor.addsub_shift, add_sub_shift. rewrite amount_fits by done. destruct (Z.eqb_spec shift 3); [by apply ReservedValue_ok|]. cbn [orb].
  destruct (Z.leb_spec (width_bits sf) imm6); [by apply ReservedValue_ok|]. unfold in_range in Hi. pose proof (grows_refl sh) as G.
  emit rule_X. value v1 Hv1. emit rule_ShiftReg. value v2 Hv2. emit (Hf sf). value v3 Hv3. intros Hf3. emit rule_optional_flags; [by intros _|]. state. emit rule_set_X. state. by apply emits_done.
Qed.
Lemma addsub_carry_ok (sub flags sf : bool) Rm Rn Rd : 0 <= Rm < 32 -> 0 <= Rn < 32 -> 0 <= Rd < 32 ->
  translates (visitor.addsub_carry (if sub then ir.SubWithCarry else ir.AddWithCarry) flags sf Rm Rn Rd) (fun _ => add_sub_carry sub flags sf Rm Rn Rd).
Proof.
  intros Hm Hn Hd sh s Ho Ht. unfold visitor.addsub_carry, add_sub_carry. pose proof (grows_refl sh) as G.
  emit rule_X. value v1 Hv1. emit rule_X. value v2 Hv2. emit rule_GetCFlag. value v3 Hv3. destruct sub; [emit rule_SubWithCarry|emit rule_AddWithCarry]; value v4 Hv4; intros Hf4;
    (emit rule_optional_flags; [by intros _|]); state; emit rule_set_X; state; by apply emits_done.
Qed.

(** *** Logic *)
Definition bitwise (flags : bool) (f : Value -> Value -> M Emitter Value) (op : Z -> Z -> Z) : Prop := forall sf a b x y (Q : Value -> Shadow -> St -> Prop) sh s,
  sh_open sh = true -> holds sh a (ty sf) x -> holds sh b (ty sf) y -> let r := wrap (width_bits sf) (op x y) in
  (forall v sh', grows sh sh' -> holds sh' v (ty sf) r -> (flags = true -> flagged sh' v (logical_flags (width_bits sf) r)) -> Q v sh' s) -> emits (f a b) Q sh s.
Lemma And_bitwise flags : bitwise flags ir.And Z.land.
Proof. intros sf a b x y Q sh s Ho Ha Hb r HQ. eapply rule_And; [done..|]. intros v sh' G Hv Hf. by apply HQ. Qed.
Lemma AndNot_bitwise flags : bitwise flags ir.AndNot (fun x y => Z.land x (Z.lnot y)).
Proof. intros sf a b x y Q sh s Ho Ha Hb r HQ. eapply rule_AndNot; [done..|]. intros v sh' G Hv Hf. by apply HQ. Qed.
Lemma Or_bitwise : bitwise false ir.Or Z.lor.
Proof. intros sf a b x y Q sh s Ho Ha Hb r HQ. eapply rule_Or; [done..|]. intros v sh' G Hv. by apply HQ. Qed.
Lemma Eor_bitwise : bitwise false ir.Eor Z.lxor.
Proof. intros sf a b x y Q sh s Ho Ha Hb r HQ. eapply rule_Eor; [done..|]. intros v sh' G Hv. by apply HQ. Qed.
(** The operand is inverted before the operation or by it. *)
Definition same_op (op : Z -> Z -> Z) (inverted : bool) (op' : Z -> Z -> Z) (invert : bool) : Prop := forall w x y, 0 < w -> in_range w y ->
  wrap w (op x (if inverted then not_ w y else y)) = wrap w (op' x (if invert then not_ w y else y)).
Lemma same_op_refl op inverted : same_op op inverted op inverted.
Proof. done. Qed.
Lemma and_not_same : same_op (fun x y => Z.land x (Z.lnot y)) false Z.land true.
Proof.
  intros w x y Hw Hy. apply Z.bits_inj'. intros i Hi. rewrite !bit.testbit_wrap, !Z.land_spec, Z.lnot_spec by lia. destruct (Z.ltb_spec i w); [|done]. by rewrite bit.testbit_not by lia.
Qed.
Lemma logical_shift_ok f op (inverted : bool) op' invert flags sf shift Rm imm6 Rn Rd : bitwise flags f op -> same_op op inverted op' invert ->
  0 <= shift < 4 -> 0 <= Rm < 32 -> in_range 6 imm6 -> 0 <= Rn < 32 -> 0 <= Rd < 32 ->
  translates (visitor.logical_shift f inverted flags sf shift Rm imm6 Rn Rd) (fun _ => logical_shifted op' invert flags sf shift Rm imm6 Rn Rd).
Proof.
  intros Hf Hop Hs Hm Hi Hn Hd sh s Ho Ht. unfold visitor.logical_shift, logical_shifted, logical. rewrite amount_fits by done.
  destruct (Z.leb_spec (width_bits sf) imm6); [by apply ReservedValue_ok|]. unfold in_range in Hi. pose proof (grows_refl sh) as G.
  emit rule_X. value v1 Hv1. emit rule_ShiftReg. value v2 Hv2. pose proof (Hop _ (X (width_bits sf) Rn s) _ (width_pos sf) (ty_range _ _ _ _ Hv2)) as Heq. set (y := shift_value _ _ _ _) in *. apply emits_bind.
  assert (Hnot : forall Q, gives sf sh1 (if inverted then not_ (width_bits sf) y else y) Q s -> emits (if inverted then ir.Not v2 else ret v2) Q sh1 s).
  { intros Q HQ. destruct inverted; [by eapply rule_Not|]. by apply emits_ret, HQ. }
  apply Hnot. clear Hnot. value v3 Hv3. emit (Hf sf). value v4 Hv4. intros Hf4. rewrite Heq in Hv4, Hf4. emit rule_optional_flags. state. emit rule_set_X. state. destruct flags; by apply emits_done.
Qed.

Lemma fold_bits (f : Z -> bool) (l : list Z) i : 0 <= i -> Forall (fun k => 0 <= k) l ->
  Z.testbit (fold_right (fun i m => Z.lor (Z.shiftl (Z.b2z (f i)) i) m) 0 l) i = bool_decide (i ∈ l) && f i.
Proof.
  intros Hi. induction 1 as [|k l Hk Hl IH]; [by rewrite Z.bits_0|]. cbn [fold_right]. rewrite Z.lor_spec, IH, Z.shiftl_spec by done. destruct (decide (i = k)) as [->|Hne].
  - rewrite Z.sub_diag, (bool_decide_true (k ∈ k :: l)) by set_solver. rewrite Z.bit0_odd. destruct (f k); simpl; [done|]. by rewrite andb_false_r.
  - rewrite (bool_decide_ext (i ∈ k :: l) (i ∈ l)) by set_solver. replace (Z.testbit (Z.b2z _) (i - k)) with false; [done|]. destruct (f k); cbn [Z.b2z]; [|by rewrite Z.bits_0].
    symmetry. destruct (Z.lt_ge_cases i k); [apply Z.testbit_neg_r; lia|]. apply Z.bits_above_log2; simpl; lia.
Qed.
Lemma of_bits_spec n f i : 0 <= i -> Z.testbit (of_bits n f) i = (i <? n) && f i.
Proof.
  intros Hi. unfold of_bits. rewrite fold_bits; [|lia|rewrite Forall_forall; intros k Hk%elem_of_seqZ; lia]. f_equal. destruct (Z.ltb_spec i n); [apply bool_decide_true|apply bool_decide_false]; rewrite elem_of_seqZ; lia.
Qed.
(** Masks of 64 bits are cut to the width. *)
Lemma cut_mask op g w x m m' : 0 < w <= 64 -> (forall x y i, 0 <= i -> Z.testbit (op x y) i = g (Z.testbit x i) (Z.testbit y i)) -> (forall i, 0 <= i < 64 -> Z.testbit m i = Z.testbit m' i) ->
  wrap w (op x (wrap w m)) = wrap w (op x m').
Proof. intros Hw Hop Hm. apply Z.bits_inj'. intros i Hi. rewrite !bit.testbit_wrap, !Hop, bit.testbit_wrap by lia. destruct (Z.ltb_spec i w); [|done]. by rewrite Hm by lia. Qed.
Lemma logical_mask_spec sf N immr imms : in_range 6 immr -> in_range 6 imms -> let e := element_size N imms in let S := imms mod e in
  match visitor.logical_mask sf N immr imms with
  | None => (negb sf && N) || (size_number N imms <? 2) || (S =? e - 1) = true
  | Some m => (negb sf && N) || (size_number N imms <? 2) || (S =? e - 1) = false /\ in_range 64 m /\ forall i, 0 <= i < 64 -> Z.testbit m i = Z.testbit (run_of_ones e S (immr mod e)) i
  end.
Proof.
  intros Hr Hs e S. unfold visitor.logical_mask. destruct (negb sf && N); [done|]. cbn [orb]. destruct (DecodeBitMasks_spec N imms immr true Hs Hr) as [Hnone Hsome]. fold e S in Hnone, Hsome.
  destruct (DecodeBitMasks N imms immr true) as [[m t]|].
  - destruct (Hsome m t eq_refl) as (Hm & _ & Hb & _). split_and!; [|done|intros i Hi; unfold run_of_ones; rewrite of_bits_spec by lia; rewrite (proj2 (Z.ltb_lt i 64)) by lia; by apply Hb].
    apply orb_false_iff. split; [apply Z.ltb_ge|apply Z.eqb_neq]; [destruct (Z.lt_ge_cases (size_number N imms) 2) as [Hl|]; [|done]|intros HS]; destruct Hnone as [_ Hnone]; (discriminate Hnone; tauto).
  - destruct (proj1 Hnone eq_refl) as [Hl|[_ HS]]; apply orb_true_iff; [left; by apply Z.ltb_lt|right; by apply Z.eqb_eq].
Qed.
Lemma operand_width sf : 0 < width_bits sf <= 64.
Proof. by destruct sf. Qed.
Lemma logical_imm_ok f op g sf N immr imms Rn Rd : bitwise false f op -> (forall x y i, 0 <= i -> Z.testbit (op x y) i = g (Z.testbit x i) (Z.testbit y i)) ->
  in_range 6 immr -> in_range 6 imms -> 0 <= Rn < 32 -> 0 <= Rd < 32 -> translates (visitor.logical_imm f sf N immr imms Rn Rd) (fun _ => logical_immediate op false sf N immr imms Rn Rd).
Proof.
  intros Hf Hop Hr Hs Hn Hd sh s Ho Ht. unfold visitor.logical_imm, logical_immediate. pose proof (logical_mask_spec sf N immr imms Hr Hs) as Hm.
  destruct (visitor.logical_mask sf N immr imms) as [m|]; [destruct Hm as (-> & Rm & Hm)|rewrite Hm; by apply ReservedValue_ok]. pose proof (grows_refl sh) as G.
  emit rule_X. value v1 Hv1. emit rule_I. value v2 Hv2. emit (Hf sf). value v3 Hv3. intros _. rewrite (cut_mask op g (width_bits sf) _ _ _ (operand_width sf) Hop Hm) in Hv3.
  emit rule_set_X_or_SP. state. by apply emits_done.
Qed.
Lemma ANDS_imm_ok sf N immr imms Rn Rd : in_range 6 immr -> in_range 6 imms -> 0 <= Rn < 32 -> 0 <= Rd < 32 ->
  translates (visitor.ANDS_imm sf N immr imms Rn Rd) (fun _ => logical_immediate Z.land true sf N immr imms Rn Rd).
Proof.
  intros Hr Hs Hn Hd sh s Ho Ht. unfold visitor.ANDS_imm, logical_immediate. pose proof (logical_mask_spec sf N immr imms Hr Hs) as Hm.
  destruct (visitor.logical_mask sf N immr imms) as [m|]; [destruct Hm as (-> & Rm & Hm)|rewrite Hm; by apply ReservedValue_ok]. pose proof (grows_refl sh) as G.
  emit rule_X. value v1 Hv1. emit rule_I. value v2 Hv2. emit rule_And. value v3 Hv3. intros Hf3. rewrite (cut_mask Z.land andb (width_bits sf) _ _ _ (operand_width sf) (fun x y i _ => Z.land_spec x y i) Hm) in Hv3, Hf3.
  emit rule_set_flags_from. state. emit rule_set_X. state. by apply emits_done.
Qed.

(** *** Extended registers *)
Lemma shift_left_wrap w y n : 0 <= n < w -> shift_left w (wrap w y) n = wrap w (y * 2 ^ n).
Proof. intros Hn. rewrite shift_left_value by done. unfold shift_value, wrap. simpl. by rewrite Zmult_mod_idemp_l. Qed.
(** Of a value with the low [len] bits of a register. *)
Definition extended (sf : bool) (option x : Z) : Z :=
  let len := Z.min (width_bits sf) (8 * 2 ^ (option mod 4)) in if option <? 4 then wrap len x else swrap len (wrap len x).
Lemma emits_extend_source sf option v x (Q : Value -> Shadow -> St -> Prop) sh s : sh_open sh = true -> 0 <= option < 8 -> holds sh v (ty sf) x ->
  gives sf sh (wrap (width_bits sf) (extended sf option x)) Q s ->
  emits (let! r := visitor.extend_source (visitor.datasize sf) option v in
         let '(val, len, signed_extend) := r in
         if len <? visitor.datasize sf then
           if visitor.datasize sf =? 32 then if signed_extend : bool then ir.SignExtendToWord val else ir.ZeroExtendToWord val
           else if signed_extend : bool then ir.SignExtendToLong val else ir.ZeroExtendToLong val
         else ret val) Q sh s.
Proof.
  intros Ho Hop Hv HQ. pose proof (ty_range _ _ _ _ Hv) as Rv. pose proof (grows_refl sh) as G. unfold gives in HQ. unfold visitor.extend_source.
  assert (option = 0 \/ option = 1 \/ option = 2 \/ option = 3 \/ option = 4 \/ option = 5 \/ option = 6 \/ option = 7) as Hcase by lia.
  destruct sf; destruct Hcase as [-> | [-> | [-> | [-> | [-> | [-> | [-> | ->]]]]]]]; cbn [Z.eqb Pos.eqb visitor.datasize width_bits] in *; apply emits_bind;
    try (apply emits_bind; first [eapply rule_LeastSignificantByte|eapply rule_LeastSignificantHalf|eapply rule_LeastSignificantWord|apply emits_ret]; [eassumption..|]); try (value v1 Hv1); try apply emits_ret; cbn [Z.ltb Z.compare Pos.compare Pos.compare_cont].
  all: try (apply emits_ret; (apply HQ; [done|]); unfold extended; cbn; rewrite ?wrap_swrap, ?wrap_wrap, ?wrap_small by (done || lia); done).
  all: first [widen 8|widen 16|widen 32]; intros v2 sh2 G2 Hv2; (apply HQ; [by eapply grows_trans|]); exact Hv2.
Qed.
Lemma rule_ExtendReg sf reg option shift (Q : Value -> Shadow -> St -> Prop) sh s : sh_open sh = true -> 0 <= reg < 32 -> 0 <= option < 8 -> 0 <= shift <= 4 ->
  gives sf sh (extend_value (width_bits sf) option (X (width_bits sf) reg s) shift) Q s -> emits (visitor.ExtendReg (visitor.datasize sf) reg option shift) Q sh s.
Proof.
  intros Ho Hr Hop Hs HQ. pose proof (grows_refl sh) as G. unfold visitor.ExtendReg. apply emits_bind, emits_assert; [apply Z.leb_le; lia|]. apply emits_bind, emits_assert; [by destruct sf|].
  emit rule_X. value v Hv.
  assert (Hsrc := emits_extend_source sf option v _ (fun v' => emits (ir.LogicalShiftLeft v' (ir.Imm8 shift)) Q) sh0 s Ho Hop Hv). intros em Hem. destruct (Hsrc) with (em := em) as (v' & em' & sh' & s' & He & Hr' & Hk); [|done|].
  - intros v' sh' G' Hv'. eapply rule_LogicalShiftLeft; [by eapply open_grows|done|apply imm_holds; [done|]; unfold tv_ok, in_range; simpl; lia|]. rewrite shift_left_wrap by (destruct sf; simpl; lia).
    intros v2 sh2 G2 Hv2. apply HQ; [eapply grows_trans; [done|by eapply grows_trans]|done].
  - destruct (Hk em' Hr') as (a & em2 & sh2 & s2 & He2 & Hr2 & Hq). exists a, em2, sh2, s2. split; [|done]. unfold bind in *. destruct (visitor.extend_source _ _ _ em) as [[[[val len] sg]|?|?] em1]; [|done|done]. by rewrite He.
Qed.
Lemma addsub_ext_ok f sub sf Rm option imm3 Rn Rd : adds f sub -> 0 <= Rm < 32 -> 0 <= option < 8 -> 0 <= imm3 < 8 -> 0 <= Rn < 32 -> 0 <= Rd < 32 ->
  translates (visitor.addsub_ext f sf Rm option imm3 Rn Rd) (fun _ => add_sub_ext sub false sf Rm option imm3 Rn Rd).
Proof.
  intros Hf Hm Hop Hi Hn Hd sh s Ho Ht. unfold visitor.addsub_ext, add_sub_ext. destruct (Z.ltb_spec 4 imm3); [by apply ReservedValue_ok|]. pose proof (grows_refl sh) as G.
  emit rule_X_or_SP. value v1 Hv1. emit rule_ExtendReg. value v2 Hv2. emit (Hf sf). value v3 Hv3. intros _. emit rule_set_X_or_SP. state. by apply emits_done.
Qed.
Lemma addsub_ext_flags_ok f sub sf Rm option imm3 Rn Rd : adds f sub -> 0 <= Rm < 32 -> 0 <= option < 8 -> 0 <= imm3 < 8 -> 0 <= Rn < 32 -> 0 <= Rd < 32 ->
  translates (visitor.addsub_ext_flags f sf Rm option imm3 Rn Rd) (fun _ => add_sub_ext sub true sf Rm option imm3 Rn Rd).
Proof.
  intros Hf Hm Hop Hi Hn Hd sh s Ho Ht. unfold visitor.addsub_ext_flags, add_sub_ext. destruct (Z.ltb_spec 4 imm3); [by apply ReservedValue_ok|]. pose proof (grows_refl sh) as G.
  emit rule_X_or_SP. value v1 Hv1. emit rule_ExtendReg. value v2 Hv2. emit (Hf sf). value v3 Hv3. intros Hf3. emit rule_set_flags_from. state. emit rule_set_X. state. by apply emits_done.
Qed.
End Correct.
