(* ===== verification/A64CorrectData.v ===== *)
(** The translation of moves, shifts, bit fields, conditional operations, products and
    the like is correct. *)
From stdpp Require Import list.
From S2P Require Import Prelude Bits IrOpcodes A64Imm Ir A64Jit IrSem IrWf IrExec IrArith ConstPropProps GetSet GetSetSem GetSetSound IrEmitter EmitLogic A64Spec A64Visitor A64Rules A64Correct.
Import Op(Opcode).
Local Open Scope Z_scope.

(** ** Numbers *)
Lemma replace_bits old len pos v : 0 < len -> 0 <= pos -> in_range len v ->
  Z.lor (Z.land old (Z.lnot (Z.shiftl (Z.ones len) pos))) (Z.shiftl v pos) = old - (old / 2 ^ pos) mod 2 ^ len * 2 ^ pos + v * 2 ^ pos.
Proof.
  intros Hl Hp Hv. set (m := Z.shiftl (Z.ones len) pos). assert (Hmask : forall i, 0 <= i -> Z.testbit m i = (pos <=? i) && (i <? pos + len)).
  { intros i Hi. unfold m. rewrite Z.shiftl_spec by done. destruct (Z.leb_spec pos i); [|by rewrite Z.testbit_neg_r by lia]. rewrite bit.testbit_ones_lt by lia. destruct (Z.ltb_spec (i - pos) len), (Z.ltb_spec i (pos + len)); done || lia. }
  assert (Hland : Z.land old m = (old / 2 ^ pos) mod 2 ^ len * 2 ^ pos).
  { rewrite <- Z.shiftl_mul_pow2, <- Z.land_ones, <- Z.shiftr_div_pow2 by lia. apply Z.bits_inj'. intros i Hi. rewrite Z.land_spec, Hmask, Z.shiftl_spec by done. destruct (Z.leb_spec pos i); [|rewrite (Z.testbit_neg_r _ (i - pos)) by lia; by rewrite andb_false_r].
    rewrite Z.land_spec, Z.shiftr_spec, bit.testbit_ones_lt by lia. replace (i - pos + pos) with i by lia. destruct (Z.ltb_spec (i - pos) len), (Z.ltb_spec i (pos + len)); try lia; by rewrite ?andb_true_r, ?andb_false_r. }
  assert (Hsub : Z.land old (Z.lnot m) = old - Z.land old m).
  { rewrite Z.sub_nocarry_ldiff; apply Z.bits_inj'; intros i Hi; rewrite ?Z.land_spec, ?Z.ldiff_spec, ?Z.land_spec, ?Z.lnot_spec, ?Z.bits_0 by done; by destruct (Z.testbit old i), (Z.testbit m i). }
  rewrite <- Hland, <- Hsub, <- Z.shiftl_mul_pow2, <- Z.lxor_lor, <- Z.add_nocarry_lxor; try done; apply Z.bits_inj'; intros i Hi; rewrite ?Z.land_spec, ?Z.lnot_spec, ?Hmask, ?Z.shiftl_spec, ?Z.bits_0 by done;
    (destruct (Z.leb_spec pos i); [|rewrite (Z.testbit_neg_r v) by lia; by rewrite andb_false_r]; destruct (Z.ltb_spec i (pos + len)); [simpl; by rewrite andb_false_r|]; rewrite (bit.testbit_above len Hl v) by (done || lia); by rewrite andb_false_r).
Qed.
Lemma fst_add w x y : fst (add_sub w false x y) = wrap w (x + y).
Proof. simpl. by rewrite Z.add_0_r. Qed.
Lemma fst_sub w x y : 0 < w -> in_range w y -> fst (add_sub w true x y) = wrap w (x - y).
Proof. intros Hw Hy. simpl. rewrite <- sub_as_add by done. f_equal. lia. Qed.
Lemma masked_left w x y : 0 < w -> wrap w (Z.shiftl x (y mod w)) = shift_value w 0 x (y mod w).
Proof. intros Hw. pose proof (Z.mod_pos_bound y w Hw). rewrite Z.shiftl_mul_pow2 by lia. done. Qed.
Lemma masked_right w x y : 0 < w -> in_range w x -> wrap w (Z.shiftr x (y mod w)) = shift_value w 1 x (y mod w).
Proof. intros Hw Hx. pose proof (Z.mod_pos_bound y w Hw). rewrite wrap_small by (apply shiftr_range; [lia|done]). by rewrite Z.shiftr_div_pow2 by lia. Qed.
Lemma masked_arith w x y : 0 < w -> wrap w (Z.shiftr (swrap w x) (y mod w)) = shift_value w 2 x (y mod w).
Proof. intros Hw. pose proof (Z.mod_pos_bound y w Hw). by rewrite Z.shiftr_div_pow2 by lia. Qed.
Lemma masked_rotate w x y : 0 < w -> in_range w x -> wrap w (rotate_right w x y) = shift_value w 3 x (y mod w).
Proof.
  intros Hw Hx. rewrite <- rotate_value by (done || by apply Z.mod_pos_bound). f_equal. unfold rotate_right. by rewrite Z.mod_mod by lia.
Qed.
Lemma wrap_not_64 w v : 0 < w <= 64 -> in_range 64 v -> wrap w (not_ 64 v) = wrap w (-1 - v).
Proof. intros Hw Hv. rewrite not_lnot by (done || lia). rewrite wrap_wrap_le by lia. f_equal. unfold Z.lnot. lia. Qed.

Section Data.
Context {St : Type} `{A64Flow St} (s0 : St).
Abbreviation emits := (emits s0).
Abbreviation translates := (translates s0).
Implicit Types (sh : Shadow) (s : St).
Lemma set_X_wrap w n v (s : St) : 0 <= w -> set_X w n (wrap w v) s = set_X w n v s.
Proof. intros Hw. unfold set_X. by rewrite wrap_wrap. Qed.
Lemma set_X_eq w n v v' (s : St) : wrap w v = wrap w v' -> set_X w n v s = set_X w n v' s.
Proof. unfold set_X. by intros ->. Qed.

(** *** Wide moves *)
Lemma halfword_fits sf hw : in_range 2 hw -> (negb sf && bit.get_bit 32 1 hw) = (width_bits sf <=? 16 * hw).
Proof.
  intros Hi. rewrite bit.get_bit_eq by lia. change 1 with (2 - 1). rewrite testbit_msb by (done || lia). unfold in_range in Hi. simpl in Hi. destruct sf; simpl; [symmetry; apply Z.leb_gt; lia|].
  destruct (Z.leb_spec 2 hw), (Z.leb_spec 32 (16 * hw)); done || lia.
Qed.
Lemma halfword_value hw imm16 : in_range 2 hw -> in_range 16 imm16 -> u64 (Z.shiftl imm16 (Z.shiftl hw 4)) = imm16 * 2 ^ (16 * hw) /\ in_range 64 (imm16 * 2 ^ (16 * hw)).
Proof.
  intros Hh Hi. unfold in_range in *. simpl in Hh. rewrite (Z.shiftl_mul_pow2 hw) by lia. replace (hw * 2 ^ 4) with (16 * hw) by lia.
  assert (Hr : 0 <= imm16 * 2 ^ (16 * hw) < 2 ^ 64) by (assert (hw = 0 \/ hw = 1 \/ hw = 2 \/ hw = 3) as [-> | [-> | [-> | ->]]] by lia; simpl; lia).
  split; [|done]. rewrite Z.shiftl_mul_pow2 by lia. by apply wrap_small.
Qed.
Lemma MOVZ_ok sf hw imm16 Rd : in_range 2 hw -> in_range 16 imm16 -> 0 <= Rd < 32 -> translates (visitor.MOVZ sf hw imm16 Rd) (fun _ => move_wide (move_zero imm16) sf hw imm16 Rd).
Proof.
  intros Hh Hi Hd sh s Ho Ht. destruct (halfword_value hw imm16 Hh Hi) as [Hv Hr]. unfold visitor.MOVZ, move_wide, move_zero. rewrite halfword_fits by done. destruct (_ <=? _); [by apply UnallocatedEncoding_ok|]. rewrite Hv.
  pose proof (grows_refl sh) as G. emit rule_I. value v1 Hv1. emit rule_set_X. state. rewrite set_X_wrap by (pose proof (width_pos sf); lia). by apply emits_done.
Qed.
Lemma MOVN_ok sf hw imm16 Rd : in_range 2 hw -> in_range 16 imm16 -> 0 <= Rd < 32 -> translates (visitor.MOVN sf hw imm16 Rd) (fun _ => move_wide (move_not imm16) sf hw imm16 Rd).
Proof.
  intros Hh Hi Hd sh s Ho Ht. destruct (halfword_value hw imm16 Hh Hi) as [Hv Hr]. unfold visitor.MOVN, move_wide, move_not. rewrite halfword_fits by done. destruct (_ <=? _); [by apply UnallocatedEncoding_ok|]. rewrite Hv.
  pose proof (grows_refl sh) as G. emit rule_I; [by apply not_range|]. value v1 Hv1. rewrite wrap_not_64 in Hv1 by (done || apply operand_width). emit rule_set_X. state. rewrite set_X_wrap by (pose proof (width_pos sf); lia). by apply emits_done.
Qed.
Lemma MOVK_ok sf hw imm16 Rd : in_range 2 hw -> in_range 16 imm16 -> 0 <= Rd < 32 -> translates (visitor.MOVK sf hw imm16 Rd) (fun _ => move_wide (move_keep imm16) sf hw imm16 Rd).
Proof.
  intros Hh Hi Hd sh s Ho Ht. destruct (halfword_value hw imm16 Hh Hi) as [Hv Hr]. destruct (halfword_value hw 0xFFFF Hh ltac:(unfold in_range; lia)) as [Hm Hmr].
  unfold visitor.MOVK, move_wide. rewrite halfword_fits by done. destruct (Z.leb_spec (width_bits sf) (16 * hw)); [by apply UnallocatedEncoding_ok|]. rewrite Hv, Hm. pose proof (grows_refl sh) as G.
  emit rule_X. value v1 Hv1. emit rule_I; [by apply not_range|]. value v2 Hv2. emit rule_And. value v3 Hv3. intros _. emit rule_I. value v4 Hv4. emit rule_Or. value v5 Hv5. emit rule_set_X. state.
  erewrite set_X_eq; [by apply emits_done|]. rewrite wrap_wrap by (pose proof (width_pos sf); lia). unfold move_keep. unfold in_range in Hh. simpl in Hh. rewrite <- (replace_bits _ 16) by (done || lia).
  change (Z.ones 16) with 0xFFFF. rewrite <- !Z.shiftl_mul_pow2 by lia. pose proof (operand_width sf) as Hw. apply Z.bits_inj'. intros i Hi'. repeat rewrite ?bit.testbit_wrap, ?Z.lor_spec, ?Z.land_spec, ?Z.lnot_spec by lia.
  destruct (Z.ltb_spec i (width_bits sf)); [|done]. rewrite bit.testbit_not by lia. done.
Qed.

(** *** Shifts by a register *)
Lemma shift_variable_ok type f (Hf : forall sf a b x y (Q : Value -> Shadow -> St -> Prop) sh s, sh_open sh = true -> holds sh a (ty sf) x -> holds sh b (ty sf) y ->
    gives sf sh (shift_value (width_bits sf) type x (y mod width_bits sf)) Q s -> emits (f a b) Q sh s) sf Rm Rn Rd : 0 <= Rm < 32 -> 0 <= Rn < 32 -> 0 <= Rd < 32 ->
  translates (visitor.shift_variable f sf Rm Rn Rd) (fun _ => shift_register type sf Rm Rn Rd).
Proof.
  intros Hm Hn Hd sh s Ho Ht. unfold visitor.shift_variable, shift_register. pose proof (grows_refl sh) as G. emit rule_X. value v1 Hv1. emit rule_X. value v2 Hv2. emit (Hf sf). value v3 Hv3. emit rule_set_X. state. by apply emits_done.
Qed.
Lemma LSLV_ok sf Rm Rn Rd : 0 <= Rm < 32 -> 0 <= Rn < 32 -> 0 <= Rd < 32 -> translates (visitor.LSLV sf Rm Rn Rd) (fun _ => shift_register 0 sf Rm Rn Rd).
Proof. apply shift_variable_ok. clear. intros sf a b x y Q sh s Ho Ha Hb HQ. eapply rule_LogicalShiftLeftMasked; [done..|]. by rewrite masked_left by apply width_pos. Qed.
Lemma LSRV_ok sf Rm Rn Rd : 0 <= Rm < 32 -> 0 <= Rn < 32 -> 0 <= Rd < 32 -> translates (visitor.LSRV sf Rm Rn Rd) (fun _ => shift_register 1 sf Rm Rn Rd).
Proof. apply shift_variable_ok. clear. intros sf a b x y Q sh s Ho Ha Hb HQ. eapply rule_LogicalShiftRightMasked; [done..|]. by rewrite masked_right by (apply width_pos || by eapply ty_range). Qed.
Lemma ASRV_ok sf Rm Rn Rd : 0 <= Rm < 32 -> 0 <= Rn < 32 -> 0 <= Rd < 32 -> translates (visitor.ASRV sf Rm Rn Rd) (fun _ => shift_register 2 sf Rm Rn Rd).
Proof. apply shift_variable_ok. clear. intros sf a b x y Q sh s Ho Ha Hb HQ. eapply rule_ArithmeticShiftRightMasked; [done..|]. by rewrite masked_arith by apply width_pos. Qed.
Lemma RORV_ok sf Rm Rn Rd : 0 <= Rm < 32 -> 0 <= Rn < 32 -> 0 <= Rd < 32 -> translates (visitor.RORV sf Rm Rn Rd) (fun _ => shift_register 3 sf Rm Rn Rd).
Proof. apply shift_variable_ok. clear. intros sf a b x y Q sh s Ho Ha Hb HQ. eapply rule_RotateRightMasked; [done..|]. by rewrite masked_rotate by (apply width_pos || by eapply ty_range). Qed.

(** *** Addresses *)
Lemma emits_lift {A} (o : outcome A) a (Q : A -> Shadow -> St -> Prop) sh s : o = Ret a -> Q a sh s -> emits (visitor.lift o) Q sh s.
Proof. intros -> HQ em Hr. by exists a, em, sh, s. Qed.
Lemma address_imm immlo immhi : in_range 2 immlo -> in_range 19 immhi -> concatenate [(19, immhi); (2, immlo)] = Ret (21, immhi * 4 + immlo).
Proof.
  intros Hl Hh. destruct (concatenate_value [(19, immhi); (2, immlo)]) as [E _]; [apply Forall_cons_2; [by split|apply Forall_cons_2; [by split|apply Forall_nil_2]]|simpl; lia|]. rewrite E. cbn [concatenated]. f_equal. f_equal. lia.
Qed.
Lemma rule_set_imm n v (Q : unit -> Shadow -> St -> Prop) sh s : sh_open sh = true -> 0 <= n < 32 -> in_range 64 v -> (forall sh', grows sh sh' -> Q tt sh' (set_X 64 n v s)) -> emits (visitor.set_X 64 n (ir.Imm64 v)) Q sh s.
Proof. intros Ho Hn Hv HQ. by apply (rule_set_X s0 true n _ v). Qed.
Lemma ADR_ok immlo immhi Rd : in_range 2 immlo -> in_range 19 immhi -> 0 <= Rd < 32 -> translates (visitor.ADR immlo immhi Rd) (fun pc => address false immlo immhi Rd pc).
Proof.
  intros Hl Hh Hd sh s Ho Ht. unfold visitor.ADR, address. apply emits_bind. eapply emits_lift; [by apply address_imm|]. apply emits_bind, emits_PC. pose proof (grows_refl sh) as G. emit rule_set_imm; [by apply wrap_range|]. state.
  erewrite set_X_eq; [by apply emits_done|]. cbn [snd]. rewrite bit.sign_extend_eq by lia. unfold u64. rewrite wrap_wrap by lia. by rewrite wrap_add_r.
Qed.
Lemma ADRP_ok immlo immhi Rd : in_range 2 immlo -> in_range 19 immhi -> 0 <= Rd < 32 -> translates (visitor.ADRP immlo immhi Rd) (fun pc => address true immlo immhi Rd pc).
Proof.
  intros Hl Hh Hd sh s Ho Ht. unfold visitor.ADRP, address. apply emits_bind. eapply emits_lift; [by apply address_imm|]. apply emits_bind, emits_PC. pose proof (grows_refl sh) as G. emit rule_set_imm; [by apply wrap_range|]. state.
  erewrite set_X_eq; [by apply emits_done|]. cbn [snd]. set (pc := LocationDescriptor.PC (sh_loc sh)). pose proof (pc_range (sh_loc sh)) as Hpc. fold pc in Hpc.
  assert (Hpage : Z.land pc (not_ 64 0xFFF) = pc - pc mod 4096).
  { pose proof (replace_bits pc 12 0 0 ltac:(lia) ltac:(lia) ltac:(unfold in_range; lia)) as Hp. rewrite Z.shiftl_0_l, Z.lor_0_r, Z.shiftl_0_r, Z.mul_1_r, Z.div_1_r, Z.add_0_r in Hp. change (2 ^ 12) with 4096 in Hp. rewrite <- Hp.
    apply Z.bits_inj'. intros i Hi. rewrite !Z.land_spec, Z.lnot_spec by done. destruct (Z.lt_ge_cases i 64); [by rewrite bit.testbit_not by lia|]. by rewrite (bit.testbit_above 64 ltac:(lia) pc) by (done || lia). }
  rewrite Hpage, bit.sign_extend_eq by lia. unfold u64. rewrite wrap_wrap by lia. rewrite Z.shiftl_mul_pow2 by lia. change (2 ^ 12) with 4096. set (imm := swrap 21 _).
  assert (wrap 64 (wrap 64 imm * 4096) = wrap 64 (imm * 4096)) as -> by (unfold wrap; apply Zmult_mod_idemp_l). by rewrite wrap_add_r.
Qed.

(** *** Conditional operations *)
Lemma conditional_select_ok f g (Hf : forall sf v x (Q : Value -> Shadow -> St -> Prop) sh s, sh_open sh = true -> holds sh v (ty sf) x -> gives sf sh (wrap (width_bits sf) (g x)) Q s -> emits (f (visitor.datasize sf) v) Q sh s)
  sf Rm cond Rn Rd : 0 <= Rm < 32 -> 0 <= Rn < 32 -> 0 <= Rd < 32 -> translates (visitor.conditional_select f sf Rm cond Rn Rd) (fun _ => select g sf Rm cond Rn Rd).
Proof.
  intros Hm Hn Hd sh s Ho Ht. unfold visitor.conditional_select, select. pose proof (grows_refl sh) as G. emit rule_X. value v1 Hv1. emit rule_X. value v2 Hv2. emit (Hf sf). value v3 Hv3. emit rule_ConditionalSelect. value v4 Hv4.
  emit rule_set_X. state. erewrite set_X_eq; [by apply emits_done|]. destruct (ConditionHolds cond (nzcv s)); [done|]. symmetry. apply wrap_wrap. pose proof (width_pos sf). lia.
Qed.
Lemma CSEL_ok sf Rm cond Rn Rd : 0 <= Rm < 32 -> 0 <= Rn < 32 -> 0 <= Rd < 32 -> translates (visitor.CSEL sf Rm cond Rn Rd) (fun _ => select (fun y => y) sf Rm cond Rn Rd).
Proof. apply conditional_select_ok. clear. intros sf v x Q sh s Ho Hv HQ. apply emits_ret, HQ; [apply grows_refl|]. by rewrite wrap_small by by eapply ty_range. Qed.
Lemma add_one sf v x (Q : Value -> Shadow -> St -> Prop) sh s : sh_open sh = true -> holds sh v (ty sf) x -> gives sf sh (wrap (width_bits sf) (x + 1)) Q s -> emits (let! one := visitor.I (visitor.datasize sf) 1 in ir.Add v one) Q sh s.
Proof.
  intros Ho Hv HQ. pose proof (grows_refl sh) as G. emit rule_I; [unfold in_range; lia|]. value v1 Hv1. rewrite wrap_small in Hv1 by (destruct sf; unfold in_range; simpl; lia).
  eapply rule_Add; [done..|]. rewrite fst_add. intros v2 sh2 G2 Hv2 _. apply HQ; [by eapply grows_trans|done].
Qed.
Lemma CSINC_ok sf Rm cond Rn Rd : 0 <= Rm < 32 -> 0 <= Rn < 32 -> 0 <= Rd < 32 -> translates (visitor.CSINC sf Rm cond Rn Rd) (fun _ => select (fun y => y + 1) sf Rm cond Rn Rd).
Proof. apply conditional_select_ok. clear. intros sf v x Q sh s Ho Hv HQ. by eapply add_one. Qed.
Lemma CSINV_ok sf Rm cond Rn Rd : 0 <= Rm < 32 -> 0 <= Rn < 32 -> 0 <= Rd < 32 -> translates (visitor.CSINV sf Rm cond Rn Rd) (fun _ => select Z.lnot sf Rm cond Rn Rd).
Proof. apply conditional_select_ok. clear. intros sf v x Q sh s Ho Hv HQ. eapply rule_Not; [done..|]. by rewrite not_lnot by (apply width_pos || by eapply ty_range). Qed.
Lemma CSNEG_ok sf Rm cond Rn Rd : 0 <= Rm < 32 -> 0 <= Rn < 32 -> 0 <= Rd < 32 -> translates (visitor.CSNEG sf Rm cond Rn Rd) (fun _ => select Z.opp sf Rm cond Rn Rd).
Proof.
  apply conditional_select_ok. clear. intros sf v x Q sh s Ho Hv HQ. pose proof (ty_range _ _ _ _ Hv) as Rx. pose proof (grows_refl sh) as G. emit rule_Not. value v1 Hv1. eapply add_one; [done..|].
  rewrite not_lnot by (done || apply width_pos). rewrite wrap_add_l. intros v2 sh2 G2 Hv2. apply HQ; [by eapply grows_trans|]. by replace (Z.lnot x + 1) with (- x) in Hv2 by (unfold Z.lnot; lia).
Qed.
(** The comparison of two operands that are there. *)
Lemma compare_flags_ok f sub sf cond v1 v2 x n flags y (sh0 sh : Shadow) (s : St) (Hf : forall a b x y (Q : Value -> Shadow -> St -> Prop) sh s, sh_open sh = true -> holds sh a (ty sf) x -> holds sh b (ty sf) y ->
    gives_flags sf sh (fst (add_sub (width_bits sf) sub x y)) (snd (add_sub (width_bits sf) sub x y)) Q s -> emits (f a b) Q sh s) :
  in_range 4 flags -> sh_open sh = true -> grows sh0 sh -> holds sh v1 (ty sf) x -> holds sh v2 (ty sf) (y s) -> x = X (width_bits sf) n s ->
  emits (visitor.compare_flags f cond v1 v2 flags) (performs sh0 (compare sub sf y cond n flags s)) sh s.
Proof.
  intros Hr Ho G Hv1 Hv2 ->. unfold visitor.compare_flags, compare. unfold in_range in Hr. simpl in Hr. assert (Hs : u32 (Z.shiftl flags 28) = flags * 2 ^ 28) by (rewrite Z.shiftl_mul_pow2 by lia; apply wrap_small; unfold in_range; lia).
  apply emits_bind. eapply Hf; [done..|]. value v3 Hv3. intros Hf3. emit rule_NZCVFrom. value v4 Hv4.
  apply emits_bind. eapply rule_NZCVFromPackedFlags; [done|apply imm_holds; [done|]; rewrite Hs; unfold tv_ok, in_range; simpl; lia|]. rewrite Hs. value v5 Hv5.
  replace (wrap 4 (Z.shiftr (flags * 2 ^ 28) 28)) with flags in Hv5 by (rewrite Z.shiftr_div_pow2, Z.div_mul by lia; rewrite wrap_small; [done|]; unfold in_range; lia).
  emit rule_ConditionalSelectNZCV. value v6 Hv6. emit rule_SetNZCV. state. by apply emits_done.
Qed.
Lemma CCM_reg_ok (sub sf : bool) Rm cond Rn flags : 0 <= Rm < 32 -> 0 <= Rn < 32 -> in_range 4 flags ->
  translates ((if sub then visitor.CCMP_reg else visitor.CCMN_reg) sf Rm cond Rn flags) (fun _ => compare sub sf (X (width_bits sf) Rm) cond Rn flags).
Proof.
  intros Hm Hn Hr sh s Ho Ht. pose proof (grows_refl sh) as G. destruct sub; unfold visitor.CCMP_reg, visitor.CCMN_reg; emit rule_X; value v1 Hv1; emit rule_X; value v2 Hv2;
    (eapply compare_flags_ok; [|done..]); intros; [by eapply rule_Sub|by eapply rule_Add].
Qed.
Lemma CCM_imm_ok (sub sf : bool) imm5 cond Rn flags : in_range 5 imm5 -> 0 <= Rn < 32 -> in_range 4 flags ->
  translates ((if sub then visitor.CCMP_imm else visitor.CCMN_imm) sf imm5 cond Rn flags) (fun _ => compare sub sf (fun _ => imm5) cond Rn flags).
Proof.
  intros Hi Hn Hr sh s Ho Ht. pose proof (grows_refl sh) as G. destruct sub; unfold visitor.CCMP_imm, visitor.CCMN_imm; emit rule_X; value v1 Hv1; (emit rule_I; [by apply (range_64 5)|]); value v2 Hv2;
    (rewrite wrap_small in Hv2 by (unfold in_range in *; destruct sf; simpl in *; lia)); (eapply compare_flags_ok; [|done..]); intros; [by eapply rule_Sub|by eapply rule_Add].
Qed.

(** *** Products and quotients *)
Lemma product_term (sub : bool) w x p : 0 < w -> fst (add_sub w sub x (wrap w p)) = wrap w (if sub then x - p else x + p).
Proof.
  intros Hw. destruct sub.
  - rewrite fst_sub by (done || (apply wrap_range; lia)). unfold wrap. by rewrite Zminus_mod_idemp_r.
  - rewrite fst_add. apply wrap_add_r.
Qed.
Lemma multiply_ok f sub sf Rm Ra Rn Rd : adds s0 f sub -> 0 <= Rm < 32 -> 0 <= Ra < 32 -> 0 <= Rn < 32 -> 0 <= Rd < 32 ->
  translates (visitor.multiply f sf Rm Ra Rn Rd) (fun _ => multiply_add sub sf Rm Ra Rn Rd).
Proof.
  intros Hf Hm Ha Hn Hd sh s Ho Ht. unfold visitor.multiply, multiply_add. pose proof (grows_refl sh) as G. emit rule_X. value v1 Hv1. emit rule_X. value v2 Hv2. emit rule_X. value v3 Hv3.
  emit rule_Mul. value v4 Hv4. emit (Hf sf). value v5 Hv5. intros _. emit rule_set_X. state. pose proof (width_pos sf) as Hw. rewrite product_term, set_X_wrap by lia. by apply emits_done.
Qed.
Lemma multiply_long_ok (signed : bool) f sub Rm Ra Rn Rd : adds s0 f sub -> 0 <= Rm < 32 -> 0 <= Ra < 32 -> 0 <= Rn < 32 -> 0 <= Rd < 32 ->
  translates (visitor.multiply_long (if signed then ir.SignExtendToLong else ir.ZeroExtendToLong) f Rm Ra Rn Rd) (fun _ => multiply_add_long sub signed Rm Ra Rn Rd).
Proof.
  intros Hf Hm Ha Hn Hd sh s Ho Ht. unfold visitor.multiply_long, multiply_add_long. pose proof (grows_refl sh) as G.
  assert (Hext : forall v x (Q : Value -> Shadow -> St -> Prop) sh, sh_open sh = true -> holds sh v (ty false) x -> yields sh Ty.U64 (wrap 64 (if signed then swrap 32 x else x)) Q s ->
    emits ((if signed then ir.SignExtendToLong else ir.ZeroExtendToLong) v) Q sh s).
  { intros v x Q sh' Ho' Hv HQ. destruct signed; widen 32; done. }
  emit (rule_X s0 true). value v1 Hv1. emit (rule_X s0 false). value v2 Hv2. emit Hext. value v3 Hv3. emit (rule_X s0 false). value v4 Hv4. emit Hext. value v5 Hv5.
  emit (rule_Mul s0 true). value v6 Hv6. emit (Hf true). value v7 Hv7. intros _. emit (rule_set_X s0 true). state.
  cbn [width_bits] in *. rewrite product_term by lia. rewrite set_X_wrap by lia. erewrite set_X_eq; [by apply emits_done|]. unfold wrap. destruct sub; [rewrite Zminus_mod, (Zminus_mod _ (_ * _))|rewrite Zplus_mod, (Zplus_mod _ (_ * _))]; by rewrite <- Zmult_mod.
Qed.
Lemma rule_high (signed : bool) a b x y (Q : Value -> Shadow -> St -> Prop) sh s : sh_open sh = true -> holds sh a Ty.U64 x -> holds sh b Ty.U64 y ->
  yields sh Ty.U64 (wrap 64 ((if signed then swrap 64 x * swrap 64 y else x * y) / 2 ^ 64)) Q s -> emits ((if signed then ir.SignedMultiplyHigh else ir.UnsignedMultiplyHigh) a b) Q sh s.
Proof.
  intros Ho Ha Hb HQ. destruct signed; (eapply (rule_operation s0 _ [Ty.U64; Ty.U64] Ty.U64 _ [x; y]); [split; vm_compute; reflexivity|done|done|reflexivity|]); intros v sh' G Hv _; (apply HQ; [done|]); simpl in Hv; by rewrite Z.shiftr_div_pow2 in Hv by lia.
Qed.
Lemma multiply_high_ok (signed : bool) Rm Rn Rd : 0 <= Rm < 32 -> 0 <= Rn < 32 -> 0 <= Rd < 32 ->
  translates (visitor.multiply_high (if signed then ir.SignedMultiplyHigh else ir.UnsignedMultiplyHigh) Rm Rn Rd) (fun _ => multiply_high signed Rm Rn Rd).
Proof.
  intros Hm Hn Hd sh s Ho Ht. unfold visitor.multiply_high, multiply_high. pose proof (grows_refl sh) as G. emit (rule_X s0 true). value v1 Hv1. emit (rule_X s0 true). value v2 Hv2. emit rule_high. value v3 Hv3.
  emit (rule_set_X s0 true). state. cbn [width_bits] in *. rewrite set_X_wrap by lia. destruct signed; by apply emits_done.
Qed.
Lemma divide_ok (signed sf : bool) Rm Rn Rd : 0 <= Rm < 32 -> 0 <= Rn < 32 -> 0 <= Rd < 32 ->
  translates (visitor.divide (if signed then ir.SignedDiv else ir.UnsignedDiv) sf Rm Rn Rd) (fun _ => divide signed sf Rm Rn Rd).
Proof.
  intros Hm Hn Hd sh s Ho Ht. unfold visitor.divide, divide. pose proof (grows_refl sh) as G. pose proof (width_pos sf) as Hw. emit rule_X. value v1 Hv1. pose proof (ty_range _ _ _ _ Hv1) as R1. emit rule_X. value v2 Hv2. pose proof (ty_range _ _ _ _ Hv2) as R2.
  destruct signed; [emit rule_SignedDiv|emit rule_UnsignedDiv]; value v3 Hv3; emit rule_set_X; state; (erewrite set_X_eq; [by apply emits_done|]).
  - unfold signed_div. assert ((X (width_bits sf) Rm s =? 0) = (swrap (width_bits sf) (X (width_bits sf) Rm s) =? 0)) as ->; [|by destruct (_ =? 0); [|rewrite wrap_wrap by lia]].
    unfold in_range in R1. destruct (Z.eqb_spec (X (width_bits sf) Rm s) 0) as [->|Hne]; symmetry; [apply Z.eqb_eq|apply Z.eqb_neq]; [by destruct sf|]. intros E. apply Hne. rewrite <- (wrap_small (width_bits sf) (X _ _ _)), <- wrap_swrap, E by done. by destruct sf.
  - unfold in_range in *. destruct (Z.eqb_spec (X (width_bits sf) Rm s) 0) as [->|]; [by rewrite Z.div_0_r, wrap_wrap by lia|]. rewrite wrap_wrap by lia. by rewrite Z.quot_div_nonneg by lia.
Qed.

(** *** Parts of registers *)
(** A part is taken and sign extended. *)
Ltac extension def sf rule len :=
  let Hn := fresh "Hn" in let Hd := fresh "Hd" in let sh := fresh "sh" in let s := fresh "s" in let Ho := fresh "Ho" in let Ht := fresh "Ht" in
  let v1 := fresh "v1" in let Hv1 := fresh "Hv1" in let v2 := fresh "v2" in let Hv2 := fresh "Hv2" in let v3 := fresh "v3" in let Hv3 := fresh "Hv3" in
  intros Hn Hd sh s Ho Ht; unfold def, sign_extended; pose proof (grows_refl sh);
  emit (rule_X s0 sf); value v1 Hv1; emit rule; value v2 Hv2; apply emits_bind; widen len; value v3 Hv3;
  emit (rule_set_X s0 sf); state; cbn [width_bits] in *; rewrite set_X_wrap, swrap_wrap by lia; by apply emits_done.
Lemma SXTB_1_ok Rn Rd : 0 <= Rn < 32 -> 0 <= Rd < 32 -> translates (visitor.SXTB_1 Rn Rd) (fun _ => sign_extended false 8 Rn Rd).
Proof. extension visitor.SXTB_1 false (rule_LeastSignificantByte s0 false) 8. Qed.
Lemma SXTB_2_ok Rn Rd : 0 <= Rn < 32 -> 0 <= Rd < 32 -> translates (visitor.SXTB_2 Rn Rd) (fun _ => sign_extended true 8 Rn Rd).
Proof. extension visitor.SXTB_2 true (rule_LeastSignificantByte s0 true) 8. Qed.
Lemma SXTH_1_ok Rn Rd : 0 <= Rn < 32 -> 0 <= Rd < 32 -> translates (visitor.SXTH_1 Rn Rd) (fun _ => sign_extended false 16 Rn Rd).
Proof. extension visitor.SXTH_1 false (rule_LeastSignificantHalf s0 false) 16. Qed.
Lemma SXTH_2_ok Rn Rd : 0 <= Rn < 32 -> 0 <= Rd < 32 -> translates (visitor.SXTH_2 Rn Rd) (fun _ => sign_extended true 16 Rn Rd).
Proof. extension visitor.SXTH_2 true (rule_LeastSignificantHalf s0 true) 16. Qed.
Lemma SXTW_ok Rn Rd : 0 <= Rn < 32 -> 0 <= Rd < 32 -> translates (visitor.SXTW Rn Rd) (fun _ => sign_extended true 32 Rn Rd).
Proof. extension visitor.SXTW true (rule_LeastSignificantWord s0) 32. Qed.
Lemma ASR_imm_ok (sf : bool) immr Rn Rd : 0 <= immr < width_bits sf -> 0 <= Rn < 32 -> 0 <= Rd < 32 ->
  translates ((if sf then visitor.ASR_2 else visitor.ASR_1) immr Rn Rd) (fun _ => shift_immediate sf 2 immr Rn Rd).
Proof.
  intros Hi Hn Hd sh s Ho Ht. pose proof (grows_refl sh) as G. unfold shift_immediate.
  assert (Himm : forall sh', holds sh' (if sf then ir.Imm64 immr else ir.Imm32 immr) (ty sf) immr) by (intros sh'; destruct sf; (apply imm_holds; [done|]); unfold tv_ok, in_range; simpl in *; lia).
  destruct sf; unfold visitor.ASR_2, visitor.ASR_1; [emit (rule_X s0 true)|emit (rule_X s0 false)]; value v1 Hv1; pose proof (Himm sh0) as Hi0; [emit (rule_ArithmeticShiftRightMasked s0 true)|emit (rule_ArithmeticShiftRightMasked s0 false)]; value v2 Hv2;
    [emit (rule_set_X s0 true)|emit (rule_set_X s0 false)]; state; rewrite masked_arith, Z.mod_small by (done || apply width_pos); by apply emits_done.
Qed.
Lemma EXTR_ok sf N Rm imms Rn Rd : 0 <= Rm < 32 -> in_range 6 imms -> 0 <= Rn < 32 -> 0 <= Rd < 32 -> translates (visitor.EXTR sf N Rm imms Rn Rd) (fun _ => extract sf N Rm imms Rn Rd).
Proof.
  intros Hm Hi Hn Hd sh s Ho Ht. unfold visitor.EXTR, extract. rewrite amount_fits, xorb_comm by done. destruct (xorb sf N); [by apply UnallocatedEncoding_ok|]. destruct (Z.leb_spec (width_bits sf) imms); [by apply ReservedValue_ok|].
  unfold in_range in Hi. simpl in Hi. pose proof (grows_refl sh) as G. pose proof (width_pos sf) as Hw. emit rule_X. value v1 Hv1. pose proof (ty_range _ _ _ _ Hv1) as R1. emit rule_X. value v2 Hv2. set (x := X _ Rm s) in *. set (y := X _ Rn s) in *.
  apply emits_bind. eapply rule_by_width; [exact Hv1|]. assert (Hi8 : holds sh1 (ir.Imm8 imms) Ty.U8 imms) by (apply imm_holds; [done|]; unfold tv_ok, in_range; simpl; lia).
  eapply (rule_operation s0 _ [ty sf; ty sf; Ty.U8] (ty sf) _ [x; y; imms] (wrap (width_bits sf) (Z.shiftr (Z.lor (Z.shiftl y (width_bits sf)) x) (imms mod width_bits sf)))); [destruct sf; split; vm_compute; reflexivity|done|done|by destruct sf|].
  value v3 Hv3. intros _. emit rule_set_X. state. rewrite set_X_wrap by lia. rewrite Z.mod_small, Z.lor_comm, lor_shiftl_add, Z.shiftr_div_pow2, Z.add_comm by (done || lia). by apply emits_done.
Qed.
End Data.
