(* ===== verification/BitShuffle.v ===== *)
(** Expressions that move bits around: which bits of its argument a bit of the value of
    such an expression comes from is computed, so that what the expression does is
    checked bit by bit. *)
From stdpp Require Import list.
From S2P Require Import Prelude Bits IrOpcodes A64Imm Ir IrSem IrArith A64Spec.
Local Open Scope Z_scope.

Inductive shuffle : Type :=
| Arg
| Shl (n : Z) (e : shuffle)
| Shr (n : Z) (e : shuffle)
| Mask (m : Z) (e : shuffle)
| Join (e1 e2 : shuffle).
(** The value in [w] bits, as the operations of the intermediate representation give it. *)
Fixpoint value (w : Z) (e : shuffle) (x : Z) : Z :=
  match e with
  | Arg => x
  | Shl n e => shift_left w (value w e x) n
  | Shr n e => wrap w (shift_right w (value w e x) n)
  | Mask m e => wrap w (Z.land (value w e x) m)
  | Join e1 e2 => wrap w (Z.lor (value w e1 x) (value w e2 x))
  end.
(** The bits of the argument that are or-ed together in bit [i]. *)
Fixpoint sources (w : Z) (e : shuffle) (i : Z) : list Z :=
  if (0 <=? i) && (i <? w) then
    match e with
    | Arg => [i]
    | Shl n e => sources w e (i - n)
    | Shr n e => sources w e (i + n)
    | Mask m e => if Z.testbit m i then sources w e i else []
    | Join e1 e2 => sources w e1 i ++ sources w e2 i
    end
  else [].
Definition shifts_fit (w n : Z) : bool := (0 <=? n) && (n <? w).
Fixpoint proper (w : Z) (e : shuffle) : bool :=
  match e with Arg => true | Shl n e | Shr n e => shifts_fit w n && proper w e | Mask _ e => proper w e | Join e1 e2 => proper w e1 && proper w e2 end.
Lemma value_bit w e x : 0 < w -> in_range w x -> proper w e = true -> forall i, 0 <= i -> Z.testbit (value w e x) i = existsb (Z.testbit x) (sources w e i).
Proof.
  intros Hw Hx. assert (Hout : forall y i, in_range w y -> 0 <= i -> Z.testbit y i = ((0 <=? i) && (i <? w)) && Z.testbit y i).
  { intros y i Hy Hi. rewrite (proj2 (Z.leb_le 0 i)) by done. destruct (Z.ltb_spec i w); [done|]. by rewrite (bit.testbit_above w Hw y). }
  assert (Hneg : forall e i, i < 0 -> sources w e i = []) by (intros e' i Hi; destruct e'; simpl; by rewrite (proj2 (Z.leb_gt 0 i)) by lia).
  induction e as [|n e IH|n e IH|m e IH|e1 IH1 e2 IH2]; intros Hp i Hi; simpl in Hp; cbn [value sources].
  - rewrite (Hout x i Hx Hi). destruct ((0 <=? i) && (i <? w)); simpl; [by rewrite orb_false_r|done].
  - apply andb_true_iff in Hp as [[Hn%Z.leb_le Hn2%Z.ltb_lt]%andb_true_iff Hp]. unfold shift_left. rewrite (proj2 (Z.leb_gt w n)) by done. rewrite bit.testbit_wrap, Z.shiftl_spec, (proj2 (Z.leb_le 0 i)) by done. cbn [andb].
    destruct (i <? w); [|done]. cbn [andb]. destruct (Z.lt_ge_cases i n); [by rewrite Hneg, Z.testbit_neg_r by lia|]. apply IH; [done|lia].
  - apply andb_true_iff in Hp as [[Hn%Z.leb_le Hn2%Z.ltb_lt]%andb_true_iff Hp]. unfold shift_right. rewrite (proj2 (Z.leb_gt w n)) by done. rewrite bit.testbit_wrap, Z.shiftr_spec, (proj2 (Z.leb_le 0 i)) by done. cbn [andb].
    destruct (i <? w); [|done]. apply IH; [done|lia].
  - rewrite bit.testbit_wrap, Z.land_spec, (proj2 (Z.leb_le 0 i)) by done. cbn [andb]. destruct (i <? w); [|done]. cbn [andb]. rewrite IH by done. destruct (Z.testbit m i); [by rewrite andb_true_r|by rewrite andb_false_r].
  - apply andb_true_iff in Hp as [Hp1 Hp2]. rewrite bit.testbit_wrap, Z.lor_spec, (proj2 (Z.leb_le 0 i)) by done. cbn [andb]. destruct (i <? w); [|done]. cbn [andb]. by rewrite IH1, IH2, existsb_app by done.
Qed.
(** Every bit of the value is one bit of the argument. *)
Definition moves (w : Z) (e : shuffle) (f : Z -> Z) : bool := proper w e && forallb (fun i => bool_decide (sources w e i = [f i])) (seqZ 0 w).
Lemma moves_spec w e f x i : 0 < w -> in_range w x -> moves w e f = true -> 0 <= i < w -> Z.testbit (value w e x) i = Z.testbit x (f i).
Proof.
  intros Hw Hx [Hp Hall]%andb_true_iff Hi. rewrite value_bit by (done || lia). rewrite forallb_forall in Hall. specialize (Hall i). rewrite <- list_elem_of_In, elem_of_seqZ in Hall. specialize (Hall ltac:(lia)). apply bool_decide_eq_true in Hall.
  rewrite Hall. simpl. by rewrite orb_false_r.
Qed.

(** ** The expressions of the translator *)
Definition swap_adjacent (mask n : Z) (e : shuffle) : shuffle := Join (Shl n (Mask mask e)) (Mask mask (Shr n e)).
Definition bits_in_bytes_reversed : shuffle := swap_adjacent 0x0F0F0F0F 4 (swap_adjacent 0x33333333 2 (swap_adjacent 0x55555555 1 Arg)).
Definition bytes_of_word_reversed (e : shuffle) : shuffle := Join (Join (Shl 24 e) (Shl 8 (Mask 0xFF00 e))) (Join (Mask 0xFF00 (Shr 8 e)) (Shr 24 e)).
Definition reverse_word : shuffle := bytes_of_word_reversed bits_in_bytes_reversed.
(** The argument of the last step occurs four times in it. *)
Lemma bytes_of_word_reversed_value w e x : value w (bytes_of_word_reversed e) x = let v := value w e x in
  wrap w (Z.lor (wrap w (Z.lor (shift_left w v 24) (shift_left w (wrap w (Z.land v 0xFF00)) 8))) (wrap w (Z.lor (wrap w (Z.land (wrap w (shift_right w v 8)) 0xFF00)) (wrap w (shift_right w v 24))))).
Proof. reflexivity. Qed.
Example reverse_word_moves : moves 32 reverse_word (fun i => 31 - i) = true.
Proof. vm_compute. reflexivity. Qed.
Definition swap_halves (low high : Z) : shuffle := Join (Mask low (Shr 8 Arg)) (Mask high (Shl 8 Arg)).
Definition byte_place (w c i : Z) : Z := i / c * c + (c - 8 - i mod c / 8 * 8) + i mod 8.
Example swap_halves_64 : moves 64 (swap_halves 0x00FF00FF00FF00FF 0xFF00FF00FF00FF00) (byte_place 64 16) = true.
Proof. vm_compute. reflexivity. Qed.
Example swap_halves_32 : moves 32 (swap_halves 0x00FF00FF 0xFF00FF00) (byte_place 32 16) = true.
Proof. vm_compute. reflexivity. Qed.

(** ** Without a width *)
Inductive bit_move : Type := Whole | Nothing | Left (n : Z) (e : bit_move) | Right (n : Z) (e : bit_move) | Only (m : Z) (e : bit_move) | Both (e1 e2 : bit_move).
Fixpoint raw (e : bit_move) (x : Z) : Z :=
  match e with
  | Whole => x
  | Nothing => 0
  | Left n e => Z.shiftl (raw e x) n
  | Right n e => Z.shiftr (raw e x) n
  | Only m e => Z.land (raw e x) m
  | Both e1 e2 => Z.lor (raw e1 x) (raw e2 x)
  end.
Fixpoint raw_sources (w : Z) (e : bit_move) (i : Z) : list Z :=
  if 0 <=? i then
    match e with
    | Whole => if i <? w then [i] else []
    | Nothing => []
    | Left n e => raw_sources w e (i - n)
    | Right n e => raw_sources w e (i + n)
    | Only m e => if Z.testbit m i then raw_sources w e i else []
    | Both e1 e2 => raw_sources w e1 i ++ raw_sources w e2 i
    end
  else [].
Fixpoint forward (e : bit_move) : bool :=
  match e with Whole | Nothing => true | Left n e | Right n e => (0 <=? n) && forward e | Only _ e => forward e | Both e1 e2 => forward e1 && forward e2 end.
Lemma raw_bit w e x : 0 < w -> in_range w x -> forward e = true -> forall i, Z.testbit (raw e x) i = existsb (Z.testbit x) (raw_sources w e i).
Proof.
  intros Hw Hx. assert (Hneg : forall e i, i < 0 -> raw_sources w e i = []) by (intros e' i Hi; destruct e'; simpl; by rewrite (proj2 (Z.leb_gt 0 i)) by lia).
  induction e as [| |n e IH|n e IH|m e IH|e1 IH1 e2 IH2]; intros Hp i; simpl in Hp; (destruct (Z.lt_ge_cases i 0) as [Hi|Hi]; [by rewrite Hneg, Z.testbit_neg_r by lia|]); cbn [raw raw_sources]; rewrite (proj2 (Z.leb_le 0 i)) by done.
  - destruct (Z.ltb_spec i w); simpl; [by rewrite orb_false_r|]. by apply (bit.testbit_above w).
  - apply Z.bits_0.
  - apply andb_true_iff in Hp as [Hn%Z.leb_le Hp]. rewrite Z.shiftl_spec by done. by apply IH.
  - apply andb_true_iff in Hp as [Hn%Z.leb_le Hp]. rewrite Z.shiftr_spec by done. by apply IH.
  - rewrite Z.land_spec, IH by done. destruct (Z.testbit m i); [by rewrite andb_true_r|by rewrite andb_false_r].
  - apply andb_true_iff in Hp as [Hp1 Hp2]. by rewrite Z.lor_spec, IH1, IH2, existsb_app by done.
Qed.
Definition raw_moves (w : Z) (e : bit_move) (f : Z -> Z) : bool := forward e && forallb (fun i => bool_decide (raw_sources w e i = [f i])) (seqZ 0 w).
Lemma raw_moves_spec w e f x i : 0 < w -> in_range w x -> raw_moves w e f = true -> 0 <= i < w -> Z.testbit (raw e x) i = Z.testbit x (f i).
Proof.
  intros Hw Hx [Hp Hall]%andb_true_iff Hi. rewrite (raw_bit w) by done. rewrite forallb_forall in Hall. specialize (Hall i). rewrite <- list_elem_of_In, elem_of_seqZ in Hall. specialize (Hall ltac:(lia)). apply bool_decide_eq_true in Hall.
  rewrite Hall. simpl. by rewrite orb_false_r.
Qed.
Definition bytes_reversed (n : nat) : bit_move :=
  fold_left (fun acc k => Both acc (Left (8 * Z.of_nat (n - 1 - k)) (Only 255 (Right (8 * Z.of_nat k) Whole)))) (seq 0 n) Nothing.
Lemma raw_bytes_reversed n x : raw (bytes_reversed n) x = swap_bytes n x.
Proof.
  unfold bytes_reversed, swap_bytes. change 0 with (raw Nothing x) at 1. generalize Nothing as acc. generalize (seq 0 n) as l. induction l as [|k l IH]; intros acc; [done|]. cbn [fold_left]. by rewrite IH.
Qed.
Example bytes_reversed_4 : raw_moves 32 (bytes_reversed 4) (byte_place 32 32) = true.
Proof. vm_compute. reflexivity. Qed.
Example bytes_reversed_8 : raw_moves 64 (bytes_reversed 8) (byte_place 64 64) = true.
Proof. vm_compute. reflexivity. Qed.
