(* ===== verification/A64CorrectBits.v ===== *)
(** The translation of bit-field moves and of the operations that count or reverse bits
    is correct. *)
From stdpp Require Import list.
From S2P Require Import Prelude Bits IrOpcodes A64Imm Ir A64Jit IrSem IrWf IrExec IrArith ConstPropProps GetSet GetSetSem GetSetSound IrEmitter EmitLogic A64Spec A64Visitor A64Rules A64Correct A64CorrectData.
Import Op(Opcode).
Local Open Scope Z_scope.

(** ** Bits *)
Lemma rotated_bit w x r i : 0 <= r < w -> in_range w x -> 0 <= i < w -> Z.testbit (rotate_right w x r) i = Z.testbit x ((i + r) mod w).
Proof.
  intros Hr Hx Hi. unfold rotate_right. rewrite (Z.mod_small r) by lia. destruct (Z.eqb_spec r 0) as [->|Hr0]; [by rewrite Z.add_0_r, Z.mod_small by lia|].
  rewrite bit.testbit_wrap, Z.lor_spec, Z.shiftr_spec, Z.shiftl_spec by lia. rewrite (proj2 (Z.ltb_lt i w)) by lia. cbn [andb]. destruct (Z.lt_ge_cases (i + r) w).
  - rewrite Z.mod_small, (Z.testbit_neg_r x (i - (w - r))) by lia. by rewrite orb_false_r.
  - rewrite (bit.testbit_above w ltac:(lia) x (i + r)) by (done || lia). replace ((i + r) mod w) with (i - (w - r)); [done|]. apply (Z.mod_unique _ _ 1); lia.
Qed.
Lemma shiftl_bit x p i : 0 <= p -> 0 <= i -> Z.testbit (x * 2 ^ p) i = (p <=? i) && Z.testbit x (i - p).
Proof. intros Hp Hi. rewrite <- Z.shiftl_mul_pow2, Z.shiftl_spec by lia. destruct (Z.leb_spec p i); [done|]. by rewrite Z.testbit_neg_r by lia. Qed.
Lemma swrap_bit n x i : 0 < n -> 0 <= i -> Z.testbit (swrap n x) i = Z.testbit x (Z.min i (n - 1)).
Proof.
  intros Hn Hi. rewrite <- swrap_wrap. pose proof (wrap_range n x ltac:(lia)) as Hr. destruct (Z.lt_ge_cases i (n - 1)) as [Hl|Hg].
  - rewrite Z.min_l by lia. transitivity (Z.testbit (wrap n (swrap n (wrap n x))) i); [by rewrite bit.testbit_wrap, (proj2 (Z.ltb_lt i n)) by lia|]. rewrite wrap_swrap, wrap_wrap, bit.testbit_wrap by lia. by rewrite (proj2 (Z.ltb_lt i n)) by lia.
  - rewrite Z.min_r by lia. transitivity (Z.testbit (wrap n x) (n - 1)); [|by rewrite bit.testbit_wrap, (proj2 (Z.ltb_lt (n - 1) n)) by lia]. rewrite swrap_msb by done. unfold in_range in Hr. pose proof (testbit_msb n (wrap n x) Hn Hr) as Hm.
    assert (Hp : 2 ^ n = 2 * 2 ^ (n - 1)) by (rewrite <- Z.pow_succ_r by lia; f_equal; lia). pose proof (Z.pow_le_mono_r 2 (n - 1) i ltac:(lia) ltac:(lia)) as Hpi.
    rewrite Z.testbit_odd, Z.shiftr_div_pow2 by lia. destruct (Z.testbit (wrap n x) (n - 1)); symmetry in Hm; [apply Z.leb_le in Hm|apply Z.leb_gt in Hm].
    + replace ((wrap n x - 2 ^ n) / 2 ^ i) with (-1); [done|]. apply (Z.div_unique _ _ _ (wrap n x - 2 ^ n + 2 ^ i)); lia.
    + by rewrite Z.sub_0_r, Z.div_small by lia.
Qed.

(** ** Masks of bit fields *)
Section Field.
Context (w R S : Z) (HR : 0 <= R < w) (HS : 0 <= S < w).
Let len := field_length R S.
Let pos := field_position w R S.
Lemma field_place : 0 < len /\ 0 <= pos /\ pos + len <= w.
Proof. unfold len, pos, field_length, field_position. destruct (Z.leb_spec R S); lia. Qed.
Definition inside (i : Z) : bool := (pos <=? i) && (i <? pos + len).
Lemma mask_turn : (S - R) mod w = if R <=? S then S - R else S - R + w.
Proof. destruct (Z.leb_spec R S); symmetry; [apply (Z.mod_unique _ _ 0)|apply (Z.mod_unique _ _ (-1))]; lia. Qed.
Lemma mask_end i : (i <=? (S - R) mod w) = (i <? pos + len).
Proof. rewrite mask_turn. unfold pos, len, field_position, field_length. destruct (Z.leb_spec R S); match goal with |- (?a <=? ?b) = (?c <? ?d) => destruct (Z.leb_spec a b), (Z.ltb_spec c d); done || lia end. Qed.
Lemma turned i : 0 <= i < w -> (i + R) mod w = if i + R <? w then i + R else i + R - w.
Proof. intros Hi. destruct (Z.ltb_spec (i + R) w); symmetry; [apply (Z.mod_unique _ _ 0)|apply (Z.mod_unique _ _ 1)]; lia. Qed.
Lemma mask_inside i : 0 <= i < w -> ((i + R) mod w <=? S) && (i <? pos + len) = inside i.
Proof.
  intros Hi. rewrite turned by done. unfold inside. rewrite andb_comm, (andb_comm (pos <=? i)). destruct (Z.ltb_spec i (pos + len)) as [Hlt|]; [|done]. cbn [andb]. unfold pos, len, field_position, field_length in *.
  destruct (Z.leb_spec R S), (Z.ltb_spec (i + R) w); try lia; match goal with |- (?a <=? ?b) = (?c <=? ?d) => destruct (Z.leb_spec a b), (Z.leb_spec c d); done || lia end.
Qed.
Lemma moved_bit x i : 0 <= i < w -> inside i = true -> Z.testbit x ((i + R) mod w) = Z.testbit (field_bits R S x) (i - pos).
Proof.
  intros Hi [Hp Hl]%andb_true_iff. apply Z.leb_le in Hp. apply Z.ltb_lt in Hl. rewrite turned by done. unfold field_bits, pos, len, field_position, field_length in *. destruct (Z.leb_spec R S).
  - rewrite bit.testbit_wrap, <- Z.shiftr_div_pow2, Z.shiftr_spec by lia. rewrite (proj2 (Z.ltb_lt (i - 0) _)), (proj2 (Z.ltb_lt (i + R) w)) by lia. cbn [andb]. f_equal. lia.
  - rewrite bit.testbit_wrap by lia. rewrite (proj2 (Z.ltb_lt (i - (w - R)) _)), (proj2 (Z.ltb_ge (i + R) w)) by lia. cbn [andb]. f_equal. lia.
Qed.
Lemma top_bit x : in_range w x -> Z.testbit (field_bits R S x) (len - 1) = Z.testbit x S.
Proof.
  intros Hx. unfold field_bits, len, field_length. destruct (Z.leb_spec R S); rewrite bit.testbit_wrap by lia; (rewrite (proj2 (Z.ltb_lt _ _)) by lia); cbn [andb]; [rewrite <- Z.shiftr_div_pow2, Z.shiftr_spec by lia|]; f_equal; lia.
Qed.
Lemma field_range x : in_range len (field_bits R S x).
Proof. unfold field_bits, len, field_length. destruct (R <=? S) eqn:E; apply wrap_range; [apply Z.leb_le in E|]; lia. Qed.
(** The three moves, bit by bit. *)
Lemma unsigned_bit old x i : 0 <= i < w -> Z.testbit (unsigned_field old (field_bits R S x) len pos) i = inside i && Z.testbit x ((i + R) mod w).
Proof.
  intros Hi. pose proof field_place. unfold unsigned_field. rewrite shiftl_bit by lia. destruct (inside i) eqn:E; [rewrite (moved_bit x i Hi E); apply andb_true_iff in E as [-> _]; done|].
  destruct (Z.leb_spec pos i) as [Hp|]; [|done]. apply (bit.testbit_above len); [lia|apply field_range|]. unfold inside in E. rewrite (proj2 (Z.leb_le pos i)) in E by done. apply Z.ltb_ge in E. lia.
Qed.
Lemma signed_bit old x i : in_range w x -> 0 <= i < w -> Z.testbit (signed_field old (field_bits R S x) len pos) i = if i <? pos + len then inside i && Z.testbit x ((i + R) mod w) else Z.testbit x S.
Proof.
  intros Hx Hi. pose proof field_place. unfold signed_field. rewrite shiftl_bit by lia. destruct (Z.leb_spec pos i) as [Hp|Hp].
  - rewrite swrap_bit by lia. cbn [andb]. destruct (Z.ltb_spec i (pos + len)) as [Hl|Hl].
    + assert (E : inside i = true) by (unfold inside; rewrite (proj2 (Z.leb_le pos i)), (proj2 (Z.ltb_lt i (pos + len))); done). rewrite E, (moved_bit x i Hi E). cbn [andb]. f_equal. lia.
    + rewrite Z.min_r by lia. by apply top_bit.
  - assert (E : inside i = false) by (unfold inside; by rewrite (proj2 (Z.leb_gt pos i))). rewrite E, (proj2 (Z.ltb_lt i (pos + len))) by lia. done.
Qed.
Lemma insert_bit old x i : 0 <= i < w -> Z.testbit (insert_field old (field_bits R S x) len pos) i = if inside i then Z.testbit x ((i + R) mod w) else Z.testbit old i.
Proof.
  intros Hi. pose proof field_place as (P1 & P2 & P3). unfold insert_field. rewrite <- replace_bits by (done || apply field_range). rewrite Z.lor_spec, Z.land_spec, Z.lnot_spec, !Z.shiftl_spec by lia. destruct (inside i) eqn:E.
  - rewrite (moved_bit x i Hi E). apply andb_true_iff in E as [Hp%Z.leb_le Hl%Z.ltb_lt]. rewrite Z.ones_spec_low by lia. by rewrite andb_false_r.
  - unfold inside in E. destruct (Z.leb_spec pos i); [|rewrite (Z.testbit_neg_r (Z.ones len)), (Z.testbit_neg_r (field_bits R S x)) by lia; cbn [negb]; by rewrite andb_true_r, orb_false_r]. apply Z.ltb_ge in E. rewrite Z.ones_spec_high, (bit.testbit_above len P1 _ _ (field_range x)) by lia. cbn [negb]. by rewrite andb_true_r, orb_false_r.
Qed.
End Field.
Lemma element_width sf imms : 0 <= imms < width_bits sf -> element_size sf imms = width_bits sf /\ 2 <= size_number sf imms.
Proof.
  intros Hi. unfold element_size, size_number. destruct sf; cbn [width_bits] in *.
  - assert (Z.log2 (64 + (63 - imms)) = 6) as -> by (apply Z.log2_unique; simpl; lia). split; [done|lia].
  - assert (Z.log2 (0 + (63 - imms)) = 5) as -> by (apply Z.log2_unique; simpl; lia). split; [done|lia].
Qed.
Lemma bitfield_masks_spec sf N immr imms : in_range 6 immr -> in_range 6 imms -> let w := width_bits sf in
  match visitor.bitfield_masks sf N immr imms with
  | None => xorb sf N || (w <=? immr) || (w <=? imms) = true
  | Some (wm, tm) => xorb sf N || (w <=? immr) || (w <=? imms) = false /\ 0 <= immr < w /\ 0 <= imms < w /\ in_range 64 wm /\ in_range 64 tm /\
      forall i, 0 <= i < w -> Z.testbit wm i = ((i + immr) mod w <=? imms) /\ Z.testbit tm i = (i <=? (imms - immr) mod w)
  end.
Proof.
  intros Hr Hs w. assert (Hcond : (sf && negb N) || (negb sf && (N || bit.get_bit 32 5 immr || bit.get_bit 32 5 imms)) = xorb sf N || (w <=? immr) || (w <=? imms)).
  { pose proof (amount_fits sf immr Hr) as H1. pose proof (amount_fits sf imms Hs) as H2. unfold w. rewrite <- H1, <- H2. destruct sf, N; simpl; done. }
  unfold visitor.bitfield_masks. rewrite <- Hcond. destruct (sf && negb N) eqn:E1; [done|]. cbn [orb] in *. destruct (negb sf && _) eqn:E2; [done|]. symmetry in Hcond. apply orb_false_iff in Hcond as [[HN Hr2]%orb_false_iff Hs2].
  apply xorb_eq in HN as <-. apply Z.leb_gt in Hr2, Hs2. unfold in_range in Hr, Hs. destruct (DecodeBitMasks_spec sf imms immr false Hs Hr) as [Hnone Hsome]. destruct (element_width sf imms) as [He Hsz]; [unfold w in Hs2; lia|].
  rewrite He, (Z.mod_small imms), (Z.mod_small immr) in * by (fold w; lia). fold w in Hsome. destruct (DecodeBitMasks sf imms immr false) as [[wm tm]|]; [|destruct (proj1 Hnone eq_refl) as [?|[? _]]; [lia|done]].
  destruct (Hsome wm tm eq_refl) as (Hw & Ht & Hb & _). split_and!; try done; try lia. intros i Hi. destruct (Hb i) as [-> ->]; [unfold w in Hi; destruct sf; simpl in Hi; lia|]. rewrite (Z.mod_small i) by lia. done.
Qed.

Section Bits.
Context {St : Type} `{A64Flow St} (s0 : St).
Abbreviation emits := (emits s0).
Abbreviation translates := (translates s0).
Implicit Types (sh : Shadow) (s : St).
Lemma imm8_holds sh n : 0 <= n < 64 -> holds sh (ir.Imm8 n) Ty.U8 n.
Proof. intros Hn. apply imm_holds; [done|]. unfold tv_ok, in_range. simpl. lia. Qed.
(** Two numbers with the same bits below the width. *)
Lemma same_low_bits w n v v' (s : St) : 0 < w -> (forall i, 0 <= i < w -> Z.testbit v i = Z.testbit v' i) -> set_X w n v s = set_X w n v' s.
Proof. intros Hw Hb. apply set_X_eq. apply Z.bits_inj'. intros i Hi. rewrite !bit.testbit_wrap by lia. destruct (Z.ltb_spec i w); [|done]. by rewrite Hb by lia. Qed.
Ltac low_bits := repeat rewrite ?bit.testbit_wrap, ?Z.lor_spec, ?Z.land_spec, ?Z.lxor_spec by lia; repeat match goal with Hi : 0 <= ?i < ?w |- context [?i <? ?w] => rewrite (proj2 (Z.ltb_lt i w)) by apply Hi end; cbn [andb].
Lemma UBFM_ok sf N immr imms Rn Rd : in_range 6 immr -> in_range 6 imms -> 0 <= Rn < 32 -> 0 <= Rd < 32 -> translates (visitor.UBFM sf N immr imms Rn Rd) (fun _ => bit_field unsigned_field sf N immr imms Rn Rd).
Proof.
  intros Hr Hs Hn Hd sh s Ho Ht. unfold visitor.UBFM, bit_field. pose proof (bitfield_masks_spec sf N immr imms Hr Hs) as Hm. destruct (visitor.bitfield_masks sf N immr imms) as [[wm tm]|]; [|rewrite Hm; by apply ReservedValue_ok].
  destruct Hm as (-> & HR & HS & Rw & Rt & Hb). pose proof (grows_refl sh) as G. pose proof (operand_width sf) as Hw.
  emit rule_X. value v1 Hv1. pose proof (ty_range _ _ _ _ Hv1) as Rx. emit rule_RotateRight; [apply imm8_holds; lia|]. value v2 Hv2. emit rule_I. value v3 Hv3. emit rule_And. value v4 Hv4. intros _. emit rule_I. value v5 Hv5. emit rule_And. value v6 Hv6. intros _.
  emit rule_set_X. state. erewrite same_low_bits; [by apply emits_done|lia|]. intros i Hi. rewrite unsigned_bit by lia. low_bits. destruct (Hb i Hi) as [-> ->]. rewrite rotated_bit, mask_end, <- mask_inside by (done || lia).
  by destruct (Z.testbit _ _), (_ <=? imms), (i <? _).
Qed.
Lemma rule_ReplicateBit sf a x bit (Q : Value -> Shadow -> St -> Prop) sh s : sh_open sh = true -> holds sh a (ty sf) x -> 0 <= bit < width_bits sf ->
  gives sf sh (if Z.testbit x bit then Z.ones (width_bits sf) else 0) Q s -> emits (ir.ReplicateBit a bit) Q sh s.
Proof.
  intros Ho Ha Hb HQ. apply emits_bind. eapply rule_is_32; [exact Ha|]. assert (H8 : holds sh (ir.Imm8 bit) Ty.U8 bit) by (apply imm8_holds; destruct sf; simpl in Hb; lia). unfold gives in HQ.
  destruct sf; cbn [negb width_bits] in *; (apply emits_bind, emits_assert; [apply Z.ltb_lt; lia|]).
  - eapply (rule_operation s0 _ [Ty.U64; Ty.U8] Ty.U64 _ [x; bit]); [split; vm_compute; reflexivity|done|done|reflexivity|]. intros v sh' G Hv _. apply HQ; [done|]. cbn [zip_with nth snd] in Hv. by rewrite Z.mod_small in Hv by lia.
  - eapply (rule_operation s0 _ [Ty.U32; Ty.U8] Ty.U32 _ [x; bit]); [split; vm_compute; reflexivity|done|done|reflexivity|]. intros v sh' G Hv _. apply HQ; [done|]. cbn [zip_with nth snd] in Hv. by rewrite Z.mod_small in Hv by lia.
Qed.
Lemma SBFM_ok sf N immr imms Rn Rd : in_range 6 immr -> in_range 6 imms -> 0 <= Rn < 32 -> 0 <= Rd < 32 -> translates (visitor.SBFM sf N immr imms Rn Rd) (fun _ => bit_field signed_field sf N immr imms Rn Rd).
Proof.
  intros Hr Hs Hn Hd sh s Ho Ht. unfold visitor.SBFM, bit_field. pose proof (bitfield_masks_spec sf N immr imms Hr Hs) as Hm. destruct (visitor.bitfield_masks sf N immr imms) as [[wm tm]|]; [|rewrite Hm; by apply ReservedValue_ok].
  destruct Hm as (-> & HR & HS & Rw & Rt & Hb). pose proof (grows_refl sh) as G. pose proof (operand_width sf) as Hw.
  emit rule_X. value v1 Hv1. pose proof (ty_range _ _ _ _ Hv1) as Rx. emit rule_RotateRight; [apply imm8_holds; lia|]. value v2 Hv2. emit rule_I. value v3 Hv3. emit rule_And. value v4 Hv4. intros _. emit rule_ReplicateBit. value v5 Hv5.
  emit rule_I; [by apply not_range|]. value v6 Hv6. emit rule_And. value v7 Hv7. intros _. emit rule_I. value v8 Hv8. emit rule_And. value v9 Hv9. intros _. emit rule_Or. value v10 Hv10.
  emit rule_set_X. state. erewrite same_low_bits; [by apply emits_done|lia|]. intros i Hi. rewrite signed_bit by (done || lia). low_bits. rewrite bit.testbit_not by lia. destruct (Hb i Hi) as [-> ->].
  rewrite rotated_bit, mask_end, <- mask_inside by (done || lia). assert (Hrep : Z.testbit (if Z.testbit (X (width_bits sf) Rn s) imms then Z.ones (width_bits sf) else 0) i = Z.testbit (X (width_bits sf) Rn s) imms).
  { destruct (Z.testbit (X _ _ _) imms); [by apply Z.ones_spec_low|apply Z.bits_0]. }
  rewrite Hrep. by destruct (i <? _), (_ <=? imms), (Z.testbit _ imms), (Z.testbit _ (_ mod _)).
Qed.
Lemma BFM_ok sf N immr imms Rn Rd : in_range 6 immr -> in_range 6 imms -> 0 <= Rn < 32 -> 0 <= Rd < 32 -> translates (visitor.BFM sf N immr imms Rn Rd) (fun _ => bit_field insert_field sf N immr imms Rn Rd).
Proof.
  intros Hr Hs Hn Hd sh s Ho Ht. unfold visitor.BFM, bit_field. pose proof (bitfield_masks_spec sf N immr imms Hr Hs) as Hm. destruct (visitor.bitfield_masks sf N immr imms) as [[wm tm]|]; [|rewrite Hm; by apply ReservedValue_ok].
  destruct Hm as (-> & HR & HS & Rw & Rt & Hb). pose proof (grows_refl sh) as G. pose proof (operand_width sf) as Hw.
  emit rule_X. value v0 Hv0. emit rule_X. value v1 Hv1. pose proof (ty_range _ _ _ _ Hv1) as Rx. emit rule_I; [by apply not_range|]. value v2 Hv2. emit rule_And. value v3 Hv3. intros _. emit rule_RotateRight; [apply imm8_holds; lia|]. value v4 Hv4.
  emit rule_I. value v5 Hv5. emit rule_And. value v6 Hv6. intros _. emit rule_Or. value v7 Hv7. emit rule_I; [by apply not_range|]. value v8 Hv8. emit rule_And. value v9 Hv9. intros _. emit rule_I. value v10 Hv10. emit rule_And. value v11 Hv11. intros _. emit rule_Or. value v12 Hv12.
  emit rule_set_X. state. erewrite same_low_bits; [by apply emits_done|lia|]. intros i Hi. rewrite insert_bit by (done || lia). low_bits. rewrite !bit.testbit_not by lia. destruct (Hb i Hi) as [-> ->].
  rewrite rotated_bit, mask_end, <- mask_inside by (done || lia). by destruct (i <? _), (_ <=? imms), (Z.testbit (X _ Rd s) i), (Z.testbit (X _ Rn s) _).
Qed.
End Bits.
