(* ===== verification/A64CorrectReverse.v ===== *)
(** Counting bits and reversing bits and bytes: the translation of CLZ, CLS, RBIT and
    REV is correct. *)
From stdpp Require Import list.
From S2P Require Import Prelude Bits IrOpcodes A64Imm Ir A64Jit IrSem IrWf IrExec IrArith GetSet GetSetSem GetSetSound IrEmitter EmitLogic A64Spec A64Visitor A64Rules A64Correct A64CorrectData BitShuffle A64CorrectBits.
Import Op(Opcode).
Local Open Scope Z_scope.

(** ** Counting *)
Lemma highest_unique x k : 0 <= k -> Z.testbit x k = true -> (forall i, k < i -> Z.testbit x i = false) -> HighestSetBit x = k.
Proof.
  intros Hk Hx Hi. unfold HighestSetBit. destruct (Z.eqb_spec x 0) as [->|]; [by rewrite Z.bits_0 in Hx|]. by apply Z.log2_bits_unique.
Qed.
(** The bits that differ from the sign and the bits that differ from the next one have
    the same highest set bit. *)
Lemma highest_change w x : 1 < w -> in_range w x -> HighestSetBit (Z.lxor (x / 2) (x mod 2 ^ (w - 1))) = HighestSetBit (Z.lxor x (if Z.testbit x (w - 1) then Z.ones w else 0)).
Proof.
  intros Hw1 Hx. assert (Hw : 0 < w) by lia. set (z := Z.lxor (x / 2) _). set (y := Z.lxor x _).
  assert (Hy : forall i, 0 <= i -> Z.testbit y i = (i <? w) && xorb (Z.testbit x i) (Z.testbit x (w - 1))).
  { intros i Hi. unfold y. rewrite Z.lxor_spec. destruct (Z.ltb_spec i w); [|rewrite (bit.testbit_above w Hw x) by done; destruct (Z.testbit x (w - 1)); [by rewrite Z.ones_spec_high by lia|by rewrite Z.bits_0]].
    destruct (Z.testbit x (w - 1)); [by rewrite Z.ones_spec_low by lia|by rewrite Z.bits_0]. }
  assert (Hz : forall i, 0 <= i -> Z.testbit z i = xorb (Z.testbit y (i + 1)) (Z.testbit y i)).
  { intros i Hi. unfold z. rewrite Z.lxor_spec, !Hy by lia. change (x mod 2 ^ (w - 1)) with (wrap (w - 1) x). rewrite bit.testbit_wrap by lia. change 2 with (2 ^ 1). rewrite Z.div_pow2_bits by lia.
    destruct (Z.ltb_spec i (w - 1)); [rewrite (proj2 (Z.ltb_lt i w)), (proj2 (Z.ltb_lt (i + 1) w)) by lia; cbn [andb]; by destruct (Z.testbit x (i + 1)), (Z.testbit x i), (Z.testbit x (w - 1))|].
    rewrite (proj2 (Z.ltb_ge (i + 1) w)) by lia. rewrite (bit.testbit_above w Hw x (i + 1)) by (done || lia). destruct (Z.ltb_spec i w); [|done]. replace i with (w - 1) by lia. by destruct (Z.testbit x (w - 1)). }
  assert (Hneg : forall v i, i < 0 -> Z.testbit v i = false) by (intros; by apply Z.testbit_neg_r).
  assert (Hy0 : 0 <= y). { unfold y. apply Z.lxor_nonneg. unfold in_range in Hx. destruct (Z.testbit x (w - 1)); [rewrite Z.ones_equiv; pose proof (Z.pow_pos_nonneg 2 w); lia|lia]. }
  destruct (Z.eq_dec y 0) as [Ey|Ey].
  - rewrite Ey. unfold HighestSetBit at 2. simpl. assert (z = 0) as ->; [|done]. apply Z.bits_inj'. intros i Hi. rewrite Hz, Ey by done. by rewrite !Z.bits_0.
  - pose proof (Z.log2_nonneg y) as Hl. set (k := Z.log2 y) in *. assert (Hk : Z.testbit y k = true) by (apply Z.bit_log2; lia). assert (Habove : forall i, k < i -> Z.testbit y i = false) by (intros i Hi; by apply Z.bits_above_log2).
    transitivity k; [|symmetry; by apply highest_unique]. apply highest_unique; [done|rewrite Hz by done; by rewrite Hk, Habove by lia|]. intros i Hi. rewrite Hz by lia. by rewrite !Habove by lia.
Qed.
Lemma clz_value w x : count_leading_zeros w x = CountLeadingZeroBits w x.
Proof. unfold count_leading_zeros, CountLeadingZeroBits, HighestSetBit. destruct (Z.eqb_spec x 0); lia. Qed.
Lemma sign_mask w x : 0 < w -> in_range w x -> shift_arith w x w = if Z.testbit x (w - 1) then Z.ones w else 0.
Proof.
  intros Hw Hx. unfold shift_arith. rewrite Z.min_r by lia. apply Z.bits_inj'. intros i Hi. rewrite bit.testbit_wrap, Z.shiftr_spec by lia. rewrite swrap_bit by lia.
  rewrite Z.min_r by lia. destruct (Z.ltb_spec i w); cbn [andb].
  - destruct (Z.testbit x (w - 1)); [by rewrite Z.ones_spec_low by lia|by rewrite Z.bits_0].
  - destruct (Z.testbit x (w - 1)); [by rewrite Z.ones_spec_high by lia|by rewrite Z.bits_0].
Qed.

(** ** Bits by their places *)
Lemma fold_right_ind_nonneg (f : Z -> bool) (l : list Z) : Forall (fun k => 0 <= k) l -> 0 <= fold_right (fun i m => Z.lor (Z.shiftl (Z.b2z (f i)) i) m) 0 l.
Proof. induction 1 as [|k l Hk Hl IH]; [done|]. cbn [fold_right]. apply Z.lor_nonneg. split; [|exact IH]. apply Z.shiftl_nonneg. by destruct (f k). Qed.
Lemma of_places w f x y : 0 < w -> in_range w y -> (forall i, 0 <= i < w -> Z.testbit y i = Z.testbit x (f i)) -> y = of_bits w (fun i => Z.testbit x (f i)).
Proof.
  intros Hw Hy Hb. apply Z.bits_inj'. intros i Hi. rewrite of_bits_spec by done. destruct (Z.ltb_spec i w); [by apply Hb|]. by rewrite (bit.testbit_above w Hw y).
Qed.
Lemma value_range w e x : 0 < w -> in_range w x -> in_range w (value w e x).
Proof. intros Hw Hx. destruct e; simpl; try done; try (apply wrap_range; lia). unfold shift_left. destruct (_ <=? _); [split; [done|by apply Z.pow_pos_nonneg; lia]|apply wrap_range; lia]. Qed.
Lemma reverse_word_value x : in_range 32 x -> value 32 reverse_word x = reverse_bits 32 x.
Proof. intros Hx. apply of_places; [done|by apply value_range|]. intros i Hi. apply (moves_spec 32 reverse_word (fun i => 32 - 1 - i)); [done|done|exact reverse_word_moves|done]. Qed.
Definition halves_swapped (sf : bool) : shuffle := if sf then swap_halves 0x00FF00FF00FF00FF 0xFF00FF00FF00FF00 else swap_halves 0x00FF00FF 0xFF00FF00.
Lemma halves_swapped_value sf x : in_range (width_bits sf) x -> value (width_bits sf) (halves_swapped sf) x = reverse_bytes (width_bits sf) 16 x.
Proof.
  intros Hx. pose proof (width_pos sf) as Hw. apply of_places; [done|by apply value_range|]. intros i Hi. apply (moves_spec (width_bits sf) _ (byte_place (width_bits sf) 16)); [done|done|by destruct sf; [exact swap_halves_64|exact swap_halves_32]|done].
Qed.
Lemma swap_bytes_value (sf : bool) x : in_range (width_bits sf) x -> wrap (width_bits sf) (swap_bytes (if sf then 8 else 4) x) = reverse_bytes (width_bits sf) (width_bits sf) x.
Proof.
  intros Hx. pose proof (width_pos sf) as Hw. apply of_places; [done|apply wrap_range; lia|]. intros i Hi. rewrite bit.testbit_wrap, (proj2 (Z.ltb_lt i _)), <- raw_bytes_reversed by lia.
  apply (raw_moves_spec (width_bits sf) _ (byte_place (width_bits sf) (width_bits sf))); [done|done|by destruct sf; [exact bytes_reversed_8|exact bytes_reversed_4]|done].
Qed.
(** Two words in one. *)
Lemma packed_bit lo hi i : in_range 32 lo -> in_range 32 hi -> 0 <= i < 64 -> Z.testbit (wrap 64 (Z.lor (Z.shiftl hi 32) lo)) i = if i <? 32 then Z.testbit lo i else Z.testbit hi (i - 32).
Proof.
  intros Hlo Hhi Hi. rewrite bit.testbit_wrap, (proj2 (Z.ltb_lt i 64)), Z.lor_spec, Z.shiftl_spec by lia. cbn [andb]. destruct (Z.ltb_spec i 32); [by rewrite (Z.testbit_neg_r hi) by lia|].
  rewrite (bit.testbit_above 32 ltac:(lia) lo) by (done || lia). by rewrite orb_false_r.
Qed.
Definition low_word (x : Z) : Z := wrap 32 x.
Definition high_word (x : Z) : Z := wrap 32 (Z.shiftr x 32).
Lemma low_word_bit x i : 0 <= i < 32 -> Z.testbit (low_word x) i = Z.testbit x i.
Proof. intros Hi. unfold low_word. by rewrite bit.testbit_wrap, (proj2 (Z.ltb_lt i 32)) by lia. Qed.
Lemma high_word_bit x i : 0 <= i < 32 -> Z.testbit (high_word x) i = Z.testbit x (i + 32).
Proof. intros Hi. unfold high_word. by rewrite bit.testbit_wrap, (proj2 (Z.ltb_lt i 32)), Z.shiftr_spec by lia. Qed.
Lemma of_bits_range w f : 0 < w -> in_range w (of_bits w f).
Proof.
  intros Hw. apply bit.in_range_bits; [lia| |intros i Hi; rewrite of_bits_spec by lia; by rewrite (proj2 (Z.ltb_ge i w)) by lia]. unfold of_bits. apply (fold_right_ind_nonneg f). rewrite Forall_forall. intros k Hk%elem_of_seqZ. lia.
Qed.
Lemma reverse_pair x : in_range 64 x -> wrap 64 (Z.lor (Z.shiftl (reverse_bits 32 (low_word x)) 32) (reverse_bits 32 (high_word x))) = reverse_bits 64 x.
Proof.
  intros Hx. apply of_places; [done|by apply wrap_range|]. intros i Hi. rewrite packed_bit by (by apply of_bits_range || done). unfold reverse_bits. destruct (Z.ltb_spec i 32); rewrite of_bits_spec by lia.
  - rewrite (proj2 (Z.ltb_lt i 32)) by lia. cbn [andb]. rewrite high_word_bit by lia. f_equal. lia.
  - rewrite (proj2 (Z.ltb_lt (i - 32) 32)) by lia. cbn [andb]. rewrite low_word_bit by lia. f_equal. lia.
Qed.
Ltac div_lia := Z.to_euclidean_division_equations; lia.
Lemma reverse_bytes_pair x : in_range 64 x -> wrap 64 (Z.lor (Z.shiftl (reverse_bytes 32 32 (high_word x)) 32) (reverse_bytes 32 32 (low_word x))) = reverse_bytes 64 32 x.
Proof.
  intros Hx. apply of_places; [done|by apply wrap_range|]. intros i Hi. rewrite packed_bit by (by apply of_bits_range || done). unfold reverse_bytes. destruct (Z.ltb_spec i 32); rewrite of_bits_spec by lia.
  - rewrite (proj2 (Z.ltb_lt i 32)) by lia. cbn [andb]. pose proof (Z.mod_pos_bound i 8 ltac:(lia)). rewrite (Z.div_small i 32), (Z.mod_small i 32) by lia. rewrite low_word_bit by div_lia. done.
  - rewrite (proj2 (Z.ltb_lt (i - 32) 32)) by lia. cbn [andb]. assert (Hd : i / 32 = 1) by div_lia. assert (Hm : i mod 32 = i - 32) by div_lia. assert (H8 : i mod 8 = (i - 32) mod 8) by div_lia. rewrite Hd, Hm, H8.
    rewrite (Z.div_small (i - 32) 32), (Z.mod_small (i - 32) 32) by lia. rewrite high_word_bit by div_lia. f_equal. lia.
Qed.

Section Reverse.
Context {St : Type} `{A64Flow St} (s0 : St).
Abbreviation emits := (emits s0).
Abbreviation translates := (translates s0).
Implicit Types (sh : Shadow) (s : St).

Lemma CLZ_int_ok sf Rn Rd : 0 <= Rn < 32 -> 0 <= Rd < 32 -> translates (visitor.CLZ_int sf Rn Rd) (fun _ => unary CountLeadingZeroBits sf Rn Rd).
Proof.
  intros Hn Hd sh s Ho Ht. unfold visitor.CLZ_int, unary. pose proof (grows_refl sh) as G. emit rule_X. value v1 Hv1. emit rule_CountLeadingZeros. value v2 Hv2. emit rule_set_X. state.
  rewrite clz_value, set_X_wrap by (pose proof (width_pos sf); lia). by apply emits_done.
Qed.
Lemma CLS_int_ok sf Rn Rd : 0 <= Rn < 32 -> 0 <= Rd < 32 -> translates (visitor.CLS_int sf Rn Rd) (fun _ => unary CountLeadingSignBits sf Rn Rd).
Proof.
  intros Hn Hd sh s Ho Ht. unfold visitor.CLS_int, unary. pose proof (grows_refl sh) as G. pose proof (operand_width sf) as Hw. emit rule_X. value v1 Hv1. pose proof (ty_range _ _ _ _ Hv1) as Rx. set (x := X (width_bits sf) Rn s) in *.
  emit rule_ArithmeticShiftRight; [apply imm_holds; [done|destruct sf; by split]|]. assert (Hu : u8 (visitor.datasize sf) = width_bits sf) by (by destruct sf). rewrite Hu, sign_mask by (done || lia). value v2 Hv2.
  emit rule_Eor. value v3 Hv3. emit rule_CountLeadingZeros. value v4 Hv4. pose proof (ty_range _ _ _ _ Hv4) as R4. emit rule_I; [done|]. value v5 Hv5. pose proof (ty_range _ _ _ _ Hv5) as R5. emit rule_Sub. value v6 Hv6. intros _. emit rule_set_X. state.
  erewrite set_X_eq; [by apply emits_done|]. cbn [add_sub AddWithCarry fst]. rewrite wrap_wrap, <- sub_as_add by (done || lia). rewrite clz_value. unfold CountLeadingSignBits. assert (Rx' : 1 < width_bits sf) by (by destruct sf).
  set (y := Z.lxor x _). assert (Ry : wrap (width_bits sf) y = y).
  { apply wrap_small. apply bit.in_range_bits; [lia| |]; unfold y; unfold in_range in Rx.
    - apply Z.lxor_nonneg. destruct (Z.testbit x _); [rewrite Z.ones_equiv; pose proof (Z.pow_pos_nonneg 2 (width_bits sf)); lia|lia].
    - intros i Hi. rewrite Z.lxor_spec, (bit.testbit_above (width_bits sf) ltac:(lia) x) by (done || lia). destruct (Z.testbit x _); [by rewrite Z.ones_spec_high by lia|by rewrite Z.bits_0]. }
  rewrite Ry. unfold CountLeadingZeroBits. rewrite highest_change by done. fold y. set (h := HighestSetBit y). unfold wrap. rewrite (Z.mod_small 1) by (destruct sf; simpl; lia).
  replace ((width_bits sf - 1 - h) mod 2 ^ width_bits sf - 1 - 1 + 1) with ((width_bits sf - 1 - h) mod 2 ^ width_bits sf - 1) by lia. rewrite Zminus_mod_idemp_l. f_equal. lia.
Qed.

(** The expressions, emitted. *)
Lemma rule_swap_groups mask n a e x (Q : Value -> Shadow -> St -> Prop) sh s : sh_open sh = true -> in_range 32 mask -> 0 <= n < 32 -> holds sh a Ty.U32 (BitShuffle.value 32 e x) ->
  gives false sh (BitShuffle.value 32 (swap_adjacent mask n e) x) Q s -> emits (visitor.swap_groups a mask n) Q sh s.
Proof.
  intros Ho Hm Hn Ha HQ. unfold visitor.swap_groups. pose proof (grows_refl sh) as G. assert (Hmask : forall sh, holds sh (ir.Imm32 mask) Ty.U32 mask) by (intros; by apply imm_holds).
  emit (rule_And s0 false); [apply Hmask|]. value v1 Hv1. intros _. emit (rule_LogicalShiftLeft s0 false); [apply imm8_holds; lia|]. value v2 Hv2. emit (rule_LogicalShiftRight s0 false); [apply imm8_holds; lia|]. value v3 Hv3. emit (rule_And s0 false); [apply Hmask|]. value v4 Hv4. intros _.
  eapply (rule_Or s0 false); [done|exact Hv2|exact Hv4|]. intros v5 sh5 G5 Hv5. apply HQ; [by eapply grows_trans|exact Hv5].
Qed.
Lemma rule_rbit32 a x (Q : Value -> Shadow -> St -> Prop) sh s : sh_open sh = true -> holds sh a Ty.U32 x -> gives false sh (reverse_bits 32 x) Q s -> emits (visitor.rbit32 a) Q sh s.
Proof.
  intros Ho Ha HQ. pose proof (ty_range _ _ false _ Ha) as Rx. unfold visitor.rbit32. pose proof (grows_refl sh) as G. assert (Hmask : forall sh, holds sh (ir.Imm32 0xFF00) Ty.U32 0xFF00) by (intros; by apply imm_holds).
  emit (rule_swap_groups 0x55555555 1 a Arg x); [done|]. value v1 Hv1. emit rule_swap_groups; [done|]. value v2 Hv2. emit rule_swap_groups; [done|]. value v3 Hv3. fold bits_in_bytes_reversed in Hv3. set (t := BitShuffle.value 32 bits_in_bytes_reversed x) in *.
  emit (rule_LogicalShiftLeft s0 false); [by apply imm8_holds|]. value v4 Hv4. emit (rule_And s0 false); [apply Hmask|]. value v5 Hv5. intros _. emit (rule_LogicalShiftLeft s0 false); [by apply imm8_holds|]. value v6 Hv6. emit (rule_Or s0 false). value v7 Hv7.
  emit (rule_LogicalShiftRight s0 false); [by apply imm8_holds|]. value v8 Hv8. emit (rule_And s0 false); [apply Hmask|]. value v9 Hv9. intros _. emit (rule_LogicalShiftRight s0 false); [by apply imm8_holds|]. value v10 Hv10. emit (rule_Or s0 false). value v11 Hv11.
  eapply (rule_Or s0 false); [done|exact Hv7|exact Hv11|]. intros v12 sh12 G12 Hv12. apply HQ; [by eapply grows_trans|]. rewrite <- reverse_word_value by done. unfold reverse_word. rewrite bytes_of_word_reversed_value. cbv zeta. exact Hv12.
Qed.
Lemma rule_MostSignificantWord a x (Q : Value * Value -> Shadow -> St -> Prop) sh s : sh_open sh = true -> holds sh a Ty.U64 x ->
  (forall v c sh', grows sh sh' -> holds sh' v Ty.U32 (high_word x) -> Q (v, c) sh' s) -> emits (ir.MostSignificantWord a) Q sh s.
Proof.
  intros Ho Ha HQ. unfold ir.MostSignificantWord. set (o := Op.MostSignificantWord). assert (Hargs : args_hold sh [Ty.U64] [a] [x]) by (by split).
  assert (Hrun : run_inst (sh_env sh) s o [a] = ({| r_op := o; r_args := [(Ty.U64, x)]; r_val := (Ty.U32, high_word x) |}, s)).
  { unfold run_inst. simpl. by rewrite (holds_eval _ _ _ _ Ha). }
  apply emits_bind, emits_Inst; [constructor; [done|done|by eapply (args_hold_good sh o)|done]|]. intros Hs. rewrite Hrun. set (sh1 := after_inst sh s o [a]). assert (G : grows sh sh1) by (by apply after_grows).
  assert (Hh : holds sh1 (Ref (sh_next sh)) Ty.U32 (high_word x)) by (apply (new_holds sh s o [a]); [done..|by rewrite Hrun]).
  apply emits_bind. eapply (emits_GetCarry s0 _ (fst (run_inst (sh_env sh) s o [a]))); [by eapply open_grows| |by rewrite Hrun|by exists (sh_next sh)|].
  - exists (sh_next sh). split_and!; [done|apply lookup_insert_eq|by rewrite Hrun|by rewrite Hrun].
  - intros c sh2 G2. apply emits_ret. apply HQ; [by eapply grows_trans|by eapply holds_grows].
Qed.
Lemma rule_Pack lo hi x y (Q : Value -> Shadow -> St -> Prop) sh s : sh_open sh = true -> holds sh lo Ty.U32 x -> holds sh hi Ty.U32 y -> gives true sh (wrap 64 (Z.lor (Z.shiftl y 32) x)) Q s -> emits (ir.Pack2x32To1x64 lo hi) Q sh s.
Proof.
  intros Ho Hl Hh HQ. eapply (rule_operation s0 _ [Ty.U32; Ty.U32] Ty.U64 _ [x; y]); [split; vm_compute; reflexivity|done|done|reflexivity|]. intros v sh' G Hv _. by apply HQ.
Qed.
Lemma RBIT_int_ok sf Rn Rd : 0 <= Rn < 32 -> 0 <= Rd < 32 -> translates (visitor.RBIT_int sf Rn Rd) (fun _ => unary reverse_bits sf Rn Rd).
Proof.
  intros Hn Hd sh s Ho Ht. unfold visitor.RBIT_int, unary. pose proof (grows_refl sh) as G. emit rule_X. value v1 Hv1. pose proof (ty_range _ _ _ _ Hv1) as Rx. destruct sf.
  - emit rule_LeastSignificantWord. value v2 Hv2. emit rule_rbit32. value v3 Hv3. apply emits_bind. eapply rule_MostSignificantWord; [eassumption..|]. intros v4 c sh4 G4 Hv4. advance. emit rule_rbit32. value v5 Hv5. emit rule_Pack. value v6 Hv6.
    fold (low_word (X (width_bits true) Rn s)) in Hv6. rewrite reverse_pair in Hv6 by done. emit (rule_set_X s0 true). state. by apply emits_done.
  - emit rule_rbit32. value v2 Hv2. emit (rule_set_X s0 false). state. by apply emits_done.
Qed.
Definition reverse_all (w x : Z) : Z := reverse_bytes w w x.
Lemma rule_ByteReverse (sf : bool) a x (Q : Value -> Shadow -> St -> Prop) sh s : sh_open sh = true -> holds sh a (ty sf) x -> gives sf sh (reverse_bytes (width_bits sf) (width_bits sf) x) Q s ->
  emits ((if sf then ir.ByteReverseDual else ir.ByteReverseWord) a) Q sh s.
Proof.
  intros Ho Ha HQ. pose proof (ty_range _ _ _ _ Ha) as Rx. rewrite <- swap_bytes_value in HQ by done. destruct sf; (eapply rule_convert; [split; vm_compute; reflexivity|reflexivity|done|exact Ha|exact HQ]).
Qed.
Lemma REV_ok (sf opc_0 : bool) Rn Rd : 0 <= Rn < 32 -> 0 <= Rd < 32 -> translates (visitor.REV sf opc_0 Rn Rd) (fun _ s => if negb sf && opc_0 then UNALLOCATED s else unary reverse_all sf Rn Rd s).
Proof.
  intros Hn Hd sh s Ho Ht. unfold visitor.REV. destruct (negb sf && opc_0); [by apply UnallocatedEncoding_ok|]. unfold unary. pose proof (grows_refl sh) as G. emit rule_X. value v1 Hv1.
  pose proof (fun Q => rule_ByteReverse sf v1 _ Q sh0 s Ho Hv1) as Hr. destruct sf; (apply emits_bind; apply Hr; value v2 Hv2; emit rule_set_X; state; by apply emits_done).
Qed.
Lemma REV32_int_ok Rn Rd : 0 <= Rn < 32 -> 0 <= Rd < 32 -> translates (visitor.REV32_int Rn Rd) (fun _ => unary (fun w => reverse_bytes w 32) true Rn Rd).
Proof.
  intros Hn Hd sh s Ho Ht. unfold visitor.REV32_int, unary. pose proof (grows_refl sh) as G. emit (rule_X s0 true). value v1 Hv1. pose proof (ty_range _ _ true _ Hv1) as Rx.
  emit rule_LeastSignificantWord. value v2 Hv2. emit (rule_ByteReverse false). value v3 Hv3. apply emits_bind. eapply rule_MostSignificantWord; [eassumption..|]. intros v4 c sh4 G4 Hv4. advance. emit (rule_ByteReverse false). value v5 Hv5. emit rule_Pack. value v6 Hv6.
  fold (low_word (X (width_bits true) Rn s)) in Hv6. cbn [width_bits] in Hv6. rewrite reverse_bytes_pair in Hv6 by done. emit (rule_set_X s0 true). state. by apply emits_done.
Qed.
Lemma REV16_int_ok sf Rn Rd : 0 <= Rn < 32 -> 0 <= Rd < 32 -> translates (visitor.REV16_int sf Rn Rd) (fun _ => unary (fun w => reverse_bytes w 16) sf Rn Rd).
Proof.
  intros Hn Hd sh s Ho Ht. unfold visitor.REV16_int, unary. pose proof (grows_refl sh) as G. emit rule_X. value v1 Hv1. pose proof (ty_range _ _ _ _ Hv1) as Rx.
  assert (Hlo : forall sh, holds sh (if sf then ir.Imm64 0x00FF00FF00FF00FF else ir.Imm32 0x00FF00FF) (ty sf) (if sf then 0x00FF00FF00FF00FF else 0x00FF00FF)) by (intros; destruct sf; by apply imm_holds).
  assert (Hhi : forall sh, holds sh (if sf then ir.Imm64 0xFF00FF00FF00FF00 else ir.Imm32 0xFF00FF00) (ty sf) (if sf then 0xFF00FF00FF00FF00 else 0xFF00FF00)) by (intros; destruct sf; by apply imm_holds).
  emit rule_LogicalShiftRight; [by apply imm8_holds|]. value v2 Hv2. emit rule_And; [apply Hlo|]. value v3 Hv3. intros _. emit rule_LogicalShiftLeft; [by apply imm8_holds|]. value v4 Hv4. emit rule_And; [apply Hhi|]. value v5 Hv5. intros _. emit rule_Or. value v6 Hv6.
  emit rule_set_X. state. rewrite <- halves_swapped_value by done. destruct sf; by apply emits_done.
Qed.
End Reverse.
