(* ===== verification/A64CorrectBranch.v ===== *)
(** The translation of branches, of calls to the supervisor and of hints is correct: the
    block ends with a terminal that leaves for the location the architecture gives. *)
From stdpp Require Import list.
From S2P Require Import Prelude Bits IrOpcodes A64Imm Ir A64Jit IrSem IrWf IrExec IrArith GetSet GetSetSem GetSetSound IrEmitter EmitLogic A64Spec A64Visitor A64Rules A64Correct A64CorrectData.
Import Op(Opcode).
Local Open Scope Z_scope.

(** ** Program counters *)
Lemma mod_pow_le m n x : 0 <= m <= n -> wrap m (wrap n x) = wrap m x.
Proof.
  intros H. unfold wrap. symmetry. rewrite (Z_div_mod_eq_full x (2 ^ n)) at 1. replace n with (m + (n - m)) at 1 by lia. rewrite Z.pow_add_r by lia.
  rewrite Z.add_comm, <- Z.mul_assoc, Z.mul_comm, Z_mod_plus_full. done.
Qed.
Lemma swrap_same w x y : wrap w x = wrap w y -> swrap w x = swrap w y.
Proof. intros E. by rewrite <- (swrap_wrap w x), E, swrap_wrap. Qed.
Lemma canon_eq pc : canon pc = wrap 64 (swrap 56 pc).
Proof. unfold canon. by rewrite bit.sign_extend_eq by lia. Qed.
Lemma canon_same x y : wrap 56 x = wrap 56 y -> canon x = canon y.
Proof. intros E. rewrite !canon_eq. by rewrite (swrap_same 56 x y E). Qed.
Lemma canon_u64 x : canon (u64 x) = canon x.
Proof. apply canon_same. by apply mod_pow_le. Qed.
Lemma pc_land p : Z.land p LocationDescriptor.pc_mask = wrap 56 p.
Proof. rewrite LocationLemmas.pc_mask_eq. by apply Z.land_ones. Qed.
Lemma PC_wrap l : wrap 56 (LocationDescriptor.PC l) = wrap 56 (LocationDescriptor.pc l).
Proof. unfold LocationDescriptor.PC, LocationDescriptor.pc_bit_count. rewrite bit.sign_extend_eq by lia. rewrite mod_pow_le by lia. apply wrap_swrap. Qed.
Lemma PC_make p f b : LocationDescriptor.PC (LocationDescriptor.make p f b) = canon p.
Proof. change (canon (Z.land p LocationDescriptor.pc_mask) = canon p). rewrite pc_land. apply canon_same. by apply mod_pow_le. Qed.
Lemma fpcr_range l : LocationDescriptor.valid l -> in_range 32 (LocationDescriptor.fpcr l).
Proof.
  intros (p & f & _ & Hf & _ & ->). apply bit.in_range_bits; [lia|apply Z.land_nonneg; left; apply Hf|]. intros i Hi. rewrite Z.land_spec, (bit.testbit_above 32 ltac:(lia) f) by (done || lia). done.
Qed.
Lemma SetPC_valid l p : LocationDescriptor.valid l -> in_range 64 p -> LocationDescriptor.valid (LocationDescriptor.SetPC l p).
Proof. intros Hl Hp. apply LocationLemmas.make_valid; [done|by apply fpcr_range]. Qed.
Lemma AdvancePC_valid l n : LocationDescriptor.valid l -> LocationDescriptor.valid (LocationDescriptor.AdvancePC l n).
Proof. intros Hl. apply LocationLemmas.make_valid; [by apply wrap_range|by apply fpcr_range]. Qed.
Lemma PC_AdvancePC l n : LocationDescriptor.PC (LocationDescriptor.AdvancePC l n) = canon (LocationDescriptor.PC l + n).
Proof.
  unfold LocationDescriptor.AdvancePC. rewrite PC_make, canon_u64. apply canon_same. unfold wrap. rewrite <- Zplus_mod_idemp_l. pose proof (PC_wrap l) as E. unfold wrap in E. rewrite <- E. by rewrite Zplus_mod_idemp_l.
Qed.
Section Leaving.
Context {St : Type} `{A64Flow St}.
Lemma leave_link l (s : St) : LocationDescriptor.valid l -> leave (visitor.LinkTo l) s = Some (LocationDescriptor.PC l).
Proof. intros Hl. simpl. by rewrite LocationLemmas.of_ir_hash. Qed.
Lemma leave_target l t (s : St) : LocationDescriptor.valid l -> leave (visitor.LinkTo (LocationDescriptor.SetPC l (u64 t))) s = Some (canon t).
Proof. intros Hl. rewrite leave_link by (apply SetPC_valid; [done|by apply wrap_range]). unfold LocationDescriptor.SetPC. by rewrite PC_make, canon_u64. Qed.
Lemma leave_next l (s : St) : LocationDescriptor.valid l -> leave (visitor.LinkTo (LocationDescriptor.AdvancePC l 4)) s = Some (canon (LocationDescriptor.PC l + 4)).
Proof. intros Hl. rewrite leave_link by (by apply AdvancePC_valid). by rewrite PC_AdvancePC. Qed.
End Leaving.

(** ** Offsets *)
Lemma swrap_times_4 n x : 0 < n -> swrap (n + 2) (4 * x) = 4 * swrap n x.
Proof.
  intros Hn. unfold swrap. replace (n + 2 - 1) with ((n - 1) + 2) by lia. rewrite !Z.pow_add_r by lia. change (2 ^ 2) with 4.
  replace (4 * x + 2 ^ (n - 1) * 4) with ((x + 2 ^ (n - 1)) * 4) by lia. rewrite Z.mul_mod_distr_r by lia. lia.
Qed.
Section Branches.
Context {St : Type} `{A64Flow St} (s0 : St).
Abbreviation emits := (emits s0).
Abbreviation translates := (translates s0).
Implicit Types (sh : Shadow) (s : St).

Lemma rule_branch_offset n imm (Q : Z -> Shadow -> St -> Prop) sh s : 0 < n <= 30 -> in_range n imm -> Q (offset n imm) sh s -> emits (visitor.branch_offset n imm) Q sh s.
Proof.
  intros Hn Hi HQ. unfold visitor.branch_offset. apply emits_bind.
  destruct (concatenate_value [(n, imm); (2, 0)]) as [E _]; [apply Forall_cons_2; [simpl; split; [lia|done]|apply Forall_cons_2; [by split|apply Forall_nil_2]]|simpl; lia|].
  eapply emits_lift; [exact E|]. apply emits_ret. cbn [concatenated snd]. unfold SignExtend. rewrite bit.sign_extend_eq by lia. rewrite swrap_wrap.
  replace (imm * 2 ^ (2 + 0) + (0 * 2 ^ 0 + 0)) with (4 * imm) by lia. rewrite swrap_times_4 by lia. fold (offset n imm). rewrite swrap_small; [done|lia|].
  unfold offset. pose proof (swrap_range n imm ltac:(lia)). pose proof (Z.pow_le_mono_r 2 (n - 1) 60 ltac:(lia) ltac:(lia)). lia.
Qed.
(** *** Effects that leave the registers *)
Lemma rule_quiet o v t z (Q : unit -> Shadow -> St -> Prop) sh s : plain_op o = true -> o <> Op.Void -> snd (Op.info o) = [t] -> (forall a, pure o a = None) -> sh_open sh = true -> holds sh v t z ->
  (forall sh', grows sh sh' -> Q tt sh' (snd (sem o [(t, z)] s))) -> emits (bind (ir.Inst o [v]) (fun _ => ret tt)) Q sh s.
Proof.
  intros Hp Hvd Ht Hpu Ho Hv HQ. apply emits_bind. eapply (emits_sem s0 _ _ [z] _ (snd (sem o [(t, z)] s))); [done|done|done|rewrite Ht; by split|apply Hpu|rewrite Ht; apply surjective_pairing|].
  intros v' sh' G _. by apply emits_ret, HQ.
Qed.
Lemma rule_PushRSB l (Q : unit -> Shadow -> St -> Prop) sh s : sh_open sh = true -> in_range 64 l -> (forall sh' s', grows sh sh' -> same_guest s' s -> Q tt sh' s') -> emits (ir.PushRSB l) Q sh s.
Proof. intros Ho Hl HQ. eapply rule_quiet; [vm_compute; reflexivity|done|done|done|done|by apply pc_imm_holds|]. intros sh' G. apply HQ; [done|]. apply sem_push_rsb. Qed.
Lemma rule_SetCheckBit v z (Q : unit -> Shadow -> St -> Prop) sh s : sh_open sh = true -> holds sh v Ty.U1 z -> (forall sh' s', grows sh sh' -> check_bit s' = negb (z =? 0) -> same_guest s' s -> Q tt sh' s') ->
  emits (ir.SetCheckBit v) Q sh s.
Proof. intros Ho Hv HQ. destruct (sem_set_check z s) as [Hc Hr]. eapply rule_quiet; [vm_compute; reflexivity|done|done|done|done|exact Hv|]. intros sh' G. by apply HQ. Qed.
Lemma hash_range l : LocationDescriptor.valid l -> in_range 64 (LocationDescriptor.UniqueHash l).
Proof.
  intros (p & f & Hp & Hf & Ep & Ef). unfold LocationDescriptor.UniqueHash. rewrite Ep, pc_land. apply bit.in_range_bits; [lia| |].
  - rewrite !Z.lor_nonneg. split_and!; (by apply Z.mod_pos_bound).
  - intros i Hi. rewrite !Z.lor_spec. unfold u64. rewrite !bit.testbit_wrap by lia. rewrite (proj2 (Z.ltb_ge i 56)), (proj2 (Z.ltb_ge i 64)) by lia. done.
Qed.
(** *** Ends of a block *)
Lemma emits_jump sh t target s' sh1 s : sh_term sh1 = Invalid -> sh_loc sh1 = sh_loc sh -> same_guest s s' -> leave t s = Some (canon target) ->
  emits (bind (ir.SetTerm t) (fun _ => ret false)) (performs sh (Jump target s')) sh1 s.
Proof. intros Ht Hl Hs Hleave. apply emits_bind, emits_SetTerm; [done|]. by apply emits_ret. Qed.
Lemma rule_branch_locations off (Q : Terminal * Terminal -> Shadow -> St -> Prop) sh s : let l := sh_loc sh in
  Q (visitor.LinkTo (LocationDescriptor.SetPC l (u64 (LocationDescriptor.PC l + off))), visitor.LinkTo (LocationDescriptor.AdvancePC l 4)) sh s -> emits (visitor.branch_locations off) Q sh s.
Proof. intros l HQ. unfold visitor.branch_locations. apply emits_bind, emits_PC. apply emits_bind, emits_loc. by apply emits_ret. Qed.
Lemma same_trans (s1 s2 s3 : St) : same_guest s1 s2 -> same_guest s2 s3 -> same_guest s1 s3.
Proof. intros [M1 R1] [M2 R2]. split; [congruence|]. intros l. by rewrite R1. Qed.
Lemma same_refl (s : St) : same_guest s s.
Proof. done. Qed.
Lemma grows_start sh sh' : grows sh sh' -> sh_term sh = Invalid -> sh_term sh' = Invalid /\ sh_loc sh' = sh_loc sh.
Proof. intros (_ & ? & -> & _). done. Qed.

Lemma B_uncond_ok imm26 : in_range 26 imm26 -> translates (visitor.B_uncond imm26) (fun pc => branch pc (offset 26 imm26)).
Proof.
  intros Hi sh s Ho Ht. unfold visitor.B_uncond. apply emits_valid. intros Hv. apply emits_bind, rule_branch_offset; [lia|done|]. apply emits_bind, rule_branch_locations.
  apply emits_jump; [done..|]. cbn [fst]. by apply leave_target.
Qed.
Lemma B_cond_ok imm19 cond : in_range 19 imm19 -> translates (visitor.B_cond imm19 cond) (fun pc s => branch_if (ConditionHolds cond (nzcv s)) pc (offset 19 imm19) s).
Proof.
  intros Hi sh s Ho Ht. unfold visitor.B_cond, branch_if. apply emits_valid. intros Hv. apply emits_bind, rule_branch_offset; [lia|done|]. apply emits_bind, rule_branch_locations.
  apply emits_jump; [done..|]. cbn [fst snd leave]. destruct (ConditionHolds _ _); [by apply leave_target|by apply leave_next].
Qed.
(** The return address. *)
Lemma rule_link (Q : unit -> Shadow -> St -> Prop) sh s : sh_open sh = true -> (forall sh' s', grows sh sh' -> same_guest s' (set_link (LocationDescriptor.PC (sh_loc sh)) s) -> Q tt sh' s') -> emits visitor.link Q sh s.
Proof.
  intros Ho HQ. unfold visitor.link. apply emits_valid. intros Hv. apply emits_bind, emits_PC. pose proof (grows_refl sh) as G. emit rule_set_imm; [by apply wrap_range|]. state.
  destruct G0 as (G1 & Hl & G3). apply emits_bind, emits_loc. rewrite Hl. apply rule_PushRSB; [done|by apply hash_range, AdvancePC_valid|]. intros sh' s' G Hs. apply HQ; [eapply grows_trans; [|exact G]; done|].
  unfold set_link. by rewrite (set_X_eq 64 30 _ (u64 (LocationDescriptor.PC (sh_loc sh) + 4))) by (unfold u64; by rewrite wrap_wrap).
Qed.
Lemma BL_ok imm26 : in_range 26 imm26 -> translates (visitor.BL imm26) (fun pc s => branch pc (offset 26 imm26) (set_link pc s)).
Proof.
  intros Hi sh s Ho Ht. unfold visitor.BL. apply emits_valid. intros Hv. apply emits_bind, rule_branch_offset; [lia|done|]. apply emits_bind, rule_link; [done|]. intros sh' s' G Hs.
  destruct (grows_start _ _ G Ht) as [Ht' Hl]. apply emits_bind, rule_branch_locations. rewrite Hl. apply emits_jump; [done..|]. cbn [fst]. by apply leave_target.
Qed.
(** To the location in a register. *)
Lemma emits_indirect sh t v target s' sh1 s : sh_open sh1 = true -> sh_term sh1 = Invalid -> sh_loc sh1 = sh_loc sh -> same_guest s s' -> holds sh1 v Ty.U64 target ->
  (forall s, leave t s = Some (canon (pc_of s))) -> emits (ir.SetPC v ;; ir.SetTerm t ;; ret false) (performs sh (Jump target s')) sh1 s.
Proof.
  intros Ho Ht Hl Hs Hv Hleave. apply emits_bind. eapply rule_SetPC; [done..|]. intros sh2 s2 G Hpc Hrd. destruct (grows_start _ _ G Ht) as [Ht2 Hl2]. apply emits_jump; [done|congruence| |by rewrite Hleave, Hpc].
  by eapply same_trans.
Qed.
Lemma BR_ok Rn : 0 <= Rn < 32 -> translates (visitor.BR Rn) (fun _ s => Jump (X 64 Rn s) s).
Proof.
  intros Hn sh s Ho Ht. unfold visitor.BR. pose proof (grows_refl sh) as G. emit (rule_X s0 true). value v Hv. destruct (grows_start _ _ G0 Ht). by apply emits_indirect.
Qed.
Lemma RET_ok Rn : 0 <= Rn < 32 -> translates (visitor.RET Rn) (fun _ s => Jump (X 64 Rn s) s).
Proof.
  intros Hn sh s Ho Ht. unfold visitor.RET. pose proof (grows_refl sh) as G. emit (rule_X s0 true). value v Hv. destruct (grows_start _ _ G0 Ht). by apply emits_indirect.
Qed.
Lemma BLR_ok Rn : 0 <= Rn < 32 -> translates (visitor.BLR Rn) (fun pc s => Jump (X 64 Rn s) (set_link pc s)).
Proof.
  intros Hn sh s Ho Ht. unfold visitor.BLR. pose proof (grows_refl sh) as G. emit (rule_X s0 true). value v Hv. apply emits_bind, rule_link; [done|]. intros sh2 s2 G2 Hs.
  destruct (grows_start _ _ G0 Ht) as [Ht1 Hl1]. destruct (grows_start _ _ G2 Ht1) as [Ht2 Hl2]. rewrite Hl1 in Hs. apply emits_indirect; [by eapply open_grows|done|congruence|done|by eapply holds_grows|done].
Qed.
(** On a bit. *)
Lemma emits_check sh (nz : bool) off c s' sh1 s : LocationDescriptor.valid (sh_loc sh) -> sh_term sh1 = Invalid -> sh_loc sh1 = sh_loc sh -> check_bit s = c -> same_guest s s' -> let l := sh_loc sh1 in
  let taken := visitor.LinkTo (LocationDescriptor.SetPC l (u64 (LocationDescriptor.PC l + off))) in let next := visitor.LinkTo (LocationDescriptor.AdvancePC l 4) in
  emits (ir.SetTerm (if nz then CheckBit taken next else CheckBit next taken) ;; ret false) (performs sh (branch_if (Bool.eqb nz c) (LocationDescriptor.PC (sh_loc sh)) off s')) sh1 s.
Proof.
  intros Hl Ht Hl1 Hc Hs l. unfold l. rewrite Hl1. apply emits_jump; [done..|]. destruct nz; cbn [leave]; rewrite Hc; destruct c; cbn [Bool.eqb]; first [by apply leave_target|by apply leave_next].
Qed.
Lemma rule_IsZero sf a x (Q : Value -> Shadow -> St -> Prop) sh s : sh_open sh = true -> holds sh a (ty sf) x -> yields sh Ty.U1 (Z.b2z (x =? 0)) Q s -> emits (ir.IsZero a) Q sh s.
Proof. intros Ho Ha HQ. eapply rule_by_width; [done|]. eapply emits_IsZero; [done| |exact Ha|exact HQ]. destruct sf; [by right|by left]. Qed.
Lemma compare_branch_ok (nz sf : bool) imm19 Rt : in_range 19 imm19 -> 0 <= Rt < 32 ->
  translates ((if nz then visitor.CBNZ else visitor.CBZ) sf imm19 Rt) (fun pc s => branch_if (Bool.eqb nz (negb (X (width_bits sf) Rt s =? 0))) pc (offset 19 imm19) s).
Proof.
  intros Hi Hn sh s Ho Ht. apply emits_valid. intros Hl. pose proof (grows_refl sh) as G. set (x := X (width_bits sf) Rt s).
  replace (Bool.eqb nz (negb (x =? 0))) with (Bool.eqb (negb nz) (negb (Z.b2z (x =? 0) =? 0))) by (by destruct nz, (x =? 0)). destruct nz; (apply emits_bind, rule_branch_offset; [lia|done|]);
    emit rule_X; value v Hv; emit rule_IsZero; value z Hz; destruct (grows_start _ _ G Ht) as [Ht1 Hl1]; (emit rule_SetCheckBit); intros sh2 s2 G2 Hb Hs; destruct (grows_start _ _ G2 Ht1) as [Ht2 Hl2];
    apply emits_bind, rule_branch_locations; [apply (emits_check sh false)|apply (emits_check sh true)]; (done || congruence).
Qed.
Lemma rule_TestBit sf a x n (Q : Value -> Shadow -> St -> Prop) sh s : sh_open sh = true -> holds sh a (ty sf) x -> 0 <= n < width_bits sf -> yields sh Ty.U1 (Z.b2z (Z.testbit x n)) Q s -> emits (ir.TestBit a (ir.Imm8 n)) Q sh s.
Proof.
  intros Ho Ha Hn HQ. pose proof (ty_range _ _ _ _ Ha) as Rx. pose proof (grows_refl sh) as G. unfold ir.TestBit, ir.IndeterminateExtendToLong. apply emits_bind. eapply rule_is_32; [done|].
  assert (Hop : operation Op.TestBit [Ty.U64; Ty.U8] Ty.U1) by (split; vm_compute; reflexivity).
  assert (Hbit : forall sh1 v, grows sh sh1 -> sh_open sh1 = true -> holds sh1 v Ty.U64 x -> emits (ir.Inst Op.TestBit [v; ir.Imm8 n]) Q sh1 s).
  { intros sh1 v G1 Ho1 Hv. eapply (rule_operation s0 _ _ _ _ [x; n]); [exact Hop|done|split; [done|split; [|done]]; apply imm_holds; [done|]; unfold tv_ok, in_range; simpl; destruct sf; simpl in Hn; lia|reflexivity|].
    intros v' sh' G' Hv' _. apply HQ; [by eapply grows_trans|]. cbn [zip nth snd] in Hv'. rewrite Z.mod_small in Hv' by (destruct sf; simpl in Hn; lia). exact Hv'. }
  destruct sf; cbn [negb]; [by apply Hbit|]. apply emits_bind. eapply (rule_ZeroExtendToLong s0 32); [done..|]. value v Hv. apply Hbit; [done|done|]. rewrite wrap_small in Hv; [done|]. by apply (range_64 32).
Qed.
Lemma test_branch_ok (nz : bool) b5 b40 imm14 Rt : in_range 1 b5 -> in_range 5 b40 -> in_range 14 imm14 -> 0 <= Rt < 32 ->
  translates ((if nz then visitor.TBNZ else visitor.TBZ) b5 b40 imm14 Rt) (fun pc s => branch_if (Bool.eqb nz (Z.testbit (X 64 Rt s) (32 * b5 + b40))) pc (offset 14 imm14) s).
Proof.
  intros H5 H40 Hi Hn sh s Ho Ht. apply emits_valid. intros Hl. pose proof (grows_refl sh) as G. set (sf := b5 =? 1). unfold in_range in H5, H40. change (2 ^ 1) with 2 in H5. change (2 ^ 5) with 32 in H40.
  assert (Hb : 0 <= 32 * b5 + b40 < width_bits sf) by (unfold sf; destruct (Z.eqb_spec b5 1); simpl; lia).
  assert (Hbit : Z.testbit (X 64 Rt s) (32 * b5 + b40) = Z.testbit (X (width_bits sf) Rt s) (32 * b5 + b40)).
  { unfold X. destruct (Rt =? 31); [done|]. rewrite !bit.testbit_wrap by (lia || (by destruct sf)). rewrite !(proj2 (Z.ltb_lt _ _)); [done|lia|destruct sf; simpl in *; lia]. }
  assert (Hcat : concatenate [(1, b5); (5, b40)] = Ret (6, 32 * b5 + b40)).
  { destruct (concatenate_value [(1, b5); (5, b40)]) as [E _]; [apply Forall_cons_2; [simpl; unfold in_range; lia|apply Forall_cons_2; [simpl; unfold in_range; lia|apply Forall_nil_2]]|simpl; lia|]. rewrite E. cbn [concatenated]. f_equal. f_equal. lia. }
  assert (Hsize : (if b5 =? 1 then 64 else 32) = visitor.datasize sf) by (unfold sf; by destruct (b5 =? 1)).
  replace (Z.testbit (X 64 Rt s) (32 * b5 + b40)) with (negb (Z.b2z (Z.testbit (X (width_bits sf) Rt s) (32 * b5 + b40)) =? 0)) by (rewrite Hbit; by destruct (Z.testbit (X (width_bits sf) Rt s) _)).
  destruct nz; apply emits_bind; unfold visitor.test_bit; rewrite Hsize; (apply emits_bind; eapply emits_lift; [exact Hcat|]; cbn [snd]); (apply emits_bind, rule_branch_offset; [lia|done|]);
    emit rule_X; value v Hv; emit rule_TestBit; value z Hz; destruct (grows_start _ _ G Ht) as [Ht1 Hl1]; (emit rule_SetCheckBit); intros sh2 s2 G2 Hb2 Hs; destruct (grows_start _ _ G2 Ht1) as [Ht2 Hl2];
    apply rule_branch_locations; [apply (emits_check sh true)|apply (emits_check sh false)]; (done || congruence).
Qed.
(** Exceptions, calls, hints. *)
Lemma BRK_ok imm16 : translates (visitor.BRK imm16) (fun _ => Raise 8).
Proof. apply RaiseException_ok. by split. Qed.
Lemma SVC_ok imm16 : in_range 16 imm16 -> translates (visitor.SVC imm16) (fun _ => Supervisor imm16).
Proof.
  intros Hi sh s Ho Ht. unfold visitor.SVC. apply emits_valid. intros Hl. apply emits_bind, emits_loc. apply emits_bind, rule_PushRSB; [done|by apply hash_range, AdvancePC_valid|]. intros sh1 s1 G1 Hs1.
  destruct (grows_start _ _ G1 Ht) as [Ht1 Hl1]. pose proof (open_grows _ _ G1 Ho) as Ho1. apply emits_bind. eapply rule_SetPC; [done|apply pc_imm_holds, wrap_range; lia|]. intros sh2 s2 G2 Hpc Hs2.
  destruct (grows_start _ _ G2 Ht1) as [Ht2 Hl2]. pose proof (open_grows _ _ G2 Ho1) as Ho2. apply emits_bind. unfold ir.CallSupervisor.
  eapply (rule_escape s0 _ _ [imm16]); try done; [split; [|done]; apply imm_holds; [done|]; unfold tv_ok, in_range in *; simpl in *; lia|]. intros sh3 Hl3 Ht3.
  apply emits_bind, emits_SetTerm; [congruence|]. apply emits_ret. split_and!; [done|simpl; congruence|]. exists s2. split; [by eapply same_trans|done].
Qed.
Lemma NOP_ok : translates visitor.NOP (fun _ => Next).
Proof. intros sh s _ _. by apply emits_done. Qed.
Lemma hint_ok options e : in_range 64 e -> translates (visitor.hint options e) (fun _ => if hook_hint_instructions options then Raise e else Next).
Proof. intros He. unfold visitor.hint. destruct (hook_hint_instructions options); [by apply RaiseException_ok|by apply NOP_ok]. Qed.
End Branches.
