(* ===== verification/A64CorrectMemory.v ===== *)
(** The translation of loads and stores of one register is correct: rules for the accesses
    of the translator to memory and to vectors, and the instructions. *)
From stdpp Require Import list.
From S2P Require Import Prelude Bits IrOpcodes A64Imm Ir A64Jit IrSem IrWf IrExec IrArith GetSet GetSetSem GetSetSound IrEmitter EmitLogic A64Spec A64Visitor A64LoadStore A64Rules A64Correct A64CorrectData A64CorrectBranch.
Import Op(Opcode).
Local Open Scope Z_scope.

(** ** Sizes *)
Ltac size_cases Hw := unfold sizes, lane_sizes in Hw; rewrite !elem_of_cons in Hw; repeat (destruct Hw as [->|Hw]); [..|by apply not_elem_of_nil in Hw].
Lemma lane_size w : w ∈ lane_sizes -> w ∈ sizes.
Proof. unfold sizes, lane_sizes. set_solver. Qed.
Lemma scale_size k : 0 <= k <= 4 -> size_bits k ∈ sizes.
Proof. intros Hk. assert (k = 0 \/ k = 1 \/ k = 2 \/ k = 3 \/ k = 4) as [->|[->|[->|[-> | ->]]]] by lia; unfold sizes; set_solver. Qed.
Lemma scale_lane k : 0 <= k < 4 -> size_bits k ∈ lane_sizes.
Proof. intros Hk. assert (k = 0 \/ k = 1 \/ k = 2 \/ k = 3) as [->|[->|[-> | ->]]] by lia; unfold lane_sizes; set_solver. Qed.
Lemma shiftl_size k : 0 <= k -> Z.shiftl 8 k = size_bits k.
Proof. intros Hk. by rewrite Z.shiftl_mul_pow2. Qed.
Lemma uint_width w : w ∈ sizes -> width (uint w) = Some w.
Proof. intros Hw. by size_cases Hw. Qed.
Lemma uint_range sh v w z : w ∈ sizes -> holds sh v (uint w) z -> in_range w z.
Proof. intros Hw Hv. apply holds_range in Hv. unfold tv_ok in Hv. cbn [fst snd] in Hv. by rewrite uint_width in Hv. Qed.
Lemma imm_uint sh n : 0 <= n < 256 -> holds sh (ir.Imm8 n) Ty.U8 n.
Proof. intros Hn. by apply imm_holds. Qed.
Lemma range_48 sh n : holds sh (Imm Ty.AccType n) Ty.AccType n.
Proof. by apply imm_holds. Qed.

Section MemoryRules.
Context {St : Type} `{A64Flow St} (s0 : St).
Abbreviation emits := (emits s0).
Implicit Types (Q : Value -> Shadow -> St -> Prop) (sh : Shadow) (s : St).

(** ** Memory *)
Lemma emits_location Q sh s : (forall l, in_range 64 l -> Q (ir.Imm64 l) sh s) -> emits ir.ImmCurrentLocationDescriptor Q sh s.
Proof. intros HQ. apply emits_valid. intros Hl. apply emits_bind, emits_loc, emits_ret, HQ. by apply hash_range. Qed.
(** An operation on memory gives a value, or none, and leaves a state. *)
Definition leaves_value sh (t : Ty.t) (z : Z) Q (s : St) : Prop := forall v sh', grows sh sh' -> (valued t = true -> holds sh' v t z) -> Q v sh' s.
Lemma rule_memory_read o w a addr acc Q sh s z s' : plain_op o = true -> o <> Op.Void -> Op.info o = (uint w, [Ty.U64; Ty.U64; Ty.AccType]) -> (forall l, pure o l = None) -> w ∈ sizes ->
  (forall l, sem o [(Ty.U64, l); (Ty.U64, a); (Ty.AccType, acc)] s = (z, s')) -> sh_open sh = true -> holds sh addr Ty.U64 a -> yields sh (uint w) z Q s' -> emits (ir.memory_read o addr acc) Q sh s.
Proof.
  intros Hp Hvd Hi Hpu Hw Hsem Ho Ha HQ. apply emits_bind, emits_location. intros l Hl.
  eapply (emits_sem s0 _ _ [l; a; acc] _ s'); [done|done|done|rewrite Hi; split_and!; try done; by apply pc_imm_holds|by rewrite Hpu|by rewrite Hi; apply Hsem|].
  intros v sh' G Hv. apply HQ; [done|]. unfold GetTypeOf in Hv. rewrite Hi in Hv. apply Hv. by size_cases Hw.
Qed.
Lemma rule_memory_write o w t a addr x v acc Q sh s z s' : plain_op o = true -> o <> Op.Void -> Op.info o = (t, [Ty.U64; Ty.U64; uint w; Ty.AccType]) -> (forall l, pure o l = None) ->
  (forall l, sem o [(Ty.U64, l); (Ty.U64, a); (uint w, x); (Ty.AccType, acc)] s = (z l, s')) -> sh_open sh = true -> holds sh addr Ty.U64 a -> holds sh v (uint w) x ->
  (forall l, leaves_value sh t (z l) Q s') -> emits (ir.memory_write o addr v acc) Q sh s.
Proof.
  intros Hp Hvd Hi Hpu Hsem Ho Ha Hv HQ. apply emits_bind, emits_location. intros l Hl.
  eapply (emits_sem s0 _ _ [l; a; x; acc] _ s'); [done|done|done|rewrite Hi; split_and!; try done; by apply pc_imm_holds|by rewrite Hpu|by rewrite Hi; apply Hsem|].
  intros v' sh' G Hv'. unfold GetTypeOf in Hv'. rewrite Hi in Hv'. by apply (HQ l).
Qed.
Ltac memory_op := try done; try (vm_compute; reflexivity).
Lemma rule_Mem w a addr acc Q sh s : w ∈ sizes -> sh_open sh = true -> holds sh addr Ty.U64 a -> yields sh (uint w) (Mem w a s) Q s -> emits (loadstore.Mem addr (w / 8) acc) Q sh s.
Proof.
  intros Hw Ho Ha HQ. assert (Hsem := fun l => sem_read_memory w l a acc s Hw). assert (E : loadstore.Mem addr (w / 8) acc = ir.memory_read (read_op w) addr acc) by by size_cases Hw. rewrite E.
  eapply (rule_memory_read _ w); [first [exact Hw|size_cases Hw; memory_op]..|exact Hsem|done|done|exact HQ].
Qed.
Lemma rule_set_Mem w a addr x v acc (Q : unit -> Shadow -> St -> Prop) sh s : w ∈ sizes -> sh_open sh = true -> holds sh addr Ty.U64 a -> holds sh v (uint w) x ->
  (forall sh', grows sh sh' -> Q tt sh' (set_Mem w a x s)) -> emits (loadstore.set_Mem addr (w / 8) acc v) Q sh s.
Proof.
  intros Hw Ho Ha Hv HQ. assert (E : loadstore.set_Mem addr (w / 8) acc v = bind (ir.memory_write (write_op w) addr v acc) (fun _ => ret tt)) by by size_cases Hw. rewrite E. apply emits_bind.
  eapply (rule_memory_write _ w Ty.Void a addr x v acc _ sh s (fun l => fst (sem (write_op w) [(Ty.U64, l); (Ty.U64, a); (uint w, x); (Ty.AccType, acc)] s)) (set_Mem w a x s)); [first [exact Hw|size_cases Hw; memory_op]..| |done|done|done|].
  - intros l. unfold set_Mem. rewrite <- (sem_write_memory w l a x acc s Hw). apply surjective_pairing.
  - intros l v' sh' G _. by apply emits_ret, HQ.
Qed.
Lemma rule_ExclusiveMem w a addr acc Q sh s : w ∈ sizes -> sh_open sh = true -> holds sh addr Ty.U64 a -> yields sh (uint w) (fst (xread w a (memory s))) Q (set_memory (snd (xread w a (memory s))) s) ->
  emits (loadstore.ExclusiveMem addr (w / 8) acc) Q sh s.
Proof.
  intros Hw Ho Ha HQ. assert (Hsem := fun l => sem_exclusive_read w l a acc s Hw). assert (E : loadstore.ExclusiveMem addr (w / 8) acc = ir.memory_read (xread_op w) addr acc) by by size_cases Hw. rewrite E.
  eapply (rule_memory_read _ w); [first [exact Hw|size_cases Hw; memory_op]..|exact Hsem|done|done|exact HQ].
Qed.
Lemma rule_set_ExclusiveMem w a addr x v acc Q sh s : w ∈ sizes -> sh_open sh = true -> holds sh addr Ty.U64 a -> holds sh v (uint w) x ->
  yields sh Ty.U32 (fst (xwrite w a x (memory s))) Q (set_memory (snd (xwrite w a x (memory s))) s) -> emits (loadstore.set_ExclusiveMem addr (w / 8) acc v) Q sh s.
Proof.
  intros Hw Ho Ha Hv HQ. assert (Hsem := fun l => sem_exclusive_write w l a x acc s Hw). assert (E : loadstore.set_ExclusiveMem addr (w / 8) acc v = ir.memory_write (xwrite_op w) addr v acc) by by size_cases Hw. rewrite E.
  eapply (rule_memory_write _ w Ty.U32 a addr x v acc _ sh s (fun _ => fst (xwrite w a x (memory s)))); [first [exact Hw|size_cases Hw; memory_op]..|exact Hsem|done|done|done|]. intros _ v' sh' G Hv'. by apply HQ; [|apply Hv'].
Qed.

(** ** General registers of any size *)
Definition reg_sf (regsize : Z) : bool := regsize =? 64.
Lemma X_cut w n s : 0 < w <= 32 -> wrap w (X 32 n s) = X w n s.
Proof. intros Hw. unfold X. destruct (n =? 31); [done|]. by rewrite wrap_wrap_le by lia. Qed.
Lemma rule_X_size w n Q sh s : w ∈ lane_sizes -> sh_open sh = true -> 0 <= n < 32 -> yields sh (uint w) (X w n s) Q s -> emits (visitor.X w n) Q sh s.
Proof.
  intros Hw Ho Hn HQ. pose proof (grows_refl sh) as G. size_cases Hw.
  - apply emits_bind. change (ir.GetW n) with (visitor.X (visitor.datasize false) n). eapply rule_X; [done..|]. value v Hv. eapply (rule_LeastSignificantByte s0 false); [done|exact Hv|]. rewrite X_cut by lia. by eapply yields_grows.
  - apply emits_bind. change (ir.GetW n) with (visitor.X (visitor.datasize false) n). eapply rule_X; [done..|]. value v Hv. eapply (rule_LeastSignificantHalf s0 false); [done|exact Hv|]. rewrite X_cut by lia. by eapply yields_grows.
  - by apply (rule_X s0 false).
  - by apply (rule_X s0 true).
Qed.
(** A value extended to the size of a register. *)
Definition extended_to (regsize w : Z) (signed : bool) (z : Z) : Z := wrap regsize (if signed then swrap w z else z).
Lemma rule_extend (signed : bool) w regsize v z Q sh s : w ∈ lane_sizes -> regsize = 64 \/ regsize = 32 /\ w <= 32 -> (signed = true -> w < regsize) -> sh_open sh = true -> holds sh v (uint w) z ->
  yields sh (ty (reg_sf regsize)) (extended_to regsize w signed z) Q s -> emits (if signed then loadstore.SignExtend v regsize else loadstore.ZeroExtend v regsize) Q sh s.
Proof.
  intros Hw Hr Hsg Ho Hv HQ. pose proof (uint_range _ _ _ _ (lane_size _ Hw) Hv) as Rz. unfold extended_to in HQ. destruct Hr as [-> | [-> Hle]]; destruct signed; cbn [Z.eqb Pos.eqb] in *; size_cases Hw; try (specialize (Hsg eq_refl)); try lia.
  all: try (apply emits_bind; eapply emits_type_of; [exact Hv|]; apply emits_ret, HQ; [apply grows_refl|]; by rewrite wrap_small).
  all: first [widen 8|widen 16|widen 32]; exact HQ.
Qed.
Lemma rule_set_X_size regsize n v z (Q : unit -> Shadow -> St -> Prop) sh s : regsize = 64 \/ regsize = 32 -> sh_open sh = true -> 0 <= n < 32 -> holds sh v (ty (reg_sf regsize)) (wrap regsize z) ->
  (forall sh', grows sh sh' -> Q tt sh' (set_X regsize n z s)) -> emits (visitor.set_X regsize n v) Q sh s.
Proof.
  intros Hr Ho Hn Hv HQ. assert (E : set_X regsize n z s = set_X regsize n (wrap regsize z) s) by (apply set_X_eq; by rewrite wrap_wrap by lia). rewrite E in HQ.
  destruct Hr as [-> | ->]; [by eapply (rule_set_X s0 true)|by eapply (rule_set_X s0 false)].
Qed.
(** The operation with memory, as the translator decodes it. *)
Definition kind_of (k : transfer) : MemOp * bool := match k with StoreIt => (STORE, false) | LoadIt signed _ => (LOAD, signed) | Prefetch => (PREFETCH, false) end.
Definition kind_fits (k : transfer) (w : Z) : Prop :=
  w ∈ lane_sizes /\ match k with LoadIt signed regsize => (regsize = 64 \/ regsize = 32 /\ w <= 32) /\ (signed = true -> w < regsize) | _ => True end.
Lemma rule_transfer k w regsize acc addr a t (Q : unit -> Shadow -> St -> Prop) sh s : kind_fits k w -> match k with LoadIt _ r => r = regsize | _ => True end -> sh_open sh = true -> holds sh addr Ty.U64 a -> 0 <= t < 32 ->
  (forall sh', grows sh sh' -> Q tt sh' (run_transfer k w a t s)) -> emits (loadstore.transfer (fst (kind_of k)) (snd (kind_of k)) regsize w acc addr t) Q sh s.
Proof.
  intros [Hw Hk] Hr Ho Ha Ht HQ. pose proof (grows_refl sh) as G. pose proof (lane_size _ Hw) as Hw'. destruct k as [|signed r|]; cbn [kind_of fst snd loadstore.transfer run_transfer] in *.
  - emit rule_X_size. value v Hv. eapply rule_set_Mem; [done..|]. state. by apply HQ.
  - subst r. destruct Hk as [Hr Hsg]. emit rule_Mem. value v Hv. emit rule_extend. value v2 Hv2. eapply rule_set_X_size; [tauto|done|done|exact Hv2|]. state. by apply HQ.
  - apply emits_ret, HQ, G.
Qed.

(** ** Addresses *)
Lemma rule_Add64 a b x y Q sh s : sh_open sh = true -> holds sh a Ty.U64 x -> holds sh b Ty.U64 y -> yields sh Ty.U64 (u64 (x + y)) Q s -> emits (ir.Add a b) Q sh s.
Proof. intros Ho Ha Hb HQ. eapply (rule_Add s0 true); [done..|]. intros v sh' G Hv _. rewrite fst_add in Hv. by apply HQ. Qed.
Lemma rule_add_if (c : bool) a x off Q sh s : in_range 64 off -> sh_open sh = true -> holds sh a Ty.U64 x -> yields sh Ty.U64 (if c then u64 (x + off) else x) Q s -> emits (loadstore.add_if c a off) Q sh s.
Proof. intros Hr Ho Ha HQ. destruct c; [|by apply emits_ret, HQ]. eapply rule_Add64; [done|exact Ha|by apply pc_imm_holds|done]. Qed.
Lemma set_X_or_SP_eq n v v' s : wrap 64 v = wrap 64 v' -> set_X_or_SP 64 n v s = set_X_or_SP 64 n v' s.
Proof. unfold set_X_or_SP, set_SP, set_X. by intros ->. Qed.
Lemma X_or_SP_range n s : in_range 64 (X_or_SP 64 n s).
Proof. unfold X_or_SP, SP, X. destruct (n =? 31); by apply wrap_range. Qed.
(** The address, once it is indexed, and the base that is written back. *)
Lemma rule_base n Q sh s : sh_open sh = true -> 0 <= n < 32 -> yields sh Ty.U64 (X_or_SP 64 n s) Q s -> emits (visitor.X_or_SP 64 n) Q sh s.
Proof. intros Ho Hn HQ. by apply (rule_X_or_SP s0 true). Qed.
Lemma rule_indexed postindex off n off' a Q sh s : in_range 64 off -> wrap 64 off' = off -> sh_open sh = true -> holds sh a Ty.U64 (X_or_SP 64 n s) -> yields sh Ty.U64 (indexed postindex off' n s) Q s ->
  emits (loadstore.add_if (negb postindex) a off) Q sh s.
Proof.
  intros Hr Ho' Ho Ha HQ. eapply rule_add_if; [done..|]. unfold indexed in HQ. destruct postindex; cbn [negb].
  - rewrite Z.add_0_r in HQ. unfold u64 in HQ. by rewrite wrap_small in HQ by apply X_or_SP_range.
  - unfold u64 in *. rewrite <- Ho'. by rewrite wrap_add_r.
Qed.
Lemma rule_write_back wback postindex off n off' a s1 (Q : unit -> Shadow -> St -> Prop) sh s : 0 <= n < 32 -> in_range 64 off -> wrap 64 off' = off -> sh_open sh = true -> holds sh a Ty.U64 (indexed postindex off' n s1) ->
  (forall sh', grows sh sh' -> Q tt sh' (update_base wback (X_or_SP 64 n s1) off' n s)) -> emits (loadstore.write_back wback postindex a off n) Q sh s.
Proof.
  intros Hn Hr Ho' Ho Ha HQ. unfold loadstore.write_back, update_base in *. destruct wback; [|apply emits_ret, HQ, grows_refl]. pose proof (grows_refl sh) as G. emit rule_add_if. value v Hv.
  eapply (rule_set_X_or_SP s0 true); [done|done|exact Hv|]. intros sh' G'. erewrite set_X_or_SP_eq; [by apply HQ; eapply grows_trans|]. unfold indexed, u64. destruct postindex.
  - rewrite wrap_wrap by lia. rewrite Z.add_0_r, wrap_add_l, <- Ho'. by rewrite wrap_add_r.
  - by rewrite wrap_wrap by lia.
Qed.

(** ** Vectors *)
Lemma V_range n s : in_range 128 (V n s).
Proof. pose proof (sem_ok Op.A64GetQ [(Ty.A64Vec, n)] s) as Hok. by rewrite (sem_read Op.A64GetQ GetSet.Q (VecLoc n) [(Ty.A64Vec, n)] s) in Hok. Qed.
Lemma rule_GetQ n Q sh s : sh_open sh = true -> 0 <= n < 32 -> yields sh Ty.U128 (V n s) Q s -> emits (ir.GetQ n) Q sh s.
Proof. intros Ho Hn HQ. eapply (emits_read s0 Ty.A64Vec _ GetSet.Q _ (VecLoc n)); [by right|done|done|right; by exists n|done|by left|done|simpl; lia|]. intros v sh' G Hv. by apply HQ. Qed.
Lemma rule_SetQ n v z (Q : unit -> Shadow -> St -> Prop) sh s : sh_open sh = true -> 0 <= n < 32 -> holds sh v Ty.U128 z -> (forall sh', grows sh sh' -> Q tt sh' (set_V n z s)) -> emits (ir.SetQ n v) Q sh s.
Proof. intros Ho Hn Hv HQ. apply (emits_write s0 Ty.A64Vec _ GetSet.Q [Imm Ty.A64Vec n] v z (VecLoc n)); try done; [by right|right; by exists n]. Qed.
Lemma rule_VectorGetElement w i v x Q sh s : w ∈ lane_sizes -> 0 <= i -> w * i < 128 -> sh_open sh = true -> holds sh v Ty.U128 x -> yields sh (uint w) (Elem w i x) Q s -> emits (ir.VectorGetElement w v i) Q sh s.
Proof.
  intros Hw Hi Hlt Ho Hv HQ. assert (Hi8 : 0 <= i < 256) by (size_cases Hw; lia). apply emits_bind, emits_assert; [by apply Z.ltb_lt|]. pose proof (sem_get_element w x i s Hw) as Hsem.
  assert (Hu : u8 i = i) by (by apply wrap_small). rewrite Hu. match goal with |- EmitLogic.emits _ ?c _ _ _ => assert (E : c = ir.Inst (get_element_op w) [v; ir.Imm8 i]) by by size_cases Hw end. rewrite E.
  assert (Hop : plain_op (get_element_op w) = true /\ get_element_op w <> Op.Void /\ Op.info (get_element_op w) = (uint w, [Ty.U128; Ty.U8]) /\ forall l, pure (get_element_op w) l = None) by by size_cases Hw. destruct Hop as (P1 & P2 & P3 & P4).
  eapply (emits_sem s0 _ _ [x; i] _ s); [done|done|done|rewrite P3; split_and!; try done; by apply imm_uint|by rewrite P4|by rewrite P3|]. intros v' sh' G Hv'. apply HQ; [done|]. unfold GetTypeOf in Hv'. rewrite P3 in Hv'. apply Hv'. by size_cases Hw.
Qed.
Lemma rule_ZeroExtendToQuad w v z Q sh s : w ∈ lane_sizes -> sh_open sh = true -> holds sh v (uint w) z -> yields sh Ty.U128 z Q s -> emits (ir.ZeroExtendToQuad v) Q sh s.
Proof.
  intros Hw Ho Hv HQ. pose proof (uint_range _ _ _ _ (lane_size _ Hw) Hv) as Rz. pose proof (grows_refl sh) as G. apply emits_bind. change (ir.ZeroExtendToLong v) with (if false then loadstore.SignExtend v 64 else loadstore.ZeroExtend v 64).
  eapply rule_extend; [exact Hw|by left|done|done|exact Hv|]. value v2 Hv2. unfold extended_to in Hv2. rewrite wrap_small in Hv2 by (eapply (range_64 w); [|done]; size_cases Hw; lia).
  eapply (rule_convert s0 _ Ty.U64 Ty.U128); [split; vm_compute; reflexivity|reflexivity|done|exact Hv2|]. cbn [zip_with nth snd]. rewrite wrap_small; [by eapply yields_grows|]. apply holds_range in Hv2. unfold tv_ok, in_range in *. simpl in *. lia.
Qed.
End MemoryRules.

Definition regsize_of (k : transfer) : Z := match k with LoadIt _ r => r | _ => 0 end.
(** Both decode an instruction alike. *)
Ltac few n H := let E := fresh in assert (E : n = 0 \/ n = 1 \/ n = 2 \/ n = 3) by (unfold in_range in *; lia); clear H; destruct E as [-> | [-> | [-> | ->]]].
Lemma immediate_decode_spec size opc k : 0 <= size < 4 -> 0 <= opc < 4 -> decode_transfer size opc = Some k ->
  exists r, loadstore.immediate_decode size opc = Ret (kind_of k, r) /\ kind_fits k (size_bits size) /\ match k with LoadIt _ r' => r' = r | _ => True end.
Proof.
  intros Hs Ho. few size Hs; few opc Ho; vm_compute; intros E; try discriminate E; injection E as <-; (eexists; split; [reflexivity|]); (split; [|done]); (split; [set_solver|]); try done; (split; [first [by left|right; split; [reflexivity|discriminate]]|discriminate || (intros _; reflexivity)]).
Qed.
Lemma register_decode_spec size opc_1 opc_0 : 0 <= size < 4 -> 0 <= opc_1 < 2 ->
  match decode_transfer size (2 * opc_1 + Z.b2z opc_0) with
  | None => loadstore.register_decode size opc_1 (Z.b2z opc_0) = None
  | Some k => exists r, loadstore.register_decode size opc_1 (Z.b2z opc_0) = Some (kind_of k, r) /\ kind_fits k (size_bits size) /\ match k with LoadIt _ r' => r' = r | _ => True end
  end.
Proof.
  intros Hs Ho. assert (opc_1 = 0 \/ opc_1 = 1) as [-> | ->] by lia; few size Hs; destruct opc_0; vm_compute; try done; (eexists; split; [reflexivity|]); (split; [|done]); (split; [set_solver|]); try done; (split; [first [by left|right; split; [reflexivity|discriminate]]|discriminate || (intros _; reflexivity)]).
Qed.
Lemma sign_offset_spec n imm : 0 < n <= 64 -> in_range 64 (loadstore.sign_offset n imm) /\ wrap 64 (swrap n imm) = loadstore.sign_offset n imm.
Proof. intros Hn. unfold loadstore.sign_offset. rewrite bit.sign_extend_eq by lia. split; [by apply wrap_range|done]. Qed.

Section MemoryCorrect.
Context {St : Type} `{A64Flow St} (s0 : St).
Abbreviation emits := (emits s0).
Abbreviation translates := (translates s0).
Implicit Types (sh : Shadow) (s : St).
Lemma UnpredictableInstruction_ok : translates visitor.UnpredictableInstruction (fun _ => UNPREDICTABLE).
Proof. apply RaiseException_ok. by split. Qed.

(** *** One register *)
Lemma LoadStoreRegisterImmediate_ok wback postindex size off off' opc Rn Rt : 0 <= size < 4 -> 0 <= opc < 4 -> decode_transfer size opc <> None -> in_range 64 off -> wrap 64 off' = off -> 0 <= Rn < 32 -> 0 <= Rt < 32 ->
  translates (loadstore.LoadStoreRegisterImmediate wback postindex size off size opc Rn Rt) (fun _ => load_store wback postindex size opc off' Rn Rt).
Proof.
  intros Hs Hop Hd Hr Ho' Hn Ht sh s Ho Hterm. unfold loadstore.LoadStoreRegisterImmediate, load_store. destruct (decode_transfer size opc) as [k|] eqn:E; [|done]. destruct (immediate_decode_spec size opc k Hs Hop E) as (r & Hdec & Hfit & Hreg).
  apply emits_bind. eapply emits_lift; [exact Hdec|]. pose proof (grows_refl sh) as G.
  set (clash := wback && (Rn =? Rt) && negb (Rn =? 31)). destruct (kind_of k) as [memop sg] eqn:Ek. assert (Hgo : emits (let! address := visitor.X_or_SP 64 Rn in let! address := loadstore.add_if (negb postindex) address off in loadstore.transfer memop sg r (Z.shiftl 8 size) AccType.NORMAL address Rt ;; loadstore.write_back wback postindex address off Rn ;; ret true)
    (performs sh (Next (update_base wback (X_or_SP 64 Rn s) off' Rn (run_transfer k (size_bits size) (indexed postindex off' Rn s) Rt s)))) sh s).
  { rewrite shiftl_size by lia. emit rule_base. value v Hv. emit rule_indexed. value a Ha. apply emits_bind. assert (memop = fst (kind_of k)) as -> by by rewrite Ek. assert (sg = snd (kind_of k)) as -> by by rewrite Ek.
    eapply rule_transfer; [done|by destruct k|done|exact Ha|done|]. state. emit rule_write_back. state. by apply emits_done. }
  destruct k as [|sgn rs|]; injection Ek as <- <-; cbn [loadstore.is_load loadstore.is_store andb]; fold clash.
  - destruct clash eqn:Ec; [by apply UnpredictableInstruction_ok|]. exact Hgo.
  - destruct clash eqn:Ec; [by apply UnpredictableInstruction_ok|]. exact Hgo.
  - exact Hgo.
Qed.
Lemma STRx_LDRx_imm_1_ok size opc imm9 np Rn Rt : 0 <= size < 4 -> 0 <= opc < 4 -> decode_transfer size opc <> None -> 0 <= Rn < 32 -> 0 <= Rt < 32 ->
  translates (loadstore.STRx_LDRx_imm_1 size opc imm9 np Rn Rt) (fun _ => load_store true (negb np) size opc (swrap 9 imm9) Rn Rt).
Proof. intros. destruct (sign_offset_spec 9 imm9 ltac:(lia)). by apply LoadStoreRegisterImmediate_ok. Qed.
Lemma STURx_LDURx_ok size opc imm9 Rn Rt : 0 <= size < 4 -> 0 <= opc < 4 -> decode_transfer size opc <> None -> 0 <= Rn < 32 -> 0 <= Rt < 32 ->
  translates (loadstore.STURx_LDURx size opc imm9 Rn Rt) (fun _ => load_store false false size opc (swrap 9 imm9) Rn Rt).
Proof. intros. destruct (sign_offset_spec 9 imm9 ltac:(lia)). by apply LoadStoreRegisterImmediate_ok. Qed.
Lemma shiftl_offset imm k : 0 <= k -> in_range 64 (u64 (Z.shiftl imm k)) /\ wrap 64 (imm * 2 ^ k) = u64 (Z.shiftl imm k).
Proof. intros Hk. rewrite Z.shiftl_mul_pow2 by done. split; [by apply wrap_range|done]. Qed.
Lemma STRx_LDRx_imm_2_ok size opc imm12 Rn Rt : 0 <= size < 4 -> 0 <= opc < 4 -> decode_transfer size opc <> None -> 0 <= Rn < 32 -> 0 <= Rt < 32 ->
  translates (loadstore.STRx_LDRx_imm_2 size opc imm12 Rn Rt) (fun _ => load_store false false size opc (imm12 * 2 ^ size) Rn Rt).
Proof. intros. destruct (shiftl_offset imm12 size ltac:(lia)). by apply LoadStoreRegisterImmediate_ok. Qed.
Lemma option_bit option : 0 <= option < 8 -> negb (bit.get_bit 32 1 option) = (option mod 4 <? 2).
Proof. intros Ho. assert (option = 0 \/ option = 1 \/ option = 2 \/ option = 3 \/ option = 4 \/ option = 5 \/ option = 6 \/ option = 7) as Hc by lia. by repeat (destruct Hc as [-> | Hc]); [..|subst]. Qed.
(** The base with a register. *)
Lemma rule_register_address Rm option k Rn (Q : Value -> Shadow -> St -> Prop) sh s : 0 <= Rm < 32 -> 0 <= option < 8 -> 0 <= k <= 4 -> 0 <= Rn < 32 -> sh_open sh = true ->
  yields sh Ty.U64 (u64 (X_or_SP 64 Rn s + extend_value 64 option (X 64 Rm s) k)) Q s ->
  emits (let! offset := visitor.ExtendReg 64 Rm option k in let! address := visitor.X_or_SP 64 Rn in ir.Add address offset) Q sh s.
Proof.
  intros Hm Hop Hk Hn Ho HQ. pose proof (grows_refl sh) as G. apply emits_bind, (rule_ExtendReg s0 true); [done..|]. value v Hv. emit rule_base. value b Hb. eapply rule_Add64; [done|exact Hb|exact Hv|]. by eapply yields_grows.
Qed.
Lemma emits_ext {A} (c c' : M Emitter A) (Q : A -> Shadow -> St -> Prop) sh s : (forall em, c em = c' em) -> emits c Q sh s -> emits c' Q sh s.
Proof. intros E Hc em Hr. rewrite <- E. by apply Hc. Qed.
(** An address is computed, then used. *)
Lemma emits_address {A} Rm option k Rn (f : Value -> M Emitter A) (Q : A -> Shadow -> St -> Prop) sh s : 0 <= Rm < 32 -> 0 <= option < 8 -> 0 <= k <= 4 -> 0 <= Rn < 32 -> sh_open sh = true ->
  yields sh Ty.U64 (u64 (X_or_SP 64 Rn s + extend_value 64 option (X 64 Rm s) k)) (fun v => emits (f v) Q) s ->
  emits (let! offset := visitor.ExtendReg 64 Rm option k in let! address := visitor.X_or_SP 64 Rn in let! address := ir.Add address offset in f address) Q sh s.
Proof.
  intros Hm Hop Hk Hn Ho HQ. eapply emits_ext; [|apply emits_bind, (rule_register_address Rm option k Rn); [done..|exact HQ]]. intros em. rewrite bind_assoc. unfold bind. destruct (visitor.ExtendReg 64 Rm option k em) as [[]]; [|done|done]. by destruct (visitor.X_or_SP 64 Rn _) as [[]].
Qed.
Lemma register_offset_ok load size opc_1 Rm option (S : bool) Rn Rt : 0 <= size < 4 -> 0 <= opc_1 < 2 -> 0 <= Rm < 32 -> 0 <= option < 8 -> 0 <= Rn < 32 -> 0 <= Rt < 32 ->
  translates (loadstore.register_offset (Z.b2z load) size opc_1 Rm option S Rn Rt) (fun _ => load_store_register load size opc_1 Rm option S Rn Rt).
Proof.
  intros Hs Ho1 Hm Hop Hn Ht sh s Ho Hterm. unfold loadstore.register_offset, load_store_register. rewrite option_bit by done. destruct (option mod 4 <? 2); [by apply UnallocatedEncoding_ok|]. unfold loadstore.RegSharedDecodeAndOperation.
  assert (Hshift : (if S then u8 size else 0) = if S then size else 0) by (destruct S; [apply wrap_small; unfold in_range; lia|done]). rewrite Hshift, shiftl_size by lia.
  pose proof (register_decode_spec size opc_1 load Hs Ho1) as Hd. destruct (decode_transfer _ _) as [k|]; [|rewrite Hd; by apply UnallocatedEncoding_ok]. destruct Hd as (r & -> & Hfit & Hreg). destruct (kind_of k) as [memop sg] eqn:Ek.
  pose proof (grows_refl sh) as G. apply emits_address; [done..|destruct S; lia|done|done|]. value a Ha. apply emits_bind. assert (memop = fst (kind_of k)) as -> by by rewrite Ek. assert (sg = snd (kind_of k)) as -> by by rewrite Ek.
  eapply rule_transfer; [done|by destruct k|done|exact Ha|done|]. state. by apply emits_done.
Qed.
(** *** Without privileges, ordered *)
Lemma rule_unprivileged imm9 Rn (Q : Value -> Shadow -> St -> Prop) sh s : sh_open sh = true -> 0 <= Rn < 32 -> yields sh Ty.U64 (u64 (X_or_SP 64 Rn s + swrap 9 imm9)) Q s -> emits (loadstore.unprivileged_address imm9 Rn) Q sh s.
Proof.
  intros Ho Hn HQ. destruct (sign_offset_spec 9 imm9 ltac:(lia)) as [Hr E]. pose proof (grows_refl sh) as G. emit rule_base. value v Hv. eapply rule_Add64; [done|exact Hv|by apply pc_imm_holds|]. rewrite <- E. unfold u64. rewrite wrap_add_r. by eapply yields_grows.
Qed.
Lemma transfer_at_ok k w regsize acc (addr : M Emitter Value) off Rn Rt : kind_fits k w -> match k with LoadIt _ r => r = regsize | _ => True end -> 0 <= Rt < 32 ->
  (forall (Q : Value -> Shadow -> St -> Prop) sh s, sh_open sh = true -> yields sh Ty.U64 (u64 (X_or_SP 64 Rn s + off)) Q s -> emits addr Q sh s) ->
  translates (let! address := addr in loadstore.transfer (fst (kind_of k)) (snd (kind_of k)) regsize w acc address Rt ;; ret true) (fun _ => load_store_at k w off Rn Rt).
Proof.
  intros Hfit Hr Ht Haddr sh s Ho Hterm. pose proof (grows_refl sh) as G. apply emits_bind, Haddr; [done|]. value a Ha. apply emits_bind. eapply rule_transfer; [done|done|done|exact Ha|done|]. state. by apply emits_done.
Qed.
Lemma StoreRegister_ok w imm9 Rn Rt : w ∈ lane_sizes -> 0 <= Rn < 32 -> 0 <= Rt < 32 -> translates (loadstore.StoreRegister w imm9 Rn Rt) (fun _ => load_store_at StoreIt w (swrap 9 imm9) Rn Rt).
Proof.
  intros Hw Hn Ht sh s Ho Hterm. pose proof (lane_size _ Hw). pose proof (grows_refl sh) as G. emit rule_unprivileged. value a Ha. emit rule_X_size. value v Hv. emit rule_set_Mem. state. by apply emits_done.
Qed.
Lemma load_fits w : w ∈ lane_sizes -> kind_fits (LoadIt false (Z.max 32 w)) w.
Proof. intros Hw. split; [done|]. split; [|done]. size_cases Hw; lia. Qed.
Lemma LoadRegister_ok w imm9 Rn Rt : w ∈ lane_sizes -> 0 <= Rn < 32 -> 0 <= Rt < 32 -> translates (loadstore.LoadRegister w imm9 Rn Rt) (fun _ => load_store_at (LoadIt false (Z.max 32 w)) w (swrap 9 imm9) Rn Rt).
Proof.
  intros Hw Hn Ht sh s Ho Hterm. pose proof (lane_size _ Hw). destruct (load_fits w Hw) as [_ [Hr Hsg]]. pose proof (grows_refl sh) as G. emit rule_unprivileged. value a Ha. emit rule_Mem. value v Hv.
  apply emits_bind, (rule_extend s0 false w _ v (Mem w (u64 (X_or_SP 64 Rn s + swrap 9 imm9)) s)); [done..|]. value v2 Hv2. emit rule_set_X_size. state. by apply emits_done.
Qed.
Lemma LoadRegisterSigned_ok size opc k imm9 Rn Rt : 0 <= size < 2 -> 0 <= opc < 4 -> decode_transfer size opc = Some k -> 0 <= Rn < 32 -> 0 <= Rt < 32 ->
  translates (loadstore.LoadRegisterSigned (size_bits size) opc imm9 Rn Rt) (fun _ => load_store_at k (size_bits size) (swrap 9 imm9) Rn Rt).
Proof.
  intros Hs Hop E Hn Ht. destruct (immediate_decode_spec size opc k ltac:(lia) Hop E) as (r & Hdec & Hfit & Hreg). unfold loadstore.LoadRegisterSigned. assert (Hd : loadstore.immediate_decode size opc =
    Ret (if negb (bit.get_bit 32 1 opc) then (if bit.get_bit 32 0 opc then LOAD else STORE, false, 32) else (LOAD, true, if bit.get_bit 32 0 opc then 32 else 64))).
  { assert (size = 0 \/ size = 1) as [-> | ->] by lia; few opc Hop; reflexivity. }
  rewrite Hdec in Hd. injection Hd as <-. destruct (kind_of k) as [memop sg] eqn:Ek. assert (memop = fst (kind_of k)) as -> by by rewrite Ek. assert (sg = snd (kind_of k)) as -> by by rewrite Ek.
  apply transfer_at_ok; [done|by destruct k|done|]. intros Q sh s Ho HQ. by apply rule_unprivileged.
Qed.
Lemma LDTRSW_ok imm9 Rn Rt : 0 <= Rn < 32 -> 0 <= Rt < 32 -> translates (loadstore.LDTRSW imm9 Rn Rt) (fun _ => load_store_at (LoadIt true 64) 32 (swrap 9 imm9) Rn Rt).
Proof.
  intros Hn Ht sh s Ho Hterm. pose proof (grows_refl sh) as G. emit rule_unprivileged. value a Ha. apply emits_bind, (rule_Mem s0 32 (u64 (X_or_SP 64 Rn s + swrap 9 imm9))); [set_solver|done|done|]. value v Hv.
  apply emits_bind; eapply (rule_extend s0 true 32 64 v); [set_solver|by left|lia|done|exact Hv|]. value v2 Hv2. emit rule_set_X_size. state. by apply emits_done.
Qed.
Lemma Ordered_ok (load o0 : bool) size Rn Rt : 0 <= size < 4 -> 0 <= Rn < 32 -> 0 <= Rt < 32 ->
  translates (loadstore.OrderedSharedDecodeAndOperation size load o0 Rn Rt) (fun _ => load_store_at (if load then LoadIt false (if size =? 3 then 64 else 32) else StoreIt) (size_bits size) 0 Rn Rt).
Proof.
  intros Hs Hn Ht. unfold loadstore.OrderedSharedDecodeAndOperation. rewrite shiftl_size by lia. assert (E : (size_bits size =? 64) = (size =? 3)) by (by few size Hs). rewrite E. set (k := if load then _ else StoreIt).
  assert (Hfit : kind_fits k (size_bits size)) by (split; [by apply scale_lane|]; unfold k; destruct load; [|done]; split; [|done]; few size Hs; [right; by vm_compute..|by left]).
  assert ((if load then LOAD else STORE) = fst (kind_of k)) as -> by (by unfold k; destruct load). assert (false = snd (kind_of k)) as -> by (by unfold k; destruct load).
  apply transfer_at_ok; [done|by unfold k; destruct load|done|]. intros Q sh s Ho HQ. apply rule_base; [done|done|]. rewrite Z.add_0_r in HQ. unfold u64 in HQ. by rewrite wrap_small in HQ by apply X_or_SP_range.
Qed.
(** *** Literals *)
Lemma literal_range n imm pc : in_range 64 (u64 (pc + offset n imm)).
Proof. by apply wrap_range. Qed.
Lemma LDR_lit_gen_ok sf imm19 Rt : in_range 19 imm19 -> 0 <= Rt < 32 -> translates (loadstore.LDR_lit_gen sf imm19 Rt) (fun pc => load_literal false (width_bits sf) (width_bits sf) imm19 Rt pc).
Proof.
  intros Hi Ht sh s Ho Hterm. unfold loadstore.LDR_lit_gen, load_literal. apply emits_bind, rule_branch_offset; [lia|done|]. apply emits_bind, emits_PC. pose proof (grows_refl sh) as G. replace (if sf then 8 else 4) with (width_bits sf / 8) by by destruct sf.
  assert (Hw : width_bits sf ∈ sizes) by (destruct sf; set_solver). replace (8 * (width_bits sf / 8)) with (width_bits sf) by by destruct sf. apply emits_bind, (rule_Mem s0 _ (u64 (LocationDescriptor.PC (sh_loc sh) + offset 19 imm19))); [done|done|apply pc_imm_holds, literal_range|]. value v Hv.
  assert (Hv' : holds sh0 v (ty sf) (Mem (width_bits sf) (u64 (LocationDescriptor.PC (sh_loc sh) + offset 19 imm19)) s)) by (by destruct sf). apply emits_bind. change (width_bits sf) with (visitor.datasize sf) at 1. eapply rule_set_X; [done|done|exact Hv'|]. state. by apply emits_done.
Qed.
Lemma LDRSW_lit_ok imm19 Rt : in_range 19 imm19 -> 0 <= Rt < 32 -> translates (loadstore.LDRSW_lit imm19 Rt) (fun pc => load_literal true 32 64 imm19 Rt pc).
Proof.
  intros Hi Ht sh s Ho Hterm. unfold loadstore.LDRSW_lit, load_literal. apply emits_bind, rule_branch_offset; [lia|done|]. apply emits_bind, emits_PC. pose proof (grows_refl sh) as G.
  apply emits_bind, (rule_Mem s0 32 (u64 (LocationDescriptor.PC (sh_loc sh) + offset 19 imm19))); [set_solver|done|apply pc_imm_holds, literal_range|]. value v Hv. apply emits_bind.
  eapply (rule_convert s0 _ Ty.U32 Ty.U64); [split; vm_compute; reflexivity|reflexivity|done|exact Hv|]. value v2 Hv2. emit rule_set_X_size. state. by apply emits_done.
Qed.
End MemoryCorrect.
