(* ===== verification/A64CorrectPairs.v ===== *)
(** The translation of loads and stores of pairs and of vectors, and of exclusive
    accesses, is correct. *)
From stdpp Require Import list.
From S2P Require Import Prelude Bits IrOpcodes A64Imm Ir A64Jit IrSem IrWf IrExec IrArith GetSet GetSetSem GetSetSound IrEmitter EmitLogic A64Spec A64Visitor A64LoadStore A64Rules A64Correct A64CorrectData A64CorrectReverse A64CorrectBranch A64CorrectMemory.
Import Op(Opcode).
Local Open Scope Z_scope.

Lemma scaled_offset n imm k : 0 < n <= 64 -> 0 <= k -> let off := u64 (Z.shiftl (loadstore.sign_offset n imm) k) in in_range 64 off /\ wrap 64 (swrap n imm * 2 ^ k) = off.
Proof.
  intros Hn Hk off. split; [by apply wrap_range|]. unfold off, u64. destruct (sign_offset_spec n imm Hn) as [_ <-]. rewrite Z.shiftl_mul_pow2 by done. unfold wrap. by rewrite Zmult_mod_idemp_l.
Qed.
Lemma bytes_of k : 0 <= k -> size_bits k / 8 = 2 ^ k.
Proof. intros Hk. unfold size_bits. rewrite Z.mul_comm. by apply Z.div_mul. Qed.

Section Pairs.
Context {St : Type} `{A64Flow St} (s0 : St).
Abbreviation emits := (emits s0).
Abbreviation translates := (translates s0).
Implicit Types (sh : Shadow) (s : St).

(** The address of the second datum. *)
Lemma rule_second a x n (Q : Value -> Shadow -> St -> Prop) sh s : 0 <= n < 256 -> sh_open sh = true -> holds sh a Ty.U64 x -> yields sh Ty.U64 (u64 (x + n)) Q s -> emits (ir.Add a (ir.Imm64 n)) Q sh s.
Proof. intros Hn Ho Ha HQ. eapply rule_Add64; [done|exact Ha|apply pc_imm_holds; unfold in_range; lia|exact HQ]. Qed.
(** What [STP_LDP_gen] does once the address is known. *)
Definition pair_body (memop : MemOp) (signed_ : bool) (w : Z) (address : Value) (Rt Rt2 : Z) : M Emitter unit :=
  match memop with
  | STORE =>
      let! data1 := visitor.X w Rt in
      let! data2 := visitor.X w Rt2 in
      loadstore.set_Mem address (w / 8) AccType.NORMAL data1 ;;
      let! address2 := ir.Add address (ir.Imm64 (w / 8)) in
      loadstore.set_Mem address2 (w / 8) AccType.NORMAL data2
  | LOAD =>
      let! data1 := loadstore.Mem address (w / 8) AccType.NORMAL in
      let! address2 := ir.Add address (ir.Imm64 (w / 8)) in
      let! data2 := loadstore.Mem address2 (w / 8) AccType.NORMAL in
      if signed_ then
        let! extended1 := loadstore.SignExtend data1 64 in
        visitor.set_X 64 Rt extended1 ;;
        let! extended2 := loadstore.SignExtend data2 64 in
        visitor.set_X 64 Rt2 extended2
      else visitor.set_X w Rt data1 ;; visitor.set_X w Rt2 data2
  | PREFETCH => stop Undefined
  end.
Definition pair_state (load signed : bool) (w a t t2 : Z) s : St :=
  let b := u64 (a + w / 8) in
  let d x := if signed then swrap w (Mem w x s) else Mem w x s in
  let regsize := if signed then 64 else w in
  if load then set_X regsize t2 (d b) (set_X regsize t (d a) s) else set_Mem w b (X w t2 s) (set_Mem w a (X w t s) s).
Lemma rule_pair_body (load signed : bool) w addr a t t2 (Q : unit -> Shadow -> St -> Prop) sh s : (w = 32 \/ w = 64 /\ signed = false) -> 0 <= t < 32 -> 0 <= t2 < 32 -> sh_open sh = true -> holds sh addr Ty.U64 a ->
  (forall sh', grows sh sh' -> Q tt sh' (pair_state load signed w a t t2 s)) -> emits (pair_body (if load then LOAD else STORE) signed w addr t t2) Q sh s.
Proof.
  intros Hw Ht Ht2 Ho Ha HQ. assert (Hlane : w ∈ lane_sizes) by (destruct Hw as [-> | [-> _]]; set_solver). pose proof (lane_size _ Hlane) as Hsize. assert (Hb : 0 <= w / 8 < 256) by (destruct Hw as [-> | [-> _]]; vm_compute; by split). pose proof (grows_refl sh) as G. unfold pair_state in HQ. destruct load; cbn [pair_body].
  - emit rule_Mem. value d1 Hd1. emit rule_second. value a2 Ha2. emit rule_Mem. value d2 Hd2. pose proof (uint_range _ _ _ _ Hsize Hd1) as R1. pose proof (uint_range _ _ _ _ Hsize Hd2) as R2. destruct signed.
    + destruct Hw as [-> | [_ ?]]; [|done]. apply emits_bind. eapply (rule_extend s0 true 32 64); [done|by left|lia|done|exact Hd1|]. value e1 He1. emit rule_set_X_size. state.
      apply emits_bind. eapply (rule_extend s0 true 32 64); [done|by left|lia|done|exact Hd2|]. value e2 He2. eapply rule_set_X_size; [by left|done|done|exact He2|]. state. by apply HQ.
    + assert (Hr : w = 64 \/ w = 32) by tauto. assert (Hty : ty (reg_sf w) = uint w) by by destruct Hr as [-> | ->].
      apply emits_bind. eapply (rule_set_X_size s0 w t d1 (Mem w a s)); [done|done|exact Ht|rewrite Hty, wrap_small by done; exact Hd1|]. state. eapply (rule_set_X_size s0 w t2 d2 (Mem w (u64 (a + w / 8)) s)); [done|done|exact Ht2|rewrite Hty, wrap_small by done; exact Hd2|]. state. by apply HQ.
  - emit rule_X_size. value d1 Hd1. emit rule_X_size. value d2 Hd2. emit rule_set_Mem. state. emit rule_second. value a2 Ha2. eapply rule_set_Mem; [done..|]. state. by apply HQ.
Qed.
Lemma STP_LDP_gen_ok opc np wback L imm7 Rt2 Rn Rt : 0 <= opc < 4 -> 0 <= L < 2 -> 0 <= Rt2 < 32 -> 0 <= Rn < 32 -> 0 <= Rt < 32 ->
  translates (loadstore.STP_LDP_gen opc np wback L imm7 Rt2 Rn Rt) (fun _ => load_store_pair opc wback (negb np) (L =? 1) imm7 Rt2 Rn Rt).
Proof.
  intros Hop HL Ht2 Hn Ht sh s Ho Hterm. unfold loadstore.STP_LDP_gen, load_store_pair. assert (Hg : (L =? 0) && bit.get_bit 32 0 opc || (opc =? 3) = (opc =? 3) || negb (L =? 1) && (opc =? 1)) by (assert (L = 0 \/ L = 1) as [-> | ->] by lia; by few opc Hop).
  rewrite Hg. destruct ((opc =? 3) || negb (L =? 1) && (opc =? 1)) eqn:Eu; [by apply UnallocatedEncoding_ok|]. apply orb_false_iff in Eu as [E3%Z.eqb_neq _]. set (load := L =? 1). set (clash := wback && ((Rt =? Rn) || (Rt2 =? Rn)) && negb (Rn =? 31)).
  assert (Hc : forall A (x y : A), (if loadstore.is_load (if load then LOAD else STORE) && wback && ((Rt =? Rn) || (Rt2 =? Rn)) && negb (Rn =? 31) then x else if loadstore.is_store (if load then LOAD else STORE) && wback && ((Rt =? Rn) || (Rt2 =? Rn)) && negb (Rn =? 31) then x
    else if loadstore.is_load (if load then LOAD else STORE) && (Rt =? Rt2) then x else y) = if clash || load && (Rt =? Rt2) then x else y) by (intros A x y; unfold clash; destruct load; cbn [loadstore.is_load loadstore.is_store andb]; by destruct (wback && _ && _)).
  rewrite Hc. destruct (clash || _); [by apply UnpredictableInstruction_ok|]. clear Hc Hg. set (scale := 2 + Z.b2z (bit.get_bit 32 1 opc)). set (w := if opc =? 2 then 64 else 32).
  assert (Hsc : 0 <= scale /\ size_bits scale = w /\ 2 ^ scale = w / 8 /\ bit.get_bit 32 0 opc = (opc =? 1)) by (unfold scale, w; few opc Hop; by vm_compute). destruct Hsc as (Hsc & Hw & Hpow & Hsg).
  destruct (scaled_offset 7 imm7 scale ltac:(lia) Hsc) as [Hr Ho']. rewrite Hpow in Ho'. rewrite shiftl_size, Hw, Hsg by done. set (off := u64 _) in *. pose proof (grows_refl sh) as G.
  emit rule_base. value v Hv. emit rule_indexed. value a Ha.
  apply emits_bind. eapply (rule_pair_body load (opc =? 1) w); [|exact Ht|exact Ht2|done|exact Ha|].
  - unfold w. destruct (Z.eqb_spec opc 2) as [->|]; [by right|by left].
  - state. emit rule_write_back. state. by apply emits_done.
Qed.
Lemma STNP_LDNP_gen_ok opc L imm7 Rt2 Rn Rt : 0 <= opc < 2 -> 0 <= L < 2 -> 0 <= Rt2 < 32 -> 0 <= Rn < 32 -> 0 <= Rt < 32 ->
  translates (loadstore.STNP_LDNP_gen opc L imm7 Rt2 Rn Rt) (fun _ => load_store_pair (2 * opc) false false (L =? 1) imm7 Rt2 Rn Rt).
Proof. intros Hop HL Ht2 Hn Ht. unfold loadstore.STNP_LDNP_gen. replace (Z.shiftl opc 1) with (2 * opc) by (rewrite Z.shiftl_mul_pow2 by lia; lia). by apply (STP_LDP_gen_ok _ true); [lia|..]. Qed.

(** *** Vectors *)
Lemma Elem_0 w x : Elem w 0 x = wrap w x.
Proof. unfold Elem. by rewrite Z.mul_0_r, Z.div_1_r. Qed.
Lemma lane_or_whole w : w ∈ sizes -> w <> 128 -> w ∈ lane_sizes.
Proof. unfold sizes, lane_sizes. set_solver. Qed.
Lemma rule_vector_data w n (Q : Value -> Shadow -> St -> Prop) sh s : w ∈ sizes -> 0 <= n < 32 -> sh_open sh = true -> yields sh (uint w) (wrap w (V n s)) Q s ->
  emits (if w =? 128 then ir.GetQ n else let! v := ir.GetQ n in ir.VectorGetElement w v 0) Q sh s.
Proof.
  intros Hw Hn Ho HQ. pose proof (grows_refl sh) as G. destruct (Z.eqb_spec w 128) as [->|Hne].
  - eapply rule_GetQ; [done..|]. rewrite wrap_small in HQ by apply V_range. done.
  - emit rule_GetQ. value v Hv. eapply (rule_VectorGetElement s0 w 0); [by apply lane_or_whole|done|lia|done|exact Hv|]. rewrite Elem_0. by eapply yields_grows.
Qed.
Lemma rule_vector_value w n v z (Q : unit -> Shadow -> St -> Prop) sh s : w ∈ sizes -> 0 <= n < 32 -> sh_open sh = true -> holds sh v (uint w) z -> (forall sh', grows sh sh' -> Q tt sh' (set_V n z s)) ->
  emits (if w =? 128 then ir.SetQ n v else let! q := ir.ZeroExtendToQuad v in ir.SetQ n q) Q sh s.
Proof.
  intros Hw Hn Ho Hv HQ. pose proof (grows_refl sh) as G. destruct (Z.eqb_spec w 128) as [->|Hne]; [by eapply rule_SetQ|].
  apply emits_bind. eapply (rule_ZeroExtendToQuad s0 w); [by apply lane_or_whole|done|exact Hv|]. value q Hq. eapply rule_SetQ; [done|done|exact Hq|]. state. by apply HQ.
Qed.
(** The [switch] on the operation, however it is written. *)
Definition vector_body (load : bool) (w acc : Z) (address : Value) (n : Z) : M Emitter unit :=
  if load then let! data := loadstore.Mem address (w / 8) acc in if w =? 128 then ir.SetQ n data else let! q := ir.ZeroExtendToQuad data in ir.SetQ n q
  else let! data := (if w =? 128 then ir.GetQ n else let! v := ir.GetQ n in ir.VectorGetElement w v 0) in loadstore.set_Mem address (w / 8) acc data.
Lemma rule_vector_body load w acc addr a n (Q : unit -> Shadow -> St -> Prop) sh s : w ∈ sizes -> 0 <= n < 32 -> sh_open sh = true -> holds sh addr Ty.U64 a ->
  (forall sh', grows sh sh' -> Q tt sh' (vector_transfer load w a n s)) -> emits (vector_body load w acc addr n) Q sh s.
Proof.
  intros Hw Hn Ho Ha HQ. pose proof (grows_refl sh) as G. destruct load; cbn [vector_body vector_transfer] in *.
  - emit rule_Mem. value d Hd. eapply rule_vector_value; [done..|exact Hd|]. state. by apply HQ.
  - emit rule_vector_data. value d Hd. eapply rule_set_Mem; [done..|]. state. by apply HQ.
Qed.
Lemma LoadStoreSIMD_ok (load wback postindex : bool) scale off off' Rn Vt : 0 <= scale <= 4 -> in_range 64 off -> wrap 64 off' = off -> 0 <= Rn < 32 -> 0 <= Vt < 32 ->
  translates (loadstore.LoadStoreSIMD wback postindex scale off (if load then LOAD else STORE) Rn Vt) (fun _ => load_store_vector load wback postindex scale off' Rn Vt).
Proof.
  intros Hs Hr Ho' Hn Ht sh s Ho Hterm. unfold loadstore.LoadStoreSIMD, load_store_vector. destruct (Z.ltb_spec 4 scale); [lia|]. rewrite shiftl_size by lia. pose proof (scale_size scale Hs) as Hw. pose proof (grows_refl sh) as G.
  emit rule_base. value v Hv. emit rule_indexed. value a Ha. apply emits_bind. apply (emits_ext s0 (vector_body load (size_bits scale) AccType.VEC a Vt)).
  - intros em. destruct load; unfold vector_body; destruct (Z.eqb_spec (size_bits scale) 128) as [->|]; try done. by rewrite bind_assoc.
  - eapply rule_vector_body; [done..|exact Ha|]. state. emit rule_write_back. state. by apply emits_done.
Qed.
Lemma simd_scale_spec opc_1 size : 0 <= opc_1 < 2 -> 0 <= size < 4 -> concatenate [(1, opc_1); (2, size)] = Ret (3, 4 * opc_1 + size).
Proof. intros Ho Hs. assert (opc_1 = 0 \/ opc_1 = 1) as [-> | ->] by lia; by few size Hs. Qed.
Lemma rule_simd_scale opc_1 size (Q : Z -> Shadow -> St -> Prop) sh s : 0 <= opc_1 < 2 -> 0 <= size < 4 -> Q (4 * opc_1 + size) sh s -> emits (loadstore.simd_scale opc_1 size) Q sh s.
Proof. intros Ho Hs HQ. apply emits_bind. eapply emits_lift; [by apply simd_scale_spec|]. by apply emits_ret. Qed.
Lemma unallocated_vector load wback postindex scale off n t s : 4 < scale -> load_store_vector load wback postindex scale off n t s = UNALLOCATED s.
Proof. intros Hs. unfold load_store_vector. by destruct (Z.ltb_spec 4 scale); [|lia]. Qed.
Lemma simd_imm_1_ok (load : bool) size opc_1 imm9 np Rn Vt : 0 <= size < 4 -> 0 <= opc_1 < 2 -> 0 <= Rn < 32 -> 0 <= Vt < 32 ->
  translates (loadstore.simd_imm_1 (if load then LOAD else STORE) size opc_1 imm9 np Rn Vt) (fun _ => load_store_vector load true (negb np) (4 * opc_1 + size) (swrap 9 imm9) Rn Vt).
Proof.
  intros Hs Ho1 Hn Ht sh s Ho Hterm. apply emits_bind, rule_simd_scale; [done..|]. destruct (Z.ltb_spec 4 (4 * opc_1 + size)); [rewrite unallocated_vector by done; by apply UnallocatedEncoding_ok|].
  destruct (sign_offset_spec 9 imm9 ltac:(lia)). apply LoadStoreSIMD_ok; try done. lia.
Qed.
Lemma simd_imm_2_ok (load : bool) size opc_1 imm12 Rn Vt : 0 <= size < 4 -> 0 <= opc_1 < 2 -> 0 <= Rn < 32 -> 0 <= Vt < 32 ->
  translates (loadstore.simd_imm_2 (if load then LOAD else STORE) size opc_1 imm12 Rn Vt) (fun _ => load_store_vector load false false (4 * opc_1 + size) (imm12 * 2 ^ (4 * opc_1 + size)) Rn Vt).
Proof.
  intros Hs Ho1 Hn Ht sh s Ho Hterm. apply emits_bind, rule_simd_scale; [done..|]. destruct (Z.ltb_spec 4 (4 * opc_1 + size)); [rewrite unallocated_vector by done; by apply UnallocatedEncoding_ok|].
  destruct (shiftl_offset imm12 (4 * opc_1 + size) ltac:(lia)). apply LoadStoreSIMD_ok; try done. lia.
Qed.
Lemma simd_unscaled_ok (load : bool) size opc_1 imm9 Rn Vt : 0 <= size < 4 -> 0 <= opc_1 < 2 -> 0 <= Rn < 32 -> 0 <= Vt < 32 ->
  translates (loadstore.simd_unscaled (if load then LOAD else STORE) size opc_1 imm9 Rn Vt) (fun _ => load_store_vector load false false (4 * opc_1 + size) (swrap 9 imm9) Rn Vt).
Proof.
  intros Hs Ho1 Hn Ht sh s Ho Hterm. apply emits_bind, rule_simd_scale; [done..|]. destruct (Z.ltb_spec 4 (4 * opc_1 + size)); [rewrite unallocated_vector by done; by apply UnallocatedEncoding_ok|].
  destruct (sign_offset_spec 9 imm9 ltac:(lia)). apply LoadStoreSIMD_ok; try done. lia.
Qed.
Lemma vector_offset_ok load size opc_1 Rm option (S : bool) Rn Vt : 0 <= size < 4 -> 0 <= opc_1 < 2 -> 0 <= Rm < 32 -> 0 <= option < 8 -> 0 <= Rn < 32 -> 0 <= Vt < 32 ->
  translates (loadstore.vector_offset (Z.b2z load) size opc_1 Rm option S Rn Vt) (fun _ => load_store_vector_register load (4 * opc_1 + size) Rm option S Rn Vt).
Proof.
  intros Hs Ho1 Hm Hop Hn Ht sh s Ho Hterm. apply emits_bind, rule_simd_scale; [done..|]. set (scale := 4 * opc_1 + size). unfold load_store_vector_register. destruct (Z.ltb_spec 4 scale); [by apply UnallocatedEncoding_ok|]. cbn [orb].
  rewrite option_bit by done. destruct (option mod 4 <? 2); [by apply UnallocatedEncoding_ok|]. assert (Hsc : 0 <= scale <= 4) by lia. assert (Hshift : (if S then u8 scale else 0) = if S then scale else 0) by (destruct S; [apply wrap_small; unfold in_range; lia|done]).
  unfold loadstore.VecSharedDecodeAndOperation. rewrite Hshift, shiftl_size by lia. pose proof (scale_size scale Hsc) as Hw. pose proof (grows_refl sh) as G. apply emits_address; [done..|destruct S; lia|done|done|]. value a Ha. apply emits_bind.
  apply (emits_ext s0 (vector_body load (size_bits scale) AccType.VEC a Vt)).
  - intros em. destruct load; unfold vector_body, loadstore.V_scalar, loadstore.set_V_scalar; by destruct (Z.eqb_spec (size_bits scale) 128).
  - eapply rule_vector_body; [done..|exact Ha|]. state. by apply emits_done.
Qed.
Lemma vector_literal_size opc : 0 <= opc < 3 -> Z.shiftl 4 opc = 32 * 2 ^ opc / 8 /\ 32 * 2 ^ opc ∈ sizes /\ (Z.shiftl 4 opc =? 16) = (32 * 2 ^ opc =? 128).
Proof. intros Ho. assert (opc = 0 \/ opc = 1 \/ opc = 2) as [-> | [-> | ->]] by lia; (split; [done|]); (split; [|done]); unfold sizes; vm_compute; set_solver. Qed.
Lemma LDR_lit_fpsimd_ok opc imm19 Vt : 0 <= opc < 4 -> 0 <= Vt < 32 -> translates (loadstore.LDR_lit_fpsimd opc imm19 Vt) (fun pc => load_vector_literal opc imm19 Vt pc).
Proof.
  intros Hop Ht sh s Ho Hterm. unfold loadstore.LDR_lit_fpsimd, load_vector_literal. destruct (Z.eqb_spec opc 3); [by apply UnallocatedEncoding_ok|]. destruct (vector_literal_size opc ltac:(lia)) as (Hb & Hw & H16). rewrite H16, Hb. apply emits_bind, emits_PC. pose proof (grows_refl sh) as G.
  set (pc := LocationDescriptor.PC (sh_loc sh)). assert (Ha : u64 (pc + u64 (Z.shiftl (loadstore.sign_offset 19 imm19) 2)) = u64 (pc + offset 19 imm19)).
  { destruct (scaled_offset 19 imm19 2 ltac:(lia) ltac:(lia)) as [_ <-]. unfold u64. rewrite wrap_add_r. unfold offset. do 2 f_equal. lia. }
  rewrite Ha. cbn [vector_transfer]. emit rule_Mem; [apply pc_imm_holds, literal_range|]. value d Hd. apply emits_bind. eapply rule_vector_value; [done..|exact Hd|]. state. by apply emits_done.
Qed.
(** Of a pair: loads into parts of registers are left out. *)
Lemma rule_V w n (Q : Value -> Shadow -> St -> Prop) sh s : w ∈ [32; 64; 128] -> 0 <= n < 32 -> sh_open sh = true -> yields sh Ty.U128 (wrap w (V n s)) Q s -> emits (loadstore.V w n) Q sh s.
Proof.
  intros Hw Hn Ho HQ. rewrite !elem_of_cons in Hw. destruct Hw as [->|[->|[->|[]%not_elem_of_nil]]].
  - eapply (emits_read s0 Ty.A64Vec _ GetSet.S _ (VecLoc n)); [by right|done|done|right; by exists n|done|by left|done|simpl; lia|]. intros v sh' G Hv. by apply HQ.
  - eapply (emits_read s0 Ty.A64Vec _ GetSet.D _ (VecLoc n)); [by right|done|done|right; by exists n|done|by left|done|simpl; lia|]. intros v sh' G Hv. by apply HQ.
  - eapply (rule_GetQ s0); [done|done|]. by rewrite wrap_small in HQ by apply V_range.
Qed.
Lemma rule_low w v x (Q : Value -> Shadow -> St -> Prop) sh s : w ∈ sizes -> sh_open sh = true -> holds sh v Ty.U128 (wrap w x) -> yields sh (uint w) (wrap w x) Q s ->
  emits (if w =? 128 then ret v else ir.VectorGetElement w v 0) Q sh s.
Proof.
  intros Hw Ho Hv HQ. destruct (Z.eqb_spec w 128) as [->|]; [by apply emits_ret, HQ|]. eapply (rule_VectorGetElement s0 w 0); [by apply lane_or_whole|done|lia|done|exact Hv|]. rewrite Elem_0, wrap_wrap; [done|]. size_cases Hw; lia.
Qed.
Lemma STP_LDP_fpsimd_ok opc np wback L imm7 Vt2 Rn Vt : 0 <= opc < 4 -> 0 <= L < 2 -> (L = 1 -> opc = 2 \/ opc = 3 \/ Vt = Vt2) -> 0 <= Vt2 < 32 -> 0 <= Rn < 32 -> 0 <= Vt < 32 ->
  translates (loadstore.STP_LDP_fpsimd opc np wback L imm7 Vt2 Rn Vt) (fun _ => load_store_vector_pair opc wback (negb np) (L =? 1) imm7 Vt2 Rn Vt).
Proof.
  intros Hop HL Hdesc Ht2 Hn Ht sh s Ho Hterm. unfold loadstore.STP_LDP_fpsimd, load_store_vector_pair. destruct (Z.eqb_spec opc 3) as [|Hne]; [by apply UnallocatedEncoding_ok|].
  assert (Hl : loadstore.is_load (if L =? 1 then LOAD else STORE) = (L =? 1)) by by destruct (L =? 1). rewrite Hl. destruct ((L =? 1) && (Vt =? Vt2)) eqn:Ec; [by apply UnpredictableInstruction_ok|].
  set (w := 32 * 2 ^ opc). assert (Hsc : size_bits (2 + opc) = w /\ 2 ^ (2 + opc) = w / 8 /\ w ∈ [32; 64; 128] /\ 0 <= w / 8 < 256) by (unfold w; assert (opc = 0 \/ opc = 1 \/ opc = 2) as [-> | [-> | ->]] by lia; (split; [done|]); (split; [done|]); (split; [vm_compute; set_solver|by vm_compute])).
  destruct Hsc as (Hw & Hpow & Hw3 & Hb). assert (Hsize : w ∈ sizes) by (unfold sizes; set_solver). destruct (scaled_offset 7 imm7 (2 + opc) ltac:(lia) ltac:(lia)) as [Hr Ho']. rewrite Hpow in Ho'. rewrite shiftl_size, Hw by lia. set (off := u64 _) in *.
  pose proof (grows_refl sh) as G. emit rule_base. value v Hv. emit rule_indexed. value a Ha. apply emits_bind. destruct (Z.eqb_spec L 1) as [->|]; cbn [andb] in Ec.
  - apply Z.eqb_neq in Ec. assert (w = 128) as -> by (unfold w; destruct (Hdesc eq_refl) as [-> |[?|?]]; done). change (128 =? 128) with true. cbn [loadstore.set_V Z.eqb Pos.eqb].
    emit rule_Mem. value d1 Hd1. emit rule_second. value a2 Ha2. emit rule_Mem. value d2 Hd2. apply emits_bind, emits_ret, emits_bind, emits_ret. emit rule_SetQ. state. eapply rule_SetQ; [done|done|exact Hd2|]. state.
    emit rule_write_back. state. by apply emits_done.
  - emit rule_V. value v1 Hv1. emit rule_V. value v2 Hv2. emit rule_low. value d1 Hd1. emit rule_low. value d2 Hd2. emit rule_set_Mem. state. emit rule_second. value a2 Ha2. eapply rule_set_Mem; [done..|]. state.
    emit rule_write_back. state. by apply emits_done.
Qed.
Lemma STNP_LDNP_fpsimd_ok opc L imm7 Vt2 Rn Vt : 0 <= opc < 4 -> 0 <= L < 2 -> (L = 1 -> opc = 2 \/ opc = 3 \/ Vt = Vt2) -> 0 <= Vt2 < 32 -> 0 <= Rn < 32 -> 0 <= Vt < 32 ->
  translates (loadstore.STNP_LDNP_fpsimd opc L imm7 Vt2 Rn Vt) (fun _ => load_store_vector_pair opc false false (L =? 1) imm7 Vt2 Rn Vt).
Proof. intros. by apply (STP_LDP_fpsimd_ok _ true). Qed.
End Pairs.

Section Exclusive.
Context {St : Type} `{A64Flow St} (s0 : St).
Abbreviation emits := (emits s0).
Abbreviation translates := (translates s0).
Implicit Types (sh : Shadow) (s : St).

Lemma exclusive_load_ok options o0 sz Rn Rt : 0 <= sz < 4 -> 0 <= Rn < 32 -> 0 <= Rt < 32 ->
  translates (loadstore.ExclusiveSharedDecodeAndOperation options false sz true o0 None None Rn Rt) (fun _ => load_exclusive sz Rn Rt).
Proof.
  intros Hs Hn Ht sh s Ho Hterm. unfold loadstore.ExclusiveSharedDecodeAndOperation, load_exclusive. cbn [loadstore.exclusive_unpredictable andb negb]. rewrite shiftl_size by lia.
  pose proof (scale_lane sz Hs) as Hl. pose proof (lane_size _ Hl) as Hw. pose proof (grows_refl sh) as G. assert (E : (size_bits sz =? 64) = (sz =? 3)) by (by few sz Hs). rewrite E. set (r := if sz =? 3 then 64 else 32).
  assert (Hr : r = 64 \/ r = 32 /\ size_bits sz <= 32) by (unfold r; few sz Hs; [right; by vm_compute..|by left]). emit rule_base. value a Ha. apply emits_bind.
  emit rule_ExclusiveMem. value d Hd. apply emits_bind, (rule_extend s0 false (size_bits sz) r d (fst (xread (size_bits sz) (X_or_SP 64 Rn s) (memory s)))); [done..|]. value e He. eapply rule_set_X_size; [tauto|done|done|exact He|]. state. by apply emits_done.
Qed.
Lemma pair_size_spec sz : 0 <= sz < 2 -> concatenate [(1, 1); (1, sz)] = Ret (2, 2 + sz).
Proof. intros Hs. by assert (sz = 0 \/ sz = 1) as [-> | ->] by lia. Qed.
(** A pair of words and a pair of doublewords. *)
Lemma pair_cases sz : 0 <= sz < 2 -> exists sf : bool, width_bits sf = size_bits (2 + sz) /\ Z.shiftl 8 (2 + sz) = width_bits sf /\ sz = Z.b2z sf.
Proof. intros Hs. assert (sz = 0 \/ sz = 1) as [-> | ->] by lia; [by exists false|by exists true]. Qed.
Lemma rule_Pack2x64 a b x y (Q : Value -> Shadow -> St -> Prop) sh s : sh_open sh = true -> holds sh a Ty.U64 x -> holds sh b Ty.U64 y -> yields sh Ty.U128 (y * 2 ^ 64 + x) Q s -> emits (ir.Pack2x64To1x128 a b) Q sh s.
Proof.
  intros Ho Ha Hb HQ. eapply (emits_sem s0 _ _ [x; y] _ s); [done|vm_compute; reflexivity|done|by split_and!|done|apply sem_pack; [exact (holds_range _ _ _ _ Ha)|exact (holds_range _ _ _ _ Hb)]|]. intros v sh' G Hv. by apply HQ; [|apply Hv].
Qed.
Lemma rule_Pack2x32 a b x y (Q : Value -> Shadow -> St -> Prop) sh s : sh_open sh = true -> holds sh a Ty.U32 x -> holds sh b Ty.U32 y -> yields sh Ty.U64 (y * 2 ^ 32 + x) Q s -> emits (ir.Pack2x32To1x64 a b) Q sh s.
Proof.
  intros Ho Ha Hb HQ. pose proof (holds_range _ _ _ _ Ha) as Rx. pose proof (holds_range _ _ _ _ Hb) as Ry. unfold tv_ok in Rx, Ry. simpl in Rx, Ry. eapply (rule_operation s0 _ _ _ _ [x; y]); [split; vm_compute; reflexivity|done|by split_and!|reflexivity|]. intros v sh' G Hv _. apply HQ; [done|].
  cbn [zip zip_with nth snd] in Hv. rewrite Z.lor_comm, lor_shiftl_add, Z.add_comm in Hv by (lia || apply Rx). rewrite wrap_small in Hv by (unfold in_range in *; lia). done.
Qed.
Lemma some_eqb a b : bool_decide (Some a = Some b) = (a =? b).
Proof. destruct (Z.eqb_spec a b) as [->|Hne]; [by apply bool_decide_true|]. apply bool_decide_false. congruence. Qed.
(** [size] of a pair is 2 or 3. *)
Lemma rule_pair_size {A} sz (f : Z -> M Emitter A) (Q : A -> Shadow -> St -> Prop) sh s : 0 <= sz < 2 -> emits (f (2 + sz)) Q sh s -> emits (let! size := loadstore.pair_size sz in f size) Q sh s.
Proof. intros Hs Hf. apply emits_bind. unfold loadstore.pair_size. apply emits_bind. eapply emits_lift; [by apply pair_size_spec|]. by apply emits_ret. Qed.
Lemma exclusive_load_pair_ok options o0 sz Rt2 Rn Rt : 0 <= sz < 2 -> 0 <= Rt2 < 32 -> 0 <= Rn < 32 -> 0 <= Rt < 32 ->
  translates (let! size := loadstore.pair_size sz in loadstore.ExclusiveSharedDecodeAndOperation options true size true o0 None (Some Rt2) Rn Rt) (fun _ => load_exclusive_pair (32 * 2 ^ sz) Rt2 Rn Rt).
Proof.
  intros Hs Ht2 Hn Ht sh s Ho Hterm. apply rule_pair_size; [done|]. unfold loadstore.ExclusiveSharedDecodeAndOperation, load_exclusive_pair, loadstore.exclusive_unpredictable.
  cbn [andb negb]. rewrite some_eqb, Z.eqb_sym. destruct (Rt =? Rt2); [by apply UnpredictableInstruction_ok|]. pose proof (grows_refl sh) as G. assert (sz = 0 \/ sz = 1) as [-> | ->] by lia; cbn [Z.shiftl Z.add Z.eqb Pos.eqb Z.mul Pos.mul Pos.iter Pos.add Z.pow Z.pow_pos andb].
  - emit rule_base. value a Ha. apply emits_bind, emits_bind, (rule_ExclusiveMem s0 64 (X_or_SP 64 Rn s)); [set_solver|done|done|]. value d Hd. emit rule_LeastSignificantWord. value lo Hlo. emit (rule_set_X s0 false). state. apply emits_bind, emits_ret.
    apply emits_bind. eapply rule_MostSignificantWord; [done|exact Hd|]. intros hi c sh4 G4 Hhi. pose proof (open_grows _ _ G4 Ho) as Ho4. cbn [fst]. eapply (rule_set_X s0 false); [done|exact Ht2|exact Hhi|]. intros sh5 G5.
    erewrite (set_X_eq (width_bits false) Rt2), (set_X_eq (width_bits false) Rt); [apply emits_done; eapply grows_trans; [|exact G5]; by eapply grows_trans| |].
    + cbn [width_bits]. by rewrite wrap_wrap by lia.
    + cbn [width_bits]. unfold high_word. rewrite ?wrap_wrap by lia. by rewrite Z.shiftr_div_pow2 by lia.
  - emit rule_base. value a Ha. apply emits_bind, emits_bind, (rule_ExclusiveMem s0 128 (X_or_SP 64 Rn s)); [set_solver|done|done|]. value d Hd.
    apply emits_bind. eapply (rule_VectorGetElement s0 64 0); [set_solver|lia..|done|exact Hd|]. value lo Hlo. emit (rule_set_X s0 true). state. apply emits_bind, emits_ret.
    apply emits_bind. eapply (rule_VectorGetElement s0 64 1); [set_solver|lia..|done|exact Hd|]. value hi Hhi. eapply (rule_set_X s0 true); [done|exact Ht2|exact Hhi|]. state.
    erewrite (set_X_eq (width_bits true) Rt2), (set_X_eq (width_bits true) Rt); [by apply emits_done| |].
    + unfold Elem. cbn [width_bits]. rewrite Z.mul_0_r, Z.div_1_r. symmetry. by apply (wrap_wrap 64).
    + unfold Elem. cbn [width_bits]. symmetry. by apply (wrap_wrap 64).
Qed.
(** Stores: the status is given after the store. *)
Definition stored (w n x Rs : Z) s : St := let r := xwrite w (X_or_SP 64 n s) x (memory s) in set_X 32 Rs (fst r) (set_memory (snd r) s).
Lemma exclusive_store_end w acc a x n v Rs (Q : unit -> Shadow -> St -> Prop) sh s : w ∈ sizes -> 0 <= Rs < 32 -> sh_open sh = true -> holds sh a Ty.U64 (X_or_SP 64 n s) -> holds sh v (uint w) x ->
  (forall sh', grows sh sh' -> Q tt sh' (stored w n x Rs s)) -> emits (let! status := loadstore.set_ExclusiveMem a (w / 8) acc v in let! r := loadstore.the (Some Rs) in visitor.set_X 32 r status) Q sh s.
Proof.
  intros Hw Hr Ho Ha Hv HQ. pose proof (grows_refl sh) as G. apply emits_bind, (rule_set_ExclusiveMem s0 w (X_or_SP 64 n s) a x); [done..|]. value st Hst. apply emits_bind, emits_ret. eapply (rule_set_X s0 false); [done|done|exact Hst|]. state. by apply HQ.
Qed.
Lemma exclusive_store_ok options o0 sz Rs Rn Rt : 0 <= sz < 4 -> 0 <= Rs < 32 -> 0 <= Rn < 32 -> 0 <= Rt < 32 ->
  translates (loadstore.ExclusiveSharedDecodeAndOperation options false sz false o0 (Some Rs) None Rn Rt) (fun _ => store_exclusive_one (define_unpredictable_behaviour options) sz Rs Rn Rt).
Proof.
  intros Hs Hr Hn Ht sh s Ho Hterm. unfold loadstore.ExclusiveSharedDecodeAndOperation, store_exclusive_one, store_exclusive, loadstore.exclusive_unpredictable. cbn [andb negb]. rewrite !some_eqb, orb_false_r.
  destruct (if Rs =? Rt then _ else _); [by apply UnpredictableInstruction_ok|]. rewrite shiftl_size by lia. pose proof (scale_lane sz Hs) as Hl. pose proof (lane_size _ Hl) as Hw. pose proof (grows_refl sh) as G.
  emit rule_base. value a Ha. apply emits_bind. cbn [andb]. emit rule_X_size. value v Hv. eapply exclusive_store_end; [done..|exact Hv|]. state. by apply emits_done.
Qed.
Lemma exclusive_store_pair_ok options o0 sz Rs Rt2 Rn Rt : 0 <= sz < 2 -> 0 <= Rs < 32 -> 0 <= Rt2 < 32 -> 0 <= Rn < 32 -> 0 <= Rt < 32 ->
  translates (let! size := loadstore.pair_size sz in loadstore.ExclusiveSharedDecodeAndOperation options true size false o0 (Some Rs) (Some Rt2) Rn Rt)
    (fun _ => store_exclusive_pair (define_unpredictable_behaviour options) (32 * 2 ^ sz) Rs Rt2 Rn Rt).
Proof.
  intros Hs Hr Ht2 Hn Ht sh s Ho Hterm. apply rule_pair_size; [done|]. unfold loadstore.ExclusiveSharedDecodeAndOperation, store_exclusive_pair, store_exclusive, loadstore.exclusive_unpredictable.
  cbn [andb negb]. rewrite !some_eqb. destruct (if (Rs =? Rt) || _ then _ else _); [by apply UnpredictableInstruction_ok|]. pose proof (grows_refl sh) as G.
  assert (sz = 0 \/ sz = 1) as [-> | ->] by lia; cbn [Z.shiftl Z.add Z.eqb Pos.eqb Z.mul Pos.mul Pos.iter Pos.add Z.pow Z.pow_pos andb]; emit rule_base; value a Ha; apply emits_bind, emits_bind.
  - apply emits_bind, (rule_X_size s0 32); [set_solver|done|done|]. value x Hx. apply emits_bind, emits_ret, emits_bind, (rule_X_size s0 32); [set_solver|done|done|]. value y Hy. eapply rule_Pack2x32; [done|exact Hx|exact Hy|]. value p Hp.
    eapply (exclusive_store_end 64); [set_solver|done|done|exact Ha|exact Hp|]. state. by apply emits_done.
  - apply emits_bind, (rule_X_size s0 64); [set_solver|done|done|]. value x Hx. apply emits_bind, emits_ret, emits_bind, (rule_X_size s0 64); [set_solver|done|done|]. value y Hy. eapply rule_Pack2x64; [done|exact Hx|exact Hy|]. value p Hp.
    eapply (exclusive_store_end 128); [set_solver|done|done|exact Ha|exact Hp|]. state. by apply emits_done.
Qed.
(** *** Barriers *)
Lemma rule_bare o (Q : unit -> Shadow -> St -> Prop) sh s : plain_op o = true -> o <> Op.Void -> snd (Op.info o) = [] -> pure o [] = None -> sh_open sh = true -> (forall sh', grows sh sh' -> Q tt sh' (snd (sem o [] s))) ->
  emits (bind (ir.Inst o []) (fun _ => ret tt)) Q sh s.
Proof.
  intros Hp Hv Hi Hpu Ho HQ. apply emits_bind. eapply (emits_sem s0 _ _ [] _ (snd (sem o [] s))); [done|done|done|by rewrite Hi|by rewrite Hi|rewrite Hi; apply surjective_pairing|]. intros v sh' G _. by apply emits_ret, HQ.
Qed.
Lemma CLREX_ok CRm : translates (visitor.CLREX CRm) (fun _ => clear_exclusive).
Proof.
  intros sh s Ho Ht. apply emits_bind, rule_bare; [vm_compute; reflexivity|done|done|done|done|]. intros sh' G. rewrite sem_clear_exclusive. by apply emits_done.
Qed.
Lemma DSB_ok CRm : translates (visitor.DSB CRm) (fun _ => Next).
Proof. intros sh s Ho Ht. apply emits_bind, rule_bare; [vm_compute; reflexivity|done|done|done|done|]. intros sh' G. rewrite sem_barrier by set_solver. by apply emits_done. Qed.
Lemma DMB_ok CRm : translates (visitor.DMB CRm) (fun _ => Next).
Proof. intros sh s Ho Ht. apply emits_bind, rule_bare; [vm_compute; reflexivity|done|done|done|done|]. intros sh' G. rewrite sem_barrier by set_solver. by apply emits_done. Qed.
End Exclusive.
