(* ===== verification/A64Machine.v ===== *)
(** The instructions by the names the decoder gives them, and a machine that executes
    them one after another as the architecture says, up to the end of a block. *)
From stdpp Require Import list.
From S2P Require Import Prelude Bits IrOpcodes A64Imm Ir A64Jit A64Table A64Decoder IrSem GetSet GetSetSem A64Spec.
Local Open Scope Z_scope.

(** What the architecture leaves open: whether hints raise exceptions, and whether a store
    whose status register is a data register as well is done. *)
Record Choices : Type := { hints_raise : bool; stores_defined : bool }.

Section Machine.
Context {St : Type} `{A64Flow St} (choices : Choices).
Abbreviation hooked := (hints_raise choices).
Abbreviation defined := (stores_defined choices).
Definition behaviour : Type := list Z -> Z -> St -> action (St := St).
Local Abbreviation b x := (negb (x =? 0)).
(** Other numbers of arguments are not decoded. *)
Local Notation "'args' p => f" := (fun l => match l with p => f | _ => fun _ => UNDEFINED end) (at level 10, p pattern, f at level 200).
Definition integer_behaviours : list (string * behaviour) := [
  ("ADD_imm", args [x1; x2; x3; x4; x5] => fun _ => add_sub_imm false false (b x1) x2 x3 x4 x5);
  ("ADD_shift", args [x1; x2; x3; x4; x5; x6] => fun _ => add_sub_shift false false (b x1) x2 x3 x4 x5 x6);
  ("ADD_ext", args [x1; x2; x3; x4; x5; x6] => fun _ => add_sub_ext false false (b x1) x2 x3 x4 x5 x6);
  ("ADDS_imm", args [x1; x2; x3; x4; x5] => fun _ => add_sub_imm false true (b x1) x2 x3 x4 x5);
  ("ADDS_shift", args [x1; x2; x3; x4; x5; x6] => fun _ => add_sub_shift false true (b x1) x2 x3 x4 x5 x6);
  ("ADDS_ext", args [x1; x2; x3; x4; x5; x6] => fun _ => add_sub_ext false true (b x1) x2 x3 x4 x5 x6);
  ("SUB_imm", args [x1; x2; x3; x4; x5] => fun _ => add_sub_imm true false (b x1) x2 x3 x4 x5);
  ("SUB_shift", args [x1; x2; x3; x4; x5; x6] => fun _ => add_sub_shift true false (b x1) x2 x3 x4 x5 x6);
  ("SUB_ext", args [x1; x2; x3; x4; x5; x6] => fun _ => add_sub_ext true false (b x1) x2 x3 x4 x5 x6);
  ("SUBS_imm", args [x1; x2; x3; x4; x5] => fun _ => add_sub_imm true true (b x1) x2 x3 x4 x5);
  ("SUBS_shift", args [x1; x2; x3; x4; x5; x6] => fun _ => add_sub_shift true true (b x1) x2 x3 x4 x5 x6);
  ("SUBS_ext", args [x1; x2; x3; x4; x5; x6] => fun _ => add_sub_ext true true (b x1) x2 x3 x4 x5 x6);
  ("ADC", args [x1; x2; x3; x4] => fun _ => add_sub_carry false false (b x1) x2 x3 x4);
  ("ADCS", args [x1; x2; x3; x4] => fun _ => add_sub_carry false true (b x1) x2 x3 x4);
  ("SBC", args [x1; x2; x3; x4] => fun _ => add_sub_carry true false (b x1) x2 x3 x4);
  ("SBCS", args [x1; x2; x3; x4] => fun _ => add_sub_carry true true (b x1) x2 x3 x4);
  ("AND_imm", args [x1; x2; x3; x4; x5; x6] => fun _ => logical_immediate Z.land false (b x1) (b x2) x3 x4 x5 x6);
  ("ORR_imm", args [x1; x2; x3; x4; x5; x6] => fun _ => logical_immediate Z.lor false (b x1) (b x2) x3 x4 x5 x6);
  ("EOR_imm", args [x1; x2; x3; x4; x5; x6] => fun _ => logical_immediate Z.lxor false (b x1) (b x2) x3 x4 x5 x6);
  ("ANDS_imm", args [x1; x2; x3; x4; x5; x6] => fun _ => logical_immediate Z.land true (b x1) (b x2) x3 x4 x5 x6);
  ("AND_shift", args [x1; x2; x3; x4; x5; x6] => fun _ => logical_shifted Z.land false false (b x1) x2 x3 x4 x5 x6);
  ("BIC_shift", args [x1; x2; x3; x4; x5; x6] => fun _ => logical_shifted Z.land true false (b x1) x2 x3 x4 x5 x6);
  ("ORR_shift", args [x1; x2; x3; x4; x5; x6] => fun _ => logical_shifted Z.lor false false (b x1) x2 x3 x4 x5 x6);
  ("ORN_shift", args [x1; x2; x3; x4; x5; x6] => fun _ => logical_shifted Z.lor true false (b x1) x2 x3 x4 x5 x6);
  ("EOR_shift", args [x1; x2; x3; x4; x5; x6] => fun _ => logical_shifted Z.lxor false false (b x1) x2 x3 x4 x5 x6);
  ("EON", args [x1; x2; x3; x4; x5; x6] => fun _ => logical_shifted Z.lxor true false (b x1) x2 x3 x4 x5 x6);
  ("ANDS_shift", args [x1; x2; x3; x4; x5; x6] => fun _ => logical_shifted Z.land false true (b x1) x2 x3 x4 x5 x6);
  ("BICS", args [x1; x2; x3; x4; x5; x6] => fun _ => logical_shifted Z.land true true (b x1) x2 x3 x4 x5 x6);
  ("MOVN", args [x1; x2; x3; x4] => fun _ => move_wide (move_not x3) (b x1) x2 x3 x4);
  ("MOVZ", args [x1; x2; x3; x4] => fun _ => move_wide (move_zero x3) (b x1) x2 x3 x4);
  ("MOVK", args [x1; x2; x3; x4] => fun _ => move_wide (move_keep x3) (b x1) x2 x3 x4);
  ("SBFM", args [x1; x2; x3; x4; x5; x6] => fun _ => bit_field signed_field (b x1) (b x2) x3 x4 x5 x6);
  ("BFM", args [x1; x2; x3; x4; x5; x6] => fun _ => bit_field insert_field (b x1) (b x2) x3 x4 x5 x6);
  ("UBFM", args [x1; x2; x3; x4; x5; x6] => fun _ => bit_field unsigned_field (b x1) (b x2) x3 x4 x5 x6);
  ("ASR_1", args [x1; x2; x3] => fun _ => shift_immediate false 2 x1 x2 x3);
  ("ASR_2", args [x1; x2; x3] => fun _ => shift_immediate true 2 x1 x2 x3);
  ("SXTB_1", args [x1; x2] => fun _ => sign_extended false 8 x1 x2);
  ("SXTB_2", args [x1; x2] => fun _ => sign_extended true 8 x1 x2);
  ("SXTH_1", args [x1; x2] => fun _ => sign_extended false 16 x1 x2);
  ("SXTH_2", args [x1; x2] => fun _ => sign_extended true 16 x1 x2);
  ("SXTW", args [x1; x2] => fun _ => sign_extended true 32 x1 x2);
  ("EXTR", args [x1; x2; x3; x4; x5; x6] => fun _ => extract (b x1) (b x2) x3 x4 x5 x6);
  ("LSLV", args [x1; x2; x3; x4] => fun _ => shift_register 0 (b x1) x2 x3 x4);
  ("LSRV", args [x1; x2; x3; x4] => fun _ => shift_register 1 (b x1) x2 x3 x4);
  ("ASRV", args [x1; x2; x3; x4] => fun _ => shift_register 2 (b x1) x2 x3 x4);
  ("RORV", args [x1; x2; x3; x4] => fun _ => shift_register 3 (b x1) x2 x3 x4);
  ("ADR", args [x1; x2; x3] => fun pc => address false x1 x2 x3 pc);
  ("ADRP", args [x1; x2; x3] => fun pc => address true x1 x2 x3 pc);
  ("CSEL", args [x1; x2; x3; x4; x5] => fun _ => select (fun y => y) (b x1) x2 x3 x4 x5);
  ("CSINC", args [x1; x2; x3; x4; x5] => fun _ => select (fun y => y + 1) (b x1) x2 x3 x4 x5);
  ("CSINV", args [x1; x2; x3; x4; x5] => fun _ => select Z.lnot (b x1) x2 x3 x4 x5);
  ("CSNEG", args [x1; x2; x3; x4; x5] => fun _ => select Z.opp (b x1) x2 x3 x4 x5);
  ("CCMN_reg", args [x1; x2; x3; x4; x5] => fun _ => compare false (b x1) (X (width_bits (b x1)) x2) x3 x4 x5);
  ("CCMN_imm", args [x1; x2; x3; x4; x5] => fun _ => compare false (b x1) (fun _ => x2) x3 x4 x5);
  ("CCMP_reg", args [x1; x2; x3; x4; x5] => fun _ => compare true (b x1) (X (width_bits (b x1)) x2) x3 x4 x5);
  ("CCMP_imm", args [x1; x2; x3; x4; x5] => fun _ => compare true (b x1) (fun _ => x2) x3 x4 x5);
  ("MADD", args [x1; x2; x3; x4; x5] => fun _ => multiply_add false (b x1) x2 x3 x4 x5);
  ("MSUB", args [x1; x2; x3; x4; x5] => fun _ => multiply_add true (b x1) x2 x3 x4 x5);
  ("SMADDL", args [x1; x2; x3; x4] => fun _ => multiply_add_long false true x1 x2 x3 x4);
  ("SMSUBL", args [x1; x2; x3; x4] => fun _ => multiply_add_long true true x1 x2 x3 x4);
  ("UMADDL", args [x1; x2; x3; x4] => fun _ => multiply_add_long false false x1 x2 x3 x4);
  ("UMSUBL", args [x1; x2; x3; x4] => fun _ => multiply_add_long true false x1 x2 x3 x4);
  ("SMULH", args [x1; x2; x3] => fun _ => multiply_high true x1 x2 x3);
  ("UMULH", args [x1; x2; x3] => fun _ => multiply_high false x1 x2 x3);
  ("UDIV", args [x1; x2; x3; x4] => fun _ => divide false (b x1) x2 x3 x4);
  ("SDIV", args [x1; x2; x3; x4] => fun _ => divide true (b x1) x2 x3 x4);
  ("CLZ_int", args [x1; x2; x3] => fun _ => unary CountLeadingZeroBits (b x1) x2 x3);
  ("CLS_int", args [x1; x2; x3] => fun _ => unary CountLeadingSignBits (b x1) x2 x3);
  ("RBIT_int", args [x1; x2; x3] => fun _ => unary reverse_bits (b x1) x2 x3);
  ("REV", args [x1; x2; x3; x4] => fun _ s => if negb (b x1) && b x2 then UNALLOCATED s else unary (fun w => reverse_bytes w w) (b x1) x3 x4 s);
  ("REV32_int", args [x1; x2] => fun _ => unary (fun w => reverse_bytes w 32) true x1 x2);
  ("REV16_int", args [x1; x2; x3] => fun _ => unary (fun w => reverse_bytes w 16) (b x1) x2 x3);
  ("B_cond", args [x1; x2] => fun pc s => branch_if (ConditionHolds x2 (nzcv s)) pc (offset 19 x1) s);
  ("B_uncond", args [x1] => fun pc => branch pc (offset 26 x1));
  ("BL", args [x1] => fun pc s => branch pc (offset 26 x1) (set_link pc s));
  ("BLR", args [x1] => fun pc s => Jump (X 64 x1 s) (set_link pc s));
  ("BR", args [x1] => fun _ s => Jump (X 64 x1 s) s);
  ("RET", args [x1] => fun _ s => Jump (X 64 x1 s) s);
  ("CBZ", args [x1; x2; x3] => fun pc s => branch_if (Bool.eqb false (negb (X (width_bits (b x1)) x3 s =? 0))) pc (offset 19 x2) s);
  ("CBNZ", args [x1; x2; x3] => fun pc s => branch_if (Bool.eqb true (negb (X (width_bits (b x1)) x3 s =? 0))) pc (offset 19 x2) s);
  ("TBZ", args [x1; x2; x3; x4] => fun pc s => branch_if (Bool.eqb false (Z.testbit (X 64 x4 s) (32 * x1 + x2))) pc (offset 14 x3) s);
  ("TBNZ", args [x1; x2; x3; x4] => fun pc s => branch_if (Bool.eqb true (Z.testbit (X 64 x4 s) (32 * x1 + x2))) pc (offset 14 x3) s);
  ("BRK", args [_] => fun _ => Raise 8);
  ("SVC", args [x1] => fun _ => Supervisor x1);
  ("NOP", args [] => fun _ => Next);
  ("HINT", args [_; _] => fun _ => Next);
  ("YIELD", args [] => fun _ => if hooked then Raise 7 else Next);
  ("WFE", args [] => fun _ => if hooked then Raise 4 else Next);
  ("WFI", args [] => fun _ => if hooked then Raise 3 else Next);
  ("SEV", args [] => fun _ => if hooked then Raise 5 else Next);
  ("SEVL", args [] => fun _ => if hooked then Raise 6 else Next)
].
Definition memory_behaviours : list (string * behaviour) := [
  ("UnallocatedEncoding", args [] => fun _ => UNALLOCATED);
  ("CLREX", args [_] => fun _ => clear_exclusive);
  ("DSB", args [_] => fun _ => Next);
  ("DMB", args [_] => fun _ => Next);
  ("STRx_LDRx_imm_1", args [x1; x2; x3; x4; x5; x6] => fun _ => load_store true (negb (b x4)) x1 x2 (swrap 9 x3) x5 x6);
  ("STRx_LDRx_imm_2", args [x1; x2; x3; x4; x5] => fun _ => load_store false false x1 x2 (x3 * 2 ^ x1) x4 x5);
  ("STURx_LDURx", args [x1; x2; x3; x4; x5] => fun _ => load_store false false x1 x2 (swrap 9 x3) x4 x5);
  ("PRFM_imm", args [_; _; _] => fun _ => Next);
  ("PRFM_unscaled_imm", args [_; _; _] => fun _ => Next);
  ("PRFM_lit", args [_; _] => fun _ => Next);
  ("STRx_reg", args [x1; x2; x3; x4; x5; x6; x7] => fun _ => load_store_register false x1 x2 x3 x4 (b x5) x6 x7);
  ("LDRx_reg", args [x1; x2; x3; x4; x5; x6; x7] => fun _ => load_store_register true x1 x2 x3 x4 (b x5) x6 x7);
  ("LDR_lit_gen", args [x1; x2; x3] => fun pc => load_literal false (width_bits (b x1)) (width_bits (b x1)) x2 x3 pc);
  ("LDRSW_lit", args [x1; x2] => fun pc => load_literal true 32 64 x1 x2 pc);
  ("STP_LDP_gen", args [x1; x2; x3; x4; x5; x6; x7; x8] => fun _ => load_store_pair x1 (b x3) (negb (b x2)) (x4 =? 1) x5 x6 x7 x8);
  ("STNP_LDNP_gen", args [x1; x2; x3; x4; x5; x6] => fun _ => load_store_pair (2 * x1) false false (x2 =? 1) x3 x4 x5 x6);
  ("STTRB", args [x1; x2; x3] => fun _ => load_store_at StoreIt 8 (swrap 9 x1) x2 x3);
  ("STTRH", args [x1; x2; x3] => fun _ => load_store_at StoreIt 16 (swrap 9 x1) x2 x3);
  ("STTR", args [x1; x2; x3; x4] => fun _ => load_store_at StoreIt (size_bits x1) (swrap 9 x2) x3 x4);
  ("LDTRB", args [x1; x2; x3] => fun _ => load_store_at (LoadIt false 32) 8 (swrap 9 x1) x2 x3);
  ("LDTRH", args [x1; x2; x3] => fun _ => load_store_at (LoadIt false 32) 16 (swrap 9 x1) x2 x3);
  ("LDTR", args [x1; x2; x3; x4] => fun _ => load_store_at (LoadIt false (Z.max 32 (size_bits x1))) (size_bits x1) (swrap 9 x2) x3 x4);
  ("LDTRSB", args [x1; x2; x3; x4] => fun _ => load_store_at (signed_transfer x1) 8 (swrap 9 x2) x3 x4);
  ("LDTRSH", args [x1; x2; x3; x4] => fun _ => load_store_at (signed_transfer x1) 16 (swrap 9 x2) x3 x4);
  ("LDTRSW", args [x1; x2; x3] => fun _ => load_store_at (LoadIt true 64) 32 (swrap 9 x1) x2 x3);
  ("STLLR", args [x1; x2; x3] => fun _ => load_store_at StoreIt (size_bits x1) 0 x2 x3);
  ("STLR", args [x1; x2; x3] => fun _ => load_store_at StoreIt (size_bits x1) 0 x2 x3);
  ("LDLAR", args [x1; x2; x3] => fun _ => load_store_at (LoadIt false (if x1 =? 3 then 64 else 32)) (size_bits x1) 0 x2 x3);
  ("LDAR", args [x1; x2; x3] => fun _ => load_store_at (LoadIt false (if x1 =? 3 then 64 else 32)) (size_bits x1) 0 x2 x3);
  ("LDXR", args [x1; x2; x3] => fun _ => load_exclusive x1 x2 x3);
  ("LDAXR", args [x1; x2; x3] => fun _ => load_exclusive x1 x2 x3);
  ("LDXP", args [x1; x2; x3; x4] => fun _ => load_exclusive_pair (32 * 2 ^ x1) x2 x3 x4);
  ("LDAXP", args [x1; x2; x3; x4] => fun _ => load_exclusive_pair (32 * 2 ^ x1) x2 x3 x4);
  ("STXR", args [x1; x2; x3; x4] => fun _ => store_exclusive_one defined x1 x2 x3 x4);
  ("STLXR", args [x1; x2; x3; x4] => fun _ => store_exclusive_one defined x1 x2 x3 x4);
  ("STXP", args [x1; x2; x3; x4; x5] => fun _ => store_exclusive_pair defined (32 * 2 ^ x1) x2 x3 x4 x5);
  ("STLXP", args [x1; x2; x3; x4; x5] => fun _ => store_exclusive_pair defined (32 * 2 ^ x1) x2 x3 x4 x5);
  ("STR_imm_fpsimd_1", args [x1; x2; x3; x4; x5; x6] => fun _ => load_store_vector false true (negb (b x4)) (4 * x2 + x1) (swrap 9 x3) x5 x6);
  ("STR_imm_fpsimd_2", args [x1; x2; x3; x4; x5] => fun _ => load_store_vector false false false (4 * x2 + x1) (x3 * 2 ^ (4 * x2 + x1)) x4 x5);
  ("LDR_imm_fpsimd_1", args [x1; x2; x3; x4; x5; x6] => fun _ => load_store_vector true true (negb (b x4)) (4 * x2 + x1) (swrap 9 x3) x5 x6);
  ("LDR_imm_fpsimd_2", args [x1; x2; x3; x4; x5] => fun _ => load_store_vector true false false (4 * x2 + x1) (x3 * 2 ^ (4 * x2 + x1)) x4 x5);
  ("STUR_fpsimd", args [x1; x2; x3; x4; x5] => fun _ => load_store_vector false false false (4 * x2 + x1) (swrap 9 x3) x4 x5);
  ("LDUR_fpsimd", args [x1; x2; x3; x4; x5] => fun _ => load_store_vector true false false (4 * x2 + x1) (swrap 9 x3) x4 x5);
  ("STR_reg_fpsimd", args [x1; x2; x3; x4; x5; x6; x7] => fun _ => load_store_vector_register false (4 * x2 + x1) x3 x4 (b x5) x6 x7);
  ("LDR_reg_fpsimd", args [x1; x2; x3; x4; x5; x6; x7] => fun _ => load_store_vector_register true (4 * x2 + x1) x3 x4 (b x5) x6 x7);
  ("LDR_lit_fpsimd", args [x1; x2; x3] => fun pc => load_vector_literal x1 x2 x3 pc);
  ("STP_LDP_fpsimd", args [x1; x2; x3; x4; x5; x6; x7; x8] => fun _ => load_store_vector_pair x1 (b x3) (negb (b x2)) (x4 =? 1) x5 x6 x7 x8);
  ("STNP_LDNP_fpsimd", args [x1; x2; x3; x4; x5; x6] => fun _ => load_store_vector_pair x1 false false (x2 =? 1) x3 x4 x5 x6)
].
Definition behaviours : list (string * behaviour) := integer_behaviours ++ memory_behaviours.
Fixpoint find_behaviour (n : string) (l : list (string * behaviour)) : option behaviour :=
  match l with [] => None | (n', f) :: l => if String.eqb n' n then Some f else find_behaviour n l end.
(** Nothing is said about loads of pairs of 32 or 64 bits into vectors. *)
Definition covered (n : string) (l : list Z) : bool :=
  if String.eqb n "STP_LDP_fpsimd" then match l with [opc; _; _; L; _; t2; _; t] => negb (L =? 1) || (2 <=? opc) || (t =? t2) | _ => true end
  else if String.eqb n "STNP_LDNP_fpsimd" then match l with [opc; L; _; t2; _; t] => negb (L =? 1) || (2 <=? opc) || (t =? t2) | _ => true end
  else true.
(** One instruction at [pc]; nothing is said about instructions that are not listed.
    Memory that cannot be executed raises an exception. *)
Definition step (memory_read_code : Z -> option Z) (pc : Z) (s : St) : option action :=
  match memory_read_code pc with
  | None => Some (Raise 9 s)
  | Some instruction =>
      m ← Decode a64_matchers instruction;
      f ← find_behaviour (handler m) behaviours;
      if negb (covered (handler m) (visit_args m instruction)) then None else Some (f (visit_args m instruction) pc s)
  end.
(** Instructions up to one that does not go on with the next, or only one: the address of
    the last and what it does. *)
Fixpoint run_code (memory_read_code : Z -> option Z) (single_step : bool) (fuel : nat) (pc : Z) (s : St) : option (Z * action) :=
  match fuel with
  | O => None
  | Datatypes.S fuel =>
      a ← step memory_read_code pc s;
      match a with
      | Next s' => if single_step then Some (pc, Jump (pc + 4) s') else run_code memory_read_code single_step fuel (canon (pc + 4)) s'
      | _ => Some (pc, a)
      end
  end.
End Machine.
