(* ===== verification/A64Blocks.v ===== *)
(** Every instruction the machine knows is translated to code that does the same, and so
    is a whole block of them: what the translated block does, before and after the
    optimisation passes, is what the machine does. *)
From stdpp Require Import list.
From S2P Require Import Prelude Bits IrOpcodes A64Imm Ir A64Jit A64Table A64Decoder IrSem IrWf IrExec IrArith IrBuild GetSet GetSetSem GetSetSound IrPasses IrHeader IrEmitter EmitLogic A64Spec A64Visitor A64LoadStore A64Translate A64Rules A64Correct A64CorrectData A64CorrectBits A64CorrectReverse A64CorrectBranch A64CorrectMemory A64CorrectPairs A64Machine.
Import Op(Opcode).
Local Open Scope Z_scope.

(** ** Decoding *)

(** Loads and stores with an immediate offset, by the decoder's names. *)
Definition immediate_rows : list inst_row := [
  INST "STURx_LDURx" "STURx/LDURx" "zz111000oo0iiiiiiiii00nnnnnttttt"; INST "STRx_LDRx_imm_1" "STRx/LDRx (immediate)" "zz111000oo0iiiiiiiiip1nnnnnttttt"; INST "STRx_LDRx_imm_2" "STRx/LDRx (immediate)" "zz111001ooiiiiiiiiiiiinnnnnttttt"].
Definition is_immediate (n : string) : bool := existsb (fun r => String.eqb (row_fn r) n) immediate_rows.
Definition allocated (n : string) (l : list Z) : bool :=
  if is_immediate n then match l with size :: opc :: _ => match decode_transfer size opc with Some _ => true | None => false end | _ => true end else true.
Lemma immediate_rows_only : List.filter (fun r => is_immediate (row_fn r)) a64_inc = immediate_rows.
Proof. vm_compute. reflexivity. Qed.
(** The bits of a word by its fields. *)
Lemma field_value i m k : 0 <= k -> Z.shiftl (Z.shiftr (Z.land i (Z.shiftl m k)) k) k = Z.land i (Z.shiftl m k).
Proof.
  intros Hk. apply Z.bits_inj'. intros j Hj. rewrite Z.shiftl_spec by done. destruct (Z.lt_ge_cases j k).
  - rewrite Z.testbit_neg_r by lia. rewrite Z.land_spec, Z.shiftl_spec, (Z.testbit_neg_r m) by lia. by rewrite andb_false_r.
  - rewrite Z.shiftr_spec by lia. by replace (j - k + k) with j by lia.
Qed.
Definition row_mask (r : inst_row) : Z := fst (GetMaskAndExpect (StringToArray (row_bits r))).
Definition row_expected (r : inst_row) : Z := snd (GetMaskAndExpect (StringToArray (row_bits r))).
(** The rows of encodings that are not allocated. *)
Definition unallocated_rows : list inst_row := List.filter (fun r => String.eqb (row_fn r) "UnallocatedEncoding" && negb (String.eqb (row_name r) "Unallocated SIMD modified immediate")) a64_inc.
(** A word of an immediate row with this size and opcode is matched by a more specific
    row of those. *)
Definition excluded (r : inst_row) (size opc : Z) : bool :=
  let fields := Z.lor (row_mask r) (Z.lor (Z.shiftl 3 30) (Z.shiftl 3 22)) in
  let word := Z.lor (row_expected r) (Z.lor (Z.shiftl size 30) (Z.shiftl opc 22)) in
  existsb (fun u => bool_decide (Z.land fields (row_mask u) = row_mask u) && (Z.land word (row_mask u) =? row_expected u) && (count_ones (row_mask r) <? count_ones (row_mask u))%nat) unallocated_rows.
Lemma immediate_excluded : forallb (fun r => excluded r 2 3 && excluded r 3 3) immediate_rows = true.
Proof. vm_compute. reflexivity. Qed.
Lemma immediate_shape : forallb (fun r => match GetMatcher r with Some m => bool_decide (take 2 (arg_masks m) = [Z.shiftl 3 30; Z.shiftl 3 22]) && bool_decide (take 2 (arg_shifts m) = [30; 22]) && negb (comes_first m) | None => false end) immediate_rows = true.
Proof. vm_compute. reflexivity. Qed.
Lemma unallocated_plain : forallb (fun u => match GetMatcher u with Some m => negb (comes_first m) | None => false end) unallocated_rows = true.
Proof. vm_compute. reflexivity. Qed.
Lemma Matches_row r m i : GetMatcher r = Some m -> Matches m i = (Z.land i (row_mask r) =? row_expected r).
Proof. intros Hm. destruct (GetMatcher_mask _ _ Hm) as (E & _). unfold Matches, row_mask, row_expected. by rewrite <- E. Qed.
Lemma decode_transfer_none size opc : 0 <= size < 4 -> 0 <= opc < 4 -> decode_transfer size opc = None -> (size = 2 \/ size = 3) /\ opc = 3.
Proof. intros Hs Ho. few size Hs; few opc Ho; vm_compute; intros E; try discriminate E; auto. Qed.
Lemma immediate_row r : r ∈ a64_inc -> is_immediate (row_fn r) = true -> In r immediate_rows.
Proof. intros Hr Hi. rewrite <- immediate_rows_only. apply filter_In. split; [by apply list_elem_of_In|done]. Qed.
Lemma immediate_row_shape r m : In r immediate_rows -> GetMatcher r = Some m ->
  take 2 (arg_masks m) = [Z.shiftl 3 30; Z.shiftl 3 22] /\ take 2 (arg_shifts m) = [30; 22] /\ comes_first m = false.
Proof.
  intros Hr HG. pose proof (proj1 (forallb_forall _ _) immediate_shape r Hr) as Hs. cbv beta in Hs. rewrite HG in Hs. apply andb_true_iff in Hs as [[Ha%bool_decide_eq_true Hsh%bool_decide_eq_true]%andb_true_iff Hcf%negb_true_iff]. done.
Qed.
Lemma immediate_row_excluded r size opc : In r immediate_rows -> (size = 2 \/ size = 3) /\ opc = 3 -> excluded r size opc = true.
Proof. intros Hr [Hs ->]. pose proof (proj1 (forallb_forall _ _) immediate_excluded r Hr) as Hx. cbv beta in Hx. apply andb_true_iff in Hx as [H2 H3]. by destruct Hs as [-> | ->]. Qed.
Lemma filter_incl {A} (p : A -> bool) l l' : l = List.filter p l' -> forall u, In u l -> u ∈ l'.
Proof. intros -> u Hu. apply list_elem_of_In. by apply filter_In in Hu as [? _]. Qed.
Lemma unallocated_row_in u : In u unallocated_rows -> u ∈ a64_inc.
Proof. apply (filter_incl _ _ _ eq_refl). Qed.
Lemma matcher_given (rows : list inst_row) : forallb (fun u => match GetMatcher u with Some m => negb (comes_first m) | None => false end) rows = true -> forall u, In u rows -> exists m, GetMatcher u = Some m.
Proof. intros Hrows u Hu. rewrite forallb_forall in Hrows. specialize (Hrows u Hu). destruct (GetMatcher u) as [m|]; [by exists m|discriminate]. Qed.
Lemma unallocated_row u : In u unallocated_rows -> u ∈ a64_inc /\ exists m, GetMatcher u = Some m.
Proof. intros Hu. split; [by apply unallocated_row_in|by apply (matcher_given unallocated_rows unallocated_plain)]. Qed.
Lemma excluded_row r size opc : excluded r size opc = true ->
  exists u, In u unallocated_rows /\ Z.land (Z.lor (row_mask r) (Z.lor (Z.shiftl 3 30) (Z.shiftl 3 22))) (row_mask u) = row_mask u /\
    Z.land (Z.lor (row_expected r) (Z.lor (Z.shiftl size 30) (Z.shiftl opc 22))) (row_mask u) = row_expected u /\ (count_ones (row_mask r) < count_ones (row_mask u))%nat.
Proof.
  unfold excluded. intros Hex. apply existsb_exists in Hex as (u & Hu & Hu'). exists u. apply andb_true_iff in Hu' as [[Hsub%bool_decide_eq_true Hexp%Z.eqb_eq]%andb_true_iff Hlt%Nat.ltb_lt]. done.
Qed.
#[local] Opaque a64_inc immediate_rows unallocated_rows a64_matchers excluded GetMatcher GetMaskAndExpect count_ones.
(** The two leading fields of a word. *)
Definition field2 (i k : Z) : Z := Z.shiftr (Z.land i (Z.shiftl 3 k)) k.
Lemma field2_range i k : 0 <= k -> 0 <= field2 i k < 4.
Proof.
  intros Hk. assert (field2 i k = Z.land (Z.shiftr i k) (Z.ones 2)) as ->; [|rewrite Z.land_ones by lia; apply Z.mod_pos_bound; lia].
  unfold field2. apply Z.bits_inj'. intros j Hj. rewrite Z.shiftr_spec, !Z.land_spec, Z.shiftr_spec, Z.shiftl_spec by lia. by replace (j + k - k) with j by lia.
Qed.
Lemma immediate_args r m i : In r immediate_rows -> GetMatcher r = Some m -> exists l, visit_args m i = field2 i 30 :: field2 i 22 :: l.
Proof.
  intros Hr HG. destruct (immediate_row_shape r m Hr HG) as (Ha & Hsh & _). unfold visit_args. revert Ha Hsh. generalize (arg_masks m) (arg_shifts m). intros masks shifts. destruct masks as [|m1 [|m2 ams]]; try done. destruct shifts as [|k1 [|k2 shs]]; try done.
  cbn [take]. intros Ha Hsh. assert (m1 = Z.shiftl 3 30 /\ m2 = Z.shiftl 3 22) as [-> ->] by by inversion Ha. assert (k1 = 30 /\ k2 = 22) as [-> ->] by by inversion Hsh. by eexists.
Qed.
(** A word that a matcher of such a row takes, with fields that are not allocated, is
    taken by the matcher of a row that is not allocated. *)
Lemma excluded_matches r m u mu i : GetMatcher r = Some m -> GetMatcher u = Some mu -> Matches m i = true ->
  Z.land (Z.lor (row_mask r) (Z.lor (Z.shiftl 3 30) (Z.shiftl 3 22))) (row_mask u) = row_mask u ->
  Z.land (Z.lor (row_expected r) (Z.lor (Z.shiftl (field2 i 30) 30) (Z.shiftl (field2 i 22) 22))) (row_mask u) = row_expected u -> Matches mu i = true.
Proof.
  intros HG Hmu HM Hsub Hexp. rewrite (Matches_row _ _ _ Hmu). apply Z.eqb_eq. rewrite (Matches_row _ _ _ HG) in HM. apply Z.eqb_eq in HM. rewrite <- Hsub, <- Hexp, Z.land_assoc. f_equal. rewrite !Z.land_lor_distr_r, HM. unfold field2. by rewrite !field_value by lia.
Qed.
Lemma row_mask_bits r m : GetMatcher r = Some m -> row_mask r = mask m.
Proof. intros Hm. destruct (GetMatcher_mask _ _ Hm) as (E & _). unfold row_mask. by rewrite <- E. Qed.
(** The decoder never gives such a method an encoding that is not allocated, so that its
    assertions hold. *)
Lemma decoded_transfers_allocated i m : Decode a64_matchers i = Some m -> allocated (handler m) (visit_args m i) = true.
Proof.
  intros Hd. unfold allocated. destruct (is_immediate (handler m)) eqn:Him; [|done]. destruct (Decode_Some _ _ _ Hd) as [Hm HM]. apply a64_matchers_elem in Hm as (r & Hr & HG). destruct (GetMatcher_mask _ _ HG) as (_ & Hh & _). rewrite Hh in Him.
  pose proof (immediate_row r Hr Him) as Hin. destruct (immediate_row_shape r m Hin HG) as (_ & _ & Hcf). destruct (immediate_args r m i Hin HG) as [l ->]. destruct (decode_transfer (field2 i 30) (field2 i 22)) eqn:E; [done|]. exfalso.
  apply decode_transfer_none in E; [|apply field2_range; lia..]. destruct (excluded_row _ _ _ (immediate_row_excluded r _ _ Hin E)) as (u & Hu & Hsub & Hexp & Hlt). destruct (unallocated_row u Hu) as [Hui [mu Hmu]].
  pose proof (excluded_matches r m u mu i HG Hmu HM Hsub Hexp) as HMu. rewrite (row_mask_bits r m HG), (row_mask_bits u mu Hmu) in Hlt.
  destruct (Decode_specific _ _ _ mu Hd Hcf) as [_ Hle]; [apply a64_matchers_elem; by exists u|done|]. lia.
Qed.
#[local] Transparent a64_inc immediate_rows unallocated_rows a64_matchers excluded GetMatcher GetMaskAndExpect count_ones.

(** ** Instructions *)
Definition choices_of (options : TranslationOptions) : Choices := {| hints_raise := hook_hint_instructions options; stores_defined := define_unpredictable_behaviour options |}.
Section Rows.
Context {St : Type} `{A64Flow St} (options : TranslationOptions) (s0 : St).
Definition translated (n : string) (f : behaviour (St := St)) : Prop := forall tys args, find_decl n visitor_decls = Some tys -> Forall2 fits tys args -> covered n args = true -> allocated n args = true ->
  exists g, find_method n methods = Some g /\ translates s0 (g options args) (f args).
Ltac fit := solve [done|unfold fits, argty_bits, in_range in *; lia].
Ltac row t :=
  intros tys args Hd Hf Hcov Hall; vm_compute in Hd; injection Hd as <-; repeat (let v := fresh "x" in let Hv := fresh "Hv" in apply Forall2_cons_inv_l in Hf as (v & ? & Hv & Hf & ->)); apply Forall2_nil_inv_l in Hf as ->;
  eexists; split; [reflexivity|]; t; fit.
Lemma integer_translated : Forall (fun r => translated (fst r) (snd r)) (integer_behaviours (choices_of options)).
Proof.
  unfold integer_behaviours. repeat apply Forall_cons_2; [..|apply Forall_nil_2].
  row ltac:(apply addsub_imm_ok; [apply Add_adds|..]). row ltac:(apply addsub_shift_ok; [apply Add_adds|..]). row ltac:(apply addsub_ext_ok; [apply Add_adds|..]).
  row ltac:(apply addsub_imm_flags_ok; [apply Add_adds|..]). row ltac:(apply addsub_shift_ok; [apply Add_adds|..]). row ltac:(apply addsub_ext_flags_ok; [apply Add_adds|..]).
  row ltac:(apply addsub_imm_ok; [apply Sub_adds|..]). row ltac:(apply addsub_shift_ok; [apply Sub_adds|..]). row ltac:(apply addsub_ext_ok; [apply Sub_adds|..]).
  row ltac:(apply addsub_imm_flags_ok; [apply Sub_adds|..]). row ltac:(apply addsub_shift_ok; [apply Sub_adds|..]). row ltac:(apply addsub_ext_flags_ok; [apply Sub_adds|..]).
  row ltac:(apply (addsub_carry_ok s0 false false)). row ltac:(apply (addsub_carry_ok s0 false true)). row ltac:(apply (addsub_carry_ok s0 true false)).
  row ltac:(apply (addsub_carry_ok s0 true true)). row ltac:(apply (logical_imm_ok s0 _ _ andb); [apply (And_bitwise s0 false)|intros; apply Z.land_spec|..]).
  row ltac:(apply (logical_imm_ok s0 _ _ orb); [apply Or_bitwise|intros; apply Z.lor_spec|..]).
  row ltac:(apply (logical_imm_ok s0 _ _ xorb); [apply Eor_bitwise|intros; apply Z.lxor_spec|..]). row ltac:(apply ANDS_imm_ok).
  row ltac:(eapply logical_shift_ok; [apply And_bitwise|apply same_op_refl|..]). row ltac:(eapply logical_shift_ok; [apply AndNot_bitwise|apply and_not_same|..]).
  row ltac:(eapply logical_shift_ok; [apply Or_bitwise|apply same_op_refl|..]). row ltac:(eapply logical_shift_ok; [apply Or_bitwise|apply same_op_refl|..]).
  row ltac:(eapply logical_shift_ok; [apply Eor_bitwise|apply same_op_refl|..]). row ltac:(eapply logical_shift_ok; [apply Eor_bitwise|apply same_op_refl|..]).
  row ltac:(eapply logical_shift_ok; [apply And_bitwise|apply same_op_refl|..]). row ltac:(eapply logical_shift_ok; [apply AndNot_bitwise|apply and_not_same|..]).
  row ltac:(apply MOVN_ok). row ltac:(apply MOVZ_ok). row ltac:(apply MOVK_ok). row ltac:(apply SBFM_ok). row ltac:(apply BFM_ok). row ltac:(apply UBFM_ok).
  row ltac:(apply (ASR_imm_ok s0 false)). row ltac:(apply (ASR_imm_ok s0 true)). row ltac:(apply SXTB_1_ok). row ltac:(apply SXTB_2_ok). row ltac:(apply SXTH_1_ok).
  row ltac:(apply SXTH_2_ok). row ltac:(apply SXTW_ok). row ltac:(apply EXTR_ok). row ltac:(apply LSLV_ok). row ltac:(apply LSRV_ok). row ltac:(apply ASRV_ok).
  row ltac:(apply RORV_ok). row ltac:(apply ADR_ok). row ltac:(apply ADRP_ok). row ltac:(apply CSEL_ok). row ltac:(apply CSINC_ok). row ltac:(apply CSINV_ok).
  row ltac:(apply CSNEG_ok). row ltac:(apply (CCM_reg_ok s0 false)). row ltac:(apply (CCM_imm_ok s0 false)). row ltac:(apply (CCM_reg_ok s0 true)).
  row ltac:(apply (CCM_imm_ok s0 true)). row ltac:(apply multiply_ok; [apply Add_adds|..]). row ltac:(apply multiply_ok; [apply Sub_adds|..]).
  row ltac:(apply (multiply_long_ok s0 true); [apply Add_adds|..]). row ltac:(apply (multiply_long_ok s0 true); [apply Sub_adds|..]).
  row ltac:(apply (multiply_long_ok s0 false); [apply Add_adds|..]). row ltac:(apply (multiply_long_ok s0 false); [apply Sub_adds|..]).
  row ltac:(apply (multiply_high_ok s0 true)). row ltac:(apply (multiply_high_ok s0 false)). row ltac:(apply (divide_ok s0 false)). row ltac:(apply (divide_ok s0 true)).
  row ltac:(apply CLZ_int_ok). row ltac:(apply CLS_int_ok). row ltac:(apply RBIT_int_ok). row ltac:(apply REV_ok). row ltac:(apply REV32_int_ok). row ltac:(apply REV16_int_ok).
  row ltac:(apply B_cond_ok). row ltac:(apply B_uncond_ok). row ltac:(apply BL_ok). row ltac:(apply BLR_ok). row ltac:(apply BR_ok). row ltac:(apply RET_ok).
  row ltac:(apply (compare_branch_ok s0 false)). row ltac:(apply (compare_branch_ok s0 true)). row ltac:(apply (test_branch_ok s0 false)).
  row ltac:(apply (test_branch_ok s0 true)). row ltac:(apply BRK_ok). row ltac:(apply SVC_ok). row ltac:(apply NOP_ok). row ltac:(apply NOP_ok).
  row ltac:(apply (hint_ok s0 options)). row ltac:(apply (hint_ok s0 options)). row ltac:(apply (hint_ok s0 options)). row ltac:(apply (hint_ok s0 options)).
  row ltac:(apply (hint_ok s0 options)).
Qed.
(** What the arguments of a decoded or covered instruction satisfy. *)
Lemma allocated_transfer n size opc l : is_immediate n = true -> allocated n (size :: opc :: l) = true -> decode_transfer size opc <> None.
Proof. unfold allocated. intros ->. by destruct (decode_transfer size opc). Qed.
Lemma covered_pair (L opc t t2 : Z) : opc < 4 -> negb (L =? 1) || (2 <=? opc) || (t =? t2) = true -> L = 1 -> opc = 2 \/ opc = 3 \/ t = t2.
Proof. intros Hop Hc ->. cbn [Z.eqb Pos.eqb negb orb] in Hc. apply orb_true_iff in Hc as [?%Z.leb_le|?%Z.eqb_eq]; lia. Qed.
Lemma LDTRS_ok size opc imm9 Rn Rt : 0 <= size < 2 -> 0 <= opc < 4 -> 0 <= Rn < 32 -> 0 <= Rt < 32 ->
  translates s0 (loadstore.LoadRegisterSigned (size_bits size) opc imm9 Rn Rt) (fun _ => load_store_at (signed_transfer opc) (size_bits size) (swrap 9 imm9) Rn Rt).
Proof. intros Hs Hop Hn Ht. apply LoadRegisterSigned_ok; try done. clear Hn Ht. assert (size = 0 \/ size = 1) as [-> | ->] by lia; few opc Hop; reflexivity. Qed.
Lemma STTR_ok size imm9 Rn Rt : 0 <= size < 4 -> 0 <= Rn < 32 -> 0 <= Rt < 32 -> translates s0 (loadstore.STTR size imm9 Rn Rt) (fun _ => load_store_at StoreIt (size_bits size) (swrap 9 imm9) Rn Rt).
Proof. intros Hs Hn Ht. unfold loadstore.STTR. rewrite shiftl_size by lia. apply StoreRegister_ok; [by apply scale_lane|done..]. Qed.
Lemma LDTR_ok size imm9 Rn Rt : 0 <= size < 4 -> 0 <= Rn < 32 -> 0 <= Rt < 32 -> translates s0 (loadstore.LDTR size imm9 Rn Rt) (fun _ => load_store_at (LoadIt false (Z.max 32 (size_bits size))) (size_bits size) (swrap 9 imm9) Rn Rt).
Proof. intros Hs Hn Ht. unfold loadstore.LDTR. rewrite shiftl_size by lia. apply LoadRegister_ok; [by apply scale_lane|done..]. Qed.
Lemma skipped_ok : translates s0 (ret true) (fun _ => Next).
Proof. apply NOP_ok. Qed.
Ltac transfer := lazymatch goal with HA : allocated _ _ = true |- _ => apply allocated_transfer in HA; [|reflexivity] end.
Lemma memory_translated : Forall (fun r => translated (fst r) (snd r)) (memory_behaviours (choices_of options)).
Proof.
  unfold memory_behaviours. repeat apply Forall_cons_2; [..|apply Forall_nil_2].
  row ltac:(apply UnallocatedEncoding_ok). row ltac:(apply CLREX_ok). row ltac:(apply DSB_ok). row ltac:(apply DMB_ok).
  row ltac:(transfer; apply STRx_LDRx_imm_1_ok). row ltac:(transfer; apply STRx_LDRx_imm_2_ok). row ltac:(transfer; apply STURx_LDURx_ok).
  row ltac:(apply skipped_ok). row ltac:(apply skipped_ok). row ltac:(apply skipped_ok). row ltac:(apply (register_offset_ok s0 false)). row ltac:(apply (register_offset_ok s0 true)).
  row ltac:(apply LDR_lit_gen_ok). row ltac:(apply LDRSW_lit_ok). row ltac:(apply STP_LDP_gen_ok). row ltac:(apply STNP_LDNP_gen_ok).
  row ltac:(apply StoreRegister_ok; [set_solver|..]). row ltac:(apply StoreRegister_ok; [set_solver|..]). row ltac:(apply STTR_ok).
  row ltac:(apply (LoadRegister_ok s0 8); [set_solver|..]). row ltac:(apply (LoadRegister_ok s0 16); [set_solver|..]). row ltac:(apply LDTR_ok).
  row ltac:(apply (LDTRS_ok 0)). row ltac:(apply (LDTRS_ok 1)). row ltac:(apply LDTRSW_ok).
  row ltac:(apply (Ordered_ok s0 false)). row ltac:(apply (Ordered_ok s0 false)). row ltac:(apply (Ordered_ok s0 true)). row ltac:(apply (Ordered_ok s0 true)).
  row ltac:(apply exclusive_load_ok). row ltac:(apply exclusive_load_ok). row ltac:(apply exclusive_load_pair_ok). row ltac:(apply exclusive_load_pair_ok).
  row ltac:(apply exclusive_store_ok). row ltac:(apply exclusive_store_ok). row ltac:(apply exclusive_store_pair_ok). row ltac:(apply exclusive_store_pair_ok).
  row ltac:(apply (simd_imm_1_ok s0 false)). row ltac:(apply (simd_imm_2_ok s0 false)). row ltac:(apply (simd_imm_1_ok s0 true)). row ltac:(apply (simd_imm_2_ok s0 true)).
  row ltac:(apply (simd_unscaled_ok s0 false)). row ltac:(apply (simd_unscaled_ok s0 true)). row ltac:(apply (vector_offset_ok s0 false)). row ltac:(apply (vector_offset_ok s0 true)).
  row ltac:(apply LDR_lit_fpsimd_ok). row ltac:(apply STP_LDP_fpsimd_ok; [..|apply (covered_pair _ _ _ _); [fit|exact Hcov]| | |]). row ltac:(apply STNP_LDNP_fpsimd_ok; [..|apply (covered_pair _ _ _ _); [fit|exact Hcov]| | |]).
Qed.
Lemma behaviours_translated : Forall (fun r => translated (fst r) (snd r)) (behaviours (choices_of options)).
Proof. apply Forall_app. split; [apply integer_translated|apply memory_translated]. Qed.
End Rows.

(** ** Blocks *)
Section Blocks.
Context {St : Type} `{A64Flow St} (other : string -> method) (memory_read_code : Z -> option Z) (options : TranslationOptions) (s0 : St).
Abbreviation choices := (choices_of options).
Abbreviation emits := (emits s0).
Implicit Types (sh : Shadow) (s : St).

Lemma find_behaviour_elem n f l : find_behaviour (St := St) n l = Some f -> (n, f) ∈ l.
Proof.
  induction l as [|[n' f'] l IH]; simpl; [done|]. destruct (String.eqb_spec n' n) as [->|]; [intros [= ->]; apply list_elem_of_here|]. intros Hf. apply list_elem_of_further, IH, Hf.
Qed.
Lemma step_ok a sh s : sh_open sh = true -> sh_term sh = Invalid -> step choices memory_read_code (LocationDescriptor.PC (sh_loc sh)) s = Some a ->
  emits (match memory_read_code (LocationDescriptor.PC (sh_loc sh)) with Some instruction => translate_word other options instruction | None => visitor.RaiseException Exception.NoExecuteFault end) (performs sh a) sh s.
Proof.
  intros Ho Ht. unfold step. destruct (memory_read_code _) as [i|]; [|intros [= <-]; by apply (RaiseException_ok s0 9)]. unfold translate_word. destruct (Decode a64_matchers i) as [m|] eqn:Ed; [|done]. cbn [mbind option_bind].
  destruct (find_behaviour _ _) as [f|] eqn:Ef; [|done]. cbn [mbind option_bind]. destruct (covered _ _) eqn:Ec; cbn [negb]; [|done]. intros [= <-]. destruct (Decode_call i m Ed) as (tys & Htys & Hfit & Hcall). apply find_behaviour_elem in Ef.
  pose proof (behaviours_translated options s0) as Hall. rewrite Forall_forall in Hall. destruct (Hall _ Ef tys _ Htys Hfit Ec (decoded_transfers_allocated i m Ed)) as (g & Hg & Htr). apply emits_bind. eapply emits_lift; [exact Hcall|]. cbn [fst snd].
  cbn [fst snd] in Hg, Htr. unfold visit. rewrite Hg. by apply Htr.
Qed.
Definition moved (l : LocationDescriptor.t) (sh : Shadow) : Shadow :=
  {| sh_next := sh_next sh; sh_env := sh_env sh; sh_loc := l; sh_term := sh_term sh; sh_last := sh_last sh; sh_open := sh_open sh |}.
Lemma rule_next_instruction (Q : unit -> Shadow -> St -> Prop) sh s : Q tt (moved (LocationDescriptor.AdvancePC (sh_loc sh) 4) sh) s -> emits next_instruction Q sh s.
Proof.
  intros HQ em Hr. pose proof Hr as [R1 R2 R3 R4 R5 R6 R7 R8 R9 R10 R11 R12]. eexists tt, _, _, s. split_and!; [reflexivity| |exact HQ]. rewrite <- R10.
  constructor; cbn [block with_block with_location sh_next sh_env sh_loc sh_term sh_last sh_open current_location moved]; try done.
  - apply (same_core_wf (block em)); [done..|]. exact R1.
  - apply AdvancePC_valid. by rewrite R10.
Qed.
(** What the loop leaves: with more to come only when single stepping. *)
Definition loop_left (single_step : bool) (pc : Z) (a : action) (c : bool) (sh : Shadow) (s : St) : Prop :=
  if c then single_step = true /\ sh_term sh = Invalid /\ a = Jump (pc + 4) s /\ LocationDescriptor.PC (sh_loc sh) = canon (pc + 4) else ends pc a (sh_term sh) s.
Lemma translate_loop_ok single_step fuel : forall pc a sh s, sh_open sh = true -> sh_term sh = Invalid ->
  run_code choices memory_read_code single_step fuel (LocationDescriptor.PC (sh_loc sh)) s = Some (pc, a) ->
  emits (translate_loop other memory_read_code options fuel single_step) (loop_left single_step pc a) sh s.
Proof.
  induction fuel as [|fuel IH]; intros pc a sh s Ho Ht; [done|]. cbn [run_code translate_loop]. destruct (step _ _ _ _) as [a1|] eqn:Es; [|done]. cbn [mbind option_bind]. intros Hrun.
  apply emits_bind, emits_PC. apply emits_bind. eapply emits_mono; [by apply step_ok|]. intros c sh1 s1 Hp. apply emits_bind, rule_next_instruction.
  destruct a1 as [s2|t s2|e s2|i s2]; cbn [performs] in Hp; (destruct Hp as (-> & Hp); cbn [andb]).
  - destruct Hp as [G ->]. destruct (grows_start _ _ G Ht) as [Ht1 Hl1]. assert (Hpc : LocationDescriptor.PC (sh_loc (moved (LocationDescriptor.AdvancePC (sh_loc sh1) 4) sh1)) = canon (LocationDescriptor.PC (sh_loc sh) + 4)) by (cbn [moved sh_loc]; by rewrite PC_AdvancePC, Hl1).
    destruct single_step; cbn [negb].
    + injection Hrun as <- <-. apply emits_ret. done.
    + apply IH; [exact (open_grows _ _ G Ho)|done|]. by rewrite Hpc.
  - destruct Hp as [Hl He]. injection Hrun as <- <-. by apply emits_ret.
  - destruct Hp as [Hl He]. injection Hrun as <- <-. by apply emits_ret.
  - destruct Hp as [Hl He]. injection Hrun as <- <-. by apply emits_ret.
Qed.

(** The block after the loop. *)
Lemma ends_terminal pc a t s : ends pc a t s -> t <> Invalid.
Proof. destruct a as [s'|target s'|e s'|i s']; simpl; [done|by intros [_ Hl] ->|by intros (? & _ & _ & _ & ->)|by intros (? & _ & _ & _ & ->)]. Qed.
Definition start (l : LocationDescriptor.t) : Shadow := {| sh_next := 0; sh_env := ∅; sh_loc := l; sh_term := Invalid; sh_last := None; sh_open := true |}.
Lemma start_related l : LocationDescriptor.valid l ->
  related s0 {| block := new_Block (LocationDescriptor.UniqueHash l); current_location := l |} (start l) s0.
Proof.
  intros Hl. destruct (new_Block_wf (LocationDescriptor.UniqueHash l)) as [Hw Hf]. constructor; cbn [start sh_env sh_loc sh_term sh_last sh_next sh_open block current_location]; try done.
  - intros i. rewrite lookup_empty. split; [by intros ?%not_elem_of_nil|by intros [? ?]].
  - intros c p vs Hc. by apply not_elem_of_nil in Hc.
Qed.
Lemma related_use em sh s : related s0 em sh s -> register_use (block em) /\ exact_writes (block em) [] (instructions (block em)).
Proof.
  intros Hr. split.
  - apply register_use_code; [apply (rl_wf _ _ _ _ Hr)|apply (rl_use _ _ _ _ Hr)|]. intros c Hc He. by apply (rl_escape _ _ _ _ Hr).
  - intros s' l1 c l2 o vs k E Hc Ha Hn. exfalso. assert (Hin : (c, o, take (GetNumArgsOf o) vs) ∈ code (block em)) by (apply code_elem; split; [rewrite E; set_solver|by rewrite (entry_of_core _ _ _ _ Hc)]).
    destruct (rl_use _ _ _ _ Hr _ _ _ Hin) as [_ Hu]. destruct (Hu _ _ Ha) as [_ Hnar]. by rewrite (Hnar eq_refl) in Hn.
Qed.
Lemma Translate_ok fuel descriptor pc a : LocationDescriptor.valid descriptor ->
  run_code choices memory_read_code (LocationDescriptor.single_stepping descriptor) fuel (LocationDescriptor.PC descriptor) s0 = Some (pc, a) ->
  exists b, Translate other memory_read_code options fuel descriptor = Ret b /\ wf b /\ register_use b /\ exact_writes b [] (instructions b) /\ ends pc a (terminal b) (run_block b s0).
Proof.
  intros Hl Hrun. pose proof (start_related descriptor Hl) as Hr0. unfold Translate, Translate_steps. set (single := LocationDescriptor.single_stepping descriptor) in *.
  destruct (translate_loop_ok single fuel pc a (start descriptor) s0 eq_refl eq_refl Hrun _ Hr0) as (c & em & sh & s & E & Hr & Hleft).
  assert (Hterm : emits (if single && c then let! l := gets current_location in ir.SetTerm (visitor.LinkTo l) else ret tt) (fun _ sh' s' => ends pc a (sh_term sh') s') sh s).
  { destruct c; cbn [loop_left] in Hleft; [|rewrite andb_false_r; by apply emits_ret]. destruct Hleft as (-> & Ht & -> & Hpc). cbn [andb]. apply emits_bind, emits_loc. apply emits_valid. intros Hv.
    apply emits_SetTerm; [done|]. split; [done|]. cbn [sh_term]. by rewrite leave_link, Hpc by done. }
  destruct (Hterm em Hr) as (u & em2 & sh2 & s2 & E2 & Hr2 & Hends). unfold bind at 1. rewrite E. unfold bind at 1. rewrite E2. unfold bind, gets, assert_, modify, ret, set_end_location.
  assert (Hh : HasTerminal (block em2) = true) by (unfold HasTerminal; rewrite (rl_term _ _ _ _ Hr2); by destruct (sh_term sh2) eqn:Et; [destruct (ends_terminal _ _ _ _ Hends)|..]).
  rewrite Hh. eexists. split; [reflexivity|]. cbn [block with_block]. destruct (related_use _ _ _ Hr2) as [Hu Hx]. split_and!.
  - apply (same_core_wf (block em2)); [done..|]. apply (rl_wf _ _ _ _ Hr2).
  - by apply (same_core_use (block em2)).
  - by apply (same_core_exact (block em2)).
  - cbn [terminal with_end_location]. rewrite (rl_term _ _ _ _ Hr2). unfold run_block. change (code (with_end_location _ (block em2))) with (code (block em2)). by rewrite (rl_exec _ _ _ _ Hr2).
Qed.
(** C3. The translation of a block is correct: if the machine executes the code at a
    location up to an instruction that does not go on with the next one (or one
    instruction, when single stepping), then [Translate] succeeds within as many turns
    of its loop, the block it makes is well-formed, and running it leaves the registers
    and the memory as the machine does and leaves by its terminal for where the machine
    goes next, or raises the exception or calls the supervisor that the machine does. *)
Theorem translation_correct fuel descriptor pc a (Hl : LocationDescriptor.valid descriptor)
  (Hrun : run_code choices memory_read_code (LocationDescriptor.single_stepping descriptor) fuel (LocationDescriptor.PC descriptor) s0 = Some (pc, a)) :
  exists b, Translate other memory_read_code options fuel descriptor = Ret b /\ wf b /\ ends pc a (terminal b) (run_block b s0).
Proof. destruct (Translate_ok fuel descriptor pc a Hl Hrun) as (b & Hb & Hw & _ & _ & He). by exists b. Qed.
(** C4. The optimised block is correct as well: the passes, in any configuration, succeed
    on the translated block, keep its terminal, and what they leave does what the machine
    does.  Constant propagation is taken not to come upon what it gets wrong. *)
Theorem compilation_correct fuel descriptor pc a get_set const_prop (Hl : LocationDescriptor.valid descriptor)
  (Hrun : run_code choices memory_read_code (LocationDescriptor.single_stepping descriptor) fuel (LocationDescriptor.PC descriptor) s0 = Some (pc, a))
  (Hprop : forall b, Translate other memory_read_code options fuel descriptor = Ret b -> propagates get_set const_prop b = true) :
  exists b b', Translate other memory_read_code options fuel descriptor = Ret b /\ passes get_set const_prop b = Ret b' /\ wf b' /\ header b' = header b /\ ends pc a (terminal b') (run_block b' s0).
Proof.
  destruct (Translate_ok fuel descriptor pc a Hl Hrun) as (b & Hb & Hw & Hu & Hx & He). destruct (passes_ok get_set const_prop b Hw Hu Hx (Hprop b Hb)) as (b' & Hp & Hw' & _ & Hs). pose proof (passes_kept get_set const_prop b) as Hk. rewrite Hp in Hk. cbn [leaves] in Hk.
  exists b, b'. split_and!; [done..|]. rewrite Hs. injection Hk as _ _ -> _ _. done.
Qed.
End Blocks.
