(* ===== verification/A64Examples.v ===== *)
(** Code that is executed by the machine, translated, optimised and run. *)
From stdpp Require Import list.
From S2P Require Import Prelude Bits IrOpcodes A64Imm Ir A64Jit A64Table A64Decoder IrSem IrWf GetSet GetSetSem IrPasses IrHeader IrGuest IrEmitter A64Spec A64Visitor A64LoadStore A64Translate A64Machine A64Blocks.
Local Open Scope Z_scope.

(** ** Six instructions *)
Definition add_row : inst_row := INST "ADD_imm" "ADD (immediate)" "z0010001ssiiiiiiiiiiiinnnnnddddd".
Definition subs_row : inst_row := INST "SUBS_shift" "SUBS (shifted register)" "z1101011ss0mmmmmiiiiiinnnnnddddd".
Definition csinc_row : inst_row := INST "CSINC" "CSINC" "z0011010100mmmmmcccc01nnnnnddddd".
Definition cbnz_row : inst_row := INST "CBNZ" "CBNZ" "z0110101iiiiiiiiiiiiiiiiiiittttt".
Definition stlr_row : inst_row := INST "STLR" "STLRB, STLRH, STLR" "zz00100010011111111111nnnnnttttt".
Definition ldr_row : inst_row := INST "LDRx_reg" "LDRx (register)" "zz111000o11mmmmmxxxS10nnnnnttttt".
Definition matcher_of (r : inst_row) : Matcher := default svc_matcher (GetMatcher r).
(** No other row matches a word of these. *)
Definition alone (r : inst_row) : bool :=
  bool_decide (overlapping r a64_inc = [r]) && match GetMatcher r with Some m => negb (comes_first m) | None => false end.
Lemma Decode_matcher_of r i : alone r = true -> Matches (matcher_of r) i = true -> Decode a64_matchers i = Some (matcher_of r).
Proof.
  unfold alone, matcher_of. intros [Ho%bool_decide_eq_true Hm]%andb_true_iff. destruct (GetMatcher r) as [m|] eqn:E; [|done]. apply negb_true_iff in Hm. by apply (Decode_alone r).
Qed.
Lemma rows_alone : forallb alone [add_row; subs_row; csinc_row; stlr_row; ldr_row; cbnz_row] = true.
Proof. vm_compute. reflexivity. Qed.
(** ADD X1, X0, #5; SUBS X2, X1, X0; CSINC X3, X1, X2, NE; STLR X1, [X0]; LDR W4, [X0, XZR]; CBNZ X2, +8 at 0x1000. *)
Definition sample_code (pc : Z) : option Z :=
  if pc =? 0x1000 then Some 0x91001401 else if pc =? 0x1004 then Some 0xEB000022 else if pc =? 0x1008 then Some 0x9A821423 else if pc =? 0x100C then Some 0xC89FFC01 else if pc =? 0x1010 then Some 0xB87F6804 else if pc =? 0x1014 then Some 0xB5000042 else None.
Definition row_at (pc : Z) : inst_row := if pc =? 0x1000 then add_row else if pc =? 0x1004 then subs_row else if pc =? 0x1008 then csinc_row else if pc =? 0x100C then stlr_row else if pc =? 0x1010 then ldr_row else cbnz_row.
Lemma sample_decode pc i : sample_code pc = Some i -> Decode a64_matchers i = Some (matcher_of (row_at pc)).
Proof.
  pose proof rows_alone as Ha. rewrite forallb_forall in Ha. unfold sample_code, row_at.
  repeat match goal with |- context [pc =? ?k] => destruct (pc =? k); [intros E; injection E as <-; (apply Decode_matcher_of; [apply Ha; simpl; tauto|vm_compute; reflexivity])|] end. done.
Qed.
Definition sample_options : TranslationOptions := {| define_unpredictable_behaviour := false; wall_clock_cntpct := false; hook_hint_instructions := false |}.
Abbreviation sample_choices := (choices_of sample_options).
Definition unknown (name : string) : method := fun _ _ => stop Undefined.
Definition at_1000 (single_step : bool) : LocationDescriptor.t := LocationDescriptor.make 0x1000 0 single_step.
Lemma at_1000_valid single_step : LocationDescriptor.valid (at_1000 single_step).
Proof. apply LocationLemmas.make_valid; by split. Qed.
(** X0 is 7. *)
Definition seven : Guest := new_guest {[0 := 7]} 0.
Definition after_add : Guest := guest_wr (RegLoc 1) 12 seven.
Definition after_subs : Guest := guest_wr (RegLoc 2) 5 (guest_wr NZCVLoc 2 after_add).
Definition after_csinc : Guest := guest_wr (RegLoc 3) 12 after_subs.
(** The eight bytes at 7, which X0 holds, are 12 now. *)
Definition after_stlr : Guest := guest_set_memory (bytes_write 64 7 12 (guest_mem after_csinc)) after_csinc.
Definition after_sample : Guest := guest_wr (RegLoc 4) 12 after_stlr.

(** *** In the machine *)
Lemma sample_step pc s i n l f : sample_code pc = Some i -> handler (matcher_of (row_at pc)) = n -> visit_args (matcher_of (row_at pc)) i = l -> find_behaviour n (behaviours (St := Guest) sample_choices) = Some f -> covered n l = true ->
  step sample_choices sample_code pc s = Some (f l pc s).
Proof. intros Hi <- <- Hf Hc. unfold step. rewrite Hi, (sample_decode pc i Hi). cbn [mbind option_bind]. by rewrite Hf, Hc. Qed.
Lemma run_code_next fuel pc (s s' : Guest) : step sample_choices sample_code pc s = Some (Next s') -> run_code sample_choices sample_code false (Datatypes.S fuel) pc s = run_code sample_choices sample_code false fuel (canon (pc + 4)) s'.
Proof. intros Hs. cbn [run_code]. by rewrite Hs. Qed.
Ltac sample_step := erewrite sample_step; [|vm_compute; reflexivity..|reflexivity|reflexivity]; vm_compute; reflexivity.
Lemma sample_runs : run_code sample_choices sample_code false 10 0x1000 seven = Some (0x1014, Jump 0x101C after_sample).
Proof.
  rewrite (run_code_next 9 0x1000 seven after_add) by sample_step. change (canon _) with 0x1004. rewrite (run_code_next 8 _ _ after_subs) by sample_step. change (canon _) with 0x1008. rewrite (run_code_next 7 _ _ after_csinc) by sample_step. change (canon _) with 0x100C.
  rewrite (run_code_next 6 _ _ after_stlr) by sample_step. change (canon _) with 0x1010. rewrite (run_code_next 5 _ _ after_sample) by sample_step. change (canon _) with 0x1014.
  unfold run_code; fold (@run_code Guest). assert (step sample_choices sample_code 0x1014 after_sample = Some (Jump 0x101C after_sample)) as -> by sample_step. reflexivity.
Qed.
Lemma sample_single_step : run_code sample_choices sample_code true 1 0x1000 seven = Some (0x1000, Jump 0x1004 after_add).
Proof. cbn [run_code]. assert (step sample_choices sample_code 0x1000 seven = Some (Next after_add)) as -> by sample_step. reflexivity. Qed.

(** *** Translated *)
Lemma translation_witness : exists b, Translate unknown sample_code sample_options 10 (at_1000 false) = Ret b /\ wf b /\ ends 0x1014 (Jump 0x101C after_sample) (terminal b) (run_block b seven).
Proof. apply (translation_correct (H := guest_flow) unknown sample_code sample_options seven); [apply at_1000_valid|exact sample_runs]. Defined.
(** The addition by itself: a load, the sum and a store. *)
Definition add_block : Block := match (let! c := visit unknown "ADD_imm" sample_options [1; 0; 5; 0; 1] in next_instruction ;; let! l := gets current_location in ir.SetTerm (visitor.LinkTo l) ;; set_end_location)
  {| block := new_Block (LocationDescriptor.UniqueHash (at_1000 true)); current_location := at_1000 true |} with (_, e) => block e end.
Lemma add_translated : Translate unknown sample_code sample_options 1 (at_1000 true) = Ret add_block.
Proof.
  assert (Hw : forall e, translate_word unknown sample_options 0x91001401 e = visit unknown "ADD_imm" sample_options [1; 0; 5; 0; 1] e).
  { intros e. unfold translate_word. rewrite (sample_decode 0x1000 _ eq_refl). reflexivity. }
  unfold Translate, Translate_steps, translate_loop. unfold bind at 1 2 3. unfold ir.PC, gets at 1. change (sample_code _) with (Some 0x91001401). cbn beta iota. rewrite Hw. vm_compute. reflexivity.
Qed.
Example add_block_code : map (opcode_of add_block) (instructions add_block) = [Op.A64GetX; Op.Add64; Op.A64SetX] /\ terminal add_block = LinkBlock (LocationDescriptor.UniqueHash (LocationDescriptor.make 0x1004 0 true)) /\ cycle_count add_block = 1.
Proof. by vm_compute. Qed.
Lemma add_propagates b : Translate unknown sample_code sample_options 1 (at_1000 true) = Ret b -> propagates true true b = true.
Proof.
  rewrite add_translated. generalize (eq_refl : propagates true true add_block = true). generalize add_block. intros b' Hb' E. injection E as <-. exact Hb'.
Qed.
Lemma compilation_witness : exists b b', Translate unknown sample_code sample_options 1 (at_1000 true) = Ret b /\ passes true true b = Ret b' /\ wf b' /\ header b' = header b /\
  ends 0x1000 (Jump 0x1004 after_add) (terminal b') (run_block b' seven).
Proof.
  apply (compilation_correct (H := guest_flow) unknown sample_code sample_options seven); [apply at_1000_valid|exact sample_single_step|]. exact add_propagates.
Defined.
