(* ===== verification/Oaknut.v ===== *)
(** The part of the oaknut assembler the trampolines use
    (subprojects/dynarmic/externals/oaknut/include/oaknut): [detail::find] of
    impl/string_literal.hpp, [pdep] and [encode] of
    impl/arm64_encode_helpers.inc.hpp, the range check of [Imm] in impl/imm.hpp
    and [emit] with the mnemonics [SVC], [RET] and [YIELD]. *)
From S2P Require Import Prelude.
Local Open Scope Z_scope.

(** [detail::find<haystack, needles>] for a one-character needle. *)
Fixpoint find_loop (haystack : list Ascii.ascii) (needle : Ascii.ascii) (i result : Z) : Z :=
  match haystack with
  | [] => result
  | ch :: haystack' =>
      find_loop haystack' needle (i + 1)
        (if Ascii.eqb ch needle then Z.lor result (Z.shiftl 1 (31 - i)) else result)
  end.

Definition find (haystack : string) (needle : Ascii.ascii) : Z :=
  find_loop (String.list_ascii_of_string haystack) needle 0 0.

(** [pdep<mask_>(val)]: every iteration clears the lowest set bit of [mask], so
    33 iterations are enough for a 32-bit mask ([pdep_loop_run]). *)
Fixpoint pdep_loop (fuel : nat) (mask val bb res : Z) : Z :=
  match fuel with
  | O => res
  | S fuel' =>
      if mask =? 0 then res
      else
        let res' := if Z.land val bb =? 0 then res
                    else Z.lor res (Z.land mask (u32 (not_ 32 mask + 1))) in
        pdep_loop fuel' (Z.land mask (u32 (mask - 1))) val (u32 (bb + bb)) res'
  end.

Definition pdep (mask val : Z) : Z := pdep_loop 33 mask val 1 0.

(** [Imm<bit_size>(value)]: throws when the value has more bits. *)
Definition Imm {S} (bit_size value : Z) : M S Z :=
  if Z.land value (Z.shiftl 1 bit_size - 1) =? value then ret value
  else throw (runtime_error "ImmOutOfRange").

(** [emit<bs>()] and [emit<bs, barg>(arg)]. *)
Definition emit0 (bs : string) : Z := find bs "1"%char.
Definition emit1 (bs : string) (barg : Ascii.ascii) (arg : Z) : Z :=
  Z.lor (find bs "1"%char) (pdep (find bs barg) arg).

Definition SVC {S} (imm : Z) : M S Z :=
  let! v := Imm 16 imm in ret (emit1 "11010100000iiiiiiiiiiiiiiii00001" "i"%char v).
Definition RET_reg {S} (xn : Z) : M S Z :=
  ret (emit1 "1101011001011111000000nnnnn00000" "n"%char (Z.land xn 31)).
Definition RET {S} : M S Z := RET_reg 30.
Definition YIELD {S} : M S Z := ret (emit0 "11010101000000110010000000111111").

(** ** Lemmas *)

Section Run.

Lemma testbit_run w s n :
  0 <= w -> 0 <= s -> 0 <= n ->
  Z.testbit (Z.shiftl (Z.ones w) s) n = ((s <=? n) && (n <? s + w))%bool.
Proof.
  intros. rewrite Z.shiftl_spec by lia.
  destruct (Z.leb_spec s n); simpl.
  - rewrite Z.testbit_ones_nonneg by lia.
    destruct (Z.ltb_spec (n - s) w), (Z.ltb_spec n (s + w)); lia.
  - apply Z.testbit_neg_r. lia.
Qed.

Lemma run_pred w s :
  1 <= w -> 0 <= s ->
  Z.shiftl (Z.ones w) s - 1 = Z.lor (Z.shiftl (Z.ones (w - 1)) (s + 1)) (Z.ones s).
Proof.
  intros. rewrite <- Z.lxor_lor, <- Z.add_nocarry_lxor; cycle 1;
    [apply Z.bits_inj'; intros n Hn; rewrite Z.land_spec, testbit_run, Z.testbit_ones_nonneg, Z.bits_0 by lia;
     destruct (Z.leb_spec (s + 1) n), (Z.ltb_spec n s); rewrite ?andb_false_r; simpl; try lia; reflexivity ..|].
  rewrite !Z.shiftl_mul_pow2, !Z.ones_equiv by lia.
  replace w with (Z.succ (w - 1)) at 1 by lia.
  rewrite Z.pow_succ_r by lia. rewrite Z.pow_add_r by lia.
  rewrite <- !Z.sub_1_r. change (2 ^ 1) with 2. ring.
Qed.

Lemma run_range w s : 0 <= w -> 0 <= s -> s + w <= 32 -> 0 <= Z.shiftl (Z.ones w) s < 2 ^ 32.
Proof.
  intros. rewrite Z.shiftl_mul_pow2, Z.ones_equiv by lia.
  pose proof (pow2_pos w ltac:(lia)). pose proof (pow2_pos s ltac:(lia)).
  assert (2 ^ w * 2 ^ s <= 2 ^ 32); [|nia].
  rewrite <- Z.pow_add_r by lia. apply Z.pow_le_mono_r; lia.
Qed.

Lemma run_pos w s : 1 <= w -> 0 <= s -> 0 < Z.shiftl (Z.ones w) s.
Proof.
  intros. rewrite Z.shiftl_mul_pow2, Z.ones_equiv by lia.
  pose proof (pow2_pos s ltac:(lia)).
  assert (2 ^ 1 <= 2 ^ w) by (apply Z.pow_le_mono_r; lia). nia.
Qed.

(** The lowest set bit of a run of ones. *)
Lemma run_lowest w s :
  1 <= w -> 0 <= s -> s + w <= 32 ->
  Z.land (Z.shiftl (Z.ones w) s) (u32 (not_ 32 (Z.shiftl (Z.ones w) s) + 1)) = 2 ^ s.
Proof.
  intros. pose proof (run_range w s ltac:(lia) ltac:(lia) ltac:(lia)) as R.
  pose proof (run_pos w s ltac:(lia) ltac:(lia)) as P.
  unfold u32, wrap. rewrite <- Z.land_ones by lia. unfold not_.
  apply Z.bits_inj'. intros n Hn.
  rewrite !Z.land_spec, testbit_run, Z.testbit_ones_nonneg, Z.pow2_bits_eqb by lia.
  assert (Z.lxor (Z.shiftl (Z.ones w) s) (Z.ones 32) + 1 =
          2 ^ 32 * 1 + Z.lnot (Z.shiftl (Z.ones w) s - 1)) as ->.
  { replace (Z.lxor (Z.shiftl (Z.ones w) s) (Z.ones 32)) with (Z.ones 32 - Z.shiftl (Z.ones w) s).
    - rewrite Z.ones_equiv. unfold Z.lnot. lia.
    - rewrite Z.lxor_comm. rewrite Z.sub_nocarry_ldiff.
      + apply Z.bits_inj'. intros k Hk. rewrite Z.ldiff_spec, Z.lxor_spec.
        destruct (Z.ltb_spec k 32).
        * rewrite Z.ones_spec_low by lia. destruct (Z.testbit _ k); reflexivity.
        * rewrite Z.ones_spec_high by lia.
          rewrite <- (Z.mod_small (Z.shiftl (Z.ones w) s) (2 ^ 32)) by lia.
          rewrite Z.mod_pow2_bits_high by lia. reflexivity.
      + apply Z.ldiff_ones_r_low; [lia|].
        apply Z.log2_lt_pow2; lia. }
  rewrite Z.mul_1_r, (Z.add_comm (2 ^ 32)).
  destruct (Z.ltb_spec n 32); cycle 1.
  { rewrite !andb_false_r. symmetry. apply Z.eqb_neq. lia. }
  rewrite andb_true_r.
  replace (Z.testbit (Z.lnot (Z.shiftl (Z.ones w) s - 1) + 2 ^ 32) n)
    with (Z.testbit (Z.lnot (Z.shiftl (Z.ones w) s - 1)) n).
  - rewrite Z.lnot_spec, run_pred, Z.lor_spec, testbit_run, Z.testbit_ones_nonneg by lia.
    destruct (Z.leb_spec s n), (Z.ltb_spec n (s + w)), (Z.leb_spec (s + 1) n),
      (Z.ltb_spec n (s + 1 + (w - 1))), (Z.ltb_spec n s), (Z.eqb_spec s n); simpl; try reflexivity; lia.
  - rewrite <- (Z.mod_pow2_bits_low _ 32 n) by lia.
    rewrite <- (Z.mod_pow2_bits_low (_ + _) 32 n) by lia.
    f_equal. rewrite Z.add_mod, Z.mod_same, Z.add_0_r, Z.mod_mod by lia. reflexivity.
Qed.

(** Clearing the lowest set bit of a run of ones. *)
Lemma run_clear w s :
  1 <= w -> 0 <= s -> s + w <= 32 ->
  Z.land (Z.shiftl (Z.ones w) s) (u32 (Z.shiftl (Z.ones w) s - 1)) =
  Z.shiftl (Z.ones (w - 1)) (s + 1).
Proof.
  intros. pose proof (run_range w s ltac:(lia) ltac:(lia) ltac:(lia)) as R.
  pose proof (run_pos w s ltac:(lia) ltac:(lia)) as P.
  unfold u32. rewrite wrap_small by (unfold in_range; lia).
  rewrite run_pred by lia. apply Z.bits_inj'. intros n Hn.
  rewrite Z.land_spec, Z.lor_spec, !testbit_run, Z.testbit_ones_nonneg by lia.
  destruct (Z.leb_spec s n), (Z.ltb_spec n (s + w)), (Z.leb_spec (s + 1) n),
    (Z.ltb_spec n (s + 1 + (w - 1))), (Z.ltb_spec n s); simpl; try reflexivity; lia.
Qed.
End Run.

Lemma land_pow2_zero val k :
  0 <= k -> (Z.land val (2 ^ k) =? 0) = negb (Z.testbit val k).
Proof.
  intros Hk. destruct (Z.testbit val k) eqn:E; simpl.
  - apply Z.eqb_neq. intros C.
    assert (Z.testbit (Z.land val (2 ^ k)) k = true) as T.
    { rewrite Z.land_spec, E, Z.pow2_bits_true by lia. reflexivity. }
    rewrite C, Z.bits_0 in T. discriminate.
  - apply Z.eqb_eq. apply Z.bits_inj'. intros n Hn.
    rewrite Z.land_spec, Z.pow2_bits_eqb, Z.bits_0 by lia.
    destruct (Z.eqb_spec k n); [subst; rewrite E; reflexivity | apply andb_false_r].
Qed.

Lemma field_succ val (w s k : Z) :
  0 <= w -> 0 <= s -> 0 <= k ->
  Z.shiftl (Z.land (Z.shiftr val k) (Z.ones (w + 1))) s =
  Z.lor (if Z.testbit val k then 2 ^ s else 0)
        (Z.shiftl (Z.land (Z.shiftr val (k + 1)) (Z.ones w)) (s + 1)).
Proof.
  intros. apply Z.bits_inj'. intros n Hn.
  rewrite Z.lor_spec, !Z.shiftl_spec by lia.
  destruct (Z.ltb_spec n s).
  - rewrite !(Z.testbit_neg_r (Z.land _ _)) by lia.
    destruct (Z.testbit val k); rewrite ?Z.pow2_bits_eqb, ?Z.bits_0 by lia; [|reflexivity].
    destruct (Z.eqb_spec s n); [lia|reflexivity].
  - rewrite !Z.land_spec, !Z.shiftr_spec, Z.testbit_ones_nonneg by lia.
    destruct (Z.eqb_spec s n).
    + subst n. rewrite Z.sub_diag, Z.add_0_l, (Z.testbit_neg_r (Z.ones w)), andb_false_r, orb_false_r by lia.
      destruct (Z.ltb_spec 0 (w + 1)); [|lia]. rewrite andb_true_r.
      destruct (Z.testbit val k); rewrite ?Z.pow2_bits_true, ?Z.bits_0 by lia; reflexivity.
    + rewrite Z.shiftr_spec, Z.testbit_ones_nonneg by lia.
      replace (n - (s + 1) + (k + 1)) with (n - s + k) by lia.
      destruct (Z.testbit val k); rewrite ?Z.pow2_bits_eqb, ?Z.bits_0 by lia;
        destruct (Z.eqb_spec s n); try lia; simpl; f_equal;
        destruct (Z.ltb_spec (n - s) (w + 1)), (Z.ltb_spec (n - (s + 1)) w); lia.
Qed.

(** On a mask that is a run of ones, [pdep] deposits the low bits of the value
    at the run, and the loop ends within the fuel. *)
Lemma pdep_loop_run (w : nat) : forall (fuel : nat) s k val res,
  (w < fuel)%nat -> 0 <= s -> 0 <= k -> s + Z.of_nat w <= 32 -> k + Z.of_nat w <= 32 ->
  pdep_loop fuel (Z.shiftl (Z.ones (Z.of_nat w)) s) val (u32 (2 ^ k)) res =
  Z.lor res (Z.shiftl (Z.land (Z.shiftr val k) (Z.ones (Z.of_nat w))) s).
Proof.
  induction w as [|w IH]; intros fuel s k val res Hf Hs Hk Hsw Hkw.
  - destruct fuel; [lia|]. change (Z.ones (Z.of_nat 0)) with 0.
    rewrite Z.land_0_r, !Z.shiftl_0_l, Z.lor_0_r. reflexivity.
  - destruct fuel as [|fuel]; [lia|]. cbn [pdep_loop].
    pose proof (run_pos (Z.of_nat (S w)) s ltac:(lia) Hs) as P.
    destruct (Z.eqb_spec (Z.shiftl (Z.ones (Z.of_nat (S w))) s) 0); [lia|].
    rewrite run_lowest, run_clear by lia.
    replace (Z.of_nat (S w) - 1) with (Z.of_nat w) by lia.
    assert (u32 (2 ^ k) = 2 ^ k) as E.
    { apply wrap_small. split; [lia|]. apply Z.pow_lt_mono_r; lia. }
    rewrite E. replace (2 ^ k + 2 ^ k) with (2 ^ (k + 1)) by (rewrite Z.pow_add_r by lia; lia).
    rewrite IH by lia. rewrite land_pow2_zero by lia.
    replace (Z.of_nat (S w)) with (Z.of_nat w + 1) by lia.
    rewrite (field_succ val (Z.of_nat w)) by lia.
    destruct (Z.testbit val k); simpl; rewrite ?Z.lor_assoc, ?Z.lor_0_r, ?Z.lor_0_l; reflexivity.
Qed.

Lemma pdep_run (w : nat) s val :
  0 <= s -> s + Z.of_nat w <= 32 -> 0 <= val < 2 ^ Z.of_nat w ->
  pdep (Z.shiftl (Z.ones (Z.of_nat w)) s) val = Z.shiftl val s.
Proof.
  intros Hs Hsw Hv. unfold pdep. change 1 with (u32 (2 ^ 0)).
  rewrite pdep_loop_run by lia. rewrite Z.lor_0_l, Z.shiftr_0_r, Z.land_ones, Z.mod_small by lia.
  reflexivity.
Qed.

(** The encoding of [SVC #imm]. *)
Lemma SVC_encoding {St} imm (s : St) :
  0 <= imm < 2 ^ 16 -> SVC imm s = (Ret (Z.lor 0xd4000001 (Z.shiftl imm 5)), s).
Proof.
  intros H. unfold SVC, Imm, bind.
  replace (Z.land imm (Z.shiftl 1 16 - 1)) with imm.
  - rewrite Z.eqb_refl. unfold ret, emit1.
    replace (find "11010100000iiiiiiiiiiiiiiii00001" "i"%char)
      with (Z.shiftl (Z.ones (Z.of_nat 16)) 5) by reflexivity.
    rewrite (pdep_run 16) by lia. reflexivity.
  - change (Z.shiftl 1 16 - 1) with (Z.ones 16). rewrite Z.land_ones, Z.mod_small by lia. reflexivity.
Qed.
