(* ===== verification/FunctionTraits.v ===== *)
(** src/function_traits.hpp: the classification of C++ parameter types that
    drives the guest-to-host argument marshalling, and [dynamic_symbol], the
    entry of a shim library. *)
From S2P Require Import Prelude.
Local Open Scope Z_scope.

(** [enum class FunctionArgumentType : u8], in the order of its values. *)
Inductive FunctionArgumentType : Type :=
| unsupported
| none
| signed_byte
| signed_halfword
| signed_word
| signed_doubleword
| unsigned_byte
| unsigned_halfword
| unsigned_word
| unsigned_doubleword
| single_precision_fp
| double_precision_fp
| pointer
| variadic_list.

#[export] Instance FunctionArgumentType_eq_dec : EqDecision FunctionArgumentType.
Proof. solve_decision. Defined.

Definition function_argument_is_float (t : FunctionArgumentType) : bool :=
  match t with single_precision_fp | double_precision_fp => true | _ => false end.

(** The C++ types a shimmed function mentions: the ones the header tests by
    name, and every other type by its size. *)
Inductive ctype : Type :=
| t_uchar | t_bool | t_schar | t_sshort | t_ushort | t_sint | t_uint
| t_slong | t_ulong | t_sllong | t_ullong
| t_float | t_double
| t_va_list
| t_pointer
| t_void
| t_other (size : Z).

(** [_get_argument_type<T>()]: the [if constexpr] chain. *)
Definition get_argument_type (t : ctype) : FunctionArgumentType :=
  match t with
  | t_uchar => unsigned_byte
  | t_bool => unsigned_byte
  | t_schar => signed_byte
  | t_sshort => signed_halfword
  | t_ushort => unsigned_halfword
  | t_sint => signed_word
  | t_uint => unsigned_word
  | t_slong => signed_doubleword
  | t_ulong => unsigned_doubleword
  | t_sllong => signed_doubleword
  | t_ullong => unsigned_doubleword
  | t_float => single_precision_fp
  | t_double => double_precision_fp
  | t_va_list => variadic_list
  | t_pointer => pointer
  | t_void => none
  | t_other size =>
      if size =? 1 then unsigned_byte
      else if size =? 2 then unsigned_halfword
      else if size =? 4 then unsigned_word
      else if size =? 8 then unsigned_doubleword
      else unsupported
  end.

(** A function pointer type: result, parameters, and a trailing ellipsis. *)
Record fn_type : Type := {
  fn_result : ctype;
  fn_args : list ctype;
  fn_ellipsis : bool
}.

(** [get_function_argument_types(f)]: the result first, then the parameters. *)
Definition get_function_argument_types (f : fn_type) : list FunctionArgumentType :=
  get_argument_type (fn_result f) :: map get_argument_type (fn_args f).

Inductive Tag : Type := TagNone | HasExecutionSideEffects.

Record dynamic_symbol : Type := {
  sym_name : string;
  sym_value : Z;
  sym_arg_types : list FunctionArgumentType;
  sym_is_ellipsis_function : bool;
  sym_has_execution_side_effects : bool
}.

(** [dynamic_symbol(name, void *value)]. *)
Definition dynamic_symbol_ptr (name : string) (value : Z) : dynamic_symbol :=
  {| sym_name := name; sym_value := value; sym_arg_types := [];
     sym_is_ellipsis_function := false; sym_has_execution_side_effects := false |}.

(** [dynamic_symbol(name, ptr)] for a function pointer and its ellipsis form. *)
Definition dynamic_symbol_fn (name : string) (ptr : Z) (f : fn_type) : dynamic_symbol :=
  {| sym_name := name; sym_value := ptr; sym_arg_types := get_function_argument_types f;
     sym_is_ellipsis_function := fn_ellipsis f; sym_has_execution_side_effects := false |}.

Definition apply_tag (sym : dynamic_symbol) (tag : Tag) : dynamic_symbol :=
  match tag with
  | HasExecutionSideEffects =>
      {| sym_name := sym_name sym; sym_value := sym_value sym;
         sym_arg_types := sym_arg_types sym;
         sym_is_ellipsis_function := sym_is_ellipsis_function sym;
         sym_has_execution_side_effects := true |}
  | TagNone => sym
  end.

(** [dynamic_symbol(tag, name, ptr)]. *)
Definition dynamic_symbol_tagged (tag : Tag) (name : string) (ptr : Z) (f : fn_type) : dynamic_symbol :=
  apply_tag (dynamic_symbol_fn name ptr f) tag.

(** ** The three ways a type is passed *)

(** How the trampolines of src/execution_context.cpp pass an argument of the
    type: both switches of that file group the values this way. *)
Inductive arg_class : Type := ClassInt | ClassFloat | ClassVaList | ClassNone | ClassBad.

Definition classify (t : FunctionArgumentType) : arg_class :=
  match t with
  | unsigned_byte | signed_byte | unsigned_halfword | signed_halfword
  | unsigned_word | signed_word | unsigned_doubleword | signed_doubleword
  | pointer => ClassInt
  | single_precision_fp | double_precision_fp => ClassFloat
  | variadic_list => ClassVaList
  | none => ClassNone
  | unsupported => ClassBad
  end.

Lemma function_argument_is_float_class t :
  function_argument_is_float t = true <-> classify t = ClassFloat.
Proof. destruct t; simpl; split; congruence. Qed.
