(* ===== verification/Trampoline.v ===== *)
(** src/trampoline.cpp and src/trampoline.hpp: the table of host functions the
    guest can call, and the code buffer that holds, for each of them, the guest
    code [SVC #(id + 0x10); RET].  Slot 0 of the buffer holds the [YIELD] the
    guest returns to. *)
From S2P Require Import Prelude FunctionTraits Oaknut A64Table A64Decoder.
Local Open Scope Z_scope.

Definition trampoline_id_offset : Z := 0x10.

(** [sizeof(u32) * 2 * 8192] bytes, that is 16384 instruction words. *)
Definition trampoline_code_size : Z := 4 * 2 * 8192.
Definition trampoline_code_words : nat := Z.to_nat (trampoline_code_size / 4).

Record Trampoline : Type := {
  t_name : string;
  t_id : Z;
  t_native_func : Z;
  t_types : list FunctionArgumentType;
  t_is_ellipsis_function : bool;
  t_has_execution_side_effects : bool;
  t_guest_trampoline : Z
}.

(** The pointer [trampoline_code]: null, [MAP_FAILED], or a mapping. *)
Inductive code_ptr : Type :=
| CodeNull
| CodeFailed
| CodeAt (base : Z).

(** The globals of trampoline.cpp; [code_words] is the mapped memory. *)
Record trampoline_state : Type := {
  trampolines : list Trampoline;
  trampoline_code : code_ptr;
  code_words : list Z;
  trampoline_code_index : Z;
  temp_code_gen_buf : list Z;
  guest_exit_trampoline : Z
}.

Definition initial_state : trampoline_state :=
  {| trampolines := []; trampoline_code := CodeNull; code_words := [];
     trampoline_code_index := 0; temp_code_gen_buf := []; guest_exit_trampoline := 0 |}.

Definition set_trampolines l st :=
  {| trampolines := l; trampoline_code := trampoline_code st; code_words := code_words st;
     trampoline_code_index := trampoline_code_index st;
     temp_code_gen_buf := temp_code_gen_buf st;
     guest_exit_trampoline := guest_exit_trampoline st |}.
Definition set_mapping p ws st :=
  {| trampolines := trampolines st; trampoline_code := p; code_words := ws;
     trampoline_code_index := trampoline_code_index st;
     temp_code_gen_buf := temp_code_gen_buf st;
     guest_exit_trampoline := guest_exit_trampoline st |}.
Definition set_code_index i st :=
  {| trampolines := trampolines st; trampoline_code := trampoline_code st;
     code_words := code_words st; trampoline_code_index := i;
     temp_code_gen_buf := temp_code_gen_buf st;
     guest_exit_trampoline := guest_exit_trampoline st |}.
Definition set_gen_buf b st :=
  {| trampolines := trampolines st; trampoline_code := trampoline_code st;
     code_words := code_words st; trampoline_code_index := trampoline_code_index st;
     temp_code_gen_buf := b; guest_exit_trampoline := guest_exit_trampoline st |}.
Definition set_guest_exit a st :=
  {| trampolines := trampolines st; trampoline_code := trampoline_code st;
     code_words := code_words st; trampoline_code_index := trampoline_code_index st;
     temp_code_gen_buf := temp_code_gen_buf st; guest_exit_trampoline := a |}.

Abbreviation TM := (M trampoline_state).

(** [&trampoline_code[i]]. *)
Definition code_address (i : Z) : TM Z :=
  let! p := gets trampoline_code in
  match p with CodeAt base => ret (base + 4 * i) | _ => stop Undefined end.

(** [trampoline_code[i]] as a value and as an assignment target. *)
Definition read_code (i : Z) : TM Z :=
  let! p := gets trampoline_code in
  let! ws := gets code_words in
  match p with CodeAt _ => deref (nthZ ws i) | _ => stop Undefined end.
Definition write_code (i v : Z) : TM unit :=
  let! p := gets trampoline_code in
  let! ws := gets code_words in
  match p, nthZ ws i with
  | CodeAt _, Some _ => modify (set_mapping p (updZ ws i v))
  | _, _ => stop Undefined
  end.

(** [temp_code_generator] appends to [temp_code_gen_buf]. *)
Definition generate (instruction : TM Z) : TM unit :=
  let! v := instruction in
  modify (fun st => set_gen_buf (temp_code_gen_buf st ++ [v]) st).

(** [trampoline_code[trampoline_code_index++] = temp_code_gen_buf[k]]. *)
Definition append_generated (k : Z) : TM unit :=
  let! buf := gets temp_code_gen_buf in
  let! v := deref (nthZ buf k) in
  let! i := gets trampoline_code_index in
  modify (set_code_index (i + 1)) ;;
  write_code i v.

Definition trampoline_get_guest_exit : TM Z := gets guest_exit_trampoline.

(** [trampoline_init], with the result of [mmap]: the address of fresh zeroed
    pages, or [None] for [MAP_FAILED]. *)
Definition trampoline_init (mmap_result : option Z) : TM Z :=
  match mmap_result with
  | None => modify (set_mapping CodeFailed []) ;; ret (-1)
  | Some base =>
      modify (set_mapping (CodeAt base) (replicate trampoline_code_words 0)) ;;
      let! i := gets trampoline_code_index in
      let! exit := code_address i in
      modify (set_guest_exit exit) ;;
      generate YIELD ;;
      append_generated 0 ;;
      modify (set_gen_buf []) ;;
      ret 0
  end.

(** [trampoline_create]; the result is the index of the new element the
    returned reference designates. *)
Definition trampoline_create (name : string) (native_func : Z)
    (types : list FunctionArgumentType)
    (is_ellipsis_function has_execution_side_effects : bool) : TM nat :=
  let! p := gets trampoline_code in
  match p with
  | CodeNull => throw (runtime_error "Trampoline buffer not allocated")
  | _ =>
      let! index := gets trampoline_code_index in
      let! w := read_code (index + 2) in
      if trampoline_code_size <=? w then throw (runtime_error "Trampoline buffer exhausted")
      else
        let! ts := gets trampolines in
        let id := u16 (Z.of_nat (length ts)) in
        let sym := {| t_name := name; t_id := id; t_native_func := native_func;
                      t_types := types; t_is_ellipsis_function := is_ellipsis_function;
                      t_has_execution_side_effects := has_execution_side_effects;
                      t_guest_trampoline := 0 |} in
        modify (set_trampolines (ts ++ [sym])) ;;
        let! addr := code_address index in
        generate (SVC (u32 (id + trampoline_id_offset))) ;;
        generate RET ;;
        append_generated 0 ;;
        append_generated 1 ;;
        modify (set_gen_buf []) ;;
        modify (set_trampolines (ts ++ [
          {| t_name := name; t_id := id; t_native_func := native_func;
             t_types := types; t_is_ellipsis_function := is_ellipsis_function;
             t_has_execution_side_effects := has_execution_side_effects;
             t_guest_trampoline := addr |}])) ;;
        ret (length ts)
  end.

(** [trampoline_get_by_id]: the subtraction is on [u32], the indexing is
    unchecked. *)
Definition trampoline_get_by_id (id : Z) : TM Trampoline :=
  let! ts := gets trampolines in
  deref (nthZ ts (u32 (id - trampoline_id_offset))).

Definition trampoline_maybe_get_by_id (ts : list Trampoline) (id : Z) : option Trampoline :=
  if id <? trampoline_id_offset then None
  else
    let computed_id := u32 (id - trampoline_id_offset) in
    if Z.of_nat (length ts) <=? computed_id then None
    else nthZ ts computed_id.

(** ** The states the program reaches *)

(** [trampoline_init] with a successful [mmap], then any sequence of
    [trampoline_create] calls that return. *)
Inductive reachable (base : Z) : trampoline_state -> Prop :=
| reachable_init st :
    trampoline_init (Some base) initial_state = (Ret 0, st) -> reachable base st
| reachable_create st name f types ell side i st' :
    reachable base st ->
    trampoline_create name f types ell side st = (Ret i, st') ->
    reachable base st'.

(** The instruction word the guest fetches at an address of the buffer. *)
Definition guest_fetch (base : Z) (st : trampoline_state) (addr : Z) : option Z :=
  nthZ (code_words st) ((addr - base) / 4).

(** The words of the buffer after n trampolines. *)
Definition svc_word (id : nat) : Z := Z.lor 0xd4000001 (Z.shiftl (Z.of_nat id + trampoline_id_offset) 5).
Definition ret_word : Z := 0xd65f03c0.
Definition yield_word : Z := 0xd503203f.
Definition slot (i : nat) : nat := 1 + 2 * i.

Record wf (base : Z) (st : trampoline_state) : Prop := {
  wf_code : trampoline_code st = CodeAt base;
  wf_index : trampoline_code_index st = Z.of_nat (slot (length (trampolines st)));
  wf_words : length (code_words st) = trampoline_code_words;
  wf_room : (slot (length (trampolines st)) < trampoline_code_words)%nat;
  wf_buf : temp_code_gen_buf st = [];
  wf_exit : guest_exit_trampoline st = base;
  wf_yield : code_words st !! 0%nat = Some yield_word;
  wf_slots : forall i t, trampolines st !! i = Some t ->
    t_id t = Z.of_nat i /\
    t_guest_trampoline t = base + 4 * Z.of_nat (slot i) /\
    code_words st !! slot i = Some (svc_word i) /\
    code_words st !! S (slot i) = Some ret_word;
  wf_free : forall k, (slot (length (trampolines st)) <= k < trampoline_code_words)%nat ->
    code_words st !! k = Some 0
}.

(** ** Lemmas *)

Lemma words_eq : trampoline_code_words = Z.to_nat 16384.
Proof. reflexivity. Qed.

Lemma slot_bound n : (slot n < trampoline_code_words)%nat -> Z.of_nat n < 8192.
Proof. rewrite words_eq. unfold slot. lia. Qed.

Lemma RET_encoding {St} (s : St) : RET s = (Ret ret_word, s).
Proof. reflexivity. Qed.

Lemma YIELD_encoding {St} (s : St) : YIELD s = (Ret yield_word, s).
Proof. reflexivity. Qed.

Lemma write_code_ok base st (i : nat) v :
  trampoline_code st = CodeAt base -> (i < length (code_words st))%nat ->
  write_code (Z.of_nat i) v st =
  (Ret tt, set_mapping (CodeAt base) (<[i := v]> (code_words st)) st).
Proof.
  intros Hp Hi. unfold write_code, bind, gets. rewrite Hp, nthZ_of_nat, updZ_of_nat.
  apply lookup_lt_is_Some in Hi as [w ->]. reflexivity.
Qed.

Lemma append_generated_ok base st (i : nat) k v :
  trampoline_code st = CodeAt base -> (i < length (code_words st))%nat ->
  trampoline_code_index st = Z.of_nat i -> nthZ (temp_code_gen_buf st) k = Some v ->
  append_generated k st =
  (Ret tt, set_mapping (CodeAt base) (<[i := v]> (code_words st)) (set_code_index (Z.of_nat (S i)) st)).
Proof.
  intros Hp Hi Hx Hb. unfold append_generated. unfold bind at 1 2 3 4, gets at 1 2, modify.
  rewrite Hb. cbn [deref ret]. rewrite Hx.
  rewrite (write_code_ok base) by assumption. do 3 f_equal. lia.
Qed.

Definition created (base : Z) (st : trampoline_state) name f types ell side : trampoline_state :=
  let n := length (trampolines st) in
  {| trampolines := trampolines st ++ [
       {| t_name := name; t_id := Z.of_nat n; t_native_func := f; t_types := types;
          t_is_ellipsis_function := ell; t_has_execution_side_effects := side;
          t_guest_trampoline := base + 4 * Z.of_nat (slot n) |}];
     trampoline_code := CodeAt base;
     code_words := <[S (slot n) := ret_word]> (<[slot n := svc_word n]> (code_words st));
     trampoline_code_index := Z.of_nat (slot (S n));
     temp_code_gen_buf := [];
     guest_exit_trampoline := guest_exit_trampoline st |}.

Section Create.
Context (base : Z) (st : trampoline_state) (W : wf base st).
Context (name : string) (f : Z) (types : list FunctionArgumentType) (ell side : bool).
Let n : nat := length (trampolines st).

Lemma exhaustion_test_word :
  (slot n + 2 < trampoline_code_words)%nat ->
  read_code (trampoline_code_index st + 2) st = (Ret 0, st).
Proof.
  intros H. unfold read_code, bind, gets. rewrite (wf_code _ _ W), (wf_index _ _ W).
  replace (Z.of_nat (slot (length (trampolines st))) + 2) with (Z.of_nat (slot n + 2)) by (unfold n; lia).
  rewrite nthZ_of_nat, (wf_free _ _ W) by (unfold n in *; lia). reflexivity.
Qed.

Lemma trampoline_create_ok :
  (slot n + 2 < trampoline_code_words)%nat ->
  trampoline_create name f types ell side st = (Ret n, created base st name f types ell side).
Proof.
  intros H. unfold trampoline_create. unfold bind at 1, gets at 1. rewrite (wf_code _ _ W).
  unfold bind at 1, gets at 1. unfold bind at 1. rewrite exhaustion_test_word by exact H.
  cbn [Z.leb]. change (trampoline_code_size <=? 0) with false. cbn match.
  unfold bind at 1, gets at 1. unfold bind at 1, modify at 1.
  fold n. assert (Z.of_nat n < 8192) as Hn by (apply slot_bound; lia).
  assert (u16 (Z.of_nat n) = Z.of_nat n) as -> by (apply wrap_small; unfold in_range; lia).
  assert (u32 (Z.of_nat n + trampoline_id_offset) = Z.of_nat n + trampoline_id_offset) as ->
    by (apply wrap_small; unfold in_range, trampoline_id_offset; lia).
  unfold bind at 1, code_address, bind at 1, gets at 1. cbn [trampoline_code set_trampolines].
  rewrite (wf_code _ _ W). cbn [ret].
  unfold bind at 1, generate at 1, bind at 1.
  rewrite SVC_encoding by (unfold trampoline_id_offset; lia). unfold modify at 1.
  unfold bind at 1, generate at 1, bind at 1. rewrite RET_encoding. unfold modify at 1.
  unfold bind at 1.
  assert (length (code_words st) = trampoline_code_words) as HL by apply (wf_words _ _ W).
  rewrite (append_generated_ok base _ (slot n) 0 (svc_word n));
    [ | apply (wf_code _ _ W) | cbn [code_words set_gen_buf set_trampolines]; lia | apply (wf_index _ _ W)
      | cbn [temp_code_gen_buf set_gen_buf set_trampolines]; rewrite (wf_buf _ _ W); reflexivity ].
  unfold bind at 1.
  rewrite (append_generated_ok base _ (S (slot n)) 1 ret_word);
    [ | reflexivity | cbn [code_words set_mapping set_gen_buf set_trampolines]; rewrite length_insert;
        cbn [code_words set_mapping set_gen_buf set_trampolines set_code_index]; lia | reflexivity
      | cbn [temp_code_gen_buf set_gen_buf set_trampolines set_mapping set_code_index];
        rewrite (wf_buf _ _ W); reflexivity ].
  unfold bind, modify, ret, created, set_trampolines, set_gen_buf, set_mapping, set_code_index.
  cbn [trampolines trampoline_code code_words trampoline_code_index guest_exit_trampoline].
  fold n. do 3 f_equal; try (rewrite (wf_index _ _ W); reflexivity).
  unfold slot; lia.
Qed.

Lemma trampoline_create_full :
  (trampoline_code_words <= slot n + 2)%nat ->
  trampoline_create name f types ell side st = (Stop Undefined, st).
Proof.
  intros H. unfold trampoline_create. unfold bind at 1, gets at 1. rewrite (wf_code _ _ W).
  unfold bind at 1, gets at 1. unfold bind at 1, read_code, bind, gets.
  rewrite (wf_code _ _ W), (wf_index _ _ W).
  replace (nthZ (code_words st) _) with (@None Z); [reflexivity|].
  symmetry. apply nthZ_None. right. rewrite (wf_words _ _ W). unfold n in H. lia.
Qed.

Lemma created_wf : (slot n + 2 < trampoline_code_words)%nat -> wf base (created base st name f types ell side).
Proof.
  intros H. pose proof (wf_words _ _ W) as HL.
  assert (length (trampolines (created base st name f types ell side)) = S n) as HS
    by (unfold created; cbn [trampolines]; rewrite length_app; simpl; unfold n; lia).
  split; rewrite ?HS; unfold created; cbn [trampolines trampoline_code code_words
    trampoline_code_index temp_code_gen_buf guest_exit_trampoline]; fold n; auto.
  - rewrite !length_insert. exact HL.
  - unfold slot in *. lia.
  - apply (wf_exit _ _ W).
  - rewrite !list_lookup_insert_ne by (unfold slot; lia). apply (wf_yield _ _ W).
  - intros i t Hi. destruct (decide (i = n)) as [->|Hne].
    + unfold n in Hi. rewrite list_lookup_middle in Hi by reflexivity. injection Hi as <-.
      cbn [t_id t_guest_trampoline]. fold n. repeat split.
      * rewrite list_lookup_insert_ne by lia. apply list_lookup_insert_eq. lia.
      * apply list_lookup_insert_eq. rewrite length_insert. lia.
    + rewrite lookup_app in Hi.
      destruct (trampolines st !! i) as [t'|] eqn:E.
      * injection Hi as <-. destruct (wf_slots _ _ W _ _ E) as (A & B & C & D).
        apply lookup_lt_Some in E. fold n in E.
        rewrite !list_lookup_insert_ne by (unfold slot; lia). auto.
      * fold n in Hi. apply list_lookup_singleton_Some in Hi as [Hi _].
        apply lookup_ge_None in E. fold n in E. lia.
  - intros k Hk. rewrite !list_lookup_insert_ne by (unfold slot in *; lia).
    apply (wf_free _ _ W). fold n. unfold slot in *. lia.
Qed.
End Create.

Lemma init_ok base :
  trampoline_init (Some base) initial_state =
  (Ret 0, {| trampolines := []; trampoline_code := CodeAt base;
             code_words := yield_word :: replicate (Z.to_nat 16383) 0;
             trampoline_code_index := 1; temp_code_gen_buf := [];
             guest_exit_trampoline := base + 4 * 0 |}).
Proof.
  unfold trampoline_init.
  assert (replicate trampoline_code_words 0 = 0 :: replicate (Z.to_nat 16383) 0) as ->
    by (rewrite words_eq; reflexivity).
  reflexivity.
Qed.

Lemma init_wf base :
  wf base {| trampolines := []; trampoline_code := CodeAt base;
             code_words := yield_word :: replicate (Z.to_nat 16383) 0;
             trampoline_code_index := 1; temp_code_gen_buf := [];
             guest_exit_trampoline := base + 4 * 0 |}.
Proof.
  assert (trampoline_code_words = S (Z.to_nat 16383)) as HW by (rewrite words_eq; lia).
  assert (0 < Z.to_nat 16383)%nat as Hpos by lia.
  remember (Z.to_nat 16383) as n eqn:Hn. clear Hn.
  split; cbn [trampolines trampoline_code code_words trampoline_code_index
      temp_code_gen_buf guest_exit_trampoline]; try reflexivity.
  - rewrite HW. cbn [length]. rewrite length_replicate. reflexivity.
  - rewrite HW. unfold slot. cbn [length]. lia.
  - lia.
  - intros i t Hi. rewrite lookup_nil in Hi. discriminate.
  - rewrite HW. intros [|k] Hk; unfold slot in Hk; cbn [length] in Hk; [lia|].
    cbn [lookup list_lookup]. apply lookup_replicate_2. lia.
Qed.

Lemma reachable_wf base st : reachable base st -> wf base st.
Proof.
  induction 1 as [st H | st nm f types ell side i st' Hr W H].
  - replace st with (snd (trampoline_init (Some base) initial_state)) by (rewrite H; reflexivity).
    rewrite init_ok. apply init_wf.
  - destruct (decide (slot (length (trampolines st)) + 2 < trampoline_code_words)%nat) as [Hlt|Hge].
    + rewrite (trampoline_create_ok base st W) in H by exact Hlt.
      injection H as <- <-. apply created_wf; assumption.
    + rewrite (trampoline_create_full base st W) in H by lia. discriminate.
Qed.

Lemma svc_field v : in_range 16 v ->
  Z.land (Z.lor 0xd4000001 (Z.shiftl v 5)) 0xffe0001f = 0xd4000001 /\
  Z.shiftr (Z.land (Z.lor 0xd4000001 (Z.shiftl v 5)) 0x1fffe0) 5 = v.
Proof.
  intros Hv. assert (Z.land v (Z.ones 16) = v) as E
    by (rewrite Z.land_ones by lia; apply Z.mod_small, Hv).
  assert (Z.shiftl v 5 = Z.land (Z.shiftl v 5) 0x1fffe0) as E5
    by (rewrite <- E at 1; rewrite Z.shiftl_land; reflexivity).
  split.
  - rewrite Z.land_lor_distr_l, E5, <- Z.land_assoc.
    change (Z.land 0x1fffe0 0xffe0001f) with 0. rewrite Z.land_0_r. reflexivity.
  - rewrite Z.land_lor_distr_l, <- E5, Z.shiftr_lor, Z.shiftr_shiftl_l by lia.
    rewrite Z.shiftl_0_r. reflexivity.
Qed.

(** What the guest executes at an address of the buffer. *)
Definition decode_call (w : Z) : option (outcome (string * list Z)) :=
  (fun m => call m w) <$> Decode a64_matchers w.

Lemma decode_svc_word id : Z.of_nat id < 8192 ->
  decode_call (svc_word id) = Some (Ret ("SVC"%string, [Z.of_nat id + trampoline_id_offset])).
Proof.
  intros H. destruct (svc_field (Z.of_nat id + trampoline_id_offset)) as [E1 E2];
    [unfold in_range, trampoline_id_offset; lia|].
  assert (Matches svc_matcher (svc_word id) = true) as HM
    by (unfold Matches, svc_word; cbn [mask expected svc_matcher]; rewrite E1; reflexivity).
  unfold decode_call. rewrite (Decode_svc _ HM). cbn [fmap option_fmap option_map].
  unfold call. rewrite HM. unfold visit_args, svc_word.
  cbn [handler arg_masks arg_shifts svc_matcher zip_with]. rewrite E2. reflexivity.
Qed.

Lemma decode_ret_word : decode_call ret_word = Some (Ret ("RET"%string, [30])).
Proof. unfold decode_call. rewrite Decode_ret by reflexivity. reflexivity. Qed.

Lemma decode_yield_word : decode_call yield_word = Some (Ret ("YIELD"%string, [])).
Proof. unfold decode_call. rewrite Decode_yield by reflexivity. reflexivity. Qed.

Lemma guest_fetch_slot base st k :
  guest_fetch base st (base + 4 * Z.of_nat k) = code_words st !! k.
Proof.
  unfold guest_fetch. replace (base + 4 * Z.of_nat k - base) with (Z.of_nat k * 4) by lia.
  rewrite Z.div_mul by lia. apply nthZ_of_nat.
Qed.

Lemma wf_count base st : wf base st -> Z.of_nat (length (trampolines st)) < 8192.
Proof. intros W. apply slot_bound, (wf_room _ _ W). Qed.

Lemma get_by_id_ok base st i t :
  wf base st -> trampolines st !! i = Some t ->
  trampoline_get_by_id (Z.of_nat i + trampoline_id_offset) st = (Ret t, st).
Proof.
  intros W Hi. unfold trampoline_get_by_id, bind, gets.
  replace (Z.of_nat i + trampoline_id_offset - trampoline_id_offset) with (Z.of_nat i) by lia.
  pose proof (wf_count _ _ W). pose proof (lookup_lt_Some _ _ _ Hi).
  unfold u32. rewrite wrap_small by (unfold in_range; lia).
  rewrite nthZ_of_nat, Hi. reflexivity.
Qed.

(** A sequence of [trampoline_create] calls. *)
Definition create_args : Type := string * Z * list FunctionArgumentType * bool * bool.
Definition create_all (l : list create_args) : TM unit :=
  for_each l (fun '(name, f, types, ell, side) =>
    trampoline_create name f types ell side ;; ret tt).

Lemma create_all_count l base st st' :
  wf base st -> create_all l st = (Ret tt, st') ->
  wf base st' /\ length (trampolines st') = (length (trampolines st) + length l)%nat.
Proof.
  revert st. induction l as [|[[[[nm f] ty] el] sd] l IH]; intros st W.
  - intros [= <-]. simpl. auto with lia.
  - unfold create_all. simpl. unfold bind at 1.
    destruct (decide (slot (length (trampolines st)) + 2 < trampoline_code_words)%nat) as [Hlt|Hge].
    + unfold bind. rewrite (trampoline_create_ok base st W) by exact Hlt. cbn [ret].
      intros [W' L]%IH; [|apply created_wf; assumption]. split; [exact W'|].
      rewrite L. unfold created. cbn [trampolines]. rewrite length_app. cbn [length]. lia.
    + unfold bind. rewrite (trampoline_create_full base st W) by lia. discriminate.
Qed.

Lemma create_all_runs l base st :
  wf base st -> Z.of_nat (length (trampolines st) + length l) < 8192 ->
  exists st', create_all l st = (Ret tt, st').
Proof.
  revert st. induction l as [|[[[[nm f] ty] el] sd] l IH]; intros st W Hl.
  - exists st. reflexivity.
  - unfold create_all. simpl. simpl in Hl. unfold bind.
    rewrite (trampoline_create_ok base st W) by (rewrite words_eq; unfold slot; lia).
    cbn [ret]. apply IH; [apply created_wf; [exact W|rewrite words_eq; unfold slot; lia]|].
    unfold created. cbn [trampolines]. rewrite length_app. cbn [length]. lia.
Qed.

(** ** Properties *)

(** C10. In every state reached by [trampoline_init] and [trampoline_create],
    trampoline number i has id i and its guest code is at word 1 + 2i of the
    buffer, holding SVC #(i + 0x10) and RET; word 0 holds the YIELD guest code
    returns to, the words past the last trampoline are still zero, and the
    generator's scratch buffer is empty. *)
Theorem trampoline_table_wellformed base st : reachable base st -> wf base st.
Proof. apply reachable_wf. Qed.

(** A call of a trampoline's guest address, in a well-formed table. *)
Lemma guest_call_wf base st i t :
  wf base st -> trampolines st !! i = Some t ->
  exists imm,
    (guest_fetch base st (t_guest_trampoline t) ≫= decode_call) = Some (Ret ("SVC"%string, [imm])) /\
    (guest_fetch base st (t_guest_trampoline t + 4) ≫= decode_call) = Some (Ret ("RET"%string, [30])) /\
    trampoline_get_by_id imm st = (Ret t, st) /\
    trampoline_maybe_get_by_id (trampolines st) imm = Some t.
Proof.
  intros W Hi. exists (Z.of_nat i + trampoline_id_offset).
  destruct (wf_slots _ _ W _ _ Hi) as (_ & -> & E1 & E2).
  replace (base + 4 * Z.of_nat (slot i) + 4) with (base + 4 * Z.of_nat (S (slot i))) by lia.
  rewrite !guest_fetch_slot, E1, E2. cbn [mbind option_bind].
  pose proof (wf_count _ _ W). pose proof (lookup_lt_Some _ _ _ Hi).
  rewrite decode_svc_word, decode_ret_word by lia.
  rewrite (get_by_id_ok _ _ _ _ W Hi). repeat split.
  unfold trampoline_maybe_get_by_id, u32.
  replace (Z.of_nat i + trampoline_id_offset - trampoline_id_offset) with (Z.of_nat i) by lia.
  rewrite wrap_small by (unfold in_range; lia).
  destruct (Z.ltb_spec (Z.of_nat i + trampoline_id_offset) trampoline_id_offset);
    [unfold trampoline_id_offset in *; lia|].
  destruct (Z.leb_spec (Z.of_nat (length (trampolines st))) (Z.of_nat i)); [lia|].
  rewrite nthZ_of_nat. exact Hi.
Qed.

(** C5. Calling the guest address of a trampoline works end to end: the word
    fetched there is decoded by the A64 decoder as SVC with the immediate
    id + 0x10, the next one as RET through X30, and [trampoline_get_by_id] on
    that immediate returns this very trampoline. *)
Theorem guest_call_reaches_trampoline base st i t :
  reachable base st -> trampolines st !! i = Some t ->
  exists imm,
    (guest_fetch base st (t_guest_trampoline t) ≫= decode_call) = Some (Ret ("SVC"%string, [imm])) /\
    (guest_fetch base st (t_guest_trampoline t + 4) ≫= decode_call) = Some (Ret ("RET"%string, [30])) /\
    trampoline_get_by_id imm st = (Ret t, st) /\
    trampoline_maybe_get_by_id (trampolines st) imm = Some t.
Proof. intros W%reachable_wf. apply guest_call_wf, W. Qed.

(** The address guest code returns to holds an instruction decoded as
    YIELD, and no trampoline has that address; two different trampolines never
    share an address. *)
Theorem guest_exit_is_distinct base st :
  reachable base st ->
  (guest_fetch base st (guest_exit_trampoline st) ≫= decode_call) = Some (Ret ("YIELD"%string, [])) /\
  (forall i t, trampolines st !! i = Some t -> t_guest_trampoline t <> guest_exit_trampoline st) /\
  (forall i j t u, trampolines st !! i = Some t -> trampolines st !! j = Some u ->
     t_guest_trampoline t = t_guest_trampoline u -> i = j).
Proof.
  intros W%reachable_wf. rewrite (wf_exit _ _ W). split; [|split].
  - replace base with (base + 4 * Z.of_nat 0) at 2 by lia.
    rewrite guest_fetch_slot, (wf_yield _ _ W). apply decode_yield_word.
  - intros i t Hi. destruct (wf_slots _ _ W _ _ Hi) as (_ & -> & _). unfold slot. lia.
  - intros i j t u Hi Hj. destruct (wf_slots _ _ W _ _ Hi) as (_ & -> & _),
      (wf_slots _ _ W _ _ Hj) as (_ & -> & _). unfold slot. lia.
Qed.

(** [trampoline_maybe_get_by_id] and [trampoline_get_by_id] agree on every
    32-bit id: where the first finds nothing the second has undefined
    behaviour, except below the offset, where the unsigned subtraction wraps. *)
Theorem maybe_get_agrees base st id :
  reachable base st -> in_range 32 id ->
  trampoline_get_by_id id st =
  (match trampoline_maybe_get_by_id (trampolines st) id with
   | Some t => Ret t
   | None => Stop Undefined
   end, st).
Proof.
  intros W%reachable_wf Hid. unfold trampoline_get_by_id, trampoline_maybe_get_by_id, bind, gets.
  pose proof (wf_count _ _ W) as HC. unfold trampoline_id_offset, u32.
  destruct (Z.ltb_spec id 0x10).
  - assert (nthZ (trampolines st) (wrap 32 (id - 0x10)) = None) as ->; [|reflexivity].
    apply nthZ_None. right. unfold wrap, in_range in *.
    replace ((id - 0x10) mod 2 ^ 32) with (id - 0x10 + 2 ^ 32)
      by (symmetry; rewrite <- (Z.mod_add _ 1) by lia; apply Z.mod_small; lia). lia.
  - rewrite wrap_small by (unfold in_range in *; lia).
    destruct (Z.leb_spec (Z.of_nat (length (trampolines st))) (id - 0x10)).
    + assert (nthZ (trampolines st) (id - 0x10) = None) as ->; [|reflexivity].
      apply nthZ_None. lia.
    + destruct (nthZ (trampolines st) (id - 0x10)); reflexivity.
Qed.

(** C23. Capacity: starting from a fresh table, exactly 8191 trampolines can be
    created; the next call does not report the exhausted buffer, it reads past
    the end of the mapping. *)
Theorem trampoline_capacity base st l name f types ell side :
  trampoline_init (Some base) initial_state = (Ret 0, st) ->
  Z.of_nat (length l) = 8191 ->
  exists st', create_all l st = (Ret tt, st') /\
    trampoline_create name f types ell side st' = (Stop Undefined, st').
Proof.
  intros Hst Hl. assert (wf base st) as W by (apply reachable_wf; constructor; exact Hst).
  assert (length (trampolines st) = 0%nat) as L0
    by (replace st with (snd (trampoline_init (Some base) initial_state)) by (rewrite Hst; reflexivity);
        rewrite init_ok; reflexivity).
  destruct (create_all_runs l base st W) as [st' E]; [lia|].
  exists st'. split; [exact E|]. destruct (create_all_count _ _ _ _ W E) as [W' L].
  apply (trampoline_create_full base st' W'). rewrite words_eq. unfold slot. lia.
Qed.

(** ** Witnesses: one trampoline in a buffer at address 0x1000. *)

Definition demo_init : trampoline_state := snd (trampoline_init (Some 0x1000) initial_state).
Definition demo : trampoline_state :=
  created 0x1000 demo_init "getpid" 0x7000 [signed_word] false false.

Lemma demo_init_reachable : reachable 0x1000 demo_init.
Proof. apply reachable_init. unfold demo_init. rewrite init_ok. reflexivity. Qed.

Lemma demo_reachable : reachable 0x1000 demo.
Proof.
  eapply reachable_create; [apply demo_init_reachable|].
  apply trampoline_create_ok; [apply reachable_wf, demo_init_reachable|].
  unfold demo_init. rewrite init_ok. cbn [snd trampolines length]. rewrite words_eq. unfold slot. lia.
Qed.

Lemma demo_trampolines : trampolines demo !! 0%nat = Some
  {| t_name := "getpid"; t_id := 0; t_native_func := 0x7000; t_types := [signed_word];
     t_is_ellipsis_function := false; t_has_execution_side_effects := false;
     t_guest_trampoline := 0x1004 |}.
Proof. unfold demo, created, demo_init. rewrite init_ok. reflexivity. Qed.

Lemma trampoline_table_wellformed_witness : wf 0x1000 demo.
Proof. apply trampoline_table_wellformed, demo_reachable. Defined.

Lemma guest_call_reaches_trampoline_witness : exists t imm,
  (guest_fetch 0x1000 demo (t_guest_trampoline t) ≫= decode_call) = Some (Ret ("SVC"%string, [imm])) /\
  trampoline_get_by_id imm demo = (Ret t, demo).
Proof.
  destruct (guest_call_reaches_trampoline 0x1000 demo 0 _ demo_reachable demo_trampolines)
    as (imm & H1 & _ & H2 & _).
  eexists _, imm. split; [exact H1 | exact H2].
Defined.

Lemma guest_exit_is_distinct_witness :
  (guest_fetch 0x1000 demo (guest_exit_trampoline demo) ≫= decode_call) = Some (Ret ("YIELD"%string, [])).
Proof. apply (guest_exit_is_distinct 0x1000 demo demo_reachable). Defined.

Lemma maybe_get_agrees_witness :
  trampoline_get_by_id 3 demo =
  (match trampoline_maybe_get_by_id (trampolines demo) 3 with
   | Some t => Ret t | None => Stop Undefined end, demo).
Proof. apply (maybe_get_agrees 0x1000 demo 3 demo_reachable). unfold in_range. lia. Defined.

Lemma trampoline_capacity_witness : exists st',
  create_all (replicate (Z.to_nat 8191) ("f"%string, 0, [], false, false)) demo_init = (Ret tt, st') /\
  trampoline_create "g" 0 [] false false st' = (Stop Undefined, st').
Proof.
  apply (trampoline_capacity 0x1000 demo_init).
  - unfold demo_init. rewrite init_ok. reflexivity.
  - rewrite length_replicate. lia.
Defined.
