(* ===== verification/ExecutionContext.v ===== *)
(** src/execution_context.cpp and src/execution_context.hpp: the per-thread
    execution contexts, the callbacks the JIT makes into the runtime, the
    marshalling of guest calls to host functions, processor ids, and the scoped
    fibers that run guest code. *)
From S2P Require Import Prelude Memory FpStatus A64Jit FunctionTraits Trampoline.
Local Open Scope Z_scope.

Definition USE_UNSAFE_OPTIMIZATIONS : bool := true.
Definition USE_MORE_UNSAFE_OPTIMIZATIONS : bool := false.
Definition VARIADIC_TRAMPOLINE_FAST_PATH : bool := true.
Definition STACK_SIZE : Z := 4 * 1024 * 1024.
Definition MAX_CPUS : nat := 64.
Definition CNT_FREQUENCY : Z := 19200000.

Definition SuccessfulExit : Z := HaltReason.UserDefined1.
Definition SupervisorCall : Z := HaltReason.UserDefined2.

(** A pointer to an owned object: null, to a live object, or to one that has
    been deleted. *)
Inductive ptr (A : Type) : Type := Null | Live (a : A) | Dangling.
Arguments Null {A}.
Arguments Live {A} a.
Arguments Dangling {A}.

(** [Environment]: the only state of the callbacks object. *)
Record Environment : Type := { env_processor_id : Z }.

(** [ExecutionContext]; the dyncall VM is reset before each use, so only its
    ownership is kept. *)
Record ExecutionContext : Type := {
  environment : ptr Environment;
  jit : ptr Jit;
  dyncall_vm : ptr unit;
  stack : Z;
  stack_size : Z;
  initialized : bool;
  processor_id : Z;
  ref_count : Z;
  svc_number : Z;
  tls_buffer_addr : Z
}.

(** [thread_local ExecutionContext execution_context = {}]. *)
Definition fresh_context : ExecutionContext :=
  {| environment := Null; jit := Null; dyncall_vm := Null; stack := 0; stack_size := 0;
     initialized := false; processor_id := 0; ref_count := 1; svc_number := 0; tls_buffer_addr := 0 |}.

Definition ctx_with_environment x (c : ExecutionContext) : ExecutionContext := {| environment := x; jit := jit c; dyncall_vm := dyncall_vm c; stack := stack c; stack_size := stack_size c; initialized := initialized c; processor_id := processor_id c; ref_count := ref_count c; svc_number := svc_number c; tls_buffer_addr := tls_buffer_addr c |}.
Definition ctx_with_jit x (c : ExecutionContext) : ExecutionContext := {| environment := environment c; jit := x; dyncall_vm := dyncall_vm c; stack := stack c; stack_size := stack_size c; initialized := initialized c; processor_id := processor_id c; ref_count := ref_count c; svc_number := svc_number c; tls_buffer_addr := tls_buffer_addr c |}.
Definition ctx_with_dyncall_vm x (c : ExecutionContext) : ExecutionContext := {| environment := environment c; jit := jit c; dyncall_vm := x; stack := stack c; stack_size := stack_size c; initialized := initialized c; processor_id := processor_id c; ref_count := ref_count c; svc_number := svc_number c; tls_buffer_addr := tls_buffer_addr c |}.
Definition ctx_with_stack x (c : ExecutionContext) : ExecutionContext := {| environment := environment c; jit := jit c; dyncall_vm := dyncall_vm c; stack := x; stack_size := stack_size c; initialized := initialized c; processor_id := processor_id c; ref_count := ref_count c; svc_number := svc_number c; tls_buffer_addr := tls_buffer_addr c |}.
Definition ctx_with_stack_size x (c : ExecutionContext) : ExecutionContext := {| environment := environment c; jit := jit c; dyncall_vm := dyncall_vm c; stack := stack c; stack_size := x; initialized := initialized c; processor_id := processor_id c; ref_count := ref_count c; svc_number := svc_number c; tls_buffer_addr := tls_buffer_addr c |}.
Definition ctx_with_initialized x (c : ExecutionContext) : ExecutionContext := {| environment := environment c; jit := jit c; dyncall_vm := dyncall_vm c; stack := stack c; stack_size := stack_size c; initialized := x; processor_id := processor_id c; ref_count := ref_count c; svc_number := svc_number c; tls_buffer_addr := tls_buffer_addr c |}.
Definition ctx_with_processor_id x (c : ExecutionContext) : ExecutionContext := {| environment := environment c; jit := jit c; dyncall_vm := dyncall_vm c; stack := stack c; stack_size := stack_size c; initialized := initialized c; processor_id := x; ref_count := ref_count c; svc_number := svc_number c; tls_buffer_addr := tls_buffer_addr c |}.
Definition ctx_with_ref_count x (c : ExecutionContext) : ExecutionContext := {| environment := environment c; jit := jit c; dyncall_vm := dyncall_vm c; stack := stack c; stack_size := stack_size c; initialized := initialized c; processor_id := processor_id c; ref_count := x; svc_number := svc_number c; tls_buffer_addr := tls_buffer_addr c |}.
Definition ctx_with_svc_number x (c : ExecutionContext) : ExecutionContext := {| environment := environment c; jit := jit c; dyncall_vm := dyncall_vm c; stack := stack c; stack_size := stack_size c; initialized := initialized c; processor_id := processor_id c; ref_count := ref_count c; svc_number := x; tls_buffer_addr := tls_buffer_addr c |}.
Definition ctx_with_tls_buffer_addr x (c : ExecutionContext) : ExecutionContext := {| environment := environment c; jit := jit c; dyncall_vm := dyncall_vm c; stack := stack c; stack_size := stack_size c; initialized := initialized c; processor_id := processor_id c; ref_count := ref_count c; svc_number := svc_number c; tls_buffer_addr := x |}.

(** The process as one of its threads sees it: every thread's context, the
    processor ids, the trampoline table and the memory. *)
Record world : Type := {
  tid : nat;
  contexts : gmap nat ExecutionContext;
  used_processors : list bool;
  table : trampoline_state;
  memory : mem
}.

Definition ctx (w : world) : ExecutionContext := default fresh_context (contexts w !! tid w).
Definition w_with_ctx (c : ExecutionContext) (w : world) : world :=
  {| tid := tid w; contexts := <[tid w := c]> (contexts w); used_processors := used_processors w;
     table := table w; memory := memory w |}.
Definition w_with_used (u : list bool) (w : world) : world :=
  {| tid := tid w; contexts := contexts w; used_processors := u; table := table w; memory := memory w |}.
Definition w_with_memory (m : mem) (w : world) : world :=
  {| tid := tid w; contexts := contexts w; used_processors := used_processors w; table := table w; memory := m |}.

Definition w_with_table (t : trampoline_state) (w : world) : world :=
  {| tid := tid w; contexts := contexts w; used_processors := used_processors w; table := t; memory := memory w |}.

Abbreviation WM := (M world).

(** Run an operation of trampoline.cpp. *)
Definition on_table {A} (c : M trampoline_state A) : WM A :=
  fun w => match c (table w) with (o, t) => (o, w_with_table t w) end.

Definition on_ctx (f : ExecutionContext -> ExecutionContext) : WM unit :=
  modify (fun w => w_with_ctx (f (ctx w)) w).

(** [get_jit()->...]. *)
Definition on_jit_ptr {A} (c : JM A) : WM A :=
  fun w => match jit (ctx w) with
           | Live j => match c j with
                       | (o, j') => (o, w_with_ctx (ctx_with_jit (Live j') (ctx w)) w)
                       end
           | _ => (Stop Undefined, w)
           end.

Lemma ctx_with c w : ctx (w_with_ctx c w) = c.
Proof. unfold ctx, w_with_ctx. simpl. rewrite lookup_insert_eq. reflexivity. Qed.

Lemma w_with_with c d w : w_with_ctx c (w_with_ctx d w) = w_with_ctx c w.
Proof. unfold w_with_ctx. simpl. rewrite insert_insert_eq. reflexivity. Qed.

#[export] Instance world_HasJit : HasJit world.
Proof.
  refine {| on_jit := @on_jit_ptr |}. intros A B c k w. unfold on_jit_ptr, bind.
  destruct (jit (ctx w)) as [|j|] eqn:E; try reflexivity.
  destruct (c j) as [[a|e|f] j']; try reflexivity.
  rewrite ctx_with. simpl. destruct (k a j') as [o j'']. rewrite w_with_with. reflexivity.
Defined.

(** ** The [Environment] callbacks *)

(** [SupervisorFastCall]. *)
Inductive ReturnType : Type := RVoid | RInteger | RFloat.
Record SupervisorFastCall : Type := {
  function : Z;
  integer_params : Z;
  float_params : Z;
  return_type : ReturnType
}.

(** The argument loop of [GetSupervisorFastCall]: the numbers of integer and
    floating-point arguments, or no fast call. *)
Fixpoint count_args (types : list FunctionArgumentType) (int_args float_args : Z) : option (Z * Z) :=
  match types with
  | [] => Some (int_args, float_args)
  | t :: types' =>
      match t with
      | unsigned_byte | signed_byte | unsigned_halfword | signed_halfword
      | unsigned_word | signed_word | unsigned_doubleword | signed_doubleword
      | pointer => count_args types' (int_args + 1) float_args
      | single_precision_fp | double_precision_fp => count_args types' int_args (float_args + 1)
      | variadic_list => None
      | none | unsupported => None
      end
  end.

Definition fast_return_type (t : FunctionArgumentType) : option ReturnType :=
  match t with
  | unsigned_byte | signed_byte | unsigned_halfword | signed_halfword
  | unsigned_word | signed_word | unsigned_doubleword | signed_doubleword
  | pointer => Some RInteger
  | single_precision_fp | double_precision_fp => Some RFloat
  | none => Some RVoid
  | unsupported | variadic_list => None
  end.

(** [GetSupervisorFastCall]: [Ret None] is [std::nullopt]. *)
Definition GetSupervisorFastCall (ts : list Trampoline) (swi : Z) : outcome (option SupervisorFastCall) :=
  match trampoline_maybe_get_by_id ts swi with
  | None => Ret None
  | Some trampoline =>
      if t_native_func trampoline =? 0 then Ret None
      else if t_has_execution_side_effects trampoline then Ret None
      else if negb VARIADIC_TRAMPOLINE_FAST_PATH && t_is_ellipsis_function trampoline then Ret None
      else
        match count_args (tail (t_types trampoline)) 0 0 with
        | None => Ret None
        | Some (int_args, float_args) =>
            if (6 <? int_args) || (8 <? float_args) then Ret None
            else
              let '(int_args, float_args) :=
                if VARIADIC_TRAMPOLINE_FAST_PATH && t_is_ellipsis_function trampoline
                then (6, 8) else (int_args, float_args) in
              match t_types trampoline with
              | [] => Stop Undefined
              | t0 :: _ =>
                  match fast_return_type t0 with
                  | None => Ret None
                  | Some rt => Ret (Some {| function := t_native_func trampoline;
                                            integer_params := int_args;
                                            float_params := float_args;
                                            return_type := rt |})
                  end
              end
        end
  end.

(** [read<T>] and [write<T>] for a T of [n] bytes. *)
Definition read (n : nat) (vaddr : Z) : WM Z :=
  let! m := gets memory in deref (load m vaddr n).
Definition write (n : nat) (vaddr value : Z) : WM unit :=
  let! m := gets memory in
  let! m' := deref (store m vaddr n value) in
  modify (w_with_memory m').

Definition MemoryReadCode (vaddr : Z) : WM (option Z) := let! a := read 4 vaddr in ret (Some a).
Definition MemoryRead8 (vaddr : Z) : WM Z := read 1 vaddr.
Definition MemoryRead16 (vaddr : Z) : WM Z := read 2 vaddr.
Definition MemoryRead32 (vaddr : Z) : WM Z := read 4 vaddr.
Definition MemoryRead64 (vaddr : Z) : WM Z := read 8 vaddr.
(** A [Vector] is an array of two [u64], the low one first. *)
Definition MemoryRead128 (vaddr : Z) : WM Vector :=
  let! v := read 16 vaddr in ret (v mod 2 ^ 64, v / 2 ^ 64).

Definition MemoryWrite8 (vaddr value : Z) : WM unit := write 1 vaddr value.
Definition MemoryWrite16 (vaddr value : Z) : WM unit := write 2 vaddr value.
Definition MemoryWrite32 (vaddr value : Z) : WM unit := write 4 vaddr value.
Definition MemoryWrite64 (vaddr value : Z) : WM unit := write 8 vaddr value.
Definition MemoryWrite128 (vaddr : Z) (value : Vector) : WM unit :=
  write 16 vaddr (fst value + 2 ^ 64 * snd value).

(** [write_exclusive]: [__sync_bool_compare_and_swap]. *)
Definition write_exclusive (n : nat) (vaddr value expected : Z) : WM bool :=
  let! old := read n vaddr in
  if old =? expected then write n vaddr value ;; ret true else ret false.

Definition MemoryWriteExclusive8 (vaddr value expected : Z) : WM bool := write_exclusive 1 vaddr value expected.
Definition MemoryWriteExclusive16 (vaddr value expected : Z) : WM bool := write_exclusive 2 vaddr value expected.
Definition MemoryWriteExclusive32 (vaddr value expected : Z) : WM bool := write_exclusive 4 vaddr value expected.
Definition MemoryWriteExclusive64 (vaddr value expected : Z) : WM bool := write_exclusive 8 vaddr value expected.
(** The 128-bit version is a stub: it ignores the expected value. *)
Definition MemoryWriteExclusive128 (vaddr : Z) (value expected : Vector) : WM bool :=
  MemoryWrite128 vaddr value ;; ret true.

Definition AddTicks (ticks : Z) : WM unit := stop AssertFailed.
Definition GetTicksRemaining : WM Z := stop AssertFailed.

(** [GetCNTPCT] on the steady clock's nanoseconds; [CntRatio] is reduced and
    the product is a signed 64-bit one. *)
Definition CntRatio_num : Z := 12.
Definition CntRatio_den : Z := 625.
Definition GetCNTPCT (now_ns : Z) : Z := u64 (Z.quot (i64 (now_ns * CntRatio_num)) CntRatio_den).

Definition InterpreterFallback (now_ns pc num_instructions : Z) : WM unit :=
  let! instruction := read 4 pc in
  if (num_instructions =? 1) && (instruction =? 0xd53be040) then
    let! c := gets ctx in
    assert_ (initialized c) ;;
    on_jit (SetRegister 0 (GetCNTPCT now_ns)) ;;
    on_jit (SetPC (u64 (pc + 4)))
  else stop AssertFailed.

(** interface/A64/config.h. *)
Inductive Exception : Type :=
| UnallocatedEncoding | ReservedValue | UnpredictableInstruction | WaitForInterrupt | WaitForEvent
| SendEvent | SendEventLocal | Yield | Breakpoint | NoExecuteFault.

Definition ExceptionRaised (pc : Z) (exception : Exception) : WM unit :=
  match exception with
  | Yield =>
      let! c := gets ctx in
      assert_ (initialized c) ;;
      on_jit (HaltExecution SuccessfulExit)
  | _ => stop AssertFailed
  end.

Definition CallSVC (swi : Z) : WM unit :=
  let! c := gets ctx in
  assert_ (initialized c) ;;
  on_ctx (ctx_with_svc_number swi) ;;
  on_jit (HaltExecution SupervisorCall).

(** ** Calling host functions *)

(** A word handed to a host function: a value, or the address of the
    [native_va_args_data] local of [handle_call_svc]. *)
Inductive hword : Type := HVal (v : Z) | HVaData.

(** The arguments pushed on the dyncall VM, in order. *)
Inductive host_arg : Type :=
| ArgLongLong (v : Z)
| ArgDouble (bits : Z)
| ArgVaData.

(** Where [overflow_arg_area] points: guest memory, or [gp_arg_buffer]. *)
Inductive va_area : Type := GuestArea (addr : Z) | ArgBuffer.

Record x86_64VaArgsData : Type := {
  gp_offset : Z;
  fp_offset : Z;
  overflow_arg_area : va_area;
  reg_save_area : Z
}.

Record Aarch64VaArgsData : Type := {
  va_stack : Z;
  gr_top : Z;
  vr_top : Z;
  gr_offs : Z;
  vr_offs : Z
}.

(** The locals of [handle_call_svc]; the va_list data and the bytes of
    [gp_arg_buffer] start uninitialised. *)
Record call_locals : Type := {
  args : list host_arg;
  x_reg : Z;
  v_reg : Z;
  stack_cursor : Z;
  native_va_args_data : option x86_64VaArgsData;
  gp_arg_buffer : list (option Z)
}.

Definition sizeof_gp_arg_buffer : nat := 128.

Definition push_arg (a : host_arg) (dx dv dstack : Z) (l : call_locals) : call_locals :=
  {| args := args l ++ [a]; x_reg := x_reg l + dx; v_reg := v_reg l + dv;
     stack_cursor := stack_cursor l + dstack;
     native_va_args_data := native_va_args_data l; gp_arg_buffer := gp_arg_buffer l |}.

Definition set_va (d : x86_64VaArgsData) (buf : list (option Z)) (l : call_locals) : call_locals :=
  {| args := args l; x_reg := x_reg l; v_reg := v_reg l; stack_cursor := stack_cursor l;
     native_va_args_data := Some d; gp_arg_buffer := buf |}.

(** [memcpy(gp_arg_buffer + offset, src, n)]. *)
Definition copy_to_buffer (buf : list (option Z)) (offset src : Z) (n : nat) : WM (list (option Z)) :=
  let! m := gets memory in
  let! bytes := deref (read_bytes m src n) in
  if Z.of_nat (length buf) <? offset + Z.of_nat n then stop Undefined
  else ret (take (Z.to_nat offset) buf ++ map Some bytes ++ drop (Z.to_nat offset + n) buf).

Definition read_va_list (p : Z) : WM Aarch64VaArgsData :=
  let! s := read 8 p in
  let! g := read 8 (p + 8) in
  let! v := read 8 (p + 16) in
  let! go := read 4 (p + 24) in
  let! vo := read 4 (p + 28) in
  ret {| va_stack := s; gr_top := g; vr_top := v; gr_offs := i32 go; vr_offs := i32 vo |}.

(** The [variadic_list] case after the pointer has been fetched. *)
Definition convert_va_list (p : Z) (l : call_locals) : WM call_locals :=
  let! g := read_va_list p in
  let data area :=
    {| gp_offset := 48; fp_offset := u32 (176 + vr_offs g); overflow_arg_area := area;
       reg_save_area := u64 (vr_top g - 176) |} in
  if 0 <=? gr_offs g then ret (set_va (data (GuestArea (va_stack g))) (gp_arg_buffer l) l)
  else
    let gr_size := - gr_offs g in
    let! buf := copy_to_buffer (gp_arg_buffer l) 0 (u64 (gr_top g - gr_size)) (Z.to_nat gr_size) in
    let rest := u64 (Z.of_nat sizeof_gp_arg_buffer - gr_size) in
    let! buf := (if (0 <? rest) && negb (va_stack g =? 0)
                 then copy_to_buffer buf gr_size (va_stack g) (Z.to_nat rest) else ret buf) in
    ret (set_va (data ArgBuffer) buf l).

(** One iteration of the argument loop of [handle_call_svc]; [None] is the
    [return] of the unsupported types. *)
Definition marshal_arg (t : FunctionArgumentType) (l : call_locals) : WM (option call_locals) :=
  match t with
  | unsigned_byte | signed_byte | unsigned_halfword | signed_halfword
  | unsigned_word | signed_word | unsigned_doubleword | signed_doubleword
  | pointer =>
      if 7 <? x_reg l then
        let! v := read 8 (stack_cursor l) in
        ret (Some (push_arg (ArgLongLong v) 0 0 8 l))
      else
        let! v := on_jit (GetRegister (x_reg l)) in
        ret (Some (push_arg (ArgLongLong v) 1 0 0 l))
  | single_precision_fp | double_precision_fp =>
      if 7 <? v_reg l then
        let! v := read 8 (stack_cursor l) in
        ret (Some (push_arg (ArgDouble v) 0 0 8 l))
      else
        let! v := on_jit (GetVector (v_reg l)) in
        ret (Some (push_arg (ArgDouble (fst v)) 0 1 0 l))
  | variadic_list =>
      if 7 <? x_reg l then
        let! p := read 8 (stack_cursor l) in
        let! l' := convert_va_list p l in
        ret (Some (push_arg ArgVaData 0 0 8 l'))
      else
        let! p := on_jit (GetRegister (x_reg l)) in
        let! l' := convert_va_list p l in
        ret (Some (push_arg ArgVaData 1 0 0 l'))
  | none | unsupported => ret None
  end.

Fixpoint marshal_args (types : list FunctionArgumentType) (l : call_locals) : WM (option call_locals) :=
  match types with
  | [] => ret (Some l)
  | t :: types' =>
      let! r := marshal_arg t l in
      match r with
      | Some l' => marshal_args types' l'
      | None => ret None
      end
  end.

(** The two loops of the ellipsis case, from [i] up to 7. *)
Fixpoint push_registers (n : nat) (i : Z) (l : call_locals) : WM call_locals :=
  match n with
  | O => ret l
  | S n' =>
      let! v := on_jit (GetRegister i) in
      push_registers n' (i + 1) (push_arg (ArgLongLong v) 0 0 0 l)
  end.
Fixpoint push_vectors (n : nat) (i : Z) (l : call_locals) : WM call_locals :=
  match n with
  | O => ret l
  | S n' =>
      let! v := on_jit (GetVector i) in
      push_vectors n' (i + 1) (push_arg (ArgDouble (fst v)) 0 0 0 l)
  end.

Definition push_ellipsis (l : call_locals) : WM call_locals :=
  let! l := push_registers (Z.to_nat (8 - x_reg l)) (x_reg l) l in
  push_vectors (Z.to_nat (8 - v_reg l)) (v_reg l) l.

(** What a host function finds when it is called with the System V calling
    convention: six integer registers, eight vector registers, then the stack,
    each filled in the order of the arguments. *)
Record host_call : Type := {
  int_regs : list hword;
  vec_regs : list Z;
  stack_args : list hword;
  va_data : option x86_64VaArgsData;
  va_buffer : list (option Z)
}.

Fixpoint sysv (l : list host_arg) (ints : list hword) (vecs : list Z) (st : list hword)
    : list hword * list Z * list hword :=
  match l with
  | [] => (ints, vecs, st)
  | a :: l' =>
      match a with
      | ArgLongLong v =>
          if (length ints <? 6)%nat then sysv l' (ints ++ [HVal v]) vecs st
          else sysv l' ints vecs (st ++ [HVal v])
      | ArgVaData =>
          if (length ints <? 6)%nat then sysv l' (ints ++ [HVaData]) vecs st
          else sysv l' ints vecs (st ++ [HVaData])
      | ArgDouble b =>
          if (length vecs <? 8)%nat then sysv l' ints (vecs ++ [b]) st
          else sysv l' ints vecs (st ++ [HVal b])
      end
  end.

Definition host_call_of (l : call_locals) : host_call :=
  let '(i, v, s) := sysv (args l) [] [] [] in
  {| int_regs := i; vec_regs := v; stack_args := s;
     va_data := native_va_args_data l; va_buffer := gp_arg_buffer l |}.

Section HostCalls.
(** Calling the host function at an address: the word it returns (in the
    integer or the vector return register), and what it does to the world. *)
Variable native : Z -> host_call -> WM Z.

Definition handle_call_svc (swi : Z) : WM unit :=
  let! trampoline := on_table (trampoline_get_by_id swi) in
  let! sp := on_jit GetSP in
  let! return_type := deref (head (t_types trampoline)) in
  let! r := marshal_args (tail (t_types trampoline))
              {| args := []; x_reg := 0; v_reg := 0; stack_cursor := sp;
                 native_va_args_data := None; gp_arg_buffer := replicate sizeof_gp_arg_buffer None |} in
  match r with
  | None => ret tt
  | Some l =>
      let! l := (if t_is_ellipsis_function trampoline then push_ellipsis l else ret l) in
      match return_type with
      | unsigned_byte | signed_byte | unsigned_halfword | signed_halfword
      | unsigned_word | signed_word | unsigned_doubleword | signed_doubleword
      | pointer =>
          let! v := native (t_native_func trampoline) (host_call_of l) in
          on_jit (SetRegister 0 v)
      | single_precision_fp | double_precision_fp =>
          let! vec := on_jit (GetVector 0) in
          let! v := native (t_native_func trampoline) (host_call_of l) in
          on_jit (SetVector 0 (v, snd vec))
      | none =>
          let! _ := native (t_native_func trampoline) (host_call_of l) in ret tt
      | unsupported | variadic_list => ret tt
      end
  end.

(** The code [A64EmitX64::EmitA64CallSupervisor] emits for a fast call: the
    parameter registers are loaded from the JIT state, and the result stored
    to it. *)
Fixpoint load_params {A} (n : nat) (i : Z) (at_index : Z -> JM A) : WM (list A) :=
  match n with
  | O => ret []
  | S n' =>
      let! v := on_jit (at_index i) in
      let! l := load_params n' (i + 1) at_index in
      ret (v :: l)
  end.

Definition ABI_PARAM_COUNT : Z := 6.
Definition ABI_FLOAT_PARAM_COUNT : Z := 8.

Definition fast_call (fc : SupervisorFastCall) : WM unit :=
  assert_ (integer_params fc <=? ABI_PARAM_COUNT) ;;
  assert_ (float_params fc <=? ABI_FLOAT_PARAM_COUNT) ;;
  let! ints := load_params (Z.to_nat (integer_params fc)) 0 reg_at in
  let! vecs := load_params (Z.to_nat (float_params fc)) 0 (fun i => vec_at (2 * i)) in
  let! v := native (function fc)
    {| int_regs := map HVal ints; vec_regs := vecs; stack_args := [];
       va_data := None; va_buffer := replicate sizeof_gp_arg_buffer None |} in
  match return_type fc with
  | RInteger => on_jit (set_reg_at 0 v)
  | RFloat => on_jit (set_vec_at 0 v)
  | RVoid => ret tt
  end.

(** [EmitA64CallSupervisor]. *)
Definition call_supervisor (imm : Z) : WM unit :=
  let! st := gets table in
  let! fc := (fun w => (GetSupervisorFastCall (trampolines st) imm, w)) in
  match fc with
  | Some fc => fast_call fc
  | None => CallSVC imm
  end ;;
  on_jit (on_state (with_exclusive_state 0)).
End HostCalls.

(** ** Processor ids *)

(** The loop of [allocate_processor_id]: the first id that is not in use. *)
Fixpoint first_free (l : list bool) (i : Z) : option Z :=
  match l with
  | [] => None
  | b :: l' => if negb b then Some i else first_free l' (i + 1)
  end.

Definition allocate_processor_id : WM Z :=
  let! u := gets used_processors in
  match first_free u 0 with
  | None => stop Terminate
  | Some found_index =>
      modify (w_with_used (updZ u found_index true)) ;;
      ret found_index
  end.

(** [used_processors[id] = false]. *)
Definition release_processor_id (id : Z) : WM unit :=
  let! u := gets used_processors in
  let! _ := deref (nthZ u id) in
  modify (w_with_used (updZ u id false)).

(** ** Setting up and tearing down a context *)

Definition Unsafe_ReducedErrorFP : Z := 0x00020000.
Definition Unsafe_InaccurateNaN : Z := 0x00040000.
Definition Unsafe_IgnoreStandardFPCRValue : Z := 0x00080000.
Definition Unsafe_IgnoreGlobalMonitor : Z := 0x00100000.
Definition all_safe_optimizations : Z := 0x0000FFFF.

(** The fields of [A64::UserConfig] that [execution_context_init] sets. *)
Record UserConfig : Type := {
  cfg_processor_id : Z;
  cfg_tpidr_el0 : Z;
  fastmem_pointer : option Z;
  fastmem_address_space_bits : Z;
  fastmem_exclusive_access : bool;
  recompile_on_fastmem_failure : bool;
  recompile_on_exclusive_fastmem_failure : bool;
  silently_mirror_fastmem : bool;
  enable_cycle_counting : bool;
  wall_clock_cntpct : bool;
  cntfrq_el0 : Z;
  code_cache_size : Z;
  unsafe_optimizations : bool;
  optimizations : Z;
  page_table_address_space_bits : Z
}.

Definition HasOptimization (conf : UserConfig) (f : Z) : bool :=
  let f := if unsafe_optimizations conf then f else Z.land f all_safe_optimizations in
  negb (Z.land f (optimizations conf) =? 0).

Definition make_config (id tpidr : Z) : UserConfig :=
  let opts := all_safe_optimizations in
  let opts := if USE_UNSAFE_OPTIMIZATIONS then Z.lor opts Unsafe_IgnoreGlobalMonitor else opts in
  let opts := if USE_MORE_UNSAFE_OPTIMIZATIONS
              then Z.lor (Z.lor (Z.lor opts Unsafe_ReducedErrorFP) Unsafe_InaccurateNaN)
                     Unsafe_IgnoreStandardFPCRValue
              else opts in
  {| cfg_processor_id := id; cfg_tpidr_el0 := tpidr; fastmem_pointer := Some 0;
     fastmem_address_space_bits := 64; fastmem_exclusive_access := true;
     recompile_on_fastmem_failure := false; recompile_on_exclusive_fastmem_failure := false;
     silently_mirror_fastmem := false; enable_cycle_counting := false; wall_clock_cntpct := true;
     cntfrq_el0 := CNT_FREQUENCY; code_cache_size := 192 * 1024 * 1024;
     unsafe_optimizations := USE_UNSAFE_OPTIMIZATIONS; optimizations := opts;
     page_table_address_space_bits := 36 |}.

(** [new Dynarmic::A64::Jit(config)]. *)
Definition Jit_new (conf : UserConfig) : WM Jit :=
  assert_ ((12 <=? page_table_address_space_bits conf) && (page_table_address_space_bits conf <=? 64)) ;;
  ret (new_jit (code_cache_size conf)).

(** Anonymous pages at an address, and their removal. *)
Definition MAP_FAILED : Z := 2 ^ 64 - 1.
Definition mmap_zero (addr size : Z) (m : mem) : mem :=
  list_to_map (map (fun i => (addr + i, 0)) (seqZ 0 size)) ∪ m.
Definition munmap (addr size : Z) (m : mem) : mem :=
  filter (fun kv => ~ (addr <= kv.1 < addr + size)) m.

(** [execution_context_init]: [mmap_stack] is what mmap returns (all ones when
    it fails, which is only reported) and [tls_buffer] the address of the
    thread's TLS buffer. *)
Definition execution_context_init (mmap_stack tls_buffer : Z) : WM unit :=
  let! c := gets ctx in
  assert_ (negb (initialized c)) ;;
  let! id := allocate_processor_id in
  on_ctx (ctx_with_stack_size STACK_SIZE) ;;
  on_ctx (ctx_with_stack mmap_stack) ;;
  (if mmap_stack =? MAP_FAILED then ret tt
   else modify (fun w => w_with_memory (mmap_zero mmap_stack STACK_SIZE (memory w)) w)) ;;
  let stack_top := u64 (mmap_stack + STACK_SIZE) in
  on_ctx (ctx_with_tls_buffer_addr tls_buffer) ;;
  let config := make_config id tls_buffer in
  on_ctx (ctx_with_environment (Live {| env_processor_id := cfg_processor_id config |})) ;;
  on_ctx (ctx_with_processor_id (cfg_processor_id config)) ;;
  let! j := Jit_new config in
  let j := snd (SetSP stack_top j) in
  on_ctx (ctx_with_jit (Live j)) ;;
  on_ctx (ctx_with_dyncall_vm (Live tt)) ;;
  on_ctx (ctx_with_initialized true).

(** [if (p) delete p;]: the pointer is left as it was. *)
Definition delete_ {A} (p : ptr A) : outcome (ptr A) :=
  match p with
  | Null => Ret Null
  | Live _ => Ret Dangling
  | Dangling => Stop Undefined
  end.
Definition lift_outcome {A} (o : outcome A) : WM A := fun w => (o, w).

Definition execution_context_free : WM unit :=
  let! c := gets ctx in
  let! e := lift_outcome (delete_ (environment c)) in
  on_ctx (ctx_with_environment e) ;;
  let! j := lift_outcome (delete_ (jit c)) in
  on_ctx (ctx_with_jit j) ;;
  (if stack c =? 0 then ret tt
   else modify (fun w => w_with_memory (munmap (stack c) (stack_size c) (memory w)) w)) ;;
  let! d := lift_outcome (delete_ (dyncall_vm c)) in
  on_ctx (ctx_with_dyncall_vm d) ;;
  on_ctx (ctx_with_initialized false) ;;
  release_processor_id (processor_id c).

(** [usize] counters. *)
Definition execution_context_add_ref : WM Z :=
  on_ctx (fun c => ctx_with_ref_count (u64 (ref_count c + 1)) c) ;;
  gets (fun w => ref_count (ctx w)).
Definition execution_context_sub_ref : WM Z :=
  on_ctx (fun c => ctx_with_ref_count (u64 (ref_count c - 1)) c) ;;
  gets (fun w => ref_count (ctx w)).

(** ** Fibers *)

Record SavedRegisters : Type := {
  r19 : Z; r20 : Z; r21 : Z; r22 : Z; r23 : Z; r24 : Z; r25 : Z; r26 : Z; r27 : Z; r28 : Z;
  r29 : Z; r30 : Z; s_sp : Z; s_pc : Z;
  d8 : Z; d9 : Z; d10 : Z; d11 : Z; d12 : Z; d13 : Z; d14 : Z; d15 : Z
}.

Definition get_saved_registers : WM SavedRegisters :=
  on_jit (
    let! a19 := GetRegister 19 in let! a20 := GetRegister 20 in
    let! a21 := GetRegister 21 in let! a22 := GetRegister 22 in
    let! a23 := GetRegister 23 in let! a24 := GetRegister 24 in
    let! a25 := GetRegister 25 in let! a26 := GetRegister 26 in
    let! a27 := GetRegister 27 in let! a28 := GetRegister 28 in
    let! a29 := GetRegister 29 in let! a30 := GetRegister 30 in
    let! asp := GetSP in let! apc := GetPC in
    let! v8 := GetVector 8 in let! v9 := GetVector 9 in
    let! v10 := GetVector 10 in let! v11 := GetVector 11 in
    let! v12 := GetVector 12 in let! v13 := GetVector 13 in
    let! v14 := GetVector 14 in let! v15 := GetVector 15 in
    ret {| r19 := a19; r20 := a20; r21 := a21; r22 := a22; r23 := a23; r24 := a24; r25 := a25;
           r26 := a26; r27 := a27; r28 := a28; r29 := a29; r30 := a30; s_sp := asp; s_pc := apc;
           d8 := fst v8; d9 := fst v9; d10 := fst v10; d11 := fst v11; d12 := fst v12;
           d13 := fst v13; d14 := fst v14; d15 := fst v15 |}).

(** [set_d_reg] of [restore_saved_registers], and [set_vector_first]. *)
Definition set_d_reg (index value : Z) : JM unit :=
  let! vector := GetVector index in
  SetVector index (value, snd vector).

Definition restore_saved_registers (regs : SavedRegisters) : WM unit :=
  on_jit (
    SetRegister 19 (r19 regs) ;; SetRegister 20 (r20 regs) ;; SetRegister 21 (r21 regs) ;;
    SetRegister 22 (r22 regs) ;; SetRegister 23 (r23 regs) ;; SetRegister 24 (r24 regs) ;;
    SetRegister 25 (r25 regs) ;; SetRegister 26 (r26 regs) ;; SetRegister 27 (r27 regs) ;;
    SetRegister 28 (r28 regs) ;; SetRegister 29 (r29 regs) ;; SetRegister 30 (r30 regs) ;;
    SetSP (s_sp regs) ;; SetPC (s_pc regs) ;;
    set_d_reg 8 (d8 regs) ;; set_d_reg 9 (d9 regs) ;; set_d_reg 10 (d10 regs) ;;
    set_d_reg 11 (d11 regs) ;; set_d_reg 12 (d12 regs) ;; set_d_reg 13 (d13 regs) ;;
    set_d_reg 14 (d14 regs) ;; set_d_reg 15 (d15 regs)).

Inductive FiberKind : Type := Root | Callee.

(** The constructor and destructor of [ScopedExecutionFiber]; the members are
    the kind and, for a callee, the registers saved. *)
Definition ScopedExecutionFiber : Type := FiberKind * option SavedRegisters.

Definition fiber_enter (kind : FiberKind) : WM ScopedExecutionFiber :=
  let! c := gets ctx in
  assert_ (initialized c) ;;
  match kind with
  | Callee => let! r := get_saved_registers in ret (Callee, Some r)
  | Root => ret (Root, None)
  end.

Definition fiber_exit (f : ScopedExecutionFiber) : WM unit :=
  let! c := gets ctx in
  assert_ (initialized c) ;;
  match f with
  | (Callee, Some r) => restore_saved_registers r
  | (Callee, None) => stop Undefined
  | (Root, _) => ret tt
  end.

Section GuestExecution.
Variable native : Z -> host_call -> WM Z.
Variable compile : world -> Z -> compiled.
Variable run_code : Z -> WM Z.

(** One turn of the loop of [execution_loop]: whether it goes on. *)
Definition execution_turn : WM bool :=
  on_jit ClearExclusiveState ;;
  let! reason := Run compile run_code in
  if reason =? SupervisorCall then
    let! c := gets ctx in
    handle_call_svc native (svc_number c) ;;
    ret true
  else if reason =? SuccessfulExit then ret false
  else stop Terminate.

(** [while (running) ...]; [fuel] bounds the number of turns. *)
Fixpoint execution_turns (fuel : nat) : WM unit :=
  match fuel with
  | O => stop OutOfFuel
  | S fuel' =>
      let! running := execution_turn in
      if running then execution_turns fuel' else ret tt
  end.

Definition execution_loop (fuel : nat) : WM unit :=
  let! c := gets ctx in
  assert_ (initialized c) ;;
  execution_turns fuel.

(** [ScopedExecutionFiber::run(u64 address)]. *)
Definition fiber_run (fuel : nat) (address : Z) : WM unit :=
  let! e := on_jit IsExecuting in
  assert_ (negb e) ;;
  let! exit := on_table trampoline_get_guest_exit in
  on_jit (SetRegister 30 exit) ;;
  on_jit (SetPC address) ;;
  execution_loop fuel.

(** The arguments of the variadic [run]: integers and pointers, and floats. *)
Inductive run_arg : Type := RunInt (v : Z) | RunFloat (bits32 : Z).

Fixpoint set_run_args (l : list run_arg) (register_index vector_index : Z) : JM unit :=
  match l with
  | [] => ret tt
  | RunInt v :: l' =>
      SetRegister register_index (u64 v) ;;
      set_run_args l' (register_index + 1) vector_index
  | RunFloat b :: l' =>
      set_d_reg vector_index b ;;
      set_run_args l' register_index (vector_index + 1)
  end.

Definition fiber_run_args (fuel : nat) (routine : Z) (l : list run_arg) : WM unit :=
  on_jit (set_run_args l 0 0) ;;
  fiber_run fuel routine.

(** [run_with_return]. *)
Definition fiber_run_with_return (fuel : nat) (routine : Z) (l : list run_arg) : WM Z :=
  fiber_run_args fuel routine l ;;
  on_jit (GetRegister 0).

(** The scope [{ ScopedExecutionFiber fiber(kind); body }]: the destructor also
    runs when the body throws. *)
Definition with_fiber {A} (kind : FiberKind) (body : WM A) : WM A :=
  let! f := fiber_enter kind in
  fun w => match body w with
           | (Ret a, w') => bind (fiber_exit f) (fun _ => ret a) w'
           | (Throw e, w') => bind (fiber_exit f) (fun _ => throw e) w'
           | (Stop x, w') => (Stop x, w')
           end.
End GuestExecution.

(** ** Lemmas *)

(** The executing thread's JIT is there and its register file is intact. *)
Definition has_jit (w : world) (j : Jit) : Prop := jit (ctx w) = Live j /\ state_ok (jit_state j).

Lemma ctx_live w j : jit (ctx w) = Live j -> contexts w !! tid w = Some (ctx w).
Proof. unfold ctx. destruct (contexts w !! tid w); simpl; [reflexivity | discriminate]. Qed.

Lemma w_with_ctx_id w j : jit (ctx w) = Live j -> w_with_ctx (ctx_with_jit (Live j) (ctx w)) w = w.
Proof.
  intros H. pose proof (ctx_live _ _ H) as E. unfold w_with_ctx.
  assert (ctx_with_jit (Live j) (ctx w) = ctx w) as ->
    by (rewrite <- H; destruct (ctx w); reflexivity).
  rewrite insert_id by exact E. destruct w; reflexivity.
Qed.

(** A JIT operation that reads. *)
Lemma on_jit_reads {A} (c : JM A) w j o : jit (ctx w) = Live j -> c j = (o, j) -> on_jit c w = (o, w).
Proof.
  intros H E. cbn [on_jit world_HasJit]. unfold on_jit_ptr. rewrite H, E.
  rewrite w_with_ctx_id by exact H. reflexivity.
Qed.

Lemma on_jit_writes {A} (c : JM A) w j o j' : jit (ctx w) = Live j -> c j = (o, j') ->
  on_jit c w = (o, w_with_ctx (ctx_with_jit (Live j') (ctx w)) w).
Proof. intros H E. cbn [on_jit world_HasJit]. unfold on_jit_ptr. rewrite H, E. reflexivity. Qed.

(** General register n and the low half of vector n, as the JIT state has them. *)
Definition xreg (j : Jit) (n : nat) : Z := default 0 (nthZ (reg (jit_state j)) (Z.of_nat n)).
Definition vlow (j : Jit) (n : nat) : Z := default 0 (nthZ (vec (jit_state j)) (2 * Z.of_nat n)).

Lemma read_xreg w j n : has_jit w j -> (n < 31)%nat ->
  on_jit (GetRegister (Z.of_nat n)) w = (Ret (xreg j n), w).
Proof.
  intros [H OK] Hn. destruct (GetRegister_run j OK (Z.of_nat n)) as (v & E & R); [lia|].
  unfold xreg. rewrite E. exact (on_jit_reads _ _ _ _ H R).
Qed.

Lemma read_reg_at w j n : has_jit w j -> (n < 31)%nat ->
  on_jit (reg_at (Z.of_nat n)) w = (Ret (xreg j n), w).
Proof.
  intros HJ Hn. rewrite <- (read_xreg w j n HJ Hn). unfold GetRegister.
  destruct (Z.eqb_spec (Z.of_nat n) 31); [lia | reflexivity].
Qed.

Lemma read_vector w j n : has_jit w j -> (n < 32)%nat ->
  exists hi, on_jit (GetVector (Z.of_nat n)) w = (Ret (vlow j n, hi), w).
Proof.
  intros [H OK] Hn. destruct (GetVector_run j OK (Z.of_nat n)) as (lo & hi & E & _ & R); [lia|].
  exists hi. unfold vlow. rewrite Z.mul_comm, E. exact (on_jit_reads _ _ _ _ H R).
Qed.

Lemma read_vec_at w j n : has_jit w j -> (n < 32)%nat ->
  on_jit (vec_at (2 * Z.of_nat n)) w = (Ret (vlow j n), w).
Proof.
  intros [H OK] Hn. destruct (vec_at_run j OK (2 * Z.of_nat n)) as (v & E & R); [lia|].
  unfold vlow. rewrite E. exact (on_jit_reads _ _ _ _ H R).
Qed.

Lemma read_run n a w : read n a w = (match load (memory w) a n with Some v => Ret v | None => Stop Undefined end, w).
Proof. unfold read, bind, gets. destruct (load _ _ _); reflexivity. Qed.

(** The scope [{ ScopedExecutionFiber fiber(FiberKind::Callee); fiber.run(routine, args...); }]
    followed by a read of x0, as the libraries use it. *)
Definition run_in_fiber (native : Z -> host_call -> WM Z) (compile : world -> Z -> compiled)
    (run_code : Z -> WM Z) (fuel : nat) (routine : Z) (l : list run_arg) : WM Z :=
  with_fiber Callee (fiber_run_with_return native compile run_code fuel routine l).
