(* ===== verification/Marshalling.v ===== *)
(** How guest calls reach host functions: the argument loop of
    [handle_call_svc] against the AArch64 procedure call standard, the fast
    path of [GetSupervisorFastCall] against the slow path, and the conversion
    of variable argument lists. *)
From S2P Require Import Prelude Memory A64Jit FunctionTraits Trampoline ExecutionContext.
Local Open Scope Z_scope.

(** ** Argument placement of the AArch64 procedure call standard *)

Definition is_int (t : FunctionArgumentType) : bool :=
  match classify t with ClassInt => true | _ => false end.
Definition is_flt (t : FunctionArgumentType) : bool :=
  match classify t with ClassFloat => true | _ => false end.
Definition count_of (p : FunctionArgumentType -> bool) (l : list FunctionArgumentType) : nat :=
  length (List.filter p l).

(** Where an argument is: a general register, a vector register, or the n-th
    8-byte slot of the stack arguments. *)
Inductive place : Type := PlaceX (n : nat) | PlaceV (n : nat) | PlaceStack (n : nat).

(** The place of an argument that [ni] integer and [nf] floating-point
    arguments precede: the first eight of each kind are in registers, and the
    others share the stack in order. *)
Definition place_after (ni nf : nat) (t : FunctionArgumentType) : place :=
  if is_int t then (if (ni <? 8)%nat then PlaceX ni else PlaceStack ((ni - 8) + (nf - 8)))
  else (if (nf <? 8)%nat then PlaceV nf else PlaceStack ((ni - 8) + (nf - 8))).

Definition aapcs_place (types : list FunctionArgumentType) (i : nat) : option place :=
  t ← types !! i;
  Some (place_after (count_of is_int (take i types)) (count_of is_flt (take i types)) t).

(** The host argument made of what is found at a place. *)
Definition fetch_arg (j : Jit) (m : mem) (t : FunctionArgumentType) (p : place) : option host_arg :=
  let mk v := if is_int t then ArgLongLong v else ArgDouble v in
  match p with
  | PlaceX n => Some (mk (xreg j n))
  | PlaceV n => Some (mk (vlow j n))
  | PlaceStack n => mk <$> load m (sp (jit_state j) + 8 * Z.of_nat n) 8
  end.

Definition aapcs_arg (j : Jit) (m : mem) (types : list FunctionArgumentType) (i : nat) : option host_arg :=
  t ← types !! i; p ← aapcs_place types i; fetch_arg j m t p.

(** All the arguments, or nothing if one of them cannot be read. *)
Definition aapcs_args (j : Jit) (m : mem) (types : list FunctionArgumentType) : option (list host_arg) :=
  mapM (aapcs_arg j m types) (seq 0 (length types)).

Definition plain (t : FunctionArgumentType) : bool := is_int t || is_flt t.

(** The arguments from a point on. *)
Fixpoint aapcs_from (j : Jit) (m : mem) (ni nf : nat) (rest : list FunctionArgumentType) : option (list host_arg) :=
  match rest with
  | [] => Some []
  | t :: rest' =>
      a ← fetch_arg j m t (place_after ni nf t);
      l ← aapcs_from j m (ni + if is_int t then 1 else 0) (nf + if is_flt t then 1 else 0) rest';
      Some (a :: l)
  end.

Lemma count_of_app p l1 l2 : count_of p (l1 ++ l2) = (count_of p l1 + count_of p l2)%nat.
Proof. unfold count_of. rewrite List.filter_app, length_app. reflexivity. Qed.

Lemma aapcs_from_positions j m done rest :
  mapM (aapcs_arg j m (done ++ rest)) (seq (length done) (length rest)) =
  aapcs_from j m (count_of is_int done) (count_of is_flt done) rest.
Proof.
  revert done. induction rest as [|t rest IH]; intros done; [reflexivity|].
  cbn [length seq mapM aapcs_from].
  assert (aapcs_arg j m (done ++ t :: rest) (length done) =
          fetch_arg j m t (place_after (count_of is_int done) (count_of is_flt done) t)) as ->.
  { unfold aapcs_arg, aapcs_place. rewrite list_lookup_middle by reflexivity.
    cbn [mbind option_bind]. rewrite take_app_length. reflexivity. }
  specialize (IH (done ++ [t])). rewrite <- app_assoc, length_app, Nat.add_1_r in IH.
  cbn [app] in IH. rewrite IH, !count_of_app.
  assert (forall p : FunctionArgumentType -> bool, count_of p [t] = if p t then 1%nat else 0%nat) as C
    by (intros p; unfold count_of; simpl; destruct (p t); reflexivity).
  rewrite !C. reflexivity.
Qed.

Definition locals_at (sp0 : Z) (ni nf : nat) (done : list host_arg) (l : call_locals) : Prop :=
  args l = done /\ x_reg l = Z.of_nat (ni `min` 8) /\ v_reg l = Z.of_nat (nf `min` 8) /\
  stack_cursor l = sp0 + 8 * Z.of_nat ((ni - 8) + (nf - 8)).

Section Marshal.
Context (w : world) (j : Jit) (HJ : has_jit w j).
Let sp0 : Z := sp (jit_state j).

(** One argument: the loop body and the standard agree. *)
Lemma marshal_arg_step t ni nf done l : plain t = true -> locals_at sp0 ni nf done l ->
  match fetch_arg j (memory w) t (place_after ni nf t) with
  | Some a => exists l', marshal_arg t l w = (Ret (Some l'), w) /\
      locals_at sp0 (ni + if is_int t then 1 else 0) (nf + if is_flt t then 1 else 0) (done ++ [a]) l' /\
      native_va_args_data l' = native_va_args_data l /\ gp_arg_buffer l' = gp_arg_buffer l
  | None => marshal_arg t l w = (Stop Undefined, w)
  end.
Proof.
  intros Hp (Ha & Hx & Hv & Hs). unfold fetch_arg, place_after.
  destruct (is_int t) eqn:Ei.
  - assert (marshal_arg t l = if 7 <? x_reg l
              then (let! v := read 8 (stack_cursor l) in ret (Some (push_arg (ArgLongLong v) 0 0 8 l)))
              else (let! v := on_jit (GetRegister (x_reg l)) in ret (Some (push_arg (ArgLongLong v) 1 0 0 l)))) as ->
      by (destruct t; discriminate || reflexivity).
    assert (is_flt t = false) as -> by (destruct t; discriminate || reflexivity).
    destruct (Nat.ltb_spec ni 8); destruct (Z.ltb_spec 7 (x_reg l)); try lia.
    + eexists. split.
      * replace (x_reg l) with (Z.of_nat ni) by lia.
        erewrite bind_ok by (apply (read_xreg w j); [exact HJ | lia]). reflexivity.
      * unfold push_arg, locals_at. cbn [args x_reg v_reg stack_cursor native_va_args_data gp_arg_buffer].
        rewrite Ha. repeat split; lia.
    + unfold bind. rewrite read_run, Hs. fold sp0.
      destruct (load _ _ 8); cbn [fmap option_fmap option_map]; [|reflexivity].
      eexists. split; [reflexivity|]. unfold push_arg, locals_at.
      cbn [args x_reg v_reg stack_cursor native_va_args_data gp_arg_buffer]. rewrite Ha. repeat split; lia.
  - assert (is_flt t = true) as Ef by (unfold plain in Hp; rewrite Ei in Hp; exact Hp). rewrite Ef.
    assert (marshal_arg t l = if 7 <? v_reg l
              then (let! v := read 8 (stack_cursor l) in ret (Some (push_arg (ArgDouble v) 0 0 8 l)))
              else (let! v := on_jit (GetVector (v_reg l)) in ret (Some (push_arg (ArgDouble (fst v)) 0 1 0 l)))) as ->
      by (destruct t; discriminate || reflexivity).
    destruct (Nat.ltb_spec nf 8); destruct (Z.ltb_spec 7 (v_reg l)); try lia.
    + destruct (read_vector w j nf HJ ltac:(lia)) as [hi Hr]. eexists. split.
      * replace (v_reg l) with (Z.of_nat nf) by lia. erewrite bind_ok by exact Hr. reflexivity.
      * unfold push_arg, locals_at. cbn [args x_reg v_reg stack_cursor native_va_args_data gp_arg_buffer fst].
        rewrite Ha. repeat split; lia.
    + unfold bind. rewrite read_run, Hs. fold sp0.
      destruct (load _ _ 8); cbn [fmap option_fmap option_map]; [|reflexivity].
      eexists. split; [reflexivity|]. unfold push_arg, locals_at.
      cbn [args x_reg v_reg stack_cursor native_va_args_data gp_arg_buffer]. rewrite Ha. repeat split; lia.
Qed.

Lemma marshal_args_from rest ni nf done l : forallb plain rest = true -> locals_at sp0 ni nf done l ->
  match aapcs_from j (memory w) ni nf rest with
  | Some as_ => exists l', marshal_args rest l w = (Ret (Some l'), w) /\
      locals_at sp0 (ni + count_of is_int rest) (nf + count_of is_flt rest) (done ++ as_) l' /\
      native_va_args_data l' = native_va_args_data l /\ gp_arg_buffer l' = gp_arg_buffer l
  | None => marshal_args rest l w = (Stop Undefined, w)
  end.
Proof.
  revert ni nf done l. induction rest as [|t rest IH]; intros ni nf done l Hp HL.
  - cbn [aapcs_from]. exists l. rewrite app_nil_r. unfold count_of. simpl. rewrite !Nat.add_0_r. auto.
  - cbn [forallb] in Hp. apply andb_true_iff in Hp as [Hp Hps].
    pose proof (marshal_arg_step t ni nf done l Hp HL) as S. cbn [aapcs_from marshal_args].
    destruct (fetch_arg _ _ _ _) as [a|]; cbn [mbind option_bind].
    + destruct S as (l1 & R1 & L1 & N1 & B1). erewrite bind_ok by exact R1.
      specialize (IH _ _ _ _ Hps L1).
      destruct (aapcs_from _ _ _ _ rest) as [as_|]; cbn [mbind option_bind]; [|exact IH].
      destruct IH as (l2 & R2 & L2 & N2 & B2). exists l2. split; [exact R2|].
      rewrite N2, B2, N1, B1. split; [|auto].
      replace (count_of is_int (t :: rest)) with ((if is_int t then 1 else 0) + count_of is_int rest)%nat
        by (unfold count_of; simpl; destruct (is_int t); reflexivity).
      replace (count_of is_flt (t :: rest)) with ((if is_flt t then 1 else 0) + count_of is_flt rest)%nat
        by (unfold count_of; simpl; destruct (is_flt t); reflexivity).
      rewrite <- app_assoc, !Nat.add_assoc in *. exact L2.
    + apply bind_stop, S.
Qed.
End Marshal.

Definition initial_locals (j : Jit) : call_locals :=
  {| args := []; x_reg := 0; v_reg := 0; stack_cursor := sp (jit_state j);
     native_va_args_data := None; gp_arg_buffer := replicate sizeof_gp_arg_buffer None |}.

(** The call a host function without a va_list parameter sees. *)
Definition plain_call (as_ : list host_arg) : host_call :=
  let '(i, v, s) := sysv as_ [] [] [] in
  {| int_regs := i; vec_regs := v; stack_args := s; va_data := None;
     va_buffer := replicate sizeof_gp_arg_buffer None |}.

(** The upper half of vector 0. *)
Definition v0_high (j : Jit) : Z := default 0 (nthZ (vec (jit_state j)) 1).

(** The host call, and what happens to its result by the class of the return
    type. *)
Definition call_and_store (native : Z -> host_call -> WM Z) (j : Jit) (rt : FunctionArgumentType)
    (f : Z) (hc : host_call) : WM unit :=
  match classify rt with
  | ClassInt => let! v := native f hc in on_jit (SetRegister 0 v)
  | ClassFloat => let! v := native f hc in on_jit (SetVector 0 (v, v0_high j))
  | ClassNone => let! _ := native f hc in ret tt
  | ClassVaList | ClassBad => ret tt
  end.

Lemma on_table_get w swi t : trampoline_get_by_id swi (table w) = (Ret t, table w) ->
  on_table (trampoline_get_by_id swi) w = (Ret t, w).
Proof. intros E. unfold on_table. rewrite E. destruct w; reflexivity. Qed.

Lemma read_sp w j : has_jit w j -> on_jit GetSP w = (Ret (sp (jit_state j)), w).
Proof. intros [H _]. exact (on_jit_reads GetSP w j _ H eq_refl). Qed.

Lemma read_v0 w j : has_jit w j -> on_jit (GetVector 0) w = (Ret (vlow j 0, v0_high j), w).
Proof.
  intros [H OK]. destruct (GetVector_run j OK 0) as (lo & hi & E1 & E2 & R); [lia|].
  change (0 * 2) with 0 in E1. change (0 * 2 + 1) with 1 in E2.
  unfold vlow, v0_high. change (2 * Z.of_nat 0) with 0. rewrite E1, E2.
  exact (on_jit_reads _ _ _ _ H R).
Qed.

(** The handler up to the argument loop, and after it. *)
Lemma handle_call_svc_split native w j swi t rt argtys :
  has_jit w j -> trampoline_get_by_id swi (table w) = (Ret t, table w) -> t_types t = rt :: argtys ->
  handle_call_svc native swi w =
  bind (marshal_args argtys (initial_locals j)) (fun r =>
    match r with
    | None => ret tt
    | Some l => let! l := (if t_is_ellipsis_function t then push_ellipsis l else ret l) in
                match classify rt with
                | ClassInt => let! v := native (t_native_func t) (host_call_of l) in on_jit (SetRegister 0 v)
                | ClassFloat => let! vec := on_jit (GetVector 0) in
                                let! v := native (t_native_func t) (host_call_of l) in
                                on_jit (SetVector 0 (v, snd vec))
                | ClassNone => let! _ := native (t_native_func t) (host_call_of l) in ret tt
                | ClassVaList | ClassBad => ret tt
                end
    end) w.
Proof.
  intros HJ HT Hty. unfold handle_call_svc.
  erewrite bind_ok by (apply on_table_get, HT).
  erewrite bind_ok by (apply read_sp, HJ). rewrite Hty. cbn [head tail].
  erewrite bind_ok by reflexivity. destruct rt; reflexivity.
Qed.

Lemma host_call_of_plain l as_ : args l = as_ -> native_va_args_data l = None ->
  gp_arg_buffer l = replicate sizeof_gp_arg_buffer None -> host_call_of l = plain_call as_.
Proof. intros <- H1 H2. unfold host_call_of, plain_call. rewrite H1, H2. reflexivity. Qed.

(** ** The fast path *)

Lemma maybe_get_Some st swi t : in_range 32 swi ->
  trampoline_maybe_get_by_id (trampolines st) swi = Some t -> trampoline_get_by_id swi st = (Ret t, st).
Proof.
  intros Hr. unfold trampoline_maybe_get_by_id, trampoline_get_by_id, bind, gets.
  destruct (swi <? trampoline_id_offset); [discriminate|].
  destruct (_ <=? _); [discriminate|]. intros ->. reflexivity.
Qed.

Lemma count_args_spec types ni nf mi mf : count_args types ni nf = Some (mi, mf) ->
  forallb plain types = true /\
  mi = ni + Z.of_nat (count_of is_int types) /\ mf = nf + Z.of_nat (count_of is_flt types).
Proof.
  revert ni nf. induction types as [|t types IH]; intros ni nf; cbn [count_args].
  - intros [= <- <-]. unfold count_of. simpl. repeat split; lia.
  - intros H. assert (exists ni' nf', count_args types ni' nf' = Some (mi, mf) /\ plain t = true /\
      ni' = ni + Z.of_nat (if is_int t then 1 else 0) /\ nf' = nf + Z.of_nat (if is_flt t then 1 else 0)) as (ni' & nf' & H' & Ht & -> & ->).
    { destruct t; try discriminate; eexists _, _; (split; [exact H|]); simpl; repeat split; lia. }
    destruct (IH _ _ H') as (Hp & -> & ->). cbn [forallb]. rewrite Ht, Hp.
    unfold count_of. cbn [List.filter]. destruct (is_int t), (is_flt t); simpl length; repeat split; lia.
Qed.

Definition xs (j : Jit) (n : nat) : list Z := map (xreg j) (seq 0 n).
Definition vs (j : Jit) (n : nat) : list Z := map (vlow j) (seq 0 n).

Lemma xs_S j n : xs j (S n) = xs j n ++ [xreg j n].
Proof. unfold xs. rewrite seq_S, map_app. reflexivity. Qed.
Lemma vs_S j n : vs j (S n) = vs j n ++ [vlow j n].
Proof. unfold vs. rewrite seq_S, map_app. reflexivity. Qed.
Lemma length_xs j n : length (map HVal (xs j n)) = n.
Proof. unfold xs. rewrite !length_map, length_seq. reflexivity. Qed.
Lemma length_vs j n : length (vs j n) = n.
Proof. unfold vs. rewrite !length_map, length_seq. reflexivity. Qed.

Lemma sysv_app l1 l2 i v s :
  sysv (l1 ++ l2) i v s = let '(i', v', s') := sysv l1 i v s in sysv l2 i' v' s'.
Proof.
  revert i v s. induction l1 as [|a l1 IH]; intros i v s; [reflexivity|].
  cbn [app sysv]. destruct a; destruct (_ <? _)%nat; apply IH.
Qed.

(** Up to six integer and eight floating-point arguments stay in registers on
    both sides of the call. *)
Lemma few_args_in_registers j m rest ni nf : forallb plain rest = true ->
  (ni + count_of is_int rest <= 6)%nat -> (nf + count_of is_flt rest <= 8)%nat ->
  exists as_, aapcs_from j m ni nf rest = Some as_ /\
    sysv as_ (map HVal (xs j ni)) (vs j nf) [] =
    (map HVal (xs j (ni + count_of is_int rest)), vs j (nf + count_of is_flt rest), []).
Proof.
  revert ni nf. induction rest as [|t rest IH]; intros ni nf Hp Hi Hf.
  - exists []. unfold count_of. simpl. rewrite !Nat.add_0_r. auto.
  - cbn [forallb] in Hp. apply andb_true_iff in Hp as [Ht Hp]. unfold count_of in *.
    cbn [List.filter] in *. cbn [aapcs_from]. unfold fetch_arg, place_after.
    destruct (is_int t) eqn:Ei.
    + assert (is_flt t = false) as Ef by (destruct t; discriminate || reflexivity). rewrite Ef in *.
      cbn [length] in *. destruct (Nat.ltb_spec ni 8); [|lia]. cbn [mbind option_bind].
      destruct (IH (ni + 1)%nat (nf + 0)%nat Hp) as (as_ & E & S); [lia | lia |].
      rewrite E. cbn [mbind option_bind]. eexists. split; [reflexivity|]. cbn [sysv].
      rewrite length_xs. destruct (Nat.ltb_spec ni 6); [|lia].
      rewrite Nat.add_0_r, Nat.add_1_r, xs_S, map_app in S. cbn [map] in S. rewrite S, Nat.add_succ_comm. reflexivity.
    + assert (is_flt t = true) as Ef by (unfold plain in Ht; rewrite Ei in Ht; exact Ht). rewrite Ef in *.
      cbn [length] in *. destruct (Nat.ltb_spec nf 8); [|lia]. cbn [mbind option_bind].
      destruct (IH (ni + 0)%nat (nf + 1)%nat Hp) as (as_ & E & S); [lia | lia |].
      rewrite E. cbn [mbind option_bind]. eexists. split; [reflexivity|]. cbn [sysv].
      rewrite length_vs. destruct (Nat.ltb_spec nf 8); [|lia].
      rewrite Nat.add_0_r, Nat.add_1_r, vs_S in S. rewrite S, Nat.add_succ_comm. reflexivity.
Qed.

Lemma load_int_params w j n i : has_jit w j -> (i + n <= 31)%nat ->
  load_params n (Z.of_nat i) reg_at w = (Ret (map (xreg j) (seq i n)), w).
Proof.
  intros HJ. revert i. induction n as [|n IH]; intros i Hi; cbn [load_params]; [reflexivity|].
  erewrite bind_ok by (apply (read_reg_at w j); [exact HJ | lia]).
  replace (Z.of_nat i + 1) with (Z.of_nat (S i)) by lia.
  erewrite bind_ok by (apply IH; lia). reflexivity.
Qed.

Lemma load_vec_params w j n i : has_jit w j -> (i + n <= 32)%nat ->
  load_params n (Z.of_nat i) (fun i => vec_at (2 * i)) w = (Ret (map (vlow j) (seq i n)), w).
Proof.
  intros HJ. revert i. induction n as [|n IH]; intros i Hi; cbn [load_params]; [reflexivity|].
  erewrite bind_ok by (apply (read_vec_at w j); [exact HJ | lia]).
  replace (Z.of_nat i + 1) with (Z.of_nat (S i)) by lia.
  erewrite bind_ok by (apply IH; lia). reflexivity.
Qed.

Lemma updZ_same (l : list Z) i x : nthZ l i = Some x -> updZ l i x = l.
Proof. unfold nthZ, updZ. destruct (i <? 0); [reflexivity|]. apply list_insert_id. Qed.

(** Storing the low half alone, or with the old upper half, is the same. *)
Lemma store_v0 w j v : has_jit w j -> on_jit (SetVector 0 (v, v0_high j)) w = on_jit (set_vec_at 0 v) w.
Proof.
  intros [H OK]. rewrite (on_jit_writes _ _ _ _ _ H (SetVector_run j 0 (v, v0_high j) OK ltac:(lia))).
  rewrite (on_jit_writes _ _ _ _ _ H (set_vec_at_run j OK 0 v ltac:(lia))).
  do 6 f_equal. change (0 * 2 + 1) with 1. change (0 * 2) with 0. cbn [fst snd].
  apply updZ_same. rewrite nthZ_updZ_ne by lia. unfold v0_high.
  destruct OK as [_ HL]. destruct (proj1 (nthZ_Some (vec (jit_state j)) 1) ltac:(rewrite HL; lia)) as [x ->].
  reflexivity.
Qed.

(** What [GetSupervisorFastCall] promises when it gives a fast call. *)
Lemma fast_call_inv ts swi fc : GetSupervisorFastCall ts swi = Ret (Some fc) ->
  exists t rt argtys, trampoline_maybe_get_by_id ts swi = Some t /\ t_types t = rt :: argtys /\
    t_has_execution_side_effects t = false /\ function fc = t_native_func t /\ t_native_func t <> 0 /\
    forallb plain argtys = true /\ (count_of is_int argtys <= 6)%nat /\ (count_of is_flt argtys <= 8)%nat /\
    integer_params fc = (if t_is_ellipsis_function t then 6 else Z.of_nat (count_of is_int argtys)) /\
    float_params fc = (if t_is_ellipsis_function t then 8 else Z.of_nat (count_of is_flt argtys)) /\
    fast_return_type rt = Some (return_type fc).
Proof.
  unfold GetSupervisorFastCall. destruct (trampoline_maybe_get_by_id ts swi) as [t|]; [|discriminate].
  destruct (Z.eqb_spec (t_native_func t) 0); [discriminate|].
  destruct (t_has_execution_side_effects t) eqn:Es; [discriminate|]. cbn [negb VARIADIC_TRAMPOLINE_FAST_PATH andb].
  destruct (count_args _ 0 0) as [[mi mf]|] eqn:Ec; [|discriminate].
  apply count_args_spec in Ec as (Hp & -> & ->). rewrite !Z.add_0_l.
  destruct (_ || _) eqn:Eo; [discriminate|]. zbool.
  destruct (t_types t) as [|rt argtys] eqn:Et; [destruct (t_is_ellipsis_function t); discriminate|].
  cbn [tail] in *. destruct (t_is_ellipsis_function t) eqn:Ee; cbn [andb];
    destruct (fast_return_type rt) as [r|] eqn:Er; try discriminate; intros [= <-];
    exists t, rt, argtys; cbn [function integer_params float_params return_type]; rewrite Ee;
    repeat split; auto; lia.
Qed.

(** The fast call spelled out. *)
Lemma fast_call_run native w j fc ni nf rt :
  has_jit w j -> integer_params fc = Z.of_nat ni -> float_params fc = Z.of_nat nf ->
  (ni <= 6)%nat -> (nf <= 8)%nat -> fast_return_type rt = Some (return_type fc) ->
  (forall hc w, jit (ctx (snd (native (function fc) hc w))) = jit (ctx w)) ->
  fast_call native fc w =
  call_and_store native j rt (function fc)
    {| int_regs := map HVal (xs j ni); vec_regs := vs j nf; stack_args := []; va_data := None;
       va_buffer := replicate sizeof_gp_arg_buffer None |} w.
Proof.
  intros HJ Ei Ef Hi Hf Hr Hn. unfold fast_call, ABI_PARAM_COUNT, ABI_FLOAT_PARAM_COUNT. rewrite Ei, Ef.
  destruct (Z.leb_spec (Z.of_nat ni) 6); [|lia]. destruct (Z.leb_spec (Z.of_nat nf) 8); [|lia].
  do 2 (erewrite bind_ok by reflexivity). rewrite !Nat2Z.id.
  erewrite bind_ok by (apply (load_int_params w j ni 0 HJ); lia).
  erewrite bind_ok by (apply (load_vec_params w j nf 0 HJ); lia).
  fold (xs j ni) (vs j nf). unfold call_and_store.
  assert (forall (k1 k2 : Z -> WM unit) hc, (forall v w', has_jit w' j -> k1 v w' = k2 v w') ->
    bind (native (function fc) hc) k1 w = bind (native (function fc) hc) k2 w) as K.
  { intros k1 k2 hc H'. unfold bind. specialize (Hn hc w).
    destruct (native (function fc) hc w) as [[v|e|f] w'] eqn:E; try reflexivity.
    apply H'. destruct HJ as [HL OK]. split; [|exact OK]. cbn [snd] in Hn. rewrite Hn. exact HL. }
  destruct rt; cbn [fast_return_type] in Hr; try discriminate; injection Hr as <-; cbn [classify];
    try reflexivity; apply K; intros v w' HJ'; symmetry; apply store_v0, HJ'.
Qed.

Lemma push_registers_run w j n i l : has_jit w j -> (i + n <= 31)%nat ->
  exists l', push_registers n (Z.of_nat i) l w = (Ret l', w) /\
    args l' = args l ++ map ArgLongLong (map (xreg j) (seq i n)) /\ v_reg l' = v_reg l /\
    native_va_args_data l' = native_va_args_data l /\ gp_arg_buffer l' = gp_arg_buffer l.
Proof.
  intros HJ. revert i l. induction n as [|n IH]; intros i l Hi; cbn [push_registers].
  - exists l. rewrite app_nil_r. auto.
  - erewrite bind_ok by (apply (read_xreg w j); [exact HJ | lia]).
    replace (Z.of_nat i + 1) with (Z.of_nat (S i)) by lia.
    destruct (IH (S i) (push_arg (ArgLongLong (xreg j i)) 0 0 0 l)) as (l' & R & A & V & N & B); [lia|].
    exists l'. rewrite R, A, V, N, B. unfold push_arg.
    cbn [args v_reg native_va_args_data gp_arg_buffer seq map]. rewrite <- app_assoc.
    repeat split; lia.
Qed.

Lemma push_vectors_run w j n i l : has_jit w j -> (i + n <= 32)%nat ->
  exists l', push_vectors n (Z.of_nat i) l w = (Ret l', w) /\
    args l' = args l ++ map ArgDouble (map (vlow j) (seq i n)) /\
    native_va_args_data l' = native_va_args_data l /\ gp_arg_buffer l' = gp_arg_buffer l.
Proof.
  intros HJ. revert i l. induction n as [|n IH]; intros i l Hi; cbn [push_vectors].
  - exists l. rewrite app_nil_r. auto.
  - destruct (read_vector w j i HJ ltac:(lia)) as [hi Hr]. erewrite bind_ok by exact Hr.
    replace (Z.of_nat i + 1) with (Z.of_nat (S i)) by lia. cbn [fst].
    destruct (IH (S i) (push_arg (ArgDouble (vlow j i)) 0 0 0 l)) as (l' & R & A & N & B); [lia|].
    exists l'. rewrite R, A, N, B. unfold push_arg.
    cbn [args native_va_args_data gp_arg_buffer seq map]. rewrite <- app_assoc. auto.
Qed.

Lemma sysv_rest_ints j ni v : (ni <= 6)%nat ->
  sysv (map ArgLongLong (map (xreg j) (seq ni (8 - ni)))) (map HVal (xs j ni)) v [] =
  (map HVal (xs j 6), v, [HVal (xreg j 6); HVal (xreg j 7)]).
Proof. intros H. do 7 (destruct ni as [|ni]; [reflexivity|]). lia. Qed.

Lemma sysv_rest_vecs j nf i st : (nf <= 8)%nat ->
  sysv (map ArgDouble (map (vlow j) (seq nf (8 - nf)))) i (vs j nf) st = (i, vs j 8, st).
Proof. intros H. do 9 (destruct nf as [|nf]; [reflexivity|]). lia. Qed.

(** ** Variable argument lists *)

(** The n-th integer of a guest va_list, as the AArch64 [va_arg] finds it: the
    saved general registers first, then the stack. *)
Definition guest_va_int (m : mem) (g : Aarch64VaArgsData) (n : nat) : option Z :=
  let offs := gr_offs g + 8 * Z.of_nat n in
  if offs <? 0 then load m (gr_top g + offs) 8
  else load m (va_stack g + (if gr_offs g <? 0 then offs else 8 * Z.of_nat n)) 8.

(** The n-th double among the saved vector registers. *)
Definition guest_va_double (m : mem) (g : Aarch64VaArgsData) (n : nat) : option Z :=
  load m (vr_top g + vr_offs g + 16 * Z.of_nat n) 8.

(** Eight bytes of the buffer. *)
Definition buffer_load (buf : list (option Z)) (off : nat) : option Z :=
  le_combine <$> mapM id (take 8 (drop off buf)).

(** What the host's [va_arg] finds in the converted list: [gp_offset] is past
    the six saved registers, so integers come from the overflow area. *)
Definition host_va_int (m : mem) (d : x86_64VaArgsData) (buf : list (option Z)) (n : nat) : option Z :=
  let offset := gp_offset d + 8 * Z.of_nat n in
  if offset <? 48 then load m (reg_save_area d + offset) 8
  else
    let over := (if gp_offset d <? 48 then offset - 48 else 8 * Z.of_nat n) in
    match overflow_arg_area d with
    | GuestArea a => load m (a + over) 8
    | ArgBuffer => buffer_load buf (Z.to_nat over)
    end.

Definition host_va_double (m : mem) (d : x86_64VaArgsData) (n : nat) : option Z :=
  let offset := fp_offset d + 16 * Z.of_nat n in
  if offset <? 176 then load m (u64 (reg_save_area d + offset)) 8 else None.

Lemma mapM_id_Some (l : list Z) : mapM id (map Some l) = Some l.
Proof. induction l as [|x l IH]; [reflexivity|]. simpl. rewrite IH. reflexivity. Qed.

Lemma copy_to_buffer_run w buf offset src n bytes :
  read_bytes (memory w) src n = Some bytes -> 0 <= offset -> offset + Z.of_nat n <= Z.of_nat (length buf) ->
  copy_to_buffer buf offset src n w =
  (Ret (take (Z.to_nat offset) buf ++ map Some bytes ++ drop (Z.to_nat offset + n) buf), w).
Proof.
  intros H H0 H1. unfold copy_to_buffer, bind, gets. rewrite H. cbn [deref ret].
  destruct (Z.ltb_spec (Z.of_nat (length buf)) (offset + Z.of_nat n)); [lia|reflexivity].
Qed.

Section VaList.
Context (w : world) (p : Z) (g : Aarch64VaArgsData) (Hg : read_va_list p w = (Ret g, w)).
Context (k : nat) (Hk : gr_offs g = - (8 * Z.of_nat k)) (Hk8 : (0 < k <= 8)%nat).
Context (Htop : 8 * Z.of_nat k <= gr_top g < 2 ^ 64) (Hst : 0 < va_stack g).
Context (regs : list Z) (Hregs : read_bytes (memory w) (gr_top g - 8 * Z.of_nat k) (8 * k) = Some regs).
Context (rest : list Z) (Hrest : read_bytes (memory w) (va_stack g) (128 - 8 * k) = Some rest).

Lemma convert_va_list_run l : length (gp_arg_buffer l) = 128%nat ->
  convert_va_list p l w =
  (Ret (set_va {| gp_offset := 48; fp_offset := u32 (176 + vr_offs g); overflow_arg_area := ArgBuffer;
                  reg_save_area := u64 (vr_top g - 176) |} (map Some regs ++ map Some rest) l), w).
Proof.
  intros HL. pose proof (length_read_bytes _ _ _ _ Hregs) as L1. pose proof (length_read_bytes _ _ _ _ Hrest) as L2.
  unfold convert_va_list. erewrite bind_ok by exact Hg.
  rewrite Hk. destruct (Z.leb_spec 0 (- (8 * Z.of_nat k))); [lia|]. rewrite Z.opp_involutive.
  assert (u64 (gr_top g - 8 * Z.of_nat k) = gr_top g - 8 * Z.of_nat k) as ->
    by (apply wrap_small; unfold in_range; lia).
  replace (Z.to_nat (8 * Z.of_nat k)) with (8 * k)%nat by lia.
  erewrite bind_ok by (apply copy_to_buffer_run; [exact Hregs | lia | rewrite HL; lia]).
  assert (u64 (Z.of_nat sizeof_gp_arg_buffer - 8 * Z.of_nat k) = 128 - 8 * Z.of_nat k) as ->
    by (apply wrap_small; unfold in_range, sizeof_gp_arg_buffer; lia).
  destruct (Z.ltb_spec 0 (128 - 8 * Z.of_nat k)); [|lia]. destruct (Z.eqb_spec (va_stack g) 0); [lia|].
  cbn [negb andb]. replace (Z.to_nat (128 - 8 * Z.of_nat k)) with (128 - 8 * k)%nat by lia.
  erewrite bind_ok.
  2:{ apply copy_to_buffer_run; [exact Hrest | lia |].
      rewrite !length_app, length_map, length_take, length_drop, L1. lia. }
  change (Z.to_nat 0) with 0%nat. rewrite take_0. cbn [app Nat.add].
  replace (Z.to_nat (8 * Z.of_nat k)) with (length (map Some regs)) by (rewrite length_map; lia).
  rewrite take_app_length, drop_ge; [rewrite app_nil_r; reflexivity|].
  rewrite length_app, !length_map, length_drop. lia.
Qed.

Lemma buffer_holds_list n : (n < 16)%nat ->
  buffer_load (map Some regs ++ map Some rest) (8 * n) = guest_va_int (memory w) g n.
Proof.
  intros Hn. pose proof (length_read_bytes _ _ _ _ Hregs) as L1. pose proof (length_read_bytes _ _ _ _ Hrest) as L2.
  unfold guest_va_int, buffer_load, load. rewrite Hk.
  destruct (Z.ltb_spec (- (8 * Z.of_nat k) + 8 * Z.of_nat n) 0).
  - replace (gr_top g + (- (8 * Z.of_nat k) + 8 * Z.of_nat n))
      with (gr_top g - 8 * Z.of_nat k + Z.of_nat (8 * n)) by lia.
    rewrite (read_bytes_slice _ _ _ _ (8 * n) 8 Hregs) by lia.
    rewrite drop_app_le, take_app_le, skipn_map, firstn_map, mapM_id_Some by (rewrite ?length_drop, length_map; lia).
    reflexivity.
  - destruct (Z.ltb_spec (- (8 * Z.of_nat k)) 0); [|lia].
    replace (va_stack g + (- (8 * Z.of_nat k) + 8 * Z.of_nat n))
      with (va_stack g + Z.of_nat (8 * n - 8 * k)) by lia.
    rewrite (read_bytes_slice _ _ _ _ (8 * n - 8 * k) 8 Hrest) by lia.
    rewrite drop_app_ge, length_map, L1, skipn_map, firstn_map, mapM_id_Some by (rewrite length_map; lia).
    reflexivity.
Qed.
End VaList.

(** ** Properties *)

(** C1. Guest calls follow the AArch64 procedure call standard: for a host
    function with integer, pointer and floating-point parameters,
    [handle_call_svc] calls it exactly once with the arguments found where the
    standard places them (x0-x7, v0-v7, then the 8-byte stack slots in order),
    laid out for the System V convention of the host, and stores the result in
    x0, or in the low half of v0, or nowhere, by its type; a stack argument
    that cannot be read faults before the call. *)
Theorem handle_call_svc_follows_aapcs native w j swi t rt argtys :
  has_jit w j -> trampoline_get_by_id swi (table w) = (Ret t, table w) ->
  t_types t = rt :: argtys -> forallb plain argtys = true -> t_is_ellipsis_function t = false ->
  handle_call_svc native swi w =
  match aapcs_args j (memory w) argtys with
  | Some as_ => call_and_store native j rt (t_native_func t) (plain_call as_) w
  | None => (Stop Undefined, w)
  end.
Proof.
  intros HJ HT Hty Hp He. rewrite (handle_call_svc_split native w j swi t rt argtys) by assumption.
  unfold aapcs_args.
  pose proof (aapcs_from_positions j (memory w) [] argtys) as P. cbn [app length] in P. rewrite P. clear P.
  pose proof (marshal_args_from w j HJ argtys 0 0 [] (initial_locals j) Hp) as K.
  change (count_of is_int []) with 0%nat. change (count_of is_flt []) with 0%nat.
  destruct (aapcs_from _ _ 0 0 argtys) as [as_|].
  - destruct K as (l & R & (La & _) & N & B); [repeat split; simpl; lia|].
    erewrite bind_ok by exact R. rewrite He. erewrite bind_ok by reflexivity.
    rewrite (host_call_of_plain l as_ La N B). unfold call_and_store.
    destruct (classify rt); try reflexivity. erewrite bind_ok by (apply read_v0, HJ). reflexivity.
  - apply bind_stop, K. repeat split; simpl; lia.
Qed.

(** C2. The fast path is equivalent to the slow path: when
    [GetSupervisorFastCall] allows a fast call of a function without an
    ellipsis that leaves the JIT alone (what the execution-side-effects tag is
    for), the emitted fast call and [handle_call_svc] are the same computation:
    the same host call on the same state, with the same final state. *)
Theorem fast_path_equals_slow_path native w j swi t fc :
  has_jit w j -> in_range 32 swi ->
  GetSupervisorFastCall (trampolines (table w)) swi = Ret (Some fc) ->
  trampoline_maybe_get_by_id (trampolines (table w)) swi = Some t ->
  t_is_ellipsis_function t = false ->
  (forall hc w, jit (ctx (snd (native (t_native_func t) hc w))) = jit (ctx w)) ->
  fast_call native fc w = handle_call_svc native swi w.
Proof.
  intros HJ Hs HF HT He Hn.
  destruct (fast_call_inv _ _ _ HF) as (t' & rt & argtys & HT' & Hty & _ & Hf & _ & Hp & Hi & Hv & Ei & Ev & Hr).
  rewrite HT in HT'. injection HT' as <-. rewrite He in Ei, Ev.
  rewrite (fast_call_run native w j fc _ _ rt HJ Ei Ev Hi Hv Hr) by (rewrite Hf; exact Hn).
  rewrite (handle_call_svc_split native w j swi t rt argtys HJ) by (apply maybe_get_Some || idtac; assumption).
  destruct (few_args_in_registers j (memory w) argtys 0 0 Hp Hi Hv) as (as_ & EA & ES).
  pose proof (marshal_args_from w j HJ argtys 0 0 [] (initial_locals j) Hp) as K. rewrite EA in K.
  destruct K as (l & R & (La & _) & N & B); [repeat split; simpl; lia|].
  erewrite bind_ok by exact R. rewrite He. erewrite bind_ok by reflexivity.
  rewrite (host_call_of_plain l as_ La N B). unfold plain_call.
  change (map HVal (xs j 0)) with (@nil hword) in ES. change (vs j 0) with (@nil Z) in ES. rewrite ES, Hf.
  cbn [Nat.add]. unfold call_and_store. destruct (classify rt); try reflexivity.
  symmetry. erewrite bind_ok by (apply read_v0, HJ). reflexivity.
Qed.

(** For an ellipsis function both paths hand over every argument register
    the guest could have used: x0-x5 and v0-v7 in the same host registers; the
    slow path adds x6 and x7 as stack words, which the fast path leaves out. *)
Theorem ellipsis_paths_agree_on_registers native w j swi t fc :
  has_jit w j -> in_range 32 swi ->
  GetSupervisorFastCall (trampolines (table w)) swi = Ret (Some fc) ->
  trampoline_maybe_get_by_id (trampolines (table w)) swi = Some t ->
  t_is_ellipsis_function t = true ->
  (forall hc w, jit (ctx (snd (native (t_native_func t) hc w))) = jit (ctx w)) ->
  exists rt slow fast,
    handle_call_svc native swi w = call_and_store native j rt (t_native_func t) slow w /\
    fast_call native fc w = call_and_store native j rt (t_native_func t) fast w /\
    int_regs slow = int_regs fast /\ vec_regs slow = vec_regs fast /\
    int_regs fast = map (fun n => HVal (xreg j n)) (seq 0 6) /\ vec_regs fast = map (vlow j) (seq 0 8) /\
    stack_args slow = [HVal (xreg j 6); HVal (xreg j 7)] /\ stack_args fast = [].
Proof.
  intros HJ Hs HF HT He Hn.
  destruct (fast_call_inv _ _ _ HF) as (t' & rt & argtys & HT' & Hty & _ & Hf & _ & Hp & Hi & Hv & Ei & Ev & Hr).
  rewrite HT in HT'. injection HT' as <-. rewrite He in Ei, Ev.
  exists rt, {| int_regs := map HVal (xs j 6); vec_regs := vs j 8;
                stack_args := [HVal (xreg j 6); HVal (xreg j 7)];
                va_data := None; va_buffer := replicate sizeof_gp_arg_buffer None |},
    {| int_regs := map HVal (xs j 6); vec_regs := vs j 8; stack_args := []; va_data := None;
       va_buffer := replicate sizeof_gp_arg_buffer None |}.
  split; [|split; [rewrite (fast_call_run native w j fc 6 8 rt), Hf; try (assumption || lia);
                   [reflexivity | rewrite Hf; exact Hn]|]; auto 10].
  rewrite (handle_call_svc_split native w j swi t rt argtys HJ) by (apply maybe_get_Some || idtac; assumption).
  destruct (few_args_in_registers j (memory w) argtys 0 0 Hp Hi Hv) as (as_ & EA & ES).
  pose proof (marshal_args_from w j HJ argtys 0 0 [] (initial_locals j) Hp) as K. rewrite EA in K.
  destruct K as (l & R & (La & Lx & Lv & _) & N & B); [repeat split; simpl; lia|]. cbn [Nat.add app] in *.
  rewrite Nat.min_l in Lx, Lv by lia.
  erewrite bind_ok by exact R. rewrite He. unfold push_ellipsis.
  replace (Z.to_nat (8 - x_reg l)) with (8 - count_of is_int argtys)%nat by lia. rewrite Lx.
  destruct (push_registers_run w j (8 - count_of is_int argtys) (count_of is_int argtys) l HJ ltac:(lia))
    as (l1 & R1 & A1 & V1 & N1 & B1).
  destruct (push_vectors_run w j (8 - count_of is_flt argtys) (count_of is_flt argtys) l1 HJ ltac:(lia))
    as (l2 & R2 & A2 & N2 & B2).
  assert (forall k, bind (let! l0 := push_registers (8 - count_of is_int argtys) (Z.of_nat (count_of is_int argtys)) l in
      push_vectors (Z.to_nat (8 - v_reg l0)) (v_reg l0) l0) k w = k l2 w :> outcome unit * world) as PE.
  { intros k. apply bind_ok. erewrite bind_ok by exact R1.
    replace (Z.to_nat (8 - v_reg l1)) with (8 - count_of is_flt argtys)%nat by lia.
    rewrite V1, Lv. exact R2. }
  rewrite PE. rewrite (host_call_of_plain l2 (as_ ++ map ArgLongLong (map (xreg j) (seq (count_of is_int argtys) (8 - count_of is_int argtys))) ++
    map ArgDouble (map (vlow j) (seq (count_of is_flt argtys) (8 - count_of is_flt argtys)))));
    [ | rewrite A2, A1, La, <- app_assoc; reflexivity | rewrite N2, N1, N; reflexivity | rewrite B2, B1, B; reflexivity ].
  unfold plain_call. rewrite !sysv_app.
  change (map HVal (xs j 0)) with (@nil hword) in ES. change (vs j 0) with (@nil Z) in ES. rewrite ES.
  cbn [Nat.add]. rewrite sysv_app, sysv_rest_ints, sysv_rest_vecs by lia.
  unfold call_and_store. destruct (classify rt); try reflexivity.
  erewrite bind_ok by (apply read_v0, HJ). reflexivity.
Qed.


(** ** Witnesses *)

(** Two host functions, [double ldexp(double, int)] and the ellipsis function
    [int printf(const char *, ...)], in the table of a thread with a fresh JIT. *)
Definition demo_ldexp : Trampoline :=
  {| t_name := "ldexp"; t_id := 0; t_native_func := 0x7000;
     t_types := [double_precision_fp; double_precision_fp; signed_word];
     t_is_ellipsis_function := false; t_has_execution_side_effects := false; t_guest_trampoline := 0x1004 |}.
Definition demo_printf : Trampoline :=
  {| t_name := "printf"; t_id := 1; t_native_func := 0x7100; t_types := [signed_word; pointer];
     t_is_ellipsis_function := true; t_has_execution_side_effects := false; t_guest_trampoline := 0x100c |}.
Definition demo_context : ExecutionContext :=
  ctx_with_initialized true (ctx_with_jit (Live (new_jit 1024)) fresh_context).
Definition demo_world (m : mem) : world :=
  {| tid := 0; contexts := {[ 0%nat := demo_context ]}; used_processors := true :: replicate 63 false;
     table := {| trampolines := [demo_ldexp; demo_printf]; trampoline_code := CodeAt 0x1000; code_words := [];
                 trampoline_code_index := 5; temp_code_gen_buf := []; guest_exit_trampoline := 0x1000 |};
     memory := m |}.

(** A host function that returns its first integer register. *)
Definition demo_native (f : Z) (hc : host_call) : WM Z :=
  ret (match int_regs hc with HVal v :: _ => v | _ => 0 end).

Lemma demo_has_jit m : has_jit (demo_world m) (new_jit 1024).
Proof. repeat split. Qed.

Lemma handle_call_svc_follows_aapcs_witness :
  handle_call_svc demo_native 0x10 (demo_world ∅) =
  call_and_store demo_native (new_jit 1024) double_precision_fp 0x7000
    (plain_call [ArgDouble 0; ArgLongLong 0]) (demo_world ∅).
Proof.
  apply (handle_call_svc_follows_aapcs demo_native (demo_world ∅) (new_jit 1024) 0x10 demo_ldexp
           double_precision_fp [double_precision_fp; signed_word] (demo_has_jit ∅)); reflexivity.
Defined.

Lemma fast_path_equals_slow_path_witness :
  fast_call demo_native {| function := 0x7000; integer_params := 1; float_params := 1; return_type := RFloat |}
    (demo_world ∅) = handle_call_svc demo_native 0x10 (demo_world ∅).
Proof.
  apply (fast_path_equals_slow_path demo_native (demo_world ∅) (new_jit 1024) 0x10 demo_ldexp);
    [apply demo_has_jit | unfold in_range; lia | reflexivity | reflexivity | reflexivity | reflexivity].
Defined.

Lemma ellipsis_paths_agree_on_registers_witness : exists rt slow fast,
  handle_call_svc demo_native 0x11 (demo_world ∅) =
    call_and_store demo_native (new_jit 1024) rt 0x7100 slow (demo_world ∅) /\
  int_regs slow = int_regs fast /\ vec_regs slow = vec_regs fast.
Proof.
  destruct (ellipsis_paths_agree_on_registers demo_native (demo_world ∅) (new_jit 1024) 0x11 demo_printf
    {| function := 0x7100; integer_params := 6; float_params := 8; return_type := RInteger |})
    as (rt & slow & fast & H & _ & H1 & H2 & _);
    [apply demo_has_jit | unfold in_range; lia | reflexivity | reflexivity | reflexivity | reflexivity |].
  exists rt, slow, fast. split; [exact H | split; [exact H1 | exact H2]].
Defined.

(** 160 mapped bytes at 0x1000: a va_list with one general register (0x2a)
    left at 0x1020, and a stack area from 0x1028. *)
Definition demo_va_memory : mem :=
  list_to_map (zip (seqZ 0x1000 160)
    (le_split 8 0x1028 ++ le_split 8 0x1028 ++ le_split 8 0x1180 ++ le_split 4 (2 ^ 32 - 8) ++ le_split 4 0 ++
     le_split 8 0x2a ++ replicate 120 0)).
Definition demo_va_list : Aarch64VaArgsData :=
  {| va_stack := 0x1028; gr_top := 0x1028; vr_top := 0x1180; gr_offs := -8; vr_offs := 0 |}.

(** Read the next field of the demo list. *)
Ltac va_field v :=
  rewrite read_run; cbn [memory demo_world];
  match goal with |- context [load demo_va_memory ?a ?n] =>
    replace (load demo_va_memory a n) with (Some v) by (vm_compute; reflexivity) end;
  cbv beta iota.

Lemma demo_va_list_read :
  read_va_list 0x1000 (demo_world demo_va_memory) = (Ret demo_va_list, demo_world demo_va_memory).
Proof.
  unfold read_va_list, bind.
  va_field 0x1028. va_field 0x1028. va_field 0x1180. va_field (2 ^ 32 - 8). va_field 0. reflexivity.
Qed.

