(* ===== verification/Fibers.v ===== *)
(** Running guest code: what a callee fiber preserves, the execution loop
    against the sequence of calls the guest makes, and the life of execution
    contexts across threads. *)
From S2P Require Import Prelude Memory A64Jit FunctionTraits Trampoline ExecutionContext Marshalling.
Local Open Scope Z_scope.

(** ** Callee fibers *)

(** The registers a called function must preserve: x19-x30, SP, PC, d8-d15. *)
Definition callee_saved (j : Jit) : list Z :=
  map (xreg j) (seq 19 12) ++ [sp (jit_state j); pc (jit_state j)] ++ map (vlow j) (seq 8 8).

(** Everything else: x0-x18, the vectors but for d8-d15, and the rest of the
    JIT. *)
Definition is_low_callee (i : nat) : bool := (16 <=? i)%nat && (i <=? 30)%nat && Nat.even i.
Definition everything_else (j : Jit) : list Z * list (option Z) * Jit :=
  (map (xreg j) (seq 0 19),
   map (fun i => nthZ (vec (jit_state j)) (Z.of_nat i)) (List.filter (fun i => negb (is_low_callee i)) (seq 0 64)),
   with_jit_state (with_reg [] (with_vec [] (with_sp 0 (with_pc 0 (jit_state j))))) j).

(** The bodies of [get_saved_registers] and [restore_saved_registers]. *)
Definition save_body : JM SavedRegisters :=
  ltac:(let t := eval cbv delta [get_saved_registers] in get_saved_registers in
        match t with on_jit ?c => exact c end).
Definition restore_body (regs : SavedRegisters) : JM unit :=
  ltac:(let t := eval cbv beta delta [restore_saved_registers] in (restore_saved_registers regs) in
        match t with on_jit ?c => exact c end).

Ltac list_cells l H :=
  repeat (destruct l as [|? l]; [discriminate H|]; apply (f_equal pred) in H; cbn [length pred] in H);
  destruct l; [clear H | discriminate H].

Lemma save_restore j0 j1 : state_ok (jit_state j0) -> state_ok (jit_state j1) ->
  exists r j2, save_body j0 = (Ret r, j0) /\ restore_body r j1 = (Ret tt, j2) /\
    callee_saved j2 = callee_saved j0 /\ everything_else j2 = everything_else j1 /\ state_ok (jit_state j2).
Proof.
  destruct j0 as [e0 [reg0 sp0 pc0 nz0 vec0 gm0 am0 hr0 es0 rp0 rl0 rc0 fe0 fq0 fc0] em0 ie0 ir0].
  destruct j1 as [e1 [reg1 sp1 pc1 nz1 vec1 gm1 am1 hr1 es1 rp1 rl1 rc1 fe1 fq1 fc1] em1 ie1 ir1].
  intros [R0 V0] [R1 V1]. cbn [jit_state reg vec] in R0, V0, R1, V1.
  list_cells reg0 R0. list_cells vec0 V0. list_cells reg1 R1. list_cells vec1 V1.
  eexists _, _. split; [cbv; reflexivity|]. split; [cbv; reflexivity|]. repeat split; cbv; reflexivity.
Qed.

Lemma fiber_enter_callee w j : initialized (ctx w) = true -> has_jit w j ->
  exists r, save_body j = (Ret r, j) /\ fiber_enter Callee w = (Ret (Callee, Some r), w).
Proof.
  intros Hi [HJ OK]. destruct (save_restore j j OK OK) as (r & _ & R & _). exists r. split; [exact R|].
  unfold fiber_enter. erewrite bind_ok by reflexivity. rewrite Hi. erewrite bind_ok by reflexivity.
  erewrite bind_ok; [reflexivity|]. exact (on_jit_reads save_body w j _ HJ R).
Qed.

Lemma fiber_exit_callee w j r j' : initialized (ctx w) = true -> jit (ctx w) = Live j ->
  restore_body r j = (Ret tt, j') ->
  fiber_exit (Callee, Some r) w = (Ret tt, w_with_ctx (ctx_with_jit (Live j') (ctx w)) w).
Proof.
  intros Hi HJ R. unfold fiber_exit. erewrite bind_ok by reflexivity. rewrite Hi.
  erewrite bind_ok by reflexivity. exact (on_jit_writes (restore_body r) w j _ _ HJ R).
Qed.

(** ** The execution loop *)

Section Loop.
Variable native : Z -> host_call -> WM Z.
Variable compile : world -> Z -> compiled.
Variable run_code : Z -> WM Z.

(** The guest, run from a world, makes the supervisor calls [calls] in this
    order, each handled by [handle_call_svc], and then exits in [w']. *)
Inductive guest_runs : world -> list Z -> world -> Prop :=
| guest_exits w w1 w' :
    on_jit ClearExclusiveState w = (Ret tt, w1) ->
    Run compile run_code w1 = (Ret SuccessfulExit, w') ->
    guest_runs w [] w'
| guest_calls w w1 w2 w3 calls w' :
    on_jit ClearExclusiveState w = (Ret tt, w1) ->
    Run compile run_code w1 = (Ret SupervisorCall, w2) ->
    handle_call_svc native (svc_number (ctx w2)) w2 = (Ret tt, w3) ->
    guest_runs w3 calls w' ->
    guest_runs w (svc_number (ctx w2) :: calls) w'.

Lemma turn_of_exit w w1 w' :
  on_jit ClearExclusiveState w = (Ret tt, w1) -> Run compile run_code w1 = (Ret SuccessfulExit, w') ->
  execution_turn native compile run_code w = (Ret false, w').
Proof.
  intros H1 H2. unfold execution_turn. erewrite bind_ok by exact H1. erewrite bind_ok by exact H2. reflexivity.
Qed.

Lemma turn_of_call w w1 w2 w3 :
  on_jit ClearExclusiveState w = (Ret tt, w1) -> Run compile run_code w1 = (Ret SupervisorCall, w2) ->
  handle_call_svc native (svc_number (ctx w2)) w2 = (Ret tt, w3) ->
  execution_turn native compile run_code w = (Ret true, w3).
Proof.
  intros H1 H2 H3. unfold execution_turn. erewrite bind_ok by exact H1. erewrite bind_ok by exact H2.
  change (SupervisorCall =? SupervisorCall) with true. cbn match.
  erewrite bind_ok by reflexivity. erewrite bind_ok by exact H3. reflexivity.
Qed.

(** What a turn that returns did. *)
Lemma turn_inv w b w' : execution_turn native compile run_code w = (Ret b, w') ->
  exists w1, on_jit ClearExclusiveState w = (Ret tt, w1) /\
    ((b = false /\ Run compile run_code w1 = (Ret SuccessfulExit, w')) \/
     (b = true /\ exists w2, Run compile run_code w1 = (Ret SupervisorCall, w2) /\
        handle_call_svc native (svc_number (ctx w2)) w2 = (Ret tt, w'))).
Proof.
  intros H. unfold execution_turn in H. apply bind_Ret in H as ([] & w1 & H1 & H).
  exists w1. split; [exact H1|]. apply bind_Ret in H as (reason & w2 & H2 & H).
  destruct (Z.eqb_spec reason SupervisorCall) as [->|Hne].
  - right. apply bind_Ret in H as (c & w3 & [= <- <-] & H). apply bind_Ret in H as ([] & w4 & H4 & [= <- <-]).
    eauto.
  - left. destruct (Z.eqb_spec reason SuccessfulExit) as [->|]; [|discriminate].
    injection H as <- <-. auto.
Qed.

Lemma guest_runs_turns w calls w' fuel : guest_runs w calls w' -> (length calls < fuel)%nat ->
  execution_turns native compile run_code fuel w = (Ret tt, w').
Proof.
  intros H. revert fuel. induction H as [w w1 w' H1 H2 | w w1 w2 w3 calls w' H1 H2 H3 _ IH];
    intros [|fuel] Hf; cbn [length] in Hf; try lia; cbn [execution_turns].
  - erewrite bind_ok by (eapply turn_of_exit; eassumption). reflexivity.
  - erewrite bind_ok by (eapply turn_of_call; eassumption). apply IH. lia.
Qed.

Lemma turns_guest_runs fuel w w' : execution_turns native compile run_code fuel w = (Ret tt, w') ->
  exists calls, guest_runs w calls w' /\ (length calls < fuel)%nat.
Proof.
  revert w. induction fuel as [|fuel IH]; intros w H; cbn [execution_turns] in H; [discriminate|].
  apply bind_Ret in H as (b & w1 & HT & H).
  destruct (turn_inv _ _ _ HT) as (wa & Ha & [[-> HR] | (-> & w2 & HR & HC)]).
  - injection H as <-. exists []. split; [eapply guest_exits; eassumption | simpl; lia].
  - destruct (IH _ H) as (calls & G & L). exists (svc_number (ctx w2) :: calls).
    split; [eapply guest_calls; eassumption | simpl; lia].
Qed.
End Loop.

(** ** Properties *)

(** C6. A callee fiber is transparent to its caller: whatever the guest code
    run inside it did to the registers, when the scope ends x19-x30, SP, PC and
    the low halves of v8-v15 are what they were when it began, and everything
    else of the JIT (the result registers among it) is as the guest left it.
    The same holds when the body leaves by an exception. *)
Theorem callee_fiber_restores_registers {A} w j0 (body : WM A) o w1 j1 :
  initialized (ctx w) = true -> has_jit w j0 ->
  body w = (o, w1) -> (forall f, o <> Stop f) ->
  initialized (ctx w1) = true -> has_jit w1 j1 ->
  exists j2, with_fiber Callee body w = (o, w_with_ctx (ctx_with_jit (Live j2) (ctx w1)) w1) /\
    callee_saved j2 = callee_saved j0 /\ everything_else j2 = everything_else j1 /\ state_ok (jit_state j2).
Proof.
  intros Hi HJ0 HB Ho Hi1 [HJ1 OK1].
  destruct (save_restore j0 j1 (proj2 HJ0) OK1) as (r & j2 & RS & RR & E1 & E2 & E3).
  exists j2. split; [|auto].
  destruct (fiber_enter_callee w j0 Hi HJ0) as (r' & RS' & HE). rewrite RS in RS'. injection RS' as <-.
  pose proof (fiber_exit_callee w1 j1 r j2 Hi1 HJ1 RR) as HX.
  unfold with_fiber. erewrite bind_ok by exact HE. rewrite HB.
  destruct o as [a|e|f]; [| |destruct (Ho f eq_refl)]; erewrite bind_ok by exact HX; reflexivity.
Qed.


(** ** Witnesses *)

(** A guest body that clobbers a callee-saved register and returns 9 in x0. *)
Definition demo_body : WM unit := on_jit (SetRegister 19 7 ;; SetRegister 0 9).

Lemma callee_fiber_restores_registers_witness : exists j2 w2,
  with_fiber Callee demo_body (demo_world ∅) = (Ret tt, w2) /\ jit (ctx w2) = Live j2 /\
  callee_saved j2 = callee_saved (new_jit 1024) /\ xreg j2 0 = 9.
Proof.
  destruct (callee_fiber_restores_registers (demo_world ∅) (new_jit 1024) demo_body (Ret tt)
    (snd (demo_body (demo_world ∅))) (snd ((SetRegister 19 7 ;; SetRegister 0 9) (new_jit 1024))))
    as (j2 & H & Hc & He & _);
    [reflexivity | apply demo_has_jit | reflexivity | discriminate | reflexivity | repeat split |].
  exists j2. eexists. split; [exact H|]. rewrite ctx_with. split; [reflexivity|]. split; [exact Hc|].
  exact (f_equal (fun x => default 0 (fst (fst x) !! 0%nat)) He).
Defined.

(** A guest that calls the first trampoline once and exits. *)
Definition demo_compile (w : world) (location : Z) : compiled :=
  {| entrypoint := 0x9000; code_size := 64; end_pc := location + 4 |}.
Definition demo_run_code (ptr : Z) : WM Z :=
  let! c := gets ctx in
  if svc_number c =? 0 then CallSVC 0x10 ;; on_jit (ClearHalt SupervisorCall) ;; ret SupervisorCall
  else ret SuccessfulExit.


Lemma run_eta {S A} (c : M S A) s o : fst (c s) = o -> c s = (o, snd (c s)).
Proof. intros <-. apply surjective_pairing. Qed.

Definition demo_w1 : world := snd (on_jit ClearExclusiveState (demo_world ∅)).
Definition demo_w2 : world := snd (Run demo_compile demo_run_code demo_w1).
Definition demo_w3 : world := snd (handle_call_svc demo_native (svc_number (ctx demo_w2)) demo_w2).
Definition demo_w4 : world := snd (on_jit ClearExclusiveState demo_w3).
Definition demo_w5 : world := snd (Run demo_compile demo_run_code demo_w4).

Lemma demo_step1 : on_jit ClearExclusiveState (demo_world ∅) = (Ret tt, demo_w1).
Proof. unfold demo_w1. apply run_eta. vm_compute. reflexivity. Qed.
Lemma demo_step2 : Run demo_compile demo_run_code demo_w1 = (Ret SupervisorCall, demo_w2).
Proof. unfold demo_w2. apply run_eta. vm_compute. reflexivity. Qed.
Lemma demo_step3 : handle_call_svc demo_native (svc_number (ctx demo_w2)) demo_w2 = (Ret tt, demo_w3).
Proof. unfold demo_w3. apply run_eta. vm_compute. reflexivity. Qed.
Lemma demo_step4 : on_jit ClearExclusiveState demo_w3 = (Ret tt, demo_w4).
Proof. unfold demo_w4. apply run_eta. vm_compute. reflexivity. Qed.
Lemma demo_step5 : Run demo_compile demo_run_code demo_w4 = (Ret SuccessfulExit, demo_w5).
Proof. unfold demo_w5. apply run_eta. vm_compute. reflexivity. Qed.

Lemma demo_guest_runs :
  guest_runs demo_native demo_compile demo_run_code (demo_world ∅) [svc_number (ctx demo_w2)] demo_w5.
Proof.
  exact (guest_calls _ _ _ _ _ _ _ _ _ demo_step1 demo_step2 demo_step3
           (guest_exits _ _ _ _ _ _ demo_step4 demo_step5)).
Qed.

