(* ===== verification/ExclusiveMonitor.v ===== *)
(** dynarmic's exclusive monitor (interface/exclusive_monitor.h and
    backend/x64/exclusive_monitor.cpp) with its spin lock: the operations behind
    the load-exclusive and store-exclusive instructions when they call the
    memory callbacks. *)
From S2P Require Import Prelude.
Local Open Scope Z_scope.

Definition RESERVATION_GRANULE_MASK : Z := 0xFFFFFFFFFFFFFFFF.
Definition INVALID_EXCLUSIVE_ADDRESS : Z := 0xDEADDEADDEADDEAD.

(** [SpinLock] and [ExclusiveMonitor]; a [Vector] is its 128-bit number. *)
Record ExclusiveMonitor : Type := {
  storage : Z;
  exclusive_addresses : list Z;
  exclusive_values : list Z
}.
Definition with_storage x m : ExclusiveMonitor := {| storage := x; exclusive_addresses := exclusive_addresses m; exclusive_values := exclusive_values m |}.
Definition with_addresses x m : ExclusiveMonitor := {| storage := storage m; exclusive_addresses := x; exclusive_values := exclusive_values m |}.
Definition with_values x m : ExclusiveMonitor := {| storage := storage m; exclusive_addresses := exclusive_addresses m; exclusive_values := x |}.

Definition new_monitor (processor_count : nat) : ExclusiveMonitor :=
  {| storage := 0; exclusive_addresses := replicate processor_count INVALID_EXCLUSIVE_ADDRESS;
     exclusive_values := replicate processor_count 0 |}.
Definition GetProcessorCount (m : ExclusiveMonitor) : Z := Z.of_nat (length (exclusive_addresses m)).

Section Monitor.
(** The state the memory callbacks work on. *)
Context {S : Type}.
Abbreviation XM := (M (ExclusiveMonitor * S)).

Definition on_monitor (f : ExclusiveMonitor -> ExclusiveMonitor) : XM unit := modify (fun s => (f (fst s), snd s)).
Definition monitor : XM ExclusiveMonitor := gets fst.
Definition callback {A} (op : M S A) : XM A := fun s => match op (snd s) with (o, t) => (o, (fst s, t)) end.

(** [EmitSpinLockLock]: exchange 1 with the lock until 0 comes back; [fuel] bounds
    the exchanges. *)
Fixpoint Lock (fuel : nat) : XM unit :=
  match fuel with
  | O => stop OutOfFuel
  | Datatypes.S fuel' =>
      let! m := monitor in
      on_monitor (with_storage 1) ;;
      if storage m =? 0 then ret tt else Lock fuel'
  end.
(** [EmitSpinLockUnlock]. *)
Definition Unlock : XM unit := on_monitor (with_storage 0).

Definition address_of (processor_id : Z) : XM Z := let! m := monitor in deref (nthZ (exclusive_addresses m) processor_id).
Definition set_address (processor_id a : Z) : XM unit :=
  let! _ := address_of processor_id in
  on_monitor (fun m => with_addresses (updZ (exclusive_addresses m) processor_id a) m).
(** [memcpy] of the [n] low bytes into and out of a value slot. *)
Definition save_value (n : nat) (processor_id v : Z) : XM unit :=
  let! m := monitor in
  let! old := deref (nthZ (exclusive_values m) processor_id) in
  on_monitor (with_values (updZ (exclusive_values m) processor_id
    (wrap (8 * Z.of_nat n) v + 2 ^ (8 * Z.of_nat n) * (old / 2 ^ (8 * Z.of_nat n))))).
Definition saved_value (n : nat) (processor_id : Z) : XM Z :=
  let! m := monitor in
  let! v := deref (nthZ (exclusive_values m) processor_id) in ret (wrap (8 * Z.of_nat n) v).

Definition ReadAndMark (fuel n : nat) (processor_id address : Z) (op : M S Z) : XM Z :=
  let masked_address := Z.land address RESERVATION_GRANULE_MASK in
  Lock fuel ;;
  set_address processor_id masked_address ;;
  let! value := callback op in
  save_value n processor_id value ;;
  Unlock ;;
  ret value.

(** The range-for loop of [CheckAndClear]. *)
Definition clear_address (a : Z) (l : list Z) : list Z :=
  map (fun other => if other =? a then INVALID_EXCLUSIVE_ADDRESS else other) l.

Definition CheckAndClear (fuel : nat) (processor_id address : Z) : XM bool :=
  let masked_address := Z.land address RESERVATION_GRANULE_MASK in
  Lock fuel ;;
  let! a := address_of processor_id in
  if negb (a =? masked_address) then Unlock ;; ret false
  else
    on_monitor (fun m => with_addresses (clear_address masked_address (exclusive_addresses m)) m) ;;
    ret true.

Definition DoExclusiveOperation (fuel n : nat) (processor_id address : Z) (op : Z -> M S bool) : XM bool :=
  let! passed := CheckAndClear fuel processor_id address in
  if negb passed then ret false
  else
    let! saved := saved_value n processor_id in
    let! result := callback (op saved) in
    Unlock ;;
    ret result.

Definition Clear (fuel : nat) : XM unit :=
  Lock fuel ;;
  on_monitor (fun m => with_addresses (map (fun _ => INVALID_EXCLUSIVE_ADDRESS) (exclusive_addresses m)) m) ;;
  Unlock.
Definition ClearProcessor (fuel : nat) (processor_id : Z) : XM unit :=
  Lock fuel ;;
  set_address processor_id INVALID_EXCLUSIVE_ADDRESS ;;
  Unlock.

(** ** Reservations, abstractly

    Each processor holds at most one reservation: an address with the value read
    there.  Reading reserves; a store passes exactly with a reservation for its
    address, and takes every processor's reservation for that address away. *)
Definition reservations : Type := Z -> option (Z * Z).
Definition reserve (p a v : Z) (r : reservations) : reservations := fun q => if q =? p then Some (a, v) else r q.
Definition release (p : Z) (r : reservations) : reservations := fun q => if q =? p then None else r q.
Definition release_address (a : Z) (r : reservations) : reservations :=
  fun q => match r q with Some (b, v) => if b =? a then None else Some (b, v) | None => None end.

Definition is_address (a : Z) : Prop := in_range 64 a /\ a <> INVALID_EXCLUSIVE_ADDRESS.

(** The monitor's state between operations represents the reservations, all made
    with accesses of [n] bytes. *)
Record represents (n : nat) (m : ExclusiveMonitor) (r : reservations) : Prop := {
  rep_unlocked : storage m = 0;
  rep_lengths : length (exclusive_values m) = length (exclusive_addresses m);
  rep_in : forall p, r p <> None -> 0 <= p < GetProcessorCount m;
  rep_slot : forall p a, nthZ (exclusive_addresses m) p = Some a ->
    match r p with
    | Some (b, v) => a = b /\ is_address a /\ exists x, nthZ (exclusive_values m) p = Some x /\ wrap (8 * Z.of_nat n) x = v
    | None => a = INVALID_EXCLUSIVE_ADDRESS
    end
}.

(** ** Lemmas *)
Lemma mask_address a : in_range 64 a -> Z.land a RESERVATION_GRANULE_MASK = a.
Proof. intros H. change RESERVATION_GRANULE_MASK with (Z.ones 64). rewrite Z.land_ones by lia. apply Z.mod_small, H. Qed.

Lemma Lock_ok fuel m (t : S) : storage m = 0 -> Lock (Datatypes.S fuel) (m, t) = (Ret tt, (with_storage 1 m, t)).
Proof. intros H. cbn [Lock]. unfold bind, monitor, gets, on_monitor, modify. cbn [fst snd]. rewrite H. reflexivity. Qed.

Section Slots.
Context (n : nat) (m : ExclusiveMonitor) (r : reservations).
Hypothesis R : represents n m r.

Lemma address_slot p : 0 <= p < GetProcessorCount m ->
  exists a, nthZ (exclusive_addresses m) p = Some a /\
    match r p with Some (b, _) => a = b | None => a = INVALID_EXCLUSIVE_ADDRESS end.
Proof.
  intros Hp. destruct (proj1 (nthZ_Some (exclusive_addresses m) p) Hp) as [a Ha]. exists a. split; [exact Ha|].
  pose proof (rep_slot _ _ _ R _ _ Ha) as H. destruct (r p) as [[b v]|]; [apply H | exact H].
Qed.

Lemma value_slot p : 0 <= p < GetProcessorCount m -> exists x, nthZ (exclusive_values m) p = Some x.
Proof. intros Hp. apply nthZ_Some. rewrite (rep_lengths _ _ _ R). exact Hp. Qed.

(** Changing one slot. *)
Lemma represents_reserve p a v x : 0 <= p < GetProcessorCount m -> is_address a -> wrap (8 * Z.of_nat n) x = v ->
  represents n {| storage := 0; exclusive_addresses := updZ (exclusive_addresses m) p a;
                  exclusive_values := updZ (exclusive_values m) p x |} (reserve p a v r).
Proof.
  intros Hp Ha Hx. unfold reserve. split; cbn [storage exclusive_addresses exclusive_values].
  - reflexivity.
  - rewrite !length_updZ. apply R.
  - intros q. unfold GetProcessorCount. cbn [exclusive_addresses]. rewrite length_updZ.
    destruct (Z.eqb_spec q p) as [->|]; [intros _; exact Hp | apply R].
  - intros q b. destruct (Z.eqb_spec q p) as [->|Hne].
    + rewrite !nthZ_updZ_eq by (rewrite ?(rep_lengths _ _ _ R); exact Hp). intros [= <-]. eauto.
    + rewrite !nthZ_updZ_ne by congruence. apply R.
Qed.

Lemma represents_release p : 0 <= p < GetProcessorCount m ->
  represents n {| storage := 0; exclusive_addresses := updZ (exclusive_addresses m) p INVALID_EXCLUSIVE_ADDRESS;
                  exclusive_values := exclusive_values m |} (release p r).
Proof.
  intros Hp. unfold release. split; cbn [storage exclusive_addresses exclusive_values].
  - reflexivity.
  - rewrite length_updZ. apply R.
  - intros q. unfold GetProcessorCount. cbn [exclusive_addresses]. rewrite length_updZ.
    destruct (Z.eqb_spec q p); [congruence | apply R].
  - intros q b. destruct (Z.eqb_spec q p) as [->|Hne].
    + rewrite nthZ_updZ_eq by exact Hp. congruence.
    + rewrite nthZ_updZ_ne by congruence. apply R.
Qed.

Lemma nthZ_map {A B} (f : A -> B) l i : nthZ (map f l) i = option_map f (nthZ l i).
Proof. unfold nthZ. destruct (i <? 0); [reflexivity|]. apply list_lookup_fmap. Qed.

Lemma represents_clear a : is_address a ->
  represents n {| storage := 0; exclusive_addresses := clear_address a (exclusive_addresses m);
                  exclusive_values := exclusive_values m |} (release_address a r).
Proof.
  intros Ha. unfold release_address, clear_address. split; cbn [storage exclusive_addresses exclusive_values].
  - reflexivity.
  - rewrite length_map. apply R.
  - intros q H. unfold GetProcessorCount. cbn [exclusive_addresses]. rewrite length_map. apply (rep_in _ _ _ R).
    destruct (r q) as [[]|]; congruence.
  - intros q b. rewrite nthZ_map. destruct (nthZ (exclusive_addresses m) q) as [c|] eqn:E; [|discriminate].
    pose proof (rep_slot _ _ _ R _ _ E) as H. intros [= <-]. destruct (r q) as [[d v]|].
    + destruct H as (-> & Hd & x & Hx & Hv). destruct (Z.eqb_spec d a); eauto.
    + subst c. destruct (Z.eqb_spec INVALID_EXCLUSIVE_ADDRESS a) as [<-|]; [|reflexivity]. destruct (proj2 Ha eq_refl).
Qed.
End Slots.

(** ** The operations against the reservations *)
Section Operations.
Context (n fuel : nat) (m : ExclusiveMonitor) (r : reservations) (p : Z) (t : S).
Hypothesis R : represents n m r.
Hypothesis Hp : 0 <= p < GetProcessorCount m.
Let k : Z := 8 * Z.of_nat n.

Lemma low_part v x : wrap k (wrap k v + 2 ^ k * x) = wrap k v.
Proof.
  unfold wrap. rewrite Z.mul_comm, Z_mod_plus_full. apply Z.mod_mod, Z.pow_nonzero; [lia | unfold k; lia].
Qed.

Lemma monitor_eta : {| storage := 0; exclusive_addresses := exclusive_addresses m; exclusive_values := exclusive_values m |} = m.
Proof. rewrite <- (rep_unlocked _ _ _ R). destruct m; reflexivity. Qed.

Lemma ReadAndMark_ok a op v t' : is_address a -> op t = (Ret v, t') -> in_range k v ->
  exists m', ReadAndMark (Datatypes.S fuel) n p a op (m, t) = (Ret v, (m', t')) /\ represents n m' (reserve p a v r).
Proof.
  intros Ha Ho Hv. destruct (address_slot n m r R p Hp) as (b & Hb & _). destruct (value_slot n m r R p Hp) as (x & Hx).
  eexists. split; [|apply (represents_reserve n m r R p a v (wrap k v + 2 ^ k * (x / 2 ^ k)) Hp Ha);
    rewrite low_part; apply wrap_small, Hv].
  unfold ReadAndMark. rewrite mask_address by apply Ha. erewrite bind_ok by (apply Lock_ok, R).
  cbv [set_address address_of save_value callback Unlock on_monitor monitor bind gets modify deref ret fst snd with_storage with_addresses with_values].
  cbn [exclusive_addresses exclusive_values storage]. rewrite Hb. cbn [exclusive_addresses exclusive_values storage]. rewrite Ho.
  cbn [exclusive_addresses exclusive_values storage]. rewrite Hx. reflexivity.
Qed.

Lemma DoExclusiveOperation_passes a v op b t' : is_address a -> r p = Some (a, v) -> op v t = (Ret b, t') ->
  exists m', DoExclusiveOperation (Datatypes.S fuel) n p a op (m, t) = (Ret b, (m', t')) /\
    represents n m' (release_address a r).
Proof.
  intros Ha Hr Ho. destruct (address_slot n m r R p Hp) as (c & Hc & E). rewrite Hr in E. subst c.
  destruct (value_slot n m r R p Hp) as (x & Hx). pose proof (rep_slot _ _ _ R _ _ Hc) as H. rewrite Hr in H.
  destruct H as (_ & _ & x' & Hx' & Hv). rewrite Hx in Hx'. injection Hx' as <-.
  eexists. split; [|apply (represents_clear n m r R a Ha)].
  unfold DoExclusiveOperation, CheckAndClear. rewrite mask_address by apply Ha.
  erewrite bind_ok; [cbn [negb]|erewrite bind_ok by (apply Lock_ok, R);
    cbv [address_of on_monitor monitor bind gets modify deref ret fst snd with_storage with_addresses];
    cbn [exclusive_addresses exclusive_values storage]; rewrite Hc, Z.eqb_refl; reflexivity].
  cbv beta iota zeta delta [negb saved_value callback Unlock on_monitor monitor bind gets modify deref ret fst snd with_storage].
  cbn [exclusive_values exclusive_addresses storage]. rewrite Hx. fold k in Hv |- *. rewrite Hv, Ho. reflexivity.
Qed.

Lemma DoExclusiveOperation_fails a op : is_address a -> (forall v, r p <> Some (a, v)) ->
  DoExclusiveOperation (Datatypes.S fuel) n p a op (m, t) = (Ret false, (m, t)).
Proof.
  intros Ha Hr. destruct (address_slot n m r R p Hp) as (c & Hc & E).
  assert ((c =? a) = false) as Hne.
  { apply Z.eqb_neq. intros ->. destruct (r p) as [[b v]|]; subst; [apply (Hr v eq_refl) | apply (proj2 Ha eq_refl)]. }
  unfold DoExclusiveOperation, CheckAndClear. rewrite mask_address by apply Ha.
  rewrite (bind_ok _ _ _ false (m, t)); [reflexivity|]. erewrite bind_ok by (apply Lock_ok, R).
  cbv [address_of Unlock on_monitor monitor bind gets modify deref ret fst snd with_storage].
  cbn [exclusive_addresses exclusive_values storage]. rewrite Hc, Hne. cbn [negb exclusive_addresses exclusive_values]. rewrite monitor_eta. reflexivity.
Qed.

Lemma ClearProcessor_ok : exists m', ClearProcessor (Datatypes.S fuel) p (m, t) = (Ret tt, (m', t)) /\
  represents n m' (release p r).
Proof.
  destruct (address_slot n m r R p Hp) as (b & Hb & _). eexists. split; [|apply (represents_release n m r R p Hp)].
  unfold ClearProcessor. erewrite bind_ok by (apply Lock_ok, R).
  cbv [set_address address_of Unlock on_monitor monitor bind gets modify deref ret fst snd with_storage with_addresses].
  cbn [exclusive_addresses exclusive_values storage]. rewrite Hb. reflexivity.
Qed.

Lemma Clear_ok : exists m', Clear (Datatypes.S fuel) (m, t) = (Ret tt, (m', t)) /\ represents n m' (fun _ => None).
Proof.
  exists {| storage := 0; exclusive_addresses := map (fun _ => INVALID_EXCLUSIVE_ADDRESS) (exclusive_addresses m);
            exclusive_values := exclusive_values m |}.
  split; [unfold Clear; erewrite bind_ok by (apply Lock_ok, R); reflexivity|].
  split; cbn [storage exclusive_addresses exclusive_values].
  - reflexivity.
  - rewrite length_map. apply R.
  - congruence.
  - intros q a. rewrite nthZ_map. destruct (nthZ _ q); [|discriminate]. intros [= <-]. reflexivity.
Qed.
End Operations.
End Monitor.

Lemma new_monitor_represents n count : represents n (new_monitor count) (fun _ => None).
Proof.
  split; cbn [new_monitor storage exclusive_addresses exclusive_values].
  - reflexivity.
  - rewrite !length_replicate. reflexivity.
  - congruence.
  - intros q a. unfold nthZ. destruct (q <? 0); [discriminate|]. intros H%lookup_replicate. apply H.
Qed.

(** C25. The monitor implements reservations: between operations its state
    represents who holds a reservation for which address and with which value.
    A marked read reserves; an exclusive operation runs its callback with the
    value read exactly when the processor holds a reservation for the address,
    and then nobody holds one for it any more; otherwise it fails and changes
    nothing.  Clearing takes one processor's or all reservations away. *)
Theorem monitor_refines_reservations {S} n fuel m r p a (t : S) :
  represents n m r -> 0 <= p < GetProcessorCount m -> is_address a ->
  (forall op v t', op t = (Ret v, t') -> in_range (8 * Z.of_nat n) v ->
     exists m', ReadAndMark (Datatypes.S fuel) n p a op (m, t) = (Ret v, (m', t')) /\ represents n m' (reserve p a v r)) /\
  (forall v op b t', r p = Some (a, v) -> op v t = (Ret b, t') ->
     exists m', DoExclusiveOperation (Datatypes.S fuel) n p a op (m, t) = (Ret b, (m', t')) /\
       represents n m' (release_address a r)) /\
  (forall op, (forall v, r p <> Some (a, v)) ->
     DoExclusiveOperation (Datatypes.S fuel) n p a op (m, t) = (Ret false, (m, t))) /\
  (exists m', ClearProcessor (Datatypes.S fuel) p (m, t) = (Ret tt, (m', t)) /\ represents n m' (release p r)) /\
  (exists m', Clear (Datatypes.S fuel) (m, t) = (Ret tt, (m', t)) /\ represents n m' (fun _ => None)) /\
  (forall count, represents n (new_monitor count) (fun _ => None)).
Proof.
  intros R Hp Ha. split; [|split; [|split; [|split; [|split]]]].
  - intros. eapply ReadAndMark_ok; eassumption.
  - intros. eapply DoExclusiveOperation_passes; eassumption.
  - intros. eapply DoExclusiveOperation_fails; eassumption.
  - eapply ClearProcessor_ok; eassumption.
  - eapply Clear_ok; eassumption.
  - apply new_monitor_represents.
Qed.

(** Processor 1 of 4 reads 7 at 0x100, and its exclusive operation runs. *)
Lemma monitor_refines_reservations_witness : exists m',
  ReadAndMark 1 8 1 0x100 (ret 7) (new_monitor 4, tt) = (Ret 7, (m', tt)) /\
  represents 8 m' (reserve 1 0x100 7 (fun _ => None)).
Proof.
  apply (monitor_refines_reservations 8 0 (new_monitor 4) (fun _ => None) 1 0x100 tt);
    [apply new_monitor_represents | vm_compute; intuition discriminate | split; [unfold in_range; lia | discriminate]
    | reflexivity | unfold in_range; lia].
Defined.
