(* ===== verification/ExclusiveAccess.v ===== *)
(** The code dynarmic emits for the exclusive instructions when memory is accessed
    directly (backend/x64/emit_x64_memory.cpp.inc and emit_x64_memory.h), as the
    actions on shared state that the processors interleave, and what it
    guarantees in the configuration execution_context.cpp chooses, where the
    global monitor is neither locked nor cleared. *)
From S2P Require Import Prelude Memory ExecutionContext ExclusiveMonitor.
Local Open Scope Z_scope.

(** An instruction of the emitted code that reads or writes the processor's
    registers, the monitor or memory.  [End_] is the label [end]. *)
Inductive action : Type :=
| SpinLock
| SpinUnlock
| SetExclusiveState (x : Z)
| SetAddress (vaddr : Z)
| LoadMemory (n : nat) (vaddr : Z)
| StoreValue (n : nat)
| SetStatus (x : Z)
| JumpIfNoState
| JumpIfAddressNe (vaddr : Z)
| CmpAddress (index : nat) (vaddr : Z)
| StoreInvalidIfEq (index : nat)
| LoadValue (n : nat)
| CmpXchg (n : nat) (vaddr value : Z)
| End_.

Section Emit.
Variable conf : UserConfig.
Variable processor_count : nat.

Definition ignores_monitor : bool := HasOptimization conf Unsafe_IgnoreGlobalMonitor.
Definition EmitExclusiveLock : list action := if ignores_monitor then [] else [SpinLock].
Definition EmitExclusiveUnlock : list action := if ignores_monitor then [] else [SpinUnlock].
Definition EmitExclusiveTestAndClear (vaddr : Z) : list action :=
  if ignores_monitor then []
  else flat_map (fun i => if Z.of_nat i =? cfg_processor_id conf then [] else [CmpAddress i vaddr; StoreInvalidIfEq i])
         (seq 0 processor_count).

Definition EmitExclusiveReadMemoryInline (n : nat) (vaddr : Z) : list action :=
  EmitExclusiveLock ++
  [SetExclusiveState 1; SetAddress vaddr; LoadMemory n vaddr; StoreValue n] ++
  EmitExclusiveUnlock.

Definition EmitExclusiveWriteMemoryInline (n : nat) (vaddr value : Z) : list action :=
  EmitExclusiveLock ++
  [SetStatus 1; JumpIfNoState; JumpIfAddressNe vaddr] ++
  EmitExclusiveTestAndClear vaddr ++
  [SetExclusiveState 0; LoadValue n; CmpXchg n vaddr value; End_] ++
  EmitExclusiveUnlock.

Definition EmitA64ClearExclusive : list action := [SetExclusiveState 0].
End Emit.

(** ** Processors *)
Record cpu : Type := {
  code : list action;
  value_reg : Z;
  rax : Z;
  status : Z;
  zf : bool;
  x_state : Z
}.
Record system : Type := {
  mon : ExclusiveMonitor;
  smem : mem;
  cpus : list cpu
}.

(** What an action did to memory. *)
Inductive event : Type :=
| Loaded (p n : nat) (a v : Z)
| Stored (p n : nat) (a v : Z)
| Failed (p : nat)
| Written (a : Z) (n : nat) (v : Z).

Definition set_cpu (p : nat) (c : cpu) (s : system) : system :=
  {| mon := mon s; smem := smem s; cpus := <[p := c]> (cpus s) |}.
Definition set_mon (m : ExclusiveMonitor) (s : system) : system := {| mon := m; smem := smem s; cpus := cpus s |}.
Definition set_smem (m : mem) (s : system) : system := {| mon := mon s; smem := m; cpus := cpus s |}.
Definition set_code (l : list action) (c : cpu) : cpu :=
  {| code := l; value_reg := value_reg c; rax := rax c; status := status c; zf := zf c; x_state := x_state c |}.

(** A jump to [end]. *)
Fixpoint jump_end (l : list action) : list action :=
  match l with [] => [] | End_ :: l' => l' | _ :: l' => jump_end l' end.

(** The next action of processor [p]: [None] when it has none or it faults. *)
Definition exec (p : nat) (s : system) : option (system * list event) :=
  match cpus s !! p with
  | None => None
  | Some c =>
      match code c with
      | [] => None
      | act :: l =>
          let goto l' := set_cpu p (set_code l' c) in
          match act with
          | SpinLock =>
              let s' := set_mon (with_storage 1 (mon s)) s in
              if storage (mon s) =? 0 then Some (goto l s', []) else Some (s', [])
          | SpinUnlock => Some (goto l (set_mon (with_storage 0 (mon s)) s), [])
          | SetExclusiveState x =>
              Some (set_cpu p {| code := l; value_reg := value_reg c; rax := rax c; status := status c; zf := zf c; x_state := x |} s, [])
          | SetAddress a => Some (goto l (set_mon (with_addresses (<[p := a]> (exclusive_addresses (mon s))) (mon s)) s), [])
          | LoadMemory n a =>
              match load (smem s) a n with
              | None => None
              | Some v => Some (set_cpu p {| code := l; value_reg := v; rax := rax c; status := status c; zf := zf c; x_state := x_state c |} s,
                                [Loaded p n a v])
              end
          | StoreValue n =>
              match exclusive_values (mon s) !! p with
              | None => None
              | Some old =>
                  let k := 8 * Z.of_nat n in
                  Some (goto l (set_mon (with_values (<[p := wrap k (value_reg c) + 2 ^ k * (old / 2 ^ k)]> (exclusive_values (mon s))) (mon s)) s), [])
              end
          | SetStatus x =>
              Some (set_cpu p {| code := l; value_reg := value_reg c; rax := rax c; status := x; zf := zf c; x_state := x_state c |} s, [])
          | JumpIfNoState => Some (goto (if x_state c =? 0 then jump_end l else l) s, [])
          | JumpIfAddressNe a =>
              match exclusive_addresses (mon s) !! p with
              | None => None
              | Some b => Some (goto (if b =? a then l else jump_end l) s, [])
              end
          | CmpAddress i a =>
              match exclusive_addresses (mon s) !! i with
              | None => None
              | Some b => Some (set_cpu p {| code := l; value_reg := value_reg c; rax := rax c; status := status c; zf := b =? a; x_state := x_state c |} s, [])
              end
          | StoreInvalidIfEq i =>
              Some (goto l (if zf c then set_mon (with_addresses (<[i := INVALID_EXCLUSIVE_ADDRESS]> (exclusive_addresses (mon s))) (mon s)) s else s), [])
          | LoadValue n =>
              match exclusive_values (mon s) !! p with
              | None => None
              | Some v => Some (set_cpu p {| code := l; value_reg := value_reg c; rax := wrap (8 * Z.of_nat n) v; status := status c; zf := zf c; x_state := x_state c |} s, [])
              end
          | CmpXchg n a v =>
              match load (smem s) a n with
              | None => None
              | Some old =>
                  if old =? rax c then
                    match store (smem s) a n v with
                    | None => None
                    | Some m => Some (set_cpu p {| code := l; value_reg := value_reg c; rax := rax c; status := 0; zf := true; x_state := x_state c |} (set_smem m s),
                                      [Stored p n a v])
                    end
                  else Some (set_cpu p {| code := l; value_reg := value_reg c; rax := old; status := 1; zf := false; x_state := x_state c |} s, [Failed p])
              end
          | End_ => Some (goto l s, [])
          end
      end
  end.

(** The exclusive instructions of the guest. *)
Inductive guest_op : Type :=
| ExclusiveRead (n : nat) (vaddr : Z)
| ExclusiveWrite (n : nat) (vaddr value : Z)
| ClearExclusive.
Definition emit (conf : UserConfig) (count : nat) (op : guest_op) : list action :=
  match op with
  | ExclusiveRead n a => EmitExclusiveReadMemoryInline conf n a
  | ExclusiveWrite n a v => EmitExclusiveWriteMemoryInline conf count n a v
  | ClearExclusive => EmitA64ClearExclusive
  end.

Section Run.
Variable tpidr : Z.
(** Which instruction a processor may run next, given its registers, and which
    plain stores may happen. *)
Variable allowed : nat -> cpu -> guest_op -> Prop.
Variable plain_allowed : Z -> nat -> Prop.

(** One step of some processor, in the configuration of the program. *)
Inductive step : system -> list event -> system -> Prop :=
| step_exec s p s' ev : exec p s = Some (s', ev) -> step s ev s'
| step_begin s p c op : cpus s !! p = Some c -> code c = [] -> allowed p c op ->
    step s [] (set_cpu p (set_code (emit (make_config (Z.of_nat p) tpidr) (length (cpus s)) op) c) s)
| step_store s n a v m : plain_allowed a n -> store (smem s) a n v = Some m -> step s [Written a n v] (set_smem m s).

(** The events of a run, the latest first. *)
Inductive runs (s0 : system) : list event -> system -> Prop :=
| runs_start : runs s0 [] s0
| runs_step tr s ev s' : runs s0 tr s -> step s ev s' -> runs s0 (ev ++ tr) s'.
End Run.

(** [p]'s last exclusive read. *)
Fixpoint last_load (p : nat) (tr : list event) : option (nat * Z * Z) :=
  match tr with
  | [] => None
  | Loaded q n a v :: tr' => if decide (q = p) then Some (n, a, v) else last_load p tr'
  | _ :: tr' => last_load p tr'
  end.

(** Processors that have done nothing yet. *)
Definition fresh_cpu : cpu := {| code := []; value_reg := 0; rax := 0; status := 0; zf := false; x_state := 0 |}.
Definition fresh_system (count : nat) (m : mem) : system :=
  {| mon := new_monitor count; smem := m; cpus := replicate count fresh_cpu |}.

(** ** The emitted code in the program's configuration *)
Definition read_code (n : nat) (a : Z) : list action := [SetExclusiveState 1; SetAddress a; LoadMemory n a; StoreValue n].
Definition write_code (n : nat) (a v : Z) : list action :=
  [SetStatus 1; JumpIfNoState; JumpIfAddressNe a; SetExclusiveState 0; LoadValue n; CmpXchg n a v; End_].

Lemma emit_ignoring id tpidr count op : emit (make_config id tpidr) count op =
  match op with
  | ExclusiveRead n a => read_code n a
  | ExclusiveWrite n a v => write_code n a v
  | ClearExclusive => [SetExclusiveState 0]
  end.
Proof. destruct op; reflexivity. Qed.

(** ** Memory holds bytes *)
Definition mem_ok (m : mem) : Prop := forall a b, m !! a = Some b -> in_range 8 b.

Lemma le_split_bytes n v : Forall (in_range 8) (le_split n v).
Proof. revert v. induction n as [|n IH]; intros v; constructor; [apply Z.mod_pos_bound; lia | apply IH]. Qed.

Lemma write_bytes_mem_ok l : forall m a m', Forall (in_range 8) l -> mem_ok m -> write_bytes m a l = Some m' -> mem_ok m'.
Proof.
  induction l as [|b l IH]; intros m a m' Hl Hm; cbn [write_bytes]; [intros [= <-]; exact Hm|].
  apply Forall_cons in Hl as [Hb Hl]. destruct (m !! a); [|discriminate]. apply IH; [exact Hl|].
  intros k x. destruct (decide (k = a)) as [->|]; [rewrite lookup_insert_eq; intros [= <-]; exact Hb|].
  rewrite lookup_insert_ne by congruence. apply Hm.
Qed.
Lemma store_mem_ok m a n v m' : mem_ok m -> store m a n v = Some m' -> mem_ok m'.
Proof. apply write_bytes_mem_ok, le_split_bytes. Qed.

Lemma read_bytes_ok m a n l : mem_ok m -> read_bytes m a n = Some l -> Forall (in_range 8) l.
Proof.
  intros Hm. revert a l. induction n as [|n IH]; intros a l; cbn [read_bytes]; [intros [= <-]; constructor|].
  destruct (m !! a) eqn:E, (read_bytes m (a + 1) n) eqn:E2; try discriminate. intros [= <-].
  constructor; [apply (Hm _ _ E) | eapply IH, E2].
Qed.
Lemma load_in_range m a n v : mem_ok m -> load m a n = Some v -> in_range (8 * Z.of_nat n) v.
Proof.
  intros Hm. unfold load. destruct (read_bytes m a n) as [l|] eqn:E; [|discriminate]. intros [= <-].
  rewrite <- (length_read_bytes _ _ _ _ E). eapply le_combine_range, read_bytes_ok; eassumption.
Qed.

(** A store that succeeds is read back. *)
Lemma stored_read_back m a n v m' : store m a n v = Some m' -> load m' a n = Some (wrap (8 * Z.of_nat n) v) /\
  forall b k, b + Z.of_nat k <= a \/ a + Z.of_nat n <= b -> load m' b k = load m b k.
Proof.
  intros H. assert (mapped m a n) as M.
  { apply read_bytes_mapped. destruct (read_bytes m a n) eqn:E; [eauto|]. unfold store in H.
    rewrite write_bytes_unmapped in H; [discriminate|]. rewrite length_le_split.
    intros M%read_bytes_mapped. rewrite E in M. destruct M. discriminate. }
  destruct (store_spec m a n v M) as (m1 & S1 & L1 & F1 & _). rewrite H in S1. injection S1 as <-. auto.
Qed.

(** ** What holds of a processor at each point of the code *)

(** [ll] is its last exclusive read, [ad] and [va] its slots of the monitor. *)
Definition synced (ll : option (nat * Z * Z)) (ad va : option Z) (c : cpu) : Prop :=
  exists n a v x, ll = Some (n, a, v) /\ value_reg c = v /\ ad = Some a /\ va = Some x /\ wrap (8 * Z.of_nat n) x = v.
Definition ready ll ad va c : Prop := x_state c = 0 \/ synced ll ad va c.

Inductive phase (ll : option (nat * Z * Z)) (ad va : option Z) (c : cpu) : list action -> Prop :=
| ph_idle : ready ll ad va c -> phase ll ad va c []
| ph_clear : phase ll ad va c [SetExclusiveState 0]
| ph_read1 n a : phase ll ad va c [SetExclusiveState 1; SetAddress a; LoadMemory n a; StoreValue n]
| ph_read2 n a : phase ll ad va c [SetAddress a; LoadMemory n a; StoreValue n]
| ph_read3 n a : ad = Some a -> phase ll ad va c [LoadMemory n a; StoreValue n]
| ph_read4 n a : ad = Some a -> ll = Some (n, a, value_reg c) -> in_range (8 * Z.of_nat n) (value_reg c) ->
    phase ll ad va c [StoreValue n]
| ph_write1 n a v : ready ll ad va c -> phase ll ad va c (write_code n a v)
| ph_write2 n a v : ready ll ad va c -> phase ll ad va c (tail (write_code n a v))
| ph_write3 n a v : synced ll ad va c -> phase ll ad va c (drop 2 (write_code n a v))
| ph_write4 n a v : synced ll ad va c -> ad = Some a -> phase ll ad va c (drop 3 (write_code n a v))
| ph_write5 n a v : synced ll ad va c -> ad = Some a -> x_state c = 0 -> phase ll ad va c (drop 4 (write_code n a v))
| ph_write6 n a v n' v' : ll = Some (n', a, v') -> value_reg c = v' -> (n' = n -> rax c = v') -> x_state c = 0 ->
    phase ll ad va c (drop 5 (write_code n a v))
| ph_end : ready ll ad va c -> phase ll ad va c [End_].

Record inv (tr : list event) (s : system) : Prop := {
  inv_mem : mem_ok (smem s);
  inv_slots : length (exclusive_addresses (mon s)) = length (cpus s) /\ length (exclusive_values (mon s)) = length (cpus s);
  inv_phase : forall p c, cpus s !! p = Some c ->
    phase (last_load p tr) (exclusive_addresses (mon s) !! p) (exclusive_values (mon s) !! p) c (code c)
}.

(** A step of [p] that changes only its own slots, registers and last read. *)
Lemma inv_own p c c' tr ev s m' mo' :
  inv tr s -> cpus s !! p = Some c -> mem_ok m' ->
  (forall q, q <> p -> last_load q (ev ++ tr) = last_load q tr) ->
  length (exclusive_addresses mo') = length (exclusive_addresses (mon s)) ->
  length (exclusive_values mo') = length (exclusive_values (mon s)) ->
  (forall q, q <> p -> exclusive_addresses mo' !! q = exclusive_addresses (mon s) !! q /\
                       exclusive_values mo' !! q = exclusive_values (mon s) !! q) ->
  phase (last_load p (ev ++ tr)) (exclusive_addresses mo' !! p) (exclusive_values mo' !! p) c' (code c') ->
  inv (ev ++ tr) {| mon := mo'; smem := m'; cpus := <[p := c']> (cpus s) |}.
Proof.
  intros I Hc Hm Hl L1 L2 Hq Hp. split; cbn [mon smem cpus].
  - exact Hm.
  - rewrite length_insert, L1, L2. apply I.
  - intros q d. destruct (decide (q = p)) as [->|Hne].
    + rewrite list_lookup_insert_eq by (eapply lookup_lt_Some, Hc). intros [= <-]. exact Hp.
    + rewrite list_lookup_insert_ne by congruence. intros Hd. rewrite Hl by exact Hne.
      destruct (Hq q Hne) as [-> ->]. apply (inv_phase _ _ I _ _ Hd).
Qed.

Lemma inv_other_mem tr ev s m' : inv tr s -> mem_ok m' -> (forall q, last_load q (ev ++ tr) = last_load q tr) ->
  inv (ev ++ tr) (set_smem m' s).
Proof. intros I Hm Hl. split; cbn [mon smem cpus set_smem]; [exact Hm | apply I |]. intros p c Hc. rewrite Hl. apply (inv_phase _ _ I _ _ Hc). Qed.

(** A step of [p] that leaves memory, the monitor and the trace alone. *)
Lemma inv_registers p c c' tr s : inv tr s -> cpus s !! p = Some c ->
  phase (last_load p tr) (exclusive_addresses (mon s) !! p) (exclusive_values (mon s) !! p) c' (code c') ->
  inv ([] ++ tr) (set_cpu p c' s).
Proof. intros I Hc P. apply (inv_own p c c' tr [] s _ (mon s) I Hc); auto. apply I. Qed.

Lemma ready_same ll ad va c c' : value_reg c' = value_reg c -> x_state c' = x_state c -> ready ll ad va c -> ready ll ad va c'.
Proof. unfold ready, synced. intros -> ->. auto. Qed.
Lemma synced_same ll ad va c c' : value_reg c' = value_reg c -> synced ll ad va c -> synced ll ad va c'.
Proof. unfold synced. intros ->. auto. Qed.

(** The steps of a read and of a write. *)
Lemma read_step tr s p c n a s' ev k : inv tr s -> cpus s !! p = Some c -> (k < 4)%nat -> code c = drop k (read_code n a) ->
  exec p s = Some (s', ev) -> inv (ev ++ tr) s'.
Proof.
  intros I Hc Hk Ec E. pose proof (inv_phase _ _ I _ _ Hc) as P. pose proof (lookup_lt_Some _ _ _ Hc) as Lp.
  destruct (inv_slots _ _ I) as [L1 L2]. unfold exec in E. rewrite Hc in E. rewrite Ec in E, P.
  destruct k as [|[|[|[|k]]]]; [| | | |lia]; cbn [drop read_code] in E, P.
  - injection E as <- <-. apply (inv_registers p c); [exact I | exact Hc | constructor].
  - injection E as <- <-. eapply (inv_own p c _ tr _ s _ _ I Hc); auto; try apply I; cbn [mon set_mon exclusive_addresses exclusive_values with_addresses].
    + rewrite length_insert. reflexivity.
    + intros q Hq. rewrite list_lookup_insert_ne by congruence. auto.
    + rewrite list_lookup_insert_eq by lia. constructor. reflexivity.
  - inversion P; subst. destruct (load (smem s) a n) as [v|] eqn:El; [|discriminate]. injection E as <- <-.
    eapply (inv_own p c _ tr _ s _ _ I Hc); auto; try apply I; cbn [last_load app code].
    + intros q Hq. rewrite decide_False by congruence. reflexivity.
    + rewrite decide_True by reflexivity. econstructor; [eassumption | reflexivity |].
      cbn [value_reg]. eapply load_in_range; [apply I | exact El].
  - inversion P; subst. destruct (exclusive_values (mon s) !! p) as [old|] eqn:Ev; [|discriminate]. injection E as <- <-.
    eapply (inv_own p c _ tr _ s _ _ I Hc); auto; try apply I; cbn [mon set_mon exclusive_addresses exclusive_values with_values].
    + rewrite length_insert. reflexivity.
    + intros q Hq. rewrite list_lookup_insert_ne by congruence. auto.
    + rewrite list_lookup_insert_eq by lia. constructor. right. cbn [app].
      eexists _, _, _, _. split; [eassumption|]. split; [reflexivity|]. split; [eassumption|]. split; [reflexivity|].
      rewrite low_part. apply wrap_small. assumption.
Qed.

Lemma write_step tr s p c n a v s' ev k : inv tr s -> cpus s !! p = Some c -> (k < 7)%nat -> code c = drop k (write_code n a v) ->
  exec p s = Some (s', ev) -> inv (ev ++ tr) s'.
Proof.
  intros I Hc Hk Ec E. pose proof (inv_phase _ _ I _ _ Hc) as P. unfold exec in E. rewrite Hc in E. rewrite Ec in E, P.
  destruct k as [|[|[|[|[|[|[|k]]]]]]]; [| | | | | | |lia]; cbn [drop write_code jump_end] in E, P.
  - inversion P; subst. injection E as <- <-. apply (inv_registers p c); [exact I | exact Hc |].
    apply (ph_write2 _ _ _ _ n a v). eapply ready_same; [| |eassumption]; reflexivity.
  - inversion P; subst. injection E as <- <-. apply (inv_registers p c); [exact I | exact Hc |]. cbn [code set_code].
    destruct (Z.eqb_spec (x_state c) 0) as [E0|E0].
    + apply ph_idle. left. exact E0.
    + apply (ph_write3 _ _ _ _ n a v). match goal with R : ready _ _ _ _ |- _ => destruct R as [R|R]; [contradiction|] end.
      eapply synced_same; [|eassumption]. reflexivity.
  - inversion P; subst. destruct (exclusive_addresses (mon s) !! p) as [b|] eqn:Ea; [|discriminate]. injection E as <- <-.
    apply (inv_registers p c); [exact I | exact Hc |]. cbn [code set_code]. rewrite Ea. destruct (Z.eqb_spec b a) as [->|Hne].
    + apply (ph_write4 _ _ _ _ n a v); [|reflexivity]. eapply synced_same; [|eassumption]. reflexivity.
    + apply ph_idle. right. eapply synced_same; [|eassumption]. reflexivity.
  - inversion P; subst. injection E as <- <-. apply (inv_registers p c); [exact I | exact Hc |].
    apply (ph_write5 _ _ _ _ n a v); [|assumption|reflexivity]. eapply synced_same; [|eassumption]. reflexivity.
  - inversion P; subst. destruct (exclusive_values (mon s) !! p) as [x|] eqn:Ex; [|discriminate]. injection E as <- <-.
    apply (inv_registers p c); [exact I | exact Hc |].
    match goal with S : synced _ _ _ _, H : exclusive_addresses _ !! _ = Some a |- _ =>
      destruct S as (n' & a' & v' & x' & Hll & Hv & Ha & Hx & Hw); rewrite H in Ha; injection Ha as <-; injection Hx as <- end.
    eapply (ph_write6 _ _ _ _ n _ v n' v'); [exact Hll | exact Hv | intros <-; exact Hw | assumption].
  - inversion P; subst. destruct (load (smem s) a n) as [old|] eqn:El; [|discriminate].
    destruct (Z.eqb_spec old (rax c)) as [->|Hne].
    + destruct (store (smem s) a n v) as [m|] eqn:Es; [|discriminate]. injection E as <- <-.
      eapply (inv_own p c _ tr _ s _ _ I Hc); auto; [eapply store_mem_ok; [apply I | exact Es] |].
      apply ph_end. left. assumption.
    + injection E as <- <-. eapply (inv_own p c _ tr _ s _ _ I Hc); auto; [apply I|]. apply ph_end. left. assumption.
  - inversion P; subst. injection E as <- <-. apply (inv_registers p c); [exact I | exact Hc |].
    apply ph_idle. eapply ready_same; [| |eassumption]; reflexivity.
Qed.

(** The code of a processor is the rest of some instruction's. *)
Definition in_code (c : cpu) : Prop :=
  code c = [] \/ code c = [SetExclusiveState 0] \/
  (exists k n a, (k < 4)%nat /\ code c = drop k (read_code n a)) \/
  (exists k n a v, (k < 7)%nat /\ code c = drop k (write_code n a v)).

Lemma phase_in_code ll ad va c : phase ll ad va c (code c) -> in_code c.
Proof.
  unfold in_code. intros P. inversion P; auto; right; right; first
    [ left; first [ exists 0%nat, n, a; split; [lia | reflexivity] | exists 1%nat, n, a; split; [lia | reflexivity]
                  | exists 2%nat, n, a; split; [lia | reflexivity] | exists 3%nat, n, a; split; [lia | reflexivity] ]
    | right; first [ exists 0%nat, n, a, v; split; [lia | reflexivity] | exists 1%nat, n, a, v; split; [lia | reflexivity]
                   | exists 2%nat, n, a, v; split; [lia | reflexivity] | exists 3%nat, n, a, v; split; [lia | reflexivity]
                   | exists 4%nat, n, a, v; split; [lia | reflexivity] | exists 5%nat, n, a, v; split; [lia | reflexivity]
                   | exists 6%nat, 0%nat, 0, 0; split; [lia | reflexivity] ] ].
Qed.

Lemma exec_inv tr s p s' ev : inv tr s -> exec p s = Some (s', ev) -> inv (ev ++ tr) s'.
Proof.
  intros I E. destruct (cpus s !! p) as [c|] eqn:Hc; [|unfold exec in E; rewrite Hc in E; discriminate].
  destruct (phase_in_code _ _ _ _ (inv_phase _ _ I _ _ Hc)) as [H|[H|[(k & n & a & Hk & H)|(k & n & a & v & Hk & H)]]].
  - unfold exec in E. rewrite Hc, H in E. discriminate.
  - unfold exec in E. rewrite Hc, H in E. injection E as <- <-. apply (inv_registers p c); [exact I | exact Hc |].
    apply ph_idle. left. reflexivity.
  - eapply read_step; eassumption.
  - eapply write_step; eassumption.
Qed.

Lemma fresh_inv count m : mem_ok m -> inv [] (fresh_system count m).
Proof.
  intros Hm. split; cbn [fresh_system mon smem cpus new_monitor exclusive_addresses exclusive_values].
  - exact Hm.
  - rewrite !length_replicate. auto.
  - intros p c [-> _]%lookup_replicate. apply ph_idle. left. reflexivity.
Qed.

Lemma runs_inv tpidr allowed plain count m tr s : mem_ok m ->
  runs tpidr allowed plain (fresh_system count m) tr s -> inv tr s.
Proof.
  intros Hm. induction 1 as [|tr s ev s' _ IH Hs]; [apply fresh_inv, Hm|].
  destruct Hs as [s p s' ev E | s p c op Hc Hn Ha | s n a v m' Ha Es].
  - eapply exec_inv; eassumption.
  - rewrite emit_ignoring. apply (inv_registers p c); [exact IH | exact Hc |]. cbn [code set_code].
    pose proof (inv_phase _ _ IH _ _ Hc) as P. rewrite Hn in P. inversion P as [R| | | | | | | | | | | |].
    destruct op as [n a|n a v|]; [apply ph_read1 | | apply ph_clear].
    apply ph_write1. eapply ready_same; [| |exact R]; reflexivity.
  - apply inv_other_mem; [exact IH | eapply store_mem_ok; [apply IH | exact Es] | reflexivity].
Qed.

(** What a successful exclusive store found. *)
Lemma stored_inv tr s p q n a v s' : inv tr s -> exec p s = Some (s', [Stored q n a v]) ->
  exists c c' m' n' v', cpus s !! p = Some c /\ q = p /\ last_load p tr = Some (n', a, v') /\ value_reg c = v' /\
    code c = drop 5 (write_code n a v) /\ (n' = n -> load (smem s) a n = Some v') /\
    store (smem s) a n v = Some m' /\ s' = set_cpu p c' (set_smem m' s) /\ status c' = 0 /\
    code c' = [End_] /\ value_reg c' = value_reg c.
Proof.
  intros I E. unfold exec in E. destruct (cpus s !! p) as [c|] eqn:Hc; [|discriminate].
  pose proof (inv_phase _ _ I _ _ Hc) as P. destruct (code c) as [|act l] eqn:Ec; [discriminate|].
  destruct act; repeat match goal with H : context [match ?x with Some _ => _ | None => _ end] |- _ => destruct x eqn:?; [|discriminate H] end;
    try discriminate; try (destruct (_ =? 0); discriminate).
  destruct (Z.eqb_spec z (rax c)) as [->|]; [|discriminate].
  destruct (store (smem s) vaddr n0 value) as [m'|] eqn:Es; [|discriminate]. injection E as <- <- <- <- <-.
  cbn [write_code drop] in P. inversion P; subst. eexists c, _, m', n', (value_reg c).
  split; [reflexivity|]. split; [reflexivity|]. split; [eassumption|]. split; [reflexivity|]. split; [assumption|].
  split; [|split; [exact Es | split; [reflexivity | split; [reflexivity | split; reflexivity]]]].
  intros ->. match goal with H : _ = _ -> rax c = _ |- _ => rewrite <- (H eq_refl) end. assumption.
Qed.

(** In the program's configuration, with the global monitor ignored, an
    exclusive store is a compare-and-swap against the last exclusive read: in
    every interleaving of the processors' instructions, when processor p's store
    to an address takes effect, p's last exclusive read was of that address, and
    (when it had the same size) memory still holds the value it read; afterwards
    memory holds the value stored and the status is 0. *)
Theorem exclusive_store_is_compare_and_swap tpidr allowed plain count m tr s p q n a v s' :
  mem_ok m -> runs tpidr allowed plain (fresh_system count m) tr s ->
  exec p s = Some (s', [Stored q n a v]) ->
  exists n' v' c', last_load p tr = Some (n', a, v') /\ (n' = n -> load (smem s) a n = Some v') /\
    load (smem s') a n = Some (wrap (8 * Z.of_nat n) v) /\ cpus s' !! p = Some c' /\ status c' = 0.
Proof.
  intros Hm R E. destruct (stored_inv _ _ _ _ _ _ _ _ (runs_inv _ _ _ _ _ _ _ Hm R) E)
    as (c & c' & m' & n' & v' & Hc & _ & Hl & _ & _ & Hv & Hs & -> & Hst & _).
  exists n', v', c'. split; [exact Hl|]. split; [exact Hv|]. split; [apply (stored_read_back _ _ _ _ _ Hs)|].
  split; [|exact Hst]. apply list_lookup_insert_eq. eapply lookup_lt_Some, Hc.
Qed.

(** ** Counting with exclusive instructions *)

(** Processors that only run the loop: read exclusively, add one, store
    exclusively (and may clear the exclusive state, as a context switch does). *)
Definition increments (a : Z) (p : nat) (c : cpu) (op : guest_op) : Prop :=
  op = ExclusiveRead 8 a \/ op = ExclusiveWrite 8 a (u64 (value_reg c + 1)) \/ op = ClearExclusive.
(** Plain stores elsewhere. *)
Definition elsewhere (a b : Z) (n : nat) : Prop := b + Z.of_nat n <= a \/ a + 8 <= b.

(** The number of exclusive stores that took effect. *)
Fixpoint stores (tr : list event) : Z :=
  match tr with [] => 0 | Stored _ _ _ _ :: tr' => stores tr' + 1 | _ :: tr' => stores tr' end.

Definition loop_code (a : Z) (c : cpu) : Prop :=
  code c = [] \/ code c = [SetExclusiveState 0] \/ (exists k, (k < 4)%nat /\ code c = drop k (read_code 8 a)) \/
  (exists k, (k < 7)%nat /\ code c = drop k (write_code 8 a (u64 (value_reg c + 1)))).

Record counting (a v0 : Z) (tr : list event) (s : system) : Prop := {
  cnt_code : forall p c, cpus s !! p = Some c -> loop_code a c;
  cnt_loads : forall p n b v, last_load p tr = Some (n, b, v) -> n = 8%nat;
  cnt_value : load (smem s) a 8 = Some (u64 (v0 + stores tr))
}.

Lemma counting_own a v0 tr ev s p c c' mo m' : counting a v0 tr s -> cpus s !! p = Some c -> loop_code a c' ->
  (forall q n b v, last_load q (ev ++ tr) = Some (n, b, v) -> n = 8%nat) ->
  load m' a 8 = Some (u64 (v0 + stores (ev ++ tr))) ->
  counting a v0 (ev ++ tr) {| mon := mo; smem := m'; cpus := <[p := c']> (cpus s) |}.
Proof.
  intros C Hc Hl Hn Hv. split; cbn [cpus smem]; [|exact Hn|exact Hv].
  intros q d. destruct (decide (q = p)) as [->|Hne].
  - rewrite list_lookup_insert_eq by (eapply lookup_lt_Some, Hc). intros [= <-]. exact Hl.
  - rewrite list_lookup_insert_ne by congruence. apply (cnt_code _ _ _ _ C).
Qed.

(** A step without events. *)
Lemma counting_silent a v0 tr s p c c' mo : counting a v0 tr s -> cpus s !! p = Some c -> loop_code a c' ->
  counting a v0 ([] ++ tr) {| mon := mo; smem := smem s; cpus := <[p := c']> (cpus s) |}.
Proof. intros C Hc Hl. apply (counting_own a v0 tr [] s p c c' mo _ C Hc Hl); apply C. Qed.

Lemma read_at a c k : (k < 4)%nat -> code c = drop k (read_code 8 a) -> loop_code a c.
Proof. intros Hk H. right. right. left. eauto. Qed.
Lemma write_at a c k : (k < 7)%nat -> code c = drop k (write_code 8 a (u64 (value_reg c + 1))) -> loop_code a c.
Proof. intros Hk H. right. right. right. eauto. Qed.

Lemma counting_read a v0 tr s p c k s' ev : counting a v0 tr s -> cpus s !! p = Some c -> (k < 4)%nat ->
  code c = drop k (read_code 8 a) -> exec p s = Some (s', ev) -> counting a v0 (ev ++ tr) s'.
Proof.
  intros C Hc Hk Ec E. unfold exec in E. rewrite Hc, Ec in E. destruct k as [|[|[|[|k]]]]; [| | | |lia]; cbn [drop read_code] in E.
  - injection E as <- <-. apply (counting_silent a v0 tr s p c); [exact C | exact Hc |]. apply (read_at a _ 1); [lia|reflexivity].
  - injection E as <- <-. apply (counting_silent a v0 tr s p c); [exact C | exact Hc |]. apply (read_at a _ 2); [lia|reflexivity].
  - destruct (load (smem s) a 8) as [v|]eqn:El; [|discriminate]. injection E as <- <-.
    apply (counting_own a v0 tr _ s p c); [exact C | exact Hc | apply (read_at a _ 3); [lia|reflexivity] | | apply C].
    intros q n b w. cbn [app last_load]. destruct (decide (p = q)); [intros [= <- _ _]; reflexivity | apply C].
  - destruct (exclusive_values (mon s) !! p); [|discriminate]. injection E as <- <-.
    apply (counting_silent a v0 tr s p c); [exact C | exact Hc | left; reflexivity].
Qed.

Lemma counting_write a v0 tr s p c k s' ev : inv tr s -> counting a v0 tr s -> cpus s !! p = Some c -> (k < 7)%nat ->
  code c = drop k (write_code 8 a (u64 (value_reg c + 1))) -> exec p s = Some (s', ev) -> counting a v0 (ev ++ tr) s'.
Proof.
  intros I C Hc Hk Ec E. pose proof E as E'. unfold exec in E. rewrite Hc, Ec in E.
  destruct k as [|[|[|[|[|[|[|k]]]]]]]; [| | | | | | |lia]; cbn [drop write_code jump_end] in E.
  - injection E as <- <-. apply (counting_silent a v0 tr s p c); [exact C | exact Hc |]. apply (write_at a _ 1); [lia|reflexivity].
  - injection E as <- <-. apply (counting_silent a v0 tr s p c); [exact C | exact Hc |].
    destruct (x_state c =? 0); [left; reflexivity | apply (write_at a _ 2); [lia|reflexivity]].
  - destruct (exclusive_addresses (mon s) !! p) as [b|]; [|discriminate]. injection E as <- <-.
    apply (counting_silent a v0 tr s p c); [exact C | exact Hc |].
    destruct (b =? a); [apply (write_at a _ 3); [lia|reflexivity] | left; reflexivity].
  - injection E as <- <-. apply (counting_silent a v0 tr s p c); [exact C | exact Hc |]. apply (write_at a _ 4); [lia|reflexivity].
  - destruct (exclusive_values (mon s) !! p); [|discriminate]. injection E as <- <-.
    apply (counting_silent a v0 tr s p c); [exact C | exact Hc |]. apply (write_at a _ 5); [lia|reflexivity].
  - destruct (load (smem s) a 8) as [old|] eqn:El; [|discriminate]. destruct (old =? rax c).
    + destruct (store (smem s) a 8 _) as [m'|] eqn:Es; [|discriminate]. injection E as <- <-.
      destruct (stored_inv _ _ _ _ _ _ _ _ I E') as (d & _ & m1 & n' & v' & Hd & _ & Hl & Hr & _ & Hv & _).
      rewrite Hc in Hd. injection Hd as <-. specialize (Hv (cnt_loads _ _ _ _ C _ _ _ _ Hl)). subst v'.
      rewrite (cnt_value _ _ _ _ C) in Hv. injection Hv as Hv.
      apply (counting_own a v0 tr _ s p c); [exact C | exact Hc | apply (write_at a _ 6); [lia|reflexivity] | apply C |].
      cbn [smem set_smem]. rewrite (proj1 (stored_read_back _ _ _ _ _ Es)), <- Hv. f_equal. cbn [app stores]. unfold u64, wrap.
      rewrite Z.add_mod_idemp_l, Z.mod_mod by lia. f_equal. lia.
    + injection E as <- <-. apply (counting_own a v0 tr _ s p c); [exact C | exact Hc | apply (write_at a _ 6); [lia|reflexivity] | apply C | apply C].
  - injection E as <- <-. apply (counting_silent a v0 tr s p c); [exact C | exact Hc | left; reflexivity].
Qed.

Lemma counting_exec a v0 tr s p s' ev : inv tr s -> counting a v0 tr s -> exec p s = Some (s', ev) -> counting a v0 (ev ++ tr) s'.
Proof.
  intros I C E. destruct (cpus s !! p) as [c|] eqn:Hc; [|unfold exec in E; rewrite Hc in E; discriminate].
  destruct (cnt_code _ _ _ _ C _ _ Hc) as [H|[H|[(k & Hk & H)|(k & Hk & H)]]].
  - unfold exec in E. rewrite Hc, H in E. discriminate.
  - unfold exec in E. rewrite Hc, H in E. injection E as <- <-.
    apply (counting_silent a v0 tr s p c); [exact C | exact Hc | left; reflexivity].
  - eapply counting_read; eassumption.
  - eapply counting_write; eassumption.
Qed.

Lemma runs_counting tpidr count m a v0 tr s : mem_ok m -> load m a 8 = Some v0 ->
  runs tpidr (increments a) (elsewhere a) (fresh_system count m) tr s -> counting a v0 tr s.
Proof.
  intros Hm Hv R. induction R as [|tr s ev s' R IH Hs].
  - split; cbn [fresh_system cpus smem last_load stores].
    + intros p c [-> _]%lookup_replicate. left. reflexivity.
    + discriminate.
    + rewrite Z.add_0_r, Hv. f_equal. symmetry. apply wrap_small. eapply (load_in_range _ _ 8), Hv. exact Hm.
  - destruct Hs as [s p s' ev E | s p c op Hc Hn Ha | s n b v m' Ha Es].
    + eapply counting_exec; [eapply runs_inv, R; exact Hm | exact IH | exact E].
    + rewrite emit_ignoring. apply (counting_silent a v0 tr s p c); [exact IH | exact Hc |].
      destruct Ha as [->|[->| ->]]; [apply (read_at a _ 0); [lia|reflexivity] | apply (write_at a _ 0); [lia|reflexivity] | right; left; reflexivity].
    + split; cbn [set_smem cpus smem app last_load stores]; [apply IH | apply IH |].
      rewrite (proj2 (stored_read_back _ _ _ _ _ Es)); [apply IH | destruct Ha; lia].
Qed.

(** C24. No increment is lost: when any number of processors increment a counter
    with exclusive reads and stores, in any interleaving of their instructions
    and with any plain stores elsewhere, the counter is its first value plus the
    number of exclusive stores that took effect, modulo 2^64. *)
Theorem concurrent_increments tpidr count m a v0 tr s :
  mem_ok m -> load m a 8 = Some v0 ->
  runs tpidr (increments a) (elsewhere a) (fresh_system count m) tr s ->
  load (smem s) a 8 = Some (u64 (v0 + stores tr)).
Proof. intros Hm Hv R. apply (cnt_value _ _ _ _ (runs_counting _ _ _ _ _ _ _ Hm Hv R)). Qed.

(** ** Schedules *)

(** A processor begins an instruction, or runs its next action [k] times; or
    a plain store happens. *)
Inductive move : Type := Begin (p : nat) (op : guest_op) | Go (p k : nat) | Plain (n : nat) (a v : Z).

Section Schedule.
Variable tpidr : Z.
Variable may : nat -> cpu -> guest_op -> bool.

Fixpoint go (p k : nat) (r : list event * system) : option (list event * system) :=
  match k with
  | O => Some r
  | S k' => match exec p (snd r) with Some (s', ev) => go p k' (ev ++ fst r, s') | None => None end
  end.
Definition do_move (mv : move) (r : list event * system) : option (list event * system) :=
  match mv with
  | Begin p op =>
      match cpus (snd r) !! p with
      | Some c =>
          match code c with
          | [] => if may p c op then Some (fst r, set_cpu p (set_code (emit (make_config (Z.of_nat p) tpidr) (length (cpus (snd r))) op) c) (snd r))
                  else None
          | _ => None
          end
      | None => None
      end
  | Go p k => go p k r
  | Plain n a v => match store (smem (snd r)) a n v with Some m => Some (Written a n v :: fst r, set_smem m (snd r)) | None => None end
  end.
Fixpoint schedule (l : list move) (r : list event * system) : option (list event * system) :=
  match l with [] => Some r | mv :: l' => match do_move mv r with Some r' => schedule l' r' | None => None end end.

Context (allowed : nat -> cpu -> guest_op -> Prop) (plain : Z -> nat -> Prop) (s0 : system).
Hypothesis may_allowed : forall p c op, may p c op = true -> allowed p c op.
Let ok (r : list event * system) : Prop := runs tpidr allowed plain s0 (fst r) (snd r).

Lemma go_runs p k : forall r r', ok r -> go p k r = Some r' -> ok r'.
Proof.
  induction k as [|k IH]; intros r r' H; cbn [go]; [intros [= <-]; exact H|].
  destruct (exec p (snd r)) as [[s' ev]|] eqn:E; [|discriminate]. apply IH.
  apply runs_step with (s := snd r); [exact H|]. eapply step_exec, E.
Qed.

Lemma schedule_runs l : forall r r', Forall (fun mv => match mv with Plain n a _ => plain a n | _ => True end) l ->
  ok r -> schedule l r = Some r' -> ok r'.
Proof.
  induction l as [|mv l IH]; intros r r' Hl H; cbn [schedule]; [intros [= <-]; exact H|].
  apply Forall_cons in Hl as [Hmv Hl]. destruct (do_move mv r) as [r1|] eqn:E; [|discriminate]. apply (IH r1 r' Hl).
  destruct mv as [p op|p k|n a v]; cbn [do_move] in E.
  - destruct (cpus (snd r) !! p) as [c|] eqn:Hc; [|discriminate]. destruct (code c) eqn:Hn; [|discriminate].
    destruct (may p c op) eqn:Hm; [|discriminate]. injection E as <-.
    apply (runs_step tpidr allowed plain s0 (fst r) (snd r) []); [exact H|]. apply step_begin; auto.
  - eapply go_runs; eassumption.
  - destruct (store (smem (snd r)) a n v) as [m|] eqn:Es; [|discriminate]. injection E as <-.
    apply (runs_step tpidr allowed plain s0 (fst r) (snd r) [Written a n v]); [exact H|]. eapply step_store; eassumption.
Qed.
End Schedule.

(** Two processors read a counter that is 0; processor 0 stores first, processor
    1's store fails, and it tries again. *)
Definition demo_counter : mem := list_to_map (map (fun i => (0x100 + Z.of_nat i, 0)) (seq 0 8)).
Definition is_increment (a : Z) (p : nat) (c : cpu) (op : guest_op) : bool :=
  match op with
  | ExclusiveRead n b => Nat.eqb n 8 && (b =? a)
  | ExclusiveWrite n b v => Nat.eqb n 8 && (b =? a) && (v =? u64 (value_reg c + 1))
  | ClearExclusive => true
  end.
Lemma is_increment_ok a p c op : is_increment a p c op = true -> increments a p c op.
Proof.
  unfold increments. destruct op as [n b|n b v|]; cbn [is_increment]; [| |auto]; rewrite !andb_true_iff, Nat.eqb_eq, !Z.eqb_eq.
  - intros [-> ->]. auto.
  - intros [[-> ->] ->]. auto.
Qed.

Definition demo_race : list move :=
  [Begin 0 (ExclusiveRead 8 0x100); Begin 1 (ExclusiveRead 8 0x100); Go 0 4; Go 1 4;
   Begin 0 (ExclusiveWrite 8 0x100 1); Begin 1 (ExclusiveWrite 8 0x100 1); Go 0 7; Go 1 7;
   Begin 1 (ExclusiveRead 8 0x100); Go 1 4; Begin 1 (ExclusiveWrite 8 0x100 2); Go 1 5].
Definition demo_race_end : option (list event * system) :=
  schedule 0 (is_increment 0x100) demo_race ([], fresh_system 2 demo_counter).

Lemma demo_counter_ok : mem_ok demo_counter.
Proof.
  intros a b H. apply elem_of_list_to_map_2 in H. apply list_elem_of_In, in_map_iff in H as (i & [= _ <-] & _). unfold in_range. lia.
Qed.

Lemma demo_race_runs : exists tr s, demo_race_end = Some (tr, s) /\
  runs 0 (increments 0x100) (elsewhere 0x100) (fresh_system 2 demo_counter) tr s.
Proof.
  destruct demo_race_end as [[tr s]|] eqn:E; [|vm_compute in E; discriminate]. exists tr, s. split; [reflexivity|].
  apply (schedule_runs 0 (is_increment 0x100) (increments 0x100) (elsewhere 0x100) _ (is_increment_ok 0x100) demo_race
    ([], fresh_system 2 demo_counter) (tr, s)); [repeat constructor | apply runs_start | exact E].
Qed.

Lemma concurrent_increments_witness : exists tr s, demo_race_end = Some (tr, s) /\ load (smem s) 0x100 8 = Some (u64 (stores tr)).
Proof.
  destruct demo_race_runs as (tr & s & E & R). exists tr, s. split; [exact E|].
  apply (concurrent_increments 0 2 demo_counter 0x100 0 tr s demo_counter_ok ltac:(vm_compute; reflexivity) R).
Defined.

(** The next action of processor 1 is its second store, of 2 over 1. *)
Lemma exclusive_store_is_compare_and_swap_witness : exists tr s s', demo_race_end = Some (tr, s) /\
  exec 1 s = Some (s', [Stored 1 8 0x100 2]) /\ load (smem s') 0x100 8 = Some 2.
Proof.
  destruct demo_race_runs as (tr & s & E & R).
  assert (exists s', exec 1 s = Some (s', [Stored 1 8 0x100 2])) as [s' H].
  { assert (demo_race_end = demo_race_end) as F by reflexivity. rewrite E in F at 2. clear -F.
    vm_compute in F. injection F as <- <-. vm_compute. eexists. reflexivity. }
  destruct (exclusive_store_is_compare_and_swap 0 (increments 0x100) (elsewhere 0x100) 2 demo_counter tr s 1 1 8 0x100 2 s'
    demo_counter_ok R H) as (n' & v' & c' & _ & _ & L & _).
  exists tr, s, s'. auto.
Defined.

(** The global monitor is not consulted, so a plain store of the same value in
    between goes unnoticed: the exclusive store still takes effect. *)
Example same_value_unnoticed :
  match schedule 0 (fun _ _ _ => true)
    [Begin 0 (ExclusiveRead 8 0x100); Go 0 4; Plain 8 0x100 5; Plain 8 0x100 0;
     Begin 0 (ExclusiveWrite 8 0x100 1); Go 0 6] ([], fresh_system 1 demo_counter) with
  | Some (tr, s) => hd_error tr = Some (Stored 0 8 0x100 1)
  | None => False
  end.
Proof. vm_compute. reflexivity. Qed.

(** An exclusive store to another address fails but keeps the exclusive state, so
    that a second store, to the address read, takes effect. *)
Example failed_store_keeps_state :
  match schedule 0 (fun _ _ _ => true)
    [Begin 0 (ExclusiveRead 8 0x100); Go 0 4; Begin 0 (ExclusiveWrite 8 0x200 1); Go 0 3;
     Begin 0 (ExclusiveWrite 8 0x100 1); Go 0 6] ([], fresh_system 1 demo_counter) with
  | Some (tr, s) => hd_error tr = Some (Stored 0 8 0x100 1)
  | None => False
  end.
Proof. vm_compute. reflexivity. Qed.
