(* ===== verification/Contexts.v ===== *)
(** The life of execution contexts: processor ids across threads, and the memory
    callbacks. *)
From S2P Require Import Prelude Memory A64Jit FunctionTraits Trampoline ExecutionContext.
Local Open Scope Z_scope.

(** ** Processor ids *)

(** Let thread t run. *)
Definition switch (t : nat) (w : world) : world :=
  {| tid := t; contexts := contexts w; used_processors := used_processors w; table := table w; memory := memory w |}.

(** A process before any thread has a context. *)
Definition no_contexts (st : trampoline_state) (m : mem) : world :=
  {| tid := 0; contexts := ∅; used_processors := replicate MAX_CPUS false; table := st; memory := m |}.

(** The threads of a process set up and tear down their contexts, in any
    interleaving; a thread frees only a context it has initialised. *)
Inductive lifecycle (st : trampoline_state) (m : mem) : world -> Prop :=
| life_start : lifecycle st m (no_contexts st m)
| life_init t stack tls w w' :
    lifecycle st m w -> execution_context_init stack tls (switch t w) = (Ret tt, w') -> lifecycle st m w'
| life_free t w w' :
    lifecycle st m w -> initialized (ctx (switch t w)) = true ->
    execution_context_free (switch t w) = (Ret tt, w') -> lifecycle st m w'.

Record processors_ok (w : world) : Prop := {
  ok_length : length (used_processors w) = MAX_CPUS;
  ok_marked : forall t c, contexts w !! t = Some c -> initialized c = true ->
    nthZ (used_processors w) (processor_id c) = Some true;
  ok_unique : forall t t' c c', contexts w !! t = Some c -> contexts w !! t' = Some c' ->
    initialized c = true -> initialized c' = true -> processor_id c = processor_id c' -> t = t';
  ok_owned : forall i, nthZ (used_processors w) i = Some true ->
    exists t c, contexts w !! t = Some c /\ initialized c = true /\ processor_id c = i;
  ok_live : forall t c, contexts w !! t = Some c -> initialized c = true ->
    (exists e, environment c = Live e /\ env_processor_id e = processor_id c) /\
    (exists j, jit c = Live j) /\ dyncall_vm c = Live tt
}.

Lemma first_free_spec l i0 :
  match first_free l i0 with
  | Some i => i0 <= i < i0 + Z.of_nat (length l) /\ nthZ l (i - i0) = Some false /\
      forall k, i0 <= k < i -> nthZ l (k - i0) = Some true
  | None => forall k, 0 <= k < Z.of_nat (length l) -> nthZ l k = Some true
  end.
Proof.
  revert i0. induction l as [|b l IH]; intros i0; cbn [first_free length].
  - intros k Hk. simpl in Hk. lia.
  - assert (forall k, 0 < k -> nthZ (b :: l) k = nthZ l (k - 1)) as N.
    { intros k Hk. unfold nthZ. destruct (Z.ltb_spec k 0), (Z.ltb_spec (k - 1) 0); try lia.
      replace (Z.to_nat k) with (S (Z.to_nat (k - 1))) by lia. reflexivity. }
    destruct b; cbn [negb].
    + specialize (IH (i0 + 1)). destruct (first_free l (i0 + 1)) as [i|].
      * destruct IH as (H1 & H2 & H3). split; [lia|]. split.
        -- rewrite N by lia. replace (i - i0 - 1) with (i - (i0 + 1)) by lia. exact H2.
        -- intros k Hk. destruct (decide (k = i0)) as [->|]; [rewrite Z.sub_diag; reflexivity|].
           rewrite N by lia. replace (k - i0 - 1) with (k - (i0 + 1)) by lia. apply H3. lia.
      * intros k Hk. destruct (decide (k = 0)) as [->|]; [reflexivity|]. rewrite N by lia. apply IH. lia.
    + split; [lia|]. split; [rewrite Z.sub_diag; reflexivity|]. intros. lia.
Qed.

Lemma on_ctx_first f w : on_ctx f w = (Ret tt, w_with_ctx (f (ctx w)) w).
Proof. reflexivity. Qed.

Lemma on_ctx_next f c w : on_ctx f (w_with_ctx c w) = (Ret tt, w_with_ctx (f c) w).
Proof. unfold on_ctx, modify. rewrite ctx_with, w_with_with. reflexivity. Qed.

Lemma modify_memory_next g c w :
  modify (fun w => w_with_memory (g (memory w)) w) (w_with_ctx c w) =
  (Ret tt, w_with_ctx c (w_with_memory (g (memory w)) w)).
Proof. reflexivity. Qed.

(** The context [execution_context_init] leaves. *)
Definition initialised_context (id stack tls : Z) (c : ExecutionContext) : ExecutionContext :=
  {| environment := Live {| env_processor_id := id |};
     jit := Live (snd (SetSP (u64 (stack + STACK_SIZE)) (new_jit (192 * 1024 * 1024))));
     dyncall_vm := Live tt; stack := stack; stack_size := STACK_SIZE; initialized := true;
     processor_id := id; ref_count := ref_count c; svc_number := svc_number c; tls_buffer_addr := tls |}.

Lemma init_run w stack tls : initialized (ctx w) = false ->
  match first_free (used_processors w) 0 with
  | Some id => exists w', execution_context_init stack tls w = (Ret tt, w') /\ tid w' = tid w /\
      contexts w' = <[tid w := initialised_context id stack tls (ctx w)]> (contexts w) /\
      used_processors w' = updZ (used_processors w) id true
  | None => execution_context_init stack tls w = (Stop Terminate, w)
  end.
Proof.
  intros Hi. destruct (first_free (used_processors w) 0) as [id|] eqn:EF.
  - assert (allocate_processor_id w = (Ret id, w_with_used (updZ (used_processors w) id true) w)) as EA
      by (unfold allocate_processor_id, bind, gets, modify, ret; rewrite EF; reflexivity).
    unfold execution_context_init. erewrite bind_ok by reflexivity. rewrite Hi.
    erewrite bind_ok by reflexivity. erewrite bind_ok by exact EA.
    erewrite bind_ok by apply on_ctx_first. erewrite bind_ok by apply on_ctx_next.
    destruct (stack =? MAP_FAILED);
      [erewrite bind_ok by reflexivity
      |erewrite bind_ok by apply (modify_memory_next (mmap_zero stack STACK_SIZE))];
      do 3 (erewrite bind_ok by apply on_ctx_next);
      (erewrite (bind_ok (Jit_new _)) by reflexivity);
      do 2 (erewrite bind_ok by apply on_ctx_next); rewrite on_ctx_next;
      eexists; (split; [reflexivity|]); auto.
  - unfold execution_context_init. erewrite bind_ok by reflexivity. rewrite Hi.
    erewrite bind_ok by reflexivity. apply bind_stop.
    unfold allocate_processor_id, bind, gets. rewrite EF. reflexivity.
Qed.

Lemma free_run w : initialized (ctx w) = true -> processors_ok w ->
  exists c' w', execution_context_free w = (Ret tt, w') /\ tid w' = tid w /\
    contexts w' = <[tid w := c']> (contexts w) /\ initialized c' = false /\
    used_processors w' = updZ (used_processors w) (processor_id (ctx w)) false.
Proof.
  intros Hi OK. assert (contexts w !! tid w = Some (ctx w)) as Hc
    by (unfold ctx in *; destruct (contexts w !! tid w); [reflexivity | discriminate]).
  destruct (ok_live _ OK _ _ Hc Hi) as ((e & He & _) & (j & Hj) & Hd).
  pose proof (ok_marked _ OK _ _ Hc Hi) as Hm.
  unfold execution_context_free. erewrite bind_ok by reflexivity. rewrite He, Hj, Hd.
  erewrite bind_ok by reflexivity. erewrite bind_ok by apply on_ctx_first.
  erewrite bind_ok by reflexivity. erewrite bind_ok by apply on_ctx_next.
  destruct (stack (ctx w) =? 0);
    [erewrite bind_ok by reflexivity
    |erewrite bind_ok by apply (modify_memory_next (munmap (stack (ctx w)) (stack_size (ctx w))))];
    (erewrite bind_ok by reflexivity); do 2 (erewrite bind_ok by apply on_ctx_next);
    unfold release_processor_id; (erewrite bind_ok by reflexivity);
    cbn [used_processors w_with_ctx w_with_memory]; rewrite Hm; (erewrite bind_ok by reflexivity);
    eexists _, _; (split; [reflexivity|]); auto.
Qed.

Lemma init_preserves w w' stack tls : processors_ok w ->
  execution_context_init stack tls w = (Ret tt, w') -> processors_ok w'.
Proof.
  intros OK H. destruct (initialized (ctx w)) eqn:Hi.
  { unfold execution_context_init, bind, gets, assert_ in H. rewrite Hi in H. discriminate. }
  pose proof (init_run w stack tls Hi) as R. pose proof (first_free_spec (used_processors w) 0) as F.
  destruct (first_free (used_processors w) 0) as [id|]; [|rewrite R in H; discriminate].
  destruct R as (w2 & R & Ht & Hc & Hu). rewrite R in H. injection H as ->.
  destruct F as (Hr & Hfree & _). rewrite Z.sub_0_r in Hfree.
  assert (forall t c, contexts w !! t = Some c -> initialized c = true -> processor_id c <> id) as Hnew
    by (intros t c Hl Hi' <-; rewrite (ok_marked _ OK _ _ Hl Hi') in Hfree; discriminate).
  assert (forall c, contexts w !! tid w = Some c -> initialized c = false) as Hme
    by (intros c Hl; unfold ctx in Hi; rewrite Hl in Hi; exact Hi).
  split; rewrite ?Hu, ?Hc, ?length_updZ.
  - apply (ok_length _ OK).
  - intros t c [[<- <-]|[Hne Hl]]%lookup_insert_Some Hic.
    + apply (nthZ_updZ_eq _ id). lia.
    + rewrite nthZ_updZ_ne by (apply not_eq_sym, (Hnew _ _ Hl Hic)). apply (ok_marked _ OK _ _ Hl Hic).
  - intros t t' c c' [[<- <-]|[Hne Hl]]%lookup_insert_Some [[<- <-]|[Hne' Hl']]%lookup_insert_Some Hi1 Hi2 E.
    + reflexivity.
    + destruct (Hnew _ _ Hl' Hi2). symmetry. exact E.
    + destruct (Hnew _ _ Hl Hi1). exact E.
    + eapply (ok_unique _ OK); eassumption.
  - intros i Hui. destruct (decide (i = id)) as [->|Hne].
    + exists (tid w). eexists. rewrite lookup_insert_eq. repeat split.
    + rewrite nthZ_updZ_ne in Hui by congruence. destruct (ok_owned _ OK _ Hui) as (t & c & Hl & Hic & E).
      exists t, c. rewrite lookup_insert_ne; [auto|]. intros <-. rewrite (Hme _ Hl) in Hic. discriminate.
  - intros t c [[<- <-]|[Hne Hl]]%lookup_insert_Some Hic.
    + repeat split; eauto.
    + apply (ok_live _ OK _ _ Hl Hic).
Qed.

Lemma free_preserves w w' : processors_ok w -> initialized (ctx w) = true ->
  execution_context_free w = (Ret tt, w') -> processors_ok w'.
Proof.
  intros OK Hi H. destruct (free_run w Hi OK) as (c0 & w2 & R & Ht & Hc & Hi0 & Hu).
  rewrite R in H. injection H as ->.
  assert (contexts w !! tid w = Some (ctx w)) as Hme
    by (unfold ctx in *; destruct (contexts w !! tid w); [reflexivity | discriminate]).
  assert (forall t c, contexts w' !! t = Some c -> initialized c = true -> contexts w !! t = Some c /\ t <> tid w) as Old.
  { intros t c Hl Hic. rewrite Hc in Hl. apply lookup_insert_Some in Hl as [[<- <-]|[Hne Hl]]; [congruence|]. auto. }
  split; rewrite ?Hu, ?length_updZ.
  - apply (ok_length _ OK).
  - intros t c Hl Hic. destruct (Old _ _ Hl Hic) as [Hl' Hne]. rewrite nthZ_updZ_ne.
    + apply (ok_marked _ OK _ _ Hl' Hic).
    + intros E. apply Hne. eapply (ok_unique _ OK); [exact Hl' | exact Hme | exact Hic | exact Hi | auto].
  - intros t t' c c' Hl Hl' H1 H2. destruct (Old _ _ Hl H1), (Old _ _ Hl' H2).
    eapply (ok_unique _ OK); eassumption.
  - intros i Hui. destruct (decide (i = processor_id (ctx w))) as [->|Hne].
    + rewrite nthZ_updZ_eq in Hui; [discriminate|]. apply nthZ_Some.
      rewrite (ok_marked _ OK _ _ Hme Hi). eauto.
    + rewrite nthZ_updZ_ne in Hui by congruence. destruct (ok_owned _ OK _ Hui) as (t & c & Hl & Hic & E).
      exists t, c. rewrite Hc, lookup_insert_ne; [auto|]. intros <-. congruence.
  - intros t c Hl Hic. destruct (Old _ _ Hl Hic) as [Hl' _]. apply (ok_live _ OK _ _ Hl' Hic).
Qed.

Lemma switch_ok t w : processors_ok w -> processors_ok (switch t w).
Proof. intros []. split; assumption. Qed.

Lemma lifecycle_ok st m w : lifecycle st m w -> processors_ok w.
Proof.
  induction 1 as [| t stack tls w w' _ IH H | t w w' _ IH Hi H].
  - split; cbn [used_processors contexts no_contexts]; try (intros *; rewrite lookup_empty; discriminate).
    + apply length_replicate.
    + intros i Hi. unfold nthZ in Hi. destruct (i <? 0); [discriminate|].
      apply lookup_replicate in Hi as [? _]. discriminate.
  - eapply init_preserves; [apply switch_ok, IH | exact H].
  - eapply free_preserves; [apply switch_ok, IH | exact Hi | exact H].
Qed.

(** The threads whose context is initialised. *)
Definition initialised_threads (w : world) : list nat :=
  map fst (List.filter (fun p => initialized (snd p)) (map_to_list (contexts w))).

Definition live_contexts (w : world) : list (nat * ExecutionContext) :=
  List.filter (fun p => initialized (snd p)) (map_to_list (contexts w)).
Definition live_ids (w : world) : list Z := (fun p => processor_id p.2) <$> live_contexts w.
Definition all_ids : list Z := seqZ 0 (Z.of_nat MAX_CPUS).

Lemma live_contexts_elem w t c :
  (t, c) ∈ live_contexts w <-> contexts w !! t = Some c /\ initialized c = true.
Proof.
  unfold live_contexts. rewrite list_elem_of_In, filter_In, <- list_elem_of_In, elem_of_map_to_list. reflexivity.
Qed.

Lemma live_ids_NoDup w : processors_ok w -> NoDup (live_ids w).
Proof.
  intros OK. apply NoDup_fmap_2_strong.
  - intros [t c] [t' c'] [H1 I1]%live_contexts_elem [H2 I2]%live_contexts_elem E. simpl in E.
    assert (t = t') as -> by (eapply (ok_unique _ OK); eassumption). congruence.
  - unfold live_contexts. apply NoDup_ListNoDup, List.NoDup_filter, NoDup_ListNoDup, NoDup_map_to_list.
Qed.

Lemma live_ids_range w i : processors_ok w -> i ∈ live_ids w -> i ∈ all_ids.
Proof.
  intros OK ((t & c) & -> & [H I]%live_contexts_elem)%list_elem_of_fmap.
  unfold all_ids. apply elem_of_seqZ. simpl.
  assert (is_Some (nthZ (used_processors w) (processor_id c))) as S
    by (rewrite (ok_marked _ OK _ _ H I); eauto).
  apply nthZ_Some in S. rewrite (ok_length _ OK) in S. lia.
Qed.

Lemma live_ids_used w i : processors_ok w -> nthZ (used_processors w) i = Some true <-> i ∈ live_ids w.
Proof.
  intros OK. split.
  - intros (t & c & H & I & <-)%(ok_owned _ OK). apply list_elem_of_fmap. exists (t, c).
    split; [reflexivity | apply live_contexts_elem; auto].
  - intros ((t & c) & -> & [H I]%live_contexts_elem)%list_elem_of_fmap. apply (ok_marked _ OK _ _ H I).
Qed.

Lemma live_ids_submseteq w : processors_ok w -> live_ids w ⊆+ all_ids.
Proof. intros OK. apply NoDup_submseteq; [apply live_ids_NoDup, OK | intros i; apply live_ids_range, OK]. Qed.

Lemma live_count_full w : processors_ok w ->
  first_free (used_processors w) 0 = None <-> length (live_contexts w) = MAX_CPUS.
Proof.
  intros OK. pose proof (live_ids_submseteq w OK) as S.
  assert (length (live_ids w) = length (live_contexts w)) as L by apply length_fmap.
  assert (length all_ids = MAX_CPUS) as LA by reflexivity.
  pose proof (first_free_spec (used_processors w) 0) as F. split.
  - intros E. rewrite E in F. rewrite <- L, <- LA. apply Permutation_length, submseteq_length_Permutation; [exact S|].
    apply submseteq_length, NoDup_submseteq; [apply NoDup_seqZ|]. intros i Hi.
    apply live_ids_used; [exact OK|]. apply F. rewrite (ok_length _ OK). apply elem_of_seqZ in Hi. lia.
  - intros E. destruct (first_free (used_processors w) 0) as [i|] eqn:EF; [|reflexivity].
    destruct F as (Hr & Hf & _). rewrite Z.sub_0_r in Hf.
    assert (live_ids w ≡ₚ all_ids) as P by (apply submseteq_length_Permutation; [exact S | rewrite L, LA, E; reflexivity]).
    assert (i ∈ live_ids w) as Hi.
    { rewrite P. apply elem_of_seqZ. rewrite (ok_length _ OK) in Hr. lia. }
    apply (live_ids_used w i OK) in Hi. congruence.
Qed.

(** ** Properties *)

(** C9. Processor ids across threads, for every interleaving of context set-ups
    and tear-downs: every initialised context has an id below 64 that is
    marked as used, no two threads share one, every used id belongs to an
    initialised context, and such a context owns a live JIT, call VM and
    environment with its id. *)
Theorem processor_ids_are_exclusive st m w : lifecycle st m w -> processors_ok w.
Proof. apply lifecycle_ok. Qed.

(** Setting up a context succeeds exactly while fewer than 64 threads have
    one: it then takes an id that no initialised context has; with 64 contexts
    alive it terminates the process and changes nothing. *)
Theorem context_capacity st m w t stack tls :
  lifecycle st m w -> initialized (ctx (switch t w)) = false ->
  (length (live_contexts w) < MAX_CPUS /\
   exists w', execution_context_init stack tls (switch t w) = (Ret tt, w') /\
     initialized (ctx w') = true /\ processor_id (ctx w') ∉ live_ids w)%nat \/
  (length (live_contexts w) = MAX_CPUS /\
   execution_context_init stack tls (switch t w) = (Stop Terminate, switch t w)).
Proof.
  intros OK%lifecycle_ok Hi. pose proof (live_count_full w OK) as F.
  pose proof (init_run (switch t w) stack tls Hi) as R.
  pose proof (submseteq_length _ _ (live_ids_submseteq w OK)) as LE.
  unfold live_ids in LE. rewrite length_fmap in LE. change (length all_ids) with MAX_CPUS in LE.
  change (used_processors (switch t w)) with (used_processors w) in R.
  pose proof (first_free_spec (used_processors w) 0) as S.
  destruct (first_free (used_processors w) 0) as [id|] eqn:EF.
  - left. split; [assert (length (live_contexts w) <> MAX_CPUS) by (rewrite <- F; discriminate); lia|].
    destruct R as (w' & R & Ht & Hc & _). exists w'. split; [exact R|].
    assert (ctx w' = initialised_context id stack tls (ctx (switch t w))) as E
      by (unfold ctx at 1; rewrite Ht, Hc, lookup_insert_eq; reflexivity).
    rewrite E. split; [reflexivity|]. cbn [processor_id initialised_context].
    intros Hin%(live_ids_used w id OK). destruct S as (_ & Hf & _). rewrite Z.sub_0_r in Hf. congruence.
  - right. split; [apply F; reflexivity | exact R].
Qed.

(** The memory callbacks: a write of 1, 2, 4, 8 or 16 mapped bytes is read
    back (modulo the width) and leaves every disjoint read unchanged; an
    exclusive write stores and succeeds exactly when memory holds the expected
    value; a 128-bit vector is read back in the right halves; an access to
    unmapped memory faults. *)
Theorem memory_callbacks n a v expected w :
  (mapped (memory w) a n ->
     exists w', write n a v w = (Ret tt, w') /\ read n a w' = (Ret (v mod 2 ^ (8 * Z.of_nat n)), w') /\
       (forall a' n', a' + Z.of_nat n' <= a \/ a + Z.of_nat n <= a' -> fst (read n' a' w') = fst (read n' a' w)) /\
       exists old, read n a w = (Ret old, w) /\
         write_exclusive n a v expected w =
           (if old =? expected then (Ret true, w') else (Ret false, w))) /\
  (~ mapped (memory w) a n -> read n a w = (Stop Undefined, w) /\ write n a v w = (Stop Undefined, w)) /\
  (forall vv, mapped (memory w) a 16 -> in_range 64 (fst vv) -> in_range 64 (snd vv) ->
     exists w', MemoryWrite128 a vv w = (Ret tt, w') /\ MemoryRead128 a w' = (Ret vv, w')).
Proof.
  assert (forall n v, mapped (memory w) a n -> exists w', write n a v w = (Ret tt, w') /\
    read n a w' = (Ret (v mod 2 ^ (8 * Z.of_nat n)), w') /\
    (forall a' n', a' + Z.of_nat n' <= a \/ a + Z.of_nat n <= a' -> load (memory w') a' n' = load (memory w) a' n')) as W.
  { intros k x Hm. destruct (store_spec (memory w) a k x Hm) as (m' & Es & El & Eo & _).
    exists (w_with_memory m' w). split; [unfold write, bind, gets; rewrite Es; reflexivity|].
    rewrite read_run. cbn [memory w_with_memory]. rewrite El. auto. }
  split; [|split].
  - intros Hm. destruct (W n v Hm) as (w' & Hw & Hr & Ho). exists w'. split; [exact Hw|]. split; [exact Hr|].
    split; [intros a' n' D; rewrite !read_run, (Ho a' n' D); destruct (load _ a' n'); reflexivity|].
    apply read_bytes_mapped in Hm as [l Hl]. exists (le_combine l).
    assert (read n a w = (Ret (le_combine l), w)) as R by (rewrite read_run; unfold load; rewrite Hl; reflexivity).
    split; [exact R|]. unfold write_exclusive. erewrite bind_ok by exact R.
    destruct (le_combine l =? expected); [|reflexivity]. erewrite bind_ok by exact Hw. reflexivity.
  - intros Hm. rewrite read_run. unfold load, write, bind, gets, store.
    rewrite write_bytes_unmapped by (rewrite length_le_split; exact Hm).
    destruct (read_bytes (memory w) a n) eqn:E; [exfalso; apply Hm, read_bytes_mapped; eauto|].
    split; reflexivity.
  - intros [lo hi] Hm Hlo Hhi. unfold in_range in *. cbn [fst snd] in *.
    destruct (W 16%nat (lo + 2 ^ 64 * hi) Hm) as (w' & Hw & Hr & _). exists w'. split; [exact Hw|].
    unfold MemoryRead128. erewrite bind_ok by exact Hr.
    assert (0 <= lo + 2 ^ 64 * hi < 2 ^ (8 * Z.of_nat 16)) as R by (change (8 * Z.of_nat 16) with 128; lia).
    rewrite (Z.mod_small (lo + _)) by exact R. unfold ret. do 2 f_equal.
    rewrite Z.mul_comm, Z.mod_add, Z.mod_small, Z.div_add, Z.div_small by lia. reflexivity.
Qed.

(** ** Witnesses *)

Definition demo_process : world := no_contexts initial_state ∅.

Lemma processor_ids_are_exclusive_witness : exists w', processors_ok w' /\ used_processors w' !! 0%nat = Some true.
Proof.
  assert (initialized (ctx (switch 1 demo_process)) = false) as Hi by reflexivity.
  pose proof (init_run (switch 1 demo_process) (2 ^ 64 - 1) 0x100 Hi) as R.
  change (first_free (used_processors (switch 1 demo_process)) 0) with (Some 0) in R.
  destruct R as (w' & R & _ & _ & Hu). exists w'. split.
  - apply (processor_ids_are_exclusive initial_state ∅ w').
    eapply life_init; [apply life_start | exact R].
  - rewrite Hu. reflexivity.
Defined.

Lemma context_capacity_witness :
  (length (live_contexts demo_process) < MAX_CPUS)%nat /\
  exists w', execution_context_init 0x5000 0x100 (switch 3 demo_process) = (Ret tt, w') /\
    initialized (ctx w') = true.
Proof.
  destruct (context_capacity initial_state ∅ demo_process 3 0x5000 0x100) as [[H (w' & R & I & _)]|[H _]];
    [apply life_start | reflexivity | split; [exact H|]; exists w'; split; [exact R | exact I] |].
  discriminate H.
Defined.

Definition demo_memory : mem := list_to_map (zip (seqZ 0x2000 16) (replicate 16 0)).
Definition demo_memory_world : world := no_contexts initial_state demo_memory.

Lemma memory_callbacks_witness : exists w',
  write 4 0x2000 0x12345678 demo_memory_world = (Ret tt, w') /\
  read 4 0x2000 w' = (Ret (0x12345678 mod 2 ^ (8 * Z.of_nat 4)), w').
Proof.
  destruct (memory_callbacks 4 0x2000 0x12345678 0 demo_memory_world) as (H & _).
  destruct H as (w' & H1 & H2 & _); [|exists w'; split; [exact H1 | exact H2]].
  apply read_bytes_mapped. exists [0; 0; 0; 0]. vm_compute. reflexivity.
Defined.
