(* ===== verification/PthreadImpl.v ===== *)
(** src/libs/pthread_impl.cpp: guest threads, and thread-specific data whose
    values are wrapped so that the guest destructor runs in a fiber and keeps
    the thread's execution context alive through its reference count. *)
From S2P Require Import Prelude Memory A64Jit FunctionTraits Trampoline ExecutionContext Contexts.
Local Open Scope Z_scope.

Definition EINVAL : Z := 22.

Record GuestRoutineWrapper : Type := { guest_routine : Z; value : Z }.

Record MapValue : Type := { guest_destructor : Z; mapped_wrappers : list Z }.

(** The process: the execution contexts, the live wrapper objects by address,
    [key_destructor_map], the host's thread-specific values (absent is null),
    and the arguments of the threads that have been started. *)
Record pthread_state : Type := {
  base : world;
  wrappers : gmap Z GuestRoutineWrapper;
  next_wrapper : Z;
  key_destructor_map : gmap Z MapValue;
  tls : gmap (nat * Z) Z;
  started : list Z
}.

Definition with_base x s := {| base := x; wrappers := wrappers s; next_wrapper := next_wrapper s;
  key_destructor_map := key_destructor_map s; tls := tls s; started := started s |}.
Definition with_wrappers x n s := {| base := base s; wrappers := x; next_wrapper := n;
  key_destructor_map := key_destructor_map s; tls := tls s; started := started s |}.
Definition with_keys x s := {| base := base s; wrappers := wrappers s; next_wrapper := next_wrapper s;
  key_destructor_map := x; tls := tls s; started := started s |}.
Definition with_tls x s := {| base := base s; wrappers := wrappers s; next_wrapper := next_wrapper s;
  key_destructor_map := key_destructor_map s; tls := x; started := started s |}.
Definition with_started x s := {| base := base s; wrappers := wrappers s; next_wrapper := next_wrapper s;
  key_destructor_map := key_destructor_map s; tls := tls s; started := x |}.

Abbreviation PM := (M pthread_state).

(** An operation of execution_context.cpp. *)
Definition lift {A} (c : WM A) : PM A :=
  fun s => match c (base s) with (o, w) => (o, with_base w s) end.

(** [new GuestRoutineWrapper(routine, value)] and [delete wrapper]. *)
Definition new_wrapper (routine v : Z) : PM Z :=
  let! p := gets next_wrapper in
  modify (fun s => with_wrappers (<[p := {| guest_routine := routine; value := v |}]> (wrappers s)) (p + 1) s) ;;
  ret p.
Definition deref_wrapper (p : Z) : PM GuestRoutineWrapper :=
  let! ws := gets wrappers in deref (ws !! p).
Definition delete_wrapper (p : Z) : PM unit :=
  let! _ := deref_wrapper p in
  modify (fun s => with_wrappers (delete p (wrappers s)) (next_wrapper s) s).
Definition set_wrapper_value (p v : Z) : PM unit :=
  let! w := deref_wrapper p in
  modify (fun s => with_wrappers (<[p := {| guest_routine := guest_routine w; value := v |}]> (wrappers s))
                     (next_wrapper s) s).

(** The host's [pthread_getspecific] and [pthread_setspecific] in the running
    thread. *)
Definition host_getspecific (key : Z) : PM Z :=
  let! s := get in ret (default 0 (tls s !! (tid (base s), key))).
Definition host_setspecific (key p : Z) : PM unit :=
  modify (fun s => with_tls (if p =? 0 then delete (tid (base s), key) (tls s)
                             else <[(tid (base s), key) := p]> (tls s)) s).

(** [key_destructor_map.at(key)]. *)
Definition key_at (key : Z) : PM MapValue :=
  let! m := gets key_destructor_map in at_ (m !! key).

Section Guest.
(** Running a guest routine in a callee fiber, and the value it leaves in x0:
    [run_in_fiber] at some host functions and some code. *)
Variable run_guest : Z -> list run_arg -> WM Z.

(** [pthread_caller]. *)
Definition pthread_caller (addr : Z) (pass_ptr_arg : bool) (p : Z) : PM unit :=
  let! _ := lift (run_guest addr (if pass_ptr_arg then [RunInt p] else [])) in ret tt.

(** [if (_execution_context_sub_ref() == 0) execution_context_free();]. *)
Definition drop_context_ref : PM unit :=
  let! n := lift execution_context_sub_ref in
  if n =? 0 then lift execution_context_free else ret tt.

(** [thread_routine], run on a new thread with its stack and TLS buffer. *)
Definition thread_routine (arg mmap_stack tls_buffer : Z) : PM Z :=
  lift (execution_context_init mmap_stack tls_buffer) ;;
  let! wrapper := deref_wrapper arg in
  let! out := lift (run_guest (guest_routine wrapper) [RunInt (value wrapper)]) in
  drop_context_ref ;;
  delete_wrapper arg ;;
  ret out.

(** [pthread_create_impl]; [host_ret] is what the host's [pthread_create]
    returns. *)
Definition pthread_create_impl (routine arg host_ret : Z) : PM Z :=
  let! p := new_wrapper routine arg in
  (if host_ret =? 0 then modify (fun s => with_started (started s ++ [p]) s) else ret tt) ;;
  ret host_ret.

(** [pthread_key_create_impl]; the host returns an error code, or a key. *)
Definition pthread_key_create_impl (host : Z + Z) (destructor : Z) : PM Z :=
  match host with
  | inl err => ret err
  | inr key =>
      modify (fun s => with_keys
        (match key_destructor_map s !! key with
         | Some _ => key_destructor_map s
         | None => <[key := {| guest_destructor := destructor; mapped_wrappers := [] |}]> (key_destructor_map s)
         end) s) ;;
      ret 0
  end.

(** The lambda given to the host as the key's destructor. *)
Definition key_destructor (arg : Z) : PM unit :=
  let! wrapper := deref_wrapper arg in
  let! _ := lift (run_guest (guest_routine wrapper) [RunInt (value wrapper)]) in
  delete_wrapper arg ;;
  drop_context_ref.

(** What the host does with a key when a thread ends: a non-null value is
    replaced by null and handed to the destructor. *)
Definition host_run_destructor (key : Z) : PM unit :=
  let! p := host_getspecific key in
  if p =? 0 then ret tt
  else host_setspecific key 0 ;; key_destructor p.

(** [pthread_key_delete_impl]; the host forgets every thread's value. *)
Definition pthread_key_delete_impl (key : Z) : PM Z :=
  let! m := key_at key in
  for_each (mapped_wrappers m) (fun p =>
    delete_wrapper p ;;
    let! _ := lift execution_context_sub_ref in ret tt) ;;
  modify (fun s => with_tls (filter (fun e => e.1.2 <> key) (tls s)) s) ;;
  ret 0.

(** [pthread_setspecific_impl]; [host_ret] is what the host's
    [pthread_setspecific] of a new wrapper returns. *)
Definition pthread_setspecific_impl (key v host_ret : Z) : PM Z :=
  let! wrapper := host_getspecific key in
  if v =? 0 then
    (if wrapper =? 0 then ret tt
     else
       let! m := key_at key in
       modify (fun s => with_keys (<[key := {| guest_destructor := guest_destructor m;
                 mapped_wrappers := List.filter (fun p => negb (p =? wrapper)) (mapped_wrappers m) |}]>
                 (key_destructor_map s)) s) ;;
       delete_wrapper wrapper ;;
       let! _ := lift execution_context_sub_ref in
       host_setspecific key 0) ;;
    ret 0
  else if wrapper =? 0 then
    let! keys := gets key_destructor_map in
    match keys !! key with
    | Some mapped =>
        let! p := new_wrapper (guest_destructor mapped) v in
        if negb (host_ret =? 0) then delete_wrapper p ;; ret host_ret
        else
          host_setspecific key p ;;
          modify (fun s => with_keys (<[key := {| guest_destructor := guest_destructor mapped;
                    mapped_wrappers := mapped_wrappers mapped ++ [p] |}]> (key_destructor_map s)) s) ;;
          let! _ := lift execution_context_add_ref in
          ret 0
    | None => ret EINVAL
    end
  else
    set_wrapper_value wrapper v ;;
    ret 0.

Definition pthread_getspecific_impl (key : Z) : PM Z :=
  let! wrapper := host_getspecific key in
  if negb (wrapper =? 0) then
    let! w := deref_wrapper wrapper in ret (value w)
  else ret 0.
End Guest.

(** ** Reference counts *)

Definition context_of (t : nat) (s : pthread_state) : ExecutionContext :=
  default fresh_context (contexts (base s) !! t).
Definition owned (t : nat) (m : gmap (nat * Z) Z) : gmap (nat * Z) Z := filter (fun e => e.1.1 = t) m.

(** Every thread-specific value is a live wrapper of its own, under a known
    key, and a thread's reference count is the number of its values plus
    [extra] (one while its start routine runs). *)
Record pinv (extra : nat -> Z) (s : pthread_state) : Prop := {
  inv_live : forall tk p, tls s !! tk = Some p -> 0 < p /\ is_Some (wrappers s !! p);
  inv_inj : forall tk tk' p, tls s !! tk = Some p -> tls s !! tk' = Some p -> tk = tk';
  inv_fresh : 0 < next_wrapper s /\ forall p, is_Some (wrappers s !! p) -> p < next_wrapper s;
  inv_keys : forall t k p, tls s !! (t, k) = Some p -> is_Some (key_destructor_map s !! k);
  inv_extra : forall t, 0 <= extra t;
  inv_count : forall t, ref_count (context_of t s) = extra t + Z.of_nat (size (owned t (tls s)));
  inv_bound : forall t, ref_count (context_of t s) < 2 ^ 64
}.

(** The same function but at one point. *)
Definition plus_at (t : nat) (d : Z) (extra : nat -> Z) : nat -> Z :=
  fun t' => if (t' =? t)%nat then extra t' + d else extra t'.

Lemma owned_insert_new t k p m : m !! (t, k) = None ->
  size (owned t (<[(t, k) := p]> m)) = S (size (owned t m)).
Proof.
  intros H. unfold owned. rewrite map_filter_insert_True by reflexivity.
  apply map_size_insert_None. apply map_lookup_filter_None. auto.
Qed.

Lemma owned_insert_other t t' k p m : t <> t' -> owned t (<[(t', k) := p]> m) = owned t m.
Proof. intros H. unfold owned. apply map_filter_insert_not. simpl. intros _. congruence. Qed.

Lemma owned_insert_old t k p q m : m !! (t, k) = Some q -> size (owned t (<[(t, k) := p]> m)) = size (owned t m).
Proof.
  intros H. unfold owned. rewrite map_filter_insert_True by reflexivity.
  apply map_size_insert_Some. exists q. apply map_lookup_filter_Some. auto.
Qed.

Lemma owned_delete t k p m : m !! (t, k) = Some p ->
  size (owned t m) = S (size (owned t (delete (t, k) m))).
Proof.
  intros H. rewrite <- (insert_delete_id m (t, k) p H) at 1.
  apply owned_insert_new. apply lookup_delete_eq.
Qed.

Lemma owned_delete_other t t' k m : t <> t' -> owned t (delete (t', k) m) = owned t m.
Proof.
  intros H. apply map_eq. intros [u l]. apply option_eq. intros q. unfold owned.
  rewrite !map_lookup_filter_Some, lookup_delete_Some. split; [tauto|]. intros [A B]. simpl in B.
  repeat split; auto. congruence.
Qed.

(** The reference count operations touch only the running thread's count. *)
Lemma add_ref_run s : lift execution_context_add_ref s =
  (Ret (u64 (ref_count (ctx (base s)) + 1)),
   with_base (w_with_ctx (ctx_with_ref_count (u64 (ref_count (ctx (base s)) + 1)) (ctx (base s))) (base s)) s).
Proof.
  unfold lift, execution_context_add_ref. erewrite bind_ok by reflexivity.
  unfold gets. rewrite ctx_with. reflexivity.
Qed.

Lemma sub_ref_run s : lift execution_context_sub_ref s =
  (Ret (u64 (ref_count (ctx (base s)) - 1)),
   with_base (w_with_ctx (ctx_with_ref_count (u64 (ref_count (ctx (base s)) - 1)) (ctx (base s))) (base s)) s).
Proof.
  unfold lift, execution_context_sub_ref. erewrite bind_ok by reflexivity.
  unfold gets. rewrite ctx_with. reflexivity.
Qed.

Lemma context_of_update s c t :
  context_of t (with_base (w_with_ctx c (base s)) s) = if (t =? tid (base s))%nat then c else context_of t s.
Proof.
  unfold context_of, w_with_ctx, with_base. simpl. destruct (Nat.eqb_spec t (tid (base s))) as [->|H].
  - rewrite lookup_insert_eq. reflexivity.
  - rewrite lookup_insert_ne by congruence. reflexivity.
Qed.

Lemma ctx_context_of s : ctx (base s) = context_of (tid (base s)) s.
Proof. reflexivity. Qed.

Lemma delete_wrapper_run p w s : wrappers s !! p = Some w ->
  delete_wrapper p s = (Ret tt, with_wrappers (delete p (wrappers s)) (next_wrapper s) s).
Proof. intros H. unfold delete_wrapper, deref_wrapper, bind, gets. rewrite H. reflexivity. Qed.

Lemma delete_wrapper_dangling p s : wrappers s !! p = None -> delete_wrapper p s = (Stop Undefined, s).
Proof. intros H. unfold delete_wrapper, deref_wrapper, bind, gets. rewrite H. reflexivity. Qed.

Lemma getspecific_run key s : host_getspecific key s = (Ret (default 0 (tls s !! (tid (base s), key))), s).
Proof. reflexivity. Qed.

(** The value a thread sees under a key. *)
Definition tls_value (t : nat) (key : Z) (s : pthread_state) : Z :=
  match tls s !! (t, key) with
  | Some p => match wrappers s !! p with Some w => value w | None => 0 end
  | None => 0
  end.

Lemma getspecific_impl_run extra key s : pinv extra s ->
  pthread_getspecific_impl key s = (Ret (tls_value (tid (base s)) key s), s).
Proof.
  intros I. unfold pthread_getspecific_impl. erewrite bind_ok by apply getspecific_run. unfold tls_value.
  destruct (tls s !! (tid (base s), key)) as [p|] eqn:E; cbn [default id]; [|reflexivity].
  destruct (inv_live _ _ I _ _ E) as [Hp [w Hw]]. destruct (Z.eqb_spec p 0); [lia|]. cbn [negb].
  unfold deref_wrapper, bind, gets. rewrite Hw. reflexivity.
Qed.

(** *** Setting a value *)

Section Set_.
Context (extra : nat -> Z) (s : pthread_state) (I : pinv extra s).
Let t : nat := tid (base s).
Let rc : Z := ref_count (ctx (base s)).

Definition count_base (d : Z) : world :=
  w_with_ctx (ctx_with_ref_count (u64 (rc + d)) (ctx (base s))) (base s).

Lemma count_base_of d t' : context_of t' (with_base (count_base d) s) =
  if (t' =? t)%nat then ctx_with_ref_count (u64 (rc + d)) (ctx (base s)) else context_of t' s.
Proof. apply context_of_update. Qed.

(** Clearing a value that is set. *)
Lemma clear_run key p : tls s !! (t, key) = Some p ->
  exists m, key_destructor_map s !! key = Some m /\
  forall host_ret, pthread_setspecific_impl key 0 host_ret s =
  (Ret 0, {| base := count_base (-1); wrappers := delete p (wrappers s); next_wrapper := next_wrapper s;
             key_destructor_map := <[key := {| guest_destructor := guest_destructor m;
               mapped_wrappers := List.filter (fun q => negb (q =? p)) (mapped_wrappers m) |}]> (key_destructor_map s);
             tls := delete (t, key) (tls s); started := started s |}).
Proof.
  intros E. destruct (inv_live _ _ I _ _ E) as [Hp [w Hw]].
  destruct (inv_keys _ _ I _ _ _ E) as [m Hm]. exists m. split; [exact Hm|]. intros host_ret.
  unfold pthread_setspecific_impl. erewrite bind_ok by apply getspecific_run. fold t. rewrite E.
  cbn [default id Z.eqb]. destruct (Z.eqb_spec p 0); [lia|].
  erewrite bind_ok; [reflexivity|].
  erewrite bind_ok by (unfold key_at, bind, gets; rewrite Hm; reflexivity).
  erewrite bind_ok by reflexivity.
  erewrite bind_ok by (apply (delete_wrapper_run p w); exact Hw).
  erewrite bind_ok by apply sub_ref_run. reflexivity.
Qed.

Lemma clear_null_run key host_ret : tls s !! (t, key) = None ->
  pthread_setspecific_impl key 0 host_ret s = (Ret 0, s).
Proof.
  intros E. unfold pthread_setspecific_impl. erewrite bind_ok by apply getspecific_run. fold t. rewrite E. reflexivity.
Qed.

(** Setting a value for the first time. *)
Lemma set_new_run key v m : v <> 0 -> tls s !! (t, key) = None -> key_destructor_map s !! key = Some m ->
  let p := next_wrapper s in
  pthread_setspecific_impl key v 0 s =
  (Ret 0, {| base := count_base 1;
             wrappers := <[p := {| guest_routine := guest_destructor m; value := v |}]> (wrappers s);
             next_wrapper := p + 1;
             key_destructor_map := <[key := {| guest_destructor := guest_destructor m;
               mapped_wrappers := mapped_wrappers m ++ [p] |}]> (key_destructor_map s);
             tls := <[(t, key) := p]> (tls s); started := started s |}).
Proof.
  intros Hv E Hm p. unfold pthread_setspecific_impl. erewrite bind_ok by apply getspecific_run. fold t. rewrite E.
  cbn [default]. destruct (Z.eqb_spec v 0); [lia|]. change (0 =? 0) with true. cbn match.
  erewrite bind_ok by reflexivity. rewrite Hm. erewrite bind_ok by reflexivity. cbn [negb].
  erewrite bind_ok by reflexivity. erewrite bind_ok by reflexivity.
  erewrite bind_ok by apply add_ref_run. unfold host_setspecific, modify.
  destruct (inv_fresh _ _ I) as [Hn _]. cbn [next_wrapper with_wrappers]. fold p.
  destruct (Z.eqb_spec p 0); [unfold p in *; lia|]. reflexivity.
Qed.

Lemma set_unknown_run key v host_ret : v <> 0 -> tls s !! (t, key) = None -> key_destructor_map s !! key = None ->
  pthread_setspecific_impl key v host_ret s = (Ret EINVAL, s).
Proof.
  intros Hv E Hm. unfold pthread_setspecific_impl. erewrite bind_ok by apply getspecific_run. fold t. rewrite E.
  cbn [default]. destruct (Z.eqb_spec v 0); [lia|]. change (0 =? 0) with true. cbn match.
  erewrite bind_ok by reflexivity. rewrite Hm. reflexivity.
Qed.

(** The host refuses the new wrapper: it is deleted again. *)
Lemma set_refused_run key v m host_ret : v <> 0 -> host_ret <> 0 -> tls s !! (t, key) = None ->
  key_destructor_map s !! key = Some m ->
  pthread_setspecific_impl key v host_ret s =
  (Ret host_ret, with_wrappers (wrappers s) (next_wrapper s + 1) s).
Proof.
  intros Hv Hr E Hm. unfold pthread_setspecific_impl. erewrite bind_ok by apply getspecific_run. fold t. rewrite E.
  cbn [default]. destruct (Z.eqb_spec v 0); [lia|]. change (0 =? 0) with true. cbn match.
  erewrite bind_ok by reflexivity. rewrite Hm. erewrite bind_ok by reflexivity.
  destruct (Z.eqb_spec host_ret 0); [lia|]. cbn [negb].
  erewrite bind_ok by (eapply delete_wrapper_run; cbn; apply lookup_insert_eq).
  unfold ret, with_wrappers. cbn [base wrappers next_wrapper key_destructor_map tls started].
  rewrite delete_insert_id; [reflexivity|].
  destruct (wrappers s !! next_wrapper s) eqn:F; [|reflexivity].
  destruct (inv_fresh _ _ I) as [_ Hf]. specialize (Hf (next_wrapper s) ltac:(eauto)). lia.
Qed.

(** Changing a value that is set. *)
Lemma set_again_run key v p w host_ret : v <> 0 -> tls s !! (t, key) = Some p -> wrappers s !! p = Some w ->
  pthread_setspecific_impl key v host_ret s =
  (Ret 0, with_wrappers (<[p := {| guest_routine := guest_routine w; value := v |}]> (wrappers s)) (next_wrapper s) s).
Proof.
  intros Hv E Hw. destruct (inv_live _ _ I _ _ E) as [Hp _].
  unfold pthread_setspecific_impl. erewrite bind_ok by apply getspecific_run. fold t. rewrite E.
  cbn [default id]. destruct (Z.eqb_spec v 0); [lia|]. destruct (Z.eqb_spec p 0); [lia|].
  unfold set_wrapper_value, deref_wrapper. unfold bind, gets. rewrite Hw. reflexivity.
Qed.
End Set_.

Lemma u64_small x : 0 <= x < 2 ^ 64 -> u64 x = x.
Proof. intros H. apply wrap_small. exact H. Qed.

Lemma count_base_bound extra s d u : pinv extra s ->
  ref_count (context_of u (with_base (count_base s d) s)) < 2 ^ 64.
Proof.
  intros I. rewrite count_base_of. destruct (_ =? _)%nat; [|apply (inv_bound _ _ I)].
  apply (wrap_range 64). lia.
Qed.

Lemma clear_preserves extra s key p m : pinv extra s -> tls s !! (tid (base s), key) = Some p ->
  pinv extra {| base := count_base s (-1); wrappers := delete p (wrappers s); next_wrapper := next_wrapper s;
    key_destructor_map := <[key := m]> (key_destructor_map s);
    tls := delete (tid (base s), key) (tls s); started := started s |}.
Proof.
  intros I E. set (t := tid (base s)) in *. pose proof (inv_bound _ _ I t) as Hb.
  split; cbn [tls wrappers next_wrapper key_destructor_map].
  - intros tk q [Hne Hq]%lookup_delete_Some. destruct (inv_live _ _ I _ _ Hq) as [H1 H2]. split; [exact H1|].
    rewrite lookup_delete_ne; [exact H2|]. intros ->. apply Hne. apply (inv_inj _ _ I _ _ _ E Hq).
  - intros tk tk' q [_ H1]%lookup_delete_Some [_ H2]%lookup_delete_Some. apply (inv_inj _ _ I _ _ _ H1 H2).
  - destruct (inv_fresh _ _ I) as [H1 H2]. split; [exact H1|].
    intros q [w [_ Hw]%lookup_delete_Some]. apply H2. eauto.
  - intros u k q [_ Hq]%lookup_delete_Some. destruct (decide (k = key)) as [->|]; [rewrite lookup_insert_eq; eauto|].
    rewrite lookup_insert_ne by congruence. apply (inv_keys _ _ I _ _ _ Hq).
  - apply (inv_extra _ _ I).
  - intros u. transitivity (ref_count (context_of u (with_base (count_base s (-1)) s))); [reflexivity|].
    rewrite count_base_of. pose proof (inv_count _ _ I u) as C. destruct (Nat.eqb_spec u (tid (base s))) as [->|Hne].
    + cbn [ref_count ctx_with_ref_count]. rewrite ctx_context_of in *. fold t in C, Hb |- *.
      rewrite (owned_delete _ _ _ _ E) in C. pose proof (inv_extra _ _ I t). rewrite u64_small; lia.
    + rewrite owned_delete_other by (unfold t; congruence). exact C.
  - intros u. apply (count_base_bound extra s (-1) u I).
Qed.

Lemma set_new_preserves extra s key v m : pinv extra s -> tls s !! (tid (base s), key) = None ->
  ref_count (ctx (base s)) + 1 < 2 ^ 64 ->
  pinv extra {| base := count_base s 1; wrappers := <[next_wrapper s := v]> (wrappers s);
    next_wrapper := next_wrapper s + 1; key_destructor_map := <[key := m]> (key_destructor_map s);
    tls := <[(tid (base s), key) := next_wrapper s]> (tls s); started := started s |}.
Proof.
  intros I E Hb. set (t := tid (base s)) in *. destruct (inv_fresh _ _ I) as [Hn Hf].
  assert (forall tk q, tls s !! tk = Some q -> q <> next_wrapper s) as Hnew
    by (intros tk q Hq ->; destruct (inv_live _ _ I _ _ Hq) as [_ Hl]; specialize (Hf _ Hl); lia).
  split; cbn [tls wrappers next_wrapper key_destructor_map].
  - intros tk q [[<- <-]|[_ Hq]]%lookup_insert_Some.
    + split; [exact Hn|]. rewrite lookup_insert_eq. eauto.
    + destruct (inv_live _ _ I _ _ Hq) as [H1 H2]. split; [exact H1|].
      rewrite lookup_insert_ne; [exact H2|]. apply not_eq_sym, (Hnew _ _ Hq).
  - intros tk tk' q [[<- <-]|[_ H1]]%lookup_insert_Some [[<- Eq]|[_ H2]]%lookup_insert_Some; auto.
    + destruct (Hnew _ _ H2 eq_refl).
    + destruct (Hnew _ _ H1). symmetry. exact Eq.
    + apply (inv_inj _ _ I _ _ _ H1 H2).
  - split; [lia|]. intros q [w [[<- _]|[_ Hw]]%lookup_insert_Some]; [lia|].
    specialize (Hf q ltac:(eauto)). lia.
  - intros u k q. destruct (decide (k = key)) as [->|]; [rewrite lookup_insert_eq; eauto|].
    rewrite !lookup_insert_ne by congruence. apply (inv_keys _ _ I).
  - apply (inv_extra _ _ I).
  - intros u. transitivity (ref_count (context_of u (with_base (count_base s 1) s))); [reflexivity|].
    rewrite count_base_of. pose proof (inv_count _ _ I u) as C. destruct (Nat.eqb_spec u (tid (base s))) as [->|Hne].
    + cbn [ref_count ctx_with_ref_count]. rewrite ctx_context_of in *. fold t in C, Hb |- *.
      rewrite (owned_insert_new _ _ _ _ E). pose proof (inv_extra _ _ I t). rewrite u64_small; lia.
    + rewrite owned_insert_other by (unfold t; congruence). exact C.
  - intros u. apply (count_base_bound extra s 1 u I).
Qed.

Lemma wrappers_preserve extra s ws n : pinv extra s ->
  (forall p, is_Some (ws !! p) <-> is_Some (wrappers s !! p)) -> next_wrapper s <= n ->
  pinv extra (with_wrappers ws n s).
Proof.
  intros I H Hn. destruct (inv_fresh _ _ I) as [H0 Hf].
  split; cbn [tls wrappers next_wrapper key_destructor_map with_wrappers]; try apply I.
  - intros tk p E. destruct (inv_live _ _ I _ _ E). rewrite H. auto.
  - split; [lia|]. intros p Hp. apply H in Hp. specialize (Hf p Hp). lia.
Qed.

Lemma setspecific_preserves extra s key v host_ret r s' : pinv extra s ->
  ref_count (ctx (base s)) + 1 < 2 ^ 64 ->
  pthread_setspecific_impl key v host_ret s = (Ret r, s') -> pinv extra s'.
Proof.
  intros I Hb H. destruct (tls s !! (tid (base s), key)) as [p|] eqn:E, (decide (v = 0)) as [->|Hv].
  - destruct (clear_run extra s I key p E) as (m & _ & R). rewrite R in H. injection H as <- <-.
    apply clear_preserves; [exact I | exact E].
  - destruct (inv_live _ _ I _ _ E) as [_ [w Hw]].
    rewrite (set_again_run extra s I key v p w host_ret Hv E Hw) in H. injection H as <- <-.
    apply wrappers_preserve; [exact I | | reflexivity]. intros q. destruct (decide (q = p)) as [->|].
    + rewrite lookup_insert_eq, Hw. split; eauto.
    + rewrite lookup_insert_ne by congruence. reflexivity.
  - rewrite clear_null_run in H by exact E. injection H as <- <-. exact I.
  - destruct (key_destructor_map s !! key) as [m|] eqn:Em.
    + destruct (decide (host_ret = 0)) as [->|Hr].
      * rewrite (set_new_run extra s I key v m Hv E Em) in H. injection H as <- <-.
        apply set_new_preserves; assumption.
      * rewrite (set_refused_run extra s I key v m host_ret Hv Hr E Em) in H. injection H as <- <-.
        apply wrappers_preserve; [exact I | reflexivity | lia].
    + rewrite set_unknown_run in H by assumption. injection H as <- <-. exact I.
Qed.

(** *** Dropping a reference *)

(** Computations that leave every reference count and the thread alone. *)
Definition keeps (w w' : world) : Prop :=
  tid w' = tid w /\ forall t, ref_count (default fresh_context (contexts w' !! t)) =
                              ref_count (default fresh_context (contexts w !! t)).
Definition counts_stable {A} (c : WM A) : Prop := forall w, keeps w (snd (c w)).

Lemma stable_bind {A B} (c : WM A) (k : A -> WM B) :
  counts_stable c -> (forall a, counts_stable (k a)) -> counts_stable (bind c k).
Proof.
  intros Hc Hk w. unfold bind. specialize (Hc w). destruct (c w) as [[a|e|f] w'] eqn:E; try exact Hc.
  destruct Hc as [T R], (Hk a w') as [T' R']. simpl in *. split; [congruence|]. intros t. rewrite R'. apply R.
Qed.

Lemma stable_pure {A} (c : WM A) : (forall w, snd (c w) = w) -> counts_stable c.
Proof. intros H w. rewrite H. split; reflexivity. Qed.

Lemma stable_on_ctx f : (forall c, ref_count (f c) = ref_count c) -> counts_stable (on_ctx f).
Proof.
  intros Hf w. split; [reflexivity|]. intros t. unfold on_ctx, modify, w_with_ctx. cbn [snd contexts].
  destruct (decide (t = tid w)) as [->|]; [|rewrite lookup_insert_ne by congruence; reflexivity].
  rewrite lookup_insert_eq. apply Hf.
Qed.

Lemma stable_modify f : (forall w, contexts (f w) = contexts w /\ tid (f w) = tid w) -> counts_stable (modify f).
Proof. intros H w. destruct (H w) as [H1 H2]. split; cbn [modify snd]; [exact H2|]. intros t. rewrite H1. reflexivity. Qed.

Lemma free_keeps : counts_stable execution_context_free.
Proof.
  unfold execution_context_free, release_processor_id.
  repeat first
    [ apply stable_bind; [|intros ?]
    | apply stable_on_ctx; reflexivity
    | apply stable_modify; intros ?; split; reflexivity
    | apply stable_pure; intros ?; reflexivity
    | match goal with |- counts_stable (if ?b then _ else _) => destruct b end
    | match goal with |- counts_stable (deref ?o) => destruct o end ].
Qed.

Lemma free_uninitialises w w' : execution_context_free w = (Ret tt, w') -> initialized (ctx w') = false.
Proof.
  unfold execution_context_free. intros H.
  do 7 (apply bind_Ret in H as (? & ? & _ & H)).
  apply bind_Ret in H as ([] & w1 & _ & H). apply bind_Ret in H as ([] & w2 & [= <-] & H).
  unfold release_processor_id in H. apply bind_Ret in H as (u & w3 & [= _ <-] & H).
  apply bind_Ret in H as (b & w4 & Hd & H). unfold deref in Hd.
  destruct (nthZ u _); [|discriminate]. injection Hd as _ <-. injection H as <-.
  unfold w_with_used, ctx, w_with_ctx. cbn [tid contexts]. rewrite lookup_insert_eq. reflexivity.
Qed.

Lemma base_preserves extra s w' : pinv extra s ->
  (forall t, ref_count (default fresh_context (contexts w' !! t)) =
             ref_count (default fresh_context (contexts (base s) !! t))) ->
  pinv extra (with_base w' s).
Proof.
  intros I R. split; cbn [tls wrappers next_wrapper key_destructor_map with_base]; try apply I.
  - intros t. unfold context_of. cbn [base with_base]. rewrite R. apply (inv_count _ _ I).
  - intros t. unfold context_of. cbn [base with_base]. rewrite R. apply (inv_bound _ _ I).
Qed.

(** Giving up a reference frees the context exactly when it was the last. *)
Lemma drop_spec extra s s' : let t := tid (base s) in
  pinv extra s -> 0 < extra t -> drop_context_ref s = (Ret tt, s') ->
  pinv (plus_at t (-1) extra) s' /\ tls s' = tls s /\
  (extra t = 1 -> owned t (tls s) = ∅ -> initialized (context_of t s') = false) /\
  (extra t <> 1 \/ owned t (tls s) <> ∅ ->
     context_of t s' = ctx_with_ref_count (ref_count (context_of t s) - 1) (context_of t s)).
Proof.
  intros t I Hx H. unfold drop_context_ref in H. unfold bind in H. rewrite sub_ref_run in H.
  pose proof (inv_count _ _ I t) as C. pose proof (inv_bound _ _ I t) as B.
  rewrite ctx_context_of in H. fold t in H. rewrite u64_small in H by lia.
  set (s1 := with_base _ s) in H.
  assert (pinv (plus_at t (-1) extra) s1) as I1.
  { split; try apply I.
    - intros u. unfold plus_at. pose proof (inv_extra _ _ I u). destruct (Nat.eqb_spec u t) as [->|]; lia.
    - intros u. unfold s1. rewrite context_of_update. unfold plus_at. fold t.
      destruct (Nat.eqb_spec u t) as [->|]; [cbn; lia | apply (inv_count _ _ I)].
    - intros u. unfold s1. rewrite context_of_update. fold t.
      destruct (Nat.eqb_spec u t) as [->|]; [cbn; lia | apply (inv_bound _ _ I)]. }
  assert (context_of t s1 = ctx_with_ref_count (ref_count (context_of t s) - 1) (context_of t s)) as E1
    by (unfold s1; rewrite context_of_update; fold t; rewrite Nat.eqb_refl; reflexivity).
  destruct (Z.eqb_spec (ref_count (context_of t s) - 1) 0) as [E0|E0].
  - unfold lift in H. destruct (execution_context_free (base s1)) as [o w'] eqn:EF. injection H as -> <-.
    assert (keeps (base s1) w') as K by (pose proof (free_keeps (base s1)) as K; rewrite EF in K; exact K).
    split; [apply base_preserves; [assumption | apply K]|]. split; [reflexivity|]. split.
    + intros _ _. apply free_uninitialises in EF. unfold ctx in EF. destruct K as [T _]. rewrite T in EF. exact EF.
    + intros [Hn|Hn]; [lia|]. destruct Hn. apply map_size_empty_inv. lia.
  - injection H as <-. split; [exact I1|]. split; [reflexivity|]. split; [|intros _; exact E1].
    intros Hx1 Ho. rewrite Ho, map_size_empty in C. lia.
Qed.

Lemma pinv_ext extra extra' s : (forall t, extra t = extra' t) -> pinv extra s -> pinv extra' s.
Proof. intros E I. split; try apply I; intros t; rewrite <- E; apply I. Qed.

Lemma take_value_preserves extra s key p : let t := tid (base s) in
  pinv extra s -> tls s !! (t, key) = Some p ->
  pinv (plus_at t 1 extra) (with_tls (delete (t, key) (tls s)) s).
Proof.
  intros t I E. split; cbn [tls wrappers next_wrapper key_destructor_map with_tls]; try apply I.
  - intros tk q [_ Hq]%lookup_delete_Some. apply (inv_live _ _ I _ _ Hq).
  - intros tk tk' q [_ H1]%lookup_delete_Some [_ H2]%lookup_delete_Some. apply (inv_inj _ _ I _ _ _ H1 H2).
  - intros u k q [_ Hq]%lookup_delete_Some. apply (inv_keys _ _ I _ _ _ Hq).
  - intros u. pose proof (inv_extra _ _ I u). unfold plus_at. destruct (_ =? _)%nat; lia.
  - intros u. pose proof (inv_count _ _ I u) as C. change (context_of u (with_tls _ s)) with (context_of u s).
    unfold plus_at. destruct (Nat.eqb_spec u t) as [->|].
    + rewrite (owned_delete _ _ _ _ E) in C. lia.
    + rewrite owned_delete_other by congruence. exact C.
Qed.

Lemma delete_wrapper_preserves extra s p : pinv extra s -> (forall tk, tls s !! tk <> Some p) ->
  pinv extra (with_wrappers (delete p (wrappers s)) (next_wrapper s) s).
Proof.
  intros I Hp. destruct (inv_fresh _ _ I) as [H0 Hf].
  split; cbn [tls wrappers next_wrapper key_destructor_map with_wrappers]; try apply I.
  - intros tk q E. destruct (inv_live _ _ I _ _ E) as [H1 H2]. split; [exact H1|].
    rewrite lookup_delete_ne; [exact H2|]. intros ->. apply (Hp tk E).
  - split; [exact H0|]. intros q [w [_ Hw]%lookup_delete_Some]. apply Hf. eauto.
Qed.

Section GuestSteps.
Variable run_guest : Z -> list run_arg -> WM Z.
Hypothesis guest_stable : forall f l, counts_stable (run_guest f l).

Lemma destructor_preserves extra s key s' : pinv extra s ->
  host_run_destructor run_guest key s = (Ret tt, s') -> pinv extra s'.
Proof.
  intros I H. unfold host_run_destructor in H. unfold bind at 1 in H. rewrite getspecific_run in H.
  set (t := tid (base s)) in *. destruct (tls s !! (t, key)) as [p|] eqn:E; cbn [default id] in H;
    [|injection H as <-; exact I].
  destruct (inv_live _ _ I _ _ E) as [Hp [w Hw]]. destruct (Z.eqb_spec p 0); [lia|].
  pose proof (take_value_preserves extra s key p I E) as I1. fold t in I1.
  apply bind_Ret in H as ([] & s1 & [= <-] & H). fold t in H.
  unfold key_destructor in H. apply bind_Ret in H as (w' & s2 & Hd & H).
  unfold deref_wrapper, bind, gets in Hd. cbn [wrappers with_tls] in Hd. rewrite Hw in Hd. injection Hd as <- <-.
  apply bind_Ret in H as (v & s3 & HG & H). unfold lift in HG.
  pose proof (guest_stable (guest_routine w) [RunInt (value w)] (base s)) as K.
  cbn [base with_tls] in HG. destruct (run_guest _ _ (base s)) as [o w3]. injection HG as -> <-. cbn [snd] in K.
  pose proof (base_preserves _ _ _ I1 (proj2 K)) as I3.
  apply bind_Ret in H as ([] & s4 & HD & H). rewrite (delete_wrapper_run p w) in HD by exact Hw. injection HD as <-.
  assert (pinv (plus_at t 1 extra) (with_wrappers (delete p (wrappers s)) (next_wrapper s)
    (with_base w3 (with_tls (delete (t, key) (tls s)) s)))) as I4.
  { apply (delete_wrapper_preserves _ _ p I3). cbn [tls with_base with_tls].
    intros tk [Hne Hq]%lookup_delete_Some. apply Hne. apply (inv_inj _ _ I _ _ _ E Hq). }
  assert (tid w3 = t) as T by apply K.
  pose proof (drop_spec _ _ s' I4) as D. cbn [base with_wrappers with_base] in D. rewrite T in D.
  unfold plus_at at 1 in D. rewrite Nat.eqb_refl in D. pose proof (inv_extra _ _ I t).
  destruct (D ltac:(lia) H) as (I5 & _). eapply pinv_ext; [|exact I5].
  intros u. unfold plus_at. destruct (Nat.eqb_spec u t); lia.
Qed.

(** The process: threads are scheduled, create and use keys, start threads, set
    up their contexts and run guest code in any order; when a thread's start
    routine has returned it gives up its reference, and the host runs the
    destructors of its values. *)
Inductive preach : (nat -> Z) -> pthread_state -> Prop :=
| p_start st m : preach (fun _ => 1)
    {| base := no_contexts st m; wrappers := ∅; next_wrapper := 1; key_destructor_map := ∅; tls := ∅; started := [] |}
| p_switch extra s t : preach extra s -> preach extra (with_base (switch t (base s)) s)
| p_init extra s stack tls_buffer s' : preach extra s ->
    lift (execution_context_init stack tls_buffer) s = (Ret tt, s') -> preach extra s'
| p_guest extra s f l v s' : preach extra s -> lift (run_guest f l) s = (Ret v, s') -> preach extra s'
| p_create extra s f v host_ret r s' : preach extra s ->
    pthread_create_impl f v host_ret s = (Ret r, s') -> preach extra s'
| p_key extra s host d r s' : preach extra s ->
    pthread_key_create_impl host d s = (Ret r, s') -> preach extra s'
| p_set extra s key v host_ret r s' : preach extra s -> ref_count (ctx (base s)) + 1 < 2 ^ 64 ->
    pthread_setspecific_impl key v host_ret s = (Ret r, s') -> preach extra s'
| p_thread_end extra s s' : preach extra s -> extra (tid (base s)) = 1 ->
    drop_context_ref s = (Ret tt, s') -> preach (plus_at (tid (base s)) (-1) extra) s'
| p_destructor extra s key s' : preach extra s ->
    host_run_destructor run_guest key s = (Ret tt, s') -> preach extra s'.

Lemma init_stable stack tls_buffer : counts_stable (execution_context_init stack tls_buffer).
Proof.
  unfold execution_context_init, allocate_processor_id, Jit_new, assert_.
  repeat first
    [ apply stable_bind; [|intros ?]
    | apply stable_on_ctx; reflexivity
    | apply stable_modify; intros ?; split; reflexivity
    | apply stable_pure; intros ?; reflexivity
    | match goal with |- counts_stable (if ?b then _ else _) => destruct b end
    | match goal with |- counts_stable (match ?o with _ => _ end) => destruct o end ].
Qed.

Lemma lift_preserves {A} extra (c : WM A) s o s' : counts_stable c -> pinv extra s -> lift c s = (o, s') -> pinv extra s'.
Proof.
  intros Hc I H. unfold lift in H. specialize (Hc (base s)). destruct (c (base s)) as [o' w']. injection H as _ <-.
  apply base_preserves; [exact I | apply Hc].
Qed.

Lemma new_wrapper_preserves extra s v : pinv extra s ->
  pinv extra (with_wrappers (<[next_wrapper s := v]> (wrappers s)) (next_wrapper s + 1) s).
Proof.
  intros I. destruct (inv_fresh _ _ I) as [H0 Hf].
  split; cbn [tls wrappers next_wrapper key_destructor_map with_wrappers]; try apply I.
  - intros tk q E. destruct (inv_live _ _ I _ _ E) as [H1 H2]. split; [exact H1|].
    rewrite lookup_insert_ne; [exact H2|]. specialize (Hf _ H2). lia.
  - split; [lia|]. intros q [w [[<- _]|[_ Hw]]%lookup_insert_Some]; [lia|]. specialize (Hf q ltac:(eauto)). lia.
Qed.

Lemma preach_pinv extra s : preach extra s -> pinv extra s.
Proof.
  induction 1 as [st m | | | | extra s f v host_ret r s' _ I H | extra s host d r s' _ I H | | | ].
  - split; cbn [tls wrappers next_wrapper]; try (intros *; rewrite lookup_empty; discriminate); try (intros; lia).
    + split; [lia|]. intros p [w Hw]. rewrite lookup_empty in Hw. discriminate.
    + intros t. unfold context_of. cbn [base contexts no_contexts]. rewrite lookup_empty.
      assert (owned t ∅ = ∅) as -> by apply map_filter_empty. reflexivity.
    + intros t. unfold context_of. cbn [base contexts no_contexts]. rewrite lookup_empty. reflexivity.
  - apply base_preserves; [assumption | reflexivity].
  - eapply lift_preserves; [apply init_stable | eassumption | eassumption].
  - eapply lift_preserves; [apply guest_stable | eassumption | eassumption].
  - unfold pthread_create_impl in H. apply bind_Ret in H as (p & s1 & [= <- <-] & H).
    pose proof (new_wrapper_preserves extra s {| guest_routine := f; value := v |} I) as I1.
    apply bind_Ret in H as ([] & s2 & HS & [= _ <-]). destruct (host_ret =? 0); injection HS as <-; [|exact I1].
    split; apply I1.
  - destruct host as [err|key]; [injection H as _ <-; exact I|].
    unfold pthread_key_create_impl in H. apply bind_Ret in H as ([] & s1 & [= <-] & [= _ <-]).
    split; cbn [tls wrappers next_wrapper key_destructor_map with_keys]; try apply I.
    intros t k p Hk. pose proof (inv_keys _ _ I _ _ _ Hk) as K. destruct (key_destructor_map s !! key) eqn:E; [exact K|].
    destruct (decide (k = key)) as [->|]; [rewrite lookup_insert_eq; eauto | rewrite lookup_insert_ne by congruence; exact K].
  - eapply setspecific_preserves; eassumption.
  - eapply drop_spec; [eassumption | lia | eassumption].
  - eapply destructor_preserves; eassumption.
Qed.
End GuestSteps.

Lemma delete_all_dangling (l : list Z) p s : wrappers s !! p = None -> p ∈ l ->
  exists s', for_each l (fun p => delete_wrapper p ;; let! _ := lift execution_context_sub_ref in ret tt) s =
             (Stop Undefined, s').
Proof.
  revert s. induction l as [|q l IH]; intros s Hp Hin; [inversion Hin|]. cbn [for_each].
  destruct (wrappers s !! q) as [w|] eqn:E.
  - apply elem_of_cons in Hin as [->|Hin]; [congruence|].
    assert (exists s1, (delete_wrapper q ;; let! _ := lift execution_context_sub_ref in ret tt) s = (Ret tt, s1) /\
      wrappers s1 !! p = None) as (s1 & R1 & H1).
    { eexists. split.
      - erewrite bind_ok by (apply (delete_wrapper_run q w); exact E).
        erewrite bind_ok by apply sub_ref_run. reflexivity.
      - cbn [wrappers with_base with_wrappers]. apply lookup_delete_None. auto. }
    destruct (IH s1 H1 Hin) as [s' R]. exists s'. erewrite bind_ok by exact R1. exact R.
  - exists s. apply bind_stop, bind_stop, delete_wrapper_dangling, E.
Qed.

(** ** Properties *)

(** Thread-specific data behaves as the guest expects: under a key it has
    created, a thread reads back the value it set last (null after it set
    null), no other thread's value and no other key's value changes, and
    setting a value under a key that was never created gives [EINVAL] and
    changes nothing. *)
Theorem specific_data_read_back run_guest extra s key v :
  (forall f l, counts_stable (run_guest f l)) -> preach run_guest extra s ->
  (is_Some (key_destructor_map s !! key) ->
     exists s', pthread_setspecific_impl key v 0 s = (Ret 0, s') /\ pthread_getspecific_impl key s' = (Ret v, s') /\
       forall t k, (t, k) <> (tid (base s), key) -> tls_value t k s' = tls_value t k s) /\
  (key_destructor_map s !! key = None -> v <> 0 -> pthread_setspecific_impl key v 0 s = (Ret EINVAL, s)).
Proof.
  intros HG I%(preach_pinv run_guest HG). set (t := tid (base s)).
  destruct (tls s !! (t, key)) as [p|] eqn:E.
  - destruct (inv_live _ _ I _ _ E) as [Hp [w Hw]]. destruct (inv_keys _ _ I _ _ _ E) as [m Hm].
    split; [intros _ | congruence]. destruct (decide (v = 0)) as [->|Hv].
    + destruct (clear_run extra s I key p E) as (m' & _ & R). eexists. split; [apply R|].
      split; [unfold pthread_getspecific_impl; erewrite bind_ok by apply getspecific_run;
              cbn; rewrite lookup_delete_eq; reflexivity|].
      intros u k Hne. unfold tls_value. cbn [tls wrappers]. rewrite lookup_delete_ne by (unfold t in Hne; congruence).
      destruct (tls s !! (u, k)) as [q|] eqn:Eq; [|reflexivity]. rewrite lookup_delete_ne; [reflexivity|].
      intros ->. apply Hne. symmetry. apply (inv_inj _ _ I _ _ _ E Eq).
    + eexists. split; [apply (set_again_run extra s I key v p w 0 Hv E Hw)|]. split.
      * unfold pthread_getspecific_impl. erewrite bind_ok by apply getspecific_run. cbn [tls base with_wrappers].
        fold t. rewrite E. cbn [default id]. destruct (Z.eqb_spec p 0); [lia|]. cbn [negb].
        unfold deref_wrapper, bind, gets. cbn [wrappers with_wrappers]. rewrite lookup_insert_eq. reflexivity.
      * intros u k Hne. unfold tls_value. cbn [tls wrappers with_wrappers].
        destruct (tls s !! (u, k)) as [q|] eqn:Eq; [|reflexivity]. rewrite lookup_insert_ne; [reflexivity|].
        intros ->. apply Hne. symmetry. apply (inv_inj _ _ I _ _ _ E Eq).
  - split; [|intros Hm Hv; apply set_unknown_run; assumption].
    intros [m Hm]. destruct (decide (v = 0)) as [->|Hv].
    + exists s. split; [apply clear_null_run; exact E|]. split; [|reflexivity].
      rewrite (getspecific_impl_run extra key s I). unfold tls_value. fold t. rewrite E. reflexivity.
    + destruct (inv_fresh _ _ I) as [Hn Hf]. eexists. split; [apply (set_new_run extra s I key v m Hv E Hm)|]. split.
      * unfold pthread_getspecific_impl. erewrite bind_ok by apply getspecific_run. cbn [tls base].
        change (tid (count_base s 1)) with t. fold t. rewrite lookup_insert_eq. cbn [default id].
        destruct (Z.eqb_spec (next_wrapper s) 0); [lia|]. cbn [negb].
        unfold deref_wrapper, bind, gets. cbn [wrappers]. rewrite lookup_insert_eq. reflexivity.
      * intros u k Hne. unfold tls_value. cbn [tls wrappers]. rewrite lookup_insert_ne by (unfold t in *; congruence).
        destruct (tls s !! (u, k)) as [q|] eqn:Eq; [|reflexivity]. rewrite lookup_insert_ne; [reflexivity|].
        destruct (inv_live _ _ I _ _ Eq) as [_ Hl]. specialize (Hf _ Hl). lia.
Qed.


(** A context outlives the values that need it: when a start routine
    returns, its thread's context is freed if no thread-specific value is
    left, and otherwise it is kept as it is, but for the count, for the
    destructors still to run. *)
Theorem context_kept_for_destructors run_guest extra s s' :
  (forall f l, counts_stable (run_guest f l)) -> preach run_guest extra s ->
  extra (tid (base s)) = 1 -> drop_context_ref s = (Ret tt, s') ->
  (owned (tid (base s)) (tls s) = ∅ -> initialized (context_of (tid (base s)) s') = false) /\
  (owned (tid (base s)) (tls s) <> ∅ ->
     context_of (tid (base s)) s' =
     ctx_with_ref_count (ref_count (context_of (tid (base s)) s) - 1) (context_of (tid (base s)) s)).
Proof.
  intros HG I%(preach_pinv run_guest HG) Hx H.
  destruct (drop_spec extra s s' I ltac:(lia) H) as (_ & _ & H1 & H2). auto.
Qed.

(** Deleting a key after a destructor has run for it is a double delete:
    the destructor deletes the wrapper but leaves its address in the key's
    list, and [pthread_key_delete_impl] deletes every address of the list. *)
Theorem key_delete_after_destructor run_guest extra s key p m s' :
  (forall f l, counts_stable (run_guest f l)) -> preach run_guest extra s ->
  tls s !! (tid (base s), key) = Some p -> key_destructor_map s !! key = Some m -> p ∈ mapped_wrappers m ->
  host_run_destructor run_guest key s = (Ret tt, s') ->
  exists s'', pthread_key_delete_impl key s' = (Stop Undefined, s'').
Proof.
  intros HG I%(preach_pinv run_guest HG) E Hm Hin H. destruct (inv_live _ _ I _ _ E) as [Hp [w Hw]].
  unfold host_run_destructor in H. unfold bind at 1 in H. rewrite getspecific_run, E in H. cbn [default id] in H.
  destruct (Z.eqb_spec p 0); [lia|]. apply bind_Ret in H as ([] & s1 & [= <-] & H).
  unfold key_destructor in H. apply bind_Ret in H as (w' & s2 & Hd & H).
  unfold deref_wrapper, bind, gets in Hd. cbn [wrappers with_tls] in Hd. rewrite Hw in Hd. injection Hd as <- <-.
  apply bind_Ret in H as (v & s3 & HL & H). unfold lift in HL. destruct (run_guest _ _ _) as [o w3]. injection HL as _ <-.
  apply bind_Ret in H as ([] & s4 & HD & H). rewrite (delete_wrapper_run p w) in HD by exact Hw. injection HD as <-.
  assert (wrappers s' !! p = None /\ key_destructor_map s' !! key = Some m) as [Hn Hk].
  { unfold drop_context_ref in H. apply bind_Ret in H as (cnt & s5 & HS & H). rewrite sub_ref_run in HS. injection HS as <- <-.
    destruct (_ =? 0).
    - unfold lift in H. destruct (execution_context_free _) as [o5 w5]. injection H as _ <-.
      cbn. rewrite lookup_delete_eq. auto.
    - injection H as <-. cbn. rewrite lookup_delete_eq. auto. }
  destruct (delete_all_dangling (mapped_wrappers m) p s' Hn Hin) as [s'' R]. exists s''.
  unfold pthread_key_delete_impl. erewrite bind_ok by (unfold key_at, bind, gets; rewrite Hk; reflexivity).
  apply bind_stop, R.
Qed.

(** A key the host hands out again keeps its first guest destructor:
    deleting a key does not remove its entry, and creating it again does not
    replace the entry. *)
Theorem recycled_key_keeps_destructor s key m s1 destructor s2 :
  key_destructor_map s !! key = Some m -> pthread_key_delete_impl key s = (Ret 0, s1) ->
  pthread_key_create_impl (inr key) destructor s1 = (Ret 0, s2) ->
  key_destructor_map s2 !! key = Some m.
Proof.
  intros Hm HD HC. unfold pthread_key_delete_impl in HD.
  apply bind_Ret in HD as (m' & s' & Hk & HD). unfold key_at, bind, gets in Hk. rewrite Hm in Hk. injection Hk as <- <-.
  apply bind_Ret in HD as ([] & s3 & HF & [= <-]).
  assert (key_destructor_map s3 = key_destructor_map s) as E.
  { clear Hm HC. revert s HF. induction (mapped_wrappers m) as [|q l IH]; intros s HF.
    - injection HF as <-. reflexivity.
    - cbn [for_each] in HF. apply bind_Ret in HF as ([] & s4 & H1 & HF). rewrite (IH _ HF).
      apply bind_Ret in H1 as ([] & s5 & H1 & H2). unfold delete_wrapper, deref_wrapper, bind, gets in H1.
      destruct (wrappers s !! q); [|discriminate]. injection H1 as <-.
      unfold bind in H2. rewrite sub_ref_run in H2. injection H2 as <-. reflexivity. }
  unfold pthread_key_create_impl in HC. apply bind_Ret in HC as ([] & s4 & [= <-] & [= <-]).
  cbn [key_destructor_map with_keys with_tls]. rewrite E, Hm. exact Hm.
Qed.

(** ** Witnesses *)

(** Key 7 is created and set to 0x500 by thread 0. *)
Definition demo_guest (f : Z) (l : list run_arg) : WM Z := ret 0.
Definition demo_s0 : pthread_state :=
  {| base := no_contexts initial_state ∅; wrappers := ∅; next_wrapper := 1; key_destructor_map := ∅;
     tls := ∅; started := [] |}.
Definition demo_s1 : pthread_state := snd (pthread_key_create_impl (inr 7) 0x4000 demo_s0).
Definition demo_s2 : pthread_state := snd (pthread_setspecific_impl 7 0x500 0 demo_s1).

Lemma demo_guest_stable f l : counts_stable (demo_guest f l).
Proof. apply stable_pure. reflexivity. Qed.

Lemma demo_s1_reach : preach demo_guest (fun _ => 1) demo_s1.
Proof. apply (p_key demo_guest _ demo_s0 (inr 7) 0x4000 0); [apply p_start | reflexivity]. Qed.

Lemma demo_s2_reach : preach demo_guest (fun _ => 1) demo_s2.
Proof. apply (p_set demo_guest _ demo_s1 7 0x500 0 0); [apply demo_s1_reach | reflexivity | reflexivity]. Qed.

Lemma specific_data_read_back_witness : exists s',
  pthread_setspecific_impl 7 0x500 0 demo_s1 = (Ret 0, s') /\ pthread_getspecific_impl 7 s' = (Ret 0x500, s').
Proof.
  destruct (specific_data_read_back demo_guest (fun _ => 1) demo_s1 7 0x500 demo_guest_stable demo_s1_reach) as [H _].
  destruct H as (s' & H1 & H2 & _); [eexists; reflexivity|]. exists s'. split; [exact H1 | exact H2].
Defined.


Lemma context_kept_for_destructors_witness :
  context_of 0 (snd (drop_context_ref demo_s2)) = ctx_with_ref_count (2 - 1) (context_of 0 demo_s2).
Proof.
  destruct (context_kept_for_destructors demo_guest (fun _ => 1) demo_s2 (snd (drop_context_ref demo_s2))
    demo_guest_stable demo_s2_reach eq_refl) as [_ H]; [reflexivity|].
  apply H. vm_compute. discriminate.
Defined.

Lemma key_delete_after_destructor_witness : exists s'',
  pthread_key_delete_impl 7 (snd (host_run_destructor demo_guest 7 demo_s2)) = (Stop Undefined, s'').
Proof.
  apply (key_delete_after_destructor demo_guest (fun _ => 1) demo_s2 7 1
    {| guest_destructor := 0x4000; mapped_wrappers := [1] |} _ demo_guest_stable demo_s2_reach);
    [reflexivity | reflexivity | left | reflexivity].
Defined.

Lemma recycled_key_keeps_destructor_witness :
  let s1 := snd (pthread_key_delete_impl 7 demo_s2) in
  let s2 := snd (pthread_key_create_impl (inr 7) 0x8000 s1) in
  key_destructor_map s2 !! 7 = Some {| guest_destructor := 0x4000; mapped_wrappers := [1] |}.
Proof.
  intros s1 s2. apply (recycled_key_keeps_destructor demo_s2 7 _ s1 0x8000 s2); reflexivity.
Defined.
