(* ===== verification/LibcImpl.v ===== *)
(** src/libs/libc_impl.cpp: the parts of the C library that run guest code or
    move it: constructors and callbacks of the linker, exit handlers, the
    comparison functions of [bsearch] and [qsort], [setjmp] and [longjmp]. *)
From S2P Require Import Prelude Memory A64Jit FunctionTraits Trampoline ExecutionContext Marshalling Fibers PthreadImpl.
Local Open Scope Z_scope.

(** ** [setjmp] and [longjmp] *)

(** The members of [SavedRegisters] in the order of the struct. *)
Definition regs_list (r : SavedRegisters) : list Z :=
  [r19 r; r20 r; r21 r; r22 r; r23 r; r24 r; r25 r; r26 r; r27 r; r28 r; r29 r; r30 r; s_sp r; s_pc r;
   d8 r; d9 r; d10 r; d11 r; d12 r; d13 r; d14 r; d15 r].
Definition regs_of_list (l : list Z) : option SavedRegisters :=
  match l with
  | [a19; a20; a21; a22; a23; a24; a25; a26; a27; a28; a29; a30; asp; apc; v8; v9; v10; v11; v12; v13; v14; v15] =>
      Some {| r19 := a19; r20 := a20; r21 := a21; r22 := a22; r23 := a23; r24 := a24; r25 := a25;
              r26 := a26; r27 := a27; r28 := a28; r29 := a29; r30 := a30; s_sp := asp; s_pc := apc;
              d8 := v8; d9 := v9; d10 := v10; d11 := v11; d12 := v12; d13 := v13; d14 := v14; d15 := v15 |}
  | _ => None
  end.

(** Consecutive [u64]s of memory. *)
Fixpoint write_words (addr : Z) (l : list Z) : WM unit :=
  match l with
  | [] => ret tt
  | v :: l' => write 8 addr v ;; write_words (addr + 8) l'
  end.
Fixpoint read_words (addr : Z) (n : nat) : WM (list Z) :=
  match n with
  | O => ret []
  | S n' => let! v := read 8 addr in let! l := read_words (addr + 8) n' in ret (v :: l)
  end.

(** [*regs = fiber.saved_registers] and its reverse. *)
Definition store_registers (ctx_ : Z) (r : SavedRegisters) : WM unit := write_words ctx_ (regs_list r).
Definition load_registers (ctx_ : Z) : WM SavedRegisters :=
  let! l := read_words ctx_ 22 in deref (regs_of_list l).

Definition setjmp_impl (ctx_ : Z) : WM Z :=
  let! fiber := fiber_enter Callee in
  let! saved := deref (snd fiber) in
  store_registers ctx_ saved ;;
  fiber_exit fiber ;;
  ret 0.

(** [value] is an [int], and [set_register] takes a [u64]. *)
Definition longjmp_impl (ctx_ value : Z) : WM unit :=
  let! _ := fiber_enter Callee in
  let! regs := load_registers ctx_ in
  on_jit (SetRegister 0 (u64 (i32 value))) ;;
  fiber_exit (Callee, Some regs).

(** The [sigsetjmp] and [siglongjmp] of the symbol table ignore the signal mask. *)
Definition sigsetjmp_impl (env savesigs : Z) : WM Z := setjmp_impl env.
Definition siglongjmp_impl (env value : Z) : WM unit := longjmp_impl env value.

(** ** Callbacks *)
Record libc_state : Type := {
  threads : pthread_state;
  global_argc : Z;
  global_argv : Z;
  environ : Z;
  current_qsort_compar : gmap nat Z;
  current_bsearch_compar : gmap nat Z;
  exit_handlers : list Z
}.
Abbreviation LM := (M libc_state).

Definition set_threads t s := {| threads := t; global_argc := global_argc s; global_argv := global_argv s;
  environ := environ s; current_qsort_compar := current_qsort_compar s;
  current_bsearch_compar := current_bsearch_compar s; exit_handlers := exit_handlers s |}.
Definition set_qsort_compar m s := {| threads := threads s; global_argc := global_argc s; global_argv := global_argv s;
  environ := environ s; current_qsort_compar := m;
  current_bsearch_compar := current_bsearch_compar s; exit_handlers := exit_handlers s |}.
Definition set_bsearch_compar m s := {| threads := threads s; global_argc := global_argc s; global_argv := global_argv s;
  environ := environ s; current_qsort_compar := current_qsort_compar s;
  current_bsearch_compar := m; exit_handlers := exit_handlers s |}.
Definition set_exit_handlers l s := {| threads := threads s; global_argc := global_argc s; global_argv := global_argv s;
  environ := environ s; current_qsort_compar := current_qsort_compar s;
  current_bsearch_compar := current_bsearch_compar s; exit_handlers := l |}.

Definition on_threads {A} (c : PM A) : LM A :=
  fun s => match c (threads s) with (o, t) => (o, set_threads t s) end.
Definition thread_of (s : libc_state) : nat := tid (base (threads s)).

Section Callbacks.
(** Running a guest routine in a callee fiber, and the value it leaves in x0;
    the routine may call back into the functions below. *)
Variable run_guest : Z -> list run_arg -> LM Z.
(** The host's [qsort] and [bsearch] with a comparison function. *)
Variable qsort : Z -> Z -> Z -> (Z -> Z -> LM Z) -> LM unit.
Variable bsearch : Z -> Z -> Z -> Z -> (Z -> Z -> LM Z) -> LM Z.

Definition linker_func_caller (addr : Z) (is_ctor : bool) : LM unit :=
  let! s := get in
  let! _ := (if is_ctor then run_guest addr [RunInt (global_argc s); RunInt (global_argv s); RunInt (environ s)]
             else run_guest addr []) in
  ret tt.

Definition linker_phdr_cb_caller (addr info size data : Z) : LM Z :=
  let! x0 := run_guest addr [RunInt info; RunInt size; RunInt data] in ret (i32 x0).

Definition atexit_routine (arg : Z) : LM unit :=
  let! wrapper := on_threads (deref_wrapper arg) in
  let! _ := run_guest (guest_routine wrapper) [RunInt (value wrapper)] in
  on_threads (delete_wrapper arg).

(** [host_ret] is what the host's [__cxa_atexit] returns; when it is 0 the
    wrapper is registered. *)
Definition atexit_impl (routine arg host_ret : Z) : LM Z :=
  let! p := on_threads (new_wrapper routine arg) in
  (if host_ret =? 0 then modify (fun s => set_exit_handlers (p :: exit_handlers s) s) else ret tt) ;;
  ret host_ret.

(** The comparison functions handed to the host: they call the function stored in
    the thread's variable at the time of the comparison. *)
Definition qsort_compare (a b : Z) : LM Z :=
  let! s := get in
  let! x0 := run_guest (default 0 (current_qsort_compar s !! thread_of s)) [RunInt a; RunInt b] in ret (i32 x0).
Definition bsearch_compare (a b : Z) : LM Z :=
  let! s := get in
  let! x0 := run_guest (default 0 (current_bsearch_compar s !! thread_of s)) [RunInt a; RunInt b] in ret (i32 x0).

Definition qsort_impl (base_ nmemb size compar : Z) : LM unit :=
  modify (fun s => set_qsort_compar (<[thread_of s := compar]> (current_qsort_compar s)) s) ;;
  qsort base_ nmemb size qsort_compare.
Definition bsearch_impl (key base_ nmemb size compar : Z) : LM Z :=
  modify (fun s => set_bsearch_compar (<[thread_of s := compar]> (current_bsearch_compar s)) s) ;;
  bsearch key base_ nmemb size bsearch_compare.
End Callbacks.

(** ** Lemmas *)
Lemma regs_of_list_id r : regs_of_list (regs_list r) = Some r.
Proof. destruct r. reflexivity. Qed.

(** What a fiber saves is the list of callee-saved registers, and restoring any
    registers makes them the callee-saved ones. *)
Lemma saved_is_callee_saved j : state_ok (jit_state j) ->
  exists r, save_body j = (Ret r, j) /\ regs_list r = callee_saved j.
Proof.
  destruct j as [e0 [reg0 sp0 pc0 nz0 vec0 gm0 am0 hr0 es0 rp0 rl0 rc0 fe0 fq0 fc0] em0 ie0 ir0].
  intros [R0 V0]. cbn [jit_state reg vec] in R0, V0. list_cells reg0 R0. list_cells vec0 V0.
  eexists. split; [cbv; reflexivity|]. cbv. reflexivity.
Qed.
Lemma restored_is_callee_saved r j : state_ok (jit_state j) ->
  exists j', restore_body r j = (Ret tt, j') /\ callee_saved j' = regs_list r /\ everything_else j' = everything_else j /\
    state_ok (jit_state j').
Proof.
  destruct j as [e0 [reg0 sp0 pc0 nz0 vec0 gm0 am0 hr0 es0 rp0 rl0 rc0 fe0 fq0 fc0] em0 ie0 ir0].
  intros [R0 V0]. cbn [jit_state reg vec] in R0, V0. list_cells reg0 R0. list_cells vec0 V0.
  eexists. split; [cbv; reflexivity|]. repeat split; cbv; reflexivity.
Qed.

(** Consecutive words written are read back, by whoever finds the bytes as they
    were left. *)
Definition words_at (m : mem) (addr : Z) (l : list Z) : Prop :=
  forall i v, l !! i = Some v -> load m (addr + 8 * Z.of_nat i) 8 = Some (u64 v).

Lemma words_at_cons m addr v l : words_at m addr (v :: l) <-> load m addr 8 = Some (u64 v) /\ words_at m (addr + 8) l.
Proof.
  unfold words_at. split.
  - intros H. split; [rewrite <- (H 0%nat v eq_refl); f_equal; lia|]. intros i x Hx.
    rewrite <- (H (S i) x Hx). f_equal. lia.
  - intros [H1 H2] [|i] x Hx; [injection Hx as <-; rewrite <- H1; f_equal; lia|].
    rewrite <- (H2 i x Hx). f_equal. lia.
Qed.

Lemma write_words_ok l : forall addr w, mapped (memory w) addr (8 * length l) ->
  exists m, write_words addr l w = (Ret tt, w_with_memory m w) /\ words_at m addr l /\
    (forall a n, a + Z.of_nat n <= addr -> load m a n = load (memory w) a n) /\
    (forall a n, mapped m a n <-> mapped (memory w) a n).
Proof.
  induction l as [|v l IH]; intros addr w Hm; cbn [write_words].
  - exists (memory w). split; [destruct w; reflexivity|]. split; [intros i x H; discriminate|]. split; [auto|reflexivity].
  - destruct (store_spec (memory w) addr 8 v) as (m1 & S1 & L1 & F1 & M1).
    { intros i Hi. apply Hm. cbn [length]. lia. }
    destruct (IH (addr + 8) (w_with_memory m1 w)) as (m2 & W2 & A2 & F2 & M2).
    { cbn [memory w_with_memory]. apply M1. intros i Hi. rewrite <- Z.add_assoc. apply Hm. cbn [length]. lia. }
    cbn [memory w_with_memory] in F2, M2. exists m2. split; [|split; [|split]].
    + erewrite bind_ok; [exact W2|]. unfold write, bind, gets. rewrite S1. reflexivity.
    + apply words_at_cons. split; [|exact A2]. rewrite F2 by lia. exact L1.
    + intros a n H. rewrite F2 by lia. apply F1. lia.
    + intros a n. rewrite M2. apply M1.
Qed.

Lemma read_words_ok l : forall addr w, words_at (memory w) addr l ->
  read_words addr (length l) w = (Ret (map u64 l), w).
Proof.
  induction l as [|v l IH]; intros addr w H; cbn [read_words length map]; [reflexivity|].
  apply words_at_cons in H as [H1 H2]. erewrite bind_ok by (rewrite read_run, H1; reflexivity).
  erewrite bind_ok by (apply IH, H2). reflexivity.
Qed.

Lemma map_u64_id l : Forall (in_range 64) l -> map u64 l = l.
Proof. induction 1 as [|x l H _ IH]; cbn [map]; [reflexivity|]. rewrite IH. f_equal. apply wrap_small, H. Qed.

Lemma words_at_kept m m' addr l : words_at m addr l -> mapped m addr (8 * length l) ->
  read_bytes m' addr (8 * length l) = read_bytes m addr (8 * length l) -> words_at m' addr l.
Proof.
  intros H Hm E i v Hi. rewrite <- (H i v Hi). pose proof (lookup_lt_Some _ _ _ Hi).
  destruct (proj2 (read_bytes_mapped m addr (8 * length l)) Hm) as [bs B]. rewrite B in E.
  unfold load. replace (8 * Z.of_nat i) with (Z.of_nat (8 * i)) by lia.
  rewrite (read_bytes_slice _ _ _ _ (8 * i) 8 B), (read_bytes_slice _ _ _ _ (8 * i) 8 E) by lia. reflexivity.
Qed.

Lemma load_registers_ok r addr w : Forall (in_range 64) (regs_list r) -> words_at (memory w) addr (regs_list r) ->
  load_registers addr w = (Ret r, w).
Proof.
  intros HR H. unfold load_registers. erewrite bind_ok by (apply (read_words_ok (regs_list r)), H).
  rewrite map_u64_id by exact HR. rewrite regs_of_list_id. reflexivity.
Qed.

Lemma longjmp_jit r j v : state_ok (jit_state j) ->
  exists j1 j2, SetRegister 0 v j = (Ret tt, j1) /\ restore_body r j1 = (Ret tt, j2) /\
    callee_saved j2 = regs_list r /\ everything_else j2 = everything_else j1 /\ xreg j2 0 = v /\ state_ok (jit_state j2).
Proof.
  intros OK. set (j1 := with_jit_state (with_reg (updZ (reg (jit_state j)) 0 v) (jit_state j)) j).
  assert (state_ok (jit_state j1)) as OK1 by apply with_reg_ok, OK.
  destruct (restored_is_callee_saved r j1 OK1) as (j2 & R & C & E & OK2). exists j1, j2.
  split; [apply (SetRegister_run j OK 0 v); lia|]. do 3 (split; [assumption|]). split; [|exact OK2].
  change (xreg j2 0) with (default 0 (fst (fst (everything_else j2)) !! 0%nat)). rewrite E. unfold everything_else.
  cbn [fst]. change (default 0 (map (xreg j1) (seq 0 19) !! 0%nat)) with (xreg j1 0). unfold xreg, j1.
  cbn [jit_state with_jit_state reg with_reg]. rewrite nthZ_updZ_eq by (rewrite (proj1 OK); lia). reflexivity.
Qed.

(** C26. [setjmp] returns 0 and leaves the registers as they were.  Whenever the
    guest calls [longjmp] later with the same buffer, untouched in between, then
    x19-x30, SP, PC and d8-d15 are again what they were when [setjmp] was called,
    so that the guest returns from [setjmp] a second time, with the value in x0;
    everything else is as it was when [longjmp] was called.  A value of 0 is
    handed over as it is, where the C library makes [setjmp] return 1. *)
Theorem longjmp_returns_to_setjmp w j ctx_ :
  initialized (ctx w) = true -> has_jit w j -> Forall (in_range 64) (callee_saved j) ->
  mapped (memory w) ctx_ 176 ->
  exists w1, setjmp_impl ctx_ w = (Ret 0, w1) /\ (exists j1, has_jit w1 j1 /\ callee_saved j1 = callee_saved j /\
      everything_else j1 = everything_else j) /\
    forall w2 j2 value, initialized (ctx w2) = true -> has_jit w2 j2 ->
      read_bytes (memory w2) ctx_ 176 = read_bytes (memory w1) ctx_ 176 ->
      exists w3 j3 j2', longjmp_impl ctx_ value w2 = (Ret tt, w3) /\ has_jit w3 j3 /\
        callee_saved j3 = callee_saved j /\ SetRegister 0 (u64 (i32 value)) j2 = (Ret tt, j2') /\
        everything_else j3 = everything_else j2' /\ xreg j3 0 = u64 (i32 value).
Proof.
  intros Hi HJ HR Hm. destruct (saved_is_callee_saved j (proj2 HJ)) as (r & RS & RL).
  destruct (fiber_enter_callee w j Hi HJ) as (r' & RS' & HE). rewrite RS in RS'. injection RS' as <-.
  destruct (restored_is_callee_saved r j (proj2 HJ)) as (j1 & RR & C1 & E1 & OK1).
  destruct (write_words_ok (regs_list r) ctx_ w Hm) as (m & HW & HA & _ & Hm').
  set (wm := w_with_memory m w) in *. set (w1 := w_with_ctx (ctx_with_jit (Live j1) (ctx wm)) wm).
  exists w1. split; [|split].
  - unfold setjmp_impl. erewrite bind_ok by exact HE. erewrite bind_ok by reflexivity. erewrite bind_ok by exact HW.
    erewrite bind_ok by (apply (fiber_exit_callee wm j r j1); [exact Hi | exact (proj1 HJ) | exact RR]). reflexivity.
  - exists j1. unfold has_jit, w1. rewrite ctx_with, C1, RL. auto.
  - intros w2 j2 v Hi2 HJ2 HB. destruct (fiber_enter_callee w2 j2 Hi2 HJ2) as (r2 & _ & HE2).
    destruct (longjmp_jit r j2 (u64 (i32 v)) (proj2 HJ2)) as (j2' & j3 & J1 & J2 & C3 & E3 & X3 & OK3).
    exists (w_with_ctx (ctx_with_jit (Live j3) (ctx w2)) w2), j3, j2'.
    split; [|unfold has_jit; rewrite ctx_with, C3, RL; auto 6].
    unfold longjmp_impl. erewrite bind_ok by exact HE2.
    erewrite bind_ok by (apply load_registers_ok; [rewrite RL; exact HR | eapply words_at_kept; [exact HA | apply Hm', Hm | exact HB]]).
    erewrite bind_ok by (apply (on_jit_writes _ _ _ _ _ (proj1 HJ2) J1)).
    rewrite (fiber_exit_callee _ j2' r j3); [| rewrite ctx_with; exact Hi2 | rewrite ctx_with; reflexivity | exact J2].
    rewrite ctx_with, w_with_with. reflexivity.
Qed.

(** A buffer of 176 mapped bytes. *)
Definition demo_buffer : mem := list_to_map (map (fun i => (0x2000 + Z.of_nat i, 0)) (seq 0 176)).
Lemma demo_buffer_mapped : mapped demo_buffer 0x2000 176.
Proof. apply read_bytes_mapped. vm_compute. eexists. reflexivity. Qed.

(** From a fresh context, jumping back right away: the value 5, and the value 0. *)
Lemma longjmp_returns_to_setjmp_witness : exists w1 w3 j3 w4 j4,
  setjmp_impl 0x2000 (demo_world demo_buffer) = (Ret 0, w1) /\
  longjmp_impl 0x2000 5 w1 = (Ret tt, w3) /\ has_jit w3 j3 /\ xreg j3 0 = 5 /\
  longjmp_impl 0x2000 0 w1 = (Ret tt, w4) /\ has_jit w4 j4 /\ xreg j4 0 = 0.
Proof.
  destruct (longjmp_returns_to_setjmp (demo_world demo_buffer) (new_jit 1024) 0x2000 eq_refl (demo_has_jit _)
    ltac:(repeat constructor; vm_compute; intuition discriminate) demo_buffer_mapped) as (w1 & E & (j1 & J1 & _) & H).
  assert (initialized (ctx w1) = true) as Hi.
  { assert (snd (setjmp_impl 0x2000 (demo_world demo_buffer)) = w1) as <- by (rewrite E; reflexivity). vm_compute. reflexivity. }
  destruct (H w1 j1 5 Hi J1 eq_refl) as (w3 & j3 & j3' & L3 & J3 & _ & _ & _ & X3).
  destruct (H w1 j1 0 Hi J1 eq_refl) as (w4 & j4 & j4' & L4 & J4 & _ & _ & _ & X4).
  exists w1, w3, j3, w4, j4. repeat split; first [exact E | exact L3 | exact L4 | apply J3 | apply J4 | exact X3 | exact X4].
Defined.

(** ** Comparison functions *)

(** A host [qsort] that compares twice. *)
Definition two_comparisons (base_ nmemb size : Z) (compare : Z -> Z -> LM Z) : LM unit :=
  compare base_ (base_ + size) ;; compare (base_ + size) (base_ + 2 * size) ;; ret tt.
(** A guest whose comparison function 0x100 sorts something itself with the
    comparison function 0x200; calls are answered by the function's address. *)
Definition leaf_guest (routine : Z) (l : list run_arg) : LM Z := ret routine.
Definition sorting_guest (routine : Z) (l : list run_arg) : LM Z :=
  if routine =? 0x100 then qsort_impl leaf_guest two_comparisons 0x5000 3 8 0x200 ;; ret routine
  else throw (runtime_error "not the comparison function of this sort").
Definition demo_libc : libc_state :=
  {| threads := {| base := demo_world ∅; wrappers := ∅; next_wrapper := 1; key_destructor_map := ∅; tls := ∅; started := [] |};
     global_argc := 0; global_argv := 0; environ := 0; current_qsort_compar := ∅; current_bsearch_compar := ∅;
     exit_handlers := [] |}.

(** The sort that calls 0x100 makes its second comparison with 0x200: the inner
    sort has replaced the thread's variable and does not put it back. *)
Example nested_qsort_replaces_comparator :
  fst (qsort_impl sorting_guest two_comparisons 0x4000 3 8 0x100 demo_libc) =
  Throw (runtime_error "not the comparison function of this sort").
Proof. vm_compute. reflexivity. Qed.
