(* ===== verification/LibcShim.v ===== *)
(** libc-shim (src/vendor/libc-shim/src), the layer between the guest's C library
    calls and the host's: the translation of error numbers, file, mapping and
    clock flags, and the functions that only check or dispatch.  The host is
    Linux on x86-64; constants of the guest (bionic) carry the names of the
    enumerations they belong to. *)
From S2P Require Import Prelude.
Local Open Scope Z_scope.

(** ** Error numbers of the host *)
Definition EPERM : Z := 1.
Definition ENOENT : Z := 2.
Definition ESRCH : Z := 3.
Definition EINTR : Z := 4.
Definition EIO : Z := 5.
Definition ENXIO : Z := 6.
Definition E2BIG : Z := 7.
Definition ENOEXEC : Z := 8.
Definition EBADF : Z := 9.
Definition ECHILD : Z := 10.
Definition EAGAIN : Z := 11.
Definition ENOMEM : Z := 12.
Definition EACCES : Z := 13.
Definition EFAULT : Z := 14.
Definition ENOTBLK : Z := 15.
Definition EBUSY : Z := 16.
Definition EEXIST : Z := 17.
Definition EXDEV : Z := 18.
Definition ENODEV : Z := 19.
Definition ENOTDIR : Z := 20.
Definition EISDIR : Z := 21.
Definition EINVAL : Z := 22.
Definition ENFILE : Z := 23.
Definition EMFILE : Z := 24.
Definition ENOTTY : Z := 25.
Definition ETXTBSY : Z := 26.
Definition EFBIG : Z := 27.
Definition ENOSPC : Z := 28.
Definition ESPIPE : Z := 29.
Definition EROFS : Z := 30.
Definition EMLINK : Z := 31.
Definition EPIPE : Z := 32.
Definition EDOM : Z := 33.
Definition ERANGE : Z := 34.
Definition EDEADLK : Z := 35.
Definition ENAMETOOLONG : Z := 36.
Definition ENOLCK : Z := 37.
Definition ENOSYS : Z := 38.
Definition ENOTEMPTY : Z := 39.
Definition ELOOP : Z := 40.
Definition ENOMSG : Z := 42.
Definition EIDRM : Z := 43.
Definition ECHRNG : Z := 44.
Definition EL2NSYNC : Z := 45.
Definition EL3HLT : Z := 46.
Definition EL3RST : Z := 47.
Definition ELNRNG : Z := 48.
Definition EUNATCH : Z := 49.
Definition ENOCSI : Z := 50.
Definition EL2HLT : Z := 51.
Definition EBADE : Z := 52.
Definition EBADR : Z := 53.
Definition EXFULL : Z := 54.
Definition ENOANO : Z := 55.
Definition EBADRQC : Z := 56.
Definition EBADSLT : Z := 57.
Definition EBFONT : Z := 59.
Definition ENOSTR : Z := 60.
Definition ENODATA : Z := 61.
Definition ETIME : Z := 62.
Definition ENOSR : Z := 63.
Definition ENONET : Z := 64.
Definition ENOPKG : Z := 65.
Definition EREMOTE : Z := 66.
Definition ENOLINK : Z := 67.
Definition EADV : Z := 68.
Definition ESRMNT : Z := 69.
Definition ECOMM : Z := 70.
Definition EPROTO : Z := 71.
Definition EMULTIHOP : Z := 72.
Definition EDOTDOT : Z := 73.
Definition EBADMSG : Z := 74.
Definition EOVERFLOW : Z := 75.
Definition ENOTUNIQ : Z := 76.
Definition EBADFD : Z := 77.
Definition EREMCHG : Z := 78.
Definition ELIBACC : Z := 79.
Definition ELIBBAD : Z := 80.
Definition ELIBSCN : Z := 81.
Definition ELIBMAX : Z := 82.
Definition ELIBEXEC : Z := 83.
Definition EILSEQ : Z := 84.
Definition ERESTART : Z := 85.
Definition ESTRPIPE : Z := 86.
Definition EUSERS : Z := 87.
Definition ENOTSOCK : Z := 88.
Definition EDESTADDRREQ : Z := 89.
Definition EMSGSIZE : Z := 90.
Definition EPROTOTYPE : Z := 91.
Definition ENOPROTOOPT : Z := 92.
Definition EPROTONOSUPPORT : Z := 93.
Definition ESOCKTNOSUPPORT : Z := 94.
Definition EOPNOTSUPP : Z := 95.
Definition EPFNOSUPPORT : Z := 96.
Definition EAFNOSUPPORT : Z := 97.
Definition EADDRINUSE : Z := 98.
Definition EADDRNOTAVAIL : Z := 99.
Definition ENETDOWN : Z := 100.
Definition ENETUNREACH : Z := 101.
Definition ENETRESET : Z := 102.
Definition ECONNABORTED : Z := 103.
Definition ECONNRESET : Z := 104.
Definition ENOBUFS : Z := 105.
Definition EISCONN : Z := 106.
Definition ENOTCONN : Z := 107.
Definition ESHUTDOWN : Z := 108.
Definition ETOOMANYREFS : Z := 109.
Definition ETIMEDOUT : Z := 110.
Definition ECONNREFUSED : Z := 111.
Definition EHOSTDOWN : Z := 112.
Definition EHOSTUNREACH : Z := 113.
Definition EALREADY : Z := 114.
Definition EINPROGRESS : Z := 115.
Definition ESTALE : Z := 116.
Definition EUCLEAN : Z := 117.
Definition ENOTNAM : Z := 118.
Definition ENAVAIL : Z := 119.
Definition EISNAM : Z := 120.
Definition EREMOTEIO : Z := 121.
Definition EDQUOT : Z := 122.
Definition ENOMEDIUM : Z := 123.
Definition EMEDIUMTYPE : Z := 124.
Definition ECANCELED : Z := 125.
Definition ENOKEY : Z := 126.
Definition EKEYEXPIRED : Z := 127.
Definition EKEYREVOKED : Z := 128.
Definition EKEYREJECTED : Z := 129.
Definition EOWNERDEAD : Z := 130.
Definition ENOTRECOVERABLE : Z := 131.

(** The cases of the two switches, in their order. *)
Definition from_host_cases : list (Z * Z) :=
  [(EPERM, 1); (ENOENT, 2); (ESRCH, 3); (EINTR, 4); (EIO, 5); (ENXIO, 6); (E2BIG, 7); (ENOEXEC, 8);
   (EBADF, 9); (ECHILD, 10); (EAGAIN, 11); (ENOMEM, 12); (EACCES, 13); (EFAULT, 14); (ENOTBLK, 15); (EBUSY, 16);
   (EEXIST, 17); (EXDEV, 18); (ENODEV, 19); (ENOTDIR, 20); (EISDIR, 21); (EINVAL, 22); (ENFILE, 23); (EMFILE, 24);
   (ENOTTY, 25); (ETXTBSY, 26); (EFBIG, 27); (ENOSPC, 28); (ESPIPE, 29); (EROFS, 30); (EMLINK, 31); (EPIPE, 32);
   (EDOM, 33); (ERANGE, 34); (EDEADLK, 35); (ENAMETOOLONG, 36); (ENOLCK, 37); (ENOSYS, 38); (ENOTEMPTY, 39); (ELOOP, 40);
   (ENOMSG, 42); (EIDRM, 43); (ECHRNG, 44); (EL2NSYNC, 45); (EL3HLT, 46); (EL3RST, 47); (ELNRNG, 48); (EUNATCH, 49);
   (ENOCSI, 50); (EL2HLT, 51); (EBADE, 52); (EBADR, 53); (EXFULL, 54); (ENOANO, 55); (EBADRQC, 56); (EBADSLT, 57);
   (EBFONT, 59); (ENOSTR, 60); (ENODATA, 61); (ETIME, 62); (ENOSR, 63); (ENONET, 64); (ENOPKG, 65); (EREMOTE, 66);
   (ENOLINK, 67); (EADV, 68); (ESRMNT, 69); (ECOMM, 70); (EPROTO, 71); (EMULTIHOP, 72); (EDOTDOT, 73); (EBADMSG, 74);
   (EOVERFLOW, 75); (ENOTUNIQ, 76); (EBADFD, 77); (EREMCHG, 78); (ELIBACC, 79); (ELIBBAD, 80); (ELIBSCN, 81); (ELIBMAX, 82);
   (ELIBEXEC, 83); (EILSEQ, 84); (ERESTART, 85); (ESTRPIPE, 86); (EUSERS, 87); (ENOTSOCK, 88); (EDESTADDRREQ, 89); (EMSGSIZE, 90);
   (EPROTOTYPE, 91); (ENOPROTOOPT, 92); (EPROTONOSUPPORT, 93); (ESOCKTNOSUPPORT, 94); (EOPNOTSUPP, 95); (EPFNOSUPPORT, 96); (EAFNOSUPPORT, 97); (EADDRINUSE, 98);
   (EADDRNOTAVAIL, 99); (ENETDOWN, 100); (ENETUNREACH, 101); (ENETRESET, 102); (ECONNABORTED, 103); (ECONNRESET, 104); (ENOBUFS, 105); (EISCONN, 106);
   (ENOTCONN, 107); (ESHUTDOWN, 108); (ETOOMANYREFS, 109); (ETIMEDOUT, 110); (ECONNREFUSED, 111); (EHOSTDOWN, 112); (EHOSTUNREACH, 113); (EALREADY, 114);
   (EINPROGRESS, 115); (ESTALE, 116); (EUCLEAN, 117); (ENOTNAM, 118); (ENAVAIL, 119); (EISNAM, 120); (EREMOTEIO, 121); (EDQUOT, 122);
   (ENOMEDIUM, 123); (EMEDIUMTYPE, 124); (ECANCELED, 125); (ENOKEY, 126); (EKEYEXPIRED, 127); (EKEYREVOKED, 128); (EKEYREJECTED, 129); (EOWNERDEAD, 130);
   (ENOTRECOVERABLE, 131)].
Definition to_host_cases : list (Z * Z) :=
  [(1, EPERM); (2, ENOENT); (3, ESRCH); (4, EINTR); (5, EIO); (6, ENXIO); (7, E2BIG); (8, ENOEXEC);
   (9, EBADF); (10, ECHILD); (11, EAGAIN); (12, ENOMEM); (13, EACCES); (14, EFAULT); (15, ENOTBLK); (16, EBUSY);
   (17, EEXIST); (18, EXDEV); (19, ENODEV); (20, ENOTDIR); (21, EISDIR); (22, EINVAL); (23, ENFILE); (24, EMFILE);
   (25, ENOTTY); (26, ETXTBSY); (27, EFBIG); (28, ENOSPC); (29, ESPIPE); (30, EROFS); (31, EMLINK); (32, EPIPE);
   (33, EDOM); (34, ERANGE); (35, EDEADLK); (36, ENAMETOOLONG); (37, ENOLCK); (38, ENOSYS); (39, ENOTEMPTY); (40, ELOOP);
   (42, ENOMSG); (43, EIDRM); (44, ECHRNG); (45, EL2NSYNC); (46, EL3HLT); (47, EL3RST); (48, ELNRNG); (49, EUNATCH);
   (50, ENOCSI); (51, EL2HLT); (52, EBADE); (53, EBADR); (54, EXFULL); (55, ENOANO); (56, EBADRQC); (57, EBADSLT);
   (59, EBFONT); (60, ENOSTR); (61, ENODATA); (62, ETIME); (63, ENOSR); (64, ENONET); (65, ENOPKG); (66, EREMOTE);
   (67, ENOLINK); (68, EADV); (69, ESRMNT); (70, ECOMM); (71, EPROTO); (72, EMULTIHOP); (73, EDOTDOT); (74, EBADMSG);
   (75, EOVERFLOW); (76, ENOTUNIQ); (77, EBADFD); (78, EREMCHG); (79, ELIBACC); (80, ELIBBAD); (81, ELIBSCN); (82, ELIBMAX);
   (83, ELIBEXEC); (84, EILSEQ); (85, ERESTART); (86, ESTRPIPE); (87, EUSERS); (88, ENOTSOCK); (89, EDESTADDRREQ); (90, EMSGSIZE);
   (91, EPROTOTYPE); (92, ENOPROTOOPT); (93, EPROTONOSUPPORT); (94, ESOCKTNOSUPPORT); (95, EOPNOTSUPP); (96, EPFNOSUPPORT); (97, EAFNOSUPPORT); (98, EADDRINUSE);
   (99, EADDRNOTAVAIL); (100, ENETDOWN); (101, ENETUNREACH); (102, ENETRESET); (103, ECONNABORTED); (104, ECONNRESET); (105, ENOBUFS); (106, EISCONN);
   (107, ENOTCONN); (108, ESHUTDOWN); (109, ETOOMANYREFS); (110, ETIMEDOUT); (111, ECONNREFUSED); (112, EHOSTDOWN); (113, EHOSTUNREACH); (114, EALREADY);
   (115, EINPROGRESS); (116, ESTALE); (117, EUCLEAN); (118, ENOTNAM); (119, ENAVAIL); (120, EISNAM); (121, EREMOTEIO); (122, EDQUOT);
   (123, ENOMEDIUM); (124, EMEDIUMTYPE); (125, ECANCELED); (126, ENOKEY); (127, EKEYEXPIRED); (128, EKEYREVOKED); (129, EKEYREJECTED); (130, EOWNERDEAD);
   (131, ENOTRECOVERABLE)].
Fixpoint switch (cases : list (Z * Z)) (otherwise x : Z) : Z :=
  match cases with [] => otherwise | (k, v) :: l => if x =? k then v else switch l otherwise x end.
Definition translate_errno_from_host (err : Z) : Z := switch from_host_cases err err.
Definition translate_errno_to_host (err : Z) : Z := switch to_host_cases err err.

(** On this host the two systems number errors alike. *)
Lemma switch_same cases x : forallb (fun c => fst c =? snd c) cases = true -> switch cases x x = x.
Proof.
  intros H. induction cases as [|[k v] l IH]; cbn [switch]; [reflexivity|]. cbn [forallb fst snd] in H. zbool. subst v.
  destruct (Z.eqb_spec x k); [congruence | auto].
Qed.
Lemma translate_errno_same err : translate_errno_from_host err = err /\ translate_errno_to_host err = err.
Proof. split; apply switch_same; reflexivity. Qed.

(** ** File status flags *)
Module file_status_flags.
Definition RDONLY : Z := 0.
Definition WRONLY : Z := 1.
Definition RDWR : Z := 2.
Definition CREAT : Z := 0x40.
Definition EXCL : Z := 0x80.
Definition NOCTTY : Z := 0x100.
Definition TRUNC : Z := 0x200.
Definition APPEND : Z := 0x400.
Definition NONBLOCK : Z := 0x800.
Definition CLOEXEC : Z := 0x80000.
Definition KNOWN_FLAGS : Z := 0x80fc3.
End file_status_flags.
Definition O_RDONLY : Z := 0.
Definition O_WRONLY : Z := 1.
Definition O_RDWR : Z := 2.
Definition O_CREAT : Z := 0x40.
Definition O_EXCL : Z := 0x80.
Definition O_NOCTTY : Z := 0x100.
Definition O_TRUNC : Z := 0x200.
Definition O_APPEND : Z := 0x400.
Definition O_NONBLOCK : Z := 0x800.
Definition O_CLOEXEC : Z := 0x80000.
Definition O_LARGEFILE : Z := 0x8000.

(** [if (flags & mask) ret |= bits]. *)
Definition or_if (flags mask bits ret : Z) : Z := if Z.land flags mask =? 0 then ret else Z.lor ret bits.

(** The tests are of the host's constants and the results are the guest's, the
    other way around than the names say. *)
Definition to_host_file_status_flags (flags : Z) : Z :=
  let f := u32 flags in
  let ret := or_if f O_RDONLY file_status_flags.RDONLY 0 in
  let ret := or_if f O_WRONLY file_status_flags.WRONLY ret in
  let ret := or_if f O_RDWR file_status_flags.RDWR ret in
  let ret := or_if f O_CREAT file_status_flags.CREAT ret in
  let ret := or_if f O_EXCL file_status_flags.EXCL ret in
  let ret := or_if f O_NOCTTY file_status_flags.NOCTTY ret in
  let ret := or_if f O_TRUNC file_status_flags.TRUNC ret in
  let ret := or_if f O_APPEND file_status_flags.APPEND ret in
  let ret := or_if f O_NONBLOCK file_status_flags.NONBLOCK ret in
  or_if f O_CLOEXEC file_status_flags.CLOEXEC ret.
Definition from_host_file_status_flags (flags : Z) : outcome Z :=
  let f := u32 flags in
  if negb (Z.land f (not_ 32 file_status_flags.KNOWN_FLAGS) =? 0) then Throw (runtime_error "Unsupported fd flag used")
  else
    let ret := or_if f file_status_flags.RDONLY O_RDONLY 0 in
    let ret := or_if f file_status_flags.WRONLY O_WRONLY ret in
    let ret := or_if f file_status_flags.RDWR O_RDWR ret in
    let ret := or_if f file_status_flags.CREAT O_CREAT ret in
    let ret := or_if f file_status_flags.EXCL O_EXCL ret in
    let ret := or_if f file_status_flags.NOCTTY O_NOCTTY ret in
    let ret := or_if f file_status_flags.TRUNC O_TRUNC ret in
    let ret := or_if f file_status_flags.APPEND O_APPEND ret in
    let ret := or_if f file_status_flags.NONBLOCK O_NONBLOCK ret in
    Ret (or_if f file_status_flags.CLOEXEC O_CLOEXEC ret).

(** ** Mappings and clocks *)
Module mmap_flags.
Definition SHARED : Z := 1.
Definition PRIVATE : Z := 2.
Definition FIXED : Z := 0x10.
Definition ANON : Z := 0x20.
Definition NORESERVE : Z := 0x4000.
End mmap_flags.
Definition MAP_SHARED : Z := 1.
Definition MAP_PRIVATE : Z := 2.
Definition MAP_FIXED : Z := 0x10.
Definition MAP_ANONYMOUS : Z := 0x20.
Definition MAP_NORESERVE : Z := 0x4000.
Definition mmap_known : Z :=
  Z.lor mmap_flags.FIXED (Z.lor mmap_flags.ANON (Z.lor mmap_flags.NORESERVE (Z.lor mmap_flags.PRIVATE mmap_flags.SHARED))).
Definition to_host_mmap_flags (flags : Z) : outcome Z :=
  let f := u32 flags in
  if negb (Z.land f (not_ 32 mmap_known) =? 0) then Throw (runtime_error "Used unsupported mmap flags")
  else
    let ret := or_if f mmap_flags.SHARED MAP_PRIVATE 0 in
    let ret := or_if f mmap_flags.PRIVATE MAP_PRIVATE ret in
    let ret := or_if f mmap_flags.FIXED MAP_FIXED ret in
    let ret := or_if f mmap_flags.ANON MAP_ANONYMOUS ret in
    Ret (or_if f mmap_flags.NORESERVE MAP_NORESERVE ret).

Definition REALTIME : Z := 0.
Definition MONOTONIC : Z := 1.
Definition MONOTONIC_RAW : Z := 4.
Definition BOOTTIME : Z := 7.
Definition CLOCK_REALTIME : Z := 0.
Definition CLOCK_MONOTONIC : Z := 1.
Definition CLOCK_MONOTONIC_RAW : Z := 4.
Definition CLOCK_BOOTTIME : Z := 7.
Definition to_host_clock_type (type_ : Z) : outcome Z :=
  if type_ =? REALTIME then Ret CLOCK_REALTIME
  else if type_ =? MONOTONIC then Ret CLOCK_MONOTONIC
  else if type_ =? MONOTONIC_RAW then Ret CLOCK_MONOTONIC_RAW
  else if type_ =? BOOTTIME then Ret CLOCK_BOOTTIME
  else Throw (runtime_error "Unexpected clock type").
Definition RLIMIT_NOFILE : Z := 7.
Definition to_host_rlimit_resource (r : Z) : outcome Z :=
  if r =? 7 then Ret RLIMIT_NOFILE else Throw (runtime_error "Unknown rlimit resource").

(** ** Functions that call the host *)
Section Host.
(** The host's [fcntl] (descriptor, command, argument), [open] (flags, mode) and
    [mmap] (flags): their results. *)
Variable host_fcntl : Z -> Z -> Z -> Z.
Variable host_open : Z -> Z -> Z.
Variable host_mmap : Z -> Z.

Definition F_GETFD : Z := 1.
Definition F_SETFD : Z := 2.
Definition F_GETFL : Z := 3.
Definition F_SETFL : Z := 4.
Definition F_SETLK : Z := 6.
(** [SETLK] passes a copy of the guest's structure, which has the host's fields. *)
Definition fcntl (fd cmd arg : Z) : outcome Z :=
  if cmd =? 1 then Ret (host_fcntl fd F_GETFD (i32 arg))
  else if cmd =? 2 then Ret (host_fcntl fd F_SETFD (i32 arg))
  else if cmd =? 3 then from_host_file_status_flags (host_fcntl fd F_GETFL 0)
  else if cmd =? 4 then Ret (host_fcntl fd F_SETFL (to_host_file_status_flags (i32 arg)))
  else if cmd =? 6 then Ret (host_fcntl fd F_SETLK arg)
  else Throw (runtime_error "Unsupported fcntl").
(** [mode_arg]: the variadic argument. *)
Definition open (flags mode_arg : Z) : Z :=
  let hflags := to_host_file_status_flags flags in
  let mode := if Z.land hflags O_CREAT =? 0 then 0 else u32 mode_arg in
  host_open hflags mode.
Definition open_2 (flags : Z) : Z := host_open (to_host_file_status_flags flags) 0.
Definition open_3 (flags mode : Z) : Z := host_open (to_host_file_status_flags flags) mode.
Definition mmap (flags : Z) : outcome Z :=
  match to_host_mmap_flags flags with Ret f => Ret (host_mmap f) | Throw e => Throw e | Stop f => Stop f end.
End Host.

(** Checked copies: [result] is what the plain function returns. *)
Definition chk {A} (size max_len : Z) (result : A) : outcome A := if max_len <? size then Stop Aborted else Ret result.
Definition strlen_chk (len max_len : Z) : outcome Z := if max_len <=? len then Stop Aborted else Ret len.

Definition FAKE_SYS_gettid : Z := 178.
Definition FAKE_SYS_getrandom : Z := 278.
Definition FAKE_SYS_futex : Z := 98.
Section Syscalls.
(** The host calls behind the numbers that are known. *)
Variable gettid : Z.
Variable getrandom futex : list Z -> Z.
(** An unknown number is answered with the positive error number. *)
Definition fakesyscall (sysno : Z) (args : list Z) : Z :=
  if sysno =? FAKE_SYS_gettid then gettid
  else if sysno =? FAKE_SYS_getrandom then getrandom args
  else if sysno =? FAKE_SYS_futex then i32 (futex args)
  else ENOSYS.
End Syscalls.

(** ** What the translations keep *)
Lemma land_bit f k : 0 <= k -> Z.land f (2 ^ k) = if Z.testbit f k then 2 ^ k else 0.
Proof.
  intros Hk. apply Z.bits_inj'. intros n Hn. rewrite Z.land_spec, Z.pow2_bits_eqb by exact Hk. destruct (Z.eqb_spec k n) as [->|Hne].
  - destruct (Z.testbit f n); rewrite ?Z.pow2_bits_eqb, ?Z.eqb_refl, ?Z.bits_0 by exact Hn; reflexivity.
  - rewrite andb_false_r. destruct (Z.testbit f k); rewrite ?Z.pow2_bits_eqb, ?Z.bits_0 by exact Hk; [|reflexivity].
    symmetry. apply Z.eqb_neq, Hne.
Qed.
Lemma land_bit_zero f k : 0 <= k -> (Z.land f (2 ^ k) =? 0) = negb (Z.testbit f k).
Proof. intros Hk. rewrite land_bit by exact Hk. pose proof (pow2_pos k Hk). destruct (Z.testbit f k); [apply Z.eqb_neq; lia | reflexivity]. Qed.
Lemma or_if_bit f k r : 0 <= k -> or_if f (2 ^ k) (2 ^ k) r = Z.lor r (Z.land f (2 ^ k)).
Proof.
  intros Hk. unfold or_if. rewrite land_bit_zero, land_bit by exact Hk. destruct (Z.testbit f k); [reflexivity|].
  symmetry. apply Z.lor_0_r.
Qed.
Lemma or_if_zero f b r : or_if f 0 b r = r.
Proof. unfold or_if. rewrite Z.land_0_r. reflexivity. Qed.

(** Collect a chain of tests into one mask. *)
Ltac collect_bits :=
  repeat match goal with
  | |- context [or_if ?f ?m ?m ?r] =>
      let k := eval vm_compute in (Z.log2 m) in
      change (or_if f m m r) with (or_if f (2 ^ k) (2 ^ k) r); rewrite (or_if_bit f k r) by lia
  end;
  rewrite ?Z.lor_0_l, <- ?Z.lor_assoc, <- ?Z.land_lor_distr_r; reflexivity.

Lemma to_host_file_status_flags_eq flags : to_host_file_status_flags flags = Z.land (u32 flags) file_status_flags.KNOWN_FLAGS.
Proof.
  unfold to_host_file_status_flags. cbv zeta. change O_RDONLY with 0. rewrite or_if_zero.
  cbv [O_WRONLY O_RDWR O_CREAT O_EXCL O_NOCTTY O_TRUNC O_APPEND O_NONBLOCK O_CLOEXEC file_status_flags.WRONLY file_status_flags.RDWR
       file_status_flags.CREAT file_status_flags.EXCL file_status_flags.NOCTTY file_status_flags.TRUNC file_status_flags.APPEND
       file_status_flags.NONBLOCK file_status_flags.CLOEXEC file_status_flags.KNOWN_FLAGS].
  collect_bits.
Qed.
Lemma masked_out f m : in_range 32 f -> Z.land f (not_ 32 m) = 0 -> Z.land f m = f.
Proof.
  intros R H. apply Z.bits_inj'. intros n Hn. rewrite Z.land_spec. apply (f_equal (fun z => Z.testbit z n)) in H.
  unfold not_ in H. rewrite Z.land_spec, Z.lxor_spec, Z.bits_0 in H. destruct (Z.testbit f n) eqn:E; [|reflexivity].
  assert (n < 32) as Hl.
  { destruct (Z.lt_ge_cases n 32) as [|Hge]; [assumption|]. exfalso.
    rewrite Z.bits_above_log2 in E; [discriminate | destruct R; lia|]. destruct (Z.eq_dec f 0) as [->|]; [rewrite Z.bits_0 in E; discriminate|].
    apply Z.log2_lt_pow2; destruct R; [lia|]. apply (Z.lt_le_trans _ (2 ^ 32)); [assumption|]. apply Z.pow_le_mono_r; lia. }
  rewrite Z.ones_spec_low in H by lia. destruct (Z.testbit m n); [reflexivity | discriminate].
Qed.

Lemma from_host_file_status_flags_eq flags : from_host_file_status_flags flags =
  if Z.land (u32 flags) (not_ 32 file_status_flags.KNOWN_FLAGS) =? 0 then Ret (u32 flags) else Throw (runtime_error "Unsupported fd flag used").
Proof.
  unfold from_host_file_status_flags. cbv zeta. destruct (Z.eqb_spec (Z.land (u32 flags) (not_ 32 file_status_flags.KNOWN_FLAGS)) 0) as [E|E]; cbn [negb]; [|reflexivity].
  f_equal. change file_status_flags.RDONLY with 0. rewrite or_if_zero. rewrite <- (masked_out (u32 flags) _ (wrap_range 32 flags ltac:(lia)) E) at 10.
  cbv [O_WRONLY O_RDWR O_CREAT O_EXCL O_NOCTTY O_TRUNC O_APPEND O_NONBLOCK O_CLOEXEC file_status_flags.WRONLY file_status_flags.RDWR
       file_status_flags.CREAT file_status_flags.EXCL file_status_flags.NOCTTY file_status_flags.TRUNC file_status_flags.APPEND
       file_status_flags.NONBLOCK file_status_flags.CLOEXEC file_status_flags.KNOWN_FLAGS].
  collect_bits.
Qed.

(** The bits of a mapping request other than [SHARED]. *)
Lemma to_host_mmap_flags_eq flags : to_host_mmap_flags flags =
  if Z.land (u32 flags) (not_ 32 mmap_known) =? 0
  then Ret (Z.lor (if Z.testbit (u32 flags) 0 then MAP_PRIVATE else 0) (Z.land (u32 flags) 0x4032))
  else Throw (runtime_error "Used unsupported mmap flags").
Proof.
  unfold to_host_mmap_flags. cbv zeta. destruct (Z.land (u32 flags) (not_ 32 mmap_known) =? 0); cbn [negb]; [|reflexivity]. f_equal.
  assert (or_if (u32 flags) mmap_flags.SHARED MAP_PRIVATE 0 = if Z.testbit (u32 flags) 0 then MAP_PRIVATE else 0) as ->.
  { unfold or_if. change mmap_flags.SHARED with (2 ^ 0). rewrite land_bit_zero by lia. destruct (Z.testbit _ 0); reflexivity. }
  generalize (if Z.testbit (u32 flags) 0 then MAP_PRIVATE else 0). intros r.
  cbv [mmap_flags.PRIVATE MAP_PRIVATE mmap_flags.FIXED MAP_FIXED mmap_flags.ANON MAP_ANONYMOUS mmap_flags.NORESERVE MAP_NORESERVE].
  collect_bits.
Qed.

Lemma u32_i32 x : u32 (i32 x) = u32 x.
Proof.
  unfold u32, i32, wrap, swrap. rewrite Zminus_mod, Z.mod_mod, <- Zminus_mod by lia. f_equal. lia.
Qed.


