(* ===== verification/ShimThreads.v ===== *)
(** Threads in libc-shim (pthreads.cpp, pthreads.h, meta.h): the guest's mutexes,
    condition variables and read-write locks hold a pointer to a host object that
    is made when it is first needed; attributes and scheduling parameters. *)
From S2P Require Import Prelude LibcShim.
Local Open Scope Z_scope.

(** ** Types and attributes *)
Definition NORMAL : Z := 0.
Definition RECURSIVE : Z := 1.
Definition ERRORCHECK : Z := 2.
Definition mutex_type_END : Z := 2.
Definition PTHREAD_MUTEX_NORMAL : Z := 0.
Definition PTHREAD_MUTEX_RECURSIVE : Z := 1.
Definition PTHREAD_MUTEX_ERRORCHECK : Z := 2.
Definition to_host_mutex_type (type_ : Z) : outcome Z :=
  if type_ =? NORMAL then Ret PTHREAD_MUTEX_NORMAL
  else if type_ =? RECURSIVE then Ret PTHREAD_MUTEX_RECURSIVE
  else if type_ =? ERRORCHECK then Ret PTHREAD_MUTEX_ERRORCHECK
  else Throw (runtime_error "Invalid mutex type").
Definition SCHED_OTHER : Z := 0.
Definition to_host_sched_policy (type_ : Z) : outcome Z :=
  if type_ =? 0 then Ret SCHED_OTHER else Throw (runtime_error "Invalid sched policy").
Definition from_host_sched_policy (type_ : Z) : Z := if type_ =? SCHED_OTHER then 0 else -1.

(** An attribute function returns the result and the attributes afterwards. *)
Definition pthread_mutexattr_init : Z * Z := (0, NORMAL).
Definition pthread_mutexattr_settype (attr type_ : Z) : Z * Z :=
  if (type_ <? 0) || (mutex_type_END <? type_) then (EINVAL, attr) else (0, type_).
Definition pthread_mutexattr_gettype (attr : Z) : Z := attr.

Record condattr : Type := { shared : bool; clock : Z }.
Definition pthread_condattr_init : Z * condattr := (0, {| shared := false; clock := MONOTONIC |}).
Definition pthread_condattr_setclock (attr : condattr) (clock_ : Z) : Z * condattr :=
  if negb (clock_ =? MONOTONIC) && negb (clock_ =? REALTIME) then (translate_errno_from_host EINVAL, attr)
  else (0, {| shared := shared attr; clock := clock_ |}).
Definition pthread_condattr_getclock (attr : condattr) : Z := clock attr.

Record pthread_attr : Type := {
  detached : Z; user_stack : bool; stack_base : Z; stack_size : Z; guard_size : Z; sched_policy : Z; sched_priority : Z
}.
Definition pthread_attr_init : Z * pthread_attr :=
  (0, {| detached := 0; user_stack := false; stack_base := 0; stack_size := 0; guard_size := 0; sched_policy := 0; sched_priority := 0 |}).
Definition pthread_attr_setdetachstate (a : pthread_attr) (value : Z) : Z * pthread_attr :=
  if negb (value =? 0) && negb (value =? 1) then (EINVAL, a)
  else (0, {| detached := value; user_stack := user_stack a; stack_base := stack_base a; stack_size := stack_size a;
              guard_size := guard_size a; sched_policy := sched_policy a; sched_priority := sched_priority a |}).
(** A size below the host's minimum is ignored without an error. *)
Definition pthread_attr_setstacksize (PTHREAD_STACK_MIN : Z) (a : pthread_attr) (value : Z) : Z * pthread_attr :=
  if value <? PTHREAD_STACK_MIN then (0, a)
  else (0, {| detached := detached a; user_stack := user_stack a; stack_base := stack_base a; stack_size := value;
              guard_size := guard_size a; sched_policy := sched_policy a; sched_priority := sched_priority a |}).
Definition pthread_attr_setguardsize (a : pthread_attr) (value : Z) : Z * pthread_attr :=
  (0, {| detached := detached a; user_stack := user_stack a; stack_base := stack_base a; stack_size := stack_size a;
         guard_size := value; sched_policy := sched_policy a; sched_priority := sched_priority a |}).
Definition pthread_attr_setschedparam (a : pthread_attr) (value : Z) : Z * pthread_attr :=
  (0, {| detached := detached a; user_stack := user_stack a; stack_base := stack_base a; stack_size := stack_size a;
         guard_size := guard_size a; sched_policy := sched_policy a; sched_priority := value |}).
(** The calls [host_pthread_attr] makes on a new host attribute object: detach
    state, and stack size and priority when they are set. *)
Definition host_pthread_attr (bionic_attr : option pthread_attr) : option (Z * option Z * option Z) :=
  match bionic_attr with
  | None => None
  | Some a => Some (if detached a =? 0 then 0 else 1,
      if stack_size a =? 0 then None else Some (stack_size a),
      if sched_priority a =? 0 then None else Some (sched_priority a))
  end.

(** ** Wrapped objects *)

(** A host object: memory that [new] returned and nobody constructed, or a mutex of
    a type with its owner and the depth of its lock, or another object (a condition
    variable with its clock, a read-write lock). *)
Inductive host_object : Type :=
| Unconstructed
| HostMutex (kind : Z) (owner : option Z) (depth : Z)
| HostCond (clock_ : Z)
| HostRwlock.

(** A mutex of the guest: the value of its static initialiser, and the pointer. *)
Record mutex_t : Type := { init_value : Z; wrapped : Z }.
Definition recursive_mutex_init_value : Z := 0x4000.
Definition errorcheck_mutex_init_value : Z := 0x8000.

(** The guest's objects by address; [conds] and [rwlocks] hold the pointer. *)
Record shim_state : Type := {
  mutexes : gmap Z mutex_t;
  conds : gmap Z Z;
  rwlocks : gmap Z Z;
  hosts : gmap Z host_object;
  next_host : Z;
  self : Z
}.
Abbreviation SM := (M shim_state).
Definition set_mutexes v s := {| mutexes := v; conds := conds s; rwlocks := rwlocks s; hosts := hosts s; next_host := next_host s; self := self s |}.
Definition set_conds v s := {| mutexes := mutexes s; conds := v; rwlocks := rwlocks s; hosts := hosts s; next_host := next_host s; self := self s |}.
Definition set_rwlocks v s := {| mutexes := mutexes s; conds := conds s; rwlocks := v; hosts := hosts s; next_host := next_host s; self := self s |}.
Definition set_hosts v n s := {| mutexes := mutexes s; conds := conds s; rwlocks := rwlocks s; hosts := v; next_host := n; self := self s |}.

Definition new_host : SM Z :=
  let! s := get in
  modify (set_hosts (<[next_host s := Unconstructed]> (hosts s)) (next_host s + 1)) ;; ret (next_host s).
(** [delete] of a pointer; freeing what is not allocated is undefined. *)
Definition delete_host (p : Z) : SM unit :=
  let! s := get in
  match hosts s !! p with
  | Some _ => modify (set_hosts (delete p (hosts s)) (next_host s))
  | None => stop Undefined
  end.
Definition put_host (p : Z) (o : host_object) : SM unit := modify (fun s => set_hosts (<[p := o]> (hosts s)) (next_host s) s).
Definition mutex_at (m : Z) : SM mutex_t := let! s := get in deref (mutexes s !! m).
Definition set_wrapped (m p : Z) : SM unit :=
  let! w := mutex_at m in
  modify (fun s => set_mutexes (<[m := {| init_value := init_value w; wrapped := p |}]> (mutexes s)) s).

(** ** Mutexes of the host, for the calling thread; [None]: the call waits *)
Definition host_mutex_at (p : Z) : SM (Z * option Z * Z) :=
  let! s := get in
  match hosts s !! p with Some (HostMutex k o d) => ret (k, o, d) | _ => stop Undefined end.
Definition host_mutex_lock (p : Z) : SM (option Z) :=
  let! m := host_mutex_at p in
  let! s := get in
  match m with
  | (k, None, _) => put_host p (HostMutex k (Some (self s)) 1) ;; ret (Some 0)
  | (k, Some o, d) =>
      if negb (o =? self s) then ret None
      else if k =? PTHREAD_MUTEX_RECURSIVE then put_host p (HostMutex k (Some o) (d + 1)) ;; ret (Some 0)
      else if k =? PTHREAD_MUTEX_ERRORCHECK then ret (Some EDEADLK)
      else ret None
  end.
Definition host_mutex_trylock (p : Z) : SM Z :=
  let! m := host_mutex_at p in
  let! s := get in
  match m with
  | (k, None, _) => put_host p (HostMutex k (Some (self s)) 1) ;; ret 0
  | (k, Some o, d) =>
      if (o =? self s) && (k =? PTHREAD_MUTEX_RECURSIVE) then put_host p (HostMutex k (Some o) (d + 1)) ;; ret 0 else ret EBUSY
  end.
Definition host_mutex_unlock (p : Z) : SM Z :=
  let! m := host_mutex_at p in
  let! s := get in
  match m with
  | (k, Some o, d) =>
      if o =? self s then put_host p (if d =? 1 then HostMutex k None 0 else HostMutex k (Some o) (d - 1)) ;; ret 0
      else if k =? PTHREAD_MUTEX_NORMAL then stop Undefined else ret EPERM
  | (k, None, _) => if k =? PTHREAD_MUTEX_NORMAL then stop Undefined else ret EPERM
  end.
Definition host_mutex_destroy (p : Z) : SM Z :=
  let! m := host_mutex_at p in
  match m with (_, None, _) => ret 0 | (_, Some _, _) => ret EBUSY end.

(** ** The shim's mutexes *)
Section Mutexes.
(** The result of the host's [pthread_mutex_init]. *)
Variable host_init_result : Z.

(** [make_c_wrapped]: the pointer is stored before the object is constructed, and
    stays when the construction fails. *)
Definition make_mutex (m kind : Z) : SM Z :=
  let! p := new_host in
  set_wrapped m p ;;
  (if host_init_result =? 0 then put_host p (HostMutex kind None 0) else delete_host p) ;;
  ret host_init_result.
Definition destroy_mutex (m : Z) : SM Z :=
  let! w := mutex_at m in
  let! r := host_mutex_destroy (wrapped w) in
  delete_host (wrapped w) ;;
  ret r.

Definition lift_outcome {A} (o : outcome A) : SM A := fun s => (o, s).
Definition pthread_mutex_init (m : Z) (attr : option Z) : SM Z :=
  let! kind := match attr with None => ret PTHREAD_MUTEX_NORMAL | Some t => lift_outcome (to_host_mutex_type t) end in
  let! r := make_mutex m kind in
  ret (translate_errno_from_host r).
Definition is_mutex_initialized (w : mutex_t) : bool := negb (wrapped w =? 0).
(** The type the static initialiser stands for. *)
Definition initial_type (w : mutex_t) : Z :=
  let attr := snd pthread_mutexattr_init in
  if init_value w =? recursive_mutex_init_value then snd (pthread_mutexattr_settype attr RECURSIVE)
  else if init_value w =? errorcheck_mutex_init_value then snd (pthread_mutexattr_settype attr ERRORCHECK)
  else attr.
Definition mutex_static_initializer (m : Z) : SM unit :=
  let! w := mutex_at m in
  if is_mutex_initialized w then ret tt
  else
    let! r := pthread_mutex_init m (Some (initial_type w)) in
    if negb (r =? 0) then throw (runtime_error "Failed to init mutex") else ret tt.
Definition to_host_mutex (m : Z) : SM Z :=
  let! w := mutex_at m in
  (if is_mutex_initialized w then ret tt else mutex_static_initializer m) ;;
  let! w := mutex_at m in
  ret (wrapped w).

Definition pthread_mutex_destroy (m : Z) : SM Z :=
  let! w := mutex_at m in
  if negb (is_mutex_initialized w) then ret 0
  else let! r := destroy_mutex m in ret (translate_errno_from_host r).
(** The host's result is not used. *)
Definition pthread_mutex_lock (m : Z) : SM (option Z) :=
  let! p := to_host_mutex m in
  let! r := host_mutex_lock p in
  match r with None => ret None | Some _ => ret (Some 0) end.
Definition pthread_mutex_unlock (m : Z) : SM Z :=
  let! p := to_host_mutex m in
  let! r := host_mutex_unlock p in
  ret (translate_errno_from_host r).
Definition pthread_mutex_trylock (m : Z) : SM Z :=
  let! p := to_host_mutex m in
  let! r := host_mutex_trylock p in
  ret (translate_errno_from_host r).
End Mutexes.

(** ** Condition variables and read-write locks *)
Definition make_wrapped (p : Z) (o : host_object) (set_pointer : Z -> SM unit) (result : Z) : SM Z :=
  set_pointer p ;;
  (if result =? 0 then put_host p o else delete_host p) ;;
  ret result.
(** Without attributes the host's default clock is used. *)
Definition pthread_cond_init (host_result c : Z) (attr : option condattr) : SM Z :=
  let! k := match attr with None => ret CLOCK_REALTIME | Some a => lift_outcome (to_host_clock_type (clock a)) end in
  let! p := new_host in
  let! r := make_wrapped p (HostCond k) (fun p => modify (fun s => set_conds (<[c := p]> (conds s)) s)) host_result in
  ret (translate_errno_from_host r).
Definition cond_static_initializer (host_result c : Z) : SM unit :=
  let! s := get in
  let! p := deref (conds s !! c) in
  if p =? 0 then let! _ := pthread_cond_init host_result c None in ret tt else ret tt.
Definition to_host_cond (host_result c : Z) : SM Z :=
  let! s := get in
  let! p := deref (conds s !! c) in
  (if p =? 0 then cond_static_initializer host_result c else ret tt) ;;
  let! s := get in
  deref (conds s !! c).
Definition pthread_rwlock_init (host_result l : Z) (attr : Z) : SM Z :=
  if negb (attr =? 0) then throw (runtime_error "non-NULL rwlock attr is currently not supported")
  else
    let! p := new_host in
    let! r := make_wrapped p HostRwlock (fun p => modify (fun s => set_rwlocks (<[l := p]> (rwlocks s)) s)) host_result in
    ret (translate_errno_from_host r).
Definition rwlock_static_initializer (host_result l : Z) : SM unit :=
  let! s := get in
  let! p := deref (rwlocks s !! l) in
  if p =? 0 then let! _ := pthread_rwlock_init host_result l 0 in ret tt else ret tt.
Definition to_host_rwlock (host_result l : Z) : SM Z :=
  let! s := get in
  let! p := deref (rwlocks s !! l) in
  (if p =? 0 then rwlock_static_initializer host_result l else ret tt) ;;
  let! s := get in
  deref (rwlocks s !! l).
(** [destroy_c_wrapped] for both; [host_result] is what the host's destructor answers. *)
Definition destroy_wrapped (host_result p : Z) : SM Z := delete_host p ;; ret host_result.
Definition pthread_cond_destroy (host_result c : Z) : SM Z :=
  let! s := get in
  let! p := deref (conds s !! c) in
  if p =? 0 then ret 0 else let! r := destroy_wrapped host_result p in ret (translate_errno_from_host r).
Definition pthread_rwlock_destroy (host_result l : Z) : SM Z :=
  let! s := get in
  let! p := deref (rwlocks s !! l) in
  if p =? 0 then ret 0 else let! r := destroy_wrapped host_result p in ret (translate_errno_from_host r).
(** Waiting and signalling: the host object is made on first use and the host's
    answer translated.  The host's answers are functions of the host objects. *)
Definition pthread_cond_wait (mutex_result cond_result : Z) (host_cond_wait : Z -> Z -> Z) (c m : Z) : SM Z :=
  let! hc := to_host_cond cond_result c in
  let! hm := to_host_mutex mutex_result m in
  ret (translate_errno_from_host (host_cond_wait hc hm)).
Definition pthread_cond_broadcast (cond_result : Z) (host_cond_broadcast : Z -> Z) (c : Z) : SM Z :=
  let! hc := to_host_cond cond_result c in ret (translate_errno_from_host (host_cond_broadcast hc)).
Definition pthread_cond_signal (cond_result : Z) (host_cond_signal : Z -> Z) (c : Z) : SM Z :=
  let! hc := to_host_cond cond_result c in ret (translate_errno_from_host (host_cond_signal hc)).
Definition pthread_cond_timedwait (mutex_result cond_result : Z) (host_cond_timedwait : Z -> Z -> Z -> Z) (c m ts : Z) : SM Z :=
  let! hc := to_host_cond cond_result c in
  let! hm := to_host_mutex mutex_result m in
  ret (translate_errno_from_host (host_cond_timedwait hc hm ts)).

(** ** Scheduling parameters and attributes of a thread *)
Section Scheduling.
(** The host's [pthread_getschedparam] (result, policy, priority),
    [pthread_setschedparam], and what [pthread_getattr_np] finds (result, detach
    state, priority, stack). *)
Variable host_getschedparam : Z -> Z * Z * Z.
Variable host_setschedparam : Z -> Z -> Z -> Z.
Variable host_getattr_np : Z -> Z * (Z * Z * Z * Z).

Definition pthread_setschedparam (thread policy priority : Z) : outcome Z :=
  let '(r, hpolicy, _) := host_getschedparam thread in
  if negb (r =? 0) then Ret (translate_errno_from_host r)
  else
    match (if negb (policy =? -1) then to_host_sched_policy policy else Ret hpolicy) with
    | Ret hp => Ret (translate_errno_from_host (host_setschedparam thread hp priority))
    | Throw e => Throw e
    | Stop f => Stop f
    end.
(** The result with the policy and the priority stored, when they are. *)
Definition pthread_getschedparam (thread : Z) : Z * option (Z * Z) :=
  let '(r, hpolicy, hpriority) := host_getschedparam thread in
  if negb (r =? 0) then (translate_errno_from_host r, None) else (0, Some (from_host_sched_policy hpolicy, hpriority)).
Definition pthread_getattr_np (thread : Z) : Z * option pthread_attr :=
  let '(r, (hdetached, hpriority, stackaddr, stacksize)) := host_getattr_np thread in
  if negb (r =? 0) then (translate_errno_from_host r, None)
  else
    let attr := snd pthread_attr_init in
    let attr := snd (pthread_attr_setdetachstate attr hdetached) in
    (0, Some {| detached := detached attr; user_stack := user_stack attr; stack_base := stackaddr; stack_size := stacksize;
                guard_size := guard_size attr; sched_policy := sched_policy attr; sched_priority := hpriority |}).
End Scheduling.

(** ** How a mutex behaves *)
Lemma mutex_at_ok m w s : mutexes s !! m = Some w -> mutex_at m s = (Ret w, s).
Proof. intros H. unfold mutex_at, bind, get. rewrite H. reflexivity. Qed.
Lemma host_mutex_at_ok p k o d s : hosts s !! p = Some (HostMutex k o d) -> host_mutex_at p s = (Ret (k, o, d), s).
Proof. intros H. unfold host_mutex_at, bind, get. rewrite H. reflexivity. Qed.
Lemma delete_host_ok p o s : hosts s !! p = Some o -> delete_host p s = (Ret tt, set_hosts (delete p (hosts s)) (next_host s) s).
Proof. intros H. unfold delete_host, bind, get. rewrite H. reflexivity. Qed.

(** The host mutex [p] replaced. *)
Definition with_mutex_host (p : Z) (o : host_object) (s : shim_state) : shim_state := set_hosts (<[p := o]> (hosts s)) (next_host s) s.

Section Behaviour.
Context (r0 m p k d : Z) (iv : Z) (o : option Z) (s : shim_state).
Hypothesis Hm : mutexes s !! m = Some {| init_value := iv; wrapped := p |}.
Hypothesis Hp : p <> 0.
Hypothesis Hh : hosts s !! p = Some (HostMutex k o d).

Lemma to_host_initialised : to_host_mutex r0 m s = (Ret p, s).
Proof.
  unfold to_host_mutex. erewrite bind_ok by apply mutex_at_ok, Hm. unfold is_mutex_initialized. cbn [wrapped].
  apply Z.eqb_neq in Hp. rewrite Hp. erewrite bind_ok by reflexivity. erewrite bind_ok by apply mutex_at_ok, Hm. reflexivity.
Qed.

(** What the guest should see of a lock: the result and the mutex afterwards. *)
Definition lock_spec : option (Z * host_object) :=
  match o with
  | None => Some (0, HostMutex k (Some (self s)) 1)
  | Some t =>
      if negb (t =? self s) then None
      else if k =? PTHREAD_MUTEX_RECURSIVE then Some (0, HostMutex k o (d + 1))
      else if k =? PTHREAD_MUTEX_ERRORCHECK then Some (EDEADLK, HostMutex k o d)
      else None
  end.

Lemma lock_run : pthread_mutex_lock r0 m s =
  match lock_spec with
  | None => (Ret None, s)
  | Some (e, h) => (Ret (Some 0), if e =? 0 then with_mutex_host p h s else s)
  end.
Proof.
  unfold pthread_mutex_lock. erewrite bind_ok by apply to_host_initialised. unfold host_mutex_lock, lock_spec.
  unfold bind at 1. unfold bind at 1. rewrite (host_mutex_at_ok _ _ _ _ _ Hh). unfold bind at 1, get. destruct o as [t|]; [|reflexivity].
  destruct (t =? self s); cbn [negb]; [|reflexivity]. destruct (k =? PTHREAD_MUTEX_RECURSIVE); [reflexivity|].
  destruct (k =? PTHREAD_MUTEX_ERRORCHECK); reflexivity.
Qed.

Lemma destroy_run : pthread_mutex_destroy m s =
  (Ret (match o with None => 0 | Some _ => EBUSY end), set_hosts (delete p (hosts s)) (next_host s) s).
Proof.
  unfold pthread_mutex_destroy. erewrite bind_ok by apply mutex_at_ok, Hm. unfold is_mutex_initialized. cbn [wrapped].
  pose proof Hp as Hp'. apply Z.eqb_neq in Hp'. rewrite Hp'. cbn [negb]. unfold destroy_mutex.
  rewrite (bind_ok _ _ s (match o with None => 0 | Some _ => EBUSY end) (set_hosts (delete p (hosts s)) (next_host s) s)).
  - unfold ret. f_equal. f_equal. apply (proj1 (translate_errno_same _)).
  - erewrite bind_ok by apply mutex_at_ok, Hm. cbn [wrapped]. unfold host_mutex_destroy.
    rewrite (bind_ok _ _ s (match o with None => 0 | Some _ => EBUSY end) s).
    + erewrite bind_ok by apply (delete_host_ok _ _ _ Hh). reflexivity.
    + erewrite bind_ok by apply (host_mutex_at_ok _ _ _ _ _ Hh). destruct o; reflexivity.
Qed.

Lemma unlock_run : pthread_mutex_unlock r0 m s =
  match o with
  | Some t => if t =? self s then (Ret 0, with_mutex_host p (if d =? 1 then HostMutex k None 0 else HostMutex k o (d - 1)) s)
              else if k =? PTHREAD_MUTEX_NORMAL then (Stop Undefined, s) else (Ret EPERM, s)
  | None => if k =? PTHREAD_MUTEX_NORMAL then (Stop Undefined, s) else (Ret EPERM, s)
  end.
Proof.
  unfold pthread_mutex_unlock. erewrite bind_ok by apply to_host_initialised. unfold host_mutex_unlock.
  unfold bind at 1. unfold bind at 1. rewrite (host_mutex_at_ok _ _ _ _ _ Hh). unfold bind at 1, get. destruct o as [t|].
  - destruct (t =? self s); [reflexivity|]. destruct (k =? PTHREAD_MUTEX_NORMAL); reflexivity.
  - destruct (k =? PTHREAD_MUTEX_NORMAL); reflexivity.
Qed.

Lemma trylock_run : pthread_mutex_trylock r0 m s =
  match o with
  | None => (Ret 0, with_mutex_host p (HostMutex k (Some (self s)) 1) s)
  | Some t => if (t =? self s) && (k =? PTHREAD_MUTEX_RECURSIVE) then (Ret 0, with_mutex_host p (HostMutex k o (d + 1)) s) else (Ret EBUSY, s)
  end.
Proof.
  unfold pthread_mutex_trylock. erewrite bind_ok by apply to_host_initialised. unfold host_mutex_trylock.
  unfold bind at 1. unfold bind at 1. rewrite (host_mutex_at_ok _ _ _ _ _ Hh). unfold bind at 1, get. destruct o as [t|]; [|reflexivity].
  destruct ((t =? self s) && (k =? PTHREAD_MUTEX_RECURSIVE)); reflexivity.
Qed.
End Behaviour.

(** The type of a mutex that was not initialised by a call. *)
Definition static_kind (iv : Z) : Z := if iv =? 0x4000 then PTHREAD_MUTEX_RECURSIVE else if iv =? 0x8000 then PTHREAD_MUTEX_ERRORCHECK else PTHREAD_MUTEX_NORMAL.
(** The state after its first use. *)
Definition with_new_mutex (m iv : Z) (s : shim_state) : shim_state :=
  set_hosts (<[next_host s := HostMutex (static_kind iv) None 0]> (hosts s)) (next_host s + 1)
    (set_mutexes (<[m := {| init_value := iv; wrapped := next_host s |}]> (mutexes s)) s).
Lemma static_run m iv s : mutexes s !! m = Some {| init_value := iv; wrapped := 0 |} ->
  to_host_mutex 0 m s = (Ret (next_host s), with_new_mutex m iv s).
Proof.
  intros H. unfold to_host_mutex. erewrite bind_ok by apply mutex_at_ok, H. cbn [is_mutex_initialized wrapped Z.eqb negb].
  rewrite (bind_ok _ _ s tt (with_new_mutex m iv s)).
  - erewrite bind_ok by (apply mutex_at_ok, lookup_insert_eq). reflexivity.
  - unfold mutex_static_initializer. erewrite bind_ok by apply mutex_at_ok, H. cbn [is_mutex_initialized wrapped Z.eqb negb].
    unfold pthread_mutex_init. assert (to_host_mutex_type (initial_type {| init_value := iv; wrapped := 0 |}) = Ret (static_kind iv)) as ->.
    { unfold initial_type, static_kind. cbn [init_value]. change recursive_mutex_init_value with 0x4000. change errorcheck_mutex_init_value with 0x8000.
      destruct (iv =? 0x4000); [reflexivity|]. destruct (iv =? 0x8000); reflexivity. }
    rewrite (bind_ok _ _ s 0 (with_new_mutex m iv s)); [reflexivity|]. erewrite bind_ok by reflexivity.
    rewrite (bind_ok _ _ s 0 (with_new_mutex m iv s)); [reflexivity|]. unfold make_mutex. erewrite bind_ok by reflexivity.
    unfold set_wrapped. erewrite bind_ok by (erewrite bind_ok by (apply mutex_at_ok; exact H); reflexivity). cbn [init_value Z.eqb].
    erewrite bind_ok by reflexivity. unfold ret, with_new_mutex, set_hosts, set_mutexes. cbn. rewrite insert_insert_eq. reflexivity.
Qed.


(** An error-checking mutex locked twice by thread 7. *)
Definition demo_mutex : shim_state :=
  {| mutexes := {[0x5000 := {| init_value := 0x8000; wrapped := 0x100 |}]}; conds := ∅; rwlocks := ∅;
     hosts := {[0x100 := HostMutex PTHREAD_MUTEX_ERRORCHECK (Some 7) 1]}; next_host := 0x200; self := 7 |}.
