(* ===== verification/ShimInit.v ===== *)
(** The first use of a statically initialised mutex by several threads at once
    (libc-shim: [to_host], [mutex_static_initializer] and [make_c_wrapped], cut at
    every access to shared memory and at the guard), and the thread's cleanup
    handlers and [pthread_once]. *)
From stdpp Require Import list.
From S2P Require Import Prelude LibcShim ShimThreads.
Local Open Scope Z_scope.

(** ** First use *)
Module FirstUse.

(** Where a thread is in [to_host]: at the test of [wrapped], at the lock of the
    guard, at the second test, at the store of the new pointer, at the host's
    constructor, at the release of the guard, at the final read, or returned.  The
    flag tells whether the thread took the guard. *)
Inductive phase : Type :=
| Check_ | Enter | Recheck | New | Construct | Release (thrown : bool) | Read (slow : bool) | Done (slow : bool) (p : Z) | Thrown.

Record state : Type := {
  value : mutex_t;
  heap : gmap Z host_object;
  brk : Z;
  guard : option nat;
  threads : list phase
}.
Definition store (w : Z) (h : gmap Z host_object) (n : Z) (s : state) : state :=
  {| value := {| init_value := init_value (value s); wrapped := w |}; heap := h; brk := n; guard := guard s; threads := threads s |}.
Definition hold (g : option nat) (s : state) : state :=
  {| value := value s; heap := heap s; brk := brk s; guard := g; threads := threads s |}.
Definition goto (t : nat) (ph : phase) (s : state) : state :=
  {| value := value s; heap := heap s; brk := brk s; guard := guard s; threads := <[t := ph]> (threads s) |}.

Section Step.
(** The result of the host's [pthread_mutex_init]. *)
Variable host_init_result : Z.

(** One step of thread [t]; [None] when it waits for the guard or has returned. *)
Definition step (t : nat) (s : state) : option state :=
  match threads s !! t with
  | Some Check_ => Some (goto t (if is_mutex_initialized (value s) then Read false else Enter) s)
  | Some Enter => match guard s with None => Some (goto t Recheck (hold (Some t) s)) | Some _ => None end
  | Some Recheck => Some (goto t (if is_mutex_initialized (value s) then Release false else New) s)
  | Some New => Some (goto t Construct (store (brk s) (<[brk s := Unconstructed]> (heap s)) (brk s + 1) s))
  | Some Construct =>
      let p := wrapped (value s) in
      if host_init_result =? 0
      then Some (goto t (Release false) (store p (<[p := HostMutex (static_kind (init_value (value s))) None 0]> (heap s)) (brk s) s))
      else Some (goto t (Release true) (store p (delete p (heap s)) (brk s) s))
  | Some (Release thrown) => Some (goto t (if thrown then Thrown else Read true) (hold None s))
  | Some (Read slow) => Some (goto t (Done slow (wrapped (value s))) s)
  | _ => None
  end.
(** A schedule: the thread at each position steps if it can. *)
Definition run (schedule : list nat) (s : state) : state := fold_left (fun s t => default s (step t s)) schedule s.
End Step.

(** [n] threads about to use a mutex whose memory holds a static initialiser. *)
Definition start (n : nat) (iv p0 : Z) : state :=
  {| value := {| init_value := iv; wrapped := 0 |}; heap := ∅; brk := p0; guard := None; threads := replicate n Check_ |}.

(** *** The invariant *)
Section Safety.
Context (iv p0 : Z) (n : nat).
Hypothesis Hp0 : p0 <> 0.

Definition ready : gmap Z host_object := {[p0 := HostMutex (static_kind iv) None 0]}.
Definition raw : gmap Z host_object := {[p0 := Unconstructed]}.
Definition stage (s : state) : Prop :=
  init_value (value s) = iv /\
  ((wrapped (value s) = 0 /\ heap s = ∅ /\ brk s = p0) \/ (wrapped (value s) = p0 /\ (heap s = raw \/ heap s = ready) /\ brk s = p0 + 1)).
Definition holds_guard (ph : phase) : Prop := match ph with Recheck | New | Construct | Release _ => True | _ => False end.
Definition ok (s : state) (ph : phase) : Prop :=
  match ph with
  | Check_ | Enter | Recheck => True
  | New => wrapped (value s) = 0
  | Construct => heap s = raw
  | Release thrown => thrown = false /\ heap s = ready
  | Read slow => wrapped (value s) = p0 /\ (slow = true -> heap s = ready)
  | Done slow p => p = p0 /\ wrapped (value s) = p0 /\ (slow = true -> heap s = ready)
  | Thrown => False
  end.
Record inv (s : state) : Prop := {
  inv_stage : stage s;
  inv_length : length (threads s) = n;
  inv_thread : forall t ph, threads s !! t = Some ph -> ok s ph /\ (holds_guard ph <-> guard s = Some t);
  inv_guard : forall t, guard s = Some t -> is_Some (threads s !! t);
  inv_construct : heap s = raw -> exists t, threads s !! t = Some Construct
}.

Lemma start_inv : inv (start n iv p0).
Proof.
  constructor; cbn.
  - split; [reflexivity|]. left. auto.
  - apply length_replicate.
  - intros t ph H. apply lookup_replicate in H as [-> _]. cbn. split; [exact I|]. split; [intros []|discriminate].
  - discriminate.
  - intros H. symmetry in H. exact (False_ind _ (map_non_empty_singleton _ _ H)).
Qed.
Lemma raw_not_ready : raw <> ready.
Proof. intros H. apply (f_equal (lookup p0)) in H. unfold raw, ready in H. rewrite !lookup_singleton_eq in H. discriminate H. Qed.

(** A step of [t] to [ph']: what is to be shown of the store [s1] it leaves. *)
Lemma goto_inv s s1 t ph ph' :
  inv s -> threads s !! t = Some ph -> threads s1 = threads s -> stage s1 -> ok s1 ph' ->
  (forall u q, u <> t -> threads s !! u = Some q -> ok s q -> (holds_guard q <-> guard s = Some u) -> ok s1 q /\ (holds_guard q <-> guard s1 = Some u)) ->
  (holds_guard ph' <-> guard s1 = Some t) -> (forall u, guard s1 = Some u -> u = t \/ guard s = Some u) ->
  (heap s1 = raw -> ph' = Construct \/ (ph <> Construct /\ heap s = raw)) ->
  inv (goto t ph' s1).
Proof.
  intros I Ht Es Hst Hok Hothers Hg Hg' Hr. pose proof (lookup_lt_Some _ _ _ Ht) as Hlt. constructor.
  - exact Hst.
  - cbn. rewrite length_insert, Es. apply I.
  - intros u q. cbn. rewrite Es. destruct (decide (u = t)) as [->|Hne].
    + rewrite list_lookup_insert_eq by exact Hlt. intros [= <-]. split; [destruct ph'; exact Hok|exact Hg].
    + rewrite list_lookup_insert_ne by congruence. intros Hu. destruct (inv_thread _ I _ _ Hu) as [Ho Hh].
      destruct (Hothers u q Hne Hu Ho Hh) as [Ho' Hh']. split; [destruct q; exact Ho'|exact Hh'].
  - intros u Hu. cbn. rewrite Es. destruct (decide (u = t)) as [->|Hne]; [rewrite list_lookup_insert_eq by exact Hlt; eauto|].
    rewrite list_lookup_insert_ne by congruence. destruct (Hg' u Hu) as [->|H]; [contradiction|]. exact (inv_guard _ I _ H).
  - intros Hraw. cbn in *. rewrite Es. destruct (Hr Hraw) as [->|[Hn Hraw']]; [exists t; apply list_lookup_insert_eq, Hlt|].
    destruct (inv_construct _ I Hraw') as [u Hu]. exists u. rewrite list_lookup_insert_ne; [exact Hu|]. intros ->. congruence.
Qed.

(** A step that moves a thread and leaves the store and the guard. *)
Lemma move_inv s t ph ph' : inv s -> threads s !! t = Some ph -> ph <> Construct -> ok s ph' -> (holds_guard ph' <-> holds_guard ph) -> inv (goto t ph' s).
Proof.
  intros I Ht Hc Ho Hh. destruct (inv_thread _ I _ _ Ht) as [_ Hg].
  apply (goto_inv s s t ph ph' I Ht eq_refl (inv_stage _ I) Ho); [auto|rewrite Hh; exact Hg|auto|auto].
Qed.

Lemma is_initialized_stage s : stage s -> is_mutex_initialized (value s) = true -> wrapped (value s) = p0.
Proof.
  unfold is_mutex_initialized. intros [_ [(E & _)|(E & _)]]; rewrite E; [discriminate|reflexivity].
Qed.
Lemma guarded_alone s t u ph q : inv s -> threads s !! t = Some ph -> holds_guard ph -> threads s !! u = Some q -> u <> t -> ~ holds_guard q.
Proof.
  intros I Ht Hp Hu Hne Hq. destruct (inv_thread _ I _ _ Ht) as [_ G]. destruct (inv_thread _ I _ _ Hu) as [_ G'].
  apply G in Hp. apply G' in Hq. congruence.
Qed.

(** When [wrapped] is set and no other thread is in the constructor, the mutex is constructed. *)
Lemma initialized_ready s t ph : inv s -> threads s !! t = Some ph -> holds_guard ph -> ph <> Construct -> is_mutex_initialized (value s) = true -> heap s = ready.
Proof.
  intros I Ht Hg Hc E. destruct (inv_stage _ I) as [_ [(E' & _)|(_ & [Hr|Hr] & _)]]; [|clear E|exact Hr].
  - unfold is_mutex_initialized in E. rewrite E' in E. discriminate E.
  - destruct (inv_construct _ I Hr) as [u Hu]. destruct (decide (u = t)) as [->|Hne]; [congruence|].
    exfalso. exact (guarded_alone _ _ _ _ _ I Ht Hg Hu Hne Logic.I).
Qed.
Lemma heap_nonempty s : stage s -> heap s <> ∅ -> wrapped (value s) = p0 /\ brk s = p0 + 1.
Proof. intros [_ [(_ & Hh & _)|(Hw & _ & Hb)]] Hn; [contradiction|auto]. Qed.

(** The phases of one thread, one lemma each. *)
Section Phases.
Context (s : state) (t : nat).
Hypothesis I : inv s.

Lemma check_inv : threads s !! t = Some Check_ -> inv (goto t (if is_mutex_initialized (value s) then Read false else Enter) s).
Proof.
  intros Ht. apply (move_inv _ _ _ _ I Ht); [discriminate| |destruct (is_mutex_initialized _); reflexivity].
  destruct (is_mutex_initialized (value s)) eqn:E; [|exact Logic.I]. split; [apply is_initialized_stage; [apply I|exact E]|discriminate].
Qed.
Lemma enter_inv : threads s !! t = Some Enter -> guard s = None -> inv (goto t Recheck (hold (Some t) s)).
Proof.
  intros Ht Eg. apply (goto_inv s (hold (Some t) s) t Enter Recheck I Ht eq_refl (inv_stage _ I) Logic.I).
  - intros u q Hne Hu Hq Hh. split; [destruct q; exact Hq|]. cbn. rewrite Hh, Eg. split; congruence.
  - cbn. tauto.
  - cbn. intros u [= ->]. auto.
  - intros Hr. right. split; [discriminate|exact Hr].
Qed.
Lemma recheck_inv : threads s !! t = Some Recheck -> inv (goto t (if is_mutex_initialized (value s) then Release false else New) s).
Proof.
  intros Ht. apply (move_inv _ _ _ _ I Ht); [discriminate| |destruct (is_mutex_initialized _); reflexivity].
  destruct (is_mutex_initialized (value s)) eqn:E.
  - split; [reflexivity|]. apply (initialized_ready s t Recheck I Ht Logic.I); [discriminate|exact E].
  - apply negb_false_iff, Z.eqb_eq in E. exact E.
Qed.
Lemma new_inv : threads s !! t = Some New ->
  inv (goto t Construct (store (brk s) (<[brk s := Unconstructed]> (heap s)) (brk s + 1) s)).
Proof.
  intros Ht. destruct (inv_thread _ I _ _ Ht) as [Hok Hg]. cbn in Hok.
  destruct (inv_stage _ I) as [Hiv [(_ & Hh & Hb)|(E & _)]]; [|congruence]. rewrite Hb, Hh.
  apply (goto_inv s _ t New Construct I Ht); [reflexivity| |reflexivity| |exact Hg|auto|auto].
  - split; [exact Hiv|]. right. split; [reflexivity|]. split; [left; reflexivity|reflexivity].
  - intros u q Hne Hu Hq Hh'. split; [|exact Hh']. pose proof (guarded_alone _ _ _ _ _ I Ht Logic.I Hu Hne) as Hn.
    destruct q; cbn in Hq, Hn |- *; tauto || (destruct Hq as [Hq _]; congruence) || (destruct Hq as (_ & Hq & _); congruence).
Qed.
Lemma construct_inv : threads s !! t = Some Construct ->
  inv (goto t (Release false) (store (wrapped (value s))
    (<[wrapped (value s) := HostMutex (static_kind (init_value (value s))) None 0]> (heap s)) (brk s) s)).
Proof.
  intros Ht. destruct (inv_thread _ I _ _ Ht) as [Hok Hg]. cbn in Hok. pose proof (inv_stage _ I) as Hst.
  destruct (heap_nonempty s Hst) as [Hw Hb]; [rewrite Hok; apply map_non_empty_singleton|]. rewrite Hw, Hok, Hb, (proj1 Hst).
  assert (<[p0:=HostMutex (static_kind iv) None 0]> raw = ready) as -> by apply insert_singleton_eq.
  apply (goto_inv s _ t Construct _ I Ht); [reflexivity| |split; reflexivity| |exact Hg|auto|].
  - split; [apply Hst|]. right. split; [reflexivity|]. split; [right; reflexivity|reflexivity].
  - intros u q Hne Hu Hq Hh'. split; [|exact Hh']. pose proof (guarded_alone _ _ _ _ _ I Ht Logic.I Hu Hne) as Hn.
    destruct q; cbn in Hq, Hn |- *; tauto.
  - cbn. intros Hr. symmetry in Hr. exact (False_ind _ (raw_not_ready Hr)).
Qed.
Lemma release_inv thrown : threads s !! t = Some (Release thrown) -> inv (goto t (if thrown then Thrown else Read true) (hold None s)).
Proof.
  intros Ht. destruct (inv_thread _ I _ _ Ht) as [[-> Hr] Hg].
  apply (goto_inv s (hold None s) t _ (Read true) I Ht eq_refl (inv_stage _ I)).
  - cbn. split; [|auto]. apply (heap_nonempty s (inv_stage _ I)). rewrite Hr. apply map_non_empty_singleton.
  - intros u q Hne Hu Hq Hh'. split; [destruct q; exact Hq|]. cbn. split; [|discriminate].
    intros Hq'. exact (False_ind _ (guarded_alone _ _ _ _ _ I Ht Logic.I Hu Hne Hq')).
  - cbn. split; [intros []|discriminate].
  - cbn. discriminate.
  - intros Hr'. right. split; [discriminate|exact Hr'].
Qed.
Lemma read_inv slow : threads s !! t = Some (Read slow) -> inv (goto t (Done slow (wrapped (value s))) s).
Proof.
  intros Ht. destruct (inv_thread _ I _ _ Ht) as [[Hw Hr] Hg]. apply (move_inv _ _ _ _ I Ht); [discriminate| |reflexivity].
  split; [exact Hw|]. split; [exact Hw|exact Hr].
Qed.
End Phases.

Lemma step_inv t s s' : inv s -> step 0 t s = Some s' -> inv s'.
Proof.
  intros I. unfold step. destruct (threads s !! t) as [ph|] eqn:Ht; [|discriminate].
  destruct ph as [| | | | |th|slow|slow p|]; [| | | | | | |discriminate|discriminate]; cbn [Z.eqb].
  - intros [= <-]. apply check_inv; assumption.
  - destruct (guard s) eqn:Eg; [discriminate|]. intros [= <-]. apply enter_inv; assumption.
  - intros [= <-]. apply recheck_inv; assumption.
  - intros [= <-]. apply new_inv; assumption.
  - intros [= <-]. apply construct_inv; assumption.
  - intros [= <-]. apply release_inv; assumption.
  - intros [= <-]. apply read_inv; assumption.
Qed.
Lemma run_inv schedule s : inv s -> inv (run 0 schedule s).
Proof.
  revert s. induction schedule as [|t l IH]; intros s I; [exact I|]. cbn. apply IH.
  destruct (step 0 t s) as [s'|] eqn:E; [apply (step_inv _ _ _ I E)|exact I].
Qed.
(** *** Progress *)
Definition weight (ph : phase) : nat :=
  match ph with Check_ => 7 | Enter => 6 | Recheck => 5 | New => 4 | Construct => 3 | Release _ => 2 | Read _ => 1 | Done _ _ | Thrown => 0 end.
Definition measure (s : state) : nat := sum_list_with weight (threads s).
Definition returned (ph : phase) : Prop := weight ph = 0%nat.

Lemma sum_insert t ph q (l : list phase) : l !! t = Some ph -> (weight q < weight ph)%nat -> (sum_list_with weight (<[t := q]> l) < sum_list_with weight l)%nat.
Proof.
  revert t. induction l as [|x l IH]; intros [|t]; cbn; try discriminate.
  - intros [= ->] H. lia.
  - intros H Hlt. apply Nat.add_lt_mono_l. exact (IH t H Hlt).
Qed.
Lemma step_measure r t s s' : step r t s = Some s' -> (measure s' < measure s)%nat.
Proof.
  unfold step, measure. destruct (threads s !! t) as [ph|] eqn:Ht; [|discriminate].
  destruct ph as [| | | | |th|slow|slow p|]; [| | | | | | |discriminate|discriminate].
  - intros [= <-]. apply (sum_insert _ _ _ _ Ht). destruct (is_mutex_initialized _); cbn; lia.
  - destruct (guard s); [discriminate|]. intros [= <-]. apply (sum_insert _ _ _ _ Ht). cbn; lia.
  - intros [= <-]. apply (sum_insert _ _ _ _ Ht). destruct (is_mutex_initialized _); cbn; lia.
  - intros [= <-]. apply (sum_insert _ _ _ _ Ht). cbn; lia.
  - destruct (r =? 0); intros [= <-]; apply (sum_insert _ _ _ _ Ht); cbn; lia.
  - intros [= <-]. apply (sum_insert _ _ _ _ Ht). destruct th; cbn; lia.
  - intros [= <-]. apply (sum_insert _ _ _ _ Ht). cbn; lia.
Qed.
Lemma run_measure schedule s : (measure (run 0 schedule s) <= measure s)%nat.
Proof.
  revert s. induction schedule as [|t l IH]; intros s; [reflexivity|]. cbn. etransitivity; [apply IH|].
  destruct (step 0 t s) as [s1|] eqn:E; [apply step_measure in E; change (default s (Some s1)) with s1; lia|reflexivity].
Qed.

(** Only the guard stops a thread, and its holder is not stopped. *)
Lemma can_step s t ph : inv s -> threads s !! t = Some ph -> ~ returned ph -> exists u s', (u < n)%nat /\ step 0 u s = Some s'.
Proof.
  intros I Ht Hn. assert (forall u q, threads s !! u = Some q -> (u < n)%nat) as Hlt.
  { intros u q H. rewrite <-(inv_length _ I). apply (lookup_lt_Some _ _ _ H). }
  destruct (guard s) as [g|] eqn:Eg.
  - destruct (inv_guard _ I _ Eg) as [q Hq]. exists g. destruct (inv_thread _ I _ _ Hq) as [_ Hh]. apply Hh in Eg. unfold step. rewrite Hq.
    destruct q; try contradiction; cbn; eauto.
  - exists t. unfold step. rewrite Ht, Eg. destruct ph; try (exfalso; apply Hn; reflexivity); cbn; eauto.
Qed.
Lemma round_progress round s : inv s -> (forall t, (t < n)%nat -> t ∈ round) ->
  Forall returned (threads s) \/ (measure (run 0 round s) < measure s)%nat.
Proof.
  intros I Hall. destruct (decide (Forall (fun ph => weight ph = 0%nat) (threads s))) as [H|H]; [left; exact H|right].
  apply not_Forall_Exists in H; [|intros; apply _]. apply Exists_exists in H as (ph & Hin & Hn). apply list_elem_of_lookup in Hin as [t Ht].
  destruct (can_step s t ph I Ht Hn) as (u & s' & Hu & Hs). specialize (Hall u Hu). clear I Ht Hn Hu. induction round as [|v l IH].
  - apply not_elem_of_nil in Hall as [].
  - cbn. destruct (step 0 v s) as [s1|] eqn:E.
    + change (default s (Some s1)) with s1. pose proof (step_measure _ _ _ _ E). pose proof (run_measure l s1). unfold run in *. lia.
    + apply IH. apply elem_of_cons in Hall as [->|H]; [congruence|exact H].
Qed.
Lemma all_returned s : measure s = 0%nat -> Forall returned (threads s).
Proof.
  unfold measure. induction (threads s) as [|ph l IH]; [constructor|]. cbn. intros H. constructor; [unfold returned; lia|apply IH; lia].
Qed.
Lemma returned_stays schedule s : Forall returned (threads s) -> run 0 schedule s = s.
Proof.
  intros H. induction schedule as [|t l IH]; [reflexivity|]. cbn. replace (step 0 t s) with (@None state); [exact IH|].
  unfold step. destruct (threads s !! t) as [ph|] eqn:E; [|reflexivity]. apply (Forall_lookup_1 _ _ _ _ H) in E. destruct ph; try discriminate E; reflexivity.
Qed.
Lemma rounds_return rounds s : inv s -> Forall (fun round => forall t, (t < n)%nat -> t ∈ round) rounds -> (measure s <= length rounds)%nat ->
  Forall returned (threads (run 0 (concat rounds) s)).
Proof.
  intros I H. revert s I. induction H as [|round rounds Hr H IH]; intros s I Hm; [apply all_returned; cbn in *; lia|].
  cbn. unfold run. rewrite fold_left_app. fold (run 0 round s). fold (run 0 (concat rounds) (run 0 round s)).
  destruct (round_progress round s I Hr) as [Hd|Hlt].
  - rewrite (returned_stays round s Hd), (returned_stays _ s Hd). exact Hd.
  - apply IH; [apply run_inv, I|]. cbn in Hm. lia.
Qed.
Lemma measure_start : measure (start n iv p0) = (7 * n)%nat.
Proof. unfold measure, start, threads. clear. induction n as [|k IH]; [reflexivity|]. cbn [replicate]. change (sum_list_with weight (Check_ :: replicate k Check_)) with (7 + sum_list_with weight (replicate k Check_))%nat. rewrite IH. lia. Qed.
Lemma returned_done s t ph : inv s -> threads s !! t = Some ph -> returned ph -> exists slow, ph = Done slow p0.
Proof. intros I Ht Hr. destruct (inv_thread _ I _ _ Ht) as [Ho _]. destruct ph as [| | | | |th|slow|slow p|]; try discriminate Hr; [|destruct Ho]. exists slow. destruct Ho as [-> _]. reflexivity. Qed.
(** A thread that took the guard returns a constructed mutex; so does every thread once the guard is free. *)
Lemma done_constructed s t slow p : inv s -> threads s !! t = Some (Done slow p) -> p = p0 /\ (slow = true \/ guard s = None -> heap s = ready).
Proof.
  intros I Ht. destruct (inv_thread _ I _ _ Ht) as [(-> & Hw & Hs) _]. split; [reflexivity|]. intros [H|Hg]; [exact (Hs H)|].
  destruct (inv_stage _ I) as [_ [(E & _)|(_ & [Hr|Hr] & _)]]; [congruence| |exact Hr].
  destruct (inv_construct _ I Hr) as [u Hu]. destruct (inv_thread _ I _ _ Hu) as [_ [G _]]. specialize (G Logic.I). congruence.
Qed.
End Safety.

(** Two threads: the second one finds the pointer that the first one has stored and
    not yet constructed. *)
Lemma early_pointer iv p0 k : p0 <> 0 ->
  let s := run 0 [0; 0; 0; 0; 1; 1]%nat (start (2 + k) iv p0) in
  threads s !! 1%nat = Some (Done false p0) /\ heap s !! p0 = Some Unconstructed.
Proof.
  intros H. apply Z.eqb_neq in H. cbn. unfold is_mutex_initialized. cbn. rewrite H. cbn. split; [reflexivity|apply lookup_insert_eq].
Qed.

(** C36. First use of a statically initialised mutex by [n] threads, under every
    interleaving.  All threads that return hold the same host mutex and no other is
    ever made; for a thread that went through the guard, and for every thread once
    the guard is free, it is constructed, with the type the initialiser stands for.
    When every thread gets its turn [7 * n] times all of them return.  But the
    pointer is visible before the host mutex is constructed: of two or more threads
    one can return a mutex that is still raw memory. *)
Theorem first_use_interleaved n iv p0 : p0 <> 0 ->
  (forall schedule, let s := run 0 schedule (start n iv p0) in
     (forall q o, heap s !! q = Some o -> q = p0) /\
     (forall t slow p, threads s !! t = Some (Done slow p) ->
        p = p0 /\ (slow = true \/ guard s = None -> heap s !! p0 = Some (HostMutex (static_kind iv) None 0)))) /\
  (forall rounds, Forall (fun round => forall t, (t < n)%nat -> t ∈ round) rounds -> (7 * n <= length rounds)%nat ->
     let s := run 0 (concat rounds) (start n iv p0) in
     forall t, (t < n)%nat -> (exists slow, threads s !! t = Some (Done slow p0)) /\ heap s !! p0 = Some (HostMutex (static_kind iv) None 0)) /\
  ((2 <= n)%nat -> exists schedule, let s := run 0 schedule (start n iv p0) in
     threads s !! 1%nat = Some (Done false p0) /\ heap s !! p0 = Some Unconstructed).
Proof.
  intros Hp. assert (forall schedule, inv iv p0 n (run 0 schedule (start n iv p0))) as HI by (intros; apply run_inv, start_inv; exact Hp).
  split; [|split].
  - intros schedule s. specialize (HI schedule). fold s in HI. split.
    + intros q o Hq. destruct (inv_stage _ _ _ _ HI) as [_ [(_ & E & _)|(_ & [E|E] & _)]]; rewrite E in Hq;
        [discriminate Hq|unfold raw, ready in Hq; apply lookup_singleton_Some in Hq; symmetry; apply Hq..].
    + intros t slow p Ht. destruct (done_constructed _ _ _ Hp _ _ _ _ HI Ht) as [Hpp Hd]. split; [exact Hpp|]. intros H. rewrite (Hd H). apply lookup_singleton_eq.
  - intros rounds Hr Hl s t Hlt. specialize (HI (concat rounds)).
    assert (Forall returned (threads s)) as Hret.
    { apply (rounds_return iv p0 n Hp); [apply start_inv|exact Hr|rewrite measure_start; exact Hl]. }
    fold s in HI. assert (is_Some (threads s !! t)) as [ph Ht] by (apply lookup_lt_is_Some_2; rewrite (inv_length _ _ _ _ HI); exact Hlt).
    destruct (returned_done _ _ _ _ _ _ HI Ht (Forall_lookup_1 _ _ _ _ Hret Ht)) as [slow ->]. split; [eauto|].
    rewrite (proj2 (done_constructed _ _ _ Hp _ _ _ _ HI Ht)); [apply lookup_singleton_eq|]. right.
    destruct (guard s) as [g|] eqn:Eg; [|reflexivity]. destruct (inv_guard _ _ _ _ HI _ Eg) as [q Hq].
    destruct (returned_done _ _ _ _ _ _ HI Hq (Forall_lookup_1 _ _ _ _ Hret Hq)) as [sl ->].
    destruct (inv_thread _ _ _ _ HI _ _ Hq) as [_ [_ G]]. destruct (G Eg).
  - intros Hn. destruct n as [|[|k]]; [lia|lia|]. eexists. apply (early_pointer iv p0 k Hp).
Qed.

Lemma first_use_interleaved_witness :
  threads (run 0 [0; 0; 0; 0; 1; 1]%nat (start 2 0x4000 0x100)) !! 1%nat = Some (Done false 0x100) /\
  exists slow, threads (run 0 (concat (replicate 14 [0; 1]%nat)) (start 2 0x4000 0x100)) !! 0%nat = Some (Done slow 0x100).
Proof.
  split; [reflexivity|]. pose proof (first_use_interleaved 2 0x4000 0x100 ltac:(discriminate)) as (_ & H & _).
  refine (proj1 (H (replicate 14 [0; 1]%nat) _ _ 0%nat _)); [|rewrite length_replicate; lia|lia].
  apply Forall_replicate. intros t Ht. destruct t as [|[|t]]; [constructor|constructor; constructor|lia].
Defined.

(** A thread alone does what [to_host] does. *)
Lemma alone_is_to_host_mutex m iv s : mutexes s !! m = Some {| init_value := iv; wrapped := 0 |} -> hosts s = ∅ -> next_host s <> 0 ->
  let a := run 0 (replicate 7 0%nat) (start 1 iv (next_host s)) in
  threads a = [Done true (next_host s)] /\ fst (to_host_mutex 0 m s) = Ret (next_host s) /\
  mutexes (snd (to_host_mutex 0 m s)) !! m = Some (value a) /\ hosts (snd (to_host_mutex 0 m s)) = heap a /\ next_host (snd (to_host_mutex 0 m s)) = brk a.
Proof.
  intros Hm Hh Hn. rewrite (static_run m iv s Hm). apply Z.eqb_neq in Hn. cbn. repeat split.
  - rewrite lookup_insert_eq. reflexivity.
  - rewrite Hh, insert_insert_eq. reflexivity.
Qed.
End FirstUse.

(** ** Cleanup handlers *)
Module Cleanup.

Record pthread_cleanup_t : Type := { prev : Z; routine : Z; arg : Z }.
(** The records in the guest's memory, the thread's [cleanup.current], and the calls
    made so far (routine, argument), oldest first. *)
Record state : Type := { records : gmap Z pthread_cleanup_t; current : Z; calls : list (Z * Z) }.
Abbreviation CM := (M state).
Definition call (r a : Z) : CM unit := modify (fun s => {| records := records s; current := current s; calls := calls s ++ [(r, a)] |}).

Definition pthread_cleanup_push_impl (c cb a : Z) : CM unit :=
  modify (fun s => {| records := <[c := {| prev := current s; routine := cb; arg := a |}]> (records s); current := c; calls := calls s |}).
Definition pthread_cleanup_pop_impl (c execute : Z) : CM unit :=
  let! s := get in
  let! r := deref (records s !! c) in
  modify (fun s => {| records := records s; current := prev r; calls := calls s |}) ;;
  if execute =? 0 then ret tt else call (routine r) (arg r).
(** [~pthread_cleanup_holder], run when the thread ends; the fuel bounds the loop. *)
Fixpoint run_handlers (fuel : nat) (p : Z) : CM unit :=
  if p =? 0 then ret tt
  else match fuel with
       | O => stop OutOfFuel
       | S f => let! s := get in let! r := deref (records s !! p) in call (routine r) (arg r) ;; run_handlers f (prev r)
       end.
Definition pthread_cleanup_holder_dtor (fuel : nat) : CM unit := let! s := get in run_handlers fuel (current s).

(** The handlers of a thread, newest first: their records are linked from [p]. *)
Fixpoint chain (m : gmap Z pthread_cleanup_t) (p : Z) (l : list (Z * Z * Z)) : Prop :=
  match l with
  | [] => p = 0
  | (c, r, a) :: l => p = c /\ c <> 0 /\ exists q, m !! c = Some {| prev := q; routine := r; arg := a |} /\ chain m q l
  end.
Lemma chain_insert m p l c v : c ∉ map (fun h => fst (fst h)) l -> chain m p l -> chain (<[c := v]> m) p l.
Proof.
  revert p. induction l as [|[[d r] a] l IH]; intros p; [auto|]. cbn [map chain fst]. rewrite not_elem_of_cons. intros [Hne Hn] (-> & Hd & q & Hq & Hl).
  split; [reflexivity|]. split; [exact Hd|]. exists q. split; [rewrite lookup_insert_ne by congruence; exact Hq|apply IH; assumption].
Qed.
Lemma run_handlers_spec l : forall fuel p s, chain (records s) p l -> (length l <= fuel)%nat ->
  run_handlers fuel p s = (Ret tt, {| records := records s; current := current s; calls := calls s ++ map (fun h => (snd (fst h), snd h)) l |}).
Proof.
  induction l as [|[[c r] a] l IH]; intros fuel p s Hc Hf.
  - cbn in Hc. subst p. destruct fuel; cbn; rewrite app_nil_r; destruct s; reflexivity.
  - destruct Hc as (-> & Hne & q & Hq & Hl). apply Z.eqb_neq in Hne. destruct fuel as [|f]; [cbn in Hf; lia|]. cbn [run_handlers]. rewrite Hne.
    erewrite bind_ok by reflexivity. rewrite Hq. erewrite bind_ok by reflexivity. erewrite bind_ok by reflexivity. cbn [routine arg prev].
    rewrite IH; [|exact Hl|cbn in Hf; lia]. cbn [records current calls map fst snd]. rewrite <- app_assoc. reflexivity.
Qed.

(** Handlers form a stack: with the handlers [l] in place, pushing a record that is
    not in use puts it on top; popping the newest takes it off and calls it when asked
    to; and when the thread ends the remaining ones are called, newest first. *)
Theorem cleanup_is_a_stack s l : chain (records s) (current s) l ->
  (forall c cb a, c <> 0 -> c ∉ map (fun h => fst (fst h)) l ->
     let s' := snd (pthread_cleanup_push_impl c cb a s) in chain (records s') (current s') ((c, cb, a) :: l) /\ calls s' = calls s) /\
  (forall c cb a l' execute, l = (c, cb, a) :: l' ->
     exists s', pthread_cleanup_pop_impl c execute s = (Ret tt, s') /\ chain (records s') (current s') l' /\
       calls s' = calls s ++ (if execute =? 0 then [] else [(cb, a)])) /\
  (exists s', pthread_cleanup_holder_dtor (length l) s = (Ret tt, s') /\ calls s' = calls s ++ map (fun h => (snd (fst h), snd h)) l).
Proof.
  intros Hc. split; [|split].
  - intros c cb a Hne Hn. cbn. split; [|reflexivity]. split; [reflexivity|]. split; [exact Hne|]. eexists. split; [apply lookup_insert_eq|].
    apply chain_insert; assumption.
  - intros c cb a l' ex ->. destruct Hc as (Hcur & _ & q & Hq & Hl). unfold pthread_cleanup_pop_impl. erewrite bind_ok by reflexivity. rewrite Hq.
    erewrite bind_ok by reflexivity. erewrite bind_ok by reflexivity. cbn [prev routine arg].
    destruct (ex =? 0); eexists; (split; [reflexivity|]); (split; [exact Hl|]); [symmetry; apply app_nil_r|reflexivity].
  - eexists. split; [|shelve]. unfold pthread_cleanup_holder_dtor. erewrite bind_ok by reflexivity. apply run_handlers_spec; [exact Hc|reflexivity].
    Unshelve. reflexivity.
Qed.
End Cleanup.

(** ** [pthread_once] *)
Module Once.

(** A routine of the guest: what it logs, then the calls of [pthread_once] it makes
    itself (control, routine); the lock is recursive, so these run. *)
Inductive routine : Type := Routine (id : Z) (inner : list (Z * routine)).
(** The control words (0 when absent) and the routines run, newest first. *)
Record state : Type := { control : gmap Z Z; log : list (Z * Z) }.
Definition value (c : Z) (s : state) : Z := default 0 (control s !! c).
Fixpoint pthread_once (c : Z) (r : routine) (s : state) : state :=
  if value c s =? 0 then
    let '(Routine id inner) := r in
    (fix each l s := match l with [] => s | (c', r') :: l => each l (pthread_once c' r' s) end)
      inner {| control := <[c := 1]> (control s); log := (c, id) :: log s |}
  else s.
Definition calls (l : list (Z * routine)) (s : state) : state := fold_left (fun s x => pthread_once (fst x) (snd x) s) l s.
Lemma pthread_once_eq c id inner s : pthread_once c (Routine id inner) s =
  if value c s =? 0 then calls inner {| control := <[c := 1]> (control s); log := (c, id) :: log s |} else s.
Proof.
  cbn [pthread_once]. destruct (value c s =? 0); [|reflexivity]. generalize {| control := <[c := 1]> (control s); log := (c, id) :: log s |}.
  induction inner as [|[c' r'] l IH]; intros s'; [reflexivity|]. apply IH.
Qed.

(** How often the routine of control [c] ran. *)
Definition runs (c : Z) (s : state) : nat := length (List.filter (fun e => fst e =? c) (log s)).
(** Each control ran its routine once if its word is set, and not at all otherwise. *)
Definition once_inv (s : state) : Prop :=
  (forall c, value c s = 0 \/ value c s = 1) /\ forall c, runs c s = if value c s =? 0 then 0%nat else 1%nat.
Definition keeps (s s' : state) : Prop := once_inv s' /\ (forall c, value c s <> 0 -> value c s' <> 0) /\ exists new, log s' = new ++ log s.
Lemma keeps_refl s : once_inv s -> keeps s s.
Proof. intros H. split; [exact H|]. split; [auto|]. exists []. reflexivity. Qed.
Lemma keeps_trans a b c : keeps a b -> keeps b c -> keeps a c.
Proof. intros (_ & H1 & n1 & E1) (H2 & H3 & n2 & E2). split; [exact H2|]. split; [auto|]. exists (n2 ++ n1). rewrite E2, E1. apply app_assoc. Qed.
Lemma run_control_keeps c id s : once_inv s -> value c s = 0 -> keeps s {| control := <[c := 1]> (control s); log := (c, id) :: log s |}.
Proof.
  intros [Hv Hl] H0. assert (forall d, value d {| control := <[c := 1]> (control s); log := (c, id) :: log s |} = if c =? d then 1 else value d s) as E.
  { intros d. unfold value. cbn. destruct (Z.eqb_spec c d) as [->|Hne]; [rewrite lookup_insert_eq|rewrite lookup_insert_ne by exact Hne]; reflexivity. }
  split; [split|split].
  - intros d. rewrite E. destruct (c =? d); auto.
  - intros d. rewrite E. specialize (Hl d). unfold runs in *. cbn [log List.filter fst]. destruct (Z.eqb_spec c d) as [->|Hne]; [|exact Hl].
    rewrite H0 in Hl. cbn in *. rewrite Hl. reflexivity.
  - intros d. rewrite E. destruct (c =? d); [discriminate|auto].
  - exists [(c, id)]. reflexivity.
Qed.
(** Induction over a routine and the ones it calls. *)
Lemma routine_nested (P : routine -> Prop) : (forall id inner, Forall (fun x => P (snd x)) inner -> P (Routine id inner)) -> forall r, P r.
Proof.
  intros H. fix IH 1. intros [id inner]. apply H. induction inner as [|[c r] l IHl]; constructor; [apply IH|exact IHl].
Qed.
Lemma pthread_once_keeps r : forall c s, once_inv s -> keeps s (pthread_once c r s) /\ value c (pthread_once c r s) <> 0.
Proof.
  induction r as [id inner IH] using routine_nested. intros c s I. rewrite pthread_once_eq. destruct (Z.eqb_spec (value c s) 0) as [H0|H0].
  - set (s1 := {| control := _ |}). pose proof (run_control_keeps c id s I H0) as K. fold s1 in K.
    assert (value c s1 <> 0) as Hc by (unfold value, s1; cbn; rewrite lookup_insert_eq; discriminate).
    assert (keeps s1 (calls inner s1)) as K2.
    { clear Hc. destruct K as (I1 & _). revert I1. generalize s1. clear s1. induction IH as [|[c' r'] l Hr _ IHl]; intros s1 I1; [apply keeps_refl, I1|].
      destruct (Hr c' s1 I1) as [Ka _]. apply (keeps_trans _ _ _ Ka), IHl, Ka. }
    split; [exact (keeps_trans _ _ _ K K2)|]. apply K2, Hc.
  - split; [apply keeps_refl, I|exact H0].
Qed.

(** Whatever calls are made, and whatever their routines call in turn: every
    control's routine runs exactly once, at its first call, and a control that was
    called stays done. *)
Theorem once_runs_once l :
  let s := calls l {| control := ∅; log := [] |} in
  (forall c, (runs c s <= 1)%nat) /\
  (forall c r, (c, r) ∈ l -> runs c s = 1%nat).
Proof.
  assert (forall l s, once_inv s -> keeps s (calls l s) /\ forall c r, (c, r) ∈ l -> value c (calls l s) <> 0) as H.
  { clear l. induction l as [|[c r] l IH]; intros s I.
    - split; [apply keeps_refl, I|]. intros c r Hin. apply not_elem_of_nil in Hin as [].
    - destruct (pthread_once_keeps r c s I) as [K Hc]. destruct (IH _ (proj1 K)) as [K2 Hl]. split; [exact (keeps_trans _ _ _ K K2)|].
      intros d q Hin. apply elem_of_cons in Hin as [[= -> ->]|Hin]; [apply K2, Hc|exact (Hl d q Hin)]. }
  intros s. destruct (H l {| control := ∅; log := [] |}) as [((_ & Hn) & _) Hl].
  { split; [left; reflexivity|]. intros c. reflexivity. }
  split.
  - intros c. unfold s. rewrite Hn. destruct (_ =? 0); lia.
  - intros c r Hin. unfold s. rewrite Hn. apply Hl, Z.eqb_neq in Hin. rewrite Hin. reflexivity.
Qed.
End Once.
