(* ===== verification/ShimNetwork.v ===== *)
(** Sockets in libc-shim (network.cpp, network.h): the translation of families,
    types, protocols and options, socket addresses in both directions, the
    resolver's lists, and the calls built on them.  A socket address is the list of
    its bytes: two of family, then port and address (and flow, scope for IPv6), the
    same layout on both sides. *)
From stdpp Require Import list.
From S2P Require Import Prelude LibcShim.
Local Open Scope Z_scope.

Module ai_flags.
Definition PASSIVE : Z := 1.
Definition CANONNAME : Z := 2.
Definition NUMERICHOST : Z := 4.
End ai_flags.
Module af_family.
Definition UNSPEC : Z := 0.
Definition INET : Z := 2.
Definition INET6 : Z := 10.
Definition NETLINK : Z := 16.
End af_family.
Module socktype.
Definition STREAM : Z := 1.
Definition DGRAM : Z := 2.
Definition RAW : Z := 3.
End socktype.
Module ipproto.
Definition IP : Z := 0.
Definition TCP : Z := 6.
Definition UDP : Z := 17.
Definition IPV6 : Z := 41.
End ipproto.
Module nameinfo_flags.
Definition NOFQDN : Z := 1.
Definition NUMERICHOST : Z := 2.
Definition NAMEREQD : Z := 4.
Definition NUMERICSERV : Z := 8.
Definition DGRAM : Z := 16.
End nameinfo_flags.

(** The host's constants. *)
Definition AI_PASSIVE : Z := 1.
Definition AI_CANONNAME : Z := 2.
Definition AI_NUMERICHOST : Z := 4.
Definition AF_UNSPEC : Z := 0.
Definition AF_INET : Z := 2.
Definition AF_INET6 : Z := 10.
Definition AF_NETLINK : Z := 16.
Definition SOCK_STREAM : Z := 1.
Definition SOCK_DGRAM : Z := 2.
Definition SOCK_RAW : Z := 3.
Definition IPPROTO_IP : Z := 0.
Definition IPPROTO_TCP : Z := 6.
Definition IPPROTO_UDP : Z := 17.
Definition IPPROTO_IPV6 : Z := 41.
Definition NI_NUMERICHOST : Z := 1.
Definition NI_NUMERICSERV : Z := 2.
Definition NI_NOFQDN : Z := 4.
Definition NI_NAMEREQD : Z := 8.
Definition NI_DGRAM : Z := 16.
Definition SOL_SOCKET : Z := 1.
Definition SOL_TCP : Z := 6.
Definition MSG_NOSIGNAL : Z := 0x4000.

(** ** Numbers *)
Definition from_host_ai_flags (flags : Z) : Z :=
  let ret := or_if flags AI_PASSIVE ai_flags.PASSIVE 0 in
  let ret := or_if flags AI_CANONNAME ai_flags.CANONNAME ret in
  or_if flags AI_NUMERICHOST ai_flags.NUMERICHOST ret.
Definition to_host_ai_flags (flags : Z) : Z :=
  let ret := or_if (u32 flags) ai_flags.PASSIVE AI_PASSIVE 0 in
  let ret := or_if (u32 flags) ai_flags.CANONNAME AI_CANONNAME ret in
  or_if (u32 flags) ai_flags.NUMERICHOST AI_NUMERICHOST ret.
Definition from_host_af_family (family : Z) : Z :=
  if family =? AF_UNSPEC then af_family.UNSPEC
  else if family =? AF_INET then af_family.INET
  else if family =? AF_INET6 then af_family.INET6
  else if family =? AF_NETLINK then af_family.NETLINK
  else af_family.UNSPEC.
Definition to_host_af_family (family : Z) : Z :=
  if family =? af_family.UNSPEC then AF_UNSPEC
  else if family =? af_family.INET then AF_INET
  else if family =? af_family.INET6 then AF_INET6
  else if family =? af_family.NETLINK then AF_NETLINK
  else AF_UNSPEC.
Definition from_host_socktype (t : Z) : outcome Z :=
  if t =? SOCK_STREAM then Ret socktype.STREAM
  else if t =? SOCK_DGRAM then Ret socktype.DGRAM
  else if t =? SOCK_RAW then Ret socktype.RAW
  else Throw (runtime_error "Unknown socktype").
Definition to_host_socktype (t : Z) : outcome Z :=
  if t =? socktype.STREAM then Ret SOCK_STREAM
  else if t =? socktype.DGRAM then Ret SOCK_DGRAM
  else if t =? socktype.RAW then Ret SOCK_RAW
  else Throw (runtime_error "Unknown socktype").
Definition from_host_ipproto (proto : Z) : outcome Z :=
  if proto =? IPPROTO_IP then Ret ipproto.IP
  else if proto =? IPPROTO_TCP then Ret ipproto.TCP
  else if proto =? IPPROTO_UDP then Ret ipproto.UDP
  else if proto =? IPPROTO_IPV6 then Ret ipproto.IPV6
  else Throw (runtime_error "Unknown ipproto").
Definition to_host_ipproto (proto : Z) : outcome Z :=
  if proto =? ipproto.IP then Ret IPPROTO_IP
  else if proto =? ipproto.TCP then Ret IPPROTO_TCP
  else if proto =? ipproto.UDP then Ret IPPROTO_UDP
  else if proto =? ipproto.IPV6 then Ret IPPROTO_IPV6
  else Throw (runtime_error "Unknown ipproto").
Definition to_host_nameinfo_flags (flags : Z) : Z :=
  let f := u32 flags in
  let ret := or_if f nameinfo_flags.NOFQDN NI_NOFQDN 0 in
  let ret := or_if f nameinfo_flags.NUMERICHOST NI_NUMERICHOST ret in
  let ret := or_if f nameinfo_flags.NAMEREQD NI_NAMEREQD ret in
  let ret := or_if f nameinfo_flags.NUMERICSERV NI_NUMERICSERV ret in
  or_if f nameinfo_flags.DGRAM NI_DGRAM ret.

(** The value of a [switch] whose default does something else. *)
Definition case_of (cases : list (Z * Z)) (x : Z) : option Z := option_map snd (find (fun c => fst c =? x) cases).
(** The host's option numbers are the guest's; the tables list the known ones:
    SO_DEBUG, REUSEADDR, TYPE, ERROR, DONTROUTE, BROADCAST, SNDBUF, RCVBUF,
    KEEPALIVE, OOBINLINE, LINGER, REUSEPORT. *)
Definition sockopt_so_cases : list (Z * Z) :=
  [(1, 1); (2, 2); (3, 3); (4, 4); (5, 5); (6, 6); (7, 7); (8, 8); (9, 9); (10, 10); (13, 13); (15, 15)].
Definition to_host_sockopt_so (opt : Z) : outcome Z :=
  match case_of sockopt_so_cases opt with Some v => Ret v | None => Throw (runtime_error "Unknown SO sockopt") end.
(** IP_TOS, TTL, HDRINCL, OPTIONS, RECVOPTS, RETOPTS, IPSEC_POLICY, MULTICAST_IF,
    MULTICAST_TTL, MULTICAST_LOOP, ADD_MEMBERSHIP, DROP_MEMBERSHIP; any other is
    passed on with a warning. *)
Definition sockopt_ip_cases : list (Z * Z) :=
  [(1, 1); (2, 2); (3, 3); (4, 4); (6, 6); (7, 7); (16, 16); (32, 32); (33, 33); (34, 34); (35, 35); (36, 36)].
Definition to_host_sockopt_ip (opt : Z) : Z := default opt (case_of sockopt_ip_cases opt).
(** IPV6_2292PKTINFO, 2292HOPOPTS, 2292DSTOPTS, 2292RTHDR, 2292PKTOPTIONS, CHECKSUM,
    2292HOPLIMIT, UNICAST_HOPS, MULTICAST_IF, MULTICAST_HOPS, MULTICAST_LOOP,
    JOIN_GROUP, LEAVE_GROUP, V6ONLY, IPSEC_POLICY. *)
Definition sockopt_ipv6_cases : list (Z * Z) :=
  [(2, 2); (3, 3); (4, 4); (5, 5); (6, 6); (7, 7); (8, 8); (16, 16); (17, 17); (18, 18); (19, 19); (20, 20); (21, 21); (26, 26); (34, 34)].
Definition to_host_sockopt_ipv6 (opt : Z) : outcome Z :=
  match case_of sockopt_ipv6_cases opt with Some v => Ret v | None => Throw (runtime_error "Unknown IPv6 sockopt") end.
Definition to_host_sockopt_level (level : Z) : outcome Z := if level =? 1 then Ret SOL_SOCKET else to_host_ipproto level.
Definition to_host_sockopt (level opt : Z) : outcome Z :=
  let? level := to_host_sockopt_level level in
  if level =? SOL_SOCKET then to_host_sockopt_so opt
  else if level =? IPPROTO_IP then Ret (to_host_sockopt_ip opt)
  else if level =? IPPROTO_IPV6 then to_host_sockopt_ipv6 opt
  else if level =? SOL_TCP then Ret opt
  else Throw (runtime_error "Unknown sockopt level").

(** ** Addresses *)
Abbreviation bytes := (list Z).
Definition family_of (a : bytes) : Z := nth 0 a 0 + 256 * nth 1 a 0.
Definition family_bytes (f : Z) : bytes := [f mod 256; f / 256].
(** [out] with [v] stored at offset [i]. *)
Definition store_at (i : nat) (v out : bytes) : bytes := take i out ++ v ++ drop (i + length v) out.
Definition sizeof_sockaddr_in : nat := 16.
Definition sizeof_sockaddr_in6 : nat := 28.
Definition field (i n : nat) (a : bytes) : bytes := take n (drop i a).

Definition from_host (in_ out : bytes) : outcome bytes :=
  let f := family_of in_ in
  if f =? AF_UNSPEC then Ret (store_at 0 (family_bytes af_family.UNSPEC) out)
  else if f =? AF_INET then
    let out := store_at 0 (family_bytes af_family.INET) out in
    let out := store_at 2 (field 2 2 in_) out in
    Ret (store_at 4 (field 4 4 in_) out)
  else if f =? AF_INET6 then
    let out := store_at 0 (family_bytes af_family.INET6) out in
    let out := store_at 2 (field 2 2 in_) out in
    let out := store_at 4 (field 4 4 in_) out in
    let out := store_at 8 (field 8 16 in_) out in
    Ret (store_at 24 (field 24 4 in_) out)
  else Throw (runtime_error "Unknown socket family when converting sockaddr from host").
Definition to_host (in_ out : bytes) : outcome bytes :=
  let f := family_of in_ in
  if f =? af_family.UNSPEC then Ret (store_at 0 (family_bytes AF_UNSPEC) out)
  else if f =? af_family.INET then
    let out := store_at 0 (family_bytes AF_INET) out in
    let out := store_at 2 (field 2 2 in_) out in
    Ret (store_at 4 (field 4 4 in_) out)
  else if f =? af_family.INET6 then
    let out := store_at 0 (family_bytes AF_INET6) out in
    let out := store_at 2 (field 2 2 in_) out in
    let out := store_at 4 (field 4 4 in_) out in
    let out := store_at 8 (field 8 16 in_) out in
    Ret (store_at 24 (field 24 4 in_) out)
  else Throw (runtime_error "Unknown socket family when converting sockaddr to host").
Definition get_host_len (in_ : option bytes) : outcome nat :=
  match in_ with
  | None => Ret 0%nat
  | Some a =>
      if family_of a =? af_family.INET then Ret sizeof_sockaddr_in
      else if family_of a =? af_family.INET6 then Ret sizeof_sockaddr_in6
      else Throw (runtime_error "Unknown socket family when converting sockaddr to host")
  end.
Definition get_bionic_len (in_ : option bytes) : outcome nat :=
  match in_ with
  | None => Ret 0%nat
  | Some a =>
      if family_of a =? AF_INET then Ret sizeof_sockaddr_in
      else if family_of a =? AF_INET6 then Ret sizeof_sockaddr_in6
      else Throw (runtime_error "Unknown socket family when converting sockaddr from host")
  end.

(** [detail::sockaddr_in]: the storage and the length passed to the host. *)
Definition sockaddr_storage : bytes := replicate 128 0.
Definition sockaddr_in (addr : option bytes) : outcome (option bytes * nat) :=
  match addr with
  | None => Ret (None, 0%nat)
  | Some a =>
      let? haddr := to_host a sockaddr_storage in
      let? len := get_host_len (Some a) in
      Ret (Some haddr, len)
  end.
(** [detail::sockaddr_out::apply]: the guest's buffer and length afterwards. *)
Definition apply_ (haddr : bytes) (addr : option bytes) (addrlen : Z) : outcome (option bytes * Z) :=
  let? len := get_bionic_len (Some haddr) in
  if u32 addrlen <? Z.of_nat len then Throw (runtime_error "buffer for sockaddr not big enough")
  else match addr with
       | None => Stop Undefined
       | Some a => let? out := from_host haddr a in Ret (Some out, Z.of_nat len)
       end.

(** ** The resolver's lists *)
Record addrinfo : Type := {
  ai_flags_ : Z; ai_family : Z; ai_socktype : Z; ai_protocol : Z; ai_addrlen : nat; ai_canonname : option string; ai_addr : option bytes
}.
(** The buffer [malloc] returns holds [junk]. *)
Definition alloc_addr (junk : Z) (convert : bytes -> bytes -> outcome bytes) (len : nat) (a : option bytes) : outcome (option bytes) :=
  match len with
  | O => Ret None
  | _ => match a with None => Stop Undefined | Some a => let? out := convert a (replicate len junk) in Ret (Some out) end
  end.
Definition convert_from_host (junk : Z) (in_ : addrinfo) : outcome addrinfo :=
  let flags := from_host_ai_flags (ai_flags_ in_) in
  let family := from_host_af_family (ai_family in_) in
  let? socktype := from_host_socktype (ai_socktype in_) in
  let? protocol := from_host_ipproto (ai_protocol in_) in
  let? len := get_bionic_len (ai_addr in_) in
  let? addr := alloc_addr junk from_host len (ai_addr in_) in
  Ret {| ai_flags_ := flags; ai_family := family; ai_socktype := socktype; ai_protocol := protocol; ai_addrlen := len;
         ai_canonname := ai_canonname in_; ai_addr := addr |}.
(** An entry whose conversion throws is left out. *)
Fixpoint from_host_alloc (junk : Z) (in_ : list addrinfo) : outcome (list addrinfo) :=
  match in_ with
  | [] => Ret []
  | i :: next =>
      match (let? out := convert_from_host junk i in let? rest := from_host_alloc junk next in Ret (out :: rest)) with
      | Throw _ => from_host_alloc junk next
      | r => r
      end
  end.
Fixpoint to_host_alloc (junk : Z) (in_ : list addrinfo) : outcome (list addrinfo) :=
  match in_ with
  | [] => Ret []
  | i :: next =>
      let flags := to_host_ai_flags (ai_flags_ i) in
      let family := to_host_af_family (ai_family i) in
      let? socktype := if ai_socktype i =? 0 then Ret 0 else to_host_socktype (ai_socktype i) in
      let? protocol := to_host_ipproto (ai_protocol i) in
      let? len := get_host_len (ai_addr i) in
      let? addr := alloc_addr junk to_host len (ai_addr i) in
      let? rest := to_host_alloc junk next in
      Ret ({| ai_flags_ := flags; ai_family := family; ai_socktype := socktype; ai_protocol := protocol; ai_addrlen := len;
              ai_canonname := ai_canonname i; ai_addr := addr |} :: rest)
  end.

(** ** The calls *)
Section Host.
Variable junk : Z.
(** The host's calls: their results, and for those that fill an address the storage
    afterwards.  The resolver answers an error or a list. *)
Variable host_socket : Z -> Z -> Z -> Z.
Variable host_getaddrinfo : option string -> option string -> list addrinfo -> Z * list addrinfo.
Variable host_getnameinfo : option bytes * nat -> Z -> Z.
Variable host_bind host_connect : Z -> option bytes * nat -> Z.
Variable host_send host_sendmsg : Z -> Z -> Z.
Variable host_sendto : Z -> Z -> option bytes * nat -> Z.
Variable host_recv host_recvmsg : Z -> Z.
Variable host_recvfrom : Z -> option bytes -> Z * bytes.
Variable host_getsockname host_getpeername host_accept : Z -> bytes -> Z * bytes.
Variable host_getsockopt host_setsockopt : Z -> Z -> Z -> Z.
Variable host_shutdown : Z -> Z -> Z.

Definition socket (domain type_ proto : Z) : outcome Z :=
  let? t := to_host_socktype type_ in
  let? p := to_host_ipproto proto in
  Ret (host_socket (to_host_af_family domain) t p).
(** The result and, on success, the list stored at [*res]. *)
Definition getaddrinfo (node service : option string) (hints : list addrinfo) : outcome (Z * option (list addrinfo)) :=
  let? hhints := to_host_alloc junk hints in
  let '(ret, hres) := host_getaddrinfo node service hhints in
  if negb (ret =? 0) then Ret (ret, None)
  else let? res := from_host_alloc junk hres in Ret (0, Some res).
Definition getnameinfo (addr : option bytes) (flags : Z) : outcome Z :=
  match sockaddr_in addr with
  | Ret haddr => Ret (host_getnameinfo haddr (to_host_nameinfo_flags flags))
  | Throw _ => Ret 5
  | Stop f => Stop f
  end.
Definition bind (sockfd : Z) (addr : option bytes) : outcome Z := let? haddr := sockaddr_in addr in Ret (host_bind sockfd haddr).
Definition connect (sockfd : Z) (addr : option bytes) : outcome Z := let? haddr := sockaddr_in addr in Ret (host_connect sockfd haddr).
(** [detail::sock_send_flags]. *)
Definition sock_send_flags (flags : Z) : outcome Z :=
  let '(hflags, rest) := if negb (Z.land flags 0x4000 =? 0) then (MSG_NOSIGNAL, Z.land flags (not_ 32 0x4000)) else (0, flags) in
  if negb (rest =? 0) then Throw (runtime_error "Unexpected flags in a socket send operation") else Ret hflags.
Definition send (sockfd flags : Z) : outcome Z := let? f := sock_send_flags flags in Ret (host_send sockfd f).
Definition sendmsg (sockfd flags : Z) : outcome Z := let? f := sock_send_flags flags in Ret (host_sendmsg sockfd f).
Definition sendto (sockfd flags : Z) (addr : option bytes) : outcome Z :=
  let? haddr := sockaddr_in addr in
  let? f := sock_send_flags flags in
  Ret (host_sendto sockfd f haddr).
Definition recv (sockfd flags : Z) : outcome Z :=
  if negb (flags =? 0) then Throw (runtime_error "recv with unsupported flags") else Ret (host_recv sockfd).
Definition recvmsg (sockfd flags : Z) : outcome Z :=
  if negb (flags =? 0) then Throw (runtime_error "recvmsg with unsupported flags") else Ret (host_recvmsg sockfd).
(** The result, the guest's address and its length. *)
Definition recvfrom (sockfd flags : Z) (addr : option bytes) (addrlen : Z) : outcome (Z * option bytes * Z) :=
  if negb (flags =? 0) then Throw (runtime_error "recvfrom with unsupported flags")
  else match addr with
       | None => Ret (fst (host_recvfrom sockfd None), None, addrlen)
       | Some _ =>
           let '(r, haddr) := host_recvfrom sockfd (Some sockaddr_storage) in
           let ret := i32 r in
           if 0 <=? ret then let? out := apply_ haddr addr addrlen in Ret (ret, fst out, snd out) else Ret (ret, addr, addrlen)
       end.
Definition getsockname (sockfd : Z) (addr : option bytes) (addrlen : Z) : outcome (Z * option bytes * Z) :=
  let '(ret, haddr) := host_getsockname sockfd sockaddr_storage in
  if ret =? 0 then let? out := apply_ haddr addr addrlen in Ret (ret, fst out, snd out) else Ret (ret, addr, addrlen).
Definition getpeername (sockfd : Z) (addr : option bytes) (addrlen : Z) : outcome (Z * option bytes * Z) :=
  let '(ret, haddr) := host_getpeername sockfd sockaddr_storage in
  if ret =? 0 then let? out := apply_ haddr addr addrlen in Ret (ret, fst out, snd out) else Ret (ret, addr, addrlen).
(** [addrlen]: [None] for a null pointer. *)
Definition accept (sockfd : Z) (addr : option bytes) (addrlen : option Z) : outcome (Z * option bytes * option Z) :=
  let '(ret, haddr) := host_accept sockfd sockaddr_storage in
  match addrlen with
  | Some l => if 0 <=? ret then let? out := apply_ haddr addr l in Ret (ret, fst out, Some (snd out)) else Ret (ret, addr, addrlen)
  | None => Ret (ret, addr, addrlen)
  end.
(** The flags are not used. *)
Definition accept4 (sockfd : Z) (addr : option bytes) (addrlen : option Z) (flag : Z) : outcome (Z * option bytes * option Z) :=
  let '(ret, haddr) := host_accept sockfd sockaddr_storage in
  match addrlen with
  | Some l => if 0 <=? ret then let? out := apply_ haddr addr l in Ret (ret, fst out, Some (snd out)) else Ret (ret, addr, addrlen)
  | None => Ret (ret, addr, addrlen)
  end.
Definition getsockopt (sockfd level optname : Z) : outcome Z :=
  let? l := to_host_sockopt_level level in
  let? o := to_host_sockopt level optname in
  Ret (host_getsockopt sockfd l o).
Definition setsockopt (sockfd level optname : Z) : outcome Z :=
  let? l := to_host_sockopt_level level in
  let? o := to_host_sockopt level optname in
  Ret (host_setsockopt sockfd l o).
Definition SHUT_RD : Z := 0.
Definition SHUT_WR : Z := 1.
Definition SHUT_RDWR : Z := 2.
Definition shutdown (sockfd how : Z) : outcome Z :=
  if how =? 0 then Ret (host_shutdown sockfd SHUT_RD)
  else if how =? 1 then Ret (host_shutdown sockfd SHUT_WR)
  else if how =? 2 then Ret (host_shutdown sockfd SHUT_RDWR)
  else Throw (runtime_error "Unexpected how parameter passed to shutdown").
End Host.

(** ** What is passed on *)

(** A copy of the first [i] bytes of [a] over [out], one field further. *)
Lemma store_field i n (a out : bytes) : (i + n <= length a)%nat -> (i + n <= length out)%nat ->
  store_at i (field i n a) (take i a ++ drop i out) = take (i + n) a ++ drop (i + n) out.
Proof.
  intros Ha Ho. unfold store_at, field. assert (length (take i a) = i) as Hi by (rewrite length_take; lia).
  assert (length (take n (drop i a)) = n) as Hn by (rewrite length_take, length_drop; lia).
  rewrite take_app_le, take_take, Nat.min_id by lia. rewrite Hn, drop_app_ge by lia. rewrite Hi, drop_drop.
  rewrite app_assoc, <- take_take_drop. f_equal. f_equal. lia.
Qed.
Lemma store_family (f : Z) (a out : bytes) : family_bytes f = take 2 a -> (2 <= length a)%nat -> store_at 0 (family_bytes f) out = take 2 a ++ drop 2 out.
Proof. intros E _. unfold store_at. rewrite E. destruct a as [|x [|y a]]; discriminate E || reflexivity. Qed.

Definition is_byte (b : Z) : bool := (0 <=? b) && (b <? 256).
Lemma family_prefix (a : bytes) f : forallb is_byte a = true -> (2 <= length a)%nat -> 0 <= f < 256 -> family_of a = f -> family_bytes f = take 2 a.
Proof.
  intros H L Hf E. destruct a as [|x [|y a]]; cbn [length] in L; [lia|lia|]. cbn [forallb] in H. unfold is_byte in H.
  change (x + 256 * y = f) in E. apply andb_prop in H as [Hx H]. apply andb_prop in H as [Hy _].
  assert (y = 0 /\ x = f) as [-> ->] by lia. unfold family_bytes. rewrite Z.mod_small, Z.div_small by lia. reflexivity.
Qed.

(** The bytes of an address that carry information, and its size. *)
Definition used (a : bytes) : nat := if family_of a =? AF_INET then 8 else 28.
Definition size_of (a : bytes) : nat := if family_of a =? AF_INET then 16 else 28.
Definition internet (a : bytes) : bool := (family_of a =? AF_INET) || (family_of a =? AF_INET6).
(** A buffer that holds bytes and is as long as its family needs. *)
Definition well_formed (a : bytes) : bool := forallb is_byte a && (size_of a <=? length a)%nat.

Lemma copy_inet (a out : bytes) : family_of a = 2 -> well_formed a = true -> (8 <= length out)%nat ->
  from_host a out = Ret (take 8 a ++ drop 8 out) /\ to_host a out = Ret (take 8 a ++ drop 8 out).
Proof.
  unfold well_formed, size_of. intros F W Ho. apply andb_prop in W as [B L]. rewrite F in L. apply Nat.leb_le in L. cbn in L.
  assert (family_bytes 2 = take 2 a) as Hf by (apply family_prefix; [exact B|lia|lia|exact F]).
  unfold from_host, to_host. rewrite F. cbn [Z.eqb Pos.eqb AF_UNSPEC AF_INET af_family.UNSPEC af_family.INET].
  split; f_equal; (rewrite (store_family 2 a) by (exact Hf || lia); rewrite (store_field 2 2) by lia; rewrite (store_field 4 4) by lia; reflexivity).
Qed.
Lemma copy_inet6 (a out : bytes) : family_of a = 10 -> well_formed a = true -> (28 <= length out)%nat ->
  from_host a out = Ret (take 28 a ++ drop 28 out) /\ to_host a out = Ret (take 28 a ++ drop 28 out).
Proof.
  unfold well_formed, size_of. intros F W Ho. apply andb_prop in W as [B L]. rewrite F in L. apply Nat.leb_le in L. cbn in L.
  assert (family_bytes 10 = take 2 a) as Hf by (apply family_prefix; [exact B|lia|lia|exact F]).
  unfold from_host, to_host. rewrite F. cbn [Z.eqb Pos.eqb AF_UNSPEC AF_INET AF_INET6 af_family.UNSPEC af_family.INET af_family.INET6].
  split; f_equal; (rewrite (store_family 10 a) by (exact Hf || lia); rewrite (store_field 2 2), (store_field 4 4), (store_field 8 16), (store_field 24 4) by lia; reflexivity).
Qed.
Lemma copy_internet (a out : bytes) : internet a = true -> well_formed a = true -> (used a <= length out)%nat ->
  from_host a out = Ret (take (used a) a ++ drop (used a) out) /\ to_host a out = Ret (take (used a) a ++ drop (used a) out) /\
  get_host_len (Some a) = Ret (size_of a) /\ get_bionic_len (Some a) = Ret (size_of a).
Proof.
  unfold internet, used, size_of, get_host_len, get_bionic_len.
  change AF_INET with 2. change AF_INET6 with 10. change af_family.INET with 2. change af_family.INET6 with 10.
  destruct (Z.eqb_spec (family_of a) 2) as [E|_]; [|destruct (Z.eqb_spec (family_of a) 10) as [E|_]; [|discriminate]]; intros _ W Ho.
  - destruct (copy_inet a out E W Ho) as [H1 H2]. auto.
  - destruct (copy_inet6 a out E W Ho) as [H1 H2]. auto.
Qed.
(** The same prefix has the same family. *)
Lemma prefix_family (a b : bytes) n : (2 <= n)%nat -> take n a = take n b -> family_of a = family_of b.
Proof.
  intros Hn E. unfold family_of. assert (forall i, (i < 2)%nat -> nth i a 0 = nth i b 0) as Hi; [|rewrite !Hi by lia; reflexivity].
  intros i Hlt. rewrite <- (firstn_skipn n a), <- (firstn_skipn n b). rewrite !nth_lookup. 
  assert (take n a !! i = take n b !! i) as H by (rewrite E; reflexivity).
  rewrite !lookup_take in H. rewrite !decide_True in H by lia. rewrite !firstn_skipn, H. reflexivity.
Qed.

(** Internet addresses pass through the shim.  [connect] hands the host the
    family, port and address of the guest's [sockaddr] unchanged, with zero filler and
    the size of its family; a socket whose host address carries the same bytes reports
    them back to the guest through [getsockname], leaving the filler of the guest's
    buffer as it was.  A buffer shorter than the address, an address of another
    family, and storage the host left empty (a stream socket's [recvfrom]) throw. *)
Theorem addresses_pass_through host_connect host_getsockname host_recvfrom fd a :
  (internet a = true -> well_formed a = true ->
     connect host_connect fd (Some a) = Ret (host_connect fd (Some (take (used a) a ++ replicate (128 - used a) 0), size_of a)) /\
     forall h buf len, host_getsockname fd sockaddr_storage = (0, h) -> take (used a) h = take (used a) a -> well_formed h = true ->
       (size_of a <= length buf)%nat -> in_range 32 len ->
       getsockname host_getsockname fd (Some buf) len =
         if len <? Z.of_nat (size_of a) then Throw (runtime_error "buffer for sockaddr not big enough")
         else Ret (0, Some (take (used a) a ++ drop (used a) buf), Z.of_nat (size_of a))) /\
  (internet a = false -> connect host_connect fd (Some a) = Throw (runtime_error "Unknown socket family when converting sockaddr to host")) /\
  (forall r buf len, host_recvfrom fd (Some sockaddr_storage) = (r, sockaddr_storage) -> 0 <= i32 r ->
     recvfrom host_recvfrom fd 0 (Some buf) len = Throw (runtime_error "Unknown socket family when converting sockaddr from host")).
Proof.
  split; [|split].
  - intros F W. assert (used a <= 128 /\ 2 <= used a /\ used a <= size_of a)%nat as (Hu & Hu2 & Hus)
      by (unfold used, size_of; destruct (family_of a =? AF_INET); lia). split.
    + unfold connect, sockaddr_in. destruct (copy_internet a sockaddr_storage F W) as (_ & -> & -> & _); [unfold sockaddr_storage; rewrite length_replicate; exact Hu|].
      cbn [obind]. unfold sockaddr_storage. rewrite drop_replicate. reflexivity.
    + intros h buf len Hh Ep Wh Hb R. pose proof (prefix_family _ _ _ Hu2 Ep) as Ef.
      assert (internet h = true /\ used h = used a /\ size_of h = size_of a) as (Fh & Eu & Es) by (unfold internet, used, size_of in *; rewrite Ef; auto).
      unfold getsockname. rewrite Hh. cbn [Z.eqb]. unfold apply_.
      destruct (copy_internet h buf Fh Wh) as (H1 & _ & _ & ->); [rewrite Eu; lia|]. cbn [obind]. rewrite Es.
      unfold u32. rewrite (wrap_small 32 len R). destruct (len <? Z.of_nat (size_of a)); [reflexivity|]. rewrite H1, Eu, Ep. reflexivity.
  - unfold internet. intros F. apply orb_false_iff in F as [F1 F2]. unfold connect, sockaddr_in, to_host, get_host_len.
    change af_family.INET with AF_INET. change af_family.INET6 with AF_INET6. rewrite F1, F2. destruct (family_of a =? af_family.UNSPEC); reflexivity.
  - intros r buf len Hh Hr. unfold recvfrom. cbn [negb Z.eqb]. rewrite Hh. apply Z.leb_le in Hr. rewrite Hr. reflexivity.
Qed.
(** 10.0.0.1, port 80. *)
Definition demo_address : bytes := [2; 0; 0; 80; 10; 0; 0; 1; 9; 9; 9; 9; 9; 9; 9; 9].
Lemma addresses_pass_through_witness :
  connect (fun _ h => Z.of_nat (snd h)) 3 (Some demo_address) = Ret 16 /\
  getsockname (fun _ out => (0, take 8 demo_address ++ drop 8 out)) 3 (Some (replicate 16 7)) 128 =
    Ret (0, Some (take 8 demo_address ++ replicate 8 7), 16).
Proof.
  destruct (proj1 (addresses_pass_through (fun _ h => Z.of_nat (snd h)) (fun _ out => (0, take 8 demo_address ++ drop 8 out)) (fun _ _ => (0, [])) 3 demo_address)
    eq_refl eq_refl) as [H1 H2].
  split; [exact H1|]. apply (H2 (take 8 demo_address ++ drop 8 sockaddr_storage) (replicate 16 7) 128 eq_refl); [reflexivity|reflexivity|apply Nat.leb_le; reflexivity|split; [lia|reflexivity]].
Defined.

(** ** The resolver *)
Definition known_socktype (t : Z) : bool := (t =? 1) || (t =? 2) || (t =? 3).
Definition known_proto (p : Z) : bool := (p =? 0) || (p =? 6) || (p =? 17) || (p =? 41).
(** The entries the guest can be given, and what it is given. *)
Definition representable (i : addrinfo) : bool :=
  known_socktype (ai_socktype i) && known_proto (ai_protocol i) && match ai_addr i with None => true | Some a => internet a end.
Definition image (junk : Z) (i : addrinfo) : addrinfo :=
  {| ai_flags_ := Z.land (ai_flags_ i) 7; ai_family := from_host_af_family (ai_family i); ai_socktype := ai_socktype i; ai_protocol := ai_protocol i;
     ai_addrlen := match ai_addr i with None => 0 | Some a => size_of a end; ai_canonname := ai_canonname i;
     ai_addr := option_map (fun a => take (used a) a ++ replicate (size_of a - used a) junk) (ai_addr i) |}.

Lemma from_host_ai_flags_eq flags : from_host_ai_flags flags = Z.land flags 7.
Proof.
  unfold from_host_ai_flags. cbv zeta. cbv [AI_PASSIVE AI_CANONNAME AI_NUMERICHOST ai_flags.PASSIVE ai_flags.CANONNAME ai_flags.NUMERICHOST].
  collect_bits.
Qed.
Lemma from_host_socktype_eq t : from_host_socktype t = if known_socktype t then Ret t else Throw (runtime_error "Unknown socktype").
Proof.
  unfold from_host_socktype, known_socktype, SOCK_STREAM, SOCK_DGRAM, SOCK_RAW, socktype.STREAM, socktype.DGRAM, socktype.RAW.
  destruct (Z.eqb_spec t 1) as [->|]; [reflexivity|]. destruct (Z.eqb_spec t 2) as [->|]; [reflexivity|]. destruct (Z.eqb_spec t 3) as [->|]; reflexivity.
Qed.
Lemma from_host_ipproto_eq p : from_host_ipproto p = if known_proto p then Ret p else Throw (runtime_error "Unknown ipproto").
Proof.
  unfold from_host_ipproto, known_proto, IPPROTO_IP, IPPROTO_TCP, IPPROTO_UDP, IPPROTO_IPV6, ipproto.IP, ipproto.TCP, ipproto.UDP, ipproto.IPV6.
  destruct (Z.eqb_spec p 0) as [->|]; [reflexivity|]. destruct (Z.eqb_spec p 6) as [->|]; [reflexivity|].
  destruct (Z.eqb_spec p 17) as [->|]; [reflexivity|]. destruct (Z.eqb_spec p 41) as [->|]; reflexivity.
Qed.
Lemma alloc_internet junk a : internet a = true -> well_formed a = true ->
  alloc_addr junk from_host (size_of a) (Some a) = Ret (Some (take (used a) a ++ replicate (size_of a - used a) junk)).
Proof.
  intros F W. assert (used a <= size_of a /\ size_of a <> 0)%nat as [Hu Hz] by (unfold used, size_of; destruct (family_of a =? AF_INET); lia).
  unfold alloc_addr. destruct (copy_internet a (replicate (size_of a) junk) F W) as (-> & _); [rewrite length_replicate; exact Hu|].
  destruct (size_of a); [contradiction|]. cbn [obind]. rewrite drop_replicate. reflexivity.
Qed.
Lemma convert_spec junk i : match ai_addr i with None => True | Some a => internet a = true -> well_formed a = true end ->
  if representable i then convert_from_host junk i = Ret (image junk i) else exists e, convert_from_host junk i = Throw e.
Proof.
  intros W. unfold representable, convert_from_host, image. cbv zeta. rewrite from_host_socktype_eq, from_host_ipproto_eq, from_host_ai_flags_eq.
  destruct (known_socktype (ai_socktype i)); [|eexists; reflexivity]. destruct (known_proto (ai_protocol i)); [|eexists; reflexivity]. cbn [obind andb].
  destruct (ai_addr i) as [a|]; [|reflexivity]. destruct (internet a) eqn:F.
  - specialize (W eq_refl). destruct (copy_internet a (replicate (size_of a) 0) F W) as (_ & _ & _ & ->).
    { rewrite length_replicate. unfold used, size_of. destruct (family_of a =? AF_INET); lia. }
    cbn [obind]. rewrite (alloc_internet junk a F W). reflexivity.
  - unfold internet in F. apply orb_false_iff in F as [F1 F2]. unfold get_bionic_len. rewrite F1, F2. eexists. reflexivity.
Qed.

(** What the guest gets from the resolver, for hints that translate: when the
    host answers a list, exactly its representable entries (stream, datagram or raw;
    IP, TCP, UDP or IPv6; no address or an internet address) in the host's order,
    each with its numbers and the bytes of its address unchanged, and the others do
    not make the call throw; when the host fails, its error. *)
Theorem resolver_answers junk host_getaddrinfo node service hints hhints ret hres :
  to_host_alloc junk hints = Ret hhints -> host_getaddrinfo node service hhints = (ret, hres) ->
  Forall (fun i => match ai_addr i with None => True | Some a => internet a = true -> well_formed a = true end) hres ->
  getaddrinfo junk host_getaddrinfo node service hints =
    Ret (if ret =? 0 then (0, Some (map (image junk) (List.filter representable hres))) else (ret, None)).
Proof.
  intros Hh Ha W. unfold getaddrinfo. rewrite Hh. cbn [obind]. rewrite Ha. destruct (ret =? 0); cbn [negb]; [|reflexivity].
  assert (from_host_alloc junk hres = Ret (map (image junk) (List.filter representable hres))) as ->; [|reflexivity].
  clear Ha. induction W as [|i l Wi _ IH]; [reflexivity|]. cbn [from_host_alloc List.filter map]. pose proof (convert_spec junk i Wi) as C.
  destruct (representable i).
  - rewrite C, IH. reflexivity.
  - destruct C as [e ->]. cbn [obind]. exact IH.
Qed.
(** A host that answers a TCP entry and one of an unknown type. *)
Definition demo_answer : list addrinfo :=
  [{| ai_flags_ := 0; ai_family := 2; ai_socktype := 5; ai_protocol := 132; ai_addrlen := 16; ai_canonname := None; ai_addr := Some demo_address |};
   {| ai_flags_ := 0x22; ai_family := 2; ai_socktype := 1; ai_protocol := 6; ai_addrlen := 16; ai_canonname := None; ai_addr := Some demo_address |}].
Lemma resolver_answers_witness : getaddrinfo 0 (fun _ _ _ => (0, demo_answer)) None None [] =
  Ret (0, Some [{| ai_flags_ := 2; ai_family := 2; ai_socktype := 1; ai_protocol := 6; ai_addrlen := 16; ai_canonname := None;
                   ai_addr := Some (take 8 demo_address ++ replicate 8 0) |}]).
Proof. apply (resolver_answers 0 (fun _ _ _ => (0, demo_answer)) None None [] [] 0 demo_answer); [reflexivity|reflexivity|repeat constructor]. Defined.

(** Socket options keep their numbers: for a level and an option that are known the
    host gets both as they are. *)
Lemma case_of_identity cases x : forallb (fun c => fst c =? snd c) cases = true -> case_of cases x = if existsb (fun c => fst c =? x) cases then Some x else None.
Proof.
  unfold case_of. induction cases as [|[k v] l IH]; [reflexivity|]. cbn. intros H. apply andb_prop in H as [E H]. apply Z.eqb_eq in E. subst v.
  destruct (Z.eqb_spec k x) as [->|]; [reflexivity|]. exact (IH H).
Qed.
Lemma to_host_sockopt_identity level opt o : to_host_sockopt level opt = Ret o -> o = opt /\ (exists l, to_host_sockopt_level level = Ret l /\ l = level).
Proof.
  unfold to_host_sockopt, to_host_sockopt_level. destruct (Z.eqb_spec level 1) as [->|H1]; cbn [obind].
  - cbn [Z.eqb Pos.eqb SOL_SOCKET]. unfold to_host_sockopt_so. rewrite case_of_identity by reflexivity.
    destruct (existsb _ _); intros [= <-]. split; [reflexivity|]. eauto.
  - unfold to_host_ipproto, ipproto.IP, ipproto.TCP, ipproto.UDP, ipproto.IPV6. destruct (Z.eqb_spec level 0) as [->|H0]; cbn.
    + unfold to_host_sockopt_ip. rewrite case_of_identity by reflexivity. destruct (existsb _ _); intros [= <-]; split; eauto.
    + destruct (Z.eqb_spec level 6) as [->|H6]; cbn; [intros [= <-]; eauto|]. destruct (Z.eqb_spec level 17) as [->|H17]; cbn; [discriminate|].
      destruct (Z.eqb_spec level 41) as [->|H41]; cbn; [|discriminate]. unfold to_host_sockopt_ipv6. rewrite case_of_identity by reflexivity.
      destruct (existsb _ _); intros [= <-]; split; eauto.
Qed.
