(* ===== verification/JniTable.v ===== *)
(** The JNI function tables of src/jni.hpp: the declarations of the functions with
    their C++ types, and the rows of [jni_env_syms] and
    [jni_invocation_interface_syms] in their order. *)
From S2P Require Import Prelude FunctionTraits.
Local Open Scope string_scope.

Definition fn (result : ctype) (args : list ctype) (ellipsis : bool) : fn_type :=
  {| fn_result := result; fn_args := args; fn_ellipsis := ellipsis |}.

(** A row [{"name", name}] or [{"name", nullptr}]. *)
Inductive table_row : Type := Fn (name : string) | Unused (name : string).
#[global] Instance table_row_eq_dec : EqDecision table_row.
Proof. solve_decision. Defined.

Definition jni_decls_1 : list (string * fn_type) := [
  ("GetEnv", fn t_sint [t_pointer; t_pointer; t_sint] false);
  ("DestroyJavaVM", fn t_sint [t_pointer] false);
  ("AttachCurrentThread", fn t_sint [t_pointer; t_pointer; t_pointer] false);
  ("DetachCurrentThread", fn t_sint [t_pointer] false);
  ("AttachCurrentAsDaemon", fn t_sint [t_pointer; t_pointer; t_pointer] false);
  ("GetVersion", fn t_sint [t_pointer] false);
  ("DefineClass", fn t_pointer [t_pointer; t_pointer; t_pointer; t_pointer; t_sint] false);
  ("FindClass", fn t_pointer [t_pointer; t_pointer] false);
  ("FromReflectedMethod", fn t_pointer [t_pointer; t_pointer] false);
  ("FromReflectedField", fn t_pointer [t_pointer; t_pointer] false);
  ("ToReflectedMethod", fn t_pointer [t_pointer; t_pointer; t_pointer; t_uchar] false);
  ("GetSuperclass", fn t_pointer [t_pointer; t_pointer] false);
  ("IsAssignableFrom", fn t_uchar [t_pointer; t_pointer; t_pointer] false);
  ("ToReflectedField", fn t_pointer [t_pointer; t_pointer; t_pointer; t_uchar] false);
  ("Throw", fn t_sint [t_pointer; t_pointer] false);
  ("ThrowNew", fn t_sint [t_pointer; t_pointer; t_pointer] false);
  ("ExceptionOccurred", fn t_pointer [t_pointer] false);
  ("ExceptionDescribe", fn t_void [t_pointer] false);
  ("ExceptionClear", fn t_void [t_pointer] false);
  ("FatalError", fn t_void [t_pointer; t_pointer] false);
  ("PushLocalFrame", fn t_sint [t_pointer; t_sint] false);
  ("PopLocalFrame", fn t_pointer [t_pointer; t_pointer] false);
  ("NewGlobalRef", fn t_pointer [t_pointer; t_pointer] false);
  ("DeleteGlobalRef", fn t_void [t_pointer; t_pointer] false);
  ("DeleteLocalRef", fn t_void [t_pointer; t_pointer] false);
  ("IsSameObject", fn t_uchar [t_pointer; t_pointer; t_pointer] false);
  ("NewLocalRef", fn t_pointer [t_pointer; t_pointer] false);
  ("EnsureLocalCapacity", fn t_sint [t_pointer; t_sint] false);
  ("AllocObject", fn t_pointer [t_pointer; t_pointer] false);
  ("NewObject", fn t_pointer [t_pointer; t_pointer; t_pointer] true);
  ("NewObjectV", fn t_pointer [t_pointer; t_pointer; t_pointer; t_va_list] false);
  ("NewObjectA", fn t_pointer [t_pointer; t_pointer; t_pointer; t_pointer] false);
  ("GetObjectClass", fn t_pointer [t_pointer; t_pointer] false);
  ("IsInstanceOf", fn t_uchar [t_pointer; t_pointer; t_pointer] false);
  ("GetMethodID", fn t_pointer [t_pointer; t_pointer; t_pointer; t_pointer] false);
  ("CallObjectMethod", fn t_pointer [t_pointer; t_pointer; t_pointer] true);
  ("CallObjectMethodV", fn t_pointer [t_pointer; t_pointer; t_pointer; t_va_list] false);
  ("CallObjectMethodA", fn t_pointer [t_pointer; t_pointer; t_pointer; t_pointer] false);
  ("CallBooleanMethod", fn t_uchar [t_pointer; t_pointer; t_pointer] true);
  ("CallBooleanMethodV", fn t_uchar [t_pointer; t_pointer; t_pointer; t_va_list] false);
  ("CallBooleanMethodA", fn t_uchar [t_pointer; t_pointer; t_pointer; t_pointer] false);
  ("CallByteMethod", fn t_schar [t_pointer; t_pointer; t_pointer] true);
  ("CallByteMethodV", fn t_schar [t_pointer; t_pointer; t_pointer; t_va_list] false);
  ("CallByteMethodA", fn t_schar [t_pointer; t_pointer; t_pointer; t_pointer] false);
  ("CallCharMethod", fn t_ushort [t_pointer; t_pointer; t_pointer] true);
  ("CallCharMethodV", fn t_ushort [t_pointer; t_pointer; t_pointer; t_va_list] false);
  ("CallCharMethodA", fn t_ushort [t_pointer; t_pointer; t_pointer; t_pointer] false);
  ("CallShortMethod", fn t_sshort [t_pointer; t_pointer; t_pointer] true);
  ("CallShortMethodV", fn t_sshort [t_pointer; t_pointer; t_pointer; t_va_list] false);
  ("CallShortMethodA", fn t_sshort [t_pointer; t_pointer; t_pointer; t_pointer] false);
  ("CallIntMethod", fn t_sint [t_pointer; t_pointer; t_pointer] true);
  ("CallIntMethodV", fn t_sint [t_pointer; t_pointer; t_pointer; t_va_list] false);
  ("CallIntMethodA", fn t_sint [t_pointer; t_pointer; t_pointer; t_pointer] false);
  ("CallLongMethod", fn t_slong [t_pointer; t_pointer; t_pointer] true);
  ("CallLongMethodV", fn t_slong [t_pointer; t_pointer; t_pointer; t_va_list] false);
  ("CallLongMethodA", fn t_slong [t_pointer; t_pointer; t_pointer; t_pointer] false);
  ("CallFloatMethod", fn t_float [t_pointer; t_pointer; t_pointer] true);
  ("CallFloatMethodV", fn t_float [t_pointer; t_pointer; t_pointer; t_va_list] false);
  ("CallFloatMethodA", fn t_float [t_pointer; t_pointer; t_pointer; t_pointer] false);
  ("CallDoubleMethod", fn t_double [t_pointer; t_pointer; t_pointer] true);
  ("CallDoubleMethodV", fn t_double [t_pointer; t_pointer; t_pointer; t_va_list] false);
  ("CallDoubleMethodA", fn t_double [t_pointer; t_pointer; t_pointer; t_pointer] false);
  ("CallVoidMethod", fn t_void [t_pointer; t_pointer; t_pointer] true);
  ("CallVoidMethodV", fn t_void [t_pointer; t_pointer; t_pointer; t_va_list] false);
  ("CallVoidMethodA", fn t_void [t_pointer; t_pointer; t_pointer; t_pointer] false);
  ("CallNonvirtualObjectMethod", fn t_pointer [t_pointer; t_pointer; t_pointer; t_pointer] true);
  ("CallNonvirtualObjectMethodV", fn t_pointer [t_pointer; t_pointer; t_pointer; t_pointer; t_va_list] false);
  ("CallNonvirtualObjectMethodA", fn t_pointer [t_pointer; t_pointer; t_pointer; t_pointer; t_pointer] false);
  ("CallNonvirtualBooleanMethod", fn t_uchar [t_pointer; t_pointer; t_pointer; t_pointer] true);
  ("CallNonvirtualBooleanMethodV", fn t_uchar [t_pointer; t_pointer; t_pointer; t_pointer; t_va_list] false);
  ("CallNonvirtualBooleanMethodA", fn t_uchar [t_pointer; t_pointer; t_pointer; t_pointer; t_pointer] false);
  ("CallNonvirtualByteMethod", fn t_schar [t_pointer; t_pointer; t_pointer; t_pointer] true);
  ("CallNonvirtualByteMethodV", fn t_schar [t_pointer; t_pointer; t_pointer; t_pointer; t_va_list] false);
  ("CallNonvirtualByteMethodA", fn t_schar [t_pointer; t_pointer; t_pointer; t_pointer; t_pointer] false);
  ("CallNonvirtualCharMethod", fn t_ushort [t_pointer; t_pointer; t_pointer; t_pointer] true);
  ("CallNonvirtualCharMethodV", fn t_ushort [t_pointer; t_pointer; t_pointer; t_pointer; t_va_list] false);
  ("CallNonvirtualCharMethodA", fn t_ushort [t_pointer; t_pointer; t_pointer; t_pointer; t_pointer] false);
  ("CallNonvirtualShortMethod", fn t_sshort [t_pointer; t_pointer; t_pointer; t_pointer] true)].

Definition jni_decls_2 : list (string * fn_type) := [
  ("CallNonvirtualShortMethodV", fn t_sshort [t_pointer; t_pointer; t_pointer; t_pointer; t_va_list] false);
  ("CallNonvirtualShortMethodA", fn t_sshort [t_pointer; t_pointer; t_pointer; t_pointer; t_pointer] false);
  ("CallNonvirtualIntMethod", fn t_sint [t_pointer; t_pointer; t_pointer; t_pointer] true);
  ("CallNonvirtualIntMethodV", fn t_sint [t_pointer; t_pointer; t_pointer; t_pointer; t_va_list] false);
  ("CallNonvirtualIntMethodA", fn t_sint [t_pointer; t_pointer; t_pointer; t_pointer; t_pointer] false);
  ("CallNonvirtualLongMethod", fn t_slong [t_pointer; t_pointer; t_pointer; t_pointer] true);
  ("CallNonvirtualLongMethodV", fn t_slong [t_pointer; t_pointer; t_pointer; t_pointer; t_va_list] false);
  ("CallNonvirtualLongMethodA", fn t_slong [t_pointer; t_pointer; t_pointer; t_pointer; t_pointer] false);
  ("CallNonvirtualFloatMethod", fn t_float [t_pointer; t_pointer; t_pointer; t_pointer] true);
  ("CallNonvirtualFloatMethodV", fn t_float [t_pointer; t_pointer; t_pointer; t_pointer; t_va_list] false);
  ("CallNonvirtualFloatMethodA", fn t_float [t_pointer; t_pointer; t_pointer; t_pointer; t_pointer] false);
  ("CallNonvirtualDoubleMethod", fn t_double [t_pointer; t_pointer; t_pointer; t_pointer] true);
  ("CallNonvirtualDoubleMethodV", fn t_double [t_pointer; t_pointer; t_pointer; t_pointer; t_va_list] false);
  ("CallNonvirtualDoubleMethodA", fn t_double [t_pointer; t_pointer; t_pointer; t_pointer; t_pointer] false);
  ("CallNonvirtualVoidMethod", fn t_void [t_pointer; t_pointer; t_pointer; t_pointer] true);
  ("CallNonvirtualVoidMethodV", fn t_void [t_pointer; t_pointer; t_pointer; t_pointer; t_va_list] false);
  ("CallNonvirtualVoidMethodA", fn t_void [t_pointer; t_pointer; t_pointer; t_pointer; t_pointer] false);
  ("GetFieldID", fn t_pointer [t_pointer; t_pointer; t_pointer; t_pointer] false);
  ("GetObjectField", fn t_pointer [t_pointer; t_pointer; t_pointer] false);
  ("GetBooleanField", fn t_uchar [t_pointer; t_pointer; t_pointer] false);
  ("GetByteField", fn t_schar [t_pointer; t_pointer; t_pointer] false);
  ("GetCharField", fn t_ushort [t_pointer; t_pointer; t_pointer] false);
  ("GetShortField", fn t_sshort [t_pointer; t_pointer; t_pointer] false);
  ("GetIntField", fn t_sint [t_pointer; t_pointer; t_pointer] false);
  ("GetLongField", fn t_slong [t_pointer; t_pointer; t_pointer] false);
  ("GetFloatField", fn t_float [t_pointer; t_pointer; t_pointer] false);
  ("GetDoubleField", fn t_double [t_pointer; t_pointer; t_pointer] false);
  ("SetObjectField", fn t_void [t_pointer; t_pointer; t_pointer; t_pointer] false);
  ("SetBooleanField", fn t_void [t_pointer; t_pointer; t_pointer; t_uchar] false);
  ("SetByteField", fn t_void [t_pointer; t_pointer; t_pointer; t_schar] false);
  ("SetCharField", fn t_void [t_pointer; t_pointer; t_pointer; t_ushort] false);
  ("SetShortField", fn t_void [t_pointer; t_pointer; t_pointer; t_sshort] false);
  ("SetIntField", fn t_void [t_pointer; t_pointer; t_pointer; t_sint] false);
  ("SetLongField", fn t_void [t_pointer; t_pointer; t_pointer; t_slong] false);
  ("SetFloatField", fn t_void [t_pointer; t_pointer; t_pointer; t_float] false);
  ("SetDoubleField", fn t_void [t_pointer; t_pointer; t_pointer; t_double] false);
  ("GetStaticMethodID", fn t_pointer [t_pointer; t_pointer; t_pointer; t_pointer] false);
  ("CallStaticObjectMethod", fn t_pointer [t_pointer; t_pointer; t_pointer] true);
  ("CallStaticObjectMethodV", fn t_pointer [t_pointer; t_pointer; t_pointer; t_va_list] false);
  ("CallStaticObjectMethodA", fn t_pointer [t_pointer; t_pointer; t_pointer; t_pointer] false);
  ("CallStaticBooleanMethod", fn t_uchar [t_pointer; t_pointer; t_pointer] true);
  ("CallStaticBooleanMethodV", fn t_uchar [t_pointer; t_pointer; t_pointer; t_va_list] false);
  ("CallStaticBooleanMethodA", fn t_uchar [t_pointer; t_pointer; t_pointer; t_pointer] false);
  ("CallStaticByteMethod", fn t_schar [t_pointer; t_pointer; t_pointer] true);
  ("CallStaticByteMethodV", fn t_schar [t_pointer; t_pointer; t_pointer; t_va_list] false);
  ("CallStaticByteMethodA", fn t_schar [t_pointer; t_pointer; t_pointer; t_pointer] false);
  ("CallStaticCharMethod", fn t_ushort [t_pointer; t_pointer; t_pointer] true);
  ("CallStaticCharMethodV", fn t_ushort [t_pointer; t_pointer; t_pointer; t_va_list] false);
  ("CallStaticCharMethodA", fn t_ushort [t_pointer; t_pointer; t_pointer; t_pointer] false);
  ("CallStaticShortMethod", fn t_sshort [t_pointer; t_pointer; t_pointer] true);
  ("CallStaticShortMethodV", fn t_sshort [t_pointer; t_pointer; t_pointer; t_va_list] false);
  ("CallStaticShortMethodA", fn t_sshort [t_pointer; t_pointer; t_pointer; t_pointer] false);
  ("CallStaticIntMethod", fn t_sint [t_pointer; t_pointer; t_pointer] true);
  ("CallStaticIntMethodV", fn t_sint [t_pointer; t_pointer; t_pointer; t_va_list] false);
  ("CallStaticIntMethodA", fn t_sint [t_pointer; t_pointer; t_pointer; t_pointer] false);
  ("CallStaticLongMethod", fn t_slong [t_pointer; t_pointer; t_pointer] true);
  ("CallStaticLongMethodV", fn t_slong [t_pointer; t_pointer; t_pointer; t_va_list] false);
  ("CallStaticLongMethodA", fn t_slong [t_pointer; t_pointer; t_pointer; t_pointer] false);
  ("CallStaticFloatMethod", fn t_float [t_pointer; t_pointer; t_pointer] true);
  ("CallStaticFloatMethodV", fn t_float [t_pointer; t_pointer; t_pointer; t_va_list] false);
  ("CallStaticFloatMethodA", fn t_float [t_pointer; t_pointer; t_pointer; t_pointer] false);
  ("CallStaticDoubleMethod", fn t_double [t_pointer; t_pointer; t_pointer] true);
  ("CallStaticDoubleMethodV", fn t_double [t_pointer; t_pointer; t_pointer; t_va_list] false);
  ("CallStaticDoubleMethodA", fn t_double [t_pointer; t_pointer; t_pointer; t_pointer] false);
  ("CallStaticVoidMethod", fn t_void [t_pointer; t_pointer; t_pointer] true);
  ("CallStaticVoidMethodV", fn t_void [t_pointer; t_pointer; t_pointer; t_va_list] false);
  ("CallStaticVoidMethodA", fn t_void [t_pointer; t_pointer; t_pointer; t_pointer] false);
  ("GetStaticFieldID", fn t_pointer [t_pointer; t_pointer; t_pointer; t_pointer] false);
  ("GetStaticObjectField", fn t_pointer [t_pointer; t_pointer; t_pointer] false);
  ("GetStaticBooleanField", fn t_uchar [t_pointer; t_pointer; t_pointer] false);
  ("GetStaticByteField", fn t_schar [t_pointer; t_pointer; t_pointer] false);
  ("GetStaticCharField", fn t_ushort [t_pointer; t_pointer; t_pointer] false);
  ("GetStaticShortField", fn t_sshort [t_pointer; t_pointer; t_pointer] false);
  ("GetStaticIntField", fn t_sint [t_pointer; t_pointer; t_pointer] false);
  ("GetStaticLongField", fn t_slong [t_pointer; t_pointer; t_pointer] false);
  ("GetStaticFloatField", fn t_float [t_pointer; t_pointer; t_pointer] false);
  ("GetStaticDoubleField", fn t_double [t_pointer; t_pointer; t_pointer] false);
  ("SetStaticObjectField", fn t_void [t_pointer; t_pointer; t_pointer; t_pointer] false);
  ("SetStaticBooleanField", fn t_void [t_pointer; t_pointer; t_pointer; t_uchar] false);
  ("SetStaticByteField", fn t_void [t_pointer; t_pointer; t_pointer; t_schar] false);
  ("SetStaticCharField", fn t_void [t_pointer; t_pointer; t_pointer; t_ushort] false);
  ("SetStaticShortField", fn t_void [t_pointer; t_pointer; t_pointer; t_sshort] false);
  ("SetStaticIntField", fn t_void [t_pointer; t_pointer; t_pointer; t_sint] false)].

Definition jni_decls_3 : list (string * fn_type) := [
  ("SetStaticLongField", fn t_void [t_pointer; t_pointer; t_pointer; t_slong] false);
  ("SetStaticFloatField", fn t_void [t_pointer; t_pointer; t_pointer; t_float] false);
  ("SetStaticDoubleField", fn t_void [t_pointer; t_pointer; t_pointer; t_double] false);
  ("NewString", fn t_pointer [t_pointer; t_pointer; t_sint] false);
  ("GetStringLength", fn t_sint [t_pointer; t_pointer] false);
  ("GetStringChars", fn t_pointer [t_pointer; t_pointer; t_pointer] false);
  ("ReleaseStringChars", fn t_void [t_pointer; t_pointer; t_pointer] false);
  ("NewStringUTF", fn t_pointer [t_pointer; t_pointer] false);
  ("GetStringUTFLength", fn t_sint [t_pointer; t_pointer] false);
  ("GetStringUTFChars", fn t_pointer [t_pointer; t_pointer; t_pointer] false);
  ("ReleaseStringUTFChars", fn t_void [t_pointer; t_pointer; t_pointer] false);
  ("GetArrayLength", fn t_sint [t_pointer; t_pointer] false);
  ("NewObjectArray", fn t_pointer [t_pointer; t_sint; t_pointer; t_pointer] false);
  ("GetObjectArrayElement", fn t_pointer [t_pointer; t_pointer; t_sint] false);
  ("SetObjectArrayElement", fn t_void [t_pointer; t_pointer; t_sint; t_pointer] false);
  ("NewBooleanArray", fn t_pointer [t_pointer; t_sint] false);
  ("NewByteArray", fn t_pointer [t_pointer; t_sint] false);
  ("NewCharArray", fn t_pointer [t_pointer; t_sint] false);
  ("NewShortArray", fn t_pointer [t_pointer; t_sint] false);
  ("NewIntArray", fn t_pointer [t_pointer; t_sint] false);
  ("NewLongArray", fn t_pointer [t_pointer; t_sint] false);
  ("NewFloatArray", fn t_pointer [t_pointer; t_sint] false);
  ("NewDoubleArray", fn t_pointer [t_pointer; t_sint] false);
  ("GetBooleanArrayElements", fn t_pointer [t_pointer; t_pointer; t_pointer] false);
  ("GetByteArrayElements", fn t_pointer [t_pointer; t_pointer; t_pointer] false);
  ("GetCharArrayElements", fn t_pointer [t_pointer; t_pointer; t_pointer] false);
  ("GetShortArrayElements", fn t_pointer [t_pointer; t_pointer; t_pointer] false);
  ("GetIntArrayElements", fn t_pointer [t_pointer; t_pointer; t_pointer] false);
  ("GetLongArrayElements", fn t_pointer [t_pointer; t_pointer; t_pointer] false);
  ("GetFloatArrayElements", fn t_pointer [t_pointer; t_pointer; t_pointer] false);
  ("GetDoubleArrayElements", fn t_pointer [t_pointer; t_pointer; t_pointer] false);
  ("ReleaseBooleanArrayElements", fn t_void [t_pointer; t_pointer; t_pointer; t_sint] false);
  ("ReleaseByteArrayElements", fn t_void [t_pointer; t_pointer; t_pointer; t_sint] false);
  ("ReleaseCharArrayElements", fn t_void [t_pointer; t_pointer; t_pointer; t_sint] false);
  ("ReleaseShortArrayElements", fn t_void [t_pointer; t_pointer; t_pointer; t_sint] false);
  ("ReleaseIntArrayElements", fn t_void [t_pointer; t_pointer; t_pointer; t_sint] false);
  ("ReleaseLongArrayElements", fn t_void [t_pointer; t_pointer; t_pointer; t_sint] false);
  ("ReleaseFloatArrayElements", fn t_void [t_pointer; t_pointer; t_pointer; t_sint] false);
  ("ReleaseDoubleArrayElements", fn t_void [t_pointer; t_pointer; t_pointer; t_sint] false);
  ("GetBooleanArrayRegion", fn t_void [t_pointer; t_pointer; t_sint; t_sint; t_pointer] false);
  ("GetByteArrayRegion", fn t_void [t_pointer; t_pointer; t_sint; t_sint; t_pointer] false);
  ("GetCharArrayRegion", fn t_void [t_pointer; t_pointer; t_sint; t_sint; t_pointer] false);
  ("GetShortArrayRegion", fn t_void [t_pointer; t_pointer; t_sint; t_sint; t_pointer] false);
  ("GetIntArrayRegion", fn t_void [t_pointer; t_pointer; t_sint; t_sint; t_pointer] false);
  ("GetLongArrayRegion", fn t_void [t_pointer; t_pointer; t_sint; t_sint; t_pointer] false);
  ("GetFloatArrayRegion", fn t_void [t_pointer; t_pointer; t_sint; t_sint; t_pointer] false);
  ("GetDoubleArrayRegion", fn t_void [t_pointer; t_pointer; t_sint; t_sint; t_pointer] false);
  ("SetBooleanArrayRegion", fn t_void [t_pointer; t_pointer; t_sint; t_sint; t_pointer] false);
  ("SetByteArrayRegion", fn t_void [t_pointer; t_pointer; t_sint; t_sint; t_pointer] false);
  ("SetCharArrayRegion", fn t_void [t_pointer; t_pointer; t_sint; t_sint; t_pointer] false);
  ("SetShortArrayRegion", fn t_void [t_pointer; t_pointer; t_sint; t_sint; t_pointer] false);
  ("SetIntArrayRegion", fn t_void [t_pointer; t_pointer; t_sint; t_sint; t_pointer] false);
  ("SetLongArrayRegion", fn t_void [t_pointer; t_pointer; t_sint; t_sint; t_pointer] false);
  ("SetFloatArrayRegion", fn t_void [t_pointer; t_pointer; t_sint; t_sint; t_pointer] false);
  ("SetDoubleArrayRegion", fn t_void [t_pointer; t_pointer; t_sint; t_sint; t_pointer] false);
  ("RegisterNatives", fn t_sint [t_pointer; t_pointer; t_pointer; t_sint] false);
  ("UnregisterNatives", fn t_sint [t_pointer; t_pointer] false);
  ("MonitorEnter", fn t_sint [t_pointer; t_pointer] false);
  ("MonitorExit", fn t_sint [t_pointer; t_pointer] false);
  ("GetJavaVM", fn t_sint [t_pointer; t_pointer] false);
  ("GetStringRegion", fn t_void [t_pointer; t_pointer; t_sint; t_sint; t_pointer] false);
  ("GetStringUTFRegion", fn t_void [t_pointer; t_pointer; t_sint; t_sint; t_pointer] false);
  ("GetPrimitiveArrayCritical", fn t_pointer [t_pointer; t_pointer; t_pointer] false);
  ("ReleasePrimitiveArrayCritical", fn t_void [t_pointer; t_pointer; t_pointer; t_sint] false);
  ("GetStringCritical", fn t_pointer [t_pointer; t_pointer; t_pointer] false);
  ("ReleaseStringCritical", fn t_void [t_pointer; t_pointer; t_pointer] false);
  ("NewWeakGlobalRef", fn t_pointer [t_pointer; t_pointer] false);
  ("DeleteWeakGlobalRef", fn t_void [t_pointer; t_pointer] false);
  ("ExceptionCheck", fn t_uchar [t_pointer] false);
  ("NewDirectByteBuffer", fn t_pointer [t_pointer; t_pointer; t_slong] false);
  ("GetDirectBufferAddress", fn t_pointer [t_pointer; t_pointer] false);
  ("GetDirectBufferCapacity", fn t_slong [t_pointer; t_pointer] false)].

Definition jni_decls : list (string * fn_type) :=
  jni_decls_1 ++ jni_decls_2 ++ jni_decls_3.

Definition jni_env_rows_1 : list table_row := [
  Unused "unused0"; Unused "unused1"; Unused "unused2"; Unused "unused3"; Fn "GetVersion";
  Fn "DefineClass"; Fn "FindClass"; Fn "FromReflectedMethod"; Fn "FromReflectedField";
  Fn "ToReflectedMethod"; Fn "GetSuperclass"; Fn "IsAssignableFrom"; Fn "ToReflectedField";
  Fn "Throw"; Fn "ThrowNew"; Fn "ExceptionOccurred"; Fn "ExceptionDescribe"; Fn "ExceptionClear";
  Fn "FatalError"; Fn "PushLocalFrame"; Fn "PopLocalFrame"; Fn "NewGlobalRef";
  Fn "DeleteGlobalRef"; Fn "DeleteLocalRef"; Fn "IsSameObject"; Fn "NewLocalRef";
  Fn "EnsureLocalCapacity"; Fn "AllocObject"; Fn "NewObject"; Fn "NewObjectV"; Fn "NewObjectA";
  Fn "GetObjectClass"; Fn "IsInstanceOf"; Fn "GetMethodID"; Fn "CallObjectMethod";
  Fn "CallObjectMethodV"; Fn "CallObjectMethodA"; Fn "CallBooleanMethod"; Fn "CallBooleanMethodV";
  Fn "CallBooleanMethodA"; Fn "CallByteMethod"; Fn "CallByteMethodV"; Fn "CallByteMethodA";
  Fn "CallCharMethod"; Fn "CallCharMethodV"; Fn "CallCharMethodA"; Fn "CallShortMethod";
  Fn "CallShortMethodV"; Fn "CallShortMethodA"; Fn "CallIntMethod"; Fn "CallIntMethodV";
  Fn "CallIntMethodA"; Fn "CallLongMethod"; Fn "CallLongMethodV"; Fn "CallLongMethodA";
  Fn "CallFloatMethod"; Fn "CallFloatMethodV"; Fn "CallFloatMethodA"; Fn "CallDoubleMethod";
  Fn "CallDoubleMethodV"; Fn "CallDoubleMethodA"; Fn "CallVoidMethod"; Fn "CallVoidMethodV";
  Fn "CallVoidMethodA"; Fn "CallNonvirtualObjectMethod"; Fn "CallNonvirtualObjectMethodV";
  Fn "CallNonvirtualObjectMethodA"; Fn "CallNonvirtualBooleanMethod";
  Fn "CallNonvirtualBooleanMethodV"; Fn "CallNonvirtualBooleanMethodA";
  Fn "CallNonvirtualByteMethod"; Fn "CallNonvirtualByteMethodV"; Fn "CallNonvirtualByteMethodA";
  Fn "CallNonvirtualCharMethod"; Fn "CallNonvirtualCharMethodV"; Fn "CallNonvirtualCharMethodA";
  Fn "CallNonvirtualShortMethod"; Fn "CallNonvirtualShortMethodV";
  Fn "CallNonvirtualShortMethodA"; Fn "CallNonvirtualIntMethod"; Fn "CallNonvirtualIntMethodV";
  Fn "CallNonvirtualIntMethodA"; Fn "CallNonvirtualLongMethod"; Fn "CallNonvirtualLongMethodV";
  Fn "CallNonvirtualLongMethodA"; Fn "CallNonvirtualFloatMethod"; Fn "CallNonvirtualFloatMethodV";
  Fn "CallNonvirtualFloatMethodA"; Fn "CallNonvirtualDoubleMethod";
  Fn "CallNonvirtualDoubleMethodV"; Fn "CallNonvirtualDoubleMethodA";
  Fn "CallNonvirtualVoidMethod"; Fn "CallNonvirtualVoidMethodV"; Fn "CallNonvirtualVoidMethodA";
  Fn "GetFieldID"; Fn "GetObjectField"; Fn "GetBooleanField"; Fn "GetByteField";
  Fn "GetCharField"; Fn "GetShortField"; Fn "GetIntField"; Fn "GetLongField"; Fn "GetFloatField";
  Fn "GetDoubleField"; Fn "SetObjectField"; Fn "SetBooleanField"; Fn "SetByteField";
  Fn "SetCharField"; Fn "SetShortField"; Fn "SetIntField"; Fn "SetLongField"; Fn "SetFloatField";
  Fn "SetDoubleField"; Fn "GetStaticMethodID"; Fn "CallStaticObjectMethod";
  Fn "CallStaticObjectMethodV"; Fn "CallStaticObjectMethodA"; Fn "CallStaticBooleanMethod";
  Fn "CallStaticBooleanMethodV"; Fn "CallStaticBooleanMethodA"; Fn "CallStaticByteMethod";
  Fn "CallStaticByteMethodV"; Fn "CallStaticByteMethodA"].

Definition jni_env_rows_2 : list table_row := [
  Fn "CallStaticCharMethod"; Fn "CallStaticCharMethodV"; Fn "CallStaticCharMethodA";
  Fn "CallStaticShortMethod"; Fn "CallStaticShortMethodV"; Fn "CallStaticShortMethodA";
  Fn "CallStaticIntMethod"; Fn "CallStaticIntMethodV"; Fn "CallStaticIntMethodA";
  Fn "CallStaticLongMethod"; Fn "CallStaticLongMethodV"; Fn "CallStaticLongMethodA";
  Fn "CallStaticFloatMethod"; Fn "CallStaticFloatMethodV"; Fn "CallStaticFloatMethodA";
  Fn "CallStaticDoubleMethod"; Fn "CallStaticDoubleMethodV"; Fn "CallStaticDoubleMethodA";
  Fn "CallStaticVoidMethod"; Fn "CallStaticVoidMethodV"; Fn "CallStaticVoidMethodA";
  Fn "GetStaticFieldID"; Fn "GetStaticObjectField"; Fn "GetStaticBooleanField";
  Fn "GetStaticByteField"; Fn "GetStaticCharField"; Fn "GetStaticShortField";
  Fn "GetStaticIntField"; Fn "GetStaticLongField"; Fn "GetStaticFloatField";
  Fn "GetStaticDoubleField"; Fn "SetStaticObjectField"; Fn "SetStaticBooleanField";
  Fn "SetStaticByteField"; Fn "SetStaticCharField"; Fn "SetStaticShortField";
  Fn "SetStaticIntField"; Fn "SetStaticLongField"; Fn "SetStaticFloatField";
  Fn "SetStaticDoubleField"; Fn "NewString"; Fn "GetStringLength"; Fn "GetStringChars";
  Fn "ReleaseStringChars"; Fn "NewStringUTF"; Fn "GetStringUTFLength"; Fn "GetStringUTFChars";
  Fn "ReleaseStringUTFChars"; Fn "GetArrayLength"; Fn "NewObjectArray";
  Fn "GetObjectArrayElement"; Fn "SetObjectArrayElement"; Fn "NewBooleanArray"; Fn "NewByteArray";
  Fn "NewCharArray"; Fn "NewShortArray"; Fn "NewIntArray"; Fn "NewLongArray"; Fn "NewFloatArray";
  Fn "NewDoubleArray"; Fn "GetBooleanArrayElements"; Fn "GetByteArrayElements";
  Fn "GetCharArrayElements"; Fn "GetShortArrayElements"; Fn "GetIntArrayElements";
  Fn "GetLongArrayElements"; Fn "GetFloatArrayElements"; Fn "GetDoubleArrayElements";
  Fn "ReleaseBooleanArrayElements"; Fn "ReleaseByteArrayElements"; Fn "ReleaseCharArrayElements";
  Fn "ReleaseShortArrayElements"; Fn "ReleaseIntArrayElements"; Fn "ReleaseLongArrayElements";
  Fn "ReleaseFloatArrayElements"; Fn "ReleaseDoubleArrayElements"; Fn "GetBooleanArrayRegion";
  Fn "GetByteArrayRegion"; Fn "GetCharArrayRegion"; Fn "GetShortArrayRegion";
  Fn "GetIntArrayRegion"; Fn "GetLongArrayRegion"; Fn "GetFloatArrayRegion";
  Fn "GetDoubleArrayRegion"; Fn "SetBooleanArrayRegion"; Fn "SetByteArrayRegion";
  Fn "SetCharArrayRegion"; Fn "SetShortArrayRegion"; Fn "SetIntArrayRegion";
  Fn "SetLongArrayRegion"; Fn "SetFloatArrayRegion"; Fn "SetDoubleArrayRegion";
  Fn "RegisterNatives"; Fn "UnregisterNatives"; Fn "MonitorEnter"; Fn "MonitorExit";
  Fn "GetJavaVM"; Fn "GetStringRegion"; Fn "GetStringUTFRegion"; Fn "GetPrimitiveArrayCritical";
  Fn "ReleasePrimitiveArrayCritical"; Fn "GetStringCritical"; Fn "ReleaseStringCritical";
  Fn "NewWeakGlobalRef"; Fn "DeleteWeakGlobalRef"; Fn "ExceptionCheck"; Fn "NewDirectByteBuffer";
  Fn "GetDirectBufferAddress"; Fn "GetDirectBufferCapacity"].

Definition jni_env_rows : list table_row := jni_env_rows_1 ++ jni_env_rows_2.

Definition jni_invocation_rows : list table_row := [
  Unused "unused0"; Unused "unused1"; Unused "unused2"; Fn "DestroyJavaVM";
  Fn "AttachCurrentThread"; Fn "DetachCurrentThread"; Fn "GetEnv"; Fn "AttachCurrentAsDaemon"].
