(* ===== verification/Jni.v ===== *)
(** The JNI environment of src/jni.cpp and src/jni.hpp: the objects the guest's
    Java side sees, class, method and field lookup, calls of methods that the
    host implements, arrays and strings, threads, and the function tables whose
    entries are trampolines.

    Pointers are identities: an object is a key of [objects]; a class, a method or
    a field is the node of the [unordered_map] that holds it, hence named by its
    keys, which never move or disappear. *)
From S2P Require Import Prelude FunctionTraits Trampoline JniTable.
Local Open Scope Z_scope.

Definition JNI_OK : Z := 0.
Definition JNI_EDETACHED : Z := -2.
Definition JNI_VERSION : Z := 0x10006.

(** [std::variant<jboolean, ..., jobject>]; floating-point values are their bits,
    a null pointer is 0. *)
Inductive ValueVariant : Type :=
| VBoolean (z : Z) | VByte (b : Z) | VChar (c : Z) | VShort (s : Z) | VInt (i : Z) | VLong (j : Z)
| VFloat (f : Z) | VDouble (d : Z) | VObject (l : Z).

(** The types the macros instantiate the templates with. *)
Inductive jtype : Type :=
| TVoid | TObject | TBoolean | TByte | TChar | TShort | TInt | TLong | TFloat | TDouble.
#[global] Instance jtype_eq_dec : EqDecision jtype.
Proof. solve_decision. Defined.

(** [std::get<T>]. *)
Definition variant_get (t : jtype) (v : ValueVariant) : option Z :=
  match t, v with
  | TBoolean, VBoolean x | TByte, VByte x | TChar, VChar x | TShort, VShort x | TInt, VInt x
  | TLong, VLong x | TFloat, VFloat x | TDouble, VDouble x | TObject, VObject x => Some x
  | _, _ => None
  end.

Abbreviation jclass := (Z * string)%type.
Abbreviation jmethodID := (Z * string * string)%type.
Abbreviation jfieldID := (Z * string * string)%type.

Inductive MethodType : Type := Static | Member.

(** The functions behind methods: the three that [java_vm_new] registers, and
    those of the class stubs, by number. *)
Inductive host_method : Type := String_getBytes | List_get | List_size | Stub (id : Z).

Record Method : Type := {
  m_type : MethodType;
  m_name : string;
  m_owner_class : jclass;
  m_function : host_method
}.

Record Class : Type := {
  full_name : string;
  class_fields : gmap string ValueVariant;
  methods : gmap string Method
}.
Definition new_class (name : string) : Class :=
  {| full_name := name; class_fields := ∅; methods := ∅ |}.

Inductive object_data : Type :=
| PlainObject
| StringData (str : string)
| ArrayData (elem : jtype) (array_size : Z) (array : list Z).

Record Object : Type := {
  super : option jclass;
  object_fields : gmap jfieldID ValueVariant;
  obj_data : object_data
}.

Record JNIEnv : Type := {
  env_functions : option (list Z);
  env_vm : option Z;
  has_exception : bool
}.
Record JNIThreadData : Type := { initialized : bool; env : JNIEnv }.
Definition fresh_thread_data : JNIThreadData :=
  {| initialized := false; env := {| env_functions := None; env_vm := None; has_exception := false |} |}.

Record JavaVM : Type := {
  invocation : option (list Z);
  native_interface_functions : option (list Z);
  name_to_class : gmap string Class
}.

(** The globals, the heap objects, the thread-local data of every thread, the
    trampoline table, and for the class stubs their static variables by name and
    the codes of the SDL events they post.  A table pointer is the list of its
    entries. *)
Record jni_state : Type := {
  vms : gmap Z JavaVM;
  objects : gmap Z Object;
  next_pointer : Z;
  thread_data : gmap Z JNIThreadData;
  current_thread : Z;
  did_init_funcs : bool;
  jni_env_functions : list Z;
  jni_invocation_functions : list Z;
  string_class : option jclass;
  list_class : option jclass;
  table : trampoline_state;
  statics : gmap string Z;
  posted_events : list Z
}.
Abbreviation JM := (M jni_state).

Definition set_vms v s := {| vms := v; objects := objects s; next_pointer := next_pointer s;
  thread_data := thread_data s; current_thread := current_thread s; did_init_funcs := did_init_funcs s;
  jni_env_functions := jni_env_functions s; jni_invocation_functions := jni_invocation_functions s;
  string_class := string_class s; list_class := list_class s; table := table s;
  statics := statics s; posted_events := posted_events s |}.
Definition set_objects v n s := {| vms := vms s; objects := v; next_pointer := n;
  thread_data := thread_data s; current_thread := current_thread s; did_init_funcs := did_init_funcs s;
  jni_env_functions := jni_env_functions s; jni_invocation_functions := jni_invocation_functions s;
  string_class := string_class s; list_class := list_class s; table := table s;
  statics := statics s; posted_events := posted_events s |}.
Definition set_thread_data v s := {| vms := vms s; objects := objects s; next_pointer := next_pointer s;
  thread_data := v; current_thread := current_thread s; did_init_funcs := did_init_funcs s;
  jni_env_functions := jni_env_functions s; jni_invocation_functions := jni_invocation_functions s;
  string_class := string_class s; list_class := list_class s; table := table s;
  statics := statics s; posted_events := posted_events s |}.
Definition set_functions b e i s := {| vms := vms s; objects := objects s; next_pointer := next_pointer s;
  thread_data := thread_data s; current_thread := current_thread s; did_init_funcs := b;
  jni_env_functions := e; jni_invocation_functions := i;
  string_class := string_class s; list_class := list_class s; table := table s;
  statics := statics s; posted_events := posted_events s |}.
Definition set_well_known sc lc s := {| vms := vms s; objects := objects s; next_pointer := next_pointer s;
  thread_data := thread_data s; current_thread := current_thread s; did_init_funcs := did_init_funcs s;
  jni_env_functions := jni_env_functions s; jni_invocation_functions := jni_invocation_functions s;
  string_class := sc; list_class := lc; table := table s;
  statics := statics s; posted_events := posted_events s |}.
Definition set_table t s := {| vms := vms s; objects := objects s; next_pointer := next_pointer s;
  thread_data := thread_data s; current_thread := current_thread s; did_init_funcs := did_init_funcs s;
  jni_env_functions := jni_env_functions s; jni_invocation_functions := jni_invocation_functions s;
  string_class := string_class s; list_class := list_class s; table := t;
  statics := statics s; posted_events := posted_events s |}.

Definition set_statics v s := {| vms := vms s; objects := objects s; next_pointer := next_pointer s;
  thread_data := thread_data s; current_thread := current_thread s; did_init_funcs := did_init_funcs s;
  jni_env_functions := jni_env_functions s; jni_invocation_functions := jni_invocation_functions s;
  string_class := string_class s; list_class := list_class s; table := table s;
  statics := v; posted_events := posted_events s |}.
Definition set_posted_events v s := {| vms := vms s; objects := objects s; next_pointer := next_pointer s;
  thread_data := thread_data s; current_thread := current_thread s; did_init_funcs := did_init_funcs s;
  jni_env_functions := jni_env_functions s; jni_invocation_functions := jni_invocation_functions s;
  string_class := string_class s; list_class := list_class s; table := table s;
  statics := statics s; posted_events := v |}.

(** An operation of trampoline.cpp. *)
Definition on_table {A} (c : M trampoline_state A) : JM A :=
  fun s => let '(r, t) := c (table s) in (r, set_table t s).

(** ** Objects *)
Definition object_at (p : Z) : JM Object := let! os := gets objects in deref (os !! p).
Definition new_object (o : Object) : JM Z :=
  let! os := gets objects in
  let! p := gets next_pointer in
  modify (set_objects (<[p := o]> os) (p + 1)) ;; ret p.
Definition update_object (p : Z) (o : Object) : JM unit :=
  let! os := gets objects in
  let! n := gets next_pointer in
  modify (set_objects (<[p := o]> os) n).

(** [reinterpret_cast] to a string or to an array with elements of a type. *)
Definition as_string (p : Z) : JM string :=
  let! o := object_at p in
  match obj_data o with StringData s => ret s | _ => stop Undefined end.
Definition as_array (t : jtype) (p : Z) : JM (Z * list Z) :=
  let! o := object_at p in
  match obj_data o with
  | ArrayData t' n l => if bool_decide (t = t') then ret (n, l) else stop Undefined
  | _ => stop Undefined
  end.
(** An array whatever its elements ([jarray]). *)
Definition as_any_array (p : Z) : JM Z :=
  let! o := object_at p in
  match obj_data o with ArrayData _ n _ => ret n | _ => stop Undefined end.
Definition set_array (t : jtype) (p : Z) (n : Z) (l : list Z) : JM unit :=
  let! o := object_at p in
  update_object p {| super := super o; object_fields := object_fields o; obj_data := ArrayData t n l |}.
Definition new_array_object (t : jtype) (n : Z) (l : list Z) : JM Z :=
  new_object {| super := None; object_fields := ∅; obj_data := ArrayData t n l |}.

(** The part of a C string before its terminator. *)
Fixpoint c_str (s : string) : string :=
  match s with
  | EmptyString => EmptyString
  | String c s' => if Ascii.eqb c Ascii.zero then EmptyString else String c (c_str s')
  end.

(** [create_string] of a C string; the overload for [std::string] passes [c_str()]. *)
Definition create_string (str : string) : JM Z :=
  let! sc := gets string_class in
  new_object {| super := sc; object_fields := ∅; obj_data := StringData (c_str str) |}.

(** ** Classes, methods and fields *)
Definition vm_at (vm : Z) : JM JavaVM := let! m := gets vms in deref (m !! vm).
Definition class_at (c : jclass) : JM Class :=
  let! vm := vm_at (fst c) in deref (name_to_class vm !! snd c).
Definition update_class (c : jclass) (k : Class) : JM unit :=
  let! vm := vm_at (fst c) in
  modify (fun s => set_vms (<[fst c := {| invocation := invocation vm;
    native_interface_functions := native_interface_functions vm;
    name_to_class := <[snd c := k]> (name_to_class vm) |}]> (vms s)) s).

(** [insert] keeps an entry that is already there. *)
Definition create_class (vm : Z) (name : string) : JM jclass :=
  let! v := vm_at vm in
  (match name_to_class v !! name with
   | Some _ => ret tt
   | None => update_class (vm, name) (new_class name)
   end) ;;
  ret (vm, name).

Definition insert_method (c : jclass) (name : string) (t : MethodType) (f : host_method) : JM jmethodID :=
  let! k := class_at c in
  (match methods k !! name with
   | Some _ => ret tt
   | None => update_class c {| full_name := full_name k; class_fields := class_fields k;
       methods := <[name := {| m_type := t; m_name := name; m_owner_class := c; m_function := f |}]> (methods k) |}
   end) ;;
  ret (c, name).
Definition class_static_method (c : jclass) (name : string) (f : host_method) : JM jmethodID :=
  insert_method c name Static f.
Definition class_method (c : jclass) (name : string) (f : host_method) : JM jmethodID :=
  insert_method c name Member f.

Definition class_static_field (c : jclass) (name : string) (value : ValueVariant) : JM jfieldID :=
  let! k := class_at c in
  (match class_fields k !! name with
   | Some _ => ret tt
   | None => update_class c {| full_name := full_name k;
       class_fields := <[name := value]> (class_fields k); methods := methods k |}
   end) ;;
  ret (c, name).
(** [Field(nullptr)]. *)
Definition class_field (c : jclass) (name : string) : JM jfieldID := class_static_field c name (VObject 0).

(** ** Threads and the environment *)
Definition my_thread_data : JM JNIThreadData :=
  gets (fun s => default fresh_thread_data (thread_data s !! current_thread s)).

(** Returns the environment's identity: the thread it belongs to. *)
Definition attach_thread (vm : Z) : JM Z :=
  let! tid := gets current_thread in
  let! d := my_thread_data in
  if initialized d then ret tid
  else
    let! v := vm_at vm in
    modify (fun s => set_thread_data (<[tid := {| initialized := true;
      env := {| env_functions := native_interface_functions v; env_vm := Some vm;
                has_exception := has_exception (env d) |} |}]> (thread_data s)) s) ;;
    ret tid.

Definition get_jni_env : JM (option Z) :=
  let! tid := gets current_thread in
  let! d := my_thread_data in
  ret (if initialized d then Some tid else None).

Definition env_at (e : Z) : JM JNIEnv :=
  gets (fun s => env (default fresh_thread_data (thread_data s !! e))).

Section Jni.
(** Addresses of the host functions, by name. *)
Variable host_address : string -> Z.
(** The stub methods: run with the object or the class and the arguments. *)
Variable stub : Z -> Z -> list Z -> JM ValueVariant.
Variable static_stub : Z -> jclass -> list Z -> JM ValueVariant.

(** ** The function tables *)
Definition row_symbol (r : table_row) : dynamic_symbol :=
  match r with
  | Unused name => dynamic_symbol_ptr name 0
  | Fn name =>
      match list_find (fun d => fst d = name) jni_decls with
      | Some (_, d) => dynamic_symbol_fn name (host_address name) (snd d)
      | None => dynamic_symbol_ptr name (host_address name)
      end
  end.

(** One turn of the loops of [java_vm_new]. *)
Definition table_entry (sym : dynamic_symbol) : JM Z :=
  match sym_arg_types sym with
  | [] => ret (sym_value sym)
  | _ =>
      on_table (
        let! i := trampoline_create (sym_name sym) (sym_value sym) (sym_arg_types sym)
                    (sym_is_ellipsis_function sym) (sym_has_execution_side_effects sym) in
        let! ts := gets trampolines in
        let! t := deref (ts !! i) in
        ret (t_guest_trampoline t))
  end.
Fixpoint table_entries (syms : list dynamic_symbol) : JM (list Z) :=
  match syms with
  | [] => ret []
  | sym :: syms' =>
      let! a := table_entry sym in
      let! l := table_entries syms' in
      ret (a :: l)
  end.

Definition init_functions : JM unit :=
  let! done := gets did_init_funcs in
  if done then ret tt
  else
    let! e := table_entries (map row_symbol jni_env_rows) in
    let! i := table_entries (map row_symbol jni_invocation_rows) in
    modify (set_functions true e i).

Definition java_vm_new : JM Z :=
  let! vm := gets next_pointer in
  modify (fun s => set_objects (objects s) (vm + 1) s) ;;
  modify (fun s => set_vms (<[vm := {| invocation := None; native_interface_functions := None;
                                       name_to_class := ∅ |}]> (vms s)) s) ;;
  init_functions ;;
  modify (fun s => set_vms (<[vm := {| invocation := Some (jni_invocation_functions s);
    native_interface_functions := Some (jni_env_functions s); name_to_class := ∅ |}]> (vms s)) s) ;;
  let! _ := attach_thread vm in
  let! sc := create_class vm "java/lang/String" in
  modify (fun s => set_well_known (Some sc) (list_class s) s) ;;
  let! _ := class_method sc "getBytes" String_getBytes in
  let! lc := create_class vm "java/util/List" in
  modify (fun s => set_well_known (string_class s) (Some lc) s) ;;
  let! _ := class_method lc "get" List_get in
  let! _ := class_method lc "size" List_size in
  ret vm.

(** ** Calls of methods *)

(** The functions [java_vm_new] registers; [va_arg(args, jint)] takes the first
    argument as a signed 32-bit integer. *)
Definition call_method_function (f : host_method) (object : Z) (args : list Z) : JM ValueVariant :=
  match f with
  | String_getBytes =>
      let! str := as_string object in
      let! bytes := new_array_object TByte 0
        (map (fun c => swrap 8 (Z.of_nat (nat_of_ascii c))) (String.list_ascii_of_string str)) in
      ret (VObject bytes)
  | List_get =>
      let! index := deref (head args) in
      let! a := as_array TObject object in
      let! l := at_ (nthZ (snd a) (u64 (i32 index))) in
      ret (VObject l)
  | List_size => let! n := as_any_array object in ret (VInt n)
  | Stub id => stub id object args
  end.
(** A member function registered as a static one does not exist in the program. *)
Definition call_static_function (f : host_method) (clazz : jclass) (args : list Z) : JM ValueVariant :=
  match f with Stub id => static_stub id clazz args | _ => stop Undefined end.

Definition method_at (m : jmethodID) : JM Method :=
  let! k := class_at (fst m) in deref (methods k !! snd m).

(** [std::get<T>(value)], or nothing for [void]. *)
Definition get_result (t : jtype) (v : ValueVariant) : JM Z :=
  match t with
  | TVoid => ret 0
  | _ => match variant_get t v with Some x => ret x | None => throw bad_variant_access end
  end.

Definition method_call_generic (t : jtype) (method : jmethodID) (clazz : option jclass)
    (object : Z) (args : list Z) : JM Z :=
  let! m := method_at method in
  match m_type m with
  | Static =>
      match clazz with
      | None => stop AssertFailed
      | Some c => let! v := call_static_function (m_function m) c args in get_result t v
      end
  | Member =>
      assert_ (negb (object =? 0)) ;;
      let! v := call_method_function (m_function m) object args in get_result t v
  end.

(** The functions [DEFINE_METHOD_CALL_FUNCTIONS] defines for a type; the forms
    with an ellipsis or an array of values are not implemented. *)
Definition CallStaticMethodV (t : jtype) (clazz : jclass) (method : jmethodID) (args : list Z) : JM Z :=
  method_call_generic t method (Some clazz) 0 args.
Definition CallMethodV (t : jtype) (obj : Z) (method : jmethodID) (args : list Z) : JM Z :=
  method_call_generic t method None obj args.
Definition CallNonvirtualMethodV (t : jtype) (obj : Z) (clazz : jclass) (method : jmethodID)
    (args : list Z) : JM Z :=
  method_call_generic t method (Some clazz) obj args.

Definition NewObjectV (clazz : jclass) (constructor : jmethodID) (args : list Z) : JM Z :=
  let! object := new_object {| super := Some clazz; object_fields := ∅; obj_data := PlainObject |} in
  let! _ := method_call_generic TVoid constructor (Some clazz) object args in
  ret object.
End Jni.

(** ** Fields *)
Definition field_get_generic (t : jtype) (object : Z) (field : jfieldID) : JM Z :=
  let! o := object_at object in
  match object_fields o !! field with
  | Some v => match variant_get t v with Some x => ret x | None => throw bad_variant_access end
  | None => stop AssertFailed
  end.
Definition static_field_get_generic (t : jtype) (clazz : jclass) (field : jfieldID) : JM Z :=
  let! k := class_at clazz in
  match class_fields k !! snd field with
  | Some v => match variant_get t v with Some x => ret x | None => throw bad_variant_access end
  | None => stop AssertFailed
  end.

(** ** Lookup by name *)
Definition FindClass (e : Z) (name : string) : JM jclass :=
  let! ev := env_at e in
  let! vm := deref (env_vm ev) in
  let! v := vm_at vm in
  match name_to_class v !! name with Some _ => ret (vm, name) | None => stop Terminate end.
Definition find_method_generic (clazz : jclass) (name : string) : JM jmethodID :=
  let! k := class_at clazz in
  match methods k !! name with Some _ => ret (clazz, name) | None => stop Terminate end.
Definition GetStaticMethodID : jclass -> string -> JM jmethodID := find_method_generic.
Definition GetMethodID : jclass -> string -> JM jmethodID := find_method_generic.
Definition GetFieldID (clazz : jclass) (name : string) : JM jfieldID :=
  let! k := class_at clazz in
  match class_fields k !! name with Some _ => ret (clazz, name) | None => stop Terminate end.
Definition GetStaticFieldID : jclass -> string -> JM jfieldID := GetFieldID.

(** ** Environment functions *)
Definition GetVersion : JM Z := ret JNI_VERSION.
(** Returns the code and what is stored through [env]. *)
Definition GetEnv (version : Z) : JM (Z * option Z) :=
  assert_ (version =? JNI_VERSION) ;;
  let! e := get_jni_env in
  ret (match e with None => (JNI_EDETACHED, None) | Some t => (JNI_OK, Some t) end).
Definition AttachCurrentThread (vm : Z) : JM (Z * Z) :=
  let! _ := attach_thread vm in
  let! tid := gets current_thread in
  ret (JNI_OK, tid).
Definition DetachCurrentThread (vm : Z) : JM Z := ret JNI_OK.

Definition ExceptionCheck (e : Z) : JM bool := let! ev := env_at e in ret (has_exception ev).
Definition ExceptionOccurred (e : Z) : JM Z :=
  let! ev := env_at e in if has_exception ev then stop AssertFailed else ret 0.
Definition ExceptionClear (e : Z) : JM unit :=
  modify (fun s =>
    let d := default fresh_thread_data (thread_data s !! e) in
    set_thread_data (<[e := {| initialized := initialized d;
      env := {| env_functions := env_functions (env d); env_vm := env_vm (env d); has_exception := false |} |}]>
      (thread_data s)) s).

(** References are not counted: creating one returns the object, deleting one
    does nothing. *)
Definition NewGlobalRef (obj : Z) : JM Z := ret obj.
Definition NewWeakGlobalRef (obj : Z) : JM Z := ret obj.
Definition DeleteGlobalRef (obj : Z) : JM unit := ret tt.
Definition DeleteLocalRef (obj : Z) : JM unit := ret tt.
Definition DeleteWeakGlobalRef (obj : Z) : JM unit := ret tt.
Definition GetObjectClass (o : Z) : JM (option jclass) := let! ob := object_at o in ret (super ob).

(** ** Strings *)
Definition NewStringUTF (str : string) : JM Z := create_string str.
Definition GetStringUTFLength (str : Z) : JM Z :=
  let! s := as_string str in ret (i32 (Z.of_nat (String.length s))).
(** The characters, and what is stored through [is_copy] when it is not null. *)
Definition GetStringUTFChars (str : Z) (want_is_copy : bool) : JM (string * option bool) :=
  let! s := as_string str in ret (s, if want_is_copy then Some false else None).
Definition ReleaseStringUTFChars (str : Z) : JM unit := ret tt.

(** ** Arrays *)
Definition GetArrayLength (array : Z) : JM Z := as_any_array array.

(** [reserve] of a negative length, converted to [size_t], throws. *)
Definition new_array_filled (t : jtype) (length_ : Z) (x : Z) : JM Z :=
  if length_ <? 0 then throw (length_error "vector::reserve")
  else new_array_object t length_ (replicate (Z.to_nat length_) x).
Definition new_array_generic (t : jtype) (length_ : Z) : JM Z := new_array_filled t length_ 0.
Definition NewObjectArray (length_ initial_element : Z) : JM Z := new_array_filled TObject length_ initial_element.

Definition get_array_elements_generic (t : jtype) (array : Z) (want_is_copy : bool) : JM (list Z * option bool) :=
  let! a := as_array t array in ret (snd a, if want_is_copy then Some false else None).

(** [for (jsize i = start; i < len; i++) dst[i] = src[i]], out of range being
    undefined; [n] is the number of turns left. *)
Fixpoint copy_loop (n : nat) (i : Z) (src dst : list Z) : option (list Z) :=
  match n with
  | O => Some dst
  | S n' =>
      match nthZ src i, nthZ dst i with
      | Some x, Some _ => copy_loop n' (i + 1) src (updZ dst i x)
      | _, _ => None
      end
  end.
(** Returns the contents of [buf] afterwards. *)
Definition get_array_region_generic (t : jtype) (array start len : Z) (buf : list Z) : JM (list Z) :=
  let! a := as_array t array in
  deref (copy_loop (Z.to_nat (len - start)) start (snd a) buf).
Definition set_array_region_generic (t : jtype) (array start len : Z) (buf : list Z) : JM unit :=
  let! a := as_array t array in
  let! l := deref (copy_loop (Z.to_nat (len - start)) start buf (snd a)) in
  set_array t array (fst a) l.

Definition GetObjectArrayElement (array index : Z) : JM Z :=
  let! a := as_array TObject array in deref (nthZ (snd a) index).
Definition SetObjectArrayElement (array index value : Z) : JM unit :=
  let! a := as_array TObject array in
  let! _ := deref (nthZ (snd a) index) in
  set_array TObject array (fst a) (updZ (snd a) index value).

(** ** Functions that only fail an assertion, in the order of the file *)
Definition unimplemented_1 : list string := [
  "DestroyJavaVM"; "AttachCurrentAsDaemon"; "DefineClass"; "FromReflectedMethod";
  "FromReflectedField"; "ToReflectedMethod"; "GetSuperclass"; "IsAssignableFrom";
  "ToReflectedField"; "Throw"; "ThrowNew"; "FatalError"; "PushLocalFrame"; "PopLocalFrame";
  "IsSameObject"; "NewLocalRef"; "EnsureLocalCapacity"; "AllocObject"; "NewObject"; "NewObjectA";
  "IsInstanceOf"; "SetObjectField"; "SetBooleanField"; "SetByteField"; "SetCharField";
  "SetShortField"; "SetIntField"; "SetLongField"; "SetFloatField"]%string.
Definition unimplemented_2 : list string := [
  "SetDoubleField"; "SetStaticObjectField"; "SetStaticBooleanField"; "SetStaticByteField";
  "SetStaticCharField"; "SetStaticShortField"; "SetStaticIntField"; "SetStaticLongField";
  "SetStaticFloatField"; "SetStaticDoubleField"; "NewString"; "GetStringLength";
  "GetStringChars"; "ReleaseStringChars"; "RegisterNatives"; "UnregisterNatives"; "MonitorEnter";
  "MonitorExit"; "GetJavaVM"; "GetStringRegion"; "GetStringUTFRegion";
  "GetPrimitiveArrayCritical"; "ReleasePrimitiveArrayCritical"; "GetStringCritical";
  "ReleaseStringCritical"; "NewDirectByteBuffer"; "GetDirectBufferAddress";
  "GetDirectBufferCapacity"]%string.

(** The ellipsis and array forms of [DEFINE_METHOD_CALL_FUNCTIONS]. *)
Definition type_names : list string :=
  ["Void"; "Object"; "Boolean"; "Byte"; "Char"; "Short"; "Int"; "Long"; "Float"; "Double"]%string.
Definition method_call_names (suffix : string) : list string :=
  flat_map (fun t => [("CallStatic" +:+ t +:+ "Method" +:+ suffix)%string; ("Call" +:+ t +:+ "Method" +:+ suffix)%string;
                      ("CallNonvirtual" +:+ t +:+ "Method" +:+ suffix)%string]) type_names.
Definition unimplemented_calls : list string := method_call_names "" ++ method_call_names "A".
Definition unimplemented_functions : list string := unimplemented_1 ++ unimplemented_2 ++ unimplemented_calls.

(** What such a function does when the guest calls it. *)
Definition call_unimplemented {A} : JM A := stop AssertFailed.
