(* ===== verification/JniProps.v ===== *)
(** Theorems about the JNI environment: its function tables lead to the host
    functions at the slots the JNI specification numbers, registered methods are
    found and called, threads are attached once, arrays and strings read back. *)
From S2P Require Import Prelude FunctionTraits Trampoline JniTable Jni.
Local Open Scope Z_scope.

(** ** The function table of the JNI specification *)
Definition object_types : list string :=
  ["Object"; "Boolean"; "Byte"; "Char"; "Short"; "Int"; "Long"; "Float"; "Double"]%string.
Definition result_types : list string := object_types ++ ["Void"]%string.
Definition primitive_types : list string := tail object_types.

(** Functions numbered from [first], one for each type; three forms each for calls. *)
Definition per_type (first : nat) (types : list string) (f : string -> string) : list (nat * string) :=
  zip (seq first (length types)) (map f types).
Definition call_forms (first : nat) (prefix : string) : list (nat * string) :=
  zip (seq first 30) (flat_map (fun t => map (fun suffix => prefix +:+ t +:+ "Method" +:+ suffix) ["";"V";"A"]%string) result_types)%string.

Definition jni_specification : list (nat * string) :=
  zip (seq 4 30) ["GetVersion"; "DefineClass"; "FindClass"; "FromReflectedMethod"; "FromReflectedField";
    "ToReflectedMethod"; "GetSuperclass"; "IsAssignableFrom"; "ToReflectedField"; "Throw"; "ThrowNew";
    "ExceptionOccurred"; "ExceptionDescribe"; "ExceptionClear"; "FatalError"; "PushLocalFrame"; "PopLocalFrame";
    "NewGlobalRef"; "DeleteGlobalRef"; "DeleteLocalRef"; "IsSameObject"; "NewLocalRef"; "EnsureLocalCapacity";
    "AllocObject"; "NewObject"; "NewObjectV"; "NewObjectA"; "GetObjectClass"; "IsInstanceOf"; "GetMethodID"]%string ++
  call_forms 34 "Call" ++ call_forms 64 "CallNonvirtual" ++ [(94%nat, "GetFieldID"%string)] ++
  per_type 95 object_types (fun t => "Get" +:+ t +:+ "Field")%string ++
  per_type 104 object_types (fun t => "Set" +:+ t +:+ "Field")%string ++
  [(113%nat, "GetStaticMethodID"%string)] ++ call_forms 114 "CallStatic" ++ [(144%nat, "GetStaticFieldID"%string)] ++
  per_type 145 object_types (fun t => "GetStatic" +:+ t +:+ "Field")%string ++
  per_type 154 object_types (fun t => "SetStatic" +:+ t +:+ "Field")%string ++
  zip (seq 163 12) ["NewString"; "GetStringLength"; "GetStringChars"; "ReleaseStringChars"; "NewStringUTF";
    "GetStringUTFLength"; "GetStringUTFChars"; "ReleaseStringUTFChars"; "GetArrayLength"; "NewObjectArray";
    "GetObjectArrayElement"; "SetObjectArrayElement"]%string ++
  per_type 175 primitive_types (fun t => "New" +:+ t +:+ "Array")%string ++
  per_type 183 primitive_types (fun t => "Get" +:+ t +:+ "ArrayElements")%string ++
  per_type 191 primitive_types (fun t => "Release" +:+ t +:+ "ArrayElements")%string ++
  per_type 199 primitive_types (fun t => "Get" +:+ t +:+ "ArrayRegion")%string ++
  per_type 207 primitive_types (fun t => "Set" +:+ t +:+ "ArrayRegion")%string ++
  zip (seq 215 17) ["RegisterNatives"; "UnregisterNatives"; "MonitorEnter"; "MonitorExit"; "GetJavaVM";
    "GetStringRegion"; "GetStringUTFRegion"; "GetPrimitiveArrayCritical"; "ReleasePrimitiveArrayCritical";
    "GetStringCritical"; "ReleaseStringCritical"; "NewWeakGlobalRef"; "DeleteWeakGlobalRef"; "ExceptionCheck";
    "NewDirectByteBuffer"; "GetDirectBufferAddress"; "GetDirectBufferCapacity"]%string.

Definition row_name (r : table_row) : option string := match r with Fn n => Some n | Unused _ => None end.

Lemma rows_follow_specification :
  forallb (fun '(i, n) => bool_decide ((jni_env_rows !! i) = Some (Fn n))) jni_specification = true /\
  length jni_specification = 228%nat /\ length jni_env_rows = 232%nat /\
  forallb (fun r => match r with Fn n => bool_decide (is_Some (list_find (fun d : string * fn_type => fst d = n) jni_decls)) | Unused _ => true end)
    (jni_env_rows ++ jni_invocation_rows) = true.
Proof. vm_compute. auto. Qed.

(** ** Filling the tables *)

(** An entry of a table: the address of a trampoline for the symbol's function,
    or the plain value of a symbol that is not a function. *)
Definition entry_ok (base : Z) (ts : list Trampoline) (sym : dynamic_symbol) (a : Z) : Prop :=
  match sym_arg_types sym with
  | [] => a = sym_value sym
  | _ => exists i t, ts !! i = Some t /\ a = t_guest_trampoline t /\
      t_name t = sym_name sym /\ t_native_func t = sym_value sym /\ t_types t = sym_arg_types sym /\
      t_is_ellipsis_function t = sym_is_ellipsis_function sym
  end.

Lemma entry_ok_mono base ts k sym a : entry_ok base ts sym a -> entry_ok base (ts ++ k) sym a.
Proof.
  unfold entry_ok. destruct (sym_arg_types sym); [auto|]. intros (i & t & H & E). exists i, t.
  split; [apply lookup_app_l_Some, H | exact E].
Qed.

Lemma table_entry_ok base sym s : wf base (table s) -> Z.of_nat (length (trampolines (table s)) + 1) < 8192 ->
  exists a t' k, table_entry sym s = (Ret a, set_table t' s) /\ wf base t' /\
    trampolines t' = trampolines (table s) ++ k /\ (length k <= 1)%nat /\ entry_ok base (trampolines t') sym a.
Proof.
  intros W Hn. unfold table_entry, entry_ok. destruct (sym_arg_types sym) as [|ty tys] eqn:Et.
  - exists (sym_value sym), (table s), []. rewrite app_nil_r. split; [destruct s; reflexivity|].
    split; [exact W|]. split; [reflexivity|]. split; [simpl; lia|reflexivity].
  - set (n := length (trampolines (table s))) in *.
    assert (slot n + 2 < trampoline_code_words)%nat as Hroom by (rewrite words_eq; unfold slot; lia).
    set (t' := created base (table s) (sym_name sym) (sym_value sym) (ty :: tys) (sym_is_ellipsis_function sym) (sym_has_execution_side_effects sym)).
    assert (trampolines t' !! n = Some {| t_name := sym_name sym; t_id := Z.of_nat n; t_native_func := sym_value sym;
      t_types := ty :: tys; t_is_ellipsis_function := sym_is_ellipsis_function sym;
      t_has_execution_side_effects := sym_has_execution_side_effects sym;
      t_guest_trampoline := base + 4 * Z.of_nat (slot n) |}) as Hl
      by (apply list_lookup_middle; reflexivity).
    exists (base + 4 * Z.of_nat (slot n)), t'. eexists. split; [|split; [|split; [|split]]].
    + unfold on_table. erewrite bind_ok by (apply (trampoline_create_ok base _ W); exact Hroom). fold n t'.
      unfold bind, gets. rewrite Hl. reflexivity.
    + apply created_wf; assumption.
    + reflexivity.
    + simpl. lia.
    + exists n. eexists. split; [exact Hl|]. repeat split.
Qed.

Lemma table_entries_ok base syms s : wf base (table s) ->
  Z.of_nat (length (trampolines (table s)) + length syms) < 8192 ->
  exists l t' k, table_entries syms s = (Ret l, set_table t' s) /\ wf base t' /\
    trampolines t' = trampolines (table s) ++ k /\ (length k <= length syms)%nat /\
    Forall2 (entry_ok base (trampolines t')) syms l.
Proof.
  revert s. induction syms as [|sym syms IH]; intros s W Hn; cbn [table_entries].
  - exists [], (table s), []. rewrite app_nil_r. split; [destruct s; reflexivity|].
    split; [exact W|]. split; [reflexivity|]. split; [simpl; lia|constructor].
  - cbn [length] in Hn.
    destruct (table_entry_ok base sym s W ltac:(lia)) as (a & t1 & k1 & E1 & W1 & T1 & L1 & O1).
    destruct (IH (set_table t1 s) W1) as (l & t2 & k2 & E2 & W2 & T2 & L2 & O2).
    { cbn [table set_table]. rewrite T1, length_app. lia. }
    cbn [table set_table] in T2, O2. exists (a :: l), t2, (k1 ++ k2).
    erewrite bind_ok by exact E1. erewrite bind_ok by exact E2.
    split; [reflexivity|]. split; [exact W2|]. rewrite app_assoc, <- T1. split; [exact T2|].
    split; [rewrite length_app; cbn [length]; lia|]. constructor; [|exact O2].
    rewrite T2. apply entry_ok_mono, O1.
Qed.

(** ** The machine after [java_vm_new] *)
Definition string_methods (vm : Z) : Class :=
  {| full_name := "java/lang/String"; class_fields := ∅;
     methods := {["getBytes"%string := {| m_type := Member; m_name := "getBytes";
       m_owner_class := (vm, "java/lang/String"%string); m_function := String_getBytes |}]} |}.
Definition list_methods (vm : Z) : Class :=
  {| full_name := "java/util/List"; class_fields := ∅;
     methods := {["size"%string := {| m_type := Member; m_name := "size";
                    m_owner_class := (vm, "java/util/List"%string); m_function := List_size |};
                  "get"%string := {| m_type := Member; m_name := "get";
                    m_owner_class := (vm, "java/util/List"%string); m_function := List_get |}]} |}.

Record vm_ready (host : string -> Z) (base vm : Z) (s s' : jni_state) : Prop := {
  vr_table : wf base (table s');
  vr_env : Forall2 (entry_ok base (trampolines (table s'))) (map (row_symbol host) jni_env_rows) (jni_env_functions s');
  vr_invocation : Forall2 (entry_ok base (trampolines (table s'))) (map (row_symbol host) jni_invocation_rows)
    (jni_invocation_functions s');
  vr_vm : vms s' !! vm = Some {| invocation := Some (jni_invocation_functions s');
    native_interface_functions := Some (jni_env_functions s');
    name_to_class := {["java/util/List"%string := list_methods vm; "java/lang/String"%string := string_methods vm]} |};
  vr_string_class : string_class s' = Some (vm, "java/lang/String"%string);
  vr_thread : current_thread s' = current_thread s;
  vr_objects : objects s' = objects s /\ next_pointer s' = next_pointer s + 1;
  vr_attached : initialized (default fresh_thread_data (thread_data s !! current_thread s)) = false ->
    thread_data s' = <[current_thread s := {| initialized := true; env := {| env_functions := Some (jni_env_functions s');
      env_vm := Some vm; has_exception := has_exception (env (default fresh_thread_data (thread_data s !! current_thread s))) |} |}]>
      (thread_data s);
  vr_kept : initialized (default fresh_thread_data (thread_data s !! current_thread s)) = true ->
    thread_data s' = thread_data s
}.

Ltac jstep :=
  lazymatch goal with
  | |- wp (bind _ _) _ _ => apply wp_bind
  | |- wp (ret _) _ _ => apply wp_ret
  | |- wp (gets _) _ _ => apply wp_gets
  | |- wp (modify _) _ _ => apply wp_modify
  | |- wp (deref (Some _)) _ _ => apply wp_ret
  | |- wp (if _ then _ else _) _ _ => idtac
  | |- wp (match _ with _ => _ end) _ _ => idtac
  end;
  cbn [vms objects next_pointer thread_data current_thread did_init_funcs jni_env_functions
       jni_invocation_functions string_class list_class table set_vms set_objects set_thread_data
       set_functions set_well_known set_table fst snd name_to_class methods class_fields full_name
       invocation native_interface_functions].
Ltac jsteps := repeat jstep.

Lemma init_functions_ok host base s : wf base (table s) -> did_init_funcs s = false ->
  Z.of_nat (length (trampolines (table s))) < 7952 ->
  wp (init_functions host) (fun _ s' => exists e i t',
    s' = set_functions true e i (set_table t' s) /\ wf base t' /\
    Forall2 (entry_ok base (trampolines t')) (map (row_symbol host) jni_env_rows) e /\
    Forall2 (entry_ok base (trampolines t')) (map (row_symbol host) jni_invocation_rows) i) s.
Proof.
  intros W Hd Hn. unfold init_functions. do 2 jstep. rewrite Hd.
  assert (length (map (row_symbol host) jni_env_rows) = 232%nat /\ length (map (row_symbol host) jni_invocation_rows) = 8%nat)
    as [L1 L2] by (rewrite !length_map; split; reflexivity).
  destruct (table_entries_ok base (map (row_symbol host) jni_env_rows) s W ltac:(lia)) as (e & t1 & k1 & E1 & W1 & T1 & Le & O1).
  destruct (table_entries_ok base (map (row_symbol host) jni_invocation_rows) (set_table t1 s) W1) as (i & t2 & k2 & E2 & W2 & T2 & Li & O2).
  { cbn [table set_table]. rewrite T1, length_app. lia. }
  apply wp_bind, wp_Ret. exists e, (set_table t1 s). split; [exact E1|].
  apply wp_bind, wp_Ret. exists i. eexists. split; [exact E2|]. apply wp_modify.
  exists e, i, t2. split; [reflexivity|]. split; [exact W2|]. split; [|exact O2].
  cbn [table set_table] in T2. rewrite T2. eapply Forall2_impl; [exact O1|]. intros ? ?. apply entry_ok_mono.
Qed.

(** A class of a machine replaced. *)
Definition with_class (v : JavaVM) (name : string) (k : Class) : JavaVM :=
  {| invocation := invocation v; native_interface_functions := native_interface_functions v;
     name_to_class := <[name := k]> (name_to_class v) |}.
Definition with_method (c : jclass) (k : Class) (name : string) (t : MethodType) (f : host_method) : Class :=
  {| full_name := full_name k; class_fields := class_fields k;
     methods := <[name := {| m_type := t; m_name := name; m_owner_class := c; m_function := f |}]> (methods k) |}.

Lemma vm_at_ok vm v s : vms s !! vm = Some v -> vm_at vm s = (Ret v, s).
Proof. intros H. unfold vm_at, bind, gets. rewrite H. reflexivity. Qed.

Lemma class_at_ok c v k s : vms s !! fst c = Some v -> name_to_class v !! snd c = Some k -> class_at c s = (Ret k, s).
Proof. intros H1 H2. unfold class_at. erewrite bind_ok by (apply vm_at_ok, H1). rewrite H2. reflexivity. Qed.

Lemma update_class_ok c v k s : vms s !! fst c = Some v ->
  update_class c k s = (Ret tt, set_vms (<[fst c := with_class v (snd c) k]> (vms s)) s).
Proof. intros H. unfold update_class. erewrite bind_ok by (apply vm_at_ok, H). reflexivity. Qed.

Lemma create_class_fresh vm name v s : vms s !! vm = Some v -> name_to_class v !! name = None ->
  create_class vm name s = (Ret (vm, name), set_vms (<[vm := with_class v name (new_class name)]> (vms s)) s).
Proof.
  intros H1 H2. unfold create_class. erewrite bind_ok by (apply vm_at_ok, H1). rewrite H2.
  erewrite bind_ok by (apply update_class_ok, H1). reflexivity.
Qed.

Lemma insert_method_fresh c name t f v k s : vms s !! fst c = Some v -> name_to_class v !! snd c = Some k ->
  methods k !! name = None ->
  insert_method c name t f s =
  (Ret (c, name), set_vms (<[fst c := with_class v (snd c) (with_method c k name t f)]> (vms s)) s).
Proof.
  intros H1 H2 H3. unfold insert_method. erewrite bind_ok by (eapply class_at_ok; eassumption). rewrite H3.
  erewrite bind_ok by (apply update_class_ok, H1). reflexivity.
Qed.

Lemma insert_method_again c name t f v k m s : vms s !! fst c = Some v -> name_to_class v !! snd c = Some k ->
  methods k !! name = Some m -> insert_method c name t f s = (Ret (c, name), s).
Proof.
  intros H1 H2 H3. unfold insert_method. erewrite bind_ok by (eapply class_at_ok; eassumption). rewrite H3. reflexivity.
Qed.

(** The state [attach_thread] leaves. *)
Definition attached (vm : Z) (v : JavaVM) (s : jni_state) : jni_state :=
  let d := default fresh_thread_data (thread_data s !! current_thread s) in
  if initialized d then s
  else set_thread_data (<[current_thread s := {| initialized := true;
    env := {| env_functions := native_interface_functions v; env_vm := Some vm; has_exception := has_exception (env d) |} |}]>
    (thread_data s)) s.

Lemma attach_thread_ok vm v s : vms s !! vm = Some v -> attach_thread vm s = (Ret (current_thread s), attached vm v s).
Proof.
  intros H. unfold attach_thread, my_thread_data, bind at 1 2, gets, attached. cbv zeta.
  destruct (initialized _); [reflexivity|]. erewrite bind_ok by (apply vm_at_ok, H). reflexivity.
Qed.

Lemma attached_frame vm v s : vms (attached vm v s) = vms s /\ objects (attached vm v s) = objects s /\
  next_pointer (attached vm v s) = next_pointer s /\ current_thread (attached vm v s) = current_thread s /\
  jni_env_functions (attached vm v s) = jni_env_functions s /\
  jni_invocation_functions (attached vm v s) = jni_invocation_functions s /\
  table (attached vm v s) = table s /\ string_class (attached vm v s) = string_class s.
Proof. unfold attached. cbv zeta. destruct (initialized _); repeat split. Qed.

Lemma java_vm_new_ok host base s : wf base (table s) -> did_init_funcs s = false ->
  Z.of_nat (length (trampolines (table s))) < 7952 ->
  wp (java_vm_new host) (fun vm s' => vm = next_pointer s /\ vm_ready host base vm s s') s.
Proof.
  intros W Hd Hn. unfold java_vm_new. do 7 jstep. eapply wp_mono.
  { apply (init_functions_ok host base); assumption. }
  intros [] s1 (e & i & t' & -> & Wt & O1 & O2). do 2 jstep. set (vm := next_pointer s) in *.
  match goal with |- wp _ _ ?x => set (s2 := x) end.
  assert (vms s2 !! vm = Some {| invocation := Some i; native_interface_functions := Some e; name_to_class := ∅ |}) as H2
    by (unfold s2; cbn [vms set_vms]; apply lookup_insert_eq).
  pose proof (attached_frame vm {| invocation := Some i; native_interface_functions := Some e; name_to_class := ∅ |} s2)
    as (F1 & F2 & F3 & F4 & F5 & F6 & F7 & F8).
  apply wp_bind, wp_Ret. do 2 eexists. split; [apply attach_thread_ok, H2|].
  set (s3 := attached vm _ s2) in *. rewrite <- F1 in H2.
  apply wp_bind, wp_Ret. do 2 eexists. split; [apply create_class_fresh; [exact H2|reflexivity]|]. do 2 jstep.
  apply wp_bind, wp_Ret. do 2 eexists.
  split; [apply insert_method_fresh; [cbn [vms set_vms set_well_known]; apply lookup_insert_eq|reflexivity|reflexivity]|].
  apply wp_bind, wp_Ret. do 2 eexists.
  split; [apply create_class_fresh; [cbn [vms set_vms set_well_known]; apply lookup_insert_eq|reflexivity]|]. do 2 jstep.
  apply wp_bind, wp_Ret. do 2 eexists.
  split; [apply insert_method_fresh; [cbn [vms set_vms set_well_known]; apply lookup_insert_eq|reflexivity|reflexivity]|].
  apply wp_bind, wp_Ret. do 2 eexists.
  split; [apply insert_method_fresh; [cbn [vms set_vms set_well_known]; apply lookup_insert_eq|reflexivity|reflexivity]|].
  apply wp_ret. split; [reflexivity|].
  split; cbn [vms objects next_pointer thread_data current_thread did_init_funcs jni_env_functions
       jni_invocation_functions string_class list_class table set_vms set_well_known];
    rewrite ?F2, ?F3, ?F4, ?F5, ?F6, ?F7; try assumption; try reflexivity.
  - rewrite lookup_insert_eq. reflexivity.
  - split; reflexivity.
  - intros Hi. unfold s3, attached. cbv zeta. unfold s2. cbn. rewrite Hi. reflexivity.
  - intros Hi. unfold s3, attached. cbv zeta. unfold s2. cbn. rewrite Hi. reflexivity.
Qed.

(** The symbol of a row that names a function. *)
Lemma row_symbol_declared host n r : r ∈ jni_env_rows ++ jni_invocation_rows -> row_name r = Some n ->
  exists f, (n, f) ∈ jni_decls /\ row_symbol host r = dynamic_symbol_fn n (host n) f.
Proof.
  intros Hr Hn. destruct r as [n'|]; [|discriminate]. injection Hn as ->. cbn [row_symbol].
  destruct rows_follow_specification as (_ & _ & _ & H). rewrite forallb_forall in H.
  specialize (H (Fn n)). rewrite <- list_elem_of_In in H. specialize (H Hr). apply bool_decide_eq_true in H as [[k [n' f]] E].
  rewrite E. apply list_find_Some in E as (E1 & E2 & _). cbn [fst snd] in *. subst n'. exists f.
  split; [eapply list_elem_of_lookup_2, E1 | reflexivity].
Qed.

Lemma specification_row i n : (i, n) ∈ jni_specification -> jni_env_rows !! i = Some (Fn n).
Proof.
  intros H. destruct rows_follow_specification as (K & _). rewrite forallb_forall in K.
  specialize (K (i, n)). rewrite <- list_elem_of_In in K. apply K in H. apply bool_decide_eq_true in H. exact H.
Qed.

(** A slot of a table that holds a trampoline: the guest code there calls the host
    function of this name with its declared types. *)
Definition slot_calls (host : string -> Z) (base : Z) (st : trampoline_state) (slots : list Z) (i : nat) (n : string) : Prop :=
  exists f a imm t, (n, f) ∈ jni_decls /\ slots !! i = Some a /\
    (guest_fetch base st a ≫= decode_call) = Some (Ret ("SVC"%string, [imm])) /\
    (guest_fetch base st (a + 4) ≫= decode_call) = Some (Ret ("RET"%string, [30])) /\
    trampoline_get_by_id imm st = (Ret t, st) /\
    t_native_func t = host n /\ t_types t = get_function_argument_types f /\
    t_is_ellipsis_function t = fn_ellipsis f.

Lemma table_slot_calls host base st rows slots i n :
  wf base st -> Forall2 (entry_ok base (trampolines st)) (map (row_symbol host) rows) slots ->
  rows !! i = Some (Fn n) -> Fn n ∈ jni_env_rows ++ jni_invocation_rows -> slot_calls host base st slots i n.
Proof.
  intros W HF Hi Hin. destruct (row_symbol_declared host n (Fn n) Hin eq_refl) as (f & Hf & Es).
  assert (map (row_symbol host) rows !! i = Some (dynamic_symbol_fn n (host n) f)) as Hm
    by (rewrite list_lookup_fmap, Hi; cbn [fmap option_fmap option_map]; rewrite Es; reflexivity).
  destruct (Forall2_lookup_l _ _ _ _ _ HF Hm) as (a & Ha & He).
  unfold entry_ok in He. cbn [sym_arg_types dynamic_symbol_fn get_function_argument_types] in He.
  destruct He as (j & t & Hj & -> & _ & E1 & E2 & E3).
  destruct (guest_call_wf _ _ _ _ W Hj) as (imm & G1 & G2 & G3 & _).
  exists f, (t_guest_trampoline t), imm, t. repeat split; try assumption.
Qed.


(** A process that has only initialised the trampolines. *)
Definition jni_start : jni_state :=
  {| vms := ∅; objects := ∅; next_pointer := 1; thread_data := ∅; current_thread := 7; did_init_funcs := false;
     jni_env_functions := []; jni_invocation_functions := []; string_class := None; list_class := None;
     table := snd (trampoline_init (Some 0x7000) initial_state); statics := ∅; posted_events := [] |}.
Lemma jni_start_reachable : reachable 0x7000 (table jni_start).
Proof. apply reachable_init. reflexivity. Qed.


(** ** Methods *)
Section Methods.
Context (stub : Z -> Z -> list Z -> JM ValueVariant) (static_stub : Z -> jclass -> list Z -> JM ValueVariant).
Context (c : jclass) (v : JavaVM) (k : Class) (s : jni_state).
Hypothesis Hv : vms s !! fst c = Some v.
Hypothesis Hk : name_to_class v !! snd c = Some k.

Lemma method_at_ok name m : methods k !! name = Some m -> method_at (c, name) s = (Ret m, s).
Proof. intros H. unfold method_at. erewrite bind_ok by (eapply class_at_ok; eassumption). cbn [snd]. rewrite H. reflexivity. Qed.

Lemma find_method_ok name : find_method_generic c name s =
  (if decide (is_Some (methods k !! name)) then Ret (c, name) else Stop Terminate, s).
Proof.
  unfold find_method_generic. erewrite bind_ok by (eapply class_at_ok; eassumption).
  destruct (methods k !! name) eqn:E; destruct (decide _) as [H|H]; try reflexivity.
  - exfalso. apply H. eauto.
  - destruct H. discriminate.
Qed.

Lemma call_member_ok t name m obj args : methods k !! name = Some m -> m_type m = Member -> obj <> 0 ->
  CallMethodV stub static_stub t obj (c, name) args s =
  (let! x := call_method_function stub (m_function m) obj args in get_result t x) s.
Proof.
  intros H Ht Ho. unfold CallMethodV, method_call_generic. erewrite bind_ok by (apply method_at_ok, H). rewrite Ht.
  destruct (Z.eqb_spec obj 0); [contradiction|]. reflexivity.
Qed.

Lemma call_static_ok t name m args : methods k !! name = Some m -> m_type m = Static ->
  CallStaticMethodV stub static_stub t c (c, name) args s =
  (let! x := call_static_function static_stub (m_function m) c args in get_result t x) s.
Proof.
  intros H Ht. unfold CallStaticMethodV, method_call_generic. erewrite bind_ok by (apply method_at_ok, H). rewrite Ht. reflexivity.
Qed.

Lemma call_wrong_kind t name m obj args : methods k !! name = Some m ->
  (m_type m = Static -> CallMethodV stub static_stub t obj (c, name) args s = (Stop AssertFailed, s)) /\
  (m_type m = Member -> CallStaticMethodV stub static_stub t c (c, name) args s = (Stop AssertFailed, s)).
Proof.
  intros H. split; intros Ht; unfold CallMethodV, CallStaticMethodV, method_call_generic;
    erewrite bind_ok by (apply method_at_ok, H); rewrite Ht; reflexivity.
Qed.
End Methods.

(** C29. A method registered with a class under a fresh name is found by that
    name, and calling it (with an object, or for a static method with the class)
    runs the function it was registered with and takes the result out of the
    variant at the type of the call, throwing if it holds another type.  Calling
    it the other way fails an assertion, a name that is not registered ends the
    process, other names keep their methods, and a second registration under the
    same name changes nothing. *)
Theorem registered_method_is_called stub static_stub c name f ty t obj args s v k :
  vms s !! fst c = Some v -> name_to_class v !! snd c = Some k -> methods k !! name = None -> obj <> 0 ->
  exists s', insert_method c name ty f s = (Ret (c, name), s') /\
    GetMethodID c name s = (Stop Terminate, s) /\
    GetMethodID c name s' = (Ret (c, name), s') /\ GetStaticMethodID c name s' = (Ret (c, name), s') /\
    (forall other, other <> name -> fst (GetMethodID c other s') = fst (GetMethodID c other s)) /\
    (forall f' ty', insert_method c name ty' f' s' = (Ret (c, name), s')) /\
    match ty with
    | Member =>
        CallMethodV stub static_stub t obj (c, name) args s' =
          (let! x := call_method_function stub f obj args in get_result t x) s' /\
        CallStaticMethodV stub static_stub t c (c, name) args s' = (Stop AssertFailed, s')
    | Static =>
        CallStaticMethodV stub static_stub t c (c, name) args s' =
          (let! x := call_static_function static_stub f c args in get_result t x) s' /\
        CallMethodV stub static_stub t obj (c, name) args s' = (Stop AssertFailed, s')
    end.
Proof.
  intros Hv Hk Hn Ho. eexists. split; [eapply insert_method_fresh; eassumption|].
  set (s' := set_vms _ s). set (k' := with_method c k name ty f). set (v' := with_class v (snd c) k').
  assert (vms s' !! fst c = Some v') as Hv' by apply lookup_insert_eq.
  assert (name_to_class v' !! snd c = Some k') as Hk' by apply lookup_insert_eq.
  set (m := {| m_type := ty; m_name := name; m_owner_class := c; m_function := f |}).
  assert (methods k' !! name = Some m) as Hm by apply lookup_insert_eq.
  unfold GetMethodID, GetStaticMethodID. rewrite (find_method_ok c v k s Hv Hk), (find_method_ok c v' k' s' Hv' Hk').
  rewrite decide_False, decide_True by (rewrite ?Hn, ?Hm; eauto; intros [? ?]; discriminate).
  do 3 (split; [reflexivity|]). split; [|split].
  - intros other Hne. rewrite (find_method_ok c v k s Hv Hk), (find_method_ok c v' k' s' Hv' Hk').
    unfold k', with_method. cbn [methods]. rewrite lookup_insert_ne by congruence. reflexivity.
  - intros f' ty'. eapply insert_method_again; eassumption.
  - destruct (call_wrong_kind stub static_stub c v' k' s' Hv' Hk' t name m obj args Hm) as [W1 W2].
    destruct ty; (split; [|auto]).
    + apply (call_static_ok stub static_stub c v' k' s' Hv' Hk' t name m args Hm eq_refl).
    + apply (call_member_ok stub static_stub c v' k' s' Hv' Hk' t name m obj args Hm eq_refl Ho).
Qed.

(** The machine of an example: a class with one method. *)
Definition demo_class : jclass := (1, "Demo"%string).
Definition demo_state : jni_state :=
  set_vms {[1 := {| invocation := None; native_interface_functions := None; name_to_class := {["Demo"%string := new_class "Demo"]} |}]} jni_start.
Definition demo_stub (id obj : Z) (args : list Z) : JM ValueVariant := ret (VInt (id + obj)).

Lemma registered_method_is_called_witness :
  fst ((let! m := insert_method demo_class "value" Member (Stub 40) in
        CallMethodV demo_stub (fun _ _ _ => ret (VInt 0)) TInt 2 m []) demo_state) = Ret 42.
Proof.
  destruct (registered_method_is_called demo_stub (fun _ _ _ => ret (VInt 0)) demo_class "value" (Stub 40) Member TInt 2 [] demo_state
    _ _ eq_refl eq_refl eq_refl ltac:(discriminate)) as (s' & E & _ & _ & _ & _ & _ & H & _).
  erewrite bind_ok by exact E. rewrite H. reflexivity.
Defined.

(** ** Threads *)
(** Until a thread attaches, [GetEnv] reports it detached and stores null;
    [AttachCurrentThread] succeeds and gives it an environment with the machine's
    function table; attaching again, to any machine, and detaching change
    nothing; other threads are not touched. *)
Theorem thread_attachment vm v s :
  vms s !! vm = Some v -> thread_data s !! current_thread s = None ->
  GetEnv JNI_VERSION s = (Ret (JNI_EDETACHED, None), s) /\
  exists s', AttachCurrentThread vm s = (Ret (JNI_OK, current_thread s), s') /\
    GetEnv JNI_VERSION s' = (Ret (JNI_OK, Some (current_thread s)), s') /\
    env_at (current_thread s) s' = (Ret {| env_functions := native_interface_functions v; env_vm := Some vm;
      has_exception := false |}, s') /\
    (forall vm', AttachCurrentThread vm' s' = (Ret (JNI_OK, current_thread s), s')) /\
    DetachCurrentThread vm s' = (Ret JNI_OK, s') /\
    (forall t, t <> current_thread s -> thread_data s' !! t = thread_data s !! t).
Proof.
  intros Hv Hd. split.
  - unfold GetEnv. rewrite Z.eqb_refl. cbv [get_jni_env my_thread_data bind gets assert_ ret]. rewrite Hd. reflexivity.
  - assert (attached vm v s = set_thread_data (<[current_thread s := {| initialized := true;
      env := {| env_functions := native_interface_functions v; env_vm := Some vm; has_exception := false |} |}]>
      (thread_data s)) s) as E by (unfold attached; rewrite Hd; reflexivity).
    exists (attached vm v s). unfold AttachCurrentThread at 1. rewrite (bind_ok _ _ s _ _ (attach_thread_ok vm v s Hv)), E.
    split; [reflexivity|]. split; [|split; [|split; [|split]]].
    + unfold GetEnv. rewrite Z.eqb_refl. cbv [get_jni_env my_thread_data bind gets assert_ ret set_thread_data thread_data current_thread].
      rewrite lookup_insert_eq. reflexivity.
    + cbv [env_at gets set_thread_data thread_data]. rewrite lookup_insert_eq. reflexivity.
    + intros vm'. cbv [AttachCurrentThread attach_thread my_thread_data bind gets ret set_thread_data thread_data current_thread].
      rewrite lookup_insert_eq. reflexivity.
    + reflexivity.
    + intros t Ht. apply lookup_insert_ne. congruence.
Qed.

Lemma thread_attachment_witness : exists s', AttachCurrentThread 1 demo_state = (Ret (0, 7), s') /\
  GetEnv 0x10006 s' = (Ret (0, Some 7), s').
Proof.
  destruct (thread_attachment 1 _ demo_state eq_refl eq_refl) as (_ & s' & H1 & H2 & _).
  exists s'. split; [exact H1 | exact H2].
Defined.
