(* ===== verification/JniArrays.v ===== *)
(** Arrays and strings of the JNI environment: what the region functions copy,
    and the round trips through an array and through a string. *)
From S2P Require Import Prelude FunctionTraits Trampoline JniTable Jni JniProps.
Local Open Scope Z_scope.

(** ** The copying loop *)
Lemma copy_loop_spec n : forall i src dst, 0 <= i ->
  i + Z.of_nat n <= Z.of_nat (length src) -> i + Z.of_nat n <= Z.of_nat (length dst) ->
  copy_loop n i src dst =
    Some (take (Z.to_nat i) dst ++ take n (drop (Z.to_nat i) src) ++ drop (Z.to_nat i + n) dst).
Proof.
  induction n as [|n IH]; intros i src dst Hi Hs Hd; cbn [copy_loop].
  - rewrite take_0, Nat.add_0_r. cbn [app]. rewrite take_drop. reflexivity.
  - destruct (proj1 (nthZ_Some src i) ltac:(lia)) as [x Hx]. destruct (proj1 (nthZ_Some dst i) ltac:(lia)) as [y Hy].
    rewrite Hx, Hy, IH by (rewrite ?length_updZ; lia). f_equal.
    unfold nthZ in Hx, Hy. unfold updZ. destruct (Z.ltb_spec i 0); [lia|].
    replace (Z.to_nat (i + 1)) with (S (Z.to_nat i)) by lia. generalize (Z.to_nat i) Hx Hy. clear. intros j Hx Hy.
    rewrite (drop_S src x j Hx), (take_S_r _ j x) by (apply list_lookup_insert_eq; eapply lookup_lt_Some, Hy).
    rewrite take_insert_ge, drop_insert_lt by lia. cbn [take]. rewrite <- app_assoc, <- Nat.add_succ_comm. reflexivity.
Qed.

(** ** Objects *)
Lemma object_at_ok p o s : objects s !! p = Some o -> object_at p s = (Ret o, s).
Proof. intros H. unfold object_at, bind, gets. rewrite H. reflexivity. Qed.

Lemma as_array_ok t p o n l s : objects s !! p = Some o -> obj_data o = ArrayData t n l ->
  as_array t p s = (Ret (n, l), s) /\ as_any_array p s = (Ret n, s).
Proof.
  intros H E. unfold as_array, as_any_array. erewrite !bind_ok by (apply object_at_ok, H). rewrite E.
  rewrite bool_decide_true by reflexivity. split; reflexivity.
Qed.

(** The object [p] with new array data. *)
Definition with_array (p : Z) (o : Object) (t : jtype) (n : Z) (l : list Z) (s : jni_state) : jni_state :=
  set_objects (<[p := {| super := super o; object_fields := object_fields o; obj_data := ArrayData t n l |}]> (objects s))
    (next_pointer s) s.

Lemma set_array_ok t p o n l s : objects s !! p = Some o -> set_array t p n l s = (Ret tt, with_array p o t n l s).
Proof. intros H. unfold set_array. erewrite bind_ok by (apply object_at_ok, H). reflexivity. Qed.

Section Regions.
Context (t : jtype) (p : Z) (o : Object) (n : Z) (l : list Z) (s : jni_state).
Hypothesis Ho : objects s !! p = Some o.
Hypothesis Ha : obj_data o = ArrayData t n l.

(** What the loops leave in the destination. *)
Definition copied (start len : Z) (src dst : list Z) : list Z :=
  take (Z.to_nat start) dst ++ take (Z.to_nat (len - start)) (drop (Z.to_nat start) src) ++
  drop (Z.to_nat start + Z.to_nat (len - start)) dst.

Lemma get_region_ok start len buf : 0 <= start -> len <= Z.of_nat (length l) -> len <= Z.of_nat (length buf) ->
  start <= Z.of_nat (length l) -> start <= Z.of_nat (length buf) ->
  get_array_region_generic t p start len buf s = (Ret (copied start len l buf), s).
Proof.
  intros H1 H2 H3 H4 H5. unfold get_array_region_generic. erewrite bind_ok by (eapply as_array_ok; eassumption). cbn [snd].
  rewrite copy_loop_spec by lia. reflexivity.
Qed.

Lemma set_region_ok start len buf : 0 <= start -> len <= Z.of_nat (length l) -> len <= Z.of_nat (length buf) ->
  start <= Z.of_nat (length l) -> start <= Z.of_nat (length buf) ->
  set_array_region_generic t p start len buf s = (Ret tt, with_array p o t n (copied start len buf l) s).
Proof.
  intros H1 H2 H3 H4 H5. unfold set_array_region_generic. erewrite bind_ok by (eapply as_array_ok; eassumption). cbn [fst snd].
  rewrite copy_loop_spec by lia. erewrite bind_ok by reflexivity. apply set_array_ok, Ho.
Qed.
End Regions.

Lemma copied_prefix len src dst : 0 <= len -> copied 0 len src dst = take (Z.to_nat len) src ++ drop (Z.to_nat len) dst.
Proof. intros H. unfold copied. rewrite Z.sub_0_r. reflexivity. Qed.

Lemma copied_nothing start len src dst : len <= start -> copied start len src dst = dst.
Proof.
  intros H. unfold copied. replace (Z.to_nat (len - start)) with 0%nat by lia.
  rewrite take_0, Nat.add_0_r. apply take_drop.
Qed.

Lemma length_copied_prefix len src dst : 0 <= len <= Z.of_nat (length src) -> len <= Z.of_nat (length dst) ->
  length (copied 0 len src dst) = length dst.
Proof. intros H1 H2. rewrite copied_prefix by lia. rewrite length_app, length_take, length_drop. lia. Qed.

(** The region a call names, by the JNI specification: [len] elements from [start]
    on, at the beginning of the buffer. *)
Definition region_spec (start len : Z) (l buf : list Z) : list Z :=
  take (Z.to_nat len) (drop (Z.to_nat start) l) ++ drop (Z.to_nat len) buf.

(** ** New objects *)
Definition with_object (o : Object) (s : jni_state) : jni_state :=
  set_objects (<[next_pointer s := o]> (objects s)) (next_pointer s + 1) s.
Lemma new_object_ok o s : new_object o s = (Ret (next_pointer s), with_object o s).
Proof. reflexivity. Qed.

Definition array_object (t : jtype) (n : Z) (l : list Z) : Object :=
  {| super := None; object_fields := ∅; obj_data := ArrayData t n l |}.
Lemma new_array_filled_ok t n x s : 0 <= n ->
  new_array_filled t n x s = (Ret (next_pointer s), with_object (array_object t n (replicate (Z.to_nat n) x)) s).
Proof. intros H. unfold new_array_filled. destruct (Z.ltb_spec n 0); [lia|]. reflexivity. Qed.

Lemma with_object_new o s : objects (with_object o s) !! next_pointer s = Some o.
Proof. apply lookup_insert_eq. Qed.
Lemma with_object_old o s q : q <> next_pointer s -> objects (with_object o s) !! q = objects s !! q.
Proof. intros H. apply lookup_insert_ne. congruence. Qed.
Lemma with_array_new p o t n l s :
  objects (with_array p o t n l s) !! p = Some {| super := super o; object_fields := object_fields o; obj_data := ArrayData t n l |}.
Proof. apply lookup_insert_eq. Qed.

(** An array made by a [New...Array] function has the length asked for and
    zeros; the first [len] elements written to it from a buffer are read back by
    the region function, the rest of the reader's buffer stays, the array keeps
    its length and no other object changes.  A negative length throws. *)
Theorem array_roundtrip t n len buf out s :
  0 <= len <= n -> len <= Z.of_nat (length buf) -> len <= Z.of_nat (length out) ->
  exists p s1 s2, new_array_generic t n s = (Ret p, s1) /\
    GetArrayLength p s1 = (Ret n, s1) /\
    get_array_elements_generic t p true s1 = (Ret (replicate (Z.to_nat n) 0, Some false), s1) /\
    set_array_region_generic t p 0 len buf s1 = (Ret tt, s2) /\
    GetArrayLength p s2 = (Ret n, s2) /\
    get_array_region_generic t p 0 len out s2 = (Ret (take (Z.to_nat len) buf ++ drop (Z.to_nat len) out), s2) /\
    (forall q, q <> p -> objects s2 !! q = objects s !! q) /\
    (forall m, m < 0 -> new_array_generic t m s = (Throw (length_error "vector::reserve"), s)).
Proof.
  intros Hl Hb Ho. set (l := replicate (Z.to_nat n) 0). set (s1 := with_object (array_object t n l) s).
  assert (Z.of_nat (length l) = n) as Ll by (unfold l; rewrite length_replicate; lia).
  pose proof (with_object_new (array_object t n l) s) as O1. fold s1 in O1.
  set (s2 := with_array (next_pointer s) (array_object t n l) t n (copied 0 len buf l) s1).
  pose proof (with_array_new (next_pointer s) (array_object t n l) t n (copied 0 len buf l) s1) as O2. fold s2 in O2.
  exists (next_pointer s), s1, s2. split; [apply new_array_filled_ok; lia|].
  split; [eapply as_array_ok; [exact O1|reflexivity]|].
  split. { unfold get_array_elements_generic. erewrite bind_ok by (eapply as_array_ok; [exact O1|reflexivity]). reflexivity. }
  split; [apply (set_region_ok t _ _ n l s1 O1 eq_refl); lia|].
  split; [eapply as_array_ok; [exact O2|reflexivity]|]. split; [|split].
  - pose proof (length_copied_prefix len buf l ltac:(lia) ltac:(lia)) as Lc.
    rewrite (get_region_ok t _ _ n (copied 0 len buf l) s2 O2 eq_refl) by lia.
    rewrite !copied_prefix by lia. rewrite take_app_le, take_take, Nat.min_id by (rewrite length_take; lia). reflexivity.
  - intros q Hq. unfold s2, with_array. cbn [objects set_objects]. rewrite lookup_insert_ne by congruence.
    apply with_object_old, Hq.
  - intros m Hm. unfold new_array_generic, new_array_filled. destruct (Z.ltb_spec m 0); [reflexivity|lia].
Qed.

Lemma array_roundtrip_witness : exists p s1 s2, new_array_generic TInt 4 jni_start = (Ret p, s1) /\
  set_array_region_generic TInt p 0 2 [5; 6; 7] s1 = (Ret tt, s2) /\
  get_array_region_generic TInt p 0 2 [1; 1; 1] s2 = (Ret [5; 6; 1], s2).
Proof.
  destruct (array_roundtrip TInt 4 2 [5; 6; 7] [1; 1; 1] jni_start ltac:(lia) ltac:(simpl; lia) ltac:(simpl; lia))
    as (p & s1 & s2 & H1 & _ & _ & H2 & _ & H3 & _).
  exists p, s1, s2. auto.
Defined.

(** A region that does not start at 0: the functions treat [len] as the end of
    the region and copy to the same index, where the specification asks for [len]
    elements from [start] on to the beginning of the buffer.  With a start of 0
    the two agree; with [len <= start] nothing is copied, in either direction. *)
Theorem array_region_with_start t p o n l start len buf s :
  objects s !! p = Some o -> obj_data o = ArrayData t n l ->
  0 <= start <= Z.of_nat (length l) -> start <= Z.of_nat (length buf) ->
  0 <= len <= Z.of_nat (length l) -> len <= Z.of_nat (length buf) ->
  exists out, get_array_region_generic t p start len buf s = (Ret out, s) /\ length out = length buf /\
    (forall i, out !! i = if decide (start <= Z.of_nat i < len) then l !! i else buf !! i) /\
    (start = 0 -> out = region_spec start len l buf) /\
    (len <= start -> out = buf /\ set_array_region_generic t p start len buf s = (Ret tt, with_array p o t n l s)).
Proof.
  intros Ho Ha Hs Hb Hl Hlb. exists (copied start len l buf).
  split; [apply (get_region_ok t p o n l s Ho Ha); lia|]. split; [|split; [|split]].
  - unfold copied. rewrite !length_app, !length_take, !length_drop. lia.
  - intros i. unfold copied. destruct (Z.lt_ge_cases (Z.of_nat i) start) as [Hi|Hi].
    { rewrite decide_False by lia. rewrite lookup_app_l by (rewrite length_take; lia). apply lookup_take_lt. lia. }
    rewrite lookup_app_r, length_take, Nat.min_l by (rewrite ?length_take; lia).
    destruct (Z.lt_ge_cases (Z.of_nat i) len) as [Hi'|Hi'].
    + rewrite decide_True by lia. rewrite lookup_app_l by (rewrite length_take, length_drop; lia).
      rewrite lookup_take_lt, lookup_drop by lia. f_equal. lia.
    + rewrite decide_False by lia. rewrite lookup_app_r by (rewrite length_take, length_drop; lia).
      rewrite lookup_drop, length_take, length_drop. f_equal. lia.
  - intros ->. unfold region_spec. rewrite copied_prefix by lia. rewrite drop_0. reflexivity.
  - intros H. split; [apply copied_nothing, H|].
    rewrite (set_region_ok t p o n l s Ho Ha) by lia. rewrite copied_nothing by exact H. reflexivity.
Qed.

(** A region of two elements from the third on: nothing is copied. *)
Lemma array_region_with_start_witness :
  let s := with_object (array_object TInt 4 [1; 2; 3; 4]) jni_start in
  get_array_region_generic TInt 1 2 2 [0; 0; 0; 0] s = (Ret [0; 0; 0; 0], s) /\
  region_spec 2 2 [1; 2; 3; 4] [0; 0; 0; 0] = [3; 4; 0; 0].
Proof.
  cbv zeta. split; [|reflexivity].
  destruct (array_region_with_start TInt 1 _ 4 [1; 2; 3; 4] 2 2 [0; 0; 0; 0] (with_object (array_object TInt 4 [1; 2; 3; 4]) jni_start)
    eq_refl eq_refl ltac:(simpl; lia) ltac:(simpl; lia) ltac:(simpl; lia) ltac:(simpl; lia)) as (out & H & _ & _ & _ & H').
  rewrite H. destruct (H' ltac:(lia)) as [-> _]. reflexivity.
Defined.

(** ** Strings *)
Lemma c_str_length s : (String.length (c_str s) <= String.length s)%nat.
Proof. induction s as [|c s IH]; cbn [c_str String.length]; [lia|]. destruct (Ascii.eqb c Ascii.zero); cbn [String.length]; lia. Qed.
Lemma c_str_nul_free s : Ascii.zero ∉ String.list_ascii_of_string (c_str s).
Proof.
  induction s as [|c s IH]; cbn [c_str String.list_ascii_of_string]; [set_solver|].
  destruct (Ascii.eqb_spec c Ascii.zero); cbn [String.list_ascii_of_string]; set_solver.
Qed.
Lemma c_str_id s : Ascii.zero ∉ String.list_ascii_of_string s -> c_str s = s.
Proof.
  induction s as [|c s IH]; cbn [c_str String.list_ascii_of_string]; intros H; [reflexivity|].
  destruct (Ascii.eqb_spec c Ascii.zero) as [->|]; [set_solver|]. f_equal. apply IH. set_solver.
Qed.

Definition signed_bytes (str : string) : list Z :=
  map (fun c => swrap 8 (Z.of_nat (nat_of_ascii c))) (String.list_ascii_of_string str).

Lemma as_string_ok p o str s : objects s !! p = Some o -> obj_data o = StringData str -> as_string p s = (Ret str, s).
Proof. intros H E. unfold as_string. erewrite bind_ok by (apply object_at_ok, H). rewrite E. reflexivity. Qed.

(** [NewStringUTF] makes an object of the class String that holds the text up
    to its first NUL; its characters and its length are those of that text (the
    whole text when it has no NUL), and no other object changes.  The array that
    [getBytes] makes holds the bytes of the text as signed numbers, but its
    length field stays 0, so [GetArrayLength] answers 0 for it. *)
Theorem string_roundtrip stub str s :
  Z.of_nat (String.length str) < 2 ^ 31 ->
  exists p s1 b s2, NewStringUTF str s = (Ret p, s1) /\
    GetObjectClass p s1 = (Ret (string_class s), s1) /\
    GetStringUTFChars p true s1 = (Ret (c_str str, Some false), s1) /\
    GetStringUTFLength p s1 = (Ret (Z.of_nat (String.length (c_str str))), s1) /\
    (Ascii.zero ∉ String.list_ascii_of_string str -> c_str str = str) /\
    call_method_function stub String_getBytes p [] s1 = (Ret (VObject b), s2) /\
    get_array_elements_generic TByte b false s2 = (Ret (signed_bytes (c_str str), None), s2) /\
    GetArrayLength b s2 = (Ret 0, s2) /\
    (forall q, q <> p -> q <> b -> objects s2 !! q = objects s !! q).
Proof.
  intros Hl. set (os := {| super := string_class s; object_fields := ∅; obj_data := StringData (c_str str) |}).
  set (s1 := with_object os s). set (ob := array_object TByte 0 (signed_bytes (c_str str))).
  assert (objects s1 !! next_pointer s = Some os) as O1 by apply with_object_new.
  assert (objects (with_object ob s1) !! next_pointer s1 = Some ob) as O2 by apply with_object_new.
  exists (next_pointer s), s1, (next_pointer s1), (with_object ob s1).
  split; [reflexivity|].
  split. { unfold GetObjectClass. erewrite bind_ok by (apply object_at_ok, O1). reflexivity. }
  split. { unfold GetStringUTFChars. erewrite bind_ok by (eapply as_string_ok; [exact O1|reflexivity]). reflexivity. }
  split. { unfold GetStringUTFLength. erewrite bind_ok by (eapply as_string_ok; [exact O1|reflexivity]).
           unfold i32. pose proof (c_str_length str). rewrite swrap_small by (cbn [Z.sub Z.pow] in *; lia). reflexivity. }
  split; [apply c_str_id|].
  split. { unfold call_method_function. erewrite bind_ok by (eapply as_string_ok; [exact O1|reflexivity]). reflexivity. }
  split. { unfold get_array_elements_generic. erewrite bind_ok by (eapply as_array_ok; [exact O2|reflexivity]). reflexivity. }
  split; [eapply as_array_ok; [exact O2|reflexivity]|].
  intros q H1 H2. rewrite with_object_old by exact H2. apply with_object_old, H1.
Qed.

Lemma string_roundtrip_witness : exists p s1, NewStringUTF "guest" jni_start = (Ret p, s1) /\
  GetStringUTFChars p true s1 = (Ret ("guest"%string, Some false), s1) /\ GetStringUTFLength p s1 = (Ret 5, s1).
Proof.
  destruct (string_roundtrip (fun _ _ _ => ret (VInt 0)) "guest" jni_start ltac:(simpl; lia))
    as (p & s1 & b & s2 & H1 & _ & H2 & H3 & _).
  exists p, s1. auto.
Defined.
