(* ===== verification/Audio.v ===== *)
(** The hand-over of sound in src/class/audio_interface.cpp: [AudioDevice.write],
    called by guest threads, and [audio_callback], called by the audio thread of
    the host, share one buffer under a mutex and meet at a condition variable.
    The threads interleave; copying moves one byte at a time. *)
From S2P Require Import Prelude.
Local Open Scope Z_scope.

Definition chunk_size : nat := 2048.
Abbreviation chunk := (list Z).
Definition silence : chunk := replicate chunk_size 0.

Inductive thread : Type := Writer (tid : Z) | Callback.
#[global] Instance thread_eq_dec : EqDecision thread.
Proof. solve_decision. Defined.

(** Where a thread is in [AudioDevice.write]: constructing the [unique_lock],
    copying (so many bytes done), about to wait, in the wait set, awake again and
    about to take the mutex back, about to return (which releases it). *)
Inductive write_phase : Type :=
| WIdle | WLock (c : chunk) | WCopy (c : chunk) (i : nat) | WWait | WSleep | WWoken | WReturn.
(** Where the audio thread is in [audio_callback]. *)
Inductive callback_phase : Type :=
| CIdle | CLock | CCopy (stream : chunk) | CUnlock (stream : chunk) | CNotify.

(** [written] and [played] record the chunks copied into the buffer and out of it. *)
Record audio_state : Type := {
  audio_device : Z;
  audio_buffer : chunk;
  audio_mutex : option thread;
  writers : gmap Z write_phase;
  callback : callback_phase;
  written : list chunk;
  played : list chunk
}.
Definition initial_audio : audio_state :=
  {| audio_device := 0; audio_buffer := silence; audio_mutex := None; writers := ∅; callback := CIdle; written := []; played := [] |}.
Definition phase (s : audio_state) (t : Z) : write_phase := default WIdle (writers s !! t).
Definition with_phase (t : Z) (p : write_phase) (s : audio_state) : audio_state :=
  {| audio_device := audio_device s; audio_buffer := audio_buffer s; audio_mutex := audio_mutex s; writers := <[t := p]> (writers s);
     callback := callback s; written := written s; played := played s |}.
Definition with_callback (p : callback_phase) (s : audio_state) : audio_state :=
  {| audio_device := audio_device s; audio_buffer := audio_buffer s; audio_mutex := audio_mutex s; writers := writers s;
     callback := p; written := written s; played := played s |}.
Definition with_mutex (m : option thread) (s : audio_state) : audio_state :=
  {| audio_device := audio_device s; audio_buffer := audio_buffer s; audio_mutex := m; writers := writers s;
     callback := callback s; written := written s; played := played s |}.
Definition with_buffer (b : chunk) (s : audio_state) : audio_state :=
  {| audio_device := audio_device s; audio_buffer := b; audio_mutex := audio_mutex s; writers := writers s;
     callback := callback s; written := written s; played := played s |}.
Definition note_written (c : chunk) (s : audio_state) : audio_state :=
  {| audio_device := audio_device s; audio_buffer := audio_buffer s; audio_mutex := audio_mutex s; writers := writers s;
     callback := callback s; written := written s ++ [c]; played := played s |}.
Definition note_played (c : chunk) (s : audio_state) : audio_state :=
  {| audio_device := audio_device s; audio_buffer := audio_buffer s; audio_mutex := audio_mutex s; writers := writers s;
     callback := callback s; written := written s; played := played s ++ [c] |}.

(** [audio_interface_init] with the identifier [SDL_OpenAudioDevice] returned. *)
Definition audio_interface_init (opened : Z) : M audio_state Z :=
  modify (fun s => {| audio_device := opened; audio_buffer := audio_buffer s; audio_mutex := audio_mutex s; writers := writers s;
    callback := callback s; written := written s; played := played s |}) ;;
  if opened =? 0 then ret (-1) else ret 0.
(** Returns whether [SDL_CloseAudioDevice] is called. *)
Definition audio_interface_close : M audio_state bool :=
  let! d := gets audio_device in
  if d =? 0 then ret false else ret true.

(** A call of [AudioDevice.write] with the array and its size, the next step of a
    writer, a spurious wake-up, a call of [audio_callback], its next step; the
    step that notifies names the thread it wakes, if any is waiting. *)
Inductive action : Type :=
| CallWrite (t : Z) (data : chunk) (size : Z)
| StepWrite (t : Z)
| WakeUp (t : Z)
| CallCallback (len : Z)
| StepCallback
| Notify (woken : option Z).

Definition asleep (s : audio_state) (t : Z) : bool := match phase s t with WSleep => true | _ => false end.
(** Nobody is in the wait set. *)
Definition none_asleep (s : audio_state) : bool :=
  forallb (fun p => match snd p with WSleep => false | _ => true end) (map_to_list (writers s)).

(** [None]: the action is not possible now (the thread is elsewhere, or blocked). *)
Definition step_write (t : Z) (s : audio_state) : option audio_state :=
  match phase s t with
  | WLock c => match audio_mutex s with None => Some (with_phase t (WCopy c 0) (with_mutex (Some (Writer t)) s)) | _ => None end
  | WCopy c i =>
      match c !! i with
      | Some x => Some (with_phase t (WCopy c (S i)) (with_buffer (<[i := x]> (audio_buffer s)) s))
      | None => Some (with_phase t WWait (note_written c s))
      end
  | WWait => Some (with_phase t WSleep (with_mutex None s))
  | WWoken => match audio_mutex s with None => Some (with_phase t WReturn (with_mutex (Some (Writer t)) s)) | _ => None end
  | WReturn => Some (with_phase t WIdle (with_mutex None s))
  | WIdle | WSleep => None
  end.
Definition step_callback (s : audio_state) : option audio_state :=
  match callback s with
  | CLock => match audio_mutex s with None => Some (with_callback (CCopy []) (with_mutex (Some Callback) s)) | _ => None end
  | CCopy stream =>
      match audio_buffer s !! length stream with
      | Some x => Some (with_callback (CCopy (stream ++ [x])) s)
      | None => Some (with_callback (CUnlock stream) s)
      end
  | CUnlock stream => Some (with_callback CNotify (with_mutex None (note_played stream s)))
  | CIdle | CNotify => None
  end.
Definition exec (a : action) (s : audio_state) : option (outcome audio_state) :=
  match a with
  | CallWrite t data size =>
      match phase s t with
      | WIdle =>
          if i32 size =? 2048 then
            if 2048 <=? Z.of_nat (length data) then Some (Ret (with_phase t (WLock (take chunk_size data)) s)) else Some (Stop Undefined)
          else Some (Stop AssertFailed)
      | _ => None
      end
  | StepWrite t => option_map Ret (step_write t s)
  | WakeUp t => if asleep s t then Some (Ret (with_phase t WWoken s)) else None
  | CallCallback len =>
      match callback s with
      | CIdle => if i32 len =? 2048 then Some (Ret (with_callback CLock s)) else Some (Stop AssertFailed)
      | _ => None
      end
  | StepCallback => option_map Ret (step_callback s)
  | Notify woken =>
      match callback s with
      | CNotify =>
          match woken with
          | Some t => if asleep s t then Some (Ret (with_callback CIdle (with_phase t WWoken s))) else None
          | None => if none_asleep s then Some (Ret (with_callback CIdle s)) else None
          end
      | _ => None
      end
  end.
(** A schedule, as long as it is possible and the process goes on. *)
Fixpoint run (l : list action) (s : audio_state) : option audio_state :=
  match l with
  | [] => Some s
  | a :: l' => match exec a s with Some (Ret s') => run l' s' | _ => None end
  end.

(** ** The invariant *)

(** What the buffer holds when nobody copies into it. *)
Definition last_written (s : audio_state) : chunk := List.last (written s) silence.

Definition writer_holds (p : write_phase) : bool := match p with WCopy _ _ | WWait | WReturn => true | _ => false end.
Definition callback_holds (p : callback_phase) : bool := match p with CCopy _ | CUnlock _ => true | _ => false end.

Record invariant (s : audio_state) : Prop := {
  i_writer : forall t, writer_holds (phase s t) = true <-> audio_mutex s = Some (Writer t);
  i_callback : callback_holds (callback s) = true <-> audio_mutex s = Some Callback;
  i_chunks : forall c, c ∈ written s -> length c = chunk_size;
  i_pending : forall t c, phase s t = WLock c -> length c = chunk_size;
  i_buffer : match audio_mutex s with
             | Some (Writer t) =>
                 match phase s t with
                 | WCopy c i => (i <= chunk_size)%nat /\ length c = chunk_size /\ audio_buffer s = take i c ++ drop i (last_written s)
                 | _ => audio_buffer s = last_written s
                 end
             | _ => audio_buffer s = last_written s
             end;
  i_stream : match callback s with
             | CCopy stream => (length stream <= chunk_size)%nat /\ stream = take (length stream) (last_written s)
             | CUnlock stream => stream = last_written s
             | _ => True
             end;
  i_played : exists idx, StronglySorted le idx /\ Forall (fun i => (i <= length (written s))%nat) idx /\
      played s = map (fun i => List.nth i (silence :: written s) silence) idx
}.

Lemma phase_with t p s t' : phase (with_phase t p s) t' = if decide (t' = t) then p else phase s t'.
Proof. unfold phase, with_phase. cbn. destruct (decide (t' = t)) as [->|H]; [rewrite lookup_insert_eq | rewrite lookup_insert_ne by congruence]; reflexivity. Qed.

Lemma last_of_written s : (written s = [] /\ last_written s = silence) \/ exists l c, written s = l ++ [c] /\ last_written s = c.
Proof.
  unfold last_written. destruct (written s) as [|c l] using rev_ind; [left; auto|]. right. exists l, c.
  split; [reflexivity | apply last_last].
Qed.
Lemma last_written_length s : (forall c, c ∈ written s -> length c = chunk_size) -> length (last_written s) = chunk_size.
Proof.
  intros H. destruct (last_of_written s) as [[_ ->]|(l & c & E & ->)]; [apply length_replicate|]. apply H. rewrite E. set_solver.
Qed.
Lemma last_written_index s : List.nth (length (written s)) (silence :: written s) silence = last_written s.
Proof.
  destruct (last_of_written s) as [[-> ->]|(l & c & -> & ->)]; [reflexivity|].
  rewrite length_app, Nat.add_comm. cbn [length List.nth Nat.add]. rewrite app_nth2, Nat.sub_diag by lia. reflexivity.
Qed.

(** Who holds the mutex, after a step of one thread. *)
Lemma writer_mutex s s' t p m : (forall t', writer_holds (phase s t') = true <-> audio_mutex s = Some (Writer t')) ->
  (forall t', phase s' t' = if decide (t' = t) then p else phase s t') -> audio_mutex s' = m ->
  (writer_holds p = true <-> m = Some (Writer t)) ->
  (forall t', t' <> t -> (audio_mutex s = Some (Writer t') <-> m = Some (Writer t'))) ->
  forall t', writer_holds (phase s' t') = true <-> audio_mutex s' = Some (Writer t').
Proof. intros H1 H2 -> H3 H4 t'. rewrite H2. destruct (decide (t' = t)) as [->|Hn]; [exact H3|]. rewrite H1. apply H4, Hn. Qed.

(** The played chunks stay what they are when more is written. *)
Lemma played_more c s : (exists idx, StronglySorted le idx /\ Forall (fun i => (i <= length (written s))%nat) idx /\
    played s = map (fun i => List.nth i (silence :: written s) silence) idx) ->
  exists idx, StronglySorted le idx /\ Forall (fun i => (i <= length (written s ++ [c]))%nat) idx /\
    played s = map (fun i => List.nth i (silence :: written s ++ [c]) silence) idx.
Proof.
  intros (idx & H1 & H2 & H3). exists idx. split; [exact H1|]. split.
  - eapply Forall_impl; [exact H2|]. intros i Hi. rewrite length_app. cbn in *. lia.
  - rewrite H3. apply map_ext_in. intros i Hi. apply list_elem_of_In in Hi. rewrite Forall_forall in H2. specialize (H2 i Hi). cbn in H2.
    change (silence :: written s ++ [c]) with ((silence :: written s) ++ [c]). rewrite app_nth1 by (cbn [length]; lia). reflexivity.
Qed.
Lemma played_one s : (exists idx, StronglySorted le idx /\ Forall (fun i => (i <= length (written s))%nat) idx /\
    played s = map (fun i => List.nth i (silence :: written s) silence) idx) ->
  exists idx, StronglySorted le idx /\ Forall (fun i => (i <= length (written s))%nat) idx /\
    played s ++ [last_written s] = map (fun i => List.nth i (silence :: written s) silence) idx.
Proof.
  intros (idx & H1 & H2 & H3). exists (idx ++ [length (written s)]). split; [|split].
  - clear H3. induction H1 as [|i idx H1 IH H]; [repeat constructor|]. apply Forall_cons in H2 as [Hi H2]. cbn. constructor; [apply IH, H2|].
    apply Forall_app. split; [exact H|]. repeat constructor. exact Hi.
  - apply Forall_app. split; [exact H2 | repeat constructor].
  - rewrite map_app, <- H3. cbn [map]. rewrite last_written_index. reflexivity.
Qed.

Lemma invariant_initial : invariant initial_audio.
Proof.
  split; cbn; try (intros; split; discriminate); try (intros; discriminate); try exact I; try reflexivity.
  - intros c H. inversion H.
  - exists []. repeat constructor.
Qed.

(** A step of the copying loop. *)
Lemma copy_byte (c b : chunk) i x : (i < length c)%nat -> length b = length c -> c !! i = Some x ->
  <[i := x]> (take i c ++ drop i b) = take (S i) c ++ drop (S i) b.
Proof.
  intros Hi Hb Hx. rewrite insert_app_r_alt by (rewrite length_take; lia). rewrite length_take, Nat.min_l, Nat.sub_diag by lia.
  destruct (drop i b) as [|y b'] eqn:E; [apply (f_equal length) in E; rewrite length_drop in E; cbn in E; lia|]. cbn [insert list_insert].
  rewrite (take_S_r _ _ _ Hx), <- app_assoc. cbn [app]. f_equal. f_equal.
  rewrite <- Nat.add_1_r, <- drop_drop, E. reflexivity.
Qed.

(** The parts of the invariant that a step of a writer does not touch. *)
Ltac writer_step I t p :=
  constructor; cbn [callback written played with_phase with_mutex with_buffer note_written];
  [ eapply (writer_mutex _ _ t p _ (i_writer _ I)); [intros t'; etransitivity; [apply phase_with | reflexivity] | reflexivity | cbn | cbn]
  | cbn; try exact (i_callback _ I)
  | try exact (i_chunks _ I)
  | intros t' c'; rewrite phase_with; destruct (decide (t' = t)); [try discriminate | exact (i_pending _ I t' c')]
  | cbn [audio_mutex with_phase with_mutex with_buffer note_written]
  | try exact (i_stream _ I)
  | try exact (i_played _ I) ].

Lemma step_write_invariant t s s' : invariant s -> step_write t s = Some s' -> invariant s'.
Proof.
  intros I E. unfold step_write in E. pose proof (i_writer _ I t) as Ht. pose proof (i_buffer _ I) as Hb. pose proof (i_callback _ I) as Hc.
  destruct (phase s t) as [|c|c i| | | |] eqn:Ep; try discriminate; cbn [writer_holds] in Ht.
  - destruct (audio_mutex s) eqn:Em; [discriminate|]. injection E as <-. writer_step I t (WCopy c 0).
    + tauto.
    + intros t' Hn. rewrite Em. intuition congruence.
    + rewrite Hc. split; congruence.
    + rewrite phase_with, decide_True by reflexivity. cbn. split; [lia|]. split; [apply (i_pending _ I t c Ep)|]. exact Hb.
  - assert (audio_mutex s = Some (Writer t)) as Em by (apply Ht; reflexivity). rewrite Em, Ep in Hb. destruct Hb as (Hi & Hl & Hb).
    pose proof (last_written_length s (i_chunks _ I)) as Ll.
    destruct (c !! i) as [x|] eqn:Ex; injection E as <-.
    + pose proof (lookup_lt_Some _ _ _ Ex) as Hlt. writer_step I t (WCopy c (S i)); rewrite ?Em.
      * tauto.
      * tauto.
      * rewrite phase_with, decide_True by reflexivity. split; [lia|]. split; [exact Hl|]. cbn. rewrite Hb.
        apply copy_byte; [exact Hlt | exact (eq_trans Ll (eq_sym Hl)) | exact Ex].
    + apply lookup_ge_None in Ex. writer_step I t WWait; rewrite ?Em.
      * tauto.
      * tauto.
      * intros c' [H| ->%list_elem_of_singleton]%elem_of_app; [apply (i_chunks _ I), H | exact Hl].
      * rewrite phase_with, decide_True by reflexivity. change (audio_buffer s = last_written (note_written c s)).
        rewrite Hb, take_ge, drop_ge, app_nil_r by lia. unfold last_written. cbn. rewrite last_last. reflexivity.
      * destruct (callback s) eqn:Ec; try exact Logic.I; exfalso; rewrite Em in Hc; cbn in Hc; destruct Hc as [Hc _];
          specialize (Hc eq_refl); discriminate.
      * apply played_more, (i_played _ I).
  - assert (audio_mutex s = Some (Writer t)) as Em by (apply Ht; reflexivity). rewrite Em, Ep in Hb. injection E as <-.
    writer_step I t WSleep; rewrite ?Em.
    + split; discriminate.
    + intros t' Hn. split; congruence.
    + rewrite Hc, Em. split; discriminate.
    + exact Hb.
  - destruct (audio_mutex s) eqn:Em; [discriminate|]. injection E as <-. writer_step I t WReturn.
    + tauto.
    + intros t' Hn. rewrite Em. split; congruence.
    + rewrite Hc. split; discriminate.
    + rewrite phase_with, decide_True by reflexivity. exact Hb.
  - assert (audio_mutex s = Some (Writer t)) as Em by (apply Ht; reflexivity). rewrite Em, Ep in Hb. injection E as <-.
    writer_step I t WIdle; rewrite ?Em.
    + split; discriminate.
    + intros t' Hn. split; congruence.
    + rewrite Hc, Em. split; discriminate.
    + exact Hb.
Qed.

Ltac callback_step I :=
  constructor; cbn [writers written played phase audio_buffer with_callback with_mutex note_played];
  [ intros t'; cbn [audio_mutex with_callback with_mutex note_played]
  | cbn
  | exact (i_chunks _ I)
  | exact (i_pending _ I)
  | cbn [audio_mutex with_callback with_mutex note_played]
  | cbn
  | try exact (i_played _ I) ].

Lemma step_callback_invariant s s' : invariant s -> step_callback s = Some s' -> invariant s'.
Proof.
  intros I E. unfold step_callback in E. pose proof (i_callback _ I) as Hc. pose proof (i_buffer _ I) as Hb. pose proof (i_stream _ I) as Hs.
  pose proof (last_written_length s (i_chunks _ I)) as Ll.
  destruct (callback s) as [| |stream|stream|] eqn:Ep; try discriminate; cbn [callback_holds] in Hc.
  - destruct (audio_mutex s) eqn:Em; [discriminate|]. injection E as <-. callback_step I.
    + pose proof (i_writer _ I t') as Hw. rewrite Em in Hw. split; [intros H; apply Hw in H; discriminate H | discriminate].
    + tauto.
    + exact Hb.
    + split; [lia | reflexivity].
  - assert (audio_mutex s = Some Callback) as Em by (apply Hc; reflexivity). rewrite Em in Hb. destruct Hs as [Hl Hs].
    destruct (audio_buffer s !! length stream) as [x|] eqn:Ex; injection E as <-; callback_step I.
    + exact (i_writer _ I t').
    + tauto.
    + rewrite Em. exact Hb.
    + rewrite Hb in Ex. pose proof (lookup_lt_Some _ _ _ Ex). rewrite length_app. split; [cbn; lia|].
      change (stream ++ [x] = take (length stream + 1) (last_written s)). rewrite Nat.add_1_r, (take_S_r _ _ _ Ex), <- Hs. reflexivity.
    + exact (i_writer _ I t').
    + tauto.
    + rewrite Em. exact Hb.
    + apply lookup_ge_None in Ex. rewrite Hb in Ex. rewrite Hs, take_ge by exact Ex. reflexivity.
  - assert (audio_mutex s = Some Callback) as Em by (apply Hc; reflexivity). rewrite Em in Hb. injection E as <-. callback_step I.
    + pose proof (i_writer _ I t') as Hw. rewrite Em in Hw. split; [intros H; apply Hw in H; discriminate H | discriminate].
    + split; discriminate.
    + exact Hb.
    + exact Logic.I.
    + rewrite Hs. apply played_one, (i_played _ I).
Qed.

(** A thread that does not hold the mutex moves to a place where it does not. *)
Lemma move_writer t p s : invariant s -> writer_holds (phase s t) = false -> writer_holds p = false ->
  (forall c, p = WLock c -> length c = chunk_size) -> invariant (with_phase t p s).
Proof.
  intros I H0 Hp Hl. pose proof (i_writer _ I t) as Ht. rewrite H0 in Ht. pose proof (i_buffer _ I) as Hb. writer_step I t p.
  - rewrite Hp. exact Ht.
  - tauto.
  - intros E. apply Hl, E.
  - destruct (audio_mutex s) as [[t'|]|] eqn:Em; [|exact Hb|exact Hb]. rewrite phase_with.
    destruct (decide (t' = t)) as [->|]; [destruct Ht as [_ Ht]; specialize (Ht eq_refl); discriminate | exact Hb].
Qed.
Lemma move_callback p s : invariant s -> callback_holds (callback s) = false -> callback_holds p = false -> invariant (with_callback p s).
Proof.
  intros I H0 Hp. pose proof (i_callback _ I) as Hc. rewrite H0 in Hc. callback_step I.
  - exact (i_writer _ I t').
  - rewrite Hp. exact Hc.
  - exact (i_buffer _ I).
  - destruct p; try exact Logic.I; discriminate.
Qed.

Lemma exec_invariant a s s' : invariant s -> exec a s = Some (Ret s') -> invariant s'.
Proof.
  intros I. unfold exec, asleep. destruct a as [t data size|t|t|len| |woken].
  - destruct (phase s t) eqn:Ep; try discriminate. destruct (i32 size =? 2048); [|discriminate].
    destruct (Z.leb_spec 2048 (Z.of_nat (length data))) as [Hd|]; [|discriminate]. intros [= <-]. apply move_writer; try assumption; rewrite ?Ep; try reflexivity.
    intros c [= <-]. rewrite length_take. unfold chunk_size in *. lia.
  - destruct (step_write t s) eqn:E; [|discriminate]. intros [= <-]. eapply step_write_invariant; eassumption.
  - destruct (phase s t) eqn:Ep; try discriminate. intros [= <-]. apply move_writer; try assumption; rewrite ?Ep; try reflexivity. discriminate.
  - destruct (callback s) eqn:Ep; try discriminate. destruct (i32 len =? 2048); [|discriminate]. intros [= <-].
    apply move_callback; [exact I | rewrite Ep; reflexivity | reflexivity].
  - destruct (step_callback s) eqn:E; [|discriminate]. intros [= <-]. eapply step_callback_invariant; eassumption.
  - destruct (callback s) eqn:Ep; try discriminate. destruct woken as [t|].
    + destruct (phase s t) eqn:Et; try discriminate. intros [= <-].
      apply move_callback; [apply move_writer; try assumption; rewrite ?Et; try reflexivity; discriminate | cbn; rewrite Ep; reflexivity | reflexivity].
    + destruct (none_asleep s); [|discriminate]. intros [= <-]. apply move_callback; [exact I | rewrite Ep; reflexivity | reflexivity].
Qed.

Lemma run_invariant l : forall s s', invariant s -> run l s = Some s' -> invariant s'.
Proof.
  induction l as [|a l IH]; intros s s' I; cbn [run]; [intros [= <-]; exact I|].
  destruct (exec a s) as [[s1| |]|] eqn:E; try discriminate. apply IH. eapply exec_invariant; eassumption.
Qed.

(** C33. However guest threads that write sound and the audio thread of the host
    interleave, down to single bytes of the copies: the audio thread is only ever
    given whole chunks, each one either silence or a chunk some call of
    [AudioDevice.write] was given, in the order in which they were written; and
    two threads never hold the mutex at once. *)
Theorem played_in_order l s : run l initial_audio = Some s ->
  (exists idx, StronglySorted le idx /\ Forall (fun i => (i <= length (written s))%nat) idx /\
     played s = map (fun i => List.nth i (silence :: written s) silence) idx) /\
  (forall t t', writer_holds (phase s t) = true -> writer_holds (phase s t') = true -> t = t') /\
  (forall t, writer_holds (phase s t) = true -> callback_holds (callback s) = false).
Proof.
  intros R. pose proof (run_invariant l _ _ invariant_initial R) as I. split; [exact (i_played _ I)|]. split.
  - intros t t' H H'. apply (i_writer _ I) in H, H'. congruence.
  - intros t H. apply (i_writer _ I) in H. destruct (callback_holds (callback s)) eqn:E; [|reflexivity].
    apply (i_callback _ I) in E. congruence.
Qed.

(** ** A chunk that is never heard

    [wait] has no condition and [notify_one] is called after the mutex is
    released: a notification that belongs to an earlier chunk ends the wait. *)
Definition tone (x : Z) : chunk := replicate chunk_size x.
Definition write_until_asleep (x : Z) : list action :=
  CallWrite 1 (tone x) 2048 :: StepWrite 1 :: replicate chunk_size (StepWrite 1) ++ [StepWrite 1; StepWrite 1].
Definition callback_until_notify : list action :=
  CallCallback 2048 :: StepCallback :: replicate chunk_size StepCallback ++ [StepCallback; StepCallback].
Definition woken_and_done : list action := [Notify (Some 1); StepWrite 1; StepWrite 1].
(** The second notification comes late, when the second chunk is waiting. *)
Definition late_notification : list action :=
  write_until_asleep 1 ++ callback_until_notify ++ woken_and_done ++
  callback_until_notify ++ write_until_asleep 2 ++ woken_and_done ++
  write_until_asleep 3 ++ callback_until_notify ++ woken_and_done.

Lemma run_app l k s : run (l ++ k) s = match run l s with Some s' => run k s' | None => None end.
Proof. revert s. induction l as [|a l IH]; intros s; cbn [run app]; [reflexivity|]. destruct (exec a s) as [[]|]; auto. Qed.

(** The state with the fields that a writer and the callback change. *)
Definition between (d : Z) (b : chunk) (p : write_phase) (c : callback_phase) (w l : list chunk) (m : option thread) : audio_state :=
  {| audio_device := d; audio_buffer := b; audio_mutex := m; writers := {[1 := p]}; callback := c; written := w; played := l |}.
Lemma phase_between d b p c w l m : phase (between d b p c w l m) 1 = p.
Proof. unfold phase, between. cbn [writers]. rewrite lookup_singleton_eq. reflexivity. Qed.

Lemma tone_length x : length (tone x) = chunk_size.
Proof. apply length_replicate. Qed.
Lemma call_write_idle x s : phase s 1 = WIdle -> exec (CallWrite 1 (tone x) 2048) s = Some (Ret (with_phase 1 (WLock (tone x)) s)).
Proof.
  intros H. cbn [exec]. rewrite H, tone_length. change (i32 2048 =? 2048) with true. change (2048 <=? Z.of_nat chunk_size) with true. cbv iota.
  rewrite take_ge by (rewrite tone_length; reflexivity). reflexivity.
Qed.

Section Segments.
Context (d : Z) (w l : list chunk).

Lemma step_between b p c m s' : step_write 1 (between d b p c w l m) = Some s' ->
  exec (StepWrite 1) (between d b p c w l m) = Some (Ret s').
Proof. intros E. cbn [exec]. rewrite E. reflexivity. Qed.

Lemma copying x c m : forall k i b, (i + k = length x)%nat -> length b = length x ->
  run (replicate k (StepWrite 1)) (between d b (WCopy x i) c w l m) =
  Some (between d (take i b ++ drop i x) (WCopy x (length x)) c w l m).
Proof.
  induction k as [|k IH]; intros i b Hk Hb; cbn [replicate run].
  - assert (i = length x) as -> by lia. rewrite drop_all, app_nil_r, take_ge by lia. reflexivity.
  - destruct (lookup_lt_is_Some_2 x i ltac:(lia)) as [y Hy].
    rewrite (step_between _ _ _ _ (between d (<[i := y]> b) (WCopy x (S i)) c w l m)).
    + rewrite IH by (rewrite ?length_insert; lia). do 2 f_equal. rewrite (take_S_r _ _ y) by (apply list_lookup_insert_eq; lia).
      rewrite take_insert_ge, <- app_assoc by lia. cbn [app]. rewrite <- (drop_S _ _ _ Hy). reflexivity.
    + unfold step_write. rewrite phase_between, Hy. unfold with_phase, with_buffer, between. cbn. rewrite insert_singleton_eq. reflexivity.
Qed.

Lemma streaming b p m : forall k stream, (length stream + k = length b)%nat -> stream = take (length stream) b ->
  run (replicate k StepCallback) (between d b p (CCopy stream) w l m) = Some (between d b p (CCopy b) w l m).
Proof.
  induction k as [|k IH]; intros stream Hk Hs; cbn [replicate run].
  - rewrite Hs, take_ge by lia. reflexivity.
  - destruct (lookup_lt_is_Some_2 b (length stream) ltac:(lia)) as [y Hy]. cbn [exec step_callback callback between audio_buffer option_map].
    rewrite Hy. cbn [option_map]. change (with_callback (CCopy (stream ++ [y])) _) with (between d b p (CCopy (stream ++ [y])) w l m).
    apply IH; rewrite length_app; cbn [length]; [lia|]. rewrite Nat.add_1_r, (take_S_r _ _ _ Hy), <- Hs. reflexivity.
Qed.

Lemma run_step a s s' k : exec a s = Some (Ret s') -> run (a :: k) s = run k s'.
Proof. intros E. cbn [run]. rewrite E. reflexivity. Qed.
Ltac writer_moves := unfold step_write; rewrite phase_between; unfold with_phase, between; cbn; rewrite insert_singleton_eq; reflexivity.

(** A call of [write] from the lock on; the call itself. *)
Lemma write_locked x b c : length b = length x -> run (StepWrite 1 :: replicate (length x) (StepWrite 1) ++ [StepWrite 1; StepWrite 1])
    (between d b (WLock x) c w l None) = Some (between d x WSleep c (w ++ [x]) l None).
Proof.
  intros Hb. rewrite (run_step _ _ (between d b (WCopy x 0) c w l (Some (Writer 1)))) by (apply step_between; writer_moves).
  rewrite run_app, copying by (rewrite ?Hb; auto). rewrite take_0, drop_0. cbn [app].
  rewrite (run_step _ _ (between d x WWait c (w ++ [x]) l (Some (Writer 1)))).
  - rewrite (run_step _ _ (between d x WSleep c (w ++ [x]) l None)); [reflexivity|]. cbn [exec].
    replace (step_write 1 _) with (Some (between d x WSleep c (w ++ [x]) l None)); [reflexivity|]. symmetry. writer_moves.
  - apply step_between. unfold step_write. rewrite phase_between, lookup_ge_None_2 by reflexivity.
    unfold with_phase, between. cbn. rewrite insert_singleton_eq. reflexivity.
Qed.
Lemma write_segment x s b c : length b = chunk_size ->
  exec (CallWrite 1 (tone x) 2048) s = Some (Ret (between d b (WLock (tone x)) c w l None)) ->
  run (write_until_asleep x) s = Some (between d (tone x) WSleep c (w ++ [tone x]) l None).
Proof.
  intros Hb E. unfold write_until_asleep. rewrite (run_step _ _ _ _ E). pose proof (tone_length x) as Hl.
  rewrite <- Hl at 1. apply write_locked. congruence.
Qed.
Lemma call_write x b c : exec (CallWrite 1 (tone x) 2048) (between d b WIdle c w l None) = Some (Ret (between d b (WLock (tone x)) c w l None)).
Proof. rewrite call_write_idle by apply phase_between. unfold with_phase, between. cbn. rewrite insert_singleton_eq. reflexivity. Qed.

Lemma callback_segment b p : length b = chunk_size ->
  run callback_until_notify (between d b p CIdle w l None) = Some (between d b p CNotify w (l ++ [b]) None).
Proof.
  intros Hb. unfold callback_until_notify. rewrite (run_step _ _ (between d b p CLock w l None)) by reflexivity.
  rewrite (run_step _ _ (between d b p (CCopy []) w l (Some Callback))) by reflexivity.
  rewrite run_app, streaming by (rewrite ?Hb; reflexivity).
  rewrite (run_step _ _ (between d b p (CUnlock b) w l (Some Callback))).
  - rewrite (run_step _ _ (between d b p CNotify w (l ++ [b]) None)) by reflexivity. reflexivity.
  - cbn [exec step_callback callback between audio_buffer option_map]. rewrite lookup_ge_None_2 by reflexivity. reflexivity.
Qed.

Lemma woken_segment b : run woken_and_done (between d b WSleep CNotify w l None) = Some (between d b WIdle CIdle w l None).
Proof. reflexivity. Qed.
End Segments.

#[local] Opaque tone chunk_size.
Lemma late_notification_run : run late_notification initial_audio =
  Some (between 0 (tone 3) WIdle CIdle [tone 1; tone 2; tone 3] [tone 1; tone 1; tone 3] None).
Proof.
  unfold late_notification. pose proof tone_length as Ht.
  rewrite run_app, (write_segment 0 [] [] 1 initial_audio silence CIdle (length_replicate _ _)).
  - rewrite run_app, callback_segment by apply Ht. rewrite run_app, woken_segment.
    rewrite run_app, callback_segment by apply Ht. cbn [app]. rewrite run_app, (write_segment 0 [tone 1] [tone 1; tone 1] 2 _ (tone 1) CNotify (Ht 1) (call_write 0 [tone 1] [tone 1; tone 1] 2 (tone 1) CNotify)).
    rewrite run_app, woken_segment. cbn [app]. rewrite run_app, (write_segment 0 [tone 1; tone 2] [tone 1; tone 1] 3 _ (tone 2) CIdle (Ht 2) (call_write 0 [tone 1; tone 2] [tone 1; tone 1] 3 (tone 2) CIdle)).
    rewrite run_app, callback_segment by apply Ht. apply woken_segment.
  - rewrite call_write_idle by reflexivity. reflexivity.
Qed.

(** The second of three chunks is overwritten before it is played; the first is
    played twice. *)
Example chunk_lost : exists s, run late_notification initial_audio = Some s /\
  written s = [tone 1; tone 2; tone 3] /\ played s = [tone 1; tone 1; tone 3].
Proof. eexists. split; [apply late_notification_run | split; reflexivity]. Qed.

Lemma played_in_order_witness : exists s, run late_notification initial_audio = Some s /\ (length (played s) = 3)%nat /\
  (forall t, writer_holds (phase s t) = true -> callback_holds (callback s) = false).
Proof.
  eexists. split; [apply late_notification_run|]. split; [reflexivity|].
  apply (played_in_order late_notification _ late_notification_run).
Defined.
