(* ===== verification/Classes.v ===== *)
(** The Java classes of src/class and src/main.cpp that the guest finds through
    JNI: which classes, fields and methods exist, and what the methods return.
    Two methods act on state that is modelled elsewhere: handing a chunk to the
    audio callback (Audio.v) and storing cookies (AppState.v). *)
From stdpp Require Import pretty.
From S2P Require Import Prelude FunctionTraits Trampoline JniTable Jni.
Local Open Scope Z_scope.

(** What the stubs read of app_state.cpp. *)
Record app_data : Type := {
  roblox_version : string;
  user_agent : string;
  user_id : Z;
  username : string;
  display_name : string;
  membership_type : Z;
  under_13 : bool;
  theme : string;
  files_dir : string;
  content_dir : string;
  display_width : Z;
  display_height : Z;
  device_memory_mb : Z
}.
Definition ANDROID_SDK_VERSION : Z := 26.
Definition roblox_locale : string := "en_us".
(** The code of window.hpp. *)
Definition EVENT_APP_STARTUP : Z := 1.

(** Static variables; a variable that was not set is null. *)
Definition static (name : string) : JM Z := gets (fun s => default 0 (statics s !! name)).
Definition set_static (name : string) (v : Z) : JM unit := modify (fun s => set_statics (<[name := v]> (statics s)) s).
(** A class pointer: the variable holds the machine the class belongs to. *)
Definition class_var (variable class_name : string) : JM jclass :=
  let! s := get in
  match statics s !! variable with Some vm => ret (vm, class_name) | None => stop Undefined end.

(** [object->fields.emplace(field, value)]. *)
Definition emplace_field (p : Z) (f : jfieldID) (v : ValueVariant) : JM unit :=
  let! o := object_at p in
  match object_fields o !! f with
  | Some _ => ret tt
  | None => update_object p {| super := super o; object_fields := <[f := v]> (object_fields o); obj_data := obj_data o |}
  end.
(** [object->fields.at(field)]. *)
Definition field_at (p : Z) (f : jfieldID) : JM ValueVariant :=
  let! o := object_at p in at_ (object_fields o !! f).

(** [new JNI::Object(clazz)]. *)
Definition new_instance (c : jclass) : JM Z :=
  new_object {| super := Some c; object_fields := ∅; obj_data := PlainObject |}.
Definition variant_as (t : jtype) (v : ValueVariant) : JM Z :=
  match variant_get t v with Some x => ret x | None => throw bad_variant_access end.

(** Results of methods. *)
Definition a_string (text : string) : JM ValueVariant := let! p := create_string text in ret (VObject p).
Definition a_boolean (b : bool) : JM ValueVariant := ret (VBoolean (Z.b2z b)).
Definition nothing : JM ValueVariant := ret (VInt 0).
Definition a_null : JM ValueVariant := ret (VObject 0).
Definition an_object : JM ValueVariant :=
  let! p := new_object {| super := None; object_fields := ∅; obj_data := PlainObject |} in ret (VObject p).
Definition the_object (variable : string) : JM ValueVariant := let! p := static variable in ret (VObject p).

(** ** java_primitive_wrappers.cpp *)
Definition INTEGER : string := "java/lang/Integer".
Definition BOOLEAN : string := "java/lang/Boolean".
Definition FLOAT : string := "java/lang/Float".
Definition LONG : string := "java/lang/Long".
Definition wrapper_value (variable class_name : string) (t : jtype) (object : Z) : JM Z :=
  let! c := class_var variable class_name in
  let! v := field_at object (c, "value"%string) in variant_as t v.
Definition create_wrapper (variable class_name : string) (v : ValueVariant) : JM Z :=
  let! c := class_var variable class_name in
  let! p := new_instance c in
  emplace_field p (c, "value"%string) v ;;
  ret p.
Definition create_java_lang_integer (value : Z) : JM Z := create_wrapper "java_lang_integer_class" INTEGER (VInt (i32 value)).
Definition create_java_lang_boolean (value : bool) : JM Z := create_wrapper "java_lang_boolean_class" BOOLEAN (VBoolean (Z.b2z value)).
Definition create_java_lang_float (bits : Z) : JM Z := create_wrapper "java_lang_float_class" FLOAT (VFloat bits).
Definition create_java_lang_long (value : Z) : JM Z := create_wrapper "java_lang_long_class" LONG (VLong (i64 value)).

(** ** battery_status.cpp *)
Definition BATTERY_STATUS : string := "com/roblox/engine/jni/model/BatteryStatus".
Definition battery_fields : list string :=
  ["batteryLow"; "batteryPercentage"; "chargeCounter"; "currentAverage"; "currentNow"; "energyCounter"; "health"; "plugged";
   "power"; "present"; "status"; "temperature"; "voltage"]%string.
Definition emplace_object (p : Z) (c : jclass) (name : string) (make : JM Z) : JM unit :=
  let! v := make in emplace_field p (c, name) (VObject v).
(** The variable [battery_status] that is set is a local one, which hides the
    static one. *)
Definition get_battery_status : JM Z :=
  let! battery_status := static "battery_status" in
  if negb (battery_status =? 0) then ret battery_status
  else
    let! c := class_var "battery_status_class" BATTERY_STATUS in
    let! battery_status := new_instance c in
    emplace_object battery_status c "batteryLow" (create_java_lang_boolean false) ;;
    emplace_object battery_status c "batteryPercentage" (create_java_lang_integer 100) ;;
    emplace_object battery_status c "chargeCounter" (create_java_lang_integer 3000000) ;;
    emplace_object battery_status c "currentAverage" (create_java_lang_integer 1000000) ;;
    emplace_object battery_status c "currentNow" (create_java_lang_integer 1000000) ;;
    emplace_object battery_status c "energyCounter" (create_java_lang_long 36000000000) ;;
    emplace_object battery_status c "health" (create_java_lang_integer 2) ;;
    emplace_object battery_status c "plugged" (create_java_lang_integer 1) ;;
    emplace_object battery_status c "power" (create_java_lang_integer 12) ;;
    emplace_object battery_status c "present" (create_java_lang_boolean true) ;;
    emplace_object battery_status c "status" (create_java_lang_integer 2) ;;
    emplace_object battery_status c "temperature" (create_java_lang_integer 20) ;;
    emplace_object battery_status c "voltage" (create_java_lang_integer 12) ;;
    ret battery_status.

(** ** start_game_params.cpp *)
Definition set_start_game_params (place_id user_id join_request_type : Z)
    (join_attempt_id join_attempt_origin referral_page : string) : JM unit :=
  set_static "current_place_id" place_id ;;
  set_static "current_user_id" user_id ;;
  set_static "current_join_request_type" join_request_type ;;
  let! a := create_string join_attempt_id in
  set_static "current_join_attempt_id" a ;;
  let! b := create_string join_attempt_origin in
  set_static "current_join_attempt_origin" b ;;
  let! c := create_string referral_page in
  set_static "current_referral_page" c.
(** These three start at -1. *)
Definition game_number (name : string) : JM Z := gets (fun s => default (-1) (statics s !! name)).

Section Stubs.
Variable app : app_data.
(** The conversion of an [int] to a [float], as bits. *)
Variable float_of_int : Z -> Z.
(** The rest of [AudioDevice.write] with the chunk it copies, and of [onSetCookie]
    with the headers' texts. *)
Variable hand_over : list Z -> JM unit.
Variable set_cookies : list string -> JM unit.

(** ** platform_params.cpp; a [bool] in a variant becomes a [jint], the
    alternative it promotes to. *)
Definition PLATFORM_PARAMS : string := "com/roblox/engine/jni/model/PlatformParams".
Definition platform_fields : list string :=
  ["assetFolderPath"; "dpiScale"; "isKeyboardDevice"; "isMouseDevice"; "isTouchDevice"]%string.
Definition get_platform_params : JM Z :=
  let! platform_params := static "platform_params" in
  if negb (platform_params =? 0) then ret platform_params
  else
    let! c := class_var "platform_params_class" PLATFORM_PARAMS in
    let! p := new_instance c in
    set_static "platform_params" p ;;
    emplace_object p c "assetFolderPath" (create_string (content_dir app)) ;;
    emplace_field p (c, "dpiScale"%string) (VFloat 0x3f800000) ;;
    emplace_field p (c, "isKeyboardDevice"%string) (VInt 1) ;;
    emplace_field p (c, "isMouseDevice"%string) (VInt 1) ;;
    emplace_field p (c, "isTouchDevice"%string) (VInt 0) ;;
    ret p.

(** ** device_params.cpp *)
Definition DEVICE_PARAMS : string := "com/roblox/engine/jni/model/DeviceParams".
Definition device_fields : list string :=
  ["appBuildVariant"; "appVersion"; "country"; "deviceName"; "deviceTotalMemoryMB"; "displayResolution"; "isChrome";
   "lowMemoryKillerBackgroundAppThreshold"; "lowMemoryKillerForegroundAppThreshold"; "manufacturer"; "networkType"; "osVersion"]%string.
Definition to_string (n : Z) : string := pretty (Z.to_N n).
Definition get_device_params : JM Z :=
  let! device_params := static "device_params" in
  if negb (device_params =? 0) then ret device_params
  else
    let! c := class_var "device_params_class" DEVICE_PARAMS in
    let! p := new_instance c in
    set_static "device_params" p ;;
    emplace_object p c "appBuildVariant" (create_string "googleProdRelease") ;;
    emplace_object p c "appVersion" (create_string (roblox_version app)) ;;
    emplace_object p c "country" (create_string "") ;;
    emplace_object p c "deviceName" (create_string "") ;;
    emplace_field p (c, "deviceTotalMemoryMB"%string) (VInt (i32 (device_memory_mb app))) ;;
    emplace_object p c "displayResolution"
      (create_string (to_string (display_width app) +:+ "x" +:+ to_string (display_height app))%string) ;;
    emplace_field p (c, "isChrome"%string) (VBoolean 1) ;;
    emplace_field p (c, "lowMemoryKillerBackgroundAppThreshold"%string) (VLong 10000) ;;
    emplace_field p (c, "lowMemoryKillerForegroundAppThreshold"%string) (VLong 10000) ;;
    emplace_object p c "manufacturer" (create_string "") ;;
    emplace_object p c "networkType" (create_string "WiFi") ;;
    emplace_object p c "osVersion" (create_string (to_string ANDROID_SDK_VERSION)) ;;
    ret p.

(** [get_locale]: the string is made once. *)
Definition get_locale : JM ValueVariant :=
  let! l := static "locale_string" in
  if negb (l =? 0) then ret (VObject l)
  else let! p := create_string roblox_locale in set_static "locale_string" p ;; ret (VObject p).

(** [onDataModelNotificationCallback]. *)
Definition notification (args : list Z) : JM ValueVariant :=
  match args with
  | type_ :: info :: _ =>
      let! t := as_string type_ in
      let! i := as_string info in
      (if String.eqb t "APP_READY" && String.eqb i "Startup"
       then modify (fun s => set_posted_events (posted_events s ++ [EVENT_APP_STARTUP]) s) else ret tt) ;;
      nothing
  | _ => stop Undefined
  end.

(** ** The methods, by class and name *)
Definition wrapper_methods : list (string * (Z -> list Z -> JM ValueVariant)) := [
  ("Integer.intValue", fun o _ => let! v := wrapper_value "java_lang_integer_class" INTEGER TInt o in ret (VInt v));
  ("Integer.floatValue", fun o _ => let! v := wrapper_value "java_lang_integer_class" INTEGER TInt o in ret (VFloat (float_of_int v)));
  ("Boolean.booleanValue", fun o _ => let! v := wrapper_value "java_lang_boolean_class" BOOLEAN TBoolean o in ret (VBoolean v));
  ("Float.floatValue", fun o _ => let! v := wrapper_value "java_lang_float_class" FLOAT TFloat o in ret (VFloat v));
  ("Long.longValue", fun o _ => let! v := wrapper_value "java_lang_long_class" LONG TLong o in ret (VLong v))]%string.
Definition init_params_methods : list (string * (Z -> list Z -> JM ValueVariant)) := [
  ("InitParams.baseURL", fun _ _ => a_string "https://www.roblox.com/");
  ("InitParams.buildVariant", fun _ _ => a_string "googleProdRelease");
  ("InitParams.deviceParams", fun _ _ => let! p := get_device_params in ret (VObject p));
  ("InitParams.isTablet", fun _ _ => a_boolean false);
  ("InitParams.isVrDevice", fun _ _ => a_boolean false);
  ("InitParams.platformParams", fun _ _ => let! p := get_platform_params in ret (VObject p));
  ("InitParams.userAgent", fun _ _ => a_string (user_agent app));
  ("InitParams.vrContext", fun _ _ => a_null)]%string.
Definition start_app_methods : list (string * (Z -> list Z -> JM ValueVariant)) := [
  ("StartAppParams.appStarterPlace", fun _ _ => a_string "rbxasset://places/Mobile.rbxl");
  ("StartAppParams.appStarterScript", fun _ _ => a_string "LuaAppStarterScript");
  ("StartAppParams.appUserId", fun _ _ => ret (VLong (user_id app)));
  ("StartAppParams.isUnder13", fun _ _ => a_boolean (under_13 app));
  ("StartAppParams.membershipType", fun _ _ => ret (VInt (membership_type app)));
  ("StartAppParams.platformParams", fun _ _ => let! p := get_platform_params in ret (VObject p));
  ("StartAppParams.selectedTheme", fun _ _ => a_string (theme app));
  ("StartAppParams.surface", fun _ _ => an_object);
  ("StartAppParams.username", fun _ _ => a_string (username app));
  ("StartAppParams.vrContext", fun _ _ => a_null)]%string.
Definition start_game_methods : list (string * (Z -> list Z -> JM ValueVariant)) := [
  ("StartGameParams.accessCode", fun _ _ => a_string "");
  ("StartGameParams.callId", fun _ _ => a_string "");
  ("StartGameParams.conversationId", fun _ _ => ret (VLong (-1)));
  ("StartGameParams.deviceParams", fun _ _ => let! p := get_device_params in ret (VObject p));
  ("StartGameParams.gameId", fun _ _ => a_string "");
  ("StartGameParams.isUnder13", fun _ _ => a_boolean (under_13 app));
  ("StartGameParams.isoContext", fun _ _ => a_string "");
  ("StartGameParams.joinAttemptId", fun _ _ => the_object "current_join_attempt_id");
  ("StartGameParams.joinAttemptOrigin", fun _ _ => the_object "current_join_attempt_origin");
  ("StartGameParams.joinRequestType", fun _ _ => let! v := game_number "current_join_request_type" in ret (VInt v));
  ("StartGameParams.launchData", fun _ _ => a_string "");
  ("StartGameParams.linkCode", fun _ _ => a_string "");
  ("StartGameParams.placeId", fun _ _ => let! v := game_number "current_place_id" in ret (VLong v));
  ("StartGameParams.platformParams", fun _ _ => let! p := get_platform_params in ret (VObject p));
  ("StartGameParams.referralPage", fun _ _ => the_object "current_referral_page");
  ("StartGameParams.reservedServerAccessCode", fun _ _ => a_string "");
  ("StartGameParams.surface", fun _ _ => an_object);
  ("StartGameParams.userId", fun _ _ => let! v := game_number "current_user_id" in ret (VLong v));
  ("StartGameParams.username", fun _ _ => a_string "");
  ("StartGameParams.vrContext", fun _ _ => a_null)]%string.
Definition android_methods : list (string * (Z -> list Z -> JM ValueVariant)) := [
  ("Context.getSharedPreferences", fun _ _ => the_object "shared_preferences");
  ("SharedPreferences.edit", fun _ _ => the_object "shared_preferences_editor");
  ("Editor.putString", fun _ _ => the_object "shared_preferences_editor");
  ("Editor.apply", fun _ _ => nothing);
  ("Resources.getDisplayMetrics", fun _ _ => the_object "display_metrics");
  ("Application.getResources", fun _ _ => the_object "resources");
  ("ActivityThread.getApplication", fun _ _ => the_object "application")]%string.
(** The strings of an array of objects. *)
Fixpoint as_strings (l : list Z) : JM (list string) :=
  match l with
  | [] => ret []
  | p :: l' => let! x := as_string p in let! xs := as_strings l' in ret (x :: xs)
  end.
Definition on_set_cookie (args : list Z) : JM ValueVariant :=
  let! arr := deref (head args) in
  let! a := as_array TObject arr in
  let! headers := as_strings (snd a) in
  set_cookies headers ;;
  nothing.
Definition main_methods : list (string * (Z -> list Z -> JM ValueVariant)) := [
  ("Connection.<init>", fun _ _ => nothing);
  ("OnSetCookieHandlerImpl.onSetCookie", fun _ args => on_set_cookie args);
  ("NativeTextBoxInfo.<init>", fun _ _ => nothing)]%string.
(** ** audio_interface.cpp; [memcpy] reads [size] elements of the array. *)
Definition audio_write (args : list Z) : JM ValueVariant :=
  match args with
  | audio_data :: size :: _ =>
      assert_ (i32 size =? 2048) ;;
      let! a := as_array TByte audio_data in
      let! chunk := deref (if 2048 <=? Z.of_nat (length (snd a)) then Some (take 2048 (snd a)) else None) in
      hand_over chunk ;;
      nothing
  | _ => stop Undefined
  end.
Definition audio_methods : list (string * (Z -> list Z -> JM ValueVariant)) := [
  ("AudioDevice.<init>", fun _ _ => nothing);
  ("AudioDevice.init", fun _ _ => a_boolean true);
  ("AudioDevice.close", fun _ _ => nothing);
  ("AudioDevice.write", fun _ args => audio_write args)]%string.
Definition member_methods : list (string * (Z -> list Z -> JM ValueVariant)) :=
  wrapper_methods ++ init_params_methods ++ start_app_methods ++ start_game_methods ++ android_methods ++ main_methods ++ audio_methods.

Definition assert_stub {A} : JM A := stop AssertFailed.
Definition android_static_methods : list (string * (jclass -> list Z -> JM ValueVariant)) := [
  ("Debug.isDebuggerConnected", fun _ _ => a_boolean false);
  ("ActivityThread.currentActivityThread", fun _ _ => the_object "activity_thread")]%string.
Definition session_static_methods : list (string * (jclass -> list Z -> JM ValueVariant)) := [
  ("Session.getFilesDir", fun _ _ => a_string (files_dir app));
  ("Session.setEventTrackingGoogleAnalytics", fun _ _ => nothing);
  ("Session.getAppVersion", fun _ _ => a_string (roblox_version app));
  ("Session.getLastLoggedInUser", fun _ _ => a_string "");
  ("Session.getLastLoggedInUserId", fun _ _ => a_string "");
  ("Session.sendSessionReport", fun _ _ => nothing)]%string.
Definition gl_static_methods : list (string * (jclass -> list Z -> JM ValueVariant)) := [
  ("GL.promptNativePurchase", fun _ _ => assert_stub);
  ("GL.promptNativePurchaseWithPayload", fun _ _ => assert_stub);
  ("GL.exitGameWithError", fun _ _ => assert_stub);
  ("GL.gameDidLeave", fun _ _ => nothing);
  ("GL.onAppShellReloadNeeded", fun _ _ => assert_stub);
  ("GL.listenToMotionEvents", fun _ _ => assert_stub);
  ("GL.screenOrientationChanged", fun _ _ => nothing);
  ("GL.openNativeOverlay", fun _ _ => assert_stub);
  ("GL.onDataModelNotificationCallback", fun _ args => notification args);
  ("GL.gameLoadedCallback", fun _ _ => nothing);
  ("GL.onLuaTextBoxChangedCallback", fun _ args => let! p := deref (head args) in let! _ := as_string p in nothing);
  ("GL.onLuaTextBoxPropertyChangedCallback", fun _ _ => nothing);
  ("GL.onAppBridgeNotification", fun _ _ => nothing);
  ("GL.onExtendedAnalyticsRecvCallback", fun _ _ => assert_stub);
  ("GL.saveImageToAlbum", fun _ _ => assert_stub);
  ("GL.onVrSessionStateUpdate", fun _ _ => assert_stub)]%string.
Definition user_static_methods : list (string * (jclass -> list Z -> JM ValueVariant)) := [
  ("User.getUserId", fun _ _ => ret (VLong (user_id app)));
  ("User.getIsUnder13", fun _ _ => a_boolean (under_13 app));
  ("User.getUsername", fun _ _ => a_string (username app));
  ("User.getDisplayName", fun _ _ => a_string (display_name app));
  ("User.getAlternateName", fun _ _ => a_string "");
  ("User.getPlatformName", fun _ _ => a_string "");
  ("User.getMembershipType", fun _ _ => ret (VInt (membership_type app)));
  ("User.getTheme", fun _ _ => a_string (theme app))]%string.
Definition locale_static_methods : list (string * (jclass -> list Z -> JM ValueVariant)) := [
  ("Locale.getLocale", fun _ _ => get_locale);
  ("Locale.getRobloxLocale", fun _ _ => get_locale);
  ("Locale.getGameLocale", fun _ _ => get_locale)]%string.
Definition main_static_methods : list (string * (jclass -> list Z -> JM ValueVariant)) := [
  ("MediaCodecInfoUtils.getHardwareVideoDecoders", fun _ _ => assert_stub);
  ("NetworkUtils.getPublicIPv4Addresseses", fun _ _ => a_string "")]%string.
Definition audio_static_methods : list (string * (jclass -> list Z -> JM ValueVariant)) := [
  ("FMOD.checkInit", fun _ _ => a_boolean false);
  ("FMOD.supportsLowLatency", fun _ _ => a_boolean false);
  ("FMOD.supportsAAudio", fun _ _ => a_boolean false)]%string.
Definition static_methods : list (string * (jclass -> list Z -> JM ValueVariant)) :=
  android_static_methods ++ session_static_methods ++ gl_static_methods ++ user_static_methods ++ locale_static_methods ++
  main_static_methods ++ audio_static_methods.

(** What the registered functions do: their numbers are positions in the lists. *)
Definition stub (id object : Z) (args : list Z) : JM ValueVariant :=
  match nthZ member_methods id with Some (_, f) => f object args | None => stop Undefined end.
Definition static_stub (id : Z) (clazz : jclass) (args : list Z) : JM ValueVariant :=
  match nthZ static_methods id with Some (_, f) => f clazz args | None => stop Undefined end.

(** ** Registration *)
Fixpoint index_of (name : string) (l : list string) : Z :=
  match l with [] => 0 | n :: l' => if String.eqb n name then 0 else 1 + index_of name l' end.
Definition add_method (c : jclass) (prefix name : string) : JM unit :=
  let! _ := class_method c name (Stub (index_of (prefix +:+ "." +:+ name)%string (map fst member_methods))) in ret tt.
Definition add_static_method (c : jclass) (prefix name : string) : JM unit :=
  let! _ := class_static_method c name (Stub (index_of (prefix +:+ "." +:+ name)%string (map fst static_methods))) in ret tt.
Definition add_field (c : jclass) (name : string) : JM unit := let! _ := class_field c name in ret tt.
(** A class that a variable keeps. *)
Definition create_class_var (vm : Z) (variable class_name : string) : JM jclass :=
  let! c := create_class vm class_name in set_static variable vm ;; ret c.
Definition create_plain_class (vm : Z) (class_name : string) : JM unit := let! _ := create_class vm class_name in ret tt.

Definition build_fields : list string :=
  ["PRODUCT"; "DEVICE"; "BOARD"; "MANUFACTURER"; "BRAND"; "MODEL"; "BOOTLOADER"; "HARDWARE"; "TYPE"; "TAGS"; "FINGERPRINT";
   "USER"; "HOST"]%string.
Definition create_android_classes (vm : Z) : JM unit :=
  let! _ := create_class_var vm "surface_class" "android/view/Surface" in
  let! build := create_class vm "android/os/Build" in
  for_each build_fields (fun n => let! p := create_string "" in let! _ := class_static_field build n (VObject p) in ret tt) ;;
  let! debug := create_class vm "android/os/Debug" in
  add_static_method debug "Debug" "isDebuggerConnected" ;;
  let! version := create_class vm "android/os/Build$VERSION" in
  let! _ := class_static_field version "SDK_INT" (VInt ANDROID_SDK_VERSION) in
  let! context := create_class vm "android/content/Context" in
  add_method context "Context" "getSharedPreferences" ;;
  let! preferences := create_class vm "android/content/SharedPreferences" in
  add_method preferences "SharedPreferences" "edit" ;;
  let! editor := create_class vm "android/content/SharedPreferences$Editor" in
  add_method editor "Editor" "putString" ;;
  add_method editor "Editor" "apply" ;;
  let! metrics := create_class vm "android/util/DisplayMetrics" in
  for_each ["xdpi"; "ydpi"; "widthPixels"; "heightPixels"]%string (add_field metrics) ;;
  let! resources := create_class vm "android/content/res/Resources" in
  add_method resources "Resources" "getDisplayMetrics" ;;
  let! application := create_class vm "android/app/Application" in
  add_method application "Application" "getResources" ;;
  let! thread := create_class vm "android/app/ActivityThread" in
  add_static_method thread "ActivityThread" "currentActivityThread" ;;
  add_method thread "ActivityThread" "getApplication" ;;
  let! p := new_instance editor in set_static "shared_preferences_editor" p ;;
  let! p := new_instance preferences in set_static "shared_preferences" p ;;
  let! p := new_instance resources in set_static "resources" p ;;
  let! p := new_instance application in set_static "application" p ;;
  let! p := new_instance thread in set_static "activity_thread" p ;;
  let! p := new_instance metrics in set_static "display_metrics" p ;;
  emplace_field p (metrics, "xdpi"%string) (VFloat 0x3f800000) ;;
  emplace_field p (metrics, "ydpi"%string) (VFloat 0x3f800000) ;;
  emplace_field p (metrics, "widthPixels"%string) (VInt (i32 (display_width app))) ;;
  emplace_field p (metrics, "heightPixels"%string) (VInt (i32 (display_height app))).

Definition create_session_reporter_interface_class (vm : Z) : JM unit :=
  let! c := create_class_var vm "session_reporter_interface_class" "com/roblox/engine/jni/reporter/SessionReporterJavaInterface" in
  for_each ["getFilesDir"; "setEventTrackingGoogleAnalytics"; "getAppVersion"; "getLastLoggedInUser"; "getLastLoggedInUserId";
            "sendSessionReport"]%string (add_static_method c "Session").

Definition create_native_gl_interface_class (vm : Z) : JM unit :=
  let! _ := create_class_var vm "settings_interface_class" "com/roblox/engine/jni/NativeSettingsInterface" in
  let! _ := create_class_var vm "app_bridge_interface_class" "com/roblox/engine/jni/NativeAppBridgeInterface" in
  let! _ := create_class_var vm "cookie_protocol_class" "com/roblox/universalapp/cookie/JNICookieProtocol" in
  let! _ := create_class_var vm "input_interface_class" "com/roblox/engine/jni/NativeInputInterface" in
  let! c := create_class_var vm "native_gl_interface_class" "com/roblox/engine/jni/NativeGLJavaInterface" in
  for_each ["promptNativePurchase"; "promptNativePurchaseWithPayload"; "exitGameWithError"; "gameDidLeave"; "onAppShellReloadNeeded";
            "listenToMotionEvents"; "screenOrientationChanged"; "openNativeOverlay"; "onDataModelNotificationCallback";
            "gameLoadedCallback"; "onLuaTextBoxChangedCallback"; "onLuaTextBoxPropertyChangedCallback"; "onAppBridgeNotification";
            "onExtendedAnalyticsRecvCallback"; "saveImageToAlbum"; "onVrSessionStateUpdate"]%string (add_static_method c "GL").

Definition create_user_java_interface_class (vm : Z) : JM unit :=
  let! c := create_class_var vm "user_java_interface_class" "com/roblox/engine/jni/user/NativeUserJavaInterface" in
  for_each ["getUserId"; "getIsUnder13"; "getUsername"; "getDisplayName"; "getAlternateName"; "getPlatformName"; "getMembershipType";
            "getTheme"]%string (add_static_method c "User").
Definition create_platform_params_class (vm : Z) : JM unit :=
  let! c := create_class_var vm "platform_params_class" PLATFORM_PARAMS in for_each platform_fields (add_field c).
Definition create_device_params_class (vm : Z) : JM unit :=
  let! c := create_class_var vm "device_params_class" DEVICE_PARAMS in for_each device_fields (add_field c).
Definition create_init_params_class (vm : Z) : JM unit :=
  let! c := create_class_var vm "init_params_class" "com/roblox/engine/jni/autovalue/InitParams" in
  for_each ["baseURL"; "buildVariant"; "deviceParams"; "isTablet"; "isVrDevice"; "platformParams"; "userAgent"; "vrContext"]%string
    (add_method c "InitParams").
Definition create_start_app_params_class (vm : Z) : JM unit :=
  let! c := create_class_var vm "start_app_params_class" "com/roblox/engine/jni/autovalue/StartAppParams" in
  for_each ["appStarterPlace"; "appStarterScript"; "appUserId"; "isUnder13"; "membershipType"; "platformParams"; "selectedTheme";
            "surface"; "username"; "vrContext"]%string (add_method c "StartAppParams").
Definition create_start_game_params_class (vm : Z) : JM unit :=
  let! c := create_class_var vm "start_game_params_class" "com/roblox/engine/jni/autovalue/StartGameParams" in
  for_each ["accessCode"; "callId"; "conversationId"; "deviceParams"; "gameId"; "isUnder13"; "isoContext"; "joinAttemptId";
            "joinAttemptOrigin"; "joinRequestType"; "launchData"; "linkCode"; "placeId"; "platformParams"; "referralPage";
            "reservedServerAccessCode"; "surface"; "userId"; "username"; "vrContext"]%string (add_method c "StartGameParams").
Definition create_native_locale_java_interface_class (vm : Z) : JM unit :=
  let! c := create_class_var vm "native_locale_java_interface_class" "com/roblox/engine/jni/locale/NativeLocaleJavaInterface" in
  for_each ["getLocale"; "getRobloxLocale"; "getGameLocale"]%string (add_static_method c "Locale").
Definition create_audio_interface_classes (vm : Z) : JM unit :=
  let! fmod := create_class_var vm "fmod_class" "org/fmod/FMOD" in
  for_each ["checkInit"; "supportsLowLatency"; "supportsAAudio"]%string (add_static_method fmod "FMOD") ;;
  let! device := create_class_var vm "audio_device_class" "org/fmod/AudioDevice" in
  for_each ["<init>"; "init"; "close"; "write"]%string (add_method device "AudioDevice").
Definition create_java_primitive_classes (vm : Z) : JM unit :=
  let! c := create_class_var vm "java_lang_integer_class" INTEGER in
  add_field c "value" ;; add_method c "Integer" "intValue" ;; add_method c "Integer" "floatValue" ;;
  let! c := create_class_var vm "java_lang_boolean_class" BOOLEAN in
  add_field c "value" ;; add_method c "Boolean" "booleanValue" ;;
  let! c := create_class_var vm "java_lang_float_class" FLOAT in
  add_field c "value" ;; add_method c "Float" "floatValue" ;;
  let! c := create_class_var vm "java_lang_long_class" LONG in
  add_field c "value" ;; add_method c "Long" "longValue".
Definition create_battery_status_class (vm : Z) : JM unit :=
  let! c := create_class_var vm "battery_status_class" BATTERY_STATUS in for_each battery_fields (add_field c).

Definition init_classes (vm : Z) : JM unit :=
  create_android_classes vm ;;
  create_session_reporter_interface_class vm ;;
  create_native_gl_interface_class vm ;;
  create_user_java_interface_class vm ;;
  create_platform_params_class vm ;;
  create_device_params_class vm ;;
  create_init_params_class vm ;;
  create_start_app_params_class vm ;;
  create_start_game_params_class vm ;;
  create_native_locale_java_interface_class vm ;;
  create_audio_interface_classes vm ;;
  create_java_primitive_classes vm ;;
  create_battery_status_class vm.

(** ** main.cpp *)
Definition plain_classes : list string :=
  ["com/roblox/engine/jni/model/ApplicationExitInfoCpp"; "com/roblox/audio/AppRtcDeviceWrapper"; "org/fmod/MediaCodec";
   "com/roblox/engine/jni/memstorage/Connection"; "org/webrtc/voiceengine/BuildInfo"; "org/webrtc/voiceengine/WebRtcAudioManager";
   "org/webrtc/voiceengine/WebRtcAudioRecord"; "org/webrtc/voiceengine/WebRtcAudioTrack"]%string.
Definition register_main_classes (vm : Z) : JM Z :=
  for_each plain_classes (create_plain_class vm) ;;
  let! codec_info_utils := create_class vm "com/roblox/engine/jni/video/MediaCodecInfoUtils" in
  add_static_method codec_info_utils "MediaCodecInfoUtils" "getHardwareVideoDecoders" ;;
  let! network_utils := create_class vm "com/roblox/engine/jni/util/NetworkUtils" in
  add_static_method network_utils "NetworkUtils" "getPublicIPv4Addresseses" ;;
  let! messagebus_connection := create_class vm "com/roblox/universalapp/messagebus/Connection" in
  add_method messagebus_connection "Connection" "<init>" ;;
  let! cookie_handler_class := create_class_var vm "cookie_handler_class" "com/roblox/universalapp/cookie/OnSetCookieHandlerImpl" in
  add_method cookie_handler_class "OnSetCookieHandlerImpl" "onSetCookie" ;;
  let! native_text_box_info := create_class vm "com/roblox/engine/jni/model/NativeTextBoxInfo" in
  add_method native_text_box_info "NativeTextBoxInfo" "<init>" ;;
  ret vm.
Definition create_java_vm (host_address : string -> Z) : JM Z :=
  let! vm := java_vm_new host_address in
  register_main_classes vm.
End Stubs.
