(* ===== verification/ClassProps.v ===== *)
(** What the guest reads through JNI of the objects of the class stubs, in a
    process that has run [create_java_vm] and [init_classes]. *)
From S2P Require Import Prelude FunctionTraits Trampoline JniTable Jni JniProps JniArrays Classes.
Local Open Scope Z_scope.

(** ** Filling an object *)

(** What a field is initialised with: a value, a string, or an instance of a
    wrapper class (the variable of the class, its name, the value). *)
Inductive init_value : Type :=
| Plain (v : ValueVariant)
| Text (t : string)
| Boxed (variable class_name : string) (v : ValueVariant).

(** The value [v] of a field of [p] is such a value. *)
Definition holds (vm p : Z) (s : jni_state) (i : init_value) (v : ValueVariant) : Prop :=
  match i with
  | Plain x => v = x
  | Text t => exists q, v = VObject q /\ q <> p /\
      objects s !! q = Some {| super := string_class s; object_fields := ∅; obj_data := StringData (c_str t) |}
  | Boxed _ cls x => exists q, v = VObject q /\ q <> p /\ q <> 0 /\
      objects s !! q = Some {| super := Some (vm, cls); object_fields := {[(vm, cls, "value"%string) := x]}; obj_data := PlainObject |}
  end.
Definition class_known (vm : Z) (s : jni_state) (i : init_value) : Prop :=
  match i with Boxed var _ _ => statics s !! var = Some vm | _ => True end.

(** Everything at or above [next_pointer] is free. *)
Definition fresh_heap (s : jni_state) : Prop := 0 < next_pointer s /\ forall q, next_pointer s <= q -> objects s !! q = None.

(** [p] is an object of class [c] made since [s0], with these fields set. *)
Record filled (c : jclass) (s0 : jni_state) (p : Z) (done : list (string * init_value)) (s : jni_state) : Prop := {
  f_statics : statics s = statics s0;
  f_vms : vms s = vms s0;
  f_string : string_class s = string_class s0;
  f_threads : thread_data s = thread_data s0;
  f_fresh : fresh_heap s;
  f_start : fresh_heap s0;
  f_below : next_pointer s0 <= p < next_pointer s;
  f_kept : forall q o, objects s0 !! q = Some o -> objects s !! q = Some o;
  f_object : exists o, objects s !! p = Some o /\ super o = Some c /\ obj_data o = PlainObject /\
    (forall n i, (n, i) ∈ done -> exists v, object_fields o !! (c, n) = Some v /\ holds (fst c) p s i v) /\
    (forall n, n ∉ map fst done -> object_fields o !! (c, n) = None)
}.

Lemma class_var_ok var cls vm s : statics s !! var = Some vm -> class_var var cls s = (Ret (vm, cls), s).
Proof. intros H. unfold class_var, bind, get. rewrite H. reflexivity. Qed.

Definition with_field (o : Object) (f : jfieldID) (v : ValueVariant) : Object :=
  {| super := super o; object_fields := <[f := v]> (object_fields o); obj_data := obj_data o |}.
Lemma emplace_field_ok p o f v s : objects s !! p = Some o -> object_fields o !! f = None ->
  emplace_field p f v s = (Ret tt, set_objects (<[p := with_field o f v]> (objects s)) (next_pointer s) s).
Proof. intros H1 H2. unfold emplace_field. erewrite bind_ok by (apply object_at_ok, H1). rewrite H2. reflexivity. Qed.

Lemma with_object_fresh o s : fresh_heap s -> fresh_heap (with_object o s) /\
  (forall q x, objects s !! q = Some x -> objects (with_object o s) !! q = Some x) /\ objects (with_object o s) !! next_pointer s = Some o.
Proof.
  intros [H1 H2]. cbn. split; [split|split].
  - cbn. lia.
  - cbn. intros q Hq. rewrite lookup_insert_ne by lia. apply H2. lia.
  - intros q x Hx. rewrite lookup_insert_ne; [exact Hx|]. intros <-. rewrite H2 in Hx by lia. discriminate.
  - apply lookup_insert_eq.
Qed.

(** A boxed value. *)
Definition box (vm : Z) (cls : string) (x : ValueVariant) : Object :=
  {| super := Some (vm, cls); object_fields := {[(vm, cls, "value"%string) := x]}; obj_data := PlainObject |}.
Lemma create_wrapper_ok var cls x vm s : statics s !! var = Some vm ->
  create_wrapper var cls x s = (Ret (next_pointer s), with_object (box vm cls x) s).
Proof.
  intros H. unfold create_wrapper. erewrite bind_ok by (apply class_var_ok, H). unfold new_instance.
  erewrite bind_ok by apply new_object_ok.
  erewrite bind_ok by (apply emplace_field_ok; [apply lookup_insert_eq | reflexivity]). unfold ret. f_equal.
  unfold with_object, box, with_field, set_objects. cbn. rewrite insert_insert_eq. reflexivity.
Qed.

(** The maker of each kind of value. *)
Definition make (i : init_value) : JM ValueVariant :=
  match i with
  | Plain v => ret v
  | Text t => let! p := create_string t in ret (VObject p)
  | Boxed var cls x => let! p := create_wrapper var cls x in ret (VObject p)
  end.

Lemma make_ok vm p i s : fresh_heap s -> p < next_pointer s -> class_known vm s i -> exists v s', make i s = (Ret v, s') /\ holds vm p s' i v /\
  statics s' = statics s /\ vms s' = vms s /\ string_class s' = string_class s /\ thread_data s' = thread_data s /\
  fresh_heap s' /\ next_pointer s <= next_pointer s' /\ (forall q o, objects s !! q = Some o -> objects s' !! q = Some o).
Proof.
  intros F P K. destruct i as [v|t|var cls x].
  - exists v, s. repeat split; try apply F; auto; lia.
  - exists (VObject (next_pointer s)). eexists. split; [reflexivity|].
    destruct (with_object_fresh {| super := string_class s; object_fields := ∅; obj_data := StringData (c_str t) |} s F) as (F' & Fk & Fn).
    split; [exists (next_pointer s); split; [reflexivity | split; [lia | exact Fn]]|].
    repeat split; try apply F'; try exact Fk; cbn; lia.
  - exists (VObject (next_pointer s)), (with_object (box vm cls x) s). cbn [make].
    erewrite bind_ok by (apply create_wrapper_ok, K). split; [reflexivity|].
    destruct (with_object_fresh (box vm cls x) s F) as (F' & Fk & Fn).
    split; [exists (next_pointer s); split; [reflexivity | split; [lia | split; [destruct F; lia | exact Fn]]]|].
    repeat split; try apply F'; try exact Fk; cbn; lia.
Qed.


Lemma holds_mono vm p i v s s' : string_class s' = string_class s ->
  (forall q o, q <> p -> objects s !! q = Some o -> objects s' !! q = Some o) -> holds vm p s i v -> holds vm p s' i v.
Proof.
  intros Hs Hk. destruct i; cbn [holds]; [auto| |].
  - intros (q & -> & Hq & H). exists q. rewrite Hs. auto.
  - intros (q & -> & Hq & H0 & H). exists q. auto.
Qed.

(** One field more. *)
Lemma fill_step c s0 p done s n i : filled c s0 p done s -> n ∉ map fst done -> class_known (fst c) s0 i ->
  wp (let! v := make i in emplace_field p (c, n) v) (fun _ => filled c s0 p ((n, i) :: done)) s.
Proof.
  intros [F1 F2 F3 F4 F5 F0 F6 F7 (o & Ho & Hs & Hd & Hf & Hn)] N K.
  destruct (make_ok (fst c) p i s F5 ltac:(lia)) as (v & s1 & E & Hv & S1 & S2 & S3 & S4 & S5 & S6 & S7);
    [destruct i; cbn [class_known] in *; rewrite ?F1; exact K|].
  apply wp_bind, wp_Ret. exists v, s1. split; [exact E|]. apply wp_Ret. do 2 eexists.
  split; [apply emplace_field_ok; [apply S7, Ho | apply Hn, N]|].
  assert (forall q x, q <> p -> objects s1 !! q = Some x ->
    objects (set_objects (<[p := with_field o (c, n) v]> (objects s1)) (next_pointer s1) s1) !! q = Some x) as Kept
    by (intros q x Hq Hx; cbn; rewrite lookup_insert_ne by congruence; exact Hx).
  split; cbn [statics vms string_class thread_data next_pointer set_objects]; try congruence.
  - destruct S5 as [Z1 Z2]. split; [exact Z1|]. cbn. intros q Hq. rewrite lookup_insert_ne by lia. apply Z2, Hq.
  - lia.
  - intros q x Hx. apply Kept; [|apply S7, F7, Hx]. intros ->. destruct F0 as [_ F0]. rewrite F0 in Hx by lia. discriminate.
  - exists (with_field o (c, n) v). split; [apply lookup_insert_eq|]. do 2 (split; [assumption|]). split.
    + intros n' i' [[= -> ->]|H]%elem_of_cons.
      * exists v. split; [apply lookup_insert_eq|]. eapply holds_mono; [|exact Kept|exact Hv]. reflexivity.
      * destruct (Hf _ _ H) as (v' & Hv' & H'). exists v'. split.
        { cbn. rewrite lookup_insert_ne; [exact Hv'|]. intros [= ->]. apply N, list_elem_of_In, in_map_iff.
          exists (n', i'). split; [reflexivity | apply list_elem_of_In, H]. }
        eapply holds_mono; [| |exact H']; [exact S3|]. intros q x Hq Hx. apply Kept; [exact Hq | apply S7, Hx].
    + cbn [map fst]. intros n' [H1 H2]%not_elem_of_cons. cbn. rewrite lookup_insert_ne by congruence. apply Hn, H2.
Qed.

Lemma new_instance_filled c s : fresh_heap s ->
  wp (new_instance c) (fun p s' => p = next_pointer s /\ filled c s p [] s') s.
Proof.
  intros F. apply wp_Ret. do 2 eexists. split; [apply new_object_ok|]. split; [reflexivity|].
  destruct (with_object_fresh {| super := Some c; object_fields := ∅; obj_data := PlainObject |} s F) as (F' & Fk & Fn).
  split; try reflexivity; auto; [cbn; lia|]. eexists. split; [exact Fn|]. do 2 (split; [reflexivity|]). split.
  - intros n i H. inversion H.
  - intros n _. apply lookup_empty.
Qed.

Lemma fill_plain c s0 p done s n v : filled c s0 p done s -> n ∉ map fst done ->
  wp (emplace_field p (c, n) v) (fun _ => filled c s0 p ((n, Plain v) :: done)) s.
Proof. intros F N. exact (fill_step c s0 p done s n (Plain v) F N I). Qed.
Lemma fill_text c s0 p done s n t : filled c s0 p done s -> n ∉ map fst done ->
  wp (emplace_object p c n (create_string t)) (fun _ => filled c s0 p ((n, Text t) :: done)) s.
Proof. intros F N. exact (fill_step c s0 p done s n (Text t) F N I). Qed.
Lemma fill_boxed c s0 p done s n var cls x : filled c s0 p done s -> n ∉ map fst done -> statics s0 !! var = Some (fst c) ->
  wp (emplace_object p c n (create_wrapper var cls x)) (fun _ => filled c s0 p ((n, Boxed var cls x) :: done)) s.
Proof.
  intros F N K. pose proof (fill_step c s0 p done s n (Boxed var cls x) F N K) as W. cbn [make] in W.
  unfold wp in *. rewrite bind_assoc in W. exact W.
Qed.

(** Run the statements that fill an object. *)
Ltac fill_fields :=
  repeat (apply wp_bind; eapply wp_mono;
    [first [apply fill_plain; [eassumption|] | apply fill_text; [eassumption|]
           | apply fill_boxed; [eassumption| |assumption]];
     (apply (bool_decide_eq_false_1 _); reflexivity)
    |intros [] ? ?]).

(** ** The values of the battery *)
Definition boxed_integer (x : Z) : init_value := Boxed "java_lang_integer_class" INTEGER (VInt x).
Definition boxed_boolean (x : Z) : init_value := Boxed "java_lang_boolean_class" BOOLEAN (VBoolean x).
Definition boxed_long (x : Z) : init_value := Boxed "java_lang_long_class" LONG (VLong x).
Definition battery_inits : list (string * init_value) := [
  ("voltage", boxed_integer 12); ("temperature", boxed_integer 20); ("status", boxed_integer 2); ("present", boxed_boolean 1);
  ("power", boxed_integer 12); ("plugged", boxed_integer 1); ("health", boxed_integer 2); ("energyCounter", boxed_long 36000000000);
  ("currentNow", boxed_integer 1000000); ("currentAverage", boxed_integer 1000000); ("chargeCounter", boxed_integer 3000000);
  ("batteryPercentage", boxed_integer 100); ("batteryLow", boxed_boolean 0)]%string.

Lemma get_battery_status_ok vm s : fresh_heap s -> statics s !! "battery_status"%string = None ->
  statics s !! "battery_status_class"%string = Some vm -> statics s !! "java_lang_integer_class"%string = Some vm ->
  statics s !! "java_lang_boolean_class"%string = Some vm -> statics s !! "java_lang_long_class"%string = Some vm ->
  wp get_battery_status (fun p s' => p = next_pointer s /\ filled (vm, BATTERY_STATUS) s p battery_inits s') s.
Proof.
  intros F H0 Hc Hi Hb Hl. unfold get_battery_status. apply wp_bind. unfold static. apply wp_gets. rewrite H0. cbn [default Z.eqb negb].
  apply wp_bind, wp_Ret. do 2 eexists. split; [apply class_var_ok, Hc|]. apply wp_bind. eapply wp_mono; [apply new_instance_filled, F|].
  intros p s1 [-> F1]. unfold create_java_lang_boolean, create_java_lang_integer, create_java_lang_long. fill_fields.
  apply wp_ret. split; [reflexivity|]. assumption.
Qed.

(** ** The process after its classes are registered *)
Section Started.
Context (app : app_data) (float_of_int : Z -> Z) (hand_over : list Z -> JM unit) (set_cookies : list string -> JM unit).
Context (host_address : string -> Z).
(** Where the trampolines are mapped, the table as the symbols of the libraries
    left it, with room for those of JNI, and the thread [main] runs on. *)
Context (base : Z) (symbols : trampoline_state) (main_thread : Z).
Hypothesis symbols_reachable : reachable base symbols.
Hypothesis symbols_room : Z.of_nat (length (trampolines symbols)) < 7952.

Definition process_start : jni_state :=
  {| vms := ∅; objects := ∅; next_pointer := 1; thread_data := ∅; current_thread := main_thread; did_init_funcs := false;
     jni_env_functions := []; jni_invocation_functions := []; string_class := None; list_class := None;
     table := symbols; statics := ∅; posted_events := [] |}.
Definition start_classes : JM Z :=
  let! vm := create_java_vm app float_of_int hand_over set_cookies host_address in
  init_classes app float_of_int hand_over set_cookies vm ;;
  ret vm.
Definition started : jni_state := snd (start_classes process_start).
Definition the_vm : Z := 1.

Let stubs := stub app float_of_int hand_over set_cookies.
Let static_stubs := static_stub app.

(** The classes, methods and variables that are there. *)
Definition method_found (s : jni_state) (cls name : string) : option (MethodType * host_method) :=
  match vms s !! the_vm with
  | Some v => match name_to_class v !! cls with
              | Some k => match methods k !! name with Some m => Some (m_type m, m_function m) | None => None end
              | None => None
              end
  | None => None
  end.
Definition field_found (s : jni_state) (cls name : string) : bool :=
  match vms s !! the_vm with
  | Some v => match name_to_class v !! cls with
              | Some k => match class_fields k !! name with Some _ => true | None => false end
              | None => false
              end
  | None => false
  end.

(** The state after [java_vm_new], whatever the function tables hold. *)
Definition vm_made (e i : list Z) (st : trampoline_state) : jni_state :=
  {| vms := {[the_vm := {| invocation := Some i; native_interface_functions := Some e;
       name_to_class := {["java/util/List"%string := list_methods the_vm; "java/lang/String"%string := string_methods the_vm]} |}]};
     objects := ∅; next_pointer := 2;
     thread_data := {[main_thread := {| initialized := true; env := {| env_functions := Some e; env_vm := Some the_vm; has_exception := false |} |}]};
     current_thread := main_thread; did_init_funcs := true; jni_env_functions := e; jni_invocation_functions := i;
     string_class := Some (the_vm, "java/lang/String"%string); list_class := Some (the_vm, "java/util/List"%string);
     table := st; statics := ∅; posted_events := [] |}.
Lemma java_vm_new_makes : exists e i st, java_vm_new host_address process_start = (Ret the_vm, vm_made e i st).
Proof.
  set (s := set_vms {[the_vm := {| invocation := None; native_interface_functions := None; name_to_class := ∅ |}]} (set_objects ∅ 2 process_start)).
  pose proof (init_functions_ok host_address base s (reachable_wf _ _ symbols_reachable) eq_refl symbols_room) as W.
  apply wp_Ret in W as ([] & s' & E & e & i & st & -> & _). exists e, i, st. unfold java_vm_new.
  do 3 (erewrite bind_ok by reflexivity). rewrite (bind_ok _ _ _ _ _ E). reflexivity.
Qed.

(** The rest of the registration, and what is checked of its result. *)
Definition registered (s : jni_state) : outcome Z * jni_state :=
  (let! vm := register_main_classes app float_of_int hand_over set_cookies the_vm in
   init_classes app float_of_int hand_over set_cookies vm ;; ret vm) s.
Definition class_variables : list string :=
  ["battery_status_class"; "java_lang_integer_class"; "java_lang_boolean_class"; "java_lang_long_class"; "platform_params_class";
   "device_params_class"]%string.
Definition object_variables : list string := ["battery_status"; "platform_params"; "device_params"]%string.
Definition is_stub (n : Z) (m : option (MethodType * host_method)) : bool :=
  match m with Some (Member, Stub k) => k =? n | _ => false end.
Definition registration_ok (r : outcome Z * jni_state) : bool :=
  let '(o, s) := r in
  match o with Ret vm => vm =? the_vm | _ => false end && (0 <? next_pointer s) &&
  forallb (fun kv => fst kv <? next_pointer s) (map_to_list (objects s)) &&
  forallb (fun v => match statics s !! v with Some x => x =? the_vm | None => false end) class_variables &&
  forallb (fun v => match statics s !! v with Some _ => false | None => true end) object_variables &&
  is_stub 0 (method_found s INTEGER "intValue") && is_stub 2 (method_found s BOOLEAN "booleanValue") &&
  is_stub 4 (method_found s LONG "longValue") &&
  forallb (field_found s BATTERY_STATUS) battery_fields && forallb (field_found s PLATFORM_PARAMS) platform_fields &&
  forallb (field_found s DEVICE_PARAMS) device_fields.
Lemma registration_checked e i st : registration_ok (registered (vm_made e i st)) = true.
Proof. vm_compute. reflexivity. Qed.

Lemma start_registered : registration_ok (start_classes process_start) = true.
Proof.
  destruct java_vm_new_makes as (e & i & st & E). rewrite <- (registration_checked e i st). f_equal.
  unfold start_classes, create_java_vm, registered. rewrite bind_assoc. erewrite bind_ok by exact E. reflexivity.
Qed.

Record registration (s : jni_state) : Prop := {
  r_fresh : fresh_heap s;
  r_variables : forall var, var ∈ class_variables -> statics s !! var = Some the_vm;
  r_unset : forall var, var ∈ object_variables -> statics s !! var = None;
  r_integer : method_found s INTEGER "intValue" = Some (Member, Stub 0);
  r_boolean : method_found s BOOLEAN "booleanValue" = Some (Member, Stub 2);
  r_long : method_found s LONG "longValue" = Some (Member, Stub 4);
  r_battery : forallb (field_found s BATTERY_STATUS) battery_fields = true;
  r_platform : forallb (field_found s PLATFORM_PARAMS) platform_fields = true;
  r_device : forallb (field_found s DEVICE_PARAMS) device_fields = true
}.
Lemma is_stub_true n m : is_stub n m = true -> m = Some (Member, Stub n).
Proof. destruct m as [[[|] [| | |k]]|]; try discriminate. cbn. intros ->%Z.eqb_eq. reflexivity. Qed.
Lemma registration_ok_true r : registration_ok r = true -> fst r = Ret the_vm /\ registration (snd r).
Proof.
  destruct r as [o s]. unfold registration_ok. rewrite !andb_true_iff. intros ((((((((((H1 & H2) & H3) & H4) & H0) & H5) & H6) & H7) & H8) & H9) & H10).
  split; [destruct o; try discriminate; apply Z.eqb_eq in H1; subst; reflexivity|].
  split; cbn [snd]; try assumption; try (apply is_stub_true; assumption).
  - apply Z.ltb_lt in H2. split; [exact H2|]. intros q Hq. destruct (objects s !! q) as [x|] eqn:E; [|reflexivity].
    apply elem_of_map_to_list, list_elem_of_In in E. rewrite forallb_forall in H3. apply H3 in E. cbn [fst] in E. zbool. lia.
  - intros var H. rewrite forallb_forall in H4. apply list_elem_of_In, H4 in H. destruct (statics s !! var); [|discriminate].
    apply Z.eqb_eq in H. congruence.
  - intros var H. rewrite forallb_forall in H0. apply list_elem_of_In, H0 in H. destruct (statics s !! var); [discriminate | reflexivity].
Qed.
Lemma started_registration : start_classes process_start = (Ret the_vm, started) /\ registration started.
Proof.
  destruct (registration_ok_true _ start_registered) as [H1 H2]. split; [|exact H2]. unfold started.
  destruct (start_classes process_start). cbn [fst snd] in *. congruence.
Qed.

(** A later state of the process: the classes are as they were registered, more
    variables may be set and more objects made. *)
Definition later (s : jni_state) : Prop :=
  vms s = vms started /\ (forall var x, statics started !! var = Some x -> statics s !! var = Some x) /\
  string_class s = string_class started /\ fresh_heap s.
Lemma started_later : later started.
Proof. split; [reflexivity|]. split; [intros var x H; exact H|]. split; [reflexivity | exact (r_fresh _ (proj2 started_registration))]. Qed.
Lemma started_unset var : var ∈ object_variables -> statics started !! var = None.
Proof. exact (r_unset _ (proj2 started_registration) var). Qed.
Lemma later_variable s var : later s -> var ∈ class_variables -> statics s !! var = Some the_vm.
Proof. intros (_ & L & _) H. apply L, (r_variables _ (proj2 started_registration)), H. Qed.

(** ** Reading through JNI *)
Definition read_field (t : jtype) (cls name : string) (p : Z) : JM Z :=
  let! f := GetFieldID (the_vm, cls) name in field_get_generic t p f.
Definition unbox (t : jtype) (method : string) (q : Z) : JM Z :=
  let! c := GetObjectClass q in
  let! c := deref c in
  let! m := GetMethodID c method in
  CallMethodV stubs static_stubs t q m [].
(** The method and the type for the value of a wrapper. *)
Definition unboxing (v : ValueVariant) : string * jtype :=
  match v with VBoolean _ => ("booleanValue", TBoolean) | VLong _ => ("longValue", TLong) | _ => ("intValue", TInt) end%string.

(** What the guest gets for a field with this initial value. *)
Definition reads (s : jni_state) (cls name : string) (p : Z) (i : init_value) : Prop :=
  match i with
  | Plain v => forall t, read_field t cls name p s =
      (match variant_get t v with Some x => Ret x | None => Throw bad_variant_access end, s)
  | Text x => exists q, read_field TObject cls name p s = (Ret q, s) /\ GetStringUTFChars q false s = (Ret (c_str x, None), s)
  | Boxed _ _ v => exists q x, read_field TObject cls name p s = (Ret q, s) /\ variant_get (snd (unboxing v)) v = Some x /\
      unbox (snd (unboxing v)) (fst (unboxing v)) q s = (Ret x, s)
  end.

Lemma get_field_id_ok cls name s : vms s = vms started -> field_found started cls name = true ->
  GetFieldID (the_vm, cls) name s = (Ret (the_vm, cls, name), s).
Proof.
  intros Hv. unfold field_found, GetFieldID. rewrite <- Hv. destruct (vms s !! the_vm) as [v|] eqn:Ev; [|discriminate].
  destruct (name_to_class v !! cls) as [k|] eqn:Ek; [|discriminate]. erewrite bind_ok by (eapply class_at_ok; [exact Ev | exact Ek]).
  destruct (class_fields k !! name); [reflexivity | discriminate].
Qed.

Lemma read_field_ok cls name p o v t s : vms s = vms started -> field_found started cls name = true -> objects s !! p = Some o ->
  object_fields o !! (the_vm, cls, name) = Some v ->
  read_field t cls name p s = (match variant_get t v with Some x => Ret x | None => Throw bad_variant_access end, s).
Proof.
  intros Hv Hf Ho Hl. unfold read_field. erewrite bind_ok by (apply get_field_id_ok; assumption). unfold field_get_generic.
  erewrite bind_ok by (apply object_at_ok, Ho). rewrite Hl. destruct (variant_get t v); reflexivity.
Qed.

Lemma unbox_ok t method q cls x n s : vms s = vms started -> method_found started cls method = Some (Member, Stub n) ->
  objects s !! q = Some (box the_vm cls x) -> q <> 0 ->
  unbox t method q s = (let! v := stubs n q [] in get_result t v) s.
Proof.
  intros Hv. unfold method_found, unbox. rewrite <- Hv. destruct (vms s !! the_vm) as [v|] eqn:Ev; [|discriminate].
  destruct (name_to_class v !! cls) as [k|] eqn:Ek; [|discriminate]. destruct (methods k !! method) as [m|] eqn:Em; [|discriminate].
  intros [= Ht Hf] Ho Hq. unfold GetObjectClass. erewrite bind_ok by (erewrite bind_ok by (apply object_at_ok, Ho); reflexivity).
  erewrite bind_ok by reflexivity. unfold GetMethodID. rewrite (bind_ok _ _ s (the_vm, cls, method) s).
  - rewrite (call_member_ok stubs static_stubs (the_vm, cls) v k s Ev Ek t method m q [] Em Ht Hq), Hf. reflexivity.
  - cbn [super box]. rewrite (find_method_ok (the_vm, cls) v k s Ev Ek), decide_True by (rewrite Em; exists m; reflexivity). reflexivity.
Qed.

Lemma wrapper_value_ok var cls x t y q s : statics s !! var = Some the_vm -> objects s !! q = Some (box the_vm cls x) ->
  variant_get t x = Some y -> wrapper_value var cls t q s = (Ret y, s).
Proof.
  intros Hc Ho Hy. unfold wrapper_value. erewrite bind_ok by (apply class_var_ok, Hc). unfold field_at.
  rewrite (bind_ok _ _ s x s); [unfold variant_as; rewrite Hy; reflexivity|].
  erewrite bind_ok by (apply object_at_ok, Ho). cbn [object_fields box]. rewrite lookup_singleton_eq. reflexivity.
Qed.

(** The wrappers that are used. *)
Inductive usual : init_value -> Prop :=
| usual_plain v : usual (Plain v)
| usual_text x : usual (Text x)
| usual_integer x : usual (boxed_integer x)
| usual_boolean x : usual (boxed_boolean x)
| usual_long x : usual (boxed_long x).

Lemma unboxing_stubs q :
  stubs 0 q [] = (let! v := wrapper_value "java_lang_integer_class" INTEGER TInt q in ret (VInt v)) /\
  stubs 2 q [] = (let! v := wrapper_value "java_lang_boolean_class" BOOLEAN TBoolean q in ret (VBoolean v)) /\
  stubs 4 q [] = (let! v := wrapper_value "java_lang_long_class" LONG TLong q in ret (VLong v)).
Proof. repeat split. Qed.

Lemma unbox_with t method q cls v n var (mk : Z -> ValueVariant) s x :
  vms s = vms started -> method_found started cls method = Some (Member, Stub n) ->
  stubs n q [] = (let! v := wrapper_value var cls t q in ret (mk v)) ->
  statics s !! var = Some the_vm -> objects s !! q = Some (box the_vm cls v) -> q <> 0 ->
  variant_get t v = Some x -> get_result t (mk x) s = (Ret x, s) -> unbox t method q s = (Ret x, s).
Proof.
  intros Hv Hm Hst Hs Ho Hq Hx Hr. rewrite (unbox_ok t method q cls v n s Hv Hm Ho Hq), Hst.
  rewrite (bind_ok _ _ s (mk x) s); [exact Hr|]. rewrite (bind_ok _ _ s x s); [reflexivity|].
  eapply wrapper_value_ok; eassumption.
Qed.

Lemma unbox_usual i q s : usual i -> vms s = vms started ->
  (forall var, var ∈ class_variables -> statics s !! var = Some the_vm) -> q <> 0 ->
  match i with
  | Boxed _ cls v => objects s !! q = Some (box the_vm cls v) -> exists x, variant_get (snd (unboxing v)) v = Some x /\
      unbox (snd (unboxing v)) (fst (unboxing v)) q s = (Ret x, s)
  | _ => True
  end.
Proof.
  intros U Hv Hs Hq. destruct (proj2 started_registration) as [_ _ _ Mi Mb Ml _ _ _]. destruct (unboxing_stubs q) as (Si & Sb & Sl).
  destruct U as [v|x|x|x|x]; [exact I | exact I | | |]; intros Ho; exists x; (split; [reflexivity|]).
  - apply (unbox_with TInt "intValue" q INTEGER (VInt x) 0 "java_lang_integer_class" VInt s x Hv Mi Si);
      [apply Hs, (list_elem_of_lookup_2 _ 1); reflexivity | exact Ho | exact Hq | reflexivity | reflexivity].
  - apply (unbox_with TBoolean "booleanValue" q BOOLEAN (VBoolean x) 2 "java_lang_boolean_class" VBoolean s x Hv Mb Sb);
      [apply Hs, (list_elem_of_lookup_2 _ 2); reflexivity | exact Ho | exact Hq | reflexivity | reflexivity].
  - apply (unbox_with TLong "longValue" q LONG (VLong x) 4 "java_lang_long_class" VLong s x Hv Ml Sl);
      [apply Hs, (list_elem_of_lookup_2 _ 3); reflexivity | exact Ho | exact Hq | reflexivity | reflexivity].
Qed.

Lemma filled_reads cls s p done s' n i : later s -> filled (the_vm, cls) s p done s' -> field_found started cls n = true ->
  (n, i) ∈ done -> usual i -> reads s' cls n p i.
Proof.
  intros (Lv & Ls & Lc & Lf) F Hn Hi U. assert (vms s' = vms started) as Hv by (rewrite (f_vms _ _ _ _ _ F); exact Lv).
  destruct (f_object _ _ _ _ _ F) as (o & Ho & _ & _ & Hf & _). destruct (Hf _ _ Hi) as (v & Hv' & H).
  pose proof (fun t => read_field_ok cls n p o v t s' Hv Hn Ho Hv') as R. destruct i as [w|x|var wc w]; cbn [holds reads] in *.
  - subst w. exact R.
  - destruct H as (q & -> & _ & Hq). exists q. split; [apply R|]. unfold GetStringUTFChars, as_string.
    erewrite bind_ok by (erewrite bind_ok by (apply object_at_ok, Hq); reflexivity). reflexivity.
  - destruct H as (q & -> & _ & H0 & Hq). exists q.
    assert (forall var, var ∈ class_variables -> statics s' !! var = Some the_vm) as Hvar
      by (intros var' H; rewrite (f_statics _ _ _ _ _ F); apply Ls, (r_variables _ (proj2 started_registration)), H).
    destruct (unbox_usual _ q s' U Hv Hvar H0 Hq) as (x & H1 & H2). exists x. split; [apply R|]. split; assumption.
Qed.

Lemma filled_later cls s p done s' : later s -> filled cls s p done s' -> later s'.
Proof.
  intros (Lv & Ls & Lc & Lf) [F1 F2 F3 F4 F5 _ _ _ _]. split; [congruence|]. split; [rewrite F1; exact Ls|]. split; [congruence | exact F5].
Qed.

Lemma battery_usual n i : (n, i) ∈ battery_inits -> usual i /\ field_found started BATTERY_STATUS n = true.
Proof.
  intros H. pose proof (r_battery _ (proj2 started_registration)) as Hf. rewrite forallb_forall in Hf. split.
  - repeat (apply elem_of_cons in H as [H|H]; [injection H as -> ->; constructor|]). inversion H.
  - apply Hf. repeat (apply elem_of_cons in H as [H|H]; [injection H as -> _; apply list_elem_of_In, (bool_decide_eq_true_1 _); reflexivity|]).
    inversion H.
Qed.

(** Whenever the guest asks for the battery after the classes are registered,
    it gets a new object whose fields it can read: looking a field up, taking its
    object, asking that for its class and calling [intValue], [booleanValue] or
    [longValue] gives the number [get_battery_status] stores.  Objects made
    before are untouched.  The object is not kept although a variable is there
    for it: asking again makes another one. *)
Theorem battery_status_read s : later s -> statics s !! "battery_status"%string = None ->
  exists p s', get_battery_status s = (Ret p, s') /\ later s' /\
    (forall n i, (n, i) ∈ battery_inits -> reads s' BATTERY_STATUS n p i) /\
    (forall q o, objects s !! q = Some o -> objects s' !! q = Some o) /\
    exists p' s'', get_battery_status s' = (Ret p', s'') /\ p' <> p.
Proof.
  intros L H0. assert (forall s, later s -> statics s !! "battery_status"%string = None ->
    wp get_battery_status (fun p s' => p = next_pointer s /\ filled (the_vm, BATTERY_STATUS) s p battery_inits s') s) as W
    by (intros st Ls H; apply get_battery_status_ok; [apply Ls | exact H | ..]; apply later_variable; try assumption; apply (bool_decide_eq_true_1 _); reflexivity).
  pose proof (W s L H0) as E. apply wp_Ret in E as (p & s' & E & -> & F). exists (next_pointer s), s'. split; [exact E|].
  pose proof (filled_later _ _ _ _ _ L F) as L'. split; [exact L'|]. split; [|split].
  - intros n i Hi. destruct (battery_usual n i Hi) as [U Hn]. exact (filled_reads BATTERY_STATUS s _ battery_inits s' n i L F Hn Hi U).
  - apply (f_kept _ _ _ _ _ F).
  - pose proof (W s' L' ltac:(rewrite (f_statics _ _ _ _ _ F); exact H0)) as E'. apply wp_Ret in E' as (p' & s'' & E' & -> & _).
    exists (next_pointer s'), s''. split; [exact E'|]. pose proof (f_below _ _ _ _ _ F). lia.
Qed.

(** ** Objects that are made once *)
Definition platform_inits : list (string * init_value) := [
  ("isTouchDevice", Plain (VInt 0)); ("isMouseDevice", Plain (VInt 1)); ("isKeyboardDevice", Plain (VInt 1));
  ("dpiScale", Plain (VFloat 0x3f800000)); ("assetFolderPath", Text (content_dir app))]%string.
Definition device_inits : list (string * init_value) := [
  ("osVersion", Text (to_string ANDROID_SDK_VERSION)); ("networkType", Text "WiFi"); ("manufacturer", Text "");
  ("lowMemoryKillerForegroundAppThreshold", Plain (VLong 10000)); ("lowMemoryKillerBackgroundAppThreshold", Plain (VLong 10000));
  ("isChrome", Plain (VBoolean 1));
  ("displayResolution", Text (to_string (display_width app) +:+ "x" +:+ to_string (display_height app)));
  ("deviceTotalMemoryMB", Plain (VInt (i32 (device_memory_mb app)))); ("deviceName", Text ""); ("country", Text "");
  ("appVersion", Text (roblox_version app)); ("appBuildVariant", Text "googleProdRelease")]%string.

Definition with_static (var : string) (x : Z) (s : jni_state) : jni_state := set_statics (<[var := x]> (statics s)) s.
Lemma filled_static c s p done s' var x : filled c s p done s' -> filled c (with_static var x s) p done (with_static var x s').
Proof. intros [F1 F2 F3 F4 F5 F0 F6 F7 F8]. split; try assumption. cbn. rewrite F1. reflexivity. Qed.

Lemma later_static var x s : later s -> statics s !! var = None -> later (with_static var x s).
Proof.
  intros (Lv & Ls & Lc & Lf) H. split; [exact Lv|]. split; [|split; [exact Lc | exact Lf]].
  intros v y Hy. cbn. rewrite lookup_insert_ne; [apply Ls, Hy|]. intros <-. rewrite (Ls _ _ Hy) in H. discriminate H.
Qed.

(** Such a function: the first call fills an object and keeps it. *)
Definition makes_once (var cls : string) (f : JM Z) (inits : list (string * init_value)) : Prop :=
  (forall s, later s -> statics s !! var = None ->
     wp f (fun p s' => p = next_pointer s /\ filled (the_vm, cls) (with_static var p s) p inits s') s) /\
  (forall s p, statics s !! var = Some p -> p <> 0 -> f s = (Ret p, s)).

Ltac makes_once_tac cls_var :=
  split;
  [ intros s L H; apply wp_bind; unfold static; apply wp_gets; rewrite H; cbn [default Z.eqb negb];
    apply wp_bind, wp_Ret; do 2 eexists; split;
      [apply class_var_ok, (later_variable s cls_var L), (bool_decide_eq_true_1 _); reflexivity|];
    apply wp_bind; eapply wp_mono; [apply new_instance_filled; apply L|]; intros p s1 [-> F1];
    apply wp_bind; unfold set_static; apply wp_modify;
    match goal with |- context [set_statics (<[?v := ?x]> (statics ?t)) ?t] => apply (filled_static _ _ _ _ _ v x) in F1 end;
    unfold with_static in F1; fill_fields; apply wp_ret; split; [reflexivity | assumption]
  | intros s p H Hp; unfold static; erewrite bind_ok by reflexivity; rewrite H; cbn [default];
    change (id p) with p; apply Z.eqb_neq in Hp; rewrite Hp; reflexivity ].

Lemma platform_params_once : makes_once "platform_params" PLATFORM_PARAMS (get_platform_params app) platform_inits.
Proof. unfold get_platform_params. makes_once_tac "platform_params_class"%string. Qed.
Lemma device_params_once : makes_once "device_params" DEVICE_PARAMS (get_device_params app) device_inits.
Proof. unfold get_device_params. makes_once_tac "device_params_class"%string. Qed.

Lemma once_read var cls f inits s : makes_once var cls f inits -> later s -> statics s !! var = None ->
  (forall n i, (n, i) ∈ inits -> usual i /\ field_found started cls n = true) ->
  exists p s', f s = (Ret p, s') /\ f s' = (Ret p, s') /\ later s' /\ (forall n i, (n, i) ∈ inits -> reads s' cls n p i).
Proof.
  intros [M1 M2] L H0 Hi. pose proof (M1 s L H0) as W. apply wp_Ret in W as (p & s' & E & -> & F).
  exists (next_pointer s), s'. split; [exact E|]. pose proof (later_static var (next_pointer s) s L H0) as L1.
  split; [|split].
  - apply M2; [rewrite (f_statics _ _ _ _ _ F); apply lookup_insert_eq|]. destruct L as (_ & _ & _ & [Hp _]). lia.
  - exact (filled_later _ _ _ _ _ L1 F).
  - intros n i H. destruct (Hi n i H) as [U Hn]. exact (filled_reads cls _ _ inits s' n i L1 F Hn H U).
Qed.

Ltac usual_inits H :=
  split;
  [ repeat (apply elem_of_cons in H as [H|H]; [injection H as -> ->; constructor|]); inversion H
  | match goal with K : forallb _ _ = true |- _ => rewrite forallb_forall in K; apply K end;
    repeat (apply elem_of_cons in H as [H|H]; [injection H as -> _; apply list_elem_of_In, (bool_decide_eq_true_1 _); reflexivity|]);
    inversion H ].
Lemma platform_usual n i : (n, i) ∈ platform_inits -> usual i /\ field_found started PLATFORM_PARAMS n = true.
Proof. intros H. pose proof (r_platform _ (proj2 started_registration)) as Hf. usual_inits H. Qed.
Lemma device_usual n i : (n, i) ∈ device_inits -> usual i /\ field_found started DEVICE_PARAMS n = true.
Proof. intros H. pose proof (r_device _ (proj2 started_registration)) as Hf. usual_inits H. Qed.

(** C30. The platform and device parameters are made at the first call and the same
    objects are returned, without effect, from then on.  The guest reads in them
    the strings of the application state, the numbers and the screen size.  The
    three flags of the platform are stored as 32-bit integers: reading them as
    integers gives them, reading them as the booleans they are declared as throws
    [bad_variant_access]; the flag of the device is stored as a boolean. *)
Theorem parameters_read s : later s -> statics s !! "platform_params"%string = None -> statics s !! "device_params"%string = None ->
  exists p s1 d s2, get_platform_params app s = (Ret p, s1) /\ get_platform_params app s1 = (Ret p, s1) /\
    (forall n i, (n, i) ∈ platform_inits -> reads s1 PLATFORM_PARAMS n p i) /\
    (forall n, n ∈ ["isKeyboardDevice"; "isMouseDevice"; "isTouchDevice"]%string ->
       read_field TBoolean PLATFORM_PARAMS n p s1 = (Throw bad_variant_access, s1)) /\
    later s1 /\
    get_device_params app s = (Ret d, s2) /\ get_device_params app s2 = (Ret d, s2) /\
    (forall n i, (n, i) ∈ device_inits -> reads s2 DEVICE_PARAMS n d i) /\ later s2.
Proof.
  intros L Hp Hd. destruct (once_read _ _ _ _ s platform_params_once L Hp platform_usual) as (p & s1 & P1 & P2 & P3 & P4).
  destruct (once_read _ _ _ _ s device_params_once L Hd device_usual) as (d & s2 & D1 & D2 & D3 & D4).
  exists p, s1, d, s2. split; [exact P1|]. split; [exact P2|]. split; [exact P4|].
  split; [|exact (conj P3 (conj D1 (conj D2 (conj D4 D3))))].
  intros n Hn. repeat (apply elem_of_cons in Hn as [->|Hn]).
  - exact (P4 "isKeyboardDevice"%string (Plain (VInt 1)) ltac:(do 2 right; left) TBoolean).
  - exact (P4 "isMouseDevice"%string (Plain (VInt 1)) ltac:(right; left) TBoolean).
  - exact (P4 "isTouchDevice"%string (Plain (VInt 0)) ltac:(left) TBoolean).
  - inversion Hn.
Qed.
End Started.

(** The examples start from the state right after the registration. *)
Definition demo_data : app_data :=
  {| roblox_version := "2.600"; user_agent := "Sober"; user_id := 1; username := "user"; display_name := "User"; membership_type := 0;
     under_13 := false; theme := "Dark"; files_dir := "/files"; content_dir := "/assets/content/"; display_width := 1920;
     display_height := 1080; device_memory_mb := 16000 |}.
Definition demo_symbols : trampoline_state := snd (trampoline_init (Some 0x7000) initial_state).
Lemma demo_symbols_reachable : reachable 0x7000 demo_symbols.
Proof. apply jni_start_reachable. Qed.
Lemma demo_symbols_room : Z.of_nat (length (trampolines demo_symbols)) < 7952.
Proof. unfold demo_symbols. rewrite init_ok. reflexivity. Qed.
Abbreviation for_demo f := (f demo_data id (fun _ => ret tt) (fun _ => ret tt) (fun _ => 0x1234)).
Definition demo_started : jni_state := for_demo started demo_symbols 7.
Definition demo_later := for_demo started_later 0x7000 demo_symbols 7 demo_symbols_reachable demo_symbols_room.
Definition demo_unset := for_demo started_unset 0x7000 demo_symbols 7 demo_symbols_reachable demo_symbols_room.

Lemma battery_status_read_witness : exists p s', get_battery_status demo_started = (Ret p, s') /\
  reads demo_data id (fun _ => ret tt) (fun _ => ret tt) s' BATTERY_STATUS "batteryPercentage" p (boxed_integer 100).
Proof.
  destruct (for_demo battery_status_read 0x7000 demo_symbols 7 demo_symbols_reachable demo_symbols_room demo_started demo_later
    (demo_unset _ (list_elem_of_here _ _))) as (p & s' & E & _ & H & _).
  exists p, s'. split; [exact E|]. apply H. apply (list_elem_of_lookup_2 _ 11). reflexivity.
Defined.

Lemma parameters_read_witness : exists p s', get_platform_params demo_data demo_started = (Ret p, s') /\
  read_field TBoolean PLATFORM_PARAMS "isMouseDevice" p s' = (Throw bad_variant_access, s').
Proof.
  destruct (for_demo parameters_read 0x7000 demo_symbols 7 demo_symbols_reachable demo_symbols_room demo_started demo_later
    (demo_unset _ (list_elem_of_lookup_2 object_variables 1 "platform_params"%string eq_refl))
    (demo_unset _ (list_elem_of_lookup_2 object_variables 2 "device_params"%string eq_refl)))
    as (p & s1 & d & s2 & E & _ & _ & H & _).
  exists p, s1. split; [exact E|]. apply H. apply (list_elem_of_lookup_2 _ 1). reflexivity.
Defined.
