(* ===== verification/Keyboard.v ===== *)
(** src/keyboard.cpp: the table from SDL scancodes to Linux key codes and the
    translation to Android key codes.  The key codes are the numbers of
    linux/input-event-codes.h, the scancodes those of SDL_scancode.h. *)
From S2P Require Import Prelude.
Local Open Scope Z_scope.

Definition KEY_UNKNOWN : Z := 240.
Definition KEY_A : Z := 30.
Definition KEY_B : Z := 48.
Definition KEY_C : Z := 46.
Definition KEY_D : Z := 32.
Definition KEY_E : Z := 18.
Definition KEY_F : Z := 33.
Definition KEY_G : Z := 34.
Definition KEY_H : Z := 35.
Definition KEY_I : Z := 23.
Definition KEY_J : Z := 36.
Definition KEY_K : Z := 37.
Definition KEY_L : Z := 38.
Definition KEY_M : Z := 50.
Definition KEY_N : Z := 49.
Definition KEY_O : Z := 24.
Definition KEY_P : Z := 25.
Definition KEY_Q : Z := 16.
Definition KEY_R : Z := 19.
Definition KEY_S : Z := 31.
Definition KEY_T : Z := 20.
Definition KEY_U : Z := 22.
Definition KEY_V : Z := 47.
Definition KEY_W : Z := 17.
Definition KEY_X : Z := 45.
Definition KEY_Y : Z := 21.
Definition KEY_Z : Z := 44.
Definition KEY_1 : Z := 2.
Definition KEY_2 : Z := 3.
Definition KEY_3 : Z := 4.
Definition KEY_4 : Z := 5.
Definition KEY_5 : Z := 6.
Definition KEY_6 : Z := 7.
Definition KEY_7 : Z := 8.
Definition KEY_8 : Z := 9.
Definition KEY_9 : Z := 10.
Definition KEY_0 : Z := 11.
Definition KEY_ENTER : Z := 28.
Definition KEY_ESC : Z := 1.
Definition KEY_BACKSPACE : Z := 14.
Definition KEY_TAB : Z := 15.
Definition KEY_SPACE : Z := 57.
Definition KEY_MINUS : Z := 12.
Definition KEY_EQUAL : Z := 13.
Definition KEY_LEFTBRACE : Z := 26.
Definition KEY_RIGHTBRACE : Z := 27.
Definition KEY_BACKSLASH : Z := 43.
Definition KEY_SEMICOLON : Z := 39.
Definition KEY_APOSTROPHE : Z := 40.
Definition KEY_GRAVE : Z := 41.
Definition KEY_COMMA : Z := 51.
Definition KEY_DOT : Z := 52.
Definition KEY_SLASH : Z := 53.
Definition KEY_CAPSLOCK : Z := 58.
Definition KEY_F1 : Z := 59.
Definition KEY_F2 : Z := 60.
Definition KEY_F3 : Z := 61.
Definition KEY_F4 : Z := 62.
Definition KEY_F5 : Z := 63.
Definition KEY_F6 : Z := 64.
Definition KEY_F7 : Z := 65.
Definition KEY_F8 : Z := 66.
Definition KEY_F9 : Z := 67.
Definition KEY_F10 : Z := 68.
Definition KEY_F11 : Z := 87.
Definition KEY_F12 : Z := 88.
Definition KEY_PRINT : Z := 210.
Definition KEY_SCROLLLOCK : Z := 70.
Definition KEY_PAUSE : Z := 119.
Definition KEY_INSERT : Z := 110.
Definition KEY_HOME : Z := 102.
Definition KEY_PAGEUP : Z := 104.
Definition KEY_DELETE : Z := 111.
Definition KEY_END : Z := 107.
Definition KEY_PAGEDOWN : Z := 109.
Definition KEY_RIGHT : Z := 106.
Definition KEY_LEFT : Z := 105.
Definition KEY_DOWN : Z := 108.
Definition KEY_UP : Z := 103.
Definition KEY_NUMLOCK : Z := 69.
Definition KEY_KPSLASH : Z := 98.
Definition KEY_KPASTERISK : Z := 55.
Definition KEY_KPMINUS : Z := 74.
Definition KEY_KPPLUS : Z := 78.
Definition KEY_KPENTER : Z := 96.
Definition KEY_KP1 : Z := 79.
Definition KEY_KP2 : Z := 80.
Definition KEY_KP3 : Z := 81.
Definition KEY_KP4 : Z := 75.
Definition KEY_KP5 : Z := 76.
Definition KEY_KP6 : Z := 77.
Definition KEY_KP7 : Z := 71.
Definition KEY_KP8 : Z := 72.
Definition KEY_KP9 : Z := 73.
Definition KEY_KP0 : Z := 82.
Definition KEY_KPDOT : Z := 83.
Definition KEY_102ND : Z := 86.
Definition KEY_COMPOSE : Z := 127.
Definition KEY_POWER : Z := 116.
Definition KEY_KPEQUAL : Z := 117.
Definition KEY_F13 : Z := 183.
Definition KEY_F14 : Z := 184.
Definition KEY_F15 : Z := 185.
Definition KEY_F16 : Z := 186.
Definition KEY_F17 : Z := 187.
Definition KEY_F18 : Z := 188.
Definition KEY_F19 : Z := 189.
Definition KEY_F20 : Z := 190.
Definition KEY_F21 : Z := 191.
Definition KEY_F22 : Z := 192.
Definition KEY_F23 : Z := 193.
Definition KEY_F24 : Z := 194.
Definition KEY_HELP : Z := 138.
Definition KEY_MENU : Z := 139.
Definition KEY_SELECT : Z := 353.
Definition KEY_STOP : Z := 128.
Definition KEY_AGAIN : Z := 129.
Definition KEY_UNDO : Z := 131.
Definition KEY_CUT : Z := 137.
Definition KEY_COPY : Z := 133.
Definition KEY_PASTE : Z := 135.
Definition KEY_FIND : Z := 136.
Definition KEY_MUTE : Z := 113.
Definition KEY_VOLUMEUP : Z := 115.
Definition KEY_VOLUMEDOWN : Z := 114.
Definition KEY_KPCOMMA : Z := 121.
Definition KEY_RO : Z := 89.
Definition KEY_KATAKANAHIRAGANA : Z := 93.
Definition KEY_YEN : Z := 124.
Definition KEY_HENKAN : Z := 92.
Definition KEY_KPJPCOMMA : Z := 95.
Definition KEY_HANGEUL : Z := 122.
Definition KEY_HANJA : Z := 123.
Definition KEY_KATAKANA : Z := 90.
Definition KEY_HIRAGANA : Z := 91.
Definition KEY_ZENKAKUHANKAKU : Z := 85.
Definition KEY_ALTERASE : Z := 222.
Definition KEY_SYSRQ : Z := 99.
Definition KEY_CANCEL : Z := 223.
Definition KEY_CLEAR : Z := 355.
Definition KEY_KPLEFTPAREN : Z := 179.
Definition KEY_KPRIGHTPAREN : Z := 180.
Definition KEY_KPPLUSMINUS : Z := 118.
Definition KEY_LEFTCTRL : Z := 29.
Definition KEY_LEFTSHIFT : Z := 42.
Definition KEY_LEFTALT : Z := 56.
Definition KEY_LEFTMETA : Z := 125.
Definition KEY_RIGHTCTRL : Z := 97.
Definition KEY_RIGHTSHIFT : Z := 54.
Definition KEY_RIGHTALT : Z := 100.
Definition KEY_RIGHTMETA : Z := 126.

Definition sdl_scancode_to_linux_keycode_table : list Z := [
  KEY_UNKNOWN; KEY_UNKNOWN; KEY_UNKNOWN; KEY_UNKNOWN; KEY_A; KEY_B; KEY_C; KEY_D; KEY_E; KEY_F; KEY_G; KEY_H;
  KEY_I; KEY_J; KEY_K; KEY_L; KEY_M; KEY_N; KEY_O; KEY_P; KEY_Q; KEY_R; KEY_S; KEY_T; KEY_U; KEY_V; KEY_W;
  KEY_X; KEY_Y; KEY_Z; KEY_1; KEY_2; KEY_3; KEY_4; KEY_5; KEY_6; KEY_7; KEY_8; KEY_9; KEY_0; KEY_ENTER;
  KEY_ESC; KEY_BACKSPACE; KEY_TAB; KEY_SPACE; KEY_MINUS; KEY_EQUAL; KEY_LEFTBRACE; KEY_RIGHTBRACE;
  KEY_BACKSLASH; KEY_BACKSLASH; KEY_SEMICOLON; KEY_APOSTROPHE; KEY_GRAVE; KEY_COMMA; KEY_DOT; KEY_SLASH;
  KEY_CAPSLOCK; KEY_F1; KEY_F2; KEY_F3; KEY_F4; KEY_F5; KEY_F6; KEY_F7; KEY_F8; KEY_F9; KEY_F10; KEY_F11;
  KEY_F12; KEY_PRINT; KEY_SCROLLLOCK; KEY_PAUSE; KEY_INSERT; KEY_HOME; KEY_PAGEUP; KEY_DELETE; KEY_END;
  KEY_PAGEDOWN; KEY_RIGHT; KEY_LEFT; KEY_DOWN; KEY_UP; KEY_NUMLOCK; KEY_KPSLASH; KEY_KPASTERISK; KEY_KPMINUS;
  KEY_KPPLUS; KEY_KPENTER; KEY_KP1; KEY_KP2; KEY_KP3; KEY_KP4; KEY_KP5; KEY_KP6; KEY_KP7; KEY_KP8; KEY_KP9;
  KEY_KP0; KEY_KPDOT; KEY_102ND; KEY_COMPOSE; KEY_POWER; KEY_KPEQUAL; KEY_F13; KEY_F14; KEY_F15; KEY_F16;
  KEY_F17; KEY_F18; KEY_F19; KEY_F20; KEY_F21; KEY_F22; KEY_F23; KEY_F24; KEY_UNKNOWN; KEY_HELP; KEY_MENU;
  KEY_SELECT; KEY_STOP; KEY_AGAIN; KEY_UNDO; KEY_CUT; KEY_COPY; KEY_PASTE; KEY_FIND; KEY_MUTE; KEY_VOLUMEUP;
  KEY_VOLUMEDOWN; KEY_UNKNOWN; KEY_UNKNOWN; KEY_UNKNOWN; KEY_KPCOMMA; KEY_UNKNOWN; KEY_RO;
  KEY_KATAKANAHIRAGANA; KEY_YEN; KEY_HENKAN; KEY_KPJPCOMMA; KEY_UNKNOWN; KEY_UNKNOWN; KEY_UNKNOWN;
  KEY_UNKNOWN; KEY_HANGEUL; KEY_HANJA; KEY_KATAKANA; KEY_HIRAGANA; KEY_ZENKAKUHANKAKU; KEY_UNKNOWN;
  KEY_UNKNOWN; KEY_UNKNOWN; KEY_UNKNOWN; KEY_ALTERASE; KEY_SYSRQ; KEY_CANCEL; KEY_CLEAR; KEY_UNKNOWN;
  KEY_UNKNOWN; KEY_UNKNOWN; KEY_UNKNOWN; KEY_UNKNOWN; KEY_UNKNOWN; KEY_UNKNOWN; KEY_UNKNOWN; KEY_UNKNOWN;
  KEY_UNKNOWN; KEY_UNKNOWN; KEY_UNKNOWN; KEY_UNKNOWN; KEY_UNKNOWN; KEY_UNKNOWN; KEY_UNKNOWN; KEY_UNKNOWN;
  KEY_UNKNOWN; KEY_UNKNOWN; KEY_UNKNOWN; KEY_UNKNOWN; KEY_UNKNOWN; KEY_UNKNOWN; KEY_UNKNOWN; KEY_UNKNOWN;
  KEY_KPLEFTPAREN; KEY_KPRIGHTPAREN; KEY_UNKNOWN; KEY_UNKNOWN; KEY_UNKNOWN; KEY_UNKNOWN; KEY_UNKNOWN;
  KEY_UNKNOWN; KEY_UNKNOWN; KEY_UNKNOWN; KEY_UNKNOWN; KEY_UNKNOWN; KEY_UNKNOWN; KEY_UNKNOWN; KEY_UNKNOWN;
  KEY_UNKNOWN; KEY_UNKNOWN; KEY_UNKNOWN; KEY_UNKNOWN; KEY_UNKNOWN; KEY_UNKNOWN; KEY_UNKNOWN; KEY_UNKNOWN;
  KEY_UNKNOWN; KEY_UNKNOWN; KEY_UNKNOWN; KEY_UNKNOWN; KEY_UNKNOWN; KEY_UNKNOWN; KEY_UNKNOWN; KEY_UNKNOWN;
  KEY_UNKNOWN; KEY_UNKNOWN; KEY_KPPLUSMINUS; KEY_UNKNOWN; KEY_UNKNOWN; KEY_UNKNOWN; KEY_UNKNOWN; KEY_UNKNOWN;
  KEY_UNKNOWN; KEY_UNKNOWN; KEY_UNKNOWN; KEY_LEFTCTRL; KEY_LEFTSHIFT; KEY_LEFTALT; KEY_LEFTMETA;
  KEY_RIGHTCTRL; KEY_RIGHTSHIFT; KEY_RIGHTALT; KEY_RIGHTMETA].
Definition sdl_scancode_to_linux_keycode_table_length : Z :=
  Z.of_nat (length sdl_scancode_to_linux_keycode_table).

Definition SDL_SCANCODE_A : Z := 4.
Definition SDL_SCANCODE_Z : Z := 29.
Definition SDL_SCANCODE_1 : Z := 30.
Definition SDL_SCANCODE_9 : Z := 38.
Definition SDL_SCANCODE_0 : Z := 39.
Definition SDL_SCANCODE_RETURN : Z := 40.
Definition SDL_SCANCODE_ESCAPE : Z := 41.
Definition SDL_SCANCODE_BACKSPACE : Z := 42.
Definition SDL_SCANCODE_TAB : Z := 43.
Definition SDL_SCANCODE_SPACE : Z := 44.
Definition SDL_SCANCODE_CAPSLOCK : Z := 57.
Definition SDL_SCANCODE_F1 : Z := 58.
Definition SDL_SCANCODE_F11 : Z := 68.
Definition SDL_SCANCODE_F12 : Z := 69.
Definition SDL_SCANCODE_RIGHT : Z := 79.
Definition SDL_SCANCODE_LEFT : Z := 80.
Definition SDL_SCANCODE_DOWN : Z := 81.
Definition SDL_SCANCODE_UP : Z := 82.
Definition SDL_SCANCODE_LCTRL : Z := 224.
Definition SDL_SCANCODE_LSHIFT : Z := 225.
Definition SDL_SCANCODE_LALT : Z := 226.
Definition SDL_SCANCODE_RCTRL : Z := 228.
Definition SDL_SCANCODE_RSHIFT : Z := 229.
Definition SDL_SCANCODE_RALT : Z := 230.
Definition SDL_SCANCODE_H : Z := 11.

Definition sdl_scancode_to_android_keycode (sdl_scancode : Z) : Z :=
  if (SDL_SCANCODE_A <=? sdl_scancode) && (sdl_scancode <=? SDL_SCANCODE_Z) then sdl_scancode + 25 else
  if (SDL_SCANCODE_1 <=? sdl_scancode) && (sdl_scancode <=? SDL_SCANCODE_9) then sdl_scancode - 22 else
  if sdl_scancode =? SDL_SCANCODE_0 then 7 else
  if sdl_scancode =? SDL_SCANCODE_CAPSLOCK then 115 else
  if (SDL_SCANCODE_F1 <=? sdl_scancode) && (sdl_scancode <=? SDL_SCANCODE_F12) then sdl_scancode + 73 else
  if sdl_scancode =? SDL_SCANCODE_LCTRL then 113 else
  if sdl_scancode =? SDL_SCANCODE_RCTRL then 114 else
  if sdl_scancode =? SDL_SCANCODE_LSHIFT then 59 else
  if sdl_scancode =? SDL_SCANCODE_RSHIFT then 60 else
  if sdl_scancode =? SDL_SCANCODE_LALT then 57 else
  if sdl_scancode =? SDL_SCANCODE_RALT then 58 else
  if sdl_scancode =? SDL_SCANCODE_TAB then 61 else
  if sdl_scancode =? SDL_SCANCODE_SPACE then 62 else
  if sdl_scancode =? SDL_SCANCODE_BACKSPACE then 67 else
  if sdl_scancode =? SDL_SCANCODE_RETURN then 66 else
  if sdl_scancode =? SDL_SCANCODE_ESCAPE then 111 else
  if sdl_scancode =? SDL_SCANCODE_UP then 19 else
  if sdl_scancode =? SDL_SCANCODE_DOWN then 20 else
  if sdl_scancode =? SDL_SCANCODE_LEFT then 21 else
  if sdl_scancode =? SDL_SCANCODE_RIGHT then 22 else
  0.

(** ** The keys both tables know *)

(** A key by its SDL scancode, Linux key code and Android key code, as the three
    systems number them. *)
Definition keys : list (Z * Z * Z) :=
  zip (zip (seqZ 4 26)
    [KEY_A; KEY_B; KEY_C; KEY_D; KEY_E; KEY_F; KEY_G; KEY_H; KEY_I; KEY_J; KEY_K; KEY_L; KEY_M; KEY_N; KEY_O; KEY_P; KEY_Q;
     KEY_R; KEY_S; KEY_T; KEY_U; KEY_V; KEY_W; KEY_X; KEY_Y; KEY_Z]) (seqZ 29 26) ++
  zip (zip (seqZ 30 9) [KEY_1; KEY_2; KEY_3; KEY_4; KEY_5; KEY_6; KEY_7; KEY_8; KEY_9]) (seqZ 8 9) ++
  [(39, KEY_0, 7); (40, KEY_ENTER, 66); (41, KEY_ESC, 111); (42, KEY_BACKSPACE, 67); (43, KEY_TAB, 61); (44, KEY_SPACE, 62);
   (57, KEY_CAPSLOCK, 115)] ++
  zip (zip (seqZ 58 12) [KEY_F1; KEY_F2; KEY_F3; KEY_F4; KEY_F5; KEY_F6; KEY_F7; KEY_F8; KEY_F9; KEY_F10; KEY_F11; KEY_F12]) (seqZ 131 12) ++
  [(79, KEY_RIGHT, 22); (80, KEY_LEFT, 21); (81, KEY_DOWN, 20); (82, KEY_UP, 19);
   (224, KEY_LEFTCTRL, 113); (225, KEY_LEFTSHIFT, 59); (226, KEY_LEFTALT, 57);
   (228, KEY_RIGHTCTRL, 114); (229, KEY_RIGHTSHIFT, 60); (230, KEY_RIGHTALT, 58)].

(** Both translations are right for these keys, and the Android one knows no others. *)
Lemma keys_translated :
  Forall (fun '(sc, linux, android) => nthZ sdl_scancode_to_linux_keycode_table sc = Some linux /\
    sdl_scancode_to_android_keycode sc = android) keys /\
  forallb (fun sc => (sdl_scancode_to_android_keycode sc =? 0) || existsb (fun k => fst (fst k) =? sc) keys) (seqZ 0 512) = true.
Proof.
  split; [|vm_compute; reflexivity]. apply Forall_forall. intros [[sc linux] android] H.
  assert (forallb (fun '(sc, linux, android) => bool_decide (nthZ sdl_scancode_to_linux_keycode_table sc = Some linux) &&
    (sdl_scancode_to_android_keycode sc =? android)) keys = true) as F by (vm_compute; reflexivity).
  rewrite forallb_forall in F. specialize (F _ (proj1 (list_elem_of_In _ _) H)). cbn in F.
  apply andb_true_iff in F as [F1 F2]. apply bool_decide_eq_true in F1. apply Z.eqb_eq in F2. auto.
Qed.
