(* ===== verification/MainLoop.v ===== *)
(** The event loop of src/main.cpp: how SDL events become calls into the guest. *)
From S2P Require Import Prelude Keyboard.
Local Open Scope Z_scope.

(** The events [SDL_PollEvent] returns, with the fields the loop reads. *)
Inductive sdl_event : Type :=
| SDL_QUIT
| SDL_KEYDOWN (scancode repeat : Z)
| SDL_KEYUP (scancode repeat : Z)
| SDL_MOUSEBUTTON (button state : Z)
| SDL_MOUSEMOTION (x y xrel yrel : Z)
| SDL_MOUSEWHEEL (preciseY : Z)
| SDL_WINDOWEVENT_RESIZED
| SDL_WINDOWEVENT_SHOWN
| SDL_WINDOWEVENT_OTHER
| SDL_CUSTOM (code : Z)
| SDL_OTHER.

(** The codes of window.hpp. *)
Definition CUSTOM_EVENT_APP_STARTUP : Z := 1.
Definition CUSTOM_EVENT_START_GAME : Z := 2.
Definition CUSTOM_EVENT_REPORT_BATTERY_STATUS : Z := 3.

Definition SDL_BUTTON_LEFT : Z := 1.
Definition SDL_BUTTON_MIDDLE : Z := 2.
Definition SDL_BUTTON_RIGHT : Z := 3.

(** Arguments of guest calls, without the environment and the class: integers,
    floats converted from integers, raw float bits, objects by description. *)
Inductive arg : Type := AInt (z : Z) | AFloatOf (z : Z) | AFloat (bits : Z) | AObject (what : string).

(** What the loop does outside: calls into the guest ([run(m.method, ...)]) and
    into SDL. *)
Inductive effect : Type :=
| Guest (method : string) (args : list arg)
| SDL_SetWindowFullscreen (on : bool)
| SDL_SetWindowDisplayMode
| SDL_SetRelativeMouseMode (on : bool)
| SDL_WarpMouseInWindow (x y : Z)
| CreateClass (name : string)
| SDL_AddTimer (interval : Z).

(** The locals of [main], and the effects so far, the latest last. *)
Record loop_state : Type := {
  is_fullscreen : bool;
  is_running : bool;
  window_presented : bool;
  cursor_grabbed : bool;
  cursor_locked : bool;
  startup_task : bool;
  game_start_task : bool;
  resize_task : bool;
  mouse_x : Z;
  mouse_y : Z;
  frame_del_x : Z;
  frame_del_y : Z;
  mouse_motion_task : bool;
  effects : list effect
}.
Definition initial_loop : loop_state :=
  {| is_fullscreen := false; is_running := true; window_presented := false; cursor_grabbed := false;
     cursor_locked := false; startup_task := false; game_start_task := false; resize_task := false;
     mouse_x := -1; mouse_y := -1; frame_del_x := 0; frame_del_y := 0; mouse_motion_task := false; effects := [] |}.

Abbreviation LM := (M loop_state).
Ltac loop_update field v s :=
  let t := constr:({| is_fullscreen := is_fullscreen s; is_running := is_running s; window_presented := window_presented s;
    cursor_grabbed := cursor_grabbed s; cursor_locked := cursor_locked s; startup_task := startup_task s;
    game_start_task := game_start_task s; resize_task := resize_task s; mouse_x := mouse_x s; mouse_y := mouse_y s;
    frame_del_x := frame_del_x s; frame_del_y := frame_del_y s; mouse_motion_task := mouse_motion_task s; effects := effects s |}) in
  let f := constr:(field s) in
  lazymatch (eval pattern f in t) with ?g _ => let r := eval cbv beta in (g v) in exact r end.
Definition set_is_fullscreen (v : bool) (s : loop_state) : loop_state := ltac:(loop_update is_fullscreen v s).
Definition set_is_running (v : bool) (s : loop_state) : loop_state := ltac:(loop_update is_running v s).
Definition set_window_presented (v : bool) (s : loop_state) : loop_state := ltac:(loop_update window_presented v s).
Definition set_cursor_grabbed (v : bool) (s : loop_state) : loop_state := ltac:(loop_update cursor_grabbed v s).
Definition set_cursor_locked (v : bool) (s : loop_state) : loop_state := ltac:(loop_update cursor_locked v s).
Definition set_startup_task (v : bool) (s : loop_state) : loop_state := ltac:(loop_update startup_task v s).
Definition set_game_start_task (v : bool) (s : loop_state) : loop_state := ltac:(loop_update game_start_task v s).
Definition set_resize_task (v : bool) (s : loop_state) : loop_state := ltac:(loop_update resize_task v s).
Definition set_mouse_x (v : Z) (s : loop_state) : loop_state := ltac:(loop_update mouse_x v s).
Definition set_mouse_y (v : Z) (s : loop_state) : loop_state := ltac:(loop_update mouse_y v s).
Definition set_frame_del_x (v : Z) (s : loop_state) : loop_state := ltac:(loop_update frame_del_x v s).
Definition set_frame_del_y (v : Z) (s : loop_state) : loop_state := ltac:(loop_update frame_del_y v s).
Definition set_mouse_motion_task (v : bool) (s : loop_state) : loop_state := ltac:(loop_update mouse_motion_task v s).
Definition set_effects (v : list effect) (s : loop_state) : loop_state := ltac:(loop_update effects v s).

Definition emit (e : effect) : LM unit := modify (fun s => set_effects (effects s ++ [e]) s).
Definition run (method : string) (args : list arg) : LM unit := emit (Guest method args).
(** Addition of [i32]s, undefined on overflow. *)
Definition add_i32 (a b : Z) : LM Z :=
  let r := a + b in
  if (- 2 ^ 31 <=? r) && (r <? 2 ^ 31) then ret r else stop Undefined.

(** The [SDL_KEYDOWN] case up to the fall-through. *)
Definition key_down (scancode : Z) : LM unit :=
  (if scancode =? SDL_SCANCODE_F11 then
     modify (fun s => set_is_fullscreen (negb (is_fullscreen s)) s) ;;
     let! f := gets is_fullscreen in
     if f then
       emit (SDL_SetWindowFullscreen true) ;;
       emit SDL_SetWindowDisplayMode ;;
       modify (set_cursor_grabbed true) ;;
       emit (SDL_SetRelativeMouseMode true)
     else emit (SDL_SetWindowFullscreen false)
   else ret tt) ;;
  if scancode =? SDL_SCANCODE_ESCAPE then
    modify (set_cursor_grabbed false) ;;
    emit (SDL_SetRelativeMouseMode false)
  else ret tt.

(** The [SDL_KEYUP] case, which key presses fall through to. *)
Definition key_event (down : bool) (scancode repeat : Z) : LM unit :=
  assert_ (scancode <? sdl_scancode_to_linux_keycode_table_length) ;;
  let! linux_keycode := deref (nthZ sdl_scancode_to_linux_keycode_table scancode) in
  let android_keycode := sdl_scancode_to_android_keycode scancode in
  run "nativePassKeyEvent" [AInt (Z.b2z down); AInt linux_keycode; AInt android_keycode; AInt (Z.b2z (0 <? repeat))].

Definition mouse_button (button state : Z) : LM unit :=
  let button_id := if button =? SDL_BUTTON_LEFT then 1
                   else if button =? SDL_BUTTON_RIGHT then 2
                   else if button =? SDL_BUTTON_MIDDLE then 4 else 0 in
  let! s := get in
  run "nativePassMouseButton" [AFloatOf (mouse_x s); AFloatOf (mouse_y s); AInt state; AInt (button_id - 1)] ;;
  (let! g := gets cursor_grabbed in
   if negb g then modify (set_cursor_grabbed true) ;; emit (SDL_SetRelativeMouseMode true) else ret tt) ;;
  if button =? SDL_BUTTON_RIGHT then modify (set_cursor_locked (negb (state =? 0))) else ret tt.

Definition mouse_motion (x y xrel yrel : Z) : LM unit :=
  let! s := get in
  let! dx := add_i32 (frame_del_x s) xrel in
  modify (set_frame_del_x dx) ;;
  let! dy := add_i32 (frame_del_y s) yrel in
  modify (set_frame_del_y dy) ;;
  (if cursor_locked s then emit (SDL_WarpMouseInWindow (mouse_x s) (mouse_y s))
   else modify (set_mouse_x x) ;; modify (set_mouse_y y)) ;;
  modify (set_mouse_motion_task true).

Definition custom_event (code : Z) : LM unit :=
  if code =? CUSTOM_EVENT_APP_STARTUP then modify (set_startup_task true)
  else if code =? CUSTOM_EVENT_START_GAME then modify (set_game_start_task true)
  else if code =? CUSTOM_EVENT_REPORT_BATTERY_STATUS then run "reportBatteryStatus" [AObject "battery status"]
  else ret tt.

(** The switch on the event. *)
Definition handle_event (event : sdl_event) : LM unit :=
  match event with
  | SDL_QUIT => modify (set_is_running false)
  | SDL_KEYDOWN scancode repeat => key_down scancode ;; key_event true scancode repeat
  | SDL_KEYUP scancode repeat => key_event false scancode repeat
  | SDL_MOUSEBUTTON button state => mouse_button button state
  | SDL_MOUSEMOTION x y xrel yrel => mouse_motion x y xrel yrel
  | SDL_MOUSEWHEEL preciseY =>
      let! s := get in
      run "nativePassMouseWheel" [AFloatOf (mouse_x s); AFloatOf (mouse_y s); AFloat preciseY]
  | SDL_WINDOWEVENT_RESIZED => modify (set_resize_task true)
  | SDL_WINDOWEVENT_SHOWN => modify (set_window_presented true)
  | SDL_WINDOWEVENT_OTHER => ret tt
  | SDL_CUSTOM code => custom_event code
  | SDL_OTHER => ret tt
  end.

(** The tasks after the events of a frame. *)
Definition resize_step : LM unit :=
  let! s := get in
  if resize_task s then
    modify (set_resize_task false) ;;
    run "nativeAppBridgeV2UpdateSurfaceApp" [AObject "surface"; AFloatOf 1]
  else ret tt.
Definition startup_step : LM unit :=
  let! s := get in
  if startup_task s && window_presented s then
    modify (set_startup_task false) ;;
    run "nativeAppBridgeV2StartAppWithParams" [AObject "start app params"] ;;
    emit (CreateClass "com/roblox/universalapp/experience/JNIExperienceProtocol") ;;
    emit (CreateClass "com/roblox/universalapp/messagebus/MessageBus") ;;
    emit (CreateClass "MessageBusCallback") ;;
    run "getLaunchId" [] ;;
    run "doSubscribeRaw" [AObject "launch id"; AObject "MessageBusCallback"; AInt 0] ;;
    emit (SDL_AddTimer 30000)
  else ret tt.
Definition game_start_step : LM unit :=
  let! s := get in
  if game_start_task s then
    modify (set_game_start_task false) ;;
    run "nativeAppBridgeV2StartGameWithParam" [AObject "start game params"] ;;
    run "reportBatteryStateChanged" [AInt 100; AInt 5] ;;
    run "reportThermalStateChanged" [AInt 0] ;;
    let! linux_keycode := deref (nthZ sdl_scancode_to_linux_keycode_table SDL_SCANCODE_H) in
    let android_keycode := sdl_scancode_to_android_keycode SDL_SCANCODE_H in
    run "nativePassKeyEvent" [AInt 1; AInt linux_keycode; AInt android_keycode; AInt 0] ;;
    run "nativePassKeyEvent" [AInt 0; AInt linux_keycode; AInt android_keycode; AInt 0]
  else ret tt.
Definition mouse_motion_step : LM unit :=
  let! s := get in
  if mouse_motion_task s then
    modify (set_mouse_motion_task false) ;;
    run "nativePassMouseMove" [AFloatOf (mouse_x s); AFloatOf (mouse_y s); AFloatOf (frame_del_x s); AFloatOf (frame_del_y s)]
  else ret tt.

(** One turn of the loop on the events polled in it. *)
Definition frame (events : list sdl_event) : LM unit :=
  modify (set_frame_del_x 0) ;;
  modify (set_frame_del_y 0) ;;
  modify (set_mouse_motion_task false) ;;
  for_each events handle_event ;;
  resize_step ;;
  startup_step ;;
  game_start_step ;;
  mouse_motion_step.

(** [while (is_running)], for the frames there are events for. *)
Fixpoint frames (l : list (list sdl_event)) : LM unit :=
  match l with
  | [] => ret tt
  | events :: l' =>
      let! r := gets is_running in
      if r then frame events ;; frames l' else ret tt
  end.

(** The join request a message of the guest asks for: the request type, or none. *)
Definition join_request (place_id user_id : Z) : option Z :=
  if negb (place_id =? 0) && (user_id =? -1) then Some 0
  else if negb (user_id =? -1) then Some 1
  else None.

(** ** What the events of a frame do *)
Definition is_startup (e : sdl_event) : bool := match e with SDL_CUSTOM c => c =? CUSTOM_EVENT_APP_STARTUP | _ => false end.
Definition is_shown (e : sdl_event) : bool := match e with SDL_WINDOWEVENT_SHOWN => true | _ => false end.
Definition is_quit (e : sdl_event) : bool := match e with SDL_QUIT => true | _ => false end.
Definition is_motion (e : sdl_event) : bool := match e with SDL_MOUSEMOTION _ _ _ _ => true | _ => false end.
Definition xrel_of (e : sdl_event) : Z := match e with SDL_MOUSEMOTION _ _ dx _ => dx | _ => 0 end.
Definition yrel_of (e : sdl_event) : Z := match e with SDL_MOUSEMOTION _ _ _ dy => dy | _ => 0 end.

(** Keys of the table, and movements that fit 16 bits. *)
Definition ok_event (e : sdl_event) : Prop :=
  match e with
  | SDL_KEYDOWN sc _ | SDL_KEYUP sc _ => 0 <= sc < sdl_scancode_to_linux_keycode_table_length
  | SDL_MOUSEMOTION _ _ dx dy => -2 ^ 15 <= dx <= 2 ^ 15 /\ -2 ^ 15 <= dy <= 2 ^ 15
  | _ => True
  end.

(** The right button holds the cursor in place; otherwise it follows the mouse. *)
Definition cursor_step (c : bool * (Z * Z)) (e : sdl_event) : bool * (Z * Z) :=
  match e with
  | SDL_MOUSEBUTTON b st => if b =? SDL_BUTTON_RIGHT then (negb (st =? 0), snd c) else c
  | SDL_MOUSEMOTION x y _ _ => if fst c then c else (false, (x, y))
  | _ => c
  end.
Definition cursor_of (s : loop_state) : bool * (Z * Z) := (cursor_locked s, (mouse_x s, mouse_y s)).

(** The calls of a guest method, in order. *)
Definition calls (method : string) (l : list effect) : list (list arg) :=
  flat_map (fun e => match e with Guest m a => if String.eqb m method then [a] else [] | _ => [] end) l.
Definition StartApp : string := "nativeAppBridgeV2StartAppWithParams".
Definition PassMouseMove : string := "nativePassMouseMove".

Lemma calls_app m l k : calls m (l ++ k) = calls m l ++ calls m k.
Proof. apply flat_map_app. Qed.

(** The state after some events, relative to the state before. *)
Record after (es : list sdl_event) (s s' : loop_state) : Prop := {
  af_startup : startup_task s' = startup_task s || existsb is_startup es;
  af_shown : window_presented s' = window_presented s || existsb is_shown es;
  af_running : is_running s' = is_running s && negb (existsb is_quit es);
  af_motion : mouse_motion_task s' = mouse_motion_task s || existsb is_motion es;
  af_dx : frame_del_x s' = frame_del_x s + foldr (fun e a => xrel_of e + a) 0 es;
  af_dy : frame_del_y s' = frame_del_y s + foldr (fun e a => yrel_of e + a) 0 es;
  af_cursor : cursor_of s' = foldl cursor_step (cursor_of s) es;
  af_effects : exists l, effects s' = effects s ++ l /\ calls StartApp l = [] /\ calls PassMouseMove l = []
}.

Lemma after_cons e es s s1 s2 : after [e] s s1 -> after es s1 s2 -> after (e :: es) s s2.
Proof.
  intros [A1 A2 A3 A4 A5 A6 A7 (l1 & E1 & F1 & G1)] [B1 B2 B3 B4 B5 B6 B7 (l2 & E2 & F2 & G2)].
  split; cbn [existsb foldr foldl] in *.
  - rewrite B1, A1. destruct (startup_task s), (is_startup e); reflexivity.
  - rewrite B2, A2. destruct (window_presented s), (is_shown e); reflexivity.
  - rewrite B3, A3. destruct (is_running s), (is_quit e); reflexivity.
  - rewrite B4, A4. destruct (mouse_motion_task s), (is_motion e); reflexivity.
  - rewrite B5, A5. lia.
  - rewrite B6, A6. lia.
  - rewrite B7, A7. reflexivity.
  - exists (l1 ++ l2). rewrite E2, E1, app_assoc, !calls_app, F1, F2, G1, G2. auto.
Qed.

Definition small (k : Z) (s : loop_state) : Prop :=
  - (2 ^ 15 * k) <= frame_del_x s <= 2 ^ 15 * k /\ - (2 ^ 15 * k) <= frame_del_y s <= 2 ^ 15 * k.

Ltac loop_run :=
  cbv [bind modify gets get ret emit run assert_ set_is_fullscreen set_is_running set_window_presented set_cursor_grabbed
       set_cursor_locked set_startup_task set_game_start_task set_resize_task set_mouse_x set_mouse_y set_frame_del_x
       set_frame_del_y set_mouse_motion_task set_effects].
(** The facts about one event, from the state it leaves. *)
Ltac one_event :=
  split; cbn [startup_task window_presented is_running mouse_motion_task frame_del_x frame_del_y effects existsb foldr foldl
              is_startup is_shown is_quit is_motion xrel_of yrel_of cursor_of cursor_locked mouse_x mouse_y cursor_step orb negb set_effects set_resize_task set_game_start_task];
  rewrite ?orb_false_r, ?andb_true_r, ?andb_false_r, ?orb_true_r, ?Z.add_0_r; try reflexivity;
  rewrite <- ?app_assoc; try (eexists; split; [first [reflexivity | symmetry; apply app_nil_r] | split; reflexivity]).

Lemma key_event_ok down sc rep s : 0 <= sc < sdl_scancode_to_linux_keycode_table_length ->
  exists a, key_event down sc rep s = (Ret tt, set_effects (effects s ++ [Guest "nativePassKeyEvent" a]) s).
Proof.
  intros H. unfold key_event. destruct (Z.ltb_spec sc sdl_scancode_to_linux_keycode_table_length); [|lia].
  destruct (proj1 (nthZ_Some sdl_scancode_to_linux_keycode_table sc) H) as [c Hc].
  erewrite bind_ok by reflexivity. rewrite Hc. erewrite bind_ok by reflexivity. eexists. reflexivity.
Qed.

(** Steps that change none of this, before others that may. *)
Lemma quiet_then es s s1 s2 : after [] s s1 -> after es s1 s2 -> after es s s2.
Proof.
  intros [A1 A2 A3 A4 A5 A6 A7 (l1 & E1 & F1 & G1)] [B1 B2 B3 B4 B5 B6 B7 (l2 & E2 & F2 & G2)].
  cbn [existsb foldr foldl] in *. rewrite orb_false_r in A1, A2, A4. rewrite andb_true_r in A3. rewrite Z.add_0_r in A5, A6.
  split; try congruence. exists (l1 ++ l2). rewrite E2, E1, app_assoc, !calls_app, F1, F2, G1, G2. auto.
Qed.

Definition quiet (c : LM unit) : Prop := forall s, exists s1, c s = (Ret tt, s1) /\ after [] s s1 /\
  frame_del_x s1 = frame_del_x s /\ frame_del_y s1 = frame_del_y s.
Lemma quiet_bind c d : quiet c -> quiet d -> quiet (c ;; d).
Proof.
  intros C D s. destruct (C s) as (s1 & E1 & A1 & X1 & Y1). destruct (D s1) as (s2 & E2 & A2 & X2 & Y2).
  exists s2. split; [erewrite bind_ok by exact E1; exact E2|]. split; [exact (quiet_then _ _ _ _ A1 A2)|]. split; congruence.
Qed.
Lemma quiet_ret : quiet (ret tt).
Proof. intros s. exists s. split; [reflexivity|]. split; [one_event | auto]. Qed.
Lemma quiet_emit e : calls StartApp [e] = [] -> calls PassMouseMove [e] = [] -> quiet (emit e).
Proof.
  intros H1 H2 s. eexists. split; [reflexivity|]. split; [|auto]. one_event. exists [e]. auto.
Qed.
Lemma quiet_fullscreen : quiet (modify (fun s => set_is_fullscreen (negb (is_fullscreen s)) s)).
Proof. intros s. eexists. split; [reflexivity|]. split; [one_event | auto]. Qed.
Lemma quiet_grabbed b : quiet (modify (set_cursor_grabbed b)).
Proof. intros s. eexists. split; [reflexivity|]. split; [one_event | auto]. Qed.
Lemma quiet_gets {A} (f : loop_state -> A) k : (forall a, quiet (k a)) -> quiet (bind (gets f) k).
Proof. intros H s. apply (H (f s) s). Qed.

Lemma key_down_quiet sc : quiet (key_down sc).
Proof.
  unfold key_down. apply quiet_bind.
  - destruct (sc =? SDL_SCANCODE_F11); [|apply quiet_ret]. apply quiet_bind; [apply quiet_fullscreen|]. apply quiet_gets. intros [].
    + repeat (apply quiet_bind || apply quiet_grabbed || (apply quiet_emit; reflexivity)).
    + apply quiet_emit; reflexivity.
  - destruct (sc =? SDL_SCANCODE_ESCAPE); [|apply quiet_ret]. apply quiet_bind; [apply quiet_grabbed | apply quiet_emit; reflexivity].
Qed.

Lemma mouse_motion_ok x y dx dy k s : ok_event (SDL_MOUSEMOTION x y dx dy) -> small k s -> 0 <= k < 2 ^ 15 ->
  exists s', mouse_motion x y dx dy s = (Ret tt, s') /\ after [SDL_MOUSEMOTION x y dx dy] s s' /\ small (k + 1) s'.
Proof.
  intros [O1 O2] [S1 S2] Hk.
  assert (add_i32 (frame_del_x s) dx = ret (frame_del_x s + dx) /\ add_i32 (frame_del_y s) dy = ret (frame_del_y s + dy)) as [E1 E2].
  { unfold add_i32. split;
      (destruct (Z.leb_spec (- 2 ^ 31) (frame_del_x s + dx)); [|lia]; destruct (Z.ltb_spec (frame_del_x s + dx) (2 ^ 31)); [|lia];
       reflexivity) || (destruct (Z.leb_spec (- 2 ^ 31) (frame_del_y s + dy)); [|lia];
       destruct (Z.ltb_spec (frame_del_y s + dy) (2 ^ 31)); [|lia]; reflexivity). }
  unfold mouse_motion. erewrite bind_ok by reflexivity. rewrite E1, E2. loop_run.
  destruct (cursor_locked s) eqn:L; (eexists; split; [reflexivity|]; split; [|unfold small; cbn [frame_del_x frame_del_y]; lia]);
    one_event; unfold cursor_of; cbn [cursor_locked mouse_x mouse_y]; rewrite L; reflexivity.
Qed.

Lemma handle_event_ok e k s : ok_event e -> small k s -> 0 <= k < 2 ^ 15 ->
  exists s', handle_event e s = (Ret tt, s') /\ after [e] s s' /\ small (k + 1) s'.
Proof.
  intros O S Hk. assert (forall s', frame_del_x s' = frame_del_x s -> frame_del_y s' = frame_del_y s -> small (k + 1) s') as Sm
    by (unfold small in *; intros s' -> ->; lia).
  destruct e as [|sc rep|sc rep|b st|x y dx dy|w| | | |c|]; cbn [handle_event].
  - eexists. split; [reflexivity|]. split; [one_event | apply Sm; reflexivity].
  - destruct (key_down_quiet sc s) as (s1 & E & A & F1 & F2). destruct (key_event_ok true sc rep s1 O) as [a E2].
    eexists. split; [erewrite bind_ok by exact E; exact E2|].
    split; [|apply Sm; [rewrite <- F1 | rewrite <- F2]; reflexivity]. apply (quiet_then _ _ _ _ A). one_event.
  - destruct (key_event_ok false sc rep s O) as [a E]. eexists. split; [exact E|]. split; [one_event | apply Sm; reflexivity].
  - unfold mouse_button. loop_run. destruct (cursor_grabbed s), (b =? SDL_BUTTON_RIGHT) eqn:B; cbn [negb];
      (eexists; split; [reflexivity|]; split; [one_event | apply Sm; reflexivity]; unfold cursor_of; rewrite ?B; reflexivity).
  - apply mouse_motion_ok; assumption.
  - eexists. split; [reflexivity|]. split; [one_event | apply Sm; reflexivity].
  - eexists. split; [reflexivity|]. split; [one_event | apply Sm; reflexivity].
  - eexists. split; [reflexivity|]. split; [one_event | apply Sm; reflexivity].
  - eexists. split; [reflexivity|]. split; [one_event | apply Sm; reflexivity].
  - unfold custom_event. loop_run. destruct (c =? CUSTOM_EVENT_APP_STARTUP) eqn:C1;
      [|destruct (c =? CUSTOM_EVENT_START_GAME); [|destruct (c =? CUSTOM_EVENT_REPORT_BATTERY_STATUS)]];
      (eexists; split; [reflexivity|]; split; [one_event; rewrite C1, ?orb_true_r, ?orb_false_r; reflexivity | apply Sm; reflexivity]).
  - eexists. split; [reflexivity|]. split; [one_event | apply Sm; reflexivity].
Qed.

Lemma events_ok es : forall k s, Forall ok_event es -> small k s -> 0 <= k -> k + Z.of_nat (length es) <= 2 ^ 15 ->
  exists s', for_each es handle_event s = (Ret tt, s') /\ after es s s'.
Proof.
  induction es as [|e es IH]; intros k s O S H1 H2; cbn [for_each].
  - exists s. split; [reflexivity | one_event].
  - apply Forall_cons in O as [Oe Oes]. cbn [length] in H2.
    destruct (handle_event_ok e k s Oe S ltac:(lia)) as (s1 & E1 & A1 & S1).
    destruct (IH (k + 1) s1 Oes S1 ltac:(lia) ltac:(lia)) as (s2 & E2 & A2).
    exists s2. split; [erewrite bind_ok by exact E1; exact E2 | exact (after_cons _ _ _ _ _ A1 A2)].
Qed.

(** The tasks. *)
Lemma resize_quiet : quiet resize_step.
Proof.
  intros s. unfold resize_step. erewrite bind_ok by reflexivity. destruct (resize_task s).
  - eexists. split; [reflexivity|]. split; [one_event | auto].
  - apply quiet_ret.
Qed.
Lemma game_start_quiet : quiet game_start_step.
Proof.
  intros s. unfold game_start_step. erewrite bind_ok by reflexivity. destruct (game_start_task s).
  - eexists. split; [reflexivity|]. split; [one_event | auto].
  - apply quiet_ret.
Qed.

Lemma startup_step_ok s : exists s1 l, startup_step s = (Ret tt, s1) /\ effects s1 = effects s ++ l /\ calls PassMouseMove l = [] /\
  calls StartApp l = (if startup_task s && window_presented s then [[AObject "start app params"]] else []) /\
  startup_task s1 = startup_task s && negb (window_presented s) /\ window_presented s1 = window_presented s /\
  is_running s1 = is_running s /\ mouse_motion_task s1 = mouse_motion_task s /\ cursor_of s1 = cursor_of s /\
  frame_del_x s1 = frame_del_x s /\ frame_del_y s1 = frame_del_y s.
Proof.
  unfold startup_step. erewrite bind_ok by reflexivity. destruct (startup_task s) eqn:E1, (window_presented s) eqn:E2; cbn [andb].
  1: eexists _, _; split; [reflexivity|]; cbn [effects set_effects set_startup_task]; rewrite <- !app_assoc; split; [reflexivity|];
     repeat split; cbn; rewrite ?E1, ?E2; reflexivity.
  all: exists s, []; rewrite app_nil_r; repeat split; rewrite ?E1, ?E2; reflexivity.
Qed.

Lemma mouse_motion_step_ok s : exists s1 l, mouse_motion_step s = (Ret tt, s1) /\ effects s1 = effects s ++ l /\ calls StartApp l = [] /\
  calls PassMouseMove l = (if mouse_motion_task s then [[AFloatOf (mouse_x s); AFloatOf (mouse_y s); AFloatOf (frame_del_x s);
    AFloatOf (frame_del_y s)]] else []) /\
  startup_task s1 = startup_task s /\ window_presented s1 = window_presented s /\ is_running s1 = is_running s /\ cursor_of s1 = cursor_of s.
Proof.
  unfold mouse_motion_step. erewrite bind_ok by reflexivity. destruct (mouse_motion_task s).
  - eexists _, _. split; [reflexivity|]. split; [reflexivity|]. repeat split.
  - exists s, []. rewrite app_nil_r. repeat split.
Qed.

Section Frame.
Context (es : list sdl_event) (s : loop_state).
Definition wants_start : bool := startup_task s || existsb is_startup es.
Definition presented : bool := window_presented s || existsb is_shown es.
Definition cursor_at_end : bool * (Z * Z) := foldl cursor_step (cursor_of s) es.

(** What one turn of the loop does. *)
Record frame_result (s' : loop_state) (l : list effect) : Prop := {
  fr_effects : effects s' = effects s ++ l;
  fr_start : calls StartApp l = (if wants_start && presented then [[AObject "start app params"]] else []);
  fr_move : calls PassMouseMove l = (if existsb is_motion es then
    [[AFloatOf (fst (snd cursor_at_end)); AFloatOf (snd (snd cursor_at_end));
      AFloatOf (foldr (fun e a => xrel_of e + a) 0 es); AFloatOf (foldr (fun e a => yrel_of e + a) 0 es)]] else []);
  fr_startup : startup_task s' = wants_start && negb presented;
  fr_presented : window_presented s' = presented;
  fr_running : is_running s' = is_running s && negb (existsb is_quit es);
  fr_cursor : cursor_of s' = cursor_at_end
}.

Lemma frame_ok : Forall ok_event es -> Z.of_nat (length es) <= 2 ^ 15 ->
  exists s' l, frame es s = (Ret tt, s') /\ frame_result s' l.
Proof.
  intros O H. unfold frame. do 3 (erewrite bind_ok by reflexivity).
  set (s0 := set_mouse_motion_task false (set_frame_del_y 0 (set_frame_del_x 0 s))).
  destruct (events_ok es 0 s0 O) as (s1 & E1 & [A1 A2 A3 A4 A5 A6 A7 (l1 & L1 & F1 & G1)]); [unfold small; cbn; lia | lia | lia |].
  destruct (resize_quiet s1) as (s2 & E2 & [B1 B2 B3 B4 _ _ B7 (l2 & L2 & F2 & G2)] & X2 & Y2).
  destruct (startup_step_ok s2) as (s3 & l3 & E3 & L3 & G3 & F3 & C1 & C2 & C3 & C4 & C7 & X3 & Y3).
  destruct (game_start_quiet s3) as (s4 & E4 & [D1 D2 D3 D4 _ _ D7 (l4 & L4 & F4 & G4)] & X4 & Y4).
  destruct (mouse_motion_step_ok s4) as (s5 & l5 & E5 & L5 & F5 & G5 & H1 & H2 & H3 & H7).
  cbn [existsb foldl negb] in B1, B2, B3, B4, B7, D1, D2, D3, D4, D7. rewrite orb_false_r in B1, B2, B4, D1, D2, D4. rewrite andb_true_r in B3, D3.
  exists s5, (l1 ++ l2 ++ l3 ++ l4 ++ l5). split; [erewrite bind_ok by exact E1; erewrite bind_ok by exact E2;
    erewrite bind_ok by exact E3; erewrite bind_ok by exact E4; exact E5|].
  assert (startup_task s2 = wants_start /\ window_presented s2 = presented) as [Q1 Q2] by (rewrite B1, B2, A1, A2; auto).
  assert (cursor_of s4 = cursor_at_end) as Q3 by (rewrite D7, C7, B7, A7; reflexivity).
  split; [rewrite L5, L4, L3, L2, L1, <- !app_assoc; reflexivity| | | | | |].
  - rewrite !calls_app, F1, F2, F3, F4, F5, Q1, Q2, !app_nil_r. reflexivity.
  - rewrite !calls_app, G1, G2, G3, G4, G5, D4, C4, B4, A4. cbn [app s0 mouse_motion_task set_mouse_motion_task orb].
    destruct (existsb is_motion es); [|reflexivity]. rewrite <- Q3. rewrite X4, X3, X2, A5, Y4, Y3, Y2, A6. reflexivity.
  - rewrite H1, D1, C1, Q1, Q2. reflexivity.
  - rewrite H2, D2, C2, Q2. reflexivity.
  - rewrite H3, D3, C3, B3, A3. reflexivity.
  - rewrite H7, Q3. reflexivity.
Qed.
End Frame.

Lemma filter_existsb {A} (f : A -> bool) l : (Nat.b2n (existsb f l) <= length (List.filter f l))%nat.
Proof. induction l as [|x l IH]; cbn; [lia|]. destruct (f x); cbn; lia. Qed.

Lemma frames_start_once l : forall s, Forall (Forall ok_event) l -> Forall (fun es => Z.of_nat (length es) <= 2 ^ 15) l ->
  is_running s = true -> existsb is_quit (concat l) = false ->
  (length (List.filter is_startup (concat l)) + Nat.b2n (startup_task s) <= 1)%nat ->
  exists s' k, frames l s = (Ret tt, s') /\ effects s' = effects s ++ k /\
    length (calls StartApp k) =
      Nat.b2n ((startup_task s || existsb is_startup (concat l)) && (window_presented s || existsb is_shown (concat l)) &&
               negb (match l with [] => true | _ => false end)).
Proof.
  induction l as [|es l IH]; intros s O H R Q N; cbn [frames concat].
  - exists s, []. rewrite app_nil_r, andb_false_r. auto.
  - apply Forall_cons in O as [Oe Ol]. apply Forall_cons in H as [He Hl]. cbn [concat] in Q, N |- *.
    rewrite existsb_app in Q. apply orb_false_iff in Q as [Qe Ql]. rewrite List.filter_app, length_app in N.
    destruct (frame_ok es s Oe He) as (s1 & k1 & E1 & [K1 F1 _ S1 P1 R1 _]).
    rewrite R, Qe in R1. destruct (IH s1 Ol Hl R1 Ql) as (s2 & k2 & E2 & K2 & F2).
    { rewrite S1. unfold wants_start, presented. pose proof (filter_existsb is_startup es).
      destruct (startup_task s), (existsb is_startup es), (window_presented s || existsb is_shown es); cbn in *; lia. }
    exists s2, (k1 ++ k2). split; [erewrite bind_ok by reflexivity; rewrite R; erewrite bind_ok by exact E1; exact E2|].
    split; [rewrite K2, K1, app_assoc; reflexivity|]. rewrite calls_app, length_app, F1, F2, S1, P1, !existsb_app.
    unfold wants_start, presented. pose proof (filter_existsb is_startup es). pose proof (filter_existsb is_startup (concat l)).
    destruct l as [|es' l']; cbn [concat existsb List.filter length] in *;
      destruct (startup_task s), (window_presented s), (existsb is_startup es), (existsb is_shown es);
      cbn in *; try destruct (existsb is_startup (es' ++ concat l')); try destruct (existsb is_shown (es' ++ concat l')); cbn in *; try lia; reflexivity.
Qed.

(** C31. One turn of the event loop, on key presses of the table and movements of
    16 bits: it returns; the application is started exactly if a start is pending
    or arrives and the window is or becomes visible, in whichever order, and
    otherwise the start stays pending; at most one mouse movement is passed on,
    with the sum of the frame's movements and the position the cursor has, which
    follows the mouse except while the right button holds it; a quit event ends
    the loop.  A key outside the table fails an assertion. *)
Theorem frame_forwards_events es s :
  Forall ok_event es -> Z.of_nat (length es) <= 2 ^ 15 ->
  (exists s' l, frame es s = (Ret tt, s') /\ frame_result es s s' l) /\
  (forall sc rep, sdl_scancode_to_linux_keycode_table_length <= sc ->
     handle_event (SDL_KEYUP sc rep) s = (Stop AssertFailed, s) /\
     exists s1, handle_event (SDL_KEYDOWN sc rep) s = (Stop AssertFailed, s1)).
Proof.
  intros O H. split; [apply frame_ok; assumption|]. intros sc rep Hsc.
  assert (forall d s, key_event d sc rep s = (Stop AssertFailed, s)) as K.
  { intros d t. unfold key_event. destruct (Z.ltb_spec sc sdl_scancode_to_linux_keycode_table_length); [lia|]. reflexivity. }
  split; [apply K|]. destruct (key_down_quiet sc s) as (s1 & E & _). exists s1.
  cbn [handle_event]. erewrite bind_ok by exact E. apply K.
Qed.

(** A frame with two movements, the second while the right button is down. *)
Lemma frame_forwards_events_witness : exists s' l,
  frame [SDL_MOUSEMOTION 10 20 3 4; SDL_MOUSEBUTTON 3 1; SDL_MOUSEMOTION 50 60 5 (-6)] initial_loop = (Ret tt, s') /\
  calls PassMouseMove l = [[AFloatOf 10; AFloatOf 20; AFloatOf 8; AFloatOf (-2)]].
Proof.
  destruct (proj1 (frame_forwards_events [SDL_MOUSEMOTION 10 20 3 4; SDL_MOUSEBUTTON 3 1; SDL_MOUSEMOTION 50 60 5 (-6)] initial_loop
    ltac:(repeat constructor; simpl; lia) ltac:(simpl; lia))) as (s' & l & E & R).
  exists s', l. split; [exact E|]. rewrite (fr_move _ _ _ _ R). reflexivity.
Defined.

(** C32. Started once: when exactly one start-up event arrives and nobody quits, the
    guest application is started exactly once, in the run's frames so far, if the
    window has been shown, before or after that event, and not at all before. *)
Theorem app_started_once l :
  Forall (Forall ok_event) l -> Forall (fun es => Z.of_nat (length es) <= 2 ^ 15) l ->
  existsb is_quit (concat l) = false -> length (List.filter is_startup (concat l)) = 1%nat ->
  exists s', frames l initial_loop = (Ret tt, s') /\
    length (calls StartApp (effects s')) = (if existsb is_shown (concat l) then 1 else 0)%nat.
Proof.
  intros O H Q N. destruct (frames_start_once l initial_loop O H eq_refl Q) as (s' & k & E & K & F); [cbn; lia|].
  exists s'. split; [exact E|]. rewrite K. cbn [initial_loop effects app] in *. rewrite F.
  assert (existsb is_startup (concat l) = true) as ->.
  { destruct (existsb is_startup (concat l)) eqn:X; [reflexivity|]. exfalso. clear -X N. induction (concat l) as [|e es IH]; [discriminate|].
    cbn in *. destruct (is_startup e); [discriminate | auto]. }
  destruct l; [discriminate N|]. cbn [orb andb negb]. rewrite andb_true_r. destruct (existsb is_shown _); reflexivity.
Qed.

Lemma app_started_once_witness : exists s',
  frames [[SDL_CUSTOM 1]; [SDL_KEYDOWN 4 0]; [SDL_WINDOWEVENT_SHOWN]; []] initial_loop = (Ret tt, s') /\
  length (calls StartApp (effects s')) = 1%nat.
Proof.
  apply (app_started_once [[SDL_CUSTOM 1]; [SDL_KEYDOWN 4 0]; [SDL_WINDOWEVENT_SHOWN]; []]);
    [repeat constructor; vm_compute; discriminate | repeat constructor; simpl; lia | reflexivity | reflexivity].
Defined.
