(* ===== verification/AppState.v ===== *)
(** src/app_state.cpp (where the program keeps its files) and the cookies of
    src/main.cpp: the handler that stores them and the code that reads them back
    when the program starts. *)
From S2P Require Import Prelude.
Local Open Scope Z_scope.
Local Open Scope string_scope.

(** ** Paths *)

(** [path / name] for a relative name. *)
Definition ends_with_slash (p : string) : bool :=
  match String.get (String.length p - 1) p with Some c => Ascii.eqb c "/"%char | None => true end.
Definition path_append (p name : string) : string := if ends_with_slash p then p +:+ name else p +:+ "/" +:+ name.
Infix "//" := path_append (at level 40, left associativity) : string_scope.

Record environment : Type := { XDG_DATA_HOME : option string; XDG_CACHE_HOME : option string; HOME : option string }.
Record app_state : Type := {
  env_ : environment;
  path_prefix : option string;
  cookies : gmap string string;
  cookie_file : string
}.
Abbreviation AM := (M app_state).
Definition set_prefix p s := {| env_ := env_ s; path_prefix := p; cookies := cookies s; cookie_file := cookie_file s |}.
Definition set_cookies c s := {| env_ := env_ s; path_prefix := path_prefix s; cookies := c; cookie_file := cookie_file s |}.
Definition set_cookie_file f s := {| env_ := env_ s; path_prefix := path_prefix s; cookies := cookies s; cookie_file := f |}.

Definition get_home : AM string :=
  let! s := get in match HOME (env_ s) with Some h => ret h | None => stop Terminate end.
Definition get_data_home : AM string :=
  let! s := get in
  match XDG_DATA_HOME (env_ s) with
  | Some d => ret (d // "sober")
  | None => let! h := get_home in ret (h // ".local" // "share" // "sober")
  end.
Definition get_cache_home : AM string :=
  let! s := get in
  match XDG_CACHE_HOME (env_ s) with
  | Some d => ret (d // "sober")
  | None => let! h := get_home in ret (h // ".cache" // "sober")
  end.
Definition set_path_prefix (prefix : string) : AM unit := modify (set_prefix (Some prefix)).
(** With a prefix everything is under it. *)
Definition prefixed (name : string) (otherwise : AM string) : AM string :=
  let! s := get in match path_prefix s with Some p => ret (p // name) | None => otherwise end.
Definition get_cookies_path : AM string := prefixed "cookies" (let! d := get_data_home in ret (d // "cookies")).
Definition get_assets_dir : AM string := prefixed "assets/" (let! d := get_data_home in ret (d // "assets/")).
Definition get_files_dir : AM string := prefixed "files/" get_data_home.
Definition get_cache_dir : AM string := prefixed "cache/" get_cache_home.
Definition get_core_lib_path : AM string := prefixed "libroblox.so" (let! d := get_data_home in ret (d // "libroblox.so")).
Definition get_clientsettings_url : string :=
  "https://clientsettingscdn.roblox.com/v2/settings/application/GoogleAndroidApp".

(** ** Cookies *)

(** The text before and after the first [c], if there is one. *)
Fixpoint split_first (c : ascii) (s : string) : option (string * string) :=
  match s with
  | EmptyString => None
  | String d s' =>
      if Ascii.eqb d c then Some (EmptyString, s')
      else match split_first c s' with Some (a, b) => Some (String d a, b) | None => None end
  end.
(** [s.substr(0, s.find(c))]. *)
Definition before (c : ascii) (s : string) : string := match split_first c s with Some (a, _) => a | None => s end.
(** Key and value of a cookie; without an equals sign [find] returns [npos], so
    that both are the whole text ([npos + 1] is 0). *)
Definition key_value (cookie : string) : string * string :=
  match split_first "="%char cookie with Some (k, v) => (k, v) | None => (cookie, cookie) end.

(** [onSetCookie]: the headers' cookies are stored, then the file is written.
    [order] is the order in which the unordered map is traversed. *)
Definition store_header (header : string) : AM unit :=
  let kv := key_value (before ";"%char header) in
  modify (fun s => set_cookies (<[fst kv := snd kv]> (cookies s)) s).
Fixpoint cookie_text (l : list (string * string)) : string :=
  match l with
  | [] => ""
  | [(k, v)] => k +:+ "=" +:+ v
  | (k, v) :: l' => k +:+ "=" +:+ v +:+ "; " +:+ cookie_text l'
  end.
(** The loop dereferences [cookies.begin()] without looking whether there is one. *)
Definition write_cookies (order : gmap string string -> list (string * string)) : AM unit :=
  let! c := gets cookies in
  match order c with
  | [] => stop Undefined
  | l => modify (set_cookie_file (cookie_text l))
  end.
Definition onSetCookie (order : gmap string string -> list (string * string)) (headers : list string) : AM unit :=
  for_each headers store_header ;; write_cookies order.

(** [std::getline(buffer, cookie, ';')] until it fails; [n] bounds the lines. *)
Fixpoint getlines (n : nat) (s : string) : list string :=
  match n with
  | O => []
  | S n' =>
      match s with
      | EmptyString => []
      | _ => match split_first ";"%char s with Some (a, b) => a :: getlines n' b | None => [s] end
      end
  end.
Definition load_cookies : AM unit :=
  let! f := gets cookie_file in
  for_each (getlines (S (String.length f)) f) (fun cookie =>
    let kv := key_value cookie in
    modify (fun s => set_cookies (<[fst kv := snd kv]> (cookies s)) s)).

(** ** Reading the file back *)
Lemma str_app_assoc a b c : (a +:+ b) +:+ c = a +:+ (b +:+ c).
Proof.
  induction a as [|x a IH]; [reflexivity|]. change ((String x a +:+ b) +:+ c) with (String x ((a +:+ b) +:+ c)). rewrite IH. reflexivity.
Qed.

Lemma split_first_at c a b : split_first c a = None -> split_first c (a +:+ String c b) = Some (a, b).
Proof.
  induction a as [|d a IH].
  { intros _. change (EmptyString +:+ String c b) with (String c b). cbn [split_first]. rewrite Ascii.eqb_refl. reflexivity. }
  cbn [split_first].
  change ((String d a +:+ String c b)) with (String d (a +:+ String c b)). cbn [split_first].
  destruct (Ascii.eqb d c); [discriminate|]. destruct (split_first c a) as [[]|] eqn:E; [discriminate|].
  intros _. rewrite IH by reflexivity. reflexivity.
Qed.
Lemma split_first_none c a b : split_first c a = None -> split_first c b = None -> split_first c (a +:+ b) = None.
Proof.
  intros Ha Hb. revert Ha. induction a as [|d a IH]; [intros _; exact Hb|].
  change (String d a +:+ b) with (String d (a +:+ b)). cbn [split_first].
  destruct (Ascii.eqb d c); [discriminate|]. destruct (split_first c a) as [[]|] eqn:E; [discriminate|].
  intros _. rewrite IH by reflexivity. reflexivity.
Qed.

(** Keys and values without separators; keys do not begin with a space. *)
Definition clean (kv : string * string) : Prop :=
  split_first ";"%char (fst kv) = None /\ split_first ";"%char (snd kv) = None /\ split_first "="%char (fst kv) = None /\
  String.get 0 (fst kv) <> Some " "%char.
Definition entry (kv : string * string) : string := fst kv +:+ "=" +:+ snd kv.

Lemma entry_clean kv : clean kv -> split_first ";"%char (entry kv) = None.
Proof. intros (H1 & H2 & _). unfold entry. repeat apply split_first_none; auto. Qed.

Lemma cookie_text_cons kv kv' l : cookie_text (kv :: kv' :: l) = entry kv +:+ String ";"%char (" " +:+ cookie_text (kv' :: l)).
Proof. destruct kv as [k v]. unfold entry. cbn [cookie_text fst snd]. rewrite !str_app_assoc. reflexivity. Qed.
Lemma cookie_text_one kv : cookie_text [kv] = entry kv.
Proof. destruct kv. reflexivity. Qed.

Lemma getlines_split n a b : split_first ";"%char a = None -> getlines (S n) (a +:+ String ";"%char b) = a :: getlines n b.
Proof.
  intros H. cbn [getlines]. destruct (a +:+ String ";"%char b) eqn:E; [destruct a; discriminate E|]. rewrite <- E.
  rewrite split_first_at by exact H. reflexivity.
Qed.
Lemma getlines_last n a : a <> EmptyString -> split_first ";"%char a = None -> getlines (S n) a = [a].
Proof. intros Hn H. cbn [getlines]. destruct a; [congruence|]. rewrite H. reflexivity. Qed.

Lemma entry_nonempty p kv : p +:+ entry kv <> EmptyString.
Proof. destruct kv as [k v]. unfold entry. cbn [fst snd]. destruct p, k; discriminate. Qed.

Lemma getlines_text l : forall n p kv, Forall clean (kv :: l) -> split_first ";"%char p = None -> (length l < n)%nat ->
  getlines n (p +:+ cookie_text (kv :: l)) = (p +:+ entry kv) :: map (fun kv => " " +:+ entry kv) l.
Proof.
  induction l as [|kv' l IH]; intros n p kv C P Hn; (destruct n as [|n]; [lia|]); cbn [length] in Hn; apply Forall_cons in C as [Ck Cl].
  - rewrite cookie_text_one. apply getlines_last; [apply entry_nonempty | apply split_first_none; [exact P | apply entry_clean, Ck]].
  - rewrite cookie_text_cons, <- str_app_assoc, getlines_split by (apply split_first_none; [exact P | apply entry_clean, Ck]).
    cbn [map]. f_equal. apply IH; [exact Cl | reflexivity | lia].
Qed.

Lemma length_append a b : String.length (a +:+ b) = (String.length a + String.length b)%nat.
Proof. induction a as [|c a IH]; [reflexivity|]. change (String c a +:+ b) with (String c (a +:+ b)). cbn. f_equal. exact IH. Qed.
Lemma cookie_text_length l : (length l <= String.length (cookie_text l))%nat.
Proof.
  induction l as [|kv [|kv' l] IH]; [cbn; lia| |].
  - rewrite cookie_text_one. destruct kv as [k v]. unfold entry. rewrite !length_append. cbn. lia.
  - rewrite cookie_text_cons, length_append. cbn [String.length length] in *. rewrite length_append. cbn [String.length]. lia.
Qed.

Lemma key_value_entry p kv : split_first "="%char p = None -> clean kv -> key_value (p +:+ entry kv) = (p +:+ fst kv, snd kv).
Proof.
  intros P (_ & _ & H & _). unfold key_value, entry. rewrite <- str_app_assoc.
  change ("=" +:+ snd kv) with (String "="%char (snd kv)).
  rewrite split_first_at by (apply split_first_none; assumption). reflexivity.
Qed.

(** Inserting a list of cookies in order. *)
Definition insert_all (l : list (string * string)) (m : gmap string string) : gmap string string :=
  foldl (fun m kv => <[fst kv := snd kv]> m) m l.

Lemma for_each_insert (f : string -> string * string) l : forall s,
  for_each l (fun c => modify (fun s => set_cookies (<[fst (f c) := snd (f c)]> (cookies s)) s)) s =
  (Ret tt, set_cookies (insert_all (map f l) (cookies s)) s).
Proof.
  induction l as [|c l IH]; intros s; cbn [for_each map]; [destruct s; reflexivity|].
  erewrite bind_ok by reflexivity. rewrite IH. reflexivity.
Qed.

Lemma insert_all_lookup l : forall m k, k ∉ map fst l -> insert_all l m !! k = m !! k.
Proof.
  induction l as [|kv l IH]; intros m k H; cbn [insert_all foldl map] in *; [reflexivity|]. fold (insert_all l (<[fst kv := snd kv]> m)).
  rewrite IH by set_solver. apply lookup_insert_ne. set_solver.
Qed.
Lemma insert_all_found l : forall m k v, NoDup (map fst l) -> (k, v) ∈ l -> insert_all l m !! k = Some v.
Proof.
  induction l as [|kv l IH]; intros m k v N H; [set_solver|]. cbn [map] in N. apply NoDup_cons in N as [N1 N2].
  cbn [insert_all foldl]. fold (insert_all l (<[fst kv := snd kv]> m)). apply elem_of_cons in H as [<-|H].
  - rewrite insert_all_lookup by exact N1. apply lookup_insert_eq.
  - apply IH; assumption.
Qed.

(** The program started anew: no cookies in memory, the file as it was left. *)
Definition restarted (s : app_state) : app_state := set_cookies ∅ s.
Definition spaced (kv : string * string) : string * string := (" " +:+ fst kv, snd kv).

Lemma load_written kv l s : Forall clean (kv :: l) -> cookie_file s = cookie_text (kv :: l) ->
  load_cookies s = (Ret tt, set_cookies (insert_all (kv :: map spaced l) (cookies s)) s).
Proof.
  intros C F. unfold load_cookies. erewrite bind_ok by reflexivity. rewrite for_each_insert, F. do 3 f_equal.
  rewrite (getlines_text l _ EmptyString kv C eq_refl) by (pose proof (cookie_text_length (kv :: l)); cbn [length] in *; lia).
  cbn [map]. apply Forall_cons in C as [Ck Cl]. f_equal.
  - rewrite (key_value_entry EmptyString kv eq_refl Ck). destruct kv; reflexivity.
  - rewrite List.map_map. apply map_ext_in. intros x Hx. apply key_value_entry; [reflexivity|].
    rewrite Forall_forall in Cl. apply Cl, list_elem_of_In, Hx.
Qed.

Lemma clean_not_spaced kv l : clean kv -> fst kv ∉ map fst (map spaced l).
Proof.
  intros (_ & _ & _ & H) E. apply list_elem_of_In, in_map_iff in E as (x & E & X). apply in_map_iff in X as (y & <- & _).
  cbn [spaced fst] in E. rewrite <- E in H. apply H. reflexivity.
Qed.
Lemma spaced_NoDup l : NoDup (map fst l) -> NoDup (map fst (map spaced l)).
Proof.
  rewrite List.map_map. induction l as [|x l IH]; cbn [map]; [intros _; constructor|]. intros [H1 H2]%NoDup_cons.
  constructor; [|apply IH, H2]. intros E. apply list_elem_of_In, in_map_iff in E as (y & E & Y). apply H1.
  cbn [spaced fst] in E. injection E as E. change (fst y = fst x) in E. rewrite <- E. apply list_elem_of_In, in_map, Y.
Qed.


Definition demo_app : app_state :=
  {| env_ := {| XDG_DATA_HOME := None; XDG_CACHE_HOME := None; HOME := Some "/home/u" |}; path_prefix := None;
     cookies := {[ "session" := "abc"; "locale" := "en" ]}; cookie_file := "" |}.

