(* ===== verification/RpState.v ===== *)
(** rpmalloc: the allocator compiled into the program
    ([src/vendor/rpmalloc/rpmalloc/rpmalloc.c], which replaces [malloc], [free]
    and [operator new] of the process).  This file holds its data: page, span and
    heap headers, the globals, and the memory they live in.

    Headers are kept in maps from their address to a record; the contents of
    blocks, and the links of the free lists in them, are bytes.  Memory the
    operating system has just mapped reads as zero, so a byte or a header that
    has no entry is zero; an access outside the mappings is undefined. *)
From S2P Require Import Prelude Memory.
Local Open Scope Z_scope.

(** ** Build time limits (Linux, x86-64, the default configuration) *)
Definition PAGE_HEADER_SIZE : Z := 128.
Definition SPAN_HEADER_SIZE : Z := PAGE_HEADER_SIZE.
Definition SMALL_GRANULARITY : Z := 16.
Definition SMALL_BLOCK_SIZE_LIMIT : Z := 4 * 1024.
Definition MEDIUM_BLOCK_SIZE_LIMIT : Z := 256 * 1024.
Definition LARGE_BLOCK_SIZE_LIMIT : Z := 8 * 1024 * 1024.
Definition SMALL_SIZE_CLASS_COUNT : Z := 73.
Definition MEDIUM_SIZE_CLASS_COUNT : Z := 24.
Definition LARGE_SIZE_CLASS_COUNT : Z := 20.
Definition SIZE_CLASS_COUNT : Z :=
  SMALL_SIZE_CLASS_COUNT + MEDIUM_SIZE_CLASS_COUNT + LARGE_SIZE_CLASS_COUNT.
Definition SMALL_PAGE_SIZE_SHIFT : Z := 16.
Definition SMALL_PAGE_SIZE : Z := Z.shiftl 1 SMALL_PAGE_SIZE_SHIFT.
Definition SMALL_PAGE_MASK : Z := not_ 64 (SMALL_PAGE_SIZE - 1).
Definition MEDIUM_PAGE_SIZE_SHIFT : Z := 22.
Definition MEDIUM_PAGE_SIZE : Z := Z.shiftl 1 MEDIUM_PAGE_SIZE_SHIFT.
Definition MEDIUM_PAGE_MASK : Z := not_ 64 (MEDIUM_PAGE_SIZE - 1).
Definition LARGE_PAGE_SIZE_SHIFT : Z := 26.
Definition LARGE_PAGE_SIZE : Z := Z.shiftl 1 LARGE_PAGE_SIZE_SHIFT.
Definition LARGE_PAGE_MASK : Z := not_ 64 (LARGE_PAGE_SIZE - 1).
Definition SPAN_SIZE : Z := 256 * 1024 * 1024.
Definition SPAN_MASK : Z := not_ 64 (SPAN_SIZE - 1).
Definition PAGE_FREE_OVERFLOW : Z := 16.
Definition PAGE_FREE_DECOMMIT : Z := 8.
Definition RPMALLOC_MAX_ALIGNMENT : Z := 256 * 1024.
Definition RPMALLOC_NO_PRESERVE : Z := 1.
Definition RPMALLOC_GROW_OR_FAIL : Z := 2.
Definition EINVAL_ : Z := 22.
Definition ENOMEM_ : Z := 12.

Inductive page_type_t : Type := PAGE_SMALL | PAGE_MEDIUM | PAGE_LARGE | PAGE_HUGE.
#[global] Instance page_type_eq_dec : EqDecision page_type_t.
Proof. solve_decision. Defined.

(** The enumerator's value, where it is an array index. *)
Definition pt_index (t : page_type_t) : Z :=
  match t with PAGE_SMALL => 0 | PAGE_MEDIUM => 1 | PAGE_LARGE => 2 | PAGE_HUGE => 3 end.

(** The record [eta r], which rebuilds [r] from its fields, with field [f] replaced by [v]. *)
Ltac field_update eta f v r :=
  let t := eval cbv beta delta [eta] in (eta r) in
  let t' := eval pattern (f r) in t in
  lazymatch t' with ?g _ => let u := eval cbv beta in (g v) in exact u end.

(** [page_t]: a page header. [page_heap], [page_next] and [page_prev] are the fields
    [heap], [next] and [prev]. *)
Record page_t : Type := {
  size_class : Z;
  block_size : Z;
  block_count : Z;
  block_initialized : Z;
  block_used : Z;
  page_type : page_type_t;
  is_full : bool;
  is_free : bool;
  is_zero : bool;
  is_decommitted : bool;
  has_aligned_block : bool;
  generic_free : bool;
  local_free_count : Z;
  local_free : Z;
  page_heap : Z;
  page_next : Z;
  page_prev : Z;
  thread_free : Z
}.

Definition page_t_fields (r : page_t) : page_t :=
  Build_page_t (size_class r) (block_size r) (block_count r) (block_initialized r) (block_used r)
    (page_type r) (is_full r) (is_free r) (is_zero r) (is_decommitted r) (has_aligned_block r)
    (generic_free r) (local_free_count r) (local_free r) (page_heap r) (page_next r)
    (page_prev r) (thread_free r).
Definition set_size_class (v : Z) (r : page_t) : page_t := ltac:(field_update page_t_fields size_class v r).
Definition set_block_size (v : Z) (r : page_t) : page_t := ltac:(field_update page_t_fields block_size v r).
Definition set_block_count (v : Z) (r : page_t) : page_t := ltac:(field_update page_t_fields block_count v r).
Definition set_block_initialized (v : Z) (r : page_t) : page_t := ltac:(field_update page_t_fields block_initialized v r).
Definition set_block_used (v : Z) (r : page_t) : page_t := ltac:(field_update page_t_fields block_used v r).
Definition set_page_type (v : page_type_t) (r : page_t) : page_t := ltac:(field_update page_t_fields page_type v r).
Definition set_is_full (v : bool) (r : page_t) : page_t := ltac:(field_update page_t_fields is_full v r).
Definition set_is_free (v : bool) (r : page_t) : page_t := ltac:(field_update page_t_fields is_free v r).
Definition set_is_zero (v : bool) (r : page_t) : page_t := ltac:(field_update page_t_fields is_zero v r).
Definition set_is_decommitted (v : bool) (r : page_t) : page_t := ltac:(field_update page_t_fields is_decommitted v r).
Definition set_has_aligned_block (v : bool) (r : page_t) : page_t := ltac:(field_update page_t_fields has_aligned_block v r).
Definition set_generic_free (v : bool) (r : page_t) : page_t := ltac:(field_update page_t_fields generic_free v r).
Definition set_local_free_count (v : Z) (r : page_t) : page_t := ltac:(field_update page_t_fields local_free_count v r).
Definition set_local_free (v : Z) (r : page_t) : page_t := ltac:(field_update page_t_fields local_free v r).
Definition set_page_heap (v : Z) (r : page_t) : page_t := ltac:(field_update page_t_fields page_heap v r).
Definition set_page_next (v : Z) (r : page_t) : page_t := ltac:(field_update page_t_fields page_next v r).
Definition set_page_prev (v : Z) (r : page_t) : page_t := ltac:(field_update page_t_fields page_prev v r).
Definition set_thread_free (v : Z) (r : page_t) : page_t := ltac:(field_update page_t_fields thread_free v r).

(** [span_t]: a span header, without its leading page header, which is the
    [page_t] at the same address. *)
Record span_t : Type := {
  span_heap : Z;
  page_address_mask : Z;
  page_initialized : Z;
  page_count : Z;
  page_size : Z;
  span_page_type : page_type_t;
  span_offset : Z;
  span_mapped_size : Z;
  span_next : Z
}.

Definition span_t_fields (r : span_t) : span_t :=
  Build_span_t (span_heap r) (page_address_mask r) (page_initialized r) (page_count r)
    (page_size r) (span_page_type r) (span_offset r) (span_mapped_size r) (span_next r).
Definition set_span_heap (v : Z) (r : span_t) : span_t := ltac:(field_update span_t_fields span_heap v r).
Definition set_page_address_mask (v : Z) (r : span_t) : span_t := ltac:(field_update span_t_fields page_address_mask v r).
Definition set_page_initialized (v : Z) (r : span_t) : span_t := ltac:(field_update span_t_fields page_initialized v r).
Definition set_page_count (v : Z) (r : span_t) : span_t := ltac:(field_update span_t_fields page_count v r).
Definition set_page_size (v : Z) (r : span_t) : span_t := ltac:(field_update span_t_fields page_size v r).
Definition set_span_page_type (v : page_type_t) (r : span_t) : span_t := ltac:(field_update span_t_fields span_page_type v r).
Definition set_span_offset (v : Z) (r : span_t) : span_t := ltac:(field_update span_t_fields span_offset v r).
Definition set_span_mapped_size (v : Z) (r : span_t) : span_t := ltac:(field_update span_t_fields span_mapped_size v r).
Definition set_span_next (v : Z) (r : span_t) : span_t := ltac:(field_update span_t_fields span_next v r).

(** [heap_t]: the per-thread heap. *)
Record heap_t : Type := {
  owner_thread : Z;
  heap_local_free : list Z;
  page_available : list Z;
  page_free : list Z;
  page_free_commit_count : list Z;
  page_free_thread : list Z;
  span_partial : list Z;
  span_used : list Z;
  heap_next : Z;
  heap_prev : Z;
  heap_id : Z;
  finalize : Z;
  heap_offset : Z;
  heap_mapped_size : Z
}.

Definition heap_t_fields (r : heap_t) : heap_t :=
  Build_heap_t (owner_thread r) (heap_local_free r) (page_available r) (page_free r)
    (page_free_commit_count r) (page_free_thread r) (span_partial r) (span_used r) (heap_next r)
    (heap_prev r) (heap_id r) (finalize r) (heap_offset r) (heap_mapped_size r).
Definition set_owner_thread (v : Z) (r : heap_t) : heap_t := ltac:(field_update heap_t_fields owner_thread v r).
Definition set_heap_local_free (v : list Z) (r : heap_t) : heap_t := ltac:(field_update heap_t_fields heap_local_free v r).
Definition set_page_available (v : list Z) (r : heap_t) : heap_t := ltac:(field_update heap_t_fields page_available v r).
Definition set_page_free (v : list Z) (r : heap_t) : heap_t := ltac:(field_update heap_t_fields page_free v r).
Definition set_page_free_commit_count (v : list Z) (r : heap_t) : heap_t := ltac:(field_update heap_t_fields page_free_commit_count v r).
Definition set_page_free_thread (v : list Z) (r : heap_t) : heap_t := ltac:(field_update heap_t_fields page_free_thread v r).
Definition set_span_partial (v : list Z) (r : heap_t) : heap_t := ltac:(field_update heap_t_fields span_partial v r).
Definition set_span_used (v : list Z) (r : heap_t) : heap_t := ltac:(field_update heap_t_fields span_used v r).
Definition set_heap_next (v : Z) (r : heap_t) : heap_t := ltac:(field_update heap_t_fields heap_next v r).
Definition set_heap_prev (v : Z) (r : heap_t) : heap_t := ltac:(field_update heap_t_fields heap_prev v r).
Definition set_heap_id (v : Z) (r : heap_t) : heap_t := ltac:(field_update heap_t_fields heap_id v r).
Definition set_finalize (v : Z) (r : heap_t) : heap_t := ltac:(field_update heap_t_fields finalize v r).
Definition set_heap_offset (v : Z) (r : heap_t) : heap_t := ltac:(field_update heap_t_fields heap_offset v r).
Definition set_heap_mapped_size (v : Z) (r : heap_t) : heap_t := ltac:(field_update heap_t_fields heap_mapped_size v r).

(** [rpmalloc_config_t], without the names given to mappings. *)
Record rpmalloc_config_t : Type := {
  cfg_page_size : Z;
  enable_huge_pages : bool;
  disable_decommit : bool;
  unmap_on_finalize : bool
}.

Definition rpmalloc_config_t_fields (r : rpmalloc_config_t) : rpmalloc_config_t :=
  Build_rpmalloc_config_t (cfg_page_size r) (enable_huge_pages r) (disable_decommit r)
    (unmap_on_finalize r).
Definition set_cfg_page_size (v : Z) (r : rpmalloc_config_t) : rpmalloc_config_t := ltac:(field_update rpmalloc_config_t_fields cfg_page_size v r).
Definition set_enable_huge_pages (v : bool) (r : rpmalloc_config_t) : rpmalloc_config_t := ltac:(field_update rpmalloc_config_t_fields enable_huge_pages v r).
Definition set_disable_decommit (v : bool) (r : rpmalloc_config_t) : rpmalloc_config_t := ltac:(field_update rpmalloc_config_t_fields disable_decommit v r).
Definition set_unmap_on_finalize (v : bool) (r : rpmalloc_config_t) : rpmalloc_config_t := ltac:(field_update rpmalloc_config_t_fields unmap_on_finalize v r).

(** ** The state of the process, as far as the allocator sees it

    [data] holds the bytes, [mappings] the regions the operating system has
    mapped (address, size).  [global_memory_interface] says whether the pointer
    to the (default) memory interface is set.  Thread-local and thread-specific
    data are maps from thread ids; [this_thread] is the thread that runs. *)
Record rp_state : Type := {
  data : gmap Z Z;
  mappings : list (Z * Z);
  pages : gmap Z page_t;
  spans : gmap Z span_t;
  heaps : gmap Z heap_t;
  global_heap_queue : Z;
  global_heap_used : Z;
  global_heap_lock : Z;
  global_heap_id : Z;
  global_rpmalloc_initialized : bool;
  global_memory_interface : bool;
  global_config : rpmalloc_config_t;
  global_main_thread_id : Z;
  os_huge_pages : bool;
  os_map_granularity : Z;
  os_page_size : Z;
  global_thread_heap : gmap Z Z;
  pthread_key : bool;
  thread_specific : gmap Z Z;
  this_thread : Z;
  errno : Z
}.

Definition rp_state_fields (r : rp_state) : rp_state :=
  Build_rp_state (data r) (mappings r) (pages r) (spans r) (heaps r) (global_heap_queue r)
    (global_heap_used r) (global_heap_lock r) (global_heap_id r) (global_rpmalloc_initialized r)
    (global_memory_interface r) (global_config r) (global_main_thread_id r) (os_huge_pages r)
    (os_map_granularity r) (os_page_size r) (global_thread_heap r) (pthread_key r)
    (thread_specific r) (this_thread r) (errno r).
Definition set_data (v : gmap Z Z) (r : rp_state) : rp_state := ltac:(field_update rp_state_fields data v r).
Definition set_mappings (v : list (Z * Z)) (r : rp_state) : rp_state := ltac:(field_update rp_state_fields mappings v r).
Definition set_pages (v : gmap Z page_t) (r : rp_state) : rp_state := ltac:(field_update rp_state_fields pages v r).
Definition set_spans (v : gmap Z span_t) (r : rp_state) : rp_state := ltac:(field_update rp_state_fields spans v r).
Definition set_heaps (v : gmap Z heap_t) (r : rp_state) : rp_state := ltac:(field_update rp_state_fields heaps v r).
Definition set_global_heap_queue (v : Z) (r : rp_state) : rp_state := ltac:(field_update rp_state_fields global_heap_queue v r).
Definition set_global_heap_used (v : Z) (r : rp_state) : rp_state := ltac:(field_update rp_state_fields global_heap_used v r).
Definition set_global_heap_lock (v : Z) (r : rp_state) : rp_state := ltac:(field_update rp_state_fields global_heap_lock v r).
Definition set_global_heap_id (v : Z) (r : rp_state) : rp_state := ltac:(field_update rp_state_fields global_heap_id v r).
Definition set_global_rpmalloc_initialized (v : bool) (r : rp_state) : rp_state := ltac:(field_update rp_state_fields global_rpmalloc_initialized v r).
Definition set_global_memory_interface (v : bool) (r : rp_state) : rp_state := ltac:(field_update rp_state_fields global_memory_interface v r).
Definition set_global_config (v : rpmalloc_config_t) (r : rp_state) : rp_state := ltac:(field_update rp_state_fields global_config v r).
Definition set_global_main_thread_id (v : Z) (r : rp_state) : rp_state := ltac:(field_update rp_state_fields global_main_thread_id v r).
Definition set_os_huge_pages (v : bool) (r : rp_state) : rp_state := ltac:(field_update rp_state_fields os_huge_pages v r).
Definition set_os_map_granularity (v : Z) (r : rp_state) : rp_state := ltac:(field_update rp_state_fields os_map_granularity v r).
Definition set_os_page_size (v : Z) (r : rp_state) : rp_state := ltac:(field_update rp_state_fields os_page_size v r).
Definition set_global_thread_heap (v : gmap Z Z) (r : rp_state) : rp_state := ltac:(field_update rp_state_fields global_thread_heap v r).
Definition set_pthread_key (v : bool) (r : rp_state) : rp_state := ltac:(field_update rp_state_fields pthread_key v r).
Definition set_thread_specific (v : gmap Z Z) (r : rp_state) : rp_state := ltac:(field_update rp_state_fields thread_specific v r).
Definition set_this_thread (v : Z) (r : rp_state) : rp_state := ltac:(field_update rp_state_fields this_thread v r).
Definition set_errno (v : Z) (r : rp_state) : rp_state := ltac:(field_update rp_state_fields errno v r).

Abbreviation RM := (M rp_state).

(** Zeroed headers. *)
Definition zero_page : page_t :=
  {| size_class := 0; block_size := 0; block_count := 0; block_initialized := 0; block_used := 0;
     page_type := PAGE_SMALL; is_full := false; is_free := false; is_zero := false;
     is_decommitted := false; has_aligned_block := false; generic_free := false;
     local_free_count := 0; local_free := 0; page_heap := 0; page_next := 0; page_prev := 0;
     thread_free := 0 |}.
Definition zero_span : span_t :=
  {| span_heap := 0; page_address_mask := 0; page_initialized := 0; page_count := 0; page_size := 0;
     span_page_type := PAGE_SMALL; span_offset := 0; span_mapped_size := 0; span_next := 0 |}.
Definition zero_heap : heap_t :=
  {| owner_thread := 0; heap_local_free := replicate (Z.to_nat SIZE_CLASS_COUNT) 0;
     page_available := replicate (Z.to_nat SIZE_CLASS_COUNT) 0; page_free := replicate 3 0;
     page_free_commit_count := replicate 3 0; page_free_thread := replicate 3 0;
     span_partial := replicate 3 0; span_used := replicate 4 0; heap_next := 0; heap_prev := 0;
     heap_id := 0; finalize := 0; heap_offset := 0; heap_mapped_size := 0 |}.

(** [sizeof(heap_t)]: the arrays, and 4 bytes of padding after each of the two
    groups of three 32-bit members. *)
Definition sizeof_heap_t : Z :=
  8 + 8 * SIZE_CLASS_COUNT + 8 * SIZE_CLASS_COUNT + 8 * 3 + (4 * 3 + 4) + 8 * 3 + 8 * 3 + 8 * 4 +
  8 + 8 + (4 + 4 + 4 + 4) + 8.

(** ** The platform

    What the code asks the operating system and the linker for: the address
    [mmap] gives to a mapping of a size (with or without [MAP_HUGETLB], [None]
    being [MAP_FAILED]), the page size of [sysconf], the [Hugepagesize] entry of
    [/proc/meminfo] in kilobytes (0 without one), and the address of the
    static object [global_heap_fallback]. *)
Class Platform : Type := {
  mmap_address : bool -> list (Z * Z) -> Z -> option Z;
  sc_pagesize : Z;
  meminfo_hugepagesize : Z;
  global_heap_fallback : Z
}.

Definition in_region (a n k : Z) : bool := (a <=? k) && (k <? a + n).
Definition disjoint_regions (r q : Z * Z) : Prop :=
  fst r + snd r <= fst q \/ fst q + snd q <= fst r.

(** What is documented of them: a new mapping is page aligned, not at address
    zero, in the user half of the address space and apart from the others and
    from the static data; page sizes are powers of two. *)
Class PlatformLaws (P : Platform) : Prop := {
  mmap_ok : forall huge ms n a, mmap_address huge ms n = Some a -> 0 < n ->
    0 < a /\ a mod sc_pagesize = 0 /\ a + n <= 2 ^ 47 /\
    Forall (disjoint_regions (a, n)) ms /\ in_region a n global_heap_fallback = false;
  pagesize_ok : exists k, 12 <= k <= 16 /\ sc_pagesize = 2 ^ k;
  fallback_ok : 0 < global_heap_fallback < 2 ^ 47
}.

Section Memory_access.
Context {P : Platform}.

(** The bytes of a mapped region. *)
Definition is_mapped (s : rp_state) (a n : Z) : bool :=
  existsb (fun r => (fst r <=? a) && (a + n <=? fst r + snd r)) (mappings s).
Definition check_mapped (a n : Z) : RM unit :=
  fun s => if is_mapped s a n then (Ret tt, s) else (Stop Undefined, s).

Definition peek (m : gmap Z Z) (a : Z) : Z := default 0 (m !! a).
Definition peek_bytes (m : gmap Z Z) (a : Z) (n : nat) : list Z :=
  map (fun i => peek m (a + Z.of_nat i)) (seq 0 n).
Definition poke_bytes (m : gmap Z Z) (a : Z) (l : list Z) : gmap Z Z :=
  foldr (fun ib acc => <[a + Z.of_nat (fst ib) := snd ib]> acc) m (zip (seq 0 (length l)) l).

(** [block->next] and [block->next = v]. *)
Definition block_next (block : Z) : RM Z :=
  check_mapped block 8 ;; gets (fun s => le_combine (peek_bytes (data s) block 8)).
Definition set_block_next (block v : Z) : RM unit :=
  check_mapped block 8 ;;
  modify (fun s => set_data (poke_bytes (data s) block (le_split 8 v)) s).

(** The entries of a map whose address is outside a region. *)
Definition outside {A} (a n : Z) (m : gmap Z A) : gmap Z A :=
  filter (fun kx => in_region a n (fst kx) = false) m.
Definition inside {A} (a n : Z) (m : gmap Z A) : gmap Z A :=
  filter (fun kx => in_region a n (fst kx) = true) m.

(** [memset(p, 0, n)] on block memory. *)
Definition memset0 (p n : Z) : RM unit :=
  check_mapped p n ;; modify (fun s => set_data (outside p n (data s)) s).

(** [memcpy] and [memmove] between block memory. *)
Definition move_bytes (dst src n : Z) (m : gmap Z Z) : gmap Z Z :=
  kmap (fun k => k - src + dst) (inside src n m) ∪ outside dst n m.
Definition memmove (dst src n : Z) : RM unit :=
  check_mapped src n ;; check_mapped dst n ;;
  modify (fun s => set_data (move_bytes dst src n (data s)) s).

(** The contents of a region are replaced by zero pages. *)
Definition zero_region (a n : Z) (s : rp_state) : rp_state :=
  set_data (outside a n (data s)) (set_pages (outside a n (pages s))
    (set_spans (outside a n (spans s)) (set_heaps (outside a n (heaps s)) s))).

(** Headers in memory.  A heap is in a mapping of its own, or is the static
    [global_heap_fallback]. *)
Definition page_at (a : Z) : RM page_t :=
  check_mapped a PAGE_HEADER_SIZE ;; gets (fun s => default zero_page (pages s !! a)).
Definition upd_page (a : Z) (f : page_t -> page_t) : RM unit :=
  let! p := page_at a in modify (fun s => set_pages (<[a := f p]> (pages s)) s).
Definition span_at (a : Z) : RM span_t :=
  check_mapped a SPAN_HEADER_SIZE ;; gets (fun s => default zero_span (spans s !! a)).
Definition upd_span (a : Z) (f : span_t -> span_t) : RM unit :=
  let! p := span_at a in modify (fun s => set_spans (<[a := f p]> (spans s)) s).
Definition heap_at (a : Z) : RM heap_t :=
  (if a =? global_heap_fallback then ret tt else check_mapped a sizeof_heap_t) ;;
  gets (fun s => default zero_heap (heaps s !! a)).
Definition upd_heap (a : Z) (f : heap_t -> heap_t) : RM unit :=
  let! p := heap_at a in modify (fun s => set_heaps (<[a := f p]> (heaps s)) s).

(** Unsigned division, undefined for a zero divisor. *)
Definition udiv (a b : Z) : RM Z := if b =? 0 then stop Undefined else ret (a / b).
Definition umod (a b : Z) : RM Z := if b =? 0 then stop Undefined else ret (a mod b).

(** Array elements of a heap: out of range is undefined. *)
Definition heap_elem (a : Z) (f : heap_t -> list Z) (i : Z) : RM Z :=
  let! h := heap_at a in deref (nthZ (f h) i).
Definition set_heap_elem (a : Z) (f : heap_t -> list Z) (g : list Z -> heap_t -> heap_t)
    (i v : Z) : RM unit :=
  let! h := heap_at a in
  let! _ := deref (nthZ (f h) i) in
  upd_heap a (g (updZ (f h) i v)).
End Memory_access.

(** The state the process starts in: the static data and nothing mapped. *)
Definition initial_state (tid : Z) : rp_state :=
  {| data := ∅; mappings := []; pages := ∅; spans := ∅; heaps := ∅;
     global_heap_queue := 0; global_heap_used := 0; global_heap_lock := 0; global_heap_id := 1;
     global_rpmalloc_initialized := false; global_memory_interface := false;
     global_config := {| cfg_page_size := 0; enable_huge_pages := false; disable_decommit := false;
                         unmap_on_finalize := false |};
     global_main_thread_id := 0; os_huge_pages := false; os_map_granularity := 0; os_page_size := 0;
     global_thread_heap := ∅; pthread_key := false; thread_specific := ∅; this_thread := tid;
     errno := 0 |}.
