(* ===== verification/RpMalloc.v ===== *)
(** The operations of rpmalloc.c, function by function, for the configuration
    the program is built with (Linux, x86-64, no argument validation, no
    statistics, no first class heaps).  An operation of one thread runs to its
    end before another thread's: a compare-and-swap loop succeeds the first time
    and the heap lock is free when it is taken. *)
From S2P Require Import Prelude Memory RpState.
Local Open Scope Z_scope.

(** ** Size classes *)

(** [SCLASS], [MCLASS], [LCLASS]: block size and block count. *)
Definition SCLASS (n : Z) : Z * Z :=
  (n * SMALL_GRANULARITY, (SMALL_PAGE_SIZE - PAGE_HEADER_SIZE) / (n * SMALL_GRANULARITY)).
Definition MCLASS (n : Z) : Z * Z :=
  (n * SMALL_GRANULARITY, (MEDIUM_PAGE_SIZE - PAGE_HEADER_SIZE) / (n * SMALL_GRANULARITY)).
Definition LCLASS (n : Z) : Z * Z :=
  (n * SMALL_GRANULARITY, (LARGE_PAGE_SIZE - PAGE_HEADER_SIZE) / (n * SMALL_GRANULARITY)).

Definition global_size_class : list (Z * Z) :=
  map SCLASS [1; 1; 2; 3; 4; 5; 6; 7; 8; 9; 10; 11; 12; 13; 14; 15; 16; 17; 18; 19; 20; 21; 22; 23;
    24; 25; 26; 27; 28; 29; 30; 31; 32; 33; 34; 35; 36; 37; 38; 39; 40; 41; 42; 43; 44; 45; 46; 47;
    48; 49; 50; 51; 52; 53; 54; 55; 56; 57; 58; 59; 60; 61; 62; 63; 64; 80; 96; 112; 128; 160; 192;
    224; 256] ++
  map MCLASS [320; 384; 448; 512; 640; 768; 896; 1024; 1280; 1536; 1792; 2048; 2560; 3072; 3584;
    4096; 5120; 6144; 7168; 8192; 10240; 12288; 14336; 16384] ++
  map LCLASS [20480; 24576; 28672; 32768; 40960; 49152; 57344; 65536; 81920; 98304; 114688; 131072;
    163840; 196608; 229376; 262144; 327680; 393216; 458752; 524288].

(** [__builtin_clzll], defined for a non-zero argument. *)
Definition rpmalloc_clz (x : Z) : Z := 63 - Z.log2 x.

Definition get_size_class_tiny (size : Z) : Z :=
  u32 (u32 size + (SMALL_GRANULARITY - 1)) / SMALL_GRANULARITY.

Definition get_size_class (size : Z) : Z :=
  let minblock_count := u64 (size + (SMALL_GRANULARITY - 1)) / SMALL_GRANULARITY in
  if size <=? SMALL_GRANULARITY * 64 then
    u32 (if minblock_count =? 0 then 1 else minblock_count)
  else
    let minblock_count := u64 (minblock_count - 1) in
    let most_significant_bit := u32 (63 - i32 (rpmalloc_clz minblock_count)) in
    let subclass_bits := u32 (Z.land (Z.shiftr minblock_count (u32 (most_significant_bit - 2))) 3) in
    u32 (u32 (u32 (Z.shiftl most_significant_bit 2) + subclass_bits) + 41).

Definition get_page_type (size_class : Z) : page_type_t :=
  if size_class <? SMALL_SIZE_CLASS_COUNT then PAGE_SMALL
  else if size_class <? SMALL_SIZE_CLASS_COUNT + MEDIUM_SIZE_CLASS_COUNT then PAGE_MEDIUM
  else if size_class <? SIZE_CLASS_COUNT then PAGE_LARGE
  else PAGE_HUGE.

Section Operations.
Context {P : Platform}.

Definition get_page_aligned_size (size : Z) : RM Z :=
  let! cfg := gets global_config in
  let! unalign := umod size (cfg_page_size cfg) in
  ret (if unalign =? 0 then size else u64 (size + u64 (cfg_page_size cfg - unalign))).

(** ** Thread local heap *)
Definition get_thread_id : RM Z := gets this_thread.

Definition get_thread_heap : RM Z :=
  gets (fun s => default global_heap_fallback (global_thread_heap s !! this_thread s)).

Definition set_thread_heap (heap : Z) : RM unit :=
  let! tid := get_thread_id in
  modify (fun s => set_global_thread_heap (<[tid := heap]> (global_thread_heap s)) s) ;;
  (if heap =? 0 then ret tt
   else
     let! h := heap_at heap in
     if heap_id h =? 0 then ret tt else upd_heap heap (set_owner_thread tid)) ;;
  modify (fun s => set_thread_specific (<[tid := heap]> (thread_specific s)) s).

(** ** OS entry points *)

(** Returns the address, the alignment offset and the mapped size; the last two
    stay as the callers initialise them (0) where the code does not set them. *)
Definition os_mmap (size alignment : Z) : RM (Z * Z * Z) :=
  let map_size := u64 (size + alignment) in
  let! ms := gets mappings in
  let! huge := gets os_huge_pages in
  let ptr := mmap_address huge ms map_size in
  let ptr := match ptr with None => if huge then mmap_address false ms map_size else None | _ => ptr end in
  match ptr with
  | None => ret (0, 0, 0)
  | Some ptr =>
      modify (fun s => set_mappings ((ptr, map_size) :: mappings s) (zero_region ptr map_size s)) ;;
      if alignment =? 0 then ret (ptr, 0, map_size)
      else
        let padding := Z.land ptr (alignment - 1) in
        let padding := if padding =? 0 then padding else alignment - padding in
        ret (ptr + padding, padding, map_size)
  end.

Definition os_mcommit (address size : Z) : RM unit := ret tt.

(** [madvise(MADV_DONTNEED)]: the pages read as zero afterwards. *)
Definition os_mdecommit (address size : Z) : RM unit :=
  let! cfg := gets global_config in
  if disable_decommit cfg then ret tt else modify (zero_region address size).

(** [munmap] of a whole mapping; unmapping anything else is not expected. *)
Definition os_munmap (address offset mapped_size : Z) : RM unit :=
  let address := address + - i32 offset in
  let! ms := gets mappings in
  if existsb (fun r => (fst r =? address) && (snd r =? mapped_size)) ms then
    modify (set_mappings (List.filter (fun r => negb ((fst r =? address) && (snd r =? mapped_size))) ms))
  else stop Undefined.

(** Calls through [global_memory_interface], a null pointer until
    [rpmalloc_initialize] has run. *)
Definition via_interface {A} (f : RM A) : RM A :=
  let! i := gets global_memory_interface in
  if i then f else stop Undefined.
Definition memory_map (size alignment : Z) : RM (Z * Z * Z) := via_interface (os_mmap size alignment).
Definition memory_commit (address size : Z) : RM unit := via_interface (os_mcommit address size).
Definition memory_decommit (address size : Z) : RM unit := via_interface (os_mdecommit address size).
Definition memory_unmap (address offset mapped_size : Z) : RM unit :=
  via_interface (os_munmap address offset mapped_size).

(** ** Page interface *)
Definition page_get_span (page : Z) : Z := Z.land page SPAN_MASK.

Definition page_get_size (page : Z) : RM Z :=
  let! p := page_at page in
  match page_type p with
  | PAGE_SMALL => ret SMALL_PAGE_SIZE
  | PAGE_MEDIUM => ret MEDIUM_PAGE_SIZE
  | PAGE_LARGE => ret LARGE_PAGE_SIZE
  | PAGE_HUGE => let! s := span_at (page_get_span page) in ret (page_size s)
  end.

Definition page_is_thread_heap (page : Z) : RM bool :=
  let! p := page_at page in
  let! h := heap_at (page_heap p) in
  let! tid := get_thread_id in
  ret (owner_thread h =? tid).

Definition page_block_start (page : Z) : Z := page + PAGE_HEADER_SIZE.

Definition page_block (page block_index : Z) : RM Z :=
  let! p := page_at page in
  ret (page + u32 (PAGE_HEADER_SIZE + u32 (block_size p * block_index))).

Definition page_block_index (page block : Z) : RM Z :=
  let block_first := page_block_start page in
  let! p := page_at page in
  udiv (u32 (block - block_first)) (block_size p).

(** Returns the list count and the block. *)
Definition page_block_from_thread_free_list (page token : Z) : RM (Z * Z) :=
  let block_index := u32 (Z.land token 0xFFFFFFFF) in
  let list_count := u32 (Z.land (Z.shiftr token 32) 0xFFFFFFFF) in
  let! block := if list_count =? 0 then ret 0 else page_block page block_index in
  ret (list_count, block).

Definition page_block_to_thread_free_list (page block_index list_count : Z) : Z :=
  Z.lor (u64 (Z.shiftl list_count 32)) block_index.

Definition page_block_realign (page block : Z) : RM Z :=
  let blocks_start := page_block_start page in
  let block_offset := u32 (block - blocks_start) in
  let! p := page_at page in
  let! r := umod block_offset (block_size p) in
  ret (block + - i32 r).

Definition page_get_local_free_block (page : Z) : RM Z :=
  let! p := page_at page in
  let block := local_free p in
  let! next := block_next block in
  upd_page page (set_local_free next) ;;
  upd_page page (fun p => set_local_free_count (u32 (local_free_count p - 1)) p) ;;
  upd_page page (fun p => set_block_used (u32 (block_used p + 1)) p) ;;
  ret block.

Definition page_decommit_memory_pages (page : Z) : RM unit :=
  let! p := page_at page in
  if is_decommitted p then ret tt
  else
    let! cfg := gets global_config in
    let extra_page := page + cfg_page_size cfg in
    let! sz := page_get_size page in
    let extra_page_size := u64 (sz - cfg_page_size cfg) in
    memory_decommit extra_page extra_page_size ;;
    upd_page page (set_is_decommitted true).

Definition page_commit_memory_pages (page : Z) : RM unit :=
  let! p := page_at page in
  if negb (is_decommitted p) then ret tt
  else
    let! cfg := gets global_config in
    let extra_page := page + cfg_page_size cfg in
    let! sz := page_get_size page in
    let extra_page_size := u64 (sz - cfg_page_size cfg) in
    memory_commit extra_page extra_page_size ;;
    upd_page page (set_is_decommitted false) ;;
    let first_page := page + PAGE_HEADER_SIZE in
    memset0 first_page (u64 (cfg_page_size cfg - PAGE_HEADER_SIZE)) ;;
    upd_page page (set_is_zero true).

(** [++heap->page_free_commit_count[type]] and the decrement. *)
Definition add_commit_count (heap : Z) (t : page_type_t) (d : Z) : RM Z :=
  let! n := heap_elem heap page_free_commit_count (pt_index t) in
  let n := u32 (n + d) in
  set_heap_elem heap page_free_commit_count set_page_free_commit_count (pt_index t) n ;;
  ret n.

(** The loops of [heap_page_free_decommit]: skip the retained pages, then
    decommit up to the first decommitted page. *)
Fixpoint skip_pages (page_retain_count : nat) (page : Z) : RM Z :=
  match page_retain_count with
  | O => ret page
  | S n => if page =? 0 then ret page else let! p := page_at page in skip_pages n (page_next p)
  end.

Fixpoint decommit_pages (fuel : nat) (heap : Z) (t : page_type_t) (page : Z) : RM unit :=
  if page =? 0 then ret tt
  else
    let! p := page_at page in
    if is_decommitted p then ret tt
    else
      match fuel with
      | O => stop OutOfFuel
      | S n =>
          page_decommit_memory_pages page ;;
          let! _ := add_commit_count heap t (-1) in
          let! p := page_at page in
          decommit_pages n heap t (page_next p)
      end.

(** Every turn sets the flag of a page that has it clear, so there are at most
    as many turns as pages. *)
Definition heap_page_free_decommit (heap : Z) (t : page_type_t) (page_retain_count : Z) : RM unit :=
  let! page := heap_elem heap page_free (pt_index t) in
  let! page := skip_pages (Z.to_nat page_retain_count) page in
  let! fuel := gets (fun s => S (size (pages s))) in
  decommit_pages fuel heap t page.

(** Take a page out of the list of available pages of its size class. *)
Definition unlink_available (page heap : Z) : RM unit :=
  let! p := page_at page in
  let! head := heap_elem heap page_available (size_class p) in
  if head =? page then
    set_heap_elem heap page_available set_page_available (size_class p) (page_next p)
  else
    upd_page (page_prev p) (set_page_next (page_next p)) ;;
    if page_next p =? 0 then ret tt
    else upd_page (page_next p) (set_page_prev (page_prev p)).

(** Put a page at the head of the free pages of its type. *)
Definition push_free_page (page heap : Z) : RM unit :=
  let! p := page_at page in
  let! head := heap_elem heap page_free (pt_index (page_type p)) in
  upd_page page (set_page_next head) ;;
  set_heap_elem heap page_free set_page_free (pt_index (page_type p)) page ;;
  let! n := add_commit_count heap (page_type p) 1 in
  if PAGE_FREE_OVERFLOW <? n then heap_page_free_decommit heap (page_type p) PAGE_FREE_DECOMMIT
  else ret tt.

Definition page_available_to_free (page : Z) : RM unit :=
  let! p := page_at page in
  let heap := page_heap p in
  unlink_available page heap ;;
  upd_page page (set_is_free true) ;;
  upd_page page (set_is_zero false) ;;
  push_free_page page heap.

Definition page_full_to_available (page : Z) : RM unit :=
  let! p := page_at page in
  let heap := page_heap p in
  let! head := heap_elem heap page_available (size_class p) in
  upd_page page (set_page_next head) ;;
  (if head =? 0 then ret tt else upd_page head (set_page_prev page)) ;;
  set_heap_elem heap page_available set_page_available (size_class p) page ;;
  upd_page page (set_is_full false) ;;
  let! p := page_at page in
  if has_aligned_block p then ret tt else upd_page page (set_generic_free false).

Definition page_full_to_free_on_new_heap (page heap : Z) : RM unit :=
  upd_page page (set_is_full false) ;;
  upd_page page (set_is_free true) ;;
  upd_page page (set_page_heap heap) ;;
  upd_page page (set_thread_free 0) ;;
  push_free_page page heap.

Definition page_available_to_full (page : Z) : RM unit :=
  let! p := page_at page in
  unlink_available page (page_heap p) ;;
  upd_page page (set_is_full true) ;;
  upd_page page (set_is_zero false) ;;
  upd_page page (set_generic_free true).

(** The push of a block on the page's free list, shared with [block_deallocate]. *)
Definition push_local_free (page block : Z) : RM Z :=
  let! p := page_at page in
  set_block_next block (local_free p) ;;
  upd_page page (set_local_free block) ;;
  upd_page page (fun p => set_local_free_count (u32 (local_free_count p + 1)) p) ;;
  upd_page page (fun p => set_block_used (u32 (block_used p - 1)) p) ;;
  let! p := page_at page in
  ret (block_used p).

Definition page_put_local_free_block (page block : Z) : RM unit :=
  let! used := push_local_free page block in
  if used =? 0 then page_available_to_free page
  else
    let! p := page_at page in
    if is_full p then page_full_to_available page else ret tt.

Definition page_adopt_thread_free_block_list (page : Z) : RM unit :=
  let! p := page_at page in
  if negb (local_free p =? 0) then ret tt
  else if thread_free p =? 0 then ret tt
  else
    upd_page page (set_thread_free 0) ;;
    let! cb := page_block_from_thread_free_list page (thread_free p) in
    upd_page page (set_local_free (snd cb)) ;;
    upd_page page (set_local_free_count (fst cb)) ;;
    upd_page page (fun p => set_block_used (u32 (block_used p - local_free_count p)) p).

Definition page_put_thread_free_block (page block : Z) : RM unit :=
  let! p := page_at page in
  let prev_thread_free := thread_free p in
  let! block_index := page_block_index page block in
  let! cb := page_block_from_thread_free_list page prev_thread_free in
  set_block_next block (snd cb) ;;
  let list_size := u32 (fst cb + 1) in
  let thread_free := page_block_to_thread_free_list page block_index list_size in
  upd_page page (set_thread_free thread_free) ;;
  let! p := page_at page in
  if (list_size =? 1) && is_full p then ret tt
  else if block_count p <=? list_size then
    let! heap := get_thread_heap in
    let! h := heap_at heap in
    let! own := heap_elem heap page_free_commit_count (pt_index (page_type p)) in
    let! other := heap_elem (page_heap p) page_free_commit_count (pt_index (page_type p)) in
    if negb (heap_id h =? 0) && (own <? other) then page_full_to_free_on_new_heap page heap
    else
      let heap := page_heap p in
      let! prev_head := heap_elem heap page_free_thread (pt_index (page_type p)) in
      upd_page page (set_page_next prev_head) ;;
      set_heap_elem heap page_free_thread set_page_free_thread (pt_index (page_type p)) page
  else ret tt.

Definition page_push_local_free_to_heap (page : Z) : RM unit :=
  let! p := page_at page in
  set_heap_elem (page_heap p) heap_local_free set_heap_local_free (size_class p) (local_free p) ;;
  upd_page page (fun p => set_block_used (u32 (block_used p + local_free_count p)) p) ;;
  upd_page page (set_local_free 0) ;;
  upd_page page (set_local_free_count 0).

(** The loop of [page_initialize_blocks]: link blocks until the next memory page
    or until [n] blocks are linked.  Returns the last block linked and the count. *)
Fixpoint link_blocks (n : nat) (bsize memory_page_next free_block last_block list_count : Z) : RM (Z * Z) :=
  match n with
  | O => ret (last_block, list_count)
  | S n' =>
      if free_block <? memory_page_next then
        set_block_next free_block (free_block + bsize) ;;
        let! next := block_next free_block in
        link_blocks n' bsize memory_page_next next free_block (u32 (list_count + 1))
      else ret (last_block, list_count)
  end.

Definition page_initialize_blocks (page : Z) : RM Z :=
  let! p := page_at page in
  let! block := page_block page (block_initialized p) in
  upd_page page (fun p => set_block_initialized (u32 (block_initialized p + 1)) p) ;;
  upd_page page (fun p => set_block_used (u32 (block_used p + 1)) p) ;;
  let! p := page_at page in
  let! cfg := gets global_config in
  (if bool_decide (page_type p = PAGE_SMALL) && (block_size p <? Z.shiftr (cfg_page_size cfg) 1) then
     let memory_page_start := Z.land block (not_ 64 (u64 (cfg_page_size cfg - 1))) in
     let memory_page_next := memory_page_start + cfg_page_size cfg in
     let free_block := block + block_size p in
     let first_block := free_block in
     let max_list_count := u32 (block_count p - block_initialized p) in
     let! lc := link_blocks (Z.to_nat max_list_count) (block_size p) memory_page_next free_block free_block 0 in
     let '(last_block, list_count) := lc in
     if list_count =? 0 then ret tt
     else
       set_block_next last_block 0 ;;
       upd_page page (set_local_free first_block) ;;
       upd_page page (fun p => set_block_initialized (u32 (block_initialized p + list_count)) p) ;;
       upd_page page (set_local_free_count list_count)
   else ret tt) ;;
  ret block.

(** [(page->local_free != 0) ? page_get_local_free_block(page) : 0] *)
Definition try_local_free (page : Z) : RM Z :=
  let! p := page_at page in
  if local_free p =? 0 then ret 0 else page_get_local_free_block page.

Definition page_allocate_block (page : Z) (zero : bool) : RM Z :=
  let! block := try_local_free page in
  let! bz :=
    (if block =? 0 then
       let! p := page_at page in
       let! block :=
         (if thread_free p =? 0 then ret block
          else page_adopt_thread_free_block_list page ;; try_local_free page) in
       if block =? 0 then
         let! block := page_initialize_blocks page in
         let! p := page_at page in
         ret (block, is_zero p)
       else ret (block, false)
     else ret (block, false)) in
  let '(block, is_zero_) := bz in
  let! p := page_at page in
  (if local_free p =? 0 then ret tt
   else
     let! hl := heap_elem (page_heap p) heap_local_free (size_class p) in
     if hl =? 0 then page_push_local_free_to_heap page else ret tt) ;;
  let! p := page_at page in
  (if block_used p =? block_count p then page_adopt_thread_free_block_list page else ret tt) ;;
  let! p := page_at page in
  (if block_used p =? block_count p then page_available_to_full page else ret tt) ;;
  (if zero then
     if negb is_zero_ then let! p := page_at page in memset0 block (block_size p)
     else memset0 block 8
   else ret tt) ;;
  ret block.

(** ** Span interface *)
Definition span_get_page_from_block (span block : Z) : RM Z :=
  let! s := span_at span in ret (Z.land block (page_address_mask s)).

Definition span_allocate_page (span : Z) : RM Z :=
  let! s := span_at span in
  let heap := span_heap s in
  let page := span + u32 (page_size s * page_initialized s) in
  (if page_initialized s =? 0 then ret tt else memory_commit page (page_size s)) ;;
  upd_span span (fun s => set_page_initialized (u32 (page_initialized s + 1)) s) ;;
  upd_page page (set_page_type (span_page_type s)) ;;
  upd_page page (set_is_zero true) ;;
  upd_page page (set_page_heap heap) ;;
  let! s := span_at span in
  (if page_initialized s =? page_count s then
     set_heap_elem heap span_partial set_span_partial (pt_index (span_page_type s)) 0 ;;
     let! used := heap_elem heap span_used (pt_index (span_page_type s)) in
     upd_span span (set_span_next used) ;;
     set_heap_elem heap span_used set_span_used (pt_index (span_page_type s)) span
   else ret tt) ;;
  ret page.

Definition span_deallocate_block (span page block : Z) : RM unit :=
  let! p := page_at page in
  if bool_decide (page_type p = PAGE_HUGE) then
    let! s := span_at span in memory_unmap span (span_offset s) (span_mapped_size s)
  else
    let! block := if has_aligned_block p then page_block_realign page block else ret block in
    let! is_thread_local := page_is_thread_heap page in
    if is_thread_local then page_put_local_free_block page block
    else page_put_thread_free_block page block.

(** ** Block interface *)
Definition block_get_span (block : Z) : Z := Z.land block SPAN_MASK.

Definition block_deallocate (block : Z) : RM unit :=
  let span := Z.land block SPAN_MASK in
  let! page := span_get_page_from_block span block in
  let! is_thread_local := page_is_thread_heap page in
  if is_thread_local then
    let! p := page_at page in
    if negb (generic_free p) then
      let! used := push_local_free page block in
      if used =? 0 then page_available_to_free page else ret tt
    else span_deallocate_block span page block
  else span_deallocate_block span page block.

Definition block_usable_size (block : Z) : RM Z :=
  let span := Z.land block SPAN_MASK in
  let! s := span_at span in
  if pt_index (span_page_type s) <=? pt_index PAGE_LARGE then
    let! page := span_get_page_from_block span block in
    let blocks_start := page + PAGE_HEADER_SIZE in
    let! p := page_at page in
    let! r := umod (u64 (block - blocks_start)) (block_size p) in
    ret (u64 (block_size p - r))
  else ret (u64 (u64 (page_size s * page_count s) - u64 (block - span))).

(** ** Heap interface *)

(** The lock is free whenever a thread takes it; a taken lock would spin forever. *)
Definition heap_lock_acquire : RM unit :=
  let! lock := gets global_heap_lock in
  let! this_lock := get_thread_id in
  if lock =? 0 then modify (set_global_heap_lock this_lock) else stop OutOfFuel.
Definition heap_lock_release : RM unit := modify (set_global_heap_lock 0).

Definition heap_initialize (block : Z) : RM Z :=
  upd_heap block (fun _ => zero_heap) ;;
  let! id := gets global_heap_id in
  modify (set_global_heap_id (u32 (id + 1))) ;;
  upd_heap block (set_heap_id (u32 (1 + id))) ;;
  ret block.

Section Initialization.
(** [rpmalloc_initialize(0)], which [heap_allocate_new] calls on an allocator
    that has not been initialised. *)
Variable initialize : RM unit.

Definition heap_allocate_new_with : RM Z :=
  let! cfg := gets global_config in
  (if cfg_page_size cfg =? 0 then initialize else ret tt) ;;
  let! heap_size := get_page_aligned_size sizeof_heap_t in
  let! m := memory_map heap_size 0 in
  let '(block, offset, mapped_size) := m in
  memory_commit block heap_size ;;
  let! heap := heap_initialize block in
  upd_heap heap (set_heap_offset (u32 offset)) ;;
  upd_heap heap (set_heap_mapped_size mapped_size) ;;
  ret heap.

Definition heap_allocate_with (first_class : bool) : RM Z :=
  let! heap :=
    (if first_class then ret 0
     else
       heap_lock_acquire ;;
       let! heap := gets global_heap_queue in
       (if heap =? 0 then modify (set_global_heap_queue 0)
        else let! h := heap_at heap in modify (set_global_heap_queue (heap_next h))) ;;
       heap_lock_release ;;
       ret heap) in
  let! heap := if heap =? 0 then heap_allocate_new_with else ret heap in
  if heap =? 0 then ret heap
  else
    let! current_thread_id := get_thread_id in
    heap_lock_acquire ;;
    let! used := gets global_heap_used in
    upd_heap heap (set_heap_next used) ;;
    upd_heap heap (set_heap_prev 0) ;;
    (if used =? 0 then ret tt else upd_heap used (set_heap_prev heap)) ;;
    modify (set_global_heap_used heap) ;;
    heap_lock_release ;;
    upd_heap heap (set_owner_thread current_thread_id) ;;
    ret heap.

Definition get_thread_heap_allocate_with : RM Z :=
  let! heap := heap_allocate_with false in
  set_thread_heap heap ;;
  ret heap.

Definition rpmalloc_thread_initialize_with : RM unit :=
  let! heap := get_thread_heap in
  if heap =? global_heap_fallback then let! _ := get_thread_heap_allocate_with in ret tt else ret tt.

(** The Linux branch of the huge page configuration. *)
Definition configure_huge_pages : RM unit :=
  let! cfg := gets global_config in
  if enable_huge_pages cfg then
    let huge_page_size := u64 (meminfo_hugepagesize * 1024) in
    if huge_page_size =? 0 then ret tt
    else
      modify (set_os_huge_pages true) ;;
      modify (set_os_page_size huge_page_size) ;;
      modify (set_os_map_granularity huge_page_size)
  else modify (set_os_huge_pages false).

(** [rpmalloc_initialize(0)]: the default memory interface. *)
Definition rpmalloc_initialize_with : RM unit :=
  let! initialized := gets global_rpmalloc_initialized in
  if initialized then rpmalloc_thread_initialize_with
  else
    modify (set_global_rpmalloc_initialized true) ;;
    modify (set_global_memory_interface true) ;;
    modify (set_os_map_granularity sc_pagesize) ;;
    modify (set_os_page_size sc_pagesize) ;;
    configure_huge_pages ;;
    modify (fun s => set_global_config (set_enable_huge_pages (os_huge_pages s) (global_config s)) s) ;;
    modify (fun s => set_global_config (set_cfg_page_size (os_page_size s) (global_config s)) s) ;;
    modify (fun s =>
      if enable_huge_pages (global_config s) || (256 * 1024 <? cfg_page_size (global_config s))
      then set_global_config (set_disable_decommit true (global_config s)) s else s) ;;
    modify (set_pthread_key true) ;;
    let! tid := get_thread_id in
    modify (set_global_main_thread_id tid) ;;
    rpmalloc_thread_initialize_with.
End Initialization.

(** [rpmalloc_initialize], [rpmalloc_thread_initialize] and [heap_allocate_new]
    call each other.  After one round the page size is set, so the second call of
    [heap_allocate_new] does not come back to [rpmalloc_initialize]. *)
Fixpoint rpmalloc_initialize_rec (fuel : nat) : RM unit :=
  match fuel with
  | O => stop OutOfFuel
  | S n => rpmalloc_initialize_with (rpmalloc_initialize_rec n)
  end.
Definition rpmalloc_initialize : RM unit := rpmalloc_initialize_rec 2.
Definition heap_allocate_new : RM Z := heap_allocate_new_with rpmalloc_initialize.
Definition heap_allocate : bool -> RM Z := heap_allocate_with rpmalloc_initialize.
Definition get_thread_heap_allocate : RM Z := get_thread_heap_allocate_with rpmalloc_initialize.
Definition rpmalloc_thread_initialize : RM unit := rpmalloc_thread_initialize_with rpmalloc_initialize.

Definition heap_unmap (heap : Z) : RM unit :=
  let! h := heap_at heap in memory_unmap heap (heap_offset h) (heap_mapped_size h).

Definition heap_release (heap : Z) : RM unit :=
  heap_lock_acquire ;;
  let! h := heap_at heap in
  (if heap_prev h =? 0 then ret tt else upd_heap (heap_prev h) (set_heap_next (heap_next h))) ;;
  (if heap_next h =? 0 then ret tt else upd_heap (heap_next h) (set_heap_prev (heap_prev h))) ;;
  let! used := gets global_heap_used in
  (if used =? heap then modify (set_global_heap_used (heap_next h)) else ret tt) ;;
  let! queue := gets global_heap_queue in
  upd_heap heap (set_heap_next queue) ;;
  modify (set_global_heap_queue heap) ;;
  heap_lock_release.

Definition heap_make_free_page_available (heap size_class_ page : Z) : RM unit :=
  let! sc := deref (nthZ global_size_class size_class_) in
  upd_page page (set_size_class size_class_) ;;
  upd_page page (set_block_size (fst sc)) ;;
  upd_page page (set_block_count (snd sc)) ;;
  upd_page page (set_block_used 0) ;;
  upd_page page (set_block_initialized 0) ;;
  upd_page page (set_local_free 0) ;;
  upd_page page (set_local_free_count 0) ;;
  upd_page page (set_is_full false) ;;
  upd_page page (set_is_free false) ;;
  upd_page page (set_has_aligned_block false) ;;
  upd_page page (set_generic_free false) ;;
  upd_page page (set_page_heap heap) ;;
  let! head := heap_elem heap page_available size_class_ in
  upd_page page (set_page_next head) ;;
  upd_page page (set_page_prev 0) ;;
  upd_page page (set_thread_free 0) ;;
  (if head =? 0 then ret tt else upd_page head (set_page_prev page)) ;;
  set_heap_elem heap page_available set_page_available size_class_ page ;;
  let! p := page_at page in
  if is_decommitted p then page_commit_memory_pages page else ret tt.

(** Page count, page size and address mask of a span of each page type. *)
Definition span_geometry (t : page_type_t) : Z * Z * Z :=
  match t with
  | PAGE_SMALL => (SPAN_SIZE / SMALL_PAGE_SIZE, SMALL_PAGE_SIZE, SMALL_PAGE_MASK)
  | PAGE_MEDIUM => (SPAN_SIZE / MEDIUM_PAGE_SIZE, MEDIUM_PAGE_SIZE, MEDIUM_PAGE_MASK)
  | _ => (SPAN_SIZE / LARGE_PAGE_SIZE, LARGE_PAGE_SIZE, LARGE_PAGE_MASK)
  end.

Definition heap_get_span (heap : Z) (t : page_type_t) : RM Z :=
  let! partial := heap_elem heap span_partial (pt_index t) in
  if negb (partial =? 0) then ret partial
  else
    let! m := memory_map SPAN_SIZE SPAN_SIZE in
    let '(span, offset, mapped_size) := m in
    if span =? 0 then ret span
    else
      let '(page_count_, page_size_, page_address_mask_) := span_geometry t in
      memory_commit span page_size_ ;;
      upd_span span (set_span_heap heap) ;;
      upd_span span (set_span_page_type t) ;;
      upd_span span (set_page_count page_count_) ;;
      upd_span span (set_page_size page_size_) ;;
      upd_span span (set_page_address_mask page_address_mask_) ;;
      upd_span span (set_span_offset (u32 offset)) ;;
      upd_span span (set_span_mapped_size mapped_size) ;;
      set_heap_elem heap span_partial set_span_partial (pt_index t) span ;;
      ret span.

(** The loop that counts the pages taken over from other threads. *)
Fixpoint count_free_pages (fuel : nat) (heap : Z) (t : page_type_t) (free_page : Z) : RM unit :=
  if free_page =? 0 then ret tt
  else
    match fuel with
    | O => stop OutOfFuel
    | S n =>
        let! _ := add_commit_count heap t 1 in
        let! p := page_at free_page in
        count_free_pages n heap t (page_next p)
    end.

(** The heap of a thread that is not initialised has the id 0; the call after
    [rpmalloc_initialize] finds another heap, so two rounds are enough. *)
Fixpoint heap_get_page_generic_rec (fuel : nat) (heap size_class_ : Z) : RM Z :=
  let t := get_page_type size_class_ in
  let! page := heap_elem heap page_free (pt_index t) in
  if negb (page =? 0) then
    let! p := page_at page in
    set_heap_elem heap page_free set_page_free (pt_index t) (page_next p) ;;
    (if is_decommitted p then ret tt else let! _ := add_commit_count heap t (-1) in ret tt) ;;
    heap_make_free_page_available heap size_class_ page ;;
    ret page
  else
    let! h := heap_at heap in
    if heap_id h =? 0 then
      match fuel with
      | O => stop OutOfFuel
      | S n =>
          rpmalloc_initialize ;;
          let! heap := get_thread_heap in
          heap_get_page_generic_rec n heap size_class_
      end
    else
      let! page_mt := heap_elem heap page_free_thread (pt_index t) in
      if negb (page_mt =? 0) then
        set_heap_elem heap page_free_thread set_page_free_thread (pt_index t) 0 ;;
        let page := page_mt in
        let! p := page_at page in
        set_heap_elem heap page_free set_page_free (pt_index t) (page_next p) ;;
        heap_make_free_page_available heap size_class_ page ;;
        let! free_page := heap_elem heap page_free (pt_index t) in
        let! fuel := gets (fun s => S (size (pages s))) in
        count_free_pages fuel heap t free_page ;;
        let! p := page_at page in
        let! n := heap_elem heap page_free_commit_count (pt_index (page_type p)) in
        (if PAGE_FREE_OVERFLOW <? n
         then heap_page_free_decommit heap (page_type p) PAGE_FREE_DECOMMIT else ret tt) ;;
        ret page
      else
        let! span := heap_get_span heap t in
        if span =? 0 then ret page
        else
          let! page := span_allocate_page span in
          let! p := page_at page in
          heap_make_free_page_available (page_heap p) size_class_ page ;;
          ret page.
Definition heap_get_page_generic : Z -> Z -> RM Z := heap_get_page_generic_rec 1.

Definition heap_get_page (heap size_class_ : Z) : RM Z :=
  let! page := heap_elem heap page_available size_class_ in
  if negb (page =? 0) then ret page else heap_get_page_generic heap size_class_.

Definition heap_pop_local_free (heap size_class_ : Z) : RM Z :=
  let! block := heap_elem heap heap_local_free size_class_ in
  (if block =? 0 then ret tt
   else
     let! next := block_next block in
     set_heap_elem heap heap_local_free set_heap_local_free size_class_ next) ;;
  ret block.

Definition heap_allocate_block_small_to_large (heap size_class_ : Z) (zero : bool) : RM Z :=
  let! page := heap_get_page heap size_class_ in
  if page =? 0 then ret 0 else page_allocate_block page zero.

Definition heap_allocate_block_huge (heap size : Z) (zero : bool) : RM Z :=
  let! alloc_size := get_page_aligned_size (u64 (size + SPAN_HEADER_SIZE)) in
  let! m := memory_map alloc_size SPAN_SIZE in
  let '(block, offset, mapped_size) := m in
  if block =? 0 then ret 0
  else
    let span := block in
    memory_commit span alloc_size ;;
    let! cfg := gets global_config in
    upd_span span (set_span_heap heap) ;;
    upd_span span (set_span_page_type PAGE_HUGE) ;;
    upd_span span (set_page_size (u32 (cfg_page_size cfg))) ;;
    let! count := udiv alloc_size (cfg_page_size cfg) in
    upd_span span (set_page_count (u32 count)) ;;
    upd_span span (set_page_address_mask LARGE_PAGE_MASK) ;;
    upd_span span (set_span_offset (u32 offset)) ;;
    upd_span span (set_span_mapped_size mapped_size) ;;
    upd_page span (set_page_heap heap) ;;
    upd_page span (set_is_full true) ;;
    upd_page span (set_generic_free true) ;;
    upd_page span (set_page_type PAGE_HUGE) ;;
    let! h := heap_at heap in
    (if owner_thread h =? 0 then
       let! used := heap_elem heap span_used (pt_index PAGE_HUGE) in
       upd_span span (set_span_next used) ;;
       set_heap_elem heap span_used set_span_used (pt_index PAGE_HUGE) span
     else ret tt) ;;
    let ptr := block + SPAN_HEADER_SIZE in
    (if zero then memset0 ptr size else ret tt) ;;
    ret ptr.

(** [memset(block, 0, global_size_class[size_class].block_size)] *)
Definition zero_class_block (zero : bool) (block size_class_ : Z) : RM unit :=
  if zero then let! sc := deref (nthZ global_size_class size_class_) in memset0 block (fst sc)
  else ret tt.

Definition heap_allocate_block_generic (heap size : Z) (zero : bool) : RM Z :=
  let size_class_ := get_size_class size in
  if size_class_ <? SIZE_CLASS_COUNT then
    let! block := heap_pop_local_free heap size_class_ in
    if negb (block =? 0) then zero_class_block zero block size_class_ ;; ret block
    else heap_allocate_block_small_to_large heap size_class_ zero
  else heap_allocate_block_huge heap size zero.

Definition heap_allocate_block (heap size : Z) (zero : bool) : RM Z :=
  if size <=? SMALL_GRANULARITY * 64 then
    let size_class_ := get_size_class_tiny size in
    let! block := heap_pop_local_free heap size_class_ in
    if negb (block =? 0) then zero_class_block zero block size_class_ ;; ret block
    else heap_allocate_block_generic heap size zero
  else heap_allocate_block_generic heap size zero.

Definition heap_allocate_block_aligned (heap alignment size : Z) (zero : bool) : RM Z :=
  if alignment <=? SMALL_GRANULARITY then heap_allocate_block heap size zero
  else if RPMALLOC_MAX_ALIGNMENT <=? alignment then modify (set_errno EINVAL_) ;; ret 0
  else
    let align_mask := u64 (alignment - 1) in
    let! block := heap_allocate_block heap (u64 (size + alignment)) zero in
    if Z.land block align_mask =? 0 then ret block
    else
      let block := Z.land block (not_ 64 align_mask) + alignment in
      let span := block_get_span block in
      let! page := span_get_page_from_block span block in
      upd_page page (set_has_aligned_block true) ;;
      upd_page page (set_generic_free true) ;;
      ret block.

Definition has_flag (flags f : Z) : bool := negb (Z.land flags f =? 0).

(** The tail of [heap_reallocate_block]: a new block and a copy. *)
Definition reallocate_by_copy (heap block size old_size flags : Z) : RM Z :=
  if has_flag flags RPMALLOC_GROW_OR_FAIL then ret 0
  else
    let lower_bound := u64 (old_size + Z.shiftr old_size 2 + Z.shiftr old_size 3) in
    let new_size := if lower_bound <? size then size
                    else if old_size <? size then lower_bound else size in
    let old_block := block in
    let! block := heap_allocate_block heap new_size false in
    (if negb (block =? 0) && negb (old_block =? 0) then
       (if has_flag flags RPMALLOC_NO_PRESERVE then ret tt
        else memmove block old_block (if old_size <? new_size then old_size else new_size)) ;;
       block_deallocate old_block
     else ret tt) ;;
    ret block.

Definition heap_reallocate_block (heap block size old_size flags : Z) : RM Z :=
  if block =? 0 then reallocate_by_copy heap block size 0 flags
  else
    let span := block_get_span block in
    let! s := span_at span in
    if pt_index (span_page_type s) <=? pt_index PAGE_LARGE then
      let! page := span_get_page_from_block span block in
      let blocks_start := page + PAGE_HEADER_SIZE in
      let block_offset := u32 (block - blocks_start) in
      let! p := page_at page in
      let! block_idx := udiv block_offset (block_size p) in
      let block_origin := blocks_start + u64 (block_idx * block_size p) in
      let old_size := if old_size =? 0 then u64 (block_size p - (block - block_origin)) else old_size in
      if size <=? block_size p then
        (if negb (block =? block_origin) && negb (has_flag flags RPMALLOC_NO_PRESERVE)
         then memmove block_origin block old_size else ret tt) ;;
        ret block_origin
      else reallocate_by_copy heap block size old_size flags
    else
      let block_start := span + SPAN_HEADER_SIZE in
      let old_size := if old_size =? 0 then u64 (u64 (page_size s * page_count s) - SPAN_HEADER_SIZE)
                      else old_size in
      if (size <? old_size) && (LARGE_BLOCK_SIZE_LIMIT <? size) then
        (if negb (block_start =? block) && negb (has_flag flags RPMALLOC_NO_PRESERVE)
         then memmove block_start block old_size else ret tt) ;;
        ret block_start
      else reallocate_by_copy heap block size old_size flags.

Definition heap_reallocate_block_aligned (heap block alignment size old_size flags : Z) : RM Z :=
  if alignment <=? SMALL_GRANULARITY then heap_reallocate_block heap block size old_size flags
  else
    let no_alloc := has_flag flags RPMALLOC_GROW_OR_FAIL in
    let! usable_size := if block =? 0 then ret 0 else block_usable_size block in
    if (size <=? usable_size) && (Z.land block (u64 (alignment - 1)) =? 0) &&
       (no_alloc || (usable_size / 2 <=? size))
    then ret block
    else
      let old_block := block in
      let! block := if no_alloc then ret 0 else heap_allocate_block_aligned heap alignment size false in
      (if block =? 0 then ret tt
       else
         (if negb (has_flag flags RPMALLOC_NO_PRESERVE) && negb (old_block =? 0) then
            let old_size := if old_size =? 0 then usable_size else old_size in
            memmove block old_block (if old_size <? size then old_size else size)
          else ret tt) ;;
         if old_block =? 0 then ret tt else block_deallocate old_block) ;;
      ret block.

(** Unmap a list of spans. *)
Fixpoint unmap_spans (fuel : nat) (span : Z) : RM unit :=
  if span =? 0 then ret tt
  else
    match fuel with
    | O => stop OutOfFuel
    | S n =>
        let! s := span_at span in
        memory_unmap span (span_offset s) (span_mapped_size s) ;;
        unmap_spans n (span_next s)
    end.
Definition unmap_span_list (heap : Z) (f : heap_t -> list Z) (itype : Z) : RM unit :=
  let! span := heap_elem heap f itype in
  let! fuel := gets (fun s => S (size (spans s))) in
  unmap_spans fuel span.

Definition heap_free_all (heap : Z) : RM unit :=
  for_each [0; 1; 2] (fun itype =>
    unmap_span_list heap span_partial itype ;;
    set_heap_elem heap span_partial set_span_partial itype 0 ;;
    set_heap_elem heap page_free set_page_free itype 0 ;;
    set_heap_elem heap page_free_commit_count set_page_free_commit_count itype 0 ;;
    set_heap_elem heap page_free_thread set_page_free_thread itype 0) ;;
  for_each [0; 1; 2; 3] (fun itype =>
    unmap_span_list heap span_used itype ;;
    set_heap_elem heap span_used set_span_used itype 0) ;;
  upd_heap heap (set_heap_local_free (replicate (Z.to_nat SIZE_CLASS_COUNT) 0)) ;;
  upd_heap heap (set_page_available (replicate (Z.to_nat SIZE_CLASS_COUNT) 0)).

(** ** Extern interface *)
Definition rpmalloc_is_thread_initialized : RM Z :=
  let! heap := get_thread_heap in ret (if heap =? global_heap_fallback then 0 else 1).

Definition rpmalloc (size : Z) : RM Z :=
  let! heap := get_thread_heap in heap_allocate_block heap size false.
Definition rpzalloc (size : Z) : RM Z :=
  let! heap := get_thread_heap in heap_allocate_block heap size true.
Definition rpfree (ptr : Z) : RM unit :=
  if ptr =? 0 then ret tt else block_deallocate ptr.
Definition rpcalloc (num size : Z) : RM Z :=
  let total := u64 (num * size) in
  let! heap := get_thread_heap in heap_allocate_block heap total true.
Definition rprealloc (ptr size : Z) : RM Z :=
  let! heap := get_thread_heap in heap_reallocate_block heap ptr size 0 0.
Definition rpaligned_realloc (ptr alignment size oldsize flags : Z) : RM Z :=
  let! heap := get_thread_heap in heap_reallocate_block_aligned heap ptr alignment size oldsize flags.
Definition rpaligned_alloc (alignment size : Z) : RM Z :=
  let! heap := get_thread_heap in heap_allocate_block_aligned heap alignment size false.
Definition rpaligned_zalloc (alignment size : Z) : RM Z :=
  let! heap := get_thread_heap in heap_allocate_block_aligned heap alignment size true.
Definition rpaligned_calloc (alignment num size : Z) : RM Z :=
  let total := u64 (num * size) in
  let! heap := get_thread_heap in heap_allocate_block_aligned heap alignment total true.
Definition rpmemalign (alignment size : Z) : RM Z :=
  let! heap := get_thread_heap in heap_allocate_block_aligned heap alignment size false.

(** Returns the error code and what is stored through [memptr]. *)
Definition rpposix_memalign (memptr_null : bool) (alignment size : Z) : RM (Z * option Z) :=
  let! heap := get_thread_heap in
  if memptr_null then ret (EINVAL_, None)
  else
    let! p := heap_allocate_block_aligned heap alignment size false in
    ret (if p =? 0 then ENOMEM_ else 0, Some p).
Definition rpmalloc_usable_size (ptr : Z) : RM Z :=
  if ptr =? 0 then ret 0 else block_usable_size ptr.

(** ** Initialization and finalization *)
Definition rpmalloc_thread_finalize : RM unit :=
  let! heap := get_thread_heap in
  if heap =? global_heap_fallback then ret tt
  else heap_release heap ;; set_thread_heap global_heap_fallback.

Definition rpmalloc_thread_destructor (value : Z) : RM unit :=
  let! tid := get_thread_id in
  let! main := gets global_main_thread_id in
  if tid =? main then ret tt
  else if value =? 0 then ret tt else rpmalloc_thread_finalize.

(** Returns the configuration in force, which is stored through [config]. *)
Definition rpmalloc_initialize_config (config : option rpmalloc_config_t) : RM rpmalloc_config_t :=
  let! initialized := gets global_rpmalloc_initialized in
  (if initialized then rpmalloc_thread_initialize
   else
     match config with Some c => modify (set_global_config c) | None => ret tt end ;;
     rpmalloc_initialize) ;;
  gets global_config.

Fixpoint finalize_heaps (fuel : nat) (heap : Z) : RM unit :=
  if heap =? 0 then ret tt
  else
    match fuel with
    | O => stop OutOfFuel
    | S n =>
        let! h := heap_at heap in
        heap_free_all heap ;;
        heap_unmap heap ;;
        finalize_heaps n (heap_next h)
    end.

Definition rpmalloc_finalize : RM unit :=
  rpmalloc_thread_finalize ;;
  let! cfg := gets global_config in
  let! fuel := gets (fun s => S (size (heaps s))) in
  (if unmap_on_finalize cfg then
     let! heap := gets global_heap_queue in
     modify (set_global_heap_queue 0) ;;
     finalize_heaps fuel heap ;;
     let! heap := gets global_heap_used in
     modify (set_global_heap_used 0) ;;
     finalize_heaps fuel heap
   else ret tt) ;;
  modify (set_pthread_key false) ;;
  modify (set_global_main_thread_id 0) ;;
  modify (set_global_rpmalloc_initialized false).

(** ** malloc.c: further entry points; [malloc], [free], [operator new] and the
    others are aliases of the functions above. *)
Definition rpaligned_alloc_reverse (size align : Z) : RM Z := rpaligned_alloc align size.
Definition rpvalloc (size : Z) : RM Z :=
  let! ps := gets os_page_size in rpaligned_alloc ps size.
Definition rppvalloc (size : Z) : RM Z :=
  let! page_size := gets os_page_size in
  let! q := udiv (u64 (u64 (size + page_size) - 1)) page_size in
  let aligned_size := u64 (q * page_size) in
  let! ps := gets os_page_size in
  rpaligned_alloc ps aligned_size.
Definition rpreallocarray (ptr count size : Z) : RM Z := rprealloc ptr (u64 (count * size)).
End Operations.
