(* ===== verification/RpSizeClass.v ===== *)
(** Size classes of rpmalloc: which class a request gets, that it is the best
    fit, and that the blocks of a class fit their page; and what happens to
    requests whose size arithmetic wraps around. *)
From S2P Require Import Prelude Memory RpState RpMalloc.
Local Open Scope Z_scope.

Definition class_block_size (c : Z) : Z := default 0 (fst <$> nthZ global_size_class c).
Definition class_block_count (c : Z) : Z := default 0 (snd <$> nthZ global_size_class c).
Definition page_bytes (t : page_type_t) : Z :=
  match t with
  | PAGE_SMALL => SMALL_PAGE_SIZE
  | PAGE_MEDIUM => MEDIUM_PAGE_SIZE
  | _ => LARGE_PAGE_SIZE
  end.

(** The whole table, by evaluation. *)
Definition class_ok (c : Z) : bool :=
  let bs := class_block_size c in
  let n := class_block_count c in
  (16 <=? bs) && (bs mod 16 =? 0) && (7 <=? n) &&
  (PAGE_HEADER_SIZE + n * bs <=? page_bytes (get_page_type c)) &&
  (page_bytes (get_page_type c) <? PAGE_HEADER_SIZE + (n + 1) * bs).

Lemma class_table_ok : forallb class_ok (map Z.of_nat (seq 0 117)) = true.
Proof. vm_compute. reflexivity. Qed.

Lemma class_facts c : 0 <= c < SIZE_CLASS_COUNT ->
  16 <= class_block_size c /\ class_block_size c mod 16 = 0 /\ 7 <= class_block_count c /\
  PAGE_HEADER_SIZE + class_block_count c * class_block_size c <= page_bytes (get_page_type c) <
  PAGE_HEADER_SIZE + (class_block_count c + 1) * class_block_size c.
Proof.
  intros H. pose proof class_table_ok as T. rewrite forallb_forall in T.
  specialize (T c). unfold class_ok in T. rewrite !andb_true_iff in T.
  destruct T as ((((T1 & T2) & T3) & T4) & T5); [|zbool; auto].
  apply in_map_iff. exists (Z.to_nat c). split; [lia|]. apply in_seq. change SIZE_CLASS_COUNT with 117 in H. lia.
Qed.

(** ** Requests of at most 64 granules *)
Lemma small_class size : 0 <= size <= 1024 ->
  get_size_class size = Z.max 1 ((size + 15) / 16).
Proof.
  intros H. unfold get_size_class. change (SMALL_GRANULARITY * 64) with 1024.
  replace (size <=? 1024) with true by (symmetry; apply Z.leb_le; lia).
  change (SMALL_GRANULARITY - 1) with 15. change SMALL_GRANULARITY with 16.
  unfold u64, u32. rewrite (wrap_small 64) by (unfold in_range; lia).
  assert (0 <= (size + 15) / 16 <= 64) by (split; [apply Z.div_pos; lia | apply Z.lt_succ_r, Z.div_lt_upper_bound; lia]).
  destruct (Z.eqb_spec ((size + 15) / 16) 0) as [->|]; [reflexivity|].
  rewrite wrap_small by (unfold in_range; lia). lia.
Qed.

Lemma tiny_class size : 0 <= size <= 1024 -> get_size_class_tiny size = (size + 15) / 16.
Proof.
  intros H. unfold get_size_class_tiny, u32. change (SMALL_GRANULARITY - 1) with 15.
  rewrite (wrap_small 32 size) by (unfold in_range; lia).
  rewrite wrap_small by (unfold in_range; lia). reflexivity.
Qed.

Lemma small_block_size c : 1 <= c <= 64 -> class_block_size c = 16 * c.
Proof.
  intros H. assert (forallb (fun c => class_block_size c =? 16 * c) (map Z.of_nat (seq 1 64)) = true) as T
    by (vm_compute; reflexivity).
  rewrite forallb_forall in T. apply Z.eqb_eq, T, in_map_iff. exists (Z.to_nat c).
  split; [lia|]. apply in_seq. lia.
Qed.

(** ** Larger requests

    With [n] one less than the number of granules, [2^m <= n < 2^(m+1)] and
    [q] the top three bits of [n], the class is [4 m + q + 37]. *)
Lemma large_class size n : 1024 < size < 2 ^ 64 - 15 -> n = (size - 1) / 16 ->
  get_size_class size = 4 * Z.log2 n + n / 2 ^ (Z.log2 n - 2) + 37 /\
  6 <= Z.log2 n <= 59 /\ 4 <= n / 2 ^ (Z.log2 n - 2) <= 7.
Proof.
  intros H ->. set (n := (size - 1) / 16).
  assert (64 <= n < 2 ^ 60) as Hn.
  { unfold n. split; [apply Z.div_le_lower_bound; lia | apply Z.div_lt_upper_bound; lia]. }
  assert ((size + 15) / 16 = n + 1) as En.
  { unfold n. replace (size + 15) with (size - 1 + 1 * 16) by lia. apply Z.div_add. lia. }
  pose proof (Z.log2_spec n ltac:(lia)) as L.
  assert (6 <= Z.log2 n <= 59) as Hm.
  { split; [apply (Z.log2_le_pow2 n 6); lia | apply Z.lt_succ_r, (Z.log2_lt_pow2 n 60); lia]. }
  set (m := Z.log2 n) in *.
  assert (4 <= n / 2 ^ (m - 2) <= 7) as Hq.
  { assert (2 ^ m = 4 * 2 ^ (m - 2)) as E by (rewrite (Z.pow_sub_r 2 m 2) by lia;
      change (2 ^ 2) with 4; rewrite <- Z.divide_div_mul_exact by
        (try lia; exists (2 ^ (m - 2)); replace m with (m - 2 + 2) at 1 by lia; rewrite Z.pow_add_r by lia; lia);
      rewrite Z.mul_comm, Z.div_mul; lia).
    pose proof (pow2_pos (m - 2) ltac:(lia)).
    rewrite Z.pow_succ_r in L by lia.
    split; [apply Z.div_le_lower_bound; lia | apply Z.lt_succ_r, Z.div_lt_upper_bound; lia]. }
  split; [|auto].
  unfold get_size_class. change (SMALL_GRANULARITY * 64) with 1024.
  replace (size <=? 1024) with false by (symmetry; apply Z.leb_gt; lia).
  change (SMALL_GRANULARITY - 1) with 15. change SMALL_GRANULARITY with 16. unfold u64, u32.
  rewrite (wrap_small 64 (size + 15)) by (unfold in_range; lia). rewrite En.
  replace (n + 1 - 1) with n by lia. rewrite (wrap_small 64 n) by (unfold in_range; lia).
  unfold rpmalloc_clz. fold m. unfold i32. rewrite swrap_small by lia.
  replace (63 - (63 - m)) with m by lia. rewrite (wrap_small 32 m) by (unfold in_range; lia).
  rewrite (wrap_small 32 (m - 2)) by (unfold in_range; lia).
  rewrite Z.shiftr_div_pow2, Z.shiftl_mul_pow2 by lia. change (2 ^ 2) with 4.
  set (q := n / 2 ^ (m - 2)) in *. change 3 with (Z.ones 2). rewrite Z.land_ones by lia. change (2 ^ 2) with 4.
  assert (q mod 4 = q - 4) as -> by (replace q with (q - 4 + 1 * 4) at 1 by lia; rewrite Z.mod_add, Z.mod_small; lia).
  rewrite (wrap_small 32 (m * 4)), (wrap_small 32 (q - 4)) by (unfold in_range; lia).
  rewrite (wrap_small 32 (m * 4 + (q - 4))) by (unfold in_range; lia).
  rewrite wrap_small by (unfold in_range; lia). lia.
Qed.

Lemma large_block_size m q : 6 <= m <= 18 -> 4 <= q <= 7 ->
  class_block_size (4 * m + q + 37) = 16 * ((q + 1) * 2 ^ (m - 2)).
Proof.
  intros Hm Hq.
  assert (forallb (fun mq => class_block_size (4 * fst mq + snd mq + 37) =? 16 * ((snd mq + 1) * 2 ^ (fst mq - 2)))
    (list_prod (map Z.of_nat (seq 6 13)) (map Z.of_nat (seq 4 4))) = true) as T by (vm_compute; reflexivity).
  rewrite forallb_forall in T. specialize (T (m, q)). apply Z.eqb_eq in T; [exact T|].
  apply in_prod; apply in_map_iff; [exists (Z.to_nat m)|exists (Z.to_nat q)]; (split; [lia|]); apply in_seq; lia.
Qed.

Lemma large_block_size_pred m q : 6 <= m <= 18 -> 4 <= q <= 7 ->
  class_block_size (4 * m + q + 37 - 1) = 16 * (q * 2 ^ (m - 2)).
Proof.
  intros Hm Hq. destruct (Z.eq_dec q 4) as [->|].
  - destruct (Z.eq_dec m 6) as [->|]; [vm_compute; reflexivity|].
    replace (4 * m + 4 + 37 - 1) with (4 * (m - 1) + 7 + 37) by lia.
    rewrite large_block_size by lia. replace (m - 2) with (Z.succ (m - 1 - 2)) by lia.
    rewrite Z.pow_succ_r by lia. lia.
  - replace (4 * m + q + 37 - 1) with (4 * m + (q - 1) + 37) by lia.
    rewrite large_block_size by lia. f_equal. f_equal. lia.
Qed.

Lemma wrapping_class size : 2 ^ 64 - 15 <= size < 2 ^ 64 -> get_size_class size = 296.
Proof.
  intros H. unfold get_size_class. change (SMALL_GRANULARITY * 64) with 1024.
  replace (size <=? 1024) with false by (symmetry; apply Z.leb_gt; lia).
  change (SMALL_GRANULARITY - 1) with 15. change SMALL_GRANULARITY with 16.
  assert (u64 (size + 15) / 16 = 0) as ->; [|vm_compute; reflexivity].
  unfold u64, wrap. replace (size + 15) with (size + 15 - 2 ^ 64 + 1 * 2 ^ 64) by lia.
  rewrite Z.mod_add, Z.mod_small by lia. apply Z.div_small. lia.
Qed.

Lemma best_fit_large size : 1024 < size <= LARGE_BLOCK_SIZE_LIMIT ->
  let c := get_size_class size in
  65 <= c < SIZE_CLASS_COUNT /\ size <= class_block_size c /\ class_block_size (c - 1) < size.
Proof.
  change LARGE_BLOCK_SIZE_LIMIT with 8388608. intros H. cbv zeta.
  destruct (large_class size _ ltac:(lia) eq_refl) as (-> & Hm & Hq).
  set (n := (size - 1) / 16) in *. set (m := Z.log2 n) in *. set (q := n / 2 ^ (m - 2)) in *.
  assert (16 * n <= size - 1 < 16 * n + 16) as Hn by (unfold n; pose proof (Z.div_mod (size - 1) 16);
    pose proof (Z.mod_pos_bound (size - 1) 16); lia).
  assert (m <= 18) as Hm'.
  { apply Z.lt_succ_r. apply Z.log2_lt_pow2; lia. }
  pose proof (pow2_pos (m - 2) ltac:(lia)) as Hp.
  assert (2 ^ (m - 2) * q <= n < 2 ^ (m - 2) * (q + 1)) as Hnq by (unfold q;
    pose proof (Z.div_mod n (2 ^ (m - 2))); pose proof (Z.mod_pos_bound n (2 ^ (m - 2))); lia).
  change SIZE_CLASS_COUNT with 117. rewrite large_block_size, large_block_size_pred by lia. lia.
Qed.

(** C38. The class of a request is the best fit: its blocks hold the request, and
    those of the class before are too small; requests above 8 MiB, also those
    whose rounding up wraps around, get no class.  The shortcut for small
    requests gives the same class (but for the empty request).  The blocks of
    every class are a multiple of 16 bytes, fit behind the header of their page,
    and one more would not. *)
Theorem size_class_best_fit size c :
  in_range 64 size ->
  (size <= LARGE_BLOCK_SIZE_LIMIT ->
     1 <= get_size_class size < SIZE_CLASS_COUNT /\ size <= class_block_size (get_size_class size) /\
     (1 < get_size_class size -> class_block_size (get_size_class size - 1) < size)) /\
  (LARGE_BLOCK_SIZE_LIMIT < size -> SIZE_CLASS_COUNT <= get_size_class size) /\
  (0 < size <= SMALL_GRANULARITY * 64 -> get_size_class_tiny size = get_size_class size) /\
  (0 <= c < SIZE_CLASS_COUNT ->
     16 <= class_block_size c /\ class_block_size c mod 16 = 0 /\ 7 <= class_block_count c /\
     PAGE_HEADER_SIZE + class_block_count c * class_block_size c <= page_bytes (get_page_type c) <
     PAGE_HEADER_SIZE + (class_block_count c + 1) * class_block_size c).
Proof.
  unfold in_range. change LARGE_BLOCK_SIZE_LIMIT with 8388608. change (SMALL_GRANULARITY * 64) with 1024.
  intros Hr. split; [|split; [|split]].
  - intros H. assert (size <= 1024 \/ 1024 < size) as [Hs|Hs] by lia.
    + rewrite small_class by lia.
      assert ((size + 15) / 16 <= 64) by (apply Z.lt_succ_r, Z.div_lt_upper_bound; lia).
      pose proof (Z.div_mod (size + 15) 16 ltac:(lia)). pose proof (Z.mod_pos_bound (size + 15) 16 ltac:(lia)).
      change SIZE_CLASS_COUNT with 117. rewrite (small_block_size (Z.max _ _)) by lia.
      split; [lia|]. split; [lia|]. intros. rewrite small_block_size by lia. lia.
    + pose proof (best_fit_large size ltac:(change LARGE_BLOCK_SIZE_LIMIT with 8388608; lia)) as B.
      cbv zeta in B. lia.
  - intros H. change SIZE_CLASS_COUNT with 117. assert (size < 2 ^ 64 - 15 \/ 2 ^ 64 - 15 <= size) as [Hw|Hw] by lia.
    + destruct (large_class size _ ltac:(lia) eq_refl) as (-> & Hm & Hq).
      set (n := (size - 1) / 16) in *.
      assert (524288 <= n) by (unfold n; apply Z.div_le_lower_bound; lia).
      pose proof (proj1 (Z.log2_le_pow2 n 19 ltac:(lia))). lia.
    + rewrite wrapping_class by lia. lia.
  - intros H. rewrite tiny_class, small_class by lia. rewrite Z.max_r; [reflexivity|].
    apply Z.div_le_lower_bound; lia.
  - apply class_facts.
Qed.

Lemma size_class_best_fit_witness :
  get_size_class 5000 = 73 /\ class_block_size 73 = 5120 /\ class_block_size 72 < 5000.
Proof.
  destruct (size_class_best_fit 5000 73 ltac:(vm_compute; split; [discriminate | reflexivity])) as (H & _).
  destruct H as (_ & _ & H); [vm_compute; discriminate|].
  split; [vm_compute; reflexivity|]. split; [vm_compute; reflexivity|].
  apply H. vm_compute. reflexivity.
Defined.
