(* ===== verification/RpLogic.v ===== *)
(** Reasoning about the allocator's state: the headers and bytes an address
    stands for, what an update leaves alone, and rules that step through the
    memory accesses. *)
From S2P Require Import Prelude Bits Memory RpState RpMalloc RpSizeClass.
Local Open Scope Z_scope.

(** ** Views *)
Definition pg (s : rp_state) (a : Z) : page_t := default zero_page (pages s !! a).
Definition sp (s : rp_state) (a : Z) : span_t := default zero_span (spans s !! a).
Definition hp (s : rp_state) (a : Z) : heap_t := default zero_heap (heaps s !! a).
Definition next_of (s : rp_state) (a : Z) : Z := le_combine (peek_bytes (data s) a 8).

Definition upd_pg (a : Z) (f : page_t -> page_t) (s : rp_state) : rp_state :=
  set_pages (<[a := f (pg s a)]> (pages s)) s.
Definition upd_sp (a : Z) (f : span_t -> span_t) (s : rp_state) : rp_state :=
  set_spans (<[a := f (sp s a)]> (spans s)) s.
Definition upd_hp (a : Z) (f : heap_t -> heap_t) (s : rp_state) : rp_state :=
  set_heaps (<[a := f (hp s a)]> (heaps s)) s.

Lemma pg_upd_eq a f s : pg (upd_pg a f s) a = f (pg s a).
Proof. unfold pg, upd_pg. cbn [pages set_pages]. rewrite lookup_insert_eq. reflexivity. Qed.
Lemma pg_upd_ne a b f s : a <> b -> pg (upd_pg a f s) b = pg s b.
Proof. intros. unfold pg, upd_pg. cbn [pages set_pages]. rewrite lookup_insert_ne by assumption. reflexivity. Qed.
Lemma sp_upd_eq a f s : sp (upd_sp a f s) a = f (sp s a).
Proof. unfold sp, upd_sp. cbn [spans set_spans]. rewrite lookup_insert_eq. reflexivity. Qed.
Lemma sp_upd_ne a b f s : a <> b -> sp (upd_sp a f s) b = sp s b.
Proof. intros. unfold sp, upd_sp. cbn [spans set_spans]. rewrite lookup_insert_ne by assumption. reflexivity. Qed.
Lemma hp_upd_eq a f s : hp (upd_hp a f s) a = f (hp s a).
Proof. unfold hp, upd_hp. cbn [heaps set_heaps]. rewrite lookup_insert_eq. reflexivity. Qed.
Lemma hp_upd_ne a b f s : a <> b -> hp (upd_hp a f s) b = hp s b.
Proof. intros. unfold hp, upd_hp. cbn [heaps set_heaps]. rewrite lookup_insert_ne by assumption. reflexivity. Qed.

(** An update of one kind of header leaves everything else alone. *)
Lemma sp_upd_pg a b f s : sp (upd_pg a f s) b = sp s b. Proof. reflexivity. Qed.
Lemma hp_upd_pg a b f s : hp (upd_pg a f s) b = hp s b. Proof. reflexivity. Qed.
Lemma pg_upd_sp a b f s : pg (upd_sp a f s) b = pg s b. Proof. reflexivity. Qed.
Lemma hp_upd_sp a b f s : hp (upd_sp a f s) b = hp s b. Proof. reflexivity. Qed.
Lemma pg_upd_hp a b f s : pg (upd_hp a f s) b = pg s b. Proof. reflexivity. Qed.
Lemma sp_upd_hp a b f s : sp (upd_hp a f s) b = sp s b. Proof. reflexivity. Qed.

Create Rewrite HintDb rpview.
#[export] Hint Rewrite pg_upd_eq sp_upd_eq hp_upd_eq sp_upd_pg hp_upd_pg pg_upd_sp hp_upd_sp pg_upd_hp
  sp_upd_hp : rpview.
(** Look up the fields of updated headers. *)
Ltac rpview := autorewrite with rpview; cbn [
  set_size_class set_block_size set_block_count set_block_initialized set_block_used set_page_type
  set_is_full set_is_free set_is_zero set_is_decommitted set_has_aligned_block set_generic_free
  set_local_free_count set_local_free set_page_heap set_page_next set_page_prev set_thread_free
  set_span_heap set_page_address_mask set_page_initialized set_page_count set_page_size
  set_span_page_type set_span_offset set_span_mapped_size set_span_next
  size_class block_size block_count block_initialized block_used page_type is_full is_free is_zero
  is_decommitted has_aligned_block generic_free local_free_count local_free page_heap page_next page_prev
  thread_free span_heap page_address_mask page_initialized page_count page_size span_page_type
  span_offset span_mapped_size span_next].

(** ** Mapped memory *)
Lemma is_mapped_spec s a n : is_mapped s a n = true <->
  exists r, r ∈ mappings s /\ fst r <= a /\ a + n <= fst r + snd r.
Proof.
  unfold is_mapped. rewrite existsb_exists. split; intros (r & H1 & H2); exists r.
  - apply andb_true_iff in H2 as [? ?]. zbool. rewrite <- list_elem_of_In in H1. auto.
  - rewrite <- list_elem_of_In. split; [tauto|]. apply andb_true_iff. split; apply Z.leb_le; tauto.
Qed.

Lemma is_mapped_sub s a n b k : is_mapped s a n = true -> a <= b -> b + k <= a + n -> is_mapped s b k = true.
Proof.
  rewrite !is_mapped_spec. intros (r & Hr & H1 & H2) H3 H4. exists r. split; [exact Hr | lia].
Qed.

Lemma is_mapped_ext s s' a n : mappings s' = mappings s -> is_mapped s' a n = is_mapped s a n.
Proof. unfold is_mapped. intros ->. reflexivity. Qed.

(** ** Stepping rules *)
Section Rules.
Context {P : Platform}.

Lemma wp_check_mapped a n (Q : unit -> rp_state -> Prop) s :
  is_mapped s a n = true -> Q tt s -> wp (check_mapped a n) Q s.
Proof. unfold wp, check_mapped. intros ->. auto. Qed.

Lemma wp_page_at a Q s : is_mapped s a PAGE_HEADER_SIZE = true -> Q (pg s a) s -> wp (page_at a) Q s.
Proof. intros H HQ. apply wp_bind, wp_check_mapped; [exact H | exact HQ]. Qed.

Lemma wp_span_at a Q s : is_mapped s a SPAN_HEADER_SIZE = true -> Q (sp s a) s -> wp (span_at a) Q s.
Proof. intros H HQ. apply wp_bind, wp_check_mapped; [exact H | exact HQ]. Qed.

(** A heap's address: the static heap, or mapped. *)
Definition heap_mapped (s : rp_state) (a : Z) : Prop :=
  a = global_heap_fallback \/ is_mapped s a sizeof_heap_t = true.

Lemma wp_heap_at a Q s : heap_mapped s a -> Q (hp s a) s -> wp (heap_at a) Q s.
Proof.
  intros H HQ. apply wp_bind. destruct (Z.eqb_spec a global_heap_fallback).
  - exact HQ.
  - destruct H as [|H]; [contradiction|]. apply wp_check_mapped; [exact H | exact HQ].
Qed.

Lemma wp_upd_page a f (Q : unit -> rp_state -> Prop) s :
  is_mapped s a PAGE_HEADER_SIZE = true -> Q tt (upd_pg a f s) -> wp (upd_page a f) Q s.
Proof. intros H HQ. apply wp_bind, wp_page_at; [exact H | exact HQ]. Qed.

Lemma wp_upd_span a f (Q : unit -> rp_state -> Prop) s :
  is_mapped s a SPAN_HEADER_SIZE = true -> Q tt (upd_sp a f s) -> wp (upd_span a f) Q s.
Proof. intros H HQ. apply wp_bind, wp_span_at; [exact H | exact HQ]. Qed.

Lemma wp_upd_heap a f (Q : unit -> rp_state -> Prop) s :
  heap_mapped s a -> Q tt (upd_hp a f s) -> wp (upd_heap a f) Q s.
Proof. intros H HQ. apply wp_bind, wp_heap_at; [exact H | exact HQ]. Qed.

Lemma wp_heap_elem a f i Q s v :
  heap_mapped s a -> nthZ (f (hp s a)) i = Some v -> Q v s -> wp (heap_elem a f i) Q s.
Proof. intros H E HQ. apply wp_bind, wp_heap_at; [exact H|]. apply wp_deref. eauto. Qed.

Lemma wp_set_heap_elem a f g i v (Q : unit -> rp_state -> Prop) s :
  heap_mapped s a -> 0 <= i < Z.of_nat (length (f (hp s a))) ->
  Q tt (upd_hp a (g (updZ (f (hp s a)) i v)) s) -> wp (set_heap_elem a f g i v) Q s.
Proof.
  intros H E HQ. apply wp_bind, wp_heap_at; [exact H|]. apply wp_bind, wp_deref.
  apply nthZ_Some in E as [x E]. exists x. split; [exact E|]. apply wp_upd_heap; assumption.
Qed.

Lemma wp_block_next a Q s : is_mapped s a 8 = true -> Q (next_of s a) s -> wp (block_next a) Q s.
Proof. intros H HQ. apply wp_bind, wp_check_mapped; [exact H | exact HQ]. Qed.

Lemma wp_set_block_next a v (Q : unit -> rp_state -> Prop) s : is_mapped s a 8 = true ->
  Q tt (set_data (poke_bytes (data s) a (le_split 8 v)) s) -> wp (set_block_next a v) Q s.
Proof. intros H HQ. apply wp_bind, wp_check_mapped; [exact H | exact HQ]. Qed.

Lemma wp_memset0 a n (Q : unit -> rp_state -> Prop) s : is_mapped s a n = true ->
  Q tt (set_data (outside a n (data s)) s) -> wp (memset0 a n) Q s.
Proof. intros H HQ. apply wp_bind, wp_check_mapped; [exact H | exact HQ]. Qed.

Lemma wp_memmove d a n (Q : unit -> rp_state -> Prop) s : is_mapped s a n = true -> is_mapped s d n = true ->
  Q tt (set_data (move_bytes d a n (data s)) s) -> wp (memmove d a n) Q s.
Proof.
  intros H1 H2 HQ. apply wp_bind, wp_check_mapped; [exact H1|].
  apply wp_bind, wp_check_mapped; [exact H2 | exact HQ].
Qed.

Lemma wp_udiv a b Q s : b <> 0 -> Q (a / b) s -> wp (udiv a b) Q s.
Proof. unfold udiv. intros H HQ. destruct (Z.eqb_spec b 0); [contradiction | exact HQ]. Qed.

Lemma wp_umod a b Q s : b <> 0 -> Q (a mod b) s -> wp (umod a b) Q s.
Proof. unfold umod. intros H HQ. destruct (Z.eqb_spec b 0); [contradiction | exact HQ]. Qed.

Lemma wp_via_interface {A} (f : RM A) Q s : global_memory_interface s = true -> wp f Q s -> wp (via_interface f) Q s.
Proof. intros H HQ. apply wp_bind, wp_gets. rewrite H. exact HQ. Qed.
End Rules.

Lemma wp_eq {A} (c : RM A) (x : A) s s' : wp c (fun v t => v = x /\ t = s') s -> c s = (Ret x, s').
Proof. intros H. apply wp_Ret in H as (v & t & E & -> & ->). exact E. Qed.

(** Step through the program; what an access needs is left as a goal. *)
Ltac head_of t := lazymatch t with ?f _ => head_of f | _ => t end.
Ltac wstep :=
  lazymatch goal with
  | |- wp (bind _ _) _ _ => apply wp_bind
  | |- wp (ret _) _ _ => apply wp_ret
  | |- wp (gets _) _ _ => apply wp_gets
  | |- wp (modify _) _ _ => apply wp_modify
  | |- wp (page_at _) _ _ => apply wp_page_at
  | |- wp (span_at _) _ _ => apply wp_span_at
  | |- wp (heap_at _) _ _ => apply wp_heap_at
  | |- wp (upd_page _ _) _ _ => apply wp_upd_page
  | |- wp (upd_span _ _) _ _ => apply wp_upd_span
  | |- wp (upd_heap _ _) _ _ => apply wp_upd_heap
  | |- wp (block_next _) _ _ => apply wp_block_next
  | |- wp (set_block_next _ _) _ _ => apply wp_set_block_next
  | |- wp (udiv _ _) _ _ => apply wp_udiv
  | |- wp (umod _ _) _ _ => apply wp_umod
  | |- wp (heap_elem _ _ _) _ _ => eapply wp_heap_elem
  | |- wp (set_heap_elem _ _ _ _ _) _ _ => apply wp_set_heap_elem
  | |- wp (memset0 _ _) _ _ => apply wp_memset0
  | |- wp (memmove _ _ _) _ _ => apply wp_memmove
  | |- wp (via_interface _) _ _ => apply wp_via_interface
  | |- wp ?c _ _ => let h := head_of c in progress (unfold h); cbv beta zeta
  end.
Ltac wsteps := repeat wstep.

(** ** Bytes *)
Lemma lookup_outside {A} a n (m : gmap Z A) k :
  outside a n m !! k = if in_region a n k then None else m !! k.
Proof.
  unfold outside. rewrite map_lookup_filter. destruct (m !! k) as [x|]; cbn; [|destruct in_region; reflexivity].
  case_guard as G; cbn in *; destruct (in_region a n k); congruence.
Qed.

Lemma lookup_inside {A} a n (m : gmap Z A) k :
  inside a n m !! k = if in_region a n k then m !! k else None.
Proof.
  unfold inside. rewrite map_lookup_filter. destruct (m !! k) as [x|]; cbn; [|destruct in_region; reflexivity].
  case_guard as G; cbn in *; destruct (in_region a n k); congruence.
Qed.

Lemma peek_outside a n m k : peek (outside a n m) k = if in_region a n k then 0 else peek m k.
Proof. unfold peek. rewrite lookup_outside. destruct in_region; reflexivity. Qed.

Lemma peek_move d a n m k : peek (move_bytes d a n m) k =
  if in_region d n k then peek m (k - d + a) else peek m k.
Proof.
  unfold move_bytes, peek.
  assert ((kmap (fun j => j - a + d) (inside a n m) : gmap Z Z) !! k =
    if in_region d n k then m !! (k - d + a) else None) as E.
  { assert (Inj (=) (=) (fun j => j - a + d)) by (intros ? ? ?; lia).
    replace k with ((k - d + a) - a + d) at 1 by lia.
    rewrite (lookup_kmap (fun j => j - a + d)), lookup_inside.
    assert (in_region a n (k - d + a) = in_region d n k) as ->; [|reflexivity].
    unfold in_region. f_equal; [destruct (Z.leb_spec a (k - d + a)), (Z.leb_spec d k)
      |destruct (Z.ltb_spec (k - d + a) (a + n)), (Z.ltb_spec k (d + n))]; lia || reflexivity. }
  destruct (in_region d n k) eqn:R.
  - destruct (m !! (k - d + a)) eqn:E2.
    + erewrite lookup_union_Some_l by (rewrite E; reflexivity). reflexivity.
    + rewrite lookup_union_r by exact E. rewrite lookup_outside, R. reflexivity.
  - rewrite lookup_union_r by exact E. rewrite lookup_outside, R. reflexivity.
Qed.

Lemma in_region_true a n k : in_region a n k = true <-> a <= k < a + n.
Proof. unfold in_region. rewrite andb_true_iff, Z.leb_le, Z.ltb_lt. reflexivity. Qed.
Lemma in_region_false a n k : in_region a n k = false <-> k < a \/ a + n <= k.
Proof. unfold in_region. rewrite andb_false_iff, Z.leb_gt, Z.ltb_ge. reflexivity. Qed.

Lemma peek_poke m a l k : peek (poke_bytes m a l) k =
  if in_region a (Z.of_nat (length l)) k then default 0 (l !! Z.to_nat (k - a)) else peek m k.
Proof.
  unfold poke_bytes.
  enough (forall o, peek (foldr (fun ib acc => <[a + Z.of_nat (fst ib) := snd ib]> acc) m (zip (seq o (length l)) l)) k =
    if in_region (a + Z.of_nat o) (Z.of_nat (length l)) k then default 0 (l !! Z.to_nat (k - (a + Z.of_nat o))) else peek m k) as H.
  { rewrite H. rewrite Z.add_0_r. reflexivity. }
  induction l as [|b l IH]; intros o.
  - cbn [length seq zip foldr]. rewrite (proj2 (in_region_false _ _ _)) by lia. reflexivity.
  - cbn [length seq zip foldr]. cbn. destruct (decide (k = a + Z.of_nat o)) as [->|Hne].
    + unfold peek at 1. rewrite lookup_insert_eq. rewrite (proj2 (in_region_true _ _ _)) by lia.
      rewrite Z.sub_diag. reflexivity.
    + unfold peek at 1. rewrite lookup_insert_ne by congruence. fold (peek (foldr (fun ib acc => <[a + Z.of_nat (fst ib) := snd ib]> acc) m (zip (seq (S o) (length l)) l)) k).
      rewrite IH. destruct (in_region (a + Z.of_nat (S o)) (Z.of_nat (length l)) k) eqn:R.
      * apply in_region_true in R. rewrite (proj2 (in_region_true _ _ _)) by lia.
        replace (Z.to_nat (k - (a + Z.of_nat o))) with (S (Z.to_nat (k - (a + Z.of_nat (S o))))) by lia. reflexivity.
      * apply in_region_false in R. rewrite (proj2 (in_region_false _ _ _)) by lia. reflexivity.
Qed.

(** ** A concrete platform

    Pages of 4096 bytes, and mappings placed one above the other. *)
Definition top_of (ms : list (Z * Z)) : Z := foldr (fun r m => Z.max (fst r + snd r) m) (2 ^ 20) ms.
Definition page_up (x : Z) : Z := (x + 4095) / 4096 * 4096.
Definition bump_platform : Platform :=
  {| mmap_address := fun _ ms n => let a := page_up (top_of ms) in if a + n <=? 2 ^ 47 then Some a else None;
     sc_pagesize := 4096; meminfo_hugepagesize := 2048; global_heap_fallback := 64 |}.

Lemma page_up_le x : x <= page_up x /\ page_up x mod 4096 = 0.
Proof.
  unfold page_up. pose proof (Z.div_mod (x + 4095) 4096). pose proof (Z.mod_pos_bound (x + 4095) 4096).
  split; [lia | apply Z.mod_mul; lia].
Qed.

Lemma top_of_ge ms : 2 ^ 20 <= top_of ms /\ Forall (fun r => fst r + snd r <= top_of ms) ms.
Proof.
  induction ms as [|r ms [IH1 IH2]]; cbn [top_of foldr]; [split; [lia|constructor]|].
  fold (top_of ms). split; [lia|]. constructor; [lia|]. eapply Forall_impl; [exact IH2|]. cbn. lia.
Qed.

#[global] Instance bump_platform_laws : PlatformLaws bump_platform.
Proof.
  split.
  - intros huge ms n a. cbn [mmap_address bump_platform]. destruct (Z.leb_spec (page_up (top_of ms) + n) (2 ^ 47)); [|discriminate].
    intros [= <-] Hn. destruct (top_of_ge ms) as [H1 H2], (page_up_le (top_of ms)) as [H3 H4].
    split; [lia|]. split; [exact H4|]. split; [lia|]. split.
    + eapply Forall_impl; [exact H2|]. intros r Hr. right. cbn in *. lia.
    + apply in_region_false. left. cbn [global_heap_fallback bump_platform]. lia.
  - exists 12. split; [lia | reflexivity].
  - cbn [global_heap_fallback bump_platform]. lia.
Qed.
