(* ===== verification/RpGeometry.v ===== *)
(** Where blocks are: aligned mappings, the recovery of page, span and block from
    a pointer by masking, and the packed thread-free list. *)
From S2P Require Import Prelude Bits Memory RpState RpMalloc RpSizeClass RpLogic.
Local Open Scope Z_scope.

Lemma land_mask p k : 0 <= k <= 64 -> in_range 64 p -> Z.land p (not_ 64 (2 ^ k - 1)) = p - p mod 2 ^ k.
Proof.
  intros Hk Hp. unfold not_.
  replace (2 ^ k - 1) with (Z.ones k) by (rewrite Z.ones_equiv; lia).
  transitivity (Z.ldiff p (Z.ones k)).
  - apply Z.bits_inj'. intros i Hi. rewrite Z.land_spec, Z.lxor_spec, Z.ldiff_spec.
    destruct (Z.testbit p i) eqn:E; [|reflexivity]. cbn.
    assert (i < 64). { destruct (Z.lt_ge_cases i 64); [assumption|]. rewrite (bit.testbit_above 64 ltac:(lia) p i Hp) in E by lia. discriminate. }
    rewrite (Z.testbit_ones_nonneg 64) by lia. replace (i <? 64) with true by (symmetry; apply Z.ltb_lt; lia).
    apply xorb_true_r.
  - rewrite Z.ldiff_ones_r, Z.shiftl_mul_pow2, Z.shiftr_div_pow2 by lia.
    pose proof (Z.div_mod p (2 ^ k) ltac:(apply Z.pow_nonzero; lia)). lia.
Qed.

(** Masking a pointer into an aligned region gives the start of the region. *)
Lemma mask_aligned p b k : 0 <= k <= 64 -> in_range 64 p -> b mod 2 ^ k = 0 -> b <= p < b + 2 ^ k ->
  Z.land p (not_ 64 (2 ^ k - 1)) = b.
Proof.
  intros Hk Hp Hb Hr. rewrite land_mask by assumption.
  pose proof (pow2_pos k ltac:(lia)) as Hpos.
  pose proof (Z.div_mod b (2 ^ k) ltac:(lia)) as E.
  replace p with (p - b + (b / 2 ^ k) * 2 ^ k) at 2 by lia.
  rewrite Z.mod_add, Z.mod_small by lia. lia.
Qed.

Definition page_shift (t : page_type_t) : Z :=
  match t with PAGE_SMALL => 16 | PAGE_MEDIUM => 22 | _ => 26 end.
Lemma page_bytes_shift t : page_bytes t = 2 ^ page_shift t.
Proof. destruct t; reflexivity. Qed.
Definition page_mask (t : page_type_t) : Z := not_ 64 (page_bytes t - 1).
Lemma span_geometry_spec t : t <> PAGE_HUGE ->
  span_geometry t = (SPAN_SIZE / page_bytes t, page_bytes t, page_mask t).
Proof. destruct t; [reflexivity..|congruence]. Qed.

(** A page of class [c] at [a] in the span at [b]. *)
Record page_placed (s : rp_state) (b a c : Z) : Prop := {
  pp_class : 0 <= c < SIZE_CLASS_COUNT;
  pp_span_aligned : b mod SPAN_SIZE = 0;
  pp_span_range : 0 < b /\ b + SPAN_SIZE <= 2 ^ 47;
  pp_span_mapped : is_mapped s b SPAN_SIZE = true;
  pp_page_aligned : (a - b) mod page_bytes (get_page_type c) = 0;
  pp_page_range : b <= a /\ a + page_bytes (get_page_type c) <= b + SPAN_SIZE;
  pp_mask : page_address_mask (sp s b) = page_mask (get_page_type c);
  pp_span_type : span_page_type (sp s b) = get_page_type c;
  pp_block_size : block_size (pg s a) = class_block_size c;
  pp_block_count : block_count (pg s a) = class_block_count c
}.

Definition block_addr (a c i : Z) : Z := a + PAGE_HEADER_SIZE + i * class_block_size c.

Lemma class_not_huge c : c < SIZE_CLASS_COUNT -> get_page_type c <> PAGE_HUGE.
Proof.
  intros H. unfold get_page_type. repeat case_match_eqn; try congruence. zbool. lia.
Qed.

Lemma class_size_le c : 0 <= c < SIZE_CLASS_COUNT ->
  class_block_size c <= LARGE_BLOCK_SIZE_LIMIT /\ class_block_count c <= 4088.
Proof.
  intros H. assert (forallb (fun c => (class_block_size c <=? LARGE_BLOCK_SIZE_LIMIT) && (class_block_count c <=? 4088))
    (map Z.of_nat (seq 0 117)) = true) as T by (vm_compute; reflexivity).
  rewrite forallb_forall in T. specialize (T c). rewrite andb_true_iff, !Z.leb_le in T. apply T, in_map_iff.
  exists (Z.to_nat c). split; [lia|]. apply in_seq. change SIZE_CLASS_COUNT with 117 in H. lia.
Qed.

Section Recovery.
Context (s : rp_state) (b a c : Z) (HP : page_placed s b a c).

Lemma placed_bounds i : 0 <= i < class_block_count c ->
  a + PAGE_HEADER_SIZE <= block_addr a c i /\
  block_addr a c i + class_block_size c <= a + page_bytes (get_page_type c).
Proof.
  intros Hi. destruct (class_facts c (pp_class _ _ _ _ HP)) as (H1 & _ & _ & H2 & _).
  unfold block_addr. nia.
Qed.

Lemma placed_page_mapped n : n <= page_bytes (get_page_type c) -> is_mapped s a n = true.
Proof.
  intros Hn. eapply is_mapped_sub; [apply (pp_span_mapped _ _ _ _ HP)|..];
    pose proof (pp_page_range _ _ _ _ HP); lia.
Qed.

Lemma placed_header_mapped : is_mapped s a PAGE_HEADER_SIZE = true.
Proof. apply placed_page_mapped. destruct (get_page_type c); vm_compute; discriminate. Qed.

Lemma placed_span_header_mapped : is_mapped s b SPAN_HEADER_SIZE = true.
Proof.
  eapply is_mapped_sub; [apply (pp_span_mapped _ _ _ _ HP)|lia|].
  change SPAN_SIZE with 268435456. change SPAN_HEADER_SIZE with 128. lia.
Qed.

Lemma span_recovered p : a <= p < a + page_bytes (get_page_type c) -> block_get_span p = b.
Proof.
  intros Hp. pose proof (pp_page_range _ _ _ _ HP). pose proof (pp_span_range _ _ _ _ HP).
  change SPAN_SIZE with (2 ^ 28) in *. unfold block_get_span, SPAN_MASK.
  change SPAN_SIZE with (2 ^ 28). apply mask_aligned; [lia| |apply (pp_span_aligned _ _ _ _ HP)|lia].
  unfold in_range. lia.
Qed.

Lemma page_recovered p : a <= p < a + page_bytes (get_page_type c) ->
  Z.land p (page_address_mask (sp s b)) = a.
Proof.
  intros Hp. rewrite (pp_mask _ _ _ _ HP). pose proof (pp_page_range _ _ _ _ HP).
  pose proof (pp_span_range _ _ _ _ HP). pose proof (pp_page_aligned _ _ _ _ HP) as Ha.
  pose proof (pp_span_aligned _ _ _ _ HP) as Hb. unfold page_mask.
  rewrite page_bytes_shift in *. set (k := page_shift (get_page_type c)) in *.
  assert (16 <= k <= 26) by (unfold k, page_shift; destruct (get_page_type c); lia).
  apply mask_aligned; [lia| unfold in_range; change SPAN_SIZE with (2 ^ 28) in *; lia| |lia].
  change SPAN_SIZE with (2 ^ 28) in Hb.
  assert (b mod 2 ^ k = 0) as Hbk.
  { apply Z.mod_divide; [apply Z.pow_nonzero; lia|]. apply Z.mod_divide in Hb; [|lia].
    eapply Z.divide_trans; [|exact Hb]. exists (2 ^ (28 - k)). rewrite <- Z.pow_add_r by lia. f_equal. lia. }
  replace a with (a - b + b) by lia. rewrite Z.add_mod, Ha, Hbk by (apply Z.pow_nonzero; lia). reflexivity.
Qed.

Lemma block_offset_small i p : 0 <= i < class_block_count c ->
  block_addr a c i <= p < block_addr a c i + class_block_size c ->
  u32 (p - page_block_start a) = p - page_block_start a /\
  (p - page_block_start a) / class_block_size c = i /\
  (p - page_block_start a) mod class_block_size c = p - block_addr a c i.
Proof.
  intros Hi Hp. pose proof (placed_bounds i Hi) as Hb.
  assert (page_bytes (get_page_type c) <= 2 ^ 26) by (destruct (get_page_type c); vm_compute; discriminate).
  destruct (class_facts c (pp_class _ _ _ _ HP)) as (H1 & _).
  unfold block_addr, page_block_start in *. change PAGE_HEADER_SIZE with 128 in *.
  split; [apply wrap_small; unfold in_range; lia|].
  replace (p - (a + 128)) with (p - (a + 128 + i * class_block_size c) + i * class_block_size c) by lia.
  rewrite Z.div_add, Z.mod_add, Z.div_small, Z.mod_small by lia. split; lia.
Qed.
End Recovery.

(** C39. From any pointer into a block the allocator finds the span, the page, the
    block's index, its start and the bytes left in it; blocks start at multiples
    of 16, lie behind the header and inside the page, and do not overlap. *)
Theorem pointer_recovery s b a c i p :
  page_placed s b a c -> 0 <= i < class_block_count c ->
  block_addr a c i <= p < block_addr a c i + class_block_size c ->
  page_block a i s = (Ret (block_addr a c i), s) /\
  block_get_span p = b /\ span_get_page_from_block b p s = (Ret a, s) /\
  page_block_index a p s = (Ret i, s) /\
  page_block_realign a p s = (Ret (block_addr a c i), s) /\
  block_usable_size p s = (Ret (block_addr a c i + class_block_size c - p), s) /\
  block_addr a c i mod 16 = 0 /\ a + PAGE_HEADER_SIZE <= block_addr a c i /\
  block_addr a c i + class_block_size c <= a + page_bytes (get_page_type c) /\
  (forall j, j <> i -> disjoint_regions (block_addr a c i, class_block_size c) (block_addr a c j, class_block_size c)).
Proof.
  intros HP Hi Hp. pose proof (placed_bounds s b a c HP i Hi) as Hb.
  assert (PAGE_HEADER_SIZE = 128) as PH by reflexivity.
  destruct (block_offset_small s b a c HP i p Hi Hp) as (E1 & E2 & E3).
  destruct (class_facts c (pp_class _ _ _ _ HP)) as (H1 & H2 & _).
  pose proof (class_size_le c (pp_class _ _ _ _ HP)) as [H3 H4].
  pose proof (placed_header_mapped s b a c HP) as Hm.
  pose proof (pp_block_size _ _ _ _ HP) as Eb.
  pose proof (span_recovered s b a c HP p ltac:(lia)) as Es.
  pose proof (page_recovered s b a c HP p ltac:(lia)) as Ep.
  assert (SPAN_SIZE = 2 ^ 28) as SS by reflexivity. assert (page_bytes (get_page_type c) <= 2 ^ 26) as PB
    by (destruct (get_page_type c); vm_compute; discriminate).
  assert (wp (span_get_page_from_block b p) (fun v s' => v = a /\ s' = s) s) as Wpage.
  { wsteps; [apply (placed_span_header_mapped s b a c HP)|]. rewrite Ep. auto. }
  repeat apply conj; try lia; try exact Es.
  - apply wp_eq. wsteps; [exact Hm|]. rewrite Eb. split; [|reflexivity]. unfold block_addr in *.
    unfold u32. rewrite (wrap_small 32 (_ * _)) by (unfold in_range; change PAGE_HEADER_SIZE with 128 in *; nia).
    rewrite wrap_small by (unfold in_range; change PAGE_HEADER_SIZE with 128 in *; nia). lia.
  - apply wp_eq. exact Wpage.
  - apply wp_eq. wsteps; [exact Hm|rewrite Eb; lia|]. rewrite Eb, E1. auto.
  - apply wp_eq. wsteps; [exact Hm|rewrite Eb; lia|]. rewrite Eb, E1, E3.
    unfold i32. rewrite swrap_small by (change LARGE_BLOCK_SIZE_LIMIT with 8388608 in H3; lia). split; [lia|reflexivity].
  - apply wp_eq. unfold block_usable_size. change (Z.land p SPAN_MASK) with (block_get_span p). rewrite Es.
    wsteps; [apply (placed_span_header_mapped s b a c HP)|]. rewrite (pp_span_type _ _ _ _ HP).
    replace (pt_index _ <=? pt_index PAGE_LARGE) with true by (pose proof (class_not_huge c ltac:(apply HP));
      destruct (get_page_type c); [reflexivity..|congruence]).
    wstep. eapply wp_mono; [exact Wpage|]. intros ? ? [-> ->]. wsteps; [exact Hm|rewrite Eb; lia|]. rewrite Eb.
    unfold page_block_start in *.
    unfold u64. rewrite (wrap_small 64 (p - _)) by (unfold in_range; lia). rewrite E3.
    rewrite wrap_small by (unfold in_range; lia). split; [lia|reflexivity].
  - unfold block_addr. rewrite <- Z.add_mod_idemp_r, <- (Z.mul_mod_idemp_r _ (class_block_size c)), H2 by lia.
    rewrite Z.mul_0_r. change (0 mod 16) with 0. rewrite Z.add_0_r.
    change PAGE_HEADER_SIZE with (8 * 16). rewrite Z.mod_add by lia.
    pose proof (pp_page_aligned _ _ _ _ HP) as Ha. pose proof (pp_span_aligned _ _ _ _ HP) as Hsp.
    apply Z.mod_divide; [lia|]. replace a with ((a - b) + b) by lia. apply Z.divide_add_r.
    + apply Z.mod_divide in Ha; [|destruct (get_page_type c); vm_compute; discriminate].
      eapply Z.divide_trans; [|exact Ha]. destruct (get_page_type c); [exists 4096|exists 262144|exists 4194304|exists 4194304]; reflexivity.
    + apply Z.mod_divide in Hsp; [|vm_compute; discriminate]. eapply Z.divide_trans; [|exact Hsp]. exists 16777216. reflexivity.
  - intros j Hj. unfold disjoint_regions, block_addr. cbn [fst snd]. nia.
Qed.

(** A state with one small page: after the first allocation of 100 bytes. *)
Definition one_page : rp_state := snd (@rpmalloc bump_platform 100 (initial_state 7)).

Lemma one_page_placed : page_placed one_page 0x10000000 0x10000000 7.
Proof.
  split; try (vm_compute; reflexivity).
  - split; [vm_compute; discriminate | vm_compute; reflexivity].
  - split; vm_compute; [reflexivity | discriminate].
  - split; vm_compute; discriminate.
Qed.

Lemma pointer_recovery_witness :
  page_block 0x10000000 2 one_page = (Ret 0x10000160, one_page) /\
  block_get_span 0x10000165 = 0x10000000 /\
  page_block_realign 0x10000000 0x10000165 one_page = (Ret 0x10000160, one_page).
Proof.
  destruct (pointer_recovery one_page 0x10000000 0x10000000 7 2 0x10000165 one_page_placed) as
    (H1 & H2 & _ & _ & H3 & _).
  - split; [lia | vm_compute; reflexivity].
  - split; [vm_compute; discriminate | vm_compute; reflexivity].
  - split; [exact H1|]. split; [exact H2 | exact H3].
Defined.

(** ** Mappings *)
Section Mappings.
Context {P : Platform} {L : PlatformLaws P}.

(** What [os_mmap] guarantees of an address, an offset and a mapped size. *)
Record mapping_ok (s s' : rp_state) (size alignment ptr offset mapped_size : Z) : Prop := {
  mk_not_null : 0 < ptr;
  mk_aligned : alignment <> 0 -> ptr mod alignment = 0;
  mk_offset : 0 <= offset < 2 ^ 31;
  mk_recorded : mappings s' = (ptr - offset, mapped_size) :: mappings s;
  mk_fresh : Forall (disjoint_regions (ptr - offset, mapped_size)) (mappings s);
  mk_covers : ptr + size <= ptr - offset + mapped_size;
  mk_in_user_space : ptr - offset + mapped_size <= 2 ^ 47;
  mk_zero : forall k, ptr <= k < ptr + size ->
    peek (data s') k = 0 /\ pg s' k = zero_page /\ sp s' k = zero_span /\ hp s' k = zero_heap;
  mk_others : forall k, k < ptr - offset \/ ptr - offset + mapped_size <= k ->
    peek (data s') k = peek (data s) k /\ pg s' k = pg s k /\ sp s' k = sp s k /\ hp s' k = hp s k
}.

Lemma aligned_padding p k (m := Z.land p (2 ^ k - 1)) (d := if m =? 0 then m else 2 ^ k - m) :
  0 <= k -> (p + d) mod 2 ^ k = 0 /\ 0 <= d < 2 ^ k.
Proof.
  intros Hk. pose proof (pow2_pos k Hk) as Hp.
  assert (m = p mod 2 ^ k) as Em.
  { unfold m. rewrite <- Z.land_ones by lia. f_equal. rewrite Z.ones_equiv. lia. }
  pose proof (Z.mod_pos_bound p (2 ^ k) Hp). pose proof (Z.div_mod p (2 ^ k) ltac:(lia)) as E.
  unfold d. destruct (Z.eqb_spec m 0) as [E0|E0].
  - rewrite E0, Z.add_0_r. split; [congruence | lia].
  - split; [|lia]. replace (p + (2 ^ k - m)) with ((p / 2 ^ k + 1) * 2 ^ k) by lia. apply Z.mod_mul. lia.
Qed.

Lemma zero_region_view a n s k :
  peek (data (zero_region a n s)) k = (if in_region a n k then 0 else peek (data s) k) /\
  pg (zero_region a n s) k = (if in_region a n k then zero_page else pg s k) /\
  sp (zero_region a n s) k = (if in_region a n k then zero_span else sp s k) /\
  hp (zero_region a n s) k = (if in_region a n k then zero_heap else hp s k).
Proof.
  unfold zero_region, pg, sp, hp. cbn [data pages spans heaps set_data set_pages set_spans set_heaps].
  rewrite peek_outside, !lookup_outside. destruct in_region; auto.
Qed.

Lemma os_mmap_spec size alignment s :
  0 < size -> (alignment = 0 \/ alignment = SPAN_SIZE) -> size + alignment < 2 ^ 64 ->
  wp (os_mmap size alignment) (fun r s' =>
    let '(ptr, offset, mapped_size) := r in
    ptr = 0 /\ s' = s \/
    mapping_ok s s' size alignment ptr offset mapped_size /\ mapped_size = size + alignment /\
    s' = set_mappings (mappings s') (zero_region (ptr - offset) mapped_size s)) s.
Proof.
  intros Hs Ha Ho. unfold os_mmap. apply wp_bind, wp_gets, wp_bind, wp_gets.
  assert (SPAN_SIZE = 2 ^ 28) as SS by reflexivity.
  assert (u64 (size + alignment) = size + alignment) as -> by (apply wrap_small; unfold in_range; lia).
  set (n := size + alignment) in *.
  cbv zeta. match goal with |- wp (match ?x with None => ret _ | _ => _ end) _ _ => set (o := x) end.
  assert (forall p, o = Some p -> exists h, mmap_address h (mappings s) n = Some p) as Ho'.
  { unfold o. intros p. destruct (mmap_address _ _ _) eqn:E; [intros [= <-]; eauto|].
    destruct (os_huge_pages s); [eauto | discriminate]. }
  destruct o as [p|] eqn:Eo; [|apply wp_ret; auto].
  destruct (Ho' p eq_refl) as [h Hm]. destruct (mmap_ok _ _ _ _ Hm ltac:(lia)) as (H1 & H2 & H3 & H4 & H5).
  clear Eo Ho' o. apply wp_bind, wp_modify.
  assert (forall d, 0 <= d -> d <= alignment -> (alignment <> 0 -> (p + d) mod alignment = 0) -> d < 2 ^ 31 ->
    forall s', s' = set_mappings ((p, n) :: mappings s) (zero_region p n s) ->
    mapping_ok s s' size alignment (p + d) d n) as K.
  { intros d Hd1 Hd2 Hd3 Hd4 s' ->. split; cbn [mappings set_mappings data]; try lia;
      replace (p + d - d) with p by lia; [reflexivity|exact H4|..].
    - intros k Hk. change (peek (data (zero_region p n s)) k = 0 /\ pg (zero_region p n s) k = zero_page /\
        sp (zero_region p n s) k = zero_span /\ hp (zero_region p n s) k = zero_heap).
      destruct (zero_region_view p n s k) as (-> & -> & -> & ->).
      rewrite (proj2 (in_region_true _ _ _)) by lia. auto.
    - intros k Hk. change (peek (data (zero_region p n s)) k = peek (data s) k /\ pg (zero_region p n s) k = pg s k /\
        sp (zero_region p n s) k = sp s k /\ hp (zero_region p n s) k = hp s k).
      destruct (zero_region_view p n s k) as (-> & -> & -> & ->).
      rewrite (proj2 (in_region_false _ _ _)) by lia. auto. }
  destruct (Z.eqb_spec alignment 0) as [E0|E0]; apply wp_ret; right.
  - split; [|split; [lia|]].
    + pose proof (K 0 ltac:(lia) ltac:(lia) ltac:(lia) ltac:(lia) _ eq_refl) as K0. rewrite Z.add_0_r in K0. exact K0.
    + rewrite Z.sub_0_r. reflexivity.
  - destruct Ha as [|Ha]; [contradiction|]. rewrite SS in Ha. rewrite Ha.
    pose proof (aligned_padding p 28 ltac:(lia)) as [Hp1 Hp2].
    split; [|split; [lia|]].
    + rewrite <- Ha. apply K; rewrite ?Ha; try lia; auto.
    + replace (p + _ - _) with p by lia. reflexivity.
Qed.
End Mappings.

(** Removing a fresh mapping leaves the others. *)
Lemma filter_fresh a n ms : Forall (disjoint_regions (a, n)) ms -> Forall (fun r => 0 < snd r) ms ->
  List.filter (fun r : Z * Z => negb ((fst r =? a) && (snd r =? n))) ms = ms.
Proof.
  induction 1 as [|r ms Hr _ IH]; intros Hpos; [reflexivity|]. cbn [List.filter].
  inversion_clear Hpos. rewrite IH by assumption.
  destruct (Z.eqb_spec (fst r) a) as [E1|]; [|reflexivity].
  destruct (Z.eqb_spec (snd r) n) as [E2|]; [|reflexivity].
  destruct Hr; cbn [fst snd] in *; lia.
Qed.

(** [os_mmap] either fails and changes nothing, or returns an address that is
    not null, aligned as asked, at the returned offset inside a new mapping that
    covers the request, overlaps no other mapping and reads as zero; whatever is
    elsewhere is unchanged, and [os_munmap] with the same values removes exactly
    that mapping. *)
Theorem mapping_roundtrip {P : Platform} {L : PlatformLaws P} size alignment s :
  0 < size -> (alignment = 0 \/ alignment = SPAN_SIZE) -> size + alignment < 2 ^ 64 ->
  Forall (fun r => 0 < snd r) (mappings s) ->
  exists ptr offset mapped_size s', os_mmap size alignment s = (Ret (ptr, offset, mapped_size), s') /\
    (ptr = 0 /\ s' = s \/
     mapping_ok s s' size alignment ptr offset mapped_size /\
     exists s'', os_munmap ptr offset mapped_size s' = (Ret tt, s'') /\ mappings s'' = mappings s).
Proof.
  intros Hs Ha Ho Hpos. pose proof (os_mmap_spec size alignment s Hs Ha Ho) as W.
  apply wp_Ret in W as ([[ptr offset] mapped_size] & s' & E & W). exists ptr, offset, mapped_size, s'.
  split; [exact E|]. destruct W as [W|(W & En & _)]; [left; exact W|]. right. split; [exact W|].
  pose proof (mk_recorded _ _ _ _ _ _ _ W) as Er. pose proof (mk_fresh _ _ _ _ _ _ _ W) as Hf.
  pose proof (mk_offset _ _ _ _ _ _ _ W) as Hoff.
  unfold os_munmap. cbv zeta. unfold i32. rewrite swrap_small by lia. unfold bind, gets. rewrite Er.
  replace (ptr + - offset) with (ptr - offset) by lia. cbn [existsb fst snd]. rewrite !Z.eqb_refl. cbn [andb orb].
  eexists. split; [reflexivity|]. cbn [mappings set_mappings modify]. cbn [List.filter fst snd].
  rewrite !Z.eqb_refl. cbn [andb negb].
  apply filter_fresh; assumption.
Qed.

Lemma mapping_roundtrip_witness :
  fst (@os_mmap bump_platform 0x10000000 0x10000000 (initial_state 7)) = Ret (0x10000000, 0xFF00000, 0x20000000).
Proof.
  destruct (@mapping_roundtrip bump_platform _ 0x10000000 0x10000000 (initial_state 7)) as (p & o & m & s' & E & H).
  - lia.
  - right. reflexivity.
  - lia.
  - constructor.
  - rewrite E. apply (f_equal fst) in E. cbn [fst] in *. rewrite <- E. vm_compute. reflexivity.
Defined.
