(* ===== verification/RpHuge.v ===== *)
(** Huge blocks of rpmalloc: requests above 8 MiB get a mapping of their own.
    Their life from allocation to release, and two ways in which such a request
    goes wrong: on a thread that has not allocated before the allocator is
    initialised, and with a size whose rounding wraps around. *)
From S2P Require Import Prelude Bits Memory RpState RpMalloc RpSizeClass RpLogic RpGeometry.
Local Open Scope Z_scope.

Lemma huge_class size : LARGE_BLOCK_SIZE_LIMIT < size < 2 ^ 64 -> SIZE_CLASS_COUNT <= get_size_class size.
Proof.
  change LARGE_BLOCK_SIZE_LIMIT with 8388608. change SIZE_CLASS_COUNT with 117. intros H.
  assert (size < 2 ^ 64 - 15 \/ 2 ^ 64 - 15 <= size) as [Hw|Hw] by lia.
  - destruct (large_class size _ ltac:(lia) eq_refl) as (-> & Hm & Hq). set (n := (size - 1) / 16) in *.
    assert (524288 <= n) by (unfold n; apply Z.div_le_lower_bound; lia).
    pose proof (proj1 (Z.log2_le_pow2 n 19 ltac:(lia))). lia.
  - rewrite wrapping_class by lia. lia.
Qed.

Lemma huge_path {P : Platform} heap size zero s : LARGE_BLOCK_SIZE_LIMIT < size < 2 ^ 64 ->
  heap_allocate_block heap size zero s = heap_allocate_block_huge heap size zero s.
Proof.
  intros H. pose proof (huge_class size H). unfold heap_allocate_block, heap_allocate_block_generic.
  change (SMALL_GRANULARITY * 64) with 1024. change LARGE_BLOCK_SIZE_LIMIT with 8388608 in H.
  destruct (Z.leb_spec size 1024); [lia|]. cbv zeta.
  destruct (Z.ltb_spec (get_size_class size) SIZE_CLASS_COUNT); [lia | reflexivity].
Qed.

(** An initialised allocator, with the heap of the running thread. *)
Record thread_ready (s : rp_state) (heap : Z) {P : Platform} : Prop := {
  tr_interface : global_memory_interface s = true;
  tr_page_size : exists k, 12 <= k <= 16 /\ cfg_page_size (global_config s) = 2 ^ k;
  tr_heap : global_thread_heap s !! this_thread s = Some heap;
  tr_heap_mapped : is_mapped s heap sizeof_heap_t = true;
  tr_owner : owner_thread (hp s heap) = this_thread s;
  tr_thread : this_thread s <> 0;
  tr_mappings : Forall (fun r => 0 < snd r) (mappings s)
}.

(** [get_page_aligned_size], rounding up to the page size. *)
Definition round_up (ps n : Z) : Z := (n + ps - 1) / ps * ps.

Lemma round_up_spec ps n : 0 < ps -> n <= round_up ps n < n + ps /\ round_up ps n mod ps = 0.
Proof.
  intros H. unfold round_up. pose proof (Z.div_mod (n + ps - 1) ps ltac:(lia)).
  pose proof (Z.mod_pos_bound (n + ps - 1) ps H). split; [lia | apply Z.mod_mul; lia].
Qed.

Lemma page_aligned_size_spec {P : Platform} s n ps : cfg_page_size (global_config s) = ps ->
  0 < ps -> 0 <= n -> round_up ps n < 2 ^ 64 ->
  get_page_aligned_size n s = (Ret (round_up ps n), s).
Proof.
  intros E H Hn Hr. apply wp_eq. unfold get_page_aligned_size. wsteps; [lia|]. rewrite E. split; [|reflexivity].
  pose proof (Z.div_mod n ps ltac:(lia)) as D. pose proof (Z.mod_pos_bound n ps H) as B.
  unfold round_up in *. destruct (Z.eqb_spec (n mod ps) 0) as [E0|E0].
  - replace (n + ps - 1) with (ps - 1 + (n / ps) * ps) by lia. rewrite Z.div_add, Z.div_small by lia. lia.
  - assert ((n + ps - 1) / ps * ps = n + (ps - n mod ps)) as E1.
    { replace (n + ps - 1) with (n mod ps - 1 + (n / ps + 1) * ps) by lia.
      rewrite Z.div_add, (Z.div_small (_ - 1)) by lia. lia. }
    rewrite E1 in *. pose proof (Z.mod_le n ps Hn H). unfold u64. rewrite !wrap_small; unfold in_range; try lia.
    rewrite wrap_small; unfold in_range; lia.
Qed.

Lemma is_mapped_user {P : Platform} {L : PlatformLaws P} s s' size al p o m a n :
  mapping_ok s s' size al p o m -> is_mapped s a n = true -> 0 < n ->
  is_mapped s' a n = true /\ (a < p - o \/ p - o + m <= a).
Proof.
  intros W H Hn. apply is_mapped_spec in H as (r & Hr & H1 & H2). split.
  - apply is_mapped_spec. exists r. rewrite (mk_recorded _ _ _ _ _ _ _ W). split; [right; exact Hr | auto].
  - pose proof (mk_fresh _ _ _ _ _ _ _ W) as F. rewrite Forall_forall in F. specialize (F r Hr).
    destruct F; cbn [fst snd] in *; lia.
Qed.

(** The span and page header of a huge block. *)
Record huge_block (s : rp_state) (span heap ps count offset mapped_size : Z) : Prop := {
  hb_span : sp s span = {| span_heap := heap; page_address_mask := LARGE_PAGE_MASK; page_initialized := 0;
    page_count := count; page_size := ps; span_page_type := PAGE_HUGE; span_offset := offset;
    span_mapped_size := mapped_size; span_next := 0 |};
  hb_heap : page_heap (pg s span) = heap;
  hb_generic : generic_free (pg s span) = true;
  hb_type : page_type (pg s span) = PAGE_HUGE
}.

Section Huge.
Context {P : Platform} {L : PlatformLaws P} (s : rp_state) (heap : Z) (HR : thread_ready s heap).

Lemma huge_alloc size ps : cfg_page_size (global_config s) = ps ->
  let alloc := round_up ps (u64 (size + SPAN_HEADER_SIZE)) in
  LARGE_BLOCK_SIZE_LIMIT < size < 2 ^ 64 -> 0 < alloc -> alloc + SPAN_SIZE < 2 ^ 64 -> alloc / ps < 2 ^ 32 ->
  wp (heap_allocate_block_huge heap size false) (fun r s' =>
    r = 0 /\ s' = s \/
    exists span o m s1, r = span + SPAN_HEADER_SIZE /\ mapping_ok s s1 alloc SPAN_SIZE span o m /\
      m = alloc + SPAN_SIZE /\ mappings s' = mappings s1 /\ hp s' heap = hp s heap /\
      this_thread s' = this_thread s /\ global_memory_interface s' = true /\
      huge_block s' span heap ps (alloc / ps) o m) s.
Proof.
  intros Ep alloc Hs Ha Ho Hc. destruct (tr_page_size _ _ HR) as (k & Hk & Ek). rewrite Ep in Ek.
  assert (ps = 2 ^ k /\ 2 ^ 12 <= ps <= 2 ^ 16) as [_ Hps] by (split; [exact Ek|]; rewrite Ek; split; apply Z.pow_le_mono_r; lia).
  assert (0 <= u64 (size + SPAN_HEADER_SIZE)) by (apply (wrap_range 64); lia).
  assert (SPAN_SIZE = 2 ^ 28) as SS by reflexivity.
  assert (ps <= alloc) as Hpa by (apply Z.divide_pos_le; [lia|]; apply Z.mod_divide; [lia|]; apply round_up_spec; lia).
  unfold heap_allocate_block_huge. apply wp_bind. apply wp_Ret. exists alloc, s.
  split; [apply page_aligned_size_spec; [exact Ep|lia|assumption|fold alloc; lia]|].
  apply wp_bind. unfold memory_map. apply wp_via_interface; [apply HR|].
  eapply wp_mono; [apply os_mmap_spec; lia || auto|]. intros [[span o] m] s1 [[-> ->]|(W & Em & Es1)].
  { destruct (Z.eqb_spec 0 0); [|contradiction]. apply wp_ret. auto. }
  pose proof (mk_not_null _ _ _ _ _ _ _ W). destruct (Z.eqb_spec span 0); [lia|].
  assert (global_memory_interface s1 = true /\ global_config s1 = global_config s /\ this_thread s1 = this_thread s)
    as (Hi & Hcfg & Ht) by (rewrite Es1; repeat split; apply HR).
  pose proof (mk_offset _ _ _ _ _ _ _ W) as Hoff.
  assert (is_mapped s1 span SPAN_HEADER_SIZE = true) as Hm.
  { apply is_mapped_spec. exists (span - o, m). rewrite (mk_recorded _ _ _ _ _ _ _ W). split; [left|]. cbn [fst snd].
    pose proof (mk_covers _ _ _ _ _ _ _ W). change SPAN_HEADER_SIZE with 128. lia. }
  destruct (is_mapped_user _ _ _ _ _ _ _ heap _ W (tr_heap_mapped _ _ HR) ltac:(reflexivity)) as [Hhm Hout].
  destruct (mk_others _ _ _ _ _ _ _ W heap Hout) as (_ & _ & _ & Eh).
  destruct (mk_zero _ _ _ _ _ _ _ W span ltac:(lia)) as (_ & Zp & Zs & _).
  unfold memory_commit. repeat (wstep || (unfold os_mcommit)); try exact Hi; try exact Hm; try (rewrite Hcfg, Ep; lia);
    try (right; exact Hhm).
  rewrite hp_upd_pg. autorewrite with rpview. rewrite Eh, (tr_owner _ _ HR).
  destruct (Z.eqb_spec (this_thread s) 0); [pose proof (tr_thread _ _ HR); contradiction|].
  wsteps. right. exists span, o, m, s1. split; [reflexivity|]. split; [exact W|]. split; [exact Em|].
  split; [reflexivity|]. split; [autorewrite with rpview; exact Eh|]. split; [exact Ht|]. split; [exact Hi|].
  split; rpview; try reflexivity. rewrite Zs, Hcfg, Ep. unfold zero_span. rpview.
  unfold u32. rewrite !wrap_small; unfold in_range; try lia; try reflexivity.
  split; [apply Z.div_pos; lia | lia].
Qed.

Lemma huge_header_mapped s1 s' alloc span o m : mapping_ok s s1 alloc SPAN_SIZE span o m ->
  m = alloc + SPAN_SIZE -> 128 <= alloc -> mappings s' = mappings s1 ->
  is_mapped s' span alloc = true /\ is_mapped s' span SPAN_HEADER_SIZE = true.
Proof.
  intros W Em Ha Emp. assert (is_mapped s' span alloc = true) as H.
  { apply is_mapped_spec. exists (span - o, m). rewrite Emp, (mk_recorded _ _ _ _ _ _ _ W). split; [left|]. cbn [fst snd].
    pose proof (mk_covers _ _ _ _ _ _ _ W). pose proof (mk_offset _ _ _ _ _ _ _ W). lia. }
  split; [exact H|]. eapply is_mapped_sub; [exact H|lia|]. change SPAN_HEADER_SIZE with 128. lia.
Qed.

Lemma huge_masks s1 alloc span o m : mapping_ok s s1 alloc SPAN_SIZE span o m -> m = alloc + SPAN_SIZE -> 0 < alloc ->
  block_get_span (span + SPAN_HEADER_SIZE) = span /\
  Z.land (span + SPAN_HEADER_SIZE) LARGE_PAGE_MASK = span.
Proof.
  intros W Em Ha. pose proof (mk_aligned _ _ _ _ _ _ _ W ltac:(vm_compute; discriminate)) as Hal.
  pose proof (mk_not_null _ _ _ _ _ _ _ W). pose proof (mk_in_user_space _ _ _ _ _ _ _ W).
  pose proof (mk_covers _ _ _ _ _ _ _ W). change SPAN_SIZE with (2 ^ 28) in *.
  change SPAN_HEADER_SIZE with 128. assert (in_range 64 (span + 128)) as Hr by (unfold in_range; lia).
  split; [apply (mask_aligned _ span 28) | apply (mask_aligned _ span 26)]; try lia; try assumption.
  apply Z.mod_divide in Hal; [|lia]. apply Z.mod_divide; [lia|]. eapply Z.divide_trans; [|exact Hal]. exists 4. reflexivity.
Qed.

Lemma huge_usable s1 s' alloc ps span o m : mapping_ok s s1 alloc SPAN_SIZE span o m ->
  m = alloc + SPAN_SIZE -> 128 <= alloc < 2 ^ 48 -> mappings s' = mappings s1 ->
  0 < ps -> alloc mod ps = 0 -> huge_block s' span heap ps (alloc / ps) o m ->
  rpmalloc_usable_size (span + SPAN_HEADER_SIZE) s' = (Ret (alloc - SPAN_HEADER_SIZE), s').
Proof.
  intros W Em Ha Emp Hps Hmod HB. destruct (huge_header_mapped _ _ _ _ _ _ W Em ltac:(lia) Emp) as [_ Hm].
  destruct (huge_masks _ _ _ _ _ W Em ltac:(lia)) as [Es _]. pose proof (mk_not_null _ _ _ _ _ _ _ W).
  apply wp_eq. unfold rpmalloc_usable_size. change SPAN_HEADER_SIZE with 128 in *.
  destruct (Z.eqb_spec (span + 128) 0); [lia|].
  unfold block_usable_size. fold (block_get_span (span + 128)). rewrite Es. wsteps; [exact Hm|].
  rewrite (hb_span _ _ _ _ _ _ _ HB). rpview. change (pt_index PAGE_HUGE <=? pt_index PAGE_LARGE) with false. cbv iota.
  wsteps. replace (ps * (alloc / ps)) with alloc by (pose proof (Z.div_mod alloc ps); lia).
  unfold u64. rewrite (wrap_small 64 alloc), (wrap_small 64 (_ - span)) by (unfold in_range; lia).
  rewrite wrap_small by (unfold in_range; lia). split; [lia|reflexivity].
Qed.

Lemma huge_free s1 s' alloc ps span o m : mapping_ok s s1 alloc SPAN_SIZE span o m ->
  m = alloc + SPAN_SIZE -> 128 <= alloc -> mappings s' = mappings s1 -> hp s' heap = hp s heap ->
  this_thread s' = this_thread s -> global_memory_interface s' = true ->
  huge_block s' span heap ps (alloc / ps) o m ->
  wp (rpfree (span + SPAN_HEADER_SIZE)) (fun _ s'' => mappings s'' = mappings s) s'.
Proof.
  intros W Em Ha Emp Eh Et Hi HB. destruct (huge_header_mapped _ _ _ _ _ _ W Em ltac:(lia) Emp) as [_ Hm].
  destruct (huge_masks _ _ _ _ _ W Em ltac:(lia)) as [Es El]. pose proof (mk_not_null _ _ _ _ _ _ _ W).
  pose proof (mk_offset _ _ _ _ _ _ _ W) as Hoff.
  destruct (is_mapped_user _ _ _ _ _ _ _ heap _ W (tr_heap_mapped _ _ HR) ltac:(reflexivity)) as [Hhm _].
  assert (heap_mapped s' heap) as Hhm' by (right; rewrite (is_mapped_ext s1 s') by exact Emp; exact Hhm).
  unfold rpfree. destruct (Z.eqb_spec (span + SPAN_HEADER_SIZE) 0) as [E|_]; [change SPAN_HEADER_SIZE with 128 in E; lia|].
  unfold block_deallocate. fold (block_get_span (span + SPAN_HEADER_SIZE)). rewrite Es.
  do 4 wstep; [exact Hm|]. rewrite (hb_span _ _ _ _ _ _ _ HB). rpview. rewrite El.
  wsteps; [exact Hm|rewrite (hb_heap _ _ _ _ _ _ _ HB); exact Hhm'|].
  rewrite (hb_heap _ _ _ _ _ _ _ HB), Eh, (tr_owner _ _ HR), Et, Z.eqb_refl.
  wsteps; [exact Hm|]. rewrite (hb_generic _ _ _ _ _ _ _ HB). cbn [negb].
  wsteps; [exact Hm|]. rewrite (hb_type _ _ _ _ _ _ _ HB). rewrite bool_decide_eq_true_2 by reflexivity.
  wsteps; [exact Hm|exact Hi|]. rewrite (hb_span _ _ _ _ _ _ _ HB). rpview.
  unfold i32. rewrite swrap_small by lia. rewrite Emp, (mk_recorded _ _ _ _ _ _ _ W).
  replace (span + - o) with (span - o) by lia. cbn [existsb fst snd]. rewrite !Z.eqb_refl. cbn [andb orb].
  wsteps. cbn [mappings set_mappings]. cbn [List.filter fst snd]. rewrite !Z.eqb_refl. cbn [andb negb].
  apply filter_fresh; [apply (mk_fresh _ _ _ _ _ _ _ W) | apply HR].
Qed.
End Huge.

(** What a caller sees of a huge block of [alloc] bytes including its header. *)
Definition huge_result {P : Platform} (s : rp_state) (alloc : Z) (r : Z) (s' : rp_state) : Prop :=
  r = 0 /\ s' = s \/
  r mod SPAN_SIZE = SPAN_HEADER_SIZE /\ is_mapped s' r (alloc - SPAN_HEADER_SIZE) = true /\
  Forall (disjoint_regions (r - SPAN_HEADER_SIZE, alloc)) (mappings s) /\
  rpmalloc_usable_size r s' = (Ret (alloc - SPAN_HEADER_SIZE), s') /\
  wp (rpfree r) (fun _ s'' => mappings s'' = mappings s) s'.

Lemma huge_request {P : Platform} {L : PlatformLaws P} s heap size ps :
  thread_ready s heap -> cfg_page_size (global_config s) = ps ->
  let alloc := round_up ps (u64 (size + SPAN_HEADER_SIZE)) in
  LARGE_BLOCK_SIZE_LIMIT < size < 2 ^ 64 -> 0 < alloc <= 2 ^ 44 - 1 ->
  wp (rpmalloc size) (huge_result s alloc) s.
Proof.
  intros HR Ep alloc Hs Ha. destruct (tr_page_size _ _ HR) as (k & Hk & Ek).
  assert (2 ^ 12 <= ps <= 2 ^ 16) as Hps by (rewrite <- Ep, Ek; split; apply Z.pow_le_mono_r; lia).
  assert (SPAN_SIZE = 2 ^ 28) as SS by reflexivity. assert (SPAN_HEADER_SIZE = 128) as SH by reflexivity.
  assert (alloc mod ps = 0) as Hmod by (apply round_up_spec; lia).
  assert (ps <= alloc) as Hpa by (apply Z.divide_pos_le; [lia|]; apply Z.mod_divide; [lia|exact Hmod]).
  unfold rpmalloc. apply wp_bind. unfold get_thread_heap. apply wp_gets. rewrite (tr_heap _ _ HR). cbn [default].
  assert (wp (heap_allocate_block_huge heap size false) (huge_result s alloc) s) as W.
  { eapply wp_mono; [apply (huge_alloc s heap HR size ps Ep); fold alloc; try lia;
      apply Z.div_lt_upper_bound; lia|]. fold alloc.
    intros r s' [H|(span & o & m & s1 & -> & W & Em & E1 & E2 & E3 & E4 & HB)]; [left; exact H|]. right.
    destruct (huge_header_mapped s _ _ _ _ _ _ W Em ltac:(lia) E1) as [Hm _].
    split; [|split; [|split; [|split]]].
    - rewrite <- Z.add_mod_idemp_l by (rewrite SS; lia). rewrite (mk_aligned _ _ _ _ _ _ _ W) by (rewrite SS; lia). reflexivity.
    - eapply is_mapped_sub; [exact Hm|lia|lia].
    - eapply Forall_impl; [apply (mk_fresh _ _ _ _ _ _ _ W)|]. intros q Hq.
      pose proof (mk_offset _ _ _ _ _ _ _ W). pose proof (mk_covers _ _ _ _ _ _ _ W).
      unfold disjoint_regions in *. cbn [fst snd] in *. lia.
    - apply (huge_usable s heap s1 s' alloc ps span o m W Em ltac:(lia) E1 ltac:(lia) Hmod HB).
    - apply (huge_free s heap HR s1 s' alloc ps span o m W Em ltac:(lia) E1 E2 E3 E4 HB). }
  unfold wp in *. cbv beta. rewrite huge_path by assumption. exact W.
Qed.


(** Sizes within 128 bytes of [2^64] wrap around when the header is added: on
    an initialised allocator such a request is not refused; a block of one memory
    page is returned whose usable size is far below the request. *)
Theorem wrapping_request_undersized {P : Platform} {L : PlatformLaws P} s heap size :
  thread_ready s heap -> 2 ^ 64 - SPAN_HEADER_SIZE < size < 2 ^ 64 ->
  wp (rpmalloc size) (huge_result s (cfg_page_size (global_config s))) s /\
  cfg_page_size (global_config s) - SPAN_HEADER_SIZE < size.
Proof.
  intros HR Hs. destruct (tr_page_size _ _ HR) as (k & Hk & Ek). rewrite Ek.
  assert (2 ^ 12 <= 2 ^ k <= 2 ^ 16) as Hps by (split; apply Z.pow_le_mono_r; lia).
  change SPAN_HEADER_SIZE with 128 in *. split; [|lia].
  assert (u64 (size + 128) = size + 128 - 2 ^ 64) as Eu.
  { unfold u64, wrap. replace (size + 128) with (size + 128 - 2 ^ 64 + 1 * 2 ^ 64) at 1 by lia.
    rewrite Z.mod_add, Z.mod_small by lia. reflexivity. }
  assert (round_up (2 ^ k) (u64 (size + 128)) = 2 ^ k) as Er.
  { rewrite Eu. unfold round_up. replace (size + 128 - 2 ^ 64 + 2 ^ k - 1) with (size + 127 - 2 ^ 64 + 1 * 2 ^ k) by lia.
    rewrite Z.div_add, Z.div_small by lia. lia. }
  rewrite <- Er.
  apply (huge_request s heap size (2 ^ k) HR Ek); change SPAN_HEADER_SIZE with 128; change LARGE_BLOCK_SIZE_LIMIT with 8388608;
    rewrite ?Er; lia.
Qed.

(** Before any smaller allocation has initialised the allocator, a request
    above 8 MiB does not initialise it: the page size is still zero, and rounding
    the size up divides by it. *)
Theorem first_huge_allocation_faults {P : Platform} tid size :
  LARGE_BLOCK_SIZE_LIMIT < size < 2 ^ 64 ->
  rpmalloc size (initial_state tid) = (Stop Undefined, initial_state tid) /\
  rpzalloc size (initial_state tid) = (Stop Undefined, initial_state tid).
Proof.
  intros H. assert (forall zero, heap_allocate_block global_heap_fallback size zero (initial_state tid) =
    (Stop Undefined, initial_state tid)) as K.
  { intros zero. rewrite huge_path by assumption. reflexivity. }
  split; [apply (K false) | apply (K true)].
Qed.

(** ** Examples: after a first small allocation *)
Definition ready_heap : Z := 0x100000.
Lemma one_page_ready : @thread_ready one_page ready_heap bump_platform.
Proof.
  split; try (vm_compute; reflexivity).
  - exists 12. split; [lia | vm_compute; reflexivity].
  - vm_compute. discriminate.
  - vm_compute. repeat constructor.
Qed.


Lemma wrapping_request_undersized_witness :
  wp (@rpmalloc bump_platform (2 ^ 64 - 1)) (@huge_result bump_platform one_page 4096) one_page.
Proof.
  apply (@wrapping_request_undersized bump_platform _ one_page ready_heap (2 ^ 64 - 1) one_page_ready).
  split; [vm_compute; reflexivity | lia].
Defined.

Lemma first_huge_allocation_faults_witness :
  @rpmalloc bump_platform (2 ^ 24) (initial_state 7) = (Stop Undefined, initial_state 7).
Proof.
  apply (@first_huge_allocation_faults bump_platform 7 (2 ^ 24)). split; [vm_compute; reflexivity | lia].
Defined.
