(* ===== verification/RpTermination.v ===== *)
(** The loop of rpmalloc that walks a list of free pages ends, whatever the list
    looks like. *)
From S2P Require Import Prelude Memory RpState RpMalloc RpLogic.
Local Open Scope Z_scope.

Section Termination.
Context {P : Platform}.

(** A computation from a state does not run out of the bound its loops were given. *)
Definition in_time {A} (c : RM A) (s : rp_state) : Prop := fst (c s) <> Stop OutOfFuel.

Lemma in_time_bind {A B} (c : RM A) (k : A -> RM B) s :
  in_time c s -> (forall a s', c s = (Ret a, s') -> in_time (k a) s') -> in_time (bind c k) s.
Proof.
  unfold in_time, bind. destruct (c s) as [[a|e|f] s'] eqn:E; cbn [fst]; intros H K; [apply (K a s' eq_refl) | discriminate |].
  intros [= ->]. apply H. reflexivity.
Qed.

Lemma in_time_ret {A} (a : A) s : in_time (ret a) s.
Proof. discriminate. Qed.
Lemma in_time_check a n s : in_time (check_mapped a n) s.
Proof. unfold in_time, check_mapped. destruct (is_mapped s a n); discriminate. Qed.
Lemma in_time_deref {A} (o : option A) s : in_time (deref o) s.
Proof. destruct o; discriminate. Qed.

(** Headers are read and written in one step. *)
Lemma page_at_Ret a s p s' : page_at a s = (Ret p, s') -> p = pg s a /\ s' = s.
Proof. unfold page_at, bind, check_mapped. destruct (is_mapped s a _); [intros [= <- <-]; auto | discriminate]. Qed.
Lemma in_time_page_at a s : in_time (page_at a) s.
Proof. apply in_time_bind; [apply in_time_check | intros; discriminate]. Qed.
Lemma in_time_span_at a s : in_time (span_at a) s.
Proof. apply in_time_bind; [apply in_time_check | intros; discriminate]. Qed.
Lemma in_time_heap_at a s : in_time (heap_at a) s.
Proof. apply in_time_bind; [destruct (_ =? _); [discriminate | apply in_time_check] | intros; discriminate]. Qed.

Lemma in_time_page_get_size page s : in_time (page_get_size page) s.
Proof.
  apply in_time_bind; [apply in_time_page_at|]. intros p s' _. destruct (page_type p); try discriminate.
  apply in_time_bind; [apply in_time_span_at | intros; discriminate].
Qed.
Lemma page_get_size_Ret page s n s' : page_get_size page s = (Ret n, s') -> s' = s.
Proof.
  unfold page_get_size, bind. destruct (page_at page s) as [[p|e|f] s1] eqn:E; try discriminate.
  apply page_at_Ret in E as [_ ->]. destruct (page_type p); try (intros [= _ <-]; reflexivity).
  unfold span_at, bind, check_mapped. destruct (is_mapped s _ _); [intros [= _ <-]; reflexivity | discriminate].
Qed.

(** Decommitting a page: its flag is set, and no other header appears or changes. *)
Lemma in_time_memory_decommit a n s : in_time (memory_decommit a n) s.
Proof.
  unfold memory_decommit, via_interface, os_mdecommit. apply in_time_bind; [discriminate|]. intros b s1 _.
  destruct b; [|discriminate]. apply in_time_bind; [discriminate|]. intros cfg s2 _. destruct (disable_decommit cfg); discriminate.
Qed.
Lemma memory_decommit_Ret a n s s' : memory_decommit a n s = (Ret tt, s') ->
  forall q p, pages s' !! q = Some p -> pages s !! q = Some p.
Proof.
  unfold memory_decommit, via_interface, os_mdecommit, bind, gets. destruct (global_memory_interface s); [|discriminate].
  destruct (disable_decommit (global_config s)); intros [= <-] q p; [auto|].
  cbn [pages zero_region set_data set_pages]. rewrite lookup_outside. destruct (in_region a n q); [discriminate | auto].
Qed.

Lemma in_time_page_decommit page s : in_time (page_decommit_memory_pages page) s.
Proof.
  apply in_time_bind; [apply in_time_page_at|]. intros p s1 _. destruct (is_decommitted p); [discriminate|].
  apply in_time_bind; [discriminate|]. intros cfg s2 _. apply in_time_bind; [apply in_time_page_get_size|]. intros n s3 _.
  apply in_time_bind; [apply in_time_memory_decommit|]. intros [] s4 _. apply in_time_bind; [apply in_time_page_at|]. discriminate.
Qed.

Lemma page_decommit_Ret page s s' : is_decommitted (pg s page) = false -> page_decommit_memory_pages page s = (Ret tt, s') ->
  exists p, pages s' !! page = Some p /\ is_decommitted p = true /\ (pages s !! page = None -> page_next p = 0) /\
    (forall q r, q <> page -> pages s' !! q = Some r -> pages s !! q = Some r).
Proof.
  intros Hd H. unfold page_decommit_memory_pages in H. apply bind_Ret in H as (p & s1 & H1 & H).
  apply page_at_Ret in H1 as [-> ->]. rewrite Hd in H. apply bind_Ret in H as (cfg & s2 & [= <- <-] & H).
  apply bind_Ret in H as (n & s3 & H3 & H). apply page_get_size_Ret in H3 as ->.
  apply bind_Ret in H as ([] & s4 & H4 & H). pose proof (memory_decommit_Ret _ _ _ _ H4) as K.
  unfold upd_page in H. apply bind_Ret in H as (p & s5 & H5 & [= <-]). apply page_at_Ret in H5 as [-> ->].
  cbn [pages set_pages]. eexists. rewrite lookup_insert_eq. split; [reflexivity|]. split; [reflexivity|]. split.
  - intros N. unfold pg. destruct (pages s4 !! page) as [p|] eqn:E; [|reflexivity]. apply K in E. congruence.
  - intros q r Hq. rewrite lookup_insert_ne by congruence. apply K.
Qed.

Lemma in_time_heap_elem heap f i s : in_time (heap_elem heap f i) s.
Proof. apply in_time_bind; [apply in_time_heap_at|]. intros h s' _. apply in_time_deref. Qed.
Lemma in_time_add_commit_count heap t d s : in_time (add_commit_count heap t d) s.
Proof.
  apply in_time_bind; [apply in_time_heap_elem|]. intros n s1 _. apply in_time_bind; [|discriminate].
  apply in_time_bind; [apply in_time_heap_at|]. intros h s2 _. apply in_time_bind; [apply in_time_deref|]. intros x s3 _.
  apply in_time_bind; [apply in_time_heap_at|]. discriminate.
Qed.

Lemma heap_at_Ret a s h s' : heap_at a s = (Ret h, s') -> s' = s.
Proof.
  unfold heap_at, bind, check_mapped. destruct (a =? global_heap_fallback); [intros [= _ <-]; reflexivity|].
  destruct (is_mapped s a _); [intros [= _ <-]; reflexivity | discriminate].
Qed.
Lemma deref_Ret {A} (o : option A) (s : rp_state) a s' : deref o s = (Ret a, s') -> s' = s.
Proof. destruct o; [intros [= _ <-]; reflexivity | discriminate]. Qed.

Lemma add_commit_count_Ret heap t d s n s' : add_commit_count heap t d s = (Ret n, s') -> pages s' = pages s.
Proof.
  intros H. apply bind_Ret in H as (x & s1 & H1 & H). apply bind_Ret in H1 as (h & s2 & H2 & H1).
  apply heap_at_Ret in H2 as ->. apply deref_Ret in H1 as ->.
  apply bind_Ret in H as ([] & s3 & H & [= _ <-]). apply bind_Ret in H as (h2 & s4 & H4 & H). apply heap_at_Ret in H4 as ->.
  apply bind_Ret in H as (y & s5 & H5 & H). apply deref_Ret in H5 as ->.
  apply bind_Ret in H as (h3 & s6 & H6 & [= <-]). apply heap_at_Ret in H6 as ->. reflexivity.
Qed.

(** The pages whose flag is clear. *)
Definition committed (m : gmap Z page_t) : gmap Z page_t := filter (fun e => is_decommitted e.2 = false) m.

Lemma committed_decreases m m' page p p' : m !! page = Some p -> is_decommitted p = false ->
  m' !! page = Some p' -> is_decommitted p' = true -> (forall q r, q <> page -> m' !! q = Some r -> m !! q = Some r) ->
  (size (committed m') < size (committed m))%nat.
Proof.
  intros Hp Fp Hp' Fp' K. assert (committed m !! page = Some p) as Hc by (apply map_lookup_filter_Some; auto).
  rewrite <- (insert_delete_id (committed m) page p Hc), map_size_insert_None by apply lookup_delete_eq.
  apply Nat.lt_succ_r, map_subseteq_size, map_subseteq_spec. intros q r [Hq Hr]%map_lookup_filter_Some. cbn [snd] in Hr.
  assert (q <> page) as Hne by (intros ->; rewrite Hp' in Hq; injection Hq as ->; congruence).
  rewrite lookup_delete_ne by congruence. apply map_lookup_filter_Some. split; [apply K; assumption | exact Hr].
Qed.

Lemma decommit_pages_in_time heap t fuel : forall page s, (size (committed (pages s)) < fuel)%nat ->
  in_time (decommit_pages fuel heap t page) s.
Proof.
  induction fuel as [|fuel IH]; intros page s Hf; [lia|]. cbn [decommit_pages].
  destruct (Z.eqb_spec page 0); [apply in_time_ret|]. apply in_time_bind; [apply in_time_page_at|].
  intros p s1 [-> ->]%page_at_Ret. destruct (is_decommitted (pg s page)) eqn:Fd; [apply in_time_ret|].
  apply in_time_bind; [apply in_time_page_decommit|]. intros [] s1 H1.
  destruct (page_decommit_Ret _ _ _ Fd H1) as (p' & Hp' & Fp' & Hz & K).
  apply in_time_bind; [apply in_time_add_commit_count|]. intros x s2 H2. apply add_commit_count_Ret in H2.
  apply in_time_bind; [apply in_time_page_at|]. intros p2 s3 [-> ->]%page_at_Ret. unfold pg. rewrite H2, Hp'. cbn [default id].
  destruct (pages s !! page) as [p0|] eqn:E.
  - apply IH. rewrite H2. unfold pg in Fd. rewrite E in Fd.
    pose proof (committed_decreases _ _ _ _ _ E Fd Hp' Fp' K). lia.
  - rewrite (Hz eq_refl). destruct fuel; apply in_time_ret.
Qed.

Lemma skip_pages_in_time n : forall page s, in_time (skip_pages n page) s.
Proof.
  induction n as [|n IH]; intros page s; cbn [skip_pages]; [apply in_time_ret|]. destruct (page =? 0); [apply in_time_ret|].
  apply in_time_bind; [apply in_time_page_at|]. intros p s' _. apply IH.
Qed.
Lemma skip_pages_Ret n : forall page s x s', skip_pages n page s = (Ret x, s') -> s' = s.
Proof.
  induction n as [|n IH]; intros page s x s'; cbn [skip_pages]; [intros [= _ <-]; reflexivity|].
  destruct (page =? 0); [intros [= _ <-]; reflexivity|]. intros (p & s1 & H1 & H)%bind_Ret.
  apply page_at_Ret in H1 as [_ ->]. apply (IH _ _ _ _ H).
Qed.

(** C27. [heap_page_free_decommit] always comes to an end, in any state and for any
    list of free pages, a circular or corrupted one included: every turn of its
    loop sets the flag of a page that had it clear, so that the loop makes at
    most one turn more than there are page headers. *)
Theorem heap_page_free_decommit_terminates heap t page_retain_count s :
  in_time (heap_page_free_decommit heap t page_retain_count) s.
Proof.
  apply in_time_bind; [apply in_time_heap_elem|]. intros page s1 H1.
  apply in_time_bind; [apply skip_pages_in_time|]. intros page' s2 H2. apply in_time_bind; [discriminate|].
  intros fuel s3 [= <- <-]. apply decommit_pages_in_time. apply Nat.lt_succ_r, map_subseteq_size, map_filter_subseteq.
Qed.
End Termination.
